(* ===== verification/_CoqProject ===== *)
-Q . S2P
Prelude.v
CFloat.v
Str.v
Generic.v
Filter.v
Hash.v
Ring.v
Agent.v
Message.v
OsTimer.v
Eeprom.v
Fmc.v
Para.v
ParaStore.v
Rtc.v
Record.v
ProtoBase.v
Crc32.v
Upgrade.v
Boot.v
Serial.v
Comm.v
Tiag.v
Alarm.v
Heater.v
SelfCheck.v
AnalogOut.v
Libm.v
Sensor.v
TempCalc.v
Calibrate.v
MeasTask.v
Stdio.v
Layout.v
CmdTable.v
ProtoCoef.v
ProtoChar.v
UppProps.v
UppRoundTrip.v
UppFailure.v
Burst.v
TcpServer.v
Key.v
Tube.v
Menu.v
MenuEdit.v
MenuSafe.v
Font.v
Oled.v
Screen.v
Device.v
