(* ===== verification/Prelude.v ===== *)
(** * Verification of the pyrometer firmware

    The program (src/src/) is the firmware of a two-colour infrared thermometer
    on a GD32F4 (Cortex-M4F, ARM compiler, unsigned [char]) under FreeRTOS.  Two
    spectral channels are amplified with switched gains, converted and filtered;
    a temperature is computed and put out on an analogue output, an alarm relay,
    a display and two protocols (characters on UART and TCP, binary packets).
    Parameters live in one packed structure with a user copy in flash, a backup
    in an EEPROM and a factory copy; records and the firmware image received by
    the upgrade are kept in EEPROM and flash.  Modelled is the program's own
    code under app/, bsp/ and lib/microlib/.

    ** How code becomes Rocq

    - Integers are [Z], cut to their width by [u8] ... [s64] below wherever C
      assigns to a narrower type; [float] and [double] are the Standard
      Library's [SpecFloat] (CFloat.v), so every definition computes.
    - Objects are lists of bytes or records.  A pointer that is only read is
      the list from it to the end of its object; a written one is the whole
      object and an index.  Packed structures are byte images with [get] and
      [put].  [option]: [None] is behaviour C leaves undefined (an access
      outside of an object, a missing terminator, a null pointer) or, where a
      file says so, blocking for ever; error codes are values.
    - Loops with a counter are [for_loop], other loops structural recursion or
      recursion on [nat] fuel.  The fuel is stated at each definition: the
      number of bytes or elements the loop consumes (packet loops: one more than
      the input length, since every pass consumes a byte), so it never runs
      out, and the theorems prove results, not only their absence.
    - Other parts, the RTOS and the hardware are type classes whose laws are
      their documented behaviour, each with a concrete instance: [I2cDevice]
      (Eeprom.v), [FlashDevice] (Fmc.v), [NvStore] (Para.v; ParaStore.v proves
      that flash and EEPROM drivers of the board implement it), [EepromApi]
      (Record.v), [RtosQueue] (Message.v), [CrcUnit] (Crc32.v), [Libm]
      (Libm.v: the special values of log, exp and pow), [UppHooks]
      (ProtoChar.v; UppRoundTrip.v proves that Para.v implements what the
      protocol needs of the parameter manager), [MenuServices] (Menu.v; likewise,
      MenuSafe.v), [Protocols] (Comm.v; Device.v:
      the two protocols of the board), [NetSend] (Comm.v; implemented in
      TcpServer.v over [TcpStack], lwIP's unblocked calls).
    - Interrupt and task interleavings are explicit sequences of atomic steps
      (Agent.v, Upgrade.v) or step relations: the DMA controller (Serial.v), the
      threads of the TCP servers (TcpServer.v).

    ** Files

    Basis: Prelude (this file: integers, byte images, loops, tactics), CFloat,
    Ring (queues in arrays), Stdio (the conversions of the C library).
    - Str (hq_string.c), Generic (hq_generic.c/.h), Filter (hq_filter.c), Hash
      (hq_hash.c): the library.  Round trips of text conversions, the CRC tables
      against their polynomials, quick-select against sorting, the hash table
      as a refinement of a finite map.
    - Agent (agent.c), Message (message.c, mail_box.c), OsTimer (ostimer.c): the
      task infrastructure.  Bounded FIFO under every interleaving, delivery
      order, periodic calls over the wrapping tick counter.
    - Eeprom (soft_i2c.c, eeprom.c, storage.c), Fmc (gd32_fmc.c): storage.  Read
      after write, what is left untouched, the aliasing of the upper half.
    - Para, ParaStore (para.c, para_cfg.c): parameters.  Recovery from user,
      backup and factory copies, repair, saving.  Layout: the members of
      [sys_para_t] and [sys_state_t] with their addresses.
    - Rtc (gd32_rtc.c): calendar.  Record (record.c, record_cfg.c): why the record
      unit never works with the driver of the board, and that with one that
      counts bytes its rings hold the last n records.
    - ProtoBase (proto_base.c): the binary protocol.  Crc32, Upgrade, Boot
      (gd32_crc.c, upgrade.c, boot_main.c): an image sent by the host is what
      the boot loader installs, and when it is not.
    - Tiag (tiag.c, gain_switch_process of measure.c), Alarm (alarm.c), Heater
      (heater.c): state machines over samples and temperatures.
    - SelfCheck (self_check.c), AnalogOut (analogout.c, ltc2606.c): the error word
      and the analogue output, from the decision to the register of the DAC.
    - Sensor, TempCalc, Calibrate, MeasTask (measure.c, ntc_cfg.h; Libm holds
      log, exp and pow): from the converter's codes to the reported temperature,
      the calibration, and the whole measuring task with its output.  What is
      reported; which buffers overrun; that the calibration terminates; and why,
      with the heater on, the output never leaves the error state.
    - CmdTable, ProtoCoef, ProtoChar (proto_char*.c, proto_coef.c): the
      character protocol.  UppProps, UppRoundTrip, UppFailure: its theorems; a
      set command and its query, its survival of a restart through the parameter
      manager, what accepted data overwrite, and rejected commands.
    - Serial (serial.c, gd32_dma.c), Comm (comm_cfg.c, pc.c), Device: the path of
      a packet.  Sending and receiving over the DMA rings under every timing,
      where the rings fail, the channel manager ([manager_refines]), whole
      conversations with the host, and a set command followed from the line to
      flash and back to the line.  Burst (burst.c): the periodic report.
      TcpServer (tcp_server.c, thread.c): servers and clients under every
      interleaving.
    - Key (key.c), Tube (tm1639.c, the digits of display.c), Menu, MenuEdit,
      MenuSafe (ui.c, the pages of display.c): the panel.  What a press becomes
      under any scans; the temperature in the display chip; what a session of
      presses writes, down to the next start.  Font, Oled (oledfont.h, oled.c),
      Screen (what the pages draw): a page in the memory of the display; that one
      key at a time never leads out of the tables nor, outside of the edit mode,
      out of the picture; and where drawing overruns.

    ** Not modelled

    Vendored code (FreeRTOS, lwIP, CMSIS, the GD32 library, USB, SystemView);
    pin and register access without logic of its own (gd32_*.c, app_main.c);
    debug prints and the console; the start and service task of the system
    (system.c); the drivers of the converter (ad7124.c), the external memory, the
    camera and the uncalled DS18B20; lines, circles and Chinese characters on the
    display (not called); list helpers and files that nothing uses (hq_circque.c,
    hq_cdllist.c, scom.c, the USB export). *)
From Stdlib Require Export ZArith Lia Bool.
From stdpp Require Export base numbers option list gmap strings.

#[global] Open Scope Z_scope.

(** ** Machine integers

    An n-bit C integer is a [Z]; every assignment to a variable of a narrower
    type goes through one of these truncations. *)
Definition u8 (x : Z) : Z := x mod 2 ^ 8.
Definition u16 (x : Z) : Z := x mod 2 ^ 16.
Definition u32 (x : Z) : Z := x mod 2 ^ 32.
Definition u64 (x : Z) : Z := x mod 2 ^ 64.
Definition s8 (x : Z) : Z := (x + 2 ^ 7) mod 2 ^ 8 - 2 ^ 7.
Definition s16 (x : Z) : Z := (x + 2 ^ 15) mod 2 ^ 16 - 2 ^ 15.
Definition s32 (x : Z) : Z := (x + 2 ^ 31) mod 2 ^ 32 - 2 ^ 31.
Definition s64 (x : Z) : Z := (x + 2 ^ 63) mod 2 ^ 64 - 2 ^ 63.

Lemma u8_range x : 0 <= u8 x < 256.
Proof. apply Z.mod_pos_bound; lia. Qed.
Lemma u16_range x : 0 <= u16 x < 65536.
Proof. apply Z.mod_pos_bound; lia. Qed.
Lemma u32_range x : 0 <= u32 x < 4294967296.
Proof. apply Z.mod_pos_bound; lia. Qed.
Lemma u8_small x : 0 <= x < 256 -> u8 x = x.
Proof. apply Z.mod_small. Qed.
Lemma u16_small x : 0 <= x < 65536 -> u16 x = x.
Proof. apply Z.mod_small. Qed.
Lemma u32_small x : 0 <= x < 4294967296 -> u32 x = x.
Proof. apply Z.mod_small. Qed.
Lemma s8_small x : -128 <= x < 128 -> s8 x = x.
Proof. intros. unfold s8. rewrite Z.mod_small by lia. lia. Qed.
Lemma s32_small x : -2147483648 <= x < 2147483648 -> s32 x = x.
Proof. intros. unfold s32. rewrite Z.mod_small by lia. lia. Qed.
Lemma s64_small x : - 2 ^ 63 <= x < 2 ^ 63 -> s64 x = x.
Proof. intros. unfold s64. rewrite Z.mod_small by lia. lia. Qed.
Lemma s32_range x : -2147483648 <= s32 x < 2147483648.
Proof. unfold s32. pose proof (Z.mod_pos_bound (x + 2 ^ 31) (2 ^ 32)). lia. Qed.
Lemma u32_mul_add a b c : u32 (u32 a * b + c) = u32 (a * b + c).
Proof.
  unfold u32. by rewrite <- Zplus_mod_idemp_l, Zmult_mod_idemp_l, Zplus_mod_idemp_l.
Qed.

(** Fields packed with [|] over disjoint bits. *)
Lemma lor_add k a b : 0 <= k -> 0 <= b < 2 ^ k -> Z.lor (a * 2 ^ k) b = a * 2 ^ k + b.
Proof.
  intros Hk Hb. assert (0 < 2 ^ k) by (apply Z.pow_pos_nonneg; lia).
  apply Z.bits_inj'. intros n Hn. rewrite Z.lor_spec. destruct (Z.lt_ge_cases n k).
  - rewrite Z.mul_pow2_bits_low by lia. rewrite <- (Z.mod_pow2_bits_low (a * 2 ^ k + b) k n) by lia.
    by rewrite Z.add_comm, Z.mod_add, Z.mod_small by lia.
  - rewrite <- (Z.mod_small b (2 ^ k)) at 1 by lia. rewrite Z.mod_pow2_bits_high by lia.
    rewrite orb_false_r, Z.mul_pow2_bits by lia.
    replace n with (n - k + k) at 2 by lia. rewrite <- Z.shiftr_spec, Z.shiftr_div_pow2 by lia.
    by rewrite Z.div_add_l, Z.div_small, Z.add_0_r by lia.
Qed.

Create HintDb cint.
Create Rewrite HintDb cint.
#[export] Hint Rewrite u8_small u16_small u32_small s8_small s32_small s64_small using lia : cint.
#[export] Hint Resolve u8_range u16_range u32_range s32_range : cint.

(** ** Results of the C functions that return an error code

    [Ok v]: the function returned its success code after storing [v];
    [Err e]: it returned the code [e] and stored nothing. *)
Inductive cret (A : Type) : Type :=
| Ok (v : A)
| Err (e : Z).
Arguments Ok {A} v.
Arguments Err {A} e.

(** ** Bytes and byte strings *)
Definition is_byte (b : Z) : Prop := 0 <= b < 256.
Abbreviation bytes := (Forall is_byte).
Lemma bytes_check l : forallb (fun b => (0 <=? b) && (b <? 256)) l = true -> bytes l.
Proof.
  rewrite forallb_forall, Forall_forall. intros H x Hx. unfold is_byte.
  apply list_elem_of_In, H, andb_true_iff in Hx. lia.
Qed.

#[global] Instance is_byte_dec b : Decision (is_byte b).
Proof. unfold is_byte. apply _. Defined.

(** ** Memory objects

    An object of the C program (an array, a buffer) is the list of its cells;
    a pointer into it is an index.  An access outside the object is undefined
    behaviour in C and [None] here. *)
Definition ld {A} (m : list A) (i : Z) : option A :=
  if 0 <=? i then m !! Z.to_nat i else None.
Definition st {A} (m : list A) (i : Z) (v : A) : option (list A) :=
  if (0 <=? i) && (i <? Z.of_nat (length m)) then Some (<[Z.to_nat i := v]> m)
  else None.

Abbreviation zlen l := (Z.of_nat (length l)).

Section Mem.
Context {A : Type}.
Implicit Types (m : list A) (v : A).

Lemma ld_Some_iff m i v : ld m i = Some v <-> 0 <= i /\ m !! Z.to_nat i = Some v.
Proof. unfold ld. destruct (Z.leb_spec 0 i); intuition (lia || congruence). Qed.
Lemma ld_is_Some m i : is_Some (ld m i) <-> 0 <= i < zlen m.
Proof.
  unfold ld. destruct (Z.leb_spec 0 i).
  - rewrite lookup_lt_is_Some. lia.
  - split; [intros [? ?]; done | lia].
Qed.
Lemma ld_None_ge m i : zlen m <= i -> ld m i = None.
Proof.
  intros. unfold ld. destruct (0 <=? i); [|done]. apply lookup_ge_None. lia.
Qed.
Lemma st_Some m i v : 0 <= i < zlen m -> st m i v = Some (<[Z.to_nat i := v]> m).
Proof. intros. unfold st. destruct (Z.leb_spec 0 i), (Z.ltb_spec i (zlen m)); done || lia. Qed.
Lemma st_length m i v m' : st m i v = Some m' -> length m' = length m.
Proof. unfold st. intros. case_match; simplify_eq. apply length_insert. Qed.
Lemma ld_insert_eq m i v : 0 <= i < zlen m -> ld (<[Z.to_nat i := v]> m) i = Some v.
Proof.
  intros. unfold ld. destruct (Z.leb_spec 0 i); [|lia].
  apply list_lookup_insert_eq. lia.
Qed.
Lemma ld_insert_ne m i j v :
  0 <= i -> i <> j -> ld (<[Z.to_nat i := v]> m) j = ld m j.
Proof.
  intros. unfold ld. destruct (Z.leb_spec 0 j); [|done].
  apply list_lookup_insert_ne. lia.
Qed.
Lemma ld_app_l m m' i : i < zlen m -> ld (m ++ m') i = ld m i.
Proof.
  intros. unfold ld. destruct (Z.leb_spec 0 i); [|done].
  apply lookup_app_l. lia.
Qed.
Lemma ld_app_r m m' i : zlen m <= i -> ld (m ++ m') i = ld m' (i - zlen m).
Proof.
  intros. unfold ld. destruct (Z.leb_spec 0 i), (Z.leb_spec 0 (i - zlen m)); try lia.
  rewrite lookup_app_r by lia. f_equal. lia.
Qed.
Lemma ld_nat m (i : nat) : ld m (Z.of_nat i) = m !! i.
Proof.
  unfold ld. destruct (Z.leb_spec 0 (Z.of_nat i)); [|lia]. by rewrite Nat2Z.id.
Qed.
Lemma zlen_insert m i v : zlen (<[i := v]> m) = zlen m.
Proof. by rewrite length_insert. Qed.
Lemma zlen_app m m' : zlen (m ++ m') = zlen m + zlen m'.
Proof. rewrite length_app. lia. Qed.
Lemma zlen_nonneg m : 0 <= zlen m.
Proof. lia. Qed.
Lemma zlen_cons v m : zlen (v :: m) = zlen m + 1.
Proof. simpl length. lia. Qed.

(** Access at the boundary of a known prefix. *)
Lemma st_mid m m' x v p :
  p = zlen m -> st (m ++ x :: m') p v = Some (m ++ v :: m').
Proof.
  intros ->. rewrite st_Some by (rewrite length_app; simpl; lia).
  by rewrite Nat2Z.id, insert_app_r_alt, Nat.sub_diag by lia.
Qed.
Lemma ld_mid m m' x p : p = zlen m -> ld (m ++ x :: m') p = Some x.
Proof. intros ->. rewrite ld_nat. by apply list_lookup_middle. Qed.
Lemma ld_cons_0 v m : ld (v :: m) 0 = Some v.
Proof. done. Qed.
Lemma ld_cons_S v m i : 0 <= i -> ld (v :: m) (i + 1) = ld m i.
Proof.
  intros. unfold ld. destruct (Z.leb_spec 0 (i + 1)), (Z.leb_spec 0 i); try lia.
  replace (Z.to_nat (i + 1)) with (S (Z.to_nat i)) by lia. done.
Qed.
(** The suffix a pointer at the boundary of a prefix sees. *)
Lemma drop_zlen_app m m' : drop (Z.to_nat (zlen m)) (m ++ m') = m'.
Proof. rewrite Nat2Z.id. apply drop_app_length. Qed.
End Mem.

Lemma len_cons {A} (x : A) l : length (x :: l) = S (length l).
Proof. done. Qed.
Lemma len_nil {A} : length (@nil A) = O.
Proof. done. Qed.
#[export] Hint Rewrite @zlen_insert @zlen_app @zlen_cons @len_cons @len_nil
  @length_app @length_insert @length_rev @length_take @length_drop @length_replicate : cint.
(** Normalises the lengths of a goal, then calls [lia]. *)
Ltac zlen_lia := autorewrite with cint in *; lia.

(** ** Little-endian encoding of a field of [n] bytes (the ARM target stores
    its scalars least significant byte first) *)
Fixpoint le_encode (n : nat) (z : Z) : list Z :=
  match n with
  | O => []
  | S n => z mod 256 :: le_encode n (z / 256)
  end.
Fixpoint le_decode (l : list Z) : Z :=
  match l with
  | [] => 0
  | b :: l => b + 256 * le_decode l
  end.

Lemma le_encode_length n z : length (le_encode n z) = n.
Proof. revert z. induction n; intros; simpl; auto. Qed.
Lemma le_encode_bytes n z : bytes (le_encode n z).
Proof.
  revert z. induction n; intros; constructor; [|done].
  apply Z.mod_pos_bound. lia.
Qed.
Lemma le_decode_encode n z : 0 <= z < 256 ^ Z.of_nat n -> le_decode (le_encode n z) = z.
Proof.
  revert z. induction n as [|n IH]; intros z Hz; cbn [le_encode le_decode].
  - change (256 ^ Z.of_nat 0) with 1 in Hz. lia.
  - rewrite Nat2Z.inj_succ, Z.pow_succ_r in Hz by lia.
    rewrite IH by (split; [apply Z.div_pos; lia | apply Z.div_lt_upper_bound; lia]).
    pose proof (Z.div_mod z 256). lia.
Qed.
Lemma le_decode_range l : bytes l -> 0 <= le_decode l < 256 ^ zlen l.
Proof.
  induction 1 as [|b l Hb Hl IH]; cbn [le_decode length]; [done|].
  rewrite Nat2Z.inj_succ, Z.pow_succ_r by lia. unfold is_byte in Hb. lia.
Qed.
Lemma le_encode_decode l : bytes l -> le_encode (length l) (le_decode l) = l.
Proof.
  induction 1 as [|b l Hb Hl IH]; cbn [le_decode le_encode length]; [done|].
  unfold is_byte in Hb.
  replace ((b + 256 * le_decode l) mod 256) with b
    by (rewrite (Z.mul_comm 256), Z.mod_add, Z.mod_small; lia).
  replace ((b + 256 * le_decode l) / 256) with (le_decode l)
    by (rewrite (Z.mul_comm 256), Z.div_add, Z.div_small; lia).
  by rewrite IH.
Qed.

(** ** Tactics shared by the development *)

(** [lia] with the Euclidean equations of [/], [mod], [quot] and [rem]. *)
Ltac zdm := Z.to_euclidean_division_equations; lia.

(** Turns boolean tests in the context or the goal into propositions. *)
Ltac zify_bool :=
  repeat match goal with
  | H : (_ =? _) = true |- _ => apply Z.eqb_eq in H
  | H : (_ =? _) = false |- _ => apply Z.eqb_neq in H
  | H : (_ <? _) = true |- _ => apply Z.ltb_lt in H
  | H : (_ <? _) = false |- _ => apply Z.ltb_ge in H
  | H : (_ <=? _) = true |- _ => apply Z.leb_le in H
  | H : (_ <=? _) = false |- _ => apply Z.leb_gt in H
  | H : (_ && _)%bool = true |- _ => apply andb_true_iff in H; destruct H
  | H : (_ || _)%bool = false |- _ => apply orb_false_iff in H; destruct H
  | H : negb _ = true |- _ => apply negb_true_iff in H
  | H : negb _ = false |- _ => apply negb_false_iff in H
  end.

(** Splits every integer comparison the goal tests. *)
Ltac zcases :=
  repeat match goal with
  | |- context [?a =? ?b] => destruct (Z.eqb_spec a b)
  | |- context [?a <? ?b] => destruct (Z.ltb_spec a b)
  | |- context [?a <=? ?b] => destruct (Z.leb_spec a b)
  end.

(** Runs the binds of a computation that is known to succeed. *)
Ltac run_bind H :=
  repeat match type of H with
  | mbind _ ?o = Some _ => destruct o eqn:?; simpl in H; [|discriminate H]
  | (if ?b then _ else _) = Some _ => destruct b eqn:?; simpl in H; try discriminate H
  end.

(** ** List lemmas *)
Section ListFacts.
Context {A : Type}.
Implicit Types l k : list A.

Lemma drop_lookup_cons l (i : nat) x : l !! i = Some x -> drop i l = x :: drop (S i) l.
Proof. intros. by rewrite (drop_S _ x). Qed.
Lemma take_snoc l (i : nat) x : l !! i = Some x -> take (S i) l = take i l ++ [x].
Proof. apply take_S_r. Qed.
Lemma lookup_app_cons l x k : (l ++ x :: k) !! length l = Some x.
Proof. by apply list_lookup_middle. Qed.
Lemma insert_app_cons l x y k : <[length l := y]> (l ++ x :: k) = l ++ y :: k.
Proof. by rewrite insert_app_r_alt, Nat.sub_diag by lia. Qed.
End ListFacts.

(** A property of the first [n] naturals, checked by evaluation. *)
Lemma all_below (P : Z -> bool) (n : nat) :
  forallb (fun i => P (Z.of_nat i)) (seq 0 n) = true ->
  forall x, 0 <= x < Z.of_nat n -> P x = true.
Proof.
  intros H x Hx. rewrite forallb_forall in H. specialize (H (Z.to_nat x)).
  rewrite Z2Nat.id in H by lia. apply H, in_seq. lia.
Qed.

(** ** Sums accumulated in 64 bits *)
Fixpoint sumZ (l : list Z) : Z := match l with [] => 0 | x :: l => x + sumZ l end.

Lemma sumZ_app l k : sumZ (l ++ k) = sumZ l + sumZ k.
Proof. induction l as [|x l IH]; [done|]. cbn in *. rewrite IH. lia. Qed.
Lemma sumZ_perm l k : l ≡ₚ k -> sumZ l = sumZ k.
Proof. induction 1; cbn in *; lia. Qed.
Lemma sumZ_bound B l : Forall (fun x => Z.abs x <= B) l -> Z.abs (sumZ l) <= B * zlen l.
Proof. induction 1 as [|x l Hx Hl IH]; [simpl; lia|]. cbn [sumZ]. rewrite zlen_cons. lia. Qed.
(** Without overflow the wrapped accumulation is the sum. *)
Lemma s64_fold_sum B l acc :
  Forall (fun x => Z.abs x <= B) l -> Z.abs acc + B * zlen l < 2 ^ 63 ->
  fold_left (fun a x => s64 (a + x)) l acc = acc + sumZ l.
Proof.
  intros Hl. revert acc. induction Hl as [|x l Hx Hl IH]; intros acc Hacc; [simpl; lia|].
  cbn [fold_left]. rewrite zlen_cons in Hacc.
  assert (0 <= B * zlen l) by (apply Z.mul_nonneg_nonneg; lia). rewrite s64_small by lia. rewrite IH by lia.
  cbn. lia.
Qed.

(** One step of a fold, as a rewriting rule (conversion would compare the
    accumulators first). *)
Lemma fold_left_step {A B} (f : B -> A -> B) x l b :
  fold_left f (x :: l) b = fold_left f l (f b x).
Proof. reflexivity. Qed.

(** Reflexive-transitive closure of a step relation with its trace. *)
Section Star.
Context {S : Type} (R : S -> S -> Prop).
Inductive star : S -> S -> Prop :=
| star_refl s : star s s
| star_step s s' s'' : star s s' -> R s' s'' -> star s s''.
Lemma star_trans s s' s'' : star s s' -> star s' s'' -> star s s''.
Proof. intros ? H. induction H; eauto using star. Qed.
Lemma star_invariant (I : S -> Prop) s s' :
  (forall a b, I a -> R a b -> I b) -> I s -> star s s' -> I s'.
Proof. intros HR HI H. induction H; eauto. Qed.
End Star.

(** ** Fields of packed structures

    A packed structure is its byte image; [get] and [put] are the accesses of
    the [n] bytes at offset [off]. *)
Section Fields.
Context {A : Type}.
Implicit Types l d : list A.
Definition get (off n : nat) l : list A := take n (drop off l).
Definition put (off : nat) d l : list A := take off l ++ d ++ drop (off + length d) l.

Lemma put_length off d l : (off + length d <= length l)%nat -> length (put off d l) = length l.
Proof. intros. unfold put. rewrite !length_app, length_take, length_drop. lia. Qed.
Lemma get_length off n l : (off + n <= length l)%nat -> length (get off n l) = n.
Proof. intros. unfold get. rewrite length_take, length_drop. lia. Qed.
Lemma get_lookup off n l i : (i < n)%nat -> get off n l !! i = l !! (off + i)%nat.
Proof. intros. unfold get. by rewrite lookup_take_lt, lookup_drop. Qed.
Lemma get_lookup_ge off n l i : (n <= i)%nat -> get off n l !! i = None.
Proof. intros. unfold get. apply lookup_ge_None_2. rewrite length_take. lia. Qed.
Lemma put_lookup_in off d l i : (off + length d <= length l)%nat ->
  (off <= i < off + length d)%nat -> put off d l !! i = d !! (i - off)%nat.
Proof.
  intros. unfold put. rewrite lookup_app_r by (rewrite length_take; lia).
  rewrite length_take, Nat.min_l by lia. rewrite lookup_app_l by lia. done.
Qed.
Lemma put_lookup_out off d l i : (off + length d <= length l)%nat ->
  (i < off \/ off + length d <= i)%nat -> put off d l !! i = l !! i.
Proof.
  intros H Hi. unfold put. destruct (decide (i < off)%nat).
  - rewrite lookup_app_l by (rewrite length_take; lia). by rewrite lookup_take_lt.
  - rewrite lookup_app_r by (rewrite length_take; lia). rewrite length_take, Nat.min_l by lia.
    rewrite lookup_app_r, lookup_drop by lia. f_equal. lia.
Qed.
Lemma get_ext off n l l' :
  (forall i, (off <= i < off + n)%nat -> l !! i = l' !! i) -> get off n l = get off n l'.
Proof.
  intros H. apply list_eq. intros i. destruct (decide (i < n)%nat).
  - rewrite !get_lookup by done. apply H. lia.
  - by rewrite !get_lookup_ge by lia.
Qed.
Lemma get_put_eq off n d l : (off + length d <= length l)%nat -> n = length d ->
  get off n (put off d l) = d.
Proof.
  intros H ->. apply list_eq. intros i. destruct (decide (i < length d)%nat).
  - rewrite get_lookup, put_lookup_in by lia. f_equal. lia.
  - rewrite get_lookup_ge, lookup_ge_None_2 by lia. done.
Qed.
Lemma get_put_ne off' n off d l : (off + length d <= length l)%nat ->
  (off' + n <= off \/ off + length d <= off')%nat -> get off' n (put off d l) = get off' n l.
Proof. intros. apply get_ext. intros. rewrite put_lookup_out by lia. done. Qed.
Lemma put_get off n l : (off + n <= length l)%nat -> put off (get off n l) l = l.
Proof.
  intros H. apply list_eq. intros i. pose proof (get_length off n l H) as Hl.
  destruct (decide (off <= i < off + n)%nat).
  - rewrite put_lookup_in, get_lookup by lia. f_equal. lia.
  - rewrite put_lookup_out by lia. done.
Qed.
Lemma put_put_app off d e l : (off + length d + length e <= length l)%nat ->
  put (off + length d) e (put off d l) = put off (d ++ e) l.
Proof.
  intros H. assert (Hl : length (put off d l) = length l) by (apply put_length; lia).
  apply list_eq. intros i. destruct (decide (off + length d <= i < off + length d + length e)%nat).
  - rewrite !put_lookup_in by (rewrite ?length_app; lia). rewrite lookup_app_r by lia. f_equal. lia.
  - rewrite (put_lookup_out (off + length d)) by lia. destruct (decide (off <= i < off + length d)%nat).
    + rewrite !put_lookup_in by (rewrite ?length_app; lia). by rewrite lookup_app_l by lia.
    + by rewrite !put_lookup_out by (rewrite ?length_app; lia).
Qed.
Lemma get_Forall (P : A -> Prop) off n l : Forall P l -> Forall P (get off n l).
Proof. intros. by apply Forall_take, Forall_drop. Qed.
Lemma put_Forall (P : A -> Prop) off d l : Forall P l -> Forall P d -> Forall P (put off d l).
Proof. intros. apply Forall_app_2; [by apply Forall_take|]. apply Forall_app_2; [done|by apply Forall_drop]. Qed.
End Fields.

(** A bounded loop [for (i = i0; i < i0 + n; i++)] whose body may leave the
    defined behaviour of C, and its invariant rule. *)
Fixpoint for_loop {S} (body : nat -> S -> option S) (i n : nat) (s : S) : option S :=
  match n with
  | O => Some s
  | S n' => s' ← body i s; for_loop body (Datatypes.S i) n' s'
  end.

Lemma for_loop_ind {S} (P : nat -> S -> Prop) (body : nat -> S -> option S) n : forall i s,
  P i s ->
  (forall j s, (i <= j < i + n)%nat -> P j s -> exists s', body j s = Some s' /\ P (Datatypes.S j) s') ->
  exists s', for_loop body i n s = Some s' /\ P (i + n)%nat s'.
Proof.
  induction n as [|n IH]; intros i s H0 Hstep.
  - exists s. split; [done|]. by rewrite Nat.add_0_r.
  - destruct (Hstep i s) as (s1 & E & H1); [lia|done|].
    destruct (IH (Datatypes.S i) s1 H1) as (s' & E' & H').
    { intros j t Hj. apply Hstep. lia. }
    exists s'. cbn [for_loop]. rewrite E. cbn. split; [done|].
    by replace (i + Datatypes.S n)%nat with (Datatypes.S i + n)%nat by lia.
Qed.
