(* ===== verification/CFloat.v ===== *)
(** * IEEE-754 arithmetic of the C types [float] and [double]

    The Cortex-M4F computes [float] in its FPU and [double] in the runtime
    library, both round-to-nearest-even; the Standard Library's [SpecFloat] is
    that arithmetic on integers, so every float of the model is executable.
    Conversions to integer types truncate, and saturate as the FPU does. *)
From S2P Require Import Prelude.
From Stdlib Require Export SpecFloat.

Definition f32_prec : Z := 24.
Definition f32_emax : Z := 128.
Definition f64_prec : Z := 53.
Definition f64_emax : Z := 1024.

Definition f32_of_Z (z : Z) : spec_float := binary_normalize f32_prec f32_emax z 0 false.
Definition f64_of_Z (z : Z) : spec_float := binary_normalize f64_prec f64_emax z 0 false.

Definition f32_add := SFadd f32_prec f32_emax.
Definition f32_sub := SFsub f32_prec f32_emax.
Definition f32_mul := SFmul f32_prec f32_emax.
Definition f32_div := SFdiv f32_prec f32_emax.
Definition f64_add := SFadd f64_prec f64_emax.
Definition f64_sub := SFsub f64_prec f64_emax.
Definition f64_mul := SFmul f64_prec f64_emax.
Definition f64_div := SFdiv f64_prec f64_emax.

(** [float] to [double] (exact) and [double] to [float] (rounded). *)
Definition f_convert (prec emax : Z) (x : spec_float) : spec_float :=
  match x with
  | S754_finite s m e => binary_normalize prec emax (cond_Zopp s (Z.pos m)) e s
  | _ => x
  end.
Definition f64_of_f32 := f_convert f64_prec f64_emax.
Definition f32_of_f64 := f_convert f32_prec f32_emax.

(** A decimal literal [n / d], correctly rounded. *)
Definition f_ratio (prec emax : Z) (n : Z) (d : positive) : spec_float :=
  match n with
  | Z0 => S754_zero false
  | Zpos p => SFdiv prec emax (S754_finite false p 0) (S754_finite false d 0)
  | Zneg p => SFdiv prec emax (S754_finite true p 0) (S754_finite false d 0)
  end.
Definition f32_lit := f_ratio f32_prec f32_emax.
Definition f64_lit := f_ratio f64_prec f64_emax.

(** Truncation to an integer, then saturation to [lo, hi]; NaN gives 0. *)
Definition f_trunc (x : spec_float) (lo hi : Z) : Z :=
  match x with
  | S754_zero _ | S754_nan => 0
  | S754_infinity s => if s then lo else hi
  | S754_finite s m e =>
      let a := if 0 <=? e then Z.pos m * 2 ^ e else Z.pos m / 2 ^ (- e) in
      Z.max lo (Z.min hi (if s then - a else a))
  end.
Definition f_to_s32 (x : spec_float) : Z := f_trunc x (- 2 ^ 31) (2 ^ 31 - 1).
Definition f_to_s64 (x : spec_float) : Z := f_trunc x (- 2 ^ 63) (2 ^ 63 - 1).
Definition f_to_u16 (x : spec_float) : Z := u16 (f_trunc x (- 2 ^ 31) (2 ^ 31 - 1)).
Definition f_to_u32 (x : spec_float) : Z := f_trunc x 0 (2 ^ 32 - 1).

(** Comparisons: false on NaN, as the C operators. *)
Definition f_lt (x y : spec_float) : bool := SFltb x y.
Definition f_le (x y : spec_float) : bool := SFleb x y.
Definition f_gt (x y : spec_float) : bool := SFltb y x.
Definition f_ge (x y : spec_float) : bool := SFleb y x.
Definition f_eq (x y : spec_float) : bool := SFeqb x y.

Definition f_zero : spec_float := S754_zero false.

(** The bit pattern of a [float] (what [memcpy] and the unions see). *)
Definition f32_of_bits (w : Z) : spec_float :=
  let s := Z.testbit w 31 in
  let ex := Z.shiftr w 23 mod 256 in
  let m := w mod 2 ^ 23 in
  if ex =? 255 then (if m =? 0 then S754_infinity s else S754_nan)
  else if ex =? 0 then
    match m with Z.pos p => S754_finite s p (-149) | _ => S754_zero s end
  else
    match m + 2 ^ 23 with Z.pos p => S754_finite s p (ex - 150) | _ => S754_nan end.

Definition f32_to_bits (x : spec_float) : Z :=
  match x with
  | S754_zero s => if s then 2 ^ 31 else 0
  | S754_infinity s => (if s then 2 ^ 31 else 0) + 255 * 2 ^ 23
  | S754_nan => 255 * 2 ^ 23 + 2 ^ 22
  | S754_finite s m e =>
      (if s then 2 ^ 31 else 0) +
      (if Z.pos m <? 2 ^ 23 then Z.pos m else (e + 150) * 2 ^ 23 + (Z.pos m - 2 ^ 23))
  end.

(** The same for [double]. *)
Definition f64_of_bits (w : Z) : spec_float :=
  let s := Z.testbit w 63 in
  let ex := Z.shiftr w 52 mod 2048 in
  let m := w mod 2 ^ 52 in
  if ex =? 2047 then (if m =? 0 then S754_infinity s else S754_nan)
  else if ex =? 0 then
    match m with Z.pos p => S754_finite s p (-1074) | _ => S754_zero s end
  else
    match m + 2 ^ 52 with Z.pos p => S754_finite s p (ex - 1075) | _ => S754_nan end.

Definition f64_to_bits (x : spec_float) : Z :=
  match x with
  | S754_zero s => if s then 2 ^ 63 else 0
  | S754_infinity s => (if s then 2 ^ 63 else 0) + 2047 * 2 ^ 52
  | S754_nan => 2047 * 2 ^ 52 + 2 ^ 51
  | S754_finite s m e =>
      (if s then 2 ^ 63 else 0) +
      (if Z.pos m <? 2 ^ 52 then Z.pos m else (e + 1075) * 2 ^ 52 + (Z.pos m - 2 ^ 52))
  end.

(** ** Order facts used by the clients *)
Definition f_is_nan (x : spec_float) : bool :=
  match x with S754_nan => true | _ => false end.

Lemma SFcompare_some x y :
  f_is_nan x = false -> f_is_nan y = false -> exists c, SFcompare x y = Some c.
Proof.
  destruct x as [[]|[]| |[]], y as [[]|[]| |[]]; try discriminate; eauto;
    cbn; intros _ _; repeat case_match; eauto.
Qed.

Lemma SFcompare_swap x y :
  SFcompare y x = option_map CompOpp (SFcompare x y).
Proof.
  destruct x as [[]|[]| |[] m e], y as [[]|[]| |[] m' e']; try reflexivity; cbn;
    rewrite (Z.compare_antisym e e'); destruct (e ?= e')%Z; cbn; try reflexivity;
    change (Pos.compare_cont Eq) with Pos.compare; rewrite (Pos.compare_antisym m m');
    destruct (m ?= m')%positive; reflexivity.
Qed.

(** Unless one side is a NaN, [x < y] is the negation of [y <= x]. *)
Lemma f_lt_not_ge x y :
  f_is_nan x = false -> f_is_nan y = false -> f_lt x y = negb (f_ge x y).
Proof.
  intros Hx Hy. unfold f_lt, f_ge, SFltb, SFleb.
  destruct (SFcompare_some _ _ Hx Hy) as [c Hc].
  rewrite (SFcompare_swap x y), Hc. by destruct c.
Qed.

Example f32_lit_tenth : f32_lit 1 10 = S754_finite false 13421773 (-27).
Proof. reflexivity. Qed.
Example f32_bits_one : f32_of_bits 1065353216 = f32_of_Z 1.
Proof. reflexivity. Qed.

(** ** The order as a lexicographic one *)

(** Class, exponent and mantissa, all signed. *)
Definition f_key (x : spec_float) : Z * Z * Z :=
  match x with
  | S754_nan => (3, 0, 0)
  | S754_infinity s => (if s then -2 else 2, 0, 0)
  | S754_zero _ => (0, 0, 0)
  | S754_finite s m e => if s then (-1, - e, - Z.pos m) else (1, e, Z.pos m)
  end.
Definition key_le (a b : Z * Z * Z) : Prop :=
  let '(a1, a2, a3) := a in let '(b1, b2, b3) := b in
  a1 < b1 \/ a1 = b1 /\ (a2 < b2 \/ a2 = b2 /\ a3 <= b3).
Lemma key_le_trans a b c : key_le a b -> key_le b c -> key_le a c.
Proof. destruct a as [[??]?], b as [[??]?], c as [[??]?]. unfold key_le. lia. Qed.

Lemma f_le_key x y : f_is_nan x = false -> f_is_nan y = false -> (f_le x y = true <-> key_le (f_key x) (f_key y)).
Proof.
  assert (P : forall m m', Pos.compare_cont Eq m m' = (Z.pos m ?= Z.pos m')) by done.
  intros Hx Hy. unfold f_le, SFleb.
  destruct x as [[]|[]| |[] m e], y as [[]|[]| |[] m' e']; try discriminate; cbn [SFcompare f_key key_le];
    try (split; [intros; try discriminate; lia|intros; try done; lia]); rewrite P;
    destruct (Z.compare_spec e e'); try (destruct (Z.compare_spec (Z.pos m) (Z.pos m'))); cbn [CompOpp];
    (split; [intros; try discriminate; lia|intros; try done; lia]).
Qed.
Lemma f_le_not_nan x y : f_le x y = true -> f_is_nan x = false /\ f_is_nan y = false.
Proof. unfold f_le, SFleb. destruct x as [[]|[]| |[]], y as [[]|[]| |[]]; cbn; done. Qed.
Lemma f_le_trans x y z : f_le x y = true -> f_le y z = true -> f_le x z = true.
Proof.
  intros H1 H2. destruct (f_le_not_nan _ _ H1) as [Hx Hy], (f_le_not_nan _ _ H2) as [_ Hz].
  apply f_le_key; [done|done|]. apply (f_le_key _ _ Hx Hy) in H1. apply (f_le_key _ _ Hy Hz) in H2.
  by eapply key_le_trans.
Qed.
Lemma f_le_total x y : f_is_nan x = false -> f_is_nan y = false -> f_le x y = false -> f_le y x = true.
Proof.
  intros Hx Hy H. destruct (f_le y x) eqn:E; [done|]. exfalso.
  assert (A : ~ key_le (f_key x) (f_key y)) by (rewrite <- f_le_key by done; congruence).
  assert (B : ~ key_le (f_key y) (f_key x)) by (rewrite <- f_le_key by done; congruence).
  unfold key_le in *. destruct (f_key x) as [[??]?], (f_key y) as [[??]?]. lia.
Qed.
Lemma f_le_refl x : f_is_nan x = false -> f_le x x = true.
Proof. intros Hx. apply f_le_key; [done|done|]. destruct (f_key x) as [[??]?]. cbn. lia. Qed.

(** ** Operations on finite numbers give numbers *)

Definition f_is_finite (x : spec_float) : bool :=
  match x with S754_zero _ | S754_finite _ _ _ => true | _ => false end.

Lemma shr_1_nonneg r : 0 <= shr_m r -> 0 <= shr_m (shr_1 r).
Proof. destruct r as [[|[]|[]] a b]; cbn; lia. Qed.
Lemma iter_pos_nonneg p : forall r, 0 <= shr_m r -> 0 <= shr_m (iter_pos shr_1 p r).
Proof. induction p as [p IH|p IH|]; intros r Hr; cbn [iter_pos]; auto using shr_1_nonneg. Qed.
Lemma shr_fexp_nonneg prec emax m e l : 0 <= m -> 0 <= shr_m (fst (shr_fexp prec emax m e l)).
Proof.
  intros Hm. unfold shr_fexp, shr. assert (0 <= shr_m (shr_record_of_loc m l)) by (by destruct l as [|[]]).
  destruct (_ - e); [done|by apply iter_pos_nonneg|done].
Qed.
Lemma binary_round_aux_number prec emax s m e l : 0 <= m -> f_is_nan (binary_round_aux prec emax s m e l) = false.
Proof.
  intros Hm. unfold binary_round_aux. pose proof (shr_fexp_nonneg prec emax m e l Hm) as H1.
  destruct (shr_fexp prec emax m e l) as [r1 e1]. cbn [fst] in H1.
  set (n := round_nearest_even _ _).
  assert (H2 : 0 <= n) by (unfold n, round_nearest_even; repeat case_match; lia).
  pose proof (shr_fexp_nonneg prec emax n e1 loc_Exact H2) as H3.
  destruct (shr_fexp prec emax n e1 loc_Exact) as [r2 e2]. cbn [fst] in H3.
  destruct (shr_m r2); [done|by destruct (_ <=? _)|lia].
Qed.
Lemma binary_normalize_number prec emax m e z : f_is_nan (binary_normalize prec emax m e z) = false.
Proof.
  unfold binary_normalize, binary_round. destruct m as [|p|p]; [done|..];
    destruct (shl_align _ _ _) as [mz ez]; apply binary_round_aux_number; lia.
Qed.
Lemma SFadd_number prec emax x y : f_is_finite x = true -> f_is_finite y = true -> f_is_nan (SFadd prec emax x y) = false.
Proof.
  destruct x as [[]|[]| |[] m e], y as [[]|[]| |[] m' e']; try discriminate; intros _ _; try done;
    cbn [SFadd]; apply binary_normalize_number.
Qed.
Lemma SFdiv_number prec emax x m e : f_is_nan x = false -> f_is_nan (SFdiv prec emax x (S754_finite false m e)) = false.
Proof.
  destruct x as [[]|[]| |s m' e']; try discriminate; intros _; try done. cbn [SFdiv].
  unfold SFdiv_core_binary. set (m1 := match _ with Z0 => _ | Zpos _ => _ | Zneg _ => _ end).
  assert (H : 0 <= m1).
  { unfold m1. destruct (_ - Z.min _ _); [lia| |lia]. apply Z.shiftl_nonneg. lia. }
  pose proof (Z_div_nonneg_nonneg m1 (Z.pos m) H ltac:(lia)) as Hd. unfold Z.div in Hd.
  destruct (Z.div_eucl m1 (Z.pos m)) as [q r]. by apply binary_round_aux_number.
Qed.
