(* ===== verification/Str.v ===== *)
(** * hq_string.c: the string library

    A [const char *] that the code only reads is the list of cells from the
    pointer to the end of its object: reading past it is [None].  A buffer the
    code writes is the whole object together with an index.  [char] is
    unsigned on the ARM ABI the firmware is built for. *)
From S2P Require Import Prelude CFloat.

(** ** Copying, comparing, searching *)

Fixpoint string_length (str : list Z) : option Z :=
  match str with
  | [] => None
  | c :: str' => if c =? 0 then Some 0 else n ← string_length str'; Some (n + 1)
  end.

(** Result: the destination object and the index of its terminator. *)
Fixpoint string_copy (dest : list Z) (d : Z) (src : list Z) : option (list Z * Z) :=
  match src with
  | [] => None
  | c :: src' =>
      if c =? 0 then dest' ← st dest d 0; Some (dest', d)
      else dest' ← st dest d c; string_copy dest' (d + 1) src'
  end.

Fixpoint string_copy_n (dest : list Z) (d : Z) (src : list Z) (len : Z)
  : option (list Z * Z) :=
  let stop := dest' ← st dest d 0; Some (dest', d) in
  if 0 <? len then
    match src with
    | [] => None
    | c :: src' =>
        if c =? 0 then stop
        else dest' ← st dest d c; string_copy_n dest' (d + 1) src' (len - 1)
    end
  else stop.

Fixpoint string_comp (str1 str2 : list Z) : option Z :=
  match str1, str2 with
  | c1 :: str1', c2 :: str2' =>
      if c1 =? 0 then (if c2 =? 0 then Some 0 else Some (-1))
      else if c2 =? 0 then Some 1
      else if c1 <? c2 then Some (-1)
      else if c2 <? c1 then Some 1
      else string_comp str1' str2'
  | _, _ => None
  end.

Fixpoint string_comp_n (str1 str2 : list Z) (len : Z) : option Z :=
  if 0 <? len then
    match str1, str2 with
    | c1 :: str1', c2 :: str2' =>
        if c1 <? c2 then Some (-1)
        else if c2 <? c1 then Some 1
        else string_comp_n str1' str2' (len - 1)
    | _, _ => None
    end
  else Some 0.

(** The two-pointer loop shared by [string_reverse], [dec_to_string] and
    [float_to_string]: swap the cells at [i] and [j] while [i < j]. *)
Fixpoint swap_ends (fuel : nat) (m : list Z) (i j : Z) : option (list Z) :=
  match fuel with
  | O => None
  | S fuel =>
      if i <? j then
        a ← ld m i; b ← ld m j;
        m1 ← st m i b; m2 ← st m1 j a;
        swap_ends fuel m2 (i + 1) (j - 1)
      else Some m
  end.

Definition string_reverse (m : list Z) (str : Z) : option (list Z) :=
  n ← string_length (drop (Z.to_nat str) m);
  swap_ends (S (length m)) m str (str + n - 1).

Fixpoint extract_end (src : list Z) (sp : Z) : option Z :=
  match src with
  | [] => None
  | c :: src' =>
      if c =? 0 then Some 0
      else if c =? sp then Some 0
      else n ← extract_end src' sp; Some (n + 1)
  end.

(** Result: the destination object and the offset in [src] after the separator. *)
Definition string_extract (dest : list Z) (d : Z) (src : list Z) (sp : Z)
  : option (list Z * Z) :=
  e ← extract_end src sp;
  r ← string_copy_n dest d src e;
  Some (fst r, e + 1).

(** Result: the offset of the match, [None] inside for the null pointer. *)
Fixpoint string_search (str sub : list Z) : option (option Z) :=
  match str with
  | [] => None
  | c :: str' =>
      if c =? 0 then Some None
      else
        r ← string_comp str sub;
        if r =? 0 then Some (Some 0)
        else q ← string_search str' sub; Some (option_map (Z.add 1) q)
  end.

(** ** Strings to numbers *)

Definition is_digit (ch : Z) : bool := (48 <=? ch) && (ch <=? 57).
Definition is_upper (ch : Z) : bool := (65 <=? ch) && (ch <=? 90).

Fixpoint to_dec_loop (str : list Z) (result : Z) : option (cret Z) :=
  match str with
  | [] => None
  | c :: str' =>
      if c =? 0 then Some (Ok result)
      else if is_digit c then to_dec_loop str' (u32 (result * 10 + (c - 48)))
      else if negb (c =? 32) then Some (Err (-1))
      else to_dec_loop str' result
  end.
Definition string_to_dec (str : list Z) : option (cret Z) := to_dec_loop str 0.

Fixpoint to_dec_n_loop (str : list Z) (len result : Z) : option (cret Z) :=
  if 0 <? len then
    match str with
    | [] => None
    | c :: str' =>
        if is_digit c then to_dec_n_loop str' (len - 1) (u32 (result * 10 + (c - 48)))
        else Some (Err (-1))
    end
  else Some (Ok result).
Definition string_to_dec_n (str : list Z) (len : Z) : option (cret Z) :=
  to_dec_n_loop str len 0.

Fixpoint to_lldec_loop (str : list Z) (len result : Z) : option (cret Z) :=
  if 0 <? len then
    match str with
    | [] => None
    | c :: str' =>
        if is_digit c then to_lldec_loop str' (len - 1) (s64 (result * 10 + (c - 48)))
        else Some (Err (-1))
    end
  else Some (Ok result).
Definition string_to_lldec_n (str : list Z) (len : Z) : option (cret Z) :=
  c ← head str;
  let neg := c =? 45 in
  let flag := if neg then -1 else 1 in
  r ← to_lldec_loop (if neg then tail str else str) (if neg then len - 1 else len) 0;
  Some (match r with Ok v => Ok (s64 (flag * v)) | Err e => Err e end).

Definition hex_value (c : Z) : option Z :=
  if is_digit c then Some (c - 48)
  else if (97 <=? c) && (c <=? 102) then Some (c - 97 + 10)
  else if (65 <=? c) && (c <=? 70) then Some (c - 65 + 10)
  else None.

Fixpoint to_hex_loop (str : list Z) (result : Z) : option (cret Z) :=
  match str with
  | [] => None
  | c :: str' =>
      if c =? 0 then Some (Ok result)
      else match hex_value c with
           | Some h => to_hex_loop str' (u32 (Z.shiftl result 4 + h))
           | None => Some (Err (-1))
           end
  end.
Definition string_to_hex (str : list Z) : option (cret Z) := to_hex_loop str 0.

(** The digits-and-point loop shared by the four float parsers: [flag] is set
    after a point, [div] counts the digits behind it.  [wr] is the width the
    parser accumulates its result in. *)
Definition float_step (wr : Z -> Z) (c : Z) (acc : Z * Z * Z) : option (Z * Z * Z) :=
  let '(flag, result, div) := acc in
  let div := if flag =? 1 then s32 (div * 10) else div in
  if c =? 46 then Some (1, result, div)
  else if is_digit c then Some (flag, wr (result * 10 + (c - 48)), div)
  else None.

Fixpoint float_loop (wr : Z -> Z) (str : list Z) (acc : Z * Z * Z)
  : option (cret (Z * Z)) :=
  match str with
  | [] => None
  | c :: str' =>
      if c =? 0 then let '(_, result, div) := acc in Some (Ok (result, div))
      else match float_step wr c acc with
           | Some acc' => float_loop wr str' acc'
           | None => Some (Err (-1))
           end
  end.

Fixpoint float_loop_len (wr : Z -> Z) (str : list Z) (len : Z) (acc : Z * Z * Z)
  : option (cret (Z * Z)) :=
  if len =? 0 then let '(_, result, div) := acc in Some (Ok (result, div))
  else match str with
       | [] => None
       | c :: str' =>
           match float_step wr c acc with
           | Some acc' => float_loop_len wr str' (len - 1) acc'
           | None => Some (Err (-1))
           end
       end.

Definition cret_map {A B} (f : A -> B) (r : cret A) : cret B :=
  match r with Ok v => Ok (f v) | Err e => Err e end.

Definition string_to_float (str : list Z) : option (cret spec_float) :=
  c ← head str;
  let neg := c =? 45 in
  let symbol := if neg then -1 else 1 in
  r ← float_loop s32 (if neg then tail str else str) (0, 0, 1);
  Some (cret_map (fun '(result, div) =>
    f32_div (f32_mul (f32_of_Z symbol) (f32_of_Z result)) (f32_of_Z div)) r).

Definition string_to_float_len (str : list Z) (len : Z) : option (cret spec_float) :=
  r ← float_loop_len s32 str len (0, 0, 1);
  Some (cret_map (fun '(result, div) => f32_div (f32_of_Z result) (f32_of_Z div)) r).

Definition string_to_double (str : list Z) : option (cret spec_float) :=
  r ← float_loop s64 str (0, 0, 1);
  Some (cret_map (fun '(result, div) => f64_div (f64_of_Z result) (f64_of_Z div)) r).

Definition string_to_double_len (str : list Z) (len : Z) : option (cret spec_float) :=
  c ← head str;
  let neg := c =? 45 in
  let symbol := if neg then -1 else 1 in
  r ← float_loop_len s32 (if neg then tail str else str)
        (if neg then len - 1 else len) (0, 0, 1);
  Some (cret_map (fun '(result, div) =>
    f64_div (f64_mul (f64_of_Z symbol) (f64_of_Z result)) (f64_of_Z div)) r).

(** ** Numbers to strings *)

(** The digits of [value], least significant first, written from index [p]. *)
Fixpoint dec_digits_loop (fuel : nat) (m : list Z) (p value : Z)
  : option (list Z * Z) :=
  match fuel with
  | O => None
  | S fuel =>
      if 0 <? value then
        m' ← st m p (value mod 10 + 48);
        dec_digits_loop fuel m' (p + 1) (value / 10)
      else Some (m, p)
  end.

(** Result: the object and the index of the terminator. *)
Definition dec_to_string (m : list Z) (str value : Z) : option (list Z * Z) :=
  if value =? 0 then
    m1 ← st m str 48;
    m2 ← st m1 (str + 1) 0;
    Some (m2, str + 1)
  else
    r ← dec_digits_loop (S (length m)) m str value;
    let '(m1, p) := r in
    m2 ← st m1 p 0;
    m3 ← swap_ends (S (length m)) m2 str (p - 1);
    Some (m3, p).

Definition hex_digit (ch : Z) : Z := if ch <? 10 then ch + 48 else ch - 10 + 65.

(** [k] = digits still to write. *)
Fixpoint hex_loop (m : list Z) (p value : Z) (k : nat) : option (list Z * Z) :=
  match k with
  | O => m' ← st m p 0; Some (m', p)
  | S k =>
      let ch := Z.land (Z.shiftr value (Z.shiftl (Z.of_nat k) 2)) 15 in
      m' ← st m p (hex_digit ch);
      hex_loop m' (p + 1) value k
  end.
Definition hex_to_string (m : list Z) (str value digits : Z) : option (list Z * Z) :=
  hex_loop m str value (Z.to_nat digits).

Fixpoint float_digits_loop (fuel : nat) (m : list Z) (p value decimal i : Z)
  : option (list Z * Z * Z) :=
  match fuel with
  | O => None
  | S fuel =>
      if (i <? decimal) || (0 <? value) then
        m1 ← st m p (value mod 10 + 48);
        if i + 1 =? decimal then
          m2 ← st m1 (p + 1) 46;
          float_digits_loop fuel m2 (p + 2) (value / 10) decimal (i + 1)
        else float_digits_loop fuel m1 (p + 1) (value / 10) decimal (i + 1)
      else Some (m, p, i)
  end.

Definition float_to_string (m : list Z) (str value decimal : Z) : option (list Z * Z) :=
  r ← float_digits_loop (S (length m)) m str value decimal 0;
  let '(m1, p, i) := r in
  r2 ← (if i =? decimal then m' ← st m1 p 48; Some (m', p + 1) else Some (m1, p));
  let '(m2, p2) := r2 in
  m3 ← st m2 p2 0;
  m4 ← swap_ends (S (length m)) m3 str (p2 - 1);
  Some (m4, p2).

(** ** Character classes and validity checks *)

(** [isalnum] of the "C" locale. *)
Definition isalnum (c : Z) : bool :=
  is_digit c || is_upper c || ((97 <=? c) && (c <=? 122)).

(** [for (i = 0; i < len; i++) if (!test(buf[i])) return bad;] *)
Fixpoint scan_n (test : Z -> bool) (buf : list Z) (len : Z) : option bool :=
  if 0 <? len then
    match buf with
    | [] => None
    | c :: buf' => if test c then scan_n test buf' (len - 1) else Some false
    end
  else Some true.

Definition check_uppercase (buf : list Z) (len : Z) : option Z :=
  ok ← scan_n is_upper buf len; Some (if (ok : bool) then 0 else -1).
Definition check_numcase (buf : list Z) (len : Z) : option Z :=
  ok ← scan_n isalnum buf len; Some (if (ok : bool) then 0 else -1).

(** The scan of [is_pure_digit] stops at the terminator or at a '\r'. *)
Fixpoint pure_digit_scan (str : list Z) : option bool :=
  match str with
  | [] => None
  | c :: str' =>
      if (c =? 0) || (c =? 13) then Some true
      else if is_digit c then pure_digit_scan str' else Some false
  end.
(** The early [return -1] of the empty string is converted to [bool]: true. *)
Definition is_pure_digit (str : list Z) : option bool :=
  c ← head str;
  if c =? 0 then Some true else pure_digit_scan str.

Definition is_pure_digit_n (str : list Z) (len : Z) : option bool :=
  if len <=? 0 then Some false else scan_n is_digit str len.

Fixpoint comma_digit_scan (str : list Z) : option Z :=
  match str with
  | [] => None
  | c :: str' =>
      if c =? 0 then Some 0
      else if is_digit c || (c =? 44) then comma_digit_scan str'
      else Some (-1)
  end.
Definition is_pure_comma_digit (str : list Z) : option Z :=
  c ← head str;
  if c =? 0 then Some (-1) else comma_digit_scan str.

(** Result: the offset of the character, [None] inside for NULL. *)
Fixpoint simple_strchr (str : list Z) (c : Z) : option (option Z) :=
  match str with
  | [] => None
  | x :: str' =>
      if x =? 0 then Some (if u8 c =? 0 then Some 0 else None)
      else if x =? u8 c then Some (Some 0)
      else r ← simple_strchr str' c; Some (option_map (Z.add 1) r)
  end.

Fixpoint strrchr_loop (str : list Z) (c pos : Z) (last_pos : option Z)
  : option (option Z) :=
  match str with
  | [] => None
  | x :: str' =>
      if x =? 0 then Some (if u8 c =? 0 then Some pos else last_pos)
      else strrchr_loop str' c (pos + 1) (if x =? u8 c then Some pos else last_pos)
  end.
Definition simple_strrchr (str : list Z) (c : Z) : option (option Z) :=
  strrchr_loop str c 0 None.

(** The two scans of [simple_strtok]: skip cells while membership in [delim]
    is [want]; stops at the terminator. *)
Fixpoint tok_scan (want : bool) (str delim : list Z) : option Z :=
  match str with
  | [] => None
  | c :: str' =>
      if c =? 0 then Some 0
      else
        r ← simple_strchr delim c;
        if Bool.eqb (bool_decide (is_Some r)) want
        then n ← tok_scan want str' delim; Some (n + 1)
        else Some 0
  end.

(** The buffer [m] is written in place and the static [last] is threaded
    through: the result is the buffer, the new [last] and the token's index. *)
Definition simple_strtok (m : list Z) (last str : option Z) (delim : list Z)
  : option (list Z * option Z * option Z) :=
  let last := match str with Some _ => str | None => last end in
  match last with
  | None => Some (m, last, None)
  | Some l =>
      c ← ld m l;
      if c =? 0 then Some (m, last, None)
      else
        n ← tok_scan true (drop (Z.to_nat l) m) delim;
        let start := l + n in
        c1 ← ld m start;
        if c1 =? 0 then Some (m, Some start, None)
        else
          k ← tok_scan false (drop (Z.to_nat start) m) delim;
          let end_ := start + k in
          c2 ← ld m end_;
          if c2 =? 0 then Some (m, Some end_, Some start)
          else m' ← st m end_ 0; Some (m', Some (end_ + 1), Some start)
  end.

(** [(addr[0] | addr[1] << 8 | addr[2] << 16 | addr[3] << 24)], read as a float. *)
Definition read_unaligned_float (addr : list Z) : option spec_float :=
  b0 ← ld addr 0; b1 ← ld addr 1; b2 ← ld addr 2; b3 ← ld addr 3;
  Some (f32_of_bits (Z.lor (Z.lor b0 (Z.shiftl b1 8))
                           (Z.lor (Z.shiftl b2 16) (Z.shiftl b3 24)))).

(** ** Library calls of <string.h> and <stdio.h> the checks use *)

(** [strtok] with one separator: the tokens are the non-empty runs of other
    characters.  [cur] is the run being read. *)
Fixpoint strtok_tokens (sep : Z) (cur : list Z) (s : list Z) : list (list Z) :=
  match s with
  | [] => match cur with [] => [] | _ => [cur] end
  | c :: s' =>
      if c =? sep
      then match cur with
           | [] => strtok_tokens sep [] s'
           | _ => cur :: strtok_tokens sep [] s'
           end
      else strtok_tokens sep (cur ++ [c]) s'
  end.

(** The value of a digit string, as [sscanf("%d")] converts it. *)
Definition dec_value (s : list Z) : Z :=
  fold_left (fun a c => a * 10 + (c - 48)) s 0.

(** [strncmp(str, sub, strlen(sub)) == 0] *)
Fixpoint is_prefix (sub str : list Z) : bool :=
  match sub, str with
  | [], _ => true
  | a :: sub', b :: str' => (a =? b) && is_prefix sub' str'
  | _, [] => false
  end.
(** [strstr(str, sub) != NULL] *)
Fixpoint strstr_found (str sub : list Z) : bool :=
  is_prefix sub str ||
  match str with [] => false | _ :: str' => strstr_found str' sub end.

Definition codes (s : string) : list Z :=
  map (fun a => Z.of_N (Ascii.N_of_ascii a)) (String.list_ascii_of_string s).

(** The text before the terminator, [None] without one. *)
Fixpoint cstr (m : list Z) : option (list Z) :=
  match m with
  | [] => None
  | c :: m' => if c =? 0 then Some [] else s ← cstr m'; Some (c :: s)
  end.

Definition valid_formats : list Z := codes "8N18O18E18n18o18e1".

(** [strncpy(chk_str, str, 3)] keeps at most three characters. *)
Definition is_check_fmt_valid (str : list Z) : option bool :=
  s ← cstr str;
  c ← head str;
  Some (negb (negb (c =? 56) || negb (strstr_found valid_formats (take 3 s)))).

(** Counters of the loop of [is_dec_number]: digits, points. *)
Fixpoint dec_number_count (str : list Z) (len : Z) : option (Z * Z) :=
  if 0 <? len then
    match str with
    | [] => None
    | c :: str' =>
        r ← dec_number_count str' (len - 1);
        let '(digits, points) := r in
        Some (if is_digit c then (digits + 1, points)
              else if c =? 46 then (digits, points + 1) else (digits, points))
    end
  else Some (0, 0).

Definition is_dec_number (str : list Z) (strlen : Z) : option Z :=
  c0 ← head str;
  if c0 =? 46 then Some 0
  else
    sign ← (if c0 =? 45 then
              if strlen <? 2 then Some None
              else c1 ← ld str 1; Some (if is_digit c1 then Some 1 else None)
            else Some (Some 0));
    match sign with
    | None => Some 0
    | Some cnt_sign =>
        r ← dec_number_count str strlen;
        let '(number_len, cnt_point) := r in
        Some (if (number_len + cnt_sign =? strlen) && (cnt_point =? 0) then 1
              else if (cnt_point + number_len + cnt_sign =? strlen) && (cnt_point =? 1)
              then 2 else 0)
    end.

(** The loop over the tokens: [None] when it returned false, else the number of
    parts and the sum of their lengths. *)
Fixpoint ip_tokens (toks : list (list Z)) (num_parts len_sum : Z) : option (Z * Z) :=
  match toks with
  | [] => Some (num_parts, len_sum)
  | tok :: toks' =>
      let token_len := zlen tok in
      if (3 <? token_len) || (token_len <? 1) then None
      else if negb (bool_decide (is_dec_number (tok ++ [0]) token_len = Some 1))
              || bool_decide (head tok = Some 45) then None
      else
        let part := dec_value tok in
        if (part <? 0) || (255 <? part) then None
        else ip_tokens toks' (num_parts + 1) (len_sum + token_len)
  end.

(** The copy needs the whole text and its terminator in the 1024-byte [str]. *)
Definition is_valid_ip (ip : list Z) : option bool :=
  s ← cstr ip;
  if 1024 <? zlen s + 1 then None
  else Some match ip_tokens (strtok_tokens 46 [] s) 0 0 with
            | None => false
            | Some (num_parts, len_sum) =>
                negb (negb (num_parts =? 4) || negb (len_sum + 3 =? zlen s))
            end.

Example is_valid_ip_ex1 : is_valid_ip (codes "192.168.042.132" ++ [0]) = Some true.
Proof. vm_compute. reflexivity. Qed.
Example is_valid_ip_ex2 : is_valid_ip (codes "192.168..1" ++ [0]) = Some false.
Proof. vm_compute. reflexivity. Qed.
Example is_valid_ip_ex3 : is_valid_ip (codes "1.2.3.256" ++ [0]) = Some false.
Proof. vm_compute. reflexivity. Qed.
Example float_to_string_ex :
  (r ← float_to_string (replicate 8 0) 0 1234 2; cstr (fst r)) = Some (codes "12.34").
Proof. vm_compute. reflexivity. Qed.
Example strtok_ex :
  (r ← simple_strtok (codes ",ab,c" ++ [0]) None (Some 0) (codes "," ++ [0]);
   Some (snd (fst r), snd r)) = Some (Some 4, Some 1).
Proof. vm_compute. reflexivity. Qed.

(** * Properties *)

(** Text of a C string: no terminator inside. *)
Abbreviation nul_free := (Forall (fun c : Z => c <> 0)).

Lemma string_length_text s r :
  nul_free s -> string_length (s ++ 0 :: r) = Some (zlen s).
Proof.
  induction 1 as [|c s Hc Hs IH]; [done|]. cbn [app string_length].
  destruct (Z.eqb_spec c 0); [done|]. rewrite IH. simpl. f_equal. lia.
Qed.

Lemma cstr_text s r : nul_free s -> cstr (s ++ 0 :: r) = Some s.
Proof.
  induction 1 as [|c s Hc Hs IH]; [done|]. cbn [app cstr].
  destruct (Z.eqb_spec c 0); [done|]. by rewrite IH.
Qed.

(** ** Comparison *)

(** The reference order: lexicographic on character codes. *)
Fixpoint lex_compare (a b : list Z) : comparison :=
  match a, b with
  | [], [] => Eq
  | [], _ => Lt
  | _, [] => Gt
  | x :: a', y :: b' =>
      match x ?= y with Eq => lex_compare a' b' | c => c end
  end.
Definition comparison_code (c : comparison) : Z :=
  match c with Eq => 0 | Lt => -1 | Gt => 1 end.

Lemma lex_compare_eq a b : lex_compare a b = Eq <-> a = b.
Proof.
  revert b. induction a as [|x a IH]; intros [|y b]; cbn; try done.
  destruct (Z.compare_spec x y); split; intros H'; try discriminate; simplify_eq; try lia.
  - f_equal. by apply IH.
  - by apply IH.
Qed.

Lemma string_comp_lex s1 s2 r1 r2 :
  nul_free s1 -> nul_free s2 ->
  string_comp (s1 ++ 0 :: r1) (s2 ++ 0 :: r2)
  = Some (comparison_code (lex_compare s1 s2)).
Proof.
  intros H1; revert s2; induction H1 as [|x s1 Hx Hs1 IH]; intros s2 H2;
    destruct H2 as [|y s2 Hy Hs2]; cbn [app string_comp lex_compare]; try done.
  - by destruct (Z.eqb_spec y 0).
  - by destruct (Z.eqb_spec x 0).
  - destruct (Z.eqb_spec x 0), (Z.eqb_spec y 0); try done.
    destruct (Z.compare_spec x y), (Z.ltb_spec x y), (Z.ltb_spec y x); try lia; auto.
Qed.

(** ** Reversal *)

Lemma list_snoc_inv {A} (l : list A) : l = [] \/ exists k x, l = k ++ [x].
Proof. destruct l using rev_ind; eauto. Qed.

Lemma swap_ends_rev fuel (pre l post : list Z) i j :
  i = zlen pre -> j = zlen pre + zlen l - 1 -> (length l < fuel)%nat ->
  swap_ends fuel (pre ++ l ++ post) i j = Some (pre ++ rev l ++ post).
Proof.
  revert pre l post i j. induction fuel as [|fuel IH]; intros pre l post i j -> -> Hf;
    [lia|]. cbn [swap_ends].
  destruct l as [|a l]; [rewrite (proj2 (Z.ltb_ge _ _)) by zlen_lia; done|].
  destruct (list_snoc_inv l) as [->|(k & b & ->)].
  { rewrite (proj2 (Z.ltb_ge _ _)) by zlen_lia. done. }
  rewrite (proj2 (Z.ltb_lt _ _)) by zlen_lia.
  cbn [app]. rewrite (ld_mid pre _ a (zlen pre)) by done.
  replace (pre ++ a :: (k ++ [b]) ++ post) with ((pre ++ a :: k) ++ b :: post)
    by (rewrite <- !app_assoc; done).
  cbn [mbind option_bind]. rewrite (ld_mid (pre ++ a :: k)) by zlen_lia.
  cbn [mbind option_bind]. rewrite <- app_assoc. cbn [app].
  rewrite (st_mid pre) by done. cbn [mbind option_bind].
  replace (pre ++ b :: k ++ b :: post) with ((pre ++ b :: k) ++ b :: post)
    by (rewrite <- !app_assoc; done).
  rewrite (st_mid (pre ++ b :: k)) by zlen_lia. cbn [mbind option_bind].
  replace ((pre ++ b :: k) ++ a :: post) with ((pre ++ [b]) ++ k ++ a :: post)
    by (rewrite <- !app_assoc; done).
  rewrite IH; [|zlen_lia..].
  cbn [rev]. rewrite rev_app_distr. cbn [rev app].
  by rewrite <- !app_assoc.
Qed.

(** [string_reverse] reverses the text in place and touches nothing else. *)
Lemma string_reverse_text pre s r :
  nul_free s ->
  string_reverse (pre ++ s ++ 0 :: r) (zlen pre) = Some (pre ++ rev s ++ 0 :: r).
Proof.
  intros Hs. unfold string_reverse. rewrite drop_zlen_app, string_length_text by done.
  cbn [mbind option_bind]. apply swap_ends_rev; rewrite ?length_app; simpl; lia.
Qed.

(** ** Decimal and hexadecimal round trips *)

(** The decimal digits of [v], least significant first, at most [k]. *)
Fixpoint lsd_digits (k : nat) (v : Z) : list Z :=
  match k with
  | O => []
  | S k => if 0 <? v then (v mod 10 + 48) :: lsd_digits k (v / 10) else []
  end.

Lemma lsd_digits_length k v : (length (lsd_digits k v) <= k)%nat.
Proof.
  revert v. induction k as [|k IH]; intros v; [done|]. cbn [lsd_digits].
  destruct (0 <? v); simpl; [specialize (IH (v / 10)); lia | lia].
Qed.

Lemma lsd_digits_digit k v : Forall (fun c => 48 <= c <= 57) (lsd_digits k v).
Proof.
  revert v. induction k as [|k IH]; intros v; [constructor|]. cbn [lsd_digits].
  destruct (0 <? v); [|constructor].
  constructor; [pose proof (Z.mod_pos_bound v 10); lia | apply IH].
Qed.

Lemma dec_digits_loop_spec k fuel pre buf post v :
  0 <= v < 10 ^ Z.of_nat k -> (k < fuel)%nat -> (k <= length buf)%nat ->
  dec_digits_loop fuel (pre ++ buf ++ post) (zlen pre) v
  = Some (pre ++ lsd_digits k v ++ drop (length (lsd_digits k v)) buf ++ post,
          zlen pre + zlen (lsd_digits k v)).
Proof.
  revert fuel pre buf v. induction k as [|k IH]; intros fuel pre buf v Hv Hf Hb.
  - change (10 ^ Z.of_nat 0) with 1 in Hv. assert (v = 0) as -> by lia.
    destruct fuel; [lia|]. simpl. by rewrite Z.add_0_r.
  - destruct fuel as [|fuel]; [lia|]. cbn [dec_digits_loop lsd_digits].
    destruct (Z.ltb_spec 0 v); [|simpl; rewrite ?Z.add_0_r; auto].
    destruct buf as [|b buf]; [simpl in Hb; lia|]. cbn [app].
    rewrite (st_mid pre) by done. cbn [mbind option_bind].
    replace (pre ++ (v mod 10 + 48) :: buf ++ post)
      with ((pre ++ [v mod 10 + 48]) ++ buf ++ post) by (by rewrite <- app_assoc).
    replace (zlen pre + 1) with (zlen (pre ++ [v mod 10 + 48])) by zlen_lia.
    rewrite Nat2Z.inj_succ, Z.pow_succ_r in Hv by lia.
    rewrite IH.
    + rewrite <- app_assoc. cbn [app length drop]. do 2 f_equal. zlen_lia.
    + split; [apply Z.div_pos | apply Z.div_lt_upper_bound]; lia.
    + lia.
    + simpl in Hb. lia.
Qed.

(** Parsing a run of digits multiplies the accumulator and adds. *)
Lemma to_dec_loop_app s r acc :
  Forall (fun c => 48 <= c <= 57) s -> 0 <= acc -> 
  to_dec_loop (s ++ r) (u32 acc)
  = to_dec_loop r (u32 (fold_left (fun a c => a * 10 + (c - 48)) s acc)).
Proof.
  intros Hs. revert acc. induction Hs as [|c s Hc Hs IH]; intros acc Hacc; [done|].
  cbn [app to_dec_loop fold_left]. unfold is_digit.
  destruct (Z.eqb_spec c 0), (Z.leb_spec 48 c), (Z.leb_spec c 57); try lia.
  cbn [andb]. rewrite <- IH by lia. by rewrite u32_mul_add.
Qed.

Lemma dec_value_lsd k v :
  0 <= v < 10 ^ Z.of_nat k -> dec_value (rev (lsd_digits k v)) = v.
Proof.
  revert v. induction k as [|k IH]; intros v Hv.
  - change (10 ^ Z.of_nat 0) with 1 in Hv. simpl. unfold dec_value. simpl. lia.
  - cbn [lsd_digits]. destruct (Z.ltb_spec 0 v).
    + cbn [rev]. unfold dec_value. rewrite fold_left_app. cbn [fold_left].
      rewrite Nat2Z.inj_succ, Z.pow_succ_r in Hv by lia.
      fold (dec_value (rev (lsd_digits k (v / 10)))). rewrite IH.
      * pose proof (Z.div_mod v 10). lia.
      * split; [apply Z.div_pos | apply Z.div_lt_upper_bound]; lia.
    + unfold dec_value. simpl. lia.
Qed.

Lemma lsd_digits_nonempty k v : 0 < v -> (0 < k)%nat -> lsd_digits k v <> [].
Proof. destruct k; [lia|]. cbn [lsd_digits]. intros. destruct (Z.ltb_spec 0 v); [done|lia]. Qed.

(** The text [dec_to_string] produces. *)
Definition dec_text (v : Z) : list Z :=
  if v =? 0 then [48] else rev (lsd_digits 10 v).

Lemma dec_text_length v : (length (dec_text v) <= 10)%nat.
Proof.
  unfold dec_text. destruct (v =? 0); [simpl; lia|]. rewrite length_rev.
  apply lsd_digits_length.
Qed.

Lemma dec_to_string_spec pre buf post v :
  0 <= v < 2 ^ 32 -> (11 <= length buf)%nat ->
  dec_to_string (pre ++ buf ++ post) (zlen pre) v
  = Some (pre ++ dec_text v ++ 0 :: drop (S (length (dec_text v))) buf ++ post,
          zlen pre + zlen (dec_text v)).
Proof.
  intros Hv Hb. unfold dec_to_string, dec_text. destruct (Z.eqb_spec v 0).
  - destruct buf as [|b1 [|b2 buf]]; [simpl in Hb; lia..|]. cbn [app].
    rewrite (st_mid pre) by done. cbn [mbind option_bind].
    replace (pre ++ 48 :: b2 :: buf ++ post) with ((pre ++ [48]) ++ b2 :: buf ++ post)
      by (by rewrite <- app_assoc).
    rewrite (st_mid (pre ++ [48])) by zlen_lia. cbn [mbind option_bind].
    by rewrite <- app_assoc.
  - pose proof (lsd_digits_length 10 v) as Hl.
    rewrite (dec_digits_loop_spec 10); [|lia|rewrite !length_app; lia|lia].
    cbn [mbind option_bind]. set (t := lsd_digits 10 v) in *.
    destruct (drop (length t) buf) as [|b rest] eqn:Hd.
    { apply (f_equal length) in Hd. rewrite length_drop in Hd. simpl in Hd. lia. }
    replace (pre ++ t ++ (b :: rest) ++ post) with ((pre ++ t) ++ b :: rest ++ post)
      by (by rewrite <- app_assoc).
    rewrite (st_mid (pre ++ t)) by zlen_lia. cbn [mbind option_bind].
    rewrite <- app_assoc, (swap_ends_rev _ pre t); [|zlen_lia..].
    cbn [mbind option_bind]. rewrite length_rev. do 5 f_equal.
    by rewrite <- Nat.add_1_r, <- drop_drop, Hd.
Qed.

Lemma dec_text_digit v : Forall (fun c => 48 <= c <= 57) (dec_text v).
Proof.
  unfold dec_text. destruct (v =? 0); [by repeat constructor|].
  apply Forall_rev, lsd_digits_digit.
Qed.

Lemma dec_text_value v : 0 <= v < 2 ^ 32 -> dec_value (dec_text v) = v.
Proof.
  intros Hv. unfold dec_text. destruct (Z.eqb_spec v 0); [by subst|].
  apply dec_value_lsd. lia.
Qed.

(** Decimal round trip: for every 32-bit [value] and every buffer with 11
    free cells, [dec_to_string] succeeds, writes at most ten digits and a
    terminator at the index it returns, leaves every other cell of the object
    alone, and [string_to_dec] reads the same value back. *)
Theorem dec_round_trip pre buf post value :
  0 <= value < 2 ^ 32 -> (11 <= length buf)%nat ->
  exists text rest e,
    dec_to_string (pre ++ buf ++ post) (zlen pre) value
    = Some (pre ++ (text ++ 0 :: rest) ++ post, e) /\
    length (text ++ 0 :: rest) = length buf /\
    rest = drop (S (length text)) buf /\
    (1 <= length text <= 10)%nat /\ e = zlen pre + zlen text /\
    string_to_dec (drop (length pre) (pre ++ (text ++ 0 :: rest) ++ post))
    = Some (Ok value).
Proof.
  intros Hv Hb. pose proof (dec_text_length value).
  exists (dec_text value), (drop (S (length (dec_text value))) buf), (zlen pre + zlen (dec_text value)).
  rewrite dec_to_string_spec by done. rewrite <- app_assoc. split; [done|].
  split; [|split; [done|split; [|split; [done|]]]].
  - rewrite length_app. cbn [length]. rewrite length_drop. lia.
  - split; [|done]. unfold dec_text. destruct (Z.eqb_spec value 0); [simpl; lia|].
    rewrite length_rev.
    assert (lsd_digits 10 value <> []) by (apply lsd_digits_nonempty; lia).
    destruct (lsd_digits 10 value); [done | simpl; lia].
  - rewrite drop_app_length. unfold string_to_dec. change 0 with (u32 0) at 2.
    rewrite to_dec_loop_app by (apply dec_text_digit || lia). cbn [app to_dec_loop Z.eqb].
    fold (dec_value (dec_text value)). by rewrite dec_text_value, u32_small.
Qed.

Lemma dec_round_trip_witness :
  exists m e, dec_to_string (replicate 12 7) 1 4294967295 = Some (m, e) /\
    string_to_dec (drop 1 m) = Some (Ok 4294967295).
Proof.
  destruct (dec_round_trip [7] (replicate 11 7) [] 4294967295)
    as (text & rest & e & H1 & _ & _ & _ & _ & H2).
  - split; [discriminate | reflexivity].
  - apply le_n.
  - eexists _, _. split; [exact H1 | exact H2].
Defined.

(** The hexadecimal text of [k] digits of [v], most significant first. *)
Fixpoint hex_text (k : nat) (v : Z) : list Z :=
  match k with
  | O => []
  | S k => hex_digit (v / 16 ^ Z.of_nat k mod 16) :: hex_text k v
  end.

Lemma hex_text_length k v : length (hex_text k v) = k.
Proof. induction k; simpl; auto. Qed.

Lemma hex_loop_spec k pre buf x post v :
  0 <= v -> length buf = k ->
  hex_loop (pre ++ buf ++ x :: post) (zlen pre) v k
  = Some (pre ++ hex_text k v ++ 0 :: post, zlen pre + Z.of_nat k).
Proof.
  intros Hv. revert pre buf. induction k as [|k IH]; intros pre buf Hb.
  - destruct buf; [|done]. cbn [hex_loop app hex_text]. rewrite (st_mid pre) by done.
    simpl. by rewrite Z.add_0_r.
  - destruct buf as [|b buf]; [done|]. cbn [hex_loop app hex_text].
    rewrite Z.shiftr_div_pow2, Z.shiftl_mul_pow2 by (try apply Z.shiftl_nonneg; lia).
    change 15 with (Z.ones 4). rewrite Z.land_ones by lia.
    rewrite Z.mul_comm, Z.pow_mul_r by lia. change (2 ^ 2 ^ 2) with 16. change (2 ^ 4) with 16.
    rewrite (st_mid pre) by done. cbn [mbind option_bind].
    set (c := hex_digit _).
    replace (pre ++ c :: buf ++ x :: post) with ((pre ++ [c]) ++ buf ++ x :: post)
      by (by rewrite <- app_assoc).
    replace (zlen pre + 1) with (zlen (pre ++ [c])) by zlen_lia.
    rewrite IH by (simpl in Hb; lia). rewrite <- app_assoc. cbn [app].
    do 2 f_equal. zlen_lia.
Qed.

Lemma hex_value_digit d : 0 <= d < 16 -> hex_value (hex_digit d) = Some d.
Proof.
  intros Hd. unfold hex_value, hex_digit, is_digit.
  destruct (Z.ltb_spec d 10); zcases; cbn [andb]; try lia; f_equal; lia.
Qed.
Lemma hex_digit_nonzero d : 0 <= d -> hex_digit d <> 0.
Proof. unfold hex_digit. destruct (d <? 10); lia. Qed.

Lemma to_hex_loop_text k v r acc :
  0 <= v -> 
  to_hex_loop (hex_text k v ++ 0 :: r) (u32 acc)
  = Some (Ok (u32 (acc * 16 ^ Z.of_nat k + v mod 16 ^ Z.of_nat k))).
Proof.
  intros Hv. revert acc. induction k as [|k IH]; intros acc.
  - simpl. change (16 ^ Z.of_nat 0) with 1. rewrite Z.mod_1_r. do 3 f_equal. lia.
  - cbn [hex_text app to_hex_loop]. set (d := v / 16 ^ Z.of_nat k mod 16).
    assert (0 <= d < 16) by (apply Z.mod_pos_bound; lia).
    pose proof (hex_digit_nonzero d). destruct (Z.eqb_spec (hex_digit d) 0); [lia|].
    rewrite hex_value_digit, Z.shiftl_mul_pow2, u32_mul_add, IH by lia.
    do 3 f_equal. rewrite Nat2Z.inj_succ, Z.pow_succ_r by lia.
    assert (0 < 16 ^ Z.of_nat k) by (apply Z.pow_pos_nonneg; lia).
    rewrite (Z.mul_comm 16 (_ ^ _)), Z.rem_mul_r by lia. fold d. change (2 ^ 4) with 16. lia.
Qed.

(** Hexadecimal round trip: the text of [digits] digits that
    [hex_to_string] writes for a [value] below 16^digits (at most 8 digits)
    parses back to [value] with [string_to_hex]; [digits] cells and the
    terminator's cell are written and nothing else. *)
Theorem hex_round_trip pre buf x post value digits :
  0 <= digits <= 8 -> 0 <= value < 16 ^ digits -> zlen buf = digits ->
  exists text,
    hex_to_string (pre ++ buf ++ x :: post) (zlen pre) value digits
    = Some (pre ++ text ++ 0 :: post, zlen pre + digits) /\
    zlen text = digits /\
    string_to_hex (text ++ 0 :: post) = Some (Ok value).
Proof.
  intros Hd Hv Hb. exists (hex_text (Z.to_nat digits) value). unfold hex_to_string.
  rewrite hex_loop_spec, hex_text_length, Z2Nat.id by lia. do 2 (split; [done|]).
  unfold string_to_hex. change 0 with (u32 0) at 2.
  rewrite to_hex_loop_text, Z2Nat.id by lia. rewrite Z.mod_small by lia.
  rewrite u32_small; [do 2 f_equal; lia|].
  pose proof (Z.pow_le_mono_r 16 digits 8). lia.
Qed.

Lemma hex_round_trip_witness :
  exists text, hex_to_string [1; 1; 1; 1; 1; 9] 0 43981 4 = Some (text ++ [0; 9], 4) /\
    string_to_hex (text ++ [0; 9]) = Some (Ok 43981).
Proof.
  destruct (hex_round_trip [] [1; 1; 1; 1] 1 [9] 43981 4) as (text & H1 & _ & H2).
  - split; discriminate.
  - split; [discriminate | reflexivity].
  - reflexivity.
  - exists text. split; [exact H1 | exact H2].
Defined.

(** ** Searching *)

Lemma string_comp_zero s1 s2 r1 r2 :
  nul_free s1 -> nul_free s2 ->
  exists c, string_comp (s1 ++ 0 :: r1) (s2 ++ 0 :: r2) = Some c /\ (c = 0 <-> s1 = s2).
Proof.
  intros. rewrite string_comp_lex by done. eexists; split; [done|].
  rewrite <- lex_compare_eq. by destruct (lex_compare s1 s2).
Qed.

(** [string_search] compares the whole rest of the text with the pattern at
    every position, so what it finds is a non-empty suffix: it returns the
    offset [k] exactly when the pattern is the text from [k] to its end, and
    NULL when the pattern is not a suffix, even when it occurs inside. *)
Theorem string_search_suffix s sub r1 r2 :
  nul_free s -> nul_free sub ->
  exists q, string_search (s ++ 0 :: r1) (sub ++ 0 :: r2) = Some q /\
    forall k, q = Some k <->
      (exists a, s = a ++ sub /\ k = zlen a /\ sub <> []).
Proof.
  intros Hs Hsub. induction Hs as [|c s Hc Hs IH].
  - exists None. split; [done|]. intros k. split; [done|].
    intros (a & Ha & _ & Hne). destruct a, sub; done.
  - destruct IH as (q & Hq & IH). cbn [app string_search].
    destruct (Z.eqb_spec c 0); [done|].
    destruct (string_comp_zero (c :: s) sub r1 r2) as (d & Hd & Heq); [by constructor|done|].
    cbn [app] in Hd. rewrite Hd. cbn [mbind option_bind]. destruct (Z.eqb_spec d 0) as [->|Hne].
    + exists (Some 0). split; [done|]. destruct (proj1 Heq eq_refl).
      intros k. split.
      * intros [= <-]. exists []. done.
      * intros (a & Ha & -> & _). destruct a as [|? a]; [done|].
        apply (f_equal length) in Ha. zlen_lia.
    + rewrite Hq. exists (option_map (Z.add 1) q). split; [done|]. intros k. split.
      * intros Hk. destruct q as [k'|]; [|done]. cbn in Hk. simplify_eq.
        destruct (proj1 (IH k') eq_refl) as (a & -> & -> & ?).
        exists (c :: a). split; [done|]. split; [zlen_lia|done].
      * intros (a & Ha & -> & ?). destruct a as [|x a]; cbn in Ha; simplify_eq.
        { destruct Hne. by apply Heq. }
        rewrite (proj2 (IH (zlen a))); [|by exists a]. cbn. f_equal. zlen_lia.
Qed.

Lemma string_search_suffix_witness :
  exists q, string_search ([65; 66; 67] ++ [0]) ([66] ++ [0]) = Some q /\
    forall k, q = Some k <->
      (exists a, [65; 66; 67] = a ++ [66] /\ k = zlen a /\ [66] <> []).
Proof.
  apply (string_search_suffix [65; 66; 67] [66] [] []); repeat constructor; discriminate.
Defined.

(** ** Dotted-quad addresses *)

(** A byte in decimal: one to three digits with a value up to 255. *)
Definition is_octet (t : list Z) : Prop :=
  Forall (fun c => 48 <= c <= 57) t /\ (1 <= length t <= 3)%nat /\ dec_value t <= 255.

Definition dotted (toks : list (list Z)) : list Z :=
  match toks with
  | [] => []
  | t :: toks => t ++ concat (map (fun t => 46 :: t) toks)
  end.

Lemma dec_number_count_digits t r :
  Forall (fun c => is_digit c = true) t -> 
  dec_number_count (t ++ r) (zlen t) = Some (zlen t, 0).
Proof.
  induction 1 as [|c t Hc Ht IH]; [by destruct r|]. cbn [app dec_number_count].
  rewrite (proj2 (Z.ltb_lt _ _)) by zlen_lia.
  replace (zlen (c :: t) - 1) with (zlen t) by zlen_lia. rewrite IH. cbn. rewrite Hc.
  do 2 f_equal. zlen_lia.
Qed.

Lemma dec_number_count_total t r :
  exists d p, dec_number_count (t ++ r) (zlen t) = Some (d, p) /\ 0 <= p /\ d <= zlen t - p /\
    (d = zlen t -> Forall (fun c => is_digit c = true) t).
Proof.
  induction t as [|c t IH]; [by exists 0, 0; destruct r|].
  destruct IH as (d & p & Heq & Hp & Hd & Hall). cbn [app dec_number_count].
  rewrite (proj2 (Z.ltb_lt _ _)) by zlen_lia.
  replace (zlen (c :: t) - 1) with (zlen t) by zlen_lia. rewrite Heq. cbn.
  destruct (is_digit c) eqn:Hc; [|destruct (c =? 46)];
    eexists _, _; (split; [done|]; split; [lia|]; split; [lia|]); intros; [|lia..].
  constructor; [done|]. apply Hall. lia.
Qed.

(** On a token without a leading minus the check is: digits only. *)
Lemma is_dec_number_token t r :
  t <> [] -> head t <> Some 45 ->
  is_dec_number (t ++ r) (zlen t) = Some 1 <-> Forall (fun c => is_digit c = true) t.
Proof.
  intros Hne Hm. destruct t as [|c t]; [done|]. unfold is_dec_number. cbn [app head mbind option_bind].
  destruct (Z.eqb_spec c 46) as [->|]; [split; [done|]; by inversion_clear 1|].
  destruct (Z.eqb_spec c 45) as [->|]; [done|]. cbn [mbind option_bind].
  change (c :: t ++ r) with ((c :: t) ++ r).
  destruct (dec_number_count_total (c :: t) r) as (d & p & Heq & Hp & Hd & Hall).
  rewrite Heq. cbn [mbind option_bind]. rewrite Z.add_0_r. split.
  - intros Hv. apply Hall. destruct (Z.eqb_spec d (zlen (c :: t))); [done|].
    cbn [andb] in Hv. destruct (_ && _) in Hv; simplify_eq.
  - intros HF. rewrite (dec_number_count_digits (c :: t) r HF) in Heq. simplify_eq.
    by rewrite Z.eqb_refl.
Qed.

Lemma dec_value_nonneg t : Forall (fun c => is_digit c = true) t -> 0 <= dec_value t.
Proof.
  intros Ht. unfold dec_value. cut (forall a, 0 <= a -> 0 <= fold_left (fun a c => a * 10 + (c - 48)) t a); [auto with lia|].
  induction Ht as [|c t Hc Ht IH]; intros a Ha; [done|]. cbn. apply IH.
  unfold is_digit in Hc. zify_bool. lia.
Qed.

Lemma is_digit_iff c : is_digit c = true <-> 48 <= c <= 57.
Proof. unfold is_digit. rewrite andb_true_iff, Z.leb_le, Z.leb_le. lia. Qed.

Lemma ip_tokens_spec toks n l n' l' :
  ip_tokens toks n l = Some (n', l') <->
  Forall is_octet toks /\ n' = n + zlen toks /\ l' = l + zlen (concat toks).
Proof.
  revert n l. induction toks as [|t toks IH]; intros n l; cbn [ip_tokens concat].
  - split; [intros; simplify_eq; split; [done|]; simpl; lia|].
    intros (_ & -> & ->). simpl. by rewrite !Z.add_0_r.
  - assert (Hfail : ~ is_octet t -> None = Some (n', l') <->
      Forall is_octet (t :: toks) /\ n' = n + zlen (t :: toks) /\ l' = l + zlen (t ++ concat toks)).
    { intros Ho. split; [done|]. intros [HF _]. by inversion HF. }
    destruct ((3 <? zlen t) || (zlen t <? 1)) eqn:Hlen.
    { apply Hfail. intros (_ & ? & _). apply orb_true_iff in Hlen. rewrite !Z.ltb_lt in Hlen. lia. }
    zify_bool. destruct (_ || _) eqn:Hnum.
    { apply Hfail. intros (Hd & ? & _). apply orb_true_iff in Hnum as [Hn|Hn].
      - apply negb_true_iff, bool_decide_eq_false in Hn. apply Hn, is_dec_number_token.
        + by destruct t.
        + destruct t; [done|]. inversion_clear Hd. intros [=]. lia.
        + eapply Forall_impl; [exact Hd|]. intros c Hc. by apply is_digit_iff.
      - apply bool_decide_eq_true in Hn. destruct t; [done|]. inversion_clear Hd. simpl in Hn. simplify_eq. lia. }
    zify_bool. apply bool_decide_eq_true in H1. apply bool_decide_eq_false in H2.
    apply is_dec_number_token in H1; [|destruct t; [simpl in *; lia|done]|done].
    pose proof (dec_value_nonneg t H1).
    rewrite (proj2 (Z.ltb_ge _ _)) by done. cbn [orb].
    destruct (Z.ltb_spec 255 (dec_value t)).
    { apply Hfail. intros (_ & _ & ?). lia. }
    rewrite IH, Forall_cons. assert (is_octet t).
    { split; [|split; [lia|lia]]. eapply Forall_impl; [exact H1|]. intros c Hc. by apply is_digit_iff. }
    rewrite length_app. cbn [length]. intuition lia.
Qed.

Definition sep_count (sep : Z) (s : list Z) : Z := zlen (filter (fun c => c = sep) s).

Lemma sep_count_cons sep c s :
  sep_count sep (c :: s) = (if c =? sep then 1 else 0) + sep_count sep s.
Proof.
  unfold sep_count. rewrite filter_cons. destruct (Z.eqb_spec c sep).
  - rewrite decide_True by done. zlen_lia.
  - by rewrite decide_False by done.
Qed.

Lemma strtok_tokens_length sep s cur :
  zlen (concat (strtok_tokens sep cur s)) + sep_count sep s = zlen cur + zlen s.
Proof.
  revert cur. induction s as [|c s IH]; intros cur; cbn [strtok_tokens].
  - destruct cur; cbn [concat]; rewrite ?app_nil_r; unfold sep_count; simpl; lia.
  - rewrite sep_count_cons. destruct (c =? sep).
    + destruct cur as [|x cur]; [specialize (IH []); zlen_lia|].
      cbn [concat]. rewrite zlen_app. specialize (IH []). zlen_lia.
    + specialize (IH (cur ++ [c])). zlen_lia.
Qed.

Lemma dotted_cons t toks : toks <> [] -> dotted (t :: toks) = t ++ 46 :: dotted toks.
Proof. by destruct toks. Qed.

Lemma strtok_tokens_count s cur :
  zlen (strtok_tokens 46 cur s) <= sep_count 46 s + 1 /\
  (zlen (strtok_tokens 46 cur s) = sep_count 46 s + 1 ->
   cur ++ s = dotted (strtok_tokens 46 cur s)).
Proof.
  revert cur. induction s as [|c s IH]; intros cur; cbn [strtok_tokens].
  - destruct cur; unfold sep_count; cbn; [lia|]. by rewrite !app_nil_r.
  - rewrite sep_count_cons. destruct (Z.eqb_spec c 46) as [->|].
    + destruct (IH []) as [Hle Heq]. destruct cur as [|x cur]; [lia|]. split; [zlen_lia|].
      intros Hl. cbn [app] in Heq. rewrite zlen_cons in Hl. rewrite dotted_cons.
      * by rewrite <- Heq by lia.
      * intros Hnil. rewrite Hnil in Hl. unfold sep_count in Hl. simpl in Hl. lia.
    + destruct (IH (cur ++ [c])) as [Hle Heq]. split; [lia|]. intros Hl.
      rewrite <- Heq by lia. by rewrite <- app_assoc.
Qed.

Lemma strtok_tokens_run t cur r :
  Forall (fun c => 48 <= c <= 57) t ->
  strtok_tokens 46 cur (t ++ r) = strtok_tokens 46 (cur ++ t) r.
Proof.
  intros Ht. revert cur. induction Ht as [|c t Hc Ht IH]; intros cur; [by rewrite app_nil_r|].
  cbn [app strtok_tokens]. destruct (Z.eqb_spec c 46); [lia|]. rewrite IH.
  by rewrite <- app_assoc.
Qed.

Lemma strtok_tokens_dotted toks :
  Forall is_octet toks -> strtok_tokens 46 [] (dotted toks) = toks.
Proof.
  induction 1 as [|t toks (Ht & Hl & _) Hts IH]; [done|].
  destruct toks as [|t' toks]; [cbn [dotted map concat]|rewrite dotted_cons by done];
    rewrite strtok_tokens_run by done; cbn [app strtok_tokens].
  - by destruct t; [simpl in Hl; lia|].
  - rewrite Z.eqb_refl, IH. by destruct t; [simpl in Hl; lia|].
Qed.

Lemma dotted_nul_free toks : Forall is_octet toks -> nul_free (dotted toks).
Proof.
  assert (Hd : forall t, is_octet t -> nul_free t).
  { intros t (Ht & _). eapply Forall_impl; [exact Ht|]. simpl. lia. }
  induction 1 as [|t toks Ht Hts IH]; [constructor|]. destruct toks as [|t' toks].
  - cbn. rewrite app_nil_r. auto.
  - rewrite dotted_cons by done. apply Forall_app. split; [auto|]. by constructor.
Qed.

(** [is_valid_ip] decides the dotted-quad syntax: it accepts a text (that
    fits its 1024-byte copy) exactly when it is four decimal bytes of one to
    three digits, each at most 255, joined by single points; leading zeros are
    allowed, signs, spaces, empty fields and stray points are not. *)
Theorem is_valid_ip_spec s r :
  nul_free s -> zlen s < 1024 ->
  exists ok, is_valid_ip (s ++ 0 :: r) = Some ok /\
    (ok = true <->
     exists a b c d, Forall is_octet [a; b; c; d] /\ s = dotted [a; b; c; d]).
Proof.
  intros Hs Hlen. unfold is_valid_ip. rewrite cstr_text by done. cbn [mbind option_bind].
  rewrite (proj2 (Z.ltb_ge _ _)) by lia. eexists; split; [done|].
  pose proof (strtok_tokens_length 46 s []) as Hl.
  destruct (strtok_tokens_count s []) as [_ Hc]. cbn [app] in Hc.
  destruct (ip_tokens _ 0 0) as [[n l]|] eqn:Hip.
  - apply ip_tokens_spec in Hip as (Ho & -> & ->). rewrite negb_true_iff, orb_false_iff.
    rewrite !negb_false_iff, !Z.eqb_eq. split.
    + intros [H4 H3]. specialize (Hc ltac:(zlen_lia)).
      destruct (strtok_tokens 46 [] s) as [|a [|b [|c [|d [|]]]]]; try (simpl in H4; lia).
      by exists a, b, c, d.
    + intros (a & b & c & d & Ho' & ->). rewrite strtok_tokens_dotted by done.
      split; [done|]. cbn [dotted map concat]. clear. zlen_lia.
  - split; [done|]. intros (a & b & c & d & Ho' & ->).
    rewrite strtok_tokens_dotted in Hip by done.
    assert (ip_tokens [a; b; c; d] 0 0 = Some (0 + 4, 0 + zlen (concat [a; b; c; d]))) by (by apply ip_tokens_spec).
    congruence.
Qed.

Lemma is_valid_ip_spec_witness :
  exists ok, is_valid_ip (codes "10.0.0.255" ++ [0]) = Some ok /\
    (ok = true <-> exists a b c d, Forall is_octet [a; b; c; d] /\
       codes "10.0.0.255" = dotted [a; b; c; d]).
Proof.
  apply (is_valid_ip_spec (codes "10.0.0.255") []).
  - repeat constructor; discriminate.
  - reflexivity.
Defined.
