(* ===== verification/Generic.v ===== *)
(** * hq_generic.c, hq_generic.h: generic routines

    Bit reversal, checksums, the three table-driven CRC16s, the memory
    primitives, the command-line executor, averages, BCD and temperature-unit
    conversion.  A [const void *] is the list of cells from the pointer on; the
    destination of a copy is the whole object and an index. *)
From S2P Require Import Prelude CFloat Str.

(** ** Bit order and checksums *)

(** [for (i = n; i != 0; i--)] of the two reversals; [tr] is the width of [ret]. *)
Fixpoint reverse_loop (tr : Z -> Z) (n : nat) (ret data : Z) : Z :=
  match n with
  | O => ret
  | S n =>
      let ret := tr (Z.shiftl ret 1) in
      let ret := if Z.land data 1 =? 0 then ret else Z.lor ret 1 in
      reverse_loop tr n ret (Z.shiftr data 1)
  end.
Definition reverse_u8 (data : Z) : Z := reverse_loop u8 8 0 data.
Definition reverse_u16 (data : Z) : Z := u16 (reverse_loop u32 16 0 data).

Fixpoint checksum_loop (src : list Z) (len dec sum : Z) : option Z :=
  if len =? 0 then Some sum
  else match src with
       | [] => None
       | c :: src' => checksum_loop src' (len - dec) dec (u32 (sum + c))
       end.
Definition checksum_u8 (data : list Z) (len : Z) : option Z :=
  s ← checksum_loop data len 1 0; Some (u8 s).
(** [data] is the list of 16-bit cells; [len] counts bytes. *)
Definition checksum_u16 (data : list Z) (len : Z) : option Z :=
  s ← checksum_loop data len 2 0; Some (u16 s).

(** ** CRC16 *)

Definition CRC16_CCITT_TABLE : list Z :=
  [0x0000; 0x1021; 0x2042; 0x3063; 0x4084; 0x50A5; 0x60C6; 0x70E7;
   0x8108; 0x9129; 0xA14A; 0xB16B; 0xC18C; 0xD1AD; 0xE1CE; 0xF1EF].
Definition CRC16_IBM_TABLE : list Z :=
  [0x0000; 0x8005; 0x800F; 0x000A; 0x801B; 0x001E; 0x0014; 0x8011;
   0x8033; 0x0036; 0x003C; 0x8039; 0x0028; 0x802D; 0x8027; 0x0022].
Definition CRC16_RTU_TABLE : list Z :=
  [0x0000; 0xCC01; 0xD801; 0x1400; 0xF001; 0x3C00; 0x2800; 0xE401;
   0xA001; 0x6C00; 0x7800; 0xB401; 0x5000; 0x9C01; 0x8801; 0x4400].

(** [crc = (crc << 4) ^ TABLE[(crc >> 12) ^ nib]] on an [unsigned short]. *)
Definition msb_nibble (table : list Z) (crc nib : Z) : option Z :=
  t ← ld table (Z.lxor (Z.shiftr crc 12) nib);
  Some (u16 (Z.lxor (Z.shiftl crc 4) t)).
Definition msb_byte (table : list Z) (crc data : Z) : option Z :=
  crc ← msb_nibble table crc (Z.land (Z.shiftr data 4) 15);
  msb_nibble table crc (Z.land data 15).

(** One byte of the reflected CRC: low nibble first. *)
Definition lsb_nibble (table : list Z) (crc nib : Z) : option Z :=
  let idx := Z.lxor (Z.land crc 15) nib in
  let crc := Z.shiftr crc 4 in
  t ← ld table idx;
  Some (Z.lxor crc t).
Definition lsb_byte (table : list Z) (crc data : Z) : option Z :=
  crc ← lsb_nibble table crc (Z.land data 15);
  lsb_nibble table crc (Z.land (Z.shiftr data 4) 15).

(** [while (len-- != 0)] over the bytes. *)
Fixpoint crc_loop (byte : Z -> Z -> option Z) (data : list Z) (len crc : Z) : option Z :=
  if len =? 0 then Some crc
  else match data with
       | [] => None
       | b :: data' => crc' ← byte crc b; crc_loop byte data' (len - 1) crc'
       end.
Definition crc16_CCITT (buff : list Z) (len : Z) : option Z :=
  crc_loop (msb_byte CRC16_CCITT_TABLE) buff len 0.
Definition crc16_IBM (buff : list Z) (len : Z) : option Z :=
  crc_loop (msb_byte CRC16_IBM_TABLE) buff len 0.
Definition crc16_RTU (buff : list Z) (len : Z) : option Z :=
  crc_loop (lsb_byte CRC16_RTU_TABLE) buff len 65535.

(** ** Memory primitives *)

(** Result: the destination object and the index past the copy. *)
Fixpoint mem_copy (dest : list Z) (d : Z) (src : list Z) (len : Z) : option (list Z * Z) :=
  if len =? 0 then Some (dest, d)
  else match src with
       | [] => None
       | c :: src' => dest' ← st dest d c; mem_copy dest' (d + 1) src' (len - 1)
       end.

(** A negative [len] never meets the exit test: the loop leaves the object. *)
Fixpoint mem_set_loop (n : nat) (dest : list Z) (d data : Z) : option (list Z * Z) :=
  match n with
  | O => Some (dest, d)
  | S n => dest' ← st dest d data; mem_set_loop n dest' (d + 1) data
  end.
Definition mem_set (dest : list Z) (d len data : Z) : option (list Z * Z) :=
  if len <? 0 then None else mem_set_loop (Z.to_nat len) dest d data.

Fixpoint mem_comp (mem1 mem2 : list Z) (len : Z) : option Z :=
  if len =? 0 then Some 0
  else match mem1, mem2 with
       | a :: m1, b :: m2 =>
           if a <? b then Some (-1) else if b <? a then Some 1
           else mem_comp m1 m2 (len - 1)
       | _, _ => None
       end.

(** Result: the offset of the first occurrence, [None] inside for NULL. *)
Fixpoint mem_search (start : list Z) (len data : Z) : option (option Z) :=
  if len =? 0 then Some None
  else match start with
       | [] => None
       | c :: start' =>
           if c =? data then Some (Some 0)
           else r ← mem_search start' (len - 1) data; Some (option_map (Z.add 1) r)
       end.

Fixpoint mem_search_s_loop (pos : list Z) (len : Z) (str : list Z) (str_len : Z)
  : option (option Z) :=
  if len <? str_len then Some None
  else
    r ← mem_comp pos str str_len;
    if r =? 0 then Some (Some 0)
    else match pos with
         | [] => None
         | _ :: pos' =>
             q ← mem_search_s_loop pos' (len - 1) str str_len;
             Some (option_map (Z.add 1) q)
         end.
Definition mem_search_s (buff : list Z) (len : Z) (str : list Z) : option (option Z) :=
  str_len ← string_length str;
  mem_search_s_loop buff len str str_len.

(** ** The command executor *)

Definition CMD_ARG_MAX_CNT : Z := 8.
Definition CMD_SUCCESS : Z := 0.
Definition CMD_PARAMETER : Z := 1.
Definition CMD_FAILED : Z := 2.
Definition CMD_NOT_FOUND : Z := 3.
Definition CMD_NO_RESP : Z := 4.

(** An entry of a command table; the functions are the client's.  The table's
    closing entry (id 0) is the end of the list. *)
Record command_entry_t := mk_command_entry {
  id : list Z;
  function : option (list Z -> list Z -> Z)  (* buffer, argv *)
}.

(** [while (test( *pos)) pos++;] : the number of cells skipped. *)
Fixpoint skip_while (test : Z -> bool) (s : list Z) : option Z :=
  match s with
  | [] => None
  | c :: s' => if test c then n ← skip_while test s'; Some (n + 1) else Some 0
  end.
Definition is_blank (c : Z) : bool := (c =? 32) || (c =? 9).
Definition is_eol (c : Z) : bool := (c =? 0) || (c =? 13) || (c =? 10).
Definition in_word (c : Z) : bool := negb (is_blank c || is_eol c).

(** The [for (;;)] of the parser: the buffer it leaves and [argv]. *)
Fixpoint cmd_parse (fuel : nat) (m : list Z) (start : Z) (argv : list Z)
  : option (list Z * list Z) :=
  match fuel with
  | O => None
  | S fuel =>
      n ← skip_while in_word (drop (Z.to_nat start) m);
      let pos := start + n in
      let argv := if pos =? start then argv else argv ++ [start] in
      c ← ld m pos;
      if is_eol c || (zlen argv =? CMD_ARG_MAX_CNT) then
        m' ← st m pos 0; Some (m', argv)
      else
        m' ← st m pos 0;
        k ← skip_while is_blank (drop (Z.to_nat (pos + 1)) m');
        cmd_parse fuel m' (pos + 1 + k) argv
  end.

(** The search reads [argv[0]]: with no argument it is uninitialised. *)
Fixpoint cmd_search (cmd_table : list command_entry_t) (m argv : list Z) : option Z :=
  match cmd_table with
  | [] => Some CMD_NOT_FOUND
  | e :: table' =>
      a0 ← head argv;
      r ← string_comp (id e) (drop (Z.to_nat a0) m);
      match r =? 0, function e with
      | true, Some f => Some (f m argv)
      | _, _ => cmd_search table' m argv
      end
  end.

Definition command_execute (cmd_buffer : list Z) (cmd_table : list command_entry_t) : option Z :=
  r ← cmd_parse (S (length cmd_buffer)) cmd_buffer 0 [];
  cmd_search cmd_table (fst r) (snd r).

(** ** Averages *)

Fixpoint sum_loop (array : list Z) (cnt : nat) (sum : Z) : option Z :=
  match cnt, array with
  | O, _ => Some sum
  | S n, x :: array' => sum_loop array' n (s64 (sum + x))
  | _, [] => None
  end.
(** No test of [cnt]: dividing by zero is undefined. *)
Definition average (array : list Z) (cnt : Z) : option Z :=
  s ← sum_loop array (Z.to_nat cnt) 0;
  if cnt =? 0 then None else Some (s32 (Z.quot s cnt)).

Fixpoint sum_f_loop (array : list spec_float) (cnt : nat) (sum : spec_float)
  : option spec_float :=
  match cnt, array with
  | O, _ => Some sum
  | S n, x :: array' => sum_f_loop array' n (f64_add sum (f64_of_f32 x))
  | _, [] => None
  end.
Definition average_f (array : list spec_float) (cnt : Z) : option spec_float :=
  if cnt =? 0 then Some f_zero
  else
    s ← sum_f_loop array (Z.to_nat cnt) f_zero;
    Some (f32_of_f64 (f64_div s (f64_of_Z cnt))).

(** [rand()] returned [r]; [RAND_MAX] is the C library's. *)
Definition get_random_value (RAND_MAX r : Z) (min max : spec_float) : spec_float :=
  let rand_fraction := f32_div (f32_of_Z r) (f32_of_Z RAND_MAX) in
  f32_add min (f32_mul rand_fraction (f32_sub max min)).

(** ** BCD, 0 to 99 *)
Definition to_BCD (n : Z) : Z := Z.lor (Z.shiftl (n / 10) 4) (n mod 10).
Definition from_BCD (n : Z) : Z :=
  Z.land (Z.shiftr n 4) 15 * 10 + Z.land n 15.

(** ** Temperature units: 'C' = 67, 'F' = 70, 'K' = 75 *)
Definition C_TO_K (c : spec_float) : spec_float :=
  f32_div (f32_add (f32_mul c (f32_of_Z 100)) (f32_of_Z 27315)) (f32_of_Z 100).
Definition C_TO_F (c : spec_float) : spec_float :=
  f32_div (f32_add (f32_mul c (f32_of_Z 1800)) (f32_of_Z 32000)) (f32_of_Z 1000).
Definition F_TO_C (f : spec_float) : spec_float :=
  f32_div (f32_sub (f32_mul f (f32_of_Z 1000)) (f32_of_Z 32000)) (f32_of_Z 1800).
Definition F_TO_K (f : spec_float) : spec_float :=
  f32_add (f32_div (f32_mul (f32_sub f (f32_of_Z 32)) (f32_of_Z 5)) (f32_of_Z 9))
          (f32_lit 27315 100).
Definition K_TO_C (k : spec_float) : spec_float :=
  f32_div (f32_sub (f32_mul k (f32_of_Z 100)) (f32_of_Z 27315)) (f32_of_Z 100).
Definition K_TO_F (k : spec_float) : spec_float :=
  f32_add (f32_div (f32_mul (f32_sub k (f32_lit 27315 100)) (f32_of_Z 9)) (f32_of_Z 5))
          (f32_of_Z 32).

Definition convert_celsius (c : spec_float) (unit : Z) : spec_float :=
  if unit =? 70 then C_TO_F c else if unit =? 75 then C_TO_K c else c.

Definition convert_uint (c : spec_float) (unit_src uint_target : Z) : spec_float :=
  if unit_src =? 67 then
    if uint_target =? 70 then C_TO_F c else if uint_target =? 75 then C_TO_K c else c
  else if unit_src =? 70 then
    if uint_target =? 67 then F_TO_C c else if uint_target =? 75 then F_TO_K c else c
  else if unit_src =? 75 then
    if uint_target =? 70 then K_TO_F c else if uint_target =? 67 then K_TO_C c else c
  else c.

Example crc16_RTU_check : crc16_RTU (codes "123456789") 9 = Some 0x4B37.
Proof. vm_compute. reflexivity. Qed.
Example crc16_CCITT_check : crc16_CCITT (codes "123456789") 9 = Some 0x31C3.
Proof. vm_compute. reflexivity. Qed.
Example average_ex : average [1; 2; -9] 3 = Some (-2).
Proof. vm_compute. reflexivity. Qed.
Example c_to_f_ex : convert_celsius (f32_of_Z 100) 70 = f32_of_Z 212.
Proof. vm_compute. reflexivity. Qed.

(** * Properties *)

(** ** CRC16: the nibble tables compute polynomial division *)

Section BitwiseCrc.
Variable poly : Z.

(** One bit of the most-significant-first division. *)
Definition msb_bit (crc : Z) : Z :=
  Z.lxor (u16 (Z.shiftl crc 1)) (if Z.testbit crc 15 then poly else 0).
(** One bit of the reflected division. *)
Definition lsb_bit (crc : Z) : Z :=
  Z.lxor (Z.shiftr crc 1) (if Z.testbit crc 0 then poly else 0).

(** A byte enters the register and is divided bit by bit. *)
Definition msb_byte_ref (crc data : Z) : Z :=
  Nat.iter 8 msb_bit (Z.lxor crc (Z.shiftl data 8)).
Definition lsb_byte_ref (crc data : Z) : Z :=
  Nat.iter 8 lsb_bit (Z.lxor crc data).
End BitwiseCrc.

Lemma lxor_mod k a b : 0 <= k -> Z.lxor a b mod 2 ^ k = Z.lxor (a mod 2 ^ k) (b mod 2 ^ k).
Proof.
  intros Hk. apply Z.bits_inj'. intros n Hn. rewrite Z.lxor_spec.
  destruct (Z.lt_ge_cases n k).
  - by rewrite !Z.mod_pow2_bits_low, Z.lxor_spec by lia.
  - by rewrite !Z.mod_pow2_bits_high by lia.
Qed.
Lemma u16_lxor a b : u16 (Z.lxor a b) = Z.lxor (u16 a) (u16 b).
Proof. by apply lxor_mod. Qed.

Lemma lxor_bound n a b : 0 <= n -> 0 <= a < 2 ^ n -> 0 <= b < 2 ^ n -> 0 <= Z.lxor a b < 2 ^ n.
Proof.
  intros Hn Ha Hb. split; [apply Z.lxor_nonneg; lia|].
  destruct (Z.eq_dec (Z.lxor a b) 0) as [->|]; [apply Z.pow_pos_nonneg; lia|].
  assert (0 <= Z.lxor a b) by (apply Z.lxor_nonneg; lia).
  apply Z.log2_lt_pow2; [lia|]. eapply Z.le_lt_trans; [apply Z.log2_lxor; lia|].
  destruct (Z.eq_dec n 0) as [->|].
  { assert (a = 0) by lia. assert (b = 0) by lia. subst. done. }
  apply Z.max_lub_lt.
  - destruct (Z.eq_dec a 0) as [->|]; [change (Z.log2 0) with 0; lia|]. apply Z.log2_lt_pow2; lia.
  - destruct (Z.eq_dec b 0) as [->|]; [change (Z.log2 0) with 0; lia|]. apply Z.log2_lt_pow2; lia.
Qed.

Lemma msb_bit_lxor poly a b : msb_bit poly (Z.lxor a b) = Z.lxor (msb_bit poly a) (msb_bit poly b).
Proof.
  unfold msb_bit. rewrite Z.shiftl_lxor, u16_lxor, Z.lxor_spec.
  destruct (Z.testbit a 15), (Z.testbit b 15); cbn [xorb];
    apply Z.bits_inj'; intros n Hn; rewrite !Z.lxor_spec, ?Z.bits_0;
    by destruct (Z.testbit (u16 _) n), (Z.testbit (u16 _) n), (Z.testbit poly n).
Qed.
Lemma lsb_bit_lxor poly a b : lsb_bit poly (Z.lxor a b) = Z.lxor (lsb_bit poly a) (lsb_bit poly b).
Proof.
  unfold lsb_bit. rewrite Z.shiftr_lxor, Z.lxor_spec.
  destruct (Z.testbit a 0), (Z.testbit b 0); cbn [xorb];
    apply Z.bits_inj'; intros n Hn; rewrite !Z.lxor_spec, ?Z.bits_0;
    by destruct (Z.testbit (Z.shiftr a 1) n), (Z.testbit (Z.shiftr b 1) n), (Z.testbit poly n).
Qed.

Section Linear.
Variables (step : Z -> Z).
Hypothesis step_lxor : forall a b, step (Z.lxor a b) = Z.lxor (step a) (step b).
Lemma iter_lxor n a b : Nat.iter n step (Z.lxor a b) = Z.lxor (Nat.iter n step a) (Nat.iter n step b).
Proof. induction n as [|n IH]; [done|]. by rewrite !Nat.iter_succ, IH. Qed.
End Linear.

(** Four bits of a register whose top nibble is clear are a plain shift. *)
Lemma msb_iter4_low poly lo : 0 <= lo < 4096 -> Nat.iter 4 (msb_bit poly) lo = Z.shiftl lo 4.
Proof.
  assert (Hb : forall x, 0 <= x < 2 ^ 15 -> msb_bit poly x = Z.shiftl x 1).
  { intros x Hx. unfold msb_bit. rewrite Z.shiftl_mul_pow2, u16_small by lia.
    replace (Z.testbit x 15) with false; [rewrite Z.lxor_0_r; lia|].
    symmetry. apply Z.testbit_false; [lia|]. by rewrite Z.div_small by lia. }
  assert (Hs : forall x, Z.shiftl x 1 = 2 * x) by (intros; rewrite Z.shiftl_mul_pow2; lia).
  intros Hlo. cbv [Nat.iter nat_rect]. rewrite (Hb lo), Hs, (Hb (2 * lo)), Hs by lia.
  rewrite (Hb (2 * (2 * lo))), Hs, Hb, Hs, Z.shiftl_mul_pow2 by lia. lia.
Qed.
Lemma lsb_iter4_high poly hi : 0 <= hi -> Nat.iter 4 (lsb_bit poly) (hi * 16) = hi.
Proof.
  assert (Hb : forall x, lsb_bit poly (x * 2) = x).
  { intros x. unfold lsb_bit. rewrite Z.shiftr_div_pow2, Z.div_mul by lia.
    rewrite Z.bit0_odd, Z.odd_mul. cbn. rewrite andb_false_r. apply Z.lxor_0_r. }
  intros Hhi. cbv [Nat.iter nat_rect]. replace (hi * 16) with (hi * 2 * 2 * 2 * 2) by lia.
  by rewrite !Hb.
Qed.

Lemma lxor_disjoint_split x k : 0 <= k -> 0 <= x -> Z.lxor (Z.shiftl (Z.shiftr x k) k) (x mod 2 ^ k) = x.
Proof.
  intros Hk Hx. apply Z.bits_inj'. intros n Hn. rewrite Z.lxor_spec.
  destruct (Z.lt_ge_cases n k).
  - by rewrite Z.shiftl_spec_low, Z.mod_pow2_bits_low by lia.
  - rewrite Z.shiftl_spec_high, Z.shiftr_spec, Z.mod_pow2_bits_high by lia.
    rewrite xorb_false_r. f_equal. lia.
Qed.

Lemma nibbles data :
  0 <= data < 256 ->
  exists h l, 0 <= h < 16 /\ 0 <= l < 16 /\ data = Z.lxor (Z.shiftl h 4) l /\
    Z.land (Z.shiftr data 4) 15 = h /\ Z.land data 15 = l.
Proof.
  intros Hd. exists (Z.shiftr data 4), (data mod 2 ^ 4). change 15 with (Z.ones 4).
  rewrite !Z.land_ones, lxor_disjoint_split by lia.
  rewrite Z.shiftr_div_pow2 by lia. change (2 ^ 4) with 16.
  pose proof (Z.mod_pos_bound data 16). rewrite (Z.mod_small (data / 16) 16) by zdm. repeat split; zdm.
Qed.

Section Tables.
Variables (poly : Z) (table : list Z).
Hypothesis poly_range : 0 <= poly < 2 ^ 16.

Lemma msb_bit_range crc : 0 <= msb_bit poly crc < 2 ^ 16.
Proof.
  apply lxor_bound; [lia|apply u16_range|]. destruct (Z.testbit crc 15); lia.
Qed.
Lemma lsb_bit_range crc : 0 <= crc < 2 ^ 16 -> 0 <= lsb_bit poly crc < 2 ^ 16.
Proof.
  intros. apply lxor_bound; [lia| |destruct (Z.testbit crc 0); lia].
  rewrite Z.shiftr_div_pow2 by lia. zdm.
Qed.
Lemma iter_range f n crc :
  (forall c, 0 <= c < 2 ^ 16 -> 0 <= f c < 2 ^ 16) ->
  0 <= crc < 2 ^ 16 -> 0 <= Nat.iter n f crc < 2 ^ 16.
Proof. intros Hf Hc. induction n; [done|]. rewrite Nat.iter_succ. auto. Qed.

Section Msb.
Hypothesis table_msb : forall i, 0 <= i < 16 ->
  ld table i = Some (Nat.iter 4 (msb_bit poly) (Z.shiftl i 12)).

Lemma msb_nibble_ref crc nib :
  0 <= crc < 2 ^ 16 -> 0 <= nib < 16 ->
  msb_nibble table crc nib
  = Some (Nat.iter 4 (msb_bit poly) (Z.lxor crc (Z.shiftl nib 12))).
Proof.
  intros Hc Hn. unfold msb_nibble.
  assert (Hh : 0 <= Z.shiftr crc 12 < 16) by (rewrite Z.shiftr_div_pow2; zdm || lia).
  rewrite table_msb by (apply (lxor_bound 4); lia). cbn [mbind option_bind]. f_equal.
  rewrite u16_lxor, (u16_small (Nat.iter _ _ _)).
  2:{ rewrite Nat.iter_succ. apply msb_bit_range. }
  rewrite <- (lxor_disjoint_split crc 12) at 3 by lia.
  pose proof (Z.mod_pos_bound crc (2 ^ 12)).
  rewrite (Z.lxor_comm (Z.shiftl (Z.shiftr crc 12) 12)), Z.lxor_assoc, <- Z.shiftl_lxor.
  rewrite (iter_lxor _ (msb_bit_lxor poly)), (msb_iter4_low poly (crc mod 2 ^ 12)) by lia.
  f_equal.
  unfold u16. rewrite !Z.shiftl_mul_pow2 by lia. change (2 ^ 16) with (2 ^ 12 * 2 ^ 4).
  by rewrite Z.mul_mod_distr_r by lia.
Qed.

Lemma msb_byte_eq crc data :
  0 <= crc < 2 ^ 16 -> is_byte data ->
  msb_byte table crc data = Some (msb_byte_ref poly crc data).
Proof.
  intros Hc Hd. destruct (nibbles data Hd) as (h & l & Hh & Hl & -> & Eh & El).
  unfold msb_byte, msb_byte_ref. rewrite Eh, El, msb_nibble_ref by done.
  cbn [mbind option_bind]. rewrite msb_nibble_ref; [|rewrite Nat.iter_succ; apply msb_bit_range|done].
  f_equal. change 8%nat with (4 + 4)%nat. rewrite Nat.iter_add. f_equal.
  rewrite Z.shiftl_lxor, Z.shiftl_shiftl, <- Z.lxor_assoc by lia.
  rewrite (iter_lxor _ (msb_bit_lxor poly) _ _ (Z.shiftl l 8)), (msb_iter4_low poly (Z.shiftl l 8)).
  - by rewrite Z.shiftl_shiftl by lia.
  - rewrite Z.shiftl_mul_pow2; lia.
Qed.
End Msb.

Section Lsb.
Hypothesis table_lsb : forall i, 0 <= i < 16 ->
  ld table i = Some (Nat.iter 4 (lsb_bit poly) i).

Lemma lsb_nibble_ref crc nib :
  0 <= crc -> 0 <= nib < 16 ->
  lsb_nibble table crc nib = Some (Nat.iter 4 (lsb_bit poly) (Z.lxor crc nib)).
Proof.
  intros Hc Hn. unfold lsb_nibble. change 15 with (Z.ones 4).
  rewrite Z.land_ones by lia. pose proof (Z.mod_pos_bound crc (2 ^ 4)).
  rewrite table_lsb by (apply (lxor_bound 4); lia). cbn [mbind option_bind]. f_equal.
  rewrite <- (lxor_disjoint_split crc 4) at 3 by lia.
  rewrite Z.lxor_assoc, (iter_lxor _ (lsb_bit_lxor poly) _ (Z.shiftl (Z.shiftr crc 4) 4)).
  rewrite (Z.shiftl_mul_pow2 _ 4) by lia. change (2 ^ 4) with 16.
  rewrite (lsb_iter4_high poly); [done|].
  apply Z.shiftr_nonneg. lia.
Qed.

Lemma lsb_byte_eq crc data :
  0 <= crc < 2 ^ 16 -> is_byte data ->
  lsb_byte table crc data = Some (lsb_byte_ref poly crc data).
Proof.
  intros Hc Hd. destruct (nibbles data Hd) as (h & l & Hh & Hl & -> & Eh & El).
  unfold lsb_byte, lsb_byte_ref. rewrite Eh, El, lsb_nibble_ref by lia.
  cbn [mbind option_bind]. rewrite lsb_nibble_ref; [| |done].
  - f_equal. change 8%nat with (4 + 4)%nat. rewrite Nat.iter_add. f_equal.
    rewrite (Z.lxor_comm (Z.shiftl h 4)), <- Z.lxor_assoc, (iter_lxor _ (lsb_bit_lxor poly) _ _ (Z.shiftl h 4)).
    rewrite (Z.shiftl_mul_pow2 h) by lia. change (2 ^ 4) with 16.
    by rewrite (lsb_iter4_high poly) by lia.
  - apply (iter_range (lsb_bit poly)); [apply lsb_bit_range|]. apply lxor_bound; lia.
Qed.
End Lsb.
End Tables.

Lemma crc_loop_ref byte ref buff rest crc :
  (forall c b, 0 <= c < 2 ^ 16 -> is_byte b ->
     byte c b = Some (ref c b) /\ 0 <= ref c b < 2 ^ 16) ->
  0 <= crc < 2 ^ 16 -> bytes buff ->
  crc_loop byte (buff ++ rest) (zlen buff) crc = Some (fold_left ref buff crc) /\
  0 <= fold_left ref buff crc < 2 ^ 16.
Proof.
  intros Hbyte Hc Hb. revert crc Hc. induction Hb as [|b buff Hb Hbs IH]; intros crc Hc.
  { by destruct rest. }
  cbn [app crc_loop fold_left]. rewrite (proj2 (Z.eqb_neq _ _)) by zlen_lia.
  destruct (Hbyte crc b Hc Hb) as [-> Hr]. cbn [mbind option_bind].
  replace (zlen (b :: buff) - 1) with (zlen buff) by zlen_lia. auto.
Qed.

Lemma table_check (f : Z -> Z) table :
  forallb (fun i => bool_decide (ld table (Z.of_nat i) = Some (f (Z.of_nat i)))) (seq 0 16) = true ->
  forall i, 0 <= i < 16 -> ld table i = Some (f i).
Proof.
  intros H i Hi.
  pose proof (all_below (fun i => bool_decide (ld table i = Some (f i))) 16 H i Hi) as E.
  by apply bool_decide_eq_true in E.
Qed.

Lemma msb_byte_step poly table c b :
  0 <= poly < 2 ^ 16 ->
  (forall i, 0 <= i < 16 -> ld table i = Some (Nat.iter 4 (msb_bit poly) (Z.shiftl i 12))) ->
  0 <= c < 2 ^ 16 -> is_byte b ->
  msb_byte table c b = Some (msb_byte_ref poly c b) /\ 0 <= msb_byte_ref poly c b < 2 ^ 16.
Proof.
  intros Hp Ht Hc Hb. split; [by apply msb_byte_eq|].
  unfold msb_byte_ref. rewrite Nat.iter_succ. by apply msb_bit_range.
Qed.

Lemma lsb_byte_ref_range poly c b :
  0 <= poly < 2 ^ 16 -> 0 <= c < 2 ^ 16 -> is_byte b -> 0 <= lsb_byte_ref poly c b < 2 ^ 16.
Proof.
  intros Hp Hc Hb. apply iter_range; [intros; by apply lsb_bit_range|].
  apply lxor_bound; unfold is_byte in Hb; lia.
Qed.

Lemma lsb_byte_step poly table c b :
  0 <= poly < 2 ^ 16 ->
  (forall i, 0 <= i < 16 -> ld table i = Some (Nat.iter 4 (lsb_bit poly) i)) ->
  0 <= c < 2 ^ 16 -> is_byte b ->
  lsb_byte table c b = Some (lsb_byte_ref poly c b) /\ 0 <= lsb_byte_ref poly c b < 2 ^ 16.
Proof.
  intros Hp Ht Hc Hb. split; [by apply lsb_byte_eq | by apply lsb_byte_ref_range].
Qed.

(** The bit-by-bit checksums the tables stand for. *)
Definition crc16_ccitt_ref (buff : list Z) : Z := fold_left (msb_byte_ref 0x1021) buff 0.
Definition crc16_ibm_ref (buff : list Z) : Z := fold_left (msb_byte_ref 0x8005) buff 0.
Definition crc16_rtu_ref (buff : list Z) : Z := fold_left (lsb_byte_ref 0xA001) buff 0xFFFF.

Lemma crc16_RTU_ref buff rest :
  bytes buff ->
  crc16_RTU (buff ++ rest) (zlen buff) = Some (crc16_rtu_ref buff) /\
  0 <= crc16_rtu_ref buff < 2 ^ 16.
Proof.
  intros Hb. apply crc_loop_ref; [|lia|done]. intros. apply lsb_byte_step; [lia| |done..].
  by apply table_check.
Qed.

(** [C30] The three nibble-table CRCs are polynomial division bit by bit, for
    buffers of every length: CCITT (0x1021) and IBM (0x8005) most significant
    bit first from 0, ModBus RTU (0xA001) reflected from 0xFFFF. *)
Theorem crc16_tables_correct buff rest :
  bytes buff ->
  crc16_CCITT (buff ++ rest) (zlen buff) = Some (crc16_ccitt_ref buff) /\
  crc16_IBM (buff ++ rest) (zlen buff) = Some (crc16_ibm_ref buff) /\
  crc16_RTU (buff ++ rest) (zlen buff) = Some (crc16_rtu_ref buff).
Proof.
  intros Hb. split; [|split]; [| |by apply crc16_RTU_ref]; apply crc_loop_ref;
    try lia; try done; intros; apply msb_byte_step; try lia; try done; by apply table_check.
Qed.

Lemma crc16_tables_correct_witness :
  crc16_CCITT ([0x12; 0xFF] ++ [7]) 2 = Some (crc16_ccitt_ref [0x12; 0xFF]) /\
  crc16_IBM ([0x12; 0xFF] ++ [7]) 2 = Some (crc16_ibm_ref [0x12; 0xFF]) /\
  crc16_RTU ([0x12; 0xFF] ++ [7]) 2 = Some (crc16_rtu_ref [0x12; 0xFF]).
Proof.
  apply (crc16_tables_correct [0x12; 0xFF] [7]).
  repeat constructor; discriminate.
Defined.

(** ** CRC16: error detection *)

Lemma lxor_cancel_r a b c : Z.lxor a c = Z.lxor b c -> a = b.
Proof.
  intros H. apply (f_equal (fun z => Z.lxor z c)) in H.
  by rewrite !Z.lxor_assoc, Z.lxor_nilpotent, !Z.lxor_0_r in H.
Qed.

Section Injective.
Variable poly : Z.
Hypothesis poly_top : Z.testbit poly 15 = true.
Hypothesis poly_range : 0 <= poly < 2 ^ 16.

Lemma lsb_bit_zero x : 0 <= x < 2 ^ 16 -> lsb_bit poly x = 0 -> x = 0.
Proof.
  intros Hx H. unfold lsb_bit in H. apply Z.lxor_eq in H.
  assert (H15 : Z.testbit (Z.shiftr x 1) 15 = false).
  { rewrite Z.shiftr_spec by lia. apply Z.testbit_false; [lia|]. by rewrite Z.div_small. }
  destruct (Z.testbit x 0) eqn:H0; [congruence|].
  apply Z.bits_inj'. intros n Hn. rewrite Z.bits_0.
  destruct (Z.eq_dec n 0) as [->|]; [done|].
  replace n with (n - 1 + 1) by lia. rewrite <- Z.shiftr_spec, H by lia. apply Z.bits_0.
Qed.
Lemma lsb_iter_zero n x : 0 <= x < 2 ^ 16 -> Nat.iter n (lsb_bit poly) x = 0 -> x = 0.
Proof.
  intros Hx. induction n as [|n IH]; [done|]. rewrite Nat.iter_succ. intros H.
  apply IH, lsb_bit_zero; [|done]. apply iter_range; [|done].
  intros. by apply lsb_bit_range.
Qed.
Lemma lsb_iter8_shift b : 0 <= b -> Nat.iter 8 (lsb_bit poly) (b * 256) = b.
Proof.
  intros. change 8%nat with (4 + 4)%nat. rewrite Nat.iter_add.
  replace (b * 256) with (b * 16 * 16) by lia. by rewrite !(lsb_iter4_high poly) by lia.
Qed.
Lemma lsb_byte_ref_lxor c b :
  lsb_byte_ref poly c b = Z.lxor (lsb_byte_ref poly c 0) (lsb_byte_ref poly 0 b).
Proof.
  unfold lsb_byte_ref. rewrite (iter_lxor _ (lsb_bit_lxor poly)), Z.lxor_0_r.
  by rewrite Z.lxor_0_l.
Qed.
Lemma lsb_byte_ref_0 c : lsb_byte_ref poly c 0 = Nat.iter 8 (lsb_bit poly) c.
Proof. unfold lsb_byte_ref. by rewrite Z.lxor_0_r. Qed.
Lemma lsb_byte_ref_inj c c' b :
  0 <= c < 2 ^ 16 -> 0 <= c' < 2 ^ 16 ->
  lsb_byte_ref poly c b = lsb_byte_ref poly c' b -> c = c'.
Proof.
  intros Hc Hc' H. rewrite (lsb_byte_ref_lxor c), (lsb_byte_ref_lxor c') in H.
  apply lxor_cancel_r in H. rewrite !lsb_byte_ref_0 in H.
  apply Z.lxor_eq, (lsb_iter_zero 8); [by apply (lxor_bound 16)|].
  rewrite (iter_lxor _ (lsb_bit_lxor poly)), H. apply Z.lxor_nilpotent.
Qed.
(** Running the same bytes from two registers keeps them apart. *)
Lemma lsb_fold_inj buff c c' :
  bytes buff -> 0 <= c < 2 ^ 16 -> 0 <= c' < 2 ^ 16 ->
  fold_left (lsb_byte_ref poly) buff c = fold_left (lsb_byte_ref poly) buff c' -> c = c'.
Proof.
  intros Hb. revert c c'. induction Hb as [|b buff Hb Hbs IH]; intros c c' Hc Hc' H.
  - exact H.
  - rewrite !fold_left_step in H.
    apply IH in H; [|by apply lsb_byte_ref_range..]. by apply lsb_byte_ref_inj in H.
Qed.
(** Two bytes are the 16 bits of the register. *)
Lemma lsb_two_bytes c a b :
  0 <= b -> 
  lsb_byte_ref poly (lsb_byte_ref poly c a) b
  = Nat.iter 16 (lsb_bit poly) (Z.lxor c (Z.lxor a (b * 256))).
Proof.
  intros Hb. unfold lsb_byte_ref. change 16%nat with (8 + 8)%nat. rewrite Nat.iter_add. f_equal.
  by rewrite <- Z.lxor_assoc, (iter_lxor _ (lsb_bit_lxor poly) 8 (Z.lxor c a) (b * 256)), lsb_iter8_shift.
Qed.
Lemma two_bytes_split x y :
  0 <= x < 256 -> 0 <= y < 256 ->
  0 <= Z.lxor x (y * 256) < 2 ^ 16 /\
  Z.lxor x (y * 256) mod 2 ^ 8 = x /\ Z.shiftr (Z.lxor x (y * 256)) 8 = y.
Proof.
  intros Hx Hy. split; [apply (lxor_bound 16); lia|].
  rewrite Z.shiftr_lxor, !Z.shiftr_div_pow2 by lia.
  change (y * 256) with (y * 2 ^ 8). rewrite Z.div_mul, Z.div_small, Z.lxor_0_l by lia.
  split; [|done]. by rewrite lxor_mod, Z.mod_mul, Z.lxor_0_r, Z.mod_small by lia.
Qed.

Lemma lsb_burst c a b a' b' :
  0 <= c < 2 ^ 16 -> bytes [a; b] -> bytes [a'; b'] ->
  lsb_byte_ref poly (lsb_byte_ref poly c a) b = lsb_byte_ref poly (lsb_byte_ref poly c a') b' ->
  a = a' /\ b = b'.
Proof.
  intros Hc Hab Hab' H. rewrite !Forall_cons in Hab, Hab'.
  destruct Hab as (Ha & Hb & _), Hab' as (Ha' & Hb' & _). unfold is_byte in *.
  destruct (two_bytes_split a b Ha Hb) as (R & E1 & E2).
  destruct (two_bytes_split a' b' Ha' Hb') as (R' & E1' & E2').
  rewrite !lsb_two_bytes, !(iter_lxor _ (lsb_bit_lxor _) 16 c) in H by lia.
  assert (Hx : Z.lxor a (b * 256) = Z.lxor a' (b' * 256)); [|split; congruence].
  apply Z.lxor_eq, (lsb_iter_zero 16); [by apply (lxor_bound 16)|].
  rewrite (iter_lxor _ (lsb_bit_lxor _)).
  apply (f_equal (Z.lxor (Nat.iter 16 (lsb_bit poly) c))) in H.
  rewrite <- !Z.lxor_assoc, Z.lxor_nilpotent, !Z.lxor_0_l in H. by rewrite H, Z.lxor_nilpotent.
Qed.

Lemma fold_two (f : Z -> Z -> Z) x y d : fold_left f [x; y] d = f (f d x) y.
Proof. reflexivity. Qed.

Lemma lsb_fold_burst pre a b a' b' post c :
  bytes pre -> bytes [a; b] -> bytes [a'; b'] -> bytes post -> 0 <= c < 2 ^ 16 ->
  fold_left (lsb_byte_ref poly) (pre ++ [a; b] ++ post) c
  = fold_left (lsb_byte_ref poly) (pre ++ [a'; b'] ++ post) c -> (a, b) = (a', b').
Proof.
  intros Hpre Hab Hab' Hpost Hc. rewrite !fold_left_app.
  assert (Hc' : 0 <= fold_left (lsb_byte_ref poly) pre c < 2 ^ 16).
  { revert c Hc. induction Hpre as [|x pre Hx Hpre IH]; intros c Hc; [done|].
    rewrite fold_left_step. by apply IH, lsb_byte_ref_range. }
  revert Hc'. generalize (fold_left (lsb_byte_ref poly) pre c) as d. intros d Hd H.
  rewrite !fold_two in H.
  assert (R : forall x y, bytes [x; y] ->
    0 <= lsb_byte_ref poly (lsb_byte_ref poly d x) y < 2 ^ 16).
  { intros x y Hxy. rewrite !Forall_cons in Hxy. destruct Hxy as (? & ? & _).
    do 2 (apply lsb_byte_ref_range; try done). }
  apply lsb_fold_inj in H; [|exact Hpost|by apply R|by apply R].
  destruct (lsb_burst d a b a' b' Hd Hab Hab' H) as [-> ->]. reflexivity.
Qed.
End Injective.

Lemma crc16_RTU_all buff : bytes buff -> crc16_RTU buff (zlen buff) = Some (crc16_rtu_ref buff).
Proof. intros Hb. rewrite <- (app_nil_r buff) at 1. by apply crc16_RTU_ref. Qed.

(** Error detection of the frame checksum: two buffers of equal length that
    differ only inside two adjacent bytes (every error burst of up to 9 bits,
    and every 16-bit burst that starts on a byte boundary) never have the same
    [crc16_RTU]. *)
Theorem crc16_RTU_detects_burst pre a b a' b' post :
  bytes (pre ++ [a; b] ++ post) -> bytes [a'; b'] -> (a, b) <> (a', b') ->
  crc16_RTU (pre ++ [a; b] ++ post) (zlen (pre ++ [a; b] ++ post))
  <> crc16_RTU (pre ++ [a'; b'] ++ post) (zlen (pre ++ [a'; b'] ++ post)).
Proof.
  intros Hb Hb' Hne. rewrite !Forall_app in Hb. destruct Hb as (Hpre & Hab & Hpost).
  rewrite !crc16_RTU_all by (by rewrite !Forall_app). intros H. apply Hne.
  refine (lsb_fold_burst 0xA001 eq_refl _ pre a b a' b' post 0xFFFF Hpre Hab Hb' Hpost _ (inj Some _ _ H)); lia.
Qed.

Lemma crc16_RTU_detects_burst_witness :
  crc16_RTU ([1] ++ [2; 3] ++ [4]) 4 <> crc16_RTU ([1] ++ [0x82; 0xC0] ++ [4]) 4.
Proof.
  apply (crc16_RTU_detects_burst [1] 2 3 0x82 0xC0 [4]).
  - repeat constructor; discriminate.
  - repeat constructor; discriminate.
  - discriminate.
Defined.

(** ** Searching memory *)

Lemma mem_comp_spec n m1 m2 :
  (n <= length m1)%nat -> (n <= length m2)%nat ->
  exists c, mem_comp m1 m2 (Z.of_nat n) = Some c /\ (c = 0 <-> take n m1 = take n m2).
Proof.
  revert m1 m2. induction n as [|n IH]; intros m1 m2 H1 H2.
  - exists 0. by destruct m1.
  - destruct m1 as [|a m1], m2 as [|b m2]; try (simpl in *; lia).
    cbn [mem_comp]. rewrite (proj2 (Z.eqb_neq _ _)) by lia.
    replace (Z.of_nat (S n) - 1) with (Z.of_nat n) by lia.
    destruct (Z.ltb_spec a b); [exists (-1); split; [done|]; split; [done|intros [= ? _]; lia]|].
    destruct (Z.ltb_spec b a); [exists 1; split; [done|]; split; [done|intros [= ? _]; lia]|].
    assert (a = b) as -> by lia. destruct (IH m1 m2) as (c & -> & Hc); [simpl in *; lia..|].
    exists c. split; [done|]. cbn. rewrite Hc. split; [by intros ->|by intros [= ->]].
Qed.

(** The [zlen s] cells from index [k]. *)
Definition window (buff s : list Z) (k : Z) : list Z := take (length s) (drop (Z.to_nat k) buff).

Lemma window_cons x buff s k : 0 <= k -> window (x :: buff) s (k + 1) = window buff s k.
Proof. intros. unfold window. by replace (Z.to_nat (k + 1)) with (S (Z.to_nat k)) by lia. Qed.

(** [mem_search_s] finds the first occurrence: with [len] cells to search,
    it returns the smallest offset at which the text lies wholly inside them,
    and NULL exactly when there is none. *)
Theorem mem_search_s_first buff len s r :
  nul_free s -> 0 <= len <= zlen buff ->
  exists q, mem_search_s buff len (s ++ 0 :: r) = Some q /\
    match q with
    | Some k => 0 <= k /\ k + zlen s <= len /\ window buff s k = s /\
                forall j, 0 <= j < k -> window buff s j <> s
    | None => forall j, 0 <= j -> j + zlen s <= len -> window buff s j <> s
    end.
Proof.
  intros Hs Hlen. unfold mem_search_s. rewrite string_length_text by done. cbn [mbind option_bind].
  revert len Hlen. induction buff as [|x buff IH]; intros len Hlen; cbn [mem_search_s_loop];
    (destruct (Z.ltb_spec len (zlen s)) as [|Hge]; [exists None; split; [done|]; intros; lia|]).
  - assert (s = []) as -> by (destruct s; [done|zlen_lia]). exists (Some 0). simpl.
    split; [done|]. split; [lia|]. split; [zlen_lia|]. split; [done|]. lia.
  - destruct (mem_comp_spec (length s) (x :: buff) (s ++ 0 :: r)) as (c & -> & Hc); [zlen_lia..|].
    rewrite take_app_length in Hc. cbn [mbind option_bind].
    destruct (Z.eqb_spec c 0) as [E|E].
    + exists (Some 0). split; [done|]. split; [lia|]. split; [lia|]. split; [by apply Hc|lia].
    + destruct (Z.eq_dec len 0) as [->|].
      { assert (s = []) as -> by (destruct s; [done|zlen_lia]). destruct E. by apply Hc. }
      assert (window (x :: buff) s 0 <> s) by (intros E'; by apply E, Hc).
      destruct (IH (len - 1)) as (q & -> & Hq); [zlen_lia|].
      exists (option_map (Z.add 1) q). split; [done|]. destruct q as [k|]; cbn [option_map].
      * destruct Hq as (? & ? & ? & Hmin). rewrite (Z.add_comm 1), window_cons by done.
        do 2 (split; [lia|]). split; [done|]. intros j Hj.
        destruct (Z.eq_dec j 0) as [->|]; [done|]. replace j with (j - 1 + 1) by lia.
        rewrite window_cons by lia. apply Hmin. lia.
      * intros j Hj Hjl. destruct (Z.eq_dec j 0) as [->|]; [done|].
        replace j with (j - 1 + 1) by lia. rewrite window_cons by lia. apply Hq; lia.
Qed.

Lemma mem_search_s_first_witness :
  exists q, mem_search_s [65; 66; 66; 67] 4 ([66; 67] ++ [0]) = Some q /\
    match q with
    | Some k => 0 <= k /\ k + zlen [66; 67] <= 4 /\ window [65; 66; 66; 67] [66; 67] k = [66; 67] /\
                forall j, 0 <= j < k -> window [65; 66; 66; 67] [66; 67] j <> [66; 67]
    | None => forall j, 0 <= j -> j + zlen [66; 67] <= 4 -> window [65; 66; 66; 67] [66; 67] j <> [66; 67]
    end.
Proof.
  apply (mem_search_s_first [65; 66; 66; 67] 4 [66; 67] []).
  - repeat constructor; discriminate.
  - split; discriminate.
Defined.

(** ** The command line *)

(** The words of a line: runs of characters that are neither blank nor end of
    line, up to the end of line. *)
Fixpoint line_words (cur : list Z) (s : list Z) : list (list Z) :=
  let flush := match cur with [] => [] | _ => [cur] end in
  match s with
  | [] => flush
  | c :: s' =>
      if is_eol c then flush
      else if is_blank c then flush ++ line_words [] s'
      else line_words (cur ++ [c]) s'
  end.

Lemma skip_while_spec test s c r :
  Forall (fun x => test x = true) s -> test c = false ->
  skip_while test (s ++ c :: r) = Some (zlen s).
Proof.
  intros Hs Hc. induction Hs as [|x s Hx Hs IH]; cbn [app skip_while]; [by rewrite Hc|].
  rewrite Hx, IH. cbn. f_equal. zlen_lia.
Qed.

(** A maximal run, when something ends it. *)
Lemma split_run (test : Z -> bool) s :
  Exists (fun c => test c = false) s ->
  exists w c r, s = w ++ c :: r /\ Forall (fun x => test x = true) w /\ test c = false.
Proof.
  induction 1 as [c s Hc|x s Hs (w & c & r & -> & Hw & Hc)].
  - exists [], c, s. auto.
  - destruct (test x) eqn:Hx.
    + exists (x :: w), c, r. auto.
    + exists [], x, (w ++ c :: r). auto.
Qed.

Lemma line_words_run cur w s :
  Forall (fun x => in_word x = true) w -> line_words cur (w ++ s) = line_words (cur ++ w) s.
Proof.
  intros Hw. revert cur. induction Hw as [|c w Hc Hw IH]; intros cur; [by rewrite app_nil_r|].
  cbn [app line_words]. unfold in_word in Hc. zify_bool. rewrite H, H0, IH.
  by rewrite <- app_assoc.
Qed.
Lemma line_words_blanks b s :
  Forall (fun x => is_blank x = true) b -> line_words [] (b ++ s) = line_words [] s.
Proof.
  induction 1 as [|c b Hc Hb IH]; [done|]. cbn [app line_words]. rewrite Hc, IH.
  assert (is_eol c = false) as ->; [|done].
  unfold is_blank, is_eol in *. apply orb_true_iff in Hc. rewrite !Z.eqb_eq in Hc.
  by destruct Hc as [-> | ->].
Qed.

(** The words the argument pointers see in the final buffer. *)
Definition args_are (m : list Z) (argv : list Z) (ws : list (list Z)) : Prop :=
  Forall2 (fun a w => cstr (drop (Z.to_nat a) m) = Some w) argv ws.

Lemma cstr_app s w r : cstr s = Some w -> cstr (s ++ r) = Some w.
Proof.
  revert w. induction s as [|c s IH]; intros w H; [done|]. cbn [app cstr] in *.
  destruct (c =? 0); [done|]. destruct (cstr s) as [w'|]; [|done]. cbn in H.
  by rewrite (IH w').
Qed.
Lemma args_are_app m argv ws r : args_are m argv ws -> args_are (m ++ r) argv ws.
Proof.
  intros H. eapply Forall2_impl; [exact H|]. intros a w Hw. cbn beta in *.
  destruct (decide (Z.to_nat a <= length m)%nat).
  - rewrite drop_app_le by done. by apply cstr_app.
  - rewrite drop_ge in Hw by lia. done.
Qed.
Lemma args_are_snoc m argv ws w :
  args_are m argv ws -> nul_free w -> args_are (m ++ w ++ [0]) (argv ++ [zlen m]) (ws ++ [w]).
Proof.
  intros H Hw. apply Forall2_app; [by apply args_are_app|]. repeat constructor.
  rewrite drop_zlen_app. by apply cstr_text.
Qed.

Lemma in_word_nul_free w : Forall (fun x => in_word x = true) w -> nul_free w.
Proof.
  intros H. eapply Forall_impl; [exact H|]. intros x Hx ->. done.
Qed.

Lemma cmd_parse_spec fuel pre rest argv ws :
  (length rest < fuel)%nat -> Exists (fun c => is_eol c = true) rest ->
  args_are pre argv ws -> (length argv < 8)%nat ->
  exists m' argv',
    cmd_parse fuel (pre ++ rest) (zlen pre) argv = Some (m', argv') /\
    length m' = length (pre ++ rest) /\
    args_are m' argv' (take 8 (ws ++ line_words [] rest)).
Proof.
  revert pre rest argv ws. induction fuel as [|fuel IH]; intros pre rest argv ws Hf Heol Hargs Hlt; [lia|].
  pose proof (Forall2_length _ _ _ Hargs) as Hlen.
  destruct (split_run in_word rest) as (w & c & r & -> & Hw & Hc).
  { eapply Exists_impl; [exact Heol|]. intros x Hx. unfold in_word. rewrite Hx.
    by rewrite orb_true_r. }
  cbn [cmd_parse]. rewrite drop_zlen_app, (skip_while_spec in_word w) by done. cbn [mbind option_bind].
  rewrite line_words_run by done. cbn [app line_words].
  set (argv1 := if zlen pre + zlen w =? zlen pre then argv else argv ++ [zlen pre]).
  set (ws1 := match w with [] => [] | _ => [w] end).
  assert (Hargs1 : args_are (pre ++ w ++ [0]) argv1 (ws ++ ws1) /\ (length argv1 <= 8)%nat).
  { unfold argv1, ws1. destruct (Z.eqb_spec (zlen pre + zlen w) (zlen pre)) as [E|E].
    - destruct w; [|zlen_lia]. rewrite app_nil_r. split; [by apply args_are_app|lia].
    - destruct w as [|x w]; [zlen_lia|]. split; [|zlen_lia].
      apply args_are_snoc; [done|]. by apply in_word_nul_free. }
  destruct Hargs1 as [Hargs1 Hle].
  pose proof (Forall2_length _ _ _ Hargs1) as Hlen1.
  replace (pre ++ w ++ c :: r) with ((pre ++ w) ++ c :: r) by (by rewrite <- app_assoc).
  replace (zlen pre + zlen w) with (zlen (pre ++ w)) by zlen_lia.
  rewrite (ld_mid (pre ++ w)), (st_mid (pre ++ w)) by done. cbn [mbind option_bind].
  replace ((pre ++ w) ++ 0 :: r) with ((pre ++ w ++ [0]) ++ r) by (by rewrite <- !app_assoc).
  destruct (is_eol c || _) eqn:Hstop.
  - exists ((pre ++ w ++ [0]) ++ r), argv1. split; [done|]. split; [zlen_lia|].
    apply args_are_app. destruct (is_eol c) eqn:He; fold ws1.
    + by rewrite take_ge by lia.
    + assert (is_blank c = true) as ->.
      { unfold in_word in Hc. rewrite He, orb_false_r in Hc. by apply negb_false_iff in Hc. }
      apply Z.eqb_eq in Hstop. unfold CMD_ARG_MAX_CNT in Hstop.
      rewrite (app_assoc ws), take_app_length' by lia. done.
  - apply orb_false_iff in Hstop as [He H8]. apply Z.eqb_neq in H8. unfold CMD_ARG_MAX_CNT in H8.
    assert (Hb : is_blank c = true).
    { unfold in_word in Hc. rewrite He, orb_false_r in Hc. by apply negb_false_iff in Hc. }
    replace (zlen (pre ++ w) + 1) with (zlen (pre ++ w ++ [0])) by zlen_lia.
    rewrite drop_zlen_app. rewrite He, Hb. fold ws1.
    assert (Heol' : Exists (fun c => is_eol c = true) r).
    { apply Exists_app in Heol as [Heol|Heol].
      - apply Exists_exists in Heol as (x & Hx & Hex). rewrite Forall_forall in Hw.
        specialize (Hw x Hx). unfold in_word in Hw. by rewrite Hex, orb_true_r in Hw.
      - inversion Heol; [congruence|done]. }
    destruct (split_run is_blank r) as (b & c2 & r2 & -> & Hbl & Hc2).
    { eapply Exists_impl; [exact Heol'|]. intros x Hx. unfold is_eol, is_blank in *.
      rewrite !orb_true_iff, !Z.eqb_eq in Hx. by destruct Hx as [[-> | ->] | ->]. }
    rewrite (skip_while_spec is_blank b) by done. cbn [mbind option_bind].
    rewrite line_words_blanks by done. rewrite (app_assoc (pre ++ w ++ [0])).
    replace (zlen (pre ++ w ++ [0]) + zlen b) with (zlen ((pre ++ w ++ [0]) ++ b)) by zlen_lia.
    destruct (IH ((pre ++ w ++ [0]) ++ b) (c2 :: r2) argv1 (ws ++ ws1)) as (m' & argv' & -> & Hl & Ha).
    + zlen_lia.
    + apply Exists_app in Heol' as [Hx|]; [|done]. apply Exists_exists in Hx as (x & Hx & Hex).
      rewrite Forall_forall in Hbl. specialize (Hbl x Hx). unfold is_eol, is_blank in *.
      rewrite !orb_true_iff, !Z.eqb_eq in Hex. by destruct Hex as [[-> | ->] | ->].
    + by apply args_are_app.
    + lia.
    + exists m', argv'. split; [done|]. split; [|by rewrite (app_assoc ws)].
      rewrite Hl. clear. zlen_lia.
Qed.

(** The command-line parser: on every terminated line it stops inside the
    buffer, finds at most [CMD_ARG_MAX_CNT] arguments, and each argument
    pointer then sees, NUL-terminated in the same buffer, the corresponding
    word of the line (words are separated by blanks and tabs and end at CR, LF
    or NUL). *)
Theorem cmd_parse_words line r :
  exists m argv,
    cmd_parse (S (length (line ++ 0 :: r))) (line ++ 0 :: r) 0 [] = Some (m, argv) /\
    length m = length (line ++ 0 :: r) /\ zlen argv <= CMD_ARG_MAX_CNT /\
    args_are m argv (take 8 (line_words [] (line ++ 0 :: r))).
Proof.
  destruct (cmd_parse_spec (S (length (line ++ 0 :: r))) [] (line ++ 0 :: r) [] [])
    as (m & argv & Hp & Hl & Ha); [lia| |constructor|simpl; lia|].
  - apply Exists_app. right. by constructor.
  - exists m, argv. split; [exact Hp|]. split; [exact Hl|]. split; [|exact Ha].
    apply Forall2_length in Ha. rewrite length_take in Ha. unfold CMD_ARG_MAX_CNT. lia.
Qed.

(** ** Copies and residues for the packet formats *)

Lemma mem_copy_put dest (d : nat) src (n : nat) :
  (n <= length src)%nat -> (d + n <= length dest)%nat ->
  mem_copy dest (Z.of_nat d) src (Z.of_nat n) = Some (put d (take n src) dest, Z.of_nat (d + n)).
Proof.
  revert dest d src. induction n as [|n IH]; intros dest d src Hs Hd.
  - destruct src; cbn [mem_copy Z.eqb Z.of_nat take]; unfold put; cbn [app length]; rewrite Nat.add_0_r, take_drop; done.
  - destruct src as [|c src]; [simpl in Hs; lia|]. cbn [mem_copy].
    rewrite (proj2 (Z.eqb_neq _ _)) by lia. rewrite st_Some by lia. cbn [mbind option_bind]. rewrite Nat2Z.id.
    replace (Z.of_nat d + 1) with (Z.of_nat (S d)) by lia. replace (Z.of_nat (S n) - 1) with (Z.of_nat n) by lia.
    simpl length in Hs. rewrite IH by (rewrite ?length_insert; lia). f_equal. f_equal; [|f_equal; lia].
    apply list_eq. intros i. cbn [take].
    assert (Ht : length (take n src) = n) by (rewrite length_take; lia).
    destruct (decide (i < d \/ d + S n <= i)%nat).
    + rewrite !put_lookup_out by (rewrite ?length_insert; simpl length; lia). apply list_lookup_insert_ne. lia.
    + rewrite (put_lookup_in d) by (simpl length; lia). destruct (decide (i = d)) as [->|].
      * rewrite Nat.sub_diag. cbn [lookup list_lookup]. rewrite put_lookup_out by (rewrite ?length_insert; lia).
        apply list_lookup_insert_eq. lia.
      * rewrite (put_lookup_in (S d)) by (rewrite ?length_insert; lia).
        replace (i - d)%nat with (S (i - S d)) by lia. done.
Qed.

(** A message followed by its own checksum, low byte first, has checksum 0. *)
Lemma lsb_byte_ref_own poly c : 0 <= c < 2 ^ 16 -> lsb_byte_ref poly c (c mod 256) = c / 256.
Proof.
  intros Hc. unfold lsb_byte_ref.
  replace (Z.lxor c (c mod 256)) with (c / 256 * 16 * 16).
  - change 8%nat with (4 + 4)%nat. rewrite Nat.iter_add, lsb_iter4_high, lsb_iter4_high; [done| |];
      pose proof (Z.div_pos c 256); lia.
  - rewrite <- Z.mul_assoc. change (16 * 16) with (2 ^ 8). change 256 with (2 ^ 8).
    apply Z.bits_inj'. intros n Hn. rewrite Z.lxor_spec. destruct (Z.lt_ge_cases n 8).
    + rewrite Z.mul_pow2_bits_low, Z.mod_pow2_bits_low by lia. by rewrite xorb_nilpotent.
    + rewrite Z.mul_pow2_bits, Z.mod_pow2_bits_high, Z.div_pow2_bits by lia. rewrite xorb_false_r. f_equal. lia.
Qed.
Lemma crc16_rtu_ref_range buff : bytes buff -> 0 <= crc16_rtu_ref buff < 2 ^ 16.
Proof. intros Hb. by destruct (crc16_RTU_ref buff [] Hb). Qed.
Lemma crc16_rtu_residue buff : bytes buff ->
  crc16_rtu_ref (buff ++ le_encode 2 (crc16_rtu_ref buff)) = 0.
Proof.
  intros Hb. pose proof (crc16_rtu_ref_range buff Hb) as Hr. unfold crc16_rtu_ref at 1.
  rewrite fold_left_app. fold (crc16_rtu_ref buff). set (c := crc16_rtu_ref buff) in *.
  cbn [le_encode fold_left]. rewrite lsb_byte_ref_own by done.
  assert (Hq : 0 <= c / 256 < 2 ^ 16) by zdm.
  rewrite lsb_byte_ref_own by done. zdm.
Qed.
