(* ===== verification/Filter.v ===== *)
(** * hq_filter.c: smoothing filters

    Exponential moving average, the sliding window with its trimmed mean (a
    quick-select over a copy of the window), and the peak and valley holds.
    [rand()] of the C library is a stream of non-negative integers: the client
    supplies it and the position reached is threaded through. *)
From S2P Require Import Prelude CFloat.

(** ** Exponential moving average *)

Record exp_mov_avg_t := mk_ema {
  shadow : spec_float;     (* float *)
  decay : spec_float;      (* double *)
  is_initialized : Z;
  is_biased : Z
}.

Definition init_ema (decay : spec_float) (biased : Z) : exp_mov_avg_t :=
  mk_ema f_zero decay 0 biased.

(** [cache] is the static [decay_power_cache]; result: the structure, the
    cache and the [double] returned. *)
Definition update_ema (avg : exp_mov_avg_t) (cache data : spec_float)
  : exp_mov_avg_t * spec_float * spec_float :=
  let cache := f64_mul cache (decay avg) in
  if is_initialized avg =? 0 then
    (mk_ema data (decay avg) 1 (is_biased avg), cache, f64_of_f32 data)
  else
    let sh := f32_of_f64
      (f64_add (f64_mul (decay avg) (f64_of_f32 data))
               (f64_mul (f64_sub (f64_of_Z 1) (decay avg)) (f64_of_f32 (shadow avg)))) in
    (mk_ema sh (decay avg) (is_initialized avg) (is_biased avg), cache,
     if negb (is_biased avg =? 0)
     then f64_div (f64_of_f32 sh) (f64_sub (f64_of_Z 1) cache)
     else f64_of_f32 sh).

(** ** Quick-select *)

Definition swap (arr : list Z) (a b : Z) : option (list Z) :=
  x ← ld arr a; y ← ld arr b;
  arr1 ← st arr a y; st arr1 b x.

(** [n] iterations of [for (j = low; j <= high - 1; j++)] remain. *)
Fixpoint partition_loop (n : nat) (arr : list Z) (pivot i j : Z) : option (list Z * Z) :=
  match n with
  | O => Some (arr, i)
  | S n =>
      x ← ld arr j;
      if x <=? pivot then
        arr' ← swap arr (i + 1) j; partition_loop n arr' pivot (i + 1) (j + 1)
      else partition_loop n arr pivot i (j + 1)
  end.
Definition partition (arr : list Z) (low high : Z) : option (list Z * Z) :=
  pivot ← ld arr high;
  r ← partition_loop (Z.to_nat (high - low)) arr pivot (low - 1) low;
  let '(arr1, i) := r in
  arr2 ← swap arr1 (i + 1) high;
  Some (arr2, i + 1).

(** [while (low <= high)]; result: the array, the value and the stream position. *)
Fixpoint select_loop (fuel : nat) (rand : nat -> Z) (pos : nat) (arr : list Z) (low high k : Z)
  : option (list Z * Z * nat) :=
  match fuel with
  | O => None
  | S fuel =>
      if low <=? high then
        let random_index := low + Z.rem (rand pos) (high - low + 1) in
        arr1 ← swap arr random_index high;
        r ← partition arr1 low high;
        let '(arr2, pivot_index) := r in
        let left_size := pivot_index - low + 1 in
        if left_size =? k then
          v ← ld arr2 pivot_index; Some (arr2, v, S pos)
        else if k <? left_size then
          select_loop fuel rand (S pos) arr2 low (pivot_index - 1) k
        else
          select_loop fuel rand (S pos) arr2 (pivot_index + 1) high (k - left_size)
      else Some (arr, -1, pos)
  end.
Definition quick_select (rand : nat -> Z) (pos : nat) (arr : list Z) (low high k : Z)
  : option (list Z * Z * nat) :=
  if (k <=? 0) || (high - low + 1 <? k) then Some (arr, -1, pos)
  else select_loop (S (length arr)) rand pos arr low high k.

(** ** The trimmed mean *)

(** [n] iterations from index [i]. *)
Fixpoint band_loop (n : nat) (data : list Z) (i start end_ sum count : Z)
  : option (Z * Z) :=
  match n with
  | O => Some (sum, count)
  | S n =>
      x ← ld data i;
      if (start <=? x) && (x <=? end_)
      then band_loop n data (i + 1) start end_ (s64 (sum + x)) (s32 (count + 1))
      else band_loop n data (i + 1) start end_ sum count
  end.

Definition calculate_filtered_average (rand : nat -> Z) (pos : nat)
    (data : list Z) (size : Z) (filter_rate : spec_float) : option (list Z * Z * nat) :=
  let num_to_remove :=
    f_to_s32 (f32_mul (f32_mul filter_rate (f32_lit 1 2)) (f32_of_Z size)) in
  r1 ← quick_select rand pos data 0 (size - 1) (num_to_remove + 1);
  let '(data1, start, pos1) := r1 in
  r2 ← quick_select rand pos1 data1 0 (size - 1) (size - num_to_remove);
  let '(data2, end_, pos2) := r2 in
  b ← band_loop (Z.to_nat size) data2 0 start end_ 0 0;
  let '(sum, count) := b in
  Some (data2, if 0 <? count then Z.quot sum count else -1, pos2).

(** ** The sliding window *)

Definition FILTER_LEN_MAX : Z := 500.

Record slid_remove_t := mk_slid {
  buff : list Z;   (* long long buff[FILTER_LEN_MAX] *)
  front : Z;       (* int *)
  count : Z        (* uint32_t; the member [sum] is never used *)
}.

(** Sum of [n] cells from offset [i] behind [front]. *)
Fixpoint ring_sum (n : nat) (b : list Z) (front i sum : Z) : option Z :=
  match n with
  | O => Some sum
  | S n =>
      x ← ld b (Z.rem (front + i) FILTER_LEN_MAX);
      ring_sum n b front (i + 1) (s64 (sum + x))
  end.
(** Copy of the same cells into [buff_copy]. *)
Fixpoint ring_copy (n : nat) (b : list Z) (front i : Z) (buff_copy : list Z) : option (list Z) :=
  match n with
  | O => Some buff_copy
  | S n =>
      x ← ld b (Z.rem (front + i) FILTER_LEN_MAX);
      copy' ← st buff_copy i x;
      ring_copy n b front (i + 1) copy'
  end.

(** The [size] changed on the fly: the oldest samples go. *)
Definition slid_shrink (s : slid_remove_t) (size : Z) : slid_remove_t :=
  if u32 size <? count s then
    let remove_count := s32 (u32 (count s - size)) in
    mk_slid (buff s) (Z.rem (s32 (front s + remove_count)) FILTER_LEN_MAX) (u32 size)
  else s.

Definition slid_push (s : slid_remove_t) (size new_data : Z) : option slid_remove_t :=
  let write_pos := u32 (front s + count s) mod FILTER_LEN_MAX in
  b ← st (buff s) write_pos new_data;
  Some (if u32 size <=? count s
        then mk_slid b (Z.rem (s32 (front s + 1)) FILTER_LEN_MAX) (count s)
        else mk_slid b (front s) (u32 (count s + 1))).

(** Result: the structure, the scratch copy, the average and the stream
    position.  A [size] of 0 divides by zero at the end. *)
Definition sliding_remove_average (rand : nat -> Z) (pos : nat) (s : slid_remove_t)
    (size new_data : Z) (buff_copy : list Z)
  : option (slid_remove_t * list Z * Z * nat) :=
  let size := if FILTER_LEN_MAX <? size then FILTER_LEN_MAX else size in
  s ← slid_push (slid_shrink s size) size new_data;
  if count s <? u32 size then
    sum ← ring_sum (Z.to_nat (count s)) (buff s) (front s) 0 0;
    Some (s, buff_copy, Z.quot sum (count s), pos)
  else
    copy ← ring_copy (Z.to_nat size) (buff s) (front s) 0 buff_copy;
    r ← calculate_filtered_average rand pos copy size (f32_lit 2 10);
    let '(copy', filtered_volt, pos') := r in
    if filtered_volt =? -1 then
      sum ← ring_sum (Z.to_nat size) (buff s) (front s) 0 0;
      if size =? 0 then None else Some (s, copy', Z.quot sum size, pos')
    else Some (s, copy', filtered_volt, pos').

(** ** Peak and valley hold *)

(** [300.0f] of app_cfg.h; the comparison with [int size] is in [float]. *)
Definition HOLDING_TIME_UPPER : spec_float := f32_of_Z 300.

Record slid_holding_t := mk_hold { hdata : Z; hcount : Z (* uint32_t *) }.

(** The two filters differ in the comparison that replaces the held value. *)
Definition holding_filter (better : Z -> Z -> bool) (s : slid_holding_t) (size new_data : Z)
  : slid_holding_t * Z :=
  if f_eq (f32_of_Z size) HOLDING_TIME_UPPER && negb (hcount s =? 0) then (s, hdata s)
  else
    let s := if size =? 0 then mk_hold new_data 0 else s in
    if hcount s =? 0 then (mk_hold new_data (u32 (hcount s + 1)), new_data)
    else
      let s := if better new_data (hdata s) then mk_hold new_data 1 else s in
      (s, hdata s).
Definition peak_holding_fliter := holding_filter (fun new held => held <? new).
Definition valley_holding_fliter := holding_filter (fun new held => new <? held).

(** * Properties *)

(** ** Swap and partition *)

Lemma swap_same arr i j x : i = j -> ld arr j = Some x -> swap arr i j = Some arr.
Proof.
  intros -> H. unfold swap. rewrite H. cbn [mbind option_bind].
  assert (Hr : 0 <= j < zlen arr) by (apply ld_is_Some; eauto).
  rewrite st_Some by done. cbn [mbind option_bind]. rewrite st_Some by zlen_lia.
  rewrite list_insert_insert_eq. f_equal. apply list_insert_id. by apply ld_Some_iff.
Qed.

Lemma swap_apart a x b y c i j :
  i = zlen a -> j = zlen a + 1 + zlen b ->
  swap (a ++ x :: b ++ y :: c) i j = Some (a ++ y :: b ++ x :: c).
Proof.
  intros -> ->. unfold swap. rewrite (ld_mid a _ x (zlen a)) by done. cbn [mbind option_bind].
  replace (a ++ x :: b ++ y :: c) with ((a ++ x :: b) ++ y :: c) by (by rewrite <- app_assoc).
  rewrite (ld_mid (a ++ x :: b) _ y) by zlen_lia. cbn [mbind option_bind].
  rewrite <- app_assoc. cbn [app]. rewrite (st_mid a) by done. cbn [mbind option_bind].
  replace (a ++ y :: b ++ y :: c) with ((a ++ y :: b) ++ y :: c) by (by rewrite <- app_assoc).
  rewrite (st_mid (a ++ y :: b)) by zlen_lia. by rewrite <- app_assoc.
Qed.

Lemma partition_loop_spec rest : forall pre le gt p post i j,
  Forall (fun x => x <= p) le -> Forall (fun x => p < x) gt ->
  i = zlen pre + zlen le - 1 -> j = zlen pre + zlen le + zlen gt ->
  exists le' gt',
    partition_loop (length rest) (pre ++ le ++ gt ++ rest ++ p :: post) p i j
    = Some (pre ++ le' ++ gt' ++ p :: post, zlen pre + zlen le' - 1) /\
    le' ++ gt' ≡ₚ le ++ gt ++ rest /\
    Forall (fun x => x <= p) le' /\ Forall (fun x => p < x) gt'.
Proof.
  induction rest as [|x rest IH]; intros pre le gt p post i j Hle Hgt -> ->.
  { exists le, gt. rewrite app_nil_r. done. }
  cbn [length partition_loop app].
  assert (Hx : ld (pre ++ le ++ gt ++ x :: rest ++ p :: post) (zlen pre + zlen le + zlen gt) = Some x).
  { rewrite !app_assoc. apply ld_mid. zlen_lia. }
  rewrite Hx. cbn [mbind option_bind]. destruct (Z.leb_spec x p) as [Hxp|Hxp].
  - destruct gt as [|g gt].
    + rewrite (swap_same _ _ _ x); [|zlen_lia|done].
      cbn [mbind option_bind app].
      destruct (IH pre (le ++ [x]) [] p post (zlen pre + zlen le - 1 + 1) (zlen pre + zlen le + zlen (@nil Z) + 1))
        as (le' & gt' & E & P & H1 & H2); try zlen_lia; [|done|].
      { apply Forall_app. auto. }
      rewrite <- app_assoc in E. cbn [app] in E. exists le', gt'. split; [exact E|].
      split; [|done]. rewrite P. by rewrite <- app_assoc.
    + replace (pre ++ le ++ (g :: gt) ++ x :: rest ++ p :: post)
        with ((pre ++ le) ++ g :: gt ++ x :: rest ++ p :: post) by (by rewrite <- !app_assoc).
      rewrite swap_apart; [|zlen_lia..]. cbn [mbind option_bind]. inversion_clear Hgt.
      destruct (IH pre (le ++ [x]) (gt ++ [g]) p post (zlen pre + zlen le - 1 + 1)
        (zlen pre + zlen le + zlen (g :: gt) + 1)) as (le' & gt' & E & P & H1 & H2);
        [apply Forall_app; auto|apply Forall_app; auto|zlen_lia|zlen_lia|].
      rewrite <- !app_assoc in E. cbn [app] in E. rewrite <- app_assoc. exists le', gt'.
      split; [exact E|]. split; [|done]. rewrite P, <- !app_assoc. cbn [app].
      apply Permutation_app_head. rewrite <- !Permutation_middle. apply perm_swap.
  - destruct (IH pre le (gt ++ [x]) p post (zlen pre + zlen le - 1)
      (zlen pre + zlen le + zlen gt + 1)) as (le' & gt' & E & P & H1 & H2);
      [done|apply Forall_app; auto|zlen_lia|zlen_lia|].
    rewrite <- !app_assoc in E. cbn [app] in E. exists le', gt'. split; [exact E|].
    split; [|done]. rewrite P. by rewrite <- !app_assoc.
Qed.

Lemma partition_spec pre seg p post low high :
  low = zlen pre -> high = zlen pre + zlen seg ->
  exists le gt,
    partition (pre ++ seg ++ p :: post) low high
    = Some (pre ++ le ++ p :: gt ++ post, zlen pre + zlen le) /\
    le ++ gt ≡ₚ seg /\ Forall (fun x => x <= p) le /\ Forall (fun x => p < x) gt.
Proof.
  intros -> ->. unfold partition.
  assert (Hp : ld (pre ++ seg ++ p :: post) (zlen pre + zlen seg) = Some p).
  { rewrite app_assoc. apply ld_mid. zlen_lia. }
  rewrite Hp. cbn [mbind option_bind].
  replace (Z.to_nat (zlen pre + zlen seg - zlen pre)) with (length seg) by lia.
  destruct (partition_loop_spec seg pre [] [] p post (zlen pre - 1) (zlen pre))
    as (le & gt & E & P & H1 & H2); [done|done|zlen_lia|zlen_lia|].
  cbn [app] in E, P. rewrite E. cbn [mbind option_bind].
  assert (Hl : zlen le + zlen gt = zlen seg).
  { apply Permutation_length in P. rewrite length_app in P. lia. }
  destruct gt as [|g gt].
  - rewrite (swap_same _ _ _ p); [|zlen_lia|].
    + cbn [mbind option_bind app]. exists le, []. split; [do 2 f_equal; lia|done].
    + cbn [app]. rewrite app_assoc. apply ld_mid. zlen_lia.
  - replace (pre ++ le ++ (g :: gt) ++ p :: post) with ((pre ++ le) ++ g :: gt ++ p :: post)
      by (by rewrite <- !app_assoc).
    rewrite swap_apart; [|zlen_lia..]. cbn [mbind option_bind].
    exists le, (gt ++ [g]). split; [|split; [|split; [done|]]].
    + rewrite <- !app_assoc. cbn [app]. do 2 f_equal. lia.
    + rewrite <- P. apply Permutation_app_head. rewrite Permutation_app_comm. done.
    + inversion_clear H2. apply Forall_app. auto.
Qed.

(** A swap into the last cell of the segment. *)
Lemma swap_into_last pre seg post low idx high :
  low = zlen pre -> high = zlen pre + zlen seg - 1 -> low <= idx <= high ->
  exists seg' p, swap (pre ++ seg ++ post) idx high = Some (pre ++ seg' ++ p :: post) /\
    seg' ++ [p] ≡ₚ seg.
Proof.
  intros -> -> Hi. destruct (decide (idx = zlen pre + zlen seg - 1)) as [->|Hne].
  - destruct seg as [|s0 seg] using rev_ind; [zlen_lia|]. exists seg, s0. split; [|done].
    rewrite <- app_assoc. cbn [app]. apply (swap_same _ _ _ s0); [done|].
    rewrite app_assoc. apply ld_mid. zlen_lia.
  - destruct (lookup_lt_is_Some_2 seg (Z.to_nat (idx - zlen pre))) as [x Hx]; [lia|].
    apply list_elem_of_split_length in Hx as (s1 & s2 & -> & Hlen).
    destruct s2 as [|y s2] using rev_ind; [zlen_lia|].
    exists (s1 ++ y :: s2), x. split.
    + replace (pre ++ (s1 ++ x :: s2 ++ [y]) ++ post) with ((pre ++ s1) ++ x :: s2 ++ y :: post)
        by (rewrite <- !app_assoc; cbn; by rewrite <- !app_assoc).
      rewrite swap_apart; [|zlen_lia..]. by rewrite <- !app_assoc.
    + rewrite <- !app_assoc. cbn [app]. apply Permutation_app_head.
      rewrite Permutation_app_comm. cbn [app]. rewrite (Permutation_app_comm s2).
      cbn [app]. apply perm_swap.
Qed.

(** ** Order statistics *)

Definition count_lt (v : Z) (l : list Z) : Z := zlen (filter (fun x => x < v) l).
Definition count_le (v : Z) (l : list Z) : Z := zlen (filter (fun x => x <= v) l).

(** [v] is the k-th smallest element of [l], counting from 1. *)
Definition kth_smallest (l : list Z) (k v : Z) : Prop :=
  v ∈ l /\ count_lt v l < k <= count_le v l.

Lemma count_perm l l' v : l ≡ₚ l' -> count_lt v l = count_lt v l' /\ count_le v l = count_le v l'.
Proof. intros H. unfold count_lt, count_le. by rewrite !H. Qed.
Lemma kth_smallest_perm l l' k v : l ≡ₚ l' -> kth_smallest l k v -> kth_smallest l' k v.
Proof.
  intros P [Hin Hk]. destruct (count_perm _ _ v P) as [E1 E2].
  split; [by rewrite <- P|]. by rewrite <- E1, <- E2.
Qed.
Lemma count_app l l' v :
  count_lt v (l ++ l') = count_lt v l + count_lt v l' /\
  count_le v (l ++ l') = count_le v l + count_le v l'.
Proof. unfold count_lt, count_le. rewrite !filter_app. zlen_lia. Qed.
Lemma filter_none (P : Z -> Prop) `{!forall x, Decision (P x)} l :
  Forall (fun x => ~ P x) l -> filter P l = [].
Proof. induction 1; [done|]. by rewrite filter_cons_False. Qed.
Lemma filter_all (P : Z -> Prop) `{!forall x, Decision (P x)} l :
  Forall P l -> filter P l = l.
Proof. induction 1; [done|]. rewrite filter_cons_True by done. by f_equal. Qed.

Lemma count_above l v : Forall (fun x => v < x) l -> count_lt v l = 0 /\ count_le v l = 0.
Proof.
  intros H. unfold count_lt, count_le.
  rewrite !filter_none; [done| |]; (eapply Forall_impl; [exact H|]); cbn; lia.
Qed.
Lemma count_below l v : Forall (fun x => x < v) l -> count_lt v l = zlen l /\ count_le v l = zlen l.
Proof.
  intros H. unfold count_lt, count_le.
  rewrite !filter_all; [done| |]; (eapply Forall_impl; [exact H|]); cbn; lia.
Qed.
Lemma count_lt_le_length v l : 0 <= count_lt v l <= zlen l.
Proof.
  unfold count_lt. pose proof (length_filter (fun x => x < v) l). lia.
Qed.
Lemma count_single p v :
  count_lt v [p] = (if bool_decide (p < v) then 1 else 0) /\
  count_le v [p] = (if bool_decide (p <= v) then 1 else 0).
Proof.
  unfold count_lt, count_le. rewrite !filter_cons, !filter_nil.
  repeat case_decide; repeat case_bool_decide; simpl; lia || done.
Qed.

(** The three outcomes of a partition step. *)
Lemma kth_pivot le p gt :
  Forall (fun x => x <= p) le -> Forall (fun x => p < x) gt ->
  kth_smallest (le ++ p :: gt) (zlen le + 1) p.
Proof.
  intros Hle Hgt. split; [set_solver|]. change (p :: gt) with ([p] ++ gt).
  destruct (count_app le ([p] ++ gt) p) as [-> ->], (count_app [p] gt p) as [-> ->].
  destruct (count_above gt p Hgt) as [-> ->], (count_single p p) as [-> ->].
  rewrite bool_decide_false, bool_decide_true by lia.
  pose proof (count_lt_le_length p le).
  assert (count_le p le = zlen le) as -> by (unfold count_le; by rewrite filter_all). lia.
Qed.
Lemma kth_left le p gt k v :
  Forall (fun x => x <= p) le -> Forall (fun x => p < x) gt ->
  kth_smallest le k v -> kth_smallest (le ++ p :: gt) k v.
Proof.
  intros Hle Hgt [Hin Hk]. split; [rewrite elem_of_app, elem_of_cons; auto|].
  assert (v <= p) by (rewrite Forall_forall in Hle; auto).
  change (p :: gt) with ([p] ++ gt).
  destruct (count_app le ([p] ++ gt) v) as [-> ->], (count_app [p] gt v) as [-> ->].
  assert (Hg : Forall (fun x => v < x) gt) by (eapply Forall_impl; [exact Hgt|]; cbn; lia).
  destruct (count_above gt v Hg) as [-> ->], (count_single p v) as [-> ->].
  rewrite (bool_decide_false (p < v)) by lia. case_bool_decide; lia.
Qed.
Lemma kth_right le p gt k v :
  Forall (fun x => x <= p) le -> Forall (fun x => p < x) gt ->
  kth_smallest gt k v -> kth_smallest (le ++ p :: gt) (zlen le + 1 + k) v.
Proof.
  intros Hle Hgt [Hin Hk]. split; [rewrite elem_of_app, elem_of_cons; auto|].
  assert (p < v) by (rewrite Forall_forall in Hgt; auto).
  change (p :: gt) with ([p] ++ gt).
  destruct (count_app le ([p] ++ gt) v) as [-> ->], (count_app [p] gt v) as [-> ->].
  assert (Hl : Forall (fun x => x < v) le) by (eapply Forall_impl; [exact Hle|]; cbn; lia).
  destruct (count_below le v Hl) as [-> ->], (count_single p v) as [-> ->].
  rewrite !bool_decide_true by lia. lia.
Qed.

Lemma select_loop_spec rand fuel : forall pos pre seg post k low high,
  (forall i, 0 <= rand i) -> (length seg <= fuel)%nat ->
  low = zlen pre -> high = zlen pre + zlen seg - 1 -> 1 <= k <= zlen seg ->
  exists seg' v pos',
    select_loop fuel rand pos (pre ++ seg ++ post) low high k
    = Some (pre ++ seg' ++ post, v, pos') /\
    seg' ≡ₚ seg /\ kth_smallest seg k v.
Proof.
  induction fuel as [|fuel IH]; intros pos pre seg post k low high Hrand Hf -> -> Hk; [lia|].
  cbn [select_loop]. rewrite (proj2 (Z.leb_le _ _)) by lia.
  assert (Hrem : 0 <= Z.rem (rand pos) (zlen pre + zlen seg - 1 - zlen pre + 1) < zlen seg).
  { replace (zlen pre + zlen seg - 1 - zlen pre + 1) with (zlen seg) by lia.
    apply Z.rem_bound_pos; [auto|lia]. }
  destruct (swap_into_last pre seg post (zlen pre)
    (zlen pre + Z.rem (rand pos) (zlen pre + zlen seg - 1 - zlen pre + 1))
    (zlen pre + zlen seg - 1)) as (sg & p & -> & P1); [lia..|].
  cbn [mbind option_bind].
  assert (Hl1 : zlen sg + 1 = zlen seg) by (apply Permutation_length in P1; zlen_lia).
  destruct (partition_spec pre sg p post (zlen pre) (zlen pre + zlen seg - 1))
    as (le & gt & -> & P2 & Hle & Hgt); [lia..|]. cbn [mbind option_bind].
  assert (Hl2 : zlen le + zlen gt = zlen sg) by (apply Permutation_length in P2; zlen_lia).
  assert (P : le ++ p :: gt ≡ₚ seg).
  { rewrite <- P1, <- P2, <- Permutation_middle, <- app_assoc, (Permutation_app_comm gt).
    cbn [app]. apply Permutation_middle. }
  destruct (Z.eqb_spec (zlen pre + zlen le - zlen pre + 1) k) as [<-|Hne].
  { rewrite (app_assoc pre le), (ld_mid (pre ++ le)) by zlen_lia. cbn [mbind option_bind].
    exists (le ++ p :: gt), p, (S pos). rewrite <- !app_assoc. split; [done|]. split; [done|].
    apply (kth_smallest_perm _ _ _ _ P).
    replace (zlen pre + zlen le - zlen pre + 1) with (zlen le + 1) by lia. by apply kth_pivot. }
  destruct (Z.ltb_spec k (zlen pre + zlen le - zlen pre + 1)).
  - destruct (IH (S pos) pre le (p :: gt ++ post) k (zlen pre) (zlen pre + zlen le - 1))
      as (le' & v & pos' & -> & P' & Hv); try done; try lia.
    exists (le' ++ p :: gt), v, pos'. rewrite <- app_assoc. split; [done|]. split; [by rewrite P'|].
    apply (kth_smallest_perm _ _ _ _ P). by apply kth_left.
  - replace (pre ++ le ++ p :: gt ++ post) with ((pre ++ le ++ [p]) ++ gt ++ post)
      by (by rewrite <- !app_assoc).
    destruct (IH (S pos) (pre ++ le ++ [p]) gt post (k - (zlen pre + zlen le - zlen pre + 1))
      (zlen pre + zlen le + 1) (zlen pre + zlen seg - 1)) as (gt' & v & pos' & -> & P' & Hv);
      try done; try zlen_lia.
    exists (le ++ p :: gt'), v, pos'. rewrite <- !app_assoc. split; [done|]. split; [by rewrite P'|].
    apply (kth_smallest_perm _ _ _ _ P).
    replace k with (zlen le + 1 + (k - (zlen pre + zlen le - zlen pre + 1))) by lia.
    by apply kth_right.
Qed.

(** [quick_select] is correct and terminates whatever [rand()] returns: on
    any segment of an array and any rank [k] inside it, it returns the k-th
    smallest element of the segment, leaves the segment a permutation of itself
    and the rest of the array untouched. *)
Theorem quick_select_correct rand pos pre seg post k :
  (forall i, 0 <= rand i) -> 1 <= k <= zlen seg ->
  exists seg' v pos',
    quick_select rand pos (pre ++ seg ++ post) (zlen pre) (zlen pre + zlen seg - 1) k
    = Some (pre ++ seg' ++ post, v, pos') /\
    seg' ≡ₚ seg /\ kth_smallest seg k v.
Proof.
  intros Hrand Hk. unfold quick_select.
  rewrite (proj2 (Z.leb_gt _ _)), (proj2 (Z.ltb_ge _ _)) by lia. cbn [orb].
  apply select_loop_spec; try done; zlen_lia.
Qed.

Lemma quick_select_correct_witness :
  exists seg' v pos',
    quick_select (fun i => Z.of_nat i * 7) 0 ([9] ++ [5; 3; 8; 3] ++ [1]) 1 4 2
    = Some ([9] ++ seg' ++ [1], v, pos') /\
    seg' ≡ₚ [5; 3; 8; 3] /\ kth_smallest [5; 3; 8; 3] 2 v.
Proof.
  apply (quick_select_correct (fun i => Z.of_nat i * 7) 0 [9] [5; 3; 8; 3] [1] 2).
  - intros i. lia.
  - split; discriminate.
Defined.

(** ** The window as a list *)

Definition ring_at (b : list Z) (f i : Z) : Z :=
  nth (Z.to_nat ((f + i) mod FILTER_LEN_MAX)) b 0.
Definition ring (b : list Z) (f : Z) (i n : nat) : list Z :=
  (fun j => ring_at b f (Z.of_nat j)) <$> seq i n.

(** The samples held, oldest first. *)
Definition window (s : slid_remove_t) : list Z := ring (buff s) (front s) 0 (Z.to_nat (count s)).

Definition slid_wf (s : slid_remove_t) : Prop :=
  zlen (buff s) = FILTER_LEN_MAX /\ 0 <= front s < FILTER_LEN_MAX /\ 0 <= count s <= FILTER_LEN_MAX.

Lemma ring_length b f i n : length (ring b f i n) = n.
Proof. unfold ring. by rewrite length_fmap, length_seq. Qed.
Lemma ring_lookup b f i n k : (k < n)%nat -> ring b f i n !! k = Some (ring_at b f (Z.of_nat (i + k))).
Proof. intros. unfold ring. by rewrite list_lookup_fmap, lookup_seq_lt by done. Qed.
Lemma ring_cons b f i n : ring b f i (S n) = ring_at b f (Z.of_nat i) :: ring b f (S i) n.
Proof. done. Qed.

Lemma ring_ld b f i :
  zlen b = FILTER_LEN_MAX -> 0 <= f -> 0 <= i ->
  ld b (Z.rem (f + i) FILTER_LEN_MAX) = Some (ring_at b f i).
Proof.
  intros Hb Hf Hi. unfold FILTER_LEN_MAX, ring_at in *. rewrite Z.rem_mod_nonneg by lia.
  pose proof (Z.mod_pos_bound (f + i) 500). unfold ld. rewrite (proj2 (Z.leb_le _ _)) by lia.
  destruct (lookup_lt_is_Some_2 b (Z.to_nat ((f + i) mod 500))) as [x Hx]; [lia|].
  rewrite Hx. f_equal. symmetry. by apply nth_lookup_Some.
Qed.

(** Moving the front drops samples. *)
Lemma ring_at_front b f d i : ring_at b (Z.rem (f + d) FILTER_LEN_MAX) i = ring_at b f (d + i) \/ ~ (0 <= f + d).
Proof.
  destruct (decide (0 <= f + d)); [left|by right]. unfold ring_at, FILTER_LEN_MAX.
  rewrite Z.rem_mod_nonneg, Zplus_mod_idemp_l by lia. do 3 f_equal. lia.
Qed.
Lemma ring_drop b f d n :
  0 <= f -> (d <= n)%nat ->
  ring b (Z.rem (f + Z.of_nat d) FILTER_LEN_MAX) 0 (n - d) = drop d (ring b f 0 n).
Proof.
  intros Hf Hd. apply list_eq. intros k. rewrite lookup_drop.
  destruct (decide (k < n - d)%nat).
  - rewrite !ring_lookup by lia. f_equal.
    destruct (ring_at_front b f (Z.of_nat d) (Z.of_nat (0 + k))) as [->|]; [|lia]. f_equal. lia.
  - rewrite !lookup_ge_None_2; [done|rewrite ring_length; lia..].
Qed.

(** A write behind the newest sample. *)
Lemma ring_at_write b f n x j :
  zlen b = FILTER_LEN_MAX -> 0 <= f -> 0 <= n <= FILTER_LEN_MAX -> 0 <= j <= n ->
  (0 < j \/ n < FILTER_LEN_MAX) ->
  ring_at (<[Z.to_nat ((f + n) mod FILTER_LEN_MAX) := x]> b) f j
  = if j =? n then x else ring_at b f j.
Proof.
  intros Hb Hf Hn Hj Hne. unfold ring_at, FILTER_LEN_MAX in *.
  pose proof (Z.mod_pos_bound (f + n) 500). pose proof (Z.mod_pos_bound (f + j) 500).
  destruct (Z.eqb_spec j n) as [->|Hjn].
  - apply nth_lookup_Some. apply list_lookup_insert_eq. lia.
  - rewrite !nth_lookup, list_lookup_insert_ne; [done|]. intros E.
    assert ((f + n) mod 500 = (f + j) mod 500) by lia. clear - H1 Hjn Hj Hn Hne. zdm.
Qed.

Lemma ring_write b f n x :
  zlen b = FILTER_LEN_MAX -> 0 <= f -> (Z.of_nat n < FILTER_LEN_MAX) ->
  ring (<[Z.to_nat ((f + Z.of_nat n) mod FILTER_LEN_MAX) := x]> b) f 0 (S n)
  = ring b f 0 n ++ [x].
Proof.
  intros Hb Hf Hn. apply list_eq. intros k. destruct (decide (k < S n)%nat).
  - rewrite ring_lookup, ring_at_write by lia. destruct (Z.eqb_spec (Z.of_nat (0 + k)) (Z.of_nat n)).
    + rewrite lookup_app_r by (rewrite ring_length; lia). rewrite ring_length.
      by replace (k - n)%nat with O by lia.
    + rewrite lookup_app_l, ring_lookup by (rewrite ?ring_length; lia). done.
  - rewrite !lookup_ge_None_2; [done|rewrite ?length_app, ring_length; simpl; lia..].
Qed.
Lemma ring_write_full b f n x :
  zlen b = FILTER_LEN_MAX -> 0 <= f -> (0 < n)%nat -> (Z.of_nat n <= FILTER_LEN_MAX) ->
  ring (<[Z.to_nat ((f + Z.of_nat n) mod FILTER_LEN_MAX) := x]> b)
    (Z.rem (f + 1) FILTER_LEN_MAX) 0 n
  = drop 1 (ring b f 0 n ++ [x]).
Proof.
  intros Hb Hf Hn0 Hn. apply list_eq. intros k. rewrite lookup_drop. destruct (decide (k < n)%nat).
  - rewrite ring_lookup by lia.
    destruct (ring_at_front (<[Z.to_nat ((f + Z.of_nat n) mod FILTER_LEN_MAX):=x]> b) f 1 (Z.of_nat (0 + k)))
      as [->|]; [|lia].
    rewrite ring_at_write by lia. destruct (Z.eqb_spec (1 + Z.of_nat (0 + k)) (Z.of_nat n)).
    + rewrite lookup_app_r by (rewrite ring_length; lia). rewrite ring_length.
      by replace (1 + k - n)%nat with O by lia.
    + rewrite lookup_app_l, ring_lookup by (rewrite ?ring_length; lia). do 2 f_equal. lia.
  - rewrite !lookup_ge_None_2; [done|rewrite ?length_app, ring_length; simpl; lia..].
Qed.

Definition last_n {A} (n : Z) (l : list A) : list A := drop (length l - Z.to_nat n) l.

Lemma slid_shrink_spec s size :
  slid_wf s -> 1 <= size <= FILTER_LEN_MAX ->
  slid_wf (slid_shrink s size) /\ count (slid_shrink s size) = Z.min (count s) size /\
  window (slid_shrink s size) = last_n size (window s).
Proof.
  intros (Hb & Hf & Hc) Hs. unfold slid_shrink, slid_wf, window, last_n, FILTER_LEN_MAX in *.
  rewrite u32_small by lia. rewrite ring_length. destruct (Z.ltb_spec size (count s)); cbn [buff front count].
  - rewrite (u32_small (_ - _)), !s32_small by (rewrite ?u32_small, ?s32_small; lia).
    rewrite Z.rem_mod_nonneg by lia. pose proof (Z.mod_pos_bound (front s + (count s - size)) 500).
    split; [lia|]. split; [lia|]. rewrite <- ring_drop by lia. unfold FILTER_LEN_MAX.
    rewrite Z.rem_mod_nonneg by lia. f_equal; [|lia]. do 2 f_equal. lia.
  - split; [lia|]. split; [lia|].
    replace (Z.to_nat (count s) - Z.to_nat size)%nat with O by lia. by rewrite drop_0.
Qed.

Lemma slid_push_spec s size x :
  slid_wf s -> 1 <= size <= FILTER_LEN_MAX -> count s <= size ->
  exists s', slid_push s size x = Some s' /\ slid_wf s' /\
    count s' = Z.min (count s + 1) size /\ window s' = last_n size (window s ++ [x]).
Proof.
  intros (Hb & Hf & Hc) Hs Hle. unfold slid_push, slid_wf, window, last_n.
  assert (E : u32 (front s + count s) mod FILTER_LEN_MAX
    = (front s + Z.of_nat (Z.to_nat (count s))) mod FILTER_LEN_MAX).
  { rewrite Z2Nat.id by lia. unfold FILTER_LEN_MAX in *. by rewrite u32_small by lia. }
  rewrite E. pose proof (Z.mod_pos_bound (front s + Z.of_nat (Z.to_nat (count s))) FILTER_LEN_MAX) as Hm.
  rewrite st_Some by (rewrite Hb; apply Hm; done). cbn [mbind option_bind].
  rewrite length_app, ring_length. eexists; split; [done|].
  unfold FILTER_LEN_MAX in Hs, Hf, Hc. rewrite u32_small by lia.
  destruct (Z.leb_spec size (count s)); cbn [buff front count]; rewrite zlen_insert.
  - assert (count s = size) as Heq by lia. rewrite s32_small by lia.
    rewrite ring_write_full; [|done|lia|lia|unfold FILTER_LEN_MAX; lia].
    unfold FILTER_LEN_MAX in *. rewrite Z.rem_mod_nonneg by lia.
    pose proof (Z.mod_pos_bound (front s + 1) 500). split; [lia|]. split; [lia|].
    f_equal. simpl length. lia.
  - rewrite u32_small by lia. unfold FILTER_LEN_MAX in Hb |- *. split; [lia|]. split; [lia|].
    replace (Z.to_nat (count s + 1)) with (S (Z.to_nat (count s))) by lia.
    rewrite ring_write; [|done|lia|unfold FILTER_LEN_MAX; lia].
    simpl length. by replace (Z.to_nat (count s) + 1 - Z.to_nat size)%nat with O by lia.
Qed.

Lemma ring_sum_spec b f n i acc :
  zlen b = FILTER_LEN_MAX -> 0 <= f ->
  ring_sum n b f (Z.of_nat i) acc
  = Some (fold_left (fun a x => s64 (a + x)) (ring b f i n) acc).
Proof.
  intros Hb Hf. revert i acc. induction n as [|n IH]; intros i acc; [done|].
  cbn [ring_sum]. rewrite ring_ld by (done || lia). cbn [mbind option_bind].
  rewrite ring_cons. cbn [fold_left].
  replace (Z.of_nat i + 1) with (Z.of_nat (S i)) by lia. apply IH.
Qed.

Lemma ring_copy_spec b f n : forall i pre mid post,
  zlen b = FILTER_LEN_MAX -> 0 <= f -> length pre = i -> length mid = n ->
  ring_copy n b f (Z.of_nat i) (pre ++ mid ++ post) = Some (pre ++ ring b f i n ++ post).
Proof.
  induction n as [|n IH]; intros i pre mid post Hb Hf Hp Hm.
  - destruct mid; done.
  - destruct mid as [|m mid]; [done|]. cbn [ring_copy]. rewrite ring_ld by (done || lia).
    cbn [mbind option_bind app]. rewrite st_mid by lia. cbn [mbind option_bind].
    replace (Z.of_nat i + 1) with (Z.of_nat (S i)) by lia.
    replace (pre ++ ring_at b f (Z.of_nat i) :: mid ++ post)
      with ((pre ++ [ring_at b f (Z.of_nat i)]) ++ mid ++ post) by (by rewrite <- app_assoc).
    rewrite IH; [|done|done|zlen_lia|simpl in Hm; lia]. by rewrite <- app_assoc, ring_cons.
Qed.

(** ** The trimmed mean *)

Abbreviation band lo hi l := (filter (fun x => lo <= x /\ x <= hi) l).

Lemma band_loop_spec l post lo hi B : forall pre sum cnt,
  Forall (fun x => Z.abs x <= B) l -> Z.abs sum + B * zlen l < 2 ^ 63 ->
  0 <= cnt -> cnt + zlen l < 2 ^ 31 ->
  band_loop (length l) (pre ++ l ++ post) (zlen pre) lo hi sum cnt
  = Some (sum + sumZ (band lo hi l), cnt + zlen (band lo hi l)).
Proof.
  induction l as [|x l IH]; intros pre sum cnt Hl Hs Hc Hn.
  { cbn. by rewrite !Z.add_0_r. }
  cbn [length band_loop app]. rewrite ld_mid by done. cbn [mbind option_bind].
  replace (pre ++ x :: l ++ post) with ((pre ++ [x]) ++ l ++ post) by (by rewrite <- app_assoc).
  replace (zlen pre + 1) with (zlen (pre ++ [x])) by zlen_lia.
  inversion_clear Hl as [|? ? Hx Hl'].
  rewrite zlen_cons in Hs, Hn.
  assert (0 <= B * zlen l) by (apply Z.mul_nonneg_nonneg; lia).
  rewrite filter_cons. destruct ((lo <=? x) && (x <=? hi)) eqn:Hb.
  - apply andb_true_iff in Hb as [H1 H2]. apply Z.leb_le in H1, H2.
    rewrite decide_True by done. rewrite s64_small, s32_small by lia.
    rewrite IH by (done || lia). cbn [sumZ]. do 2 f_equal; zlen_lia.
  - rewrite decide_False; [apply IH; done || lia|]. intros [H1 H2].
    apply andb_false_iff in Hb as [Hb|Hb]; apply Z.leb_gt in Hb; lia.
Qed.

(** The number of samples cut at each end: [(int)(0.2f * 0.5f * size)]. *)
Lemma trim_count size :
  1 <= size <= FILTER_LEN_MAX ->
  f_to_s32 (f32_mul (f32_mul (f32_lit 2 10) (f32_lit 1 2)) (f32_of_Z size)) = size / 10.
Proof.
  intros Hs. apply Z.eqb_eq.
  apply (all_below (fun size => f_to_s32 (f32_mul (f32_mul (f32_lit 2 10) (f32_lit 1 2)) (f32_of_Z size)) =? size / 10) 501).
  - vm_compute. reflexivity.
  - unfold FILTER_LEN_MAX in Hs. lia.
Qed.

Lemma count_le_lt u v l : u < v -> count_le u l <= count_lt v l.
Proof.
  intros Huv. induction l as [|x l IH]; [done|]. unfold count_le, count_lt in *.
  rewrite !filter_cons. repeat case_decide; zlen_lia.
Qed.
Lemma kth_order l j k u v : kth_smallest l j u -> kth_smallest l k v -> j <= k -> u <= v.
Proof.
  intros [_ H1] [_ H2] Hjk. destruct (Z.le_gt_cases u v) as [|Hlt]; [done|].
  pose proof (count_le_lt v u l Hlt). lia.
Qed.

(** What the filter promises for a full window. *)
Definition trimmed_mean (w : list Z) (v : Z) : Prop :=
  let size := zlen w in
  exists lo hi,
    kth_smallest w (size / 10 + 1) lo /\ kth_smallest w (size - size / 10) hi /\
    band lo hi w <> [] /\
    let t := Z.quot (sumZ (band lo hi w)) (zlen (band lo hi w)) in
    v = if t =? -1 then Z.quot (sumZ w) size else t.

Lemma calculate_filtered_average_spec rand pos w post :
  (forall i, 0 <= rand i) -> 1 <= zlen w <= FILTER_LEN_MAX ->
  Forall (fun x => Z.abs x <= 2 ^ 53) w ->
  exists w' t pos' lo hi,
    calculate_filtered_average rand pos (w ++ post) (zlen w) (f32_lit 2 10)
    = Some (w' ++ post, t, pos') /\ zlen w' = zlen w /\
    kth_smallest w (zlen w / 10 + 1) lo /\ kth_smallest w (zlen w - zlen w / 10) hi /\
    band lo hi w <> [] /\ t = Z.quot (sumZ (band lo hi w)) (zlen (band lo hi w)).
Proof.
  intros Hr Hs Hw. unfold calculate_filtered_average. rewrite trim_count by done.
  unfold FILTER_LEN_MAX in Hs.
  assert (Hk : 0 <= zlen w / 10 /\ zlen w / 10 + 1 <= zlen w - zlen w / 10) by zdm.
  assert (Hq : forall p v k, v ≡ₚ w -> 1 <= k <= zlen w -> exists v' x p',
    quick_select rand p (v ++ post) 0 (zlen w - 1) k = Some (v' ++ post, x, p') /\
    v' ≡ₚ w /\ kth_smallest w k x).
  { intros p v k P Hkk. unfold quick_select.
    rewrite (proj2 (Z.leb_gt _ _)), (proj2 (Z.ltb_ge _ _)) by lia. cbn [orb].
    pose proof (Permutation_length P).
    destruct (select_loop_spec rand (S (length (v ++ post))) p [] v post k 0 (zlen w - 1))
      as (v' & x & p' & E & P' & Hx); [done|rewrite length_app; lia|done|simpl; lia|lia|].
    exists v', x, p'. split; [exact E|]. split; [by rewrite P'|]. by eapply kth_smallest_perm. }
  destruct (Hq pos w (zlen w / 10 + 1)) as (w1 & lo & p1 & -> & P1 & Hlo); [done|lia|].
  cbn [mbind option_bind].
  destruct (Hq p1 w1 (zlen w - zlen w / 10)) as (w2 & hi & p2 & -> & P2 & Hhi); [done|lia|].
  cbn [mbind option_bind].
  assert (Hband : band lo hi w2 ≡ₚ band lo hi w) by (by rewrite P2).
  rewrite Nat2Z.id, <- (Permutation_length P2).
  rewrite (band_loop_spec w2 post lo hi (2 ^ 53) []);
    [|by rewrite P2|rewrite (Permutation_length P2); simpl Z.abs; lia|lia|rewrite (Permutation_length P2); lia].
  cbn [mbind option_bind].
  assert (Hne : band lo hi w <> []).
  { destruct Hlo as [Hin Hc]. pose proof (kth_order w _ _ _ _ (conj Hin Hc) Hhi ltac:(lia)).
    intros E. assert (Hx : lo ∈ band lo hi w) by (apply list_elem_of_filter; split; [lia|done]).
    rewrite E in Hx. by apply elem_of_nil in Hx. }
  rewrite (Permutation_length Hband), (sumZ_perm _ _ Hband), !Z.add_0_l.
  rewrite (proj2 (Z.ltb_lt _ _)) by (destruct (band lo hi w); [done|zlen_lia]).
  rewrite (Permutation_length P2). eexists w2, _, _, lo, hi.
  split; [reflexivity|]. split; [by rewrite (Permutation_length P2)|done].
Qed.

Lemma last_n_last_n {A} n (l : list A) x :
  1 <= n -> last_n n (last_n n l ++ [x]) = last_n n (l ++ [x]).
Proof.
  intros Hn. unfold last_n. rewrite !length_app, length_drop. simpl length.
  rewrite <- (drop_app_le l [x] (length l - Z.to_nat n)) by lia.
  rewrite drop_drop. f_equal. lia.
Qed.
Lemma last_n_length {A} n (l : list A) : 0 <= n -> zlen (last_n n l) = Z.min n (zlen l).
Proof. intros. unfold last_n. rewrite length_drop. lia. Qed.

(** One step of the window. *)
Lemma slid_step rand pos s size new_data buff_copy :
  (forall i, 0 <= rand i) -> slid_wf s -> 1 <= size <= FILTER_LEN_MAX ->
  size <= zlen buff_copy \/ count s + 1 < size ->
  Forall (fun x => Z.abs x <= 2 ^ 53) (window s ++ [new_data]) ->
  exists s' copy' v pos',
    sliding_remove_average rand pos s size new_data buff_copy = Some (s', copy', v, pos') /\
    slid_wf s' /\ zlen copy' = zlen buff_copy /\ window s' = last_n size (window s ++ [new_data]) /\
    (zlen (window s') < size -> v = Z.quot (sumZ (window s')) (zlen (window s'))) /\
    (zlen (window s') = size -> trimmed_mean (window s') v).
Proof.
  intros Hr Hwf Hs Hcopy Hb. unfold sliding_remove_average.
  rewrite (proj2 (Z.ltb_ge _ _)) by lia.
  destruct (slid_shrink_spec s size Hwf Hs) as (Hwf1 & Hc1 & Hw1).
  destruct (slid_push_spec (slid_shrink s size) size new_data Hwf1 Hs) as (s' & -> & Hwf' & Hc & Hw); [lia|].
  cbn [mbind option_bind]. rewrite Hw1, last_n_last_n in Hw by lia.
  destruct Hwf' as (Hbuf & Hf & Hcnt). unfold FILTER_LEN_MAX in Hs, Hcnt.
  assert (HB : Forall (fun x => Z.abs x <= 2 ^ 53) (window s')) by (rewrite Hw; by apply Forall_drop).
  assert (Hlen : zlen (window s') = count s') by (unfold window; rewrite ring_length; lia).
  rewrite u32_small by lia.
  assert (Hsum : ring_sum (Z.to_nat (count s')) (buff s') (front s') 0 0 = Some (sumZ (window s'))).
  { pose proof (ring_sum_spec (buff s') (front s') (Z.to_nat (count s')) 0 0 Hbuf) as E.
    change (Z.of_nat 0) with 0 in E. rewrite E by lia. fold (window s').
    by rewrite (s64_fold_sum (2 ^ 53)) by (done || simpl Z.abs; lia). }
  destruct (Z.ltb_spec (count s') size) as [Hlt|Hge].
  - rewrite Hsum. cbn [mbind option_bind]. eexists _, _, _, _. split; [done|].
    split; [done|]. split; [done|]. split; [done|]. split; [by rewrite Hlen|lia].
  - assert (Hsz : count s' = size) by (clear - Hc Hge; lia).
    assert (Hcp : size <= zlen buff_copy) by (clear - Hcopy Hsz Hc Hc1; lia). clear Hcopy.
    rewrite <- (take_drop (Z.to_nat size) buff_copy).
    rewrite <- Hsz in *.
    pose proof (ring_copy_spec (buff s') (front s') (Z.to_nat (count s')) 0 []
      (take (Z.to_nat (count s')) buff_copy) (drop (Z.to_nat (count s')) buff_copy) Hbuf) as E.
    cbn [app] in E. change (Z.of_nat 0) with 0 in E.
    rewrite E; [|lia|done|rewrite length_take; lia]. cbn [mbind option_bind].
    fold (window s'). rewrite <- Hlen.
    destruct (calculate_filtered_average_spec rand pos (window s')
      (drop (Z.to_nat (zlen (window s'))) buff_copy)) as (w' & t & p' & lo & hi & -> & Hw' & Hlo & Hhi & Hne & Ht);
      [done|unfold FILTER_LEN_MAX; lia|done|].
    cbn [mbind option_bind]. rewrite Hlen, Hsum. cbn [mbind option_bind].
    rewrite (proj2 (Z.eqb_neq (count s') 0)) by lia.
    destruct (Z.eqb_spec t (-1)) as [->|Hn]; (eexists _, _, _, _; split; [done|]);
      (split; [done|]; split; [rewrite ?length_app, ?length_take, ?length_drop; lia|]; split; [done|]; split; [lia|]); intros _; exists lo, hi;
      (split; [done|]; split; [done|]; split; [done|]); cbn zeta; rewrite <- Ht.
    + by rewrite Z.eqb_refl, Hlen.
    + by rewrite (proj2 (Z.eqb_neq t (-1))).
Qed.

(** A mean of values between two bounds lies between them. *)
Lemma quot_between s n a b : 0 < n -> n * a <= s <= n * b -> a <= Z.quot s n <= b.
Proof.
  intros Hn H. destruct (Z.le_ge_cases 0 s).
  - rewrite Z.quot_div_nonneg by lia. split; [|apply Z.div_le_upper_bound; lia].
    apply Z.div_le_lower_bound; lia.
  - replace s with (- - s) by lia. rewrite Z.quot_opp_l by lia. rewrite Z.quot_div_nonneg by lia.
    assert (- b <= - s / n <= - a); [|lia]. split; [apply Z.div_le_lower_bound; lia|apply Z.div_le_upper_bound; lia].
Qed.
Lemma sumZ_between a b l : Forall (fun x => a <= x <= b) l -> zlen l * a <= sumZ l <= zlen l * b.
Proof. induction 1 as [|x l Hx _ IH]; [done|]. rewrite zlen_cons. change (sumZ (x :: l)) with (x + sumZ l). lia. Qed.
Lemma mean_between a b l : l <> [] -> Forall (fun x => a <= x <= b) l -> a <= Z.quot (sumZ l) (zlen l) <= b.
Proof. intros Hl H. apply quot_between; [destruct l; [done|zlen_lia]|by apply sumZ_between]. Qed.
Lemma trimmed_mean_between a b w v : w <> [] -> Forall (fun x => a <= x <= b) w -> trimmed_mean w v -> a <= v <= b.
Proof.
  intros Hw H (lo & hi & _ & _ & Hne & ->). cbn zeta.
  assert (Forall (fun x => a <= x <= b) (band lo hi w)) by (rewrite Forall_forall in *; intros x Hx; apply H; by apply list_elem_of_filter in Hx as [_ Hx]).
  destruct (_ =? -1); by apply mean_between.
Qed.

(** A scratch buffer shorter than the window is overrun as soon as the window
    is full. *)
Lemma ring_copy_overrun b f n : forall i copy, zlen b = FILTER_LEN_MAX -> zlen copy < Z.of_nat (i + n) -> (i <= length copy)%nat -> 0 <= f ->
  ring_copy n b f (Z.of_nat i) copy = None.
Proof.
  induction n as [|n IH]; intros i copy Hb Hc Hi Hf; [lia|]. cbn [ring_copy].
  destruct (ld b _) as [x|]; cbn [mbind option_bind]; [|done]. unfold st.
  destruct (decide (i < length copy)%nat).
  - rewrite (proj2 (Z.leb_le 0 _)), (proj2 (Z.ltb_lt _ _)) by lia. cbn [andb mbind option_bind].
    replace (Z.of_nat i + 1) with (Z.of_nat (S i)) by lia. apply IH; rewrite ?length_insert; try done; lia.
  - rewrite (proj2 (Z.leb_le 0 _)), (proj2 (Z.ltb_ge _ _)) by lia. done.
Qed.
Lemma slid_overrun rand pos s size new_data buff_copy : slid_wf s -> 1 <= size <= FILTER_LEN_MAX ->
  zlen buff_copy < size -> size - 1 <= count s -> sliding_remove_average rand pos s size new_data buff_copy = None.
Proof.
  intros Hwf Hs Hcopy Hfull. unfold sliding_remove_average. rewrite (proj2 (Z.ltb_ge _ _)) by lia.
  destruct (slid_shrink_spec s size Hwf Hs) as (Hwf1 & Hc1 & _).
  destruct (slid_push_spec (slid_shrink s size) size new_data Hwf1 Hs) as (s' & -> & (Hb & Hf & _) & Hc & _); [lia|].
  cbn [mbind option_bind]. rewrite u32_small by (unfold FILTER_LEN_MAX in *; lia).
  rewrite (proj2 (Z.ltb_ge (count s') size)) by lia.
  rewrite (ring_copy_overrun _ _ _ 0) by (done || lia). done.
Qed.

(** The sliding window: with [1 <= size <= 500] and samples that fit in
    53 bits, every call succeeds, keeps exactly the last [size] samples (also
    when [size] was reduced since the previous call), and returns their mean
    while the window fills and, once it is full, the mean of the values between
    the order statistics [size/10 + 1] and [size - size/10]; the plain mean
    replaces that value when it happens to be -1. *)
Theorem sliding_window_step rand pos s size new_data buff_copy :
  (forall i, 0 <= rand i) -> slid_wf s -> 1 <= size <= FILTER_LEN_MAX ->
  size <= zlen buff_copy ->
  Forall (fun x => Z.abs x <= 2 ^ 53) (window s ++ [new_data]) ->
  exists s' copy' v pos',
    sliding_remove_average rand pos s size new_data buff_copy = Some (s', copy', v, pos') /\
    slid_wf s' /\ window s' = last_n size (window s ++ [new_data]) /\
    (zlen (window s') < size -> v = Z.quot (sumZ (window s')) (zlen (window s'))) /\
    (zlen (window s') = size -> trimmed_mean (window s') v).
Proof.
  intros Hr Hwf Hs Hcopy Hb.
  destruct (slid_step rand pos s size new_data buff_copy Hr Hwf Hs (or_introl Hcopy) Hb)
    as (s' & copy' & v & pos' & E & H1 & _ & H2). eauto 10.
Qed.

Lemma sliding_window_step_witness :
  exists s' copy' v pos',
    sliding_remove_average (fun _ => 3) 0 (mk_slid (replicate 500 4) 499 2) 2 10 (replicate 500 0)
    = Some (s', copy', v, pos') /\
    slid_wf s' /\ window s' = last_n 2 (window (mk_slid (replicate 500 4) 499 2) ++ [10]) /\
    (zlen (window s') < 2 -> v = Z.quot (sumZ (window s')) (zlen (window s'))) /\
    (zlen (window s') = 2 -> trimmed_mean (window s') v).
Proof.
  apply (sliding_window_step (fun _ => 3) 0 (mk_slid (replicate 500 4) 499 2) 2 10 (replicate 500 0)).
  - intros _. discriminate.
  - repeat split; discriminate.
  - split; discriminate.
  - discriminate.
  - repeat constructor; discriminate.
Defined.

(** ** Peak and valley hold *)

(** A run of samples at one [size] setting. *)
Fixpoint holding_run (f : slid_holding_t -> Z -> Z -> slid_holding_t * Z)
    (s : slid_holding_t) (size : Z) (l : list Z) : slid_holding_t :=
  match l with [] => s | x :: l => holding_run f (fst (f s size x)) size l end.

Definition fold_best (best : Z -> Z -> Z) (x : Z) (l : list Z) : Z := fold_left best l x.

Lemma holding_run_best (better : Z -> Z -> bool) (best : Z -> Z -> Z) size x l c :
  f_eq (f32_of_Z size) HOLDING_TIME_UPPER = false -> size <> 0 -> c <> 0 ->
  (forall a b, best a b = if better b a then b else a) ->
  exists c', holding_run (holding_filter better) (mk_hold x c) size l
    = mk_hold (fold_best best x l) c' /\ c' <> 0.
Proof.
  intros Hsz H0 Hc Hbest. revert x c Hc. induction l as [|y l IH]; intros x c Hc; [by exists c|].
  cbn [holding_run]. unfold holding_filter at 2. cbn [hdata hcount]. rewrite Hsz.
  cbn [andb]. rewrite (proj2 (Z.eqb_neq size 0)) by done. cbn [hcount hdata].
  rewrite (proj2 (Z.eqb_neq c 0)) by done. unfold fold_best. cbn [fold_left]. rewrite Hbest.
  destruct (better y x); apply IH; done.
Qed.

(** Peak and valley hold: after any run of samples at a hold time other
    than 0 ("off") and the upper limit ("hold for ever"), the filters have
    recorded the maximum, respectively the minimum, of the run; once something
    is held, the upper limit freezes the value; a hold time of 0 passes every
    sample through. *)
Theorem holding_filters_correct size x l s y :
  f_eq (f32_of_Z size) HOLDING_TIME_UPPER = false -> size <> 0 ->
  hdata (holding_run peak_holding_fliter (mk_hold 0 0) size (x :: l)) = fold_best Z.max x l /\
  hdata (holding_run valley_holding_fliter (mk_hold 0 0) size (x :: l)) = fold_best Z.min x l /\
  (hcount s <> 0 -> peak_holding_fliter s 300 y = (s, hdata s) /\
                    valley_holding_fliter s 300 y = (s, hdata s)) /\
  snd (peak_holding_fliter s 0 y) = y /\ snd (valley_holding_fliter s 0 y) = y.
Proof.
  intros Hsz H0. unfold peak_holding_fliter, valley_holding_fliter.
  assert (Hrun : forall (better : Z -> Z -> bool) (best : Z -> Z -> Z), (forall a b, best a b = if better b a then b else a) ->
    hdata (holding_run (holding_filter better) (mk_hold 0 0) size (x :: l)) = fold_best best x l).
  { intros better best Hb. cbn [holding_run]. unfold holding_filter at 2. rewrite Hsz. cbn [andb].
    rewrite (proj2 (Z.eqb_neq size 0)) by done. cbn [hcount].
    change (u32 (0 + 1)) with 1. cbn [fst Z.eqb].
    destruct (holding_run_best better best size x l 1 Hsz H0) as (c' & -> & _); done. }
  split; [apply Hrun; intros a b; destruct (Z.ltb_spec a b); lia|].
  split; [apply Hrun; intros a b; destruct (Z.ltb_spec b a); lia|].
  split; [|split; reflexivity].
  intros Hc. unfold holding_filter. rewrite (proj2 (Z.eqb_neq _ 0)) by done. done.
Qed.

Lemma holding_filters_correct_witness :
  hdata (holding_run peak_holding_fliter (mk_hold 0 0) 5 [3; 9; 4]) = fold_best Z.max 3 [9; 4] /\
  hdata (holding_run valley_holding_fliter (mk_hold 0 0) 5 [3; 9; 4]) = fold_best Z.min 3 [9; 4] /\
  (hcount (mk_hold 8 1) <> 0 -> peak_holding_fliter (mk_hold 8 1) 300 2 = (mk_hold 8 1, hdata (mk_hold 8 1)) /\
                    valley_holding_fliter (mk_hold 8 1) 300 2 = (mk_hold 8 1, hdata (mk_hold 8 1))) /\
  snd (peak_holding_fliter (mk_hold 8 1) 0 2) = 2 /\ snd (valley_holding_fliter (mk_hold 8 1) 0 2) = 2.
Proof.
  apply (holding_filters_correct 5 3 [9; 4] (mk_hold 8 1) 2).
  - reflexivity.
  - discriminate.
Defined.
