(* ===== verification/Hash.v ===== *)
(** * hq_hash.c: the command hash table

    101 chained buckets.  The chains are linked through a heap of entries, as
    in the code; an entry owns the block its [cmd_str] points to, whose cells
    are kept in the entry.  [pvPortMalloc] belongs to the RTOS: each call's
    answer is an argument.  The mutex is a flag; taking it while it is held
    blocks for ever ([portMAX_DELAY]), which is [None]. *)
From S2P Require Import Prelude Str.

Definition HASH_TABLE_SIZE : Z := 101.

Record cmd_hash_entry_t := mk_entry {
  cmd_str : list Z;
  cmd_id : Z;       (* uint16_t *)
  next : Z          (* address, 0 = NULL *)
}.
Abbreviation heap := (gmap Z cmd_hash_entry_t).

Record cmd_hash_table_t := mk_table {
  table : list Z;   (* addresses of the first entries *)
  lock : bool;      (* held *)
  entries : heap
}.

(** [ok]: the mutex could be created; the fields of a table without mutex are
    still usable as far as the code is concerned. *)
Definition cmd_hash_init (h : heap) : cmd_hash_table_t := mk_table (replicate 101 0) false h.

(** djb2 *)
Fixpoint hash_loop (str : list Z) (hash : Z) : option Z :=
  match str with
  | [] => None
  | c :: str' =>
      if c =? 0 then Some hash
      else hash_loop str' (u32 (u32 (Z.shiftl hash 5) + hash + c))
  end.
Definition hash_func (str : list Z) : option Z :=
  h ← hash_loop str 5381; Some (h mod HASH_TABLE_SIZE).

(** [strcmp(a, b) == 0] *)
Definition str_eq (a b : list Z) : option bool :=
  x ← cstr a; y ← cstr b; Some (bool_decide (x = y)).

Definition xSemaphoreTake (ht : cmd_hash_table_t) : option cmd_hash_table_t :=
  if lock ht then None else Some (mk_table (table ht) true (entries ht)).
Definition xSemaphoreGive (ht : cmd_hash_table_t) : cmd_hash_table_t :=
  mk_table (table ht) false (entries ht).

(** The loop over a chain: the matching entry and its predecessor. *)
Fixpoint chain_search (fuel : nat) (h : heap) (entry prev : Z) (cmd : list Z)
  : option (option (Z * Z)) :=
  match fuel with
  | O => None
  | S fuel =>
      if entry =? 0 then Some None
      else
        e ← h !! entry;
        b ← str_eq (cmd_str e) cmd;
        if (b : bool) then Some (Some (entry, prev))
        else chain_search fuel h (next e) entry cmd
  end.
Definition search_fuel (ht : cmd_hash_table_t) : nat := S (size (entries ht)).

(** [new_entry], [new_str]: the answers of the two allocations. *)
Definition cmd_hash_add (ht : cmd_hash_table_t) (cmd : list Z) (id : Z)
    (new_entry : option Z) (new_str : bool) : option cmd_hash_table_t :=
  index ← hash_func cmd;
  ht ← xSemaphoreTake ht;
  first ← ld (table ht) index;
  found ← chain_search (search_fuel ht) (entries ht) first 0 cmd;
  match found with
  | Some (entry, _) =>
      e ← entries ht !! entry;
      Some (xSemaphoreGive (mk_table (table ht) (lock ht)
        (<[entry := mk_entry (cmd_str e) id (next e)]> (entries ht))))
  | None =>
      match new_entry with
      | None => Some (xSemaphoreGive ht)
      | Some entry =>
          if new_str then
            s ← cstr cmd;
            t ← st (table ht) index entry;
            Some (xSemaphoreGive (mk_table t (lock ht)
              (<[entry := mk_entry (s ++ [0]) id first]> (entries ht))))
          else Some (xSemaphoreGive ht)
      end
  end.

(** Result: the entry's address, 0 for NULL. *)
Definition cmd_hash_find (ht : cmd_hash_table_t) (cmd : list Z)
  : option (cmd_hash_table_t * Z) :=
  index ← hash_func cmd;
  ht ← xSemaphoreTake ht;
  first ← ld (table ht) index;
  found ← chain_search (search_fuel ht) (entries ht) first 0 cmd;
  Some (xSemaphoreGive ht, match found with Some (entry, _) => entry | None => 0 end).

Definition cmd_hash_remove (ht : cmd_hash_table_t) (cmd : list Z) : option cmd_hash_table_t :=
  index ← hash_func cmd;
  ht ← xSemaphoreTake ht;
  first ← ld (table ht) index;
  found ← chain_search (search_fuel ht) (entries ht) first 0 cmd;
  match found with
  | None => Some (xSemaphoreGive ht)
  | Some (entry, prev) =>
      e ← entries ht !! entry;
      if prev =? 0 then
        t ← st (table ht) index (next e);
        Some (xSemaphoreGive (mk_table t (lock ht) (delete entry (entries ht))))
      else
        p ← entries ht !! prev;
        Some (xSemaphoreGive (mk_table (table ht) (lock ht)
          (delete entry (<[prev := mk_entry (cmd_str p) (cmd_id p) (next e)]> (entries ht)))))
  end.

Fixpoint free_chain (fuel : nat) (h : heap) (entry : Z) : option heap :=
  match fuel with
  | O => None
  | S fuel =>
      if entry =? 0 then Some h
      else e ← h !! entry; free_chain fuel (delete entry h) (next e)
  end.
Fixpoint clear_buckets (fuel : nat) (h : heap) (t : list Z) : option heap :=
  match t with
  | [] => Some h
  | first :: t' => h' ← free_chain fuel h first; clear_buckets fuel h' t'
  end.
Definition cmd_hash_clear (ht : cmd_hash_table_t) : option cmd_hash_table_t :=
  ht ← xSemaphoreTake ht;
  h ← clear_buckets (search_fuel ht) (entries ht) (table ht);
  Some (xSemaphoreGive (mk_table (replicate 101 0) (lock ht) h)).

(** * Properties *)

(** ** Chains *)

(** An item of a bucket: address, key, identifier. *)
Record item := mk_item { addr : Z; key : list Z; ident : Z }.

Fixpoint chain (h : heap) (p : Z) (l : list item) : Prop :=
  match l with
  | [] => p = 0
  | i :: l' =>
      p = addr i /\ addr i <> 0 /\ nul_free (key i) /\
      exists n, h !! addr i = Some (mk_entry (key i ++ [0]) (ident i) n) /\ chain h n l'
  end.

Lemma chain_frame h h' p l :
  (forall a, a ∈ map addr l -> h' !! a = h !! a) -> chain h p l -> chain h' p l.
Proof.
  revert p. induction l as [|i l IH]; intros p Hf Hc; [done|]. cbn in *.
  destruct Hc as (-> & Hne & Hk & n & Hi & Hc). do 3 (split; [done|]).
  exists n. split; [rewrite Hf; [done|constructor]|]. apply IH; [|done].
  intros a Ha. apply Hf. by constructor.
Qed.
Lemma chain_fresh h a e p l : a ∉ map addr l -> chain h p l -> chain (<[a := e]> h) p l.
Proof. intros Ha. apply chain_frame. intros b Hb. apply lookup_insert_ne. by intros ->. Qed.
Lemma chain_delete h a p l : a ∉ map addr l -> chain h p l -> chain (delete a h) p l.
Proof. intros Ha. apply chain_frame. intros b Hb. apply lookup_delete_ne. by intros ->. Qed.

Lemma chain_in_heap h p l i : chain h p l -> i ∈ l -> addr i <> 0 /\ is_Some (h !! addr i).
Proof.
  revert p. induction l as [|j l IH]; intros p Hc Hi; [by apply elem_of_nil in Hi|].
  destruct Hc as (-> & Hne & Hk & n & Hj & Hc). apply elem_of_cons in Hi as [->|Hi]; eauto.
Qed.

Lemma str_eq_key k cmd r : nul_free k -> nul_free cmd ->
  str_eq (k ++ [0]) (cmd ++ 0 :: r) = Some (bool_decide (k = cmd)).
Proof. intros. unfold str_eq. by rewrite !cstr_text. Qed.

(** The search finds the first item with the key and what precedes it. *)
Lemma chain_search_spec h cmd r l : forall fuel p prev,
  nul_free cmd -> chain h p l -> (length l < fuel)%nat ->
  (chain_search fuel h p prev (cmd ++ 0 :: r) = Some None /\ Forall (fun i => key i <> cmd) l) \/
  (exists l1 i l2, l = l1 ++ i :: l2 /\ key i = cmd /\ Forall (fun i => key i <> cmd) l1 /\
     chain_search fuel h p prev (cmd ++ 0 :: r) = Some (Some (addr i, match last l1 with Some j => addr j | None => prev end))).
Proof.
  induction l as [|i l IH]; intros fuel p prev Hcmd Hc Hf; (destruct fuel as [|fuel]; [simpl in Hf; lia|]).
  - cbn in Hc. subst p. left. done.
  - destruct Hc as (-> & Hne & Hk & n & Hi & Hc). cbn [chain_search].
    rewrite (proj2 (Z.eqb_neq _ _)) by done. rewrite Hi. cbn [mbind option_bind cmd_str next].
    rewrite str_eq_key by done. cbn [mbind option_bind]. case_bool_decide as E.
    + right. exists [], i, l. done.
    + destruct (IH fuel n (addr i) Hcmd Hc) as [[H1 H2]|(l1 & j & l2 & -> & Hj & H1 & H2)].
      * simpl in Hf. lia.
      * left. split; [done|]. by constructor.
      * right. exists (i :: l1), j, l2. split; [done|]. split; [done|]. split; [by constructor|].
        rewrite H2, last_cons. by destruct (last l1).
Qed.

(** Updating the identifier of one item. *)
Lemma chain_update h p l1 i l2 id e :
  chain h p (l1 ++ i :: l2) -> NoDup (map addr (l1 ++ i :: l2)) -> h !! addr i = Some e ->
  chain (<[addr i := mk_entry (cmd_str e) id (next e)]> h) p
    (l1 ++ mk_item (addr i) (key i) id :: l2).
Proof.
  revert p. induction l1 as [|j l1 IH]; intros p Hc Hnd He; cbn in *.
  - destruct Hc as (-> & ? & ? & n & Hi & Hc). rewrite He in Hi. simplify_eq.
    do 3 (split; [done|]). exists n. rewrite lookup_insert_eq. split; [done|].
    apply NoDup_cons in Hnd as [Hni _]. by apply chain_fresh.
  - destruct Hc as (-> & ? & ? & n & Hj & Hc). apply NoDup_cons in Hnd as [Hni Hnd].
    do 3 (split; [done|]). exists n. split; [|by apply IH].
    rewrite lookup_insert_ne; [done|]. intros E. apply Hni. rewrite map_app, elem_of_app. right.
    rewrite <- E. constructor.
Qed.

(** Unlinking one item. *)
Lemma chain_unlink_first h p i l e :
  chain h p (i :: l) -> NoDup (map addr (i :: l)) -> h !! addr i = Some e ->
  chain (delete (addr i) h) (next e) l.
Proof.
  intros (-> & ? & ? & n & Hi & Hc) Hnd He. rewrite He in Hi. simplify_eq. cbn in *.
  apply NoDup_cons in Hnd as [Hni _]. by apply chain_delete.
Qed.
Lemma chain_unlink h p l1 j i l2 e ej :
  chain h p (l1 ++ j :: i :: l2) -> NoDup (map addr (l1 ++ j :: i :: l2)) ->
  h !! addr i = Some e -> h !! addr j = Some ej ->
  chain (delete (addr i) (<[addr j := mk_entry (cmd_str ej) (cmd_id ej) (next e)]> h)) p
    (l1 ++ j :: l2).
Proof.
  revert p. induction l1 as [|k l1 IH]; intros p Hc Hnd He Hej; cbn in *.
  - destruct Hc as (-> & ? & ? & n & Hj & -> & ? & ? & n' & Hi & Hc).
    rewrite He in Hi. rewrite Hej in Hj. simplify_eq.
    apply NoDup_cons in Hnd as [Hnj Hnd]. apply NoDup_cons in Hnd as [Hni _].
    apply not_elem_of_cons in Hnj as [Hij Hnj].
    do 3 (split; [done|]). exists n'. rewrite lookup_delete_ne, lookup_insert_eq by congruence.
    split; [done|]. apply chain_delete; [done|]. by apply chain_fresh.
  - destruct Hc as (-> & ? & ? & n & Hk & Hc). apply NoDup_cons in Hnd as [Hnk Hnd].
    rewrite map_app, elem_of_app in Hnk. cbn in Hnk. rewrite !elem_of_cons in Hnk.
    do 3 (split; [done|]). exists n. split; [|by apply IH].
    rewrite lookup_delete_ne, lookup_insert_ne by (intros E; apply Hnk; rewrite E; auto). done.
Qed.

(** ** The table as a finite map *)

(** The hash of a text. *)
Definition hash_of (k : list Z) : Z :=
  fold_left (fun hash c => u32 (u32 (Z.shiftl hash 5) + hash + c)) k 5381 mod HASH_TABLE_SIZE.

Lemma hash_func_text k r : nul_free k -> hash_func (k ++ 0 :: r) = Some (hash_of k).
Proof.
  intros Hk. unfold hash_func, hash_of.
  assert (E : forall acc, hash_loop (k ++ 0 :: r) acc
    = Some (fold_left (fun hash c => u32 (u32 (Z.shiftl hash 5) + hash + c)) k acc)).
  { induction Hk as [|c k Hc Hk IH]; intros acc; [done|]. cbn [app hash_loop fold_left].
    rewrite (proj2 (Z.eqb_neq c 0)) by done. apply IH. }
  by rewrite E.
Qed.
Lemma hash_of_range k : 0 <= hash_of k < 101.
Proof. apply Z.mod_pos_bound. done. Qed.

Definition bucket (b : list (list item)) (k : list Z) : list item := b !!! Z.to_nat (hash_of k).

Record rep (ht : cmd_hash_table_t) (b : list (list item)) : Prop := {
  rep_table : length (table ht) = 101%nat;
  rep_length : length b = 101%nat;
  rep_lock : lock ht = false;
  rep_chain : forall i l, b !! i = Some l -> exists p, table ht !! i = Some p /\ chain (entries ht) p l;
  rep_keys : forall i l x, b !! i = Some l -> x ∈ l -> Z.to_nat (hash_of (key x)) = i;
  rep_nodup : forall i l, b !! i = Some l -> NoDup (map addr l) /\ NoDup (map key l);
  rep_disjoint : forall i j l l' a, i <> j -> b !! i = Some l -> b !! j = Some l' ->
    a ∈ map addr l -> a ∉ map addr l'
}.

Lemma chain_size h p l : chain h p l -> NoDup (map addr l) -> (length l <= size h)%nat.
Proof.
  intros Hc Hnd. rewrite <- (length_map addr l), <- size_dom.
  rewrite <- (size_list_to_set (C := gset Z) (map addr l)) by done.
  apply subseteq_size. intros a Ha. apply elem_of_list_to_set, list_elem_of_fmap in Ha as (i & -> & Hi).
  apply elem_of_dom. by destruct (chain_in_heap _ _ _ _ Hc Hi).
Qed.

(** Replacing one bucket, its chain and the heap under it. *)
Lemma rep_update ht b i l l' p' h' :
  rep ht b -> b !! i = Some l ->
  chain h' p' l' -> NoDup (map addr l') -> NoDup (map key l') ->
  (forall x, x ∈ l' -> Z.to_nat (hash_of (key x)) = i) ->
  (forall a, a ∈ map addr l' -> a ∈ map addr l \/ entries ht !! a = None) ->
  (forall a, is_Some (entries ht !! a) -> a ∉ map addr l -> h' !! a = entries ht !! a) ->
  rep (mk_table (<[i := p']> (table ht)) false h') (<[i := l']> b).
Proof.
  intros [Ht Hb Hl Hch Hk Hnd Hdis] Hi Hc Hna Hnk Hkeys Haddr Hframe.
  assert (Hlt : (i < 101)%nat) by (rewrite <- Hb; by apply lookup_lt_is_Some; eexists).
  assert (Hin : forall j lj a, b !! j = Some lj -> a ∈ map addr lj -> is_Some (entries ht !! a)).
  { intros j lj a Hj Ha. apply list_elem_of_fmap in Ha as (x & -> & Hx).
    destruct (Hch j lj Hj) as (p & _ & Hcj). by destruct (chain_in_heap _ _ _ _ Hcj Hx). }
  split; cbn [table lock entries]; rewrite ?length_insert; try done.
  - intros j lj. destruct (decide (i = j)) as [<-|Hij].
    + rewrite !list_lookup_insert_eq by lia. intros [= <-]. by exists p'.
    + rewrite !list_lookup_insert_ne by done. intros Hj. destruct (Hch j lj Hj) as (p & ? & Hcj).
      exists p. split; [done|]. eapply chain_frame; [|exact Hcj]. intros a Ha. apply Hframe; eauto.
  - intros j lj x. destruct (decide (i = j)) as [<-|Hij].
    + rewrite list_lookup_insert_eq by lia. intros [= <-]. auto.
    + rewrite list_lookup_insert_ne by done. eauto.
  - intros j lj. destruct (decide (i = j)) as [<-|Hij].
    + rewrite list_lookup_insert_eq by lia. intros [= <-]. done.
    + rewrite list_lookup_insert_ne by done. eauto.
  - assert (Hsep : forall j lj a, i <> j -> b !! j = Some lj -> a ∈ map addr l' -> a ∉ map addr lj).
    { intros j lj a Hij Hj Ha Ha'. destruct (Haddr a Ha) as [Ha0|Hn]; [by eapply Hdis|].
      destruct (Hin j lj a Hj Ha'). congruence. }
    intros j k lj lk a Hjk. destruct (decide (i = j)) as [<-|Hij], (decide (i = k)) as [<-|Hik]; try done.
    + rewrite list_lookup_insert_eq, list_lookup_insert_ne by (lia || done). intros [= <-]. eauto.
    + rewrite list_lookup_insert_eq, list_lookup_insert_ne by (lia || done).
      intros Hj [= <-] Ha Ha'. by eapply Hsep.
    + rewrite !list_lookup_insert_ne by done. eauto.
Qed.

Fixpoint assoc (l : list item) (k : list Z) : option Z :=
  match l with
  | [] => None
  | i :: l => if decide (key i = k) then Some (ident i) else assoc l k
  end.

Lemma assoc_none l k : Forall (fun i => key i <> k) l -> assoc l k = None.
Proof. induction 1; [done|]. cbn. by rewrite decide_False. Qed.
Lemma assoc_app l1 l2 k : assoc (l1 ++ l2) k = match assoc l1 k with Some v => Some v | None => assoc l2 k end.
Proof. induction l1; [done|]. cbn. by case_decide. Qed.

(** The table [ht] is unlocked, well formed and implements the map [M]. *)
Definition implements (ht : cmd_hash_table_t) (M : gmap (list Z) Z) : Prop :=
  exists b, rep ht b /\ forall k, M !! k = assoc (bucket b k) k.

(** What every operation knows after hashing its key. *)
Lemma bucket_open ht b k :
  rep ht b -> exists l p,
    b !! Z.to_nat (hash_of k) = Some l /\ bucket b k = l /\
    ld (table ht) (hash_of k) = Some p /\ chain (entries ht) p l /\
    (length l < search_fuel ht)%nat.
Proof.
  intros R. pose proof (hash_of_range k).
  destruct (lookup_lt_is_Some_2 b (Z.to_nat (hash_of k))) as [l Hl]; [rewrite (rep_length _ _ R); lia|].
  destruct (rep_chain _ _ R _ _ Hl) as (p & Hp & Hc). exists l, p. split; [done|].
  split; [by apply list_lookup_total_correct|]. split; [apply ld_Some_iff; split; [lia|done]|]. split; [done|].
  pose proof (chain_size _ _ _ Hc (proj1 (rep_nodup _ _ R _ _ Hl))). unfold search_fuel. lia.
Qed.

Lemma bucket_insert b k l' k' :
  (length b = 101)%nat ->
  bucket (<[Z.to_nat (hash_of k) := l']> b) k' =
  if decide (hash_of k' = hash_of k) then l' else bucket b k'.
Proof.
  intros Hb. pose proof (hash_of_range k). pose proof (hash_of_range k'). unfold bucket. case_decide as E.
  - rewrite E. by apply list_lookup_total_insert_eq; lia.
  - apply list_lookup_total_insert_ne. lia.
Qed.

Lemma implements_step (ht : cmd_hash_table_t) (b : list (list item)) (M M' : gmap (list Z) Z)
    (l l' : list item) (k : list Z) (p' : Z) (h' : heap) :
  rep ht b -> (forall k : list Z, M !! k = assoc (bucket b k) k) -> bucket b k = l ->
  rep (mk_table (<[Z.to_nat (hash_of k) := p']> (table ht)) false h')
    (<[Z.to_nat (hash_of k) := l']> b) ->
  M' !! k = assoc l' k ->
  (forall k', k' <> k -> M' !! k' = M !! k') ->
  (forall k', k' <> k -> hash_of k' = hash_of k -> assoc l' k' = assoc l k') ->
  implements (mk_table (<[Z.to_nat (hash_of k) := p']> (table ht)) false h') M'.
Proof.
  intros R HM Hl R' Hk Hother Hassoc. eexists; split; [exact R'|]. intros k'.
  rewrite bucket_insert by apply (rep_length _ _ R). case_decide as E.
  - destruct (decide (k' = k)) as [->|Hne]; [done|]. rewrite Hother, HM, Hassoc by done.
    f_equal. rewrite <- Hl. unfold bucket. by rewrite E.
  - rewrite Hother, HM; [done|]. by intros ->.
Qed.

Lemma insert_same_table ht b k p :
  rep ht b -> ld (table ht) (hash_of k) = Some p ->
  <[Z.to_nat (hash_of k) := p]> (table ht) = table ht.
Proof. intros R Hp. apply list_insert_id. by apply ld_Some_iff. Qed.

Lemma add_existing (ht : cmd_hash_table_t) (M : gmap (list Z) Z) (b : list (list item)) (k r : list Z) (l : list item) (p : Z) l1 i l2 (id : Z) ea es prev :
  rep ht b -> (forall k : list Z, M !! k = assoc (bucket b k) k) -> nul_free k ->
  b !! Z.to_nat (hash_of k) = Some l -> bucket b k = l ->
  ld (table ht) (hash_of k) = Some p -> chain (entries ht) p l ->
  l = l1 ++ i :: l2 -> key i = k -> Forall (fun j => key j <> k) l1 ->
  chain_search (search_fuel ht) (entries ht) p 0 (k ++ 0 :: r) = Some (Some (addr i, prev)) ->
  exists ht', cmd_hash_add ht (k ++ 0 :: r) id ea es = Some ht' /\ implements ht' (<[k := id]> M).
Proof.
  intros R HM Hk Hb Hbk Hp Hc -> Hi H1 Hs. destruct (rep_nodup _ _ R _ _ Hb) as [Hna Hnk].
  destruct (chain_in_heap _ _ _ i Hc) as [Hi0 [e He]]; [set_solver|].
  unfold cmd_hash_add. rewrite hash_func_text by done. cbn [mbind option_bind].
  unfold xSemaphoreTake. rewrite (rep_lock _ _ R). cbn [mbind option_bind table entries lock].
  unfold search_fuel in *. cbn [entries]. rewrite Hp. cbn [mbind option_bind].
  rewrite Hs. cbn [mbind option_bind]. rewrite He. cbn [mbind option_bind].
  unfold xSemaphoreGive. cbn [table entries]. eexists; split; [done|].
  rewrite <- (insert_same_table ht b k p R Hp) at 1.
  assert (Hmk : map key (l1 ++ mk_item (addr i) (key i) id :: l2) = map key (l1 ++ i :: l2))
    by (by rewrite !map_app).
  assert (Hma : map addr (l1 ++ mk_item (addr i) (key i) id :: l2) = map addr (l1 ++ i :: l2))
    by (by rewrite !map_app).
  eapply (implements_step ht b M _ _ (l1 ++ mk_item (addr i) (key i) id :: l2)); try done.
  - eapply rep_update; try done.
    + by apply chain_update.
    + by rewrite Hma.
    + by rewrite Hmk.
    + intros x Hx. apply elem_of_app in Hx as [Hx|Hx]; [|apply elem_of_cons in Hx as [->|Hx]];
        [| |]; cbn [key]; eapply (rep_keys _ _ R); [exact Hb| |exact Hb| |exact Hb|]; set_solver.
    + rewrite Hma. auto.
    + intros a _ Ha. rewrite lookup_insert_ne; [done|]. intros <-. apply Ha.
      rewrite map_app. set_solver.
  - rewrite lookup_insert_eq, assoc_app, assoc_none by done. cbn. by rewrite decide_True.
  - intros k' Hne. by rewrite lookup_insert_ne.
  - intros k' Hne _. rewrite !assoc_app. cbn. rewrite !decide_False; congruence.
Qed.

Lemma add_new (ht : cmd_hash_table_t) (M : gmap (list Z) Z) (b : list (list item)) (k r : list Z) (l : list item) (p : Z) (id a : Z) :
  rep ht b -> (forall k : list Z, M !! k = assoc (bucket b k) k) -> nul_free k ->
  b !! Z.to_nat (hash_of k) = Some l -> bucket b k = l ->
  ld (table ht) (hash_of k) = Some p -> chain (entries ht) p l ->
  Forall (fun j => key j <> k) l ->
  chain_search (search_fuel ht) (entries ht) p 0 (k ++ 0 :: r) = Some None ->
  a <> 0 -> entries ht !! a = None ->
  exists ht', cmd_hash_add ht (k ++ 0 :: r) id (Some a) true = Some ht' /\
    implements ht' (<[k := id]> M).
Proof.
  intros R HM Hk Hb Hbk Hp Hc Hl Hs Ha0 Ha. destruct (rep_nodup _ _ R _ _ Hb) as [Hna Hnk].
  pose proof (hash_of_range k).
  unfold cmd_hash_add. rewrite hash_func_text by done. cbn [mbind option_bind].
  unfold xSemaphoreTake. rewrite (rep_lock _ _ R). cbn [mbind option_bind table entries lock].
  unfold search_fuel in *. cbn [entries]. rewrite Hp. cbn [mbind option_bind].
  rewrite Hs. cbn [mbind option_bind]. rewrite cstr_text by done. cbn [mbind option_bind].
  rewrite st_Some by (rewrite (rep_table _ _ R); lia). cbn [mbind option_bind].
  unfold xSemaphoreGive. cbn [table entries]. eexists; split; [done|].
  assert (Hfresh : a ∉ map addr l).
  { intros Hin. apply list_elem_of_fmap in Hin as (x & -> & Hx).
    destruct (chain_in_heap _ _ _ _ Hc Hx) as [_ [e He]]. congruence. }
  eapply (implements_step ht b M _ l (mk_item a k id :: l)); try done.
  - eapply rep_update; try done.
    + cbn. do 3 (split; [done|]). exists p. rewrite lookup_insert_eq. split; [done|].
      by apply chain_fresh.
    + cbn. by constructor.
    + cbn. constructor; [|done]. intros Hin. apply list_elem_of_fmap in Hin as (x & -> & Hx).
      rewrite Forall_forall in Hl. by apply (Hl x).
    + intros x Hx. apply elem_of_cons in Hx as [->|Hx]; [done|]. by eapply (rep_keys _ _ R).
    + cbn. intros x Hx. apply elem_of_cons in Hx as [->|Hx]; auto.
    + intros x [e He] _. apply lookup_insert_ne. congruence.
  - cbn. by rewrite lookup_insert_eq, decide_True.
  - intros k' Hne. by rewrite lookup_insert_ne.
  - intros k' Hne _. cbn. by rewrite decide_False.
Qed.

Lemma remove_existing (ht : cmd_hash_table_t) (M : gmap (list Z) Z) (b : list (list item)) (k r : list Z) (l : list item) (p : Z) l1 i l2 :
  rep ht b -> (forall k : list Z, M !! k = assoc (bucket b k) k) -> nul_free k ->
  b !! Z.to_nat (hash_of k) = Some l -> bucket b k = l ->
  ld (table ht) (hash_of k) = Some p -> chain (entries ht) p l ->
  l = l1 ++ i :: l2 -> key i = k -> Forall (fun j => key j <> k) l1 ->
  chain_search (search_fuel ht) (entries ht) p 0 (k ++ 0 :: r)
    = Some (Some (addr i, match last l1 with Some j => addr j | None => 0 end)) ->
  exists ht', cmd_hash_remove ht (k ++ 0 :: r) = Some ht' /\
    implements ht' (delete k M) /\ entries ht' !! addr i = None.
Proof.
  intros R HM Hk Hb Hbk Hp Hc -> Hi H1 Hs. destruct (rep_nodup _ _ R _ _ Hb) as [Hna Hnk].
  pose proof (hash_of_range k).
  destruct (chain_in_heap _ _ _ i Hc) as [Hi0 [e He]]; [set_solver|].
  assert (Hk2 : Forall (fun j => key j <> k) l2).
  { rewrite map_app in Hnk. apply NoDup_app in Hnk as (_ & _ & Hnk). cbn in Hnk.
    apply NoDup_cons in Hnk as [Hnk _]. apply Forall_forall. intros x Hx E. apply Hnk.
    rewrite Hi, <- E. by apply list_elem_of_fmap_2. }
  unfold cmd_hash_remove. rewrite hash_func_text by done. cbn [mbind option_bind].
  unfold xSemaphoreTake. rewrite (rep_lock _ _ R). cbn [mbind option_bind table entries lock].
  unfold search_fuel in *. cbn [entries]. rewrite Hp. cbn [mbind option_bind].
  rewrite Hs. cbn [mbind option_bind]. rewrite He. cbn [mbind option_bind].
  assert (Hstep : forall p' h', chain h' p' (l1 ++ l2) ->
    (forall a, a ∉ map addr (l1 ++ i :: l2) -> h' !! a = entries ht !! a) ->
    implements (mk_table (<[Z.to_nat (hash_of k) := p']> (table ht)) false h') (delete k M)).
  { intros p' h' Hc' Hf. eapply (implements_step ht b M _ _ (l1 ++ l2)); try done.
    - rewrite map_app in Hna, Hnk. cbn in Hna, Hnk.
      eapply rep_update; try done; rewrite ?map_app.
      + eapply sublist_NoDup; [exact Hna|]. apply sublist_app; [done|]. by apply sublist_cons.
      + eapply sublist_NoDup; [exact Hnk|]. apply sublist_app; [done|]. by apply sublist_cons.
      + intros x Hx. eapply (rep_keys _ _ R); [exact Hb|]. set_solver.
      + intros a Ha. left. set_solver.
      + intros a _ Ha. apply Hf. by rewrite map_app.
    - rewrite lookup_delete_eq, assoc_none; [done|]. by apply Forall_app.
    - intros k' Hne. by rewrite lookup_delete_ne.
    - intros k' Hne _. rewrite !assoc_app. cbn. rewrite (decide_False (P := key i = k')); congruence. }
  destruct l1 as [|j l1 _] using rev_ind.
  - cbn [last]. cbn [Z.eqb]. rewrite st_Some by (rewrite (rep_table _ _ R); lia). cbn [mbind option_bind].
    unfold xSemaphoreGive. cbn [table entries]. eexists; split; [done|]. split; [|apply lookup_delete_eq].
    cbn [app] in *. apply Hstep; [by eapply chain_unlink_first|].
    intros a Ha. apply lookup_delete_ne. intros <-. apply Ha. set_solver.
  - rewrite last_snoc. rewrite <- app_assoc in Hc, Hna. cbn [app] in Hc, Hna.
    destruct (chain_in_heap _ _ _ j Hc) as [Hj0 [ej Hej]]; [set_solver|].
    rewrite (proj2 (Z.eqb_neq _ _)) by done. rewrite Hej. cbn [mbind option_bind].
    unfold xSemaphoreGive. cbn [table entries]. eexists; split; [done|]. split; [|apply lookup_delete_eq].
    rewrite <- (insert_same_table ht b k p R Hp) at 1.
    apply Hstep; [rewrite <- app_assoc; by apply chain_unlink|].
    intros a Ha. rewrite lookup_delete_ne, lookup_insert_ne; [done| |];
      intros <-; apply Ha; rewrite !map_app; set_solver.
Qed.

(** ** Clearing *)

Lemma free_chain_spec l : forall fuel h p,
  chain h p l -> NoDup (map addr l) -> (length l < fuel)%nat ->
  exists h', free_chain fuel h p = Some h' /\
    forall a, h' !! a = if decide (a ∈ map addr l) then None else h !! a.
Proof.
  induction l as [|i l IH]; intros fuel h p Hc Hnd Hf; (destruct fuel as [|fuel]; [simpl in Hf; lia|]).
  - cbn in Hc. subst p. exists h. split; [done|]. intros a. by rewrite decide_False by apply not_elem_of_nil.
  - destruct Hc as (-> & Hi0 & _ & n & Hi & Hc). cbn [free_chain]. rewrite (proj2 (Z.eqb_neq _ _)) by done.
    rewrite Hi. cbn [mbind option_bind next]. cbn in Hnd. apply NoDup_cons in Hnd as [Hni Hnd].
    destruct (IH fuel (delete (addr i) h) n) as (h' & -> & Hh'); [by apply chain_delete|done|simpl in Hf; lia|].
    exists h'. split; [done|]. intros a. rewrite Hh'. cbn [map].
    destruct (decide (a = addr i)) as [->|Hne].
    + rewrite (decide_False (P := addr i ∈ map addr l)), lookup_delete_eq by done.
      by rewrite decide_True by constructor.
    + rewrite lookup_delete_ne by done. do 2 case_decide; set_solver.
Qed.

Lemma clear_buckets_spec fuel t (b : list (list item)) : forall h,
  Forall2 (fun p l => chain h p l /\ NoDup (map addr l) /\ (length l < fuel)%nat) t b ->
  (forall i j l l' a, i <> j -> b !! i = Some l -> b !! j = Some l' ->
    a ∈ map addr l -> a ∉ map addr l') ->
  exists h', clear_buckets fuel h t = Some h' /\
    forall a, h' !! a = if decide (Exists (fun l => a ∈ map addr l) b) then None else h !! a.
Proof.
  revert b. induction t as [|p t IH]; intros b h H2 Hdis.
  - apply Forall2_nil_inv_l in H2 as ->. exists h. split; [done|]. intros a.
    rewrite decide_False; [done|]. by inversion 1.
  - apply Forall2_cons_inv_l in H2 as (l & b' & (Hc & Hnd & Hf) & H2 & ->).
    cbn [clear_buckets]. destruct (free_chain_spec l fuel h p Hc Hnd Hf) as (h1 & -> & Hh1).
    cbn [mbind option_bind]. destruct (IH b' h1) as (h' & -> & Hh').
    + apply Forall2_same_length_lookup in H2 as [Hlen H2]. apply Forall2_same_length_lookup. split; [done|].
      intros j q lj Hq Hj. destruct (H2 j q lj Hq Hj) as (Hcj & ? & ?). split; [|done].
      eapply chain_frame; [|exact Hcj]. intros a Ha. rewrite Hh1.
      rewrite decide_False; [done|]. by apply (Hdis (S j) O lj l a).
    + intros i j li lj a Hij Hi Hj. apply (Hdis (S i) (S j)); [lia|done|done].
    + exists h'. split; [done|]. intros a. rewrite Hh', Hh1.
      destruct (decide (Exists (fun l => a ∈ map addr l) b')) as [He|He].
      * by rewrite decide_True by (by constructor).
      * destruct (decide (a ∈ map addr l)).
        -- by rewrite decide_True by (by constructor).
        -- rewrite decide_False; [done|]. by inversion_clear 1.
Qed.

Lemma rep_empty h : rep (mk_table (replicate 101 0) false h) (replicate 101 []).
Proof.
  split; cbn [table lock entries]; rewrite ?length_replicate; try done.
  - intros i l Hi. apply lookup_replicate in Hi as [-> Hi]. exists 0.
    split; [by apply lookup_replicate|done].
  - intros i l x Hi Hx. apply lookup_replicate in Hi as [-> _]. by apply elem_of_nil in Hx.
  - intros i l Hi. apply lookup_replicate in Hi as [-> _]. split; constructor.
  - intros i j l l' a _ Hi _ Ha. apply lookup_replicate in Hi as [-> _]. by apply elem_of_nil in Ha.
Qed.
Lemma implements_empty h : implements (mk_table (replicate 101 0) false h) ∅.
Proof.
  exists (replicate 101 []). split; [apply rep_empty|]. intros k. rewrite lookup_empty.
  unfold bucket. pose proof (hash_of_range k).
  by rewrite (list_lookup_total_correct _ _ []) by (apply lookup_replicate; split; [done|lia]).
Qed.

(** [C27] The hash table refines a finite map from texts to identifiers: on an
    unlocked well-formed table that implements [M], [cmd_hash_find] returns the
    entry of exactly the keys of [M]; [cmd_hash_add] implements the insertion
    (with a failing allocation it still updates a key that is present, and
    changes nothing else); [cmd_hash_remove] implements the deletion and frees
    the entry; [cmd_hash_clear] implements the empty map; every path terminates
    and gives the lock back. *)
Theorem cmd_hash_refines_map ht M k r :
  implements ht M -> nul_free k ->
  (exists p, cmd_hash_find ht (k ++ 0 :: r) = Some (ht, p) /\
     match M !! k with
     | Some v => p <> 0 /\ exists e, entries ht !! p = Some e /\ cmd_id e = v /\ cmd_str e = k ++ [0]
     | None => p = 0
     end) /\
  (forall id a, a <> 0 -> entries ht !! a = None ->
     exists ht', cmd_hash_add ht (k ++ 0 :: r) id (Some a) true = Some ht' /\
       implements ht' (<[k := id]> M)) /\
  (forall id ea es, ea = None \/ es = false ->
     exists ht', cmd_hash_add ht (k ++ 0 :: r) id ea es = Some ht' /\
       implements ht' (if decide (is_Some (M !! k)) then <[k := id]> M else M)) /\
  (exists ht', cmd_hash_remove ht (k ++ 0 :: r) = Some ht' /\ implements ht' (delete k M)) /\
  (exists ht', cmd_hash_clear ht = Some ht' /\ implements ht' ∅).
Proof.
  intros (b & R & HM) Hk. destruct (bucket_open ht b k R) as (l & p & Hb & Hbk & Hp & Hc & Hf).
  assert (Eta : ht = mk_table (table ht) false (entries ht)).
  { pose proof (rep_lock _ _ R). by destruct ht; cbn in *; subst. }
  assert (Hself : implements ht M) by (by exists b).
  assert (Hclear : exists ht', cmd_hash_clear ht = Some ht' /\ implements ht' ∅).
  { unfold cmd_hash_clear, xSemaphoreTake. rewrite (rep_lock _ _ R). cbn [mbind option_bind].
    destruct (clear_buckets_spec (search_fuel ht) (table ht) b (entries ht)) as (h' & E & _).
    - apply Forall2_same_length_lookup. split; [by rewrite (rep_table _ _ R), (rep_length _ _ R)|].
      intros i q li Hq Hi. destruct (rep_chain _ _ R i li Hi) as (q' & Hq' & Hci). simplify_eq.
      destruct (rep_nodup _ _ R i li Hi) as [Hna _]. split; [done|]. split; [done|].
      pose proof (chain_size _ _ _ Hci Hna). unfold search_fuel. lia.
    - apply (rep_disjoint _ _ R).
    - unfold search_fuel in *. cbn [entries table]. rewrite E. cbn [mbind option_bind].
      eexists; split; [done|]. apply implements_empty. }
  destruct (chain_search_spec _ k r l (search_fuel ht) p 0 Hk Hc Hf)
    as [[Hs Hn]|(l1 & i & l2 & El & Hi & H1 & Hs)].
  - assert (HN : M !! k = None) by (rewrite HM, Hbk; by apply assoc_none). rewrite HN.
    split; [|split; [|split; [|split]]].
    + exists 0. split; [|done]. unfold cmd_hash_find. rewrite hash_func_text by done. cbn [mbind option_bind].
      unfold xSemaphoreTake. rewrite (rep_lock _ _ R). unfold search_fuel in *. cbn [mbind option_bind table entries].
      rewrite Hp. cbn [mbind option_bind]. rewrite Hs. cbn. by rewrite Eta at 3.
    + intros id a Ha0 Ha. by eapply add_new.
    + intros id ea es Hfail. rewrite decide_False by (by intros [? ?]). exists ht. split; [|done].
      unfold cmd_hash_add. rewrite hash_func_text by done. cbn [mbind option_bind].
      unfold xSemaphoreTake. rewrite (rep_lock _ _ R). unfold search_fuel in *. cbn [mbind option_bind table entries].
      rewrite Hp. cbn [mbind option_bind]. rewrite Hs. cbn [mbind option_bind].
      unfold xSemaphoreGive. cbn [table entries]. rewrite <- Eta. destruct Hfail as [-> | ->]; [done|].
      by destruct ea.
    + exists ht. rewrite delete_id by done. split; [|done].
      unfold cmd_hash_remove. rewrite hash_func_text by done. cbn [mbind option_bind].
      unfold xSemaphoreTake. rewrite (rep_lock _ _ R). unfold search_fuel in *. cbn [mbind option_bind table entries].
      rewrite Hp. cbn [mbind option_bind]. rewrite Hs. cbn [mbind option_bind].
      unfold xSemaphoreGive. cbn [table entries]. by rewrite <- Eta.
    + exact Hclear.
  - assert (HS : M !! k = Some (ident i)).
    { rewrite HM, Hbk, El, assoc_app, assoc_none by done. cbn. by rewrite decide_True. }
    rewrite HS. split; [|split; [|split; [|split]]].
    + exists (addr i). assert (Hin : i ∈ l) by (rewrite El; set_solver). split.
      * unfold cmd_hash_find. rewrite hash_func_text by done. cbn [mbind option_bind].
        unfold xSemaphoreTake. rewrite (rep_lock _ _ R). unfold search_fuel in *. cbn [mbind option_bind table entries].
        rewrite Hp. cbn [mbind option_bind]. rewrite Hs. cbn. by rewrite Eta at 3.
      * clear - Hc Hin Hi. revert p Hc. induction l as [|j l IH]; [by apply elem_of_nil in Hin|].
        intros p (-> & Hj0 & _ & n & Hj & Hc). apply elem_of_cons in Hin as [->|Hin]; [|eauto].
        split; [done|]. eexists; split; [exact Hj|]. cbn. by rewrite Hi.
    + intros id a _ _. by eapply add_existing.
    + intros id ea es _. rewrite decide_True by eauto. by eapply add_existing.
    + destruct (remove_existing ht M b k r l p l1 i l2) as (ht' & E & Hm & _); try done. eauto.
    + exact Hclear.
Qed.

Lemma cmd_hash_refines_map_witness :
  implements (mk_table (replicate 101 0) false ∅) ∅ /\ nul_free [65; 66] /\
  exists ht', cmd_hash_add (mk_table (replicate 101 0) false ∅) ([65; 66] ++ [0]) 7 (Some 1) true
    = Some ht' /\ implements ht' (<[[65; 66] := 7]> ∅).
Proof.
  assert (H1 : implements (mk_table (replicate 101 0) false ∅) ∅) by apply implements_empty.
  assert (H2 : nul_free [65; 66]) by (repeat constructor; discriminate).
  split; [exact H1|]. split; [exact H2|].
  destruct (cmd_hash_refines_map (mk_table (replicate 101 0) false ∅) ∅ [65; 66] [] H1 H2)
    as (_ & Hadd & _). apply Hadd; [discriminate | reflexivity].
Defined.
