(* ===== verification/Ring.v ===== *)
(** * Ring buffers

    The facts every array used as a circular queue shares: the agent queues,
    the message queue and the serial FIFOs.  The program keeps its read and
    write positions by stepping and wrapping them; here they are the position
    modulo the capacity. *)
From S2P Require Import Prelude.

(** [p++; if (p == end) p = start;] *)
Definition ring_next (n p : Z) : Z := if p + 1 =? n then 0 else p + 1.

Lemma ring_next_mod n p : 0 <= p < n -> ring_next n p = (p + 1) mod n.
Proof.
  intros Hp. unfold ring_next. destruct (Z.eqb_spec (p + 1) n) as [->|].
  - symmetry. apply Z.mod_same. lia.
  - symmetry. apply Z.mod_small. lia.
Qed.
Lemma ring_next_range n p : 0 <= p < n -> 0 <= ring_next n p < n.
Proof. intros. rewrite ring_next_mod by done. apply Z.mod_pos_bound. lia. Qed.

Lemma mod_shift_inj n p i j :
  0 <= i < n -> 0 <= j < n -> (p + i) mod n = (p + j) mod n -> i = j.
Proof.
  intros Hi Hj H. assert (E : (p + i - (p + j)) mod n = 0).
  { rewrite Zminus_mod, H, Z.sub_diag. apply Z.mod_0_l. lia. }
  apply Z.mod_divide in E as [q E]; [|lia]. assert (q = 0) by nia. lia.
Qed.

Section Ring.
Context {A : Type}.
Implicit Types (arr l : list A).

(** The cells from position [p] on hold [l]. *)
Definition holds arr (p : Z) l : Prop :=
  (length l <= length arr)%nat /\
  forall j x, l !! j = Some x -> ld arr ((p + Z.of_nat j) mod zlen arr) = Some x.

Lemma holds_nil arr p : holds arr p [].
Proof. split; [simpl; lia|]. by intros j x Hj. Qed.

Lemma holds_index arr p j : (0 < length arr)%nat -> 0 <= (p + j) mod zlen arr < zlen arr.
Proof. intros. apply Z.mod_pos_bound. lia. Qed.

Lemma holds_push arr p l x :
  holds arr p l -> (length l < length arr)%nat ->
  holds (<[Z.to_nat ((p + zlen l) mod zlen arr) := x]> arr) p (l ++ [x]).
Proof.
  intros [Hlen Hl] Hlt. pose proof (holds_index arr p (zlen l)) as Hr.
  split; [zlen_lia|]. intros j y. rewrite zlen_insert. intros Hj.
  destruct (decide (j < length l)%nat).
  - rewrite lookup_app_l in Hj by done. rewrite ld_insert_ne; [by apply Hl|apply Hr; lia|].
    intros E. apply mod_shift_inj in E; lia.
  - rewrite lookup_app_r in Hj by lia. apply list_lookup_singleton_Some in Hj as [Hj <-].
    replace (Z.of_nat j) with (zlen l) by lia. apply ld_insert_eq. apply Hr. lia.
Qed.

Lemma holds_pop arr p x l :
  0 <= p < zlen arr -> holds arr p (x :: l) ->
  ld arr p = Some x /\ holds arr (ring_next (zlen arr) p) l.
Proof.
  intros Hp [Hlen Hl]. split.
  - rewrite <- (Hl O x eq_refl). f_equal. rewrite Z.add_0_r, Z.mod_small; lia.
  - split; [simpl in Hlen; lia|]. intros j y Hj. rewrite ring_next_mod by done.
    rewrite Zplus_mod_idemp_l. rewrite <- (Hl (S j) y Hj). do 2 f_equal. lia.
Qed.

(** A write into a full ring lands on its oldest cell. *)
Lemma holds_overwrite arr p y l x :
  0 <= p < zlen arr -> holds arr p (y :: l) -> zlen (y :: l) = zlen arr ->
  (p + zlen (y :: l)) mod zlen arr = p /\ holds (<[Z.to_nat p := x]> arr) p (x :: l).
Proof.
  intros Hp [Hlen Hl] Hfull. split.
  { rewrite Hfull, Z.add_mod, Z.mod_same, Z.add_0_r, Z.mod_mod, Z.mod_small; lia. }
  split; [zlen_lia|]. rewrite zlen_insert. intros [|j] z Hj.
  - rewrite Z.add_0_r, Z.mod_small by lia. simpl in Hj. simplify_eq. by apply ld_insert_eq.
  - rewrite ld_insert_ne; [by apply Hl|lia|].
    assert (Hlt : (S j < length (x :: l))%nat) by (apply lookup_lt_is_Some; eauto).
    intros E.
    assert (E' : (p + 0) mod zlen arr = (p + Z.of_nat (S j)) mod zlen arr)
      by (rewrite <- E, Z.add_0_r; by apply Z.mod_small).
    apply mod_shift_inj in E'; zlen_lia.
Qed.

Lemma holds_drop arr p l n :
  holds arr p l -> holds arr ((p + Z.of_nat n) mod zlen arr) (drop n l).
Proof.
  intros [Hlen Hl]. split; [rewrite length_drop; lia|]. intros j x Hj. rewrite lookup_drop in Hj.
  rewrite Zplus_mod_idemp_l. rewrite <- (Hl (n + j)%nat x Hj). do 2 f_equal. lia.
Qed.

Lemma tail_position arr (p : Z) l :
  0 <= p < zlen arr -> 
  ring_next (zlen arr) ((p + zlen l) mod zlen arr) = (p + (zlen l + 1)) mod zlen arr.
Proof.
  intros Hp. rewrite ring_next_mod by (apply Z.mod_pos_bound; lia).
  rewrite Zplus_mod_idemp_l. f_equal. lia.
Qed.
End Ring.
