(* ===== verification/Agent.v ===== *)
(** * agent.c: deferred function calls

    Three priorities, each with a ring of 32 pending calls and a counting
    semaphore.  [agent_post] inserts in a critical section and gives the
    semaphore after leaving it; the agent task takes the semaphore and pops in a
    second critical section.  The pieces between two such points are the steps
    of the interleaving below.  The RTOS semaphore is its documented counter. *)
From S2P Require Import Prelude Ring.

Definition AGENT_QUEUE_SIZE : Z := 32.
Definition AGENT_PRIO_CNT : Z := 3.

(** A pending call; [entry] 0 is the null pointer. *)
Record agent_func_t := mk_func { entry : Z; arg : Z }.

Record agent_queue_t := mk_queue {
  sem : Z;                       (* count of the semaphore *)
  array : list agent_func_t;
  head : Z;                      (* index of the read pointer *)
  tail : Z;                      (* index of the write pointer *)
  count : Z
}.

Definition agent_queue_init (array : list agent_func_t) : agent_queue_t :=
  mk_queue 0 array 0 0 0.

Definition agent_flush (q : agent_queue_t) : agent_queue_t :=
  mk_queue (sem q) (array q) 0 0 0.

(** The critical section of [agent_post]: [None] inside for a full queue. *)
Definition agent_insert (q : agent_queue_t) (func arg : Z) : option (option agent_queue_t) :=
  if count q =? AGENT_QUEUE_SIZE then Some None
  else
    a ← st (array q) (tail q) (mk_func func arg);
    Some (Some (mk_queue (sem q) a (head q) (ring_next AGENT_QUEUE_SIZE (tail q)) (count q + 1))).

(** [xSemaphoreGive]: fails at the maximum given to [xSemaphoreCreateCounting]. *)
Definition agent_give (q : agent_queue_t) : agent_queue_t * bool :=
  if sem q <? AGENT_QUEUE_SIZE
  then (mk_queue (sem q + 1) (array q) (head q) (tail q) (count q), true)
  else (q, false).

(** The whole call without preemption: the queue and the return value. *)
Definition agent_post (q : agent_queue_t) (func arg : Z) : option (agent_queue_t * Z) :=
  r ← agent_insert q func arg;
  match r with
  | None => Some (q, -1)
  | Some q' => let '(q'', ok) := agent_give q' in Some (q'', if (ok : bool) then 0 else -1)
  end.

Definition agent_take (q : agent_queue_t) : option agent_queue_t :=
  if 0 <? sem q
  then Some (mk_queue (sem q - 1) (array q) (head q) (tail q) (count q)) else None.

(** The critical section of the agent task: the call to make, if any. *)
Definition agent_pop (q : agent_queue_t) : option (agent_queue_t * option agent_func_t) :=
  if 0 <? count q then
    f ← ld (array q) (head q);
    Some (mk_queue (sem q) (array q) (ring_next AGENT_QUEUE_SIZE (head q)) (tail q) (count q - 1),
          if entry f =? 0 then None else Some f)
  else Some (q, None).

(** ** Interleaving of posters and the agent task

    [giving]: posters between their critical section and the give; [taken]: the
    task is between the take and its critical section; [executed]: the calls
    made so far. *)
Record agent_sys := mk_sys {
  queue : agent_queue_t;
  giving : Z;
  taken : bool;
  executed : list agent_func_t
}.

Inductive agent_step : agent_sys -> agent_sys -> Prop :=
| step_insert q q' g t ex func a :
    agent_insert q func a = Some (Some q') ->
    agent_step (mk_sys q g t ex) (mk_sys q' (g + 1) t ex)
| step_reject q g t ex func a :
    agent_insert q func a = Some None ->
    agent_step (mk_sys q g t ex) (mk_sys q g t ex)
| step_give q g t ex :
    0 < g -> agent_step (mk_sys q g t ex) (mk_sys (fst (agent_give q)) (g - 1) t ex)
| step_take q q' g ex :
    agent_take q = Some q' -> agent_step (mk_sys q g false ex) (mk_sys q' g true ex)
| step_pop q q' f g ex :
    agent_pop q = Some (q', f) ->
    agent_step (mk_sys q g true ex)
      (mk_sys q' g false (ex ++ match f with Some f => [f] | None => [] end))
| step_flush q g t ex :
    agent_step (mk_sys q g t ex) (mk_sys (agent_flush q) g t ex).

(** * Properties *)

(** The queue is a well-formed ring that holds [l], oldest first. *)
Definition queue_holds (q : agent_queue_t) (l : list agent_func_t) : Prop :=
  zlen (array q) = AGENT_QUEUE_SIZE /\ 0 <= head q < AGENT_QUEUE_SIZE /\
  tail q = (head q + zlen l) mod AGENT_QUEUE_SIZE /\ count q = zlen l /\
  holds (array q) (head q) l.

Lemma queue_holds_init array : zlen array = AGENT_QUEUE_SIZE -> queue_holds (agent_queue_init array) [].
Proof. intros. split; [done|]. split; [done|]. split; [done|]. split; [done|]. apply holds_nil. Qed.

Lemma queue_holds_flush q l : queue_holds q l -> queue_holds (agent_flush q) [].
Proof. intros (H & _). by apply queue_holds_init in H. Qed.

Lemma queue_insert_spec q l func a :
  queue_holds q l ->
  (zlen l = AGENT_QUEUE_SIZE /\ agent_insert q func a = Some None) \/
  (zlen l < AGENT_QUEUE_SIZE /\ exists q', agent_insert q func a = Some (Some q') /\
     queue_holds q' (l ++ [mk_func func a]) /\ sem q' = sem q).
Proof.
  intros (Ha & Hh & Ht & Hc & Hl). unfold agent_insert. rewrite Hc.
  pose proof (proj1 Hl) as Hle. destruct (Z.eqb_spec (zlen l) AGENT_QUEUE_SIZE) as [E|E]; [by left|].
  right. split; [unfold AGENT_QUEUE_SIZE in *; lia|].
  assert (Htr : 0 <= tail q < AGENT_QUEUE_SIZE) by (rewrite Ht; by apply Z.mod_pos_bound).
  rewrite st_Some by lia. cbn [mbind option_bind]. eexists; split; [done|]. split; [|done].
  unfold queue_holds. cbn [array head tail count]. rewrite zlen_insert. split; [done|]. split; [done|].
  split; [|split; [zlen_lia|]].
  - rewrite Ht, <- Ha, tail_position by lia. f_equal. zlen_lia.
  - rewrite Ht, <- Ha. apply holds_push; [done|]. unfold AGENT_QUEUE_SIZE in *. lia.
Qed.

Lemma queue_pop_spec q l :
  queue_holds q l ->
  exists q', agent_pop q = Some (q', match l with f :: _ => if entry f =? 0 then None else Some f | [] => None end) /\
    queue_holds q' (List.tl l) /\ sem q' = sem q.
Proof.
  intros (Ha & Hh & Ht & Hc & Hl). unfold agent_pop. rewrite Hc. destruct l as [|f l].
  - exists q. done.
  - rewrite (proj2 (Z.ltb_lt _ _)) by zlen_lia. rewrite <- Ha in Hh.
    destruct (holds_pop _ _ _ _ Hh Hl) as [-> Hl']. cbn [mbind option_bind].
    eexists; split; [done|]. split; [|done]. unfold queue_holds. cbn [array head tail count List.tl].
    rewrite <- Ha. split; [done|]. split; [by apply ring_next_range|]. split; [|split; [zlen_lia|done]].
    rewrite Ht, ring_next_mod, Zplus_mod_idemp_l, <- Ha by done. f_equal. zlen_lia.
Qed.

(** What holds between any two steps: [l] are the calls accepted, not flushed
    and not yet popped, and enough wake-ups are under way for them. *)
Definition agent_inv (l : list agent_func_t) (s : agent_sys) : Prop :=
  queue_holds (queue s) l /\ 0 <= sem (queue s) <= AGENT_QUEUE_SIZE /\ 0 <= giving s /\
  (zlen l <= sem (queue s) + giving s + (if taken s then 1 else 0)).

(** The abstract queue of calls and how the steps move it. *)
Inductive fifo_step : list agent_func_t * list agent_func_t ->
                      list agent_func_t * list agent_func_t -> Prop :=
| fifo_idle l ex : fifo_step (l, ex) (l, ex)
| fifo_push l ex f : zlen l < AGENT_QUEUE_SIZE -> fifo_step (l, ex) (l ++ [f], ex)
| fifo_run f l ex : fifo_step (f :: l, ex) (l, ex ++ (if entry f =? 0 then [] else [f]))
| fifo_drop l ex : fifo_step (l, ex) ([], ex).

(** [C26] The agent is a bounded FIFO under every interleaving of posters (tasks
    or interrupts), flushes and the agent task: each concrete step is a step of
    the abstract queue (calls run in the order they were accepted, at most 32
    are pending, none is lost or run twice), and there are always at least as
    many semaphore counts, gives under way and takes under way as pending
    calls, so no call is left without a wake-up. *)
Theorem agent_refines_fifo s s' l :
  agent_inv l s -> agent_step s s' ->
  exists l', agent_inv l' s' /\ fifo_step (l, executed s) (l', executed s').
Proof.
  intros (Hq & Hsem & Hg & Hw) Hstep. destruct Hstep as [q q' g t ex func a H|q g t ex func a H|q g t ex H|q q' g ex H|q q' f g ex H|q g t ex];
    cbn [queue giving taken executed] in *.
  - destruct (queue_insert_spec q l func a Hq) as [[_ E]|(Hlt & q1 & E & Hq1 & Hs)]; [congruence|].
    rewrite E in H. simplify_eq. exists (l ++ [mk_func func a]). split; [|by constructor].
    split; [done|]. cbn [queue giving taken]. rewrite Hs. zlen_lia.
  - exists l. split; [done|constructor].
  - exists l. split; [|constructor]. unfold agent_give. destruct (Z.ltb_spec (sem q) AGENT_QUEUE_SIZE).
    + split; [exact Hq|]. cbn [queue giving taken fst sem]. lia.
    + split; [exact Hq|]. cbn [queue giving taken fst]. split; [done|]. split; [lia|].
      destruct Hq as (Ha & _ & _ & _ & Hl & _). lia || (destruct t; lia).
  - unfold agent_take in H. destruct (Z.ltb_spec 0 (sem q)); [|done]. simplify_eq.
    exists l. split; [|constructor]. split; [exact Hq|]. cbn [queue giving taken sem]. lia.
  - destruct (queue_pop_spec q l Hq) as (q1 & E & Hq1 & Hs). rewrite E in H. simplify_eq.
    exists (List.tl l). split.
    + split; [done|]. cbn [queue giving taken]. rewrite Hs. destruct l; simpl in *; lia.
    + destruct l as [|f l]; cbn [List.tl].
      * rewrite app_nil_r. constructor.
      * replace (match (if entry f =? 0 then None else Some f) with Some f => [f] | None => [] end)
          with (if entry f =? 0 then [] else [f]) by (by destruct (entry f =? 0)). constructor.
  - exists []. split; [|constructor]. split; [by eapply queue_holds_flush|].
    cbn [queue giving taken agent_flush sem]. split; [done|]. split; [done|].
    destruct t; simpl; lia.
Qed.

Definition idle_func : agent_func_t := mk_func 0 0.
Definition agent_start : agent_sys := mk_sys (agent_queue_init (replicate 32 idle_func)) 0 false [].

Lemma agent_refines_fifo_witness :
  agent_inv [] agent_start /\
  exists s', agent_step agent_start s' /\
    exists l', agent_inv l' s' /\ fifo_step ([], executed agent_start) (l', executed s').
Proof.
  assert (H1 : agent_inv [] agent_start).
  { split; [by apply queue_holds_init|]. repeat split; discriminate. }
  split; [exact H1|].
  assert (H2 : agent_step agent_start
    (mk_sys (mk_queue 0 (mk_func 5 6 :: replicate 31 idle_func) 0 1 1) 1 false [])).
  { apply (step_insert _ _ 0 false [] 5 6). reflexivity. }
  eexists; split; [exact H2|]. exact (agent_refines_fifo _ _ [] H1 H2).
Defined.

(** The return value of [agent_post]: run without preemption from a queue
    whose semaphore counts the pending calls (no flush happened), it returns 0
    exactly when the call was queued and -1 exactly on a full queue; but once a
    flush has emptied a full queue, whose semaphore keeps its 32 counts, the
    next post returns -1 although the call is queued and will be made. *)
Theorem agent_post_result q l func a :
  queue_holds q l -> 
  (sem q = zlen l ->
     (zlen l < AGENT_QUEUE_SIZE -> exists q', agent_post q func a = Some (q', 0) /\
        queue_holds q' (l ++ [mk_func func a]) /\ sem q' = zlen l + 1) /\
     (zlen l = AGENT_QUEUE_SIZE -> agent_post q func a = Some (q, -1))) /\
  (sem q = AGENT_QUEUE_SIZE ->
     exists q', agent_post (agent_flush q) func a = Some (q', -1) /\
       queue_holds q' [mk_func func a]).
Proof.
  intros Hq. split.
  - intros Hs. unfold agent_post. destruct (queue_insert_spec q l func a Hq) as [[E ->]|(Hlt & q1 & -> & Hq1 & Hs1)].
    + split; [lia|done].
    + split; [|lia]. intros _. cbn [mbind option_bind]. unfold agent_give. rewrite Hs1, Hs.
      rewrite (proj2 (Z.ltb_lt _ _)) by done. eexists; split; [done|]. split; [exact Hq1|done].
  - intros Hs. unfold agent_post.
    destruct (queue_insert_spec (agent_flush q) [] func a) as [[E _]|(_ & q1 & -> & Hq1 & Hs1)];
      [by eapply queue_holds_flush|done|].
    cbn [mbind option_bind]. unfold agent_give. rewrite Hs1. cbn [agent_flush sem]. rewrite Hs.
    exists q1. done.
Qed.

Lemma agent_post_result_witness :
  queue_holds (agent_queue_init (replicate 32 idle_func)) [] /\
  exists q', agent_post (agent_queue_init (replicate 32 idle_func)) 5 6 = Some (q', 0) /\
    queue_holds q' [mk_func 5 6] /\ sem q' = 1.
Proof.
  assert (H : queue_holds (agent_queue_init (replicate 32 idle_func)) []) by (by apply queue_holds_init).
  split; [exact H|].
  destruct (agent_post_result (agent_queue_init (replicate 32 idle_func)) [] 5 6 H) as [H1 _].
  destruct (H1 eq_refl) as [H2 _]. exact (H2 eq_refl).
Defined.
