(* ===== verification/Message.v ===== *)
(** * message.c, mail_box.c: the event queue and the mailboxes

    The event queue is a ring of 50 words written by the key scanner and read by
    the user interface.  A mailbox wraps a queue of the RTOS: the RTOS is the
    class [RtosQueue], its laws are the documented behaviour of its queues. *)
From S2P Require Import Prelude Ring.

(** ** message.c *)

Definition MSG_QUEUE_SIZE : Z := 50.
Definition MSG_NONE : Z := 0.

(** bit 31..24 type, the rest value *)
Definition msg_make (type value : Z) : Z := Z.lor (u32 (Z.shiftl type 24)) value.
Definition msg_type (msg : Z) : Z := Z.land (Z.shiftr msg 24) 15.
Definition msg_value (msg : Z) : Z := Z.land msg 4095.

Record msg_queue_t := mk_msgq {
  msg_data : list Z;
  mhead : Z;
  mtail : Z;
  mcount : Z
}.

Definition msg_init (msg_data : list Z) : msg_queue_t := mk_msgq msg_data 0 0 0.
Definition msg_flush_queue (q : msg_queue_t) : msg_queue_t := mk_msgq (msg_data q) 0 0 0.
Definition msg_count (q : msg_queue_t) : Z := mcount q.

Definition msg_enqueue (q : msg_queue_t) (type value : Z) : option msg_queue_t :=
  d ← st (msg_data q) (mtail q) (msg_make type value);
  Some (mk_msgq d (mhead q) (ring_next MSG_QUEUE_SIZE (mtail q))
    (if mcount q <? MSG_QUEUE_SIZE then mcount q + 1 else mcount q)).

Definition msg_dequeue (q : msg_queue_t) : option (msg_queue_t * Z) :=
  if msg_count q =? 0 then Some (q, MSG_NONE)
  else
    msg ← ld (msg_data q) (mhead q);
    Some (mk_msgq (msg_data q) (ring_next MSG_QUEUE_SIZE (mhead q)) (mtail q) (mcount q - 1), msg).

(** ** mail_box.c *)

(** The queues of the RTOS: creation may fail; a queue is FIFO and bounded by
    the length it was created with. *)
Class RtosQueue (Q : Type) := {
  xQueueCreate : Z -> option Q;
  vQueueDelete : Q -> unit;
  xQueueReset : Q -> Q * bool;
  xQueueSend : Q -> Z -> Q * bool;
  xQueueReceive : Q -> Q * option Z;   (* the timeout has elapsed when empty *)
  q_items : Q -> list Z;
  q_length : Q -> Z;
  q_create n q : xQueueCreate n = Some q -> q_items q = [] /\ q_length q = n;
  q_reset q : snd (xQueueReset q) = true /\ q_items (fst (xQueueReset q)) = [] /\
    q_length (fst (xQueueReset q)) = q_length q;
  q_send q m : if zlen (q_items q) <? q_length q
    then snd (xQueueSend q m) = true /\ q_items (fst (xQueueSend q m)) = q_items q ++ [m] /\
         q_length (fst (xQueueSend q m)) = q_length q
    else xQueueSend q m = (q, false);
  q_receive q : match q_items q with
    | [] => xQueueReceive q = (q, None)
    | m :: l => snd (xQueueReceive q) = Some m /\ q_items (fst (xQueueReceive q)) = l /\
                q_length (fst (xQueueReceive q)) = q_length q
    end
}.

Definition MBOX_MAX_COUNT : Z := 8.
Definition MBOX_CAPACITY : Z := 8.

Section MailBox.
Context {Q : Type} `{!RtosQueue Q}.

(** [mbox_count], then the mailbox ([None] for the null pointer). *)
Definition mbox_init : Z := 0.

(** [malloc]: [pvPortMalloc] returned memory. *)
Definition mbox_create (mbox_count : Z) (malloc : bool) (q_size : Z) : Z * option Q :=
  if mbox_count =? MBOX_MAX_COUNT then (mbox_count, None)
  else if malloc then
    let q_size := if MBOX_CAPACITY <? q_size then MBOX_CAPACITY else q_size in
    match xQueueCreate q_size with
    | None => (mbox_count, None)
    | Some q => (mbox_count + 1, Some q)
    end
  else (mbox_count, None).

Definition mbox_delete (mbox_count : Z) (mb : option Q) : Z * Z :=
  match mb with
  | None => (mbox_count, -1)
  | Some _ => (if 0 <? mbox_count then mbox_count - 1 else mbox_count, 0)
  end.

Definition mbox_clear (mb : option Q) : option Q * Z :=
  match mb with
  | None => (None, -1)
  | Some q => let '(q', ret) := xQueueReset q in (Some q', if (ret : bool) then 0 else -1)
  end.

Definition mbox_post (mb : option Q) (msg : Z) : option Q * Z :=
  match mb with
  | None => (None, -1)
  | Some q => let '(q', ret) := xQueueSend q msg in (Some q', if (ret : bool) then 0 else -1)
  end.

(** Result: the mailbox, the message (0 = NULL) and [*err]. *)
Definition mbox_fetch (mb : option Q) : option Q * Z * Z :=
  match mb with
  | None => (None, 0, 1)
  | Some q =>
      let '(q', r) := xQueueReceive q in
      match r with Some m => (Some q', m, 0) | None => (Some q', 0, 1) end
  end.
End MailBox.

(** * Properties *)

(** ** The event queue *)

(** The queue holds [l], oldest first ([held] leaves the write position open). *)
Definition held (q : msg_queue_t) (l : list Z) : Prop :=
  zlen (msg_data q) = MSG_QUEUE_SIZE /\ 0 <= mhead q < MSG_QUEUE_SIZE /\
  mcount q = zlen l /\ holds (msg_data q) (mhead q) l.
Definition msgs (q : msg_queue_t) (l : list Z) : Prop :=
  held q l /\ mtail q = (mhead q + zlen l) mod MSG_QUEUE_SIZE.

Lemma msgs_init d : zlen d = MSG_QUEUE_SIZE -> msgs (msg_init d) [].
Proof. intros. split; [|done]. do 3 (split; [done|]). apply holds_nil. Qed.

Lemma held_dequeue q l :
  held q l -> exists q', msg_dequeue q = Some (q', match l with m :: _ => m | [] => MSG_NONE end) /\
    held q' (List.tl l).
Proof.
  intros (Hd & Hh & Hc & Hl). unfold msg_dequeue, msg_count. rewrite Hc. destruct l as [|m l].
  - exists q. done.
  - rewrite (proj2 (Z.eqb_neq _ _)) by zlen_lia. rewrite <- Hd in Hh.
    destruct (holds_pop _ _ _ _ Hh Hl) as [-> Hl']. cbn [mbind option_bind].
    eexists; split; [done|]. unfold held. cbn [msg_data mhead mtail mcount List.tl]. rewrite <- Hd.
    split; [done|]. split; [by apply ring_next_range|]. split; [zlen_lia|done].
Qed.

(** The whole queue, read out. *)
Fixpoint drain (n : nat) (q : msg_queue_t) : option (list Z) :=
  match n with
  | O => Some []
  | S n => r ← msg_dequeue q; l ← drain n (fst r); Some (snd r :: l)
  end.

Lemma drain_held l q : held q l -> drain (length l) q = Some l.
Proof.
  revert q. induction l as [|m l IH]; intros q Hq; [done|]. cbn [length drain].
  destruct (held_dequeue q (m :: l) Hq) as (q' & -> & Hq'). cbn [mbind option_bind fst snd].
  cbn [List.tl] in Hq'. by rewrite (IH q' Hq').
Qed.

Lemma msg_make_fields type value :
  0 <= type < 16 -> 0 <= value < 4096 ->
  msg_type (msg_make type value) = type /\ msg_value (msg_make type value) = value.
Proof.
  intros Htype Hvalue. assert (Hmake : msg_make type value = type * 2 ^ 24 + value).
  { unfold msg_make. rewrite Z.shiftl_mul_pow2, u32_small by lia. apply lor_add; lia. }
  rewrite Hmake. unfold msg_type, msg_value. split.
  - rewrite Z.shiftr_div_pow2 by lia. change 15 with (Z.ones 4).
    rewrite Z.land_ones, Z.div_add_l, (Z.div_small value), Z.add_0_r by lia. apply Z.mod_small. lia.
  - change 4095 with (Z.ones 12). rewrite Z.land_ones by lia.
    change (2 ^ 24) with (2 ^ 12 * 2 ^ 12). rewrite Z.mul_assoc, Z.add_comm, Z.mod_add by lia.
    apply Z.mod_small. lia.
Qed.

Lemma msg_enqueue_room q l type value :
  msgs q l -> zlen l < MSG_QUEUE_SIZE ->
  exists q', msg_enqueue q type value = Some q' /\ msgs q' (l ++ [msg_make type value]).
Proof.
  intros ((Hd & Hh & Hc & Hl) & Ht) Hsz. unfold msg_enqueue.
  assert (Htr : 0 <= mtail q < MSG_QUEUE_SIZE) by (rewrite Ht; by apply Z.mod_pos_bound).
  rewrite st_Some by lia. cbn [mbind option_bind]. eexists; split; [done|].
  rewrite Hc, (proj2 (Z.ltb_lt _ _)) by done.
  unfold msgs, held. cbn [msg_data mhead mtail mcount]. rewrite zlen_insert. split.
  - do 2 (split; [done|]). split; [zlen_lia|].
    rewrite Ht, <- Hd. apply holds_push; [done|]. lia.
  - rewrite Ht, <- Hd, tail_position by lia. f_equal. zlen_lia.
Qed.

Lemma msg_enqueue_full q y l type value :
  msgs q (y :: l) -> zlen (y :: l) = MSG_QUEUE_SIZE ->
  exists q', msg_enqueue q type value = Some q' /\ held q' (msg_make type value :: l) /\
    mhead q' = mhead q.
Proof.
  intros ((Hd & Hh & Hc & Hl) & Ht) Hsz. unfold msg_enqueue. rewrite <- Hd in Hh, Hsz.
  destruct (holds_overwrite _ _ _ _ (msg_make type value) Hh Hl Hsz) as [E Hl'].
  rewrite Hd in E. assert (Et : mtail q = mhead q) by congruence.
  rewrite Et, st_Some by done. cbn [mbind option_bind]. eexists; split; [done|].
  rewrite Hc, (proj2 (Z.ltb_ge _ _)) by lia. split; [|done].
  unfold held. cbn [msg_data mhead mtail mcount]. by rewrite zlen_insert, <- Hd.
Qed.

(** The event queue: below 50 messages [msg_enqueue] appends and draining
    returns the messages in order; on a full queue the oldest message is
    overwritten, but because the read position does not move the newest message
    takes its place at the front, so it is delivered before the 49 older ones.
    Type (4 bits) and value (12 bits) of a message survive packing. *)
Theorem msg_queue_order q l type value :
  msgs q l -> 0 <= type < 16 -> 0 <= value < 4096 ->
  msg_type (msg_make type value) = type /\ msg_value (msg_make type value) = value /\
  drain (length l) q = Some l /\
  exists q', msg_enqueue q type value = Some q' /\
    (zlen l < MSG_QUEUE_SIZE ->
       drain (S (length l)) q' = Some (l ++ [msg_make type value])) /\
    (zlen l = MSG_QUEUE_SIZE ->
       drain 50 q' = Some (msg_make type value :: List.tl l)).
Proof.
  intros Hq Htype Hvalue. destruct (msg_make_fields type value Htype Hvalue) as [Ht Hv].
  do 2 (split; [done|]). split; [apply drain_held, Hq|].
  destruct (Z.lt_ge_cases (zlen l) MSG_QUEUE_SIZE) as [Hlt|Hge].
  - destruct (msg_enqueue_room q l type value Hq Hlt) as (q' & -> & Hq'). exists q'. split; [done|].
    split; [|lia]. intros _. replace (S (length l)) with (length (l ++ [msg_make type value])) by zlen_lia.
    apply drain_held, Hq'.
  - assert (Hsz : zlen l = MSG_QUEUE_SIZE).
    { destruct Hq as ((Hd & _ & _ & [Hle _]) & _). lia. }
    destruct l as [|y l]; [done|].
    destruct (msg_enqueue_full q y l type value Hq Hsz) as (q' & -> & Hq' & _). exists q'.
    split; [done|]. split; [lia|]. intros _. cbn [List.tl].
    change 50%nat with (Z.to_nat MSG_QUEUE_SIZE). rewrite <- Hsz, Nat2Z.id.
    by apply (drain_held (msg_make type value :: l)).
Qed.

Lemma msg_queue_order_witness :
  msgs (msg_init (replicate 50 0)) [] /\
  exists q', msg_enqueue (msg_init (replicate 50 0)) 1 7 = Some q' /\
    drain 1 q' = Some [msg_make 1 7].
Proof.
  assert (H : msgs (msg_init (replicate 50 0)) []) by (by apply msgs_init).
  split; [exact H|].
  destruct (msg_queue_order (msg_init (replicate 50 0)) [] 1 7 H) as (_ & _ & _ & q' & Hq & H1 & _).
  - split; [discriminate | reflexivity].
  - split; [discriminate | reflexivity].
  - exists q'. split; [exact Hq|]. exact (H1 eq_refl).
Defined.

(** ** Mailboxes *)

(** A mailbox as its bounded list. *)
Section MailBoxProps.
Context {Q : Type} `{!RtosQueue Q}.

Lemma mbox_create_bound n m size :
  0 <= n <= MBOX_MAX_COUNT ->
  0 <= fst (mbox_create (Q := Q) n m size) <= MBOX_MAX_COUNT /\
  (forall q : Q, snd (mbox_create n m size) = Some q ->
     fst (mbox_create (Q := Q) n m size) = n + 1 /\ q_items q = [] /\
     q_length q = Z.min size MBOX_CAPACITY).
Proof.
  intros Hn. unfold mbox_create, MBOX_MAX_COUNT, MBOX_CAPACITY in *.
  destruct (Z.eqb_spec n 8); [done|]. destruct m; [|done].
  destruct (xQueueCreate _) as [q|] eqn:Hq; cbn [fst snd]; [|split; [lia|done]].
  split; [lia|]. intros q' [= <-]. apply q_create in Hq as [-> ->]. split; [done|]. split; [done|].
  destruct (Z.ltb_spec 8 size); lia.
Qed.

(** Posting then fetching [n] times. *)
Lemma mbox_post_spec (q : Q) m :
  (zlen (q_items q) < q_length q -> exists q', mbox_post (Some q) m = (Some q', 0) /\
     q_items q' = q_items q ++ [m] /\ q_length q' = q_length q) /\
  (q_length q <= zlen (q_items q) -> mbox_post (Some q) m = (Some q, -1)).
Proof.
  unfold mbox_post. pose proof (q_send q m) as H. destruct (Z.ltb_spec (zlen (q_items q)) (q_length q)).
  - destruct (xQueueSend q m) as [q' b]. cbn in H. destruct H as (-> & ? & ?). split; [|lia]. eauto.
  - rewrite H. split; [lia|done].
Qed.
Lemma mbox_fetch_spec (q : Q) :
  match q_items q with
  | [] => mbox_fetch (Some q) = (Some q, 0, 1)
  | m :: l => exists q', mbox_fetch (Some q) = (Some q', m, 0) /\ q_items q' = l /\
      q_length q' = q_length q
  end.
Proof.
  unfold mbox_fetch. pose proof (q_receive q) as H. destruct (q_items q) as [|m l].
  - by rewrite H.
  - destruct (xQueueReceive q) as [q' r]. cbn in H. destruct H as (-> & ? & ?). eauto.
Qed.
End MailBoxProps.

(** A concrete RTOS queue: its items and its length. *)
#[global] Program Instance list_queue : RtosQueue (list Z * Z) := {|
  xQueueCreate n := Some ([], n);
  vQueueDelete _ := tt;
  xQueueReset q := (([], snd q), true);
  xQueueSend q m := if zlen (fst q) <? snd q then ((fst q ++ [m], snd q), true) else (q, false);
  xQueueReceive q := match fst q with [] => (q, None) | m :: l => ((l, snd q), Some m) end;
  q_items := fst;
  q_length := snd
|}.
Solve All Obligations with
  (cbn; intros; simplify_eq; try done;
   repeat match goal with q : (list Z * Z)%type |- _ => destruct q as [[|? ?] ?] end;
   cbn in *; try done; repeat case_match; done).

(** Mailboxes: at most 8 exist and each holds at most 8 messages; posting
    appends while there is room and fails with -1 otherwise, fetching returns
    the oldest message or reports an error on an empty mailbox, clearing
    empties it, and every operation rejects the null mailbox. *)
Theorem mailbox_bounded_fifo {Q : Type} `{!RtosQueue Q} n malloc size (q : Q) m :
  0 <= n <= MBOX_MAX_COUNT ->
  (0 <= fst (mbox_create (Q := Q) n malloc size) <= MBOX_MAX_COUNT) /\
  (forall q' : Q, snd (mbox_create n malloc size) = Some q' ->
     q_items q' = [] /\ q_length q' = Z.min size MBOX_CAPACITY /\ n < MBOX_MAX_COUNT) /\
  (if zlen (q_items q) <? q_length q
   then exists q', mbox_post (Some q) m = (Some q', 0) /\ q_items q' = q_items q ++ [m]
   else mbox_post (Some q) m = (Some q, -1)) /\
  match q_items q with
  | [] => mbox_fetch (Some q) = (Some q, 0, 1)
  | x :: l => exists q', mbox_fetch (Some q) = (Some q', x, 0) /\ q_items q' = l
  end /\
  (exists q', mbox_clear (Some q) = (Some q', 0) /\ q_items q' = []) /\
  mbox_post (Q := Q) None m = (None, -1) /\ mbox_fetch (Q := Q) None = (None, 0, 1) /\
  mbox_clear (Q := Q) None = (None, -1) /\ mbox_delete (Q := Q) n None = (n, -1).
Proof.
  intros Hn. destruct (mbox_create_bound n malloc size Hn) as [H1 H2].
  destruct (mbox_post_spec q m) as [H3 H4]. pose proof (mbox_fetch_spec q) as H5.
  split; [done|]. split.
  { intros q' Hq. destruct (H2 q' Hq) as (E & ? & ?). do 2 (split; [done|]). lia. }
  split. { destruct (Z.ltb_spec (zlen (q_items q)) (q_length q)); [|auto].
    destruct H3 as (q' & ? & ? & _); [done|]. eauto. }
  split. { destruct (q_items q); [done|]. destruct H5 as (q' & ? & ? & _). eauto. }
  split; [|done]. unfold mbox_clear. destruct (q_reset q) as (E1 & E2 & _).
  destruct (xQueueReset q) as [q' b]. cbn in *. subst. eauto.
Qed.

Lemma mailbox_bounded_fifo_witness :
  exists q', mbox_post (Some ([1], 8)) 2 = (Some q', 0) /\ q_items q' = [1] ++ [2].
Proof.
  destruct (mailbox_bounded_fifo 0 true 9 ([1], 8) 2) as (_ & _ & H & _).
  - split; discriminate.
  - exact H.
Defined.
