(* ===== verification/OsTimer.v ===== *)
(** * ostimer.c: the software timers

    A table of 11 periodic calls; the timer task compares the RTOS tick count
    (32 bits, wrapping) with each item's start and hands due calls to the
    agents. *)
From S2P Require Import Prelude Ring Agent.

Definition OSTIMER_COUNT : Z := 11.

Record ostimer_list_item_t := mk_item {
  func : Z;        (* 0 = NULL *)
  targ : Z;
  prio : Z;
  start : Z;       (* uint32_t *)
  period : Z;      (* uint32_t *)
  enable : Z
}.

(** The table and the three agent queues it posts to. *)
Record ostimer_state := mk_ostimer {
  ostimer_list : list ostimer_list_item_t;
  agent_queue : list agent_queue_t
}.

Definition update_item (s : ostimer_state) (id : Z)
    (f : ostimer_list_item_t -> ostimer_list_item_t) : option ostimer_state :=
  item ← ld (ostimer_list s) id;
  l ← st (ostimer_list s) id (f item);
  Some (mk_ostimer l (agent_queue s)).

(** [agent_post(NOT_FROM_ISR, prio, func, arg)]; its result is ignored here. *)
Definition post (agents : list agent_queue_t) (prio func arg : Z) : option (list agent_queue_t) :=
  q ← ld agents prio;
  r ← agent_post q func arg;
  st agents prio (fst r).

Definition ostimer_register (s : ostimer_state) (id func arg prio period : Z) : option ostimer_state :=
  update_item s id (fun _ => mk_item func arg prio 0 (u32 period) 0).

(** [tick]: what [xTaskGetTickCount()] returns. *)
Definition ostimer_open (s : ostimer_state) (tick id now : Z) : option ostimer_state :=
  item ← ld (ostimer_list s) id;
  if negb (func item =? 0) && (0 <? period item) then
    s' ← update_item s id
      (fun i => mk_item (func i) (targ i) (prio i) tick (period i) 1);
    if negb (now =? 0) then
      a ← post (agent_queue s') (prio item) (func item) (targ item);
      Some (mk_ostimer (ostimer_list s') a)
    else Some s'
  else Some s.

Definition ostimer_close (s : ostimer_state) (id : Z) : option ostimer_state :=
  update_item s id (fun i => mk_item (func i) (targ i) (prio i) (start i) (period i) 0).

Definition ostimer_set_period (s : ostimer_state) (id period' : Z) : option ostimer_state :=
  update_item s id (fun i =>
    if negb (enable i =? 0)
    then mk_item (func i) (targ i) (prio i) (start i) (u32 period') (enable i) else i).

Definition ostimer_restart (s : ostimer_state) (tick id : Z) : option ostimer_state :=
  update_item s id (fun i =>
    if negb (enable i =? 0)
    then mk_item (func i) (targ i) (prio i) tick (period i) (enable i) else i).

(** The guard looks at the priority the item already has. *)
Definition ostimer_set_prio (s : ostimer_state) (id prio' : Z) : option ostimer_state :=
  update_item s id (fun i =>
    if (0 <=? prio i) && (prio i <? AGENT_PRIO_CNT)
    then mk_item (func i) (targ i) prio' (start i) (period i) (enable i) else i).

Definition due (tick : Z) (i : ostimer_list_item_t) : bool :=
  negb (enable i =? 0) && (period i <=? u32 (tick - start i)).

(** One pass of the timer task over the table. *)
Fixpoint ostimer_scan (tick : Z) (items : list ostimer_list_item_t) (agents : list agent_queue_t)
  : option (list ostimer_list_item_t * list agent_queue_t) :=
  match items with
  | [] => Some ([], agents)
  | i :: items' =>
      if due tick i then
        agents' ← post agents (prio i) (func i) (targ i);
        r ← ostimer_scan tick items' agents';
        Some (mk_item (func i) (targ i) (prio i) tick (period i) (enable i) :: fst r, snd r)
      else
        r ← ostimer_scan tick items' agents;
        Some (i :: fst r, snd r)
  end.
Definition ostimer_task (s : ostimer_state) (tick : Z) : option ostimer_state :=
  r ← ostimer_scan tick (ostimer_list s) (agent_queue s);
  Some (mk_ostimer (fst r) (snd r)).

(** * Properties *)

(** The calls a pass makes, in table order. *)
Definition due_calls (tick : Z) (items : list ostimer_list_item_t) : list ostimer_list_item_t :=
  filter (fun i => due tick i = true) items.

(** Posting a list of calls, in order. *)
Fixpoint post_all (agents : list agent_queue_t) (items : list ostimer_list_item_t)
  : option (list agent_queue_t) :=
  match items with
  | [] => Some agents
  | i :: items' => a ← post agents (prio i) (func i) (targ i); post_all a items'
  end.

Definition restarted (tick : Z) (i : ostimer_list_item_t) : ostimer_list_item_t :=
  if due tick i then mk_item (func i) (targ i) (prio i) tick (period i) (enable i) else i.

Lemma ostimer_scan_spec tick items agents :
  ostimer_scan tick items agents
  = (a ← post_all agents (due_calls tick items); Some (map (restarted tick) items, a)).
Proof.
  revert agents. induction items as [|i items IH]; intros agents; [done|].
  cbn [ostimer_scan map]. unfold due_calls, restarted at 1. rewrite filter_cons.
  destruct (due tick i) eqn:E.
  - rewrite decide_True by done. cbn [post_all]. destruct (post agents _ _ _) as [a|]; [|done].
    cbn [mbind option_bind]. rewrite IH. fold (due_calls tick items).
    by destruct (post_all a (due_calls tick items)).
  - rewrite decide_False by done. rewrite IH. fold (due_calls tick items).
    by destruct (post_all agents (due_calls tick items)).
Qed.

(** A well-formed system: ready agents, items with a valid priority. *)
Definition agents_ready (agents : list agent_queue_t) : Prop :=
  length agents = 3%nat /\ Forall (fun q => exists l, queue_holds q l) agents.
Definition item_ok (i : ostimer_list_item_t) : Prop := 0 <= prio i < AGENT_PRIO_CNT.

Lemma post_ready agents p f a :
  agents_ready agents -> 0 <= p < AGENT_PRIO_CNT ->
  exists agents', post agents p f a = Some agents' /\ agents_ready agents'.
Proof.
  intros [Hlen Hall] Hp. unfold AGENT_PRIO_CNT in Hp. unfold post.
  destruct (proj2 (ld_is_Some agents p)) as [q Hq]; [lia|]. rewrite Hq. cbn [mbind option_bind].
  assert (Hql : exists l, queue_holds q l).
  { rewrite Forall_forall in Hall. apply Hall. apply ld_Some_iff in Hq as [_ Hq].
    by eapply list_elem_of_lookup_2. }
  destruct Hql as [l Hl].
  assert (Hpost : exists q' r, agent_post q f a = Some (q', r) /\ exists l', queue_holds q' l').
  { unfold agent_post. destruct (queue_insert_spec q l f a Hl) as [[_ ->]|(_ & q1 & -> & H1 & _)].
    - exists q, (-1). eauto.
    - cbn [mbind option_bind]. unfold agent_give.
      destruct (sem q1 <? AGENT_QUEUE_SIZE); eexists _, _; (split; [done|]); eexists; exact H1. }
  destruct Hpost as (q' & r & -> & l' & Hl'). cbn [mbind option_bind fst].
  rewrite st_Some by lia. eexists; split; [done|]. split; [by rewrite length_insert|].
  apply Forall_insert; [done|]. by exists l'.
Qed.

Lemma post_all_ready items agents :
  agents_ready agents -> Forall item_ok items ->
  exists agents', post_all agents items = Some agents' /\ agents_ready agents'.
Proof.
  intros Ha Hi. revert agents Ha. induction Hi as [|i items Hi His IH]; intros agents Ha; [by exists agents|].
  cbn [post_all]. destruct (post_ready agents (prio i) (func i) (targ i) Ha Hi) as (a & -> & Ha').
  cbn [mbind option_bind]. auto.
Qed.

(** The timer task: from a well-formed state one pass always completes,
    posts exactly the calls of the enabled items whose period has elapsed since
    their start, in table order, restarts exactly those items at the current
    tick and keeps the state well formed.  The elapsed time is right across the
    wrap of the 32-bit tick: an item started [elapsed] < 2^32 ticks ago is due
    exactly when [elapsed] has reached its period. *)
Theorem ostimer_task_correct s tick :
  agents_ready (agent_queue s) -> Forall item_ok (ostimer_list s) ->
  (exists agents',
     post_all (agent_queue s) (due_calls tick (ostimer_list s)) = Some agents' /\
     ostimer_task s tick
     = Some (mk_ostimer (map (restarted tick) (ostimer_list s)) agents') /\
     agents_ready agents' /\ Forall item_ok (map (restarted tick) (ostimer_list s))) /\
  (forall i elapsed, i ∈ ostimer_list s -> 0 <= elapsed < 2 ^ 32 ->
     start i = u32 (tick - elapsed) ->
     due tick i = negb (enable i =? 0) && (period i <=? elapsed)).
Proof.
  intros Ha Hi. split.
  - destruct (post_all_ready (due_calls tick (ostimer_list s)) (agent_queue s) Ha) as (a & Hp & Ha').
    { apply Forall_forall. intros i Hin. apply list_elem_of_filter in Hin as [_ Hin].
      rewrite Forall_forall in Hi. auto. }
    exists a. split; [done|]. unfold ostimer_task. rewrite ostimer_scan_spec, Hp.
    split; [done|]. split; [done|]. apply Forall_map. eapply Forall_impl; [exact Hi|].
    intros i. unfold restarted, item_ok. by destruct (due tick i).
  - intros i elapsed _ He Hs. unfold due. do 2 f_equal. rewrite Hs. unfold u32.
    rewrite Zminus_mod_idemp_r. replace (tick - (tick - elapsed)) with elapsed by lia.
    by apply Z.mod_small.
Qed.

Definition timer_example : ostimer_state :=
  mk_ostimer [mk_item 9 1 2 4294967290 20 1; mk_item 8 1 0 0 5 0]
    (replicate 3 (agent_queue_init (replicate 32 idle_func))).

Lemma ostimer_task_correct_witness :
  exists agents', post_all (agent_queue timer_example) (due_calls 14 (ostimer_list timer_example)) = Some agents' /\
    ostimer_task timer_example 14
    = Some (mk_ostimer (map (restarted 14) (ostimer_list timer_example)) agents').
Proof.
  destruct (ostimer_task_correct timer_example 14) as [(a & H1 & H2 & _) _].
  - split; [reflexivity|]. repeat constructor; exists []; by apply queue_holds_init.
  - repeat constructor; discriminate.
  - exists a. split; [exact H1|exact H2].
Defined.
Example timer_example_fires : due 14 (mk_item 9 1 2 4294967290 20 1) = true.
Proof. reflexivity. Qed.
