(* ===== verification/Eeprom.v ===== *)
(** * soft_i2c.c, eeprom.c, storage.c: the EEPROM behind a software I2C bus

    The GPIO pins and the device on the bus are hardware: a device is an
    instance of [I2cDevice], which sees the byte frames that [si2c_*] clock out
    most significant bit first and answers on the SDA line.  The AT24CM01 of the
    board, as its data sheet documents it, is the instance [at24cm01]; a bus
    nobody answers on is the instance [no_device].  Delays are not modelled. *)
From S2P Require Import Prelude.

Class I2cDevice (D : Type) := {
  dev_start : D -> D;
  dev_stop : D -> D;
  dev_bits : D -> list bool -> D;   (* eight clocked bits *)
  dev_sda : D -> nat -> bool;       (* SDA level at the k-th poll of the ninth clock *)
  dev_read : D -> D * list bool;    (* eight bits clocked in *)
  dev_ack : D -> bool -> D          (* the master's ninth bit, true = NAK *)
}.

(** ** soft_i2c.c *)
Section SoftI2c.
Context {D : Type} `{!I2cDevice D}.

Definition SI2C_ACK_TIMEOUT : Z := 100.
Definition SI2C_OP_WRITE : Z := 0.
Definition SI2C_OP_READ : Z := 1.

Definition si2c_start (d : D) : D := dev_start d.
Definition si2c_stop (d : D) : D := dev_stop d.

(** The polling loop of [rx_ack]: [timeout] after it, post-decremented by
    every test of [while (timeout-- != 0)] on a [uint32_t]. *)
Fixpoint ack_poll (fuel : nat) (d : D) (k : nat) (timeout : Z) : Z :=
  match fuel with
  | O => timeout
  | S fuel =>
      let t := u32 (timeout - 1) in
      if timeout =? 0 then t
      else if negb (dev_sda d k) then t
      else ack_poll fuel d (S k) t
  end.
Definition rx_ack (d : D) (timeout : Z) : Z :=
  if ack_poll (S (Z.to_nat timeout)) d 0 timeout =? 0 then -1 else 0.

(** [for (i = 7; i >= 0; i--) tx_bit(bus, byte >> i);] *)
Definition tx_byte (d : D) (byte : Z) : D :=
  dev_bits d (map (fun i => Z.testbit byte i) [7; 6; 5; 4; 3; 2; 1; 0]).

(** Result: the device and 0 for an acknowledged address. *)
Definition si2c_select (d : D) (addr op : Z) : D * Z :=
  let byte := Z.lor (Z.shiftl (Z.land addr 127) 1) (Z.land op 1) in
  let d := tx_byte d byte in
  (d, if negb (rx_ack d SI2C_ACK_TIMEOUT =? 0) then -1 else 0).

(** Result: the device and the number of acknowledged bytes. *)
Fixpoint si2c_tx (d : D) (buff : list Z) (len : nat) : option (D * Z) :=
  match len with
  | O => Some (d, 0)
  | S len =>
      byte ← head buff;
      let d := tx_byte d byte in
      if negb (rx_ack d SI2C_ACK_TIMEOUT =? 0) then Some (d, 0)
      else r ← si2c_tx d (tail buff) len; Some (fst r, snd r + 1)
  end.

(** [byte = byte << 1; byte |= bit;] *)
Definition rx_byte (bits : list bool) : Z :=
  fold_left (fun byte b => Z.lor (Z.shiftl byte 1) (if (b : bool) then 1 else 0)) bits 0.

(** Result: the device and the bytes received; the last one is not
    acknowledged. *)
Fixpoint si2c_rx (d : D) (len : nat) : D * list Z :=
  match len with
  | O => (d, [])
  | S len' =>
      let '(d, bits) := dev_read d in
      let d := dev_ack d (match len' with O => true | _ => false end) in
      let '(d, bytes) := si2c_rx d len' in
      (d, u8 (rx_byte bits) :: bytes)
  end.

Definition si2c_send (d : D) (addr : Z) (buff : list Z) (len : nat) : option (D * Z) :=
  let d := si2c_start d in
  let '(d, r) := si2c_select d addr SI2C_OP_WRITE in
  if negb (r =? 0) then Some (si2c_stop d, 0)
  else t ← si2c_tx d buff len; Some (si2c_stop (fst t), snd t).

Definition si2c_receive (d : D) (addr : Z) (len : nat) : D * list Z :=
  let d := si2c_start d in
  let '(d, r) := si2c_select d addr SI2C_OP_READ in
  if negb (r =? 0) then (si2c_stop d, [])
  else let '(d, bytes) := si2c_rx d len in (si2c_stop d, bytes).

(** ** eeprom.c, built for the AT24CM01 *)

Definition AT24C_PAGE_SIZE : Z := 256.
Definition byte_0 (n : Z) : Z := Z.land n 255.
Definition byte_1 (n : Z) : Z := Z.land (Z.shiftr n 8) 255.

(** Result: the device and the bytes read (none when it did not answer). *)
Definition at24c_read (d : D) (dev_addr mem_addr : Z) (len : nat) : option (D * list Z) :=
  let addr := [byte_1 mem_addr; byte_0 mem_addr] in
  let d := si2c_start d in
  let '(d, r) := si2c_select d dev_addr SI2C_OP_WRITE in
  if negb (r =? 0) then Some (si2c_stop d, [])
  else
    t ← si2c_tx d addr 2;
    let '(d, n) := t in
    if negb (n =? 2) then Some (si2c_stop d, [])
    else
      let d := si2c_start d in
      let '(d, r) := si2c_select d dev_addr SI2C_OP_READ in
      if negb (r =? 0) then Some (si2c_stop d, [])
      else let '(d, bytes) := si2c_rx d len in Some (si2c_stop d, bytes).

Definition write_in_page (d : D) (dev_addr mem_addr : Z) (buff : list Z) (len : nat)
  : option (D * Z) :=
  let addr := [byte_1 mem_addr; byte_0 mem_addr] in
  let d := si2c_start d in
  let '(d, r) := si2c_select d dev_addr SI2C_OP_WRITE in
  if negb (r =? 0) then Some (si2c_stop d, 0)
  else
    t ← si2c_tx d addr 2;
    let '(d, n) := t in
    if negb (n =? 2) then Some (si2c_stop d, 0)
    else t2 ← si2c_tx d buff len; Some (si2c_stop (fst t2), snd t2).

(** The loop over the pages; [remain] bytes of [data] are still to go. *)
Fixpoint write_pages (fuel : nat) (d : D) (dev_addr addr : Z) (data : list Z) (remain : Z)
  : option (D * Z) :=
  match fuel with
  | O => None
  | S fuel =>
      if remain =? 0 then Some (d, remain)
      else
        let size := AT24C_PAGE_SIZE - Z.land addr (AT24C_PAGE_SIZE - 1) in
        let size := if remain <? size then remain else size in
        t ← write_in_page d dev_addr addr data (Z.to_nat size);
        if negb (snd t =? size) then Some (fst t, remain)
        else write_pages fuel (fst t) dev_addr (u32 (addr + size))
               (drop (Z.to_nat size) data) (remain - size)
  end.
(** Result: the device and the number of bytes written. *)
Definition at24c_write (d : D) (dev_addr mem_addr : Z) (buff : list Z) (len : Z)
  : option (D * Z) :=
  t ← write_pages (S (Z.to_nat len)) d dev_addr mem_addr buff len;
  Some (fst t, len - snd t).

(** ** storage.c

    [locked]: [eeprom_lock] failed to take the mutex in time.  The result of
    the locked accesses is 0 or -1, and 0 as well when the lock failed. *)

Definition EEPROM_I2C_ADDR : Z := 80.

Definition eeprom_read (d : D) (addr : Z) (len : nat) : option (D * list Z) :=
  at24c_read d EEPROM_I2C_ADDR addr len.
Definition eeprom_write (d : D) (addr : Z) (buff : list Z) (len : Z) : option (D * Z) :=
  at24c_write d EEPROM_I2C_ADDR addr buff len.

Definition eeprom_read_lock (d : D) (locked : bool) (addr : Z) (len : nat)
  : option (D * list Z * Z) :=
  if locked then Some (d, [], 0)
  else
    t ← eeprom_read d addr len;
    Some (fst t, snd t, if 0 <? zlen (snd t) then 0 else -1).
Definition eeprom_write_lock (d : D) (locked : bool) (addr : Z) (buff : list Z) (len : Z)
  : option (D * Z) :=
  if locked then Some (d, 0)
  else
    t ← eeprom_write d addr buff len;
    Some (fst t, if 0 <? snd t then 0 else -1).

Definition EEPROM_TEST_ADDR : Z := 131008.
Definition MEM_TEST_SIZE : Z := 64.

Definition eeprom_test (d : D) : option (D * Z) :=
  t ← eeprom_write d EEPROM_TEST_ADDR (replicate 64 90) MEM_TEST_SIZE;
  t2 ← eeprom_read (fst t) EEPROM_TEST_ADDR 64;
  let buffer := snd t2 ++ replicate (64 - length (snd t2)) 0 in
  Some (fst t2,
    if negb (zlen (snd t2) =? MEM_TEST_SIZE) then -1
    else if forallb (Z.eqb 90) buffer then 0 else -1).
End SoftI2c.

(** ** Two devices *)

(** Nobody pulls SDA low. *)
#[global] Instance no_device : I2cDevice unit := {|
  dev_start d := d; dev_stop d := d; dev_bits d _ := d; dev_sda _ _ := true;
  dev_read d := (d, replicate 8 true); dev_ack d _ := d
|}.

(** The AT24CM01: 2^17 bytes in pages of 256; the device byte is 1010 A2 A1 P0
    R/W with A2 = A1 = 0 on the board and P0 the top address bit; two address
    bytes follow; data bytes are stored at successive addresses inside the
    page; sequential reads run through the whole memory. *)
Inductive at24_phase : Type :=
| Idle | Select | AddrHi | AddrLo | Data | Reading | Ignore.
Record at24 := mk_at24 { mem : Z -> Z; ptr : Z; phase : at24_phase }.

Definition bits_value (bits : list bool) : Z :=
  fold_left (fun byte b => 2 * byte + (if (b : bool) then 1 else 0)) bits 0.

Definition at24_put (d : at24) (b : Z) : at24 :=
  match phase d with
  | Select =>
      if b / 4 =? 40 then
        if b mod 2 =? 0 then mk_at24 (mem d) (b / 2 mod 2 * 65536 + ptr d mod 65536) AddrHi
        else mk_at24 (mem d) (ptr d) Reading
      else mk_at24 (mem d) (ptr d) Ignore
  | AddrHi => mk_at24 (mem d) (ptr d / 65536 * 65536 + b * 256 + ptr d mod 256) AddrLo
  | AddrLo => mk_at24 (mem d) (ptr d / 256 * 256 + b) Data
  | Data => mk_at24 (fun a => if a =? ptr d then b else mem d a)
              (ptr d / 256 * 256 + (ptr d + 1) mod 256) Data
  | _ => d
  end.
Definition at24_get (d : at24) : at24 * list bool :=
  (mk_at24 (mem d) ((ptr d + 1) mod 131072) (phase d),
   map (fun i => Z.testbit (mem d (ptr d)) i) [7; 6; 5; 4; 3; 2; 1; 0]).

#[global] Instance at24cm01 : I2cDevice at24 := {|
  dev_start d := mk_at24 (mem d) (ptr d) Select;
  dev_stop d := mk_at24 (mem d) (ptr d) Idle;
  dev_bits d bits := at24_put d (bits_value bits);
  dev_sda d _ := match phase d with Ignore | Idle => true | _ => false end;
  dev_read d := at24_get d;
  dev_ack d _ := d
|}.

Example at24_ex :
  (t ← at24c_write (mk_at24 (fun _ => 255) 0 Idle) 80 254 [1; 2; 3; 4] 4;
   t2 ← at24c_read (fst t) 80 253 6; Some (snd t, snd t2))
  = Some (4, [255; 1; 2; 3; 4; 255]).
Proof. vm_compute. reflexivity. Qed.
Example at24_alias :
  (t ← at24c_write (mk_at24 (fun _ => 255) 0 Idle) 80 65600 [7] 1;
   t2 ← at24c_read (fst t) 80 64 1; Some (snd t2)) = Some [7].
Proof. vm_compute. reflexivity. Qed.
Example no_device_write : option_map snd (at24c_write tt 80 0 [1; 2] 2) = Some 2.
Proof. vm_compute. reflexivity. Qed.

(** * Properties *)

(** ** The acknowledge poll *)

Lemma ack_poll_spec {D} `{!I2cDevice D} fuel (d : D) k timeout :
  0 <= timeout < 2 ^ 32 -> (Z.to_nat timeout < fuel)%nat ->
  (ack_poll fuel d k timeout = 0 <->
   (0 < timeout /\ dev_sda d (k + Z.to_nat (timeout - 1)) = false /\
    forall j, (j < Z.to_nat (timeout - 1))%nat -> dev_sda d (k + j) = true)).
Proof.
  revert k timeout. induction fuel as [|fuel IH]; intros k timeout Ht Hf; [lia|].
  cbn [ack_poll]. destruct (Z.eqb_spec timeout 0) as [->|Hne].
  { split; [done|lia]. }
  rewrite u32_small by lia. destruct (dev_sda d k) eqn:Hk; cbn [negb].
  - rewrite IH by lia. split.
    + intros (H0 & H1 & H2). split; [lia|]. split.
      * rewrite <- H1. f_equal. lia.
      * intros [|j] Hj; [by rewrite Nat.add_0_r|]. rewrite <- Nat.add_succ_comm. apply H2. lia.
    + intros (H0 & H1 & H2). destruct (decide (timeout = 1)) as [->|].
      { simpl in H1. rewrite Nat.add_0_r in H1. congruence. }
      split; [lia|]. split.
      * rewrite <- H1. f_equal. lia.
      * intros j Hj. rewrite Nat.add_succ_comm. apply H2. lia.
  - split.
    + intros E. assert (timeout = 1) as -> by lia. split; [done|]. simpl. rewrite Nat.add_0_r.
      split; [done|]. lia.
    + intros (_ & _ & H2). destruct (decide (timeout = 1)) as [->|]; [done|].
      specialize (H2 O). rewrite Nat.add_0_r in H2. rewrite H2 in Hk by lia. done.
Qed.

Lemma rx_ack_spec {D} `{!I2cDevice D} (d : D) :
  rx_ack d SI2C_ACK_TIMEOUT = (if ack_poll 101 d 0 100 =? 0 then -1 else 0) /\
  (ack_poll 101 d 0 100 = 0 <->
     dev_sda d 99 = false /\ forall j, (j < 99)%nat -> dev_sda d j = true).
Proof.
  split; [done|]. pose proof (ack_poll_spec 101 d 0 100 ltac:(lia) ltac:(lia)) as H.
  rewrite H. change (Z.to_nat (100 - 1)) with 99%nat. cbn [Nat.add]. intuition lia.
Qed.

Lemma rx_ack_silent {D} `{!I2cDevice D} (d : D) :
  (forall k, dev_sda d k = true) -> rx_ack d SI2C_ACK_TIMEOUT = 0.
Proof.
  intros H. destruct (rx_ack_spec d) as [-> E]. destruct (Z.eqb_spec (ack_poll 101 d 0 100) 0) as [H0|]; [|done].
  apply E in H0 as [H0 _]. congruence.
Qed.
Lemma rx_ack_first {D} `{!I2cDevice D} (d : D) :
  dev_sda d 0 = false -> rx_ack d SI2C_ACK_TIMEOUT = 0.
Proof. intros H. unfold rx_ack. cbn. by rewrite H. Qed.

Lemma si2c_tx_silent (d : unit) buff len :
  (len <= length buff)%nat -> si2c_tx d buff len = Some (d, Z.of_nat len).
Proof.
  revert d buff. induction len as [|len IH]; intros d buff Hl; [done|].
  destruct buff as [|b buff]; [simpl in Hl; lia|]. cbn [si2c_tx head mbind option_bind].
  rewrite rx_ack_silent by done. cbn [Z.eqb negb tail]. rewrite IH by (simpl in Hl; lia).
  cbn [mbind option_bind fst snd]. change (tx_byte d b) with d. do 2 f_equal. lia.
Qed.

(** The acknowledge timeout is never seen: [rx_ack] fails exactly when SDA
    goes low at the last poll and not before, since a poll loop that runs out
    leaves [timeout] at 2^32 - 1 instead of 0.  A byte nobody acknowledges
    therefore counts as acknowledged, and writing any data to a bus without a
    device reports all of it as written. *)
Theorem i2c_timeout_undetected {D : Type} `{!I2cDevice D} (d : D) addr data :
  (rx_ack d SI2C_ACK_TIMEOUT = -1 <->
     dev_sda d 99 = false /\ forall j, (j < 99)%nat -> dev_sda d j = true) /\
  at24c_write tt EEPROM_I2C_ADDR addr data (zlen data) = Some (tt, zlen data).
Proof.
  split.
  - destruct (rx_ack_spec d) as [-> E]. rewrite <- E.
    destruct (Z.eqb_spec (ack_poll 101 d 0 100) 0); done.
  - assert (Hp : forall fuel ad (l : list Z), (length l < fuel)%nat ->
      write_pages fuel tt EEPROM_I2C_ADDR ad l (zlen l) = Some (tt, 0)).
    { induction fuel as [|fuel IH]; intros ad l Hf; [lia|]. cbn [write_pages].
      destruct (Z.eqb_spec (zlen l) 0) as [->|Hne]; [done|].
      set (size := if zlen l <? _ then _ else _).
      assert (Hs : 0 < size <= zlen l).
      { unfold size, AT24C_PAGE_SIZE. change (256 - 1) with (Z.ones 8). rewrite Z.land_ones by lia.
        pose proof (Z.mod_pos_bound ad (2 ^ 8)).
        destruct (Z.ltb_spec (zlen l) (256 - ad mod 2 ^ 8)); lia. }
      assert (E : write_in_page tt EEPROM_I2C_ADDR ad l (Z.to_nat size) = Some (tt, size)).
      { unfold write_in_page, si2c_select. rewrite rx_ack_silent by done. cbn [Z.eqb negb].
        rewrite si2c_tx_silent by (simpl; lia). cbn [mbind option_bind Z.of_nat Z.eqb negb].
        rewrite si2c_tx_silent by lia. cbn [mbind option_bind fst snd]. do 2 f_equal. lia. }
      rewrite E. cbn [mbind option_bind fst snd]. rewrite Z.eqb_refl. cbn [negb].
      replace (zlen l - size) with (zlen (drop (Z.to_nat size) l)) by (rewrite length_drop; lia).
      apply IH. rewrite length_drop. lia. }
    unfold at24c_write. rewrite Hp by lia. cbn. do 2 f_equal. lia.
Qed.

(** ** Addresses above 64 KiB *)

Lemma byte_address addr : byte_1 addr * 256 + byte_0 addr = addr mod 65536.
Proof.
  unfold byte_1, byte_0. change 255 with (Z.ones 8). rewrite !Z.land_ones, Z.shiftr_div_pow2 by lia.
  change (2 ^ 8) with 256. zdm.
Qed.
Lemma byte_address_mod a b : a mod 65536 = b mod 65536 ->
  byte_1 a = byte_1 b /\ byte_0 a = byte_0 b /\ Z.land a 255 = Z.land b 255.
Proof.
  unfold byte_1, byte_0. change 255 with (Z.ones 8). rewrite !Z.land_ones, !Z.shiftr_div_pow2 by lia.
  change (2 ^ 8) with 256. intros. repeat split; zdm.
Qed.

Lemma write_pages_mod {D} `{!I2cDevice D} fuel : forall (d : D) dev a b data remain,
  a mod 65536 = b mod 65536 ->
  write_pages fuel d dev a data remain = write_pages fuel d dev b data remain.
Proof.
  induction fuel as [|fuel IH]; intros d dev a b data remain Hab; [done|].
  destruct (byte_address_mod a b Hab) as (H1 & H0 & Hl). cbn [write_pages].
  unfold write_in_page. change (AT24C_PAGE_SIZE - 1) with 255. rewrite H1, H0, Hl.
  destruct (remain =? 0); [done|]. set (size := if remain <? _ then _ else _).
  assert (E : forall d', write_pages fuel d' dev (u32 (a + size)) (drop (Z.to_nat size) data) (remain - size)
    = write_pages fuel d' dev (u32 (b + size)) (drop (Z.to_nat size) data) (remain - size)).
  { intros d'. apply IH. unfold u32. clear - Hab. zdm. }
  destruct (si2c_select _ _ _) as [d1 r1]. destruct (negb (r1 =? 0)).
  { cbn [mbind option_bind fst snd]. destruct (negb (0 =? size)); [done|]. apply E. }
  destruct (si2c_tx d1 _ 2) as [[d2 n2]|]; [|done]. cbn [mbind option_bind].
  destruct (negb (n2 =? 2)).
  { cbn [mbind option_bind fst snd]. destruct (negb (0 =? size)); [done|]. apply E. }
  destruct (si2c_tx d2 _ _) as [[d3 n3]|]; [|done]. cbn [mbind option_bind fst snd].
  destruct (negb (n3 =? size)); [done|]. apply E.
Qed.

(** Only 16 address bits reach the chip: built for the AT24CM01 (2^17
    bytes), [at24c_write] and [at24c_read] never set the top address bit, so
    with any device an access at [addr + 65536] is the access at [addr]: the
    upper half of the EEPROM, where the program keeps most of its state
    records, is an alias of the lower half with the parameter backup. *)
Theorem eeprom_upper_half_aliases {D : Type} `{!I2cDevice D} (d : D) dev addr data n len :
  at24c_write d dev (addr + 65536) data n = at24c_write d dev addr data n /\
  at24c_read d dev (addr + 65536) len = at24c_read d dev addr len.
Proof.
  assert (H : (addr + 65536) mod 65536 = addr mod 65536) by zdm. split.
  - unfold at24c_write. by rewrite (write_pages_mod _ d dev _ addr).
  - unfold at24c_read. destruct (byte_address_mod _ _ H) as (-> & -> & _). done.
Qed.

(** ** Reading back what was written *)

Lemma byte_bits b :
  is_byte b ->
  bits_value (map (fun i => Z.testbit b i) [7; 6; 5; 4; 3; 2; 1; 0]) = b /\
  u8 (rx_byte (map (fun i => Z.testbit b i) [7; 6; 5; 4; 3; 2; 1; 0])) = b.
Proof.
  intros Hb.
  pose proof (all_below (fun b =>
    (bits_value (map (fun i => Z.testbit b i) [7; 6; 5; 4; 3; 2; 1; 0]) =? b) &&
    (u8 (rx_byte (map (fun i => Z.testbit b i) [7; 6; 5; 4; 3; 2; 1; 0])) =? b)) 256
    ltac:(vm_compute; reflexivity) b Hb) as H.
  cbn beta in H. apply andb_true_iff in H as [H1 H2]. apply Z.eqb_eq in H1, H2. done.
Qed.

Lemma tx_byte_at24 (d : at24) b : is_byte b -> tx_byte d b = at24_put d b.
Proof. intros Hb. unfold tx_byte. cbn [dev_bits at24cm01]. by rewrite (proj1 (byte_bits b Hb)). Qed.

Lemma rx_ack_at24 (d : at24) :
  phase d <> Ignore -> phase d <> Idle -> rx_ack d SI2C_ACK_TIMEOUT = 0.
Proof. intros H1 H2. apply rx_ack_first. cbn. by destruct (phase d). Qed.

(** [data] laid over a memory at [p]. *)
Definition overlay (m : Z -> Z) (p : Z) (data : list Z) (a : Z) : Z :=
  if (p <=? a) && (a <? p + zlen data) then nth (Z.to_nat (a - p)) data 0 else m a.

Lemma overlay_nil m p a : overlay m p [] a = m a.
Proof. unfold overlay. destruct (Z.leb_spec p a), (Z.ltb_spec a (p + zlen (@nil Z))); simpl in *; try done; lia. Qed.
Lemma overlay_app m p l1 l2 a :
  overlay (overlay m p l1) (p + zlen l1) l2 a = overlay m p (l1 ++ l2) a.
Proof.
  unfold overlay. rewrite zlen_app.
  destruct (Z.leb_spec p a), (Z.ltb_spec a (p + zlen l1)), (Z.leb_spec (p + zlen l1) a),
    (Z.ltb_spec a (p + zlen l1 + zlen l2)), (Z.ltb_spec a (p + (zlen l1 + zlen l2)));
    cbn [andb]; try lia; try done.
  - rewrite app_nth1 by lia. done.
  - rewrite app_nth2 by lia. f_equal. lia.
Qed.
Lemma overlay_single m p b a : overlay m p [b] a = if a =? p then b else m a.
Proof.
  unfold overlay. change (zlen [b]) with 1. destruct (Z.eqb_spec a p) as [->|].
  - rewrite (proj2 (Z.leb_le _ _)), (proj2 (Z.ltb_lt _ _)) by lia. cbn [andb]. by rewrite Z.sub_diag.
  - destruct (Z.leb_spec p a), (Z.ltb_spec a (p + 1)); done || lia.
Qed.
Lemma overlay_ext m m' p l a : (forall x, m x = m' x) -> overlay m p l a = overlay m' p l a.
Proof. intros H. unfold overlay. by rewrite H. Qed.

Lemma tx_data (l : list Z) : forall (d : at24),
  phase d = Data -> bytes l -> 0 <= ptr d -> ptr d mod 256 + zlen l <= 256 ->
  exists d', si2c_tx d l (length l) = Some (d', zlen l) /\
    forall a, mem d' a = overlay (mem d) (ptr d) l a.
Proof.
  induction l as [|b l IH]; intros d Hd Hl Hp Hpage.
  { exists d. split; [done|]. intros a. by rewrite overlay_nil. }
  inversion_clear Hl as [|? ? Hb Hbs]. cbn [length si2c_tx head mbind option_bind tail].
  rewrite tx_byte_at24 by done.
  assert (Hput : at24_put d b = mk_at24 (fun a => if a =? ptr d then b else mem d a)
    (ptr d / 256 * 256 + (ptr d + 1) mod 256) Data).
  { unfold at24_put. by rewrite Hd. }
  rewrite Hput, rx_ack_at24 by done. cbn [Z.eqb negb].
  rewrite zlen_cons in Hpage. destruct l as [|b' l].
  { eexists; split; [done|]. intros a. by rewrite overlay_single. }
  assert (Hnext : ptr d / 256 * 256 + (ptr d + 1) mod 256 = ptr d + 1) by (rewrite zlen_cons in Hpage; zdm).
  rewrite Hnext. destruct (IH (mk_at24 (fun a => if a =? ptr d then b else mem d a) (ptr d + 1) Data))
    as (d' & E & Hm); [done|done|cbn; lia|cbn [ptr]; rewrite zlen_cons in *; zdm|].
  rewrite E. cbn [mbind option_bind fst snd]. exists d'. split; [do 2 f_equal; simpl length; lia|].
  intros a. rewrite Hm. cbn [mem ptr]. change (b :: b' :: l) with ([b] ++ b' :: l).
  rewrite <- overlay_app. apply overlay_ext. intros x. by rewrite overlay_single.
Qed.

(** Selecting the chip and sending an address. *)
Lemma at24_address (d : at24) addr :
  exists d', 
    (let '(d1, r) := si2c_select (si2c_start d) EEPROM_I2C_ADDR SI2C_OP_WRITE in
     r = 0 /\ si2c_tx d1 [byte_1 addr; byte_0 addr] 2 = Some (d', 2)) /\
    mem d' = mem d /\ ptr d' = addr mod 65536 /\ phase d' = Data.
Proof.
  assert (H1 : is_byte (byte_1 addr) /\ is_byte (byte_0 addr)).
  { unfold byte_1, byte_0, is_byte. change 255 with (Z.ones 8). rewrite !Z.land_ones by lia.
    split; apply Z.mod_pos_bound; lia. }
  destruct H1 as [H1 H0]. unfold si2c_select.
  change (Z.lor (Z.shiftl (Z.land EEPROM_I2C_ADDR 127) 1) (Z.land SI2C_OP_WRITE 1)) with 160.
  rewrite tx_byte_at24 by done. 
  change (at24_put (si2c_start d) 160) with (mk_at24 (mem d) (0 * 65536 + ptr d mod 65536) AddrHi).
  rewrite rx_ack_at24 by done. cbn [Z.eqb negb].
  cbn [si2c_tx head tail mbind option_bind]. rewrite tx_byte_at24 by done. cbn [at24_put mem ptr phase].
  rewrite rx_ack_at24 by done. cbn [Z.eqb negb]. rewrite tx_byte_at24 by done.
  cbn [at24_put mem ptr phase]. rewrite rx_ack_at24 by done. cbn [Z.eqb negb mbind option_bind fst snd].
  eexists; split; [by split|]. split; [done|]. split; [|done]. cbn [ptr].
  rewrite <- (byte_address addr). unfold is_byte in *. clear - H1 H0.
  pose proof (Z.mod_pos_bound (ptr d) 65536 ltac:(lia)) as Hq. revert Hq.
  generalize (ptr d mod 65536). intros q Hq. rewrite Z.mul_0_l, Z.add_0_l.
  rewrite (Z.div_small q) by lia. pose proof (Z.mod_pos_bound q 256 ltac:(lia)).
  replace ((0 * 65536 + byte_1 addr * 256 + q mod 256) / 256) with (byte_1 addr) by zdm. lia.
Qed.

Lemma write_in_page_at24 (d : at24) addr (l rest : list Z) :
  bytes l -> 0 <= addr < 65536 -> addr mod 256 + zlen l <= 256 ->
  exists d', write_in_page d EEPROM_I2C_ADDR addr (l ++ rest) (length l) = Some (d', zlen l) /\
    forall a, mem d' a = overlay (mem d) addr l a.
Proof.
  intros Hl Ha Hp. unfold write_in_page.
  destruct (at24_address d addr) as (d2 & Hsel & Hm & Hptr & Hph).
  destruct (si2c_select _ _ _) as [d1 r]. destruct Hsel as [-> ->]. cbn [Z.eqb negb mbind option_bind].
  rewrite Z.mod_small in Hptr by done.
  destruct (tx_data l d2 Hph Hl) as (d3 & E & Hd3); [lia|by rewrite Hptr|].
  assert (E' : si2c_tx d2 (l ++ rest) (length l) = Some (d3, zlen l)).
  { revert E. clear. generalize (Some (d3, zlen l)) as o. revert d2.
    induction l as [|b l IH]; intros d2 o; [done|]. cbn [length si2c_tx app head tail mbind option_bind].
    destruct (negb _); [done|]. intros <-. by erewrite IH. }
  rewrite E'. cbn [mbind option_bind fst snd Pos.eqb]. eexists; split; [done|].
  intros a. cbn [si2c_stop dev_stop at24cm01 mem]. rewrite Hd3, Hptr. by apply overlay_ext; rewrite Hm.
Qed.

Lemma write_pages_at24 fuel : forall (d : at24) addr (l : list Z),
  (length l < fuel)%nat -> bytes l -> 0 <= addr -> addr + zlen l <= 65536 ->
  exists d', write_pages fuel d EEPROM_I2C_ADDR addr l (zlen l) = Some (d', 0) /\
    forall a, mem d' a = overlay (mem d) addr l a.
Proof.
  induction fuel as [|fuel IH]; intros d addr l Hf Hl Ha Hend; [lia|]. cbn [write_pages].
  destruct (Z.eqb_spec (zlen l) 0) as [E|Hne].
  { destruct l; [|zlen_lia]. exists d. split; [done|]. intros a. by rewrite overlay_nil. }
  set (size := if zlen l <? _ then _ else _).
  assert (Hs : 0 < size <= zlen l /\ addr mod 256 + size <= 256).
  { unfold size, AT24C_PAGE_SIZE. change (256 - 1) with (Z.ones 8). rewrite Z.land_ones by lia.
    change (2 ^ 8) with 256. pose proof (Z.mod_pos_bound addr 256).
    destruct (Z.ltb_spec (zlen l) (256 - addr mod 256)); lia. }
  clearbody size.
  assert (Hlen : length (take (Z.to_nat size) l) = Z.to_nat size) by (rewrite length_take; lia).
  destruct (write_in_page_at24 d addr (take (Z.to_nat size) l) (drop (Z.to_nat size) l)) as (d1 & E & Hm1);
    [by apply Forall_take|lia|lia|].
  rewrite take_drop, Hlen in E. rewrite E. cbn [mbind option_bind fst snd].
  rewrite Z2Nat.id, Z.eqb_refl by lia. cbn [negb].
  replace (zlen l - size) with (zlen (drop (Z.to_nat size) l)) by (rewrite length_drop; lia).
  rewrite u32_small by lia.
  destruct (IH d1 (addr + size) (drop (Z.to_nat size) l)) as (d' & E' & Hm');
    [rewrite length_drop; lia|by apply Forall_drop|lia|rewrite length_drop; lia|].
  exists d'. split; [exact E'|]. intros a. rewrite Hm'.
  replace (addr + size) with (addr + zlen (take (Z.to_nat size) l)) by lia.
  rewrite (overlay_ext _ (overlay (mem d) addr (take (Z.to_nat size) l))) by done.
  by rewrite overlay_app, take_drop.
Qed.

Lemma rx_data n : forall (d : at24),
  phase d = Reading -> (forall a, is_byte (mem d a)) -> 0 <= ptr d -> ptr d + Z.of_nat n <= 131072 ->
  exists d', si2c_rx d n = (d', map (fun i => mem d (ptr d + Z.of_nat i)) (seq 0 n)) /\
    mem d' = mem d.
Proof.
  induction n as [|n IH]; intros d Hd Hm Hp Hend; [by exists d|].
  cbn [si2c_rx]. cbn [dev_read at24cm01 at24_get dev_ack].
  rewrite (proj2 (byte_bits _ (Hm (ptr d)))). destruct n as [|n].
  { cbn. rewrite Z.add_0_r. by eexists. }
  rewrite Z.mod_small by lia.
  destruct (IH (mk_at24 (mem d) (ptr d + 1) (phase d))) as (d' & E & Hm'); [done|done|cbn; lia|cbn [ptr]; lia|].
  rewrite E. exists d'. split; [|done]. f_equal. cbn [mem ptr].
  change (seq 0 (S (S n))) with (O :: seq 1 (S n)). cbn [map]. f_equal; [f_equal; lia|].
  rewrite <- (seq_shift (S n) 0), map_map. apply map_ext. intros i. f_equal. lia.
Qed.

Lemma at24c_read_at24 (d : at24) addr n :
  (forall a, is_byte (mem d a)) -> 0 <= addr < 65536 -> addr + Z.of_nat n <= 65536 ->
  exists d', at24c_read d EEPROM_I2C_ADDR addr n
    = Some (d', map (fun i => mem d (addr + Z.of_nat i)) (seq 0 n)) /\ mem d' = mem d.
Proof.
  intros Hm Ha Hn.
  unfold at24c_read. destruct (at24_address d addr) as (d2 & Hsel & Hm2 & Hptr & Hph).
  destruct (si2c_select (si2c_start d) _ _) as [d1 r]. destruct Hsel as [-> ->].
  cbn [Z.eqb negb mbind option_bind Pos.eqb]. rewrite Z.mod_small in Hptr by done.
  unfold si2c_select.
  change (Z.lor (Z.shiftl (Z.land EEPROM_I2C_ADDR 127) 1) (Z.land SI2C_OP_READ 1)) with 161.
  rewrite tx_byte_at24 by done.
  change (at24_put (si2c_start d2) 161) with (mk_at24 (mem d2) (ptr d2) Reading).
  rewrite rx_ack_at24 by done. cbn [Z.eqb negb].
  destruct (rx_data n (mk_at24 (mem d2) (ptr d2) Reading)) as (d' & E & Hm'); [done|cbn; by rewrite Hm2|cbn; lia|cbn [ptr]; lia|].
  rewrite E. eexists. split; [by rewrite <- Hm2, <- Hptr|]. cbn. by rewrite Hm', <- Hm2.
Qed.

(** [C29] Page-split writing: in the lower 64 KiB, [eeprom_write] stores exactly
    the given bytes at their addresses whatever the alignment and the number of
    256-byte pages they span, leaves every other cell alone and reports them
    all, and [eeprom_read] returns them; each page transfer stays inside its
    page. *)
Theorem eeprom_write_read (d : at24) addr data :
  bytes data -> (forall a, is_byte (mem d a)) -> 0 <= addr < 65536 -> addr + zlen data <= 65536 ->
  exists d' d'',
    eeprom_write d addr data (zlen data) = Some (d', zlen data) /\
    (forall a, mem d' a = overlay (mem d) addr data a) /\
    eeprom_read d' addr (length data) = Some (d'', data) /\ mem d'' = mem d'.
Proof.
  intros Hd Hm Ha Hend. unfold eeprom_write, at24c_write.
  destruct (write_pages_at24 (S (Z.to_nat (zlen data))) d addr data) as (d' & E & Hm'); try done; try lia.
  rewrite E. cbn [mbind option_bind fst snd].
  assert (Hb : forall a, is_byte (mem d' a)).
  { intros a. rewrite Hm'. unfold overlay. destruct ((addr <=? a) && (a <? addr + zlen data)) eqn:Hc; [|done].
    zify_bool. rewrite Forall_forall in Hd. apply Hd, list_elem_of_In, nth_In. lia. }
  destruct (at24c_read_at24 d' addr (length data) Hb Ha Hend) as (d'' & E2 & Hm2).
  exists d', d''. split; [by rewrite Z.sub_0_r|]. split; [done|]. split; [|done].
  unfold eeprom_read. rewrite E2. do 2 f_equal. apply list_eq. intros i.
  rewrite list_lookup_fmap. destruct (decide (i < length data)%nat).
  - rewrite lookup_seq_lt by done. cbn [fmap option_fmap option_map]. rewrite Hm'. unfold overlay.
    rewrite (proj2 (Z.leb_le _ _)), (proj2 (Z.ltb_lt _ _)) by lia. cbn [andb].
    replace (Z.to_nat (addr + Z.of_nat (0 + i) - addr)) with i by lia.
    symmetry. destruct (lookup_lt_is_Some_2 data i) as [x Hx]; [done|]. rewrite Hx.
    f_equal. symmetry. by apply nth_lookup_Some.
  - rewrite lookup_seq_ge, lookup_ge_None_2 by lia. done.
Qed.

Lemma eeprom_write_read_witness :
  exists d' d'',
    eeprom_write (mk_at24 (fun _ => 255) 0 Idle) 510 [1; 2; 3; 4] 4 = Some (d', 4) /\
    (forall a, mem d' a = overlay (fun _ => 255) 510 [1; 2; 3; 4] a) /\
    eeprom_read d' 510 4 = Some (d'', [1; 2; 3; 4]) /\ mem d'' = mem d'.
Proof.
  apply (eeprom_write_read (mk_at24 (fun _ => 255) 0 Idle) 510 [1; 2; 3; 4]).
  - repeat constructor; discriminate.
  - intros a. split; [discriminate | reflexivity].
  - split; [discriminate | reflexivity].
  - discriminate.
Defined.
