(* ===== verification/Fmc.v ===== *)
(** * gd32_fmc.c: the on-chip flash

    The controller is hardware reached through the vendor's register functions:
    a client of [FlashDevice], whose laws are the documented behaviour of NOR
    flash (erasing a 4 KiB page sets its bytes to 0xFF, programming can only
    clear bits, both need the controller unlocked).  [nor_flash] is a flash
    that satisfies them.  Addresses are the CPU's. *)
From S2P Require Import Prelude.

Definition FLASH_BASE : Z := 0x08000000.
(** The bases of sectors 0 to 11. *)
Definition sector_bases : list Z :=
  map (Z.add FLASH_BASE)
    [0; 0x4000; 0x8000; 0xC000; 0x10000; 0x20000; 0x40000; 0x60000; 0x80000; 0xA0000; 0xC0000; 0xE0000].
(** Does the address [a] lie in sector [k]? *)
Definition in_sector (k : nat) (a : Z) : bool :=
  (nth k sector_bases 0 <=? a) && (a <? nth (S k) sector_bases (FLASH_BASE + 0x100000)).

Class FlashDevice (F : Type) := {
  rd : F -> Z -> Z;                         (* memory-mapped read *)
  f_locked : F -> bool;
  f_good : F -> bool;                       (* no hardware fault *)
  fmc_unlock : F -> F;
  fmc_lock : F -> F;
  fmc_page_erase : F -> Z -> F;
  fmc_sector_erase : F -> nat -> F * bool;    (* sector number; FMC_READY? *)
  fmc_program : F -> Z -> list Z -> F * bool; (* byte or word; FMC_READY? *)
  rd_unlock f a : rd (fmc_unlock f) a = rd f a;
  rd_lock f a : rd (fmc_lock f) a = rd f a;
  locked_unlock f : f_locked (fmc_unlock f) = false /\ f_good (fmc_unlock f) = f_good f;
  locked_lock f : f_locked (fmc_lock f) = true /\ f_good (fmc_lock f) = f_good f;
  erase_spec f p : f_locked f = false -> f_good f = true ->
    f_locked (fmc_page_erase f p) = false /\ f_good (fmc_page_erase f p) = true /\
    forall a, rd (fmc_page_erase f p) a = if (p <=? a) && (a <? p + 4096) then 255 else rd f a;
  sector_spec f k : f_locked f = false -> f_good f = true -> (k < 12)%nat ->
    snd (fmc_sector_erase f k) = true /\
    f_locked (fst (fmc_sector_erase f k)) = false /\ f_good (fst (fmc_sector_erase f k)) = true /\
    forall a, rd (fst (fmc_sector_erase f k)) a = if in_sector k a then 255 else rd f a;
  program_spec f p l : f_locked f = false -> f_good f = true ->
    snd (fmc_program f p l) = true /\
    f_locked (fst (fmc_program f p l)) = false /\ f_good (fst (fmc_program f p l)) = true /\
    forall a, rd (fst (fmc_program f p l)) a =
      if (p <=? a) && (a <? p + zlen l) then Z.land (rd f a) (nth (Z.to_nat (a - p)) l 0) else rd f a
}.

Section Fmc.
Context {F : Type} `{!FlashDevice F}.

Definition FMC_PAGE_SIZE : Z := 4096.
Definition FMC_PAGE_MAX : Z := 768.

Fixpoint erase_loop (n : nat) (f : F) (addr : Z) : F :=
  match n with
  | O => f
  | S n => erase_loop n (fmc_page_erase f addr) (u32 (addr + FMC_PAGE_SIZE))
  end.
Definition gdf_erase_pages (f : F) (addr num : Z) : F * Z :=
  let page_start := u16 (u32 (addr - FLASH_BASE) / FMC_PAGE_SIZE) in
  if negb (addr mod FMC_PAGE_SIZE =? 0) then (f, -1)
  else if FMC_PAGE_MAX <? u32 (page_start + num) then (f, -2)
  else (fmc_lock (erase_loop (Z.to_nat num) (fmc_unlock f) addr), 0).

(** A failure returns before [fmc_lock]. *)
Definition gdf_erase_sector (f : F) (fmc_sector : nat) : F * Z :=
  let '(f, ok) := fmc_sector_erase (fmc_unlock f) fmc_sector in
  if ok : bool then (fmc_lock f, 0) else (f, -1).

(** [n] units of [w] bytes; [false] after a failed programming. *)
Fixpoint program_loop (n w : nat) (f : F) (addr : Z) (buff : list Z) : option (F * bool) :=
  match n with
  | O => Some (f, true)
  | S n =>
      if (length buff <? w)%nat then None
      else
        let '(f, ok) := fmc_program f addr (take w buff) in
        if ok then program_loop n w f (u32 (addr + Z.of_nat w)) (drop w buff)
        else Some (f, false)
  end.

(** A failure returns before [fmc_lock]. *)
Definition gdf_write_data_by_byte (f : F) (addr : Z) (len : nat) (buff : list Z) : option (F * Z) :=
  r ← program_loop len 1 (fmc_unlock f) addr buff;
  Some (if snd r : bool then (fmc_lock (fst r), 0) else (fst r, -1)).

Definition gdf_write_data_by_word (f : F) (addr : Z) (len : nat) (buff : list Z) : option (F * Z) :=
  r ← program_loop (len / 4) 4 (fmc_unlock f) addr buff;
  Some (if snd r : bool then (fmc_lock (fst r), 0) else (fst r, -1)).

(** Whole words, then the 0 to 3 bytes that remain. *)
Definition gdf_write_data_by_page_fast (f : F) (addr : Z) (len : nat) (buff : list Z)
  : option (F * Z) :=
  r ← program_loop (len / 4) 4 (fmc_unlock f) addr buff;
  if snd r : bool then
    r2 ← program_loop (len mod 4) 1 (fst r) (u32 (addr + 4 * Z.of_nat (len / 4)))
           (drop (4 * (len / 4)) buff);
    Some (if snd r2 : bool then (fmc_lock (fst r2), 0) else (fst r2, -1))
  else Some (fst r, -1).

(** The result of the erase is ignored. *)
Definition gdf_write_data_by_page (f : F) (addr : Z) (len : nat) (buff : list Z)
  : option (F * Z) :=
  let num := Z.of_nat len / FMC_PAGE_SIZE in
  let num := if Z.of_nat len mod FMC_PAGE_SIZE =? 0 then num else num + 1 in
  let f := fst (gdf_erase_pages f addr num) in
  gdf_write_data_by_page_fast f addr len buff.

Definition gdf_read_data (f : F) (addr : Z) (len : nat) : list Z :=
  map (fun i => rd f (u32 (addr + Z.of_nat i))) (seq 0 len).
Definition flash_read (f : F) (addr : Z) (len : nat) : list Z := gdf_read_data f addr len.
Definition flash_write (f : F) (addr : Z) (buff : list Z) (len : nat) : option (F * Z) :=
  r ← gdf_write_data_by_page f addr len buff;
  Some (fst r, if negb (snd r =? 0) then -1 else 0).

(** The number of the sector that holds [addr]. *)
Fixpoint sector_search (bases : list Z) (k addr : Z) : Z :=
  match bases with
  | b0 :: ((b1 :: _) as bases') =>
      if (addr <? b1) && (b0 <=? addr) then k else sector_search bases' (k + 1) addr
  | _ => 11
  end.
Definition gdf_get_sector (addr : Z) : Z := sector_search sector_bases 0 addr.
End Fmc.

(** A flash without faults. *)
Record nor := mk_nor { cells : Z -> Z; nor_locked : bool }.
#[global] Program Instance nor_flash : FlashDevice nor := {|
  rd := cells;
  f_locked := nor_locked;
  f_good _ := true;
  fmc_unlock f := mk_nor (cells f) false;
  fmc_lock f := mk_nor (cells f) true;
  fmc_page_erase f p := if nor_locked f then f
    else mk_nor (fun a => if (p <=? a) && (a <? p + 4096) then 255 else cells f a) false;
  fmc_sector_erase f k := if nor_locked f then (f, false)
    else (mk_nor (fun a => if in_sector k a then 255 else cells f a) false, true);
  fmc_program f p l := if nor_locked f then (f, false)
    else (mk_nor (fun a => if (p <=? a) && (a <? p + zlen l)
                 then Z.land (cells f a) (nth (Z.to_nat (a - p)) l 0) else cells f a) false, true)
|}.
Solve All Obligations with
  (cbn; intros; try done; repeat match goal with f : nor |- _ => destruct f end; cbn in *; by subst).

(** * Properties *)

Section FmcProps.
Context {F : Type} `{!FlashDevice F}.

(** [buff] written over cells that are all 0xFF below [a]. *)
Definition written (m : Z -> Z) (p : Z) (buff : list Z) (a : Z) : Z :=
  if (p <=? a) && (a <? p + zlen buff) then nth (Z.to_nat (a - p)) buff 0 else m a.

Lemma written_app m p l d a : written (written m p l) (p + zlen l) d a = written m p (l ++ d) a.
Proof.
  unfold written. rewrite zlen_app.
  destruct (Z.leb_spec (p + zlen l) a), (Z.ltb_spec a (p + zlen l + zlen d)), (Z.leb_spec p a),
    (Z.ltb_spec a (p + zlen l)), (Z.ltb_spec a (p + (zlen l + zlen d))); cbn [andb]; try lia; try done.
  - rewrite app_nth2 by lia. f_equal. lia.
  - rewrite app_nth1 by lia. done.
Qed.
Lemma written_nil m p a : written m p [] a = m a.
Proof.
  unfold written. change (zlen []) with 0.
  destruct (Z.leb_spec p a), (Z.ltb_spec a (p + 0)); cbn [andb]; done || lia.
Qed.
Lemma written_ext m m' p l a : (forall a, m a = m' a) -> written m p l a = written m' p l a.
Proof. intros H. unfold written. by rewrite H. Qed.
Lemma land_erased b : is_byte b -> Z.land 255 b = b.
Proof.
  intros Hb. rewrite Z.land_comm. change 255 with (Z.ones 8). rewrite Z.land_ones by lia.
  by apply Z.mod_small.
Qed.

Lemma program_loop_spec n w : forall (f : F) addr buff,
  (0 < w)%nat -> (n * w <= length buff)%nat -> bytes buff ->
  f_locked f = false -> f_good f = true -> 0 <= addr -> addr + Z.of_nat (n * w) < 2 ^ 32 ->
  (forall a, addr <= a < addr + Z.of_nat (n * w) -> rd f a = 255) ->
  exists f', program_loop n w f addr buff = Some (f', true) /\
    f_locked f' = false /\ f_good f' = true /\
    forall a, rd f' a = written (rd f) addr (take (n * w) buff) a.
Proof.
  induction n as [|n IH]; intros f addr buff Hw Hlen Hb Hlock Hgood Ha Hend Hff.
  { exists f. split; [done|]. split; [done|]. split; [done|]. intros a. unfold written.
    destruct (Z.leb_spec addr a), (Z.ltb_spec a (addr + zlen (take (0 * w) buff))); simpl in *; done || lia. }
  cbn [program_loop]. rewrite Nat.mul_succ_l in *.
  replace (length buff <? w)%nat with false by (symmetry; apply Nat.ltb_ge; lia).
  destruct (program_spec f addr (take w buff) Hlock Hgood) as (Hok & Hl1 & Hg1 & Hrd).
  destruct (fmc_program f addr (take w buff)) as [f1 ok]. cbn [fst snd] in *. subst ok.
  rewrite length_take_le in Hrd by lia. rewrite u32_small by lia.
  destruct (IH f1 (addr + Z.of_nat w) (drop w buff)) as (f' & -> & Hl' & Hg' & Hrd');
    try done; try lia.
  - rewrite length_drop. lia.
  - by apply Forall_drop.
  - intros a Hx. rewrite Hrd. rewrite (proj2 (Z.ltb_ge _ _)), andb_false_r by lia. apply Hff. lia.
  - exists f'. split; [done|]. split; [done|]. split; [done|]. intros a. rewrite Hrd'.
    unfold written. rewrite !length_take_le, Hrd by (rewrite ?length_drop; lia).
    destruct (Z.leb_spec (addr + Z.of_nat w) a), (Z.ltb_spec a (addr + Z.of_nat w + Z.of_nat (n * w))),
      (Z.leb_spec addr a), (Z.ltb_spec a (addr + Z.of_nat w)),
      (Z.ltb_spec a (addr + Z.of_nat (n * w + w))); cbn [andb]; try lia; try done.
    + rewrite !nth_lookup, lookup_take_lt, lookup_drop, lookup_take_lt by lia. do 2 f_equal. lia.
    + rewrite Hff by lia. rewrite land_erased.
      * rewrite !nth_lookup, !lookup_take_lt by lia. done.
      * rewrite nth_lookup, lookup_take_lt by lia.
        destruct (lookup_lt_is_Some_2 buff (Z.to_nat (a - addr))) as [x Hx]; [lia|]. rewrite Hx. cbn.
        rewrite Forall_forall in Hb. by apply Hb; eapply list_elem_of_lookup_2.
Qed.

Lemma erase_loop_spec n : forall (f : F) addr,
  f_locked f = false -> f_good f = true -> 0 <= addr -> addr + 4096 * Z.of_nat n < 2 ^ 32 ->
  f_locked (erase_loop n f addr) = false /\ f_good (erase_loop n f addr) = true /\
  forall a, rd (erase_loop n f addr) a
    = if (addr <=? a) && (a <? addr + 4096 * Z.of_nat n) then 255 else rd f a.
Proof.
  induction n as [|n IH]; intros f addr Hl Hg Ha Hend.
  - split; [done|]. split; [done|]. intros a. cbn [erase_loop].
    destruct (Z.leb_spec addr a), (Z.ltb_spec a (addr + 4096 * Z.of_nat 0)); done || lia.
  - cbn [erase_loop]. destruct (erase_spec f addr Hl Hg) as (Hl1 & Hg1 & Hrd).
    unfold FMC_PAGE_SIZE. rewrite u32_small by lia.
    destruct (IH (fmc_page_erase f addr) (addr + 4096)) as (Hl' & Hg' & Hrd'); try done; try lia.
    split; [done|]. split; [done|]. intros a. rewrite Hrd', Hrd.
    destruct (Z.leb_spec (addr + 4096) a), (Z.ltb_spec a (addr + 4096 + 4096 * Z.of_nat n)),
      (Z.leb_spec addr a), (Z.ltb_spec a (addr + 4096)), (Z.ltb_spec a (addr + 4096 * Z.of_nat (S n)));
      cbn [andb]; done || lia.
Qed.

(** What [flash_write] leaves: the data, 0xFF in the rest of the erased pages,
    and the old contents elsewhere. *)
Definition page_count (len : nat) : Z := (Z.of_nat len + 4095) / 4096.
Definition after_write (m : Z -> Z) (addr : Z) (buff : list Z) (a : Z) : Z :=
  if (addr <=? a) && (a <? addr + zlen buff) then nth (Z.to_nat (a - addr)) buff 0
  else if (addr <=? a) && (a <? addr + 4096 * page_count (length buff)) then 255 else m a.

Lemma write_num len :
  (let num := Z.of_nat len / FMC_PAGE_SIZE in
   if Z.of_nat len mod FMC_PAGE_SIZE =? 0 then num else num + 1) = page_count len.
Proof.
  unfold FMC_PAGE_SIZE, page_count. cbn zeta. destruct (Z.eqb_spec (Z.of_nat len mod 4096) 0); zdm.
Qed.
Lemma page_count_bounds len : 4096 * page_count len >= Z.of_nat len /\ 0 <= page_count len /\
  4096 * page_count len < Z.of_nat len + 4096.
Proof. unfold page_count. zdm. Qed.
End FmcProps.

Section FmcOps.
Context {F : Type} `{!FlashDevice F}.
Lemma erase_sector_spec (f : F) k : f_good f = true -> (k < 12)%nat ->
  exists f', gdf_erase_sector f k = (f', 0) /\ f_locked f' = true /\ f_good f' = true /\
    forall a, rd f' a = if in_sector k a then 255 else rd f a.
Proof.
  intros Hg Hk. unfold gdf_erase_sector. destruct (locked_unlock f) as [Hl0 Hg0]. rewrite Hg in Hg0.
  destruct (sector_spec (fmc_unlock f) k Hl0 Hg0 Hk) as (Hok & Hl1 & Hg1 & Hrd).
  destruct (fmc_sector_erase (fmc_unlock f) k) as [f1 ok]. cbn [fst snd] in *. subst ok.
  exists (fmc_lock f1). destruct (locked_lock f1) as [? ?]. repeat (split; [congruence|]).
  intros a. by rewrite rd_lock, Hrd, rd_unlock.
Qed.
(** Word programming of erased cells stores the whole words of the data. *)
Lemma write_by_word_spec (f : F) addr len buff : f_good f = true -> bytes buff ->
  (4 * (len / 4) <= length buff)%nat -> 0 <= addr -> addr + Z.of_nat len < 2 ^ 32 ->
  (forall a, addr <= a < addr + Z.of_nat len -> rd f a = 255) ->
  exists f', gdf_write_data_by_word f addr len buff = Some (f', 0) /\ f_locked f' = true /\ f_good f' = true /\
    forall a, rd f' a = written (rd f) addr (take (4 * (len / 4)) buff) a.
Proof.
  intros Hg Hb Hlen Ha Hend Hff. unfold gdf_write_data_by_word.
  pose proof (Nat.div_mod_eq len 4). destruct (locked_unlock f) as [Hl0 Hg0].
  destruct (program_loop_spec (len / 4) 4 (fmc_unlock f) addr buff) as (f1 & -> & Hl1 & Hg1 & Hrd);
    try done; try congruence; try lia.
  { intros a ?. rewrite rd_unlock. apply Hff. lia. }
  cbn [mbind option_bind snd fst]. exists (fmc_lock f1). destruct (locked_lock f1) as [? ?].
  split; [done|]. repeat (split; [congruence|]).
  intros a. rewrite rd_lock, Hrd. rewrite (Nat.mul_comm (len / 4)). unfold written. by rewrite rd_unlock.
Qed.
End FmcOps.

Lemma flash_write_spec {F : Type} `{!FlashDevice F} (f : F) addr buff :
  bytes buff -> f_good f = true -> addr mod FMC_PAGE_SIZE = 0 ->
  FLASH_BASE <= addr -> addr + 4096 * page_count (length buff) <= FLASH_BASE + FMC_PAGE_MAX * FMC_PAGE_SIZE ->
  exists f',
    flash_write f addr buff (length buff) = Some (f', 0) /\
    flash_read f' addr (length buff) = buff /\
    (forall a, rd f' a = after_write (rd f) addr buff a) /\
    f_locked f' = true /\ f_good f' = true.
Proof.
  intros Hb Hgood Hal Hlo Hhi. unfold FLASH_BASE, FMC_PAGE_MAX, FMC_PAGE_SIZE in *.
  pose proof (page_count_bounds (length buff)) as Hpc.
  unfold flash_write, gdf_write_data_by_page. fold (FMC_PAGE_SIZE). rewrite write_num.
  set (np := page_count (length buff)) in *.
  assert (Herase : let f1 := fst (gdf_erase_pages f addr np) in
    f_good f1 = true /\ forall a, rd f1 a
      = if (addr <=? a) && (a <? addr + 4096 * np) then 255 else rd f a).
  { unfold gdf_erase_pages, FLASH_BASE, FMC_PAGE_SIZE, FMC_PAGE_MAX. rewrite Hal. cbn [Z.eqb negb].
    assert (Hps : u16 (u32 (addr - 134217728) / 4096) = (addr - 134217728) / 4096).
    { rewrite (u32_small (addr - _)) by lia. apply u16_small. zdm. }
    rewrite Hps, u32_small by zdm. rewrite (proj2 (Z.ltb_ge _ _)) by zdm. cbn [fst].
    destruct (locked_unlock f) as [Hl0 Hg0].
    destruct (erase_loop_spec (Z.to_nat np) (fmc_unlock f) addr) as (_ & Hg1 & Hrd); try done; try lia; try congruence.
    destruct (locked_lock (erase_loop (Z.to_nat np) (fmc_unlock f) addr)) as [_ Hg2].
    split; [congruence|]. intros a. rewrite rd_lock, Hrd, Z2Nat.id, rd_unlock by lia. done. }
  cbn zeta in Herase. destruct Herase as [Hg1 Hrd1]. set (f1 := fst (gdf_erase_pages f addr np)) in *.
  clearbody f1. unfold gdf_write_data_by_page_fast.
  destruct (locked_unlock f1) as [Hl2 Hg2].
  set (nw := (length buff / 4)%nat). set (nb := (length buff mod 4)%nat).
  assert (Hsplit : (length buff = nw * 4 + nb)%nat).
  { unfold nw, nb. pose proof (Nat.div_mod_eq (length buff) 4). lia. }
  assert (Hff : forall a, addr <= a < addr + 4096 * np -> rd (fmc_unlock f1) a = 255).
  { intros a Ha. rewrite rd_unlock, Hrd1.
    by rewrite (proj2 (Z.leb_le _ _)), (proj2 (Z.ltb_lt _ _)) by lia. }
  destruct (program_loop_spec nw 4 (fmc_unlock f1) addr buff) as (f2 & -> & Hl3 & Hg3 & Hrd3);
    try done; try congruence; try lia; try (intros a Ha; apply Hff; lia).
  cbn [mbind option_bind snd fst]. rewrite u32_small by lia. replace (4 * nw)%nat with (nw * 4)%nat by lia.
  destruct (program_loop_spec nb 1 f2 (addr + 4 * Z.of_nat nw) (drop (nw * 4) buff)) as (f3 & -> & Hl4 & Hg4 & Hrd4);
    try done; try (rewrite ?length_drop; lia); [by apply Forall_drop| |].
  { intros a Ha. rewrite Hrd3. unfold written. rewrite length_take_le by lia.
    rewrite (proj2 (Z.ltb_ge _ _)), andb_false_r by lia. apply Hff. lia. }
  cbn [mbind option_bind snd fst]. destruct (locked_lock f3) as [Hl5 Hg5].
  assert (Hfinal : forall a, rd (fmc_lock f3) a = after_write (rd f) addr buff a).
  { intros a. rewrite rd_lock, Hrd4. unfold written, after_write. fold np.
    rewrite !length_take_le, Hrd3 by (rewrite ?length_drop; lia). unfold written.
    rewrite length_take_le, rd_unlock, Hrd1 by lia. rewrite Nat.mul_1_r.
    destruct (Z.leb_spec (addr + 4 * Z.of_nat nw) a), (Z.ltb_spec a (addr + 4 * Z.of_nat nw + Z.of_nat nb)),
      (Z.leb_spec addr a), (Z.ltb_spec a (addr + Z.of_nat (nw * 4))), (Z.ltb_spec a (addr + zlen buff));
      cbn [andb]; try lia; try done.
    - rewrite !nth_lookup, lookup_take_lt, lookup_drop by lia. do 2 f_equal. lia.
    - rewrite !nth_lookup, lookup_take_lt by lia. done. }
  exists (fmc_lock f3). split; [done|]. split; [|split; [done|split; [done|congruence]]].
  unfold flash_read, gdf_read_data. apply list_eq. intros i. rewrite list_lookup_fmap.
  destruct (decide (i < length buff)%nat).
  - rewrite lookup_seq_lt by done. cbn [fmap option_fmap option_map]. rewrite u32_small by lia.
    rewrite Hfinal. unfold after_write. rewrite (proj2 (Z.leb_le _ _)), (proj2 (Z.ltb_lt _ _)) by lia.
    cbn [andb]. destruct (lookup_lt_is_Some_2 buff i) as [x Hx]; [done|]. rewrite Hx. f_equal.
    apply nth_lookup_Some. rewrite <- Hx. f_equal. lia.
  - rewrite lookup_seq_ge, lookup_ge_None_2 by lia. done.
Qed.

Lemma write_by_page_spec {F : Type} `{!FlashDevice F} (f : F) addr buff :
  bytes buff -> f_good f = true -> addr mod FMC_PAGE_SIZE = 0 ->
  FLASH_BASE <= addr -> addr + 4096 * page_count (length buff) <= FLASH_BASE + FMC_PAGE_MAX * FMC_PAGE_SIZE ->
  exists r, gdf_write_data_by_page f addr (length buff) buff = Some r /\
    flash_read (fst r) addr (length buff) = buff /\
    (forall a, rd (fst r) a = after_write (rd f) addr buff a) /\
    f_locked (fst r) = true /\ f_good (fst r) = true.
Proof.
  intros. destruct (flash_write_spec f addr buff) as (f' & E & H'); try done.
  unfold flash_write in E. destruct (gdf_write_data_by_page f addr (length buff) buff) as [r|]; [|done].
  exists r. split; [done|]. cbn in E. by simplify_eq.
Qed.

(** [C28] Flash writing: for a page-aligned address inside the 3 MiB flash and
    any length, also not a multiple of four, [flash_write] on a sound flash
    succeeds, reading back gives exactly the data, the rest of the pages it had
    to erase reads 0xFF, everything outside those pages is untouched, and the
    controller is locked again. *)
Theorem flash_write_read {F : Type} `{!FlashDevice F} (f : F) addr buff :
  bytes buff -> f_good f = true -> addr mod FMC_PAGE_SIZE = 0 ->
  FLASH_BASE <= addr -> addr + 4096 * page_count (length buff) <= FLASH_BASE + FMC_PAGE_MAX * FMC_PAGE_SIZE ->
  exists f',
    flash_write f addr buff (length buff) = Some (f', 0) /\
    flash_read f' addr (length buff) = buff /\
    (forall a, rd f' a = after_write (rd f) addr buff a) /\
    f_locked f' = true /\ f_good f' = true.
Proof. apply flash_write_spec. Qed.

Lemma flash_write_read_witness :
  exists f', flash_write (mk_nor (fun _ => 0) true) 0x08008000 [1; 2; 3; 4; 5] 5 = Some (f', 0) /\
    flash_read f' 0x08008000 5 = [1; 2; 3; 4; 5].
Proof.
  destruct (flash_write_read (mk_nor (fun _ => 0) true) 0x08008000 [1; 2; 3; 4; 5]) as (f' & H1 & H2 & _).
  - repeat constructor; discriminate.
  - reflexivity.
  - reflexivity.
  - discriminate.
  - discriminate.
  - exists f'. split; [exact H1 | exact H2].
Defined.
