(* ===== verification/Para.v ===== *)
(** * para.c, para_cfg.c: the persistent parameters

    The parameter structure is kept as its packed byte image.  Storage is
    reached through the function pointers [loc->read] and [loc->write]: a client
    of [NvStore], whose laws are proved for the flash and the EEPROM of the
    board in ParaStore.v.  The default image [SYS_DEF_PARA] is a parameter: the
    theorems hold for any.  Debug output is not modelled. *)
From Stdlib Require Import ZifyBool.
From S2P Require Import Prelude Generic.

(** ** The image (para_cfg.h) *)

Record para_item_t := mk_item { desc : string; offset : nat; size : nat }.

(** Group sizes in declaration order, from the packed declarations. *)
Definition group_sizes : list (string * nat) :=
  [("dev", 31); ("port", 42); ("gain", 80); ("ana", 43); ("adc", 16); ("temp", 126);
   ("net", 80); ("record", 4); ("algo", 1156); ("burst", 46); ("alarm", 36);
   ("video", 39); ("filter", 19); ("heater", 28)]%string%nat.
Fixpoint lay_out (off : nat) (l : list (string * nat)) : list para_item_t :=
  match l with
  | [] => []
  | (d, n) :: l => mk_item d off n :: lay_out (off + n) l
  end.
Definition PARA_INFO_TBL : list para_item_t := Eval cbv in lay_out 4 group_sizes.

Definition PARA_TYPE_CNT : nat := 14.
Definition PARA_DEV : nat := 0.
Definition PARA_PORT : nat := 1.
Definition CRC_OFF : nat := 1750.
Definition PARA_SIZE : nat := 1778.
Definition PARAM_MAGIC : Z := 0x00080296.
Definition DEV_MAX_ADDR : Z := 32.

Definition para_item (i : nat) : para_item_t := nth i PARA_INFO_TBL (mk_item "" 0 0).
Definition off_of (i : nat) : nat := offset (para_item i).
Definition size_of (i : nat) : nat := size (para_item i).

Definition magic (para : list Z) : Z := le_decode (get 0 4 para).
Definition set_magic (para : list Z) (v : Z) : list Z := put 0 (le_encode 4 v) para.
Definition crc_off (i : nat) : nat := CRC_OFF + 2 * i.
Definition crc_field (i : nat) (para : list Z) : Z := le_decode (get (crc_off i) 2 para).
Definition set_crc (i : nat) (v : Z) (para : list Z) : list Z :=
  put (crc_off i) (le_encode 2 v) para.
Definition group (i : nat) (para : list Z) : list Z := get (off_of i) (size_of i) para.
(** [sys_para.dev.addr], the first byte of the first group. *)
Definition dev_addr (para : list Z) : Z := nth 4 para 0.

(** ** Storage devices (para.h) *)

Inductive storage_media_t := STORAGE_MEDIA_INT_FLASH | STORAGE_MEDIA_EXT_EEPROM.
Inductive storage_type_t :=
  STORAGE_TYPE_USER | STORAGE_TYPE_BACKUP | STORAGE_TYPE_FACTORY | STORAGE_TYPE_DEFAULT.
#[global] Instance storage_media_eq : EqDecision storage_media_t.
Proof. solve_decision. Defined.
#[global] Instance storage_type_eq : EqDecision storage_type_t.
Proof. solve_decision. Defined.

Record storage_device_t := mk_loc { type : storage_type_t; media : storage_media_t; address : Z }.

Definition USER_PARA_ADDR : Z := 0x08008000.
Definition FACTORY_PARA_ADDR : Z := 0x0800C000.
Definition BACKUP_PARA_ADDR : Z := 0.
Definition user_loc := mk_loc STORAGE_TYPE_USER STORAGE_MEDIA_INT_FLASH USER_PARA_ADDR.
Definition backup_loc := mk_loc STORAGE_TYPE_BACKUP STORAGE_MEDIA_EXT_EEPROM BACKUP_PARA_ADDR.
Definition factory_loc := mk_loc STORAGE_TYPE_FACTORY STORAGE_MEDIA_INT_FLASH FACTORY_PARA_ADDR.

(** The places the parameters are kept in. *)
Definition para_place (m : storage_media_t) (a : Z) (n : nat) : Prop :=
  match m with
  | STORAGE_MEDIA_INT_FLASH =>
      (a = USER_PARA_ADDR \/ a = FACTORY_PARA_ADDR) /\ (0 < n <= 4096)%nat
  | STORAGE_MEDIA_EXT_EEPROM => 0 <= a /\ a + Z.of_nat n <= 4096 /\ (0 < n)%nat
  end.

(** [nv_read] gives the data when the C function returns 0; [nv_write] gives the
    return code.  [nv_good] is a device without faults, [nv_mem] what it holds.
    A flash write erases the 4 KiB page it starts. *)
Class NvStore (N : Type) := {
  nv_read : N -> storage_media_t -> Z -> nat -> N * option (list Z);
  nv_write : N -> storage_media_t -> Z -> list Z -> N * Z;
  nv_good : N -> Prop;
  nv_mem : N -> storage_media_t -> Z -> Z;
  nv_byte s m a : nv_good s -> is_byte (nv_mem s m a);
  nv_read_spec s m a n : nv_good s -> para_place m a n ->
    exists s', nv_read s m a n = (s', Some (map (fun i => nv_mem s m (a + Z.of_nat i)) (seq 0 n))) /\
      nv_good s' /\ forall m' a', nv_mem s' m' a' = nv_mem s m' a';
  nv_write_spec s m a l : nv_good s -> para_place m a (length l) -> bytes l ->
    exists s', nv_write s m a l = (s', 0) /\ nv_good s' /\
      (forall i, (i < length l)%nat -> nv_mem s' m (a + Z.of_nat i) = nth i l 0) /\
      forall m' a', m' <> m \/ a' < a \/
        (if decide (m = STORAGE_MEDIA_INT_FLASH) then a + 4096 <= a' else a + zlen l <= a') ->
        nv_mem s' m' a' = nv_mem s m' a'
}.

(** ** para.c *)
Section Para.
Context {N : Type} `{!NvStore N} (SYS_DEF_PARA : list Z).

(** The module's variables, the RTOS critical nesting and the devices. *)
Record pmm := mk_pmm {
  sys_para : list Z; temp_para : list Z;
  err_user : Z; err_backup : Z; err_factory : Z;
  crc_user : list Z; crc_backup : list Z;
  crit : Z; nv : N }.

Definition set_sys (p : pmm) v := mk_pmm v (temp_para p) (err_user p) (err_backup p)
  (err_factory p) (crc_user p) (crc_backup p) (crit p) (nv p).
Definition set_temp (p : pmm) v := mk_pmm (sys_para p) v (err_user p) (err_backup p)
  (err_factory p) (crc_user p) (crc_backup p) (crit p) (nv p).
Definition set_user (p : pmm) e c := mk_pmm (sys_para p) (temp_para p) e (err_backup p)
  (err_factory p) c (crc_backup p) (crit p) (nv p).
Definition set_backup (p : pmm) e c := mk_pmm (sys_para p) (temp_para p) (err_user p) e
  (err_factory p) (crc_user p) c (crit p) (nv p).
Definition set_factory (p : pmm) e := mk_pmm (sys_para p) (temp_para p) (err_user p)
  (err_backup p) e (crc_user p) (crc_backup p) (crit p) (nv p).
Definition set_nv (p : pmm) v := mk_pmm (sys_para p) (temp_para p) (err_user p) (err_backup p)
  (err_factory p) (crc_user p) (crc_backup p) (crit p) v.
Definition ENTER_CRITICAL (p : pmm) := mk_pmm (sys_para p) (temp_para p) (err_user p)
  (err_backup p) (err_factory p) (crc_user p) (crc_backup p) (crit p + 1) (nv p).
Definition EXIT_CRITICAL (p : pmm) := mk_pmm (sys_para p) (temp_para p) (err_user p)
  (err_backup p) (err_factory p) (crc_user p) (crc_backup p) (crit p - 1) (nv p).

(** The complement of the CRC of group [i], cut to 16 bits. *)
Definition calc_crc (para : list Z) (i : nat) : option Z :=
  c ← crc16_RTU (drop (off_of i) para) (Z.of_nat (size_of i)); Some (u16 (Z.lnot c)).

Definition pmm_validate_para (para : list Z) : option Z :=
  if magic para =? PARAM_MAGIC then
    for_loop (fun i status =>
        c ← calc_crc para i;
        Some (if c =? crc_field i para then Z.lor status (Z.shiftl 1 (Z.of_nat i)) else status))
      0 PARA_TYPE_CNT (Z.lor 0 (Z.shiftl 1 31))
  else Some 0.

Definition para_recalculate_all_crc (para : list Z) : option (list Z) :=
  for_loop (fun i para => c ← calc_crc para i; Some (set_crc i c para))
    0 PARA_TYPE_CNT (set_magic para PARAM_MAGIC).

Definition groups_mask : Z :=
  fold_left (fun m i => Z.lor m (Z.shiftl 1 (Z.of_nat i))) (seq 0 PARA_TYPE_CNT) 0.
Definition corrent_mask : Z := Z.lor groups_mask (Z.shiftl 1 31).

(** Result: the module, [*p_needed_mask], [*para_state] and the return value. *)
Definition try_restore_from_storage (p : pmm) (loc : storage_device_t) (needed : Z)
  : option (pmm * Z * Z * Z) :=
  let '(n, r) := nv_read (nv p) (media loc) (address loc) PARA_SIZE in
  let p := set_nv p n in
  match r with
  | None => Some (set_temp p (replicate PARA_SIZE 0), needed, 0, -1)
  | Some temp =>
      let p := set_temp p temp in
      status ← pmm_validate_para temp;
      if negb (Z.testbit status 31) then Some (p, needed, status, -1)
      else
        r ← for_loop (fun i (r : list Z * Z) =>
               let '(sys, needed) := r in
               if Z.testbit needed (Z.of_nat i) && Z.testbit status (Z.of_nat i) then
                 let sys := put (off_of i) (group i temp) sys in
                 let sys := put (crc_off i) (get (crc_off i) 2 temp) sys in
                 Some (sys, Z.land needed (u32 (Z.lnot (Z.shiftl 1 (Z.of_nat i)))))
               else Some (sys, needed)) 0 PARA_TYPE_CNT (sys_para p, needed);
        let '(sys, needed) := r in
        let sys := if negb (magic sys =? PARAM_MAGIC) then set_magic sys PARAM_MAGIC else sys in
        Some (set_sys p sys, needed, status, 0)
  end.

(** The EEPROM loop over the groups to save; the result of the last write. *)
Fixpoint save_groups (l : list nat) (p : pmm) (loc : storage_device_t) (para_state result : Z)
  : pmm * Z :=
  match l with
  | [] => (p, result)
  | i :: l =>
      if Z.testbit para_state (Z.of_nat i) then
        let '(n, r) := nv_write (nv p) (media loc) (address loc + Z.of_nat (off_of i))
                         (group i (sys_para p)) in
        let p := set_nv p n in
        if negb (r =? 0) then (p, r)
        else
          let '(n, r) := nv_write (nv p) (media loc) (address loc + Z.of_nat (crc_off i))
                           (get (crc_off i) 2 (sys_para p)) in
          let p := set_nv p n in
          if negb (r =? 0) then (p, r) else save_groups l p loc para_state r
      else save_groups l p loc para_state result
  end.

(** [src] is [&sys_para] in every call. *)
Definition para_save_to_storage (p : pmm) (t : storage_type_t) (para_state : Z)
  : option (pmm * Z) :=
  match (match t with
         | STORAGE_TYPE_USER => Some user_loc
         | STORAGE_TYPE_BACKUP => Some backup_loc
         | STORAGE_TYPE_FACTORY => Some factory_loc
         | STORAGE_TYPE_DEFAULT => None
         end) with
  | None => Some (p, -1)
  | Some loc =>
      sys ← para_recalculate_all_crc (sys_para p);
      let p := set_sys p sys in
      if Z.land para_state groups_mask =? groups_mask then
        let '(n, r) := nv_write (nv p) (media loc) (address loc) sys in Some (set_nv p n, r)
      else
        match media loc with
        | STORAGE_MEDIA_INT_FLASH =>
            let '(n, r) := nv_write (nv p) (media loc) (address loc) sys in Some (set_nv p n, r)
        | STORAGE_MEDIA_EXT_EEPROM =>
            Some (save_groups (seq 0 PARA_TYPE_CNT) p loc para_state 0)
        end
  end.

Definition pmm_save_group (p : pmm) (t : nat) : option pmm :=
  let p := ENTER_CRITICAL p in
  c ← calc_crc (sys_para p) t;
  let p := set_sys p (set_magic (set_crc t c (sys_para p)) PARAM_MAGIC) in
  r ← para_save_to_storage p STORAGE_TYPE_USER (Z.shiftl 1 (Z.of_nat t));
  r ← para_save_to_storage (fst r) STORAGE_TYPE_BACKUP (Z.shiftl 1 (Z.of_nat t));
  Some (EXIT_CRITICAL (fst r)).

Definition pmm_restore_to_default (p : pmm) : option pmm :=
  let p := set_sys (ENTER_CRITICAL p) SYS_DEF_PARA in
  sys ← para_recalculate_all_crc (sys_para p);
  r ← para_save_to_storage (set_sys p sys) STORAGE_TYPE_USER 0x7fffffff;
  r ← para_save_to_storage (fst r) STORAGE_TYPE_BACKUP 0x7fffffff;
  Some (EXIT_CRITICAL (fst r)).

(** The failure returns inside the critical section. *)
Definition pmm_restore_to_factory (p : pmm) : option pmm :=
  let p := ENTER_CRITICAL p in
  r ← try_restore_from_storage p factory_loc groups_mask;
  let '(p, _, status, _) := r in
  if negb (status =? corrent_mask) then Some p
  else
    r ← para_save_to_storage p STORAGE_TYPE_USER 0x7fffffff;
    r ← para_save_to_storage (fst r) STORAGE_TYPE_BACKUP 0x7fffffff;
    Some (EXIT_CRITICAL (fst r)).

Definition pmm_save_to_factory (p : pmm) : option pmm :=
  r ← para_save_to_storage (ENTER_CRITICAL p) STORAGE_TYPE_FACTORY 0x7fffffff;
  Some (EXIT_CRITICAL (fst r)).
Definition pmm_save_to_backup (p : pmm) : option pmm :=
  r ← para_save_to_storage (ENTER_CRITICAL p) STORAGE_TYPE_BACKUP 0x7fffffff;
  Some (EXIT_CRITICAL (fst r)).

Definition repair_invalid_storage (p : pmm) (correct : Z) : option pmm :=
  p ← (if negb (err_user p =? correct) && negb (err_user p =? 0) then
         fst <$> para_save_to_storage p STORAGE_TYPE_USER (u32 (Z.lnot (err_user p)))
       else Some p);
  if negb (err_backup p =? correct) && negb (err_backup p =? 0) then
    fst <$> para_save_to_storage p STORAGE_TYPE_BACKUP (u32 (Z.lnot (err_backup p)))
  else Some p.

(** [memcpy(crc_user, temp_para.crc, sizeof(crc_user))] *)
Definition crc_words (para : list Z) : list Z := get CRC_OFF (2 * PARA_TYPE_CNT) para.
Definition crc_differ (p : pmm) : bool :=
  existsb (fun i => negb (le_decode (get (2 * i) 2 (crc_user p))
                          =? le_decode (get (2 * i) 2 (crc_backup p)))) (seq 0 PARA_TYPE_CNT).

(** [para_init], from the repair of the storage on. *)
Definition para_init_commit (p : pmm) : option pmm :=
  p ← (if err_user p =? corrent_mask then
         if crc_differ p then pmm_save_to_backup p else Some p
       else repair_invalid_storage p corrent_mask);
  if DEV_MAX_ADDR <? dev_addr (sys_para p) then
    pmm_save_group (set_sys p (put 4 [dev_addr SYS_DEF_PARA] (sys_para p))) PARA_DEV
  else Some p.

Definition para_init (p : pmm) : option pmm :=
  let p := set_sys p SYS_DEF_PARA in
  r ← try_restore_from_storage p user_loc groups_mask;
  let '(p, needed, status, _) := r in
  let p := set_user p (Z.lor status (Z.shiftl 1 31)) (crc_words (temp_para p)) in
  r ← try_restore_from_storage p backup_loc needed;
  let '(p, needed, status, _) := r in
  let p := set_backup p (Z.lor status (Z.shiftl 1 31)) (crc_words (temp_para p)) in
  r ← try_restore_from_storage p factory_loc needed;
  let '(p, needed, status, _) := r in
  let p := set_factory p (Z.lor status (Z.shiftl 1 31)) in
  para_init_commit p.
End Para.
Arguments pmm : clear implicits.
Arguments mk_pmm {N}.

(** * Layout *)

Lemma layout i : (i < PARA_TYPE_CNT)%nat ->
  (4 <= off_of i /\ off_of i + size_of i <= CRC_OFF /\ 0 < size_of i)%nat.
Proof.
  intros Hi.
  assert (H : forallb (fun i => (4 <=? off_of i) && (off_of i + size_of i <=? CRC_OFF) && (0 <? size_of i))%nat
    (seq 0 PARA_TYPE_CNT) = true) by (vm_compute; reflexivity).
  rewrite forallb_forall in H. specialize (H i). rewrite !andb_true_iff, !Nat.leb_le, Nat.ltb_lt in H.
  rewrite in_seq in H. lia.
Qed.
Lemma layout_disjoint i j : (i < PARA_TYPE_CNT)%nat -> (j < PARA_TYPE_CNT)%nat -> i <> j ->
  (off_of i + size_of i <= off_of j \/ off_of j + size_of j <= off_of i)%nat.
Proof.
  intros Hi Hj Hne.
  assert (H : forallb (fun i => forallb (fun j => (i =? j) || (off_of i + size_of i <=? off_of j)
      || (off_of j + size_of j <=? off_of i))%nat (seq 0 PARA_TYPE_CNT)) (seq 0 PARA_TYPE_CNT) = true)
    by (vm_compute; reflexivity).
  rewrite forallb_forall in H. specialize (H i). rewrite forallb_forall in H.
  specialize (fun X => H X j). rewrite !in_seq, !orb_true_iff, Nat.eqb_eq, !Nat.leb_le in H. lia.
Qed.

(** A complete image of bytes. *)
Record wf (para : list Z) : Prop := { wf_len : length para = PARA_SIZE; wf_bytes : bytes para }.

Ltac para_lia :=
  repeat match goal with
  | H : wf ?p |- _ =>
      lazymatch goal with
      | _ : length p = PARA_SIZE |- _ => fail
      | _ => pose proof (wf_len p H)
      end
  | H : (?i < PARA_TYPE_CNT)%nat |- _ =>
      lazymatch goal with
      | _ : (4 <= off_of i)%nat /\ _ |- _ => fail
      | _ => pose proof (layout i H)
      end
  | H1 : (?i < PARA_TYPE_CNT)%nat, H2 : (?j < PARA_TYPE_CNT)%nat, Hn : ?i <> ?j |- _ =>
      lazymatch goal with
      | _ : (off_of i + size_of i <= off_of j)%nat \/ _ |- _ => fail
      | _ => pose proof (layout_disjoint i j H1 H2 Hn)
      end
  end;
  rewrite ?le_encode_length in *;
  unfold crc_off in *; unfold PARA_SIZE, CRC_OFF, PARA_TYPE_CNT in *; lia.

Definition gcrc (i : nat) (para : list Z) : Z := u16 (Z.lnot (crc16_rtu_ref (group i para))).
Definition valid (i : nat) (para : list Z) : bool := gcrc i para =? crc_field i para.
Definition fully_valid (para : list Z) : Prop :=
  magic para = PARAM_MAGIC /\ forall i, (i < PARA_TYPE_CNT)%nat -> valid i para = true.

Lemma wf_put off d para : wf para -> bytes d -> (off + length d <= PARA_SIZE)%nat -> wf (put off d para).
Proof. intros [Hl Hb] Hd Ho. split; [rewrite put_length; lia | by apply put_Forall]. Qed.
Lemma wf_set_magic para v : wf para -> wf (set_magic para v).
Proof. intros H. apply wf_put; [done|apply le_encode_bytes|para_lia]. Qed.
Lemma wf_set_crc i v para : wf para -> (i < PARA_TYPE_CNT)%nat -> wf (set_crc i v para).
Proof. intros H Hi. apply wf_put; [done|apply le_encode_bytes|para_lia]. Qed.

Section Accessors.
Context (para : list Z) (H : wf para).

Lemma magic_set v : 0 <= v < 2 ^ 32 -> magic (set_magic para v) = v.
Proof.
  intros Hv. unfold magic, set_magic. rewrite get_put_eq; [|para_lia|done].
  by apply le_decode_encode.
Qed.
Lemma magic_set_crc i v : (i < PARA_TYPE_CNT)%nat -> magic (set_crc i v para) = magic para.
Proof. intros Hi. unfold magic, set_crc. rewrite get_put_ne; [done|para_lia|para_lia]. Qed.
Lemma crc_set_magic i v : (i < PARA_TYPE_CNT)%nat -> crc_field i (set_magic para v) = crc_field i para.
Proof. intros Hi. unfold crc_field, set_magic. rewrite get_put_ne; [done|para_lia|para_lia]. Qed.
Lemma crc_set i v : (i < PARA_TYPE_CNT)%nat -> 0 <= v < 2 ^ 16 -> crc_field i (set_crc i v para) = v.
Proof.
  intros Hi Hv. unfold crc_field, set_crc. rewrite get_put_eq; [|para_lia|done].
  by apply le_decode_encode.
Qed.
Lemma crc_set_ne i j v : (i < PARA_TYPE_CNT)%nat -> (j < PARA_TYPE_CNT)%nat -> i <> j ->
  crc_field j (set_crc i v para) = crc_field j para.
Proof. intros Hi Hj Hn. unfold crc_field, set_crc. rewrite get_put_ne; [done|para_lia|para_lia]. Qed.
Lemma group_set_magic i v : (i < PARA_TYPE_CNT)%nat -> group i (set_magic para v) = group i para.
Proof. intros Hi. unfold group, set_magic. rewrite get_put_ne; [done|para_lia|para_lia]. Qed.
Lemma group_set_crc i j v : (i < PARA_TYPE_CNT)%nat -> (j < PARA_TYPE_CNT)%nat ->
  group j (set_crc i v para) = group j para.
Proof. intros Hi Hj. unfold group, set_crc. rewrite get_put_ne; [done|para_lia|para_lia]. Qed.
Lemma group_length i : (i < PARA_TYPE_CNT)%nat -> length (group i para) = size_of i.
Proof. intros Hi. apply get_length. para_lia. Qed.
Lemma group_bytes i : bytes (group i para).
Proof. apply get_Forall, H. Qed.

Lemma calc_crc_wf i : (i < PARA_TYPE_CNT)%nat -> calc_crc para i = Some (gcrc i para).
Proof.
  intros Hi. unfold calc_crc, gcrc.
  rewrite <- (take_drop (size_of i) (drop (off_of i) para)).
  change (take (size_of i) (drop (off_of i) para)) with (group i para).
  rewrite <- (group_length i Hi) at 2. destruct (crc16_RTU_ref (group i para)
    (drop (size_of i) (drop (off_of i) para))) as [-> _]; [apply group_bytes|]. done.
Qed.
End Accessors.

Lemma gcrc_group i a b : group i a = group i b -> gcrc i a = gcrc i b.
Proof. intros E. unfold gcrc. by rewrite E. Qed.
Lemma gcrc_range i a : 0 <= gcrc i a < 2 ^ 16.
Proof. apply u16_range. Qed.

(** ** Masks *)

Lemma testbit_shiftl_1 k n : 0 <= k -> 0 <= n -> Z.testbit (Z.shiftl 1 k) n = (n =? k).
Proof.
  intros. rewrite Z.shiftl_1_l. destruct (Z.eqb_spec n k) as [->|].
  - by apply Z.pow2_bits_true.
  - apply Z.pow2_bits_false. lia.
Qed.
Lemma corrent_mask_bits n : 0 <= n -> Z.testbit corrent_mask n = (n =? 31) || (n <? 14).
Proof.
  intros Hn. destruct (decide (n < 32)).
  - apply Bool.eqb_true_iff. refine (all_below (fun n => Bool.eqb (Z.testbit corrent_mask n)
      ((n =? 31) || (n <? 14))) 32 _ n _); [vm_compute; reflexivity | lia].
  - rewrite Z.bits_above_log2; [|done|change (Z.log2 corrent_mask) with 31; lia].
    symmetry. apply orb_false_iff. lia.
Qed.
Lemma groups_mask_bits n : 0 <= n -> Z.testbit groups_mask n = (n <? 14).
Proof.
  intros Hn. change groups_mask with (Z.ones 14). rewrite Z.testbit_ones by lia. lia.
Qed.

(** The status word of an image, bit by bit. *)
Definition status_of (para : list Z) (st : Z) : Prop :=
  0 <= st /\ forall n, 0 <= n -> Z.testbit st n
    = (magic para =? PARAM_MAGIC) && ((n =? 31) || (n <? 14) && valid (Z.to_nat n) para).

Lemma pmm_validate_spec para : wf para ->
  exists st, pmm_validate_para para = Some st /\ status_of para st.
Proof.
  intros H. unfold pmm_validate_para, status_of. destruct (magic para =? PARAM_MAGIC).
  2:{ exists 0. split; [done|]. split; [done|]. intros. apply Z.bits_0. }
  destruct (for_loop_ind (fun j st => 0 <= st /\ forall n, 0 <= n -> Z.testbit st n
      = (n =? 31) || (n <? Z.of_nat j) && valid (Z.to_nat n) para)
    (fun i status => c ← calc_crc para i;
       Some (if c =? crc_field i para then Z.lor status (Z.shiftl 1 (Z.of_nat i)) else status))
    PARA_TYPE_CNT 0 (Z.lor 0 (Z.shiftl 1 31))) as (st & E & H0 & Hst).
  - split; [done|]. intros n Hn. rewrite Z.lor_0_l, testbit_shiftl_1 by lia.
    replace (n <? Z.of_nat 0) with false by lia. by rewrite orb_false_r.
  - intros j st Hj [H0 Hst]. rewrite calc_crc_wf by (done || lia). cbn [mbind option_bind].
    eexists. split; [done|]. fold (valid j para). split.
    { destruct (valid j para); [|done]. apply Z.lor_nonneg. split; [done|]. apply Z.shiftl_nonneg. lia. }
    intros n Hn. destruct (valid j para) eqn:Hv.
    + rewrite Z.lor_spec, Hst, testbit_shiftl_1 by lia. destruct (Z.eqb_spec n (Z.of_nat j)) as [->|].
      * rewrite Nat2Z.id, Hv. replace (Z.of_nat j <? Z.of_nat (S j)) with true by lia.
        by rewrite !orb_true_r.
      * rewrite orb_false_r. do 2 f_equal. lia.
    + rewrite Hst by lia. destruct (Z.eqb_spec n (Z.of_nat j)) as [->|].
      * by rewrite Nat2Z.id, Hv, !andb_false_r.
      * do 2 f_equal. lia.
  - exists st. split; [exact E|]. split; [done|]. intros n Hn. rewrite Hst by done. done.
Qed.

Lemma status_full para st : status_of para st ->
  (Z.lor st (Z.shiftl 1 31) = corrent_mask <-> forall i, (i < PARA_TYPE_CNT)%nat ->
     (magic para =? PARAM_MAGIC) && valid i para = true).
Proof.
  intros [H0 Hst]. split.
  - intros E i Hi. assert (Hb : Z.testbit (Z.lor st (Z.shiftl 1 31)) (Z.of_nat i) = true).
    { rewrite E, corrent_mask_bits by lia. unfold PARA_TYPE_CNT in Hi. lia. }
    unfold PARA_TYPE_CNT in Hi.
    rewrite Z.lor_spec, testbit_shiftl_1, Hst, Nat2Z.id in Hb by lia.
    replace (Z.of_nat i =? 31) with false in Hb by lia.
    replace (Z.of_nat i <? 14) with true in Hb by lia. by rewrite orb_false_r in Hb.
  - intros Hv. apply Z.bits_inj'. intros n Hn.
    rewrite Z.lor_spec, testbit_shiftl_1, Hst, corrent_mask_bits by lia.
    destruct (Z.eqb_spec n 31); [by rewrite orb_true_r|]. cbn [orb]. rewrite orb_false_r.
    destruct (Z.ltb_spec n 14); [|by rewrite andb_false_r]. cbn [andb].
    apply Hv. unfold PARA_TYPE_CNT. lia.
Qed.
Lemma fully_valid_iff para :
  fully_valid para <-> forall i, (i < PARA_TYPE_CNT)%nat ->
     (magic para =? PARAM_MAGIC) && valid i para = true.
Proof.
  unfold fully_valid. split.
  - intros [-> Hv] i Hi. by rewrite Hv.
  - intros H. split.
    + specialize (H O). rewrite andb_true_iff, Z.eqb_eq in H. apply H. unfold PARA_TYPE_CNT. lia.
    + intros i Hi. specialize (H i Hi). by apply andb_true_iff in H as [_ ->].
Qed.

(** ** Recalculated checksums *)

Definition same_groups (a b : list Z) : Prop :=
  forall i, (i < PARA_TYPE_CNT)%nat -> group i a = group i b.

Lemma recalculate_spec para : wf para ->
  exists para', para_recalculate_all_crc para = Some para' /\ wf para' /\ fully_valid para' /\
    same_groups para' para.
Proof.
  intros H. unfold para_recalculate_all_crc.
  destruct (for_loop_ind (fun j s => wf s /\ magic s = PARAM_MAGIC /\ same_groups s para /\
      forall i, (i < j)%nat -> crc_field i s = gcrc i s)
    (fun i para => c ← calc_crc para i; Some (set_crc i c para)) PARA_TYPE_CNT 0
    (set_magic para PARAM_MAGIC)) as (s & E & Hs & Hm & Hg & Hc).
  - split; [by apply wf_set_magic|]. split; [by apply magic_set|].
    split; [|lia]. intros i Hi. by apply group_set_magic.
  - intros j s Hj (Hs & Hm & Hg & Hc). assert (Hj' : (j < PARA_TYPE_CNT)%nat) by lia.
    rewrite calc_crc_wf by done. eexists. split; [done|].
    split; [by apply wf_set_crc|]. split; [by rewrite magic_set_crc|]. split.
    + intros i Hi. rewrite group_set_crc by done. by apply Hg.
    + intros i Hi. rewrite (gcrc_group i (set_crc j _ s) s) by (apply group_set_crc; done || lia).
      destruct (decide (i = j)) as [->|].
      * apply crc_set; [done|done|apply gcrc_range].
      * rewrite crc_set_ne by (done || lia). apply Hc. lia.
  - exists s. split; [exact E|]. split; [done|]. split; [|done]. split; [done|].
    intros i Hi. unfold valid. by rewrite Hc, Z.eqb_refl.
Qed.

(** ** What a place holds *)
Section Store.
Context {N : Type} `{!NvStore N}.
Implicit Types (n : N) (p : pmm N).

Definition image n (loc : storage_device_t) : list Z :=
  map (fun i => nv_mem n (media loc) (address loc + Z.of_nat i)) (seq 0 PARA_SIZE).
Definition same_mem n n' : Prop := forall m a, nv_mem n' m a = nv_mem n m a.

Lemma image_lookup n loc i : (i < PARA_SIZE)%nat ->
  image n loc !! i = Some (nv_mem n (media loc) (address loc + Z.of_nat i)).
Proof. intros. unfold image. by rewrite list_lookup_fmap, lookup_seq_lt. Qed.
Lemma image_length n loc : length (image n loc) = PARA_SIZE.
Proof. unfold image. by rewrite length_map, length_seq. Qed.
Lemma image_wf n loc : nv_good n -> wf (image n loc).
Proof.
  intros H. split; [apply image_length|]. apply Forall_forall. intros x Hx.
  apply list_elem_of_fmap in Hx as (i & -> & _). by apply nv_byte.
Qed.
Lemma image_ext n n' loc loc' :
  (forall i, (i < PARA_SIZE)%nat -> nv_mem n' (media loc') (address loc' + Z.of_nat i)
     = nv_mem n (media loc) (address loc + Z.of_nat i)) ->
  image n' loc' = image n loc.
Proof.
  intros H. apply list_eq. intros i. destruct (decide (i < PARA_SIZE)%nat).
  - by rewrite !image_lookup, H.
  - rewrite !lookup_ge_None_2 by (rewrite image_length; lia). done.
Qed.
Lemma image_same n n' loc : same_mem n n' -> image n' loc = image n loc.
Proof. intros H. apply image_ext. intros. apply H. Qed.
Lemma image_is n loc (l : list Z) : length l = PARA_SIZE ->
  (forall i, (i < PARA_SIZE)%nat -> nv_mem n (media loc) (address loc + Z.of_nat i) = nth i l 0) ->
  image n loc = l.
Proof.
  intros Hl H. apply list_eq. intros i. destruct (decide (i < PARA_SIZE)%nat).
  - rewrite image_lookup, H by done. symmetry. destruct (lookup_lt_is_Some_2 l i) as [x Hx]; [lia|].
    rewrite Hx. f_equal. symmetry. by apply nth_lookup_Some.
  - rewrite !lookup_ge_None_2 by (rewrite ?image_length; lia). done.
Qed.

(** The three places the module uses. *)
Definition is_place (loc : storage_device_t) : Prop :=
  loc = user_loc \/ loc = backup_loc \/ loc = factory_loc.
Lemma place_ok loc : is_place loc -> para_place (media loc) (address loc) PARA_SIZE.
Proof.
  intros [-> | [-> | ->]]; cbn [para_place media address user_loc backup_loc factory_loc];
    unfold PARA_SIZE, USER_PARA_ADDR, FACTORY_PARA_ADDR, BACKUP_PARA_ADDR; lia.
Qed.

(** A whole image written to a place: only that place changes. *)
Lemma write_image n loc l : nv_good n -> is_place loc -> wf l ->
  exists n', nv_write n (media loc) (address loc) l = (n', 0) /\ nv_good n' /\ image n' loc = l /\
    forall loc', is_place loc' -> loc' <> loc -> image n' loc' = image n loc'.
Proof.
  intros Hn Hloc Hl.
  destruct (nv_write_spec n (media loc) (address loc) l) as (n' & E & Hn' & Hin & Hout);
    [done|rewrite (wf_len l Hl); by apply place_ok|apply Hl|].
  exists n'. split; [done|]. split; [done|]. rewrite (wf_len l Hl) in *. split; [by apply image_is; [apply Hl|]|].
  intros loc' Hloc' Hne. apply image_ext. intros i Hi. apply Hout.
  destruct Hloc as [-> | [-> | ->]], Hloc' as [-> | [-> | ->]]; try done; cbn [media address user_loc backup_loc factory_loc] in *;
    unfold USER_PARA_ADDR, FACTORY_PARA_ADDR, BACKUP_PARA_ADDR, PARA_SIZE in *; first [by left | lia | idtac];
    right; case_decide; try done; lia.
Qed.

(** A field written to the EEPROM copy. *)
Lemma write_field n off (d : list Z) : nv_good n -> bytes d -> (0 < length d)%nat ->
  (off + length d <= PARA_SIZE)%nat ->
  exists n', nv_write n (media backup_loc) (address backup_loc + Z.of_nat off) d = (n', 0) /\
    nv_good n' /\ image n' backup_loc = put off d (image n backup_loc) /\
    forall loc', is_place loc' -> loc' <> backup_loc -> image n' loc' = image n loc'.
Proof.
  intros Hn Hd Hpos Hlen. cbn [media address backup_loc]. unfold BACKUP_PARA_ADDR.
  destruct (nv_write_spec n STORAGE_MEDIA_EXT_EEPROM (0 + Z.of_nat off) d) as (n' & E & Hn' & Hin & Hout);
    [done|cbn; unfold PARA_SIZE in *; lia|done|].
  exists n'. split; [done|]. split; [done|]. split.
  - pose proof (image_length n backup_loc) as Hil. apply image_is; [rewrite put_length; lia|].
    intros i Hi. rewrite nth_lookup. cbn [media address backup_loc]. unfold BACKUP_PARA_ADDR.
    destruct (decide (off <= i < off + length d)%nat).
    + rewrite put_lookup_in by lia. rewrite <- nth_lookup, <- Hin by lia. f_equal. lia.
    + rewrite put_lookup_out, image_lookup by lia.
      cbn [default media address backup_loc]. unfold BACKUP_PARA_ADDR. apply Hout.
      rewrite decide_False by done. lia.
  - intros loc' Hloc' Hne. apply image_ext. intros i Hi. apply Hout. left.
    by destruct Hloc' as [-> | [-> | ->]].
Qed.
End Store.

(** ** One level of the recovery *)

Lemma status_zero para st : status_of para st -> magic para <> PARAM_MAGIC -> Z.testbit st 31 = false.
Proof. intros [_ H] Hm. rewrite H by lia. by rewrite (proj2 (Z.eqb_neq _ _) Hm). Qed.
Lemma status_group para st i : status_of para st -> (i < PARA_TYPE_CNT)%nat ->
  Z.testbit st (Z.of_nat i) = (magic para =? PARAM_MAGIC) && valid i para.
Proof.
  intros [_ H] Hi. rewrite H, Nat2Z.id by lia. unfold PARA_TYPE_CNT in Hi.
  replace (Z.of_nat i =? 31) with false by lia. by replace (Z.of_nat i <? 14) with true by lia.
Qed.

(** The image has group [i] in order. *)
Definition usable (i : nat) (para : list Z) : bool := (magic para =? PARAM_MAGIC) && valid i para.

Lemma clear_bit needed i n : 0 <= i < 32 -> 0 <= n < 32 ->
  Z.testbit (Z.land needed (u32 (Z.lnot (Z.shiftl 1 i)))) n = Z.testbit needed n && negb (n =? i).
Proof.
  intros Hi Hn. unfold u32. rewrite Z.land_spec, Z.mod_pow2_bits_low, Z.lnot_spec by lia.
  by rewrite testbit_shiftl_1 by lia.
Qed.

(** Copying one group with its checksum. *)
Lemma copy_group i temp sys : wf temp -> wf sys -> (i < PARA_TYPE_CNT)%nat ->
  let sys' := put (crc_off i) (get (crc_off i) 2 temp) (put (off_of i) (group i temp) sys) in
  wf sys' /\ group i sys' = group i temp /\ magic sys' = magic sys /\
  (forall j, (j < PARA_TYPE_CNT)%nat -> j <> i -> group j sys' = group j sys).
Proof.
  intros Ht Hs Hi. cbn zeta. pose proof (group_length temp Ht i Hi) as Hgl.
  assert (Hcl : length (get (crc_off i) 2 temp) = 2%nat) by (apply get_length; para_lia).
  assert (Hw1 : wf (put (off_of i) (group i temp) sys)).
  { apply wf_put; [done|by apply group_bytes|]. rewrite Hgl. para_lia. }
  split; [|split; [|split]].
  - apply wf_put; [done|apply get_Forall, Ht|]. rewrite Hcl. para_lia.
  - unfold group at 1. rewrite get_put_ne by (rewrite Hcl; para_lia). apply get_put_eq; [|done].
    rewrite Hgl. para_lia.
  - unfold magic. rewrite !get_put_ne; [done|rewrite Hgl; para_lia|rewrite Hgl; para_lia|rewrite Hcl; para_lia|rewrite Hcl; para_lia].
  - intros j Hj Hne. unfold group at 1. rewrite !get_put_ne; [done|rewrite Hgl; para_lia|rewrite Hgl; para_lia|rewrite Hcl; para_lia|rewrite Hcl; para_lia].
Qed.

Section Restore.
Context {N : Type} `{!NvStore N}.
Implicit Types (p : pmm N).

Lemma try_restore_spec p loc needed : nv_good (nv p) -> is_place loc -> wf (sys_para p) ->
  let img := image (nv p) loc in
  exists n' sys' needed' st ret,
    try_restore_from_storage p loc needed
      = Some (set_sys (set_temp (set_nv p n') img) sys', needed', st, ret) /\
    nv_good n' /\ same_mem (nv p) n' /\ wf sys' /\ status_of img st /\
    forall i, (i < PARA_TYPE_CNT)%nat ->
      group i sys' = (if Z.testbit needed (Z.of_nat i) && usable i img
                      then group i img else group i (sys_para p)) /\
      Z.testbit needed' (Z.of_nat i) = Z.testbit needed (Z.of_nat i) && negb (usable i img).
Proof.
  intros Hn Hloc Hsys. cbn zeta. set (img := image (nv p) loc). unfold try_restore_from_storage.
  destruct (nv_read_spec (nv p) (media loc) (address loc) PARA_SIZE Hn (place_ok loc Hloc))
    as (n' & -> & Hn' & Hmem). cbn zeta. fold (image (nv p) loc). fold img.
  assert (Himg : wf img) by by apply image_wf.
  destruct (pmm_validate_spec img Himg) as (st & -> & Hst). cbn [mbind option_bind].
  destruct (Z.testbit st 31) eqn:H31; cbn [negb].
  2:{ exists n', (sys_para p), needed, st, (-1). split; [by destruct p|]. repeat (split; [done|]).
      intros i Hi. replace (usable i img) with false; [by rewrite andb_false_r, andb_true_r|].
      destruct Hst as [_ Hst]. rewrite Hst in H31 by lia. unfold usable.
      rewrite Z.eqb_refl, orb_true_l, andb_true_r in H31. by rewrite H31. }
  cbn [sys_para set_temp set_nv]. set (body := fun (i : nat) (r : list Z * Z) => _).
  destruct (for_loop_ind (fun j (r : list Z * Z) => wf (fst r) /\
    forall i, (i < PARA_TYPE_CNT)%nat ->
      group i (fst r) = (if (i <? j)%nat && (Z.testbit needed (Z.of_nat i) && usable i img)
                         then group i img else group i (sys_para p)) /\
      Z.testbit (snd r) (Z.of_nat i)
        = Z.testbit needed (Z.of_nat i) && negb ((i <? j)%nat && usable i img))
    body PARA_TYPE_CNT 0 (sys_para p, needed)) as ([sys' needed'] & -> & Hw & Hinv).
  - split; [done|]. intros i Hi. cbn [fst snd]. by rewrite andb_true_r.
  - intros j [sys nd] Hj [Hw Hinv]. cbn [fst snd] in *.
    assert (Hj' : (j < PARA_TYPE_CNT)%nat) by lia. destruct (Hinv j Hj') as [_ Hbit].
    rewrite Nat.ltb_irrefl, andb_true_r in Hbit. unfold body. rewrite Hbit, (status_group img st j Hst Hj').
    fold (usable j img). destruct (Z.testbit needed (Z.of_nat j) && usable j img) eqn:Hc.
    + destruct (copy_group j img sys Himg Hw Hj') as (Hw' & Hg & _ & Hne).
      eexists. split; [done|]. cbn [fst snd]. split; [done|]. intros i Hi.
      rewrite clear_bit by (unfold PARA_TYPE_CNT in *; lia).
      destruct (Hinv i Hi) as [Hgi Hbi]. destruct (decide (i = j)) as [->|Hij].
      * rewrite (proj2 (Nat.ltb_lt j (S j))) by lia. apply andb_true_iff in Hc as [Hc1 Hc2].
        rewrite Hc1, Hc2, Z.eqb_refl, andb_false_r. by split.
      * rewrite Hne by done. rewrite Hgi, Hbi.
        replace (i <? S j)%nat with (i <? j)%nat by lia.
        replace (Z.of_nat i =? Z.of_nat j) with false by lia. by rewrite andb_true_r.
    + eexists. split; [done|]. split; [done|]. intros i Hi. cbn [fst snd].
      destruct (Hinv i Hi) as [Hgi Hbi]. rewrite Hgi, Hbi. destruct (decide (i = j)) as [->|Hij].
      * rewrite Nat.ltb_irrefl, (proj2 (Nat.ltb_lt j (S j))) by lia. cbn [andb]. rewrite Hc.
        split; [done|]. by destruct (Z.testbit needed (Z.of_nat j)), (usable j img).
      * by replace (i <? S j)%nat with (i <? j)%nat by lia.
  - cbn [mbind option_bind fst snd Nat.add] in *. 
    eexists n', _, needed', st, 0. split; [reflexivity|]. split; [done|]. split; [done|].
    split; [destruct (magic sys' =? PARAM_MAGIC); [done|by apply wf_set_magic]|]. split; [done|].
    intros i Hi. destruct (Hinv i Hi) as [Hg Hb].
    rewrite (proj2 (Nat.ltb_lt i _) Hi) in Hg, Hb. cbn [andb] in Hg, Hb. rewrite Hb, <- Hg.
    split; [|done]. destruct (magic sys' =? PARAM_MAGIC); [done|by apply group_set_magic].
Qed.
End Restore.

(** ** Saving *)
Section Save.
Context {N : Type} `{!NvStore N}.
Implicit Types (p : pmm N).

Definition loc_of (t : storage_type_t) : storage_device_t :=
  match t with
  | STORAGE_TYPE_BACKUP => backup_loc
  | STORAGE_TYPE_FACTORY => factory_loc
  | _ => user_loc
  end.
Definition writable (t : storage_type_t) : Prop := t <> STORAGE_TYPE_DEFAULT.

(** Saves that write the whole image. *)
Lemma save_whole p t st : nv_good (nv p) -> wf (sys_para p) -> writable t ->
  (t <> STORAGE_TYPE_BACKUP \/ Z.land st groups_mask = groups_mask) ->
  exists n' sys', para_save_to_storage p t st = Some (set_nv (set_sys p sys') n', 0) /\
    nv_good n' /\ wf sys' /\ fully_valid sys' /\ same_groups sys' (sys_para p) /\
    image n' (loc_of t) = sys' /\
    forall loc', is_place loc' -> loc' <> loc_of t -> image n' loc' = image (nv p) loc'.
Proof.
  intros Hn Hs Ht Hst. destruct (recalculate_spec (sys_para p) Hs) as (sys' & E & Hs' & Hv & Hg).
  assert (Hloc : is_place (loc_of t)) by (unfold is_place; destruct t; cbn; tauto).
  destruct (write_image (nv p) (loc_of t) sys' Hn Hloc Hs') as (n' & Ew & Hn' & Him & Hoth).
  exists n', sys'. split; [|repeat (split; [done|]); done].
  unfold para_save_to_storage. destruct t; try done; rewrite E; cbn [mbind option_bind set_sys nv sys_para];
    cbn [loc_of media address user_loc backup_loc factory_loc] in *; rewrite Ew.
  - by destruct (_ =? _).
  - destruct Hst as [? | ->]; [done|]. by rewrite Z.eqb_refl.
  - by destruct (_ =? _).
Qed.

(** The EEPROM image after the groups of [l] selected by [st] were written. *)
Definition patched (l : list nat) (st : Z) (sys b b' : list Z) : Prop :=
  wf b' /\ magic b' = magic b /\
  forall i, (i < PARA_TYPE_CNT)%nat ->
    if Z.testbit st (Z.of_nat i) && bool_decide (i ∈ l)
    then group i b' = group i sys /\ crc_field i b' = crc_field i sys
    else group i b' = group i b /\ crc_field i b' = crc_field i b.

Lemma put_group_crc i sys b : wf sys -> wf b -> (i < PARA_TYPE_CNT)%nat ->
  let b' := put (crc_off i) (get (crc_off i) 2 sys) (put (off_of i) (group i sys) b) in
  wf b' /\ magic b' = magic b /\ group i b' = group i sys /\ crc_field i b' = crc_field i sys /\
  forall j, (j < PARA_TYPE_CNT)%nat -> j <> i -> group j b' = group j b /\ crc_field j b' = crc_field j b.
Proof.
  intros Hs Hb Hi. cbn zeta. destruct (copy_group i sys b Hs Hb Hi) as (H1 & H2 & H3 & H4).
  pose proof (group_length sys Hs i Hi) as Hgl.
  assert (Hcl : length (get (crc_off i) 2 sys) = 2%nat) by (apply get_length; para_lia).
  assert (Hw : wf (put (off_of i) (group i sys) b)).
  { apply wf_put; [done|by apply group_bytes|]. rewrite Hgl. para_lia. }
  split; [done|]. split; [done|]. split; [done|]. split.
  - unfold crc_field. rewrite get_put_eq; [done| |done]. rewrite Hcl. para_lia.
  - intros j Hj Hne. split; [by apply H4|]. unfold crc_field.
    rewrite !get_put_ne; [done|rewrite Hgl; para_lia|rewrite Hgl; para_lia|rewrite Hcl; para_lia|rewrite Hcl; para_lia].
Qed.

Lemma save_groups_spec l : forall p st result, nv_good (nv p) -> wf (sys_para p) ->
  Forall (fun i => (i < PARA_TYPE_CNT)%nat) l -> NoDup l -> result = 0 ->
  exists n', save_groups l p backup_loc st result = (set_nv p n', 0) /\ nv_good n' /\
    patched l st (sys_para p) (image (nv p) backup_loc) (image n' backup_loc) /\
    forall loc', is_place loc' -> loc' <> backup_loc -> image n' loc' = image (nv p) loc'.
Proof.
  induction l as [|i l IH]; intros p st result Hn Hs Hl Hnd ->.
  - exists (nv p). split; [by destruct p|]. split; [done|]. split; [|done].
    split; [by apply image_wf|]. split; [done|]. intros i Hi. rewrite bool_decide_eq_false_2 by set_solver.
    by rewrite andb_false_r.
  - inversion_clear Hl as [|? ? Hi Hl']. apply NoDup_cons in Hnd as [Hnin Hnd]. cbn [save_groups].
    destruct (Z.testbit st (Z.of_nat i)) eqn:Hbit.
    2:{ destruct (IH p st 0 Hn Hs Hl' Hnd eq_refl) as (n' & E & Hn' & Hp & Ho).
        exists n'. split; [done|]. split; [done|]. split; [|done]. destruct Hp as (Hw & Hm & Hg).
        split; [done|]. split; [done|]. intros j Hj. specialize (Hg j Hj).
        destruct (decide (j = i)) as [->|]; [rewrite Hbit in *; done|].
        by rewrite (bool_decide_ext (j ∈ i :: l) (j ∈ l)) by (rewrite elem_of_cons; tauto). }
    pose proof (group_length (sys_para p) Hs i Hi) as Hgl.
    destruct (write_field (nv p) (off_of i) (group i (sys_para p))) as (n1 & -> & Hn1 & Him1 & Ho1);
      [done|by apply group_bytes|rewrite Hgl; para_lia|rewrite Hgl; para_lia|]. cbn [Z.eqb negb].
    assert (Hcl : length (get (crc_off i) 2 (sys_para p)) = 2%nat) by (apply get_length; para_lia).
    cbn [sys_para set_nv nv].
    destruct (write_field n1 (crc_off i) (get (crc_off i) 2 (sys_para p))) as (n2 & -> & Hn2 & Him2 & Ho2);
      [done|apply get_Forall, Hs|rewrite Hcl; lia|rewrite Hcl; para_lia|]. cbn [Z.eqb negb].
    change (set_nv (set_nv p n1) n2) with (set_nv p n2).
    destruct (IH (set_nv p n2) st 0 Hn2 Hs Hl' Hnd eq_refl) as (n' & E & Hn' & Hp & Ho).
    exists n'. split; [done|]. split; [done|]. cbn [nv set_nv sys_para] in *.
    split; [|intros loc' H1 H2; rewrite Ho, Ho2, Ho1; done]. rewrite Him2, Him1 in Hp.
    destruct (put_group_crc i (sys_para p) (image (nv p) backup_loc) Hs (image_wf _ _ Hn) Hi)
      as (Pw & Pm & Pg & Pc & Pne). destruct Hp as (Hw & Hm & Hg).
    split; [done|]. split; [by rewrite Hm|]. intros j Hj. specialize (Hg j Hj).
    destruct (decide (j = i)) as [->|Hji].
    + rewrite (bool_decide_eq_false_2 (i ∈ l)), andb_false_r, Pg, Pc in Hg by done.
      rewrite Hbit, bool_decide_eq_true_2 by (by left). done.
    + rewrite (bool_decide_ext (j ∈ i :: l) (j ∈ l)) by (rewrite elem_of_cons; tauto).
      destruct (Pne j Hj Hji) as [<- <-]. done.
Qed.

Lemma save_backup p st : nv_good (nv p) -> wf (sys_para p) ->
  exists n' sys', para_save_to_storage p STORAGE_TYPE_BACKUP st = Some (set_nv (set_sys p sys') n', 0) /\
    nv_good n' /\ wf sys' /\ fully_valid sys' /\ same_groups sys' (sys_para p) /\
    (if decide (Z.land st groups_mask = groups_mask) then image n' backup_loc = sys'
     else patched (seq 0 PARA_TYPE_CNT) st sys' (image (nv p) backup_loc) (image n' backup_loc)) /\
    forall loc', is_place loc' -> loc' <> backup_loc -> image n' loc' = image (nv p) loc'.
Proof.
  intros Hn Hs. destruct (decide (Z.land st groups_mask = groups_mask)) as [Hm|Hm].
  { destruct (save_whole p STORAGE_TYPE_BACKUP st) as (n' & sys' & H); [done|done|done|by right|].
    exists n', sys'. cbn [loc_of] in H. tauto. }
  destruct (recalculate_spec (sys_para p) Hs) as (sys' & E & Hs' & Hv & Hg).
  destruct (save_groups_spec (seq 0 PARA_TYPE_CNT) (set_sys p sys') st 0) as (n' & Ew & Hn' & Hp & Ho);
    [done|done| |apply NoDup_seq|done|].
  { apply Forall_forall. intros i Hi. apply elem_of_seq in Hi. lia. }
  exists n', sys'. split; [|repeat (split; [done|]); done]. unfold para_save_to_storage.
  rewrite E. cbn [mbind option_bind]. rewrite (proj2 (Z.eqb_neq _ _) Hm). cbn [media backup_loc].
  fold backup_loc. change (mk_loc STORAGE_TYPE_BACKUP STORAGE_MEDIA_EXT_EEPROM BACKUP_PARA_ADDR) with backup_loc in *.
  by rewrite Ew.
Qed.

(** Writing every damaged group makes the copy whole. *)
Lemma patched_valid st sys b b' :
  fully_valid sys -> patched (seq 0 PARA_TYPE_CNT) st sys b b' -> magic b = PARAM_MAGIC ->
  (forall i, (i < PARA_TYPE_CNT)%nat -> Z.testbit st (Z.of_nat i) = false -> valid i b = true) ->
  fully_valid b'.
Proof.
  intros [_ Hv] (_ & Hm & Hp) Hmb Hb. split; [congruence|]. intros i Hi. specialize (Hp i Hi).
  rewrite bool_decide_eq_true_2, andb_true_r in Hp by (apply elem_of_seq; lia).
  unfold valid. destruct (Z.testbit st (Z.of_nat i)) eqn:Hbit; destruct Hp as [Hg Hc];
    rewrite Hc, (gcrc_group i b' _ Hg); [by apply Hv|by apply Hb].
Qed.
End Save.

(** ** The whole initialisation *)
Section Init.
Context {N : Type} `{!NvStore N} (def : list Z).
Implicit Types (p : pmm N).

(** The first level whose copy of group [i] is in order. *)
Definition recovered (n : N) (i : nat) : list Z :=
  if usable i (image n user_loc) then group i (image n user_loc)
  else if usable i (image n backup_loc) then group i (image n backup_loc)
  else if usable i (image n factory_loc) then group i (image n factory_loc)
  else group i def.

Lemma place_user : is_place user_loc. Proof. by left. Qed.
Lemma place_backup : is_place backup_loc. Proof. by right; left. Qed.
Lemma place_factory : is_place factory_loc. Proof. by right; right. Qed.
Hint Resolve place_user place_backup place_factory : core.

Ltac pmm_cbn := cbn [set_sys set_temp set_user set_backup set_factory set_nv ENTER_CRITICAL
  EXIT_CRITICAL sys_para temp_para err_user err_backup err_factory crc_user crc_backup crit nv] in *.

Lemma para_load_spec p : nv_good (nv p) -> wf def ->
  exists p3, para_init def p = para_init_commit def p3 /\
    nv_good (nv p3) /\ same_mem (nv p) (nv p3) /\ wf (sys_para p3) /\ crit p3 = crit p /\
    (forall i, (i < PARA_TYPE_CNT)%nat -> group i (sys_para p3) = recovered (nv p) i) /\
    (exists st, status_of (image (nv p) user_loc) st /\ err_user p3 = Z.lor st (Z.shiftl 1 31)) /\
    (exists st, status_of (image (nv p) backup_loc) st /\ err_backup p3 = Z.lor st (Z.shiftl 1 31)) /\
    crc_user p3 = crc_words (image (nv p) user_loc) /\
    crc_backup p3 = crc_words (image (nv p) backup_loc).
Proof.
  intros Hn Hd. unfold para_init.
  destruct (try_restore_spec (set_sys p def) user_loc groups_mask) as
    (n1 & s1 & nd1 & st1 & r1 & -> & Hn1 & Hm1 & Hs1 & Hst1 & Hg1); [done|done|done|].
  cbn [mbind option_bind]. destruct p as [sys0 tmp0 eu eb ef cu cb cr n0].
  pmm_cbn.
  match goal with |- context [try_restore_from_storage ?q backup_loc nd1] =>
    destruct (try_restore_spec q backup_loc nd1) as
      (n2 & s2 & nd2 & st2 & r2 & -> & Hn2 & Hm2 & Hs2 & Hst2 & Hg2); [done|done|done|] end.
  cbn [mbind option_bind].
  pmm_cbn.
  match goal with |- context [try_restore_from_storage ?q factory_loc nd2] =>
    destruct (try_restore_spec q factory_loc nd2) as
      (n3 & s3 & nd3 & st3 & r3 & -> & Hn3 & Hm3 & Hs3 & Hst3 & Hg3); [done|done|done|] end.
  cbn [mbind option_bind].
  pmm_cbn.
  rewrite (image_same n0 n1 backup_loc Hm1) in *.
  rewrite (image_same n1 n2 factory_loc Hm2), (image_same n0 n1 factory_loc Hm1) in *.
  eexists. split; [reflexivity|].
  pmm_cbn.
  split; [done|]. split; [intros m a; by rewrite Hm3, Hm2, Hm1|]. split; [done|]. split; [done|].
  split.
  - intros i Hi. destruct (Hg1 i Hi) as [G1 B1], (Hg2 i Hi) as [G2 B2], (Hg3 i Hi) as [G3 _].
    rewrite G3, B2, G2, B1, G1, groups_mask_bits by lia. unfold recovered, PARA_TYPE_CNT in *.
    replace (Z.of_nat i <? 14) with true by lia.
    by destruct (usable i (image n0 user_loc)), (usable i (image n0 backup_loc)),
      (usable i (image n0 factory_loc)).
  - split; [by exists st1|]. split; [by exists st2|]. done.
Qed.

Lemma err_word_bits b st i : status_of b st -> (i < PARA_TYPE_CNT)%nat ->
  Z.testbit (u32 (Z.lnot (Z.lor st (Z.shiftl 1 31)))) (Z.of_nat i) = negb (usable i b).
Proof.
  intros Hst Hi. unfold u32. assert (Z.of_nat i < 31) by (unfold PARA_TYPE_CNT in Hi; lia).
  rewrite Z.mod_pow2_bits_low, Z.lnot_spec, Z.lor_spec, testbit_shiftl_1, (status_group b) by (done || lia).
  replace (Z.of_nat i =? 31) with false by lia. by rewrite orb_false_r.
Qed.
Lemma err_word_nonzero st : 0 <= st -> Z.lor st (Z.shiftl 1 31) <> 0.
Proof.
  intros H E. apply Z.lor_eq_0_iff in E as [_ E]. discriminate E.
Qed.
Lemma land_groups st : 0 <= st ->
  (Z.land st groups_mask = groups_mask <-> forall i, (i < PARA_TYPE_CNT)%nat -> Z.testbit st (Z.of_nat i) = true).
Proof.
  intros H0. split.
  - intros E i Hi. unfold PARA_TYPE_CNT in Hi.
    assert (Hb : Z.testbit (Z.land st groups_mask) (Z.of_nat i) = true).
    { rewrite E, groups_mask_bits by lia. lia. }
    rewrite Z.land_spec in Hb. by apply andb_true_iff in Hb as [Hb _].
  - intros Hb. apply Z.bits_inj'. intros n Hn. rewrite Z.land_spec, groups_mask_bits by lia.
    destruct (Z.ltb_spec n 14); [|by rewrite andb_false_r]. rewrite andb_true_r.
    specialize (Hb (Z.to_nat n)). rewrite Z2Nat.id in Hb by lia. apply Hb. unfold PARA_TYPE_CNT. lia.
Qed.

(** The repair of one store. *)
Lemma repair_backup p : nv_good (nv p) -> wf (sys_para p) ->
  (exists st, status_of (image (nv p) backup_loc) st /\ err_backup p = Z.lor st (Z.shiftl 1 31)) ->
  exists p', (if negb (err_backup p =? corrent_mask) && negb (err_backup p =? 0) then
      fst <$> para_save_to_storage p STORAGE_TYPE_BACKUP (u32 (Z.lnot (err_backup p)))
    else Some p) = Some p' /\
    nv_good (nv p') /\ wf (sys_para p') /\ same_groups (sys_para p') (sys_para p) /\ crit p' = crit p /\
    fully_valid (image (nv p') backup_loc) /\
    (sys_para p' = sys_para p \/ fully_valid (sys_para p')) /\
    forall loc', is_place loc' -> loc' <> backup_loc -> image (nv p') loc' = image (nv p) loc'.
Proof.
  intros Hn Hs (st & Hst & ->). pose proof (err_word_nonzero st (proj1 Hst)) as Hnz.
  pose proof (status_full _ st Hst) as Hfull. rewrite <- fully_valid_iff in Hfull.
  destruct (Z.eqb_spec (Z.lor st (Z.shiftl 1 31)) corrent_mask) as [E|Hne]; cbn [negb andb].
  { exists p. repeat (split; [done|]). split; [by apply Hfull|]. split; [by left|done]. }
  rewrite (proj2 (Z.eqb_neq _ _) Hnz). cbn [negb].
  set (e := u32 (Z.lnot (Z.lor st (Z.shiftl 1 31)))).
  destruct (save_backup p e Hn Hs) as (n' & sys' & -> & Hn' & Hs' & Hv' & Hg' & Hb & Ho).
  eexists. split; [reflexivity|]. cbn [fst]. pmm_cbn.
  split; [done|]. split; [done|]. split; [done|]. split; [done|]. split; [|split; [by right|done]].
  destruct (decide _) as [_|Hmask]; [by rewrite Hb|].
  apply (patched_valid e sys' _ _ Hv' Hb).
  - apply Z.eqb_eq. destruct (magic _ =? PARAM_MAGIC) eqn:Hm; [done|]. exfalso. apply Hmask.
    apply land_groups; [apply u32_range|]. intros i Hi. unfold e. rewrite (err_word_bits _ st i Hst Hi).
    unfold usable. by rewrite Hm.
  - intros i Hi Hbit. unfold e in Hbit. rewrite (err_word_bits _ st i Hst Hi) in Hbit.
    apply negb_false_iff, andb_true_iff in Hbit. tauto.
Qed.

Lemma one_group t : (t < PARA_TYPE_CNT)%nat ->
  Z.land (Z.shiftl 1 (Z.of_nat t)) groups_mask <> groups_mask.
Proof.
  intros Ht E. pose proof (proj1 (land_groups _ (proj2 (Z.shiftl_nonneg 1 _) ltac:(lia))) E) as H.
  set (j := if decide (t = 0%nat) then 1%nat else 0%nat).
  assert (Hj : (j < PARA_TYPE_CNT)%nat /\ j <> t) by (unfold j, PARA_TYPE_CNT; case_decide; lia).
  specialize (H j (proj1 Hj)). rewrite testbit_shiftl_1 in H by lia. lia.
Qed.

(** Saving one group: the user area gets everything, the backup the group. *)
Lemma save_group_spec p t : nv_good (nv p) -> wf (sys_para p) -> (t < PARA_TYPE_CNT)%nat ->
  exists p', pmm_save_group p t = Some p' /\ nv_good (nv p') /\ wf (sys_para p') /\
    crit p' = crit p /\ fully_valid (sys_para p') /\ same_groups (sys_para p') (sys_para p) /\
    fully_valid (image (nv p') user_loc) /\ same_groups (image (nv p') user_loc) (sys_para p) /\
    patched (seq 0 PARA_TYPE_CNT) (Z.shiftl 1 (Z.of_nat t)) (sys_para p')
      (image (nv p) backup_loc) (image (nv p') backup_loc) /\
    image (nv p') factory_loc = image (nv p) factory_loc.
Proof.
  intros Hn Hs Ht. unfold pmm_save_group. pmm_cbn. rewrite calc_crc_wf by done. cbn [mbind option_bind].
  set (s1 := set_magic _ _).
  assert (Hs1 : wf s1) by by apply wf_set_magic, wf_set_crc.
  assert (Hg1 : same_groups s1 (sys_para p)).
  { intros i Hi. unfold s1. rewrite group_set_magic, group_set_crc; done || by apply wf_set_crc. }
  match goal with |- context [para_save_to_storage ?q STORAGE_TYPE_USER _] =>
    destruct (save_whole q STORAGE_TYPE_USER (Z.shiftl 1 (Z.of_nat t))) as
      (n1 & s2 & -> & Hn1 & Hs2 & Hv2 & Hg2 & Hi2 & Ho2); [done|done|done|by left|] end.
  cbn [mbind option_bind fst]. pmm_cbn. cbn [loc_of] in *.
  match goal with |- context [para_save_to_storage ?q STORAGE_TYPE_BACKUP ?st] =>
    destruct (save_backup q st) as (n3 & s3 & -> & Hn3 & Hs3 & Hv3 & Hg3 & Hb3 & Ho3); [done|done|] end.
  cbn [mbind option_bind fst]. pmm_cbn. rewrite decide_False in Hb3 by by apply one_group.
  rewrite Ho2 in Hb3 by done. eexists. split; [reflexivity|]. pmm_cbn.
  split; [done|]. split; [done|]. split; [lia|]. split; [done|].
  split; [intros i Hi; rewrite Hg3, Hg2, Hg1 by done; done|].
  rewrite (Ho3 user_loc), (Ho3 factory_loc), (Ho2 factory_loc), Hi2 by done.
  split; [done|]. split; [intros i Hi; rewrite Hg2, Hg1 by done; done|]. done.
Qed.

(** The first half of [para_init_commit]. *)
Lemma commit_repair p : nv_good (nv p) -> wf (sys_para p) ->
  (exists st, status_of (image (nv p) user_loc) st /\ err_user p = Z.lor st (Z.shiftl 1 31)) ->
  (exists st, status_of (image (nv p) backup_loc) st /\ err_backup p = Z.lor st (Z.shiftl 1 31)) ->
  (fully_valid (image (nv p) user_loc) -> same_groups (sys_para p) (image (nv p) user_loc)) ->
  exists p1, (if err_user p =? corrent_mask then
      if crc_differ p then pmm_save_to_backup p else Some p
    else repair_invalid_storage p corrent_mask) = Some p1 /\
    nv_good (nv p1) /\ wf (sys_para p1) /\ crit p1 = crit p /\
    same_groups (sys_para p1) (sys_para p) /\
    fully_valid (image (nv p1) user_loc) /\ same_groups (image (nv p1) user_loc) (sys_para p) /\
    (fully_valid (image (nv p) user_loc) /\ (crc_differ p = false -> p1 = p)
      \/ fully_valid (image (nv p1) backup_loc)).
Proof.
  intros Hn Hs (st & Hst & Eu) Hbk Hvalid. pose proof (status_full _ st Hst) as Hfull.
  rewrite <- fully_valid_iff, <- Eu in Hfull. destruct (Z.eqb_spec (err_user p) corrent_mask) as [E|Hne].
  - apply Hfull in E. specialize (Hvalid E). destruct (crc_differ p) eqn:Hd.
    2:{ exists p. repeat (split; [done|]). split; [|by left]. intros i Hi. by rewrite Hvalid. }
    unfold pmm_save_to_backup.
    destruct (save_whole (ENTER_CRITICAL p) STORAGE_TYPE_BACKUP 0x7fffffff) as
      (n1 & s1 & -> & Hn1 & Hs1 & Hv1 & Hg1 & Hi1 & Ho1); [done|done|done|by right|].
    cbn [mbind option_bind fst loc_of] in *. pmm_cbn. eexists. split; [reflexivity|]. pmm_cbn.
    split; [done|]. split; [done|]. split; [lia|]. split; [done|]. rewrite Ho1 by done.
    split; [done|]. split; [intros i Hi; by rewrite Hvalid|]. right. by rewrite Hi1.
  - unfold repair_invalid_storage. rewrite (proj2 (Z.eqb_neq _ _) Hne).
    rewrite (proj2 (Z.eqb_neq (err_user p) 0)) by (rewrite Eu; apply err_word_nonzero, Hst). cbn [negb andb].
    destruct (save_whole p STORAGE_TYPE_USER (u32 (Z.lnot (err_user p)))) as
      (n1 & s1 & -> & Hn1 & Hs1 & Hv1 & Hg1 & Hi1 & Ho1); [done|done|done|by left|].
    cbn [mbind option_bind fst loc_of fmap option_fmap option_map] in *.
    destruct (repair_backup (set_nv (set_sys p s1) n1)) as
      (p2 & -> & Hn2 & Hs2 & Hg2 & Hc2 & Hb2 & _ & Ho2); [done|done|pmm_cbn; by rewrite Ho1|].
    pmm_cbn. exists p2. split; [done|]. split; [done|]. split; [done|]. split; [done|].
    split; [intros i Hi; by rewrite Hg2, Hg1|]. rewrite Ho2, Hi1 by done.
    split; [done|]. split; [done|]. by right.
Qed.

Lemma dev_addr_byte (para : list Z) : wf para -> dev_addr para = nth 0 (group PARA_DEV para) 0.
Proof. intros H. unfold dev_addr, group. by rewrite !nth_lookup, get_lookup by (vm_compute; lia). Qed.

(** The parameters after the check of the device address. *)
Definition checked (g : nat -> list Z) (i : nat) : list Z :=
  if decide (i = PARA_DEV /\ DEV_MAX_ADDR < nth 0 (g PARA_DEV) 0)
  then put 0 [dev_addr def] (g i) else g i.

Lemma commit_spec p : nv_good (nv p) -> wf (sys_para p) -> wf def ->
  (exists st, status_of (image (nv p) user_loc) st /\ err_user p = Z.lor st (Z.shiftl 1 31)) ->
  (exists st, status_of (image (nv p) backup_loc) st /\ err_backup p = Z.lor st (Z.shiftl 1 31)) ->
  (fully_valid (image (nv p) user_loc) -> same_groups (sys_para p) (image (nv p) user_loc)) ->
  exists p', para_init_commit def p = Some p' /\
    nv_good (nv p') /\ wf (sys_para p') /\ crit p' = crit p /\
    (forall i, (i < PARA_TYPE_CNT)%nat -> group i (sys_para p') = checked (fun i => group i (sys_para p)) i) /\
    fully_valid (image (nv p') user_loc) /\ same_groups (image (nv p') user_loc) (sys_para p') /\
    (fully_valid (image (nv p) user_loc) /\
       (crc_differ p = false -> dev_addr (sys_para p) <= DEV_MAX_ADDR -> p' = p)
      \/ fully_valid (image (nv p') backup_loc)).
Proof.
  intros Hn Hs Hdef Hu Hb Hvalid. unfold para_init_commit.
  destruct (commit_repair p Hn Hs Hu Hb Hvalid) as (p1 & -> & Hn1 & Hs1 & Hc1 & Hg1 & Hv1 & Hu1 & Hb1).
  cbn [mbind option_bind].
  assert (Haddr : dev_addr (sys_para p1) = nth 0 (group PARA_DEV (sys_para p)) 0).
  { rewrite dev_addr_byte, Hg1; [done|unfold PARA_DEV, PARA_TYPE_CNT; lia|done]. }
  destruct (Z.ltb_spec DEV_MAX_ADDR (dev_addr (sys_para p1))) as [Hbad|Hok].
  2:{ exists p1. split; [done|]. split; [done|]. split; [done|]. split; [done|]. split.
      - intros i Hi. unfold checked. rewrite decide_False, Hg1 by (done || lia). done.
      - split; [done|]. split; [intros i Hi; by rewrite Hu1, Hg1|].
        destruct Hb1 as [[? Hp]|?]; [left; split; [done|]; intros Hcd _; by apply Hp|by right]. }
  set (s2 := put 4 [dev_addr def] (sys_para p1)).
  assert (Hs2 : wf s2).
  { apply wf_put; [done| |vm_compute; lia]. constructor; [|done]. unfold dev_addr. rewrite nth_lookup.
    destruct (def !! 4%nat) as [x|] eqn:E; cbn; [|done].
    pose proof (wf_bytes def Hdef) as Hbd. rewrite Forall_lookup in Hbd. by eapply Hbd. }
  assert (Hg2 : forall i, (i < PARA_TYPE_CNT)%nat -> group i s2 = checked (fun i => group i (sys_para p)) i).
  { intros i Hi. unfold checked. destruct (decide (i = PARA_DEV)) as [->|Hid].
    - rewrite decide_True by (rewrite <- Haddr; done). rewrite <- (Hg1 PARA_DEV) by done.
      apply list_eq. intros k. pose proof (wf_len _ Hs1) as Hlen.
      pose proof (group_length _ Hs1 PARA_DEV Hi) as Hgl. change (size_of PARA_DEV) with 31%nat in Hgl.
      unfold group at 1, s2. change (off_of PARA_DEV) with 4%nat. change (size_of PARA_DEV) with 31%nat.
      destruct (decide (k < 31)%nat).
      + rewrite get_lookup by done. destruct k as [|k].
        * rewrite !put_lookup_in by (simpl length; unfold PARA_SIZE in *; lia). done.
        * rewrite !put_lookup_out by (simpl length; unfold PARA_SIZE in *; lia).
          unfold group. by rewrite get_lookup by (vm_compute; vm_compute in l; lia).
      + rewrite get_lookup_ge, lookup_ge_None_2; [done| |lia]. rewrite put_length; simpl length; lia.
    - rewrite decide_False by tauto. rewrite <- Hg1 by done. unfold group, s2.
      pose proof (layout_disjoint i PARA_DEV Hi ltac:(unfold PARA_DEV, PARA_TYPE_CNT; lia) Hid) as Hd.
      change (off_of PARA_DEV) with 4%nat in Hd. change (size_of PARA_DEV) with 31%nat in Hd.
      rewrite get_put_ne; [done|simpl length; para_lia|simpl length; para_lia]. }
  destruct (save_group_spec (set_sys p1 s2) PARA_DEV) as
    (p' & -> & Hn' & Hs' & Hc' & Hv' & Hg' & Hvu & Hgu & Hpb & _); [done|done|unfold PARA_DEV, PARA_TYPE_CNT; lia|].
  pmm_cbn. exists p'. split; [done|]. split; [done|]. split; [done|]. split; [congruence|].
  split; [intros i Hi; by rewrite Hg', Hg2|]. split; [done|].
  split; [intros i Hi; by rewrite Hgu, Hg'|].
  destruct Hb1 as [[? Hp]|Hvb].
  - left. split; [done|]. intros Hcd Hle. rewrite (Hp Hcd) in Hbad. lia.
  - right. eapply (patched_valid _ _ _ _ Hv' Hpb); [apply Hvb|]. intros i Hi _. by apply Hvb.
Qed.
End Init.

(** * Properties *)

(** [C15] Layered recovery: with sound storage, whatever it holds, [para_init]
    returns, and every parameter group comes from the first of user area, backup
    and factory area whose magic and checksum of that group are right, or else
    from the defaults; only a device address above 32 is replaced by the default
    address.  The critical section is left. *)
Theorem para_init_recovers {N : Type} `{!NvStore N} (def : list Z) (p : pmm N) :
  nv_good (nv p) -> wf def ->
  exists p', para_init def p = Some p' /\ crit p' = crit p /\
    forall i, (i < PARA_TYPE_CNT)%nat ->
      group i (sys_para p') = checked def (recovered def (nv p)) i.
Proof.
  intros Hn Hd.
  destruct (para_load_spec def p Hn Hd) as (p3 & -> & Hn3 & Hm3 & Hs3 & Hc3 & Hg3 & Hu & Hb & Ecu & Ecb).
  destruct (commit_spec def p3) as (p' & -> & _ & _ & Hc' & Hg' & _); rewrite ?(image_same (nv p)) by done; try done.
  { intros Hv i Hi. rewrite Hg3 by done. unfold recovered. rewrite fully_valid_iff in Hv.
    unfold usable at 1. by rewrite Hv. }
  exists p'. split; [done|]. split; [congruence|]. intros i Hi. rewrite Hg' by done.
  unfold checked. rewrite !Hg3 by (done || (unfold PARA_DEV, PARA_TYPE_CNT; lia)). done.
Qed.

(** [C16] Start-up repairs the storage and is stable: after [para_init] the user
    area validates completely and holds the parameters in use, the backup
    validates completely too if the user area had been damaged, and a later
    start from that storage, with any RAM contents, recovers the same
    parameters. *)
Theorem para_init_repairs {N : Type} `{!NvStore N} (def : list Z) (p : pmm N) :
  nv_good (nv p) -> wf def -> dev_addr def <= DEV_MAX_ADDR ->
  exists p', para_init def p = Some p' /\
    fully_valid (image (nv p') user_loc) /\
    same_groups (image (nv p') user_loc) (sys_para p') /\
    (fully_valid (image (nv p) user_loc) \/ fully_valid (image (nv p') backup_loc)) /\
    forall q, same_mem (nv p') (nv q) -> nv_good (nv q) ->
      exists q', para_init def q = Some q' /\ same_groups (sys_para q') (sys_para p').
Proof.
  intros Hn Hd Haddr.
  destruct (para_load_spec def p Hn Hd) as (p3 & -> & Hn3 & Hm3 & Hs3 & Hc3 & Hg3 & Hu & Hb & Ecu & Ecb).
  destruct (commit_spec def p3) as (p' & -> & Hn' & Hs' & Hc' & Hg' & Hv' & Hu' & Hor);
    rewrite ?(image_same (nv p)) in * by done; try done.
  { intros Hv i Hi. rewrite Hg3 by done. unfold recovered. rewrite fully_valid_iff in Hv.
    unfold usable at 1. by rewrite Hv. }
  exists p'. split; [done|]. split; [done|]. split; [done|]. split; [tauto|]. intros q Hq Hnq.
  destruct (para_load_spec def q Hnq Hd) as (q3 & -> & Hn3q & Hm3q & Hs3q & _ & Hg3q & Huq & Hbq & _ & _).
  assert (Hrec : forall i, (i < PARA_TYPE_CNT)%nat -> group i (sys_para q3) = group i (sys_para p')).
  { intros i Hi. rewrite Hg3q by done. unfold recovered. rewrite (image_same (nv p') (nv q) user_loc) by done.
    rewrite fully_valid_iff in Hv'. unfold usable at 1. rewrite Hv' by done. by apply Hu'. }
  destruct (commit_spec def q3) as (q' & -> & _ & _ & _ & Hgq & _); rewrite ?(image_same (nv q)) by done; try done.
  { intros _ i Hi. rewrite Hrec, (image_same (nv p') (nv q)) by done. symmetry. by apply Hu'. }
  exists q'. split; [done|]. intros i Hi. rewrite Hgq by done. unfold checked.
  destruct (decide _) as [[-> Hbad]|_]; [|by apply Hrec]. exfalso.
  rewrite Hrec, Hg' in Hbad by done. unfold checked in Hbad. revert Hbad.
  assert (Hlen : length (group PARA_DEV (sys_para p3)) = 31%nat) by (rewrite group_length; done).
  destruct (group PARA_DEV (sys_para p3)) as [|b l]; [done|].
  case_decide as Hc; cbn [put take app nth length]; [lia|]. intros Hbad. apply Hc. by split.
Qed.

(** A start with a valid user area. *)
Lemma user_restart {N : Type} `{!NvStore N} (def : list Z) (q : pmm N) (l : list Z) :
  nv_good (nv q) -> wf def -> fully_valid (image (nv q) user_loc) -> wf l -> same_groups (image (nv q) user_loc) l ->
  dev_addr l <= DEV_MAX_ADDR ->
  exists q', para_init def q = Some q' /\ same_groups (sys_para q') l.
Proof.
  intros Hnq Hd Hvu Hl Hgu Haddr.
  destruct (para_load_spec def q Hnq Hd) as (q3 & -> & Hn3q & Hm3q & Hs3q & _ & Hg3q & Huq & Hbq & _ & _).
  assert (Hrec : forall i, (i < PARA_TYPE_CNT)%nat -> group i (sys_para q3) = group i l).
  { intros i Hi. rewrite Hg3q by done. unfold recovered.
    rewrite fully_valid_iff in Hvu. unfold usable at 1. rewrite Hvu by done. by apply Hgu. }
  destruct (commit_spec def q3) as (q' & -> & _ & _ & _ & Hgq & _); rewrite ?(image_same (nv q)) by done; try done.
  { intros _ i Hi. rewrite Hrec by done. symmetry. by apply Hgu. }
  exists q'. split; [done|]. intros i Hi. rewrite Hgq by done. unfold checked.
  rewrite decide_False; [by apply Hrec|]. intros [-> Hbad]. rewrite Hrec in Hbad by done.
  rewrite <- dev_addr_byte in Hbad by done. lia.
Qed.

(** [C17] A saved group survives: after [pmm_save_group] and a restart with any
    RAM contents the parameters are those in use when the group was saved (all
    groups, since the user area is written as a whole), provided the device
    address is in range; the backup has the new group and keeps its others, and
    the factory area is not touched.  (The comment of [pmm_save_group], para.c
    line 183, says that the whole of sys_para goes to the backup area as well; the
    code writes only the group, as stated here.) *)
Theorem pmm_save_group_survives {N : Type} `{!NvStore N} (def : list Z) (p : pmm N) t :
  nv_good (nv p) -> wf def -> wf (sys_para p) -> (t < PARA_TYPE_CNT)%nat ->
  dev_addr (sys_para p) <= DEV_MAX_ADDR ->
  exists p', pmm_save_group p t = Some p' /\ crit p' = crit p /\
    group t (image (nv p') backup_loc) = group t (sys_para p) /\
    valid t (image (nv p') backup_loc) = true /\
    (forall i, (i < PARA_TYPE_CNT)%nat -> i <> t ->
       group i (image (nv p') backup_loc) = group i (image (nv p) backup_loc)) /\
    image (nv p') factory_loc = image (nv p) factory_loc /\
    forall q, same_mem (nv p') (nv q) -> nv_good (nv q) ->
      exists q', para_init def q = Some q' /\ same_groups (sys_para q') (sys_para p).
Proof.
  intros Hn Hd Hs Ht Haddr.
  destruct (save_group_spec p t Hn Hs Ht) as (p' & E & Hn' & Hs' & Hc' & Hv' & Hg' & Hvu & Hgu & (_ & _ & Hpb) & Hf).
  exists p'. split; [done|]. split; [done|].
  pose proof (Hpb t Ht) as Hpt. rewrite testbit_shiftl_1, Z.eqb_refl, bool_decide_eq_true_2 in Hpt
    by (try lia; apply elem_of_seq; lia). destruct Hpt as [Hpg Hpc].
  split; [by rewrite Hpg, Hg'|]. split.
  { unfold valid. rewrite Hpc, (gcrc_group t _ _ Hpg). by apply Hv'. }
  split.
  { intros i Hi Hit. specialize (Hpb i Hi). rewrite testbit_shiftl_1 in Hpb by lia.
    rewrite (proj2 (Z.eqb_neq _ _)) in Hpb by lia. apply Hpb. }
  split; [done|]. intros q Hq Hnq. apply (user_restart def q (sys_para p)); try done; by rewrite (image_same (nv p') (nv q)).
Qed.

(** A start with a valid user area whose checksum words equal those the
    backup stores writes nothing: a backup damaged in its data but not in its
    checksum words, or in its magic, is left damaged. *)
Theorem para_init_trusts_backup_words {N : Type} `{!NvStore N} (def : list Z) (p : pmm N) :
  nv_good (nv p) -> wf def -> fully_valid (image (nv p) user_loc) ->
  dev_addr (image (nv p) user_loc) <= DEV_MAX_ADDR ->
  crc_words (image (nv p) backup_loc) = crc_words (image (nv p) user_loc) ->
  exists p', para_init def p = Some p' /\ same_mem (nv p) (nv p').
Proof.
  intros Hn Hd Hv Haddr Hw.
  destruct (para_load_spec def p Hn Hd) as (p3 & -> & Hn3 & Hm3 & Hs3 & Hc3 & Hg3 & Hu & Hb & Ecu & Ecb).
  exists p3. split; [|done].
  assert (Huse : forall i, (i < PARA_TYPE_CNT)%nat -> group i (sys_para p3) = group i (image (nv p) user_loc)).
  { intros i Hi. rewrite Hg3 by done. unfold recovered. rewrite fully_valid_iff in Hv.
    unfold usable at 1. by rewrite Hv. }
  unfold para_init_commit. destruct Hu as (st & Hst & Eu). apply status_full in Hst.
  rewrite <- fully_valid_iff, <- Eu in Hst. rewrite (proj2 Hst Hv), Z.eqb_refl.
  replace (crc_differ p3) with false.
  - cbn [mbind option_bind]. rewrite dev_addr_byte, Huse by (done || (unfold PARA_DEV, PARA_TYPE_CNT; lia)).
    rewrite dev_addr_byte in Haddr by by apply image_wf.
    destruct (Z.ltb_spec DEV_MAX_ADDR (nth 0 (group PARA_DEV (image (nv p) user_loc)) 0)); [lia|done].
  - unfold crc_differ. rewrite Ecu, Ecb, Hw. symmetry. apply not_true_iff_false. intros Hex.
    apply existsb_exists in Hex as (i & _ & Hi). by rewrite Z.eqb_refl in Hi.
Qed.

(** [C18] Restoring the factory parameters: when the factory area validates
    completely they replace all parameters and both copies, and the critical
    section is left; otherwise neither copy is written, but the groups of the
    factory area that do validate have already replaced the parameters in use,
    and the function returns inside the critical section. *)
Theorem restore_to_factory_branches {N : Type} `{!NvStore N} (p : pmm N) :
  nv_good (nv p) -> wf (sys_para p) ->
  let fac := image (nv p) factory_loc in
  exists p', pmm_restore_to_factory p = Some p' /\
    (forall i, (i < PARA_TYPE_CNT)%nat ->
       group i (sys_para p') = if usable i fac then group i fac else group i (sys_para p)) /\
    ((fully_valid fac /\ crit p' = crit p /\ same_groups (sys_para p') fac /\
        (forall loc, loc = user_loc \/ loc = backup_loc ->
           fully_valid (image (nv p') loc) /\ same_groups (image (nv p') loc) fac))
     \/ (~ fully_valid fac /\ crit p' = crit p + 1 /\ same_mem (nv p) (nv p'))).
Proof.
  intros Hn Hs. cbn zeta. unfold pmm_restore_to_factory.
  destruct (try_restore_spec (ENTER_CRITICAL p) factory_loc groups_mask) as
    (n1 & s1 & nd1 & st1 & r1 & -> & Hn1 & Hm1 & Hs1 & Hst1 & Hg1); [done|by right; right|done|].
  destruct p as [sys0 tmp0 eu eb ef cu cb cr n0]. cbn [mbind option_bind]. 
  cbn [ENTER_CRITICAL nv sys_para crit] in *. set (fac := image n0 factory_loc) in *.
  assert (Hgr : forall i, (i < PARA_TYPE_CNT)%nat ->
    group i s1 = if usable i fac then group i fac else group i sys0).
  { intros i Hi. destruct (Hg1 i Hi) as [-> _]. rewrite groups_mask_bits by lia.
    unfold PARA_TYPE_CNT in Hi. by replace (Z.of_nat i <? 14) with true by lia. }
  assert (Hfull : st1 = corrent_mask <-> fully_valid fac).
  { rewrite fully_valid_iff, <- (status_full fac st1 Hst1). split; [by intros ->|]. intros E.
    rewrite <- E. apply Z.bits_inj'. intros n Hnn. rewrite Z.lor_spec, testbit_shiftl_1 by lia.
    destruct (Z.eqb_spec n 31) as [->|]; [|by rewrite orb_false_r]. rewrite orb_true_r.
    destruct (magic fac =? PARAM_MAGIC) eqn:Hm.
    - destruct Hst1 as [_ Hst1]. by rewrite Hst1, Hm by lia.
    - exfalso. apply (status_full fac st1 Hst1) with (i := O) in E; [by rewrite Hm in E|unfold PARA_TYPE_CNT; lia]. }
  destruct (Z.eqb_spec st1 corrent_mask) as [E|Hne]; cbn [negb].
  - apply Hfull in E. pose proof (proj1 (fully_valid_iff fac) E) as Hall.
    match goal with |- context [para_save_to_storage ?q STORAGE_TYPE_USER _] =>
      destruct (save_whole q STORAGE_TYPE_USER 0x7fffffff) as
        (n2 & s2 & -> & Hn2 & Hs2 & Hv2 & Hg2 & Hi2 & Ho2); [done|done|done|by left|] end.
    cbn [mbind option_bind fst loc_of] in *. cbn [set_nv set_sys set_temp nv sys_para] in *.
    match goal with |- context [para_save_to_storage ?q STORAGE_TYPE_BACKUP _] =>
      destruct (save_whole q STORAGE_TYPE_BACKUP 0x7fffffff) as
        (n3 & s3 & -> & Hn3 & Hs3 & Hv3 & Hg3 & Hi3 & Ho3); [done|done|done|by right|] end.
    cbn [mbind option_bind fst loc_of] in *. cbn [set_nv set_sys set_temp EXIT_CRITICAL nv sys_para crit] in *.
    assert (Hf : same_groups s1 fac).
    { intros i Hi. rewrite Hgr by done. unfold usable. by rewrite Hall. }
    eexists. split; [reflexivity|]. cbn [set_nv set_sys set_temp ENTER_CRITICAL EXIT_CRITICAL nv sys_para crit].
    split; [intros i Hi; by rewrite Hg3, Hg2, Hgr|]. left. split; [done|]. split; [lia|].
    split; [intros i Hi; by rewrite Hg3, Hg2, Hf|]. intros loc [-> | ->].
    + rewrite Ho3, Hi2 by (done || by left). split; [done|]. intros i Hi. by rewrite Hg2, Hf.
    + rewrite Hi3. split; [done|]. intros i Hi. by rewrite Hg3, Hg2, Hf.
  - eexists. split; [reflexivity|]. cbn [set_nv set_sys set_temp ENTER_CRITICAL nv sys_para crit].
    split; [done|]. right. split; [tauto|]. done.
Qed.
