(* ===== verification/ParaStore.v ===== *)
(** * The storage of the board as a store for the parameters; para_cfg.c

    [board_store] implements the interface [NvStore] of Para.v with the flash
    driver of Fmc.v and the EEPROM driver of Eeprom.v, the devices being any
    sound NOR flash and the AT24CM01.  The file also holds the power-up readers
    of para_cfg.c and the concrete instances of the theorems of Para.v. *)
From Stdlib Require Import ZifyBool.
From S2P Require Import Prelude Generic Eeprom Fmc Para.

Section Board.
Context {F : Type} `{!FlashDevice F}.

Record board := mk_board { flash : F; eeprom : at24 }.

(** [flash_read] always returns 0; the mutex of the EEPROM is free.  The [None]
    cases (reading past the caller's buffer) do not occur: a buffer is written
    with its own length. *)
Definition board_read (s : board) (m : storage_media_t) (a : Z) (n : nat) : board * option (list Z) :=
  match m with
  | STORAGE_MEDIA_INT_FLASH => (s, Some (flash_read (flash s) a n))
  | STORAGE_MEDIA_EXT_EEPROM =>
      match eeprom_read_lock (eeprom s) false a n with
      | Some (d, l, r) =>
          (mk_board (flash s) d, if r =? 0 then Some (l ++ replicate (n - length l) 0) else None)
      | None => (s, None)
      end
  end.
Definition board_write (s : board) (m : storage_media_t) (a : Z) (l : list Z) : board * Z :=
  match m with
  | STORAGE_MEDIA_INT_FLASH =>
      match flash_write (flash s) a l (length l) with
      | Some (f, r) => (mk_board f (eeprom s), r)
      | None => (s, -1)
      end
  | STORAGE_MEDIA_EXT_EEPROM =>
      match eeprom_write_lock (eeprom s) false a l (zlen l) with
      | Some (d, r) => (mk_board (flash s) d, r)
      | None => (s, -1)
      end
  end.
Definition board_mem (s : board) (m : storage_media_t) (a : Z) : Z :=
  match m with
  | STORAGE_MEDIA_INT_FLASH => rd (flash s) a
  | STORAGE_MEDIA_EXT_EEPROM => mem (eeprom s) a
  end.
Definition board_good (s : board) : Prop :=
  f_good (flash s) = true /\ forall m a, is_byte (board_mem s m a).

Lemma board_read_spec s m a n : board_good s -> para_place m a n ->
  exists s', board_read s m a n = (s', Some (map (fun i => board_mem s m (a + Z.of_nat i)) (seq 0 n))) /\
    board_good s' /\ forall m' a', board_mem s' m' a' = board_mem s m' a'.
Proof.
  intros [Hg Hb] Hp. destruct m; cbn [para_place board_read] in *.
  - exists s. split; [|done]. unfold flash_read, gdf_read_data. do 2 f_equal. apply map_ext_in.
    intros i Hi. apply in_seq in Hi. rewrite u32_small; [done|].
    unfold USER_PARA_ADDR, FACTORY_PARA_ADDR in Hp. lia.
  - destruct (at24c_read_at24 (eeprom s) a n) as (d & E & Hm);
      [intros x; apply (Hb STORAGE_MEDIA_EXT_EEPROM x)|lia|lia|].
    unfold eeprom_read_lock, eeprom_read. rewrite E. cbn [mbind option_bind fst snd].
    rewrite length_map, length_seq, Nat.sub_diag, app_nil_r.
    replace (0 <? Z.of_nat n) with true by lia. cbn [Z.eqb].
    eexists. split; [reflexivity|]. split; [|by intros [] x; cbn; rewrite ?Hm].
    split; [done|]. intros [] x; cbn; rewrite ?Hm; [apply (Hb STORAGE_MEDIA_INT_FLASH)|apply (Hb STORAGE_MEDIA_EXT_EEPROM)].
Qed.

Lemma after_write_byte (f : F) a l x : bytes l -> (forall y, is_byte (rd f y)) ->
  is_byte (after_write (rd f) a l x).
Proof.
  intros Hl Hf. unfold after_write. case_match eqn:Hc.
  - rewrite Forall_forall in Hl. apply Hl, list_elem_of_In, nth_In. lia.
  - case_match; [split; done|apply Hf].
Qed.
Lemma overlay_byte m a l x : bytes l -> (forall y, is_byte (m y)) -> is_byte (overlay m a l x).
Proof.
  intros Hl Hf. unfold overlay. case_match eqn:Hc; [|apply Hf].
  rewrite Forall_forall in Hl. apply Hl, list_elem_of_In, nth_In. lia.
Qed.

Lemma board_write_flash s a l : board_good s -> para_place STORAGE_MEDIA_INT_FLASH a (length l) -> bytes l ->
  exists s', board_write s STORAGE_MEDIA_INT_FLASH a l = (s', 0) /\ board_good s' /\
    eeprom s' = eeprom s /\ forall x, rd (flash s') x = after_write (rd (flash s)) a l x.
Proof.
  intros [Hg Hb] [Hp Hn] Hl. cbn [board_write].
  pose proof (page_count_bounds (length l)) as Hpc.
  assert (Hpc1 : page_count (length l) = 1) by (unfold page_count; zdm).
  destruct (flash_write_spec (flash s) a l Hl Hg) as (f' & E & _ & Hrd & _ & Hg');
    try (rewrite Hpc1); unfold USER_PARA_ADDR, FACTORY_PARA_ADDR, FLASH_BASE, FMC_PAGE_SIZE, FMC_PAGE_MAX in *;
    [destruct Hp as [-> | ->]; done|lia|lia|].
  rewrite E. eexists. split; [reflexivity|]. split; [|done].
  split; [done|]. intros [] x; cbn; [|apply (Hb STORAGE_MEDIA_EXT_EEPROM)].
  rewrite Hrd. apply after_write_byte; [done|]. intros y. apply (Hb STORAGE_MEDIA_INT_FLASH).
Qed.

Lemma board_write_eeprom s a l : board_good s -> para_place STORAGE_MEDIA_EXT_EEPROM a (length l) -> bytes l ->
  exists s', board_write s STORAGE_MEDIA_EXT_EEPROM a l = (s', 0) /\ board_good s' /\
    flash s' = flash s /\ forall x, mem (eeprom s') x = overlay (mem (eeprom s)) a l x.
Proof.
  intros [Hg Hb] Hp Hl. cbn [board_write para_place] in *.
  destruct (write_pages_at24 (S (Z.to_nat (zlen l))) (eeprom s) a l) as (d & E & Hm);
    [lia|done|lia|lia|].
  unfold eeprom_write_lock, eeprom_write, at24c_write. rewrite E. cbn [mbind option_bind fst snd].
  rewrite Z.sub_0_r. replace (0 <? zlen l) with true by lia.
  eexists. split; [reflexivity|]. split; [|done]. split; [done|].
  intros [] x; cbn; [apply (Hb STORAGE_MEDIA_INT_FLASH)|]. rewrite Hm.
  apply overlay_byte; [done|]. intros y. apply (Hb STORAGE_MEDIA_EXT_EEPROM).
Qed.

Lemma board_write_spec s m a l : board_good s -> para_place m a (length l) -> bytes l ->
  exists s', board_write s m a l = (s', 0) /\ board_good s' /\
    (forall i, (i < length l)%nat -> board_mem s' m (a + Z.of_nat i) = nth i l 0) /\
    forall m' a', m' <> m \/ a' < a \/
      (if decide (m = STORAGE_MEDIA_INT_FLASH) then a + 4096 <= a' else a + zlen l <= a') ->
      board_mem s' m' a' = board_mem s m' a'.
Proof.
  intros Hs Hp Hl. destruct m.
  - destruct (board_write_flash s a l Hs Hp Hl) as (s' & E & Hs' & He & Hrd).
    exists s'. split; [done|]. split; [done|]. cbn [board_mem]. split.
    + intros i Hi. rewrite Hrd. unfold after_write.
      replace ((a <=? a + Z.of_nat i) && (a + Z.of_nat i <? a + zlen l)) with true by lia. f_equal. lia.
    + intros m' a' Hd. rewrite decide_True in Hd by done. destruct m'; cbn [board_mem]; [|by rewrite He].
      destruct Hp as [_ Hp].
      assert (Hpc1 : page_count (length l) = 1) by (unfold page_count; zdm).
      assert (Hd' : a' < a \/ a + 4096 <= a') by (destruct Hd as [Hd|]; [done|done]). clear Hd.
      rewrite Hrd. unfold after_write. rewrite Hpc1.
      replace ((a <=? a') && (a' <? a + zlen l)) with false by lia.
      by replace ((a <=? a') && (a' <? a + 4096 * 1)) with false by lia.
  - destruct (board_write_eeprom s a l Hs Hp Hl) as (s' & E & Hs' & He & Hrd).
    exists s'. split; [done|]. split; [done|]. cbn [board_mem]. split.
    + intros i Hi. rewrite Hrd. unfold overlay.
      replace ((a <=? a + Z.of_nat i) && (a + Z.of_nat i <? a + zlen l)) with true by lia. f_equal. lia.
    + intros m' a' Hd. rewrite decide_False in Hd by done. destruct m'; cbn [board_mem]; [by rewrite He|].
      assert (Hd' : a' < a \/ a + zlen l <= a') by (destruct Hd as [Hd|]; [done|done]). clear Hd.
      rewrite Hrd. unfold overlay. by replace ((a <=? a') && (a' <? a + zlen l)) with false by lia.
Qed.

#[global] Instance board_store : NvStore board := {|
  nv_read := board_read; nv_write := board_write; nv_good := board_good; nv_mem := board_mem;
  nv_byte s m a H := proj2 H m a;
  nv_read_spec := board_read_spec; nv_write_spec := board_write_spec |}.
End Board.
Arguments board : clear implicits.

(** * para_cfg.c at power-up *)

(** [port_para_t]: mode, check_fmt[4], baudrate, dbg_level[32], dbg_port. *)
Record port_para_t := mk_port {
  port_mode : Z; check_fmt : list Z; baudrate : Z; dbg_level : list Z; dbg_port : Z }.
Definition port_of (g : list Z) : port_para_t :=
  mk_port (nth 0 g 0) (get 1 4 g) (le_decode (get 5 4 g)) (get 9 32 g) (nth 41 g 0).

(** The checksum of the port group is checked, not the magic; [check_fmt] is
    not taken over. *)
Definition powerup_uart_para_get {F} `{!FlashDevice F} (f : F) (para : port_para_t)
  : option (port_para_t * Z) :=
  let bsp_para := flash_read f USER_PARA_ADDR PARA_SIZE in
  c ← calc_crc bsp_para PARA_PORT;
  if negb (crc_field PARA_PORT bsp_para =? c) then Some (para, -1)
  else
    let port := port_of (group PARA_PORT bsp_para) in
    Some (mk_port (port_mode port) (check_fmt para) (baudrate port) (dbg_level port) (dbg_port port), 0).

(** The state kept over a warm reset; floats as their bit patterns,
    [to_float] the conversion of the double accumulator to [float]. *)
Record sys_quick_save_t := mk_quick {
  flag_temp_internal : Z; temp_internal_n : Z; temp_internal_w : Z;
  q_target_temp : Z; q_ratio_temp : Z; q_ratio_temp_nerve : Z;
  q_integral : Z; nb_gain : Z; wb_gain : Z }.
Record hot_state := mk_hot {
  internal_temp : Z * Z; ratio_temp : Z; ratio_temp_nerve : Z; target_temp : Z;
  integral : Z; previous_integral : Z; now_gain : Z * Z }.

Definition hot_start_quick_save_get (to_float : Z -> Z) (q : sys_quick_save_t) (s : hot_state)
  : sys_quick_save_t * hot_state :=
  if flag_temp_internal q =? 1 then
    (mk_quick 0 (temp_internal_n q) (temp_internal_w q) (q_target_temp q) (q_ratio_temp q)
       (q_ratio_temp_nerve q) (q_integral q) (nb_gain q) (wb_gain q),
     mk_hot (temp_internal_n q, temp_internal_w q) (q_ratio_temp q) (q_ratio_temp_nerve q)
       (q_target_temp q) (q_integral q) (to_float (q_integral q)) (nb_gain q, wb_gain q))
  else (q, s).
(** The gains are cut to a byte. *)
Definition hot_start_quick_save_set (s : hot_state) : sys_quick_save_t :=
  mk_quick 1 (fst (internal_temp s)) (snd (internal_temp s)) (target_temp s) (ratio_temp s)
    (ratio_temp_nerve s) (integral s) (u8 (fst (now_gain s))) (u8 (snd (now_gain s))).
(** From the flash copy only the sensor temperatures are taken. *)
Definition powerup_quick_save_get (q : sys_quick_save_t) (s : hot_state)
  : sys_quick_save_t * hot_state :=
  if flag_temp_internal q =? 1 then
    (mk_quick 0 (temp_internal_n q) (temp_internal_w q) (q_target_temp q) (q_ratio_temp q)
       (q_ratio_temp_nerve q) (q_integral q) (nb_gain q) (wb_gain q),
     mk_hot (temp_internal_n q, temp_internal_w q) (ratio_temp s) (ratio_temp_nerve s)
       (target_temp s) (integral s) (previous_integral s) (now_gain s))
  else (q, s).

(** * Instances of the theorems of Para.v *)

(** A board whose flash is erased and whose EEPROM holds zeros. *)
Definition blank : board nor := mk_board (mk_nor (fun _ => 255) true) (mk_at24 (fun _ => 0) 0 Idle).
Definition zero_para : list Z := replicate 1778 0.
Definition started : pmm (board nor) :=
  mk_pmm zero_para zero_para 0 0 0 [] [] 0 blank.

Lemma blank_good : nv_good (nv started).
Proof. split; [reflexivity|]. intros [] a; split; cbn; lia. Qed.
Lemma zero_wf : wf zero_para.
Proof. split; [reflexivity|]. apply Forall_replicate. split; lia. Qed.

Lemma para_init_recovers_witness :
  exists p', para_init zero_para started = Some p' /\ crit p' = crit started /\
    forall i, (i < PARA_TYPE_CNT)%nat ->
      group i (sys_para p') = checked zero_para (recovered zero_para (nv started)) i.
Proof. apply (para_init_recovers zero_para started); [exact blank_good | exact zero_wf]. Defined.

Lemma para_init_repairs_witness :
  exists p', para_init zero_para started = Some p' /\ fully_valid (image (nv p') user_loc).
Proof.
  destruct (para_init_repairs zero_para started) as (p' & E & H & _);
    [exact blank_good | exact zero_wf | discriminate | exists p'; split; [exact E | exact H]].
Defined.

Lemma pmm_save_group_survives_witness :
  exists p', pmm_save_group started 3 = Some p' /\ crit p' = crit started.
Proof.
  destruct (pmm_save_group_survives zero_para started 3) as (p' & E & H & _);
    [exact blank_good | exact zero_wf | exact zero_wf | unfold PARA_TYPE_CNT; lia | discriminate
    | exists p'; split; [exact E | exact H]].
Defined.

(** A user area with the right checksums of an all-zero parameter set; the
    backup has the same checksum words but no magic. *)
Definition zero_valid : list Z := Eval vm_compute in
  match para_recalculate_all_crc zero_para with Some l => l | None => [] end.
Definition trusting : pmm (board nor) :=
  mk_pmm zero_para zero_para 0 0 0 [] [] 0
    (mk_board (mk_nor (fun a => nth (Z.to_nat (a - USER_PARA_ADDR)) zero_valid 0) true)
              (mk_at24 (fun a => if a <? 1000 then 0 else nth (Z.to_nat a) zero_valid 0) 0 Idle)).

Lemma zero_valid_byte n : is_byte (nth n zero_valid 0).
Proof.
  destruct (nth_in_or_default n zero_valid 0) as [Hin| ->]; [|split; lia].
  assert (H : forallb (fun b => (0 <=? b) && (b <? 256)) zero_valid = true) by (vm_compute; reflexivity).
  rewrite forallb_forall in H. specialize (H _ Hin). unfold is_byte. lia.
Qed.
Lemma trusting_good : nv_good (nv trusting).
Proof.
  split; [reflexivity|]. intros [] a; cbn -[nth zero_valid]; [apply zero_valid_byte|].
  destruct (a <? 1000); [split; lia | apply zero_valid_byte].
Qed.
Lemma trusting_user : image (nv trusting) user_loc = zero_valid.
Proof. vm_compute. reflexivity. Qed.
Lemma zero_valid_full : fully_valid zero_valid.
Proof.
  split; [vm_compute; reflexivity|]. intros i Hi.
  assert (H : forallb (fun i => valid i zero_valid) (seq 0 PARA_TYPE_CNT) = true) by (vm_compute; reflexivity).
  rewrite forallb_forall in H. apply H, in_seq. lia.
Qed.

Lemma para_init_trusts_backup_words_witness :
  (exists p', para_init zero_para trusting = Some p' /\ same_mem (nv trusting) (nv p')) /\
  magic (image (nv trusting) backup_loc) = 0.
Proof.
  split; [|vm_compute; reflexivity].
  apply (para_init_trusts_backup_words zero_para trusting).
  - exact trusting_good.
  - exact zero_wf.
  - rewrite trusting_user. exact zero_valid_full.
  - rewrite trusting_user. discriminate.
  - vm_compute. reflexivity.
Defined.

Lemma restore_to_factory_branches_witness :
  exists p', pmm_restore_to_factory started = Some p' /\ crit p' = 1.
Proof.
  destruct (restore_to_factory_branches started) as (p' & E & _ & [(H & _)|(_ & Hc & _)]);
    [exact blank_good | exact zero_wf | | exists p'; split; [exact E | exact Hc]].
  exfalso. destruct H as [H _]. vm_compute in H. discriminate H.
Defined.
