(* ===== verification/Rtc.v ===== *)
(** * gd32_rtc.c: calendar time and the RTC registers

    The seconds are [uint32_t]; the two RTC registers and the outcome of the
    vendor's waiting functions are the state of [rtc]. *)
From Stdlib Require Import ZifyBool.
From S2P Require Import Prelude Generic.

Definition START_YEAR : Z := 1970.
Definition month_offset : list Z := [0; 31; 59; 90; 120; 151; 181; 212; 243; 273; 304; 334].
Definition month_days (feb : Z) : list Z := [31; feb; 31; 30; 31; 30; 31; 31; 30; 31; 30; 31].
Definition leap_year (y : Z) : bool := (Z.land y 3 =? 0) && negb (y =? 2100).
Definition days_in_year (y : Z) : Z := if leap_year y then 366 else 365.

Record rtc_time_t := mk_time {
  year : Z; month : Z; mday : Z; wday : Z; hour : Z; minute : Z; second : Z }.

(** The calls with a two-digit month give [month_offset] an index of 0 to 11. *)
Definition gregorian_day (year month mday : Z) : option Z :=
  let last_year := year - 1 in
  let leaps_day := last_year ÷ 4 - last_year ÷ 100 + last_year ÷ 400 in
  let day := if (Z.rem year 4 =? 0) && (negb (Z.rem year 100 =? 0) || (Z.rem year 400 =? 0)) && (2 <? month)
             then 1 else 0 in
  off ← ld month_offset (month - 1);
  Some (u8 (Z.rem (day + (last_year * 365 + leaps_day + off + mday)) 7)).

(** [for (i = START_YEAR; day >= days_in_year(i); i++)]; 200 turns are enough
    for every 32-bit second count. *)
Fixpoint year_loop (fuel : nat) (i day : Z) : option (Z * Z) :=
  match fuel with
  | O => None
  | S fuel =>
      if days_in_year i <=? day then year_loop fuel (i + 1) (day - days_in_year i)
      else Some (i, day)
  end.
Fixpoint month_loop (l : list Z) (i day : Z) : option (Z * Z) :=
  match l with
  | [] => None
  | n :: l => if n <=? day then month_loop l (i + 1) (day - n) else Some (i, day)
  end.

Definition gd32_rtc_sec_to_time (sec : Z) : option rtc_time_t :=
  let day := sec / 86400 in
  let hms := sec mod 86400 in
  '(y, day) ← year_loop 200 START_YEAR day;
  '(i, day) ← month_loop (month_days (if leap_year y then 29 else 28)) 0 day;
  w ← gregorian_day y (i + 1) (day + 1);
  Some (mk_time (u16 y) (u8 (i + 1)) (u8 (day + 1)) w
          (u8 (hms / 3600)) (u8 (hms mod 3600 / 60)) (u8 (hms mod 3600 mod 60))).

Definition gd32_rtc_time_to_sec (t : rtc_time_t) : Z :=
  let '(y, m) := if month t <=? 2 then (u32 (year t - 1), month t + 10) else (year t, u32 (month t - 2)) in
  let day := u32 (y / 4 - y / 100 + y / 400 + u32 (367 * m) / 12 + mday t) in
  let day := u32 (day + u32 (u32 (y * 365) - 719499)) in
  u32 (((day * 24 + hour t) * 60 + minute t) * 60 + second t).

Definition gd32_rtc_diff_time (t1 t2 : rtc_time_t) : Z :=
  s32 (u32 (gd32_rtc_time_to_sec t2 - gd32_rtc_time_to_sec t1)).

(** ** The registers *)

(** [init_ok]: the initialisation mode is reached; [sync_ok]: the shadow
    registers synchronise. *)
Record rtc := mk_rtc { RTC_DATE : Z; RTC_TIME : Z; init_ok : bool; sync_ok : bool }.

(** [to_BCD] of an [int]. *)
Definition BCD_int (n : Z) : Z := Z.lor (Z.shiftl (n ÷ 10) 4) (Z.rem n 10).

Definition gd32_rtc_set_time (r : rtc) (t : rtc_time_t) : rtc * Z :=
  if negb (init_ok r) then (r, -1)
  else
    let date := Z.lor (Z.lor (Z.shiftl (BCD_int (year t - 2000)) 16)
                             (Z.shiftl (BCD_int (month t)) 8)) (BCD_int (mday t)) in
    let time := Z.lor (Z.lor (Z.shiftl (BCD_int (hour t)) 16)
                             (Z.shiftl (BCD_int (minute t)) 8)) (BCD_int (second t)) in
    (mk_rtc (u32 date) (u32 time) (init_ok r) (sync_ok r), if sync_ok r then 0 else -1).

Definition gd32_rtc_get_time (r : rtc) : option rtc_time_t :=
  if negb (sync_ok r) then None
  else
    let tr := RTC_TIME r in
    let dr := RTC_DATE r in
    Some (mk_time (u16 (from_BCD (Z.land (Z.shiftr dr 16) 0xff) + 2000))
            (u8 (from_BCD (Z.land (Z.shiftr dr 8) 0x1f))) (u8 (from_BCD (Z.land dr 0x3f)))
            (Z.land (Z.shiftr dr 13) 7)
            (u8 (from_BCD (Z.land (Z.shiftr tr 16) 0x3f))) (u8 (from_BCD (Z.land (Z.shiftr tr 8) 0x7f)))
            (u8 (from_BCD (Z.land tr 0x7f)))).

Definition gd32_rtc_set_second (r : rtc) (val : Z) : option (rtc * Z) :=
  t ← gd32_rtc_sec_to_time val; Some (gd32_rtc_set_time r t).
Definition gd32_rtc_get_second (r : rtc) : Z :=
  match gd32_rtc_get_time r with None => 0 | Some t => gd32_rtc_time_to_sec t end.

Example epoch : gd32_rtc_sec_to_time 0 = Some (mk_time 1970 1 1 4 0 0 0).
Proof. vm_compute. reflexivity. Qed.
Example leap : gd32_rtc_sec_to_time 1709210096 = Some (mk_time 2024 2 29 4 12 34 56).
Proof. vm_compute. reflexivity. Qed.
Example last_second : gd32_rtc_sec_to_time 4294967295 = Some (mk_time 2106 2 7 0 6 28 15).
Proof. vm_compute. reflexivity. Qed.

(** * Properties *)

(** ** The calendar *)

Definition valid_time (t : rtc_time_t) : Prop :=
  1970 <= year t <= 2106 /\ 1 <= month t <= 12 /\
  1 <= mday t <= nth (Z.to_nat (month t - 1)) (month_days (if leap_year (year t) then 29 else 28)) 0 /\
  0 <= hour t < 24 /\ 0 <= minute t < 60 /\ 0 <= second t < 60.

(** Days from 1970-01-01 to the first of January, [k] years on. *)
Fixpoint days_to (k : nat) : Z :=
  match k with O => 0 | S k => days_to k + days_in_year (START_YEAR + Z.of_nat k) end.

Lemma days_in_year_pos y : 365 <= days_in_year y <= 366.
Proof. unfold days_in_year. destruct (leap_year y); lia. Qed.

Lemma year_loop_spec fuel : forall k day,
  0 <= day -> day < 365 * (Z.of_nat fuel) ->
  exists k' r, year_loop fuel (START_YEAR + Z.of_nat k) day = Some (START_YEAR + Z.of_nat k', r) /\
    (k <= k')%nat /\ 0 <= r < days_in_year (START_YEAR + Z.of_nat k') /\
    days_to k + day = days_to k' + r.
Proof.
  induction fuel as [|fuel IH]; intros k day H0 H1; [lia|]. cbn [year_loop].
  pose proof (days_in_year_pos (START_YEAR + Z.of_nat k)) as Hd.
  destruct (Z.leb_spec (days_in_year (START_YEAR + Z.of_nat k)) day).
  - replace (START_YEAR + Z.of_nat k + 1) with (START_YEAR + Z.of_nat (S k)) by lia.
    destruct (IH (S k) (day - days_in_year (START_YEAR + Z.of_nat k))) as (k' & r & -> & Hk & Hr & E); [lia|lia|].
    exists k', r. split; [done|]. cbn [days_to] in E. split; [lia|]. split; [done|lia].
  - exists k, day. done.
Qed.

Lemma days_to_mono k k' : (k <= k')%nat -> days_to k <= days_to k'.
Proof.
  induction 1; [lia|]. cbn [days_to]. pose proof (days_in_year_pos (START_YEAR + Z.of_nat m)). lia.
Qed.

(** The day number of the first of March less one, by Gauss's formula. *)
Definition gauss (y : Z) : Z := y / 4 - y / 100 + y / 400 + 365 * y.

Lemma year_facts (k : Z) : 0 <= k < 137 ->
  let y := 1970 + k in
  days_to (Z.to_nat k) = gauss (y - 1) - 719162 /\
  days_to (Z.to_nat k) = gauss y - 719527 - (if leap_year y then 1 else 0) /\
  leap_year y = (Z.rem y 4 =? 0) && (negb (Z.rem y 100 =? 0) || (Z.rem y 400 =? 0)).
Proof.
  intros Hk. cbn zeta.
  pose proof (all_below (fun k => (days_to (Z.to_nat k) =? gauss (1970 + k - 1) - 719162)
    && (days_to (Z.to_nat k) =? gauss (1970 + k) - 719527 - (if leap_year (1970 + k) then 1 else 0))
    && Bool.eqb (leap_year (1970 + k)) ((Z.rem (1970 + k) 4 =? 0)
         && (negb (Z.rem (1970 + k) 100 =? 0) || (Z.rem (1970 + k) 400 =? 0)))) 137
    ltac:(vm_compute; reflexivity) k Hk) as H.
  cbn beta in H. rewrite !andb_true_iff, !Z.eqb_eq, Bool.eqb_true_iff in H. tauto.
Qed.

Definition month_check (b : bool) (r : Z) : bool :=
  ((if b then 366 else 365) <=? r)
  || match month_loop (month_days (if b then 29 else 28)) 0 r with
     | Some (i, d) =>
         (0 <=? i) && (i <? 12) && (0 <=? d) && (d <? nth (Z.to_nat i) (month_days (if b then 29 else 28)) 0)
         && (d <? 31)
         && match ld month_offset i with
            | Some off => ((if (2 <? i + 1) && b then 1 else 0) + off + d =? r)
            | None => false end
         && (if i + 1 <=? 2 then 367 * (i + 11) / 12 + d =? r + 336
             else 367 * (i - 1) / 12 + d =? r - 29 - (if b then 1 else 0))
     | None => false end.

Lemma month_facts (b : bool) (r : Z) : 0 <= r < (if b then 366 else 365) ->
  exists i d off, month_loop (month_days (if b then 29 else 28)) 0 r = Some (i, d) /\
    0 <= i < 12 /\ 0 <= d < nth (Z.to_nat i) (month_days (if b then 29 else 28)) 0 /\ d < 31 /\
    ld month_offset i = Some off /\
    (if (2 <? i + 1) && b then 1 else 0) + off + d = r /\
    (if i + 1 <=? 2 then 367 * (i + 11) / 12 + d = r + 336
     else 367 * (i - 1) / 12 + d = r - 29 - (if b then 1 else 0)).
Proof.
  intros Hr. assert (Hc : forallb (fun i => month_check b (Z.of_nat i)) (seq 0 366) = true)
    by (destruct b; vm_compute; reflexivity).
  pose proof (all_below (month_check b) 366 Hc r) as H. clear Hc.
  assert (Hr' : 0 <= r < Z.of_nat 366) by (destruct b; lia).
  specialize (H Hr'). unfold month_check in H. apply orb_true_iff in H as [H|H]; [destruct b; lia|].
  destruct (month_loop _ 0 r) as [[i d]|]; [|done].
  destruct (ld month_offset i) as [off|] eqn:Eoff; [|by rewrite !andb_false_r in H].
  exists i, d, off. rewrite !andb_true_iff in H. destruct H as [[[[[[? ?] ?] ?] ?] ?] Hlast].
  split; [done|]. do 3 (split; [lia|]). split; [done|]. split; [lia|].
  destruct (i + 1 <=? 2); lia.
Qed.

Lemma leap_year_days y : days_in_year y = if leap_year y then 366 else 365.
Proof. done. Qed.

(** The conversion, field by field. *)
Lemma sec_to_time_spec sec : 0 <= sec < 2 ^ 32 ->
  exists t k r, gd32_rtc_sec_to_time sec = Some t /\ valid_time t /\
    0 <= k < 137 /\ year t = 1970 + k /\ 0 <= r < days_in_year (year t) /\
    days_to (Z.to_nat k) + r = sec / 86400 /\
    (if month t <=? 2 then 367 * (month t + 10) / 12 + mday t = r + 337
     else 367 * (month t - 2) / 12 + mday t = r - 28 - (if leap_year (year t) then 1 else 0)) /\
    (hour t * 60 + minute t) * 60 + second t = sec mod 86400 /\
    wday t = (sec / 86400 + 4) mod 7.
Proof.
  intros Hs. unfold gd32_rtc_sec_to_time.
  assert (Hday : 0 <= sec / 86400 < 49711) by zdm.
  assert (Hh : 0 <= sec mod 86400 < 86400) by (apply Z.mod_pos_bound; lia).
  destruct (year_loop_spec 200 0 (sec / 86400)) as (k & r & E & Hk & Hr & Heq); [lia|lia|].
  change (START_YEAR + Z.of_nat 0) with START_YEAR in E. rewrite E. cbn [mbind option_bind].
  cbn [days_to] in Heq.
  assert (Hk' : (k < 137)%nat).
  { destruct (decide (k < 137)%nat); [done|]. pose proof (days_to_mono 137 k ltac:(lia)) as Hm.
    change (days_to 137) with 50038 in Hm. lia. }
  assert (exists y, y = START_YEAR + Z.of_nat k) as [y Hy] by eauto. rewrite <- Hy in *. unfold START_YEAR in Hy.
  destruct (month_facts (leap_year y) r) as (i & d & off & -> & Hi & Hd & Hd' & Hoff & Hsum & Hm).
  { rewrite <- leap_year_days. exact Hr. }
  cbn [mbind option_bind]. unfold gregorian_day.
  replace (i + 1 - 1) with i by lia. rewrite Hoff. cbn [mbind option_bind].
  destruct (year_facts (Z.of_nat k)) as (F1 & F2 & F3); [lia|]. cbn zeta in F1, F2, F3. rewrite <- Hy in F1, F2, F3.
  rewrite Nat2Z.id in F1, F2. rewrite <- F3.
  eexists _, (Z.of_nat k), r. split; [reflexivity|].
  cbn [year month mday wday hour minute second].
  rewrite (u16_small y), (u8_small (i + 1)), (u8_small (d + 1)) by lia.
  assert (Hhms : 0 <= sec mod 86400 / 3600 < 24 /\ 0 <= sec mod 86400 mod 3600 / 60 < 60 /\
    0 <= sec mod 86400 mod 3600 mod 60 < 60 /\
    (sec mod 86400 / 3600 * 60 + sec mod 86400 mod 3600 / 60) * 60 + sec mod 86400 mod 3600 mod 60 = sec mod 86400).
  { revert Hh. generalize (sec mod 86400). intros h Hh. zdm. }
  rewrite (u8_small (sec mod 86400 / 3600)), (u8_small (sec mod 86400 mod 3600 / 60)),
    (u8_small (sec mod 86400 mod 3600 mod 60)) by lia. rewrite Nat2Z.id.
  split.
  { unfold valid_time. cbn [year month mday hour minute second]. replace (i + 1 - 1) with i by lia.
    split; [lia|]. split; [lia|]. split; [lia|]. split; [lia|]. split; lia. }
  split; [lia|]. split; [lia|]. split; [done|]. split; [lia|].
  split. { replace (i + 1 + 10) with (i + 11) by lia. replace (i + 1 - 2) with (i - 1) by lia.
           destruct (i + 1 <=? 2); lia. }
  split; [tauto|].
  assert (Hw : (if leap_year y && (2 <? i + 1) then 1 else 0) +
    ((y - 1) * 365 + ((y - 1) ÷ 4 - (y - 1) ÷ 100 + (y - 1) ÷ 400) + off + (d + 1)) = sec / 86400 + 719163).
  { rewrite !Z.quot_div_nonneg by lia. unfold gauss in F1. rewrite andb_comm in Hsum.
    destruct (leap_year y), (2 <? i + 1); cbn [andb] in *; lia. }
  rewrite Hw, Z.rem_mod_nonneg by lia. rewrite u8_small by (pose proof (Z.mod_pos_bound (sec / 86400 + 719163) 7); lia).
  clear - Hday. revert Hday. generalize (sec / 86400). intros q Hq. zdm.
Qed.

Lemma u32_congr a b : (exists k, a = b + k * 2 ^ 32) -> u32 a = u32 b.
Proof. intros [k ->]. unfold u32. apply Z.mod_add. lia. Qed.

Lemma time_to_sec_spec t k r : valid_time t -> 0 <= k < 137 -> year t = 1970 + k -> 0 <= r < 366 ->
  (if month t <=? 2 then 367 * (month t + 10) / 12 + mday t = r + 337
   else 367 * (month t - 2) / 12 + mday t = r - 28 - (if leap_year (year t) then 1 else 0)) ->
  gd32_rtc_time_to_sec t
    = u32 ((((days_to (Z.to_nat k) + r) * 24 + hour t) * 60 + minute t) * 60 + second t).
Proof.
  intros (Hy & Hmo & Hd & Hh & Hmi & Hse) Hk Ey Hr Hm.
  assert (Hd' : 1 <= mday t <= 31).
  { split; [lia|]. etrans; [apply Hd|]. destruct (leap_year (year t));
      (assert (Hx : 0 <= month t - 1 < 12) by lia); clear - Hx; revert Hx; generalize (month t - 1); intros x Hx;
      assert (x = 0 \/ x = 1 \/ x = 2 \/ x = 3 \/ x = 4 \/ x = 5 \/ x = 6 \/ x = 7 \/ x = 8 \/ x = 9 \/ x = 10 \/ x = 11) as Hc by lia;
      repeat (destruct Hc as [-> | Hc]; [done|]); by subst. }
  destruct (year_facts k Hk) as (F1 & F2 & _). cbn zeta in F1, F2. rewrite <- Ey in F1, F2.
  set (D := days_to (Z.to_nat k) + r) in *.
  assert (Hday : forall y m, 1969 <= y <= 2106 -> 1 <= m <= 12 ->
    gauss y + 367 * m / 12 + mday t - 719499 = D ->
    u32 (u32 (y / 4 - y / 100 + y / 400 + u32 (367 * m) / 12 + mday t) + u32 (u32 (y * 365) - 719499)) = u32 D).
  { intros y m Hyy Hmm E. assert (0 <= 367 * m / 12 <= 367) by zdm. unfold gauss in E.
    assert (0 <= y / 4 - y / 100 + y / 400 <= 2000) by zdm.
    rewrite (u32_small (367 * m)) by lia. rewrite (u32_small (y / 4 - y / 100 + y / 400 + 367 * m / 12 + mday t)) by lia.
    rewrite (u32_small (y * 365)) by lia. unfold u32. rewrite Zplus_mod_idemp_r. f_equal. lia. }
  assert (Hfin : forall d, u32 d = u32 D ->
    u32 (((u32 d * 24 + hour t) * 60 + minute t) * 60 + second t)
    = u32 (((D * 24 + hour t) * 60 + minute t) * 60 + second t)).
  { intros d ->. apply u32_congr. unfold u32. exists (- (D / 2 ^ 32) * 24 * 3600).
    pose proof (Z.div_mod D (2 ^ 32)). lia. }
  unfold gd32_rtc_time_to_sec. destruct (Z.leb_spec (month t) 2) as [Hm2|Hm2].
  - rewrite (u32_small (year t - 1)) by lia. apply Hfin, Hday; unfold D; lia.
  - rewrite (u32_small (month t - 2)) by lia. apply Hfin, Hday; unfold D; lia.
Qed.

(** ** The registers *)

Lemma BCD_int_small n : 0 <= n < 100 ->
  BCD_int n = n / 10 * 16 + n mod 10 /\ from_BCD (BCD_int n) = n /\ 0 <= BCD_int n < 160.
Proof.
  intros Hn. pose proof (all_below (fun n => (BCD_int n =? n / 10 * 16 + n mod 10)
    && (from_BCD (BCD_int n) =? n) && (0 <=? BCD_int n) && (BCD_int n <? 160)) 100
    ltac:(vm_compute; reflexivity) n Hn) as H. cbn beta in H.
  rewrite !andb_true_iff, !Z.eqb_eq, Z.leb_le, Z.ltb_lt in H. tauto.
Qed.

Lemma pack_fields a b c : 0 <= a -> 0 <= b < 256 -> 0 <= c < 256 ->
  Z.lor (Z.lor (Z.shiftl a 16) (Z.shiftl b 8)) c = a * 65536 + b * 256 + c.
Proof.
  intros. rewrite !Z.shiftl_mul_pow2 by lia.
  rewrite (lor_add 16 a (b * 2 ^ 8)) by lia.
  replace (a * 2 ^ 16 + b * 2 ^ 8) with ((a * 256 + b) * 2 ^ 8) by lia.
  rewrite (lor_add 8) by lia. lia.
Qed.

(** A time of 2000 to 2099 written to the registers and read back; the weekday
    field of the register is left at 0. *)
Lemma rtc_set_get r t : valid_time t -> 2000 <= year t < 2100 -> init_ok r = true -> sync_ok r = true ->
  exists r', gd32_rtc_set_time r t = (r', 0) /\ init_ok r' = true /\ sync_ok r' = true /\
    gd32_rtc_get_time r' = Some (mk_time (year t) (month t) (mday t) 0 (hour t) (minute t) (second t)).
Proof.
  intros (Hy & Hmo & Hd & Hh & Hmi & Hse) Hyr Hi Hsy. unfold gd32_rtc_set_time. rewrite Hi, Hsy. cbn [negb].
  eexists. split; [reflexivity|]. split; [done|]. split; [done|]. unfold gd32_rtc_get_time.
  cbn [sync_ok negb RTC_DATE RTC_TIME].
  assert (Hd' : 1 <= mday t <= 31).
  { split; [lia|]. etrans; [apply Hd|].
    pose proof (all_below (fun i => (nth (Z.to_nat i) (month_days 29) 0 <=? 31) && (nth (Z.to_nat i) (month_days 28) 0 <=? 31)) 12
      ltac:(vm_compute; reflexivity) (month t - 1) ltac:(lia)) as Hx. cbn beta in Hx.
    destruct (leap_year (year t)); lia. }
  destruct (BCD_int_small (year t - 2000)) as (_ & Ey & Ry); [lia|].
  assert (Small : forall n m, 0 <= n < m -> m <= 60 -> BCD_int n < (m - 1) / 10 * 16 + 10 /\ 0 <= BCD_int n /\ from_BCD (BCD_int n) = n).
  { intros n m Hn Hm. destruct (BCD_int_small n) as (E & F & R); [lia|]. split; [|split; [lia|done]]. rewrite E. zdm. }
  destruct (Small (month t) 13) as (Rmo & Rmo' & Emo); [lia|lia|].
  destruct (Small (mday t) 32) as (Rd & Rd' & Ed); [lia|lia|].
  destruct (Small (hour t) 24) as (Rh & Rh' & Eh); [lia|lia|].
  destruct (Small (minute t) 60) as (Rmi & Rmi' & Emi); [lia|lia|].
  destruct (Small (second t) 60) as (Rs & Rs' & Es); [lia|lia|]. clear Small.
  change ((13 - 1) / 10 * 16 + 10) with 26 in *. change ((32 - 1) / 10 * 16 + 10) with 58 in *.
  change ((24 - 1) / 10 * 16 + 10) with 42 in *. change ((60 - 1) / 10 * 16 + 10) with 90 in *.
  rewrite !pack_fields by lia.
  change 7 with (Z.ones 3). change 0xff with (Z.ones 8). change 0x1f with (Z.ones 5). change 0x3f with (Z.ones 6).
  change 0x7f with (Z.ones 7).
  rewrite !Z.land_ones, !Z.shiftr_div_pow2 by lia. rewrite !u32_small by lia.
  set (Y := BCD_int (year t - 2000)) in *. set (M := BCD_int (month t)) in *. set (D := BCD_int (mday t)) in *.
  set (H := BCD_int (hour t)) in *. set (N := BCD_int (minute t)) in *. set (S := BCD_int (second t)) in *.
  replace ((Y * 65536 + M * 256 + D) / 2 ^ 16 mod 2 ^ 8) with Y by zdm.
  replace ((Y * 65536 + M * 256 + D) / 2 ^ 8 mod 2 ^ 5) with M by zdm.
  replace ((Y * 65536 + M * 256 + D) mod 2 ^ 6) with D by zdm.
  replace ((Y * 65536 + M * 256 + D) / 2 ^ 13 mod 2 ^ 3) with 0 by zdm.
  replace ((H * 65536 + N * 256 + S) / 2 ^ 16 mod 2 ^ 6) with H by zdm.
  replace ((H * 65536 + N * 256 + S) / 2 ^ 8 mod 2 ^ 7) with N by zdm.
  replace ((H * 65536 + N * 256 + S) mod 2 ^ 7) with S by zdm.
  rewrite Ey, Emo, Ed, Eh, Emi, Es. rewrite u16_small, !u8_small by lia. do 2 f_equal. lia.
Qed.

(** * Properties *)

(** [C25] Calendar conversion: every 32-bit second count is a valid date and
    time of 1970 to 2106 with the right weekday (Sunday is 0), and converting
    back gives the same count. *)
Theorem sec_time_round_trip sec : 0 <= sec < 2 ^ 32 ->
  exists t, gd32_rtc_sec_to_time sec = Some t /\ valid_time t /\
    wday t = (sec / 86400 + 4) mod 7 /\ gd32_rtc_time_to_sec t = sec.
Proof.
  intros Hs. destruct (sec_to_time_spec sec Hs) as (t & k & r & E & Hv & Hk & Hy & Hr & Hd & Hm & Hh & Hw).
  exists t. split; [done|]. split; [done|]. split; [done|].
  pose proof (days_in_year_pos (year t)).
  rewrite (time_to_sec_spec t k r Hv Hk Hy ltac:(lia) Hm), Hd, u32_small; zdm.
Qed.

Lemma sec_time_round_trip_witness :
  exists t, gd32_rtc_sec_to_time 1709210096 = Some t /\ gd32_rtc_time_to_sec t = 1709210096.
Proof.
  destruct (sec_time_round_trip 1709210096) as (t & E & _ & _ & H); [split; lia|].
  exists t. split; [exact E | exact H].
Defined.

(** Setting the clock: on a working RTC, [gd32_rtc_set_second] succeeds
    for every second of 2000 to 2099 and [gd32_rtc_get_second] then reads that
    second back through the BCD registers; the weekday field stays 0. *)
Theorem rtc_set_get_second r val :
  946684800 <= val < 4102444800 -> init_ok r = true -> sync_ok r = true ->
  exists r', gd32_rtc_set_second r val = Some (r', 0) /\ gd32_rtc_get_second r' = val /\
    exists t, gd32_rtc_get_time r' = Some t /\ wday t = 0.
Proof.
  intros Hs Hi Hsy. assert (Hs' : 0 <= val < 2 ^ 32) by lia.
  destruct (sec_to_time_spec val Hs') as (t & k & r0 & E & Hv & Hk & Hy & Hr & Hd & Hm & Hh & _).
  assert (Hyr : 2000 <= year t < 2100).
  { assert (Hq : 10957 <= val / 86400 < 47482) by zdm. pose proof (days_in_year_pos (year t)).
    split.
    - destruct (Z.le_gt_cases 2000 (year t)); [done|].
      pose proof (days_to_mono (S (Z.to_nat k)) 30 ltac:(lia)) as Hx. change (days_to 30) with 10957 in Hx.
      cbn [days_to] in Hx. replace (START_YEAR + Z.of_nat (Z.to_nat k)) with (year t) in Hx by (unfold START_YEAR; lia). lia.
    - destruct (Z.lt_ge_cases (year t) 2100); [done|].
      pose proof (days_to_mono 130 (Z.to_nat k) ltac:(lia)) as Hx. change (days_to 130) with 47482 in Hx. lia. }
  unfold gd32_rtc_set_second. rewrite E. cbn [mbind option_bind].
  destruct (rtc_set_get r t Hv Hyr Hi Hsy) as (r' & E' & _ & _ & Eg). rewrite E'.
  exists r'. split; [done|]. split; [|by eexists].
  unfold gd32_rtc_get_second. rewrite Eg. pose proof (days_in_year_pos (year t)).
  rewrite (time_to_sec_spec _ k r0); cbn [year month mday hour minute second]; try done; [|lia].
  rewrite Hd, u32_small; zdm.
Qed.

Lemma rtc_set_get_second_witness :
  exists r', gd32_rtc_set_second (mk_rtc 0 0 true true) 1709210096 = Some (r', 0) /\
    gd32_rtc_get_second r' = 1709210096.
Proof.
  destruct (rtc_set_get_second (mk_rtc 0 0 true true) 1709210096) as (r' & E & H & _);
    [split; lia | reflexivity | reflexivity | exists r'; split; [exact E | exact H]].
Defined.
