(* ===== verification/Record.v ===== *)
(** * record.c, record_cfg.c: the record rings in the EEPROM

    Two rings of fixed-size records with an index kept beside them.  The EEPROM
    is reached through [eeprom_read_lock] and [eeprom_write_lock], a client of
    [EepromApi]; storage.c's functions (Eeprom.v) are the instance [storage_c].
    Export to a USB disk is not built and the text formats are not modelled. *)
From Stdlib Require Import ZifyBool.
From S2P Require Import Prelude Generic Eeprom.

(** [ee_read_lock]: the bytes stored in the buffer (possibly fewer than asked
    for) and the return value. *)
Class EepromApi (D : Type) := {
  ee_read_lock : D -> Z -> nat -> D * list Z * Z;
  ee_write_lock : D -> Z -> list Z -> D * Z
}.

(** ** Data (record.h, record_cfg.h, record_cfg.c) *)

Record record_index_t := mk_index {
  head_num : Z; tail_num : Z; count : Z; rsvd : Z; crc : Z }.
Record record_stop_t := mk_stop { stop_type : Z; start : Z; duration : Z }.

Definition REC_TYPE_BBOX : nat := 0.
Definition REC_TYPE_STATE : nat := 1.
Definition REC_TYPE_CNT : nat := 2.
Definition REC_INTVAL_MIN : Z := 300.
Definition REC_REQ_MAX_COUNT : Z := 20.
Definition REC_INDEX_ADDR : Z := 4096.
Definition REC_SIZE : list Z := [26; 5].
Definition REC_CAPACITY : list Z := [(63360 - 4352) / 26; (131008 - 63360) / 5].
Definition REC_START_ADDR : list Z := [4352; 63360].
Definition REC_END_ADDR : list Z := [4352 + (63360 - 4352) / 26 * 26; 63360 + (131008 - 63360) / 5 * 5].

Definition index_bytes (i : record_index_t) : list Z :=
  le_encode 4 (head_num i) ++ le_encode 4 (tail_num i) ++ le_encode 4 (count i)
  ++ le_encode 2 (rsvd i) ++ le_encode 2 (crc i).
Definition index_of (l : list Z) : record_index_t :=
  mk_index (le_decode (get 0 4 l)) (le_decode (get 4 4 l)) (le_decode (get 8 4 l))
    (le_decode (get 12 2 l)) (le_decode (get 14 2 l)).
Definition zero_index : record_index_t := mk_index 0 0 0 0 0.

(** ** record.c *)
Section Record.
Context {D : Type} `{!EepromApi D}.

Record rec_state := mk_rec {
  rec_index : list record_index_t; rec_stop : list record_stop_t; rec_addr : list Z;
  dev_err_record : bool; dev : D }.
Definition set_index (s : rec_state) i x := mk_rec (<[i := x]> (rec_index s)) (rec_stop s) (rec_addr s) (dev_err_record s) (dev s).
Definition set_addr (s : rec_state) i a := mk_rec (rec_index s) (rec_stop s) (<[i := a]> (rec_addr s)) (dev_err_record s) (dev s).
Definition set_dev (s : rec_state) d := mk_rec (rec_index s) (rec_stop s) (rec_addr s) (dev_err_record s) d.
Definition set_stop (s : rec_state) l := mk_rec (rec_index s) l (rec_addr s) (dev_err_record s) (dev s).
Definition set_err (s : rec_state) := mk_rec (rec_index s) (rec_stop s) (rec_addr s) true (dev s).

Definition load_index (s : rec_state) (i : nat) : option (rec_state * Z) :=
  old ← rec_index s !! i;
  let '(d, l, ret) := ee_read_lock (dev s) (REC_INDEX_ADDR + 16 * Z.of_nat i) 16 in
  let idx := index_of (l ++ drop (length l) (index_bytes old)) in
  let s := set_index (set_dev s d) i idx in
  if ret =? 16 then
    crc_calc ← crc16_RTU (index_bytes idx) 14;
    Some (s, if crc_calc =? crc idx then 0 else -1)
  else Some (s, -1).

(** The result of the write is ignored. *)
Definition save_index (s : rec_state) (i : nat) : option (rec_state * Z) :=
  idx ← rec_index s !! i;
  c ← crc16_RTU (index_bytes idx) 14;
  let idx := mk_index (head_num idx) (tail_num idx) (count idx) (rsvd idx) c in
  let '(d, _) := ee_write_lock (dev s) (REC_INDEX_ADDR + 16 * Z.of_nat i) (index_bytes idx) in
  Some (set_dev (set_index s i idx) d, 0).

(** The address of record number [num]. *)
Definition record_address (t : nat) (num : Z) : option Z :=
  a ← REC_START_ADDR !! t; cap ← REC_CAPACITY !! t; size ← REC_SIZE !! t;
  Some (u32 (a + (num mod cap) * size)).

(** One turn of the loop of [record_init]. *)
Definition record_init_step (i : nat) (r : rec_state * Z) : option (rec_state * Z) :=
  let '(s, ret) := r in
  l ← load_index s i;
  let '(s, ret) := if negb (snd l =? 0) then (set_err (set_index (fst l) i zero_index), -1)
                   else (fst l, ret) in
  idx ← rec_index s !! i;
  a ← record_address i (tail_num idx);
  Some (set_addr s i a, ret).
(** Registering the timer task is not modelled; result: the state and the
    return value. *)
Definition record_init (s : rec_state) (interval : Z) : option (rec_state * Z) :=
  if interval <? REC_INTVAL_MIN then Some (s, -1)
  else
    let s := set_stop s [mk_stop 0 0 0; mk_stop 1 0 0] in
    for_loop record_init_step 0 REC_TYPE_CNT (s, 0).

Definition record_clear (s : rec_state) : option rec_state :=
  for_loop (fun i s =>
      r ← save_index (set_index s i zero_index) i;
      a ← REC_START_ADDR !! i;
      Some (set_addr (fst r) i a)) 0 REC_TYPE_CNT s.

Record record_info_t := mk_info { info_size : Z; capacity : Z; first_num : Z; last_num : Z; info_count : Z }.
Definition record_get_info (s : rec_state) (t : nat) : option record_info_t :=
  size ← REC_SIZE !! t; cap ← REC_CAPACITY !! t; idx ← rec_index s !! t;
  Some (mk_info size cap (head_num idx)
          (if tail_num idx =? 0 then 0 else u32 (tail_num idx - 1)) (count idx)).

Definition record_is_stop (s : rec_state) (t : nat) (now_sec : Z) : option Z :=
  info ← rec_stop s !! t;
  Some (if duration info =? 2 ^ 32 - 1 then 1
        else if 0 <? duration info then
               if now_sec <? u32 (start info + duration info) then 1 else 0
             else 0).

(** Result: the state, the bytes stored in [buff] and the return value. *)
Definition record_read (s : rec_state) (t : nat) (num : Z) : option (rec_state * list Z * Z) :=
  addr ← record_address t num; size ← REC_SIZE !! t;
  let '(d, l, ret) := ee_read_lock (dev s) addr (Z.to_nat size) in
  Some (set_dev s d, l, if ret =? size then 0 else -1).

(** Result: the state, the records stored and [num - start].  [count] and
    [num - start] are compared as [uint32_t]. *)
Fixpoint load_loop (fuel : nat) (s : rec_state) (t : nat) (addr count room done : Z)
  : option (rec_state * list Z * Z) :=
  match fuel with
  | O => None
  | S fuel =>
      size ← REC_SIZE !! t; end_addr ← REC_END_ADDR !! t; start_addr ← REC_START_ADDR !! t;
      if room <? size then Some (s, [], done)
      else
        let '(d, l, ret) := ee_read_lock (dev s) addr (Z.to_nat size) in
        let s := set_dev s d in
        if negb (ret =? size) then Some (s, [], done)
        else
          let addr := addr + size in
          let addr := if addr =? end_addr then start_addr else addr in
          if u32 (done + 1) =? count then Some (s, l, u32 (done + 1))
          else
            r ← load_loop fuel s t addr count (room - size) (u32 (done + 1));
            Some (fst (fst r), l ++ snd (fst r), snd r)
  end.
Definition record_load (s : rec_state) (t : nat) (start cnt size : Z)
  : option (rec_state * list Z * Z) :=
  idx ← rec_index s !! t;
  let cnt := if count idx <? u32 cnt then count idx else u32 cnt in
  if cnt =? 0 then Some (s, [], 0)
  else
    addr ← record_address t start;
    load_loop (S (Z.to_nat size)) s t addr cnt size 0.

Definition record_save (s : rec_state) (t : nat) (data : list Z) : option (rec_state * Z) :=
  addr ← rec_addr s !! t; size ← REC_SIZE !! t; cap ← REC_CAPACITY !! t;
  end_addr ← REC_END_ADDR !! t; start_addr ← REC_START_ADDR !! t;
  let '(d, len) := ee_write_lock (dev s) addr (take (Z.to_nat size) data) in
  let s := set_dev s d in
  if negb (len =? size) then Some (s, -1)
  else
    idx ← rec_index s !! t;
    let tail := u32 (tail_num idx + 1) in
    let head := if cap <=? tail then u32 (head_num idx + 1) else head_num idx in
    let cnt := if count idx <? cap then u32 (count idx + 1) else count idx in
    let addr := u32 (addr + size) in
    let addr := if addr =? end_addr then start_addr else addr in
    let s := set_addr (set_index s t (mk_index head tail cnt (rsvd idx) (crc idx))) t addr in
    r ← save_index s t;
    Some (fst r, if negb (snd r =? 0) then -1 else 0).

(** The black-box task: nothing is saved once the record unit is in error;
    [data] is the record it fills in. *)
Definition bbox_record_task (s : rec_state) (data : list Z) : option rec_state :=
  if dev_err_record s then Some s else fst <$> record_save s REC_TYPE_BBOX data.
Definition state_record_task (s : rec_state) (data : list Z) : option rec_state :=
  if dev_err_record s then Some s else fst <$> record_save s REC_TYPE_STATE data.

(** [cmd_stop_record] for a write of [sizeof(record_stop_t)] bytes: the type
    byte of the packet indexes the array unchecked. *)
Definition cmd_stop_record (s : rec_state) (is_write : bool) (data : list Z) (len : Z)
  : option rec_state :=
  if (length data <? 9)%nat then None
  else
    let info := mk_stop (nth 0 data 0) (le_decode (get 1 4 data)) (le_decode (get 5 4 data)) in
    if is_write && (len =? 9) then
      l ← st (rec_stop s) (stop_type info) info;
      Some (set_stop s l)
    else if negb is_write && (len =? 1) then
      _ ← ld (rec_stop s) (stop_type info); Some s
    else Some s.

(** [cmd_get_record], reading records: the content of [rec_buffer].  The
    reply is built but not sent (the call is commented out). *)
Fixpoint get_loop (n : nat) (s : rec_state) (t : nat) (num : Z) : option (rec_state * list Z * Z) :=
  match n with
  | O => Some (s, [], 0)
  | S n =>
      r ← record_read s t num;
      let '(s, l, ret) := r in
      if negb (ret =? 0) then Some (s, [], 0)
      else
        r ← get_loop n s t (u32 (num + 1));
        Some (fst (fst r), l ++ snd (fst r), snd r + 1)
  end.
Definition cmd_get_record (s : rec_state) (req_type first cnt : Z) : option (rec_state * list Z * Z) :=
  info ← record_get_info s (Z.to_nat req_type);
  if (0 <? cnt) && (cnt <=? REC_REQ_MAX_COUNT) && (0 <? first) then
    let cnt := if info_count info <? cnt then info_count info else cnt in
    r ← get_loop (Z.to_nat cnt) s (Z.to_nat req_type) first;
    let '(s, l, n) := r in
    Some (s, u8 req_type :: le_encode 4 first ++ le_encode 4 n ++ l, 0)
  else Some (s, [], 0).
End Record.
Arguments rec_state : clear implicits.
Arguments mk_rec {D}.

(** ** storage.c as the driver; [snd]: another task holds the mutex *)
#[global] Instance storage_c {D} `{!I2cDevice D} : EepromApi (D * bool) := {|
  ee_read_lock s a n :=
    match eeprom_read_lock (fst s) (snd s) a n with
    | Some (d, l, r) => ((d, snd s), l, r)
    | None => (s, [], -1)
    end;
  ee_write_lock s a l :=
    match eeprom_write_lock (fst s) (snd s) a l (zlen l) with
    | Some (d, r) => ((d, snd s), r)
    | None => (s, -1)
    end
|}.

(** A driver as the callers in record.c expect it: both functions return the
    number of bytes transferred.  The firmware has none: storage.c returns 0 or
    -1.  What is proved over this class says how the ring would work with one. *)
Class CountingEeprom (D : Type) `{!EepromApi D} := {
  ee_mem : D -> Z -> Z;
  ee_read_count d a n :
    ee_read_lock d a n = (d, map (fun i => ee_mem d (a + Z.of_nat i)) (seq 0 n), Z.of_nat n);
  ee_write_count d a l : snd (ee_write_lock d a l) = zlen l;
  ee_write_mem d a l x : ee_mem (fst (ee_write_lock d a l)) x = overlay (ee_mem d) a l x
}.

(** A plain memory is such a driver. *)
#[global] Instance plain_api : EepromApi (Z -> Z) := {|
  ee_read_lock d a n := (d, map (fun i => d (a + Z.of_nat i)) (seq 0 n), Z.of_nat n);
  ee_write_lock d a l := (overlay d a l, zlen l)
|}.
#[global] Instance plain_eeprom : CountingEeprom (Z -> Z) := {|
  ee_mem d := d; ee_read_count _ _ _ := eq_refl; ee_write_count _ _ _ := eq_refl;
  ee_write_mem _ _ _ _ := eq_refl
|}.

Definition fresh {D} (d : D) : rec_state D :=
  mk_rec [zero_index; zero_index] [mk_stop 0 0 0; mk_stop 1 0 0] [4352; 63360] false d.

Example save_read :
  (r ← record_save (fresh (fun _ => 0)) REC_TYPE_STATE [1; 2; 3; 4; 5];
   r2 ← record_read (fst r) REC_TYPE_STATE 0; Some (snd r, snd (fst r2), snd r2))
  = Some (0, [1; 2; 3; 4; 5], 0).
Proof. vm_compute. reflexivity. Qed.
Example save_storage_c :
  option_map snd (record_save (fresh (mk_at24 (fun _ => 0) 0 Idle, false)) REC_TYPE_STATE [1; 2; 3; 4; 5])
  = Some (-1).
Proof. vm_compute. reflexivity. Qed.

(** * Properties *)

Lemma types_lt t : (t < REC_TYPE_CNT)%nat -> t = REC_TYPE_BBOX \/ t = REC_TYPE_STATE.
Proof. unfold REC_TYPE_CNT, REC_TYPE_BBOX, REC_TYPE_STATE. lia. Qed.

(** ** With storage.c *)
Section StorageC.
Context {D : Type} `{!I2cDevice D}.

Lemma storage_read_ret (d : D * bool) a n d' l r :
  ee_read_lock d a n = (d', l, r) -> r = 0 \/ r = -1.
Proof.
  cbn. destruct (eeprom_read_lock _ _ _ _) as [[[d0 l0] r0]|] eqn:E; intros H; simplify_eq; [|by right].
  unfold eeprom_read_lock in E. destruct (snd d); [simplify_eq; by left|].
  destruct (eeprom_read _ _ _); [|done]. cbn in E. simplify_eq. case_match; auto.
Qed.
Lemma storage_write_ret (d : D * bool) a l d' r :
  ee_write_lock d a l = (d', r) -> r = 0 \/ r = -1.
Proof.
  cbn. destruct (eeprom_write_lock _ _ _ _ _) as [[d0 r0]|] eqn:E; intros H; simplify_eq; [|by right].
  unfold eeprom_write_lock in E. destruct (snd d); [simplify_eq; by left|].
  destruct (eeprom_write _ _ _ _); [|done]. cbn in E. simplify_eq. case_match; auto.
Qed.

Lemma load_index_fails (s : rec_state (D * bool)) i : is_Some (rec_index s !! i) ->
  exists s', load_index s i = Some (s', -1) /\ length (rec_index s') = length (rec_index s) /\
    (forall j, j <> i -> rec_index s' !! j = rec_index s !! j) /\
    rec_stop s' = rec_stop s /\ rec_addr s' = rec_addr s /\ dev_err_record s' = dev_err_record s.
Proof.
  intros [old Hold]. unfold load_index. rewrite Hold. cbn [mbind option_bind].
  destruct (ee_read_lock _ _ _) as [[d l] r] eqn:E. apply storage_read_ret in E.
  replace (r =? 16) with false by lia. eexists. split; [reflexivity|].
  cbn [set_index set_dev rec_index rec_stop rec_addr dev_err_record].
  split; [by rewrite length_insert|]. split; [|done]. intros j Hj. by rewrite list_lookup_insert_ne.
Qed.

Lemma init_step_fails (s : rec_state (D * bool)) i ret :
  (i < REC_TYPE_CNT)%nat -> length (rec_index s) = 2%nat ->
  exists s', record_init_step i (s, ret) = Some (s', -1) /\ dev_err_record s' = true /\
    rec_index s' = <[i := zero_index]> (rec_index s).
Proof.
  intros Hi Hl. unfold record_init_step.
  destruct (load_index_fails s i) as (s1 & -> & Hl1 & Ho1 & _);
    [apply lookup_lt_is_Some_2; unfold REC_TYPE_CNT in Hi; lia|].
  cbn [mbind option_bind fst snd]. replace (negb (-1 =? 0)) with true by done. cbn iota.
  assert (Hx : rec_index (set_err (set_index s1 i zero_index)) !! i = Some zero_index).
  { cbn. apply list_lookup_insert_eq. unfold REC_TYPE_CNT in Hi. lia. }
  rewrite Hx. cbn [mbind option_bind].
  assert (Ha : exists a, record_address i (tail_num zero_index) = Some a).
  { unfold record_address. destruct (types_lt i Hi) as [-> | ->]; cbn; by eexists. }
  destruct Ha as [a ->]. cbn [mbind option_bind]. eexists. split; [reflexivity|]. split; [done|].
  cbn. apply list_eq. intros j. destruct (decide (j = i)) as [->|Hj].
  - rewrite !list_lookup_insert_eq; [done|unfold REC_TYPE_CNT in Hi; lia|unfold REC_TYPE_CNT in Hi; lia].
  - rewrite !list_lookup_insert_ne by done. by apply Ho1.
Qed.
End StorageC.



(** ** With a driver that counts *)
Section Counting.
Context {D : Type} `{!EepromApi D, !CountingEeprom D}.

Lemma geometry t : (t < REC_TYPE_CNT)%nat ->
  exists a cap size, REC_START_ADDR !! t = Some a /\ REC_CAPACITY !! t = Some cap /\
    REC_SIZE !! t = Some size /\ REC_END_ADDR !! t = Some (a + cap * size) /\
    4352 <= a /\ 0 < cap /\ 0 < size < 100 /\ a + cap * size <= 131072.
Proof.
  intros Ht. destruct (types_lt t Ht) as [-> | ->]; eexists _, _, _;
    (split; [reflexivity|]); (split; [reflexivity|]); (split; [reflexivity|]);
    (split; [reflexivity|]); vm_compute; intuition discriminate.
Qed.

(** The ring after the records [datas] were saved into it. *)
Definition ring (a cap size : Z) (t : nat) (datas : list (list Z)) (s : rec_state D) : Prop :=
  let n := zlen datas in
  length (rec_index s) = 2%nat /\ length (rec_addr s) = 2%nat /\
  (exists idx, rec_index s !! t = Some idx /\ tail_num idx = n /\ count idx = Z.min n cap /\
     head_num idx = (if n <? cap then 0 else n - cap + 1)) /\
  rec_addr s !! t = Some (a + (n mod cap) * size) /\
  forall num data, datas !! num = Some data -> n - cap <= Z.of_nat num ->
    forall i, (i < Z.to_nat size)%nat ->
      ee_mem (dev s) (a + (Z.of_nat num mod cap) * size + Z.of_nat i) = nth i data 0.

Lemma index_crc idx : exists c, crc16_RTU (index_bytes idx) 14 = Some c.
Proof.
  set (b := le_encode 4 (head_num idx) ++ le_encode 4 (tail_num idx) ++ le_encode 4 (count idx)
    ++ le_encode 2 (rsvd idx)).
  exists (crc16_rtu_ref b). replace (index_bytes idx) with (b ++ le_encode 2 (crc idx)).
  - change 14 with (zlen b). apply (crc16_RTU_ref b (le_encode 2 (crc idx))).
    unfold b. rewrite !Forall_app. repeat split; apply le_encode_bytes.
  - unfold b, index_bytes. by rewrite <- !app_assoc.
Qed.
Lemma index_bytes_length idx : length (index_bytes idx) = 16%nat.
Proof. unfold index_bytes. by rewrite !length_app, !le_encode_length. Qed.

Lemma slot_disjoint size x y i j : 0 < size -> x <> y -> 0 <= i < size -> 0 <= j < size ->
  x * size + i <> y * size + j.
Proof. intros. destruct (Z.lt_trichotomy x y) as [?|[?|?]]; nia. Qed.
Lemma same_slot cap n m : 0 < cap -> 0 < n - m < cap -> n mod cap <> m mod cap.
Proof.
  intros Hc Hd E. pose proof (Z.div_mod n cap ltac:(lia)). pose proof (Z.div_mod m cap ltac:(lia)).
  assert (En : n - m = cap * (n / cap - m / cap)) by (rewrite Z.mul_sub_distr_l; lia).
  assert (0 < n / cap - m / cap < 1) by nia. lia.
Qed.
Lemma next_slot cap n : 0 < cap -> 0 <= n ->
  (n mod cap + 1 = cap /\ (n + 1) mod cap = 0) \/ (n mod cap + 1 < cap /\ (n + 1) mod cap = n mod cap + 1).
Proof.
  intros Hc Hn. pose proof (Z.mod_pos_bound n cap Hc). pose proof (Z.div_mod n cap ltac:(lia)) as E.
  destruct (decide (n mod cap + 1 = cap)) as [E1|E1]; [left|right].
  - split; [done|]. replace (n + 1) with (0 + (n / cap + 1) * cap) by lia. by rewrite Z.mod_add, Z.mod_0_l by lia.
  - split; [lia|]. replace (n + 1) with (n mod cap + 1 + (n / cap) * cap) by lia.
    rewrite Z.mod_add, Z.mod_small by lia. done.
Qed.

Lemma record_save_ring a cap size t datas s data :
  (t < REC_TYPE_CNT)%nat -> REC_START_ADDR !! t = Some a -> REC_CAPACITY !! t = Some cap ->
  REC_SIZE !! t = Some size -> REC_END_ADDR !! t = Some (a + cap * size) ->
  4352 <= a -> 0 < cap -> 0 < size < 100 -> a + cap * size <= 131072 ->
  ring a cap size t datas s -> zlen data = size -> zlen datas + 1 < 2 ^ 32 ->
  exists s', record_save s t data = Some (s', 0) /\ ring a cap size t (datas ++ [data]) s'.
Proof.
  intros Ht Ea Ec Es Ee Ha Hc Hs Hend (Hl1 & Hl2 & (idx & Ei & Hti & Hci & Hhi) & Ead & Hmem) Hd Hn.
  pose proof (Z.mod_pos_bound (zlen datas) cap Hc) as Hmod.
  unfold record_save. rewrite Ead, Es, Ec, Ee, Ea. cbn [mbind option_bind].
  replace (Z.to_nat size) with (length data) by lia. rewrite take_ge by lia.
  destruct (ee_write_lock (dev s) (a + (zlen datas mod cap) * size) data) as [d r] eqn:Ew.
  assert (Er : r = size) by (rewrite <- Hd, <- (ee_write_count (dev s) (a + (zlen datas mod cap) * size) data), Ew; done).
  assert (Hm1 : forall x, ee_mem d x = overlay (ee_mem (dev s)) (a + (zlen datas mod cap) * size) data x).
  { intros x. rewrite <- ee_write_mem, Ew. done. }
  rewrite Er, Z.eqb_refl. cbn [negb set_dev rec_index]. rewrite Ei. cbn [mbind option_bind].
  set (addr' := if _ =? a + cap * size then _ else _). rewrite Hti, Hhi.
  set (idx' := mk_index _ _ _ _ _). unfold save_index.
  cbn [set_addr set_index rec_index set_dev]. rewrite list_lookup_insert_eq by (unfold REC_TYPE_CNT in Ht; lia).
  cbn [mbind option_bind]. destruct (index_crc idx') as [c Ecrc]. rewrite Ecrc. cbn [mbind option_bind].
  cbn [dev set_addr set_index set_dev].
  set (img := index_bytes _). destruct (ee_write_lock d (REC_INDEX_ADDR + 16 * Z.of_nat t) img) as [d' r'] eqn:Ew'.
  assert (Hm2 : forall x, a <= x -> ee_mem d' x = ee_mem d x).
  { intros x Hx. assert (E : ee_mem d' x = overlay (ee_mem d) (REC_INDEX_ADDR + 16 * Z.of_nat t) img x)
      by (rewrite <- ee_write_mem, Ew'; done).
    rewrite E. unfold overlay, img. rewrite index_bytes_length. unfold REC_INDEX_ADDR, REC_TYPE_CNT in *.
    by replace ((4096 + 16 * Z.of_nat t <=? x) && (x <? 4096 + 16 * Z.of_nat t + Z.of_nat 16)) with false by lia. }
  eexists. split; [reflexivity|]. cbn [fst snd].
  unfold ring. rewrite zlen_app. change (zlen [data]) with 1.
  cbn [rec_index rec_addr set_dev set_index set_addr dev]. rewrite !length_insert.
  split; [done|]. split; [done|]. split; [|split].
  - eexists. rewrite list_lookup_insert_eq by (rewrite length_insert; unfold REC_TYPE_CNT in Ht; lia).
    split; [done|]. cbn [tail_num count head_num idx']. rewrite (u32_small (zlen datas + 1)) by lia.
    split; [done|]. split.
    + rewrite Hci. destruct (Z.ltb_spec (Z.min (zlen datas) cap) cap); [rewrite u32_small by lia|]; lia.
    + destruct (Z.leb_spec cap (zlen datas + 1)), (Z.ltb_spec (zlen datas) cap), (Z.ltb_spec (zlen datas + 1) cap);
        try lia; rewrite u32_small by lia; lia.
  - rewrite list_lookup_insert_eq by (unfold REC_TYPE_CNT in Ht; lia). f_equal. unfold addr'.
    assert (Hb : (zlen datas mod cap) * size + size <= cap * size) by nia.
    assert (0 <= (zlen datas mod cap) * size) by nia.
    rewrite u32_small by lia. destruct (next_slot cap (zlen datas) Hc ltac:(lia)) as [[E1 ->]|[E1 ->]].
    + replace (a + (zlen datas mod cap) * size + size =? a + cap * size) with true; [lia|].
      symmetry. apply Z.eqb_eq. rewrite <- E1 at 2. lia.
    + assert ((zlen datas mod cap) * size + size < cap * size) by nia.
      replace (a + (zlen datas mod cap) * size + size =? a + cap * size) with false by lia. lia.
  - intros num dat Hnum Hin i Hi.
    assert (Hnm : 0 <= (Z.of_nat num mod cap) * size) by (pose proof (Z.mod_pos_bound (Z.of_nat num) cap Hc); nia).
    rewrite Hm2, Hm1 by lia. unfold overlay.
    apply lookup_app_Some in Hnum as [Hnum|[Hge Hnum]].
    + assert (Hlt : Z.of_nat num < zlen datas) by (apply lookup_lt_Some in Hnum; lia).
      pose proof (same_slot cap (zlen datas) (Z.of_nat num) Hc ltac:(lia)) as Hne.
      assert (Hdis : forall j, 0 <= j < size ->
        (Z.of_nat num mod cap) * size + Z.of_nat i <> (zlen datas mod cap) * size + j).
      { intros j Hj. apply slot_disjoint; lia. }
      set (x := Z.of_nat num mod cap * size + Z.of_nat i) in *. set (y := zlen datas mod cap * size) in *.
      replace ((a + y <=? a + Z.of_nat num mod cap * size + Z.of_nat i) &&
        (a + Z.of_nat num mod cap * size + Z.of_nat i <? a + y + zlen data)) with false.
      * by apply (Hmem num dat Hnum); lia.
      * symmetry. apply not_true_iff_false. intros Hb. apply (Hdis (x - y)); unfold x in *; lia.
    + assert (num = length datas) as ->.
      { apply lookup_lt_Some in Hnum. simpl in Hnum. lia. }
      rewrite Nat.sub_diag in Hnum. injection Hnum as <-.
      replace ((a + zlen datas mod cap * size <=? a + zlen datas mod cap * size + Z.of_nat i) &&
        (a + zlen datas mod cap * size + Z.of_nat i <? a + zlen datas mod cap * size + zlen data)) with true by lia.
      f_equal. lia.
Qed.

(** Saving records one after the other, as long as each save succeeds. *)
Fixpoint save_all (s : rec_state D) (t : nat) (datas : list (list Z)) : option (rec_state D) :=
  match datas with
  | [] => Some s
  | data :: datas =>
      r ← record_save s t data;
      if snd r =? 0 then save_all (fst r) t datas else None
  end.

Lemma save_all_ring a cap size t datas : forall old s,
  (t < REC_TYPE_CNT)%nat -> REC_START_ADDR !! t = Some a -> REC_CAPACITY !! t = Some cap ->
  REC_SIZE !! t = Some size -> REC_END_ADDR !! t = Some (a + cap * size) ->
  4352 <= a -> 0 < cap -> 0 < size < 100 -> a + cap * size <= 131072 ->
  ring a cap size t old s -> Forall (fun data => zlen data = size) datas ->
  zlen old + zlen datas < 2 ^ 32 ->
  exists s', save_all s t datas = Some s' /\ ring a cap size t (old ++ datas) s'.
Proof.
  induction datas as [|data datas IH]; intros old s Ht Ea Ec Es Ee Ha Hc Hs Hend Hr Hd Hn.
  - exists s. by rewrite app_nil_r.
  - inversion_clear Hd as [|? ? Hd1 Hd2]. rewrite zlen_cons in Hn.
    destruct (record_save_ring a cap size t old s data) as (s1 & E & Hr1); try done; [lia|].
    cbn [save_all]. rewrite E. cbn [mbind option_bind fst snd Z.eqb].
    destruct (IH (old ++ [data]) s1) as (s' & E' & Hr'); try done; [rewrite zlen_app; simpl length; lia|].
    exists s'. split; [done|]. by rewrite <- app_assoc in Hr'.
Qed.
End Counting.

(** The ring, over a driver that returns byte counts (which storage.c is not): after any number of
    saves into a cleared ring, all successful, each of the last [capacity]
    records is read back by its number, the count is the number of records
    present and the last number is right.  The first number is one too high once
    the ring is full: it is advanced by the save that fills the last free slot. *)
Theorem record_ring_correct {D : Type} `{!EepromApi D, !CountingEeprom D} (d : D) t datas :
  (t < REC_TYPE_CNT)%nat ->
  (forall size, REC_SIZE !! t = Some size -> Forall (fun data => zlen data = size) datas) ->
  zlen datas < 2 ^ 32 ->
  exists s cap, REC_CAPACITY !! t = Some cap /\ save_all (fresh d) t datas = Some s /\
    (forall num data, datas !! num = Some data -> zlen datas - cap <= Z.of_nat num ->
       exists s', record_read s t (Z.of_nat num) = Some (s', data, 0)) /\
    exists info, record_get_info s t = Some info /\
      info_count info = Z.min (zlen datas) cap /\
      last_num info = (if zlen datas =? 0 then 0 else zlen datas - 1) /\
      first_num info = (if zlen datas <? cap then 0 else zlen datas - cap + 1).
Proof.
  intros Ht Hsz Hn. destruct (geometry t Ht) as (a & cap & size & Ea & Ec & Es & Ee & Ha & Hc & Hs & Hend).
  specialize (Hsz size Es).
  destruct (save_all_ring a cap size t datas [] (fresh d)) as (s & E & Hl1 & Hl2 & (idx & Ei & Hti & Hci & Hhi) & _ & Hmem);
    try done.
  { split; [done|]. split; [done|]. split.
    - exists zero_index. split; [by destruct (types_lt t Ht) as [-> | ->]|].
      split; [done|]. cbn [count head_num zero_index length]. change (Z.of_nat 0) with 0.
      split; [lia|]. destruct (Z.ltb_spec 0 cap); [done|lia].
    - split; [|done]. cbn [length Z.of_nat]. rewrite Z.mod_0_l, Z.mul_0_l, Z.add_0_r by lia.
      rewrite <- Ea. by destruct (types_lt t Ht) as [-> | ->]. }
  cbn [app] in *. exists s, cap. split; [done|]. split; [done|]. split.
  - intros num data Hnum Hin. unfold record_read, record_address. rewrite Ea, Ec, Es. cbn [mbind option_bind].
    pose proof (Z.mod_pos_bound (Z.of_nat num) cap Hc) as Hm.
    assert (Hb : 0 <= Z.of_nat num mod cap * size /\ Z.of_nat num mod cap * size + size <= cap * size) by nia.
    rewrite u32_small by lia. rewrite ee_read_count, Z2Nat.id, Z.eqb_refl by lia.
    eexists. do 3 f_equal. rewrite Forall_lookup in Hsz. specialize (Hsz num data Hnum). cbn beta in Hsz.
    apply list_eq. intros i. rewrite list_lookup_fmap. destruct (decide (i < length data)%nat).
    + rewrite lookup_seq_lt by lia. cbn [fmap option_fmap option_map Nat.add].
      rewrite (Hmem num data Hnum Hin i) by lia. destruct (lookup_lt_is_Some_2 data i) as [x Hx]; [done|].
      rewrite Hx. f_equal. by apply nth_lookup_Some.
    + rewrite lookup_seq_ge, lookup_ge_None_2 by lia. done.
  - unfold record_get_info. rewrite Es, Ec, Ei. cbn [mbind option_bind]. eexists. split; [reflexivity|].
    cbn [info_count last_num first_num]. rewrite Hti. split; [done|]. split; [|done].
    destruct (Z.eqb_spec (zlen datas) 0); [done|]. rewrite u32_small; lia.
Qed.

Lemma record_ring_correct_witness :
  exists s cap, REC_CAPACITY !! 1%nat = Some cap /\
    save_all (fresh (fun _ : Z => 0)) 1 [[1; 2; 3; 4; 5]; [6; 7; 8; 9; 10]] = Some s.
Proof.
  destruct (record_ring_correct (fun _ : Z => 0) 1 [[1; 2; 3; 4; 5]; [6; 7; 8; 9; 10]]) as (s & cap & E1 & E2 & _).
  - unfold REC_TYPE_CNT. lia.
  - intros size H. injection H as <-. repeat constructor.
  - reflexivity.
  - exists s, cap. split; [exact E1 | exact E2].
Defined.
