(* ===== verification/ProtoBase.v ===== *)
(** * proto_base.c: the binary packet protocol

    A packet is a 9-byte header [sop u8, dev_id u16, cmd u8, op_type u8,
    data_len u16, crc u16] (the last field is the CRC of the others), then the
    payload and its CRC.  [parse->header] and [parse->data] are the bytes they
    point to: the code never reads a header again after changing it.  The
    command handlers are a parameter of the packet loop (Upgrade.v provides
    them). *)
From Stdlib Require Import ZifyBool.
From S2P Require Import Prelude Generic.

Definition PROT_SOP : Z := 35.
Definition PROT_OP_RD : Z := 0.
Definition PROT_OP_WR : Z := 1.
Definition PROT_OP_NACK : Z := 9.
Definition PROT_OP_ACK : Z := 10.
Definition HEAD_SIZE : nat := 9.
Definition DEV_ADDR_ANY : Z := 0.

(** Fields of [proto_base_head_t]. *)
Definition sop (h : list Z) : Z := nth 0 h 0.
Definition dev_id (h : list Z) : Z := le_decode (get 1 2 h).
Definition cmd (h : list Z) : Z := nth 3 h 0.
Definition op_type (h : list Z) : Z := nth 4 h 0.
Definition data_len (h : list Z) : Z := le_decode (get 5 2 h).
Definition set_op_type (v : Z) (h : list Z) : list Z := put 4 [v] h.
Definition set_data_len (v : Z) (h : list Z) : list Z := put 5 (le_encode 2 v) h.
Definition set_crc (v : Z) (h : list Z) : list Z := put 7 (le_encode 2 v) h.

(** [parse_base_t]; [p_data]: the bytes from [parse->data] on, [None] for a null
    pointer; [port]: the port pointer. *)
Record parse_base_t := mk_parse {
  header : list Z; instr_len : Z; error : Z; p_data : option (list Z); port : Z }.

Definition set_port (pt : Z) (p : parse_base_t) : parse_base_t :=
  mk_parse (header p) (instr_len p) (error p) (p_data p) pt.

(** Result: the parse record and the return value. *)
Definition check_packet_base (inbuf : list Z) (inlen : Z) : option (parse_base_t * Z) :=
  if (0 <=? inlen) && (inlen <? 9) then Some (mk_parse [] 0 2 None 0, 0)
  else
    c ← head inbuf;
    if negb (c =? PROT_SOP) then Some (mk_parse [] 0 3 None 0, 0)
    else
      let h := take HEAD_SIZE inbuf in
      let data := drop HEAD_SIZE inbuf in
      crc ← crc16_RTU inbuf 9;
      if negb (crc =? 0) then Some (mk_parse [] 9 1 (Some data) 0, 0)
      else if inlen - 9 <? data_len h + 2 then Some (mk_parse h 9 4 (Some data) 0, 0)
      else if 0 <? data_len h then
        dcrc ← crc16_RTU data (data_len h + 2);
        let n := u16 (9 + (data_len h + 2)) in
        if negb (dcrc =? 0) then Some (mk_parse [] n 1 (Some data) 0, 0)
        else Some (mk_parse h n 0 (Some data) 0, 1)
      else Some (mk_parse h 9 0 (Some data) 0, 1).

(** [outbuf + o] is where the reply goes.  Result: the buffer and [*outlen]. *)
Definition proto_base_build_pkt (parse : parse_base_t) (outbuf : list Z) (o outlen : Z)
  : option (list Z * Z) :=
  c ← crc16_RTU (header parse) 7;
  let h := set_crc c (header parse) in
  r ← mem_copy outbuf o h 9;
  let '(outbuf, o) := r in
  let outlen := s32 (outlen + 9) in
  let '(h, data) :=
    if negb (error parse =? 0) then
      (set_data_len 1 (set_op_type PROT_OP_NACK h), Some [error parse])
    else (h, p_data parse) in
  match data with
  | Some data =>
      if negb (data_len h =? 0) then
        r ← mem_copy outbuf o data (data_len h);
        let '(outbuf, o) := r in
        c ← crc16_RTU data (data_len h);
        r ← mem_copy outbuf o (le_encode 2 c) 2;
        Some (fst r, s32 (outlen + data_len h + 2))
      else Some (outbuf, outlen)
  | None => Some (outbuf, outlen)
  end.

Definition proto_base_unicast_pkt (h : list Z) : Z := if dev_id h =? DEV_ADDR_ANY then 0 else 1.

(** ** The packet loop *)
Section Process.
Context {S : Type}.

(** A handler gets the output buffer, where to write and [*outlen]. *)
Definition handler_t : Type := S -> parse_base_t -> list Z -> Z -> Z -> option (S * list Z * Z).

(** [CMD_BASE_TABLE]: the command codes with their handlers. *)
Fixpoint base_branch_cmd (table : list (Z * handler_t)) (s : S) (parse : parse_base_t)
  (outbuf : list Z) (o outlen : Z) : option (S * list Z * Z) :=
  match table with
  | [] => Some (s, outbuf, outlen)
  | (c, h) :: table =>
      if c =? cmd (header parse) then h s parse outbuf o outlen
      else base_branch_cmd table s parse outbuf o outlen
  end.

(** The loop of [base_pkt_process]; every turn that goes on consumes at least
    nine bytes. *)
Fixpoint pkt_loop (fuel : nat) (table : list (Z * handler_t)) (s : S) (inbuf : list Z) (inlen : Z)
  (outbuf : list Z) (o outlen comm_port : Z) : option (S * list Z * Z) :=
  match fuel with
  | O => None
  | Datatypes.S fuel =>
      if 0 <? inlen then
        r ← check_packet_base inbuf inlen;
        let '(parse, ret) := r in
        if negb (ret =? 0) then
          r ← base_branch_cmd table s (set_port comm_port parse) outbuf o outlen;
          let '(s, outbuf, outlen) := r in
          pkt_loop fuel table s (drop (Z.to_nat (instr_len parse)) inbuf) (inlen - instr_len parse)
            outbuf (o + outlen) outlen comm_port
        else if negb (error parse =? 1) then Some (s, outbuf, outlen)
        else
          pkt_loop fuel table s (drop (Z.to_nat (instr_len parse)) inbuf) (inlen - instr_len parse)
            outbuf o outlen comm_port
      else Some (s, outbuf, outlen)
  end.
Definition base_pkt_process (table : list (Z * handler_t)) (s : S) (inbuf : list Z) (inlen : Z)
  (outbuf : list Z) (outlen comm_port : Z) : option (S * list Z * Z) :=
  pkt_loop (Datatypes.S (length inbuf)) table s inbuf inlen outbuf 0 outlen comm_port.
End Process.

Definition sample_head : list Z := [35; 1; 0; 51; 1; 3; 0; 0; 0].
Definition sample_packet : list Z := Eval vm_compute in
  match proto_base_build_pkt (mk_parse sample_head 0 0 (Some [7; 8; 9]) 0) (replicate 14 0) 0 0 with
  | Some (b, _) => b | None => [] end.
Example build_check :
  option_map (fun r => (snd r, instr_len (fst r), cmd (header (fst r)))) (check_packet_base sample_packet 14)
  = Some (1, 14, 51).
Proof. vm_compute. reflexivity. Qed.
(** An acknowledgement without payload is not a packet for its own parser. *)
Example empty_rejected :
  (r ← proto_base_build_pkt (mk_parse [35; 1; 0; 52; 10; 0; 0; 0; 0] 0 0 None 0) (replicate 9 0) 0 0;
   option_map (fun r => error (fst r)) (check_packet_base (fst r) 9)) = Some 4.
Proof. vm_compute. reflexivity. Qed.

(** ** Images of packets *)
Definition head_image (h : list Z) : list Z := take 7 h ++ le_encode 2 (crc16_rtu_ref (take 7 h)).
Definition body_image (d : list Z) : list Z := d ++ le_encode 2 (crc16_rtu_ref d).

(** A header whose payload, checksum included, is [b]. *)
Record frame (h b : list Z) : Prop := mk_frame {
  frame_head : length h = 9%nat; frame_bytes : bytes h; frame_sop : sop h = PROT_SOP;
  frame_body : bytes b; frame_len : data_len h + 2 = zlen b;
  frame_some : 0 < data_len h; frame_short : zlen b + 9 < 65536 }.

Section HeadImage.
Context (h : list Z) (Hl : length h = 9%nat) (Hb : bytes h).
Lemma head_image_length : length (head_image h) = 9%nat.
Proof. unfold head_image. rewrite length_app, length_take, le_encode_length. lia. Qed.
Lemma head_image_bytes : bytes (head_image h).
Proof. apply Forall_app. split; [by apply Forall_take|apply le_encode_bytes]. Qed.
Lemma head_image_set_crc : set_crc (crc16_rtu_ref (take 7 h)) h = head_image h.
Proof.
  unfold set_crc, put, head_image. rewrite le_encode_length, drop_ge by lia. by rewrite app_nil_r.
Qed.
Lemma head_image_lookup i : (i < 7)%nat -> head_image h !! i = h !! i.
Proof.
  intros. unfold head_image. rewrite lookup_app_l by (rewrite length_take; lia). by rewrite lookup_take_lt.
Qed.
Lemma head_image_get off n : (off + n <= 7)%nat -> get off n (head_image h) = get off n h.
Proof. intros. apply get_ext. intros. apply head_image_lookup. lia. Qed.
Lemma head_image_fields :
  sop (head_image h) = sop h /\ dev_id (head_image h) = dev_id h /\ cmd (head_image h) = cmd h /\
  op_type (head_image h) = op_type h /\ data_len (head_image h) = data_len h.
Proof.
  unfold sop, dev_id, cmd, op_type, data_len. rewrite !head_image_get by lia.
  rewrite !nth_lookup, !head_image_lookup by lia. done.
Qed.
Lemma head_crc_build : crc16_RTU h 7 = Some (crc16_rtu_ref (take 7 h)).
Proof.
  rewrite <- (take_drop 7 h) at 1. replace 7 with (zlen (take 7 h)) by (rewrite length_take; lia).
  by apply crc16_RTU_ref, Forall_take.
Qed.
Lemma head_crc_check rest : crc16_RTU (head_image h ++ rest) 9 = Some 0.
Proof.
  replace 9 with (zlen (head_image h)) by (rewrite head_image_length; done).
  destruct (crc16_RTU_ref (head_image h) rest head_image_bytes) as [-> _]. f_equal.
  by apply crc16_rtu_residue, Forall_take.
Qed.
End HeadImage.

Lemma body_image_length d : zlen (body_image d) = zlen d + 2.
Proof. unfold body_image. rewrite length_app, le_encode_length. lia. Qed.

Lemma body_image_crc d : bytes d -> crc16_rtu_ref (body_image d) = 0.
Proof. apply crc16_rtu_residue. Qed.

(** What the check does once the header is sound. *)
Lemma check_head h b (Hl : length h = 9%nat) (Hb : bytes h) (Hs : sop h = PROT_SOP) :
  check_packet_base (head_image h ++ b) (9 + zlen b) =
  (if zlen b <? data_len h + 2 then Some (mk_parse (head_image h) 9 4 (Some b) 0, 0)
   else if 0 <? data_len h then
     dcrc ← crc16_RTU b (data_len h + 2);
     (if negb (dcrc =? 0) then Some (mk_parse [] (u16 (9 + (data_len h + 2))) 1 (Some b) 0, 0)
      else Some (mk_parse (head_image h) (u16 (9 + (data_len h + 2))) 0 (Some b) 0, 1))
   else Some (mk_parse (head_image h) 9 0 (Some b) 0, 1)).
Proof.
  pose proof (head_image_length h Hl) as HL. pose proof (head_image_fields h Hl) as (Fs & _ & _ & _ & Fd).
  unfold check_packet_base. rewrite head_crc_check by done.
  assert (Hh : head (head_image h ++ b) = Some PROT_SOP).
  { destruct (head_image h) as [|c k]; [done|]. cbn in Fs |- *. by rewrite Fs, Hs. }
  rewrite Hh. unfold HEAD_SIZE.
  rewrite (take_app_length' _ _ 9), (drop_app_length' _ _ 9) by done.
  rewrite Fd. rewrite (proj2 (Z.ltb_ge (9 + zlen b) 9)) by (pose proof (zlen_nonneg b); lia).
  rewrite andb_false_r. cbn [mbind option_bind Z.eqb negb PROT_SOP Pos.eqb].
  replace (9 + zlen b - 9) with (zlen b) by lia. done.
Qed.

Lemma check_frame h b rest (Hf : frame h b) :
  check_packet_base (head_image h ++ b ++ rest) (9 + zlen (b ++ rest)) =
  Some (if crc16_rtu_ref b =? 0 then (mk_parse (head_image h) (9 + zlen b) 0 (Some (b ++ rest)) 0, 1)
        else (mk_parse [] (9 + zlen b) 1 (Some (b ++ rest)) 0, 0)).
Proof.
  destruct Hf as [Hl Hb Hs Hbb Hd H0 Hn]. rewrite check_head, Hd by done.
  rewrite (proj2 (Z.ltb_ge _ _)) by zlen_lia. rewrite (proj2 (Z.ltb_lt _ _)) by done.
  destruct (crc16_RTU_ref b rest Hbb) as [-> _]. cbn [mbind option_bind].
  rewrite u16_small by lia. by destruct (crc16_rtu_ref b =? 0).
Qed.
Lemma body_image_frame h d : length h = 9%nat -> bytes h -> sop h = PROT_SOP -> bytes d ->
  data_len h = zlen d -> 0 < zlen d -> zlen d + 11 < 65536 -> frame h (body_image d).
Proof.
  intros. split; rewrite ?body_image_length; try done; [|lia..].
  apply Forall_app; split; [done|apply le_encode_bytes].
Qed.

(** ** Building *)
Lemma copy_in outbuf (o : nat) src r m : m = zlen src -> (o + length src <= length outbuf)%nat ->
  mem_copy outbuf (Z.of_nat o) (src ++ r) m = Some (put o src outbuf, Z.of_nat (o + length src)).
Proof.
  intros -> H. rewrite mem_copy_put by (rewrite ?length_app; lia). by rewrite take_app_length.
Qed.
Lemma copy_in_all outbuf (o : nat) src m : m = zlen src -> (o + length src <= length outbuf)%nat ->
  mem_copy outbuf (Z.of_nat o) src m = Some (put o src outbuf, Z.of_nat (o + length src)).
Proof. rewrite <- (app_nil_r src) at 3. apply copy_in. Qed.

(** The checksum of the first bytes, whatever the compiler finds behind. *)
Lemma build_body_copy (c1 d r : list Z) (o o1 : nat) outbuf outlen : bytes d -> o1 = (o + length c1)%nat ->
  (o1 + length d + 2 <= length outbuf)%nat -> 0 <= outlen /\ outlen + 2 + zlen d < 2 ^ 31 ->
  (r0 ← mem_copy (put o c1 outbuf) (Z.of_nat o1) (d ++ r) (zlen d);
   let '(outbuf, o) := r0 in
   c ← crc16_RTU (d ++ r) (zlen d);
   r0 ← mem_copy outbuf o (le_encode 2 c) 2;
   Some (fst r0, s32 (outlen + zlen d + 2)))
  = Some (put o (c1 ++ body_image d) outbuf, outlen + 2 + zlen d).
Proof.
  intros Hd -> Ho Hlen.
  assert (Hl1 : length (put o c1 outbuf) = length outbuf) by (apply put_length; lia).
  rewrite copy_in by (rewrite ?Hl1; lia). cbn [mbind option_bind].
  destruct (crc16_RTU_ref d r Hd) as [-> _]. cbn [mbind option_bind].
  set (c := le_encode 2 (crc16_rtu_ref d)). assert (Hc : length c = 2%nat) by apply le_encode_length.
  rewrite copy_in_all by (rewrite ?put_length, ?Hc; lia). cbn [mbind option_bind fst].
  rewrite s32_small by lia. do 2 f_equal; [|lia].
  rewrite (put_put_app o c1) by lia. rewrite <- Nat.add_assoc, <- length_app.
  rewrite put_put_app by (rewrite ?length_app; lia). by rewrite <- app_assoc.
Qed.

Section Build.
Context (h : list Z) (Hl : length h = 9%nat) (Hb : bytes h) (n pt : Z).
Context (outbuf : list Z) (o : nat) (outlen : Z).

Lemma build_head_copy : (o + 9 <= length outbuf)%nat ->
  mem_copy outbuf (Z.of_nat o) (head_image h) 9 = Some (put o (head_image h) outbuf, Z.of_nat (o + 9)).
Proof. intros. pose proof (head_image_length h Hl) as HL. rewrite copy_in_all by lia. by rewrite HL. Qed.

Lemma build_data d r : bytes d -> data_len h = zlen d -> 0 < zlen d ->
  (o + 11 + length d <= length outbuf)%nat -> 0 <= outlen /\ outlen + 11 + zlen d < 2 ^ 31 ->
  proto_base_build_pkt (mk_parse h n 0 (Some (d ++ r)) pt) outbuf (Z.of_nat o) outlen =
  Some (put o (head_image h ++ body_image d) outbuf, outlen + 11 + zlen d).
Proof.
  intros Hd Hn H0 Ho Hlen. unfold proto_base_build_pkt. cbn [header error p_data Z.eqb negb].
  rewrite head_crc_build by done. cbn [mbind option_bind]. rewrite head_image_set_crc, build_head_copy by (done || lia).
  pose proof (head_image_fields h Hl) as (_ & _ & _ & _ & E). cbn [mbind option_bind]. rewrite E, Hn.
  rewrite (proj2 (Z.eqb_neq (zlen d) 0)) by lia. cbn [negb].
  pose proof (head_image_length h Hl).
  etrans; [apply build_body_copy; rewrite ?s32_small; done || lia|]. rewrite s32_small by lia. do 2 f_equal. lia.
Qed.

(** A reply without payload is its header alone. *)
Lemma build_empty pd : pd = None \/ data_len h = 0 ->
  (o + 9 <= length outbuf)%nat -> 0 <= outlen /\ outlen + 9 < 2 ^ 31 ->
  proto_base_build_pkt (mk_parse h n 0 pd pt) outbuf (Z.of_nat o) outlen =
  Some (put o (head_image h) outbuf, outlen + 9).
Proof.
  intros Hpd Ho Hlen. unfold proto_base_build_pkt. cbn [header error p_data Z.eqb negb].
  rewrite head_crc_build by done. cbn [mbind option_bind]. rewrite head_image_set_crc, build_head_copy by done.
  cbn [mbind option_bind]. rewrite (s32_small (outlen + 9)) by lia.
  pose proof (head_image_fields h Hl) as (_ & _ & _ & _ & E). rewrite E.
  destruct Hpd as [-> | Hz]; [done|]. rewrite Hz. by destruct pd.
Qed.

(** An error reply: the unchanged header, then the error byte. *)
Lemma build_error e pd : is_byte e -> e <> 0 ->
  (o + 12 <= length outbuf)%nat -> 0 <= outlen /\ outlen + 12 < 2 ^ 31 ->
  proto_base_build_pkt (mk_parse h n e pd pt) outbuf (Z.of_nat o) outlen =
  Some (put o (head_image h ++ body_image [e]) outbuf, outlen + 12).
Proof.
  intros He Hne Ho Hlen. unfold proto_base_build_pkt. cbn [header error p_data].
  rewrite (proj2 (Z.eqb_neq e 0)) by done. cbn [negb].
  rewrite head_crc_build by done. cbn [mbind option_bind]. rewrite head_image_set_crc, build_head_copy by (done || lia).
  cbn [mbind option_bind]. pose proof (head_image_length h Hl).
  assert (Hs : data_len (set_data_len 1 (set_op_type PROT_OP_NACK (head_image h))) = 1).
  { unfold data_len, set_data_len, set_op_type. rewrite get_put_eq; [done| |done].
    rewrite le_encode_length, put_length; change (length [PROT_OP_NACK]) with 1%nat; lia. }
  rewrite Hs. cbn [Z.eqb negb].
  assert (Hbe : bytes [e]) by (constructor; [done|constructor]).
  etrans; [apply (build_body_copy (head_image h) [e] []); rewrite ?s32_small; simpl length; done || lia|].
  rewrite s32_small by lia. do 2 f_equal. simpl length. lia.
Qed.
End Build.

(** ** Properties *)

(** Round trip of the binary protocol: a packet that
    [proto_base_build_pkt] writes for a non-empty payload is accepted by
    [check_packet_base], whatever follows it; the check finds every header field
    and the payload unchanged, and [instr_len] is the packet's length. *)
Theorem build_check_round_trip h n pt outbuf (o : nat) outlen d r rest :
  length h = 9%nat -> bytes h -> sop h = PROT_SOP -> bytes d ->
  data_len h = zlen d -> 0 < zlen d -> zlen d + 11 < 65536 ->
  (o + 11 + length d <= length outbuf)%nat -> 0 <= outlen < 2 ^ 30 ->
  exists pkt parse,
    proto_base_build_pkt (mk_parse h n 0 (Some (d ++ r)) pt) outbuf (Z.of_nat o) outlen
    = Some (put o pkt outbuf, outlen + zlen pkt) /\
    check_packet_base (pkt ++ rest) (zlen (pkt ++ rest)) = Some (parse, 1) /\
    instr_len parse = zlen pkt /\ error parse = 0 /\
    dev_id (header parse) = dev_id h /\ cmd (header parse) = cmd h /\
    op_type (header parse) = op_type h /\ data_len (header parse) = zlen d /\
    option_map (take (length d)) (p_data parse) = Some d.
Proof.
  intros Hl Hb Hs Hd Hn H0 Hm Ho Hlen. pose proof (head_image_length h Hl) as HL.
  pose proof (body_image_length d) as HB.
  exists (head_image h ++ body_image d), (mk_parse (head_image h) (9 + zlen (body_image d)) 0 (Some (body_image d ++ rest)) 0).
  split; [|split].
  - rewrite build_data by (done || lia). do 2 f_equal. zlen_lia.
  - rewrite <- app_assoc.
    replace (zlen (head_image h ++ body_image d ++ rest)) with (9 + zlen (body_image d ++ rest)) by zlen_lia.
    rewrite check_frame by by apply body_image_frame.
    by rewrite body_image_crc.
  - cbn [instr_len error header p_data option_map].
    destruct (head_image_fields h Hl) as (_ & -> & -> & -> & ->).
    split; [zlen_lia|]. repeat (split; [done|]). f_equal.
    unfold body_image. by rewrite <- app_assoc, take_app_length.
Qed.
Lemma build_check_round_trip_witness :
  exists pkt parse,
    proto_base_build_pkt (mk_parse [35; 1; 0; 51; 1; 3; 0; 0; 0] 0 0 (Some ([7; 8; 9] ++ [])) 0) (replicate 20 0) (Z.of_nat 2) 4
    = Some (put 2 pkt (replicate 20 0), 4 + zlen pkt) /\
    check_packet_base (pkt ++ [35; 0]) (zlen (pkt ++ [35; 0])) = Some (parse, 1) /\
    instr_len parse = zlen pkt /\ error parse = 0 /\
    dev_id (header parse) = 1 /\ cmd (header parse) = 51 /\
    op_type (header parse) = 1 /\ data_len (header parse) = zlen [7; 8; 9] /\
    option_map (take (length [7; 8; 9])) (p_data parse) = Some [7; 8; 9].
Proof.
  apply (build_check_round_trip [35; 1; 0; 51; 1; 3; 0; 0; 0] 0 0 (replicate 20 0) 2 4 [7; 8; 9] [] [35; 0]);
    try reflexivity; try lia; repeat constructor; simpl; lia.
Defined.

(** The status of a reply without payload is inverted for a receiver that
    uses the same parser: the acknowledgement of a success, a header alone, is
    rejected (error 4: the two checksum bytes of the absent payload are
    missing), while the reply that reports the error [e] keeps the success
    header and its zero length, so it is accepted as a positive acknowledgement
    and the error byte is left over as the start of the next packet. *)
Theorem reply_status_inverted h n pt outbuf e :
  length h = 9%nat -> bytes h -> sop h = PROT_SOP -> op_type h = PROT_OP_ACK -> data_len h = 0 ->
  (12 <= length outbuf)%nat -> is_byte e -> e <> 0 ->
  (exists ack parse, proto_base_build_pkt (mk_parse h n 0 None pt) outbuf 0 0 = Some (put 0 ack outbuf, zlen ack) /\
     check_packet_base ack (zlen ack) = Some (parse, 0) /\ error parse = 4) /\
  (exists nack parse, proto_base_build_pkt (mk_parse h n e None pt) outbuf 0 0 = Some (put 0 nack outbuf, zlen nack) /\
     check_packet_base nack (zlen nack) = Some (parse, 1) /\ error parse = 0 /\
     op_type (header parse) = PROT_OP_ACK /\ data_len (header parse) = 0 /\ instr_len parse = 9).
Proof.
  intros Hl Hb Hs Ht Hd Ho He Hne. pose proof (head_image_length h Hl) as HL.
  assert (HB : zlen (body_image [e]) = 3) by (rewrite body_image_length; done). split.
  - exists (head_image h), (mk_parse (head_image h) 9 4 (Some []) 0). split; [|split; [|done]].
    + etrans; [refine (build_empty h Hl Hb n pt outbuf 0 0 None _ _ _); [by left|lia..]|]. do 2 f_equal. lia.
    + pose proof (check_head h [] Hl Hb Hs) as E. rewrite app_nil_r in E.
      rewrite HL. etrans; [exact E|]. by rewrite Hd.
  - exists (head_image h ++ body_image [e]), (mk_parse (head_image h) 9 0 (Some (body_image [e])) 0).
    destruct (head_image_fields h Hl) as (_ & _ & _ & Et & Ed). cbn [error header instr_len].
    rewrite Et, Ed, Ht, Hd. split; [|split; [|done]].
    + etrans; [refine (build_error h Hl Hb n pt outbuf 0 0 e None He Hne _ _); lia|]. do 2 f_equal. zlen_lia.
    + rewrite zlen_app, HL. change (Z.of_nat 9) with 9. rewrite check_head, Hd, HB by done. done.
Qed.
Lemma reply_status_inverted_witness :
  (exists ack parse, proto_base_build_pkt (mk_parse [35; 1; 0; 52; 10; 0; 0; 0; 0] 0 0 None 0) (replicate 12 0) 0 0
       = Some (put 0 ack (replicate 12 0), zlen ack) /\
     check_packet_base ack (zlen ack) = Some (parse, 0) /\ error parse = 4) /\
  (exists nack parse, proto_base_build_pkt (mk_parse [35; 1; 0; 52; 10; 0; 0; 0; 0] 0 3 None 0) (replicate 12 0) 0 0
       = Some (put 0 nack (replicate 12 0), zlen nack) /\
     check_packet_base nack (zlen nack) = Some (parse, 1) /\ error parse = 0 /\
     op_type (header parse) = PROT_OP_ACK /\ data_len (header parse) = 0 /\ instr_len parse = 9).
Proof.
  apply (reply_status_inverted [35; 1; 0; 52; 10; 0; 0; 0; 0] 0 0 (replicate 12 0) 3);
    try reflexivity; try lia; repeat constructor; simpl; lia.
Defined.

(** What a buffer must start with to be a packet. *)
Definition acceptable (inbuf : list Z) : Prop :=
  let h := take 9 inbuf in
  9 <= zlen inbuf /\ sop inbuf = PROT_SOP /\ crc16_rtu_ref h = 0 /\ data_len h + 11 <= zlen inbuf /\
  (data_len h = 0 \/ crc16_rtu_ref (get 9 (Z.to_nat (data_len h) + 2) inbuf) = 0).

Lemma crc_prefix l (m : Z) : bytes l -> 0 <= m <= zlen l ->
  crc16_RTU l m = Some (crc16_rtu_ref (take (Z.to_nat m) l)).
Proof.
  intros Hb Hm. assert (Hl : m = zlen (take (Z.to_nat m) l)) by (rewrite length_take; lia).
  destruct (crc16_RTU_ref (take (Z.to_nat m) l) (drop (Z.to_nat m) l)) as [E _]; [by apply Forall_take|].
  by rewrite take_drop, <- Hl in E.
Qed.
Lemma data_len_range h : bytes h -> 0 <= data_len h < 65536.
Proof.
  intros Hb. assert (Hg : bytes (get 5 2 h)) by by apply get_Forall.
  pose proof (le_decode_range _ Hg) as Hr. unfold data_len. split; [lia|].
  eapply Z.lt_le_trans; [apply Hr|]. unfold get. rewrite length_take.
  change 65536 with (256 ^ 2). apply Z.pow_le_mono_r; lia.
Qed.

(** The packet check on any received bytes shorter than 64 KiB: it never
    reads outside them, accepts exactly the buffers that start with a sound
    packet (start byte, header checksum, announced length plus its checksum
    within the buffer, payload checksum), and whenever the loop of
    [base_pkt_process] goes on (packet accepted or checksum wrong), it moves
    ahead by at least nine bytes and stays inside the buffer. *)
Theorem check_packet_base_spec inbuf : bytes inbuf -> zlen inbuf < 65536 ->
  exists parse ret,
    check_packet_base inbuf (zlen inbuf) = Some (parse, ret) /\
    (ret = 1 /\ error parse = 0 /\ header parse = take 9 inbuf \/ ret = 0 /\ error parse <> 0) /\
    (ret = 1 <-> acceptable inbuf) /\
    (ret = 1 \/ error parse = 1 -> 9 <= instr_len parse <= zlen inbuf).
Proof.
  intros Hb Hn. pose proof (zlen_nonneg inbuf) as H0.
  assert (Hdl : 0 <= data_len (take 9 inbuf) < 65536) by by apply data_len_range, Forall_take.
  unfold acceptable, check_packet_base, HEAD_SIZE.
  destruct (Z.lt_ge_cases (zlen inbuf) 9) as [Hs | Hs].
  { rewrite (proj2 (Z.leb_le _ _)), (proj2 (Z.ltb_lt (zlen inbuf) 9)) by lia. do 2 eexists. split; [done|].
    split; [by right|]. cbn. split; [|lia]. split; [done|lia]. }
  rewrite (proj2 (Z.ltb_ge (zlen inbuf) 9)), andb_false_r by lia.
  assert (Hh : head inbuf = Some (sop inbuf)) by (destruct inbuf; [simpl in Hs; lia|done]).
  rewrite Hh. cbn [mbind option_bind].
  destruct (Z.eqb_spec (sop inbuf) PROT_SOP) as [Hsop | Hsop]; cbn [negb].
  2: { do 2 eexists. split; [done|]. split; [by right|]. split; [|cbn; intros [? | ?]; lia]. split; [done|]. by intros (_ & ? & _). }
  rewrite (crc_prefix inbuf 9) by (done || lia). cbn [mbind option_bind]. change (Z.to_nat 9) with 9%nat.
  destruct (Z.eqb_spec (crc16_rtu_ref (take 9 inbuf)) 0) as [Hc | Hc]; cbn [negb].
  2: { do 2 eexists. split; [done|]. split; [by right|]. split; [|cbn; intros [? | ?]; lia]. split; [done|]. by intros (_ & _ & ? & _). }
  destruct (Z.ltb_spec (zlen inbuf - 9) (data_len (take 9 inbuf) + 2)).
  { do 2 eexists. split; [done|]. split; [by right|]. split; [|cbn; intros [? | ?]; lia]. split; [done|]. intros (_ & _ & _ & ? & _); lia. }
  destruct (Z.ltb_spec 0 (data_len (take 9 inbuf))).
  2: { do 2 eexists. split; [done|]. split; [by left|]. split; [|cbn; lia]. split; [|done]. intros _.
       repeat (split; [done || lia|]). left. lia. }
  assert (Hb2 : bytes (drop 9 inbuf)) by by apply Forall_drop.
  rewrite crc_prefix by (try done; rewrite length_drop; lia). cbn [mbind option_bind].
  rewrite u16_small by lia. unfold get.
  replace (Z.to_nat (data_len (take 9 inbuf) + 2)) with (Z.to_nat (data_len (take 9 inbuf)) + 2)%nat by lia.
  destruct (Z.eqb_spec (crc16_rtu_ref (take (Z.to_nat (data_len (take 9 inbuf)) + 2) (drop 9 inbuf))) 0) as [Hd | Hd]; cbn [negb].
  - do 2 eexists. split; [done|]. split; [by left|]. cbn. split; [|lia]. split; [|done]. intros _.
    repeat (split; [done || lia|]). by right.
  - do 2 eexists. split; [done|]. split; [by right|]. cbn. split; [|lia]. split; [done|].
    intros (_ & _ & _ & _ & [? | ?]); [lia|done].
Qed.
Lemma check_packet_base_spec_witness :
  exists parse ret,
    check_packet_base sample_packet (zlen sample_packet) = Some (parse, ret) /\
    (ret = 1 /\ error parse = 0 /\ header parse = take 9 sample_packet \/ ret = 0 /\ error parse <> 0) /\
    (ret = 1 <-> acceptable sample_packet) /\
    (ret = 1 \/ error parse = 1 -> 9 <= instr_len parse <= zlen sample_packet).
Proof. apply check_packet_base_spec; [|reflexivity]. repeat constructor; simpl; lia. Defined.

(** ** The packets of a buffer *)
Section Frames.
Context {S : Type} (table : list (Z * @handler_t S)) (comm_port : Z).

Definition stream (frames : list (list Z * list Z)) (tail : list Z) : list Z :=
  foldr (fun f r => head_image (fst f) ++ snd f ++ r) tail frames.
(** What ends the loop: the end, an error other than a wrong checksum, or a
    header with a wrong checksum when what follows its nine bytes ends it. *)
Inductive stops : list Z -> Prop :=
  | stops_end : stops []
  | stops_error tail p : check_packet_base tail (zlen tail) = Some (p, 0) -> error p <> 1 -> stops tail
  | stops_bad_head x tail p : length x = 9%nat -> check_packet_base (x ++ tail) (zlen (x ++ tail)) = Some (p, 0) ->
      error p = 1 -> instr_len p = 9 -> stops tail -> stops (x ++ tail).

(** Every sound packet is handed to its command's handler, in order; a packet
    whose payload is damaged is skipped. *)
Fixpoint run_frames (frames : list (list Z * list Z)) (tail : list Z) (s : S) (outbuf : list Z)
  (o outlen : Z) : option (S * list Z * Z) :=
  match frames with
  | [] => Some (s, outbuf, outlen)
  | (h, b) :: frames =>
      if crc16_rtu_ref b =? 0 then
        r ← base_branch_cmd table s
              (mk_parse (head_image h) (9 + zlen b) 0 (Some (b ++ stream frames tail)) comm_port) outbuf o outlen;
        let '(s, outbuf, outlen) := r in run_frames frames tail s outbuf (o + outlen) outlen
      else run_frames frames tail s outbuf o outlen
  end.

Lemma stream_cons h b frames tail : length h = 9%nat ->
  zlen (stream ((h, b) :: frames) tail) = 9 + zlen (b ++ stream frames tail).
Proof. intros Hl. cbn [stream foldr fst snd]. rewrite zlen_app, head_image_length by done. done. Qed.

Lemma pkt_loop_stops tail : stops tail -> forall fuel s outbuf o outlen, (length tail < fuel)%nat ->
  pkt_loop fuel table s tail (zlen tail) outbuf o outlen comm_port = Some (s, outbuf, outlen).
Proof.
  induction 1 as [|tail p E He|x tail p Hx E He Hi Ht IH]; intros fuel s outbuf o outlen Hf;
    (destruct fuel as [|fuel]; [lia|]); cbn [pkt_loop]; [done| |].
  - rewrite E. cbn [mbind option_bind Z.eqb negb]. rewrite (proj2 (Z.eqb_neq _ _)) by done. by destruct (0 <? zlen tail).
  - rewrite length_app in Hf. rewrite (proj2 (Z.ltb_lt _ _)) by zlen_lia. rewrite E. cbn [mbind option_bind Z.eqb negb].
    rewrite He, Hi. cbn [Z.eqb Pos.eqb negb]. rewrite (drop_app_length' x tail) by done.
    replace (zlen (x ++ tail) - 9) with (zlen tail) by zlen_lia. apply IH. lia.
Qed.

Lemma pkt_loop_frames frames tail : forall fuel s outbuf o outlen,
  Forall (fun f => frame (fst f) (snd f)) frames -> stops tail -> (length frames + length tail < fuel)%nat ->
  pkt_loop fuel table s (stream frames tail) (zlen (stream frames tail)) outbuf o outlen comm_port
  = run_frames frames tail s outbuf o outlen.
Proof.
  induction frames as [|(h, b) frames IH]; intros fuel s outbuf o outlen Hf Ht Hfuel.
  - cbn [stream foldr run_frames]. apply pkt_loop_stops; [done|]. simpl in Hfuel. lia.
  - apply Forall_cons in Hf as [Hh Hf]. cbn [fst snd] in Hh.
    destruct fuel as [|fuel]; [simpl in Hfuel; lia|]. cbn [pkt_loop run_frames].
    rewrite stream_cons by apply Hh. rewrite (proj2 (Z.ltb_lt _ _)) by lia.
    cbn [stream foldr fst snd]. fold (stream frames tail). rewrite check_frame by done.
    assert (Hd : drop (Z.to_nat (9 + zlen b)) (head_image h ++ b ++ stream frames tail) = stream frames tail).
    { rewrite app_assoc. apply drop_app_length'. rewrite length_app, head_image_length by apply Hh. lia. }
    assert (Hz : 9 + zlen (b ++ stream frames tail) - (9 + zlen b) = zlen (stream frames tail)) by zlen_lia.
    destruct (crc16_rtu_ref b =? 0); cbn [mbind option_bind Z.eqb negb instr_len error Pos.eqb]; rewrite Hd, Hz.
    + destruct (base_branch_cmd _ _ _ _ _ _) as [[[s' ob'] ol']|]; [|done]. cbn [mbind option_bind].
      apply IH; [done..|simpl in Hfuel; lia].
    + apply IH; [done..|simpl in Hfuel; lia].
Qed.
Lemma stream_length frames tail : Forall (fun f => frame (fst f) (snd f)) frames ->
  (length frames + length tail <= length (stream frames tail))%nat.
Proof.
  induction 1 as [|(h, b) frames Hh Hf IH]; [simpl; lia|]. cbn [stream foldr fst snd]. fold (stream frames tail).
  rewrite !length_app, head_image_length by apply Hh. simpl length. lia.
Qed.
End Frames.

(** Nine bytes that look like a header but for their checksum. *)
Record bad_header (x : list Z) : Prop := mk_bad {
  bad_length : length x = 9%nat; bad_bytes : bytes x; bad_sop : sop x = PROT_SOP; bad_crc : crc16_rtu_ref x <> 0 }.
Lemma check_bad_header x rest : bad_header x ->
  check_packet_base (x ++ rest) (zlen (x ++ rest)) = Some (mk_parse [] 9 1 (Some rest) 0, 0).
Proof.
  intros [Hl Hb Hs Hc]. unfold check_packet_base. rewrite (proj2 (Z.ltb_ge (zlen (x ++ rest)) 9)) by zlen_lia.
  rewrite andb_false_r. assert (Hh : head (x ++ rest) = Some PROT_SOP) by (destruct x; [done|]; cbn in Hs |- *; by rewrite Hs).
  rewrite Hh. cbn [mbind option_bind]. change (negb (PROT_SOP =? PROT_SOP)) with false. cbn iota.
  destruct (crc16_RTU_ref x rest Hb) as [E _]. replace (zlen x) with 9 in E by lia. rewrite E. cbn [mbind option_bind].
  rewrite (proj2 (Z.eqb_neq _ _)) by done. cbn [negb]. unfold HEAD_SIZE. by rewrite (drop_app_length' x rest) by done.
Qed.
Lemma foreign_stops c l : c <> PROT_SOP -> stops (c :: l).
Proof.
  intros Hc. destruct (Z.ltb_spec (zlen (c :: l)) 9) as [H|H].
  - apply (stops_error _ (mk_parse [] 0 2 None 0)); [|done]. unfold check_packet_base.
    rewrite (proj2 (Z.ltb_lt _ _)), (proj2 (Z.leb_le 0 _)) by zlen_lia. done.
  - apply (stops_error _ (mk_parse [] 0 3 None 0)); [|done]. unfold check_packet_base.
    rewrite (proj2 (Z.ltb_ge _ _)), andb_false_r by lia. cbn [head mbind option_bind].
    by rewrite (proj2 (Z.eqb_neq c PROT_SOP)) by done.
Qed.
Lemma bad_header_stops x c l : bad_header x -> c <> PROT_SOP -> stops (x ++ c :: l).
Proof.
  intros Hx Hc. eapply stops_bad_head; [apply Hx|by apply check_bad_header|done|done|by apply foreign_stops].
Qed.
(** The handler of an empty packet runs; the two bytes of the checksum that the
    length check demands are then taken for the next packet. *)
Lemma empty_packet_ends {S} (table : list (Z * @handler_t S)) comm_port h more s outbuf outlen :
  length h = 9%nat -> bytes h -> sop h = PROT_SOP -> data_len h = 0 ->
  let rest := body_image [] ++ more in
  base_pkt_process table s (head_image h ++ rest) (zlen (head_image h ++ rest)) outbuf outlen comm_port
  = base_branch_cmd table s (mk_parse (head_image h) 9 0 (Some rest) comm_port) outbuf 0 outlen.
Proof.
  intros Hl Hb Hs Hd rest. assert (Hz : zlen rest = 2 + zlen more) by (unfold rest; rewrite zlen_app, body_image_length; done).
  pose proof (head_image_length h Hl) as HL. unfold base_pkt_process. cbn [pkt_loop].
  replace (zlen (head_image h ++ rest)) with (9 + zlen rest) by zlen_lia.
  pose proof (zlen_nonneg more) as Hm. rewrite (proj2 (Z.ltb_lt 0 _)) by lia. rewrite check_head, Hd by done.
  rewrite (proj2 (Z.ltb_ge _ _)) by lia. cbn [Z.ltb Z.compare mbind option_bind negb Z.eqb set_port header instr_len error p_data].
  unfold set_port. cbn [header instr_len error p_data]. destruct (base_branch_cmd _ _ _ _ _ _) as [[[s' ob] ol]|]; [|done].
  cbn [mbind option_bind]. change (Z.to_nat 9) with 9%nat. rewrite (drop_app_length' (head_image h) rest) by done.
  replace (9 + zlen rest - 9) with (zlen rest) by lia.
  apply pkt_loop_stops; [by apply foreign_stops|rewrite length_app; lia].
Qed.

(** [C31] The packet loop [base_pkt_process], which terminates on all these
    buffers.
    (1) On any number of packets with a sound header and a non-empty payload,
    followed by a rest that ends the loop, it does what handing the packets with
    a sound payload to their handlers one after the other does; those with a
    damaged payload are skipped and do not affect the others; the write position
    of a reply is the sum of the cumulative lengths after the earlier ones.
    (2) A damaged header is not survived: only its nine bytes are skipped, so
    unless the payload happens to begin with the start byte, the packets after
    it, however sound, are never looked at.
    (3) Nor is an empty payload: its packet is handled, but its checksum is
    taken for the next packet, and whatever follows is lost. *)
Theorem base_pkt_process_frames {S} (table : list (Z * @handler_t S)) comm_port frames s outbuf outlen :
  Forall (fun f => frame (fst f) (snd f)) frames ->
  (forall tail, stops tail ->
     base_pkt_process table s (stream frames tail) (zlen (stream frames tail)) outbuf outlen comm_port
     = run_frames table comm_port frames tail s outbuf 0 outlen) /\
  (forall x c more, bad_header x -> c <> PROT_SOP -> let tail := x ++ c :: more in
     base_pkt_process table s (stream frames tail) (zlen (stream frames tail)) outbuf outlen comm_port
     = run_frames table comm_port frames tail s outbuf 0 outlen) /\
  (forall h, length h = 9%nat -> bytes h -> sop h = PROT_SOP -> data_len h = 0 ->
     let tail := body_image [] ++ stream frames [] in
     base_pkt_process table s (head_image h ++ tail) (zlen (head_image h ++ tail)) outbuf outlen comm_port
     = base_branch_cmd table s (mk_parse (head_image h) 9 0 (Some tail) comm_port) outbuf 0 outlen).
Proof.
  intros Hf. assert (G : forall tail, stops tail ->
     base_pkt_process table s (stream frames tail) (zlen (stream frames tail)) outbuf outlen comm_port
     = run_frames table comm_port frames tail s outbuf 0 outlen).
  { intros tail Ht. apply pkt_loop_frames; [done..|]. pose proof (stream_length frames tail Hf). lia. }
  split; [exact G|]. split; [intros x c more Hx Hc; by apply G, bad_header_stops|].
  intros h Hl Hb Hs Hd. by apply empty_packet_ends.
Qed.
(** A handler that logs the commands and writes four bytes of reply. *)
Definition log_handler : @handler_t (list Z) := fun s parse outbuf o outlen =>
  r ← mem_copy outbuf o [1; 2; 3; 4] 4; Some (s ++ [cmd (header parse)], fst r, outlen + 4).
Definition log_table : list (Z * @handler_t (list Z)) := [(50, log_handler); (51, log_handler)].
Definition three_frames : list (list Z * list Z) := Eval vm_compute in
  [([35; 1; 0; 51; 1; 3; 0; 0; 0], body_image [7; 8; 9]);
   ([35; 1; 0; 50; 1; 2; 0; 0; 0], [1; 2; 3; 4]);
   ([35; 1; 0; 50; 1; 1; 0; 0; 0], body_image [5]); ([35; 1; 0; 51; 1; 1; 0; 0; 0], body_image [6])].
(** Whole, and with the checksum of the second packet's header damaged (its
    payload and the two sound packets after it follow as [more]). *)
Lemma base_pkt_process_frames_witness :
  base_pkt_process log_table [] (stream three_frames [35; 1]) (zlen (stream three_frames [35; 1])) (replicate 16 0) 0 7
    = run_frames log_table 7 three_frames [35; 1] [] (replicate 16 0) 0 0 /\
  (let tail := [35; 1; 0; 50; 1; 2; 0; 0; 0] ++ 9 :: [8; 1; 2] ++ stream (drop 2 three_frames) [] in
   base_pkt_process log_table [] (stream (take 1 three_frames) tail) (zlen (stream (take 1 three_frames) tail)) (replicate 16 0) 0 7
     = run_frames log_table 7 (take 1 three_frames) tail [] (replicate 16 0) 0 0).
Proof.
  assert (H : Forall (fun f => frame (fst f) (snd f)) three_frames) by (repeat constructor; vm_compute; try done; repeat constructor; done).
  destruct (base_pkt_process_frames log_table 7 three_frames [] (replicate 16 0) 0 H) as [E1 _].
  destruct (base_pkt_process_frames log_table 7 (take 1 three_frames) [] (replicate 16 0) 0 (Forall_take _ _ _ H)) as (_ & E2 & _).
  split.
  - apply (E1 [35; 1]). refine (stops_error [35; 1] (mk_parse [] 0 2 None 0) _ _); [vm_compute; reflexivity|done].
  - apply (E2 [35; 1; 0; 50; 1; 2; 0; 0; 0] 9 ([8; 1; 2] ++ stream (drop 2 three_frames) [])); [|done].
    split; [reflexivity|repeat constructor; simpl; lia|reflexivity|vm_compute; discriminate].
Defined.
(** The damaged packet is skipped; the third reply lands at offset 12, not 8. *)
Lemma reply_gap :
  base_pkt_process log_table [] (stream three_frames []) (zlen (stream three_frames [])) (replicate 16 0) 0 7
  = Some ([51; 50; 51], [1; 2; 3; 4; 1; 2; 3; 4; 0; 0; 0; 0; 1; 2; 3; 4], 12).
Proof. vm_compute. reflexivity. Qed.
