(* ===== verification/Crc32.v ===== *)
(** * gd32_crc.c: the CRC-32 of a memory area

    The CRC unit is hardware behind the vendor's register definitions: a class
    with its documented behaviour (a reset value, and a 32-bit data register
    that each written word updates).  [crc32_mpeg2] is the unit of the GD32F4. *)
From S2P Require Import Prelude.

Class CrcUnit := {
  crc_reset : Z;                    (* CRC_DATA after crc_data_register_reset() *)
  crc_data : Z -> Z -> Z;           (* CRC_DATA after writing a word *)
  crc_reset_range : 0 <= crc_reset < 2 ^ 32;
  crc_data_range r w : 0 <= r < 2 ^ 32 -> 0 <= w < 2 ^ 32 -> 0 <= crc_data r w < 2 ^ 32
}.

Inductive EndianMode := ENDIAN_LITTLE | ENDIAN_BIG.

(** [__REV]: the bytes of a word in reverse order. *)
Definition reverse_word (value : Z) : Z := le_decode (rev (le_encode 4 value)).

(** The word at [addr] of a little-endian memory. *)
Definition word_at (m : Z -> Z) (addr : Z) : Z :=
  le_decode [m addr; m (addr + 1); m (addr + 2); m (addr + 3)].
Definition feed (endian : EndianMode) (word : Z) : Z :=
  match endian with ENDIAN_BIG => reverse_word word | ENDIAN_LITTLE => word end.

Section Crc.
Context `{!CrcUnit}.

(** The main loop, [n] words. *)
Fixpoint crc_words (n : nat) (m : Z -> Z) (addr : Z) (endian : EndianMode) (r : Z) : Z :=
  match n with
  | O => r
  | S n => crc_words n m (addr + 4) endian (crc_data r (feed endian (word_at m addr)))
  end.

(** The masks of the [switch (len)]. *)
Definition tail_word (word len : Z) : Z :=
  if len =? 1 then Z.land word 0xFF000000
  else if len =? 2 then Z.land word 0xFFFF0000
  else if len =? 3 then Z.land word 0xFFFFFF00 else word.

Definition calculate_crc32 (m : Z -> Z) (addr len : Z) (endian : EndianMode) : Z :=
  let n := Z.to_nat (len / 4) in
  let r := crc_words n m addr endian crc_reset in
  let addr := addr + 4 * Z.of_nat n in
  let len := len - 4 * Z.of_nat n in
  if 0 <? len then crc_data r (feed endian (tail_word (word_at m addr) len)) else r.
End Crc.

(** CRC-32/MPEG-2: polynomial 0x04C11DB7, most significant bit first. *)
Definition mpeg2_bit (r : Z) : Z :=
  if Z.testbit r 31 then Z.lxor (u32 (2 * r)) 0x04C11DB7 else u32 (2 * r).
Lemma mpeg2_range r : 0 <= mpeg2_bit r < 2 ^ 32.
Proof.
  unfold mpeg2_bit. pose proof (u32_range (2 * r)) as Hu. destruct (Z.testbit r 31); [|lia].
  assert (Hn : 0 <= Z.lxor (u32 (2 * r)) 0x04C11DB7) by (apply Z.lxor_nonneg; lia).
  split; [done|]. apply Z.log2_lt_cancel. eapply Z.le_lt_trans; [apply Z.log2_lxor; lia|].
  apply Z.max_lub_lt; [|done]. destruct (Z.eq_dec (u32 (2 * r)) 0) as [-> |]; [done|].
  change (Z.log2 (2 ^ 32)) with 32. apply Z.log2_lt_pow2; lia.
Qed.
Lemma mpeg2_iter n r : 0 <= Nat.iter (S n) mpeg2_bit r < 2 ^ 32.
Proof. apply mpeg2_range. Qed.
#[global] Program Instance crc32_mpeg2 : CrcUnit := {|
  crc_reset := 0xFFFFFFFF;
  crc_data r w := Nat.iter 32 mpeg2_bit (Z.lxor r w)
|}.
Next Obligation. done. Qed.
Next Obligation. intros. apply (mpeg2_iter 31). Qed.

(** CRC-32/MPEG-2 of "12345678" as two words in big-endian order. *)
Example mpeg2_check :
  calculate_crc32 (fun a => nth (Z.to_nat a) [49; 50; 51; 52; 53; 54; 55; 56] 0) 0 8 ENDIAN_BIG = 0x49e3c2fb.
Proof. vm_compute. reflexivity. Qed.

Section CrcProps.
Context `{!CrcUnit}.

Lemma word_at_ext m m' a a' : (forall i, 0 <= i < 4 -> m (a + i) = m' (a' + i)) -> word_at m a = word_at m' a'.
Proof.
  intros Hm. unfold word_at. pose proof (Hm 0) as H0. rewrite !Z.add_0_r in H0. by rewrite H0, !Hm by lia.
Qed.
(** The words read decide the CRC, wherever they are. *)
Lemma crc_words_ext n m m' e : forall a a' r,
  (forall i, 0 <= i < 4 * Z.of_nat n -> m (a + i) = m' (a' + i)) ->
  crc_words n m a e r = crc_words n m' a' e r.
Proof.
  induction n as [|n IH]; intros a a' r Hm; [done|]. cbn [crc_words].
  rewrite (word_at_ext m m' a a') by (intros; apply Hm; lia). apply IH. intros i Hi.
  rewrite <- !Z.add_assoc. apply Hm. lia.
Qed.
(** A length in whole words. *)
Lemma calculate_crc32_words m a q e :
  calculate_crc32 m a (4 * Z.of_nat q) e = crc_words q m a e crc_reset.
Proof.
  unfold calculate_crc32. replace (Z.to_nat (4 * Z.of_nat q / 4)) with q by zdm.
  by rewrite Z.sub_diag.
Qed.

Lemma feed_range e w : 0 <= w < 2 ^ 32 -> 0 <= feed e w < 2 ^ 32.
Proof.
  intros Hw. destruct e; [done|]. cbn [feed]. unfold reverse_word.
  assert (Hb : bytes (rev (le_encode 4 w))) by (apply Forall_rev, le_encode_bytes).
  pose proof (le_decode_range _ Hb) as Hr. by rewrite length_rev, le_encode_length in Hr.
Qed.
Lemma crc_words_range n m e : (forall i, is_byte (m i)) -> forall a r, 0 <= r < 2 ^ 32 ->
  0 <= crc_words n m a e r < 2 ^ 32.
Proof.
  intros Hm. induction n as [|n IH]; intros a r Hr; [done|]. cbn [crc_words]. apply IH, crc_data_range; [done|].
  apply feed_range. unfold word_at. assert (Hb : bytes [m a; m (a + 1); m (a + 2); m (a + 3)]) by (rewrite !Forall_cons; auto).
  exact (le_decode_range _ Hb).
Qed.

(** The tail keeps the bytes at the high addresses of its word. *)
Definition tail_bytes (m : Z -> Z) (a r : Z) : Z :=
  if r =? 1 then m (a + 3) * 2 ^ 24
  else if r =? 2 then (m (a + 2) + m (a + 3) * 2 ^ 8) * 2 ^ 16
  else (m (a + 1) + (m (a + 2) + m (a + 3) * 2 ^ 8) * 2 ^ 8) * 2 ^ 8.
Lemma land_high k x y : 0 <= k <= 32 -> 0 <= y < 2 ^ k -> 0 <= x < 2 ^ (32 - k) ->
  Z.land (y + x * 2 ^ k) (Z.ones (32 - k) * 2 ^ k) = x * 2 ^ k.
Proof.
  intros Hk Hy Hx. apply Z.bits_inj'. intros n Hn. rewrite Z.land_spec.
  destruct (Z.lt_ge_cases n k).
  - rewrite !(Z.mul_pow2_bits_low _ k) by lia. apply andb_false_r.
  - rewrite !Z.mul_pow2_bits by lia.
    replace (Z.testbit (y + x * 2 ^ k) n) with (Z.testbit x (n - k)).
    + rewrite Z.testbit_ones by lia. destruct (Z.lt_ge_cases n 32).
      * rewrite (proj2 (Z.leb_le _ _)), (proj2 (Z.ltb_lt _ _)) by lia. apply andb_true_r.
      * rewrite <- (Z.mod_small x (2 ^ (32 - k))) by lia. by rewrite Z.mod_pow2_bits_high by lia.
    + replace n with (n - k + k) at 2 by lia. rewrite <- Z.div_pow2_bits by lia.
      rewrite Z.div_add by lia. by rewrite Z.div_small.
Qed.
Lemma tail_word_bytes m a r : (forall i, is_byte (m i)) -> 0 < r < 4 ->
  tail_word (word_at m a) r = tail_bytes m a r.
Proof.
  intros Hb Hr. unfold tail_word, tail_bytes, word_at, is_byte in *. cbn [le_decode].
  pose proof (Hb a). pose proof (Hb (a + 1)). pose proof (Hb (a + 2)). pose proof (Hb (a + 3)).
  assert (r = 1 \/ r = 2 \/ r = 3) as [-> | [-> | ->]] by lia; cbn [Z.eqb Pos.eqb].
  - etrans; [|apply (land_high 24 (m (a + 3)) (m a + 2 ^ 8 * (m (a + 1) + 2 ^ 8 * m (a + 2))))]; try lia.
    change (Z.ones (32 - 24) * 2 ^ 24) with 0xFF000000. f_equal. lia.
  - etrans; [|apply (land_high 16 (m (a + 2) + m (a + 3) * 2 ^ 8) (m a + 2 ^ 8 * m (a + 1)))]; try lia.
    change (Z.ones (32 - 16) * 2 ^ 16) with 0xFFFF0000. f_equal. lia.
  - etrans; [|apply (land_high 8 (m (a + 1) + (m (a + 2) + m (a + 3) * 2 ^ 8) * 2 ^ 8) (m a))]; try lia.
    change (Z.ones (32 - 8) * 2 ^ 8) with 0xFFFFFF00. f_equal. lia.
Qed.
End CrcProps.

(** What [calculate_crc32] looks at: for [len = 4 q + r] the [q] whole
    words and, of the last partial word, its [r] bytes at the high addresses.
    So the first data byte of a partial word never counts and the byte behind
    it, outside the data, always does. *)
Theorem crc32_footprint `{!CrcUnit} m m' addr addr' len e :
  (forall i, is_byte (m i)) -> (forall i, is_byte (m' i)) -> 0 <= len ->
  (forall i, 0 <= i < 4 * (len / 4) -> m (addr + i) = m' (addr' + i)) ->
  (forall i, 4 * (len / 4) + 4 - len mod 4 <= i < 4 * (len / 4) + 4 -> m (addr + i) = m' (addr' + i)) ->
  calculate_crc32 m addr len e = calculate_crc32 m' addr' len e.
Proof.
  intros Hb Hb' Hl Hw Ht. unfold calculate_crc32. set (q := Z.to_nat (len / 4)).
  assert (Hq : len / 4 = Z.of_nat q) by (unfold q; zdm). rewrite Hq in *.
  rewrite (crc_words_ext q m m' e addr addr') by (intros; apply Hw; lia).
  assert (Hr : len - 4 * Z.of_nat q = len mod 4) by zdm. rewrite Hr.
  destruct (Z.ltb_spec 0 (len mod 4)); [|done]. f_equal. f_equal.
  rewrite !tail_word_bytes by (try done; zdm). unfold tail_bytes. rewrite <- !Z.add_assoc.
  assert (len mod 4 = 1 \/ len mod 4 = 2 \/ len mod 4 = 3) as E by zdm.
  destruct E as [E | [E | E]]; rewrite E in *; cbn [Z.eqb Pos.eqb]; by rewrite !Ht by lia.
Qed.
(** One byte of data that changes, one byte behind the data that does not. *)
Lemma crc32_footprint_witness :
  calculate_crc32 (fun a => nth (Z.to_nat a) [1; 2; 3; 4; 5; 0; 0; 9] 0) 0 5 ENDIAN_BIG
  = calculate_crc32 (fun a => nth (Z.to_nat a) [1; 2; 3; 4; 77; 8; 0; 9] 0) 0 5 ENDIAN_BIG.
Proof.
  apply crc32_footprint; [| |lia| |].
  - intros i. destruct (Z.to_nat i) as [|[|[|[|[|[|[|[|n]]]]]]]]; cbn; try (split; lia). destruct n; cbn; split; lia.
  - intros i. destruct (Z.to_nat i) as [|[|[|[|[|[|[|[|n]]]]]]]]; cbn; try (split; lia). destruct n; cbn; split; lia.
  - intros i Hi. change (4 * (5 / 4)) with 4 in Hi.
    assert (i = 0 \/ i = 1 \/ i = 2 \/ i = 3) as [-> | [-> | [-> | ->]]] by lia; reflexivity.
  - intros i Hi. change (4 * (5 / 4) + 4) with 8 in Hi. change (5 mod 4) with 1 in Hi.
    assert (i = 7) as -> by lia. reflexivity.
Defined.
