(* ===== verification/Upgrade.v ===== *)
(** * upgrade.c: receiving a firmware image

    The host announces an image (CMD_UP_NOTIFY), the upgrade task requests one
    segment after the other (CMD_UP_DATA) into flash sectors 6 and 7, and the
    host asks for the check (CMD_UP_FINISH).  [fw_info] is the byte image of
    the packed structure; the command handlers plug into the packet loop of
    ProtoBase.v, the task is a step machine that stops where it blocks on its
    mailbox. *)
From Stdlib Require Import ZifyBool.
From S2P Require Import Prelude Generic Agent Message OsTimer Fmc ProtoBase Crc32.

Definition CMD_UP_NOTIFY : Z := 50.
Definition CMD_UP_DATA : Z := 51.
Definition CMD_UP_FINISH : Z := 52.
Definition CMD_UP_CANCEL : Z := 53.
Definition IMG_INFO_ADDR : Z := FLASH_BASE + 0x4000.
Definition IMG_DATA_ADDR : Z := FLASH_BASE + 0x40000.
Definition IMG_DATA_SECT_1 : nat := 6.
Definition IMG_DATA_SECT_2 : nat := 7.
Definition MSG_STOP_UG : Z := 1.
Definition MSG_RECV_DATA : Z := 2.
Definition FW_DATA_RETRY : nat := 3.
(** "LED102-v3" *)
Definition SPECAL_PRODUCT_NUM : list Z := [76; 69; 68; 49; 48; 50; 45; 118; 51].

Definition UG_STATE_START : Z := 1.
Definition UG_STATE_TRANS : Z := 2.
Definition UG_STATE_CANCELED : Z := 3.
Definition UG_STATE_TRANS_COMPLETE : Z := 4.
Definition UG_STATE_CHECK_FAIL : Z := 5.
Definition UG_STATE_CHECK_PASS : Z := 6.
Definition UG_STATE_FINISHED : Z := 7.

(** ** [fw_info_t], 32 bytes *)
Definition FW_INFO_SIZE : nat := 32.
Definition fw_version (i : list Z) : list Z := get 0 3 i.
Definition img_size (i : list Z) : Z := le_decode (get 3 4 i).
Definition seg_size (i : list Z) : Z := le_decode (get 7 2 i).
Definition seg_count (i : list Z) : Z := le_decode (get 9 2 i).
Definition img_crc32 (i : list Z) : Z := le_decode (get 11 4 i).
Definition status (i : list Z) : Z := nth 15 i 0.
Definition seg_idx (i : list Z) : Z := le_decode (get 24 2 i).
Definition info_crc32 (i : list Z) : Z := le_decode (get 28 4 i).
Definition set_status (v : Z) (i : list Z) : list Z := put 15 [v] i.
Definition set_source (v : Z) (i : list Z) : list Z := put 20 (le_encode 4 v) i.
Definition set_seg_idx (v : Z) (i : list Z) : list Z := put 24 (le_encode 2 v) i.
Definition set_info_crc32 (v : Z) (i : list Z) : list Z := put 28 (le_encode 4 v) i.

(** The sizes of the notification and of the head of a data packet. *)
Definition NOTIFY_SIZE : Z := 15.
Definition DATA_REPLY_SIZE : nat := 7.

Section Upgrade.
Context {F : Type} `{!FlashDevice F} {Q : Type} `{!RtosQueue Q} `{!CrcUnit}.
(** The address of [upgrade_task], the address [sys_para.dev.addr]. *)
Context (upgrade_task_entry dev_addr : Z).

(** [fw_info], the flash, [xfer_mb] and [mbox_count], the timers with the agent
    queues, and [sys_state.sys_op]. *)
Record up_t := mk_up {
  fw_info : list Z; flash : F; xfer_mb : option Q; mbox_count : Z; timers : ostimer_state;
  op_valid : bool; op_reset : bool }.
Definition set_fw (i : list Z) (s : up_t) : up_t :=
  mk_up i (flash s) (xfer_mb s) (mbox_count s) (timers s) (op_valid s) (op_reset s).
Definition set_flash (f : F) (s : up_t) : up_t :=
  mk_up (fw_info s) f (xfer_mb s) (mbox_count s) (timers s) (op_valid s) (op_reset s).
Definition set_mb (mb : option Q) (s : up_t) : up_t :=
  mk_up (fw_info s) (flash s) mb (mbox_count s) (timers s) (op_valid s) (op_reset s).
Definition set_timers (t : ostimer_state) (s : up_t) : up_t :=
  mk_up (fw_info s) (flash s) (xfer_mb s) (mbox_count s) t (op_valid s) (op_reset s).

(** [for (i = 1; i < OSTIMER_COUNT; i++)] *)
Definition close_timers (t : ostimer_state) : option ostimer_state :=
  for_loop (fun i t => ostimer_close t (Z.of_nat i)) 1 10 t.
Definition open_timers (tick : Z) (t : ostimer_state) : option ostimer_state :=
  for_loop (fun i t => ostimer_open t tick (Z.of_nat i) 1) 1 10 t.

Definition save_info (s : up_t) : option up_t :=
  r ← gdf_write_data_by_page (flash s) IMG_INFO_ADDR FW_INFO_SIZE (fw_info s);
  Some (set_flash (fst r) s).

(** The handlers: the new state, the reply buffer and [*outlen]. *)
Definition CMD_UP_notify (s : up_t) (parse : parse_base_t) (outbuf : list Z) (o outlen : Z)
  : option (up_t * list Z * Z) :=
  if (op_type (header parse) =? PROT_OP_WR) && (data_len (header parse) =? NOTIFY_SIZE) then
    data ← p_data parse;
    r ← mem_copy (fw_info s) 0 data NOTIFY_SIZE;
    let info := set_seg_idx 0 (set_status UG_STATE_START (set_source (port parse) (fst r))) in
    s ← save_info (set_fw info s);
    t ← close_timers (timers s);
    agents ← post (agent_queue t) 1 upgrade_task_entry (port parse);
    r ← proto_base_build_pkt parse outbuf o outlen;
    Some (set_timers (mk_ostimer (ostimer_list t) agents) s, fst r, snd r)
  else Some (s, outbuf, outlen).

(** While [vTaskDelay] runs after the segment number has advanced, other tasks
    run; the mailbox gets its message afterwards. *)
Definition CMD_UP_data (s : up_t) (parse : parse_base_t) (outbuf : list Z) (o outlen : Z)
  : option (up_t * list Z * Z) :=
  if op_type (header parse) =? PROT_OP_WR then
    data ← p_data parse;
    if (length data <? DATA_REPLY_SIZE)%nat then None
    else
      let info := fw_info s in
      c ← mem_comp data info 3;
      if (c =? 0) && (le_decode (get 3 2 data) =? seg_idx info) then
        let info := set_source (port parse) info in
        let addr := u32 (IMG_DATA_ADDR + seg_idx info * seg_size info) in
        r ← gdf_write_data_by_word (flash s) addr (Z.to_nat (le_decode (get 5 2 data))) (drop DATA_REPLY_SIZE data);
        let info := set_seg_idx (u16 (seg_idx info + 1)) info in
        Some (set_mb (fst (mbox_post (xfer_mb s) MSG_RECV_DATA)) (set_fw info (set_flash (fst r) s)), outbuf, outlen)
      else Some (s, outbuf, outlen)
  else Some (s, outbuf, outlen).

(** The verdict of CMD_UP_FINISH: [parse->error] and the new status. *)
Definition finish_check (f : F) (info data : list Z) : option (Z * Z) :=
  c ← mem_comp data info 3;
  let '(error, st) :=
    if negb (c =? 0) || negb (le_decode (get 3 2 data) =? seg_count info) then (1, status info)
    else if negb (seg_idx info =? seg_count info) then (2, status info)
    else (0, UG_STATE_TRANS_COMPLETE) in
  if st =? UG_STATE_TRANS_COMPLETE then
    if negb (img_crc32 info =? u32 (calculate_crc32 (rd f) IMG_DATA_ADDR (s32 (img_size info)) ENDIAN_BIG))
    then Some (3, UG_STATE_CHECK_FAIL)
    else
      c ← mem_comp (map (fun i => rd f (IMG_DATA_ADDR + 0x400 + 12 + Z.of_nat i)) (seq 0 9)) SPECAL_PRODUCT_NUM 9;
      if negb (c =? 0) then Some (4, UG_STATE_CHECK_FAIL) else Some (error, UG_STATE_CHECK_PASS)
  else Some (error, st).

Definition info_crc (info : list Z) : Z :=
  calculate_crc32 (fun a => nth (Z.to_nat a) info 0) 0 (Z.of_nat FW_INFO_SIZE - 4) ENDIAN_LITTLE.

Definition CMD_UP_finish (s : up_t) (parse : parse_base_t) (outbuf : list Z) (o outlen : Z)
  : option (up_t * list Z * Z) :=
  if (op_type (header parse) =? PROT_OP_RD) && (data_len (header parse) =? 5) then
    data ← p_data parse;
    v ← finish_check (flash s) (fw_info s) data;
    let '(error', st) := v in
    let info := set_status st (fw_info s) in
    s ← save_info (set_fw (set_info_crc32 (info_crc info) info) s);
    let h := set_op_type PROT_OP_ACK (set_data_len 0 (header parse)) in
    let error' := if error' =? 0 then error parse else error' in
    r ← proto_base_build_pkt (mk_parse h (instr_len parse) error' None (port parse)) outbuf o outlen;
    let pass := st =? UG_STATE_CHECK_PASS in
    Some (mk_up (fw_info s) (flash s) (xfer_mb s) (mbox_count s) (timers s)
            (op_valid s || pass) (op_reset s || pass), fst r, snd r)
  else Some (s, outbuf, outlen).

Definition CMD_UP_cancel (tick : Z) (s : up_t) (parse : parse_base_t) (outbuf : list Z) (o outlen : Z)
  : option (up_t * list Z * Z) :=
  if (op_type (header parse) =? PROT_OP_RD) && (data_len (header parse) =? 2) then
    let s := set_fw (set_status UG_STATE_CANCELED (fw_info s))
               (set_mb (fst (mbox_post (xfer_mb s) MSG_STOP_UG)) s) in
    let h := set_op_type PROT_OP_ACK (set_data_len 0 (header parse)) in
    r ← proto_base_build_pkt (mk_parse h (instr_len parse) (error parse) None (port parse)) outbuf o outlen;
    t ← open_timers tick (timers s);
    Some (set_timers t s, fst r, snd r)
  else Some (s, outbuf, outlen).

Definition upgrade_branch_cmd (tick : Z) (s : up_t) (parse : parse_base_t) (outbuf : list Z) (o outlen : Z)
  : option (up_t * list Z * Z) :=
  let c := cmd (header parse) in
  if c =? CMD_UP_NOTIFY then CMD_UP_notify s parse outbuf o outlen
  else if c =? CMD_UP_DATA then CMD_UP_data s parse outbuf o outlen
  else if c =? CMD_UP_FINISH then CMD_UP_finish s parse outbuf o outlen
  else if c =? CMD_UP_CANCEL then CMD_UP_cancel tick s parse outbuf o outlen
  else Some (s, outbuf, outlen).
Definition CMD_BASE_TABLE (tick : Z) : list (Z * @handler_t up_t) :=
  map (fun c => (c, upgrade_branch_cmd tick)) [CMD_UP_NOTIFY; CMD_UP_DATA; CMD_UP_FINISH; CMD_UP_CANCEL].

(** ** The upgrade task *)

(** Before its loop; the results of creating the mailbox and of the erases are
    ignored. *)
Definition upgrade_init (malloc : bool) (s : up_t) : up_t :=
  let '(n, mb) := mbox_create (mbox_count s) malloc 2 in
  mk_up (fw_info s) (flash s) mb n (timers s) (op_valid s) (op_reset s).
Definition task_begin (malloc : bool) (s : up_t) : up_t :=
  let s := upgrade_init malloc s in
  let s := set_fw (set_status UG_STATE_TRANS (fw_info s)) s in
  let s := set_mb (fst (mbox_clear (xfer_mb s))) s in
  let f := fst (gdf_erase_sector (flash s) IMG_DATA_SECT_1) in
  set_flash (fst (gdf_erase_sector f IMG_DATA_SECT_2)) s.

(** The request for segment [idx]; the version is the running firmware's, the
    count what [fw_info] held when the task began. *)
Definition FW_VERSION : list Z := [1; 0; 50].
Definition request_packet (idx count : Z) : option (list Z) :=
  let req := FW_VERSION ++ le_encode 2 idx ++ le_encode 2 count in
  let h := [PROT_SOP] ++ le_encode 2 dev_addr ++ [CMD_UP_DATA; PROT_OP_WR] ++ le_encode 2 7 ++ [0; 0] in
  r ← proto_base_build_pkt (mk_parse h 0 0 (Some req) 0) (replicate 20 0) 0 0;
  Some (take (Z.to_nat (snd r)) (fst r)).

(** Where the task is: at the loop test, about to send request [idx] with
    [retry] tries left, waiting for the mailbox, at [over], or returned. *)
Inductive task_pc :=
| T_loop | T_send (retry : nat) (idx : Z) | T_wait (retry : nat) (idx : Z) | T_over | T_done.

(** One step, up to the next blocking call, with the packet it sends. *)
Definition task_step (count : Z) (s : up_t) (pc : task_pc) : option (up_t * task_pc * list (list Z)) :=
  let info := fw_info s in
  match pc with
  | T_loop =>
      if seg_idx info <? seg_count info then
        if status info =? UG_STATE_CANCELED then Some (s, T_over, [])
        else Some (s, T_send FW_DATA_RETRY (seg_idx info), [])
      else Some (s, T_over, [])
  | T_send O idx => Some (s, T_over, [])
  | T_send (S r) idx =>
      pkt ← request_packet idx count;
      if status info =? UG_STATE_CANCELED then Some (s, T_over, [])
      else Some (s, T_wait (S r) idx, [pkt])
  | T_wait r idx =>
      let '(mb, msg, _) := mbox_fetch (xfer_mb s) in
      let s := set_mb mb s in
      if msg =? MSG_RECV_DATA then Some (s, T_loop, []) else Some (s, T_send (r - 1) idx, [])
  | T_over => Some (set_fw (set_status UG_STATE_FINISHED info) s, T_done, [])
  | T_done => Some (s, T_done, [])
  end.

(** The task on its own for [n] steps, with all the packets it sends. *)
Fixpoint task_run (n : nat) (count : Z) (s : up_t) (pc : task_pc) : option (up_t * task_pc * list (list Z)) :=
  match n with
  | O => Some (s, pc, [])
  | S n =>
      r ← task_step count s pc;
      let '(s, pc, out) := r in
      r ← task_run n count s pc;
      let '(s, pc, out') := r in Some (s, pc, out ++ out')
  end.
End Upgrade.

(** * Properties *)
Section InfoFields.
Context (i : list Z) (Hl : length i = FW_INFO_SIZE).
Lemma set_status_length v : length (set_status v i) = FW_INFO_SIZE.
Proof. unfold set_status. rewrite put_length; [done|]. rewrite Hl. simpl. unfold FW_INFO_SIZE. lia. Qed.
Lemma set_source_length v : length (set_source v i) = FW_INFO_SIZE.
Proof. unfold set_source. rewrite put_length; [done|]. rewrite Hl, le_encode_length. unfold FW_INFO_SIZE. lia. Qed.
Lemma set_seg_idx_length v : length (set_seg_idx v i) = FW_INFO_SIZE.
Proof. unfold set_seg_idx. rewrite put_length; [done|]. rewrite Hl, le_encode_length. unfold FW_INFO_SIZE. lia. Qed.
Lemma set_info_crc32_length v : length (set_info_crc32 v i) = FW_INFO_SIZE.
Proof. unfold set_info_crc32. rewrite put_length; [done|]. rewrite Hl, le_encode_length. unfold FW_INFO_SIZE. lia. Qed.
(** The announced fields are the first 15 bytes; no update touches them. *)
Lemma head_kept off n : (off + n <= 15)%nat ->
  (forall v, get off n (set_status v i) = get off n i) /\
  (forall v, get off n (set_source v i) = get off n i) /\
  (forall v, get off n (set_seg_idx v i) = get off n i) /\
  (forall v, get off n (set_info_crc32 v i) = get off n i).
Proof.
  intros Hn. unfold set_status, set_source, set_seg_idx, set_info_crc32, FW_INFO_SIZE in *.
  repeat split; intros v; apply get_put_ne; rewrite ?le_encode_length, ?Hl; simpl length; lia.
Qed.
Lemma seg_idx_set v : 0 <= v < 65536 -> seg_idx (set_seg_idx v i) = v.
Proof.
  intros Hv. unfold seg_idx, set_seg_idx. rewrite get_put_eq; [by apply le_decode_encode| |done].
  rewrite le_encode_length, Hl. unfold FW_INFO_SIZE. lia.
Qed.
Lemma seg_idx_kept :
  (forall v, seg_idx (set_status v i) = seg_idx i) /\ (forall v, seg_idx (set_source v i) = seg_idx i).
Proof.
  unfold seg_idx, set_status, set_source, FW_INFO_SIZE in *.
  split; intros v; f_equal; apply get_put_ne; rewrite ?le_encode_length, ?Hl; simpl length; lia.
Qed.
End InfoFields.

Section Session.
Context {F : Type} `{!FlashDevice F} {Q : Type} `{!RtosQueue Q}.
Implicit Types s : @up_t F Q.

(** The flash the session starts from: the data sectors erased. *)
Definition erased (f : F) (a : Z) : Z :=
  if (IMG_DATA_ADDR <=? a) && (a <? IMG_DATA_ADDR + 0x40000) then 255 else rd f a.
Lemma task_begin_spec malloc s : f_good (flash s) = true ->
  fw_info (task_begin malloc s) = set_status UG_STATE_TRANS (fw_info s) /\
  f_good (flash (task_begin malloc s)) = true /\
  forall a, rd (flash (task_begin malloc s)) a = erased (flash s) a.
Proof.
  intros Hg. unfold task_begin, upgrade_init. destruct (mbox_create (mbox_count s) malloc 2) as [n mb].
  cbn [fw_info flash set_fw set_flash set_mb]. split; [done|].
  destruct (erase_sector_spec (flash s) IMG_DATA_SECT_1 Hg) as (f1 & -> & _ & Hg1 & H1); [unfold IMG_DATA_SECT_1; lia|].
  cbn [fst]. destruct (erase_sector_spec f1 IMG_DATA_SECT_2 Hg1) as (f2 & -> & _ & Hg2 & H2); [unfold IMG_DATA_SECT_2; lia|].
  split; [done|]. intros a. cbn [fst]. rewrite H2, H1. unfold erased, in_sector, sector_bases, IMG_DATA_ADDR, FLASH_BASE.
  cbn [map nth IMG_DATA_SECT_1 IMG_DATA_SECT_2 Z.add Pos.add Pos.succ Pos.add_carry].
  repeat case_match; try done; lia.
Qed.

(** A data packet as a handler sees it: the head of [fw_data_reply_t], the
    segment, and what follows in the receive buffer. *)
Record data_pkt := mk_pkt { dp_ver : list Z; dp_idx : Z; dp_seg : list Z; dp_rest : list Z; dp_parse : parse_base_t }.
Definition pkt_ok (p : data_pkt) : Prop :=
  op_type (header (dp_parse p)) = PROT_OP_WR /\ length (dp_ver p) = 3%nat /\ 0 <= dp_idx p < 65536 /\
  zlen (dp_seg p) < 65536 /\ bytes (dp_seg p ++ dp_rest p) /\
  p_data (dp_parse p) =
    Some (dp_ver p ++ le_encode 2 (dp_idx p) ++ le_encode 2 (zlen (dp_seg p)) ++ dp_seg p ++ dp_rest p).

Definition accepts (info : list Z) (p : data_pkt) : bool :=
  bool_decide (dp_ver p = fw_version info) && (dp_idx p =? seg_idx info).

Lemma pkt_fields v i n (d : list Z) : length v = 3%nat -> 0 <= i < 65536 -> 0 <= n < 65536 ->
  let l := v ++ le_encode 2 i ++ le_encode 2 n ++ d in
  take 3 l = v /\ le_decode (get 3 2 l) = i /\ le_decode (get 5 2 l) = n /\ drop 7 l = d /\ (7 <= length l)%nat.
Proof.
  intros Hv Hi Hn. destruct v as [|a [|b [|c [|]]]]; try discriminate.
  assert (E : forall x, 0 <= x < 65536 -> le_decode (le_encode 2 x) = x) by (intros; by apply le_decode_encode).
  split; [done|]. split; [by apply E|]. split; [by apply E|].
  split; [done|]. simpl. lia.
Qed.
Lemma version_comp (v i : list Z) d : length v = 3%nat -> length i = FW_INFO_SIZE ->
  exists c, mem_comp (v ++ d) i 3 = Some c /\ (c =? 0) = bool_decide (v = fw_version i).
Proof.
  intros Hv Hi. destruct (mem_comp_spec 3 (v ++ d) i) as (c & E & Hc).
  - rewrite length_app. lia.
  - rewrite Hi. unfold FW_INFO_SIZE. lia.
  - exists c. split; [exact E|]. rewrite <- Hv in Hc at 1. rewrite take_app_length in Hc.
    apply Bool.eq_iff_eq_true. rewrite bool_decide_eq_true, Z.eqb_eq. exact Hc.
Qed.

(** One data packet: written behind the others, or ignored. *)
Lemma data_step s p outbuf o outlen : pkt_ok p -> length (fw_info s) = FW_INFO_SIZE -> f_good (flash s) = true ->
  (accepts (fw_info s) p = true ->
     zlen (dp_seg p) mod 4 = 0 /\
     IMG_DATA_ADDR + seg_idx (fw_info s) * seg_size (fw_info s) + zlen (dp_seg p) < 2 ^ 32 /\
     0 <= seg_idx (fw_info s) * seg_size (fw_info s) /\
     forall a, IMG_DATA_ADDR + seg_idx (fw_info s) * seg_size (fw_info s) <= a <
       IMG_DATA_ADDR + seg_idx (fw_info s) * seg_size (fw_info s) + zlen (dp_seg p) -> rd (flash s) a = 255) ->
  exists s', CMD_UP_data s (dp_parse p) outbuf o outlen = Some (s', outbuf, outlen) /\
    if accepts (fw_info s) p then
      fw_info s' = set_seg_idx (u16 (seg_idx (fw_info s) + 1)) (set_source (port (dp_parse p)) (fw_info s)) /\
      f_good (flash s') = true /\
      forall a, rd (flash s') a
        = written (rd (flash s)) (IMG_DATA_ADDR + seg_idx (fw_info s) * seg_size (fw_info s)) (dp_seg p) a
    else s' = s.
Proof.
  destruct p as [v i d r ps]. intros (Hop & Hv & Hi & Hd & Hb & Hp) Hl Hg Hacc. cbn [dp_ver dp_idx dp_seg dp_rest dp_parse] in *.
  unfold CMD_UP_data. rewrite Hop, Hp. cbn [Z.eqb PROT_OP_WR Pos.eqb mbind option_bind].
  destruct (pkt_fields v i (zlen d) (d ++ r) Hv Hi) as (_ & E1 & E2 & E3 & E4); [lia|]. cbn zeta in *.
  unfold DATA_REPLY_SIZE. rewrite (proj2 (Nat.ltb_ge _ _)) by done.
  destruct (version_comp v (fw_info s) (le_encode 2 i ++ le_encode 2 (zlen d) ++ d ++ r) Hv Hl) as (c & -> & Hc).
  cbn [mbind option_bind]. rewrite E1, E2, E3, Hc. unfold accepts in *. cbn [dp_ver dp_idx] in *.
  destruct (bool_decide (v = fw_version (fw_info s)) && (i =? seg_idx (fw_info s))); [|by eexists].
  destruct (Hacc eq_refl) as (H4 & Hend & H0 & Hff). rewrite Nat2Z.id.
  assert (Hq : (4 * (length d / 4) = length d)%nat).
  { pose proof (Nat.div_mod_eq (length d) 4). assert (length d mod 4 = 0)%nat; [|lia].
    apply Nat2Z.inj. rewrite Nat2Z.inj_mod. exact H4. }
  assert (Es : seg_size (set_source (port ps) (fw_info s)) = seg_size (fw_info s)).
  { unfold seg_size. f_equal. apply (head_kept _ Hl 7 2). lia. }
  rewrite !(proj2 (seg_idx_kept _ Hl)), Es, u32_small by (unfold IMG_DATA_ADDR, FLASH_BASE in *; lia).
  destruct (write_by_word_spec (flash s) (IMG_DATA_ADDR + seg_idx (fw_info s) * seg_size (fw_info s)) (length d) (d ++ r))
    as (f' & -> & _ & Hg' & Hrd); try done.
  - rewrite length_app. lia.
  - unfold IMG_DATA_ADDR, FLASH_BASE in *. lia.
  - cbn [mbind option_bind fst]. eexists. split; [done|]. cbn [fw_info flash set_mb set_fw set_flash].
    split; [done|]. split; [done|]. intros a. by rewrite Hrd, Hq, take_app_length.
Qed.

(** Handing packets to the handler one after the other. *)
Fixpoint deliver s (pkts : list data_pkt) (outbuf : list Z) (o outlen : Z) : option up_t :=
  match pkts with
  | [] => Some s
  | p :: pkts => r ← CMD_UP_data s (dp_parse p) outbuf o outlen; deliver (fst (fst r)) pkts outbuf o outlen
  end.
(** The next segment number after them. *)
Definition progress (ver : list Z) (pkts : list data_pkt) (k : nat) : nat :=
  fold_left (fun k p => if bool_decide (dp_ver p = ver) && (dp_idx p =? Z.of_nat k) then S k else k) pkts k.

(** An image cut into segments of [sz] bytes (the last may be shorter), in whole
    words and within the two data sectors. *)
Record cut (sz : Z) (segs : list (list Z)) : Prop := mk_cut {
  cut_size : 0 < sz < 65536; cut_count : zlen segs < 65536; cut_fits : sz * zlen segs <= 0x40000;
  cut_full : forall i d, segs !! i = Some d -> (S i < length segs)%nat -> zlen d = sz;
  cut_last : forall i d, segs !! i = Some d -> zlen d <= sz /\ zlen d mod 4 = 0 }.

(** The host sends what it announced: a packet of the announced version carries
    the segment its number names. *)
Definition honest (ver : list Z) (segs : list (list Z)) (p : data_pkt) : Prop :=
  pkt_ok p /\ (dp_ver p = ver -> segs !! Z.to_nat (dp_idx p) = Some (dp_seg p)).

Record session (i0 ver : list Z) (sz : Z) (segs : list (list Z)) (f0 : F) (k : nat) s : Prop := mk_session {
  ses_len : length (fw_info s) = FW_INFO_SIZE; ses_bytes : bytes (fw_info s);
  ses_head : take 15 (fw_info s) = take 15 i0; ses_ver : fw_version (fw_info s) = ver;
  ses_size : seg_size (fw_info s) = sz; ses_idx : seg_idx (fw_info s) = Z.of_nat k;
  ses_k : (k <= length segs)%nat; ses_good : f_good (flash s) = true;
  ses_flash : forall a, rd (flash s) a = written (erased f0) IMG_DATA_ADDR (concat (take k segs)) a }.

Lemma cut_prefix sz segs k : cut sz segs -> (k < length segs)%nat -> zlen (concat (take k segs)) = sz * Z.of_nat k.
Proof.
  intros Hc. induction k as [|k IH]; intros Hk; [simpl; lia|].
  destruct (lookup_lt_is_Some_2 segs k) as [d Hd]; [lia|].
  rewrite (take_snoc _ _ _ Hd), concat_app, zlen_app, IH by lia. cbn [concat]. rewrite app_nil_r.
  rewrite (cut_full _ _ Hc k d Hd) by lia. lia.
Qed.
Lemma session_step i0 ver sz segs f0 k s p outbuf o outlen :
  cut sz segs -> session i0 ver sz segs f0 k s -> honest ver segs p ->
  exists s', CMD_UP_data s (dp_parse p) outbuf o outlen = Some (s', outbuf, outlen) /\
    session i0 ver sz segs f0 (progress ver [p] k) s'.
Proof.
  intros Hc [Hl Hb Hhd Hv Hs Hi Hk Hg Hf] [Hp Hh].
  assert (Ha : accepts (fw_info s) p = bool_decide (dp_ver p = ver) && (dp_idx p =? Z.of_nat k)).
  { unfold accepts. by rewrite Hv, Hi. }
  assert (Hseg : accepts (fw_info s) p = true -> segs !! k = Some (dp_seg p)).
  { rewrite Ha. intros [E1%bool_decide_eq_true E2%Z.eqb_eq]%andb_true_iff.
    rewrite <- (Hh E1), E2. by rewrite Nat2Z.id. }
  pose proof (cut_size _ _ Hc) as Hsz. pose proof (cut_count _ _ Hc) as Hcnt. pose proof (cut_fits _ _ Hc) as Hfit.
  assert (Hroom : accepts (fw_info s) p = true -> (k < length segs)%nat /\ zlen (dp_seg p) <= sz /\
            zlen (dp_seg p) mod 4 = 0 /\ sz * Z.of_nat k + sz <= 0x40000).
  { intros E. pose proof (lookup_lt_Some _ _ _ (Hseg E)). destruct (cut_last _ _ Hc _ _ (Hseg E)).
    do 3 (split; [done|]). nia. }
  destruct (data_step s p outbuf o outlen Hp Hl Hg) as (s' & E & H).
  { rewrite Hi, Hs. intros Ea. destruct (Hroom Ea) as (Hlt & Hle & H4 & Hr). split; [done|].
    unfold IMG_DATA_ADDR, FLASH_BASE in *. split; [lia|]. split; [lia|].
    intros a Hin. rewrite Hf. unfold written, erased, IMG_DATA_ADDR, FLASH_BASE.
    rewrite (cut_prefix sz) by done. rewrite (proj2 (Z.ltb_ge a _)), andb_false_r by lia.
    by rewrite (proj2 (Z.leb_le _ _)), (proj2 (Z.ltb_lt _ _)) by lia. }
  exists s'. split; [exact E|]. cbn [progress fold_left]. rewrite <- Ha.
  destruct (accepts (fw_info s) p); [|by subst s'].
  destruct H as (Hfw & Hg' & Hrd). destruct (Hroom eq_refl) as (Hlt & Hle & H4 & Hr).
  pose proof (set_source_length _ Hl (port (dp_parse p))) as Hl1.
  split; rewrite ?Hfw; try done; try lia.
  - by apply set_seg_idx_length.
  - apply put_Forall, le_encode_bytes. apply put_Forall, le_encode_bytes. done.
  - rewrite <- Hhd. change (get 0 15 (set_seg_idx (u16 (seg_idx (fw_info s) + 1)) (set_source (port (dp_parse p)) (fw_info s)))
      = get 0 15 (fw_info s)).
    rewrite (proj1 (proj2 (proj2 (head_kept _ Hl1 0 15 ltac:(lia))))).
    apply (head_kept _ Hl 0 15). lia.
  - unfold fw_version. rewrite (proj1 (proj2 (proj2 (head_kept _ Hl1 0 3 ltac:(lia))))).
    by rewrite (proj1 (proj2 (head_kept _ Hl 0 3 ltac:(lia)))).
  - unfold seg_size. rewrite (proj1 (proj2 (proj2 (head_kept _ Hl1 7 2 ltac:(lia))))).
    by rewrite (proj1 (proj2 (head_kept _ Hl 7 2 ltac:(lia)))).
  - rewrite Hi, u16_small, seg_idx_set by (done || lia). lia.
  - intros a. rewrite Hrd, Hi, Hs. rewrite (take_snoc _ _ _ (Hseg eq_refl)), concat_app. cbn [concat].
    rewrite app_nil_r, <- written_app, (cut_prefix sz) by done. rewrite (Z.mul_comm sz). by apply written_ext.
Qed.
Lemma session_run i0 ver sz segs f0 pkts outbuf o outlen : cut sz segs -> Forall (honest ver segs) pkts ->
  forall k s, session i0 ver sz segs f0 k s ->
  exists s', deliver s pkts outbuf o outlen = Some s' /\ session i0 ver sz segs f0 (progress ver pkts k) s'.
Proof.
  intros Hc. induction 1 as [|p pkts Hp Hps IH]; intros k s Hs; [by exists s|].
  destruct (session_step i0 ver sz segs f0 k s p outbuf o outlen Hc Hs Hp) as (s1 & E & H1).
  destruct (IH _ _ H1) as (s' & E' & H'). exists s'. cbn [deliver]. rewrite E. by split.
Qed.
End Session.

(** ** CMD_UP_FINISH *)
Lemma status_range i : bytes i -> 0 <= status i < 256.
Proof.
  intros Hb. unfold status. rewrite nth_lookup. destruct (i !! 15%nat) eqn:E; [|done].
  cbn. by eapply Forall_lookup_1 in Hb.
Qed.
Section Finish.
Context {F : Type} `{!FlashDevice F} {Q : Type} `{!RtosQueue Q} `{!CrcUnit}.
Implicit Types s : @up_t F Q.

(** What the check has to establish. *)
Definition complete (info data : list Z) : Prop :=
  take 3 data = fw_version info /\ le_decode (get 3 2 data) = seg_count info /\ seg_idx info = seg_count info.
Definition product_bytes (f : F) : list Z :=
  map (fun i => rd f (IMG_DATA_ADDR + 0x400 + 12 + Z.of_nat i)) (seq 0 9).
Definition image_valid (f : F) (info : list Z) : Prop :=
  img_crc32 info = u32 (calculate_crc32 (rd f) IMG_DATA_ADDR (s32 (img_size info)) ENDIAN_BIG) /\
  product_bytes f = SPECAL_PRODUCT_NUM.

Lemma product_comp f : exists c, mem_comp (product_bytes f) SPECAL_PRODUCT_NUM 9 = Some c /\
  (c = 0 <-> product_bytes f = SPECAL_PRODUCT_NUM).
Proof.
  destruct (mem_comp_spec 9 (product_bytes f) SPECAL_PRODUCT_NUM) as (c & E & Hc); [done..|].
  exists c. split; [exact E|]. rewrite Hc. unfold product_bytes. cbn [seq map take]. done.
Qed.

(** The verdict on every branch. *)
Lemma finish_check_spec (f : F) info data :
  length info = FW_INFO_SIZE -> (5 <= length data)%nat -> status info <> UG_STATE_TRANS_COMPLETE ->
  exists e st, finish_check f info data = Some (e, st) /\
    (complete info data ->
       image_valid f info /\ e = 0 /\ st = UG_STATE_CHECK_PASS \/
       ~ image_valid f info /\ (e = 3 \/ e = 4) /\ st = UG_STATE_CHECK_FAIL) /\
    (~ complete info data -> (e = 1 \/ e = 2) /\ st = status info).
Proof.
  intros Hl Hd Hst. unfold finish_check. apply Z.eqb_neq in Hst.
  destruct (version_comp (take 3 data) info (drop 3 data)) as (c & E & Hc); [rewrite length_take; lia|done|].
  rewrite take_drop in E. rewrite E. cbn [mbind option_bind]. rewrite Hc.
  assert (Himg : exists e st,
    (if negb (img_crc32 info =? u32 (calculate_crc32 (rd f) IMG_DATA_ADDR (s32 (img_size info)) ENDIAN_BIG))
     then Some (3, UG_STATE_CHECK_FAIL)
     else c ← mem_comp (product_bytes f) SPECAL_PRODUCT_NUM 9;
          if negb (c =? 0) then Some (4, UG_STATE_CHECK_FAIL) else Some (0, UG_STATE_CHECK_PASS)) = Some (e, st) /\
    (image_valid f info /\ e = 0 /\ st = UG_STATE_CHECK_PASS \/
     ~ image_valid f info /\ (e = 3 \/ e = 4) /\ st = UG_STATE_CHECK_FAIL)).
  { unfold image_valid. destruct (product_comp f) as (c' & -> & Hc').
    destruct (Z.eqb_spec (img_crc32 info) (u32 (calculate_crc32 (rd f) IMG_DATA_ADDR (s32 (img_size info)) ENDIAN_BIG)));
      cbn [negb mbind option_bind]; [destruct (Z.eqb_spec c' 0); cbn [negb]|];
      do 2 eexists; (split; [reflexivity|]); [left|right..]; tauto. }
  unfold complete. fold (product_bytes f).
  destruct (bool_decide_reflect (take 3 data = fw_version info)) as [Hv|Hv]; cbn [negb orb].
  2: { rewrite Hst. do 2 eexists. split; [reflexivity|]. split; [tauto|]. auto. }
  destruct (Z.eqb_spec (le_decode (get 3 2 data)) (seg_count info)); cbn [negb].
  2: { rewrite Hst. do 2 eexists. split; [reflexivity|]. split; [tauto|]. auto. }
  destruct (Z.eqb_spec (seg_idx info) (seg_count info)); cbn [negb].
  2: { rewrite Hst. do 2 eexists. split; [reflexivity|]. split; [tauto|]. auto. }
  change (UG_STATE_TRANS_COMPLETE =? UG_STATE_TRANS_COMPLETE) with true. cbn match.
  destruct Himg as (er & st & E' & H'). exists er, st. split; [exact E'|]. tauto.
Qed.

Lemma finish_check_range (f : F) info data er st :
  length info = FW_INFO_SIZE -> bytes info -> (5 <= length data)%nat -> status info <> UG_STATE_TRANS_COMPLETE ->
  finish_check f info data = Some (er, st) -> 0 <= st < 256 /\ is_byte er.
Proof.
  intros Hl Hb Hd Hst E. destruct (finish_check_spec f info data Hl Hd Hst) as (er' & st' & E' & Hc & Hnc).
  rewrite E in E'. injection E' as <- <-.
  pose proof (status_range _ Hb). unfold UG_STATE_CHECK_PASS, UG_STATE_CHECK_FAIL, is_byte in *.
  destruct (decide (take 3 data = fw_version info /\ le_decode (get 3 2 data) = seg_count info /\
    seg_idx info = seg_count info)) as [D | D]; [destruct (Hc D); lia|destruct (Hnc D); lia].
Qed.

(** Saving the information: it reads back, the rest of the flash stays. *)
Lemma save_info_spec s : length (fw_info s) = FW_INFO_SIZE -> bytes (fw_info s) -> f_good (flash s) = true ->
  exists f', save_info s = Some (set_flash f' s) /\ f_good f' = true /\
    (forall i, (i < 32)%nat -> rd f' (IMG_INFO_ADDR + Z.of_nat i) = nth i (fw_info s) 0) /\
    forall a, a < IMG_INFO_ADDR \/ IMG_INFO_ADDR + 4096 <= a -> rd f' a = rd (flash s) a.
Proof.
  intros Hl Hb Hg. unfold save_info. rewrite <- Hl. unfold FW_INFO_SIZE in Hl.
  destruct (write_by_page_spec (flash s) IMG_INFO_ADDR (fw_info s) Hb Hg) as (r & -> & _ & Hrd & _ & Hg');
    [done|done|by rewrite Hl|].
  exists (fst r). split; [done|]. split; [done|]. unfold after_write in Hrd.
  change (page_count (length (fw_info s))) with (page_count (length (fw_info s))) in Hrd. rewrite Hl in Hrd.
  change (4096 * page_count 32) with 4096 in Hrd. split.
  - intros i Hi. rewrite Hrd. rewrite (proj2 (Z.leb_le _ _)), (proj2 (Z.ltb_lt _ _)) by lia. cbn [andb]. f_equal. lia.
  - intros a Ha. rewrite Hrd. destruct (Z.leb_spec IMG_INFO_ADDR a), (Z.ltb_spec a (IMG_INFO_ADDR + Z.of_nat 32)),
      (Z.ltb_spec a (IMG_INFO_ADDR + 4096)); cbn [andb]; done || lia.
Qed.

Lemma info_crc_range i : bytes i -> 0 <= info_crc i < 2 ^ 32.
Proof.
  intros Hb. unfold info_crc. change (Z.of_nat FW_INFO_SIZE - 4) with (4 * Z.of_nat 7).
  rewrite calculate_crc32_words. apply crc_words_range; [|apply crc_reset_range].
  intros a. rewrite nth_lookup. destruct (i !! Z.to_nat a) eqn:E; [|split; [done|reflexivity]].
  cbn. by eapply Forall_lookup_1 in Hb.
Qed.
(** The stored checksum is not part of what it covers. *)
Lemma info_crc_stored i v : length i = FW_INFO_SIZE -> bytes i -> 0 <= v < 2 ^ 32 ->
  info_crc (set_info_crc32 v i) = info_crc i /\ info_crc32 (set_info_crc32 v i) = v.
Proof.
  intros Hl Hb Hv. unfold FW_INFO_SIZE in Hl. split.
  - unfold info_crc. change (Z.of_nat FW_INFO_SIZE - 4) with (4 * Z.of_nat 7). rewrite !calculate_crc32_words.
    apply crc_words_ext. intros a Ha. rewrite !nth_lookup. f_equal. unfold set_info_crc32.
    apply put_lookup_out; rewrite ?le_encode_length, ?Hl; lia.
  - unfold info_crc32, set_info_crc32. rewrite get_put_eq; [by apply le_decode_encode| |done].
    rewrite le_encode_length, Hl. lia.
Qed.
Lemma set_status_status v i : length i = FW_INFO_SIZE -> status (set_status v i) = v.
Proof.
  intros Hl. unfold status, set_status. rewrite nth_lookup, put_lookup_in; [done|..];
    rewrite ?Hl; unfold FW_INFO_SIZE; simpl length; lia.
Qed.
Lemma set_crc_status v i : length i = FW_INFO_SIZE -> status (set_info_crc32 v i) = status i.
Proof.
  intros Hl. unfold status, set_info_crc32. rewrite !nth_lookup, put_lookup_out; [done|..];
    rewrite ?le_encode_length, ?Hl; unfold FW_INFO_SIZE; lia.
Qed.

(** The information block CMD_UP_FINISH saves. *)
Definition final_info (st : Z) (i : list Z) : list Z := set_info_crc32 (info_crc (set_status st i)) (set_status st i).
Lemma final_info_spec st i : length i = FW_INFO_SIZE -> bytes i -> 0 <= st < 256 ->
  length (final_info st i) = FW_INFO_SIZE /\ bytes (final_info st i) /\ status (final_info st i) = st /\
  info_crc32 (final_info st i) = info_crc (final_info st i) /\ take 15 (final_info st i) = take 15 i.
Proof.
  intros Hl Hb Hst. unfold final_info. pose proof (set_status_length i Hl st) as Hl1.
  assert (Hb1 : bytes (set_status st i)) by (apply put_Forall; [done|by constructor]).
  pose proof (info_crc_range _ Hb1) as Hr. destruct (info_crc_stored _ _ Hl1 Hb1 Hr) as [E1 E2].
  split; [by apply set_info_crc32_length|]. split; [apply put_Forall; [done|apply le_encode_bytes]|].
  split; [by rewrite set_crc_status, set_status_status|]. split; [congruence|].
  change (get 0 15 (set_info_crc32 (info_crc (set_status st i)) (set_status st i)) = get 0 15 i).
  rewrite (proj2 (proj2 (proj2 (head_kept _ Hl1 0 15 ltac:(lia))))). apply (head_kept _ Hl 0 15). lia.
Qed.

Lemma ack_header h : length h = 9%nat -> bytes h ->
  let h' := set_op_type PROT_OP_ACK (set_data_len 0 h) in
  length h' = 9%nat /\ bytes h' /\ op_type h' = PROT_OP_ACK /\ data_len h' = 0.
Proof.
  intros Hl Hb. cbn zeta. unfold set_op_type, set_data_len.
  assert (Hl1 : length (put 5 (le_encode 2 0) h) = 9%nat) by (rewrite put_length; rewrite ?le_encode_length; lia).
  split; [rewrite put_length; [done|rewrite Hl1; simpl; lia]|].
  split; [apply put_Forall; [apply put_Forall; [done|apply le_encode_bytes]|by constructor]|].
  unfold op_type, data_len. rewrite nth_lookup, put_lookup_in; [|rewrite Hl1; simpl; lia|simpl; lia]. split; [done|].
  rewrite get_put_ne; [|rewrite Hl1; simpl; lia|simpl; lia]. by rewrite get_put_eq by (rewrite ?le_encode_length; lia || done).
Qed.
End Finish.

Section FinishSpec.
Context {F : Type} `{!FlashDevice F} {Q : Type} `{!RtosQueue Q} `{!CrcUnit}.
Implicit Types s : @up_t F Q.

(** A CMD_UP_FINISH request. *)
Definition finish_request (parse : parse_base_t) (data : list Z) : Prop :=
  length (header parse) = 9%nat /\ bytes (header parse) /\ op_type (header parse) = PROT_OP_RD /\
  data_len (header parse) = 5 /\ error parse = 0 /\ p_data parse = Some data /\ (5 <= length data)%nat.
Definition info_ready (info : list Z) : Prop :=
  length info = FW_INFO_SIZE /\ bytes info /\ status info <> UG_STATE_TRANS_COMPLETE.

Lemma finish_spec s parse data outbuf (o : nat) outlen :
  finish_request parse data -> info_ready (fw_info s) -> f_good (flash s) = true ->
  (o + 12 <= length outbuf)%nat -> 0 <= outlen < 2 ^ 30 ->
  exists s' reply e st,
    finish_check (flash s) (fw_info s) data = Some (e, st) /\
    CMD_UP_finish s parse outbuf (Z.of_nat o) outlen = Some (s', put o reply outbuf, outlen + zlen reply) /\
    zlen reply = (if e =? 0 then 9 else 12) /\
    fw_info s' = final_info st (fw_info s) /\
    (forall i, (i < 32)%nat -> rd (flash s') (IMG_INFO_ADDR + Z.of_nat i) = nth i (fw_info s') 0) /\
    (forall a, a < IMG_INFO_ADDR \/ IMG_INFO_ADDR + 4096 <= a -> rd (flash s') a = rd (flash s) a) /\
    f_good (flash s') = true /\ op_reset s' = op_reset s || (st =? UG_STATE_CHECK_PASS).
Proof.
  intros (Hhl & Hhb & Hop & Hdl & He & Hpd & Hd) (Hl & Hb & Hst) Hg Ho Hlen.
  destruct (finish_check_spec (flash s) (fw_info s) data Hl Hd Hst) as (e & st & E & Hc & Hnc).
  pose proof (finish_check_range _ _ _ _ _ Hl Hb Hd Hst E) as Hse.
  destruct Hse as [Hs8 He8]. destruct (final_info_spec st (fw_info s) Hl Hb Hs8) as (Hfl & Hfb & _).
  destruct (save_info_spec (set_fw (final_info st (fw_info s)) s)) as (f' & Es & Hg' & Hrd & Hout); [done..|].
  destruct (ack_header _ Hhl Hhb) as (Hal & Hab & _ & Had). cbn zeta in *.
  unfold CMD_UP_finish. rewrite Hop, Hdl, Hpd. cbn [Z.eqb andb PROT_OP_RD Pos.eqb mbind option_bind].
  rewrite E. cbn [mbind option_bind]. fold (final_info st (fw_info s)). rewrite Es. cbn [mbind option_bind].
  set (h := set_op_type PROT_OP_ACK (set_data_len 0 (header parse))) in *. rewrite He.
  pose proof (head_image_length h Hal) as HL.
  set (reply := if e =? 0 then head_image h else head_image h ++ body_image [e]).
  assert (Hr : proto_base_build_pkt (mk_parse h (instr_len parse) (if e =? 0 then 0 else e) None (port parse)) outbuf (Z.of_nat o) outlen
               = Some (put o reply outbuf, outlen + zlen reply) /\ zlen reply = (if e =? 0 then 9 else 12)).
  { unfold reply. destruct (Z.eqb_spec e 0) as [-> | Hne].
    - rewrite build_empty by (done || lia || by left). rewrite HL. done.
    - rewrite build_error by (done || lia). assert (zlen (body_image [e]) = 3) by by rewrite body_image_length.
      split; [do 2 f_equal|]; zlen_lia. }
  destruct Hr as [-> Hr]. cbn [mbind option_bind fst snd].
  do 4 eexists. split; [reflexivity|]. split; [reflexivity|]. by repeat split.
Qed.

(** [C32] The verdict of the upgrade: on a well-formed CMD_UP_FINISH, for a
    complete transfer (same version, announced number of segments, all
    received) the status becomes CHECK_PASS exactly if the image's CRC and
    product name are right, else CHECK_FAIL; for an incomplete one the status
    stays.  A header-only reply goes out on success, one with an error byte
    otherwise.  The block saved at [FW_INFO_ADDR] carries its own checksum and
    the rest of the flash stays.  The reset is requested exactly when the
    status is CHECK_PASS afterwards, also when this very request was refused
    because an earlier one had passed. *)
Theorem up_finish_verdict s parse data outbuf (o : nat) outlen :
  finish_request parse data -> info_ready (fw_info s) -> f_good (flash s) = true ->
  (o + 12 <= length outbuf)%nat -> 0 <= outlen < 2 ^ 30 ->
  exists s' reply,
    CMD_UP_finish s parse outbuf (Z.of_nat o) outlen = Some (s', put o reply outbuf, outlen + zlen reply) /\
    let st := status (fw_info s') in
    (complete (fw_info s) data -> image_valid (flash s) (fw_info s) -> st = UG_STATE_CHECK_PASS /\ zlen reply = 9) /\
    (complete (fw_info s) data -> ~ image_valid (flash s) (fw_info s) -> st = UG_STATE_CHECK_FAIL /\ zlen reply = 12) /\
    (~ complete (fw_info s) data -> st = status (fw_info s) /\ zlen reply = 12) /\
    op_reset s' = op_reset s || (st =? UG_STATE_CHECK_PASS) /\
    info_crc32 (fw_info s') = info_crc (fw_info s') /\ take 15 (fw_info s') = take 15 (fw_info s) /\
    (forall i, (i < 32)%nat -> rd (flash s') (IMG_INFO_ADDR + Z.of_nat i) = nth i (fw_info s') 0) /\
    (forall a, a < IMG_INFO_ADDR \/ IMG_INFO_ADDR + 4096 <= a -> rd (flash s') a = rd (flash s) a).
Proof.
  intros Hreq Hinfo Hg Ho Hlen.
  destruct (finish_spec s parse data outbuf o outlen Hreq Hinfo Hg Ho Hlen)
    as (s' & reply & e & st & E & Hf & Hr & Hfw & Hrd & Hout & _ & Hres).
  destruct Hinfo as (Hl & Hb & Hst). destruct Hreq as (_ & _ & _ & _ & _ & _ & Hd).
  destruct (finish_check_spec (flash s) (fw_info s) data Hl Hd Hst) as (e' & st' & E' & Hc & Hnc).
  rewrite E in E'. injection E' as <- <-.
  destruct (finish_check_range _ _ _ _ _ Hl Hb Hd Hst E) as [Hs8 _].
  destruct (final_info_spec st (fw_info s) Hl Hb Hs8) as (_ & _ & Est & Ecrc & Et). rewrite <- Hfw in *.
  exists s', reply. split; [exact Hf|]. cbn zeta. rewrite Est.
  split; [|split; [|split; [|done]]].
  - intros C V. destruct (Hc C) as [(_ & -> & ->) | (N & _)]; [by rewrite Hr|done].
  - intros C V. destruct (Hc C) as [(N & _) | (_ & [-> | ->] & ->)]; [done|by rewrite Hr..].
  - intros C. destruct (Hnc C) as [[-> | ->] ->]; by rewrite Hr.
Qed.
End FinishSpec.

(** ** The session *)

Lemma session_from_start {F : Type} `{!FlashDevice F} {Q : Type} `{!RtosQueue Q} malloc (s : @up_t F Q)
    ver sz segs pkts outbuf o outlen :
  cut sz segs -> Forall (honest ver segs) pkts ->
  length (fw_info s) = FW_INFO_SIZE -> bytes (fw_info s) -> fw_version (fw_info s) = ver -> seg_size (fw_info s) = sz ->
  seg_idx (fw_info s) = 0 -> f_good (flash s) = true ->
  exists s', deliver (task_begin malloc s) pkts outbuf o outlen = Some s' /\
    session (fw_info s) ver sz segs (flash s) (progress ver pkts 0) s'.
Proof.
  intros Hc Hp Hl Hb Hv Hs Hi Hg. destruct (task_begin_spec malloc s Hg) as (Hfw & Hg' & Hrd).
  apply session_run; [done..|]. split; rewrite ?Hfw; try done.
  - by apply set_status_length.
  - apply put_Forall; [done|by repeat constructor].
  - change (get 0 15 (set_status UG_STATE_TRANS (fw_info s)) = get 0 15 (fw_info s)). apply (head_kept _ Hl 0 15). lia.
  - unfold fw_version in *. by rewrite (proj1 (head_kept _ Hl 0 3 ltac:(lia))).
  - unfold seg_size in *. by rewrite (proj1 (head_kept _ Hl 7 2 ltac:(lia))).
  - by rewrite (proj1 (seg_idx_kept _ Hl)).
  - lia.
  - intros a. by rewrite Hrd, written_nil.
Qed.

(** [C33] Receiving an image: from the start of the upgrade task, which erases
    the data sectors, whatever data packets of an honest host arrive in
    whatever order and how often (with repeated, early, late or foreign-version
    packets), the handler never fails, the next segment number is the length
    of the longest run of segments received in order, and flash holds exactly
    those segments, 0xFF behind them and its old contents elsewhere. *)
Theorem upgrade_session {F : Type} `{!FlashDevice F} {Q : Type} `{!RtosQueue Q} malloc (s : @up_t F Q)
    ver sz segs pkts outbuf o outlen :
  cut sz segs -> Forall (honest ver segs) pkts ->
  length (fw_info s) = FW_INFO_SIZE -> bytes (fw_info s) -> fw_version (fw_info s) = ver -> seg_size (fw_info s) = sz ->
  seg_idx (fw_info s) = 0 -> f_good (flash s) = true ->
  exists s' k, deliver (task_begin malloc s) pkts outbuf o outlen = Some s' /\
    k = progress ver pkts 0 /\ (k <= length segs)%nat /\ seg_idx (fw_info s') = Z.of_nat k /\
    forall a, rd (flash s') a = written (erased (flash s)) IMG_DATA_ADDR (concat (take k segs)) a.
Proof.
  intros Hc Hp Hl Hb Hv Hs Hi Hg.
  destruct (session_from_start malloc s ver sz segs pkts outbuf o outlen Hc Hp Hl Hb Hv Hs Hi Hg) as (s' & E & H').
  destruct H' as [_ _ _ _ _ H1 H2 _ H3]. exists s', (progress ver pkts 0). by repeat split.
Qed.

(** ** A concrete upgrade of eight bytes in two segments *)
Definition demo_info : list Z :=
  [1; 0; 51] ++ le_encode 4 8 ++ le_encode 2 4 ++ le_encode 2 2 ++ replicate 21 0.
Definition demo_timers : ostimer_state := mk_ostimer [] [].
Definition demo_state : @up_t nor (list Z * Z) :=
  mk_up demo_info (mk_nor (fun _ => 0) true) None 0 demo_timers false false.
Definition demo_pkt (ver : list Z) (i : Z) (seg : list Z) : data_pkt :=
  mk_pkt ver i seg [0; 0]
    (mk_parse [35; 1; 0; 51; 1; 11; 0; 0; 0] 22 0 (Some (ver ++ le_encode 2 i ++ le_encode 2 (zlen seg) ++ seg ++ [0; 0])) 0).
(** Segment 1 too early, then 0, 0 again, a foreign version, then 1. *)
Definition demo_pkts : list data_pkt :=
  [demo_pkt [1; 0; 51] 1 [5; 6; 7; 8]; demo_pkt [1; 0; 51] 0 [1; 2; 3; 4]; demo_pkt [1; 0; 51] 0 [1; 2; 3; 4];
   demo_pkt [9; 9; 9] 1 [9; 9]; demo_pkt [1; 0; 51] 1 [5; 6; 7; 8]].
Lemma upgrade_session_witness :
  exists s' k, deliver (task_begin true demo_state) demo_pkts [] 0 0 = Some s' /\
    k = progress [1; 0; 51] demo_pkts 0 /\ (k <= length [[1; 2; 3; 4]; [5; 6; 7; 8]])%nat /\
    seg_idx (fw_info s') = Z.of_nat k /\
    forall a, rd (flash s') a
      = written (erased (flash demo_state)) IMG_DATA_ADDR (concat (take k [[1; 2; 3; 4]; [5; 6; 7; 8]])) a.
Proof.
  apply (upgrade_session true demo_state [1; 0; 51] 4 [[1; 2; 3; 4]; [5; 6; 7; 8]] demo_pkts [] 0 0);
    try reflexivity.
  - split; [lia|simpl; lia|simpl; lia| |].
    + intros [|[|i]] d [= <-]; simpl; lia.
    + intros [|[|i]] d [= <-]; by split.
  - repeat constructor; simpl; try lia; try discriminate.
  - vm_compute. repeat constructor; discriminate.
Defined.
Example demo_progress : progress [1; 0; 51] demo_pkts 0 = 2%nat.
Proof. reflexivity. Qed.

(** The same image, complete, with the product name in place. *)
Definition demo_flash : nor :=
  mk_nor (fun a => if (IMG_DATA_ADDR + 0x40C <=? a) && (a <? IMG_DATA_ADDR + 0x415)
    then nth (Z.to_nat (a - (IMG_DATA_ADDR + 0x40C))) SPECAL_PRODUCT_NUM 0
    else if (IMG_DATA_ADDR <=? a) && (a <? IMG_DATA_ADDR + 8) then a - IMG_DATA_ADDR + 1 else 255) true.
Definition demo_crc : Z := Eval vm_compute in calculate_crc32 (rd demo_flash) IMG_DATA_ADDR 8 ENDIAN_BIG.
Definition demo_done_info : list Z := Eval vm_compute in put 11 (le_encode 4 demo_crc) (set_seg_idx 2 demo_info).
Definition demo_done : @up_t nor (list Z * Z) :=
  mk_up demo_done_info demo_flash None 0 demo_timers false false.
Definition demo_finish : parse_base_t :=
  mk_parse [35; 1; 0; 52; 0; 5; 0; 0; 0] 16 0 (Some [1; 0; 51; 2; 0; 0; 0]) 0.
Lemma up_finish_verdict_witness :
  exists s' reply, CMD_UP_finish demo_done demo_finish (replicate 12 0) (Z.of_nat 0) 0
      = Some (s', put 0 reply (replicate 12 0), 0 + zlen reply) /\
    status (fw_info s') = UG_STATE_CHECK_PASS /\ zlen reply = 9 /\ op_reset s' = true.
Proof.
  destruct (up_finish_verdict demo_done demo_finish [1; 0; 51; 2; 0; 0; 0] (replicate 12 0) 0 0)
    as (s' & reply & E & H1 & _ & _ & H2 & _).
  - repeat split; try reflexivity; repeat constructor; simpl; lia.
  - split; [reflexivity|split; [|discriminate]]. vm_compute. repeat constructor; discriminate.
  - reflexivity.
  - simpl. lia.
  - lia.
  - exists s', reply. split; [exact E|].
    assert (C : complete (fw_info demo_done) [1; 0; 51; 2; 0; 0; 0]) by (repeat split; reflexivity).
    assert (V : image_valid (flash demo_done) (fw_info demo_done)) by (split; vm_compute; reflexivity).
    destruct (H1 C V) as [Hst Hr]. split; [exact Hst|]. split; [exact Hr|]. rewrite H2, Hst. reflexivity.
Defined.

(** ** The requests of the task *)
Section Task.
Context {F : Type} `{!FlashDevice F} {Q : Type} `{!RtosQueue Q} (dev_addr : Z).
Implicit Types s : @up_t F Q.

Definition request_head : list Z :=
  [PROT_SOP] ++ le_encode 2 dev_addr ++ [CMD_UP_DATA; PROT_OP_WR] ++ le_encode 2 7 ++ [0; 0].
Definition request_body (idx count : Z) : list Z := FW_VERSION ++ le_encode 2 idx ++ le_encode 2 count.
Lemma request_spec idx count :
  request_packet dev_addr idx count = Some (head_image request_head ++ body_image (request_body idx count)).
Proof.
  assert (Hh : bytes request_head).
  { unfold request_head. rewrite !Forall_app. repeat split; try apply le_encode_bytes; repeat constructor; done. }
  assert (Hb : bytes (request_body idx count)).
  { unfold request_body. rewrite !Forall_app. repeat split; try apply le_encode_bytes; repeat constructor; done. }
  unfold request_packet. fold request_head. fold (request_body idx count).
  assert (E : proto_base_build_pkt (mk_parse request_head 0 0 (Some (request_body idx count)) 0) (replicate 20 0) 0 0
    = Some (put 0 (head_image request_head ++ body_image (request_body idx count)) (replicate 20 0), 18)).
  { pose proof (build_data request_head eq_refl Hh 0 0 (replicate 20 0) 0 0 (request_body idx count) [] Hb) as B.
    rewrite app_nil_r in B. apply B; try done; simpl; lia. }
  rewrite E. reflexivity.
Qed.

Definition silent (mb : option Q) : Prop := match mb with None => True | Some q => q_items q = [] end.
Lemma fetch_silent s : silent (xfer_mb s) -> exists m, mbox_fetch (xfer_mb s) = (xfer_mb s, 0, m).
Proof.
  intros Hq. unfold mbox_fetch. destruct (xfer_mb s) as [q|]; [|by eexists]. cbn in Hq.
  pose proof (q_receive q) as E. rewrite Hq in E. rewrite E. by eexists.
Qed.
Lemma set_mb_same s : set_mb (xfer_mb s) s = s.
Proof. by destruct s. Qed.

(** The upgrade task without answers: it sends the request for the next
    segment exactly three times, a packet of the protocol with the running
    firmware's version, the segment number and the count, and ends with status
    FINISHED; each answer that the data handler reports makes it go on to the
    next segment.  Since every upgrade creates a new mailbox and none is ever
    deleted, the ninth upgrade after power-up has no mailbox and gives up
    without waiting. *)
Theorem up_task_gives_up count s :
  seg_idx (fw_info s) < seg_count (fw_info s) -> status (fw_info s) <> UG_STATE_CANCELED ->
  let pkt := head_image request_head ++ body_image (request_body (seg_idx (fw_info s)) count) in
  (silent (xfer_mb s) ->
     task_run dev_addr 9 count s T_loop
     = Some (set_fw (set_status UG_STATE_FINISHED (fw_info s)) s, T_done, [pkt; pkt; pkt])) /\
  (forall q l, xfer_mb s = Some q -> q_items q = MSG_RECV_DATA :: l ->
     exists q', task_run dev_addr 3 count s T_loop = Some (set_mb (Some q') s, T_loop, [pkt]) /\ q_items q' = l) /\
  (forall malloc s0, mbox_count s0 = MBOX_MAX_COUNT -> silent (xfer_mb (task_begin malloc s0))).
Proof.
  intros Hi%Z.ltb_lt Hst%Z.eqb_neq pkt. pose proof (request_spec (seg_idx (fw_info s)) count) as Ep.
  split; [|split].
  - intros Hq. destruct (fetch_silent s Hq) as [m Em]. unfold FW_DATA_RETRY.
    do 9 (cbn [task_run task_step Nat.sub FW_DATA_RETRY]; rewrite ?Hi, ?Hst, ?Ep, ?Em; cbn [mbind option_bind]; rewrite ?set_mb_same;
      change (0 =? MSG_RECV_DATA) with false; cbn match beta zeta).
    done.
  - intros q l Hmb Hq. pose proof (q_receive q) as E. rewrite Hq in E. destruct (xQueueReceive q) as [q' r] eqn:Er.
    cbn in E. destruct E as (-> & Hl & _). exists q'. split; [|done].
    do 3 (cbn [task_run task_step Nat.sub FW_DATA_RETRY]; rewrite ?Hi, ?Hst, ?Ep, ?Hmb; cbn [mbind option_bind mbox_fetch]; rewrite ?Er;
      cbn match beta zeta).
    done.
  - intros malloc s0 H8. unfold task_begin, upgrade_init, mbox_create. rewrite H8. done.
Qed.
End Task.
Lemma up_task_gives_up_witness :
  task_run 1 9 2 (task_begin true demo_state) T_loop
  = Some (set_fw (set_status UG_STATE_FINISHED (fw_info (task_begin true demo_state))) (task_begin true demo_state), T_done,
      replicate 3 (head_image (request_head 1) ++ body_image (request_body 0 2))).
Proof.
  destruct (up_task_gives_up 1 2 (task_begin true demo_state)) as [H _]; [reflexivity|discriminate|].
  exact (H eq_refl).
Defined.
