(* ===== verification/Boot.v ===== *)
(** * boot_main.c: the boot loader's installation of a received image

    After a reset the boot loader reads the information block that upgrade.c
    saved; for a verified image it copies the data sectors over the application
    and records that it is done.  The jump to the application is left out. *)
From Stdlib Require Import ZifyBool.
From S2P Require Import Prelude Message Fmc ProtoBase Crc32 Upgrade.

Definition APP_ENTRY_ADDR : Z := FLASH_BASE + 0x10000.
Definition APP_ENTRY_SECT_1 : nat := 4.
Definition APP_ENTRY_SECT_2 : nat := 5.
Definition BUFFER_SIZE : Z := 4096.

Section Boot.
Context {F : Type} `{!FlashDevice F} `{!CrcUnit}.

(** The copy loop: at most [BUFFER_SIZE] bytes a turn. *)
Fixpoint copy_loop (fuel : nat) (f : F) (img_addr app_addr len : Z) : option F :=
  match fuel with
  | O => None
  | S fuel =>
      if len =? 0 then Some f
      else
        let size := if len <? BUFFER_SIZE then len else BUFFER_SIZE in
        let buffer := flash_read f img_addr (Z.to_nat size) in
        r ← gdf_write_data_by_word f app_addr (Z.to_nat size) buffer;
        copy_loop fuel (fst r) (u32 (img_addr + size)) (u32 (app_addr + size)) (len - size)
  end.

Definition image_crc (f : F) (addr len : Z) : Z := u32 (calculate_crc32 (rd f) addr (s32 len) ENDIAN_BIG).

(** The flash afterwards, and whether the boot loader resets the machine. *)
Definition boot_upgrade (f : F) : option (F * bool) :=
  let info := flash_read f IMG_INFO_ADDR FW_INFO_SIZE in
  if negb (info_crc info =? info_crc32 info) then Some (f, false)
  else if img_size info =? 0 then Some (f, false)
  else if negb (status info =? UG_STATE_CHECK_PASS) then Some (f, false)
  else
    let len := img_size info in
    if negb (image_crc f IMG_DATA_ADDR len =? img_crc32 info) then Some (f, false)
    else
      let f := fst (fmc_sector_erase (fmc_unlock f) APP_ENTRY_SECT_1) in
      let f := fst (fmc_sector_erase f APP_ENTRY_SECT_2) in
      f ← copy_loop (Z.to_nat (len / BUFFER_SIZE) + 2) f IMG_DATA_ADDR APP_ENTRY_ADDR len;
      let f := fmc_lock f in
      if image_crc f APP_ENTRY_ADDR len =? img_crc32 info then
        r ← gdf_write_data_by_page f IMG_INFO_ADDR FW_INFO_SIZE (set_status UG_STATE_FINISHED info);
        Some (fst r, false)
      else Some (f, true).
End Boot.

(** * Properties *)
Section BootProps.
Context {F : Type} `{!FlashDevice F} `{!CrcUnit}.

(** [l] lies in flash at [addr]. *)
Definition holds_at (f : F) (addr : Z) (l : list Z) : Prop :=
  forall i, (i < length l)%nat -> rd f (addr + Z.of_nat i) = nth i l 0.

Lemma flash_read_at f addr l (p n : nat) : holds_at f addr l -> (p + n <= length l)%nat ->
  0 <= addr -> addr + zlen l < 2 ^ 32 -> flash_read f (addr + Z.of_nat p) n = get p n l.
Proof.
  intros Hh Hn Ha He. unfold flash_read, gdf_read_data. apply list_eq. intros i. rewrite list_lookup_fmap.
  destruct (decide (i < n)%nat).
  - rewrite lookup_seq_lt, get_lookup by done. cbn [fmap option_fmap option_map].
    rewrite u32_small by lia. replace (addr + Z.of_nat p + Z.of_nat (0 + i)) with (addr + Z.of_nat (p + i)) by lia.
    rewrite Hh by lia. destruct (lookup_lt_is_Some_2 l (p + i)) as [x Hx]; [lia|].
    rewrite Hx. f_equal. by apply nth_lookup_Some.
  - rewrite lookup_seq_ge, get_lookup_ge by lia. done.
Qed.

Lemma copy_loop_unfold fuel f i a len :
  copy_loop (S fuel) f i a len =
  (if len =? 0 then Some f
   else let size := if len <? BUFFER_SIZE then len else BUFFER_SIZE in
     r ← gdf_write_data_by_word f a (Z.to_nat size) (flash_read f i (Z.to_nat size));
     copy_loop fuel (fst r) (u32 (i + size)) (u32 (a + size)) (len - size)).
Proof. reflexivity. Qed.

Section Copy.
Context (l : list Z) (base : Z -> Z) (Hb : bytes l).
Context (Hfit : zlen l <= 0x30000) (H4 : (length l mod 4 = 0)%nat).
Context (Happ : forall a, APP_ENTRY_ADDR <= a < APP_ENTRY_ADDR + 0x30000 -> base a = 255).
Context (Himg : forall i, (i < length l)%nat -> base (IMG_DATA_ADDR + Z.of_nat i) = nth i l 0).

Definition copied (f : F) (p : nat) : Prop :=
  f_good f = true /\ forall a, rd f a = written base APP_ENTRY_ADDR (take p l) a.

Lemma copied_image f p : copied f p -> (p <= length l)%nat -> holds_at f IMG_DATA_ADDR l.
Proof.
  intros [_ Hrd] Hp i Hi. rewrite Hrd, <- Himg by done. unfold written.
  rewrite length_take_le by done. unfold APP_ENTRY_ADDR, IMG_DATA_ADDR, FLASH_BASE in *.
  by rewrite (proj2 (Z.ltb_ge _ _)), andb_false_r by lia.
Qed.

(** One turn copies [n] bytes. *)
Lemma copy_turn f p n : copied f p -> (p + n <= length l)%nat -> (n mod 4 = 0)%nat ->
  exists r, gdf_write_data_by_word f (APP_ENTRY_ADDR + Z.of_nat p) n (flash_read f (IMG_DATA_ADDR + Z.of_nat p) n) = Some r /\
    copied (fst r) (p + n).
Proof.
  intros Hc Hn Hm. pose proof (copied_image f p Hc ltac:(lia)) as Hh. destruct Hc as [Hg Hrd].
  assert (Hq : (4 * (n / 4) = n)%nat) by (pose proof (Nat.div_mod_eq n 4); lia).
  rewrite (flash_read_at f IMG_DATA_ADDR l p n Hh Hn) by (unfold IMG_DATA_ADDR, FLASH_BASE; lia).
  assert (Hgl : length (get p n l) = n) by (apply get_length; lia).
  destruct (write_by_word_spec f (APP_ENTRY_ADDR + Z.of_nat p) n (get p n l) Hg) as (f' & E & _ & Hg' & Hrd').
  - by apply get_Forall.
  - lia.
  - unfold APP_ENTRY_ADDR, FLASH_BASE. lia.
  - unfold APP_ENTRY_ADDR, FLASH_BASE. lia.
  - intros a Ha. rewrite Hrd. unfold written. rewrite length_take_le by lia.
    rewrite (proj2 (Z.ltb_ge _ _)), andb_false_r by lia. apply Happ. unfold APP_ENTRY_ADDR, FLASH_BASE in *. lia.
  - exists (f', 0). split; [exact E|]. split; [exact Hg'|]. intros a. cbn [fst]. rewrite Hrd', Hq, take_ge by lia.
    assert (Ht : take (p + n) l = take p l ++ get p n l).
    { unfold get. rewrite take_take_drop. done. }
    rewrite Ht, <- written_app, length_take_le by lia. by apply written_ext.
Qed.

Lemma copy_loop_spec fuel : forall f p, copied f p -> (p <= length l)%nat -> (p mod 4 = 0)%nat ->
  (length l - p <= 4096 * fuel)%nat ->
  exists f', copy_loop (S fuel) f (IMG_DATA_ADDR + Z.of_nat p) (APP_ENTRY_ADDR + Z.of_nat p) (zlen l - Z.of_nat p) = Some f' /\
    copied f' (length l).
Proof.
  induction fuel as [|fuel IH]; intros f p Hc Hp Hpm Hf.
  - assert (p = length l) as -> by lia. exists f. cbn [copy_loop]. by rewrite Z.sub_diag.
  - rewrite copy_loop_unfold. destruct (Z.eqb_spec (zlen l - Z.of_nat p) 0).
    { assert (p = length l) as -> by lia. by exists f. }
    set (m := Nat.min (length l - p) 4096). assert (Hpl : (p + m <= length l)%nat) by (unfold m; lia).
    assert (Hn : (if zlen l - Z.of_nat p <? BUFFER_SIZE then zlen l - Z.of_nat p else BUFFER_SIZE) = Z.of_nat m).
    { unfold m, BUFFER_SIZE. destruct (Z.ltb_spec (zlen l - Z.of_nat p) 4096); lia. }
    assert (Hn4 : (m mod 4 = 0)%nat).
    { unfold m. destruct (Nat.min_spec (length l - p) 4096) as [[_ ->] | [_ ->]]; [|done].
      apply Nat2Z.inj. rewrite Nat2Z.inj_mod, Nat2Z.inj_sub by lia.
      apply (f_equal Z.of_nat) in H4, Hpm. rewrite Nat2Z.inj_mod in H4, Hpm. zdm. }
    cbn zeta. rewrite Hn, Nat2Z.id. destruct (copy_turn f p m Hc) as (r & -> & Hc'); [unfold m; lia|done|].
    cbn [mbind option_bind]. unfold IMG_DATA_ADDR, APP_ENTRY_ADDR, FLASH_BASE in *. rewrite !u32_small by lia.
    destruct (IH (fst r) (p + m)%nat Hc') as (f' & E & H'); [unfold m; lia| |unfold m; lia|].
    { apply Nat2Z.inj. apply (f_equal Z.of_nat) in Hn4, Hpm. rewrite Nat2Z.inj_mod in *. zdm. }
    exists f'. split; [|exact H']. rewrite <- E. f_equal; lia.
Qed.
End Copy.

(** The CRC of an image that lies in flash depends on the image alone. *)
Lemma image_crc_at f addr l : holds_at f addr l -> zlen l < 2 ^ 31 -> (length l mod 4 = 0)%nat ->
  image_crc f addr (zlen l)
  = u32 (crc_words (length l / 4) (fun i => nth (Z.to_nat i) l 0) 0 ENDIAN_BIG crc_reset).
Proof.
  intros Hh Hl H4. unfold image_crc. rewrite s32_small by lia. f_equal.
  pose proof (Nat.div_mod_eq (length l) 4) as Hq.
  replace (zlen l) with (4 * Z.of_nat (length l / 4)) by lia. rewrite calculate_crc32_words.
  apply crc_words_ext. intros i Hi. rewrite <- (Z2Nat.id i) at 1 by lia. apply Hh. lia.
Qed.

(** A verified image with its information block. *)
Record ready (f : F) (info l : list Z) : Prop := mk_ready {
  rdy_info : holds_at f IMG_INFO_ADDR info; rdy_len : length info = FW_INFO_SIZE; rdy_bytes : bytes info;
  rdy_crc : info_crc32 info = info_crc info; rdy_status : status info = UG_STATE_CHECK_PASS;
  rdy_size : img_size info = zlen l; rdy_pos : 0 < zlen l <= 0x30000; rdy_words : (length l mod 4 = 0)%nat;
  rdy_img : bytes l; rdy_held : holds_at f IMG_DATA_ADDR l;
  rdy_img_crc : image_crc f IMG_DATA_ADDR (zlen l) = img_crc32 info }.

(** The sectors of the application, the page of the information block. *)
Definition in_app (a : Z) : Prop := APP_ENTRY_ADDR <= a < APP_ENTRY_ADDR + 0x30000.
Definition in_info (a : Z) : Prop := IMG_INFO_ADDR <= a < IMG_INFO_ADDR + 4096.

Lemma erase_app f : f_good f = true ->
  let f2 := fst (fmc_sector_erase (fst (fmc_sector_erase (fmc_unlock f) APP_ENTRY_SECT_1)) APP_ENTRY_SECT_2) in
  f_good f2 = true /\ (forall a, in_app a -> rd f2 a = 255) /\ (forall a, ~ in_app a -> rd f2 a = rd f a).
Proof.
  intros Hg. cbn zeta. destruct (locked_unlock f) as [Hl0 Hg0]. rewrite Hg in Hg0.
  destruct (sector_spec (fmc_unlock f) APP_ENTRY_SECT_1 Hl0 Hg0) as (_ & Hl1 & Hg1 & H1); [unfold APP_ENTRY_SECT_1; lia|].
  destruct (sector_spec _ APP_ENTRY_SECT_2 Hl1 Hg1) as (_ & _ & Hg2 & H2); [unfold APP_ENTRY_SECT_2; lia|].
  assert (Hin : forall a, in_sector APP_ENTRY_SECT_2 a || in_sector APP_ENTRY_SECT_1 a = true <-> in_app a).
  { intros a. unfold in_sector, in_app, APP_ENTRY_ADDR. change (nth APP_ENTRY_SECT_2 sector_bases 0) with (FLASH_BASE + 0x20000).
    change (nth (S APP_ENTRY_SECT_2) sector_bases (FLASH_BASE + 0x100000)) with (FLASH_BASE + 0x40000).
    change (nth APP_ENTRY_SECT_1 sector_bases 0) with (FLASH_BASE + 0x10000).
    change (nth (S APP_ENTRY_SECT_1) sector_bases (FLASH_BASE + 0x100000)) with (FLASH_BASE + 0x20000). lia. }
  split; [done|]. split; intros a Ha; specialize (Hin a); rewrite H2, H1, rd_unlock;
    destruct (in_sector APP_ENTRY_SECT_2 a), (in_sector APP_ENTRY_SECT_1 a); cbn [orb] in Hin; try done; exfalso; intuition congruence.
Qed.

Lemma boot_install f info l : f_good f = true -> ready f info l ->
  exists f', boot_upgrade f = Some (f', false) /\ f_good f' = true /\
    holds_at f' APP_ENTRY_ADDR l /\ holds_at f' IMG_INFO_ADDR (set_status UG_STATE_FINISHED info) /\
    forall a, ~ in_app a -> ~ in_info a -> rd f' a = rd f a.
Proof.
  intros Hg [Hi Hil Hib Hic His Hsz Hpos H4 Hlb Hh Hcrc]. unfold boot_upgrade.
  assert (Hread : flash_read f IMG_INFO_ADDR FW_INFO_SIZE = info).
  { pose proof (flash_read_at f IMG_INFO_ADDR info 0 FW_INFO_SIZE Hi) as E. rewrite Z.add_0_r in E.
    rewrite E by (rewrite ?Hil; unfold IMG_INFO_ADDR, FLASH_BASE, FW_INFO_SIZE; lia).
    unfold get. by rewrite drop_0, take_ge by lia. }
  rewrite Hread, Hic, Z.eqb_refl, Hsz, His. cbn [negb].
  rewrite (proj2 (Z.eqb_neq (zlen l) 0)) by lia. change (UG_STATE_CHECK_PASS =? UG_STATE_CHECK_PASS) with true. cbn [negb].
  rewrite Hcrc, Z.eqb_refl. cbn [negb].
  destruct (erase_app f Hg) as (Hg2 & Happ & Hout). cbn zeta in *.
  set (f2 := fst (fmc_sector_erase (fst (fmc_sector_erase (fmc_unlock f) APP_ENTRY_SECT_1)) APP_ENTRY_SECT_2)) in *.
  clearbody f2.
  assert (Himg : forall i, (i < length l)%nat -> rd f2 (IMG_DATA_ADDR + Z.of_nat i) = nth i l 0).
  { intros i ?. rewrite Hout; [by apply Hh|]. unfold in_app, IMG_DATA_ADDR, APP_ENTRY_ADDR in *. lia. }
  destruct (copy_loop_spec l (rd f2) Hlb ltac:(lia) H4 Happ Himg (Z.to_nat (zlen l / BUFFER_SIZE) + 1) f2 0)
    as (f3 & E3 & Hg3 & H3); [split; [done|intros; by rewrite written_nil]|lia|done|unfold BUFFER_SIZE; zdm|].
  replace (Z.to_nat (zlen l / BUFFER_SIZE) + 2)%nat with (S (Z.to_nat (zlen l / BUFFER_SIZE) + 1)) by lia.
  rewrite !Z.add_0_r, Z.sub_0_r in E3. rewrite E3. cbn [mbind option_bind].
  destruct (locked_lock f3) as [_ Hg4]. rewrite Hg3 in Hg4. rewrite take_ge in H3 by lia.
  assert (Happ3 : holds_at (fmc_lock f3) APP_ENTRY_ADDR l).
  { intros i ?. rewrite rd_lock, H3. unfold written. rewrite (proj2 (Z.leb_le _ _)), (proj2 (Z.ltb_lt _ _)) by lia.
    cbn [andb]. f_equal. lia. }
  rewrite (image_crc_at _ _ _ Happ3) by (done || lia). rewrite <- Hcrc, (image_crc_at _ _ _ Hh), Z.eqb_refl by (done || lia).
  set (info' := set_status UG_STATE_FINISHED info). assert (Hil' : length info' = FW_INFO_SIZE) by by apply set_status_length.
  assert (Hib' : bytes info') by (apply put_Forall; [done|by repeat constructor]). rewrite <- Hil'.
  destruct (write_by_page_spec (fmc_lock f3) IMG_INFO_ADDR info' Hib' Hg4) as (r & -> & _ & Hrd & _ & Hgr);
    [done|done|by rewrite Hil'|].
  cbn [mbind option_bind]. exists (fst r). split; [done|]. split; [done|].
  unfold after_write in Hrd. rewrite Hil' in Hrd. change (4096 * page_count FW_INFO_SIZE) with 4096 in Hrd.
  split; [|split].
  - intros i Hlt. rewrite Hrd, <- Happ3 by done. unfold IMG_INFO_ADDR, APP_ENTRY_ADDR in *.
    rewrite !(proj2 (Z.ltb_ge _ _)), !andb_false_r by (unfold FW_INFO_SIZE; lia). done.
  - intros i Hlt. rewrite Hil' in Hlt. rewrite Hrd.
    rewrite (proj2 (Z.leb_le _ _)), (proj2 (Z.ltb_lt _ _)) by lia. cbn [andb]. f_equal. lia.
  - intros a Hna Hni. rewrite Hrd, rd_lock, H3, <- Hout by done. unfold written, in_app, in_info, FW_INFO_SIZE in *.
    repeat case_match; try done; lia.
Qed.
End BootProps.

(** ** From the announcement to the installed application *)
Section EndToEnd.
Context {F : Type} `{!FlashDevice F} {Q : Type} `{!RtosQueue Q} `{!CrcUnit}.
Implicit Types s : @up_t F Q.

Lemma boot_again f info : length info = FW_INFO_SIZE -> holds_at f IMG_INFO_ADDR (set_status UG_STATE_FINISHED info) ->
  boot_upgrade f = Some (f, false).
Proof.
  intros Hl Hi. pose proof (set_status_length info Hl UG_STATE_FINISHED) as Hl'.
  assert (Hread : flash_read f IMG_INFO_ADDR FW_INFO_SIZE = set_status UG_STATE_FINISHED info).
  { pose proof (flash_read_at f IMG_INFO_ADDR _ 0 FW_INFO_SIZE Hi) as E. rewrite Z.add_0_r in E.
    rewrite E by (rewrite ?Hl'; unfold IMG_INFO_ADDR, FLASH_BASE, FW_INFO_SIZE; lia).
    unfold get. by rewrite drop_0, take_ge by lia. }
  unfold boot_upgrade. rewrite Hread, set_status_status by done.
  destruct (negb _); [done|]. destruct (_ =? 0); [done|]. done.
Qed.

(** What [fw_info] has announced. *)
Record announced (info ver : list Z) (sz : Z) (segs : list (list Z)) : Prop := mk_announced {
  ann_len : length info = FW_INFO_SIZE; ann_bytes : bytes info; ann_ver : fw_version info = ver;
  ann_seg : seg_size info = sz; ann_count : seg_count info = zlen segs; ann_idx : seg_idx info = 0;
  ann_size : img_size info = zlen (concat segs);
  ann_crc : img_crc32 info = u32 (crc_words (length (concat segs) / 4)
              (fun i => nth (Z.to_nat i) (concat segs) 0) 0 ENDIAN_BIG crc_reset) }.

Lemma cut_words sz segs : cut sz segs -> (length (concat segs) mod 4 = 0)%nat.
Proof.
  intros Hc. assert (Hf : Forall (fun d : list Z => (length d mod 4 = 0)%nat) segs).
  { apply Forall_lookup. intros i d Hd. destruct (cut_last _ _ Hc i d Hd) as [_ H4].
    apply Nat2Z.inj. by rewrite Nat2Z.inj_mod. }
  clear Hc. induction Hf as [|d ds Hd Hf IH]; [done|]. cbn [concat]. rewrite length_app.
  apply Nat2Z.inj. apply (f_equal Z.of_nat) in Hd, IH. rewrite Nat2Z.inj_mod in *. rewrite Nat2Z.inj_add. zdm.
Qed.
Lemma field_of_head off n (i i' : list Z) : (off + n <= 15)%nat -> take 15 i = take 15 i' -> get off n i = get off n i'.
Proof.
  intros Hn E. apply get_ext. intros j Hj. apply (f_equal (lookup j)) in E. by rewrite !lookup_take_lt in E by lia.
Qed.
Lemma written_held m p l i : (i < length l)%nat -> written m p l (p + Z.of_nat i) = nth i l 0.
Proof.
  intros Hi. unfold written. rewrite (proj2 (Z.leb_le _ _)), (proj2 (Z.ltb_lt _ _)) by lia. cbn [andb]. f_equal. lia.
Qed.

(** The received image passes the check. *)
Lemma session_valid s s1 ver sz segs : cut sz segs -> announced (fw_info s) ver sz segs ->
  session (fw_info s) ver sz segs (flash s) (length segs) s1 ->
  0 < zlen (concat segs) <= 0x30000 -> get 0x40C 9 (concat segs) = SPECAL_PRODUCT_NUM ->
  holds_at (flash s1) IMG_DATA_ADDR (concat segs) /\ image_valid (flash s1) (fw_info s1).
Proof.
  intros Hc [Hl Hb Hv Hsz Hcnt Hidx Hsize Hcrc] Hs Hpos Hprod. pose proof (cut_words _ _ Hc) as H4.
  assert (Hh : holds_at (flash s1) IMG_DATA_ADDR (concat segs)).
  { intros i Hi. rewrite (ses_flash _ _ _ _ _ _ _ Hs), take_ge by lia. by apply written_held. }
  split; [exact Hh|]. pose proof (ses_head _ _ _ _ _ _ _ Hs) as Hhd. split.
  - unfold img_crc32, img_size in *. rewrite (field_of_head 11 4 _ _ ltac:(lia) Hhd), (field_of_head 3 4 _ _ ltac:(lia) Hhd), Hsize, Hcrc.
    symmetry. apply (image_crc_at _ _ _ Hh); [lia|done].
  - assert (Hlen : (0x40C + 9 <= length (concat segs))%nat).
    { apply (f_equal length) in Hprod. unfold get in Hprod. rewrite length_take, length_drop in Hprod.
      change (length SPECAL_PRODUCT_NUM) with 9%nat in Hprod. lia. }
    unfold product_bytes. rewrite <- Hprod. apply list_eq. intros i. rewrite list_lookup_fmap.
    destruct (decide (i < 9)%nat).
    + rewrite lookup_seq_lt, get_lookup by done. cbn [fmap option_fmap option_map].
      replace (IMG_DATA_ADDR + 0x400 + 12 + Z.of_nat (0 + i)) with (IMG_DATA_ADDR + Z.of_nat (0x40C + i)) by lia.
      rewrite Hh by lia. destruct (lookup_lt_is_Some_2 (concat segs) (0x40C + i)) as [x Hx]; [lia|].
      rewrite Hx. f_equal. by apply nth_lookup_Some.
    + rewrite lookup_seq_ge, get_lookup_ge by lia. done.
Qed.

(** Confirming a complete image leaves it ready for the boot loader. *)
Lemma finish_ready st s s1 ver sz segs parse data ob :
  cut sz segs -> bytes (concat segs) -> announced (fw_info s) ver sz segs ->
  session (fw_info s) ver sz segs (flash s) (length segs) s1 ->
  0 < zlen (concat segs) <= 0x30000 -> get 0x40C 9 (concat segs) = SPECAL_PRODUCT_NUM ->
  finish_request parse data -> take 3 data = ver -> le_decode (get 3 2 data) = zlen segs ->
  is_byte st -> st <> UG_STATE_TRANS_COMPLETE -> (12 <= length ob)%nat ->
  exists s2 reply,
    CMD_UP_finish (set_fw (set_status st (fw_info s1)) s1) parse ob 0 0 = Some (s2, put 0 reply ob, 9) /\
    op_reset s2 = true /\ f_good (flash s2) = true /\ ready (flash s2) (fw_info s2) (concat segs) /\
    forall a, ~ in_info a -> rd (flash s2) a = rd (flash s1) a.
Proof.
  intros Hc Hib Hann Hs1 Hpos Hprod Hreq Hdv Hdc Hst8 Hst4 Hob. pose proof Hann as [_ _ Hv _ Hcnt _ Hsize Hac].
  destruct (session_valid s s1 ver sz segs Hc Hann Hs1 Hpos Hprod) as [Hh [Hcrc Hpn]].
  destruct Hs1 as [Hl1 Hb1 Hhd Hv1 _ Hi1 _ Hg1 _]. pose proof (set_status_length _ Hl1 st) as Hl1'.
  assert (Hb1' : bytes (set_status st (fw_info s1))) by (apply put_Forall; [done|by constructor]).
  assert (Hfld : forall off n, (off + n <= 15)%nat -> get off n (set_status st (fw_info s1)) = get off n (fw_info s)).
  { intros off n Hn. rewrite (proj1 (head_kept _ Hl1 off n Hn)). by apply field_of_head. }
  assert (Hready : info_ready (set_status st (fw_info s1))) by (split; [done|]; split; [done|]; by rewrite set_status_status).
  destruct (finish_spec (set_fw (set_status st (fw_info s1)) s1) parse data ob 0 0 Hreq Hready Hg1)
    as (s2 & reply & e & st' & Ec & Ef & Hr & Hfw & Hinfo & Hout & Hg2 & Hres); [lia|lia|].
  cbn [fw_info flash set_fw op_reset] in *.
  destruct (finish_check_spec (flash s1) _ data Hl1' ltac:(apply Hreq) ltac:(apply Hready)) as (e' & st2 & Ec' & Hyes & _).
  rewrite Ec in Ec'. injection Ec' as <- <-. destruct Hyes as [(_ & -> & ->) | (N & _)].
  { unfold complete, fw_version, seg_count in *. rewrite !Hfld, (proj1 (seg_idx_kept _ Hl1)) by lia. split_and!; congruence. }
  2: { destruct N. split; [|exact Hpn]. revert Hcrc. unfold img_crc32, img_size. rewrite !Hfld by lia.
    by rewrite (field_of_head 11 4 _ _ ltac:(lia) Hhd), (field_of_head 3 4 _ _ ltac:(lia) Hhd). }
  destruct (final_info_spec UG_STATE_CHECK_PASS _ Hl1' Hb1') as (Fl & Fb & Fst & Fcrc & Fhd); [done|]. rewrite <- Hfw in *.
  assert (Hfld2 : forall off n, (off + n <= 15)%nat -> get off n (fw_info s2) = get off n (fw_info s)).
  { intros. rewrite <- Hfld by done. by apply field_of_head. }
  assert (Hh2 : holds_at (flash s2) IMG_DATA_ADDR (concat segs)).
  { intros i Hi. rewrite Hout; [by apply Hh|]. unfold IMG_INFO_ADDR, IMG_DATA_ADDR in *. lia. }
  exists s2, reply. split; [etrans; [exact Ef|by rewrite Hr]|]. split; [rewrite Hres; apply orb_true_r|].
  split; [done|]. split; [|intros a Ha; apply Hout; unfold in_info in Ha; lia].
  split; try done.
  - intros i Hi. apply Hinfo. by rewrite Fl in Hi.
  - unfold img_size. by rewrite Hfld2 by lia.
  - by apply (cut_words sz).
  - unfold img_crc32 in *. rewrite Hfld2, Hac by lia. apply (image_crc_at _ _ _ Hh2); [lia|by apply (cut_words sz)].
Qed.

(** [C34] The whole upgrade: when an honest host has announced an image in whole
    words that fits the application sectors and carries the product name, and
    every segment has arrived (in any order of packets that contains them in
    order), then the host's CMD_UP_FINISH is answered with success and requests
    the reset, whether or not the upgrade task has ended meanwhile; the boot
    loader then installs exactly that image and starts it, a further power-up
    changes nothing, and the parameters, the boot loader and everything else
    outside the data, application and information areas is untouched. *)
Theorem upgrade_end_to_end malloc st s ver sz segs pkts outbuf o outlen parse data ob :
  cut sz segs -> Forall (honest ver segs) pkts -> progress ver pkts 0 = length segs -> bytes (concat segs) ->
  announced (fw_info s) ver sz segs -> f_good (flash s) = true ->
  0 < zlen (concat segs) <= 0x30000 -> get 0x40C 9 (concat segs) = SPECAL_PRODUCT_NUM ->
  finish_request parse data -> take 3 data = ver -> le_decode (get 3 2 data) = zlen segs ->
  st = UG_STATE_TRANS \/ st = UG_STATE_FINISHED -> (12 <= length ob)%nat ->
  exists s1 s2 reply f',
    deliver (task_begin malloc s) pkts outbuf o outlen = Some s1 /\
    CMD_UP_finish (set_fw (set_status st (fw_info s1)) s1) parse ob 0 0 = Some (s2, put 0 reply ob, 9) /\
    op_reset s2 = true /\
    boot_upgrade (flash s2) = Some (f', false) /\ holds_at f' APP_ENTRY_ADDR (concat segs) /\
    boot_upgrade f' = Some (f', false) /\
    forall a, ~ in_app a -> ~ in_info a -> a < IMG_DATA_ADDR \/ IMG_DATA_ADDR + 0x40000 <= a ->
      rd f' a = rd (flash s) a.
Proof.
  intros Hc Hp Hprog Hib Hann Hg Hpos Hprod Hreq Hdv Hdc Hst Hob. pose proof Hann as [Hl Hb Hv Hsz _ Hidx _ _].
  destruct (session_from_start malloc s ver sz segs pkts outbuf o outlen) as (s1 & E1 & Hs1); [done..|].
  rewrite Hprog in Hs1.
  destruct (finish_ready st s s1 ver sz segs parse data ob) as (s2 & reply & Ef & Hres & Hg2 & Hrdy & Hout); try done.
  { unfold is_byte. by destruct Hst as [-> | ->]. }
  { by destruct Hst as [-> | ->]. }
  destruct (boot_install (flash s2) (fw_info s2) (concat segs) Hg2 Hrdy) as (f' & Eb & Hgf & Happ & Hif & Hrest).
  exists s1, s2, reply, f'. do 5 (split; [done|]). split; [by apply (boot_again f' (fw_info s2)); [apply Hrdy|]|].
  intros a Hna Hni Hnd. rewrite Hrest, Hout by done. rewrite (ses_flash _ _ _ _ _ _ _ Hs1), take_ge by done.
  unfold written, erased.
  destruct (Z.leb_spec IMG_DATA_ADDR a), (Z.ltb_spec a (IMG_DATA_ADDR + zlen (concat segs))),
    (Z.ltb_spec a (IMG_DATA_ADDR + 0x40000)); cbn [andb]; done || lia.
Qed.
End EndToEnd.

(** An image of 1048 bytes in one segment. *)
Definition demo_image : list Z := replicate 0x40C 7 ++ SPECAL_PRODUCT_NUM ++ [1; 2; 3].
Definition demo_image_crc : Z := Eval vm_compute in
  u32 (crc_words (length demo_image / 4) (fun i => nth (Z.to_nat i) demo_image 0) 0 ENDIAN_BIG crc_reset).
Definition demo_notified : @up_t nor (list Z * Z) :=
  mk_up ([1; 0; 51] ++ le_encode 4 1048 ++ le_encode 2 1048 ++ le_encode 2 1 ++ le_encode 4 demo_image_crc ++ replicate 17 0)
    (mk_nor (fun _ => 0) true) None 0 demo_timers false false.
Definition demo_confirm : parse_base_t :=
  mk_parse [35; 1; 0; 52; 0; 5; 0; 0; 0] 16 0 (Some [1; 0; 51; 1; 0; 0; 0]) 0.
Lemma demo_image_bytes : bytes demo_image.
Proof. apply bytes_check. vm_compute. reflexivity. Qed.
Lemma upgrade_end_to_end_witness :
  exists s1 s2 reply f',
    deliver (task_begin true demo_notified) [demo_pkt [1; 0; 51] 0 demo_image] [] 0 0 = Some s1 /\
    CMD_UP_finish (set_fw (set_status UG_STATE_FINISHED (fw_info s1)) s1) demo_confirm (replicate 12 0) 0 0
      = Some (s2, put 0 reply (replicate 12 0), 9) /\
    op_reset s2 = true /\
    boot_upgrade (flash s2) = Some (f', false) /\ holds_at f' APP_ENTRY_ADDR (concat [demo_image]) /\
    boot_upgrade f' = Some (f', false) /\
    forall a, ~ in_app a -> ~ in_info a -> a < IMG_DATA_ADDR \/ IMG_DATA_ADDR + 0x40000 <= a ->
      rd f' a = rd (flash demo_notified) a.
Proof.
  assert (Hn : zlen demo_image = 1048) by (vm_compute; reflexivity).
  apply (upgrade_end_to_end true UG_STATE_FINISHED demo_notified [1; 0; 51] 1048 [demo_image]
    [demo_pkt [1; 0; 51] 0 demo_image] [] 0 0 demo_confirm [1; 0; 51; 1; 0; 0; 0] (replicate 12 0)).
  - split; [lia|simpl; lia|simpl; lia| |]; intros [|i] d [= <-]; rewrite Hn; [lia..|done].
  - constructor; [|constructor]. split; [|intros _; reflexivity].
    split; [reflexivity|]. split; [reflexivity|]. split; [simpl; lia|]. cbn [dp_seg demo_pkt dp_rest].
    split; [rewrite Hn; lia|]. split; [|reflexivity]. apply Forall_app. split; [apply demo_image_bytes|]. repeat constructor; lia.
  - reflexivity.
  - cbn [concat]. rewrite app_nil_r. apply demo_image_bytes.
  - split; try (vm_compute; reflexivity). apply bytes_check. vm_compute. reflexivity.
  - reflexivity.
  - cbn [concat]. rewrite app_nil_r, Hn. lia.
  - vm_compute. reflexivity.
  - repeat split; try reflexivity; try (apply bytes_check; reflexivity). simpl. lia.
  - reflexivity.
  - reflexivity.
  - by right.
  - simpl. lia.
Defined.
