(* ===== verification/Serial.v ===== *)
(** * serial.c: the serial port

    [com_desc] has one element, COM2 ([COM_CNT] is 1): its FIFOs, DMA
    descriptors and the registers that the code sets (channel enables, transfer
    numbers, interrupt enables, direction pins).  Status flags that the code
    reads but cannot derive (transmission complete, idle line, receiver ready)
    are arguments of the interrupt handler.  [tx_step] at the end adds what the
    DMA controller does between two handlers; the receiving controller is
    [rx_byte].  Not modelled: the set-up of the UART and of the interrupt
    vectors, and the receive timer, which [com_init] no longer starts
    ([on_rx_over] is modelled, but nothing calls it). *)
From Stdlib Require Import ZifyBool.
From S2P Require Import Prelude Ring.

Definition COM2 : Z := 0.
Definition COM_CNT : Z := 1.
Definition COM_SEND_DMA : Z := 1.
Definition COM_RECV_DMA : Z := 2.
Definition COM_MODE_TX : Z := 1.
Definition COM_MODE_RX : Z := 2.
Definition COM_MODE_RX_TX : Z := 3.
Definition COM_HALF_DUPLEX : Z := 50.
Definition COM_FULL_DUPLEX : Z := 52.
Definition COM2_TX_BUFF_SIZE : Z := 768.
Definition COM2_RX_BUFF_SIZE : Z := 1056.
Definition ERR_LENGTH_MISMATCH : Z := -1.
Definition ERR_INVALID_PORT : Z := -2.
Definition ERR_INVALID_LENGTH : Z := -3.

(** [buffer]: the array behind the pointer, [[]] for the null pointer. *)
Record circ_buffer_t := mk_fifo { buffer : list Z; write_idx : Z; read_idx : Z; count : Z; capacity : Z }.
(** A DMA channel of width 1: its enable bit, memory address (an index into the
    FIFO's buffer) and transfer number, an end-of-transfer flag, the interrupt
    enable, and [total_cnt]. *)
Record dma_xfer_t := mk_dma { d_on : bool; d_mem : Z; d_num : Z; d_flag : bool; d_irq : bool; total_cnt : Z }.
(** Interrupt enables of the USART, the RE and DE pins, the receive timer, and
    the bytes put on the line so far. *)
Record usart_t := mk_usart { tcie : bool; idleie : bool; rbneie : bool; tbeie : bool; re_pin : bool; de_pin : bool; timer_on : bool; wire : list Z }.
Record com_desc_t := mk_com {
  tx_fifo : circ_buffer_t; tx_dma : dma_xfer_t; rx_fifo : circ_buffer_t; rx_dma : dma_xfer_t;
  rx_len : Z; mode : Z; dma_cfg : Z; usart : usart_t }.

Definition with_tx (f : circ_buffer_t) (x : dma_xfer_t) (u : usart_t) (d : com_desc_t) : com_desc_t :=
  mk_com f x (rx_fifo d) (rx_dma d) (rx_len d) (mode d) (dma_cfg d) u.
Definition with_rx (f : circ_buffer_t) (x : dma_xfer_t) (n : Z) (d : com_desc_t) : com_desc_t :=
  mk_com (tx_fifo d) (tx_dma d) f x n (mode d) (dma_cfg d) (usart d).
Definition with_usart (u : usart_t) (d : com_desc_t) : com_desc_t :=
  with_tx (tx_fifo d) (tx_dma d) u d.
Definition set_tcie (b : bool) (u : usart_t) : usart_t :=
  mk_usart b (idleie u) (rbneie u) (tbeie u) (re_pin u) (de_pin u) (timer_on u) (wire u).
Definition set_idleie (b : bool) (u : usart_t) : usart_t :=
  mk_usart (tcie u) b (rbneie u) (tbeie u) (re_pin u) (de_pin u) (timer_on u) (wire u).
Definition set_rbneie (b : bool) (u : usart_t) : usart_t :=
  mk_usart (tcie u) (idleie u) b (tbeie u) (re_pin u) (de_pin u) (timer_on u) (wire u).
Definition set_tbeie (b : bool) (u : usart_t) : usart_t :=
  mk_usart (tcie u) (idleie u) (rbneie u) b (re_pin u) (de_pin u) (timer_on u) (wire u).
Definition set_pins (re de : bool) (u : usart_t) : usart_t :=
  mk_usart (tcie u) (idleie u) (rbneie u) (tbeie u) re de (timer_on u) (wire u).
Definition set_timer (b : bool) (u : usart_t) : usart_t :=
  mk_usart (tcie u) (idleie u) (rbneie u) (tbeie u) (re_pin u) (de_pin u) b (wire u).
Definition put_wire (l : list Z) (u : usart_t) : usart_t :=
  mk_usart (tcie u) (idleie u) (rbneie u) (tbeie u) (re_pin u) (de_pin u) (timer_on u) (wire u ++ l).

(** C's [%], undefined for a zero divisor. *)
Definition cmod (a b : Z) : option Z := if b =? 0 then None else Some (Z.rem a b).

(** ** gd32_dma.c *)

(** [gd32_dma_start] and [gd32_dma_rx] (flow control by the DMA, width 1): the
    channel restarts and its flags are cleared. *)
Definition gd32_dma_start (x : dma_xfer_t) (buff len : Z) : dma_xfer_t := mk_dma true buff len false (d_irq x) len.
Definition gd32_dma_rx (x : dma_xfer_t) (buff len : Z) : dma_xfer_t := mk_dma true buff len false (d_irq x) len.
Definition clear_dma_flag (x : dma_xfer_t) : dma_xfer_t := mk_dma (d_on x) (d_mem x) (d_num x) false (d_irq x) (total_cnt x).
Definition dma_channel_disable (x : dma_xfer_t) : dma_xfer_t := mk_dma false (d_mem x) (d_num x) (d_flag x) (d_irq x) (total_cnt x).
Definition set_dma_irq (b : bool) (x : dma_xfer_t) : dma_xfer_t := mk_dma (d_on x) (d_mem x) (d_num x) (d_flag x) b (total_cnt x).
Definition set_total_cnt (n : Z) (x : dma_xfer_t) : dma_xfer_t := mk_dma (d_on x) (d_mem x) (d_num x) (d_flag x) (d_irq x) n.

(** ** Ports *)

Definition port_ok (port : Z) : bool := negb ((port <? 0) || (port >=? COM_CNT)).

(** Receive enable low-active, driver enable high-active. *)
Definition com_set_mode (m : Z) (u : usart_t) : usart_t :=
  if m =? COM_MODE_RX then set_pins false false u
  else if m =? COM_MODE_TX then set_pins true true u
  else if m =? COM_MODE_RX_TX then set_pins false true u else u.

Definition clear_fifo (f : circ_buffer_t) : circ_buffer_t := mk_fifo (buffer f) 0 0 0 (capacity f).
Definition com_clr_tx_fifo (port : Z) (d : com_desc_t) : com_desc_t :=
  if port_ok port then with_tx (clear_fifo (tx_fifo d)) (tx_dma d) (usart d) d else d.
Definition com_clr_rx_fifo (port : Z) (d : com_desc_t) : com_desc_t :=
  if port_ok port then with_rx (clear_fifo (rx_fifo d)) (rx_dma d) (rx_len d) d else d.

Definition com_enable_recv (port : Z) (d : com_desc_t) : com_desc_t :=
  if negb (port_ok port) then d
  else if negb (Z.land (dma_cfg d) COM_RECV_DMA =? 0) then
    let x := set_dma_irq true (gd32_dma_rx (rx_dma d) (write_idx (rx_fifo d)) (capacity (rx_fifo d))) in
    with_usart (set_idleie true (usart d)) (with_rx (rx_fifo d) x (rx_len d) d)
  else with_usart (set_rbneie true (usart d)) d.

Definition com_disable_recv (port : Z) (d : com_desc_t) : com_desc_t :=
  if negb (port_ok port) then d
  else if negb (Z.land (dma_cfg d) COM_RECV_DMA =? 0) then
    with_rx (rx_fifo d) (dma_channel_disable (set_dma_irq false (rx_dma d))) (rx_len d) d
  else with_usart (set_rbneie false (usart d)) d.

(** The rejected bytes are skipped; [read_idx] is not reduced modulo the
    capacity. *)
Definition com_filter_recv (port min_len max_len : Z) (d : com_desc_t) : com_desc_t * Z :=
  if negb (port_ok port) then (d, ERR_INVALID_PORT)
  else if (min_len <? 0) || (max_len <? min_len) then (d, ERR_INVALID_LENGTH)
  else if (rx_len d <? min_len) || (max_len <? rx_len d) then
    let f := rx_fifo d in
    (with_rx (mk_fifo (buffer f) (write_idx f) (u16 (read_idx f + rx_len d)) (u16 (count f - rx_len d)) (capacity f))
       (rx_dma d) 0 d, ERR_LENGTH_MISMATCH)
  else (d, 0).

(** [com_put]: polled sending. *)
Definition com_put (port : Z) (buff : list Z) (len : Z) (d : com_desc_t) : option (com_desc_t * Z) :=
  if negb (port_ok port) then Some (d, 0)
  else if (len <? 0) || (zlen buff <? len) then None
  else
    let u := put_wire (take (Z.to_nat len) buff) (usart d) in
    Some (with_usart (if mode d =? COM_HALF_DUPLEX then com_set_mode COM_MODE_RX u else u) d, len).

(** [com_get]: [chars] are the results of [gd32_uart_getch_timeout], [None] a
    timeout.  [size] counts down to 0, so a size of 0 or less never stops it. *)
Fixpoint com_get_loop (buff : list Z) (i size : Z) (chars : list (option Z)) : option (list Z * Z) :=
  match chars with
  | Some c :: chars =>
      buff ← st buff i (u8 c);
      if size - 1 =? 0 then Some (buff, i + 1) else com_get_loop buff (i + 1) (size - 1) chars
  | None :: _ => Some (buff, i)
  | [] => None
  end.
Definition com_get (port : Z) (buff : list Z) (size : Z) (chars : list (option Z)) : option (list Z * Z) :=
  if negb (port_ok port) then Some (buff, 0) else com_get_loop buff 0 size chars.

(** ** Sending *)

(** One pass of the copying loop. *)
Definition push_byte (data : list Z) (i : nat) (f : circ_buffer_t) : option circ_buffer_t :=
  x ← data !! i;
  b ← st (buffer f) (write_idx f) x;
  w ← cmod (write_idx f + 1) (capacity f);
  Some (mk_fifo b (u16 w) (read_idx f) (count f) (capacity f)).

(** [if (fifo->count > 0)]: starts the transfer of the FIFO [f]. *)
Definition start_tx (f : circ_buffer_t) (d : com_desc_t) : com_desc_t :=
  if count f <=? 0 then with_tx f (tx_dma d) (usart d) d
  else
    let u := if mode d =? COM_HALF_DUPLEX then com_set_mode COM_MODE_TX (usart d) else usart d in
    if negb (Z.land (dma_cfg d) COM_SEND_DMA =? 0) then
      let size := capacity f - read_idx f in
      let size := if size >? count f then count f else size in
      with_tx f (gd32_dma_start (set_dma_irq true (tx_dma d)) (read_idx f) size) (set_tcie true u) d
    else with_tx f (tx_dma d) (set_tbeie true u) d.

(** The loop of [com_send]; every pass sends a byte or returns, so [len] passes
    and one for the test are enough fuel. *)
Fixpoint com_send_loop (fuel : nat) (data : list Z) (len total_sent : Z) (d : com_desc_t) : option (com_desc_t * Z) :=
  if len <=? 0 then Some (d, total_sent)
  else match fuel with
  | O => None
  | S fuel =>
      let f := tx_fifo d in
      let available_space := capacity f - count f in
      if available_space <=? 0 then Some (d, total_sent)
      else
        let send_len := if len <? available_space then len else available_space in
        f ← for_loop (push_byte data) 0 (Z.to_nat send_len)
              (mk_fifo (buffer f) (write_idx f) (write_idx f) (count f) (capacity f));
        let f := mk_fifo (buffer f) (write_idx f) (read_idx f) (u16 (count f + send_len)) (capacity f) in
        com_send_loop fuel (drop (Z.to_nat send_len) data) (len - send_len) (total_sent + send_len) (start_tx f d)
  end.
Definition com_send (port : Z) (buff : list Z) (len : Z) (d : com_desc_t) : option (com_desc_t * Z) :=
  if negb (port_ok port) then Some (d, 0) else com_send_loop (S (Z.to_nat len)) buff len 0 d.

Definition on_dma_tx (d : com_desc_t) : option com_desc_t :=
  let x := tx_dma d in
  let f := tx_fifo d in
  if negb (d_flag x) then Some d
  else
    let x := dma_channel_disable (clear_dma_flag x) in
    let sent_len := total_cnt x - d_num x in
    r ← cmod (read_idx f + sent_len) (capacity f);
    let f := mk_fifo (buffer f) (write_idx f) (u16 r) (u16 (count f - sent_len)) (capacity f) in
    if count f =? 0 then Some (with_tx f (set_dma_irq false x) (usart d) d)
    else
      let size := Z.min (count f) (capacity f - read_idx f) in
      let u := if mode d =? COM_HALF_DUPLEX then com_set_mode COM_MODE_TX (usart d) else usart d in
      Some (with_tx f (gd32_dma_start (set_dma_irq true x) (read_idx f) size) u d).

(** ** Receiving *)

(** One pass of the copying loop of [com_recv]. *)
Definition pop_byte (i : nat) (s : list Z * circ_buffer_t) : option (list Z * circ_buffer_t) :=
  let '(buff, f) := s in
  x ← ld (buffer f) (read_idx f);
  buff ← st buff (Z.of_nat i) x;
  r ← cmod (read_idx f + 1) (capacity f);
  Some (buff, mk_fifo (buffer f) (write_idx f) (u16 r) (count f) (capacity f)).

(** [size] does not matter: the limited length is overwritten by [count]. *)
Definition com_recv (port : Z) (buff : list Z) (size : Z) (d : com_desc_t) : option (com_desc_t * list Z * Z) :=
  if negb (port_ok port) then Some (d, buff, 0)
  else if rx_len d =? 0 then Some (d, buff, 0)
  else
    let rx_stop := rx_len d >=? capacity (rx_fifo d) in
    let n := count (rx_fifo d) in
    r ← for_loop pop_byte 0 (Z.to_nat n) (buff, rx_fifo d);
    let '(buff, f) := r in
    let d := with_rx (mk_fifo (buffer f) (write_idx f) (read_idx f) (u16 (count f - n)) (capacity f)) (rx_dma d)
               (u16 (rx_len d - n)) d in
    Some (if rx_stop then com_enable_recv port d else d, buff, n).

Definition on_dma_rx (d : com_desc_t) : com_desc_t :=
  if d_flag (rx_dma d) then with_rx (rx_fifo d) (clear_dma_flag (rx_dma d)) (rx_len d) d else d.

(** The flags and the data register as the handler finds them. *)
Record irq_in := mk_irq { tx_empty : bool; rx_idle : bool; rx_rdy : bool; rx_data : Z; tx_rdy : bool }.

Section Handlers.
Context {W : Type} (rx_callback : option (com_desc_t -> W -> option (com_desc_t * W))).

(** [desc->rx_len = fifo->count] and the call back. *)
Definition deliver (d : com_desc_t) (w : W) : option (com_desc_t * W) :=
  let d := with_rx (rx_fifo d) (rx_dma d) (count (rx_fifo d)) d in
  match rx_callback with Some f => f d w | None => Some (d, w) end.

Definition start_timer (d : com_desc_t) : com_desc_t := with_usart (set_timer true (usart d)) d.

(** The four parts of [on_irq_all]. *)
Definition irq_sent (i : irq_in) (d : com_desc_t) : com_desc_t :=
  if tcie (usart d) && tx_empty i then
    let u := set_tcie false (usart d) in
    with_usart (if mode d =? COM_HALF_DUPLEX then com_set_mode COM_MODE_RX u else u) d
  else d.
Definition irq_idle (i : irq_in) (d : com_desc_t) (w : W) : option (com_desc_t * W) :=
  if negb (idleie (usart d) && rx_idle i) then Some (d, w)
  else if negb (Z.land (dma_cfg d) COM_RECV_DMA =? 0) then
    let f := rx_fifo d in
    let wr := u16 (capacity f - d_num (rx_dma d)) in
    n ← cmod (capacity f + wr - read_idx f) (capacity f);
    deliver (with_rx (mk_fifo (buffer f) wr (read_idx f) (u16 n) (capacity f)) (rx_dma d) (rx_len d) d) w
  else deliver d w.
Definition irq_recv (i : irq_in) (d : com_desc_t) (w : W) : option (com_desc_t * W) :=
  if negb (rbneie (usart d) && rx_rdy i) then Some (d, w)
  else
    let f := rx_fifo d in
    b ← st (buffer f) (write_idx f) (rx_data i);
    wr ← cmod (write_idx f + 1) (capacity f);
    let f := mk_fifo b (u16 wr) (read_idx f) (u16 (count f + 1)) (capacity f) in
    let d := with_rx f (rx_dma d) (rx_len d) d in
    if count f =? capacity f then deliver (with_usart (set_rbneie false (usart d)) d) w
    else Some (start_timer d, w).
Definition irq_send (i : irq_in) (d : com_desc_t) : option com_desc_t :=
  if negb (tbeie (usart d) && tx_rdy i) then Some d
  else
    let f := tx_fifo d in
    x ← ld (buffer f) (read_idx f);
    r ← cmod (read_idx f + 1) (capacity f);
    let f := mk_fifo (buffer f) (write_idx f) (u16 r) (u16 (count f - 1)) (capacity f) in
    let u := put_wire [x] (usart d) in
    let u := if count f =? 0 then
               let u := set_tbeie false u in if mode d =? COM_HALF_DUPLEX then set_tcie true u else u
             else u in
    Some (with_tx f (tx_dma d) u d).

Definition on_irq_all (i : irq_in) (d : com_desc_t) (w : W) : option (com_desc_t * W) :=
  r ← irq_idle i (irq_sent i d) w;
  r ← irq_recv i (fst r) (snd r);
  d ← irq_send i (fst r);
  Some (d, snd r).

(** [up]: the update flag of the timer. *)
Definition on_rx_over (up : bool) (d : com_desc_t) (w : W) : option (com_desc_t * W) :=
  if negb up then Some (d, w)
  else
    let d := with_usart (set_timer false (usart d)) d in
    if negb (Z.land (dma_cfg d) COM_RECV_DMA =? 0) then
      let f := rx_fifo d in
      let x := rx_dma d in
      n ← cmod (u32 (total_cnt x + capacity f - d_num x)) (capacity f);
      t ← cmod (u32 (total_cnt x + capacity f - n)) (capacity f);
      wr ← cmod (write_idx f + n) (capacity f);
      let f := mk_fifo (buffer f) (u16 wr) (read_idx f) (u16 (count f + n)) (capacity f) in
      r ← deliver (with_rx f (set_total_cnt t x) (rx_len d) d) w;
      let '(d, w) := r in
      Some (with_rx (rx_fifo d) (gd32_dma_start (rx_dma d) (write_idx (rx_fifo d)) 1) (rx_len d) d, w)
    else deliver d w.
End Handlers.

(** ** Initialisation *)

(** The members of [com_config_t] that the modelled part uses. *)
Record com_config_t := mk_config { c_port : Z; c_dma_cfg : Z; c_mode : Z }.

(** The case COM2 of [configure_com_port]: the static arrays keep their
    contents when they are configured again. *)
Definition configure_com_port (d : com_desc_t) : com_desc_t :=
  let own b n := if (length b =? 0)%nat then replicate (Z.to_nat n) 0 else b in
  let conf f n := mk_fifo (own (buffer f) n) (write_idx f) (read_idx f) (count f) n in
  mk_com (conf (tx_fifo d) COM2_TX_BUFF_SIZE) (tx_dma d) (conf (rx_fifo d) COM2_RX_BUFF_SIZE) (rx_dma d)
    (rx_len d) (mode d) (dma_cfg d) (usart d).

(** [gd32_dma_init] stops the channel and clears its flags. *)
Definition gd32_dma_init (x : dma_xfer_t) : dma_xfer_t := mk_dma false 0 0 false false (total_cnt x).

(** [memset] over [capacity] bytes; the counts are left as they are. *)
Definition com_init (c : com_config_t) (d : com_desc_t) : com_desc_t :=
  if c_port c >=? COM_CNT then d
  else
    let zero f := mk_fifo (replicate (Z.to_nat (capacity f)) 0) 0 0 (count f) (capacity f) in
    let d := configure_com_port
      (mk_com (zero (tx_fifo d)) (tx_dma d) (zero (rx_fifo d)) (rx_dma d) (rx_len d) (c_mode c) (c_dma_cfg c) (usart d)) in
    let tx := if negb (Z.land (dma_cfg d) COM_SEND_DMA =? 0) then gd32_dma_init (tx_dma d) else tx_dma d in
    let rx := if negb (Z.land (dma_cfg d) COM_RECV_DMA =? 0) then gd32_dma_init (rx_dma d) else rx_dma d in
    let m := if mode d =? COM_HALF_DUPLEX then COM_MODE_RX else COM_MODE_RX_TX in
    mk_com (tx_fifo d) tx (rx_fifo d) rx (rx_len d) (mode d) (dma_cfg d) (com_set_mode m (usart d)).

(** ** Between the handlers

    The transmit channel (normal mode) moves the byte at its current address to
    the line; with the last one it stops and raises its flag. *)
Definition dma_step (d : com_desc_t) : option com_desc_t :=
  let x := tx_dma d in
  if negb (d_on x && (0 <? d_num x)) then None
  else
    b ← ld (buffer (tx_fifo d)) (d_mem x + (total_cnt x - d_num x));
    let last := d_num x - 1 =? 0 in
    Some (with_tx (tx_fifo d) (mk_dma (negb last) (d_mem x) (d_num x - 1) (last || d_flag x) (d_irq x) (total_cnt x))
            (put_wire [b] (usart d)) d).

Inductive tx_step : com_desc_t -> com_desc_t -> Prop :=
| tx_dma_step d d' : dma_step d = Some d' -> tx_step d d'
| tx_irq_step d d' : d_flag (tx_dma d) && d_irq (tx_dma d) = true -> on_dma_tx d = Some d' -> tx_step d d'.

(** The receive channel (circular mode) stores [b] and moves on. *)
Definition rx_byte (b : Z) (d : com_desc_t) : option com_desc_t :=
  let x := rx_dma d in
  if negb (d_on x) then Some d
  else
    let f := rx_fifo d in
    m ← st (buffer f) (d_mem x + (total_cnt x - d_num x)) b;
    let num := if d_num x - 1 =? 0 then total_cnt x else d_num x - 1 in
    Some (with_rx (mk_fifo m (write_idx f) (read_idx f) (count f) (capacity f))
            (mk_dma true (d_mem x) num (d_flag x) (d_irq x) (total_cnt x)) (rx_len d) d).
Definition rx_bytes (l : list Z) (d : com_desc_t) : option com_desc_t :=
  foldl (fun r b => r ≫= rx_byte b) (Some d) l.

(** * Sending reaches the line *)

Definition fifo_ok (f : circ_buffer_t) : Prop :=
  0 < capacity f < 65536 /\ zlen (buffer f) = capacity f /\
  0 <= write_idx f < capacity f /\ 0 <= read_idx f < capacity f.

(** Nothing queued and the channel at rest. *)
Definition tx_idle (d : com_desc_t) : Prop :=
  fifo_ok (tx_fifo d) /\ Z.land (dma_cfg d) COM_SEND_DMA <> 0 /\
  count (tx_fifo d) = 0 /\ d_on (tx_dma d) = false /\ d_flag (tx_dma d) = false.

(** A transfer is under way; [unsent] are the queued bytes not yet on the line. *)
Definition tx_busy (d : com_desc_t) (unsent : list Z) : Prop :=
  let f := tx_fifo d in let x := tx_dma d in
  fifo_ok f /\ Z.land (dma_cfg d) COM_SEND_DMA <> 0 /\
  exists q, holds (buffer f) (read_idx f) q /\ zlen q = count f /\ 0 < count f /\
    d_mem x = read_idx f /\ total_cnt x = Z.min (count f) (capacity f - read_idx f) /\
    0 <= d_num x <= total_cnt x /\ d_irq x = true /\
    d_on x = (0 <? d_num x) /\ d_flag x = (d_num x =? 0) /\
    unsent = drop (Z.to_nat (total_cnt x - d_num x)) q.

Definition tx_state (d : com_desc_t) (unsent : list Z) : Prop :=
  (tx_idle d /\ unsent = []) \/ tx_busy d unsent.

Lemma cmod_ok a b : 0 <= a -> 0 < b -> cmod a b = Some (a mod b).
Proof.
  intros. unfold cmod. rewrite (proj2 (Z.eqb_neq b 0)) by lia. by rewrite Z.rem_mod_nonneg by lia.
Qed.

(** The cells from [p] on, wrapping around. *)
Definition ring_slice (arr : list Z) (p : Z) (n : nat) : list Z :=
  map (fun j => default 0 (ld arr ((p + Z.of_nat j) mod zlen arr))) (seq 0 n).
Lemma ring_slice_len arr p n : length (ring_slice arr p n) = n.
Proof. unfold ring_slice. by rewrite length_map, length_seq. Qed.
Lemma ring_slice_lookup arr p n j : (j < n)%nat -> (n <= length arr)%nat ->
  ring_slice arr p n !! j = ld arr ((p + Z.of_nat j) mod zlen arr).
Proof.
  intros Hj Hn. unfold ring_slice. rewrite list_lookup_fmap, lookup_seq_lt by lia. cbn.
  destruct (proj2 (ld_is_Some arr ((p + Z.of_nat j) mod zlen arr))) as [x ->]; [|done].
  apply Z.mod_pos_bound. zlen_lia.
Qed.
Lemma holds_slice arr p n : (n <= length arr)%nat -> holds arr p (ring_slice arr p n).
Proof.
  intros Hn. split; [by rewrite ring_slice_len|]. intros j x Hj.
  assert (j < n)%nat by (apply lookup_lt_Some in Hj; by rewrite ring_slice_len in Hj).
  by rewrite <- Hj, ring_slice_lookup.
Qed.

Lemma dma_step_busy d u d' : tx_busy d u -> dma_step d = Some d' ->
  exists b u', u = b :: u' /\ tx_busy d' u' /\ wire (usart d') = wire (usart d) ++ [b] /\
    tx_fifo d' = tx_fifo d /\ d_num (tx_dma d') = d_num (tx_dma d) - 1 /\ 0 < d_num (tx_dma d).
Proof.
  intros (Hf & Hc & q & Hq & Hqc & Hpos & Hm & Ht & Hn & Hi & Hon & Hfl & ->) Hs.
  unfold dma_step in Hs. rewrite Hon in Hs. destruct (Z.ltb_spec 0 (d_num (tx_dma d))) as [L|]; [|done].
  cbn [andb negb] in Hs. destruct Hf as (Hcap & Hlen & Hw & Hr).
  set (k := total_cnt (tx_dma d) - d_num (tx_dma d)) in *. assert (Hk : 0 <= k < zlen q) by lia.
  destruct (lookup_lt_is_Some_2 q (Z.to_nat k)) as [b Hb]; [lia|].
  assert (Hld : ld (buffer (tx_fifo d)) (d_mem (tx_dma d) + k) = Some b).
  { rewrite <- (proj2 Hq _ b Hb), Hm. rewrite Z2Nat.id, Z.mod_small by lia. done. }
  rewrite Hld in Hs. cbn in Hs. injection Hs as <-. exists b, (drop (S (Z.to_nat k)) q).
  rewrite (drop_lookup_cons q _ b Hb). repeat split; try done; cbn; try lia.
  exists q. repeat split; try apply Hq; try done; cbn; try lia.
  f_equal. lia.
Qed.

Lemma on_dma_tx_busy d u d' : tx_busy d u -> d_flag (tx_dma d) = true -> on_dma_tx d = Some d' ->
  tx_state d' u /\ wire (usart d') = wire (usart d) /\ 0 <= count (tx_fifo d') < count (tx_fifo d) /\
  capacity (tx_fifo d') = capacity (tx_fifo d) /\ d_num (tx_dma d') <= capacity (tx_fifo d).
Proof.
  intros (Hf & Hc & q & Hq & Hqc & Hpos & Hm & Ht & Hn & Hi & Hon & Hfl & ->) Hflag Hs.
  unfold on_dma_tx in Hs. rewrite Hflag in Hs. cbn -[cmod] in Hs. rewrite Hfl in Hflag.
  apply Z.eqb_eq in Hflag. rewrite Hflag, Z.sub_0_r in Hs. rewrite Hflag, Z.sub_0_r.
  destruct Hf as (Hcap & Hlen & Hw & Hr). rewrite cmod_ok in Hs by lia. cbn [mbind option_bind] in Hs.
  assert (Hmod : 0 <= (read_idx (tx_fifo d) + total_cnt (tx_dma d)) mod capacity (tx_fifo d) < capacity (tx_fifo d))
    by (apply Z.mod_pos_bound; lia).
  pose proof (proj1 Hq) as Hql. rewrite !u16_small in Hs by lia. destruct (Z.eqb_spec (count (tx_fifo d) - total_cnt (tx_dma d)) 0) as [E|E].
  - injection Hs as <-. cbn. split; [|repeat split; lia || (by destruct (_ =? _))]. left. split; [|apply drop_ge; lia].
    repeat split; cbn; lia || done.
  - pose proof (holds_drop _ _ _ (Z.to_nat (total_cnt (tx_dma d))) Hq) as Hd.
    rewrite Z2Nat.id, Hlen in Hd by lia.
    injection Hs as <-. cbn. split; [right|repeat split; try lia; case_match; done].
    split; [repeat split; cbn; lia || done|]. split; [done|]. cbn.
    exists (drop (Z.to_nat (total_cnt (tx_dma d))) q). repeat split; try apply Hd; cbn; try lia.
    + rewrite length_drop. lia.
    + rewrite Z.sub_diag. done.
Qed.

Lemma tx_step_state d u d' : tx_state d u -> tx_step d d' ->
  exists a b, u = a ++ b /\ tx_state d' b /\ wire (usart d') = wire (usart d) ++ a.
Proof.
  intros [[(_ & _ & _ & Hon & Hfl) ->]|Hb] Hs; [|destruct Hs as [d d' Hs|d d' Hi Hs]].
  - destruct Hs as [d d' Hs|d d' Hi Hs]; [unfold dma_step in Hs|]; [by rewrite Hon in Hs|by rewrite Hfl in Hi].
  - apply (dma_step_busy d u) in Hs as (b & u' & -> & Hb' & Hw & _); [|done].
    exists [b], u'. split; [done|]. split; [by right|done].
  - apply andb_true_iff in Hi as [Hi _]. apply (on_dma_tx_busy d u) in Hs as (Hs & Hw & _); [|done..].
    exists [], u. split; [done|]. split; [done|]. by rewrite app_nil_r.
Qed.

Lemma tx_run_state d d' : star tx_step d d' -> forall u, tx_state d u ->
  exists a b, u = a ++ b /\ tx_state d' b /\ wire (usart d') = wire (usart d) ++ a.
Proof.
  induction 1 as [d|d d1 d2 H IH Hs]; intros u Hu; [by exists [], u; rewrite app_nil_r|].
  destruct (IH u Hu) as (a & b & -> & Hb & Hw). destruct (tx_step_state _ _ _ Hb Hs) as (a' & b' & -> & Hb' & Hw').
  exists (a ++ a'), b'. split; [by rewrite app_assoc|]. split; [done|]. by rewrite Hw', Hw, app_assoc.
Qed.

(** Something can always happen while a transfer is under way. *)
Lemma tx_progress d u : tx_busy d u -> exists d', tx_step d d'.
Proof.
  intros Hb. pose proof Hb as (Hf & Hc & q & Hq & Hqc & Hpos & Hm & Ht & Hn & Hi & Hon & Hfl & Hu).
  destruct Hf as (Hcap & Hlen & Hw & Hr). destruct (Z.eqb_spec (d_num (tx_dma d)) 0) as [E|E].
  - clear Hu.
    assert (on_dma_tx d <> None) as Hd;
      [|destruct (on_dma_tx d) as [d'|] eqn:Es; [|done]; exists d'; constructor 2; [by rewrite Hi, Hfl|done]].
    unfold on_dma_tx. rewrite Hfl. cbn -[cmod]. rewrite cmod_ok by lia. cbn. by case_match.
  - assert (dma_step d <> None) as Hd; [|destruct (dma_step d) as [d'|] eqn:Es; [|done]; exists d'; by constructor].
    unfold dma_step. rewrite Hon. destruct (Z.ltb_spec 0 (d_num (tx_dma d))); [|lia]. cbn [andb negb].
    destruct (proj2 (ld_is_Some (buffer (tx_fifo d)) (d_mem (tx_dma d) + (total_cnt (tx_dma d) - d_num (tx_dma d))))) as [b ->];
      [lia|done].
Qed.

(** ... and it ends with everything on the line. *)
Lemma tx_drains n : forall d u, (Z.to_nat (count (tx_fifo d)) * S (Z.to_nat (capacity (tx_fifo d))) + Z.to_nat (d_num (tx_dma d)) <= n)%nat ->
  tx_state d u -> exists d', star tx_step d d' /\ tx_idle d' /\ wire (usart d') = wire (usart d) ++ u.
Proof.
  induction n as [n IH] using lt_wf_ind. intros d u Hn [[Hi ->]|Hb].
  { exists d. split; [constructor|]. by rewrite app_nil_r. }
  assert (Hgo : forall d1 a b, tx_step d d1 -> u = a ++ b -> tx_state d1 b -> wire (usart d1) = wire (usart d) ++ a ->
    (Z.to_nat (count (tx_fifo d1)) * S (Z.to_nat (capacity (tx_fifo d1))) + Z.to_nat (d_num (tx_dma d1)) < n)%nat ->
    exists d', star tx_step d d' /\ tx_idle d' /\ wire (usart d') = wire (usart d) ++ u).
  { intros d1 a b Hs -> Hb1 Hw Hm. destruct (IH _ Hm d1 b (le_n _) Hb1) as (d' & H1 & H2 & H3).
    exists d'. split; [eapply star_trans; [|exact H1]; eapply star_step; [constructor|done]|].
    split; [done|]. by rewrite H3, Hw, app_assoc. }
  destruct (tx_progress d u Hb) as [d1 Hs]. destruct (tx_step_state d u d1 (or_intror Hb) Hs) as (a & b & Hu & Hb1 & Hw).
  apply (Hgo d1 a b Hs Hu Hb1 Hw). pose proof Hb as (Hf & _ & q & Hq & Hqc & Hpos & _ & Ht & Hnum & _).
  inversion Hs as [? ? E1|? ? E1 E2]; subst.
  - apply (dma_step_busy d _ d1 Hb) in E1 as (? & ? & _ & _ & _ & Hfe & Hne & Hpos1). rewrite Hfe, Hne. lia.
  - apply andb_true_iff in E1 as [E1 _]. apply (on_dma_tx_busy d _ d1 Hb) in E2 as (_ & _ & Hc & -> & Hn1); [|done].
    assert (Z.to_nat (d_num (tx_dma d1)) <= Z.to_nat (capacity (tx_fifo d)))%nat by lia.
    assert (S (Z.to_nat (count (tx_fifo d1))) <= Z.to_nat (count (tx_fifo d)))%nat by lia. nia.
Qed.

(** ** [com_send] *)

Lemma push_bytes data n f : fifo_ok f -> (n <= length data)%nat -> Z.of_nat n <= capacity f ->
  exists b, for_loop (push_byte data) 0 n f =
      Some (mk_fifo b ((write_idx f + Z.of_nat n) mod capacity f) (read_idx f) (count f) (capacity f)) /\
    length b = length (buffer f) /\
    (forall j, (j < n)%nat -> ld b ((write_idx f + Z.of_nat j) mod capacity f) = data !! j) /\
    (forall j, (n <= j)%nat -> Z.of_nat j < capacity f ->
       ld b ((write_idx f + Z.of_nat j) mod capacity f) = ld (buffer f) ((write_idx f + Z.of_nat j) mod capacity f)).
Proof.
  intros (Hc & Hl & Hw & Hr) Hn Hcap.
  destruct (for_loop_ind (fun i g => exists b, g = mk_fifo b ((write_idx f + Z.of_nat i) mod capacity f) (read_idx f) (count f) (capacity f) /\
      length b = length (buffer f) /\
      (forall j, (j < i)%nat -> ld b ((write_idx f + Z.of_nat j) mod capacity f) = data !! j) /\
      (forall j, (i <= j)%nat -> Z.of_nat j < capacity f ->
         ld b ((write_idx f + Z.of_nat j) mod capacity f) = ld (buffer f) ((write_idx f + Z.of_nat j) mod capacity f)))
    (push_byte data) n 0 f) as (g & E & b & -> & Hb); [| |by exists b].
  - exists (buffer f). rewrite Z.add_0_r, Z.mod_small by lia. split; [by destruct f|]. repeat split; intros; lia || done.
  - intros i g Hi (b & -> & Hlb & Hin & Hout). unfold push_byte.
    destruct (lookup_lt_is_Some_2 data i) as [x Hx]; [lia|]. rewrite Hx. cbn [mbind option_bind buffer write_idx capacity read_idx count].
    pose proof (Z.mod_pos_bound (write_idx f + Z.of_nat i) (capacity f)) as Hm.
    rewrite st_Some by lia. cbn [mbind option_bind]. rewrite cmod_ok by lia. cbn [mbind option_bind].
    pose proof (Z.mod_pos_bound ((write_idx f + Z.of_nat i) mod capacity f + 1) (capacity f)) as Hm'.
    rewrite u16_small by lia. eexists. split; [done|]. eexists. split; [|split; [by rewrite length_insert|split]].
    + f_equal. rewrite Zplus_mod_idemp_l. f_equal. lia.
    + intros j Hj. destruct (decide (j = i)) as [->|Hne]; [rewrite ld_insert_eq by lia; done|].
      rewrite ld_insert_ne; [apply Hin; lia|lia|]. intros Eq. apply mod_shift_inj in Eq; lia.
    + intros j Hj Hjc. rewrite ld_insert_ne; [apply Hout; lia|lia|]. intros Eq. apply mod_shift_inj in Eq; lia.
Qed.

(** The FIFO of [com_send] after the copying loop: the new bytes and then
    [count] old cells are what the next transfers send. *)
Definition sent_fifo (f : circ_buffer_t) (b : list Z) (n : nat) : circ_buffer_t :=
  mk_fifo b ((write_idx f + Z.of_nat n) mod capacity f) (write_idx f) (count f + Z.of_nat n) (capacity f).

Lemma sent_holds f b data n : fifo_ok f -> 0 <= count f -> (n <= length data)%nat -> Z.of_nat n + count f <= capacity f ->
  length b = length (buffer f) ->
  (forall j, (j < n)%nat -> ld b ((write_idx f + Z.of_nat j) mod capacity f) = data !! j) ->
  (forall j, (n <= j)%nat -> Z.of_nat j < capacity f ->
     ld b ((write_idx f + Z.of_nat j) mod capacity f) = ld (buffer f) ((write_idx f + Z.of_nat j) mod capacity f)) ->
  holds b (write_idx f) (take n data ++ ring_slice (buffer f) (write_idx f + Z.of_nat n) (Z.to_nat (count f))).
Proof.
  intros (Hc & Hl & Hw & Hr) H0 Hn Hcap Hlb Hin Hout. split; [rewrite length_app, length_take, ring_slice_len; lia|].
  intros j x Hj. replace (zlen b) with (capacity f) by lia. destruct (decide (j < n)%nat) as [L|L].
  - rewrite Hin by done. rewrite lookup_app_l in Hj by (rewrite length_take; lia). by rewrite lookup_take_lt in Hj.
  - rewrite lookup_app_r, length_take, Nat.min_l in Hj by (rewrite ?length_take; lia).
    assert (Hjl : (j - n < Z.to_nat (count f))%nat).
    { apply lookup_lt_Some in Hj. by rewrite ring_slice_len in Hj. }
    rewrite Hout by lia. rewrite <- Hj, ring_slice_lookup by lia. rewrite Hl. do 2 f_equal. lia.
Qed.

Lemma start_tx_busy f d q : fifo_ok f -> Z.land (dma_cfg d) COM_SEND_DMA <> 0 -> holds (buffer f) (read_idx f) q ->
  zlen q = count f -> 0 < count f ->
  tx_busy (start_tx f d) q /\ wire (usart (start_tx f d)) = wire (usart d) /\ tx_fifo (start_tx f d) = f.
Proof.
  intros Hf Hc Hq Hqc Hpos. unfold start_tx. rewrite (proj2 (Z.leb_gt _ _)) by done.
  rewrite (proj2 (Z.eqb_neq _ _) Hc). cbn [negb]. split; [|split; [cbn; by case_match|done]].
  pose proof Hf as (Hcap & Hlen & Hw & Hr). pose proof (proj1 Hq) as Hql. split; [done|]. split; [done|].
  assert (E : (if capacity f - read_idx f >? count f then count f else capacity f - read_idx f) =
              Z.min (count f) (capacity f - read_idx f)).
  { destruct (Z.gtb_spec (capacity f - read_idx f) (count f)); lia. }
  cbn. rewrite E. exists q. split; [done|]. repeat split; try lia. by rewrite Z.sub_diag.
Qed.

(** One pass of the loop. *)
Lemma com_send_pass fuel data len total d : fifo_ok (tx_fifo d) -> Z.land (dma_cfg d) COM_SEND_DMA <> 0 ->
  0 <= count (tx_fifo d) < capacity (tx_fifo d) -> 0 < len <= zlen data ->
  let n := Z.min len (capacity (tx_fifo d) - count (tx_fifo d)) in
  exists d', com_send_loop (S fuel) data len total d =
      com_send_loop fuel (drop (Z.to_nat n) data) (len - n) (total + n) d' /\
    count (tx_fifo d') = count (tx_fifo d) + n /\ capacity (tx_fifo d') = capacity (tx_fifo d) /\
    wire (usart d') = wire (usart d) /\
    tx_busy d' (take (Z.to_nat n) data ++
                ring_slice (buffer (tx_fifo d)) (write_idx (tx_fifo d) + n) (Z.to_nat (count (tx_fifo d)))).
Proof.
  intros Hf Hc Hk Hlen n.
  cbn [com_send_loop]. rewrite (proj2 (Z.leb_gt _ _)) by lia. rewrite (proj2 (Z.leb_gt _ _)) by lia.
  replace (if len <? _ then _ else _) with n by (unfold n; destruct (Z.ltb_spec len (capacity (tx_fifo d) - count (tx_fifo d))); lia).
  set (f0 := mk_fifo _ _ _ _ _). assert (Hf0 : fifo_ok f0).
  { destruct Hf as (? & ? & ? & ?). repeat split; cbn; lia. }
  destruct (push_bytes data (Z.to_nat n) f0 Hf0) as (b & -> & Hlb & Hin & Hout); [lia|cbn; lia|].
  cbn [mbind option_bind f0 buffer write_idx read_idx count capacity] in *.
  pose proof (sent_holds f0 b data (Z.to_nat n)) as Hh. cbn [f0 buffer write_idx read_idx count capacity] in Hh.
  destruct Hf as (Hcap & Hl & Hw & Hr). rewrite Z2Nat.id in * by lia.
  rewrite u16_small by lia.
  specialize (Hh Hf0 ltac:(lia) ltac:(lia) ltac:(lia) Hlb Hin Hout).
  set (f := mk_fifo b _ _ _ _). pose proof (Z.mod_pos_bound (write_idx (tx_fifo d) + n) (capacity (tx_fifo d))).
  destruct (start_tx_busy f d _ ltac:(repeat split; cbn; lia) Hc Hh) as (Hb & Hwr & Hfe).
  { rewrite length_app, length_take, ring_slice_len. cbn. lia. }
  { cbn. lia. }
  exists (start_tx f d). split; [done|]. rewrite Hfe. by split; [|split; [|split]].
Qed.

Lemma com_send_full fuel data len total d : (0 < fuel)%nat -> len <= 0 \/ capacity (tx_fifo d) <= count (tx_fifo d) ->
  com_send_loop fuel data len total d = Some (d, total).
Proof.
  intros Hfuel H. destruct fuel; [lia|]. cbn [com_send_loop]. destruct (Z.leb_spec len 0); [done|].
  by rewrite (proj2 (Z.leb_le _ _)) by lia.
Qed.

(** [com_send] of a non-empty buffer into a FIFO with room. *)
Lemma com_send_starts data len d : fifo_ok (tx_fifo d) -> Z.land (dma_cfg d) COM_SEND_DMA <> 0 ->
  0 <= count (tx_fifo d) < capacity (tx_fifo d) -> 0 < len <= zlen data ->
  let n := Z.min len (capacity (tx_fifo d) - count (tx_fifo d)) in
  exists d', com_send COM2 data len d = Some (d', n) /\ wire (usart d') = wire (usart d) /\
    tx_busy d' (take (Z.to_nat n) data ++
                ring_slice (buffer (tx_fifo d)) (write_idx (tx_fifo d) + n) (Z.to_nat (count (tx_fifo d)))).
Proof.
  intros Hf Hc Hk Hne n. destruct (com_send_pass (Z.to_nat len) data len 0 d Hf Hc Hk Hne) as (d' & E & Hcnt & Hcap & Hw & Hb).
  fold n in E, Hcnt, Hb. exists d'. split; [|by split]. unfold com_send. cbn [port_ok negb Z.ltb Z.compare COM2 orb Z.geb COM_CNT].
  rewrite E. by rewrite com_send_full by lia.
Qed.

(** Sending by DMA leaves the receiving side alone. *)
Definition rx_same (d d' : com_desc_t) : Prop :=
  rx_fifo d' = rx_fifo d /\ rx_dma d' = rx_dma d /\ rx_len d' = rx_len d /\ mode d' = mode d /\ dma_cfg d' = dma_cfg d /\
  idleie (usart d') = idleie (usart d) /\ rbneie (usart d') = rbneie (usart d) /\ tbeie (usart d') = tbeie (usart d) /\
  capacity (tx_fifo d') = capacity (tx_fifo d).
Lemma rx_same_refl d : rx_same d d.
Proof. by repeat split. Qed.
Lemma rx_same_trans d1 d2 d3 : rx_same d1 d2 -> rx_same d2 d3 -> rx_same d1 d3.
Proof. unfold rx_same. intuition congruence. Qed.

Lemma with_tx_same f x u d : idleie u = idleie (usart d) -> rbneie u = rbneie (usart d) -> tbeie u = tbeie (usart d) ->
  capacity f = capacity (tx_fifo d) -> rx_same d (with_tx f x u d).
Proof. intros. by repeat split. Qed.

Lemma com_set_mode_same m u : idleie (com_set_mode m u) = idleie u /\ rbneie (com_set_mode m u) = rbneie u /\
  tbeie (com_set_mode m u) = tbeie u.
Proof. unfold com_set_mode. by repeat case_match. Qed.

Lemma tx_step_same d d' : tx_step d d' -> rx_same d d'.
Proof.
  intros [d0 d1 E|d0 d1 _ E].
  - unfold dma_step in E. destruct (negb _); [done|]. run_bind E. injection E as <-. by apply with_tx_same.
  - unfold on_dma_tx in E. destruct (negb _); [injection E as <-; apply rx_same_refl|]. run_bind E.
    all: destruct (com_set_mode_same COM_MODE_TX (usart d0)) as (H1 & H2 & H3).
    all: injection E as <-; apply with_tx_same; try done; by case_match.
Qed.
Lemma tx_run_same d d' : star tx_step d d' -> rx_same d d'.
Proof. induction 1; [apply rx_same_refl|]. eauto using rx_same_trans, tx_step_same. Qed.

Lemma for_loop_inv {S} (P : S -> Prop) (body : nat -> S -> option S) n : forall i s s',
  (forall j t t', P t -> body j t = Some t' -> P t') -> P s -> for_loop body i n s = Some s' -> P s'.
Proof.
  induction n as [|n IH]; intros i s s' Hb Hs E; cbn in E; [by injection E as <-|].
  destruct (body i s) as [t|] eqn:Eb; [|done]. exact (IH _ t s' Hb (Hb _ _ _ Hs Eb) E).
Qed.

Lemma start_tx_same f d : Z.land (dma_cfg d) COM_SEND_DMA <> 0 -> capacity f = capacity (tx_fifo d) -> rx_same d (start_tx f d).
Proof.
  intros Hc Hf. unfold start_tx. rewrite (proj2 (Z.eqb_neq _ _) Hc). cbn [negb].
  destruct (com_set_mode_same COM_MODE_TX (usart d)) as (H1 & H2 & H3).
  destruct (count f <=? 0); apply with_tx_same; try done; cbn; by case_match.
Qed.

Lemma com_send_same port data len d d' n : Z.land (dma_cfg d) COM_SEND_DMA <> 0 -> com_send port data len d = Some (d', n) -> rx_same d d'.
Proof.
  intros Hc. unfold com_send. destruct (negb _); [intros [= <- _]; apply rx_same_refl|].
  generalize (S (Z.to_nat len)) 0. intros fuel. revert data len d Hc. induction fuel as [|fuel IH]; intros data len d Hc total E; cbn [com_send_loop] in E.
  { destruct (len <=? 0); [|done]. injection E as <- _. apply rx_same_refl. }
  destruct (len <=? 0); [injection E as <- _; apply rx_same_refl|].
  destruct (_ <=? 0); [injection E as <- _; apply rx_same_refl|].
  match type of E with context [for_loop ?b ?i ?n ?f] => destruct (for_loop b i n f) as [g|] eqn:El; [|done] end.
  assert (Hcap : capacity g = capacity (tx_fifo d)).
  { eapply (for_loop_inv (fun g => capacity g = capacity (tx_fifo d))) in El; [done| |done].
    intros j t t' Ht Eb. unfold push_byte in Eb. run_bind Eb. by injection Eb as <-. }
  cbn [mbind option_bind] in E. set (f := mk_fifo _ _ _ _ _) in E.
  pose proof (start_tx_same f d Hc Hcap) as Hs. apply IH in E; [eapply rx_same_trans; eassumption|].
  destruct Hs as (_ & _ & _ & _ & -> & _). done.
Qed.

(** From rest, [com_send] queues as much as the FIFO holds, and that is what
    comes out. *)
Lemma com_send_rest data len d : tx_idle d -> 0 < len <= zlen data ->
  let sent := take (Z.to_nat (Z.min len (capacity (tx_fifo d)))) data in
  exists d', com_send COM2 data len d = Some (d', zlen sent) /\ rx_same d d' /\
    forall d1, star tx_step d' d1 ->
      (exists rest, wire (usart d1) ++ rest = wire (usart d) ++ sent) /\
      (exists d2, star tx_step d1 d2 /\ tx_idle d2 /\ wire (usart d2) = wire (usart d) ++ sent).
Proof.
  intros (Hf & Hc & H0 & _) Hlen sent. pose proof Hf as (Hcap & _).
  destruct (com_send_starts data len d Hf Hc) as (d' & E & Hw & Hb); [lia|done|]. rewrite H0, Z.sub_0_r in E, Hb. cbn in Hb.
  rewrite app_nil_r in Hb. fold sent in Hb.
  exists d'. split; [rewrite E; do 2 f_equal; unfold sent; rewrite length_take; lia|].
  split; [eapply com_send_same; eassumption|]. intros d1 Hs.
  destruct (tx_run_state _ _ Hs sent (or_intror Hb)) as (a & r & -> & Hr & Hw1).
  split; [exists r; by rewrite Hw1, Hw, app_assoc|].
  destruct (tx_drains _ d1 r (le_n _) Hr) as (d2 & H1 & H2 & H3). exists d2. by rewrite H3, Hw1, Hw, app_assoc.
Qed.

(** [C13] From rest, [com_send] queues as many bytes as the FIFO holds and says
    so; whatever the DMA controller and its interrupt handler do next, the line
    carries a part of them in order, and they can always get to the state of
    rest, in which exactly these bytes have been sent. *)
Theorem send_reaches_wire d data : tx_idle d -> data <> [] ->
  let sent := take (Z.to_nat (capacity (tx_fifo d))) data in
  exists d', com_send COM2 data (zlen data) d = Some (d', zlen sent) /\
    forall d1, star tx_step d' d1 ->
      (exists rest, wire (usart d1) ++ rest = wire (usart d) ++ sent) /\
      (exists d2, star tx_step d1 d2 /\ tx_idle d2 /\ wire (usart d2) = wire (usart d) ++ sent).
Proof.
  intros Hi Hne sent. destruct (com_send_rest data (zlen data) d Hi) as (d' & E & _ & H); [destruct data; [done|cbn; lia]|].
  replace (take (Z.to_nat (Z.min _ _)) data) with sent in E, H; [by exists d'|].
  unfold sent. destruct (Z.min_spec (zlen data) (capacity (tx_fifo d))) as [[? ->]|[? ->]]; [rewrite !take_ge by lia|]; done.
Qed.

(** The unsent rest of an earlier [com_send] is lost when the next one
    comes before it is out: [read_idx] moves to the new bytes, and as many old
    cells of the buffer as bytes were queued follow them on the line. *)
Theorem send_while_sending d u data : tx_busy d u -> data <> [] ->
  zlen data + count (tx_fifo d) <= capacity (tx_fifo d) ->
  exists d', com_send COM2 data (zlen data) d = Some (d', zlen data) /\
    forall d1, star tx_step d' d1 -> exists d2, star tx_step d1 d2 /\ tx_idle d2 /\
      wire (usart d2) = wire (usart d) ++ data ++
        ring_slice (buffer (tx_fifo d)) (write_idx (tx_fifo d) + zlen data) (Z.to_nat (count (tx_fifo d))).
Proof.
  intros (Hf & Hc & q & Hq & Hqc & Hpos & _) Hne Hroom.
  assert (0 < zlen data) by (destruct data; [done|cbn; lia]).
  destruct (com_send_starts data (zlen data) d Hf Hc) as (d' & E & Hw & Hb); [lia|lia|].
  rewrite Z.min_l, Nat2Z.id, take_ge in * by lia. exists d'. split; [done|]. intros d1 Hs.
  destruct (tx_run_state _ _ Hs _ (or_intror Hb)) as (a & r & Ha & Hr & Hw1).
  destruct (tx_drains _ d1 r (le_n _) Hr) as (d2 & H1 & H2 & H3). exists d2. split; [done|]. split; [done|].
  by rewrite H3, Hw1, Hw, <- app_assoc, <- Ha.
Qed.

(** * Receiving *)

(** The circular transfer runs over the whole buffer and everything it stored
    up to its position has been taken out. *)
Definition rx_ready (d : com_desc_t) : Prop :=
  let f := rx_fifo d in let x := rx_dma d in
  fifo_ok f /\ read_idx f = write_idx f /\ rx_len d = 0 /\ Z.land (dma_cfg d) COM_RECV_DMA <> 0 /\
  idleie (usart d) = true /\ rbneie (usart d) = false /\ tbeie (usart d) = false /\
  d_on x = true /\ d_mem x = 0 /\ total_cnt x = capacity f /\ d_num x = capacity f - write_idx f.

(** Only the receiving side of it. *)
Definition rx_running (d : com_desc_t) : Prop :=
  let f := rx_fifo d in let x := rx_dma d in
  0 < capacity f < 65536 /\ zlen (buffer f) = capacity f /\ 0 <= write_idx f < capacity f /\
  d_on x = true /\ d_mem x = 0 /\ total_cnt x = capacity f /\ d_num x = capacity f - write_idx f.

Lemma rx_ready_running d : rx_ready d -> rx_running d.
Proof. unfold rx_ready, rx_running, fifo_ok. tauto. Qed.

(** Then [l] is stored, but not seen by the handler. *)
Definition rx_stored (l : list Z) (d0 d : com_desc_t) : Prop :=
  let f := rx_fifo d0 in let p := (write_idx f + zlen l) mod capacity f in
  exists b, d = with_rx (mk_fifo b (write_idx f) (read_idx f) (count f) (capacity f))
      (mk_dma true 0 (capacity f - p) (d_flag (rx_dma d0)) (d_irq (rx_dma d0)) (capacity f)) (rx_len d0) d0 /\
    length b = length (buffer f) /\ holds b (write_idx f) l.

Lemma rx_bytes_snoc l b d : rx_bytes (l ++ [b]) d = rx_bytes l d ≫= rx_byte b.
Proof. unfold rx_bytes. by rewrite foldl_app. Qed.

Lemma rx_bytes_stored l : forall d, rx_running d -> zlen l <= capacity (rx_fifo d) ->
  exists d1, rx_bytes l d = Some d1 /\ rx_stored l d d1.
Proof.
  induction l as [|b l IH] using rev_ind; intros d Hd Hl; pose proof Hd as (Hcap & Hlen & Hw & Hon & Hm & Ht & Hn).
  - exists d. split; [done|]. exists (buffer (rx_fifo d)). rewrite Z.add_0_r, Z.mod_small by lia.
    split; [|split; [done|apply holds_nil]]. destruct d as [? ? [] [] ? ? ? ?]. cbn in *. subst. done.
  - rewrite length_app in Hl. cbn in Hl.
    destruct (IH d Hd) as (d1 & E & m & -> & Hlm & Hh); [lia|]. rewrite rx_bytes_snoc, E. cbn [mbind option_bind].
    unfold rx_byte. cbn [with_rx rx_dma rx_fifo d_on d_mem d_num total_cnt buffer negb].
    set (p := (write_idx (rx_fifo d) + zlen l) mod capacity (rx_fifo d)).
    assert (Hp : 0 <= p < capacity (rx_fifo d)) by (apply Z.mod_pos_bound; lia).
    replace (0 + (capacity (rx_fifo d) - (capacity (rx_fifo d) - p))) with p by lia.
    rewrite st_Some by lia. cbn [mbind option_bind]. eexists. split; [done|].
    exists (<[Z.to_nat p:=b]> m). rewrite length_insert. split; [|split; [done|]].
    + rewrite length_app. cbn [length]. pose proof (tail_position m (write_idx (rx_fifo d)) l) as Htp.
      replace (zlen m) with (capacity (rx_fifo d)) in Htp by lia. fold p in Htp.
      rewrite Nat2Z.inj_add. change (Z.of_nat 1) with 1. rewrite <- Htp by lia. unfold ring_next.
      unfold with_rx. cbn. repeat f_equal. destruct (Z.eqb_spec (p + 1) (capacity (rx_fifo d)));
        destruct (Z.eqb_spec (capacity (rx_fifo d) - p - 1) 0); lia.
    + pose proof (holds_push m (write_idx (rx_fifo d)) l b Hh) as Hpu.
      replace (zlen m) with (capacity (rx_fifo d)) in Hpu by lia. apply Hpu. lia.
Qed.

(** The handler has seen the bytes [l]. *)
Definition rx_full (l : list Z) (d : com_desc_t) : Prop :=
  let f := rx_fifo d in let x := rx_dma d in
  fifo_ok f /\ holds (buffer f) (read_idx f) l /\ zlen l < capacity f /\ count f = zlen l /\ rx_len d = zlen l /\
  write_idx f = (read_idx f + zlen l) mod capacity f /\ Z.land (dma_cfg d) COM_RECV_DMA <> 0 /\
  idleie (usart d) = true /\ rbneie (usart d) = false /\ tbeie (usart d) = false /\
  d_on x = true /\ d_mem x = 0 /\ total_cnt x = capacity f /\ d_num x = capacity f - write_idx f.

Lemma idle_count c w n : 0 < c -> 0 <= w < c -> 0 <= n -> (c + (w + n) mod c - w) mod c = n mod c.
Proof.
  intros. replace (c + (w + n) mod c - w) with ((w + n) mod c + (c - w)) by lia.
  rewrite Zplus_mod_idemp_l. replace (w + n + (c - w)) with (n + 1 * c) by lia. by rewrite Z.mod_add by lia.
Qed.

Lemma irq_sent_facts i d : exists u, irq_sent i d = with_usart u d /\ idleie u = idleie (usart d) /\
  rbneie u = rbneie (usart d) /\ tbeie u = tbeie (usart d) /\ wire u = wire (usart d).
Proof.
  unfold irq_sent. destruct (tcie _ && _); [|exists (usart d); by destruct d].
  eexists. split; [done|]. cbn. by case_match.
Qed.

(** Nothing but the call back happens after the idle line was served. *)
Lemma on_irq_rest {W} (cb : option (com_desc_t -> W -> option (com_desc_t * W))) i d w d' w' :
  irq_idle cb i (irq_sent i d) w = Some (d', w') -> rbneie (usart d') = false -> tbeie (usart d') = false ->
  on_irq_all cb i d w = Some (d', w').
Proof.
  intros E Hr Ht. unfold on_irq_all. rewrite E. cbn [mbind option_bind fst snd]. unfold irq_recv. rewrite Hr.
  cbn [andb negb mbind option_bind fst snd]. unfold irq_send. by rewrite Ht.
Qed.

(** What the call back is given after the bytes [l]. *)
Definition rx_seen (l : list Z) (b : list Z) (u : usart_t) (d0 : com_desc_t) : com_desc_t :=
  let f := rx_fifo d0 in let p := (write_idx f + zlen l) mod capacity f in
  let n := u16 (Z.rem (capacity f + p - read_idx f) (capacity f)) in
  with_usart u (with_rx (mk_fifo b p (read_idx f) n (capacity f))
    (mk_dma true 0 (capacity f - p) (d_flag (rx_dma d0)) (d_irq (rx_dma d0)) (capacity f)) n d0).

(** The idle line makes the handler count the bytes (modulo the capacity) and
    call back. *)
Lemma irq_idle_stored {W} (cb : com_desc_t -> W -> option (com_desc_t * W)) i l d0 d1 :
  rx_running d0 -> Z.land (dma_cfg d0) COM_RECV_DMA <> 0 -> idleie (usart d0) = true -> rbneie (usart d0) = false ->
  tbeie (usart d0) = false -> rx_stored l d0 d1 -> rx_idle i = true ->
  exists b u, length b = length (buffer (rx_fifo d0)) /\ holds b (write_idx (rx_fifo d0)) l /\
    idleie u = true /\ rbneie u = false /\ tbeie u = false /\ wire u = wire (usart d0) /\
    forall w d3 w', cb (rx_seen l b u d0) w = Some (d3, w') -> usart d3 = u -> on_irq_all (Some cb) i d1 w = Some (d3, w').
Proof.
  intros (Hcap & Hlen & Hw & Hon & Hm & Ht & Hn) Hcfg Hie Hrb Htb (b & Hd1 & Hlb & Hh) Hi.
  assert (Hp : 0 <= (write_idx (rx_fifo d0) + zlen l) mod capacity (rx_fifo d0) < capacity (rx_fifo d0))
    by (apply Z.mod_pos_bound; lia).
  destruct (irq_sent_facts i d1) as (u & Es & Hie' & Hrb' & Htb' & Hwi).
  replace (usart d1) with (usart d0) in * by (by subst d1).
  exists b, u. split; [done|]. split; [done|]. repeat (split; [congruence|]). intros w d3 w' Hcb Hu.
  apply on_irq_rest; [|congruence..]. rewrite Es. unfold irq_idle.
  replace (usart (with_usart u d1)) with u by done. rewrite Hie', Hie, Hi. subst d1.
  cbn [with_usart with_tx with_rx dma_cfg rx_fifo rx_dma d_num capacity read_idx buffer].
  rewrite (proj2 (Z.eqb_neq _ _) Hcfg). cbn [andb negb]. unfold rx_seen in Hcb.
  remember ((write_idx (rx_fifo d0) + zlen l) mod capacity (rx_fifo d0)) as p eqn:Ep.
  replace (capacity (rx_fifo d0) - (capacity (rx_fifo d0) - p)) with p by (clear; lia).
  rewrite (u16_small p) by (clear - Hp Hcap; lia). unfold cmod. rewrite (proj2 (Z.eqb_neq (capacity (rx_fifo d0)) 0)) by (clear - Hcap; lia).
  cbn [mbind option_bind]. exact Hcb.
Qed.

Lemma rx_seen_full l b u d0 : rx_ready d0 -> zlen l < capacity (rx_fifo d0) -> length b = length (buffer (rx_fifo d0)) ->
  holds b (write_idx (rx_fifo d0)) l -> idleie u = true -> rbneie u = false -> tbeie u = false ->
  rx_full l (rx_seen l b u d0).
Proof.
  intros ((Hcap & Hlen & Hw & Hr) & Hrw & Hrl & Hcfg & Hie & Hrb & Htb & Hon & Hm & Ht & Hn) Hl Hlb Hh H1 H2 H3.
  assert (Hp : 0 <= (write_idx (rx_fifo d0) + zlen l) mod capacity (rx_fifo d0) < capacity (rx_fifo d0))
    by (apply Z.mod_pos_bound; lia).
  assert (Hc : u16 (Z.rem (capacity (rx_fifo d0) + (write_idx (rx_fifo d0) + zlen l) mod capacity (rx_fifo d0) - read_idx (rx_fifo d0))
                      (capacity (rx_fifo d0))) = zlen l).
  { rewrite Z.rem_mod_nonneg by lia. rewrite Hrw, idle_count, Z.mod_small, u16_small by lia. done. }
  unfold rx_full. cbn [rx_seen with_usart with_tx with_rx rx_fifo rx_dma rx_len dma_cfg usart buffer write_idx read_idx count capacity
    d_on d_mem d_num total_cnt]. rewrite Hc, Hrw.
  split; [split; [done|]; cbn [buffer write_idx read_idx capacity]; clear - Hp Hlb Hlen Hw; lia|]. by repeat (split; [done|]).
Qed.

(** [com_recv] takes them out. *)
Lemma com_recv_full l d buff size : rx_full l d -> 0 < zlen l <= zlen buff ->
  exists d', com_recv COM2 buff size d = Some (d', l ++ drop (length l) buff, zlen l) /\ rx_ready d' /\
    capacity (rx_fifo d') = capacity (rx_fifo d) /\ read_idx (rx_fifo d') = (read_idx (rx_fifo d) + zlen l) mod capacity (rx_fifo d) /\
    tx_fifo d' = tx_fifo d /\ tx_dma d' = tx_dma d /\ usart d' = usart d /\ dma_cfg d' = dma_cfg d.
Proof.
  intros (Hf & Hh & Hlc & Hcnt & Hrl & Hwi & Hcfg & Hie & Hrb & Htb & Hon & Hm & Ht & Hn) Hl.
  pose proof Hf as (Hcap & Hlen & Hw & Hr). unfold com_recv. cbn [port_ok negb Z.ltb Z.compare COM2 orb Z.geb COM_CNT].
  rewrite (proj2 (Z.eqb_neq _ _)) by lia. rewrite Hcnt, Nat2Z.id.
  destruct (for_loop_ind (fun i s => s = (take i l ++ drop i buff,
      mk_fifo (buffer (rx_fifo d)) (write_idx (rx_fifo d)) ((read_idx (rx_fifo d) + Z.of_nat i) mod capacity (rx_fifo d)) (count (rx_fifo d)) (capacity (rx_fifo d))))
    pop_byte (length l) 0 (buff, rx_fifo d)) as (s & E & Hs).
  - cbn. rewrite Z.add_0_r, Z.mod_small by lia. by destruct (rx_fifo d).
  - intros i s Hi ->. unfold pop_byte. cbn [buffer read_idx write_idx count capacity].
    destruct (lookup_lt_is_Some_2 l i) as [x Hx]; [lia|]. pose proof (proj2 Hh i x Hx) as Hld. rewrite Hlen in Hld. rewrite Hld.
    cbn [mbind option_bind]. rewrite st_Some by (rewrite length_app, length_take, length_drop; lia). cbn [mbind option_bind].
    pose proof (Z.mod_pos_bound (read_idx (rx_fifo d) + Z.of_nat i) (capacity (rx_fifo d))).
    pose proof (Z.mod_pos_bound (read_idx (rx_fifo d) + Z.of_nat i + 1) (capacity (rx_fifo d))).
    rewrite cmod_ok by lia. cbn [mbind option_bind]. rewrite Zplus_mod_idemp_l, u16_small by lia. eexists. split; [done|]. f_equal.
    + rewrite Nat2Z.id, (take_S_r _ _ _ Hx). destruct (lookup_lt_is_Some_2 buff i) as [y Hy]; [lia|].
      rewrite (drop_S _ _ _ Hy), <- app_assoc. cbn [app].
      pose proof (insert_app_cons (take i l) y x (drop (S i) buff)) as Hins. by rewrite length_take, Nat.min_l in Hins by lia.
    + f_equal. f_equal. lia.
  - rewrite E, Hs. cbn [mbind option_bind buffer read_idx write_idx count capacity Nat.add]. rewrite Hrl, Z.geb_leb, (proj2 (Z.leb_gt _ _)) by lia.
    rewrite Hcnt, Z.sub_diag, take_ge by lia. eexists. split; [done|].
    pose proof (Z.mod_pos_bound (read_idx (rx_fifo d) + zlen l) (capacity (rx_fifo d))).
    repeat split; cbn; try done; try lia.
Qed.

Lemma rx_ready_same d d' : rx_same d d' -> rx_ready d -> rx_ready d'.
Proof. unfold rx_same, rx_ready. intros (-> & -> & -> & _ & -> & -> & -> & -> & _). done. Qed.

(** ** A concrete port *)

Definition zero_fifo : circ_buffer_t := mk_fifo [] 0 0 0 0.
Definition zero_dma : dma_xfer_t := mk_dma false 0 0 false false 0.
Definition zero_com : com_desc_t :=
  mk_com zero_fifo zero_dma zero_fifo zero_dma 0 0 0 (mk_usart false false false false false false false []).
(** The port after [pc_init]. *)
Definition demo_com : com_desc_t :=
  com_enable_recv COM2 (com_init (mk_config COM2 (Z.lor COM_RECV_DMA COM_SEND_DMA) COM_FULL_DUPLEX) zero_com).

Lemma demo_tx_idle : tx_idle demo_com.
Proof. by vm_compute. Qed.
Lemma demo_rx_ready : rx_ready demo_com /\ capacity (rx_fifo demo_com) = 1056.
Proof. by vm_compute. Qed.

Lemma send_reaches_wire_witness :
  tx_idle demo_com /\ [1; 2; 3] <> [] /\
  exists d', com_send COM2 [1; 2; 3] 3 demo_com = Some (d', 3) /\
    forall d1, star tx_step d' d1 ->
      (exists rest, wire (usart d1) ++ rest = [] ++ [1; 2; 3]) /\
      (exists d2, star tx_step d1 d2 /\ tx_idle d2 /\ wire (usart d2) = [] ++ [1; 2; 3]).
Proof.
  split; [exact demo_tx_idle|]. split; [discriminate|]. exact (send_reaches_wire demo_com [1; 2; 3] demo_tx_idle ltac:(discriminate)).
Defined.

(** Three bytes are queued and none has left. *)
Definition busy_com : com_desc_t := match com_send COM2 [1; 2; 3] 3 demo_com with Some (d, _) => d | None => demo_com end.
Lemma busy_com_busy : tx_busy busy_com [1; 2; 3].
Proof.
  repeat split; try by vm_compute. exists [1; 2; 3]. repeat split; try by vm_compute.
  - apply Nat.leb_le. by vm_compute.
  - intros [|[|[|j]]] x H; cbn in H; try done; by injection H as <-.
Qed.

(** The bytes 1 2 3 never leave: 4 5 and three zeros do. *)
Lemma send_while_sending_witness :
  tx_busy busy_com [1; 2; 3] /\
  exists d', com_send COM2 [4; 5] 2 busy_com = Some (d', 2) /\
    forall d1, star tx_step d' d1 -> exists d2, star tx_step d1 d2 /\ tx_idle d2 /\ wire (usart d2) = [4; 5; 0; 0; 0].
Proof.
  split; [exact busy_com_busy|].
  exact (send_while_sending busy_com [1; 2; 3] [4; 5] busy_com_busy ltac:(discriminate) ltac:(vm_compute; discriminate)).
Defined.
