(* ===== verification/Comm.v ===== *)
(** * comm_cfg.c, pc.c: channels, dispatch and the PC port

    Groups of channels with a send function each, the choice between the two
    protocols for a received packet, and the path of a packet from the receive
    interrupt through the agent to the reply.  [pvPortMalloc] and the mutex are
    arguments ([alloc], [take]: success); the TCP server's sending function and
    the two protocols are interfaces ([NetSend], implemented in TcpServer.v;
    [Protocols], in Device.v with ProtoBase.v and ProtoChar.v).  Suspending the scheduler and
    critical sections make each function one atomic step. *)
From Stdlib Require Import ZifyBool.
From S2P Require ProtoBase Upgrade.
From S2P Require Import Prelude Ring Agent Serial.

(** ** The channel manager *)

Inductive send_fn : Set := pc_send_wrapper_fn | tcp_server_send_wrapper_fn | null_fn.

(** [channels]: [None] for the null pointer. *)
Record comm_group_t := mk_group { group_name : string; channels : option (list Z); channel_count : Z; send_func : send_fn }.
Record comm_manager_t := mk_mgr { groups : option (list comm_group_t); group_count : Z }.
Definition no_groups : comm_manager_t := mk_mgr None 0.

(** A negative index is not refused: [None]. *)
Definition group_at (m : comm_manager_t) (group_idx : Z) : option comm_group_t :=
  l ← groups m; ld l group_idx.
Definition set_group (m : comm_manager_t) (group_idx : Z) (g : comm_group_t) : option comm_manager_t :=
  l ← groups m; l ← st l group_idx g; Some (mk_mgr (Some l) (group_count m)).

Definition comm_group_create (take_ alloc : bool) (name : string) (f : send_fn) (m : comm_manager_t) : comm_manager_t * Z :=
  if negb (take_ && alloc) then (m, -1)
  else
    let old := match groups m with Some l => take (Z.to_nat (group_count m)) l | None => [] end in
    (mk_mgr (Some (old ++ [mk_group name None 0 f])) (group_count m + 1), group_count m).

Definition comm_channel_add (take_ alloc : bool) (group_idx port_id : Z) (m : comm_manager_t) : option (comm_manager_t * Z) :=
  if group_idx >=? group_count m then Some (m, -1)
  else if negb take_ then Some (m, -1)
  else
    g ← group_at m group_idx;
    if negb alloc then Some (m, -1)
    else
      let old := match channels g with Some l => take (Z.to_nat (channel_count g)) l | None => [] end in
      m ← set_group m group_idx (mk_group (group_name g) (Some (old ++ [port_id])) (channel_count g + 1) (send_func g));
      Some (m, port_id).

(** The first channel with this port among [n]. *)
Fixpoint port_index (n : nat) (l : list Z) (port_id : Z) : option (option nat) :=
  match n with
  | O => Some None
  | S n => match l with
           | [] => None
           | p :: l => if p =? port_id then Some (Some O) else r ← port_index n l port_id; Some (option_map S r)
           end
  end.
Definition group_ports (g : comm_group_t) : list Z := default [] (channels g).

(** [for (i = index; i < count - 1; i++) channels[i] = channels[i + 1]] *)
Definition shift_channels (l : list Z) (index : nat) (count : Z) : option (list Z) :=
  for_loop (fun i l => x ← l !! S i; Some (<[i := x]> l)) index (Z.to_nat (count - 1 - Z.of_nat index)) l.

Definition comm_channel_remove (take_ alloc : bool) (group_idx port_id : Z) (m : comm_manager_t) : option (comm_manager_t * Z) :=
  if group_idx >=? group_count m then Some (m, -1)
  else if negb take_ then Some (m, -1)
  else
    g ← group_at m group_idx;
    r ← port_index (Z.to_nat (channel_count g)) (group_ports g) port_id;
    match r with
    | None => Some (m, -1)
    | Some index =>
        l ← shift_channels (group_ports g) index (channel_count g);
        let n := channel_count g - 1 in
        let l := if n =? 0 then None else Some (if alloc then take (Z.to_nat n) l else l) in
        m ← set_group m group_idx (mk_group (group_name g) l n (send_func g));
        Some (m, 0)
    end.

(** Names are compared with [strcmp]. *)
Definition comm_group_find (name : string) (m : comm_manager_t) : Z :=
  match list_find (fun g => group_name g = name) (take (Z.to_nat (group_count m)) (default [] (groups m))) with
  | Some (i, _) => Z.of_nat i
  | None => -1
  end.

(** ** Sending *)

Class NetSend (N : Type) := { tcp_send : Z -> list Z -> Z -> N -> option N }.

Section Comm.
Context {N : Type} `{!NetSend N}.

(** The descriptor of the port and the network side. *)
Record io := mk_io { com : com_desc_t; net : N }.

Definition pc_send (port : Z) (data : list Z) (len : Z) (s : io) : option io :=
  r ← com_send port data len (com s); Some (mk_io (fst r) (net s)).
Definition pc_send_wrapper (channel_idx : Z) (data : list Z) (len : Z) (s : io) : option io :=
  if len <=? 0 then Some s else pc_send channel_idx data len s.
Definition tcp_server_send_wrapper (channel_idx : Z) (data : list Z) (len : Z) (s : io) : option io :=
  if len <=? 0 then Some s else n ← tcp_send channel_idx data len (net s); Some (mk_io (com s) n).
Definition call_send (f : send_fn) : Z -> list Z -> Z -> io -> option io :=
  match f with
  | pc_send_wrapper_fn => pc_send_wrapper
  | tcp_server_send_wrapper_fn => tcp_server_send_wrapper
  | null_fn => fun _ _ _ _ => None
  end.

(** The [while (len > 0)]; every pass sends, so [len] passes are enough. *)
Fixpoint chunk_loop (fuel : nat) (f : Z -> list Z -> Z -> io -> option io) (channel_idx : Z) (buf : list Z) (len : Z) (s : io) : option io :=
  if len <=? 0 then Some s
  else match fuel with
  | O => None
  | S fuel =>
      let chunk := if len >? 1056 then 1056 else len in
      s ← f channel_idx buf chunk s;
      chunk_loop fuel f channel_idx (drop (Z.to_nat chunk) buf) (len - chunk) s
  end.

Definition comm_send_chunk (m : comm_manager_t) (group_idx channel_idx : Z) (data : list Z) (len : Z) (s : io) : option io :=
  if group_idx >=? group_count m then Some s
  else
    g ← group_at m group_idx;
    if match send_func g, channels g with null_fn, _ => true | _, None => true | _, _ => channel_count g =? 0 end then Some s
    else
      r ← port_index (Z.to_nat (channel_count g)) (group_ports g) channel_idx;
      match r with
      | None => Some s
      | Some _ => chunk_loop (Z.to_nat len) (call_send (send_func g)) channel_idx data len s
      end.

(** ** Dispatch *)

(** The protocols: input, its length, output, [*outlen]; the binary one gets
    the port, the character one whether the command came over the network;
    [up_status] is [fw_info.status]. *)
Class Protocols (W : Type) := {
  run_base : list Z -> Z -> list Z -> Z -> Z -> W -> option (list Z * Z * W);
  run_char : list Z -> Z -> list Z -> Z -> bool -> W -> option (list Z * Z * W);
  up_status : W -> Z }.

Context {W : Type} `{!Protocols W}.

Record comm_port_t := mk_port { group_idx : Z; channel_idx : Z }.
Record comm_t := mk_comm { comm_mgr : comm_manager_t; uart_group : Z; tcp_group : Z; dev : io; world : W }.
Definition with_dev (s : io) (c : comm_t) : comm_t := mk_comm (comm_mgr c) (uart_group c) (tcp_group c) s (world c).
Definition with_world (w : W) (c : comm_t) : comm_t := mk_comm (comm_mgr c) (uart_group c) (tcp_group c) (dev c) w.

(** Which protocol answers. *)
Definition run_protocol (rx tx : list Z) (rx_len tx_len : Z) (port : comm_port_t) (c : comm_t) : option (list Z * Z * W) :=
  b ← rx !! 0%nat;
  if (b =? ProtoBase.PROT_SOP) && (9 <=? u32 rx_len) then
    run_base rx rx_len tx tx_len (group_idx port * 256 + channel_idx port) (world c)
  else if negb (up_status (world c) =? Upgrade.UG_STATE_TRANS) then
    run_char rx rx_len tx tx_len (group_idx port =? tcp_group c) (world c)
  else Some (tx, tx_len, world c).

(** Result: the state, [tx_buff] (of which [mem_set] clears the four bytes
    of a pointer) and [*tx_len]. *)
Definition proto_process (rx tx : list Z) (rx_len tx_len : Z) (port : comm_port_t) (c : comm_t) : option (comm_t * list Z * Z) :=
  r ← run_protocol rx tx rx_len tx_len port c;
  let '(tx, tx_len, w) := r in
  let c := with_world w c in
  if 0 <? tx_len then
    s ← (if group_idx port =? uart_group c then
           comm_send_chunk (comm_mgr c) (group_idx port) (channel_idx port) tx tx_len (dev c)
         else if group_idx port =? tcp_group c then
           n ← tcp_send (channel_idx port) tx tx_len (net (dev c)); Some (mk_io (com (dev c)) n)
         else Some (dev c));
    Some (with_dev s c, put 0 [0; 0; 0; 0] tx, 0)
  else Some (c, tx, tx_len).

(** ** pc.c *)

Definition PC_COM : Z := COM2.
Definition PC_MIN_LEN : Z := 2.
Definition PC_MAX_LEN : Z := 1056.
Definition PC_BUFFER : nat := 1056.
(** The address of [pc_rx_packet_task] and of [pc_port] as the agent sees them. *)
Definition pc_rx_packet_task_fn : Z := 1.
Definition pc_port_arg : Z := 1.

Record pc_t := mk_pc { pc_rx_buffer : list Z; pc_tx_buffer : list Z; pc_port : comm_port_t; comm : comm_t }.

(** The receive call back, in the interrupt: the queue is the agent's
    [AGENT_PRIO_HI]. *)
Definition pc_on_rx_data (d : com_desc_t) (q : agent_queue_t) : option (com_desc_t * agent_queue_t) :=
  let '(d, ret) := com_filter_recv PC_COM PC_MIN_LEN PC_MAX_LEN d in
  if ret =? 0 then r ← agent_post q pc_rx_packet_task_fn pc_port_arg; Some (d, fst r)
  else Some (d, q).

Definition with_com (d : com_desc_t) (c : comm_t) : comm_t := with_dev (mk_io d (net (dev c))) c.

Definition pc_rx_packet_task (s : pc_t) : option pc_t :=
  r ← com_recv (channel_idx (pc_port s)) (pc_rx_buffer s) (Z.of_nat PC_BUFFER) (com (dev (comm s)));
  let '(d, rx, rx_len) := r in
  let c := with_com d (comm s) in
  if (rx_len <=? 1) || (1056 <? rx_len) then Some (mk_pc rx (pc_tx_buffer s) (pc_port s) c)
  else
    r ← proto_process rx (pc_tx_buffer s) rx_len 0 (pc_port s) c;
    let '(c, tx, _) := r in
    Some (mk_pc (replicate PC_BUFFER 0) tx (pc_port s) c).

(** [valid]: [is_valid_baudrate]; result: the port, the descriptor and the
    baud rate. *)
Definition pc_init (valid : Z -> bool) (baudrate mode_ : Z) (uart_group_ : Z) (d : com_desc_t) : comm_port_t * com_desc_t * Z :=
  let baudrate := if negb (valid baudrate) then 115200 else baudrate in
  (mk_port (uart_group_ mod 256) PC_COM,
   com_enable_recv PC_COM (com_init (mk_config PC_COM (Z.lor COM_RECV_DMA COM_SEND_DMA) mode_) d), baudrate).

(** [comm_init]: the manager and the two group indices ([pc_init] runs
    before, with the old [uart_group]); [a1] to [a3]: the allocations. *)
Definition comm_init (mutex a1 a2 a3 : bool) (old_uart old_tcp : Z) : option (comm_manager_t * Z * Z) :=
  if negb mutex then Some (no_groups, old_uart, old_tcp)
  else
    let '(m, uart) := comm_group_create true a1 "UART" pc_send_wrapper_fn no_groups in
    r ← comm_channel_add true a2 uart COM2 m;
    let '(m, tcp) := comm_group_create true a3 "TCP" tcp_server_send_wrapper_fn (fst r) in
    Some (m, uart, tcp).
End Comm.

(** * The channel manager refines a list of port lists *)

Definition ports (g : comm_group_t) : list Z := take (Z.to_nat (channel_count g)) (group_ports g).
Definition group_ok (g : comm_group_t) : Prop :=
  match channels g with None => channel_count g = 0 | Some l => 0 < channel_count g <= zlen l end.
Definition mgr_ok (m : comm_manager_t) : Prop :=
  match groups m with None => group_count m = 0 | Some l => group_count m = zlen l /\ Forall group_ok l end.
Definition view (m : comm_manager_t) : list (list Z) := map ports (default [] (groups m)).

Definition abs_create (ok : bool) (v : list (list Z)) : list (list Z) * Z := if ok then (v ++ [[]], zlen v) else (v, -1).
Definition abs_add (ok : bool) (i port_id : Z) (v : list (list Z)) : list (list Z) * Z :=
  match ld v i with
  | Some l => if ok then (<[Z.to_nat i := l ++ [port_id]]> v, port_id) else (v, -1)
  | None => (v, -1)
  end.
Fixpoint remove_first (x : Z) (l : list Z) : list Z :=
  match l with [] => [] | y :: l => if y =? x then l else y :: remove_first x l end.
Definition abs_remove (ok : bool) (i port_id : Z) (v : list (list Z)) : list (list Z) * Z :=
  match ld v i with
  | Some l => if ok && existsb (Z.eqb port_id) l then (<[Z.to_nat i := remove_first port_id l]> v, 0) else (v, -1)
  | None => (v, -1)
  end.

Lemma view_ld m i : mgr_ok m -> 0 <= i -> 
  (i < group_count m -> exists l g, groups m = Some l /\ group_at m i = Some g /\ ld l i = Some g /\ group_ok g /\ ld (view m) i = Some (ports g)) /\
  (group_count m <= i -> ld (view m) i = None).
Proof.
  unfold mgr_ok, view, group_at. intros Hm Hi. destruct (groups m) as [l|]; cbn [default from_option id mbind option_bind].
  - destruct Hm as [-> Hl]. split; intros H.
    + destruct (proj2 (ld_is_Some l i)) as [g Hg]; [lia|]. exists l, g. rewrite Hg. split; [done|]. split; [done|]. split; [done|].
      pose proof Hg as [_ Hg']%ld_Some_iff. split; [by eapply (Forall_lookup_1 _ _ _ _ Hl)|].
      apply ld_Some_iff. split; [done|]. by rewrite list_lookup_fmap, Hg'.
    + apply ld_None_ge. by rewrite length_map.
  - split; intros H; [lia|]. apply ld_None_ge. cbn. lia.
Qed.

Lemma set_group_view m i g l g' : mgr_ok m -> groups m = Some l -> ld l i = Some g -> group_ok g' ->
  exists m', set_group m i g' = Some m' /\ mgr_ok m' /\ view m' = <[Z.to_nat i := ports g']> (view m).
Proof.
  unfold mgr_ok, view, set_group. intros Hm E Hg Hg'. rewrite E in *. destruct Hm as [Hc Hl].
  assert (0 <= i < zlen l) by (apply ld_is_Some; eauto). cbn [mbind option_bind]. rewrite st_Some by done. cbn [mbind option_bind].
  eexists. split; [done|]. cbn [groups group_count default from_option id].
  split; [by rewrite length_insert; split; [|apply Forall_insert]|]. by rewrite list_fmap_insert.
Qed.

Lemma port_index_spec n l port_id : (n <= length l)%nat ->
  match port_index n l port_id with
  | Some None => existsb (Z.eqb port_id) (take n l) = false
  | Some (Some i) => (i < n)%nat /\ existsb (Z.eqb port_id) (take n l) = true /\
      remove_first port_id (take n l) = take i l ++ drop (S i) (take n l)
  | None => False
  end.
Proof.
  revert l. induction n as [|n IH]; intros l Hn; [done|]. destruct l as [|p l]; [cbn in Hn; lia|]. cbn [port_index take existsb remove_first].
  rewrite (Z.eqb_sym port_id p). destruct (Z.eqb_spec p port_id) as [->|Hne].
  - split; [lia|]. split; [done|]. by destruct l.
  - specialize (IH l ltac:(cbn in Hn; lia)). destruct (port_index n l port_id) as [[i|]|]; cbn; [|done|done].
    destruct IH as (Hi & -> & ->). split; [lia|]. split; [done|]. done.
Qed.

Lemma shift_channels_spec l i c : 0 <= Z.of_nat i < c -> c <= zlen l ->
  exists l', shift_channels l i c = Some l' /\ length l' = length l /\
    take (Z.to_nat (c - 1)) l' = take i l ++ drop (S i) (take (Z.to_nat c) l).
Proof.
  intros Hi Hc. unfold shift_channels. destruct (for_loop_ind (fun k l' => length l' = length l /\
      forall j, l' !! j = if decide (i <= j < k)%nat then l !! S j else l !! j)
    (fun i l => x ← l !! S i; Some (<[i := x]> l)) (Z.to_nat (c - 1 - Z.of_nat i)) i l) as (l' & E & Hlen & Hl').
  - split; [done|]. intros j. by rewrite decide_False by lia.
  - intros k l' Hk (Hlen & Hl'). destruct (lookup_lt_is_Some_2 l (S k)) as [x Hx]; [lia|].
    rewrite (Hl' (S k)), decide_False, Hx by lia. cbn [mbind option_bind]. eexists. split; [done|]. split; [by rewrite length_insert|].
    intros j. destruct (decide (j = k)) as [->|Hne].
    + rewrite list_lookup_insert_eq by lia. by rewrite decide_True by lia.
    + rewrite list_lookup_insert_ne by done. rewrite Hl'. repeat case_decide; lia || done.
  - exists l'. split; [done|]. split; [done|]. apply list_eq. intros j.
    destruct (decide (j < Z.to_nat (c - 1))%nat) as [L|L].
    + rewrite lookup_take_lt, Hl' by done. destruct (decide (j < i)%nat).
      * rewrite decide_False, lookup_app_l, lookup_take_lt by (rewrite ?length_take; lia). done.
      * rewrite decide_True, lookup_app_r, length_take, Nat.min_l, lookup_drop, lookup_take_lt by (rewrite ?length_take; lia).
        f_equal. lia.
    + rewrite !lookup_ge_None_2; [done| |rewrite length_take; lia]. rewrite length_app, length_drop, !length_take. lia.
Qed.

Lemma ports_ok g : group_ok g -> (Z.to_nat (channel_count g) <= length (group_ports g))%nat /\ 0 <= channel_count g.
Proof. unfold group_ok, group_ports. destruct (channels g); cbn; lia. Qed.

Lemma create_refines ok1 ok2 name f m : mgr_ok m ->
  let r := comm_group_create ok1 ok2 name f m in mgr_ok (fst r) /\ (view (fst r), snd r) = abs_create (ok1 && ok2) (view m).
Proof.
  intros Hm r. unfold r, comm_group_create, abs_create. destruct (ok1 && ok2); cbn [negb]; [|done].
  unfold mgr_ok, view in *. cbn [fst snd groups group_count default from_option id]. destruct (groups m) as [l|]; cbn [default from_option id].
  - destruct Hm as [-> Hl]. rewrite Nat2Z.id, firstn_all. split.
    + split; [rewrite length_app; cbn; lia|]. apply Forall_app; split; [done|]. by repeat constructor.
    + by rewrite map_app, length_map.
  - rewrite Hm. split; [split; [done|by repeat constructor]|done].
Qed.

Lemma add_refines ok1 ok2 i port_id m : mgr_ok m -> 0 <= i ->
  exists m' r, comm_channel_add ok1 ok2 i port_id m = Some (m', r) /\ mgr_ok m' /\
    (view m', r) = abs_add (ok1 && ok2) i port_id (view m).
Proof.
  intros Hm Hi. destruct (view_ld m i Hm Hi) as [Hin Hout]. unfold comm_channel_add, abs_add.
  destruct (Z.geb_spec i (group_count m)); [rewrite (Hout H); by exists m, (-1)|].
  destruct (Hin H) as (l & g & Eg & Ega & Hg & Hok & Hv). rewrite Hv, Ega. destruct ok1; cbn [negb andb]; [|by exists m, (-1)].
  cbn [mbind option_bind]. destruct ok2; cbn [negb]; [|by exists m, (-1)].
  replace (match channels g with Some l0 => _ | None => _ end) with (ports g)
    by (unfold ports, group_ports; destruct (channels g); cbn; by rewrite ?take_nil).
  destruct (ports_ok g Hok) as [Hl H0]. assert (Hpl : zlen (ports g) = channel_count g) by (unfold ports; rewrite length_take; lia).
  destruct (set_group_view m i g l (mk_group (group_name g) (Some (ports g ++ [port_id])) (channel_count g + 1) (send_func g)) Hm Eg Hg)
    as (m' & -> & Hm' & Hv'); [unfold group_ok; cbn; rewrite length_app; cbn; lia|].
  cbn [mbind option_bind]. exists m', port_id. split; [done|]. split; [done|]. rewrite Hv'. unfold ports at 1, group_ports. cbn.
  by rewrite take_ge by (rewrite length_app; cbn; lia).
Qed.

Lemma remove_refines ok alloc i port_id m : mgr_ok m -> 0 <= i ->
  exists m' r, comm_channel_remove ok alloc i port_id m = Some (m', r) /\ mgr_ok m' /\
    (view m', r) = abs_remove ok i port_id (view m).
Proof.
  intros Hm Hi. destruct (view_ld m i Hm Hi) as [Hin Hout]. unfold comm_channel_remove, abs_remove.
  destruct (Z.geb_spec i (group_count m)); [rewrite (Hout H); by exists m, (-1)|].
  destruct (Hin H) as (l & g & Eg & Ega & Hg & Hok & Hv). rewrite Hv, Ega. destruct ok; cbn [negb andb]; [|by exists m, (-1)].
  cbn [mbind option_bind]. destruct (ports_ok g Hok) as [Hl H0].
  pose proof (port_index_spec _ _ port_id Hl) as Hp. fold (ports g) in Hp.
  destruct (port_index _ _ _) as [[k|]|]; cbn [mbind option_bind]; [|rewrite Hp; by exists m, (-1)|done].
  destruct Hp as (Hk & -> & Hrm). destruct (shift_channels_spec (group_ports g) k (channel_count g)) as (l' & -> & Hll & Ht); [lia|lia|].
  cbn [mbind option_bind]. set (n := channel_count g - 1) in *. set (l2 := if n =? 0 then _ else _).
  assert (Hg2 : group_ok (mk_group (group_name g) l2 n (send_func g)) /\
                ports (mk_group (group_name g) l2 n (send_func g)) = take (Z.to_nat n) l').
  { unfold l2, group_ok, ports, group_ports. cbn. destruct (Z.eqb_spec n 0) as [->|]; cbn; [done|].
    destruct alloc; cbn; rewrite ?length_take, ?take_take, ?Nat.min_id; split; lia || done. }
  destruct Hg2 as [Hg2 Hp2]. destruct (set_group_view m i g l _ Hm Eg Hg Hg2) as (m' & -> & Hm' & Hv').
  exists m', 0. split; [done|]. split; [done|]. rewrite Hv', Hp2, Ht.
  by rewrite Hrm.
Qed.

(** The channel manager, over every outcome of its allocations, is a list
    of groups, each a list of ports: creating appends an empty group, adding
    appends a port (the same port may be there twice), removing takes out its
    first occurrence, even when the array cannot be shrunk; a failed call and
    an index behind the last group change nothing and return -1. *)
Theorem manager_refines m : mgr_ok m -> forall ok1 ok2 name f i port_id, 0 <= i ->
  (let r := comm_group_create ok1 ok2 name f m in
     mgr_ok (fst r) /\ (view (fst r), snd r) = abs_create (ok1 && ok2) (view m)) /\
  (exists m' r, comm_channel_add ok1 ok2 i port_id m = Some (m', r) /\ mgr_ok m' /\
     (view m', r) = abs_add (ok1 && ok2) i port_id (view m)) /\
  (exists m' r, comm_channel_remove ok1 ok2 i port_id m = Some (m', r) /\ mgr_ok m' /\
     (view m', r) = abs_remove ok1 i port_id (view m)).
Proof. intros Hm **. split; [by apply create_refines|]. split; [by apply add_refines|by apply remove_refines]. Qed.

(** * From the line to the reply *)

Section Path.
Context {N W : Type} `{!NetSend N} `{!Protocols W}.
Implicit Types (s : pc_t (N := N) (W := W)).

Definition pc_com (s : pc_t (N := N) (W := W)) : com_desc_t := com (dev (comm s)).
Definition set_com (d : com_desc_t) (s : pc_t (N := N) (W := W)) : pc_t :=
  mk_pc (pc_rx_buffer s) (pc_tx_buffer s) (pc_port s) (with_com d (comm s)).

(** Initialised, nothing half received and nothing being sent. *)
Definition pc_ready (s : pc_t (N := N) (W := W)) : Prop :=
  rx_ready (pc_com s) /\ capacity (rx_fifo (pc_com s)) = 1056 /\
  tx_idle (pc_com s) /\ capacity (tx_fifo (pc_com s)) = 768 /\
  pc_rx_buffer s = replicate PC_BUFFER 0 /\ channel_idx (pc_port s) = COM2 /\ group_idx (pc_port s) = uart_group (comm s) /\
  mgr_ok (comm_mgr (comm s)) /\ 0 <= uart_group (comm s) < group_count (comm_mgr (comm s)) /\
  exists g, group_at (comm_mgr (comm s)) (uart_group (comm s)) = Some g /\ send_func g = pc_send_wrapper_fn /\ In COM2 (ports g).

Lemma send_uart (m : comm_manager_t) i g data len (x : io (N := N)) : mgr_ok m -> 0 <= i < group_count m -> group_at m i = Some g ->
  send_func g = pc_send_wrapper_fn -> In COM2 (ports g) -> 0 < len <= 1056 ->
  comm_send_chunk m i COM2 data len x = pc_send COM2 data len x.
Proof.
  intros Hm Hi Hg Hf Hin Hlen. unfold comm_send_chunk. rewrite Z.geb_leb, (proj2 (Z.leb_gt _ _)) by lia. rewrite Hg. cbn [mbind option_bind].
  destruct (proj1 (view_ld m i Hm ltac:(lia))) as (l & g' & _ & Eg & _ & Hok & _); [lia|]. rewrite Hg in Eg. injection Eg as <-.
  destruct (ports_ok g Hok) as [Hpl H0]. rewrite Hf.
  destruct (channels g) as [c|] eqn:Ec.
  2:{ exfalso. revert Hin. unfold ports, group_ports. rewrite Ec. cbn. rewrite take_nil. intros []. }
  unfold group_ok in Hok. rewrite Ec in Hok. rewrite (proj2 (Z.eqb_neq _ _)) by lia.
  pose proof (port_index_spec _ _ COM2 Hpl) as Hp. destruct (port_index _ _ _) as [[k|]|]; [|exfalso|done].
  - cbn [mbind option_bind call_send]. destruct (Z.to_nat len) eqn:En; [lia|]. cbn [chunk_loop].
    rewrite (proj2 (Z.leb_gt _ _)) by lia. rewrite Z.gtb_ltb, (proj2 (Z.ltb_ge _ _)) by lia.
    unfold pc_send_wrapper. rewrite (proj2 (Z.leb_gt _ _)) by lia. destruct (pc_send _ _ _ _); [|done]. cbn [mbind option_bind].
    rewrite Z.sub_diag. by destruct n.
  - fold (ports g) in Hp. assert (existsb (Z.eqb COM2) (ports g) = true) by (apply existsb_exists; by exists COM2). congruence.
Qed.

(** The reply leaves through the port, up to the size of the FIFO. *)
Lemma proto_process_replies rx tx rx_len s tx' n w' : pc_ready s -> 
  run_protocol rx tx rx_len 0 (pc_port s) (comm s) = Some (tx', n, w') -> 0 <= n <= 1056 -> n <= zlen tx' ->
  exists c', proto_process rx tx rx_len 0 (pc_port s) (comm s) = Some (c', if 0 <? n then put 0 [0; 0; 0; 0] tx' else tx', if 0 <? n then 0 else n) /\
    world c' = w' /\ comm_mgr c' = comm_mgr (comm s) /\ uart_group c' = uart_group (comm s) /\ tcp_group c' = tcp_group (comm s) /\ rx_same (pc_com s) (com (dev c')) /\
    forall d1, star tx_step (com (dev c')) d1 -> exists d2, star tx_step d1 d2 /\ tx_idle d2 /\
      wire (usart d2) = wire (usart (pc_com s)) ++ take (Z.to_nat (Z.min n 768)) tx'.
Proof.
  intros (_ & _ & Htx & Hcap & _ & Hch & Hgi & Hm & Hu & g & Hg & Hf & Hin) E Hn Hl. unfold proto_process. rewrite E. cbn [mbind option_bind].
  destruct (Z.ltb_spec 0 n) as [L|L].
  - rewrite Hgi. cbn [with_world uart_group comm_mgr dev]. rewrite Z.eqb_refl, Hch.
    rewrite (send_uart _ _ _ _ _ _ Hm Hu Hg Hf Hin) by lia. unfold pc_send.
    destruct (com_send_rest tx' n (pc_com s) Htx) as (d' & Es & Hsame & Hrun); [lia|]. rewrite Hcap in Hrun.
    replace (com (dev (comm s))) with (pc_com s) by done. rewrite Es. cbn [mbind option_bind fst].
    eexists. split; [done|]. cbn. repeat (split; [done|]). intros d1 Hs. by apply Hrun.
  - replace n with 0 in * by lia. eexists. split; [done|]. cbn. repeat (split; [done|]).
    intros d1 Hs. destruct (tx_run_state _ _ Hs [] (or_introl (conj Htx eq_refl))) as (a & r & Ha & Hr & Hw).
    symmetry in Ha. apply app_eq_nil in Ha as [-> ->]. destruct (tx_drains _ d1 [] (le_n _) Hr) as (d2 & H1 & H2 & H3).
    exists d2. split; [done|]. split; [done|]. rewrite H3, Hw. by rewrite app_nil_r.
Qed.

Lemma post_queues q calls f a : queue_holds q calls -> zlen calls < AGENT_QUEUE_SIZE ->
  exists q' r, agent_post q f a = Some (q', r) /\ queue_holds q' (calls ++ [mk_func f a]).
Proof.
  intros Hq Hl. unfold agent_post. destruct (queue_insert_spec q calls f a Hq) as [[E _]|(_ & q1 & -> & Hq1 & _)]; [lia|].
  cbn [mbind option_bind]. unfold agent_give. destruct (_ <? _); eauto.
Qed.

Lemma filter_accepts d q calls : 2 <= rx_len d <= 1056 -> queue_holds q calls -> zlen calls < AGENT_QUEUE_SIZE ->
  exists q', pc_on_rx_data d q = Some (d, q') /\ queue_holds q' (calls ++ [mk_func pc_rx_packet_task_fn pc_port_arg]).
Proof.
  intros Hl Hq Hc. unfold pc_on_rx_data, com_filter_recv.
  change (port_ok PC_COM) with true. change ((PC_MIN_LEN <? 0) || (PC_MAX_LEN <? PC_MIN_LEN)) with false. cbn [negb].
  unfold PC_MIN_LEN, PC_MAX_LEN. rewrite (proj2 (Z.ltb_ge _ _)), (proj2 (Z.ltb_ge 1056 _)) by lia. cbn [orb Z.eqb].
  destruct (post_queues q calls pc_rx_packet_task_fn pc_port_arg Hq Hc) as (q' & r & -> & Hq'). by exists q'.
Qed.

(** A request of 2 to 1055 bytes on the quiet port: the idle line posts one call
    to the agent, which hands the bytes to the protocol; the line then carries
    the first 768 bytes of the reply. *)
Lemma request_path s l i q calls tx' n w' : pc_ready s -> 2 <= zlen l <= 1055 -> rx_idle i = true ->
  queue_holds q calls -> zlen calls < AGENT_QUEUE_SIZE ->
  run_protocol (l ++ replicate (PC_BUFFER - length l) 0) (pc_tx_buffer s) (zlen l) 0 (pc_port s) (comm s) = Some (tx', n, w') ->
  0 <= n <= 1056 -> n <= zlen tx' ->
  exists d1 d2 q' s', rx_bytes l (pc_com s) = Some d1 /\ on_irq_all (Some pc_on_rx_data) i d1 q = Some (d2, q') /\
    queue_holds q' (calls ++ [mk_func pc_rx_packet_task_fn pc_port_arg]) /\
    pc_rx_packet_task (set_com d2 s) = Some s' /\ world (comm s') = w' /\
    pc_port s' = pc_port s /\ tcp_group (comm s') = tcp_group (comm s) /\ pc_tx_buffer s' = (if 0 <? n then put 0 [0; 0; 0; 0] tx' else tx') /\
    forall d3, star tx_step (pc_com s') d3 -> exists d4, star tx_step d3 d4 /\ pc_ready (set_com d4 s') /\
      wire (usart d4) = wire (usart (pc_com s)) ++ take (Z.to_nat (Z.min n 768)) tx'.
Proof.
  intros Hs Hl Hi Hq Hcalls Hrun Hn Hnl. pose proof Hs as (Hrx & Hcr & Htx & Hct & Hrb & Hch & Hg).
  pose proof Hrx as ((_ & _ & Hw) & Hrw & _ & Hcfg & Hie & Hrbn & Htbe & _).
  destruct (rx_bytes_stored l (pc_com s)) as (d1 & E1 & Hst); [by apply rx_ready_running|lia|]. exists d1.
  destruct (irq_idle_stored pc_on_rx_data i l _ d1 (rx_ready_running _ Hrx) Hcfg Hie Hrbn Htbe Hst Hi) as (b & u & Hlb & Hh & H1 & H2 & H3 & Hwi & Hirq).
  assert (Hfull : rx_full l (rx_seen l b u (pc_com s))) by (apply rx_seen_full; done || lia).
  destruct (filter_accepts (rx_seen l b u (pc_com s)) q calls) as (q' & Hcb & Hq');
    [destruct Hfull as (_ & _ & _ & _ & -> & _); lia|done..|].
  exists (rx_seen l b u (pc_com s)), q'. pose proof (Hirq q _ q' Hcb eq_refl) as E2.
  destruct (com_recv_full l _ (pc_rx_buffer s) (Z.of_nat PC_BUFFER) Hfull) as (d5 & E5 & Hrx5 & Hc5 & _ & Htf & Htd & Hu5 & Hd5);
    [rewrite Hrb, length_replicate; unfold PC_BUFFER; lia|]. rewrite Hrb, drop_replicate in E5.
  assert (Hs5 : pc_ready (set_com d5 s)).
  { split; [done|]. split; [by transitivity (capacity (rx_fifo (pc_com s)))|]. split; [|split; [|by split]].
    - destruct Htx as (Hf & Hcd & Hz). unfold tx_idle. cbn. by rewrite Htf, Htd, Hd5.
    - cbn. by rewrite Htf. }
  destruct (proto_process_replies (l ++ replicate (PC_BUFFER - length l) 0) (pc_tx_buffer s) (zlen l) (set_com d5 s) tx' n w' Hs5 Hrun Hn Hnl)
    as (c' & Ep & Hw' & Hm' & Hu' & Ht' & Hsame & Hout).
  exists (mk_pc (replicate PC_BUFFER 0) (if 0 <? n then put 0 [0; 0; 0; 0] tx' else tx') (pc_port s) c').
  split; [done|]. split; [done|]. split; [done|]. split.
  { unfold pc_rx_packet_task. cbn [set_com pc_port pc_rx_buffer pc_tx_buffer comm with_com with_dev dev com]. rewrite Hch, Hrb, E5. cbn [mbind option_bind].
    rewrite (proj2 (Z.leb_gt _ _)), (proj2 (Z.ltb_ge _ _)) by lia. cbn [orb].
    match goal with |- context [proto_process ?a ?b ?c ?d ?e ?f] =>
      change (proto_process a b c d e f) with (proto_process a b c d (pc_port s) (comm (set_com d5 s))) end.
    change (pc_port (set_com d5 s)) with (pc_port s) in Ep. by rewrite Ep. }
  do 4 (split; [done|]). intros d3 Hs3. destruct (Hout d3 Hs3) as (d4 & H4 & Hi4 & Hw4). exists d4. split; [done|]. split.
  - pose proof (rx_same_trans _ _ _ Hsame (tx_run_same _ _ (star_trans _ _ _ _ Hs3 H4))) as Hs4.
    split; [by eapply rx_ready_same|]. destruct Hs4 as (Hf4 & _ & _ & _ & _ & _ & _ & _ & Hcap4).
    split; [cbn; rewrite Hf4; apply Hs5|]. split; [done|]. split; [cbn; rewrite Hcap4; apply Hs5|].
    split; [done|]. split; [done|]. unfold group_idx, set_com, with_com. cbn. rewrite Hm', Hu'. exact Hg.
  - rewrite Hw4. f_equal. cbn. by rewrite Hu5.
Qed.

Lemma idle_stays d d' : tx_idle d -> star tx_step d d' -> d' = d.
Proof.
  intros Hi H. induction H as [|d d1 d2 H IH Hs]; [done|]. specialize (IH Hi) as ->. destruct Hi as (_ & _ & _ & Hon & Hfl).
  destruct Hs as [d0 d2 E|d0 d2 E _]; [unfold dma_step in E; by rewrite Hon in E|by rewrite Hfl in E].
Qed.

(** One request, from its first byte to the moment its reply is out. *)
Definition exchange (s : pc_t (N := N) (W := W)) (l : list Z) (s' : pc_t) : Prop :=
  exists i q d1 d2 q' s1 d3, rx_idle i = true /\ queue_holds q [] /\ rx_bytes l (pc_com s) = Some d1 /\
    on_irq_all (Some pc_on_rx_data) i d1 q = Some (d2, q') /\ queue_holds q' [mk_func pc_rx_packet_task_fn pc_port_arg] /\
    pc_rx_packet_task (set_com d2 s) = Some s1 /\ star tx_step (pc_com s1) d3 /\ tx_idle d3 /\ s' = set_com d3 s1.
Inductive exchanges : pc_t (N := N) (W := W) -> list (list Z) -> pc_t -> Prop :=
| exchanges_nil s : exchanges s [] s
| exchanges_cons s l s1 ls s2 : exchange s l s1 -> exchanges s1 ls s2 -> exchanges s (l :: ls) s2.

(** What the protocols make of the requests: the replies and the last state.
    [put] is the clearing of four bytes of the reply buffer. *)
Fixpoint served (port : comm_port_t) (tx : list Z) (c : comm_t (N := N) (W := W)) (ls : list (list Z)) : option (list (list Z) * W) :=
  match ls with
  | [] => Some ([], world c)
  | l :: ls =>
      r ← run_protocol (l ++ replicate (PC_BUFFER - length l) 0) tx (zlen l) 0 port c;
      let '(tx, n, w) := r in
      if (0 <=? n) && (n <=? 768) && (n <=? zlen tx) then
        r ← served port (if 0 <? n then put 0 [0; 0; 0; 0] tx else tx) (with_world w c) ls;
        Some (take (Z.to_nat n) tx :: fst r, snd r)
      else None
  end.

(** The part of the state that the protocols see. *)
Lemma run_protocol_com rx tx n0 n port (c c' : comm_t (N := N) (W := W)) : world c' = world c -> tcp_group c' = tcp_group c ->
  run_protocol rx tx n0 n port c' = run_protocol rx tx n0 n port c.
Proof. intros E1 E2. unfold run_protocol. by rewrite E1, E2. Qed.
Lemma served_com ls : forall port tx (c c' : comm_t (N := N) (W := W)), world c' = world c -> tcp_group c' = tcp_group c -> served port tx c' ls = served port tx c ls.
Proof.
  induction ls as [|l ls IH]; intros port tx c c' E1 E2; cbn [served]; [by rewrite E1|].
  rewrite (run_protocol_com _ _ _ _ _ c c' E1 E2). destruct (run_protocol _ _ _ _ _ _) as [[[tx1 n] w]|]; [|done]. cbn [mbind option_bind].
  by rewrite (IH port _ (with_world w c) (with_world w c') eq_refl E2).
Qed.

Lemma exchange_path s l tx' n w' : pc_ready s -> 2 <= zlen l <= 1055 ->
  run_protocol (l ++ replicate (PC_BUFFER - length l) 0) (pc_tx_buffer s) (zlen l) 0 (pc_port s) (comm s) = Some (tx', n, w') ->
  0 <= n <= 768 -> n <= zlen tx' ->
  (exists s', exchange s l s') /\
  forall s', exchange s l s' -> pc_ready s' /\ world (comm s') = w' /\ pc_port s' = pc_port s /\ tcp_group (comm s') = tcp_group (comm s) /\
    pc_tx_buffer s' = (if 0 <? n then put 0 [0; 0; 0; 0] tx' else tx') /\
    wire (usart (pc_com s')) = wire (usart (pc_com s)) ++ take (Z.to_nat n) tx'.
Proof.
  intros Hs Hl Hrun Hn Hnl. split.
  - destruct (request_path s l (mk_irq true true false 0 false) (agent_queue_init (replicate 32 idle_func)) [] tx' n w' Hs Hl eq_refl)
      as (d1 & d2 & q' & s1 & E1 & E2 & Hq' & E3 & _ & _ & _ & _ & Hout); try done; [by apply queue_holds_init|lia|].
    destruct (Hout _ (star_refl _ _)) as (d4 & H4 & (_ & _ & Hi4 & _) & _). exists (set_com d4 s1).
    exists (mk_irq true true false 0 false), (agent_queue_init (replicate 32 idle_func)), d1, d2, q', s1, d4.
    by repeat (split; [done || by apply queue_holds_init|]).
  - intros s' (i & q & d1 & d2 & q' & s1 & d3 & Hi & Hq & E1 & E2 & _ & E3 & H3 & Hi3 & ->).
    destruct (request_path s l i q [] tx' n w' Hs Hl Hi Hq) as (d1' & d2' & q'' & s1' & E1' & E2' & _ & E3' & Hw & Hp & Ht & Hb & Hout); try done; [lia|].
    rewrite E1 in E1'. injection E1' as <-. rewrite E2 in E2'. injection E2' as <- <-. rewrite E3 in E3'. injection E3' as <-.
    destruct (Hout d3 H3) as (d4 & H4 & Hr4 & Hw4). rewrite (idle_stays _ _ Hi3 H4) in Hr4, Hw4.
    rewrite Z.min_l in Hw4 by lia. by do 5 (split; [done|]).
Qed.

(** [C12] A conversation over the serial port.  The host sends requests of 2 to
    1055 bytes, each after the reply to the one before; whatever the timing of
    the DMA controller and whatever flags the interrupts find, the conversation
    can be completed, and completing it in any way puts on the line exactly the
    replies that the protocols give to the requests one after another (of up to
    768 bytes each), leaves the protocols in the state this takes them to and
    the port ready for the next request. *)
Theorem conversation ls : forall s outs w', pc_ready s -> Forall (fun l => 2 <= zlen l <= 1055) ls ->
  served (pc_port s) (pc_tx_buffer s) (comm s) ls = Some (outs, w') ->
  (exists s', exchanges s ls s') /\
  forall s', exchanges s ls s' -> pc_ready s' /\ world (comm s') = w' /\
    wire (usart (pc_com s')) = wire (usart (pc_com s)) ++ concat outs.
Proof.
  induction ls as [|l ls IH]; intros s outs w' Hs Hls Hserved; cbn [served] in Hserved.
  { injection Hserved as <- <-. split; [exists s; constructor|]. intros s' H. inversion H; subst. by rewrite app_nil_r. }
  apply Forall_cons in Hls as [Hl Hls]. destruct (run_protocol _ _ _ _ _ _) as [[[tx n] w]|] eqn:Er; [|done].
  cbn [mbind option_bind] in Hserved. destruct ((0 <=? n) && (n <=? 768) && (n <=? zlen tx)) eqn:Eb; [|done]. zify_bool.
  destruct (served _ _ _ _) as [[outs1 w1]|] eqn:Es; [|done]. cbn in Hserved. injection Hserved as <- <-.
  destruct (exchange_path s l tx n w Hs Hl Er) as [[s1 Hex] Hall]; [lia|lia|].
  assert (Hnext : forall s1, exchange s l s1 -> served (pc_port s1) (pc_tx_buffer s1) (comm s1) ls = Some (outs1, w1)).
  { intros s2 H2. destruct (Hall s2 H2) as (_ & Hw & -> & Ht & -> & _). rewrite <- Es. by apply served_com. }
  split.
  - destruct (Hall s1 Hex) as (Hr1 & _). destruct (IH s1 outs1 w1 Hr1 Hls (Hnext s1 Hex)) as [[s2 H2] _].
    exists s2. by econstructor.
  - intros s' Hx. inversion Hx as [|? ? s2 ? ? Hx1 Hx2]; subst. destruct (Hall s2 Hx1) as (Hr2 & _ & _ & _ & _ & Hw2).
    destruct (IH s2 outs1 w1 Hr2 Hls (Hnext s2 Hx1)) as [_ Hr]. destruct (Hr s' Hx2) as (Ha & Hb & Hc). split; [done|]. split; [done|].
    cbn [concat]. by rewrite Hc, Hw2, app_assoc.
Qed.
End Path.

(** ** The edges of the receive ring *)

Lemma filter_rejects d q : rx_len d < 2 -> 
  pc_on_rx_data d q = Some (with_rx (mk_fifo (buffer (rx_fifo d)) (write_idx (rx_fifo d)) (u16 (read_idx (rx_fifo d) + rx_len d))
     (u16 (Serial.count (rx_fifo d) - rx_len d)) (capacity (rx_fifo d))) (rx_dma d) 0 d, q).
Proof.
  intros Hr. unfold pc_on_rx_data, com_filter_recv.
  change (port_ok PC_COM) with true. change ((PC_MIN_LEN <? 0) || (PC_MAX_LEN <? PC_MIN_LEN)) with false. cbn [negb].
  unfold PC_MIN_LEN, PC_MAX_LEN. by rewrite (proj2 (Z.ltb_lt _ _)) by lia.
Qed.

(** What the two results below share: bytes arrive, the line goes idle, and the
    call back sees them. *)
Lemma arrival d l i q : rx_running d -> Z.land (dma_cfg d) COM_RECV_DMA <> 0 -> idleie (usart d) = true ->
  rbneie (usart d) = false -> tbeie (usart d) = false -> zlen l <= capacity (rx_fifo d) -> rx_idle i = true ->
  exists d1 b u, rx_bytes l d = Some d1 /\ length b = length (buffer (rx_fifo d)) /\
    idleie u = true /\ rbneie u = false /\ tbeie u = false /\
    forall d3 q', pc_on_rx_data (rx_seen l b u d) q = Some (d3, q') -> usart d3 = u ->
      on_irq_all (Some pc_on_rx_data) i d1 q = Some (d3, q').
Proof.
  intros Hr Hc Hie Hrb Htb Hl Hi. destruct (rx_bytes_stored l d Hr Hl) as (d1 & E & Hst).
  destruct (irq_idle_stored pc_on_rx_data i l d d1 Hr Hc Hie Hrb Htb Hst Hi) as (b & u & Hlb & _ & H1 & H2 & H3 & _ & H4).
  exists d1, b, u. repeat (split; [done|]). intros. by apply H4.
Qed.

Lemma full_packet_lost d i q l : rx_ready d -> capacity (rx_fifo d) = 1056 -> rx_idle i = true -> zlen l = 1056 ->
  exists d1 d2, rx_bytes l d = Some d1 /\ on_irq_all (Some pc_on_rx_data) i d1 q = Some (d2, q) /\ rx_ready d2.
Proof.
  intros Hd Hcap Hi Hl. pose proof (rx_ready_running d Hd) as Hrun.
  pose proof Hd as ((_ & Hlen & Hw & Hr) & Hrw & Hrl & Hcfg & Hie & Hrb & Htb & Hon & Hm & Ht & Hn). rewrite Hcap in *.
  destruct (arrival d l i q Hrun Hcfg Hie Hrb Htb) as (d1 & b & u & E & Hlb & H1 & H2 & H3 & H4); [lia|done|].
  assert (Hseen : rx_seen l b u d = with_usart u (with_rx (mk_fifo b (write_idx (rx_fifo d)) (read_idx (rx_fifo d)) 0 1056)
    (mk_dma true 0 (1056 - write_idx (rx_fifo d)) (d_flag (rx_dma d)) (d_irq (rx_dma d)) 1056) 0 d)).
  { unfold rx_seen. rewrite Hcap, Hl. replace ((write_idx (rx_fifo d) + 1056) mod 1056) with (write_idx (rx_fifo d)) by (clear - Hw; zdm).
    by replace (1056 + write_idx (rx_fifo d) - read_idx (rx_fifo d)) with 1056 by lia. }
  rewrite Hseen in H4. eexists d1, _. split; [done|]. split; [apply H4; [apply filter_rejects; cbn; lia|done]|].
  repeat split; cbn; (reflexivity || assumption || (rewrite ?u16_small; clear - Hw Hr Hrw Hlen Hlb; lia)).
Qed.

Lemma last_cell_skipped d i q b : rx_ready d -> capacity (rx_fifo d) = 1056 -> rx_idle i = true -> write_idx (rx_fifo d) = 1055 ->
  exists d1 d2 m, rx_bytes [b] d = Some d1 /\ on_irq_all (Some pc_on_rx_data) i d1 q = Some (d2, q) /\
    rx_running d2 /\ Z.land (dma_cfg d2) COM_RECV_DMA <> 0 /\ idleie (usart d2) = true /\ rbneie (usart d2) = false /\
    tbeie (usart d2) = false /\ rx_fifo d2 = mk_fifo m 0 1056 0 1056 /\ zlen m = 1056.
Proof.
  intros Hd Hcap Hi Hw1. pose proof (rx_ready_running d Hd) as Hrun.
  pose proof Hd as ((_ & Hlen & Hw & Hr) & Hrw & Hrl & Hcfg & Hie & Hrb & Htb & Hon & Hm & Ht & Hn). rewrite Hcap in *.
  destruct (arrival d [b] i q Hrun Hcfg Hie Hrb Htb) as (d1 & m & u & E & Hlb & H1 & H2 & H3 & H4); [cbn; lia|done|].
  assert (Hseen : rx_seen [b] m u d = with_usart u (with_rx (mk_fifo m 0 1055 1 1056)
    (mk_dma true 0 1056 (d_flag (rx_dma d)) (d_irq (rx_dma d)) 1056) 1 d)) by (unfold rx_seen; by rewrite Hcap, Hw1, Hrw, Hw1).
  rewrite Hseen in H4. rewrite (filter_rejects (with_usart _ _)) in H4 by done. specialize (H4 _ _ eq_refl eq_refl).
  eexists d1, _, m. split; [done|]. split; [exact H4|]. repeat split; cbn; (reflexivity || assumption || (clear - Hlen Hlb; lia)).
Qed.

(** [C14] The edges of the receive ring. A packet that fills the whole buffer,
    which [PC_MAX_LEN] admits, counts as no bytes: nothing is posted and it is
    gone. A single byte is skipped without reducing [read_idx]: if it lay in
    the last cell, the position leaves the buffer, and reading the next packet
    starts behind its end. *)
Theorem ring_edges d i q : rx_ready d -> capacity (rx_fifo d) = 1056 -> rx_idle i = true ->
  (forall l, zlen l = 1056 -> exists d1 d2, rx_bytes l d = Some d1 /\
     on_irq_all (Some pc_on_rx_data) i d1 q = Some (d2, q) /\ rx_ready d2) /\
  (write_idx (rx_fifo d) = 1055 -> forall b l calls, 2 <= zlen l <= 1055 -> queue_holds q calls -> zlen calls < AGENT_QUEUE_SIZE ->
     exists d1 d2 d3 d4 q', rx_bytes [b] d = Some d1 /\ on_irq_all (Some pc_on_rx_data) i d1 q = Some (d2, q) /\
       rx_bytes l d2 = Some d3 /\ on_irq_all (Some pc_on_rx_data) i d3 q = Some (d4, q') /\
       queue_holds q' (calls ++ [mk_func pc_rx_packet_task_fn pc_port_arg]) /\
       forall buff size, com_recv PC_COM buff size d4 = None).
Proof.
  intros Hd Hcap Hi. split; [intros l Hl; by apply full_packet_lost|]. intros Hw1 b l calls Hl Hq Hc.
  destruct (last_cell_skipped d i q b Hd Hcap Hi Hw1) as (d1 & d2 & m & E & Ei & Hrun & Hcfg & Hie & Hrb & Htb & Hf & Hlm).
  destruct (arrival d2 l i q Hrun Hcfg Hie Hrb Htb) as (d3 & m2 & u2 & E2 & Hlb2 & H1 & H2 & H3 & H4); [rewrite Hf; cbn; lia|done|].
  rewrite Hf in Hlb2. cbn in Hlb2. set (d4 := rx_seen l m2 u2 d2) in *.
  assert (Hd4 : rx_len d4 = zlen l /\ rx_fifo d4 = mk_fifo m2 (zlen l) 1056 (zlen l) 1056).
  { unfold d4, rx_seen. rewrite Hf. cbn [with_usart with_tx with_rx rx_fifo rx_len capacity write_idx read_idx].
    rewrite Z.add_0_l, Z.mod_small by lia. replace (1056 + zlen l - 1056) with (zlen l) by lia.
    by rewrite Z.rem_small, u16_small by lia. }
  destruct Hd4 as [Hlen4 Hf4]. destruct (filter_accepts d4 q calls) as (q' & Hcb & Hq'); [lia|done..|].
  exists d1, d2, d3, d4, q'. do 3 (split; [done|]). split; [by apply H4|]. split; [done|].
  intros buff size. unfold com_recv. change (port_ok PC_COM) with true. cbn [negb]. rewrite Hlen4, Hf4, (proj2 (Z.eqb_neq _ _)) by lia.
  cbn [Serial.count capacity]. destruct (Z.to_nat (zlen l)) eqn:En; [lia|]. cbn [for_loop].
  assert (Hp : forall f, buffer f = m2 -> read_idx f = 1056 -> pop_byte 0 (buff, f) = None).
  { intros f E1 E3. unfold pop_byte. by rewrite E1, E3, (ld_None_ge m2 1056) by lia. }
  by rewrite Hp.
Qed.

(** ** Instances *)

#[local] Instance net_log : NetSend (list (Z * list Z)) := {| tcp_send ch data len n := Some (n ++ [(ch, take (Z.to_nat len) data)]) |}.
(** Protocols that send a request back and count it. *)
Definition echo (rx : list Z) (rx_len : Z) (tx : list Z) (w : Z) : option (list Z * Z * Z) :=
  Some (put 0 (take (Z.to_nat rx_len) rx) tx, rx_len, w + 1).
#[local] Instance echo_protocols : Protocols Z := {|
  run_base rx rx_len tx _ _ w := echo rx rx_len tx w; run_char rx rx_len tx _ _ w := echo rx rx_len tx w; up_status _ := 0 |}.

Definition demo_mgr : comm_manager_t * Z * Z := match comm_init true true true true 0 0 with Some r => r | None => (no_groups, 0, 0) end.
Definition demo_comm : comm_t (N := list (Z * list Z)) (W := Z) :=
  mk_comm (fst (fst demo_mgr)) (snd (fst demo_mgr)) (snd demo_mgr) (mk_io demo_com []) 0.
Definition demo_pc : pc_t := mk_pc (replicate PC_BUFFER 0) (replicate PC_BUFFER 0) (mk_port 0 COM2) demo_comm.

Lemma demo_pc_ready : pc_ready demo_pc.
Proof.
  split; [apply demo_rx_ready|]. split; [apply demo_rx_ready|]. split; [exact demo_tx_idle|]. do 4 (split; [reflexivity|]).
  split; [split; [reflexivity|]; by repeat constructor|]. split; [by vm_compute|].
  eexists. split; [reflexivity|]. split; [reflexivity|]. left. reflexivity.
Qed.

Lemma conversation_witness :
  pc_ready demo_pc /\
  (exists s', exchanges demo_pc [[80; 61; 49]; [35; 2]] s') /\
  forall s', exchanges demo_pc [[80; 61; 49]; [35; 2]] s' -> world (comm s') = 2 /\ wire (usart (pc_com s')) = [80; 61; 49; 35; 2].
Proof.
  split; [exact demo_pc_ready|].
  destruct (conversation [[80; 61; 49]; [35; 2]] demo_pc [[80; 61; 49]; [35; 2]] 2 demo_pc_ready) as [H1 H2].
  - repeat constructor; discriminate.
  - vm_compute. reflexivity.
  - split; [exact H1|]. intros s' H. destruct (H2 s' H) as (_ & Hw & Hl). split; [exact Hw|exact Hl].
Defined.

(** The descriptor after 1055 bytes were received and taken out. *)
Definition last_cell : com_desc_t :=
  let f := rx_fifo demo_com in let x := rx_dma demo_com in
  with_rx (mk_fifo (buffer f) 1055 1055 0 1056) (mk_dma true 0 1 false (d_irq x) 1056) 0 demo_com.
Lemma last_cell_ready : rx_ready last_cell.
Proof. by vm_compute. Qed.

Lemma ring_edges_witness :
  rx_ready last_cell /\
  let q := agent_queue_init (replicate 32 idle_func) in
  (exists d1 d2, rx_bytes (replicate 1056 7) last_cell = Some d1 /\
     on_irq_all (Some pc_on_rx_data) (mk_irq false true false 0 false) d1 q = Some (d2, q) /\ rx_ready d2) /\
  exists d1 d2 d3 d4 q', rx_bytes [9] last_cell = Some d1 /\
    on_irq_all (Some pc_on_rx_data) (mk_irq false true false 0 false) d1 q = Some (d2, q) /\
    rx_bytes [80; 61; 49] d2 = Some d3 /\ on_irq_all (Some pc_on_rx_data) (mk_irq false true false 0 false) d3 q = Some (d4, q') /\
    queue_holds q' ([] ++ [mk_func pc_rx_packet_task_fn pc_port_arg]) /\ forall buff size, com_recv PC_COM buff size d4 = None.
Proof.
  split; [exact last_cell_ready|]. intros q.
  assert (Hq : queue_holds q []) by (apply queue_holds_init; reflexivity).
  destruct (ring_edges last_cell (mk_irq false true false 0 false) q last_cell_ready eq_refl eq_refl) as [H1 H2].
  split; [apply H1; reflexivity|].
  apply (H2 eq_refl 9 [80; 61; 49] []); [split; discriminate|exact Hq|reflexivity].
Defined.

(** Two groups; adding a port to one and removing it again. *)
Lemma manager_refines_witness :
  mgr_ok (fst (fst demo_mgr)) /\ view (fst (fst demo_mgr)) = [[0]; []] /\
  exists m' r, comm_channel_remove true false 0 0 (fst (fst demo_mgr)) = Some (m', r) /\ mgr_ok m' /\ (view m', r) = ([[]; []], 0).
Proof.
  assert (Hm : mgr_ok (fst (fst demo_mgr))) by (split; [reflexivity|]; by repeat constructor).
  split; [exact Hm|]. split; [reflexivity|].
  destruct (manager_refines _ Hm true false "" null_fn 0 0 ltac:(discriminate)) as (_ & _ & H). exact H.
Defined.

(** The first allocation fails: [comm_init] goes on with the index -1. *)
Example group_create_fails : comm_init true false true true 0 0 = None.
Proof. reflexivity. Qed.
