(* ===== verification/Tiag.v ===== *)
(** * tiag.c, measure.c: switching the gain of the transimpedance amplifiers

    Two spectral channels with three gains each; in automatic mode a gain
    changes after [cnt_thod] samples beyond a threshold.  The analogue switch of
    a channel is its three address pins. *)
From Stdlib Require Import ZifyBool.
From S2P Require Import Prelude CFloat.

Definition GAIN_L : Z := 0.
Definition GAIN_M : Z := 1.
Definition GAIN_H : Z := 2.
Definition GAIN_CNT : Z := 3.
Definition SENS_CH_SPEC_WB : Z := 0.
Definition SENS_CH_SPEC_NB : Z := 1.
Definition SENS_CH_SPEC_CNT : Z := 2.
Definition TIAG_AUTO_MODE : Z := 0.

Record gain_cnt_t := mk_cnt { up_gl : Z; up_gm : Z; down_gm : Z; down_gh : Z }.
Inductive gain_flag_t := UP_L | DOWN_M | UP_M | DOWN_H.

(** One channel: its counters, the pins A0 A1 A2, and [now_gain]. *)
Record chan := mk_chan { cnt : gain_cnt_t; pins : list bool; now_gain : Z }.

(** The parameters of a channel ([sys_para.gain]). *)
Record gain_para := mk_gain_para {
  upper : Z; lowerml : Z; lowerhm : Z; k_lm : spec_float; k_mh : spec_float; cnt_thod : Z }.

(** The pin levels of [gain_nb_low()] and the others; a low pin selects. *)
Definition gain_pins (ch gain : Z) : option (list bool) :=
  if ch =? SENS_CH_SPEC_NB then
    if gain =? GAIN_L then Some [false; true; true]
    else if gain =? GAIN_M then Some [true; false; true]
    else if gain =? GAIN_H then Some [true; true; false] else None
  else if ch =? SENS_CH_SPEC_WB then
    if gain =? GAIN_L then Some [true; true; false]
    else if gain =? GAIN_M then Some [true; false; true]
    else if gain =? GAIN_H then Some [false; true; true] else None
  else None.

Definition gain_set (ch gain : Z) (c : chan) : chan :=
  mk_chan (cnt c) (match gain_pins ch gain with Some p => p | None => pins c end) gain.

Definition gain_count_init : gain_cnt_t := mk_cnt 0 0 0 0.
(** Clears all counters but the one of the flag. *)
Definition gain_count_reset (flag : gain_flag_t) (c : gain_cnt_t) : gain_cnt_t :=
  match flag with
  | UP_L => mk_cnt (up_gl c) 0 0 0
  | DOWN_M => mk_cnt 0 0 (down_gm c) 0
  | UP_M => mk_cnt 0 (up_gm c) 0 0
  | DOWN_H => mk_cnt 0 0 0 (down_gh c)
  end.

(** Comparison of a [uint32_t] with a [double]. *)
Definition volt_below (volt lower : Z) (k : spec_float) : bool := f_lt (f64_of_Z volt) (f64_div (f64_of_Z lower) k).

Definition set_cnt (k : gain_cnt_t) (c : chan) : chan := mk_chan k (pins c) (now_gain c).

Definition tiag_auto_switch (p : gain_para) (ch volt gain : Z) (c : chan) : chan :=
  if SENS_CH_SPEC_CNT <=? ch then c
  else if GAIN_CNT <=? gain then c
  else
    let k := cnt c in
    if gain =? GAIN_L then
      if upper p <? volt then
        let k := gain_count_reset UP_L (mk_cnt (u32 (up_gl k + 1)) (up_gm k) (down_gm k) (down_gh k)) in
        if cnt_thod p <=? up_gl k then
          gain_set ch GAIN_M (set_cnt (mk_cnt 0 (up_gm k) (down_gm k) (down_gh k)) c)
        else set_cnt k c
      else c
    else if gain =? GAIN_M then
      if upper p <? volt then
        let k := gain_count_reset UP_M (mk_cnt (up_gl k) (u32 (up_gm k + 1)) (down_gm k) (down_gh k)) in
        if cnt_thod p <=? up_gm k then
          gain_set ch GAIN_H (set_cnt (mk_cnt (up_gl k) 0 (down_gm k) (down_gh k)) c)
        else set_cnt k c
      else if volt_below volt (lowerml p) (k_lm p) then
        let k := gain_count_reset DOWN_M (mk_cnt (up_gl k) (up_gm k) (u32 (down_gm k + 1)) (down_gh k)) in
        if cnt_thod p <=? down_gm k then
          gain_set ch GAIN_L (set_cnt (mk_cnt (up_gl k) (up_gm k) 0 (down_gh k)) c)
        else set_cnt k c
      else c
    else if gain =? GAIN_H then
      if volt_below volt (lowerhm p) (k_mh p) then
        let k := gain_count_reset DOWN_H (mk_cnt (up_gl k) (up_gm k) (down_gm k) (u32 (down_gh k + 1))) in
        if cnt_thod p <=? down_gh k then
          gain_set ch GAIN_M (set_cnt (mk_cnt (up_gl k) (up_gm k) (down_gm k) 0) c)
        else set_cnt k c
      else c
    else c.

Definition tiag_cmd_switch (ch gain : Z) (c : chan) : chan :=
  if SENS_CH_SPEC_CNT <=? ch then c else if GAIN_CNT <=? gain then c else gain_set ch gain c.

Definition tiag_switch (mode : Z) (p : gain_para) (ch volt gain : Z) (c : chan) : chan :=
  if mode =? TIAG_AUTO_MODE then tiag_auto_switch p ch volt gain c else tiag_cmd_switch ch gain c.

(** At power-up; a warm start keeps the gain. *)
Definition tiag_init (warm_start : bool) (ch : Z) (c : chan) : chan :=
  set_cnt gain_count_init (gain_set ch (if warm_start then now_gain c else GAIN_H) c).

(** ** [gain_switch_process] *)

(** [gain_sw_data_t]: the flag and the numbers of samples to discard. *)
Record gain_sw_data_t := mk_sw { flag : Z; gl_to_gm : Z; gm_to_gh : Z; gm_to_gl : Z; gh_to_gm : Z }.
Definition discard (before now n : Z) (w : gain_sw_data_t) : gain_sw_data_t :=
  if before <? now then
    if before =? GAIN_L then mk_sw (flag w) n (gm_to_gh w) (gm_to_gl w) (gh_to_gm w)
    else if before =? GAIN_M then mk_sw (flag w) (gl_to_gm w) n (gm_to_gl w) (gh_to_gm w) else w
  else if now <? before then
    if before =? GAIN_M then mk_sw (flag w) (gl_to_gm w) (gm_to_gh w) n (gh_to_gm w)
    else if before =? GAIN_H then mk_sw (flag w) (gl_to_gm w) (gm_to_gh w) (gm_to_gl w) n else w
  else w.

(** One channel of [sens_spec_t]: [volt_raw], [volt_filter], [last_volt_filter]. *)
Record sample := mk_sample { volt_raw : Z; volt_filter : Z; last_volt_filter : Z }.

(** The loop from channel [i] on: it ends with -1 at the first channel that has
    switched, so the later channels are not looked at. *)
Fixpoint switch_loop (mode volt_discard : Z) (ps : list gain_para) (i : Z)
  (l : list (chan * gain_sw_data_t * sample)) : list (chan * gain_sw_data_t * sample) * Z :=
  match l, ps with
  | (c, w, d) :: l, p :: ps =>
      let before := u8 (now_gain c) in
      let c := tiag_switch mode p i (u32 (volt_raw d)) (u8 (now_gain c)) c in
      let fl := if before =? now_gain c then flag w else 1 in
      if negb (fl =? 0) then
        let w := discard before (now_gain c) volt_discard
                   (mk_sw 0 (gl_to_gm w) (gm_to_gh w) (gm_to_gl w) (gh_to_gm w)) in
        ((c, w, mk_sample (volt_raw d) (volt_filter d) (volt_filter d)) :: l, -1)
      else
        let '(l, r) := switch_loop mode volt_discard ps (i + 1) l in ((c, w, d) :: l, r)
  | l, _ => (l, 0)
  end.
Definition gain_switch_process (mode volt_discard : Z) (ps : list gain_para)
  (l : list (chan * gain_sw_data_t * sample)) : list (chan * gain_sw_data_t * sample) * Z :=
  switch_loop mode volt_discard ps 0 l.

(** * Properties *)

(** ** The abstract switch: a gain, and how often in the current direction a
    sample has asked to leave it *)
Inductive dir := Up | Down.
#[global] Instance dir_eq : EqDecision dir.
Proof. solve_decision. Defined.
Record switch := mk_switch { s_gain : Z; s_dir : dir; s_n : Z }.

Definition demand (p : gain_para) (gain volt : Z) : option dir :=
  if gain =? GAIN_L then (if upper p <? volt then Some Up else None)
  else if gain =? GAIN_M then
    if upper p <? volt then Some Up
    else if volt_below volt (lowerml p) (k_lm p) then Some Down else None
  else if volt_below volt (lowerhm p) (k_mh p) then Some Down else None.

Definition spec_step (p : gain_para) (s : switch) (volt : Z) : switch :=
  match demand p (s_gain s) volt with
  | None => s
  | Some d =>
      let n := if decide (d = s_dir s) then s_n s + 1 else 1 in
      if cnt_thod p <=? n then mk_switch (match d with Up => s_gain s + 1 | Down => s_gain s - 1 end) d 0
      else mk_switch (s_gain s) d n
  end.

(** The counters that stand for it. *)
Definition slot (gain : Z) (d : dir) (n : Z) : gain_cnt_t :=
  if n =? 0 then gain_count_init
  else match d with
       | Up => if gain =? GAIN_L then mk_cnt n 0 0 0 else mk_cnt 0 n 0 0
       | Down => if gain =? GAIN_M then mk_cnt 0 0 n 0 else mk_cnt 0 0 0 n
       end.
Record stands_for (p : gain_para) (ch : Z) (s : switch) (c : chan) : Prop := mk_stands {
  st_gain : now_gain c = s_gain s; st_range : 0 <= s_gain s < GAIN_CNT;
  st_pins : gain_pins ch (s_gain s) = Some (pins c);
  st_cnt : cnt c = slot (s_gain s) (s_dir s) (s_n s);
  st_n : 0 <= s_n s < cnt_thod p;
  st_dir : s_n s <> 0 -> (s_dir s = Up -> s_gain s < GAIN_H) /\ (s_dir s = Down -> GAIN_L < s_gain s) }.

Section Switch.
Context (p : gain_para) (Hthod : 1 <= cnt_thod p < 2 ^ 32) (ch : Z) (Hch : 0 <= ch < SENS_CH_SPEC_CNT).

Lemma pins_some gain : 0 <= gain < GAIN_CNT -> exists l, gain_pins ch gain = Some l.
Proof.
  unfold SENS_CH_SPEC_CNT, GAIN_CNT in *. intros Hg. assert (ch = 0 \/ ch = 1) as [-> | ->] by lia;
    assert (gain = 0 \/ gain = 1 \/ gain = 2) as [-> | [-> | ->]] by lia; by eexists.
Qed.
(** Setting a gain with cleared counters. *)
Lemma enter_gain gain d c : 0 <= gain < GAIN_CNT -> cnt c = gain_count_init ->
  stands_for p ch (mk_switch gain d 0) (gain_set ch gain c).
Proof.
  intros Hg Hc. destruct (pins_some gain Hg) as [l Hl]. unfold gain_set. rewrite Hl.
  split; cbn; try done; lia.
Qed.

(** A sample that asks to leave in the direction of the counter [n] it adds to. *)
Lemma count_step s c d n k' :
  stands_for p ch s c -> (d = Up -> s_gain s < GAIN_H) -> (d = Down -> GAIN_L < s_gain s) ->
  n = (if decide (d = s_dir s) then s_n s + 1 else 1) -> k' = slot (s_gain s) d n ->
  (n < cnt_thod p -> stands_for p ch (mk_switch (s_gain s) d n) (set_cnt k' c)) /\
  (cnt_thod p <= n -> forall c', cnt c' = gain_count_init ->
     stands_for p ch (mk_switch (match d with Up => s_gain s + 1 | Down => s_gain s - 1 end) d 0)
       (gain_set ch (match d with Up => s_gain s + 1 | Down => s_gain s - 1 end) c')).
Proof.
  intros [H1 H2 H3 H4 H5 H6] Hu Hd -> ->. split.
  - intros Hn. split; cbn; try done. destruct (decide (d = s_dir s)); lia.
  - intros Hn c' Hc'. apply enter_gain; [|done]. unfold GAIN_CNT, GAIN_H, GAIN_L in *.
    destruct d; [pose proof (Hu eq_refl)|pose proof (Hd eq_refl)]; lia.
Qed.

(** The counter of a direction, as the code reads it. *)
Definition counter (gain : Z) (d : dir) (k : gain_cnt_t) : Z :=
  match d with
  | Up => if gain =? GAIN_L then up_gl k else up_gm k
  | Down => if gain =? GAIN_M then down_gm k else down_gh k
  end.
Lemma next_count s c d : stands_for p ch s c ->
  (d = Up -> s_gain s < GAIN_H) -> (d = Down -> GAIN_L < s_gain s) ->
  u32 (counter (s_gain s) d (cnt c) + 1) = (if decide (d = s_dir s) then s_n s + 1 else 1).
Proof.
  intros [_ H2 _ -> H5 H6] Hu Hd. unfold GAIN_CNT, GAIN_L, GAIN_M, GAIN_H, slot, counter in *.
  destruct (Z.eqb_spec (s_n s) 0) as [-> | Hn].
  - destruct d; cbn; repeat case_match; rewrite u32_small by lia; try done; lia.
  - destruct (H6 Hn) as [Hu0 Hd0]. assert (s_gain s = 0 \/ s_gain s = 1 \/ s_gain s = 2) as E by lia.
    destruct d, (s_dir s), E as [-> | [-> | ->]]; cbn in *; rewrite ?u32_small by lia; try done;
      lazymatch goal with
      | _ => exfalso; first [pose proof (Hu eq_refl); lia|pose proof (Hd eq_refl); lia|pose proof (Hu0 eq_refl); lia|pose proof (Hd0 eq_refl); lia]
      end.
Qed.

Lemma auto_step s c volt : stands_for p ch s c ->
  stands_for p ch (spec_step p s volt) (tiag_auto_switch p ch volt (now_gain c) c).
Proof.
  intros Hs. pose proof Hs as [H1 H2 _ _ _ _]. unfold tiag_auto_switch, spec_step, demand.
  unfold SENS_CH_SPEC_CNT in *. rewrite (proj2 (Z.leb_gt 2 ch)) by lia.
  rewrite H1, (proj2 (Z.leb_gt GAIN_CNT _)) by lia.
  assert (Go : forall d k',
    (d = Up -> s_gain s < GAIN_H) -> (d = Down -> GAIN_L < s_gain s) ->
    (forall n, n = u32 (counter (s_gain s) d (cnt c) + 1) -> 0 < n -> k' n = slot (s_gain s) d n) ->
    let n := u32 (counter (s_gain s) d (cnt c) + 1) in
    stands_for p ch
      (let n := if decide (d = s_dir s) then s_n s + 1 else 1 in
       if cnt_thod p <=? n then mk_switch (match d with Up => s_gain s + 1 | Down => s_gain s - 1 end) d 0
       else mk_switch (s_gain s) d n)
      (if cnt_thod p <=? n
       then gain_set ch (match d with Up => s_gain s + 1 | Down => s_gain s - 1 end) (set_cnt gain_count_init c)
       else set_cnt (k' n) c)).
  { intros d k' Hu Hd Hk n. pose proof (next_count s c d Hs Hu Hd) as Hn. fold n in Hn. cbn zeta. rewrite <- Hn.
    assert (Hpos : 0 < n) by (rewrite Hn; pose proof (st_n _ _ _ _ Hs); destruct (decide (d = s_dir s)); lia).
    destruct (count_step s c d n (k' n) Hs Hu Hd Hn (Hk n eq_refl Hpos)) as [A B].
    destruct (Z.leb_spec (cnt_thod p) n); [by apply B|by apply A]. }
  assert (Hsl : forall g d n, 0 < n -> slot g d n = match d with
     | Up => if g =? GAIN_L then mk_cnt n 0 0 0 else mk_cnt 0 n 0 0
     | Down => if g =? GAIN_M then mk_cnt 0 0 n 0 else mk_cnt 0 0 0 n end).
  { intros g d n Hn. unfold slot. by rewrite (proj2 (Z.eqb_neq n 0)) by lia. }
  unfold GAIN_CNT, GAIN_L, GAIN_M, GAIN_H in *.
  assert (s_gain s = 0 \/ s_gain s = 1 \/ s_gain s = 2) as E by lia.
  destruct E as [E | [E | E]]; rewrite E in *; cbn [Z.eqb Pos.eqb] in *.
  - destruct (upper p <? volt); [|done].
    apply (Go Up (fun n => mk_cnt n 0 0 0)); [lia|done|]. intros n _ Hn. by rewrite Hsl.
  - destruct (upper p <? volt); [|destruct (volt_below volt (lowerml p) (k_lm p)); [|done]].
    + apply (Go Up (fun n => mk_cnt 0 n 0 0)); [lia|done|]. intros n _ Hn. by rewrite Hsl.
    + apply (Go Down (fun n => mk_cnt 0 0 n 0)); [done|lia|]. intros n _ Hn. by rewrite Hsl.
  - destruct (volt_below volt (lowerhm p) (k_mh p)); [|done].
    apply (Go Down (fun n => mk_cnt 0 0 0 n)); [done|lia|]. intros n _ Hn. by rewrite Hsl.
Qed.
End Switch.

(** Samples one after the other. *)
Definition auto_run (p : gain_para) (ch : Z) (volts : list Z) (c : chan) : chan :=
  fold_left (fun c v => tiag_switch TIAG_AUTO_MODE p ch v (now_gain c) c) volts c.

(** [C35] Refinement of the automatic gain switching: from power-up (highest
    gain) on, whatever samples arrive, the counters and the gain are those of an
    abstract switch that counts the samples asking to leave the gain in one
    direction, starts again at 1 when the direction changes, ignores samples
    within the thresholds, and moves by one gain when the count reaches
    [cnt_thod]; the pins always select the gain that [now_gain] shows, which
    stays one of the three.  This is the code; the state diagram in section 7 of
    doc/firmware_framework.md differs: it powers up in the lowest gain, and its
    lower thresholds are lowerHM and lowerML themselves, where the code divides
    them by the ratios k_mh and k_lm of the gains. *)
Theorem tiag_refines_switch p ch volts c : 1 <= cnt_thod p < 2 ^ 32 -> 0 <= ch < SENS_CH_SPEC_CNT ->
  let s := fold_left (spec_step p) volts (mk_switch GAIN_H Down 0) in
  let c' := auto_run p ch volts (tiag_init false ch c) in
  stands_for p ch s c' /\ now_gain c' = s_gain s /\ 0 <= now_gain c' < GAIN_CNT /\
  gain_pins ch (now_gain c') = Some (pins c').
Proof.
  intros Ht Hc.
  assert (H : forall volts s c, stands_for p ch s c ->
    stands_for p ch (fold_left (spec_step p) volts s) (auto_run p ch volts c)).
  { intros l. induction l as [|v vs IH]; intros s0 c0 H0; [exact H0|].
    exact (IH _ _ (auto_step p Ht ch Hc s0 c0 v H0)). }
  assert (H0 : stands_for p ch (mk_switch GAIN_H Down 0) (tiag_init false ch c)).
  { assert (Hg : 0 <= GAIN_H < GAIN_CNT) by done.
    exact (enter_gain p Ht ch Hc GAIN_H Down (set_cnt gain_count_init c) Hg eq_refl). }
  specialize (H volts _ _ H0). cbn zeta. split; [exact H|]. destruct H as [H1 H2 H3 _ _ _].
  split; [done|]. rewrite H1. done.
Qed.
Definition demo_gain : gain_para :=
  mk_gain_para 3000 100 100 (f64_of_Z 2) (f64_of_Z 2) 2.
Lemma tiag_refines_switch_witness :
  let s := fold_left (spec_step demo_gain) [10; 60; 40; 10; 5000; 60; 5000] (mk_switch GAIN_H Down 0) in
  let c' := auto_run demo_gain 1 [10; 60; 40; 10; 5000; 60; 5000] (tiag_init false 1 (mk_chan gain_count_init [] 0)) in
  stands_for demo_gain 1 s c' /\ now_gain c' = s_gain s /\ 0 <= now_gain c' < GAIN_CNT /\
  gain_pins 1 (now_gain c') = Some (pins c').
Proof. apply (tiag_refines_switch demo_gain 1); done. Defined.
(** Down after two low samples (one in range between them), up after two high ones. *)
Example demo_switch :
  map (fun n => s_gain (fold_left (spec_step demo_gain) (take n [10; 60; 40; 10; 5000; 60; 5000]) (mk_switch GAIN_H Down 0)))
    (seq 0 8) = [2; 2; 2; 1; 1; 1; 1; 2].
Proof. vm_compute. reflexivity. Qed.
