(* ===== verification/Alarm.v ===== *)
(** * alarm.c: the alarm relay

    Three alarms with a dead band, latched between the runs of the task, and
    the relay that the configured mode derives from them.  Temperatures are
    [float]s. *)
From Stdlib Require Import ZifyBool.
From S2P Require Import Prelude CFloat.

Definition ALARM_RELAY_OFF : Z := 0.
Definition ALARM_RELAY_ON : Z := 1.
Definition ALARM_NO_TARGET_INTERNAL : Z := 2.
Definition ALARM_NC_TARGET_INTERNAL : Z := 3.
Definition ALARM_NO_INTERNAL : Z := 4.
Definition ALARM_NC_INTERNAL : Z := 5.
Definition ALARM_NO_TARGET : Z := 6.
Definition ALARM_NC_TARGET : Z := 7.
Definition ALARM_NO_DECAY : Z := 8.
Definition ALARM_NC_DECAY : Z := 9.

(** [alarm_para_t] without the members the task does not use. *)
Record alarm_para_t := mk_alarm_para {
  relay_alarm_mode : Z;
  target_temp_alarm_on : spec_float; target_temp_alarm_off : spec_float;
  internal_temp_alarm_on : spec_float; internal_temp_alarm_off : spec_float;
  attenuation_alarm_on : spec_float; attenuation_alarm_off : spec_float }.
(** The readings in [sys_state]. *)
Record readings := mk_readings { target_temp : spec_float; internal_temp : spec_float; attenuation : spec_float }.
(** The static alarm states and the relay pin. *)
Record alarm_state := mk_alarm { target_active : bool; internal_active : bool; decay_active : bool; relay : bool }.

(** The three [if (x >= on) ... else if (x <= on - off)]. *)
Definition latch (on off x : spec_float) (active : bool) : bool :=
  if f_ge x on then true else if f_le x (f32_sub on off) then false else active.

(** The [switch (relay_alarm_mode)]; [None] leaves the relay. *)
Definition relay_of_mode (mode : Z) (target internal decay : bool) : option bool :=
  if mode =? ALARM_RELAY_OFF then Some false
  else if mode =? ALARM_RELAY_ON then Some true
  else if mode =? ALARM_NO_TARGET_INTERNAL then Some (target || internal)
  else if mode =? ALARM_NC_TARGET_INTERNAL then Some (negb (target || internal))
  else if mode =? ALARM_NO_INTERNAL then Some internal
  else if mode =? ALARM_NC_INTERNAL then Some (negb internal)
  else if mode =? ALARM_NO_TARGET then Some target
  else if mode =? ALARM_NC_TARGET then Some (negb target)
  else if mode =? ALARM_NO_DECAY then Some decay
  else if mode =? ALARM_NC_DECAY then Some (negb decay) else None.

Definition alarm_task (p : alarm_para_t) (r : readings) (s : alarm_state) : alarm_state :=
  let t := latch (target_temp_alarm_on p) (target_temp_alarm_off p) (target_temp r) (target_active s) in
  let i := latch (internal_temp_alarm_on p) (internal_temp_alarm_off p) (internal_temp r) (internal_active s) in
  let d := latch (attenuation_alarm_on p) (attenuation_alarm_off p) (attenuation r) (decay_active s) in
  mk_alarm t i d (match relay_of_mode (relay_alarm_mode p) t i d with Some b => b | None => relay s end).

(** * Properties *)

(** A reading inside the dead band (or not a number) decides nothing. *)
Definition decisive (on off x : spec_float) : bool := f_ge x on || f_le x (f32_sub on off).
(** Is the last decisive reading, newest first, at or above the threshold? *)
Fixpoint last_alarm (on off : spec_float) (newest_first : list spec_float) (start : bool) : bool :=
  match newest_first with
  | [] => start
  | x :: l => if decisive on off x then f_ge x on else last_alarm on off l start
  end.

Lemma latch_run on off l : forall start,
  fold_left (fun a x => latch on off x a) l start = last_alarm on off (rev l) start.
Proof.
  induction l as [|x l IH] using rev_ind; intros start; [done|].
  rewrite fold_left_app, rev_app_distr. cbn [fold_left rev app last_alarm]. rewrite IH. unfold latch, decisive.
  destruct (f_ge x on); [done|]. by destruct (f_le x (f32_sub on off)).
Qed.

Definition alarm_run (p : alarm_para_t) (rs : list readings) (s : alarm_state) : alarm_state :=
  fold_left (fun s r => alarm_task p r s) rs s.

Lemma alarm_run_latches p rs : forall s,
  let s' := alarm_run p rs s in
  target_active s' = fold_left (fun a x => latch (target_temp_alarm_on p) (target_temp_alarm_off p) x a) (map target_temp rs) (target_active s) /\
  internal_active s' = fold_left (fun a x => latch (internal_temp_alarm_on p) (internal_temp_alarm_off p) x a) (map internal_temp rs) (internal_active s) /\
  decay_active s' = fold_left (fun a x => latch (attenuation_alarm_on p) (attenuation_alarm_off p) x a) (map attenuation rs) (decay_active s).
Proof. induction rs as [|r rs IH]; intros s; [done|]. apply (IH (alarm_task p r s)). Qed.

Lemma alarm_run_relay p rs r s : let s' := alarm_run p (rs ++ [r]) s in
  relay s' = match relay_of_mode (relay_alarm_mode p) (target_active s') (internal_active s') (decay_active s') with
             | Some b => b
             | None => relay (alarm_run p rs s)
             end.
Proof. cbn zeta. unfold alarm_run. by rewrite fold_left_app. Qed.
(** The modes, by their numbers. *)
Lemma relay_of_mode_table m t i d : relay_of_mode m t i d =
  match m with
  | 0 => Some false | 1 => Some true
  | 2 => Some (t || i) | 3 => Some (negb (t || i))
  | 4 => Some i | 5 => Some (negb i)
  | 6 => Some t | 7 => Some (negb t)
  | 8 => Some d | 9 => Some (negb d)
  | _ => None
  end.
Proof. destruct m as [|[[[[]|[]|]|[[]|[]|]|]|[[[]|[]|]|[[]|[]|]|]|]|]; reflexivity. Qed.

(** [C36] The alarms and the relay over any history of readings.  Each alarm is
    on exactly if its last reading outside the dead band was at or above the
    switch-on threshold (none so far: the initial state); the dead band lies
    between on - off and on, for the temperatures too; a reading that is not a
    number changes nothing.  The relay is open in mode 0, closed in mode 1,
    follows target or internal alarm in mode 2, internal in 4, target in 6,
    attenuation in 8, is the negation in the mode after each, and stays as it was
    in any other mode. *)
Theorem alarm_relay_history p rs r s :
  let s' := alarm_run p (rs ++ [r]) s in
  let t := last_alarm (target_temp_alarm_on p) (target_temp_alarm_off p) (rev (map target_temp (rs ++ [r]))) (target_active s) in
  let i := last_alarm (internal_temp_alarm_on p) (internal_temp_alarm_off p) (rev (map internal_temp (rs ++ [r]))) (internal_active s) in
  let d := last_alarm (attenuation_alarm_on p) (attenuation_alarm_off p) (rev (map attenuation (rs ++ [r]))) (decay_active s) in
  target_active s' = t /\ internal_active s' = i /\ decay_active s' = d /\
  relay s' = match relay_alarm_mode p with
             | 0 => false | 1 => true
             | 2 => t || i | 3 => negb (t || i)
             | 4 => i | 5 => negb i
             | 6 => t | 7 => negb t
             | 8 => d | 9 => negb d
             | _ => relay (alarm_run p rs s)
             end.
Proof.
  destruct (alarm_run_latches p (rs ++ [r]) s) as (Et & Ei & Ed). pose proof (alarm_run_relay p rs r s) as Hr.
  cbn zeta in *. rewrite !latch_run in *. rewrite Et, Ei, Ed, relay_of_mode_table in Hr.
  split; [done|]. split; [done|]. split; [done|]. rewrite Hr. clear.
  destruct (relay_alarm_mode p) as [|[[[[]|[]|]|[[]|[]|]|]|[[[]|[]|]|[[]|[]|]|]|]|]; reflexivity.
Qed.

(** Target alarm at 1000 with a dead band of 100, normally open: 1000 closes the
    relay, 950 keeps it closed (and would keep it open after 900). *)
Lemma alarm_relay_history_witness :
  let n := f32_of_Z in
  let p := mk_alarm_para 6 (n 1000) (n 100) (n 60) (n 5) (n 1) (n 0) in
  let at_ t := mk_readings (n t) (n 20) (n 0) in
  relay (alarm_run p ([at_ 1000] ++ [at_ 950]) (mk_alarm false false false false)) = true /\
  relay (alarm_run p ([at_ 1000; at_ 900] ++ [at_ 950]) (mk_alarm false false false false)) = false.
Proof.
  cbn zeta. split.
  - destruct (alarm_relay_history (mk_alarm_para 6 (f32_of_Z 1000) (f32_of_Z 100) (f32_of_Z 60) (f32_of_Z 5) (f32_of_Z 1) (f32_of_Z 0))
      [mk_readings (f32_of_Z 1000) (f32_of_Z 20) (f32_of_Z 0)] (mk_readings (f32_of_Z 950) (f32_of_Z 20) (f32_of_Z 0))
      (mk_alarm false false false false)) as (_ & _ & _ & ->). vm_compute. reflexivity.
  - destruct (alarm_relay_history (mk_alarm_para 6 (f32_of_Z 1000) (f32_of_Z 100) (f32_of_Z 60) (f32_of_Z 5) (f32_of_Z 1) (f32_of_Z 0))
      [mk_readings (f32_of_Z 1000) (f32_of_Z 20) (f32_of_Z 0); mk_readings (f32_of_Z 900) (f32_of_Z 20) (f32_of_Z 0)]
      (mk_readings (f32_of_Z 950) (f32_of_Z 20) (f32_of_Z 0)) (mk_alarm false false false false)) as (_ & _ & _ & ->).
    vm_compute. reflexivity.
Defined.
