(* ===== verification/Heater.v ===== *)
(** * heater.c: the heater's PID control

    [heater_data] in the code's [float]s and [double]s, and the compare value of
    the PWM timer. *)
From Stdlib Require Import ZifyBool.
From S2P Require Import Prelude CFloat.

(** [HEATER_DATA], and the timer's pulse value. *)
Record heater_t := mk_heater {
  setpoint : spec_float; internal_temperature : spec_float; herror : spec_float;
  integral : spec_float;            (* double *)
  derivative : spec_float; previous_error : spec_float; previous_integral : spec_float;
  output : spec_float; set_value : spec_float;
  pwm : Z }.
(** [heater_para_t] *)
Record heater_para_t := mk_heater_para { set_temp : spec_float; kp : spec_float; ki : spec_float; kd : spec_float }.

Definition heater_init (warm_start : bool) (h : heater_t) : heater_t :=
  mk_heater (setpoint h) (f32_of_Z 25) f_zero (if warm_start then integral h else f_zero)
    f_zero f_zero (previous_integral h) f_zero f_zero (pwm h).

Definition PTC_PWM_Set (value : spec_float) (h : heater_t) : heater_t :=
  let value := if f_gt value (f32_of_Z 100) then f32_of_Z 100 else value in
  mk_heater (setpoint h) (internal_temperature h) (herror h) (integral h) (derivative h) (previous_error h)
    (previous_integral h) (output h) (set_value h) (f_to_u16 (f32_mul value (f32_of_Z 50))).

(** [output] is computed in [double] and rounded. *)
Definition pid_output (p : heater_para_t) (e i d : spec_float) : spec_float :=
  f32_of_f64 (f64_add (f64_add (f64_mul (kp p) (f64_of_f32 e)) (f64_mul (ki p) i)) (f64_mul (kd p) (f64_of_f32 d))).

Definition ambient_temp_pid_ctrl (p : heater_para_t) (h : heater_t) : heater_t :=
  let e := f32_sub (setpoint h) (internal_temperature h) in
  let i := f64_add (integral h) (f64_of_f32 e) in
  let d := f32_sub e (previous_error h) in
  let out := pid_output p e i d in
  let sv := f32_add (f32_of_Z 50) out in
  let '(sv, i) :=
    if f_gt sv (f32_of_Z 100) then (f32_of_Z 100, f64_of_f32 (previous_integral h))
    else if f_lt sv f_zero then (f_zero, f64_of_f32 (previous_integral h))
    else (sv, i) in
  mk_heater (setpoint h) (internal_temperature h) e i d e (f32_of_f64 i) out sv (pwm h).

Definition heater_task (p : heater_para_t) (temp : spec_float) (h : heater_t) : heater_t :=
  let h := mk_heater (set_temp p) temp (herror h) (integral h) (derivative h) (previous_error h)
             (previous_integral h) (output h) (set_value h) (pwm h) in
  let low := f32_sub (setpoint h) (f32_of_Z 5) in
  if f_gt temp low && f_lt temp (f32_of_Z 100) then
    let h := ambient_temp_pid_ctrl p h in PTC_PWM_Set (set_value h) h
  else if f_lt temp low then PTC_PWM_Set (f32_of_Z 95) h
  else if f_eq (setpoint h) f_zero then PTC_PWM_Set f_zero h
  else h.

(** * Properties *)

Lemma pid_range p h : let h' := ambient_temp_pid_ctrl p h in
  f_gt (set_value h') (f32_of_Z 100) = false /\ f_lt (set_value h') f_zero = false.
Proof.
  unfold ambient_temp_pid_ctrl. set (sv := f32_add (f32_of_Z 50) _).
  destruct (f_gt sv (f32_of_Z 100)) eqn:E1; cbn [set_value]; [done|].
  destruct (f_lt sv f_zero) eqn:E2; cbn [set_value]; done.
Qed.

(** The heater task on every branch.  In the control band the drive value
    lies in [0, 100] (or is not a number), and when the controller saturates
    the integral goes back to its previous value, so it does not wind up.  Below
    the band the timer gets 4750, 95 % of its period.  At 100 degrees or more
    (above the band, with a set temperature other than zero) no branch writes
    the timer: the heater keeps the power it last had. *)
Theorem heater_task_branches p temp h :
  let low := f32_sub (set_temp p) (f32_of_Z 5) in
  let h' := heater_task p temp h in
  (f_gt temp low = true -> f_lt temp (f32_of_Z 100) = true ->
     f_gt (set_value h') (f32_of_Z 100) = false /\ f_lt (set_value h') f_zero = false /\
     pwm h' = f_to_u16 (f32_mul (set_value h') (f32_of_Z 50)) /\
     let sv := f32_add (f32_of_Z 50) (output h') in
     (f_gt sv (f32_of_Z 100) = true \/ f_lt sv f_zero = true ->
        integral h' = f64_of_f32 (previous_integral h))) /\
  (f_lt temp low = true -> f_gt temp low = false -> pwm h' = 4750) /\
  (f_ge temp (f32_of_Z 100) = true -> f_lt temp low = false -> f_lt temp (f32_of_Z 100) = false ->
     f_eq (set_temp p) f_zero = false -> pwm h' = pwm h /\ integral h' = integral h).
Proof.
  cbn zeta. unfold heater_task. cbn [setpoint]. set (h0 := mk_heater (set_temp p) temp _ _ _ _ _ _ _ _).
  split; [|split].
  - intros -> ->. cbn [andb]. unfold PTC_PWM_Set. cbn [set_value pwm output integral].
    destruct (pid_range p h0) as [E1 E2]. cbn zeta in *. rewrite E1. do 2 (split; [done|]). split; [done|].
    unfold ambient_temp_pid_ctrl. set (sv := f32_add (f32_of_Z 50) (pid_output p _ _ _)).
    destruct (f_gt sv (f32_of_Z 100)) eqn:G; [cbn; done|]. destruct (f_lt sv f_zero) eqn:L; cbn [output integral]; [done|].
    fold sv. rewrite G, L. by intros [? | ?].
  - intros Hl Hg. rewrite Hg, Hl. reflexivity.
  - intros _ Hl H1 H0. rewrite H1, andb_false_r, Hl, H0. done.
Qed.
Definition demo_heater : heater_t :=
  mk_heater f_zero f_zero f_zero f_zero f_zero f_zero f_zero f_zero f_zero 4750.
(** 105 degrees with a set temperature of 60: the timer keeps 95 % power. *)
Lemma heater_task_branches_witness :
  pwm (heater_task (mk_heater_para (f32_of_Z 60) f_zero f_zero f_zero) (f32_of_Z 105) demo_heater) = 4750.
Proof.
  destruct (heater_task_branches (mk_heater_para (f32_of_Z 60) f_zero f_zero f_zero) (f32_of_Z 105) demo_heater)
    as (_ & _ & H).
  exact (proj1 (H eq_refl eq_refl eq_refl eq_refl)).
Defined.
