(* ===== verification/SelfCheck.v ===== *)
(** * self_check.c: the power-on self-test and the error word

    [error_flags] is a 16-bit word of measuring errors, set and cleared bit by
    bit by the measurement, the heater check and the attenuation check, and read
    by the display and the analogue output through its highest error. *)
From Stdlib Require Import ZifyBool.
From S2P Require Import Prelude CFloat.

(** [ErrorFlag_t] *)
Definition ERR_DETECTOR_FAULT : Z := 0x0001.
Definition ERR_HEATER_HIGH : Z := 0x0002.
Definition ERR_HEATER_LOW : Z := 0x0004.
Definition ERR_INTERNAL_HIGH : Z := 0x0008.
Definition ERR_INTERNAL_LOW : Z := 0x0010.
Definition ERR_ENERGY_LOW : Z := 0x0020.
Definition ERR_ATTEN_HIGH : Z := 0x0040.
Definition ERROR_ALL_CNT : Z := 7.

(** The initial value of [error_flags]. *)
Definition error_flags_start : Z := 0xFFFF.

Definition error_state_set (err_flag flags : Z) : Z := u16 (Z.lor flags err_flag).
Definition error_state_clear (err_flag flags : Z) : Z := u16 (Z.land flags (Z.lnot err_flag)).

Definition get_highest_error_index (flags : Z) : Z :=
  let on f := negb (Z.land flags f =? 0) in
  if on ERR_DETECTOR_FAULT then 0
  else if on ERR_HEATER_HIGH then 1
  else if on ERR_HEATER_LOW then 2
  else if on ERR_INTERNAL_HIGH then 3
  else if on ERR_INTERNAL_LOW then 4
  else if on ERR_ENERGY_LOW then 5
  else if on ERR_ATTEN_HIGH then 6
  else -1.

(** [ErrorStatus_t]: the display text is segment codes, padded with zeros to ten
    characters; the analogue outputs, the one for 0-20 mA and the one for
    4-20 mA, are pointers to a limit of [sys_para.ana] or to a zero. *)
Inductive ana_limit := exceed_max_range | exceed_min_range | min_0_20ma.
Record err_status_t := mk_status {
  st_flags : Z; st_index : Z; err_text : list Z; analog_output : ana_limit * ana_limit }.
Definition err_table : list err_status_t :=
  [mk_status ERR_DETECTOR_FAULT 0 [0x79; 0x76; 0x76; 0x76; 0x00] (exceed_max_range, exceed_max_range);
   mk_status ERR_HEATER_HIGH 1 [0x79; 0x39; 0x76; 0x76; 0x00] (exceed_max_range, exceed_max_range);
   mk_status ERR_HEATER_LOW 2 [0x79; 0x39; 0x3E; 0x3E; 0x00] (min_0_20ma, exceed_min_range);
   mk_status ERR_INTERNAL_HIGH 3 [0x79; 0x0F; 0x76; 0x76; 0x00] (exceed_max_range, exceed_max_range);
   mk_status ERR_INTERNAL_LOW 4 [0x79; 0x0F; 0x3E; 0x3E; 0x00] (min_0_20ma, exceed_min_range);
   mk_status ERR_ENERGY_LOW 5 [0x79; 0x3E; 0x3E; 0x3E; 0x00] (min_0_20ma, exceed_min_range);
   mk_status ERR_ATTEN_HIGH 6 [0x79; 0x77; 0x77; 0x77; 0x00] (min_0_20ma, exceed_min_range)].

(** What [error_state_upgrade] reads of [sys_para] and [sys_state]. *)
Record check_inputs := mk_inputs {
  temp_mode : Z; target_volt_wb : Z; target_volt_nb : Z;
  set_temp : spec_float; internal_temp_spec : spec_float;
  attenuation : spec_float; decay_rate : Z }.

Definition detector_check (i : check_inputs) (flags : Z) : Z :=
  if (temp_mode i =? 2) && ((target_volt_wb i =? 0) || (target_volt_nb i =? 0)) then error_state_set ERR_DETECTOR_FAULT flags
  else if (temp_mode i =? 0) && (target_volt_wb i =? 0) then error_state_set ERR_DETECTOR_FAULT flags
  else if (temp_mode i =? 1) && (target_volt_nb i =? 0) then error_state_set ERR_DETECTOR_FAULT flags
  else error_state_clear ERR_DETECTOR_FAULT flags.
Definition heater_check (i : check_inputs) (flags : Z) : Z :=
  if negb (f_eq (set_temp i) f_zero) then
    if f_gt (internal_temp_spec i) (f32_of_Z 80) then
      error_state_clear ERR_HEATER_LOW (error_state_set ERR_HEATER_HIGH flags)
    else if f_lt (internal_temp_spec i) (f32_sub (set_temp i) (f32_of_Z 20)) then
      error_state_clear ERR_HEATER_HIGH (error_state_set ERR_HEATER_LOW flags)
    else error_state_clear ERR_HEATER_HIGH (error_state_clear ERR_HEATER_LOW flags)
  else
    error_state_clear ERR_INTERNAL_LOW (error_state_clear ERR_INTERNAL_HIGH
      (error_state_clear ERR_HEATER_HIGH (error_state_clear ERR_HEATER_LOW flags))).
Definition attenuation_check (i : check_inputs) (flags : Z) : Z :=
  if f_gt (f32_mul (attenuation i) (f32_of_Z 100)) (f32_of_Z (decay_rate i))
  then error_state_set ERR_ATTEN_HIGH flags else error_state_clear ERR_ATTEN_HIGH flags.
Definition error_state_upgrade (i : check_inputs) (flags : Z) : Z :=
  attenuation_check i (heater_check i (detector_check i flags)).

(** ** The power-on test *)

(** [dev_err_t], and the characters of [sys_state.dev_error]. *)
Definition DEV_ERR_EEPROM : nat := 0.
Definition DEV_ERR_ANA_OUTRANGE : nat := 2.
Definition DEV_ERR_PSRAM : nat := 4.
Definition DEV_ERR_AD7124 : nat := 6.
Definition DEV_ERR_LTC2606 : nat := 7.
Definition DEV_ERR_CNT : nat := 9.
Definition DEV_ST_OK : Z := 48.
Definition DEV_ST_ERR : Z := 49.

(** The results of the three device tests are the hardware's:
    [eeprom_test], [vti7064x_init] (0 is a failure) and [ad7124_init]. *)
Definition dev_self_check (eeprom vti7064x ad7124 : Z) : list Z :=
  let e := replicate DEV_ERR_CNT DEV_ST_ERR in
  let e := <[DEV_ERR_EEPROM := if negb (eeprom =? 0) then DEV_ST_ERR else DEV_ST_OK]> e in
  let e := <[DEV_ERR_PSRAM := if vti7064x =? 0 then DEV_ST_ERR else DEV_ST_OK]> e in
  <[DEV_ERR_AD7124 := if negb (ad7124 =? 0) then DEV_ST_ERR else DEV_ST_OK]> e.

(** * Properties *)

Definition is_flags (flags : Z) : Prop := 0 <= flags < 2 ^ 16.
(** Bit [k] of the word. *)
Definition err (flags k : Z) : bool := Z.testbit flags k.

Lemma flag_set f flags k : is_flags flags -> 0 <= k < 16 ->
  err (error_state_set f flags) k = err flags k || err f k.
Proof.
  intros Hf Hk. unfold err, error_state_set, u16. rewrite Z.mod_pow2_bits_low by lia. apply Z.lor_spec.
Qed.
Lemma flag_clear f flags k : is_flags flags -> 0 <= k < 16 ->
  err (error_state_clear f flags) k = err flags k && negb (err f k).
Proof.
  intros Hf Hk. unfold err, error_state_clear, u16. rewrite Z.mod_pow2_bits_low by lia. rewrite Z.land_spec, Z.lnot_spec by lia. done.
Qed.
Lemma set_flags f flags : is_flags (error_state_set f flags).
Proof. apply u16_range. Qed.
Lemma clear_flags f flags : is_flags (error_state_clear f flags).
Proof. apply u16_range. Qed.
#[export] Hint Resolve set_flags clear_flags : core.

(** Which condition [error_state_upgrade] gives each bit. *)
Definition detector_dead (i : check_inputs) : bool :=
  if temp_mode i =? 2 then (target_volt_wb i =? 0) || (target_volt_nb i =? 0)
  else if temp_mode i =? 0 then target_volt_wb i =? 0
  else if temp_mode i =? 1 then target_volt_nb i =? 0
  else false.
Definition heated (i : check_inputs) : bool := negb (f_eq (set_temp i) f_zero).
Definition too_hot (i : check_inputs) : bool := heated i && f_gt (internal_temp_spec i) (f32_of_Z 80).
Definition too_cold (i : check_inputs) : bool :=
  heated i && negb (f_gt (internal_temp_spec i) (f32_of_Z 80)) &&
  f_lt (internal_temp_spec i) (f32_sub (set_temp i) (f32_of_Z 20)).
Definition attenuated (i : check_inputs) : bool :=
  f_gt (f32_mul (attenuation i) (f32_of_Z 100)) (f32_of_Z (decay_rate i)).
Definition upgraded (i : check_inputs) (flags k : Z) : bool :=
  match k with
  | 0 => detector_dead i
  | 1 => too_hot i
  | 2 => too_cold i
  | 3 | 4 => err flags k && heated i
  | 6 => attenuated i
  | _ => err flags k
  end.


(** The bits of the constants, for the positions there are. *)
Ltac each_bit k Hk :=
  let H := fresh in
  assert (H : In k (map Z.of_nat (seq 0 16))) by (apply in_map_iff; exists (Z.to_nat k); rewrite in_seq; lia);
  cbn [map seq Z.of_nat Pos.of_succ_nat Pos.succ In] in H; clear Hk;
  repeat (destruct H as [<- | H]); try (by destruct H).
Ltac bits := rewrite ?flag_clear, ?flag_set by (auto || lia).


Lemma detector_check_eq i x :
  detector_check i x = (if detector_dead i then error_state_set else error_state_clear) ERR_DETECTOR_FAULT x.
Proof.
  unfold detector_check, detector_dead. destruct (Z.eqb_spec (temp_mode i) 2) as [->|]; cbn [Z.eqb andb].
  - by destruct (_ || _).
  - destruct (Z.eqb_spec (temp_mode i) 0) as [->|]; cbn [Z.eqb andb]; [by destruct (_ =? 0)|].
    destruct (temp_mode i =? 1); cbn [andb]; [|done]. by destruct (_ =? 0).
Qed.
Lemma heater_check_eq i x :
  heater_check i x =
  if heated i then
    if too_hot i then error_state_clear ERR_HEATER_LOW (error_state_set ERR_HEATER_HIGH x)
    else if too_cold i then error_state_clear ERR_HEATER_HIGH (error_state_set ERR_HEATER_LOW x)
    else error_state_clear ERR_HEATER_HIGH (error_state_clear ERR_HEATER_LOW x)
  else error_state_clear ERR_INTERNAL_LOW (error_state_clear ERR_INTERNAL_HIGH
         (error_state_clear ERR_HEATER_HIGH (error_state_clear ERR_HEATER_LOW x))).
Proof.
  unfold heater_check, too_cold, too_hot, heated. destruct (negb _); [|done]. cbn [andb].
  destruct (f_gt (internal_temp_spec i) _); [done|]. cbn [negb andb]. by destruct (f_lt _ _).
Qed.
Lemma detector_check_flags i x : is_flags (detector_check i x).
Proof. rewrite detector_check_eq. destruct (detector_dead i); auto. Qed.
Lemma heater_check_flags i x : is_flags (heater_check i x).
Proof. rewrite heater_check_eq. repeat case_match; auto. Qed.
#[export] Hint Resolve detector_check_flags heater_check_flags : core.

Lemma upgrade_bits i flags k : is_flags flags -> 0 <= k < 16 -> err (error_state_upgrade i flags) k = upgraded i flags k.
Proof.
  intros Hf Hk. unfold error_state_upgrade, attenuation_check. fold (attenuated i).
  assert (H : err (if attenuated i then error_state_set ERR_ATTEN_HIGH (heater_check i (detector_check i flags))
                   else error_state_clear ERR_ATTEN_HIGH (heater_check i (detector_check i flags))) k
    = if k =? 6 then attenuated i else err (heater_check i (detector_check i flags)) k).
  { destruct (attenuated i); bits; each_bit k Hk; cbn; by rewrite ?orb_false_r, ?andb_true_r, ?orb_true_r, ?andb_false_r. }
  rewrite H. clear H.
  assert (H : err (heater_check i (detector_check i flags)) k
    = match k with 1 => too_hot i | 2 => too_cold i | 3 | 4 => err (detector_check i flags) k && heated i
              | _ => err (detector_check i flags) k end).
  { rewrite heater_check_eq. assert (Hh : heated i = false -> too_hot i = false /\ too_cold i = false)
      by (unfold too_hot, too_cold; intros ->; done).
    assert (Hc : too_hot i = true -> too_cold i = false) by (unfold too_hot, too_cold; destruct (heated i), (f_gt _ _); done).
    destruct (heated i), (too_hot i), (too_cold i); try (by destruct Hh); try (by specialize (Hc eq_refl)); bits;
      each_bit k Hk; cbn; by rewrite ?orb_false_r, ?andb_true_r, ?orb_true_r, ?andb_false_r. }
  rewrite H. clear H. rewrite detector_check_eq. unfold upgraded.
  destruct (detector_dead i); bits; each_bit k Hk; cbn; by rewrite ?orb_false_r, ?andb_true_r, ?orb_true_r, ?andb_false_r.
Qed.

Lemma upgrade_flags i x : is_flags (error_state_upgrade i x).
Proof. unfold error_state_upgrade, attenuation_check. case_match; auto. Qed.

Lemma land_single flags j : 0 <= j -> (Z.land flags (2 ^ j) =? 0) = negb (err flags j).
Proof.
  intros Hj. unfold err. destruct (Z.testbit flags j) eqn:E; cbn [negb].
  - apply Z.eqb_neq. intros H. apply (f_equal (fun x => Z.testbit x j)) in H.
    rewrite Z.land_spec, E, Z.pow2_bits_true, Z.bits_0 in H by done. done.
  - apply Z.eqb_eq, Z.bits_inj'. intros n Hn. rewrite Z.land_spec, Z.pow2_bits_eqb, Z.bits_0 by done.
    destruct (Z.eqb_spec j n) as [<-|]; [by rewrite E|apply andb_false_r].
Qed.
(** The first error, from bit 0 on. *)
Fixpoint first_error (n : nat) (flags k : Z) : Z :=
  match n with
  | O => -1
  | S n => if err flags k then k else first_error n flags (k + 1)
  end.
Lemma highest_first flags : get_highest_error_index flags = first_error 7 flags 0.
Proof.
  unfold get_highest_error_index.
  change ERR_DETECTOR_FAULT with (2 ^ 0). change ERR_HEATER_HIGH with (2 ^ 1). change ERR_HEATER_LOW with (2 ^ 2).
  change ERR_INTERNAL_HIGH with (2 ^ 3). change ERR_INTERNAL_LOW with (2 ^ 4). change ERR_ENERGY_LOW with (2 ^ 5).
  change ERR_ATTEN_HIGH with (2 ^ 6). rewrite !land_single, !negb_involutive by lia. reflexivity.
Qed.

(** One pass of [error_state_upgrade]: each bit of the error word is the
    condition it stands for (detector without voltage in the measuring mode,
    heater above 80 degrees or 20 below its target, attenuation above the
    limit), the two internal errors are cleared only when the heater is off and
    never set, the energy error is left to the measurement; and the index the
    display and the analogue output use is the lowest error bit. *)
Theorem error_word_spec i flags : is_flags flags ->
  let flags' := error_state_upgrade i flags in
  is_flags flags' /\
  err flags' 0 = detector_dead i /\ err flags' 1 = too_hot i /\ err flags' 2 = too_cold i /\
  (forall k, k = 3 \/ k = 4 -> err flags' k = err flags k && heated i) /\
  err flags' 5 = err flags 5 /\ err flags' 6 = attenuated i /\
  let h := get_highest_error_index flags' in
  (h = -1 /\ forall k, 0 <= k < 7 -> err flags' k = false) \/
  (0 <= h < 7 /\ err flags' h = true /\ forall k, 0 <= k < h -> err flags' k = false).
Proof.
  intros Hf flags'. pose proof (fun k => upgrade_bits i flags k Hf) as Hb. fold flags' in Hb.
  split; [apply upgrade_flags|].
  split; [apply (Hb 0); lia|]. split; [apply (Hb 1); lia|]. split; [apply (Hb 2); lia|].
  split; [intros k [-> | ->]; [apply (Hb 3)|apply (Hb 4)]; lia|]. split; [apply (Hb 5); lia|]. split; [apply (Hb 6); lia|].
  cbn zeta. rewrite highest_first. clear Hb Hf.
  assert (G : forall n k, let h := first_error n flags' k in
    (h = -1 /\ forall j, k <= j < k + Z.of_nat n -> err flags' j = false) \/
    (k <= h < k + Z.of_nat n /\ err flags' h = true /\ forall j, k <= j < h -> err flags' j = false)).
  { induction n as [|n IH]; intros k; cbn [first_error]; [left; split; [done|]; intros j; lia|].
    destruct (err flags' k) eqn:E; [right; split; [lia|]; split; [done|]; intros j; lia|].
    destruct (IH (k + 1)) as [[-> H]|(H1 & H2 & H3)].
    - left. split; [done|]. intros j Hj. destruct (decide (j = k)) as [->|]; [done|]. apply H. lia.
    - right. split; [lia|]. split; [done|]. intros j Hj. destruct (decide (j = k)) as [->|]; [done|]. apply H3. lia. }
  exact (G 7%nat 0).
Qed.
Lemma error_word_spec_witness :
  err (error_state_upgrade (mk_inputs 2 0 5 f_zero f_zero f_zero 10) error_flags_start) 0 = true.
Proof.
  destruct (error_word_spec (mk_inputs 2 0 5 f_zero f_zero f_zero 10) error_flags_start) as (_ & H & _).
  - split; reflexivity || discriminate.
  - exact H.
Defined.

(** What happens to the word while the device runs: the check once a second,
    and the measurement's reports of energy and detector. *)
Inductive error_event := Check (i : check_inputs) | Report_set (f : Z) | Report_clear (f : Z).
Definition error_step (flags : Z) (e : error_event) : Z :=
  match e with
  | Check i => error_state_upgrade i flags
  | Report_set f => error_state_set f flags
  | Report_clear f => error_state_clear f flags
  end.
(** The measurement's flags; the heater is switched on (its default is 50). *)
Definition running_heated (e : error_event) : Prop :=
  match e with
  | Check i => heated i = true
  | Report_set f | Report_clear f => f = ERR_ENERGY_LOW \/ f = ERR_DETECTOR_FAULT
  end.

Lemma heated_run l : Forall running_heated l ->
  let flags := fold_left error_step l error_flags_start in
  is_flags flags /\ err flags 3 = true /\ err flags 4 = true.
Proof.
  intros Hl. induction l as [|e l IH] using rev_ind; [split; [split; reflexivity || discriminate|done]|].
  apply Forall_app in Hl as [Hl He]. rewrite Forall_singleton in He. specialize (IH Hl).
  rewrite fold_left_app. cbn [fold_left]. set (x := fold_left _ l _) in *. destruct IH as (Hx & H3 & H4).
  destruct e as [i|f|f]; cbn [error_step running_heated] in *.
  - split; [apply upgrade_flags|].
    rewrite !upgrade_bits by (exact Hx || lia). cbn [upgraded]. by rewrite H3, H4, He.
  - split; [apply set_flags|]. rewrite !flag_set by (exact Hx || lia). by rewrite H3, H4.
  - split; [apply clear_flags|]. rewrite !flag_clear by (exact Hx || lia). rewrite H3, H4. by destruct He as [-> | ->].
Qed.
Lemma highest_low flags : err flags 3 = true -> 0 <= get_highest_error_index flags <= 3.
Proof.
  intros H3. rewrite highest_first. cbn [first_error]. change (0 + 1 + 1 + 1) with 3. rewrite H3.
  repeat case_match; lia.
Qed.

(** With the heater on, the error word never becomes clean.  All its bits
    are set at start; whatever the checks and the measurement report, both
    internal errors stay set, so there is always an error of index 3 or less:
    the analogue output and the display never leave the error state. *)
Theorem internal_error_sticks l : Forall running_heated l ->
  let flags := fold_left error_step l error_flags_start in
  err flags 3 = true /\ err flags 4 = true /\ 0 <= get_highest_error_index flags <= 3.
Proof.
  intros Hl. destruct (heated_run l Hl) as (_ & H3 & H4). split; [done|]. split; [done|]. by apply highest_low.
Qed.
Lemma internal_error_sticks_witness :
  get_highest_error_index (fold_left error_step
    [Check (mk_inputs 2 5 5 (f32_of_Z 50) (f32_of_Z 50) f_zero 10); Report_clear ERR_ENERGY_LOW; Report_clear ERR_DETECTOR_FAULT]
    error_flags_start) = 3 /\
  err (fold_left error_step [Check (mk_inputs 2 5 5 (f32_of_Z 50) (f32_of_Z 50) f_zero 10); Report_clear ERR_ENERGY_LOW]
    error_flags_start) 3 = true.
Proof.
  split; [vm_compute; reflexivity|].
  apply (internal_error_sticks [Check (mk_inputs 2 5 5 (f32_of_Z 50) (f32_of_Z 50) f_zero 10); Report_clear ERR_ENERGY_LOW]).
  repeat constructor; vm_compute; auto.
Defined.
