(* ===== verification/AnalogOut.v ===== *)
(** * ltc2606.c and analogout.c: the analogue output

    The DAC hangs on the software I2C bus of Eeprom.v.  [Ltc2606] is its driver
    with the device of the data sheet as an instance; [AnalogOut] decides what
    is put out: a value set by hand, a simulated temperature, the value of the
    highest error of SelfCheck.v, or the measured temperature, corrected by a
    two-point calibration. *)
From Stdlib Require Import ZifyBool.
From S2P Require Import Prelude CFloat Eeprom SelfCheck.

Module Ltc2606.

Definition LTC2606_I2C_ADDR : Z := 0x11.
Definition LTC2606_WRITE_UPDATE_COMMAND : Z := 0x30.

(** [(uint16_t)(volt * 65535.0f / 5000000.0f)]; outside of the type (and for
    NaN) the conversion is undefined. *)
Definition volt_to_dac_code (volt : spec_float) : option Z :=
  let x := f32_div (f32_mul volt (f32_of_Z 65535)) (f32_of_Z 5000000) in
  let code := f_trunc x (-1) 65536 in
  if f_is_nan x || (code <? 0) || (65535 <? code) then None else Some code.

Section Driver.
Context {D : Type} `{!I2cDevice D}.

(** Result: the device and the number of bytes written. *)
Definition ltc2606_write (d : D) (dev_addr : Z) (buff : list Z) (len : nat) : option (D * Z) :=
  let d := si2c_start d in
  let '(d, r) := si2c_select d dev_addr SI2C_OP_WRITE in
  if negb (r =? 0) then Some (si2c_stop d, 0)
  else t ← si2c_tx d buff len; Some (si2c_stop (fst t), snd t).

(** [while (retry--) ...]; the fuel is the initial [retry] and one. *)
Fixpoint write_retry (fuel : nat) (d : D) (volt : spec_float) (retry ret : Z) : option (D * Z) :=
  match fuel with
  | O => None
  | S fuel =>
      let next := u8 (retry - 1) in
      if retry =? 0 then Some (d, if next =? 0 then 0 else ret)
      else
        dac_code ← volt_to_dac_code volt;
        t ← ltc2606_write d LTC2606_I2C_ADDR [LTC2606_WRITE_UPDATE_COMMAND; byte_1 dac_code; byte_0 dac_code] 3;
        if negb (snd t =? 0) then Some t else write_retry fuel (fst t) volt next (snd t)
  end.
Definition ltc2606_write_volt (d : D) (volt : spec_float) : option (D * Z) :=
  if f_gt volt (f32_of_Z 5000000) then Some (d, 0) else write_retry 4 d volt 3 0.
End Driver.

(** ** The device

    After its address in the write direction the DAC takes a command byte and
    two data bytes, high byte first; "write and update" (0011 in the upper
    half of the command) makes the data its output. *)
Inductive ltc_phase := Idle | Select | Command | High | Low | Done | Ignore.
Record ltc := mk_ltc { dac : Z; shift : Z; phase : ltc_phase }.
Definition ltc_put (d : ltc) (b : Z) : ltc :=
  match phase d with
  | Select => mk_ltc (dac d) 0 (if b =? 2 * LTC2606_I2C_ADDR then Command else Ignore)
  | Command => mk_ltc (dac d) b High
  | High => mk_ltc (dac d) (shift d * 256 + b) Low
  | Low =>
      let word := shift d * 256 + b in
      mk_ltc (if word / 2 ^ 20 =? 3 then word mod 2 ^ 16 else dac d) word Done
  | _ => d
  end.
#[global] Instance ltc2606 : I2cDevice ltc := {|
  dev_start d := mk_ltc (dac d) 0 Select;
  dev_stop d := mk_ltc (dac d) 0 Idle;
  dev_bits d bits := ltc_put d (bits_value bits);
  dev_sda d _ := match phase d with Ignore | Idle => true | _ => false end;
  dev_read d := (d, replicate 8 true);
  dev_ack d _ := d
|}.

(** A frame reaches the DAC's register. *)
Lemma tx_byte_ltc (d : ltc) b : is_byte b -> tx_byte d b = ltc_put d b.
Proof. intros Hb. unfold tx_byte. cbn [dev_bits ltc2606]. by rewrite (proj1 (byte_bits b Hb)). Qed.
Lemma rx_ack_ltc (d : ltc) : phase d <> Ignore -> phase d <> Idle -> rx_ack d SI2C_ACK_TIMEOUT = 0.
Proof. intros H1 H2. apply rx_ack_first. cbn. by destruct (phase d). Qed.

Lemma code_bytes code : 0 <= code < 65536 ->
  is_byte (byte_1 code) /\ is_byte (byte_0 code) /\ byte_1 code * 256 + byte_0 code = code.
Proof.
  intros Hc. rewrite byte_address, Z.mod_small by done. unfold byte_1, byte_0, is_byte.
  change 255 with (Z.ones 8). rewrite !Z.land_ones by lia. repeat split; apply Z.mod_pos_bound; lia.
Qed.

Lemma code_range volt code : volt_to_dac_code volt = Some code -> 0 <= code < 65536.
Proof.
  unfold volt_to_dac_code. cbn zeta. generalize (f_trunc (f32_div (f32_mul volt (f32_of_Z 65535)) (f32_of_Z 5000000)) (-1) 65536).
  intros z. case_match eqn:E; [done|]. intros [= <-]. apply orb_false_iff in E as [E H]. apply orb_false_iff in E as [_ E]. lia.
Qed.

Lemma write_frame (d : ltc) code : 0 <= code < 65536 ->
  ltc2606_write d LTC2606_I2C_ADDR [LTC2606_WRITE_UPDATE_COMMAND; byte_1 code; byte_0 code] 3
  = Some (mk_ltc code 0 Idle, 3).
Proof.
  intros Hc. destruct (code_bytes code Hc) as (H1 & H0 & E). unfold ltc2606_write, si2c_select.
  change (Z.lor (Z.shiftl (Z.land LTC2606_I2C_ADDR 127) 1) (Z.land SI2C_OP_WRITE 1)) with 34.
  rewrite tx_byte_ltc by done. change (ltc_put (si2c_start d) 34) with (mk_ltc (dac d) 0 Command).
  rewrite rx_ack_ltc by done. cbn [Z.eqb negb si2c_tx head tail mbind option_bind].
  rewrite tx_byte_ltc by done. cbn [ltc_put dac shift phase]. rewrite rx_ack_ltc by done. cbn [Z.eqb negb].
  rewrite tx_byte_ltc by done. cbn [ltc_put dac shift phase]. rewrite rx_ack_ltc by done. cbn [Z.eqb negb].
  rewrite tx_byte_ltc by done. cbn [ltc_put dac shift phase]. rewrite rx_ack_ltc by done. cbn [Z.eqb negb mbind option_bind fst snd].
  unfold si2c_stop. cbn [dev_stop ltc2606 dac].
  replace ((LTC2606_WRITE_UPDATE_COMMAND * 256 + byte_1 code) * 256 + byte_0 code) with (48 * 65536 + code)
    by (unfold LTC2606_WRITE_UPDATE_COMMAND; lia).
  replace ((48 * 65536 + code) / 2 ^ 20) with 3 by (clear - Hc; zdm).
  replace ((48 * 65536 + code) mod 2 ^ 16) with code by (clear - Hc; zdm). done.
Qed.

(** Writing a voltage: the register holds its code; above 5 V nothing is sent
    and 0 is returned. *)
Lemma write_volt_ltc (d : ltc) volt :
  ltc2606_write_volt d volt =
  if f_gt volt (f32_of_Z 5000000) then Some (d, 0)
  else code ← volt_to_dac_code volt; Some (mk_ltc code 0 Idle, 3).
Proof.
  unfold ltc2606_write_volt. destruct (f_gt volt _); [done|]. cbn [write_retry Z.eqb].
  destruct (volt_to_dac_code volt) as [code|] eqn:E; [|done]. cbn [mbind option_bind].
  rewrite write_frame by (by apply (code_range volt)). done.
Qed.
End Ltc2606.
Import Ltc2606.

(** ** analogout.c *)

Definition ANA_OUT_AUTO : Z := 60000000.
Definition ANA_0_20MA : Z := 48.
Definition ANA_4_20MA : Z := 52.
Definition ANA_0_10V : Z := 53.
Definition ANA_ITOV_COEF : spec_float := f32_lit 2 10.
Definition ANA_VTOV_COEF : spec_float := f32_lit 5 10.
Definition ANA_VOLT_RANGE_MAX : Z := 10.
Definition ANA_VOLT_RANGE_MIN : Z := 1.
Definition CALIB_VOLT_HIGH : Z := 9500000.
Definition CALIB_VOLT_LOW : Z := 1000000.
Definition CALIB_CURRENT_HIGH : Z := 19500000.
Definition CALIB_CURRENT_LOW : Z := 1000000.

Record ana_status_t := mk_status_t {
  temp_upper : Z; temp_lower : Z; current_range : Z; current_a : spec_float; current_b : spec_float;
  voltage_range : Z; voltage_a : spec_float; voltage_b : spec_float }.
(** [sys_para.ana] without the members no code reads. *)
Record ana_para_t := mk_ana_para {
  type : Z; upper : spec_float; lower : spec_float;
  exceed_min : spec_float; exceed_max : spec_float;
  real_curt_2ma : Z; real_curt_20ma : Z; real_volt_1v : Z; real_volt_10v : Z }.
(** The members of [sys_state] that the output reads and writes, and the other
    components' state it uses. *)
Record ana_t (D : Type) := mk_ana {
  ana_curt_value : Z; ana_volt_value : Z; ana_calib_flag : Z; ana_calib_value : Z;
  ana_temp_convert_flag : Z; ana_temp_convert_value : spec_float; target_temp : spec_float;
  dev_error : list Z; error_flags : Z; status : ana_status_t; dac_dev : D }.
Arguments mk_ana {D}. Arguments ana_curt_value {D}. Arguments ana_volt_value {D}. Arguments ana_calib_flag {D}.
Arguments ana_calib_value {D}. Arguments ana_temp_convert_flag {D}. Arguments ana_temp_convert_value {D}.
Arguments target_temp {D}. Arguments dev_error {D}. Arguments error_flags {D}. Arguments status {D}. Arguments dac_dev {D}.

(** Assignments to members. *)
Definition set_auto {D} (s : ana_t D) : ana_t D :=
  mk_ana ANA_OUT_AUTO ANA_OUT_AUTO (ana_calib_flag s) (ana_calib_value s) (ana_temp_convert_flag s)
    (ana_temp_convert_value s) (target_temp s) (dev_error s) (error_flags s) (status s) (dac_dev s).
Definition set_status {D} (st : ana_status_t) (s : ana_t D) : ana_t D :=
  mk_ana (ana_curt_value s) (ana_volt_value s) (ana_calib_flag s) (ana_calib_value s) (ana_temp_convert_flag s)
    (ana_temp_convert_value s) (target_temp s) (dev_error s) (error_flags s) st (dac_dev s).
Definition set_calib_flag {D} (x : Z) (s : ana_t D) : ana_t D :=
  mk_ana (ana_curt_value s) (ana_volt_value s) x (ana_calib_value s) (ana_temp_convert_flag s)
    (ana_temp_convert_value s) (target_temp s) (dev_error s) (error_flags s) (status s) (dac_dev s).
Definition set_dev_error {D} (i : nat) (x : Z) (s : ana_t D) : ana_t D :=
  mk_ana (ana_curt_value s) (ana_volt_value s) (ana_calib_flag s) (ana_calib_value s) (ana_temp_convert_flag s)
    (ana_temp_convert_value s) (target_temp s) (<[i := x]> (dev_error s)) (error_flags s) (status s) (dac_dev s).
Definition set_dac {D} (d : D) (s : ana_t D) : ana_t D :=
  mk_ana (ana_curt_value s) (ana_volt_value s) (ana_calib_flag s) (ana_calib_value s) (ana_temp_convert_flag s)
    (ana_temp_convert_value s) (target_temp s) (dev_error s) (error_flags s) (status s) d.

Definition ana_threshold_range (p : ana_para_t) (st : ana_status_t) : ana_status_t :=
  mk_status_t (temp_upper st) (temp_lower st)
    (if type p =? ANA_0_20MA then 20 - 0 else if type p =? ANA_4_20MA then 20 - 4 else current_range st)
    (current_a st) (current_b st) (ANA_VOLT_RANGE_MAX - ANA_VOLT_RANGE_MIN) (voltage_a st) (voltage_b st).

Definition get_current_calib_para {D} (p : ana_para_t) (s : ana_t D) : ana_t D :=
  let s := set_auto s in
  let current_low := f32_of_Z (real_curt_2ma p) in
  let current_high := f32_of_Z (real_curt_20ma p) in
  let a := f32_div (f32_sub current_high current_low) (f32_of_Z (CALIB_CURRENT_HIGH - CALIB_CURRENT_LOW)) in
  let b := f32_sub current_high (f32_mul a (f32_of_Z CALIB_CURRENT_HIGH)) in
  let st := status s in
  set_status (mk_status_t (temp_upper st) (temp_lower st) (current_range st) a b (voltage_range st) (voltage_a st) (voltage_b st)) s.
Definition get_voltage_calib_para {D} (p : ana_para_t) (s : ana_t D) : ana_t D :=
  let s := set_auto s in
  let volt_low := f32_of_Z (real_volt_1v p) in
  let volt_high := f32_of_Z (real_volt_10v p) in
  let a := f32_div (f32_sub volt_high volt_low) (f32_of_Z (CALIB_VOLT_HIGH - CALIB_VOLT_LOW)) in
  let b := f32_sub volt_high (f32_mul a (f32_of_Z CALIB_VOLT_HIGH)) in
  let st := status s in
  set_status (mk_status_t (temp_upper st) (temp_lower st) (current_range st) (current_a st) (current_b st) (voltage_range st) a b) s.

(** Bus initialisation is hardware. *)
Definition anolog_out_init {D} (p : ana_para_t) (s : ana_t D) : ana_t D :=
  let s := set_auto s in
  let st := status s in
  let st := mk_status_t (f_to_s32 (f32_mul (upper p) (f32_of_Z 100))) (f_to_s32 (f32_mul (lower p) (f32_of_Z 100)))
              (current_range st) (current_a st) (current_b st) (voltage_range st) (voltage_a st) (voltage_b st) in
  let s := set_status (ana_threshold_range p st) s in
  if negb (type p =? ANA_0_10V) then get_current_calib_para p s else get_voltage_calib_para p s.

(** The value of [bsp_val] before the calibration test. *)
Definition scaled_output (p : ana_para_t) (st : ana_status_t) (real_temp : Z) : spec_float :=
  let current := negb (type p =? ANA_0_10V) in
  if real_temp <? temp_lower st then
    if current then (if type p =? ANA_4_20MA then f32_of_Z 4 else f_zero) else f32_of_Z 1
  else if real_temp >? temp_upper st then (if current then f32_of_Z 20 else f32_of_Z 10)
  else
    let v := f32_div (f32_of_Z (s32 (real_temp - temp_lower st))) (f32_of_Z (s32 (temp_upper st - temp_lower st))) in
    if current then
      let current := f32_mul v (f32_of_Z (current_range st)) in
      if type p =? ANA_4_20MA then f32_add current (f32_of_Z 4) else current
    else f32_add (f32_mul v (f32_of_Z (voltage_range st))) (f32_of_Z ANA_VOLT_RANGE_MIN).

Definition anolog_temp_convert {D} (p : ana_para_t) (temp : spec_float) (s : ana_t D) : ana_t D * spec_float :=
  let '(s, real_temp) :=
    if ana_temp_convert_flag s =? 1
    then (set_calib_flag 0 s, f_to_s32 (f32_mul (ana_temp_convert_value s) (f32_of_Z 100)))
    else (s, f_to_s32 (f32_mul temp (f32_of_Z 100))) in
  let bsp_val := scaled_output p (status s) real_temp in
  if ana_calib_flag s =? 1 then (s, f32_div (f32_of_Z (ana_calib_value s)) (f32_of_Z 1000000)) else (s, bsp_val).

(** [*err_table[i].analog_output[k]] *)
Definition limit_value (p : ana_para_t) (l : ana_limit) : spec_float :=
  match l with exceed_max_range => exceed_max p | exceed_min_range => exceed_min p | min_0_20ma => f_zero end.

(** [f_value] when it reaches the range test. *)
Definition output_value {D} (p : ana_para_t) (s : ana_t D) : option (ana_t D * spec_float) :=
  let million := f32_of_Z 1000000 in
  if negb (type p =? ANA_0_10V) then
    if ana_curt_value s =? ANA_OUT_AUTO then
      r ← (if ana_temp_convert_flag s =? 1 then Some (anolog_temp_convert p (target_temp s) s)
           else
             let err_index := get_highest_error_index (error_flags s) in
             if (0 <=? err_index) && (err_index <? ERROR_ALL_CNT) then
               e ← err_table !! Z.to_nat err_index;
               Some (s, limit_value p (if type p =? ANA_4_20MA then snd (analog_output e) else fst (analog_output e)))
             else Some (anolog_temp_convert p (target_temp s) s));
      let '(s, v) := r in
      let v := f32_mul v million in
      Some (s, f32_mul (f32_div (f32_sub v (current_b (status s))) (current_a (status s))) ANA_ITOV_COEF)
    else Some (s, f32_mul (f32_of_Z (ana_curt_value s)) ANA_ITOV_COEF)
  else
    if ana_volt_value s =? ANA_OUT_AUTO then
      let '(s, v) := anolog_temp_convert p (target_temp s) s in
      let v := f32_mul v million in
      Some (s, f32_mul (f32_div (f32_sub v (voltage_b (status s))) (voltage_a (status s))) ANA_VTOV_COEF)
    else Some (s, f32_mul (f32_of_Z (ana_volt_value s)) ANA_VTOV_COEF).

Definition anolog_output {D} `{!I2cDevice D} (p : ana_para_t) (s : ana_t D) : option (ana_t D) :=
  r ← output_value p s;
  let '(s, f_value) := r in
  let s := set_dev_error DEV_ERR_ANA_OUTRANGE (if f_gt f_value (f32_of_Z 5000000) then DEV_ST_ERR else DEV_ST_OK) s in
  w ← ltc2606_write_volt (dac_dev s) f_value;
  let s := set_dac (fst w) s in
  Some (set_dev_error DEV_ERR_LTC2606 (if snd w =? 0 then DEV_ST_ERR else DEV_ST_OK) s).

(** The factory parameters (4-20 mA over 800 to 2800 degrees) at power-up. *)
Definition ana_default : ana_para_t :=
  mk_ana_para ANA_4_20MA (f32_of_Z 2800) (f32_of_Z 800) (f32_lit 25 10) (f32_of_Z 21) 1000000 19500000 1000000 10000000.
Definition ana_reset (t : spec_float) (flags : Z) : ana_t ltc :=
  mk_ana 0 0 0 0 0 f_zero t (replicate 9 DEV_ST_OK) flags
    (mk_status_t 0 0 0 f_zero f_zero 0 f_zero f_zero) (mk_ltc 0 0 Idle).

(** * Properties *)

Definition volt_mode (p : ana_para_t) : bool := type p =? ANA_0_10V.
(** The temperature that is put out, in hundredths of a degree. *)
Definition shown_temp {D} (s : ana_t D) : Z :=
  if ana_temp_convert_flag s =? 1 then f_to_s32 (f32_mul (ana_temp_convert_value s) (f32_of_Z 100))
  else f_to_s32 (f32_mul (target_temp s) (f32_of_Z 100)).
Definition calib_test {D} (s : ana_t D) : bool := negb (ana_temp_convert_flag s =? 1) && (ana_calib_flag s =? 1).
(** A wanted current [v] (mA) as the microvolts that give it on this board. *)
Definition corrected {D} (s : ana_t D) (v : spec_float) : spec_float :=
  f32_mul (f32_div (f32_sub (f32_mul v (f32_of_Z 1000000)) (current_b (status s))) (current_a (status s))) ANA_ITOV_COEF.
Definition corrected_volt {D} (s : ana_t D) (v : spec_float) : spec_float :=
  f32_mul (f32_div (f32_sub (f32_mul v (f32_of_Z 1000000)) (voltage_b (status s))) (voltage_a (status s))) ANA_VTOV_COEF.
(** What the temperature asks for (mA or V), unless a calibration value is tested. *)
Definition temp_demand {D} (p : ana_para_t) (s : ana_t D) : spec_float :=
  if calib_test s then f32_div (f32_of_Z (ana_calib_value s)) (f32_of_Z 1000000)
  else scaled_output p (status s) (shown_temp s).
(** The limit an error asks for. *)
Definition error_demand (p : ana_para_t) (h : Z) : spec_float :=
  if (h =? 0) || (h =? 1) || (h =? 3) then exceed_max p
  else if type p =? ANA_4_20MA then exceed_min p else f_zero.

(** Who decides on the output, in the order of priority. *)
Inductive demand {D} (p : ana_para_t) (s : ana_t D) : spec_float -> Prop :=
| demand_current : volt_mode p = false -> ana_curt_value s <> ANA_OUT_AUTO ->
    demand p s (f32_mul (f32_of_Z (ana_curt_value s)) ANA_ITOV_COEF)
| demand_volt : volt_mode p = true -> ana_volt_value s <> ANA_OUT_AUTO ->
    demand p s (f32_mul (f32_of_Z (ana_volt_value s)) ANA_VTOV_COEF)
| demand_simulated : volt_mode p = false -> ana_curt_value s = ANA_OUT_AUTO -> ana_temp_convert_flag s = 1 ->
    demand p s (corrected s (temp_demand p s))
| demand_error h : volt_mode p = false -> ana_curt_value s = ANA_OUT_AUTO -> ana_temp_convert_flag s <> 1 ->
    0 <= h < 7 -> err (error_flags s) h = true -> (forall k, 0 <= k < h -> err (error_flags s) k = false) ->
    demand p s (corrected s (error_demand p h))
| demand_temp : volt_mode p = false -> ana_curt_value s = ANA_OUT_AUTO -> ana_temp_convert_flag s <> 1 ->
    (forall k, 0 <= k < 7 -> err (error_flags s) k = false) ->
    demand p s (corrected s (temp_demand p s))
| demand_temp_volt : volt_mode p = true -> ana_volt_value s = ANA_OUT_AUTO ->
    demand p s (corrected_volt s (temp_demand p s)).

Lemma convert_eq {D} p t (s : ana_t D) : t = target_temp s ->
  anolog_temp_convert p t s =
  (if ana_temp_convert_flag s =? 1 then set_calib_flag 0 s else s, temp_demand p s).
Proof.
  intros ->. unfold anolog_temp_convert, temp_demand, calib_test, shown_temp.
  destruct (ana_temp_convert_flag s =? 1); cbn [negb andb]; [reflexivity|]. by destruct (ana_calib_flag s =? 1).
Qed.

Lemma error_row p h : 0 <= h < 7 ->
  (e ← err_table !! Z.to_nat h;
   Some (limit_value p (if type p =? ANA_4_20MA then snd (analog_output e) else fst (analog_output e))))
  = Some (error_demand p h).
Proof.
  intros Hh. assert (H : In h [0; 1; 2; 3; 4; 5; 6]) by (cbn; lia). cbn [In] in H. unfold error_demand.
  repeat (destruct H as [<- | H]; [cbn; by destruct (type p =? ANA_4_20MA)|]). done.
Qed.

(** A simulated temperature ends a calibration test. *)
Definition test_done {D} (p : ana_para_t) (s : ana_t D) : ana_t D :=
  let auto := if volt_mode p then ana_volt_value s =? ANA_OUT_AUTO else ana_curt_value s =? ANA_OUT_AUTO in
  if auto && (ana_temp_convert_flag s =? 1) then set_calib_flag 0 s else s.

Lemma first_error_is n flags : forall k h, k <= h < k + Z.of_nat n -> err flags h = true ->
  (forall j, k <= j < h -> err flags j = false) -> first_error n flags k = h.
Proof.
  induction n as [|n IH]; intros k h Hh He Hlow; [lia|]. cbn [first_error].
  destruct (err flags k) eqn:Ek.
  - destruct (decide (k = h)) as [->|]; [done|]. rewrite Hlow in Ek by lia. done.
  - apply IH; [|done|intros j Hj; apply Hlow; lia]. destruct (decide (k = h)) as [->|]; [congruence|lia].
Qed.
Lemma first_error_none n flags : forall k, (forall j, k <= j < k + Z.of_nat n -> err flags j = false) -> first_error n flags k = -1.
Proof.
  induction n as [|n IH]; intros k H; [done|]. cbn [first_error]. rewrite H by lia. apply IH. intros j Hj. apply H. lia.
Qed.

Lemma demanded {D} p (s : ana_t D) v : demand p s v -> output_value p s = Some (test_done p s, v).
Proof.
  intros Hd. unfold output_value, test_done. fold (volt_mode p).
  destruct Hd as [Hm Hc|Hm Hc|Hm Hc Hf|h Hm Hc Hf Hh He Hlow|Hm Hc Hf Hno|Hm Hc]; rewrite Hm; cbn [negb].
  - rewrite (proj2 (Z.eqb_neq _ _) Hc). done.
  - rewrite (proj2 (Z.eqb_neq _ _) Hc). done.
  - rewrite Hc, Hf, Z.eqb_refl. cbn [andb Z.eqb Pos.eqb]. rewrite convert_eq, Hf by done. done.
  - rewrite Hc, Z.eqb_refl, (proj2 (Z.eqb_neq _ _) Hf). cbn [andb].
    rewrite highest_first, (first_error_is 7 _ 0 h) by (done || lia).
    rewrite (proj2 (Z.leb_le 0 h)), (proj2 (Z.ltb_lt h _)) by (unfold ERROR_ALL_CNT; lia). cbn [andb].
    pose proof (error_row p h Hh) as Hr. destruct (err_table !! Z.to_nat h) as [e|]; [|done].
    injection Hr as Hr. cbn [mbind option_bind]. by rewrite Hr.
  - rewrite Hc, Z.eqb_refl, (proj2 (Z.eqb_neq _ _) Hf). cbn [andb].
    rewrite highest_first, (first_error_none 7 _ 0) by (intros j Hj; apply Hno; lia). cbn [Z.leb andb Z.compare].
    rewrite convert_eq by done. rewrite (proj2 (Z.eqb_neq _ _) Hf). done.
  - rewrite Hc, Z.eqb_refl. cbn [andb]. rewrite convert_eq by done. by destruct (ana_temp_convert_flag s =? 1).
Qed.

Lemma demand_total {D} p (s : ana_t D) : exists v, demand p s v.
Proof.
  destruct (volt_mode p) eqn:Hm.
  { destruct (decide (ana_volt_value s = ANA_OUT_AUTO)); eexists; [by apply demand_temp_volt|by apply demand_volt]. }
  destruct (decide (ana_curt_value s = ANA_OUT_AUTO)) as [Hc|]; [|by eexists; apply demand_current].
  destruct (decide (ana_temp_convert_flag s = 1)) as [|Hf]; [by eexists; apply demand_simulated|].
  assert (H : forall n k, (exists h, k <= h < k + Z.of_nat n /\ err (error_flags s) h = true /\
      forall j, k <= j < h -> err (error_flags s) j = false) \/
    forall j, k <= j < k + Z.of_nat n -> err (error_flags s) j = false).
  { induction n as [|n IH]; intros k; [right; intros; lia|].
    destruct (err (error_flags s) k) eqn:Ek; [left; exists k; repeat split; try lia; done|].
    destruct (IH (k + 1)) as [(h & Hh & He & Hl)|Hn].
    - left. exists h. split; [lia|]. split; [done|]. intros j Hj. destruct (decide (j = k)) as [->|]; [done|]. apply Hl. lia.
    - right. intros j Hj. destruct (decide (j = k)) as [->|]; [done|]. apply Hn. lia. }
  destruct (H 7%nat 0) as [(h & Hh & He & Hl)|Hn]; eexists; [by apply (demand_error p s h)|by apply demand_temp].
Qed.


(** An internal-temperature error decides on the current output, whatever the
    temperature [t]. *)
Definition with_temp {D} (t : spec_float) (flags : Z) (s : ana_t D) : ana_t D :=
  mk_ana (ana_curt_value s) (ana_volt_value s) (ana_calib_flag s) (ana_calib_value s) (ana_temp_convert_flag s)
    (ana_temp_convert_value s) t (dev_error s) flags (status s) (dac_dev s).
Lemma error_output {D} p (s : ana_t D) flags : err flags 3 = true ->
  volt_mode p = false -> ana_curt_value s = ANA_OUT_AUTO -> ana_temp_convert_flag s <> 1 ->
  exists h, 0 <= h <= 3 /\ forall t,
    output_value p (with_temp t flags s) = Some (with_temp t flags s, corrected s (error_demand p h)).
Proof.
  intros H3 Hm Hc Hf. pose proof (highest_low _ H3) as Hh. exists (get_highest_error_index flags). split; [done|].
  intros t. unfold output_value. fold (volt_mode p). cbn [with_temp ana_curt_value ana_temp_convert_flag error_flags].
  rewrite Hm, Hc, Z.eqb_refl, (proj2 (Z.eqb_neq _ _) Hf). cbn [negb].
  rewrite (proj2 (Z.leb_le 0 _)), (proj2 (Z.ltb_lt _ ERROR_ALL_CNT)) by (unfold ERROR_ALL_CNT; lia). cbn [andb].
  pose proof (error_row p _ ltac:(split; [exact (proj1 Hh)|lia])) as Hr. destruct (err_table !! _) as [e|]; [|done].
  injection Hr as Hr. cbn [mbind option_bind]. by rewrite Hr.
Qed.
(** With the factory calibration 800 to 2800 degrees are 4 to 20 mA; with the
    error word of a fresh start every temperature is 21 mA. *)
Example default_output :
  (let code t fl := option_map (fun s => dac (dac_dev s))
     (anolog_output ana_default (anolog_out_init ana_default (ana_reset (f32_of_Z t) fl))) in
   map (fun t => code t 0) [700; 800; 1800; 2800; 2900] ++ map (fun t => code t error_flags_start) [800; 2800])
  = [Some 10485; Some 10485; Some 31456; Some 52428; Some 52428; Some 55049; Some 55049].
Proof. vm_compute. reflexivity. Qed.
(** Both limits at 1000 degrees, and exactly 1000 degrees measured. *)
Example equal_limits_undefined :
  (let p := mk_ana_para ANA_4_20MA (f32_of_Z 1000) (f32_of_Z 1000) f_zero f_zero 1000000 19500000 1000000 10000000 in
   map (fun t => match anolog_output p (anolog_out_init p (ana_reset (f32_of_Z t) 0)) with Some _ => true | None => false end)
     [999; 1000; 1001]) = [true; false; true].
Proof. vm_compute. reflexivity. Qed.
