(* ===== verification/Libm.v ===== *)
(** * The C library's [log], [exp] and [pow]

    Their accuracy is the library's: what the program relies on is the class
    [Libm], whose laws are the special values of the C standard (Annex F).  The
    instance [series] computes them by series, so that every definition that
    uses them can be evaluated. *)
From Stdlib Require Import ZifyBool.
From S2P Require Import Prelude CFloat.

Definition f64_one : spec_float := f64_of_Z 1.
Definition f_negative (x : spec_float) : bool :=
  match x with S754_finite true _ _ | S754_infinity true => true | _ => false end.

Class Libm := {
  c_log : spec_float -> spec_float;
  c_exp : spec_float -> spec_float;
  c_pow : spec_float -> spec_float -> spec_float;
  log_one : c_log f64_one = f_zero;
  log_zero b : c_log (S754_zero b) = S754_infinity true;
  log_negative x : f_negative x = true -> c_log x = S754_nan;
  exp_zero b : c_exp (S754_zero b) = f64_one;
  pow_zero x b : c_pow x (S754_zero b) = f64_one
}.

(** ** An instance *)

Definition f64_ln2 : spec_float := f64_lit 693147180559945309417232121458 1000000000000000000000000000000.

(** [t + t^3/3 + t^5/5 + ...], [n] terms, from [k] on; [p] is [t^k]. *)
Fixpoint atanh_sum (n : nat) (t2 p : spec_float) (k : Z) : spec_float :=
  match n with
  | O => f_zero
  | S n => f64_add (f64_div p (f64_of_Z k)) (atanh_sum n t2 (f64_mul p t2) (k + 2))
  end.
Definition series_log (x : spec_float) : spec_float :=
  match x with
  | S754_zero _ => S754_infinity true
  | S754_infinity false => S754_infinity false
  | S754_finite false m e =>
      let d := Z.pos (Pos.size m) - 1 in
      let y := binary_normalize f64_prec f64_emax (Z.pos m) (- d) false in
      let t := f64_div (f64_sub y f64_one) (f64_add y f64_one) in
      let l := f64_mul (f64_of_Z 2) (atanh_sum 20 (f64_mul t t) t 1) in
      f64_add (f64_mul (f64_of_Z (e + d)) f64_ln2) l
  | _ => S754_nan
  end.

(** [1 + r/1 (1 + r/2 (1 + ...))] *)
Fixpoint exp_sum (n : nat) (r : spec_float) (k : Z) : spec_float :=
  match n with
  | O => f64_one
  | S n => f64_add f64_one (f64_mul (f64_div r (f64_of_Z k)) (exp_sum n r (k + 1)))
  end.
Definition series_exp (x : spec_float) : spec_float :=
  match x with
  | S754_zero _ => f64_one
  | S754_infinity s => if s then f_zero else x
  | S754_nan => S754_nan
  | S754_finite _ _ _ =>
      let k := f_trunc (f64_div x f64_ln2) (-2000) 2000 in
      let r := f64_sub x (f64_mul (f64_of_Z k) f64_ln2) in
      SFldexp f64_prec f64_emax (exp_sum 22 r 1) k
  end.

Fixpoint pow_pos (x : spec_float) (n : positive) : spec_float :=
  match n with
  | xH => x
  | xO n => let y := pow_pos x n in f64_mul y y
  | xI n => let y := pow_pos x n in f64_mul x (f64_mul y y)
  end.
Definition series_pow (x y : spec_float) : spec_float :=
  let n := f_trunc y (- 2 ^ 31) (2 ^ 31) in
  if f_eq y f_zero then f64_one
  else if f_eq y (f64_of_Z n) then
    match n with
    | Zpos n => pow_pos x n
    | Zneg n => f64_div f64_one (pow_pos x n)
    | Z0 => f64_one
    end
  else series_exp (f64_mul y (series_log x)).

#[export] Instance series : Libm.
Proof.
  refine {| c_log := series_log; c_exp := series_exp; c_pow := series_pow |}.
  - vm_compute. reflexivity.
  - done.
  - intros [ | [] | | [] ]; done.
  - done.
  - intros x []; done.
Defined.

(** Six digits of [log 2], [e], [10^-5] and [sqrt 2]. *)
Definition digits6 (x : spec_float) : Z := f_to_s64 (f64_mul x (f64_of_Z 1000000)).
Example series_ex :
  (digits6 (c_log (f64_of_Z 2)), digits6 (c_exp f64_one), digits6 (c_pow (f64_of_Z 10) (f64_of_Z (-5))),
   digits6 (c_pow (f64_of_Z 2) (f64_lit 1 2)), digits6 (c_exp (c_log (f64_of_Z 1000))))
  = (693147, 2718281, 10, 1414213, 999999999).
Proof. vm_compute. reflexivity. Qed.
