(* ===== verification/Sensor.v ===== *)
(** * measure.c, ntc_cfg.h: from the converter to compensated voltages

    The conversion of the ADC's codes, normalisation by the gain, the
    extrapolation after a gain switch, the sliding filter with its history, the
    two thermistors and the compensation of the amplifier's temperature.
    Voltages are microvolts in [long long].  The code's arrays of structures
    over the channels are lists of [channel]s here; the gain switching itself is
    Tiag.v. *)
From Stdlib Require Import ZifyBool.
From S2P Require Import Prelude CFloat Filter Libm Tiag.

Definition AD7124_REF_EXTER1 : Z := 3300000.
Definition TEMP_HISTORY_CNT : nat := 50.
Definition NTC_TEMP_AVER_LEN : Z := 20.
Definition SENS_CH_NTC_SPEC : nat := 0.
Definition SENS_CH_NTC_TIA : nat := 1.

Record sens_spec_t := mk_spec {
  volt_raw : Z; volt_norm : Z; volt_filter : Z; last_volt_filter : Z; volt_compensate : Z }.
Record sens_ntc_t := mk_ntc { ntc_raw : Z; ntc_filter : Z }.
(** [circle_buffer_t] *)
Record circle_buffer_t := mk_circle { c_buff : list spec_float; c_front : Z; c_count : Z; buffer_size : Z }.

(** Everything the code keeps per channel: [sens_spec], [gain_compes_factor],
    [gain_sw_data] (its counters and its history), [slid_remove_volt] and the
    row of [filter_buffer]. *)
Record channel := mk_channel {
  spec : sens_spec_t; factor : spec_float; sw : gain_sw_data_t; history_volt : circle_buffer_t;
  slid : slid_remove_t; filter_buffer : list Z }.

Definition set_spec (d : sens_spec_t) (c : channel) : channel :=
  mk_channel d (factor c) (sw c) (history_volt c) (slid c) (filter_buffer c).
Definition set_norm (v : Z) (c : channel) : channel :=
  let d := spec c in set_spec (mk_spec (volt_raw d) v (volt_filter d) (last_volt_filter d) (volt_compensate d)) c.
Definition set_compensate (v : Z) (c : channel) : channel :=
  let d := spec c in set_spec (mk_spec (volt_raw d) (volt_norm d) (volt_filter d) (last_volt_filter d) v) c.
Definition set_filter (v : Z) (c : channel) : channel :=
  let d := spec c in set_spec (mk_spec (volt_raw d) (volt_norm d) v (last_volt_filter d) (volt_compensate d)) c.
Definition set_raw (v : Z) (c : channel) : channel :=
  let d := spec c in set_spec (mk_spec v (volt_norm d) (volt_filter d) (last_volt_filter d) (volt_compensate d)) c.
Definition set_sw (w : gain_sw_data_t) (c : channel) : channel :=
  mk_channel (spec c) (factor c) w (history_volt c) (slid c) (filter_buffer c).
Definition set_history (h : circle_buffer_t) (c : channel) : channel :=
  mk_channel (spec c) (factor c) (sw c) h (slid c) (filter_buffer c).

(** ** One sample of the converter *)

Definition adc_to_voltage (adc_value : Z) : spec_float :=
  f32_div (f32_mul (f32_of_Z adc_value) (f32_of_Z AD7124_REF_EXTER1)) (f32_of_Z (2 ^ 24)).

(** The dispatch of [sample_task]: channel number in the low four bits, 24 bits
    of data above the status byte. *)
Definition take_sample (data_with_status : Z) (l : list channel) (ntc : list sens_ntc_t) : list channel * list sens_ntc_t :=
  let ch_active := Z.land data_with_status 15 in
  let v := f_to_s64 (adc_to_voltage (Z.shiftr data_with_status 8)) in
  if ch_active =? 0 then (alter (set_raw v) 1%nat l, ntc)
  else if ch_active =? 2 then (alter (set_raw v) 0%nat l, ntc)
  else if ch_active =? 4 then (l, alter (fun d => mk_ntc v (ntc_filter d)) SENS_CH_NTC_SPEC ntc)
  else if ch_active =? 6 then (l, alter (fun d => mk_ntc v (ntc_filter d)) SENS_CH_NTC_TIA ntc)
  else (l, ntc).

(** ** Normalisation *)

Definition gain_factor (p : gain_para) (gain : Z) : spec_float :=
  if gain =? GAIN_M then f32_of_f64 (k_lm p)
  else if gain =? GAIN_H then f32_of_f64 (f64_mul (k_mh p) (k_lm p))
  else f32_of_f64 (f64_of_Z 1).

(** Per channel its parameters, its current gain and its data; -1 at the first
    channel with an implausible voltage, the ones before it already normalised. *)
Fixpoint volt_normalization (l : list (gain_para * Z * channel)) : list channel * Z :=
  match l with
  | [] => ([], 0)
  | (p, gain, c) :: l =>
      if (volt_raw (spec c) <? 0) || (3299999 <? volt_raw (spec c)) then (c :: map snd l, -1)
      else
        let k := gain_factor p gain in
        let v := f_to_s64 (f32_mul (f32_of_Z (volt_raw (spec c))) k) in
        let c := mk_channel (spec c) k (sw c) (history_volt c) (slid c) (filter_buffer c) in
        let '(l, r) := volt_normalization l in (set_norm v c :: l, r)
  end.

(** ** After a gain switch *)

Definition gain_status_init (l : list channel) : list channel :=
  map (fun c => set_sw (mk_sw (flag (sw c)) 0 0 0 0) (set_history (mk_circle (c_buff (history_volt c)) 0 0 20) c)) l.

Definition insert_count (w : gain_sw_data_t) : gain_sw_data_t :=
  if negb (gl_to_gm w =? 0) then mk_sw (flag w) (s32 (gl_to_gm w - 1)) (gm_to_gh w) (gm_to_gl w) (gh_to_gm w)
  else if negb (gm_to_gh w =? 0) then mk_sw (flag w) (gl_to_gm w) (s32 (gm_to_gh w - 1)) (gm_to_gl w) (gh_to_gm w)
  else if negb (gh_to_gm w =? 0) then mk_sw (flag w) (gl_to_gm w) (gm_to_gh w) (gm_to_gl w) (s32 (gh_to_gm w - 1))
  else if negb (gm_to_gl w =? 0) then mk_sw (flag w) (gl_to_gm w) (gm_to_gh w) (s32 (gm_to_gl w - 1)) (gh_to_gm w)
  else w.
Definition settling (w : gain_sw_data_t) : bool :=
  negb ((gl_to_gm w =? 0) && (gm_to_gh w =? 0) && (gh_to_gm w =? 0) && (gm_to_gl w =? 0)).

Definition insert_channel (c : channel) : option channel :=
  if settling (sw c) then
    let h := history_volt c in
    if buffer_size h =? 0 then None
    else
      let tail := u8 (Z.rem (s32 (c_front h + 1)) (buffer_size h)) in
      last ← ld (buff (slid c)) (Z.rem (s32 (front (slid c) - 1 + FILTER_LEN_MAX)) FILTER_LEN_MAX);
      new ← ld (c_buff h) (c_front h);
      old ← ld (c_buff h) tail;
      let slope := f32_div (f32_sub new old) (f32_sub (f32_of_Z (c_count h)) (f32_of_Z 1)) in
      Some (set_norm (f_to_s64 (f32_add (f32_of_Z last) slope)) (set_sw (insert_count (sw c)) c))
  else Some c.
Definition gain_temp_insert (l : list channel) : option (list channel) := mapM insert_channel l.

(** ** The sliding filter *)

(** The window length in use; 500, which the protocol allows, gives 25. *)
Definition filter_size (temp_filter_buf_size : Z) : Z :=
  if temp_filter_buf_size <? FILTER_LEN_MAX then temp_filter_buf_size else 25.

Definition push_history (h : circle_buffer_t) (v : spec_float) : option circle_buffer_t :=
  if buffer_size h <=? c_count h then
    if buffer_size h =? 0 then None
    else
      let f := Z.rem (s32 (c_front h + 1)) (buffer_size h) in
      b ← st (c_buff h) f v; Some (mk_circle b f (c_count h) (buffer_size h))
  else
    b ← st (c_buff h) (u32 (c_front h + c_count h)) v;
    Some (mk_circle b (c_front h) (u32 (c_count h + 1)) (buffer_size h)).

Section Filtering.
Context (rand : nat -> Z).

(** Result: the channel and the position of [rand()]. *)
Definition filter_channel (size : Z) (pos : nat) (c : channel) : option (channel * nat) :=
  r ← sliding_remove_average rand pos (slid c) size (volt_norm (spec c)) (filter_buffer c);
  let '(s, copy, v, pos) := r in
  h ← push_history (history_volt c) (f32_of_Z v);
  Some (set_filter v (mk_channel (spec c) (factor c) (sw c) h s copy), pos).
Fixpoint filter_channels (size : Z) (pos : nat) (l : list channel) : option (list channel * nat) :=
  match l with
  | [] => Some ([], pos)
  | c :: l =>
      r ← filter_channel size pos c;
      q ← filter_channels size (snd r) l;
      Some (fst r :: fst q, snd q)
  end.

(** [slid_remove_ntc_volt] and the first row of [filter_buffer_NTC]. *)
Record ntc_filter_t := mk_ntcf { slid_ntc : slid_remove_t; filter_buffer_NTC : list Z }.
Definition volt_remove_average_filter (temp_filter_buf_size : Z) (pos : nat) (l : list channel)
    (ntc : list sens_ntc_t) (f : ntc_filter_t) : option (list channel * list sens_ntc_t * ntc_filter_t * nat) :=
  r ← filter_channels (filter_size temp_filter_buf_size) pos l;
  d ← ntc !! SENS_CH_NTC_SPEC;
  q ← sliding_remove_average rand (snd r) (slid_ntc f) NTC_TEMP_AVER_LEN (ntc_raw d) (filter_buffer_NTC f);
  let '(s, copy, v, pos) := q in
  Some (fst r, <[SENS_CH_NTC_SPEC := mk_ntc (ntc_raw d) v]> ntc, mk_ntcf s copy, pos).
End Filtering.

(** ** Thermistors *)

Definition NTC_REF_VOL : Z := 2500000.
Definition NTC_REF_RES : Z := 4700.
Definition NTC_STD_TEMP : Z := 25.
Definition NTC_STD_RES : spec_float := f32_of_Z 100000.
Definition NTC_BX_VAL : spec_float := f32_of_Z 4100.
Definition A_ZERO : spec_float := f32_lit 27315 100.

Definition get_ntc_res (volt_uv : Z) : spec_float :=
  if (NTC_REF_VOL <=? volt_uv) || (volt_uv <=? 0) then f32_of_Z (-1)
  else f32_div (f32_mul (f32_of_Z volt_uv) (f32_of_Z NTC_REF_RES)) (f32_of_Z (u32 (NTC_REF_VOL - volt_uv))).

Section Temperature.
Context {LM : Libm}.

Definition get_ntc_temp (res_val_ohm : spec_float) : spec_float :=
  if f_le res_val_ohm f_zero then f32_of_Z (-275)
  else
    let log_res_ratio := f32_of_f64 (c_log (f64_of_f32 (f32_div res_val_ohm NTC_STD_RES))) in
    let reciprocal_temp :=
      f32_add (f32_div log_res_ratio NTC_BX_VAL)
              (f32_div (f32_of_Z 1) (f32_add A_ZERO (f32_of_Z NTC_STD_TEMP))) in
    f32_sub (f32_div (f32_of_Z 1) reciprocal_temp) A_ZERO.

(** [sys_state.internal_temp]; the diode's sensor is filtered, the amplifier's
    is not. *)
Definition get_internal_temp (ntc : list sens_ntc_t) : option (list spec_float) :=
  a ← ntc !! SENS_CH_NTC_SPEC;
  b ← ntc !! SENS_CH_NTC_TIA;
  Some [get_ntc_temp (get_ntc_res (u32 (ntc_filter a))); get_ntc_temp (get_ntc_res (u32 (ntc_raw b)))].

(** ** Compensation of the amplifier's temperature *)

(** Three coefficients of a channel, times 10^14, 10^11 and 10^12. *)
Definition ambient_coef (spec : Z) : option (spec_float * spec_float * spec_float) :=
  if spec =? 0 then Some (f64_lit (-206134814) (10 ^ 14), f64_lit 110086024 (10 ^ 11), f64_lit 839013272 (10 ^ 12))
  else if spec =? 1 then Some (f64_lit (-249380851) (10 ^ 14), f64_lit 871315941 (10 ^ 12), f64_lit 905925763 (10 ^ 12))
  else None.

Definition volts (microvolts : Z) : spec_float := f32_div (f32_of_Z microvolts) (f32_of_Z 1000000).

Definition internal_temp_power_compensate (temp_tia : spec_float) (raw_value spec : Z) : Z :=
  let in_value := f64_of_f32 (volts raw_value) in
  let coef_K :=
    match ambient_coef spec with
    | Some (a, b, c) =>
        f64_sub (f64_sub (f64_mul a (c_pow in_value (f64_of_Z 2))) (f64_mul b in_value)) c
    | None => f_zero
    end in
  let midIndexValue := f64_mul coef_K (f64_of_f32 (f32_sub temp_tia (f32_of_Z 45))) in
  f_to_s64 (f64_mul (f64_sub in_value midIndexValue) (f64_of_Z 1000000)).

(** Result: the channels and [sys_state.output_volt]. *)
Fixpoint internal_temp_calibrate (ambient_comp_ctl : Z) (temp_tia : spec_float) (i : Z) (l : list channel)
  : list channel * list Z :=
  match l with
  | [] => ([], [])
  | c :: l =>
      let v := if ambient_comp_ctl =? 1 then internal_temp_power_compensate temp_tia (volt_filter (spec c)) i
               else volt_filter (spec c) in
      let '(l, o) := internal_temp_calibrate ambient_comp_ctl temp_tia (i + 1) l in
      (set_compensate v c :: l, u32 v :: o)
  end.
End Temperature.

(** * Properties *)

Definition hist_wf (h : circle_buffer_t) : Prop :=
  buffer_size h = 20 /\ length (c_buff h) = TEMP_HISTORY_CNT /\ 0 <= c_front h < 20 /\ 0 <= c_count h <= 20 /\
  (c_count h < 20 -> c_front h = 0).
Definition chan_wf (c : channel) : Prop := slid_wf (slid c) /\ hist_wf (history_volt c).

Lemma push_history_wf h v : hist_wf h -> exists h', push_history h v = Some h' /\ hist_wf h'.
Proof.
  intros (Hb & Hl & Hf & Hc & H0). unfold push_history, hist_wf. rewrite Hb.
  destruct (Z.leb_spec 20 (c_count h)) as [Hge|Hlt]; cbn [Z.eqb].
  - rewrite s32_small, Z.rem_mod_nonneg by lia. pose proof (Z.mod_pos_bound (c_front h + 1) 20 ltac:(lia)) as Hm.
    unfold st. rewrite Hl. change (Z.of_nat TEMP_HISTORY_CNT) with 50.
    rewrite (proj2 (Z.leb_le 0 _)), (proj2 (Z.ltb_lt _ 50)) by lia. cbn [andb mbind option_bind].
    eexists. split; [done|]. cbn. rewrite length_insert. repeat split; try done; lia.
  - rewrite (H0 Hlt), !u32_small by lia. unfold st. rewrite Hl. change (Z.of_nat TEMP_HISTORY_CNT) with 50.
    rewrite (proj2 (Z.leb_le 0 _)), (proj2 (Z.ltb_lt _ 50)) by lia. cbn [andb mbind option_bind].
    eexists. split; [done|]. cbn. rewrite length_insert. repeat split; try done; lia.
Qed.

Section FilterRuns.
Context (rand : nat -> Z) (Hrand : forall i, 0 <= rand i).

(** One voltage through the filter of a channel. *)
Lemma filter_channel_step size pos c : chan_wf c -> 1 <= size <= FILTER_LEN_MAX ->
  size <= zlen (filter_buffer c) \/ count (slid c) + 1 < size ->
  Forall (fun x => Z.abs x <= 2 ^ 53) (window (slid c) ++ [volt_norm (spec c)]) ->
  exists c' pos', filter_channel rand size pos c = Some (c', pos') /\ chan_wf c' /\
    zlen (filter_buffer c') = zlen (filter_buffer c) /\
    window (slid c') = last_n size (window (slid c) ++ [volt_norm (spec c)]) /\
    forall a b, Forall (fun x => a <= x <= b) (window (slid c')) -> a <= volt_filter (spec c') <= b.
Proof.
  intros [Hw Hh] Hs Hsc HF. unfold filter_channel.
  destruct (slid_step rand pos (slid c) size (volt_norm (spec c)) (filter_buffer c) Hrand Hw Hs Hsc)
    as (s' & copy' & v & pos' & -> & Hw' & Hcp & Hwin & Hmean & Htrim).
  { exact HF. }
  cbn [mbind option_bind]. destruct (push_history_wf (history_volt c) (f32_of_Z v) Hh) as (h' & -> & Hh').
  cbn [mbind option_bind]. eexists _, _. split; [done|]. cbn [set_filter set_spec slid history_volt filter_buffer spec volt_filter].
  split; [by split|]. split; [done|]. split; [done|]. intros a b HF'.
  assert (Hne : window s' <> []).
  { rewrite Hwin. intros E. apply (f_equal length) in E. unfold last_n in E. rewrite length_drop, length_app in E. cbn in E. lia. }
  assert (Hle : zlen (window s') <= size) by (rewrite Hwin, last_n_length by lia; lia).
  destruct (Z.lt_ge_cases (zlen (window s')) size) as [Hlt|Hge].
  - rewrite Hmean by done. by apply mean_between.
  - apply (trimmed_mean_between a b (window s')); [done|done|]. apply Htrim. lia.
Qed.

(** The voltages of successive passes through one channel. *)
Fixpoint filter_run (size : Z) (pos : nat) (l : list Z) (c : channel) : option (channel * nat) :=
  match l with
  | [] => Some (c, pos)
  | v :: l => r ← filter_channel rand size pos (set_norm v c); filter_run size (snd r) l (fst r)
  end.

Lemma filter_run_app size l x : forall pos c,
  filter_run size pos (l ++ [x]) c = (r ← filter_run size pos l c; filter_channel rand size (snd r) (set_norm x (fst r))).
Proof.
  induction l as [|v l IH]; intros pos c; cbn [app filter_run mbind option_bind fst snd].
  - destruct (filter_channel rand size pos (set_norm x c)) as [[c' p']|]; done.
  - destruct (filter_channel rand size pos (set_norm v c)) as [[c' p']|]; [|done]. apply IH.
Qed.

(** The filter of a channel over a sequence of voltages.  While the window
    fills, and for windows of at most 20 samples for ever, every pass succeeds:
    the window holds the last [size] voltages and the filtered voltage lies
    between the smallest and the largest of them.  But the scratch buffer of a
    channel, [filter_buffer[i]], has 20 elements and the window goes up to 499:
    with more than 20 (the factory value is 25) the pass that fills the window
    writes behind the buffer. *)
Theorem filter_row_overrun size pos l c : chan_wf c -> count (slid c) = 0 -> zlen (filter_buffer c) = 20 ->
  1 <= size <= FILTER_LEN_MAX -> Forall (fun x => Z.abs x <= 2 ^ 53) l ->
  match filter_run size pos l c with
  | None => 20 < size <= zlen l
  | Some (c', _) =>
      (size <= 20 \/ zlen l < size) /\ chan_wf c' /\ window (slid c') = last_n size l /\
      (l <> [] -> forall a b, Forall (fun x => a <= x <= b) (last_n size l) -> a <= volt_filter (spec c') <= b)
  end.
Proof.
  intros Hwf H0 Hsc Hs.
  assert (G : Forall (fun x => Z.abs x <= 2 ^ 53) l ->
    match filter_run size pos l c with
    | None => 20 < size <= zlen l
    | Some (c', _) => zlen (filter_buffer c') = 20 /\ (size <= 20 \/ zlen l < size) /\ chan_wf c' /\ window (slid c') = last_n size l /\
        (l <> [] -> forall a b, Forall (fun x => a <= x <= b) (last_n size l) -> a <= volt_filter (spec c') <= b)
    end).
  2: { intros HF. specialize (G HF). destruct (filter_run size pos l c) as [[c' p']|]; [|done]. by destruct G as [_ G]. }
  induction l as [|x l IH] using rev_ind; intros HF.
  - cbn. split; [done|]. split; [lia|]. split; [done|]. split; [|done].
    unfold window. rewrite H0. unfold last_n. by rewrite drop_nil.
  - apply Forall_app in HF as [HF Hx]. specialize (IH HF). rewrite filter_run_app, length_app. cbn [length].
    destruct (filter_run size pos l c) as [[c1 p1]|]; cbn [mbind option_bind fst snd]; [|lia].
    destruct IH as (Hb1 & Hsz & [Hw1 Hh1] & Hwin & _).
    assert (Hcnt : count (slid c1) = Z.min size (zlen l)).
    { assert (zlen (window (slid c1)) = count (slid c1)) by (unfold window; rewrite ring_length; destruct Hw1; lia).
      rewrite Hwin, last_n_length in H by lia. lia. }
    assert (Hall : Forall (fun x => Z.abs x <= 2 ^ 53) (window (slid c1) ++ [x])).
    { apply Forall_app. split; [rewrite Hwin; by apply Forall_drop|done]. }
    destruct (decide (size <= 20 \/ zlen l + 1 < size)) as [Hok|Hno].
    + destruct (filter_channel_step size p1 (set_norm x c1)) as (c2 & p2 & -> & Hwf2 & Hb2 & Hwin2 & Hbt);
        [by split|done|cbn; lia|exact Hall|]. cbn [set_norm set_spec slid spec volt_norm filter_buffer] in *.
      rewrite Hwin, last_n_last_n in Hwin2 by lia.
      split; [lia|]. split; [lia|]. split; [done|]. split; [done|]. intros _ a b Hab. apply Hbt. by rewrite Hwin2.
    + unfold filter_channel. cbn [set_norm set_spec slid spec volt_norm filter_buffer].
      rewrite slid_overrun by (done || lia). cbn [mbind option_bind]. lia.
Qed.
End FilterRuns.

(** A channel at power-up. *)
Definition channel_reset : channel :=
  mk_channel (mk_spec 0 0 0 0 0) (f32_of_Z 1) (mk_sw 0 0 0 0 0) (mk_circle (replicate 50 f_zero) 0 0 20)
    (mk_slid (replicate 500 0) 0 0) (replicate 20 0).
Lemma channel_reset_wf : chan_wf channel_reset.
Proof. split; [|]; repeat split; try discriminate; try done; cbn; lia. Qed.
Lemma filter_row_overrun_witness :
  filter_run (fun i => Z.of_nat i * 7) 25 0 (replicate 25 1000) channel_reset = None /\
  match filter_run (fun i => Z.of_nat i * 7) 3 0 [10; 1000; 1020; 1030] channel_reset with
  | Some (c', _) => 1000 <= volt_filter (spec c') <= 1030
  | None => False
  end.
Proof.
  split; [vm_compute; reflexivity|].
  pose proof (filter_row_overrun (fun i => Z.of_nat i * 7) ltac:(intros i; cbn; lia) 3 0 [10; 1000; 1020; 1030] channel_reset
    channel_reset_wf eq_refl eq_refl ltac:(split; discriminate)) as G.
  destruct (filter_run _ 3 0 _ channel_reset) as [[c' p']|] eqn:E; [|vm_compute in E; discriminate E].
  destruct G as (_ & _ & _ & G); [repeat constructor; discriminate|].
  apply G; [discriminate|]. repeat constructor; discriminate.
Defined.
(** The extrapolation after a gain switch starts from the cell before [front]:
    with a window of 3 and voltages 10 to 50 that is 20, the voltage that just
    left the window, not 50.  After a single pass the slope is divided by zero. *)
Example insert_from_left_sample :
  (let run l := filter_run (fun i => Z.of_nat i * 7) 3 0 l channel_reset in
   let insert c := option_map (fun c => volt_norm (spec c)) (insert_channel (set_sw (mk_sw 0 1 0 0 0) c)) in
   (r ← run [10; 20; 30; 40; 50]; ld (buff (slid (fst r))) (Z.rem (front (slid (fst r)) - 1 + FILTER_LEN_MAX) FILTER_LEN_MAX),
    r ← run [1000]; insert (fst r))) = (Some 20, Some (2 ^ 63 - 1)).
Proof. vm_compute. reflexivity. Qed.
