(* ===== verification/TempCalc.v ===== *)
(** * measure.c: from compensated voltages to the reported temperature

    Single-channel temperature by the logarithmic law, ratio temperature by a
    polynomial (and, for display, by a small network), two-point calibration,
    range limits, attenuation, smoothing after a gain switch, peak and valley
    hold, and the report of the error word.  The parameters are records of the
    members used; [None] is behaviour the code leaves undefined. *)
From Stdlib Require Import ZifyBool.
From S2P Require Import Prelude CFloat Filter Libm Tiag SelfCheck Sensor.

(** ** Parameters *)

(** [coef_t]: [base] times ten to the [index]. *)
Record coef_val := mk_coef { base : Z; index : Z }.
Record log_seg := mk_log { threshold : spec_float; coef_0 : coef_val; coef_1 : coef_val }.
Record poly_val := mk_poly { poly_term : Z; subtrahend : spec_float; poly_coef : list coef_val }.
Record network_val := mk_net {
  effective_w1 : list spec_float; effective_b1 : list spec_float; effective_w2 : list spec_float; effective_b2 : spec_float }.
(** [algo_para_t]; of the two polynomials only the first is used. *)
Record algo_val := mk_algo { log_para : list (list log_seg); poly_para : poly_val; network_para : network_val }.

(** [temp_para_t] without the members this file does not use. *)
Record temp_val := mk_temp {
  emissivity : spec_float; trans : list spec_float; trans_interior : list spec_float;
  dev_temp_min : spec_float; dev_temp_max : spec_float; temp_mode : Z;
  slope : spec_float; slope_interior : spec_float; valid_vol : Z;
  temp_calib_gain : list spec_float; temp_calib_offset : list spec_float }.
Definition set_calib (g o : list spec_float) (p : temp_val) : temp_val :=
  mk_temp (emissivity p) (trans p) (trans_interior p) (dev_temp_min p) (dev_temp_max p) (temp_mode p)
    (slope p) (slope_interior p) (valid_vol p) g o.
(** [filter_para_t] *)
Record filter_val := mk_filter { valley_holding_time : spec_float; peak_holding_time : spec_float; filter_mode : Z }.
Definition PEAK_HOLDING : Z := 1.
Definition VALLEY_HOLDING : Z := 2.

(** The two-point calibration of [sys_state]; the points by mode. *)
Record two_calib := mk_two {
  two_calib_open : Z; calib_low_set : list spec_float; calib_low_real : list spec_float;
  calib_high_set : list spec_float; calib_high_real : list spec_float }.

(** The smoothing of [gain_sw_data[SENS_CH_SPEC_WB]]. *)
Record smooth_t := mk_smooth { smooth_sta : bool; smooth_lastTemp : spec_float; smooth_count : Z }.

Definition WB : nat := 0.
Definition NB : nat := 1.
Definition ABS_ZERO : spec_float := f32_lit 27315 100.

Section Calc.
Context {LM : Libm}.

(** ** One channel *)

Definition coef_value (c : coef_val) : spec_float := f64_mul (f64_of_Z (base c)) (c_pow (f64_of_Z 10) (f64_of_Z (index c))).

(** [coef_a[ch]] and [coef_b[ch]]. *)
Definition get_sin_coefficient (a : algo_val) (compes_volt : spec_float) (spec_num : nat) : option (spec_float * spec_float) :=
  segs ← log_para a !! spec_num;
  s0 ← segs !! 0%nat;
  let seg_threshold_value := f32_of_f64 (threshold s0) in
  let index := if f_eq f_zero seg_threshold_value || f_lt compes_volt seg_threshold_value then 0%nat else 1%nat in
  s ← segs !! index;
  Some (coef_value (coef_0 s), coef_value (coef_1 s)).

(** Emissivity and transmission of a channel. *)
Definition optics (p : temp_val) (ch : nat) : option spec_float :=
  t ← trans p !! ch; u ← trans_interior p !! ch; Some (f32_mul (f32_mul (emissivity p) t) u).

(** Result: the temperature and the coefficients.  Without a positive voltage
    the code returns an uninitialised variable. *)
Definition get_single_temp (p : temp_val) (a : algo_val) (voltage : Z) (ch : nat)
  : option (spec_float * (spec_float * spec_float)) :=
  o ← optics p ch;
  let compes_volt := f64_div (f64_of_f32 (volts voltage)) (f64_of_f32 o) in
  k ← get_sin_coefficient a (f32_of_f64 compes_volt) ch;
  if f_gt compes_volt f_zero then
    let t := f64_sub (f64_div f64_one (f64_add (f64_mul (fst k) (c_log compes_volt)) (snd k))) (f64_of_f32 ABS_ZERO) in
    Some (f32_of_f64 t, k)
  else None.

(** ** The ratio *)

Fixpoint poly_loop (n : nat) (x : spec_float) (i : Z) (l : list coef_val) (acc : spec_float) : option spec_float :=
  match n with
  | O => Some acc
  | S n =>
      c ← head l;
      let v := f64_mul (f64_mul (c_pow x (f64_of_Z i)) (f64_of_Z (base c))) (c_pow (f64_of_Z 10) (f64_of_Z (index c))) in
      poly_loop n x (i + 1) (tail l) (f64_add acc v)
  end.
(** [poly_num] is the number of terms; beyond the 15 coefficients of the
    structure there are none. *)
Definition get_multi_coefficient (a : algo_val) (ratio_value : spec_float) (poly_num : Z) : option spec_float :=
  poly_loop (Z.to_nat poly_num) (f64_of_f32 ratio_value) 0 (poly_coef (poly_para a)) f_zero.

Definition ratio2temp (a : algo_val) (ratio : spec_float) : spec_float :=
  let n := network_para a in
  let fc1_out := zip_with (fun w b => f32_add (f32_mul w ratio) b) (effective_w1 n) (effective_b1 n) in
  let fc1_relu := map (fun x => if f_gt x f_zero then x else f_zero) fc1_out in
  let fc2_out := fold_left f32_add (zip_with f32_mul (effective_w2 n) fc1_relu) f_zero in
  f32_add fc2_out (effective_b2 n).

(** Result: the ratio temperature and [sys_state.ratio_temp_nerve]. *)
Definition get_ratio_temp (p : temp_val) (a : algo_val) (volt_wb volt_nb : Z) : option (spec_float * spec_float) :=
  ow ← optics p WB;
  on ← optics p NB;
  let wb := f64_of_f32 (f32_div (f32_of_Z volt_wb) ow) in
  let nb := f64_of_f32 (f32_div (f32_of_Z volt_nb) on) in
  let r := f64_div (f64_div (f64_div wb nb) (f64_of_f32 (slope p))) (f64_of_f32 (slope_interior p)) in
  let r := f64_sub r (f64_of_f32 (f32_mul (subtrahend (poly_para a)) (f32_of_Z 1000))) in
  t ← get_multi_coefficient a (f32_of_f64 r) (poly_term (poly_para a));
  Some (f32_of_f64 t, ratio2temp a (f32_of_f64 r)).

(** ** Attenuation *)

Definition get_attenuation_rate (k : spec_float * spec_float) (volt_nb : Z) (temp : spec_float) : spec_float :=
  let mid_temp := f64_div f64_one (f64_add temp (f64_of_f32 ABS_ZERO)) in
  let voltage := c_exp (f64_div (f64_sub mid_temp (snd k)) (fst k)) in
  let decay_rate := f32_of_f64 (f64_sub f64_one (f64_div (f64_of_f32 (volts volt_nb)) voltage)) in
  if f_gt decay_rate f_zero && f_lt decay_rate (f32_of_Z 1) then decay_rate else f_zero.
End Calc.

(** ** Two-point calibration *)

(** The first call after [two_calib_open] was set computes gain and offset of
    its own mode and clears the request. *)
Definition two_point_solve (mode : nat) (p : temp_val) (t : two_calib) : option (temp_val * two_calib) :=
  if two_calib_open t =? 1 then
    let t := mk_two 0 (calib_low_set t) (calib_low_real t) (calib_high_set t) (calib_high_real t) in
    low_set ← calib_low_set t !! mode;
    low_real ← calib_low_real t !! mode;
    high_set ← calib_high_set t !! mode;
    high_real ← calib_high_real t !! mode;
    if negb (f_eq (f32_sub high_real low_real) f_zero) then
      let gain := f32_div (f32_sub high_set low_set) (f32_sub high_real low_real) in
      let offset := f32_sub high_set (f32_mul gain high_real) in
      Some (set_calib (<[mode := gain]> (temp_calib_gain p)) (<[mode := offset]> (temp_calib_offset p)) p, t)
    else Some (p, t)
  else Some (p, t).
(** Result: the calibrated temperature, the parameters and the points. *)
Definition temp_two_point_calibrate (raw_temp : spec_float) (mode : nat) (p : temp_val) (t : two_calib)
  : option (spec_float * temp_val * two_calib) :=
  let mode := if (3 <=? mode)%nat then 2%nat else mode in
  r ← two_point_solve mode p t;
  g ← temp_calib_gain (fst r) !! mode;
  o ← temp_calib_offset (fst r) !! mode;
  Some (f32_add (f32_mul g raw_temp) o, fst r, snd r).

(** ** Smoothing *)

(** In units of 10^-11. *)
Definition smooth_table_100 : list spec_float := map (fun n => f32_of_f64 (f64_lit n (10 ^ 11))) [
  29125283; 115604700; 258525960; 456961110; 709966760; 1016584300; 1375839900; 1786745400; 2248297500;
   2759479000; 3319258400; 3926590600; 4580416700; 5279664600; 6023249300; 6810072800; 7639024900;
   8508983100; 9418813100; 10367369000; 11353493000; 12376018000; 13433765000; 14525545000; 15650158000;
   16806397000; 17993043000; 19208869000; 20452641000; 21723113000; 23019034000; 24339146000; 25682182000;
   27046869000; 28431927000; 29836070000; 31258008000; 32696443000; 34150074000; 35617594000; 37097695000;
   38589061000; 40090374000; 41600316000; 43117563000; 44640789000; 46168667000; 47699870000; 49233068000;
   50766932000; 52300130000; 53831333000; 55359211000; 56882437000; 58399684000; 59909626000; 61410939000;
   62902305000; 64382406000; 65849926000; 67303557000; 68741992000; 70163930000; 71568073000; 72953131000;
   74317818000; 75660854000; 76980966000; 78276887000; 79547359000; 80791131000; 82006957000; 83193603000;
   84349842000; 85474455000; 86566235000; 87623982000; 88646507000; 89632631000; 90581187000; 91491017000;
   92360975000; 93189927000; 93976751000; 94720335000; 95419583000; 96073409000; 96680742000; 97240521000;
   97751703000; 98213255000; 98624160000; 98983416000; 99290033000; 99543039000; 99741474000; 99884395000;
   99970875000; 100000000000; 99970875000].

(** The rate is not used. *)
Definition switch_temp_smooth (smoothCount : Z) (currentTemp : spec_float) (s : smooth_t) : option (spec_float * smooth_t) :=
  if 70 <? Z.abs (f_to_s32 (f32_sub (smooth_lastTemp s) currentTemp)) then
    Some (currentTemp, mk_smooth false (smooth_lastTemp s) 0)
  else
    w ← ld smooth_table_100 (smooth_count s);
    let t := f32_add (smooth_lastTemp s)
               (f32_div (f32_mul (f32_sub currentTemp (smooth_lastTemp s)) w) (f32_of_Z 8)) in
    let n := u32 (smooth_count s + 1) in
    Some (t, if u32 smoothCount <? n then mk_smooth false t 0 else mk_smooth (smooth_sta s) t n).

(** ** The report *)

(** The parts of [sys_state], [sys_para] and of the file's static data that
    [get_temp] writes.  [slid_holding_data] has two elements. *)
Record temp_state := mk_temp_state {
  para : temp_val; two : two_calib; coefs : list (spec_float * spec_float); smooth : smooth_t;
  slid_holding_data : list slid_holding_t; timer4_trigger_flag : bool; exti_triger_flag : bool;
  target_volt : list Z; temp_out_range : list Z; single_temp : list spec_float; ratio_temp : spec_float;
  ratio_temp_nerve : spec_float; Measured_attenuation : spec_float; target_temp : spec_float; error_flags : Z }.

Definition upd_para (p : temp_val) (t : two_calib) (s : temp_state) : temp_state :=
  mk_temp_state p t (coefs s) (smooth s) (slid_holding_data s) (timer4_trigger_flag s) (exti_triger_flag s)
    (target_volt s) (temp_out_range s) (single_temp s) (ratio_temp s) (ratio_temp_nerve s) (Measured_attenuation s)
    (target_temp s) (error_flags s).
Definition upd_coefs (k : list (spec_float * spec_float)) (s : temp_state) : temp_state :=
  mk_temp_state (para s) (two s) k (smooth s) (slid_holding_data s) (timer4_trigger_flag s) (exti_triger_flag s)
    (target_volt s) (temp_out_range s) (single_temp s) (ratio_temp s) (ratio_temp_nerve s) (Measured_attenuation s)
    (target_temp s) (error_flags s).
Definition upd_range (l : list Z) (s : temp_state) : temp_state :=
  mk_temp_state (para s) (two s) (coefs s) (smooth s) (slid_holding_data s) (timer4_trigger_flag s) (exti_triger_flag s)
    (target_volt s) l (single_temp s) (ratio_temp s) (ratio_temp_nerve s) (Measured_attenuation s)
    (target_temp s) (error_flags s).
Definition upd_ratio (nerve attenuation : spec_float) (m : smooth_t) (s : temp_state) : temp_state :=
  mk_temp_state (para s) (two s) (coefs s) m (slid_holding_data s) (timer4_trigger_flag s) (exti_triger_flag s)
    (target_volt s) (temp_out_range s) (single_temp s) (ratio_temp s) nerve attenuation
    (target_temp s) (error_flags s).
Definition upd_hold (h : list slid_holding_t) (timer exti : bool) (s : temp_state) : temp_state :=
  mk_temp_state (para s) (two s) (coefs s) (smooth s) h timer exti
    (target_volt s) (temp_out_range s) (single_temp s) (ratio_temp s) (ratio_temp_nerve s) (Measured_attenuation s)
    (target_temp s) (error_flags s).
Definition upd_volt (v : list Z) (s : temp_state) : temp_state :=
  mk_temp_state (para s) (two s) (coefs s) (smooth s) (slid_holding_data s) (timer4_trigger_flag s) (exti_triger_flag s)
    v (temp_out_range s) (single_temp s) (ratio_temp s) (ratio_temp_nerve s) (Measured_attenuation s)
    (target_temp s) (error_flags s).
Definition upd_flags (f : Z) (s : temp_state) : temp_state :=
  mk_temp_state (para s) (two s) (coefs s) (smooth s) (slid_holding_data s) (timer4_trigger_flag s) (exti_triger_flag s)
    (target_volt s) (temp_out_range s) (single_temp s) (ratio_temp s) (ratio_temp_nerve s) (Measured_attenuation s)
    (target_temp s) f.
Definition upd_target (singles : list spec_float) (ratio target : spec_float) (f : Z) (s : temp_state) : temp_state :=
  mk_temp_state (para s) (two s) (coefs s) (smooth s) (slid_holding_data s) (timer4_trigger_flag s) (exti_triger_flag s)
    (target_volt s) (temp_out_range s) singles ratio (ratio_temp_nerve s) (Measured_attenuation s) target f.

(** [HANDLE_SINGLE_ERROR] *)
Definition HANDLE_SINGLE_ERROR (out_range flags : Z) : Z :=
  if out_range <? 0 then error_state_clear ERR_DETECTOR_FAULT (error_state_set ERR_ENERGY_LOW flags)
  else if 0 <? out_range then error_state_set ERR_DETECTOR_FAULT (error_state_clear ERR_ENERGY_LOW flags)
  else error_state_clear ERR_DETECTOR_FAULT (error_state_clear ERR_ENERGY_LOW flags).

(** The comparison with the device's range ([double] against [float]): the new
    flag and the temperature.  At a limit (or for a NaN) no branch is taken. *)
Definition limit_range (p : temp_val) (temp : spec_float) (flag : Z) : Z * spec_float :=
  let lo := f64_of_f32 (dev_temp_min p) in
  let hi := f64_of_f32 (dev_temp_max p) in
  if f_gt temp lo && f_lt temp hi then (0, temp)
  else if f_lt temp lo then (-1, f_zero)
  else if f_gt temp hi then (1, f_zero)
  else (flag, temp).

(** [timer4_trigger_callback]: the seconds of the hold times in tenths. *)
Definition hold_tick (time : spec_float) (h : slid_holding_t) : slid_holding_t :=
  if f_eq (f32_of_Z (hcount h)) (f32_mul time (f32_of_Z 10)) then mk_hold (hdata h) 0
  else if negb (hcount h =? 0) then mk_hold (hdata h) (u32 (hcount h + 1)) else h.
Definition timer4_trigger_callback (f : filter_val) (s : temp_state) : option temp_state :=
  if timer4_trigger_flag s then
    r ← for_loop (fun i h =>
          if filter_mode f =? PEAK_HOLDING then
            x ← ld h (Z.of_nat i); st h (Z.of_nat i) (hold_tick (peak_holding_time f) x)
          else if filter_mode f =? VALLEY_HOLDING then
            x ← ld h (Z.of_nat i); st h (Z.of_nat i) (hold_tick (valley_holding_time f) x)
          else Some h) 0 3 (slid_holding_data s);
    Some (upd_hold r false (exti_triger_flag s) s)
  else Some s.

(** A hold filter on channel [i]; the filters work on [long long], so the
    temperature is cut to whole degrees. *)
Definition hold_channel (filter : slid_holding_t -> Z -> Z -> slid_holding_t * Z) (time : spec_float) (i : Z)
    (r : list slid_holding_t * spec_float) : option (list slid_holding_t * spec_float) :=
  x ← ld (fst r) i;
  let '(x, v) := filter x (f_to_s32 time) (f_to_s64 (snd r)) in
  l ← st (fst r) i x; Some (l, f64_of_Z v).
Definition hold_all (f : filter_val) (h : list slid_holding_t) (twb tnb ratio : spec_float)
  : option (list slid_holding_t * spec_float * spec_float * spec_float) :=
  let go filter :=
    w ← hold_channel filter (peak_holding_time f) 0 (h, twb);
    n ← hold_channel filter (valley_holding_time f) 1 (fst w, tnb);
    r ← hold_channel filter (valley_holding_time f) 2 (fst n, ratio);
    Some (fst r, snd w, snd n, snd r) in
  if filter_mode f =? PEAK_HOLDING then go peak_holding_fliter
  else if filter_mode f =? VALLEY_HOLDING then go valley_holding_fliter
  else Some (h, twb, tnb, ratio).

Definition hold_clear (x : slid_holding_t) : slid_holding_t := mk_hold (hdata x) 0.

Section Report.
Context {LM : Libm}.

(** The body of the loop over the two channels: the temperature of channel [i]. *)
Definition single_step (a : algo_val) (comp : Z) (i : nat) (s : temp_state) : option (spec_float * temp_state) :=
  r ← get_single_temp (para s) a comp i;
  let s := upd_coefs (<[i := snd r]> (coefs s)) s in
  c ← temp_two_point_calibrate (fst r) i (para s) (two s);
  let '(t, p, w) := c in
  let s := upd_para p w s in
  let s_flag := nth i (temp_out_range s) 0 in
  let '(flag, t) := limit_range (para s) (f64_of_f32 t) s_flag in
  Some (t, upd_range (<[i := flag]> (temp_out_range s)) s).

(** The branch for a sufficient voltage: both channels, then the ratio. *)
Definition measured_temps (a : algo_val) (comp_wb comp_nb : Z) (s : temp_state)
  : option (spec_float * spec_float * spec_float * temp_state) :=
  w ← single_step a comp_wb WB s;
  n ← single_step a comp_nb NB (snd w);
  let s := snd n in
  r ← get_ratio_temp (para s) a comp_wb comp_nb;
  c ← temp_two_point_calibrate (fst r) 2 (para s) (two s);
  let '(t, p, w2) := c in
  let s := upd_para p w2 s in
  let ratio := f64_of_f32 t in
  k ← coefs s !! NB;
  let attenuation := get_attenuation_rate k comp_nb ratio in
  m ← (if smooth_sta (smooth s) then
         q ← switch_temp_smooth 100 (f32_of_f64 ratio) (smooth s); Some (f64_of_f32 (fst q), snd q)
       else Some (ratio, smooth s));
  let s := upd_ratio (snd r) attenuation (snd m) s in
  let '(flag, ratio) := limit_range (para s) (fst m) (nth 2 (temp_out_range s) 0) in
  Some (fst w, fst n, ratio, upd_range (<[2%nat := flag]> (temp_out_range s)) s).

Definition get_temp (a : algo_val) (f : filter_val) (l : list channel) (s : temp_state) : option temp_state :=
  w ← l !! WB;
  n ← l !! NB;
  let s := upd_volt (map (fun c => s32 (volt_raw (spec c))) l) s in
  r ← (if u32 (volt_raw (spec n)) <? valid_vol (para s) then
         Some (f_zero, f_zero, f_zero,
               upd_flags (error_state_clear ERR_DETECTOR_FAULT (error_state_set ERR_ENERGY_LOW (error_flags s)))
                 (upd_range [-1; -1; -1] s))
       else measured_temps a (volt_compensate (spec w)) (volt_compensate (spec n)) s);
  let '(twb, tnb, ratio, s) := r in
  s ← timer4_trigger_callback f s;
  let s := if exti_triger_flag s
           then upd_hold (alter hold_clear 1%nat (alter hold_clear 0%nat (slid_holding_data s))) (timer4_trigger_flag s) false s else s in
  h ← hold_all f (slid_holding_data s) twb tnb ratio;
  let '(held, twb, tnb, ratio) := h in
  let s := upd_hold held (timer4_trigger_flag s) (exti_triger_flag s) s in
  let singles := [f32_of_f64 twb; f32_of_f64 tnb] in
  let ratio := f32_of_f64 ratio in
  let report i target :=
    o ← temp_out_range s !! i; Some (upd_target singles ratio target (HANDLE_SINGLE_ERROR o (error_flags s)) s) in
  if temp_mode (para s) =? 0 then report 0%nat (f32_of_f64 twb)
  else if temp_mode (para s) =? 1 then report 1%nat (f32_of_f64 tnb)
  else report 2%nat ratio.
End Report.

(** ** The factory parameters

    The network's weights are left out (it feeds only the display of
    [ratio_temp_nerve]); with no weights its output is its last bias. *)
Definition default_algo : algo_val :=
  let wb := mk_log f_zero (mk_coef (-651905818493707) (-19)) (mk_coef 651905818493707 (-18)) in
  let nb := mk_log f_zero (mk_coef (-753280579290912) (-19)) (mk_coef 729182522345416 (-18)) in
  mk_algo [[wb; wb]; [nb; nb]]
    (mk_poly 14 f_zero
      [mk_coef 158252892724310 (-8); mk_coef (-221546080998633) (-7); mk_coef 139736955204198 (-6);
       mk_coef (-526150785636936) (-6); mk_coef 132101803699095 (-5); mk_coef (-233815522865189) (-5);
       mk_coef 300487436456394 (-5); mk_coef (-284197599553157) (-5); mk_coef 198005705736088 (-5);
       mk_coef (-100459445611889) (-5); mk_coef 361062560771199 (-6); mk_coef (-871201356289380) (-7);
       mk_coef 126577776890338 (-7); mk_coef (-836901428276062) (-9)])
    (mk_net [] [] [] (f32_of_f64 (f64_lit 17929523056649618 (10 ^ 13)))).
Definition one32 : spec_float := f32_of_Z 1.
Definition default_temp : temp_val :=
  mk_temp one32 [one32; one32] [one32; one32] (f32_of_Z 800) (f32_of_Z 2800) 2 one32 one32 15000
    [one32; one32; one32] [f_zero; f_zero; f_zero].
Definition default_filter : filter_val := mk_filter f_zero f_zero 0.
Definition zero3 : list spec_float := [f_zero; f_zero; f_zero].
Definition temp_reset (p : temp_val) (flags : Z) : temp_state :=
  mk_temp_state p (mk_two 0 zero3 zero3 zero3 zero3) [(f_zero, f_zero); (f_zero, f_zero)] (mk_smooth false f_zero 0)
    [mk_hold 0 0; mk_hold 0 0] false false [0; 0] [0; 0; 0] [f_zero; f_zero] f_zero f_zero f_zero f_zero flags.
(** A channel that has measured and compensated [v] microvolts. *)
Definition channel_of (v : Z) : channel :=
  mk_channel (mk_spec v v v 0 v) one32 (mk_sw 0 0 0 0 0) (mk_circle (replicate 50 f_zero) 0 0 20)
    (mk_slid (replicate 500 0) 0 0) (replicate 20 0).

(** * Properties *)

(** What the steps before the filter leave alone. *)
Definition kept (s s' : temp_state) : Prop :=
  error_flags s' = error_flags s /\ slid_holding_data s' = slid_holding_data s /\
  timer4_trigger_flag s' = timer4_trigger_flag s /\ exti_triger_flag s' = exti_triger_flag s /\
  temp_mode (para s') = temp_mode (para s) /\ dev_temp_min (para s') = dev_temp_min (para s) /\
  dev_temp_max (para s') = dev_temp_max (para s).
Lemma kept_refl s : kept s s.
Proof. repeat split. Qed.
Lemma kept_trans s s' s'' : kept s s' -> kept s' s'' -> kept s s''.
Proof. unfold kept. intuition congruence. Qed.

(** What becomes of a computed temperature [t0]: below the range a zero with the
    flag -1, above it a zero with the flag 1; inside it stays, with the flag 0;
    at a limit (or when it is not a number) it stays with the old flag. *)
Definition clipped (p : temp_val) (old : Z) (t0 : spec_float) (o : Z) (t : spec_float) : Prop :=
  let lo := f64_of_f32 (dev_temp_min p) in
  let hi := f64_of_f32 (dev_temp_max p) in
  (f_lt t0 lo = true -> o = -1 /\ t = f_zero) /\
  (f_lt t0 lo = false -> f_gt t0 hi = true -> o = 1 /\ t = f_zero) /\
  (f_gt t0 lo = true -> f_lt t0 hi = true -> o = 0 /\ t = t0) /\
  (f_lt t0 lo = false -> f_gt t0 hi = false -> f_gt t0 lo = false \/ f_lt t0 hi = false -> o = old /\ t = t0).
Lemma not_both x y : f_gt x y = true -> f_lt x y = false.
Proof. unfold f_gt, f_lt, SFltb. rewrite (SFcompare_swap x y). by destruct (SFcompare x y) as [[]|]. Qed.
Lemma limit_range_clipped p t old : let '(o, t') := limit_range p t old in clipped p old t o t'.
Proof.
  unfold limit_range, clipped. cbn zeta. set (lo := f64_of_f32 (dev_temp_min p)). set (hi := f64_of_f32 (dev_temp_max p)).
  pose proof (not_both t lo) as H1. pose proof (not_both t hi) as H2.
  destruct (f_gt t lo), (f_lt t hi), (f_lt t lo), (f_gt t hi); cbn [andb]; naive_solver.
Qed.
Lemma clipped_same p p' old t0 o t : dev_temp_min p' = dev_temp_min p -> dev_temp_max p' = dev_temp_max p ->
  clipped p' old t0 o t -> clipped p old t0 o t.
Proof. unfold clipped. by intros -> ->. Qed.
(** The two-point calibration of temperature [i] with the gain and offset of [p]. *)
Definition calibrated (p : temp_val) (i : nat) (t : spec_float) : option spec_float :=
  g ← temp_calib_gain p !! i; o ← temp_calib_offset p !! i; Some (f64_of_f32 (f32_add (f32_mul g t) o)).

Ltac bind_inv H :=
  let x := fresh "x" in let E := fresh "E" in
  match type of H with
  | mbind _ ?m = Some _ => destruct m as [x|] eqn:E; cbn [mbind option_bind] in H; [|discriminate H]
  end.

(** Two-point calibration writes only gain and offset of its mode, and only
    when asked to. *)
Lemma two_point_solve_frame mode p t p' t' : two_point_solve mode p t = Some (p', t') ->
  temp_mode p' = temp_mode p /\ dev_temp_min p' = dev_temp_min p /\ dev_temp_max p' = dev_temp_max p /\
  (forall k, k <> mode -> temp_calib_gain p' !! k = temp_calib_gain p !! k /\
     temp_calib_offset p' !! k = temp_calib_offset p !! k) /\
  (two_calib_open t' =? 1) = false /\
  ((two_calib_open t =? 1) = false -> p' = p /\ t' = t).
Proof.
  unfold two_point_solve. intros H. destruct (two_calib_open t =? 1) eqn:Eo.
  - do 4 bind_inv H. destruct (negb _); injection H as <- <-; cbn; repeat split; try done;
      by rewrite list_lookup_insert_ne.
  - injection H as <- <-. repeat split; done.
Qed.
Lemma two_point_frame raw mode p t r p' t' : temp_two_point_calibrate raw mode p t = Some (r, p', t') ->
  (mode < 3)%nat -> two_point_solve mode p t = Some (p', t').
Proof.
  unfold temp_two_point_calibrate. intros H Hm. rewrite (proj2 (Nat.leb_gt 3 mode) Hm) in H.
  do 3 bind_inv H. injection H as _ <- <-. by destruct x.
Qed.

Lemma two_point_solve_calib mode p t p' t' : two_point_solve mode p t = Some (p', t') -> exists g o, p' = set_calib g o p.
Proof.
  assert (Hid : exists g o, p = set_calib g o p) by (exists (temp_calib_gain p), (temp_calib_offset p); by destruct p).
  unfold two_point_solve. intros H. destruct (two_calib_open t =? 1); [|by injection H as <- _].
  do 4 bind_inv H. destruct (negb _); injection H as <- _; [by eexists _, _|done].
Qed.
Lemma two_point_calibrated raw mode p t r p' t' : temp_two_point_calibrate raw mode p t = Some (r, p', t') -> (mode < 3)%nat ->
  calibrated p' mode raw = Some (f64_of_f32 r).
Proof.
  unfold temp_two_point_calibrate, calibrated. intros H Hm. rewrite (proj2 (Nat.leb_gt 3 mode) Hm) in H.
  bind_inv H. destruct x as [q u]. cbn [fst snd] in H. bind_inv H. bind_inv H. injection H as <- <- <-. by rewrite E0, E1.
Qed.

Section Proofs.
Context {LM : Libm}.

(** The temperatures before the range is looked at: the law of the channel, or of
    the ratio, on the compensated voltages, calibrated with the points as they are
    afterwards ([p']); the ratio is smoothed after a gain switch. *)
Definition computed (a : algo_val) (cw cn : Z) (s : temp_state) (p' : temp_val) (i : nat) : option spec_float :=
  match i with
  | O => r ← get_single_temp (para s) a cw WB; calibrated p' 0 (fst r)
  | S O => r ← get_single_temp (para s) a cn NB; calibrated p' 1 (fst r)
  | _ =>
      r ← get_ratio_temp (para s) a cw cn; t ← calibrated p' 2 (fst r);
      if smooth_sta (smooth s) then q ← switch_temp_smooth 100 (f32_of_f64 t) (smooth s); Some (f64_of_f32 (fst q)) else Some t
  end.

Lemma single_step_inv a comp i s t s' : single_step a comp i s = Some (t, s') -> (i < 3)%nat ->
  kept s s' /\
  (exists o t0, temp_out_range s' = <[i := o]> (temp_out_range s) /\
     (r ← get_single_temp (para s) a comp i; calibrated (para s') i (fst r)) = Some t0 /\
     clipped (para s) (nth i (temp_out_range s) 0) t0 o t) /\
  two_point_solve i (para s) (two s) = Some (para s', two s') /\ smooth s' = smooth s.
Proof.
  unfold single_step. intros H Hi. bind_inv H. destruct x as [t0 k]. cbn [fst snd] in H.
  bind_inv H. destruct x as [[t1 p] w]. cbn [upd_coefs upd_para temp_out_range para two] in *.
  pose proof (two_point_frame _ _ _ _ _ _ _ E0 Hi) as Hs.
  destruct (two_point_solve_frame _ _ _ _ _ Hs) as (Hm & Hlo & Hhi & _).
  pose proof (limit_range_clipped p (f64_of_f32 t1) (nth i (temp_out_range s) 0)) as Hcl.
  pose proof (two_point_calibrated _ _ _ _ _ _ _ E0 Hi) as Hcal.
  destruct (limit_range p (f64_of_f32 t1) _) as [o t2]. injection H as <- <-. cbn.
  split; [by repeat split|]. split; [|by split].
  exists o, (f64_of_f32 t1). split; [done|]. split; [exact Hcal|]. eapply clipped_same; [exact Hlo|exact Hhi|done].
Qed.

(** A request is spent by the first call. *)
Lemma solve_spent mode p t p' t' : two_point_solve mode p t = Some (p', t') -> (two_calib_open t =? 1) = false -> p' = p /\ t' = t.
Proof. intros Hs Ho. by apply (two_point_solve_frame _ _ _ _ _ Hs). Qed.

(** The calibration points play no part in the law of a channel. *)
Lemma get_single_temp_calib g o p a v ch : get_single_temp (set_calib g o p) a v ch = get_single_temp p a v ch.
Proof. done. Qed.
Lemma get_ratio_temp_calib g o p a v w : get_ratio_temp (set_calib g o p) a v w = get_ratio_temp p a v w.
Proof. done. Qed.

Lemma measured_temps_inv a cw cn s tw tn r s' : measured_temps a cw cn s = Some (tw, tn, r, s') ->
  length (temp_out_range s) = 3%nat ->
  kept s s' /\ length (temp_out_range s') = 3%nat /\
  (forall i, (i < 3)%nat -> exists t0, computed a cw cn s (para s') i = Some t0 /\
     clipped (para s) (nth i (temp_out_range s) 0) t0 (nth i (temp_out_range s') 0) (nth i [tw; tn; r] f_zero)) /\
  two_point_solve 0 (para s) (two s) = Some (para s', two s').
Proof.
  unfold measured_temps. intros Hr Hl. bind_inv Hr. destruct x as [tw0 s1]. cbn [fst snd] in Hr.
  destruct (single_step_inv _ _ _ _ _ _ E ltac:(unfold WB; lia)) as (K1 & (ow & t1 & Eo1 & C1 & L1) & S1 & M1). clear E.
  bind_inv Hr. destruct x as [tn0 s2]. cbn [fst snd] in Hr.
  destruct (single_step_inv _ _ _ _ _ _ E ltac:(unfold NB; lia)) as (K2 & (on & t2 & Eo2 & C2 & L2) & S2 & M2). clear E.
  bind_inv Hr. destruct x as [r0 nerve]. cbn [fst snd] in Hr.
  bind_inv Hr. destruct x as [[t p] w2].
  bind_inv Hr. bind_inv Hr. destruct x0 as [m sm]. cbn [fst snd upd_para upd_ratio para temp_out_range smooth] in Hr, E2.
  pose proof (two_point_frame _ _ _ _ _ _ _ E0 ltac:(lia)) as S3. pose proof (two_point_calibrated _ _ _ _ _ _ _ E0 ltac:(lia)) as C3.
  destruct (two_point_solve_frame _ _ _ _ _ S1) as (_ & _ & _ & _ & Hsp & _).
  destruct (solve_spent _ _ _ _ _ S2 Hsp) as [Ep1 Et1]. rewrite Et1 in S3.
  destruct (solve_spent _ _ _ _ _ S3 Hsp) as [Ep2 Et2].
  pose proof (limit_range_clipped p m (nth 2 (temp_out_range s2) 0)) as L3.
  destruct (limit_range p m _) as [orr r']. injection Hr as <- <- <- <-.
  pose proof (kept_trans _ _ _ K1 K2) as K.
  cbn [para two temp_out_range upd_range upd_ratio upd_para error_flags slid_holding_data timer4_trigger_flag exti_triger_flag].
  split; [by destruct K as (? & ? & ? & ? & ? & ? & ?); rewrite Ep2; repeat split|].
  split; [by rewrite length_insert, Eo2, length_insert, Eo1, length_insert|].
  split; [|by rewrite Ep2, Et2, Ep1].
  clear S2 S3 E0 Hsp. destruct (two_point_solve_calib _ _ _ _ _ S1) as (g & o & Ec).
  destruct K1 as (_ & _ & _ & _ & _ & Hlo1 & Hhi1), K as (_ & _ & _ & _ & _ & Hlo & Hhi).
  rewrite Ep2, Ep1 in *. rewrite Eo2, Eo1 in *. clear Ep1 Ep2 Eo1 Eo2.
  destruct (temp_out_range s) as [|x0 [|x1 [|x2 [|]]]]; try done. cbn [nth list_insert insert] in *.
  intros [|[|[|i]]] Hi; [| | |lia]; unfold computed.
  - by exists t1.
  - exists t2. rewrite Ec, get_single_temp_calib, <- Ec in C2. split; [exact C2|]. by eapply clipped_same; [..|exact L2].
  - exists m. split; [|by eapply clipped_same; [..|exact L3]].
    rewrite Ec, get_ratio_temp_calib in E. rewrite E. cbn [mbind option_bind fst]. rewrite C3. cbn [mbind option_bind].
    rewrite M2, M1 in E2. destruct (smooth_sta (smooth s)); [|by injection E2 as <- _].
    bind_inv E2. by injection E2 as <- _.
Qed.

Definition average_mode (f : filter_val) : Prop := filter_mode f <> PEAK_HOLDING /\ filter_mode f <> VALLEY_HOLDING.
Lemma hold_average f h a b c : average_mode f -> hold_all f h a b c = Some (h, a, b, c).
Proof. intros [H1 H2]. unfold hold_all. by rewrite (proj2 (Z.eqb_neq _ _) H1), (proj2 (Z.eqb_neq _ _) H2). Qed.
Lemma timer_average f s : average_mode f -> exists s', timer4_trigger_callback f s = Some s' /\
  error_flags s' = error_flags s /\ temp_out_range s' = temp_out_range s /\ para s' = para s /\ two s' = two s /\
  slid_holding_data s' = slid_holding_data s.
Proof.
  intros [H1 H2]. unfold timer4_trigger_callback. destruct (timer4_trigger_flag s); [|by exists s].
  rewrite (proj2 (Z.eqb_neq _ _) H1), (proj2 (Z.eqb_neq _ _) H2). cbn. by eexists.
Qed.

(** What the error word says of a range flag. *)
Lemma handle_flags o flags : is_flags flags -> let f := HANDLE_SINGLE_ERROR o flags in
  is_flags f /\ err f 5 = (o <? 0) /\ err f 0 = (0 <? o) /\
  forall k, 0 <= k < 16 -> k <> 0 -> k <> 5 -> err f k = err flags k.
Proof.
  intros Hf. cbn zeta. unfold HANDLE_SINGLE_ERROR.
  assert (Hs : forall k, 0 <= k < 16 -> k <> 0 -> k <> 5 -> err ERR_ENERGY_LOW k = false /\ err ERR_DETECTOR_FAULT k = false).
  { intros k Hk H0 H5. unfold err, ERR_ENERGY_LOW, ERR_DETECTOR_FAULT.
    change 0x20 with (2 ^ 5). change 1 with (2 ^ 0). rewrite !Z.pow2_bits_eqb by lia. lia. }
  assert (Hb : forall e e' k, 0 <= k < 16 ->
    err (error_state_clear e' (error_state_clear e flags)) k = err flags k && negb (err e k) && negb (err e' k) /\
    err (error_state_clear e' (error_state_set e flags)) k = (err flags k || err e k) && negb (err e' k) /\
    err (error_state_set e' (error_state_clear e flags)) k = err flags k && negb (err e k) || err e' k).
  { intros e e' k Hk. repeat split; bits; bits; done. }
  assert (H5 : forall e e', (e, e') = (ERR_ENERGY_LOW, ERR_DETECTOR_FAULT) -> err e 5 = true /\ err e' 5 = false /\ err e 0 = false /\ err e' 0 = true).
  { by intros ? ? [= -> ->]. }
  destruct (H5 _ _ eq_refl) as (A1 & A2 & A3 & A4). clear H5.
  destruct (Hb ERR_ENERGY_LOW ERR_DETECTOR_FAULT 5 ltac:(lia)) as (P1 & P2 & P3).
  destruct (Hb ERR_ENERGY_LOW ERR_DETECTOR_FAULT 0 ltac:(lia)) as (Q1 & Q2 & Q3).
  rewrite A1, A2 in P1, P2, P3. rewrite A3, A4 in Q1, Q2, Q3.
  destruct (Z.ltb_spec o 0) as [L1|L1], (Z.ltb_spec 0 o) as [L2|L2]; [exfalso; clear - L1 L2; lia|..];
    (split; [auto|]); rewrite ?P1, ?P2, ?P3, ?Q1, ?Q2, ?Q3; (split; [by destruct (err flags 5)|]);
    (split; [by destruct (err flags 0)|]); intros k Hk H0 H5; destruct (Hs k Hk H0 H5) as [B1 B2];
    destruct (Hb ERR_ENERGY_LOW ERR_DETECTOR_FAULT k Hk) as (C1 & C2 & C3);
    rewrite ?C1, ?C2, ?C3, B1, B2; by destruct (err flags k).
Qed.

Definition mode_index (p : temp_val) : nat :=
  if temp_mode p =? 0 then 0%nat else if temp_mode p =? 1 then 1%nat else 2%nat.
Definition low_voltage (l : list channel) (p : temp_val) : bool :=
  match l !! NB with Some n => u32 (volt_raw (spec n)) <? valid_vol p | None => false end.

(** Everything [get_temp] reports, in the mean-filter mode. *)
Lemma get_temp_inv a f l s s' : get_temp a f l s = Some s' -> average_mode f -> length (temp_out_range s) = 3%nat ->
  exists os ts o t, temp_out_range s' = os /\ length os = 3%nat /\ length ts = 3%nat /\
    os !! mode_index (para s) = Some o /\ ts !! mode_index (para s) = Some t /\
    target_temp s' = f32_of_f64 t /\ single_temp s' = [f32_of_f64 (nth 0 ts f_zero); f32_of_f64 (nth 1 ts f_zero)] /\
    ratio_temp s' = f32_of_f64 (nth 2 ts f_zero) /\
    (exists e, error_flags s' = HANDLE_SINGLE_ERROR o e /\
       (e = error_flags s \/ e = error_state_clear ERR_DETECTOR_FAULT (error_state_set ERR_ENERGY_LOW (error_flags s)))) /\
    length (slid_holding_data s') = length (slid_holding_data s) /\
    (if low_voltage l (para s) then os = [-1; -1; -1] /\ ts = [f_zero; f_zero; f_zero] /\ para s' = para s /\ two s' = two s
     else two_point_solve 0 (para s) (two s) = Some (para s', two s') /\
       exists w n, l !! WB = Some w /\ l !! NB = Some n /\ forall i, (i < 3)%nat ->
       exists t0, computed a (volt_compensate (spec w)) (volt_compensate (spec n)) s (para s') i = Some t0 /\
         clipped (para s) (nth i (temp_out_range s) 0) t0 (nth i os 0) (nth i ts f_zero)).
Proof.
  unfold get_temp, low_voltage. intros Hg Hf Hl. bind_inv Hg. rename x into w. bind_inv Hg. rename x into n.
  set (s0 := upd_volt _ s) in Hg. change (para s0) with (para s) in Hg. change (error_flags s0) with (error_flags s) in Hg.
  bind_inv Hg. destruct x as [[[tw tn] tr] s1].
  destruct (timer_average f s1 Hf) as (s2 & Et & Ee & Eo & Ep & E2 & Eh). rewrite Et in Hg. cbn [mbind option_bind] in Hg.
  set (s3 := if exti_triger_flag s2 then _ else s2) in Hg.
  assert (H3 : temp_out_range s3 = temp_out_range s1 /\ error_flags s3 = error_flags s1 /\ para s3 = para s1 /\ two s3 = two s1 /\
    length (slid_holding_data s3) = length (slid_holding_data s1))
    by (unfold s3; destruct (exti_triger_flag s2); cbn; rewrite ?length_alter, ?Eh; auto). clearbody s3.
  destruct H3 as (Eo3 & Ee3 & Ep3 & Et3 & Eh3).
  rewrite hold_average in Hg by exact Hf. cbn [mbind option_bind upd_hold temp_out_range error_flags para] in Hg.
  rewrite Eo3, Ee3, Ep3 in Hg. clear Et Ee Eo Ep E2 Eh.
  assert (G : exists os, temp_out_range s1 = os /\ length os = 3%nat /\
    length (slid_holding_data s1) = length (slid_holding_data s) /\ temp_mode (para s1) = temp_mode (para s) /\
    (error_flags s1 = error_flags s \/
     error_flags s1 = error_state_clear ERR_DETECTOR_FAULT (error_state_set ERR_ENERGY_LOW (error_flags s))) /\
    (if u32 (volt_raw (spec n)) <? valid_vol (para s)
     then os = [-1; -1; -1] /\ [tw; tn; tr] = [f_zero; f_zero; f_zero] /\ para s1 = para s /\ two s1 = two s
     else two_point_solve 0 (para s) (two s) = Some (para s1, two s1) /\
       exists w' n', Some w = Some w' /\ Some n = Some n' /\ forall i, (i < 3)%nat ->
       exists t0, computed a (volt_compensate (spec w')) (volt_compensate (spec n')) s (para s1) i = Some t0 /\
         clipped (para s) (nth i (temp_out_range s) 0) t0 (nth i os 0) (nth i [tw; tn; tr] f_zero))).
  { destruct (u32 (volt_raw (spec n)) <? valid_vol (para s)).
    - injection E1 as <- <- <- <-. exists [-1; -1; -1]. cbn. by auto 12.
    - destruct (measured_temps_inv _ _ _ _ _ _ _ _ E1 Hl) as ((Ke & Kh & _ & _ & Km & _) & Hlen & Hc & Hs).
      exists (temp_out_range s1). rewrite Kh, Km. do 4 (split; [auto|]). split; [auto|]. split; [exact Hs|].
      exists w, n. split; [done|]. split; [done|]. exact Hc. }
  destruct G as (os & Eos & Hlen & Hh1 & Hm & He & Hif). rewrite Eos, Hm in Hg.
  exists os, [tw; tn; tr].
  unfold mode_index.
  destruct (temp_mode (para s) =? 0); [|destruct (temp_mode (para s) =? 1)]; bind_inv Hg; injection Hg as <-;
    (eexists _, _); cbn [upd_target upd_hold temp_out_range target_temp single_temp ratio_temp error_flags para two];
    rewrite Eo3, Eos, Ep3, Et3; (split; [done|]); (split; [exact Hlen|]); (split; [done|]);
    (do 5 (split; [reflexivity|])); (split; [by eexists|]); (split; [cbn; congruence|exact Hif]).
Qed.

(** [C39] What the device reports after a measurement, in the mean-filter mode.
    Below the valid voltage: zero, with the flag -1.  Otherwise the temperature of
    the measuring mode is computed from the compensated voltages ([computed]), and
    reported as it is with the flag 0 inside the device's range, as zero with the
    flag -1 below it and with the flag 1 above it; at a limit it is reported with
    the flag of the previous measurement (the code compares strictly and has no
    branch for equality).  The error word says the same as the flag: energy low
    exactly for -1, detector fault exactly for 1, all other bits kept. *)
Theorem reported_temperature a f l s s' : get_temp a f l s = Some s' ->
  average_mode f -> length (temp_out_range s) = 3%nat -> is_flags (error_flags s) ->
  let i := mode_index (para s) in
  exists o t, temp_out_range s' !! i = Some o /\ target_temp s' = f32_of_f64 t /\
    (if low_voltage l (para s) then o = -1 /\ t = f_zero
     else exists w n t0, l !! WB = Some w /\ l !! NB = Some n /\
       computed a (volt_compensate (spec w)) (volt_compensate (spec n)) s (para s') i = Some t0 /\
       clipped (para s) (nth i (temp_out_range s) 0) t0 o t) /\
    err (error_flags s') 5 = (o <? 0) /\ err (error_flags s') 0 = (0 <? o) /\
    forall k, 0 <= k < 16 -> k <> 0 -> k <> 5 -> err (error_flags s') k = err (error_flags s) k.
Proof.
  intros Hg Hf Hl Hfl. cbn zeta. destruct (get_temp_inv _ _ _ _ _ Hg Hf Hl)
    as (os & ts & o & t & Eos & Hlen & Hts & Ho & Ht & Etar & _ & _ & (e & Ee & He) & _ & Hif).
  exists o, t. rewrite Eos. split; [done|]. split; [done|].
  assert (Hi : (mode_index (para s) < 3)%nat) by (unfold mode_index; repeat case_match; lia).
  split.
  { destruct (low_voltage l (para s)).
    - destruct Hif as (-> & -> & _). clear - Ho Ht Hi.
      destruct (mode_index (para s)) as [|[|[|]]]; cbn in Ho, Ht; try lia; by injection Ho as <-; injection Ht as <-.
    - destruct Hif as (_ & w & n & Ew & En & Hc). destruct (Hc _ Hi) as (t0 & H0 & H1).
      rewrite (nth_lookup_Some _ _ _ _ Ho), (nth_lookup_Some _ _ _ _ Ht) in H1. by exists w, n, t0. }
  assert (Hk : is_flags e /\ forall k, 0 <= k < 16 -> k <> 0 -> k <> 5 -> err e k = err (error_flags s) k).
  { destruct He as [-> | ->]; [done|]. destruct (handle_flags (-1) _ Hfl) as (A & _ & _ & B). by split. }
  destruct Hk as [Hfe Hk]. rewrite Ee. destruct (handle_flags o e Hfe) as (_ & A & B & C).
  split; [done|]. split; [done|]. intros k H1 H2 H3. by rewrite C, Hk.
Qed.

(** Two-point calibration reaches the wide band only.  After a request the
    first measurement with a sufficient voltage computes gain and offset of mode
    0 and clears the request, before the narrow band and the ratio are looked
    at: their gains and offsets never change, although the reference points can
    be given for all three. *)
Theorem two_point_only_wide a f l s s' k : get_temp a f l s = Some s' ->
  average_mode f -> length (temp_out_range s) = 3%nat -> k <> 0%nat ->
  temp_calib_gain (para s') !! k = temp_calib_gain (para s) !! k /\
  temp_calib_offset (para s') !! k = temp_calib_offset (para s) !! k /\
  (low_voltage l (para s) = false -> (two_calib_open (two s') =? 1) = false).
Proof.
  intros Hg Hf Hl Hk. destruct (get_temp_inv _ _ _ _ _ Hg Hf Hl)
    as (os & ts & o & t & _ & _ & _ & _ & _ & _ & _ & _ & _ & _ & Hif).
  destruct (low_voltage l (para s)); [by destruct Hif as (_ & _ & -> & _)|]. destruct Hif as (Hif & _).
  destruct (two_point_solve_frame _ _ _ _ _ Hif) as (_ & _ & _ & Hother & Hsp & _).
  destruct (Hother k Hk). done.
Qed.
End Proofs.

(** The narrow band at 250 mV, the wide one at 300 mV, and a request with
    points for all modes. *)
Definition asked (p : temp_val) : temp_state :=
  let three n := [f32_of_Z n; f32_of_Z n; f32_of_Z n] in
  upd_para p (mk_two 1 (three 1000) (three 900) (three 2000) (three 1900)) (temp_reset p 0).
Lemma reported_temperature_witness :
  exists o t t0 s', get_temp default_algo default_filter [channel_of 300000; channel_of 250000] (temp_reset default_temp 0) = Some s' /\
    temp_out_range s' !! 2%nat = Some o /\ target_temp s' = f32_of_f64 t /\
    computed default_algo 300000 250000 (temp_reset default_temp 0) (para s') 2 = Some t0 /\ clipped default_temp 0 t0 o t.
Proof.
  destruct (get_temp default_algo default_filter [channel_of 300000; channel_of 250000] (temp_reset default_temp 0))
    as [s'|] eqn:E; [|vm_compute in E; discriminate E].
  destruct (reported_temperature _ _ _ _ _ E) as (o & t & H1 & H2 & H3 & _).
  - split; discriminate.
  - reflexivity.
  - split; reflexivity || discriminate.
  - change (low_voltage _ _) with false in H3. destruct H3 as (w & n & t0 & [= <-] & [= <-] & H4 & H5).
    exists o, t, t0, s'. split; [reflexivity|]. split; [exact H1|]. split; [exact H2|]. split; [exact H4|exact H5].
Defined.
Lemma two_point_only_wide_witness :
  option_map (fun s => temp_calib_gain (para s) !! 2%nat) (get_temp default_algo default_filter
      [channel_of 300000; channel_of 250000] (asked default_temp)) = Some (Some one32).
Proof.
  destruct (get_temp default_algo default_filter [channel_of 300000; channel_of 250000] (asked default_temp))
    as [s'|] eqn:E; [|vm_compute in E; discriminate E].
  destruct (two_point_only_wide _ _ _ _ _ 2%nat E) as (H1 & _).
  - split; discriminate.
  - reflexivity.
  - discriminate.
  - exact (f_equal Some H1).
Defined.

(** ** The hold modes *)

Lemma hold_channel_length filter time i r l v : hold_channel filter time i r = Some (l, v) -> length l = length (fst r).
Proof.
  unfold hold_channel. intros E. bind_inv E. destruct (filter x (f_to_s32 time) (f_to_s64 (snd r))) as [y w].
  bind_inv E. injection E as <- <-. unfold st in E1. case_match; [|done]. injection E1 as <-. apply length_insert.
Qed.
Lemma hold_all_undefined f h a b c : ~ average_mode f -> length h = 2%nat -> hold_all f h a b c = None.
Proof.
  intros Hm Hh. unfold hold_all.
  assert (G : forall filter, (w ← hold_channel filter (peak_holding_time f) 0 (h, a);
    n ← hold_channel filter (valley_holding_time f) 1 (fst w, b);
    r ← hold_channel filter (valley_holding_time f) 2 (fst n, c);
    Some (fst r, snd w, snd n, snd r)) = None).
  { intros filter. destruct (hold_channel filter _ 0 _) as [[l1 v1]|] eqn:E1; [cbn [mbind option_bind fst]|done].
    apply hold_channel_length in E1. cbn [fst] in E1.
    destruct (hold_channel filter _ 1 _) as [[l2 v2]|] eqn:E2; [cbn [mbind option_bind fst]|done].
    apply hold_channel_length in E2. cbn [fst] in E2. unfold hold_channel at 1. cbn [fst].
    unfold ld. cbn [Z.leb Z.compare]. rewrite lookup_ge_None_2; [done|]. rewrite E2, E1, Hh. cbn. lia. }
  unfold average_mode in Hm.
  destruct (Z.eqb_spec (filter_mode f) PEAK_HOLDING); [apply G|].
  destruct (Z.eqb_spec (filter_mode f) VALLEY_HOLDING); [apply G|tauto].
Qed.

Lemma get_temp_overrun {LM : Libm} a f l s : ~ average_mode f -> length (slid_holding_data s) = 2%nat ->
  length (temp_out_range s) = 3%nat -> get_temp a f l s = None.
Proof.
  intros Hm Hh Hl. destruct (get_temp a f l s) as [s'|] eqn:Hg; [|done]. exfalso. unfold get_temp in Hg.
  bind_inv Hg. rename x into w. bind_inv Hg. rename x into n. bind_inv Hg. destruct x as [[[tw tn] tr] s1].
  assert (H1 : length (slid_holding_data s1) = 2%nat).
  { destruct (_ <? _); [by injection E1 as _ _ _ <-|].
    destruct (measured_temps_inv _ _ _ _ _ _ _ _ E1 Hl) as ((_ & -> & _) & _). exact Hh. }
  clear E1. bind_inv Hg. rename x into s2.
  assert (H2 : length (slid_holding_data s2) = 2%nat).
  { unfold timer4_trigger_callback in E1. destruct (timer4_trigger_flag s1); [|by injection E1 as <-].
    bind_inv E1. injection E1 as <-. cbn [upd_hold slid_holding_data]. rewrite <- H1.
    cbn [for_loop] in E2. repeat bind_inv E2. injection E2 as <-.
    assert (G : forall i (h h' : list slid_holding_t), (if filter_mode f =? PEAK_HOLDING then x ← ld h i; st h i (hold_tick (peak_holding_time f) x)
       else if filter_mode f =? VALLEY_HOLDING then x ← ld h i; st h i (hold_tick (valley_holding_time f) x) else Some h) = Some h' ->
       length h' = length h).
    { intros i h h' Eh. destruct (filter_mode f =? PEAK_HOLDING); [bind_inv Eh; by apply st_length in Eh|].
      destruct (filter_mode f =? VALLEY_HOLDING); [bind_inv Eh; by apply st_length in Eh|by injection Eh as <-]. }
    apply G in E1, E3, E4. congruence. }
  clear E1. set (s3 := if exti_triger_flag s2 then _ else s2) in Hg.
  assert (H3 : length (slid_holding_data s3) = 2%nat) by (unfold s3; destruct (exti_triger_flag s2); cbn; by rewrite ?length_alter).
  rewrite hold_all_undefined in Hg by done. done.
Qed.
(** Peak and valley hold are broken.  [slid_holding_data] has one element
    per channel, but the ratio is held in a third one: with the filter mode set
    to peak or valley hold every measurement, whatever its voltages, writes
    behind the array. *)
Theorem hold_modes_overrun {LM : Libm} a f l s : ~ average_mode f -> length (slid_holding_data s) = 2%nat ->
  length (temp_out_range s) = 3%nat -> get_temp a f l s = None.
Proof. intros Hm Hh Hl. by apply get_temp_overrun. Qed.
Lemma hold_modes_overrun_witness :
  get_temp default_algo (mk_filter one32 one32 PEAK_HOLDING) [channel_of 300000; channel_of 250000] (temp_reset default_temp 0) = None.
Proof. apply hold_modes_overrun; [intros [H _]; by apply H|reflexivity|reflexivity]. Defined.

(** ** Smoothing after a gain switch *)

Definition jump (s : smooth_t) (t : spec_float) : bool := 70 <? Z.abs (f_to_s32 (f32_sub (smooth_lastTemp s) t)).
(** Successive measurements, as long as smoothing is on. *)
Fixpoint smooth_run (l : list spec_float) (s : smooth_t) : option smooth_t :=
  match l with
  | [] => Some s
  | t :: l =>
      if smooth_sta s then r ← switch_temp_smooth 100 t s; smooth_run l (snd r) else Some s
  end.

Lemma smooth_step t s : 0 <= smooth_count s <= 100 ->
  match switch_temp_smooth 100 t s with
  | None => smooth_count s = 100 /\ jump s t = false
  | Some (r, s') =>
      if jump s t then r = t /\ smooth_sta s' = false
      else smooth_count s < 100 /\ smooth_sta s' = smooth_sta s /\ smooth_count s' = smooth_count s + 1
  end.
Proof.
  intros Hc. unfold switch_temp_smooth. fold (jump s t). destruct (jump s t); [done|].
  assert (Hlen : zlen smooth_table_100 = 100) by reflexivity.
  unfold ld. rewrite (proj2 (Z.leb_le 0 (smooth_count s))) by lia.
  destruct (smooth_table_100 !! Z.to_nat (smooth_count s)) as [w|] eqn:E; cbn [mbind option_bind].
  - apply lookup_lt_Some in E. rewrite (u32_small (smooth_count s + 1)), (u32_small 100) by lia.
    rewrite (proj2 (Z.ltb_ge 100 (smooth_count s + 1))) by lia. cbn. split; [lia|done].
  - apply lookup_ge_None in E. split; [lia|done].
Qed.

(** Smoothing after a gain switch never completes.  It is meant to end
    after the 101st weight, but the table has 100: started from count zero it is
    either still running after at most 100 measurements, or was broken off by a
    jump of more than 70 degrees, or reads behind the table. *)
Theorem smoothing_never_completes l : forall s, smooth_sta s = true -> 0 <= smooth_count s <= 100 ->
  match smooth_run l s with
  | Some s' =>
      (smooth_sta s' = true /\ smooth_count s' = smooth_count s + zlen l /\ smooth_count s' <= 100) \/
      (smooth_sta s' = false /\ exists t s0, t ∈ l /\ smooth_count s <= smooth_count s0 <= 100 /\ jump s0 t = true)
  | None => 100 < smooth_count s + zlen l
  end.
Proof.
  induction l as [|t l IH]; intros s Hs Hc; cbn [smooth_run]; [left; cbn; repeat split; try done; lia|].
  rewrite Hs. pose proof (smooth_step t s Hc) as Hst.
  destruct (switch_temp_smooth 100 t s) as [[r s']|] eqn:E; cbn [mbind option_bind snd]; [|rewrite zlen_cons; lia].
  destruct (jump s t) eqn:Ej.
  - destruct Hst as [_ Hs']. assert (Hrun : smooth_run l s' = Some s') by (destruct l; cbn; [done|by rewrite Hs']).
    rewrite Hrun. right. split; [done|]. exists t, s. split; [left|]. split; [lia|done].
  - destruct Hst as (H1 & H2 & H3). rewrite Hs in H2. specialize (IH s' H2 ltac:(lia)).
    destruct (smooth_run l s') as [s2|]; [|rewrite zlen_cons; lia]. rewrite zlen_cons.
    destruct IH as [(A & B & C)|(A & x & s0 & B & C & D)]; [left; repeat split; [done|lia|lia]|].
    right. split; [done|]. exists x, s0. split; [by right|]. split; [lia|done].
Qed.
Lemma smoothing_never_completes_witness :
  smooth_run (replicate 101 (f32_of_Z 1000)) (mk_smooth true (f32_of_Z 1000) 0) = None /\
  match smooth_run [f32_of_Z 1000] (mk_smooth true (f32_of_Z 1000) 0) with
  | Some s' => smooth_count s' = 1
  | None => False
  end.
Proof.
  split; [vm_compute; reflexivity|].
  pose proof (smoothing_never_completes [f32_of_Z 1000] (mk_smooth true (f32_of_Z 1000) 0) eq_refl ltac:(cbn; lia)) as H.
  destruct (smooth_run _ _) as [s'|] eqn:E; [|discriminate H].
  destruct H as [(_ & H & _)|(H & _)]; [exact H|].
  vm_compute in E. injection E as <-. discriminate H.
Defined.
