(* ===== verification/Calibrate.v ===== *)
(** * measure.c: calibrating transmission or slope by bisection

    [calibrate_temperature] varies the transmission of a channel or the slope of
    the ratio until the temperature is the wanted one.  [trials] is the list of
    values it tries, kept for the theorems only. *)
From Stdlib Require Import ZifyBool.
From S2P Require Import Prelude CFloat Libm Tiag SelfCheck Sensor TempCalc.

Definition MAX_ITER : Z := 50.
Definition tolerance : spec_float := f32_lit 1 10.
Definition value_min : spec_float := f32_lit 1 100.
Definition value_max : spec_float := f32_of_Z 10.

Definition set_trans (ch : nat) (v : spec_float) (p : temp_val) : temp_val :=
  mk_temp (emissivity p) (<[ch := v]> (trans p)) (trans_interior p) (dev_temp_min p) (dev_temp_max p) (temp_mode p)
    (slope p) (slope_interior p) (valid_vol p) (temp_calib_gain p) (temp_calib_offset p).
Definition set_slope (v : spec_float) (p : temp_val) : temp_val :=
  mk_temp (emissivity p) (trans p) (trans_interior p) (dev_temp_min p) (dev_temp_max p) (temp_mode p)
    v (slope_interior p) (valid_vol p) (temp_calib_gain p) (temp_calib_offset p).

(** What the calibration writes: [sys_para.temp], the coefficients of the
    channels, [ratio_temp_nerve], and the stores of the parameter manager. *)
Record cal_state (W : Type) := mk_cal {
  cal_para : temp_val; cal_coefs : list (spec_float * spec_float); cal_nerve : spec_float; storage : W }.
Arguments mk_cal {W}. Arguments cal_para {W}. Arguments cal_coefs {W}. Arguments cal_nerve {W}. Arguments storage {W}.

Section Calibrate.
Context {LM : Libm} {W : Type} (pmm_save_group : temp_val -> W -> W).
Context (a : algo_val) (sens : list channel) (temp_calibration : spec_float).

(** [Some ch] is the transmission of channel [ch], [None] the slope. *)
Definition parameter (ch : option nat) (p : temp_val) : option spec_float :=
  match ch with Some ch => trans p !! ch | None => Some (slope p) end.

(** The parameter is set, then the temperature computed. *)
Definition trial (ch : option nat) (voltage mid : spec_float) (s : cal_state W) : option (spec_float * cal_state W) :=
  match ch with
  | Some ch =>
      let p := set_trans ch mid (cal_para s) in
      r ← get_single_temp p a (f_to_s64 voltage) ch;
      Some (fst r, mk_cal p (<[ch := snd r]> (cal_coefs s)) (cal_nerve s) (storage s))
  | None =>
      let p := set_slope mid (cal_para s) in
      w ← sens !! WB;
      n ← sens !! NB;
      r ← get_ratio_temp p a (volt_compensate (spec w)) (volt_compensate (spec n));
      Some (fst r, mk_cal p (cal_coefs s) (snd r) (storage s))
  end.

(** The interval after a trial; the temperature falls with the transmission
    and rises with the slope. *)
Definition narrow (ch : option nat) (diff mn mx mid : spec_float) : spec_float * spec_float :=
  match ch with
  | Some _ => if f_gt diff f_zero then (mid, mx) else (mn, mid)
  | None => if f_lt diff f_zero then (mid, mx) else (mn, mid)
  end.
Definition next_mid (mn mx : spec_float) : spec_float :=
  let mid := f32_div (f32_add mn mx) (f32_of_Z 2) in
  if f_le mid mn then mn else if f_ge mid mx then mx else mid.

Definition close_enough (current : spec_float) : bool :=
  f_lt (SFabs (f64_of_f32 (f32_sub current temp_calibration))) (f64_of_f32 tolerance).

(** [while (iter++ < max_iter)]; the fuel is one more than the iterations. *)
Fixpoint calib_loop (fuel : nat) (ch : option nat) (voltage : spec_float) (iter : Z) (mn mx mid : spec_float) (s : cal_state W)
  : option (cal_state W * Z * list spec_float) :=
  match fuel with
  | O => None
  | S fuel =>
      if iter <? MAX_ITER then
        r ← trial ch voltage mid s;
        let '(current_temp, s) := r in
        if close_enough current_temp then
          Some (mk_cal (cal_para s) (cal_coefs s) (cal_nerve s) (pmm_save_group (cal_para s) (storage s)), 0, [mid])
        else
          let '(mn, mx) := narrow ch (f32_sub current_temp temp_calibration) mn mx mid in
          q ← calib_loop fuel ch voltage (u8 (iter + 1)) mn mx (next_mid mn mx) s;
          let '(s, ret, trials) := q in Some (s, ret, mid :: trials)
      else Some (s, -1, [])
  end.

Definition calibrate_temperature (s : cal_state W) : option (cal_state W * Z * list spec_float) :=
  let mode := u8 (temp_mode (cal_para s)) in
  if (mode =? 0) || (mode =? 1) then
    let ch := if mode =? 0 then WB else NB in
    c ← sens !! ch;
    let voltage := f32_of_Z (volt_filter (spec c)) in
    if f_le voltage f_zero then Some (s, -1, [])
    else
      mid ← trans (cal_para s) !! ch;
      calib_loop 51 (Some ch) voltage 0 value_min value_max mid s
  else if mode =? 2 then calib_loop 51 None f_zero 0 value_min value_max (slope (cal_para s)) s
  else Some (s, -1, []).
End Calibrate.

(** * Properties *)

Definition in_range (v : spec_float) : Prop := f_le value_min v = true /\ f_le v value_max = true.
Lemma in_range_finite v : in_range v -> f_is_finite v = true.
Proof. intros [H1 H2]. destruct v as [|[]| |]; done. Qed.
Lemma next_mid_range mn mx : in_range mn -> in_range mx -> in_range (next_mid mn mx).
Proof.
  intros Hn Hx. unfold next_mid. set (mid := f32_div _ _).
  assert (Hm : f_is_nan mid = false).
  { unfold mid, f32_div. change (f32_of_Z 2) with (S754_finite false 8388608 (-22)). apply SFdiv_number, SFadd_number; by apply in_range_finite. }
  destruct (f_le_not_nan _ _ (proj1 Hn)) as [_ Hn'], (f_le_not_nan _ _ (proj1 Hx)) as [_ Hx'].
  destruct (f_le mid mn) eqn:E1; [done|]. unfold f_ge. fold (f_le mx mid). destruct (f_le mx mid) eqn:E2; [done|].
  apply f_le_total in E1, E2; [|done..]. split; eapply f_le_trans; [apply Hn|done|exact E2|apply Hx].
Qed.

Section Proofs.
Context {LM : Libm} {W : Type} (pmm_save_group : temp_val -> W -> W).
Context (a : algo_val) (sens : list channel) (target : spec_float).

Definition set_parameter (ch : option nat) (v : spec_float) (p : temp_val) : temp_val :=
  match ch with Some ch => set_trans ch v p | None => set_slope v p end.
(** The temperature as a function of the parameters. *)
Definition temp_at (ch : option nat) (voltage : spec_float) (p : temp_val) : option spec_float :=
  match ch with
  | Some ch => fst <$> get_single_temp p a (f_to_s64 voltage) ch
  | None =>
      w ← sens !! WB;
      n ← sens !! NB;
      fst <$> get_ratio_temp p a (volt_compensate (spec w)) (volt_compensate (spec n))
  end.
Lemma set_parameter_twice ch v v' p : set_parameter ch v' (set_parameter ch v p) = set_parameter ch v' p.
Proof. destruct ch as [ch|]; [|done]. cbn. unfold set_trans. cbn. by rewrite list_insert_insert_eq. Qed.

Lemma trial_spec ch voltage v (s : cal_state W) p : (exists u, cal_para s = set_parameter ch u p) ->
  match temp_at ch voltage (set_parameter ch v p) with
  | Some t => exists s', trial a sens ch voltage v s = Some (t, s') /\ cal_para s' = set_parameter ch v p /\ storage s' = storage s
  | None => trial a sens ch voltage v s = None
  end.
Proof.
  intros [u Hu]. unfold trial, temp_at. destruct ch as [ch|]; cbn [set_parameter] in *.
  - assert (E : set_trans ch v (cal_para s) = set_trans ch v p) by (rewrite Hu; apply (set_parameter_twice (Some ch))).
    rewrite E. destruct (get_single_temp (set_trans ch v p) a _ ch) as [[t' k]|]; cbn; [|done]. by eexists.
  - assert (E : set_slope v (cal_para s) = set_slope v p) by (rewrite Hu; done). rewrite E.
    destruct (sens !! WB) as [w|]; [|done]. destruct (sens !! NB) as [n|]; [|done]. cbn [mbind option_bind] in *.
    destruct (get_ratio_temp (set_slope v p) a _ _) as [[t' k]|]; cbn; [|done]. by eexists.
Qed.

(** ** The search, on the temperature as a function of the parameter *)
Section Search.
Context (ch : option nat) (voltage : spec_float) (p : temp_val).

Definition hits (v : spec_float) : Prop :=
  exists t, temp_at ch voltage (set_parameter ch v p) = Some t /\ close_enough target t = true.
(** Must the parameter be larger than [v]?  A larger transmission makes the
    temperature fall, a larger slope makes it rise. *)
Definition too_small (v : spec_float) : bool :=
  match temp_at ch voltage (set_parameter ch v p) with
  | Some t => match ch with Some _ => f_gt (f32_sub t target) f_zero | None => f_lt (f32_sub t target) f_zero end
  | None => false
  end.
(** The last of the values tried so far that was too small, or 0.01; and the
    last that was too large, or 10. *)
Definition lower_end (l : list spec_float) : spec_float := default value_min (last (filter (fun v => too_small v = true) l)).
Definition upper_end (l : list spec_float) : spec_float := default value_max (last (filter (fun v => too_small v = false) l)).
(** Each value but the first lies in the middle between the two. *)
Definition halving (before vs : list spec_float) : Prop :=
  forall l w l', vs = l ++ w :: l' -> l <> [] -> w = next_mid (lower_end (before ++ l)) (upper_end (before ++ l)).

Lemma ends_snoc l v : (lower_end (l ++ [v]), upper_end (l ++ [v])) = if too_small v then (v, upper_end l) else (lower_end l, v).
Proof.
  unfold lower_end, upper_end. rewrite !filter_app. cbn [filter list_filter].
  destruct (too_small v); repeat case_decide; try done; by rewrite app_nil_r, last_snoc.
Qed.
Lemma narrow_ends t v l : temp_at ch voltage (set_parameter ch v p) = Some t ->
  narrow ch (f32_sub t target) (lower_end l) (upper_end l) v = (lower_end (l ++ [v]), upper_end (l ++ [v])).
Proof. intros Ht. rewrite ends_snoc. unfold too_small. rewrite Ht. by destruct ch. Qed.
Lemma halving_cons before v w vs : halving (before ++ [v]) (w :: vs) ->
  w = next_mid (lower_end (before ++ [v])) (upper_end (before ++ [v])) -> halving before (v :: w :: vs).
Proof.
  intros H Hw l u l' E Hl. destruct l as [|x l]; [done|]. injection E as <- E.
  replace (before ++ v :: l) with ((before ++ [v]) ++ l) by by rewrite <- app_assoc.
  destruct l as [|y l]; [injection E as <- <-; by rewrite app_nil_r|]. by apply (H _ _ l').
Qed.

(** What the loop leaves, with the values [vs] it tries. *)
Definition loop_result (iter : Z) (s : cal_state W) (vs : list spec_float) (r : option (cal_state W * Z * list spec_float)) : Prop :=
  match r with
  | None => exists v, last vs = Some v /\ temp_at ch voltage (set_parameter ch v p) = None
  | Some (s', ret, vs') =>
      vs' = vs /\ (forall v, last vs = Some v -> cal_para s' = set_parameter ch v p) /\ (vs = [] -> cal_para s' = cal_para s) /\
      ((ret = 0 /\ storage s' = pmm_save_group (cal_para s') (storage s) /\ exists v, last vs = Some v /\ hits v) \/
       (ret = -1 /\ storage s' = storage s /\ zlen vs = MAX_ITER - iter /\ forall v, v ∈ vs -> ~ hits v))
  end.
Lemma loop_result_cons iter s1 s mid vs r t : temp_at ch voltage (set_parameter ch mid p) = Some t -> close_enough target t = false ->
  cal_para s1 = set_parameter ch mid p -> storage s1 = storage s -> loop_result (iter + 1) s1 vs r ->
  loop_result iter s (mid :: vs) (q ← r; let '(s, ret, trials) := q in Some (s, ret, mid :: trials)).
Proof.
  intros Ht Hc Hp Hs H. unfold loop_result in *. destruct r as [[[s' ret] vs']|]; cbn [mbind option_bind].
  2: { destruct H as (v & Hv & Hn). exists v. destruct vs; done. }
  destruct H as (-> & Hlast & Hnil & Hres). split; [done|]. split.
  { intros v Hv. destruct vs as [|v0 vs]; [injection Hv as <-; rewrite Hnil, Hp; done|]. by apply Hlast. }
  split; [done|]. destruct Hres as [(-> & Hst & v & Hv & Hh)|(-> & Hst & Hz & Hno)].
  - left. rewrite Hst, Hs. split; [done|]. split; [done|]. exists v. split; [|done]. destruct vs; [done|exact Hv].
  - right. rewrite Hst, Hs. split; [done|]. split; [done|]. split; [rewrite zlen_cons; lia|].
    intros v Hv. apply elem_of_cons in Hv as [->|Hv]; [|by apply Hno]. intros (t' & Ht' & Hc'). congruence.
Qed.

Lemma loop_spec fuel : forall iter before mid (s : cal_state W),
  0 <= iter <= MAX_ITER -> (Z.to_nat (MAX_ITER - iter) < fuel)%nat -> (exists u, cal_para s = set_parameter ch u p) ->
  exists vs, zlen vs <= MAX_ITER - iter /\ (iter < MAX_ITER -> head vs = Some mid) /\ halving before vs /\
    (in_range (lower_end before) -> in_range (upper_end before) -> in_range mid -> Forall in_range vs) /\
    loop_result iter s vs
      (calib_loop pmm_save_group a sens target fuel ch voltage iter (lower_end before) (upper_end before) mid s).
Proof.
  assert (Hone : forall before mid, halving before [mid]).
  { intros before mid [|x l] w l' E Hl; [done|]. by destruct l. }
  induction fuel as [|fuel IH]; intros iter before mid s Hi Hf Hs; [lia|]. cbn [calib_loop].
  destruct (Z.ltb_spec iter MAX_ITER) as [Hlt|Hge].
  2: { exists []. split; [cbn; lia|]. split; [lia|]. split; [by intros [|] ? ? [=]|]. split; [done|]. cbn. split; [done|].
       split; [done|]. split; [done|]. right. split; [done|]. split; [done|]. split; [lia|]. intros v Hv. by apply elem_of_nil in Hv. }
  pose proof (trial_spec ch voltage mid s p Hs) as Ht. destruct (temp_at ch voltage (set_parameter ch mid p)) as [t|] eqn:Et.
  2: { rewrite Ht. exists [mid]. split; [cbn; lia|]. split; [done|]. split; [apply Hone|].
       split; [intros _ _ Hr; by rewrite Forall_singleton|]. by exists mid. }
  destruct Ht as (s1 & -> & Hp1 & Hst1). cbn [mbind option_bind]. destruct (close_enough target t) eqn:Ec.
  - exists [mid]. split; [cbn; lia|]. split; [done|]. split; [apply Hone|]. split; [intros _ _ Hr; by rewrite Forall_singleton|].
    cbn [loop_result cal_para storage]. split; [done|]. split; [intros v [= <-]; exact Hp1|]. split; [done|]. left. rewrite Hst1.
    split; [done|]. split; [done|]. exists mid. split; [done|]. by exists t.
  - rewrite (narrow_ends t mid before Et). rewrite u8_small by (unfold MAX_ITER in *; lia).
    set (mn' := lower_end (before ++ [mid])). set (mx' := upper_end (before ++ [mid])).
    destruct (IH (iter + 1) (before ++ [mid]) (next_mid mn' mx') s1) as (vs & Hlen & Hhd & Hh & Hrng & Hres);
      [lia|lia|by exists mid|]. exists (mid :: vs). split; [rewrite zlen_cons; lia|]. split; [done|]. split; [|split].
    + destruct vs as [|w vs]; [apply Hone|]. apply halving_cons; [exact Hh|].
      destruct (Z.lt_ge_cases (iter + 1) MAX_ITER) as [Hl|Hl]; [specialize (Hhd Hl); by injection Hhd|].
      rewrite zlen_cons in Hlen. pose proof (zlen_nonneg vs). lia.
    + intros H1 H2 H3. assert (in_range mn' /\ in_range mx') as [H1' H2'].
      { pose proof (ends_snoc before mid) as E. fold mn' mx' in E. destruct (too_small mid); injection E as -> ->; done. }
      constructor; [done|]. apply Hrng; [done|done|by apply next_mid_range].
    + exact (loop_result_cons iter s1 s mid vs _ t Et Ec Hp1 Hst1 Hres).
Qed.
End Search.
End Proofs.

Section Result.
Context {LM : Libm} {W : Type} (pmm_save_group : temp_val -> W -> W).
Context (a : algo_val) (sens : list channel) (target : spec_float).

(** What is varied in a measuring mode, with the voltage used. *)
Definition calib_target (p : temp_val) : option (option nat * spec_float) :=
  let mode := u8 (temp_mode p) in
  if mode =? 2 then Some (None, f_zero)
  else if (mode =? 0) || (mode =? 1) then
    let ch := if mode =? 0 then WB else NB in
    c ← sens !! ch;
    let voltage := f32_of_Z (volt_filter (spec c)) in
    if f_le voltage f_zero then None else Some (Some ch, voltage)
  else None.

(** [C40] The calibration by bisection terminates, and what it leaves, in all
    three modes.  It tries at most 50 values: first the present one, then each time
    the middle between the last value found too small and the last found too large
    (0.01 and 10 while there is none), where too small means too hot for a
    transmission and too cold for the slope; started inside [0.01, 10] it never
    leaves this interval, whatever the rounding.  It succeeds exactly when the last
    trial is within 0.1 degrees; then the parameter stays at it and is saved, once.
    Otherwise 50 trials have missed and -1 is returned, nothing is saved, but the
    parameter in memory stays at the last trial, not at its value before.  (If a
    tried value leaves no positive compensated voltage the code goes on with an
    uninitialised temperature; the search is followed up to there.) *)
Theorem calibrate_terminates (s : cal_state W) ch voltage mid : calib_target (cal_para s) = Some (ch, voltage) ->
  parameter ch (cal_para s) = Some mid ->
  exists vs v, head vs = Some mid /\ last vs = Some v /\ zlen vs <= 50 /\ (in_range mid -> Forall in_range vs) /\
    halving a sens target ch voltage (cal_para s) [] vs /\
    match calibrate_temperature pmm_save_group a sens target s with
    | Some (s', ret, vs') =>
        vs' = vs /\ cal_para s' = set_parameter ch v (cal_para s) /\
        ((ret = 0 /\ hits a sens target ch voltage (cal_para s) v /\ storage s' = pmm_save_group (cal_para s') (storage s)) \/
         (ret = -1 /\ zlen vs = 50 /\ (forall u, u ∈ vs -> ~ hits a sens target ch voltage (cal_para s) u) /\ storage s' = storage s))
    | None => temp_at a sens ch voltage (set_parameter ch v (cal_para s)) = None
    end.
Proof.
  intros Ht Hp.
  assert (E : calibrate_temperature pmm_save_group a sens target s =
    calib_loop pmm_save_group a sens target 51 ch voltage 0 value_min value_max mid s).
  { unfold calib_target in Ht. unfold calibrate_temperature. cbv zeta in Ht |- *.
    set (mode := u8 (temp_mode (cal_para s))) in Ht |- *. clearbody mode.
    destruct (Z.eqb_spec mode 2) as [Em|Em].
    - rewrite Em. injection Ht as <- <-. injection Hp as <-. done.
    - destruct ((mode =? 0) || (mode =? 1)); [|done]. set (c := if mode =? 0 then WB else NB) in Ht |- *. clearbody c.
      destruct (sens !! c) as [x|]; [|done]. cbn [mbind option_bind] in *. destruct (f_le _ f_zero); [done|].
      injection Ht as <- <-. cbn [parameter] in Hp. by rewrite Hp. }
  rewrite E. assert (Hs : exists u, cal_para s = set_parameter ch u (cal_para s)).
  { exists mid. destruct ch as [ch|]; cbn in *; [|injection Hp as <-; by destruct (cal_para s)].
    unfold set_trans. rewrite list_insert_id by done. by destruct (cal_para s). }
  destruct (loop_spec pmm_save_group a sens target ch voltage (cal_para s) 51 0 [] mid s)
    as (vs & Hlen & Hhd & Hh & Hrng & Hres); [unfold MAX_ITER; lia|unfold MAX_ITER; lia|done|].
  specialize (Hhd eq_refl). destruct (last vs) as [v|] eqn:El; [|destruct vs; [done|]; by apply last_None in El].
  exists vs, v. split; [done|]. split; [done|]. split; [exact Hlen|].
  split; [intros Hr; apply Hrng; [split; reflexivity|split; reflexivity|done]|]. split; [exact Hh|].
  change (lower_end a sens target ch voltage (cal_para s) []) with value_min in Hres.
  change (upper_end a sens target ch voltage (cal_para s) []) with value_max in Hres. unfold loop_result in Hres.
  destruct (calib_loop _ _ _ _ _ _ _ _ _ _ _ _) as [[[s' ret] vs']|]; [|destruct Hres as (v' & Ev & Hn); congruence].
  destruct Hres as (-> & Hlast & _ & Hres). split; [done|]. split; [by apply Hlast|].
  destruct Hres as [(-> & Hst & u & Eu & Hu)|(-> & Hst & Hz & Hno)]; [left; replace v with u by congruence|right]; auto.
Qed.
End Result.

Definition two_channels : list channel := [channel_of 300000; channel_of 250000].
Definition cal_start : cal_state nat := mk_cal default_temp [(f_zero, f_zero); (f_zero, f_zero)] f_zero 0%nat.
Definition in_mode (mode : Z) : cal_state nat :=
  mk_cal (mk_temp one32 [one32; one32] [one32; one32] (f32_of_Z 800) (f32_of_Z 2800) mode one32 one32 15000 [] [])
    [(f_zero, f_zero); (f_zero, f_zero)] f_zero 0%nat.
(** Wide band, narrow band and ratio, towards a temperature each finds after
    some misses. *)
Lemma calibrate_terminates_witness :
  let found target s := match calibrate_temperature (fun _ n => S n) default_algo two_channels (f32_of_Z target) s with
    | Some (s', ret, vs) => head vs = Some one32 /\ 1 < zlen vs <= 50 /\ ret = 0 /\ storage s' = 1%nat
    | None => False
    end in
  found 1500 (in_mode 0) /\ found 1500 (in_mode 1) /\ found 1500 cal_start.
Proof.
  assert (W : forall target s ch voltage, calib_target two_channels (cal_para s) = Some (ch, voltage) ->
    parameter ch (cal_para s) = Some one32 -> storage s = 0%nat ->
    match calibrate_temperature (fun _ n => S n) default_algo two_channels (f32_of_Z target) s with
    | Some (_, ret, vs) => (ret =? 0) && (1 <? zlen vs) = true | None => False end ->
    match calibrate_temperature (fun _ n => S n) default_algo two_channels (f32_of_Z target) s with
    | Some (s', ret, vs) => head vs = Some one32 /\ 1 < zlen vs <= 50 /\ ret = 0 /\ storage s' = 1%nat
    | None => False end).
  { intros target s ch voltage H1 H2 H3 H4.
    destruct (calibrate_terminates (fun _ n => S n) default_algo two_channels (f32_of_Z target) s ch voltage one32 H1 H2)
      as (vs & v & E1 & _ & E2 & _ & _ & E3).
    destruct (calibrate_temperature _ _ _ _ s) as [[[s' ret] vs']|]; [|exact H4]. destruct E3 as (-> & _ & E3).
    apply andb_true_iff in H4 as [H5%Z.eqb_eq H6%Z.ltb_lt]. split; [exact E1|]. split; [split; [exact H6|exact E2]|]. split; [exact H5|].
    destruct E3 as [(_ & _ & E3)|(E3 & _)]; [by rewrite E3, H3|rewrite H5 in E3; discriminate E3]. }
  split; [|split].
  - apply (W 1500 (in_mode 0) (Some WB) (f32_of_Z 300000)); [reflexivity|reflexivity|reflexivity|vm_compute; reflexivity].
  - apply (W 1500 (in_mode 1) (Some NB) (f32_of_Z 250000)); [reflexivity|reflexivity|reflexivity|vm_compute; reflexivity].
  - apply (W 1500 cal_start None f_zero); [reflexivity|reflexivity|reflexivity|vm_compute; reflexivity].
Defined.
(** The ratio: 1500 degrees are found at the 18th trial and saved.  The wide
    band: 1 degree is out of reach; nothing is saved, but the transmission in
    memory is no longer 1. *)
Example calibrate_ex :
  (let mode_0 := mk_temp one32 [one32; one32] [one32; one32] (f32_of_Z 800) (f32_of_Z 2800) 0 one32 one32 15000 [] [] in
   let run p t := match calibrate_temperature (fun _ n => S n) default_algo two_channels (f32_of_Z t)
                          (mk_cal p [(f_zero, f_zero); (f_zero, f_zero)] f_zero 0%nat) with
                  | Some (s, ret, vs) =>
                      Some (ret, storage s, zlen vs, f_to_s32 (f32_mul (slope (cal_para s)) (f32_of_Z 1000)),
                            (fun x => f_to_s32 (f32_mul x (f32_of_Z 1000))) <$> trans (cal_para s) !! WB)
                  | None => None
                  end in (run default_temp 1500, run mode_0 1))
  = (Some (0, 1%nat, 18, 3379, Some 1000), Some (-1, 0%nat, 50, 1000, Some 10000)).
Proof. vm_compute. reflexivity. Qed.
