(* ===== verification/MeasTask.v ===== *)
(** * measure.c: the measuring task

    One pass of [temp_task] composes the gain switching (Tiag.v), the voltages
    (Sensor.v), the temperatures and the error word (TempCalc.v, SelfCheck.v)
    and the analogue output (AnalogOut.v); between two passes the converter
    delivers samples and, once a second, the checks of [error_state_upgrade]
    run. *)
From Stdlib Require Import ZifyBool.
From S2P Require Import Prelude CFloat Filter Libm Tiag Eeprom SelfCheck AnalogOut Sensor TempCalc.

Definition SAMPLE_NO_START : Z := 0.
Definition SAMPLE_START : Z := 1.

(** The parameters of a pass; those of the temperatures are in [temp_state],
    since the two-point calibration changes them. *)
Record task_para := mk_task_para {
  tiag_switch_mode : Z; volt_discard : Z; gains : list gain_para; algo : algo_val; filter : filter_val;
  temp_filter_buf_size : Z; ambient_comp_ctl : Z; ana : ana_para_t; warm_start : bool;
  heater_set_temp : spec_float; alarm_decay_rate : Z }.

(** The state of the measuring unit: the switches, the channels, the
    thermistors, the temperatures and the output (whose copies of
    [target_temp] and [error_flags] are set when it runs). *)
Record task_state := mk_task {
  sample_status : Z; chans : list chan; channels : list channel; ntc : list sens_ntc_t; ntc_state : ntc_filter_t;
  rand_pos : nat; internal_temp : list spec_float; output_volt : list Z; temps : temp_state; output : ana_t Ltc2606.ltc }.

Definition upd_channels (l : list channel) (s : task_state) : task_state :=
  mk_task (sample_status s) (chans s) l (ntc s) (ntc_state s) (rand_pos s) (internal_temp s) (output_volt s) (temps s) (output s).
Definition upd_chans (l : list chan) (s : task_state) : task_state :=
  mk_task (sample_status s) l (channels s) (ntc s) (ntc_state s) (rand_pos s) (internal_temp s) (output_volt s) (temps s) (output s).
Definition upd_ntc (n : list sens_ntc_t) (f : ntc_filter_t) (pos : nat) (s : task_state) : task_state :=
  mk_task (sample_status s) (chans s) (channels s) n f pos (internal_temp s) (output_volt s) (temps s) (output s).
Definition upd_internal (t : list spec_float) (o : list Z) (s : task_state) : task_state :=
  mk_task (sample_status s) (chans s) (channels s) (ntc s) (ntc_state s) (rand_pos s) t o (temps s) (output s).
Definition upd_temps (t : temp_state) (s : task_state) : task_state :=
  mk_task (sample_status s) (chans s) (channels s) (ntc s) (ntc_state s) (rand_pos s) (internal_temp s) (output_volt s) t (output s).
Definition upd_output (o : ana_t Ltc2606.ltc) (s : task_state) : task_state :=
  mk_task (sample_status s) (chans s) (channels s) (ntc s) (ntc_state s) (rand_pos s) (internal_temp s) (output_volt s) (temps s) o.
Definition upd_status (x : Z) (s : task_state) : task_state :=
  mk_task x (chans s) (channels s) (ntc s) (ntc_state s) (rand_pos s) (internal_temp s) (output_volt s) (temps s) (output s).

(** [gain_switch_process] on the channels: their [volt_raw], [volt_filter],
    [last_volt_filter] and [gain_sw_data]. *)
Definition to_sample (c : channel) : sample :=
  mk_sample (volt_raw (spec c)) (volt_filter (spec c)) (last_volt_filter (spec c)).
Definition from_sample (c : channel) (w : gain_sw_data_t) (d : sample) : channel :=
  set_sw w (set_spec (mk_spec (volt_raw (spec c)) (volt_norm (spec c)) (Tiag.volt_filter d) (Tiag.last_volt_filter d)
    (volt_compensate (spec c))) c).
Definition switch_channels (p : task_para) (s : task_state) : task_state * Z :=
  let '(l, r) := gain_switch_process (tiag_switch_mode p) (volt_discard p) (gains p)
                   (zip_with (fun c d => (c, sw d, to_sample d)) (chans s) (channels s)) in
  let cs := map (fun x => fst (fst x)) l in
  let ds := zip_with (fun d x => from_sample d (snd (fst x)) (snd x)) (channels s) l in
  (upd_channels ds (upd_chans cs s), r).

(** The smoothing starts at the reported temperature; its count is not reset.
    ([discard_status], set to 1 here as well, is read nowhere and left out.) *)
Definition start_smoothing (t : temp_state) : temp_state :=
  upd_ratio (ratio_temp_nerve t) (Measured_attenuation t) (mk_smooth true (target_temp t) (smooth_count (smooth t))) t.

Section Task.
Context {LM : Libm} (rand : nat -> Z).

(** The part of a pass up to the label [over]. *)
Definition measure (p : task_para) (s : task_state) : option task_state :=
  if sample_status s =? SAMPLE_NO_START then Some s
  else
    let '(s, r) := switch_channels p s in
    if negb (r =? 0) then Some (upd_temps (start_smoothing (temps s)) s)
    else
      let '(l, r) := volt_normalization (zip (zip (gains p) (map now_gain (chans s))) (channels s)) in
      let s := upd_channels l s in
      if negb (r =? 0) then Some s
      else
        l ← gain_temp_insert (channels s);
        q ← volt_remove_average_filter rand (temp_filter_buf_size p) (rand_pos s) l (ntc s) (ntc_state s);
        let '(l, n, f, pos) := q in
        let s := upd_ntc n f pos s in
        t ← get_internal_temp n;
        tia ← t !! SENS_CH_NTC_TIA;
        let '(l, o) := internal_temp_calibrate (ambient_comp_ctl p) tia 0 l in
        let s := upd_internal t o (upd_channels l s) in
        w ← get_temp (algo p) (filter p) l (temps s);
        Some (upd_temps w s).

(** [anolog_output] on the current temperature and error word. *)
Definition put_out (p : task_para) (s : task_state) : option task_state :=
  let o := output s in
  let o := mk_ana (ana_curt_value o) (ana_volt_value o) (ana_calib_flag o) (ana_calib_value o) (ana_temp_convert_flag o)
             (ana_temp_convert_value o) (target_temp (temps s)) (dev_error o) (error_flags (temps s)) (status o) (dac_dev o) in
  o ← anolog_output (ana p) o; Some (upd_output o s).

Definition temp_task (p : task_para) (s : task_state) : option task_state :=
  s ← measure p s;
  if sample_status s =? SAMPLE_START then
    let full := existsb (fun c => count (slid c) =? temp_filter_buf_size p) (channels s) in
    if warm_start p && negb full then Some s else put_out p s
  else Some (upd_status SAMPLE_START s).

(** ** The device *)

(** What [error_state_upgrade] sees. *)
Definition inputs_of (p : task_para) (s : task_state) : check_inputs :=
  let t := temps s in
  mk_inputs (temp_mode (para t)) (nth 0 (target_volt t) 0) (nth 1 (target_volt t) 0) (heater_set_temp p)
    (nth SENS_CH_NTC_SPEC (internal_temp s) f_zero) (Measured_attenuation t) (alarm_decay_rate p).
(** What happens: samples and a pass of the task, or the checks. *)
Inductive device_event := Pass (samples : list Z) | Checks.
Definition device_step (p : task_para) (s : task_state) (e : device_event) : option task_state :=
  match e with
  | Pass samples =>
      let '(l, n) := fold_left (fun x w => take_sample w (fst x) (snd x)) samples (channels s, ntc s) in
      temp_task p (upd_ntc n (ntc_state s) (rand_pos s) (upd_channels l s))
  | Checks =>
      Some (upd_temps (upd_flags (error_state_upgrade (inputs_of p s) (error_flags (temps s))) (temps s)) s)
  end.
Fixpoint device_run (p : task_para) (s : task_state) (l : list device_event) : option task_state :=
  match l with
  | [] => Some s
  | e :: l => s ← device_step p s e; device_run p s l
  end.

(** ** The error word of a device whose heater is on *)

Definition stuck (t : temp_state) : Prop :=
  is_flags (error_flags t) /\ err (error_flags t) 3 = true /\ err (error_flags t) 4 = true /\
  length (temp_out_range t) = 3%nat /\ length (slid_holding_data t) = 2%nat.

Lemma get_temp_stuck a f l t t' : stuck t -> get_temp a f l t = Some t' -> stuck t'.
Proof.
  intros (Hf & H3 & H4 & Hl & Hh) Hg.
  assert (Hm : average_mode f).
  { unfold average_mode. destruct (Z.eqb_spec (filter_mode f) PEAK_HOLDING), (Z.eqb_spec (filter_mode f) VALLEY_HOLDING); try done;
      (rewrite get_temp_overrun in Hg; [done|intros [A B]; done|done|done]). }
  destruct (get_temp_inv _ _ _ _ _ Hg Hm Hl) as (os & ts & o & r & Eos & Hlen & _ & _ & _ & _ & _ & _ & (e & Ee & He) & Hh' & _).
  assert (Hk : is_flags e /\ err e 3 = true /\ err e 4 = true).
  { destruct He as [-> | ->]; [done|]. destruct (handle_flags (-1) _ Hf) as (A & _ & _ & B).
    split; [exact A|]. split; [rewrite <- H3|rewrite <- H4]; apply B; lia. }
  destruct Hk as (Hfe & E3 & E4). destruct (handle_flags o e Hfe) as (A & _ & _ & B).
  unfold stuck. rewrite Ee, Eos, Hh'. split; [exact A|].
  split; [rewrite <- E3; apply B; lia|]. split; [rewrite <- E4; apply B; lia|]. by split.
Qed.
Lemma measure_stuck p s s' : stuck (temps s) -> measure p s = Some s' -> stuck (temps s').
Proof.
  intros Hs Hm. unfold measure in Hm. destruct (sample_status s =? SAMPLE_NO_START); [by injection Hm as <-|].
  assert (E : temps (fst (switch_channels p s)) = temps s) by (unfold switch_channels; by destruct (gain_switch_process _ _ _ _)).
  destruct (switch_channels p s) as [s1 r]. cbn [fst] in E. destruct (negb (r =? 0)).
  { injection Hm as <-. cbn [upd_temps temps]. rewrite E. exact Hs. }
  destruct (volt_normalization _) as [l r']. destruct (negb (r' =? 0)).
  { injection Hm as <-. cbn. by rewrite E. }
  do 2 bind_inv Hm. destruct x0 as [[[l2 n] f] pos]. do 2 bind_inv Hm. destruct (internal_temp_calibrate _ _ _ _) as [l3 o].
  bind_inv Hm. injection Hm as <-. cbn [upd_temps temps] in *.
  eapply get_temp_stuck; [|eassumption]. cbn. by rewrite E.
Qed.
Lemma put_out_temps p s s' : put_out p s = Some s' -> temps s' = temps s.
Proof. unfold put_out. intros H. bind_inv H. by injection H as <-. Qed.
Lemma temp_task_stuck p s s' : stuck (temps s) -> temp_task p s = Some s' -> stuck (temps s').
Proof.
  intros Hs Ht. unfold temp_task in Ht. bind_inv Ht. pose proof (measure_stuck _ _ _ Hs E) as H1.
  destruct (_ =? SAMPLE_START); [|by injection Ht as <-].
  destruct (_ && _); [by injection Ht as <-|]. by rewrite (put_out_temps _ _ _ Ht).
Qed.
Lemma device_run_stuck p l : f_eq (heater_set_temp p) f_zero = false -> forall s s',
  stuck (temps s) -> device_run p s l = Some s' -> stuck (temps s').
Proof.
  intros Hheat. induction l as [|e l IH]; intros s s' Hs Hr; cbn [device_run] in Hr; [by injection Hr as <-|].
  bind_inv Hr. refine (IH _ _ _ Hr). clear Hr. destruct e as [samples|]; cbn [device_step] in E.
  - destruct (fold_left _ samples _) as [c n]. eapply temp_task_stuck; [|exact E]. exact Hs.
  - injection E as <-. destruct Hs as (Hf & H3 & H4 & Hl & Hh). cbn [upd_temps temps].
    assert (Hh1 : heated (inputs_of p s) = true) by (unfold heated; cbn; by rewrite Hheat).
    split; [apply upgrade_flags|]. cbn [upd_flags error_flags temp_out_range slid_holding_data].
    rewrite !upgrade_bits by (exact Hf || lia). cbn [upgraded]. rewrite H3, H4, Hh1. done.
Qed.
End Task.

Definition with_target (t : spec_float) (s : task_state) : task_state :=
  upd_temps (upd_target (single_temp (temps s)) (ratio_temp (temps s)) t (error_flags (temps s)) (temps s)) s.

(** [C38] The whole measuring unit, from power-up on, over any sequence of passes
    and checks: the error word starts with all bits set; the check clears the
    two internal-temperature errors only when the heater's target is zero, and
    the measurement touches the energy and detector errors only.  So with a
    target other than zero (the factory value is 50) the current output in
    automatic mode is, after any such run, the value of one of the first four
    errors, and does not depend on the measured temperature. *)
Theorem device_ignores_temperature {LM : Libm} rand p s0 l s : f_eq (heater_set_temp p) f_zero = false ->
  error_flags (temps s0) = error_flags_start ->
  length (temp_out_range (temps s0)) = 3%nat -> length (slid_holding_data (temps s0)) = 2%nat ->
  device_run rand p s0 l = Some s ->
  volt_mode (ana p) = false -> ana_curt_value (output s) = ANA_OUT_AUTO -> ana_temp_convert_flag (output s) <> 1 ->
  (exists h, 0 <= h <= 3 /\ forall t,
     snd <$> output_value (ana p) (with_temp t (error_flags (temps s)) (output s)) = Some (corrected (output s) (error_demand (ana p) h))) /\
  forall t1 t2, (fun s => dac_dev (output s)) <$> put_out p (with_target t1 s) = (fun s => dac_dev (output s)) <$> put_out p (with_target t2 s).
Proof.
  intros Hheat Hfl Hl Hh Hrun Hm Hc Hf.
  assert (H0 : stuck (temps s0)) by (unfold stuck; rewrite Hfl; repeat split; done).
  destruct (device_run_stuck rand p l Hheat _ _ H0 Hrun) as (_ & H3 & _).
  destruct (error_output (ana p) (output s) _ H3 Hm Hc Hf) as (h & Hh3 & Hv).
  split; [exists h; split; [done|]; intros t; by rewrite Hv|].
  assert (E : forall t, (fun s => dac_dev (output s)) <$> put_out p (with_target t s)
    = (o ← anolog_output (ana p) (with_temp t (error_flags (temps s)) (output s)); Some (dac_dev o))).
  { intros t. unfold put_out. cbn [with_target upd_temps upd_target temps output target_temp error_flags].
    fold (with_temp t (error_flags (temps s)) (output s)). by destruct (anolog_output _ _). }
  intros t1 t2. rewrite !E. unfold anolog_output. rewrite !Hv. cbn [mbind option_bind]. rewrite !Ltc2606.write_volt_ltc.
  cbn [with_temp set_dev_error dac_dev]. destruct (f_gt _ _); [done|]. by destruct (Ltc2606.volt_to_dac_code _).
Qed.

(** ** A device with factory parameters, its switches resting *)

Definition task_default (size : Z) : task_para :=
  let g := mk_gain_para 4000000 0 0 f64_one f64_one 5 in
  mk_task_para 0 5 [g; g] default_algo default_filter size 0 ana_default false (f32_of_Z 50) 10.
Definition task_reset : task_state :=
  let c := mk_chan (mk_cnt 0 0 0 0) [true; true; false] GAIN_L in
  mk_task SAMPLE_NO_START [c; c] [channel_reset; channel_reset] [mk_ntc 0 0; mk_ntc 0 0]
    (mk_ntcf (mk_slid (replicate 500 0) 0 0) (replicate 500 0)) 0 [f_zero; f_zero] [0; 0]
    (temp_reset default_temp error_flags_start)
    (anolog_out_init ana_default (ana_reset f_zero error_flags_start)).
(** 250 mV on the narrow band, 300 mV on the wide one, thermistors at 2.387 V. *)
Definition word (microvolts ch : Z) : Z := (microvolts * 2 ^ 24 / AD7124_REF_EXTER1 + 1) * 256 + ch.
Definition samples : list Z := [word 250000 0; word 300000 2; word 2387000 4; word 2387000 6].
Definition rand7 (i : nat) : Z := Z.of_nat i * 7.

Lemma device_ignores_temperature_witness :
  exists s, device_run rand7 (task_default 25) task_reset [Pass samples; Checks; Pass samples] = Some s /\
    (fun s => dac_dev (output s)) <$> put_out (task_default 25) (with_target (f32_of_Z 900) s)
    = (fun s => dac_dev (output s)) <$> put_out (task_default 25) (with_target (f32_of_Z 2000) s).
Proof.
  destruct (device_run rand7 (task_default 25) task_reset [Pass samples; Checks; Pass samples]) as [s|] eqn:E;
    [|vm_compute in E; discriminate E].
  exists s. split; [reflexivity|].
  apply (device_ignores_temperature rand7 (task_default 25) task_reset [Pass samples; Checks; Pass samples] s);
    [reflexivity|reflexivity|reflexivity|reflexivity|exact E|reflexivity|..].
  - vm_compute in E. injection E as <-. reflexivity.
  - vm_compute in E. injection E as <-. discriminate.
Defined.
(** With these samples the device reports 1422 degrees and puts out 21 mA, until
    the pass that fills the filter's window of 25 overruns its buffer. *)
Example factory_run :
  (let run n := (fun s => (f_to_s32 (target_temp (temps s)), error_flags (temps s), Ltc2606.dac (dac_dev (output s))))
                  <$> device_run rand7 (task_default 25) task_reset (replicate n (Pass samples)) in (run 25%nat, run 26%nat))
  = (Some (1422, 0xFFDE, 55049), None).
Proof. vm_compute. reflexivity. Qed.
