(* ===== verification/Stdio.v ===== *)
(** * The conversions of <stdio.h> that the protocols use

    [sscanf] and [sprintf] with one conversion, on NUL-terminated texts.  A scan
    gives [None] where C leaves the behaviour undefined (no terminator in the
    object, or a number the target type cannot represent), [Some None] when no
    conversion takes place. *)
From Stdlib Require Import ZifyBool.
From S2P Require Import Prelude CFloat Str.

(** ** Scanning *)

Fixpoint span (p : Z -> bool) (s : list Z) : list Z * list Z :=
  match s with
  | c :: s' => if p c then let '(a, b) := span p s' in (c :: a, b) else ([], s)
  | [] => ([], [])
  end.
Definition is_space (c : Z) : bool := (c =? 32) || ((9 <=? c) && (c <=? 13)).
(** Leading white space and an optional sign. *)
Definition sign_of (s : list Z) : bool * list Z :=
  match snd (span is_space s) with
  | 45 :: s' => (true, s')
  | 43 :: s' => (false, s')
  | s' => (false, s')
  end.

(** [sscanf(str, "%u", &v)]: a minus negates modulo 2^32. *)
Definition scan_u (str : list Z) : option (option Z) :=
  s ← cstr str;
  let '(neg, s) := sign_of s in
  match fst (span is_digit s) with
  | [] => Some None
  | t => let v := dec_value t in
         if v <? 2 ^ 32 then Some (Some (u32 (if neg then - v else v))) else None
  end.

(** ["%lld"] *)
Definition scan_lld (str : list Z) : option (option Z) :=
  s ← cstr str;
  let '(neg, s) := sign_of s in
  match fst (span is_digit s) with
  | [] => Some None
  | t => let v := if neg : bool then - dec_value t else dec_value t in
         if (- 2 ^ 63 <=? v) && (v <? 2 ^ 63) then Some (Some v) else None
  end.

(** ["%x"], with an optional 0x. *)
Definition is_hex (c : Z) : bool := is_digit c || ((65 <=? c) && (c <=? 70)) || ((97 <=? c) && (c <=? 102)).
Definition hex_code (c : Z) : Z := if is_digit c then c - 48 else if c <=? 70 then c - 55 else c - 87.
Definition skip_0x (s : list Z) : list Z :=
  match s with
  | 48 :: x :: c :: _ => if ((x =? 120) || (x =? 88)) && is_hex c then drop 2 s else s
  | _ => s
  end.
Definition hex_number (t : list Z) : Z := fold_left (fun a c => a * 16 + hex_code c) t 0.
Definition scan_x (str : list Z) : option (option Z) :=
  s ← cstr str;
  let '(neg, s) := sign_of s in
  match fst (span is_hex (skip_0x s)) with
  | [] => Some None
  | t => let v := hex_number t in
         if v <? 2 ^ 32 then Some (Some (u32 (if neg then - v else v))) else None
  end.

(** ["%c"] reads the first character; an empty text ends the input. *)
Definition scan_c (str : list Z) : option (option Z) :=
  s ← cstr str; Some (head s).

(** The exact value [(digits, number of them after the point)] of a text that
    is a sign, digits and at most one point. *)
Definition decimal_of (s : list Z) : option (Z * nat) :=
  let '(i, s) := span is_digit s in
  let f := match s with 46 :: s' => fst (span is_digit s') | _ => [] end in
  match i ++ f with [] => None | t => Some (dec_value t, length f) end.
(** ["%f"] ([prec = 24]) and ["%lf"]: the nearest value.  Only for texts that
    [is_dec_number] accepts, which have no exponent. *)
Definition scan_real (prec emax : Z) (str : list Z) : option (option spec_float) :=
  s ← cstr str;
  let '(neg, s) := sign_of s in
  Some match decimal_of s with
       | None => None
       | Some (n, k) =>
           let x := f_ratio prec emax n (Z.to_pos (10 ^ Z.of_nat k)) in
           Some (if neg : bool then SFopp x else x)
       end.

(** ** <stdlib.h> on a text *)

Definition signed (neg : bool) (v : Z) : Z := if neg then - v else v.
(** [atoi]; undefined when the number does not fit. *)
Definition atoi (t : list Z) : option Z :=
  let '(neg, s) := sign_of t in
  let v := signed neg (dec_value (fst (span is_digit s))) in
  if (- 2 ^ 31 <=? v) && (v <? 2 ^ 31) then Some v else None.
(** [strtoll(t, NULL, 10)] and [strtoul(t, NULL, 16)] saturate. *)
Definition strtoll (t : list Z) : Z :=
  let '(neg, s) := sign_of t in
  Z.max (- 2 ^ 63) (Z.min (2 ^ 63 - 1) (signed neg (dec_value (fst (span is_digit s))))).
Definition strtoul16 (t : list Z) : Z :=
  let '(neg, s) := sign_of t in
  let v := hex_number (fst (span is_hex (skip_0x s))) in
  if v <? 2 ^ 32 then u32 (signed neg v) else 2 ^ 32 - 1.

(** [strtod], [strtof]: digits with a point and an exponent, hexadecimal
    digits with a binary exponent, infinity or NaN; 0 when nothing matches. *)
Definition lower (c : Z) : Z := if (65 <=? c) && (c <=? 90) then c + 32 else c.
Definition exponent (mark : Z) (s : list Z) : Z :=
  match s with
  | e :: s =>
      if lower e =? mark then
        let '(neg, s) := match s with 45 :: s' => (true, s') | 43 :: s' => (false, s') | _ => (false, s) end in
        signed neg (dec_value (fst (span is_digit s)))
      else 0
  | [] => 0
  end.
(** [n * base ^ k], correctly rounded. *)
Definition scaled (prec emax : Z) (n base k : Z) : spec_float :=
  if 0 <=? k then f_ratio prec emax (n * base ^ k) 1 else f_ratio prec emax n (Z.to_pos (base ^ (- k))).
Definition digits_point (p : Z -> bool) (s : list Z) : list Z * nat * list Z :=
  let '(i, s) := span p s in
  match s with
  | 46 :: s' => let '(f, s'') := span p s' in (i ++ f, length f, s'')
  | _ => (i, O, s)
  end.
Definition strto_real (prec emax : Z) (t : list Z) : spec_float :=
  let '(neg, s) := sign_of t in
  let x :=
    if is_prefix (codes "inf") (map lower s) then S754_infinity false
    else if is_prefix (codes "nan") (map lower s) then S754_nan
    else
      let '(hd, hk, hr) := digits_point is_hex (drop 2 s) in
      if is_prefix (codes "0x") (map lower s) && negb (bool_decide (hd = [])) then
        scaled prec emax (hex_number hd) 2 (exponent 112 hr - 4 * Z.of_nat hk)
      else
        let '(dd, dk, dr) := digits_point is_digit s in
        if bool_decide (dd = []) then f_zero
        else scaled prec emax (dec_value dd) 10 (exponent 101 dr - Z.of_nat dk) in
  if neg : bool then SFopp x else x.

(** [strtok] with one separator in the buffer [m]: continues at [p]; gives the
    buffer with the token terminated, where to go on, and the token. *)
Definition strtok (delim : Z) (m : list Z) (p : nat) : option (list Z * nat * option (list Z)) :=
  s ← cstr (drop p m);
  let '(skipped, rest) := span (Z.eqb delim) s in
  let start := (p + length skipped)%nat in
  match rest with
  | [] => Some (m, start, None)
  | _ =>
      let '(tok, after) := span (fun c => negb (c =? delim)) rest in
      let e := (start + length tok)%nat in
      match after with
      | [] => Some (m, e, Some tok)
      | _ => Some (<[e := 0]> m, S e, Some tok)
      end
  end.

(** ** Printing *)

(** [k] decimal digits at least, most significant first ([%0kd] for [v >= 0]). *)
Definition dec_digits (v : Z) : list Z := if v =? 0 then [48] else rev (lsd_digits 400 v).
Definition pad (k : nat) (t : list Z) : list Z := replicate (k - length t) 48 ++ t.
Definition print_u (v : Z) : list Z := dec_digits v.
Definition print_d (v : Z) : list Z := if v <? 0 then 45 :: dec_digits (- v) else dec_digits v.

Fixpoint hex_digits (k : nat) (v : Z) : list Z :=
  match k with
  | O => []
  | S k => hex_digits k (v / 16) ++ [let d := v mod 16 in if d <? 10 then 48 + d else 87 + d]
  end.
(** ["%x"]: lower case, without leading zeros. *)
Definition print_x (v : Z) : list Z :=
  match snd (span (Z.eqb 48) (hex_digits 8 v)) with [] => [48] | t => t end.

(** [n / d] to the nearest integer, ties to even. *)
Definition round_div (n d : Z) : Z :=
  let q := n / d in let r := n mod d in
  if (2 * r <? d) || ((2 * r =? d) && Z.even q) then q else q + 1.
(** ["%.kf"], from the exact value. *)
Definition print_fixed (k : nat) (x : spec_float) : list Z :=
  let body (n : Z) := dec_digits (n / 10 ^ Z.of_nat k) ++ 46 :: pad k (dec_digits (n mod 10 ^ Z.of_nat k)) in
  let sgn (s : bool) := if s then [45] else [] in
  match x with
  | S754_zero s => sgn s ++ body 0
  | S754_infinity s => sgn s ++ codes "inf"
  | S754_nan => codes "nan"
  | S754_finite s m e =>
      sgn s ++ body (if 0 <=? e then Z.pos m * 2 ^ e * 10 ^ Z.of_nat k
                     else round_div (Z.pos m * 10 ^ Z.of_nat k) (2 ^ (- e)))
  end.

Example scan_u_ex : scan_u (codes " -1x" ++ [0]) = Some (Some 4294967295).
Proof. reflexivity. Qed.
Example scan_x_ex : scan_x (codes "0x1aF" ++ [0]) = Some (Some 431).
Proof. reflexivity. Qed.
Example scan_real_ex : scan_real f32_prec f32_emax (codes "-12.50" ++ [0]) = Some (Some (f32_lit (-25) 2)).
Proof. vm_compute. reflexivity. Qed.
Example print_fixed_ex : print_fixed 2 (f32_lit 2345678 1000) = codes "2345.68".
Proof. vm_compute. reflexivity. Qed.
Example print_fixed_ex2 : print_fixed 6 (f32_lit (-1) 10) = codes "-0.100000".
Proof. vm_compute. reflexivity. Qed.
Example print_x_ex : print_x 48879 = codes "beef" /\ print_x 0 = codes "0".
Proof. vm_compute. done. Qed.
Example strto_real_ex : strto_real f64_prec f64_emax (codes "-1.25e2,") = f64_of_Z (-125) /\
  strto_real f32_prec f32_emax (codes "0x1.8p1") = f32_of_Z 3 /\ strto_real f32_prec f32_emax (codes "x") = f_zero.
Proof. vm_compute. done. Qed.
Example strtok_ex2 : strtok 44 (codes ",,ab,c" ++ [0]) 0 = Some (codes ",,ab" ++ [0] ++ codes "c" ++ [0], 5%nat, Some (codes "ab")).
Proof. reflexivity. Qed.

(** ** Lemmas *)

Lemma span_all p s r : Forall (fun c => p c = true) s ->
  match r with c :: _ => p c = false | [] => True end -> span p (s ++ r) = (s, r).
Proof.
  induction 1 as [|c s Hc Hs IH]; intros Hr; cbn [app span].
  - destruct r as [|c r]; [done|]. by cbn [span]; rewrite Hr.
  - by rewrite Hc, IH.
Qed.
Lemma span_nil p s : Forall (fun c => p c = true) s -> span p s = (s, []).
Proof. intros H. rewrite <- (app_nil_r s) at 1. by apply span_all. Qed.
Lemma span_stop p c s : p c = false -> span p (c :: s) = ([], c :: s).
Proof. intros H. cbn. by rewrite H. Qed.

(** A text that starts neither with white space nor with a sign. *)
Lemma sign_of_plain c s : is_space c = false -> c <> 45 -> c <> 43 -> sign_of (c :: s) = (false, c :: s).
Proof.
  intros H1 H2 H3. unfold sign_of. rewrite span_stop by done. cbn [snd].
  destruct c as [|q|q]; try done. do 7 (destruct q as [q|q|]; try done).
Qed.
Lemma digit_plain c s : is_digit c = true -> sign_of (c :: s) = (false, c :: s).
Proof. unfold is_digit. intros. apply sign_of_plain; unfold is_space; zify_bool; lia. Qed.

(** Decimal texts. *)
Lemma lsd_digits_value k : forall v, 0 <= v < 10 ^ Z.of_nat k ->
  fold_right (fun c a => a * 10 + (c - 48)) 0 (lsd_digits k v) = v.
Proof.
  induction k as [|k IH]; intros v Hv; cbn [lsd_digits].
  - change (10 ^ Z.of_nat 0) with 1 in Hv. cbn. lia.
  - destruct (Z.ltb_spec 0 v); [|cbn; lia]. cbn [fold_right]. rewrite IH.
    + zdm.
    + rewrite Nat2Z.inj_succ, Z.pow_succ_r in Hv by lia. zdm.
Qed.
Lemma dec_digits_value v : 0 <= v < 10 ^ 400 -> dec_value (dec_digits v) = v.
Proof.
  intros Hv. unfold dec_digits. destruct (Z.eqb_spec v 0); [by subst|].
  unfold dec_value. rewrite <- fold_left_rev_right, rev_involutive. by apply lsd_digits_value.
Qed.
Lemma dec_digits_digit v : 0 <= v -> Forall (fun c => is_digit c = true) (dec_digits v).
Proof.
  intros Hv. unfold dec_digits. destruct (v =? 0); [by repeat constructor|].
  apply Forall_rev. eapply Forall_impl; [apply lsd_digits_digit|]. intros c. unfold is_digit. cbn. lia.
Qed.
Lemma dec_digits_cons v : 0 <= v -> exists c t, dec_digits v = c :: t /\ is_digit c = true.
Proof.
  intros Hv. pose proof (dec_digits_digit v Hv) as H. unfold dec_digits in *. destruct (Z.eqb_spec v 0); [by eexists _, _|].
  destruct (rev (lsd_digits 400 v)) as [|c t] eqn:E.
  - exfalso. apply (f_equal (@rev Z)) in E. rewrite rev_involutive in E. cbn [rev] in E.
    by apply (lsd_digits_nonempty 400 v ltac:(lia) ltac:(lia)).
  - inversion H. by eexists _, _.
Qed.
(** Scanning what [%u] prints, up to a terminator. *)
Lemma nul_free_digits t : Forall (fun c => is_digit c = true) t -> nul_free t.
Proof. intros H. eapply Forall_impl; [exact H|]. intros c. unfold is_digit. cbn. lia. Qed.
Lemma scan_u_digits t r : Forall (fun c => is_digit c = true) t -> t <> [] -> dec_value t < 2 ^ 32 -> 0 <= dec_value t ->
  scan_u (t ++ 0 :: r) = Some (Some (dec_value t)).
Proof.
  intros Ht Hn Hv H0. unfold scan_u. rewrite cstr_text by by apply nul_free_digits. cbn [mbind option_bind].
  destruct t as [|c t]; [done|]. rewrite digit_plain by by inversion Ht. rewrite span_nil by done. cbn [fst].
  rewrite (proj2 (Z.ltb_lt _ _)) by done. by rewrite u32_small by lia.
Qed.

(** Hexadecimal texts. *)
Lemma hex_digit_code d : 0 <= d < 16 -> hex_code (hex_digit d) = d /\ is_hex (hex_digit d) = true.
Proof.
  intros Hd. pose proof (all_below (fun d => (hex_code (hex_digit d) =? d) && is_hex (hex_digit d)) 16 eq_refl d) as H.
  cbn beta in H. specialize (H ltac:(lia)). apply andb_true_iff in H as [H1 H2]. split; [lia|done].
Qed.
Lemma hex_text_hex k v : Forall (fun c => is_hex c = true) (hex_text k v).
Proof. induction k; constructor; [|done]. apply hex_digit_code. apply Z.mod_pos_bound. lia. Qed.
Lemma hex_text_fold k v : forall a, 0 <= v < 16 ^ Z.of_nat k ->
  fold_left (fun a c => a * 16 + hex_code c) (hex_text k v) a = a * 16 ^ Z.of_nat k + v.
Proof.
  assert (G : forall a, fold_left (fun a c => a * 16 + hex_code c) (hex_text k v) a = a * 16 ^ Z.of_nat k + v mod 16 ^ Z.of_nat k).
  { induction k as [|k IH]; intros a.
    - cbn. rewrite Z.mod_1_r. lia.
    - cbn [hex_text fold_left]. rewrite IH, (proj1 (hex_digit_code _ (Z.mod_pos_bound _ 16 ltac:(lia)))).
      rewrite Nat2Z.inj_succ, Z.pow_succ_r by lia. assert (0 < 16 ^ Z.of_nat k) by (apply Z.pow_pos_nonneg; lia).
      rewrite (Z.mul_comm 16 (16 ^ Z.of_nat k)), Z.rem_mul_r by lia. lia. }
  intros a Hv. rewrite G, Z.mod_small by done. done.
Qed.
Lemma strtoul16_hex v : 0 <= v < 2 ^ 32 -> strtoul16 (hex_text 8 v) = v.
Proof.
  intros Hv. unfold strtoul16.
  assert (Hs : sign_of (hex_text 8 v) = (false, hex_text 8 v)).
  { pose proof (hex_text_hex 8 v) as H. cbn [hex_text] in *. inversion H as [|c l Hc Hl].
    apply sign_of_plain; unfold is_hex, is_space, is_digit in *; zify_bool; lia. }
  rewrite Hs. assert (Hx : skip_0x (hex_text 8 v) = hex_text 8 v).
  { pose proof (hex_text_hex 8 v) as H. cbn [hex_text] in *. unfold skip_0x.
    inversion H as [|c0 l0 Hc0 Hl0]; inversion Hl0 as [|c1 l1 Hc1 Hl1]; subst.
    set (d := hex_digit (v / 16 ^ Z.of_nat 6 mod 16)) in *.
    assert (E : (d =? 120) || (d =? 88) = false) by (unfold is_hex, is_digit in *; zify_bool; lia).
    rewrite E. cbn [andb]. set (x := hex_digit _). destruct x as [|q|q]; try done. do 6 (destruct q as [q|q|]; try done). }
  rewrite Hx, span_nil by apply hex_text_hex. cbn [fst]. unfold hex_number. rewrite hex_text_fold by done.
  change (0 * 16 ^ Z.of_nat 8 + v) with v. rewrite (proj2 (Z.ltb_lt _ _)) by lia. cbn [signed]. by rewrite u32_small by lia.
Qed.

(** One token: its separator becomes a terminator; at the end of the text the
    token is the rest; with nothing left there is no token. *)
Lemma strtok_mid delim pre tok rest r : delim <> 0 -> tok <> [] ->
  Forall (fun c => c <> delim /\ c <> 0) tok -> nul_free rest ->
  strtok delim (pre ++ tok ++ delim :: rest ++ 0 :: r) (length pre)
  = Some (pre ++ tok ++ 0 :: rest ++ 0 :: r, S (length pre + length tok), Some tok).
Proof.
  intros Hd Ht Hf Hr. unfold strtok. rewrite drop_app_length.
  replace (tok ++ delim :: rest ++ 0 :: r) with ((tok ++ delim :: rest) ++ 0 :: r) by by rewrite <- app_assoc.
  rewrite cstr_text.
  2: { apply Forall_app_2; [|by constructor]. eapply Forall_impl; [exact Hf|]. by intros ? []. }
  cbn [mbind option_bind]. destruct tok as [|c tok]; [done|]. inversion Hf as [|? ? [Hc _] Hf' E1].
  cbn [app]. rewrite span_stop by lia. cbn [length]. rewrite Nat.add_0_r.
  change (c :: tok ++ delim :: rest) with ((c :: tok) ++ delim :: rest).
  rewrite span_all; [|eapply Forall_impl; [exact Hf|]; intros y [Hy _]; lia|lia].
  f_equal. f_equal. f_equal. cbn [length]. rewrite <- app_assoc. cbn [app].
  replace (pre ++ c :: tok ++ delim :: rest ++ 0 :: r) with ((pre ++ c :: tok) ++ delim :: rest ++ 0 :: r)
    by by rewrite <- app_assoc.
  replace (length pre + S (length tok))%nat with (length (pre ++ c :: tok)) by (rewrite length_app; cbn; lia).
  rewrite insert_app_cons. by rewrite <- app_assoc.
Qed.
Lemma strtok_last delim pre tok r : delim <> 0 -> tok <> [] ->
  Forall (fun c => c <> delim /\ c <> 0) tok ->
  strtok delim (pre ++ tok ++ 0 :: r) (length pre) = Some (pre ++ tok ++ 0 :: r, (length pre + length tok)%nat, Some tok).
Proof.
  intros Hd Ht Hf. unfold strtok. rewrite drop_app_length, cstr_text.
  2: { eapply Forall_impl; [exact Hf|]. by intros ? []. }
  cbn [mbind option_bind]. destruct tok as [|c tok]; [done|]. inversion Hf as [|? ? [Hc _] Hf' E1].
  rewrite span_stop by lia. cbn [length]. rewrite Nat.add_0_r.
  rewrite span_nil; [done|]. eapply Forall_impl; [exact Hf|]. intros y [Hy _]. lia.
Qed.
Lemma strtok_end delim pre r : strtok delim (pre ++ 0 :: r) (length pre) = Some (pre ++ 0 :: r, length pre, None).
Proof. unfold strtok. rewrite drop_app_length. cbn. by rewrite Nat.add_0_r. Qed.
