(* ===== verification/Layout.v ===== *)
(** * para_cfg.h, sys_cfg.h: the layout of [sys_para] and [sys_state]

    The members of the two global structures in declaration order, with their
    offsets: [sys_para_t] and everything in it is packed, [sys_state_t] is
    aligned naturally (it has no eight-byte member).  An object is its byte image, so
    that a write through a pointer of the wrong type lands on the bytes it lands
    on in the machine. *)
From Stdlib Require Import ZifyBool.
From S2P Require Import Prelude CFloat Para.
Open Scope string_scope.

(** The types of members.  Nested structures are packed ([sys_op_t] has only
    bytes, so packing does not change it). *)
Inductive ctype :=
| T_u8 | T_s8 | T_char | T_u16 | T_u32 | T_int | T_s64 | T_f32 | T_f64
| T_arr (n : nat) (t : ctype)
| T_struct (fs : list (string * ctype)).

Fixpoint sizeof (t : ctype) : nat :=
  match t with
  | T_u8 | T_s8 | T_char => 1
  | T_u16 => 2
  | T_u32 | T_int | T_f32 => 4
  | T_s64 | T_f64 => 8
  | T_arr n t => n * sizeof t
  | T_struct fs =>
      (fix sum (l : list (string * ctype)) : nat :=
         match l with [] => O | (_, t) :: l => (sizeof t + sum l)%nat end) fs
  end.
Fixpoint alignof (t : ctype) : nat :=
  match t with
  | T_arr _ t => alignof t
  | T_struct _ => 1
  | t => sizeof t
  end.
Definition align_up (a off : nat) : nat := (off + a - 1) / a * a.

Definition coef_t : list (string * ctype) :=
  [("base", T_s64); ("index", T_s8)].
Definition log_para_t : list (string * ctype) :=
  [("threshold", T_f64); ("coef", T_arr 2 (T_struct coef_t))].
Definition poly_para_t : list (string * ctype) :=
  [("poly_term", T_u8); ("subtrahend", T_f32); ("coef", T_arr 15 (T_struct coef_t))].
Definition network_para_t : list (string * ctype) :=
  [("effective_w1", T_arr 64 T_f32); ("effective_b1", T_arr 64 T_f32);
   ("effective_w2", T_arr 64 T_f32); ("effective_b2", T_arr 1 T_f32)].
Definition algo_para_t : list (string * ctype) :=
  [("log_para", T_arr 2 (T_arr 2 (T_struct log_para_t)));
   ("poly_para", T_arr 2 (T_struct poly_para_t)); ("network_para", T_struct network_para_t)].
Definition ad7124_para_t : list (string * ctype) :=
  [("ctrl_pwr_mode", T_u8); ("ctrl_work_mode", T_u8); ("ctrl_clk_src", T_u8); ("pga", T_u8);
   ("offs0", T_u32); ("offs2", T_u32); ("rsvd", T_arr 4 T_u8)].
Definition dev_para_t : list (string * ctype) :=
  [("addr", T_u8); ("name", T_arr 17 T_char); ("sn", T_arr 11 T_char); ("factory_set", T_char);
   ("panel_lock", T_char)].
Definition port_para_t : list (string * ctype) :=
  [("mode", T_char); ("check_fmt", T_arr 4 T_char); ("baudrate", T_u32);
   ("dbg_level", T_arr 32 T_char); ("dbg_port", T_u8)].
Definition gain_para_t : list (string * ctype) :=
  [("upper", T_arr 2 T_u32); ("lowerml", T_arr 2 T_u32); ("lowerhm", T_arr 2 T_u32);
   ("k_lm", T_arr 2 T_f64); ("k_mh", T_arr 2 T_f64); ("cnt_thod", T_u32); ("volt_discard", T_u32);
   ("gl_to_gm", T_u32); ("gm_to_gh", T_u32); ("gh_to_gm", T_u32); ("gm_to_gl", T_u32)].
Definition ana_para_t : list (string * ctype) :=
  [("type", T_char); ("upper", T_f32); ("lower", T_f32); ("exceed_min_range", T_f32);
   ("exceed_max_range", T_f32); ("lower_alarm_out", T_f32); ("upper_alarm_out", T_f32);
   ("real_curt_2ma", T_u32); ("real_curt_20ma", T_u32); ("real_volt_1v", T_u32);
   ("real_volt_10v", T_u32); ("expos_time", T_u16)].
Definition temp_para_t : list (string * ctype) :=
  [("unit", T_char); ("volt_filter_len", T_u32); ("volt_change_range", T_u32); ("emissivity", T_f32);
   ("trans", T_arr 2 T_f32); ("trans_interior", T_arr 2 T_f32); ("dev_temp_min", T_f32);
   ("dev_temp_max", T_f32); ("temp_seg_volt_value", T_f64); ("volt_zero_l", T_arr 2 T_f32);
   ("volt_zero_m", T_f32); ("volt_zero_h", T_f32); ("hyster_lower", T_int); ("hyster_upper", T_int);
   ("hyster_upload", T_u32); ("temp_change_range", T_f32); ("text_volt_for_sf", T_u32);
   ("core_text", T_u32); ("temp_mode", T_u32); ("slope", T_f32); ("slope_interior", T_f32);
   ("valid_vol", T_u32); ("ambient_comp_ctl", T_u8); ("temp_calib_gain", T_arr 3 T_f32);
   ("temp_calib_offset", T_arr 3 T_f32)].
Definition net_para_t : list (string * ctype) :=
  [("interval", T_u32); ("rev_time", T_u32); ("dhcp", T_u32); ("port", T_u32);
   ("ip_addr", T_arr 16 T_char); ("remote_ip", T_arr 16 T_char); ("net_mask", T_arr 16 T_char);
   ("gateway", T_arr 16 T_char)].
Definition record_para_t : list (string * ctype) :=
  [("interval", T_u32)].
Definition burst_para_t : list (string * ctype) :=
  [("speed", T_u16); ("fmt", T_arr 3 T_char); ("cmd_list", T_arr 40 T_char); ("mode", T_char)].
Definition alarm_para_t : list (string * ctype) :=
  [("relay_alarm_mode", T_u32); ("target_temp_alarm_on", T_f32); ("target_temp_alarm_off", T_f32);
   ("internal_temp_alarm_on", T_f32); ("internal_temp_alarm_off", T_f32); ("decay_rate", T_u32);
   ("decay_fail_safe", T_u32); ("attenuation_alarm_off", T_f32); ("attenuation_alarm_on", T_f32)].
Definition video_para_t : list (string * ctype) :=
  [("aiming_x", T_f32); ("aiming_y", T_f32); ("exposure_mode", T_u8); ("exposure_level", T_f32);
   ("brightness_val", T_f32); ("backlight_val", T_u8); ("gain_val", T_u8); ("ctl_state", T_int);
   ("ctl_val", T_int); ("video_control", T_int); ("video_protocol_control", T_char);
   ("video_send_fre", T_u8); ("test_delay", T_u16); ("send_size_test", T_u32)].
Definition filter_para_t : list (string * ctype) :=
  [("temp_filter_buf_size", T_u16); ("advance_hold_threshold", T_f32); ("valley_holding_time", T_f32);
   ("advance_hold_average_time", T_f32); ("peak_holding_time", T_f32); ("mode", T_u8)].
Definition heater_para_t : list (string * ctype) :=
  [("set_temp", T_f32); ("kp", T_f64); ("ki", T_f64); ("kd", T_f64)].
Definition sys_para_t : list (string * ctype) :=
  [("magic", T_u32); ("dev", T_struct dev_para_t); ("port", T_struct port_para_t);
   ("gain", T_struct gain_para_t); ("ana", T_struct ana_para_t);
   ("adc", T_struct ad7124_para_t); ("temp", T_struct temp_para_t);
   ("net", T_struct net_para_t); ("record", T_struct record_para_t);
   ("algo", T_struct algo_para_t); ("burst", T_struct burst_para_t);
   ("alarm", T_struct alarm_para_t); ("video", T_struct video_para_t);
   ("filter", T_struct filter_para_t); ("heater", T_struct heater_para_t);
   ("crc", T_arr 14 T_u16)].
Definition sys_op_t : list (string * ctype) :=
  [("valid", T_u8); ("reset", T_u8); ("recover", T_u8)].
Definition sys_state_t : list (string * ctype) :=
  [("long_cycles", T_f32); ("unlock", T_u8); ("develop", T_u8); ("time_sync", T_int);
   ("sys_sec", T_u32); ("run_sec", T_int); ("dev_state", T_int); ("state_sec", T_arr 2 T_u32);
   ("dev_desc", T_arr 32 T_int); ("init_state", T_int); ("para_err_status", T_arr 4 T_u32);
   ("net_connected", T_u32); ("camera_flag_open_send", T_int); ("camera_client_num", T_int);
   ("macAddr", T_arr 12 T_char); ("remote_ip", T_arr 4 T_u8); ("ip_addr", T_arr 4 T_u8);
   ("net_mask", T_arr 4 T_u8); ("gateway", T_arr 4 T_u8); ("algo_str", T_arr 1024 T_u8);
   ("algo_network_str_w1", T_arr 1024 T_u8); ("algo_network_str_w2", T_arr 1024 T_u8);
   ("algo_network_str_b", T_arr 1024 T_u8); ("index_clear", T_u32); ("record_open", T_int);
   ("record_max_cnt", T_arr 20 T_int); ("tiag_switch_mode", T_char); ("now_gain", T_arr 2 T_u32);
   ("temp_target_before_limit_set", T_f32); ("temp_target_before_limit", T_f32);
   ("temp_out_range", T_arr 3 T_int); ("target_temp", T_f32); ("ratio_temp", T_f32);
   ("ratio_temp_nerve", T_f32); ("single_temp", T_arr 2 T_f32); ("Measured_attenuation", T_f32);
   ("internal_temp", T_arr 2 T_f32); ("target_volt", T_arr 2 T_int);
   ("output_volt", T_arr 2 T_u32); ("temp_calc", T_f32); ("temp_state", T_int);
   ("flag_discard", T_int); ("volt_discard_num", T_int); ("temp_calibration", T_f32);
   ("temp_calib_low_set", T_f32); ("temp_calib_low_real", T_f32); ("temp_calib_high_set", T_f32);
   ("temp_calib_high_real", T_f32); ("calib_low_set", T_arr 3 T_f32);
   ("calib_low_real", T_arr 3 T_f32); ("calib_high_set", T_arr 3 T_f32);
   ("calib_high_real", T_arr 3 T_f32); ("two_calib_open", T_u8);
   ("video_relative_reticle_diameter", T_arr 12 T_char); ("ana_curt_value", T_u32);
   ("ana_volt_value", T_u32); ("ana_calib_flag", T_u8); ("ana_calib_value", T_u32);
   ("ana_temp_convert_flag", T_u8); ("ana_temp_convert_value", T_f32);
   ("burst_fmt", T_arr 30 T_char); ("panel_lock", T_char); ("dev_sn", T_arr 10 T_char);
   ("dev_info", T_arr 128 T_char); ("dev_error", T_arr 9 T_char); ("sys_op", T_struct sys_op_t)].

(** ** Offsets *)

Definition place (packed : bool) (off : nat) (t : ctype) : nat := if packed then off else align_up (alignof t) off.
Fixpoint offsets (packed : bool) (off : nat) (fs : list (string * ctype)) : list (string * nat * ctype) :=
  match fs with
  | [] => []
  | (n, t) :: fs => let o := place packed off t in (n, o, t) :: offsets packed (o + sizeof t) fs
  end.
Definition struct_size (packed : bool) (fs : list (string * ctype)) : nat :=
  match last (offsets packed 0 fs) with
  | Some (_, o, t) => if packed then o + sizeof t else align_up 4 (o + sizeof t)
  | None => 0
  end.

Fixpoint find_field (name : string) (l : list (string * nat * ctype)) : option (nat * ctype) :=
  match l with
  | [] => None
  | (n, o, t) :: l => if bool_decide (n = name) then Some (o, t) else find_field name l
  end.
(** The member at the end of a path of names. *)
Fixpoint member (packed : bool) (fs : list (string * ctype)) (path : list string) : option (nat * ctype) :=
  match path with
  | [] => None
  | [n] => find_field n (offsets packed 0 fs)
  | n :: path =>
      r ← find_field n (offsets packed 0 fs);
      match snd r with
      | T_struct fs' => s ← member true fs' path; Some ((fst r + fst s)%nat, snd s)
      | _ => None
      end
  end.

Inductive obj := SYS_PARA | SYS_STATE.
#[global] Instance obj_eq : EqDecision obj.
Proof. solve_decision. Defined.

(** A pointer [&sys_para.x.y] and the type it points to. *)
Record pointer := mk_ptr { p_obj : obj; p_off : nat; p_type : ctype }.
Definition address (o : obj) (path : list string) : option pointer :=
  r ← (match o with SYS_PARA => member true sys_para_t path | SYS_STATE => member false sys_state_t path end);
  Some (mk_ptr o (fst r) (snd r)).
(** [&x[i]] *)
Definition index (i : nat) (p : option pointer) : option pointer :=
  p ← p;
  match p_type p with
  | T_arr n t => if (i <? n)%nat then Some (mk_ptr (p_obj p) (p_off p + i * sizeof t) t) else None
  | _ => None
  end.

Definition obj_size (o : obj) : nat :=
  match o with SYS_PARA => struct_size true sys_para_t | SYS_STATE => struct_size false sys_state_t end.

(** ** Memory: the images of the two objects *)
Record mem := mk_mem { m_para : list Z; m_state : list Z }.
Definition image_of (o : obj) (m : mem) : list Z := match o with SYS_PARA => m_para m | SYS_STATE => m_state m end.
Definition set_image (o : obj) (l : list Z) (m : mem) : mem :=
  match o with SYS_PARA => mk_mem l (m_state m) | SYS_STATE => mk_mem (m_para m) l end.
(** [memcpy] from and to an object; outside of the object is undefined. *)
Definition load (m : mem) (o : obj) (off n : nat) : option (list Z) :=
  if (off + n <=? length (image_of o m))%nat then Some (get off n (image_of o m)) else None.
Definition store (m : mem) (o : obj) (off : nat) (d : list Z) : option mem :=
  if (off + length d <=? length (image_of o m))%nat then Some (set_image o (put off d (image_of o m)) m) else None.

(** Reads of members in C's types. *)
Definition rd_u (m : mem) (p : pointer) : Z := le_decode (get (p_off p) (sizeof (p_type p)) (image_of (p_obj p) m)).
Definition rd_f32 (m : mem) (p : pointer) : spec_float := f32_of_bits (rd_u m p).
Definition wr (v : Z) (p : pointer) (m : mem) : mem :=
  set_image (p_obj p) (put (p_off p) (le_encode (sizeof (p_type p)) v) (image_of (p_obj p) m)) m.
Definition null : pointer := mk_ptr SYS_PARA 0 (T_arr 0 T_u8).
(** A member that exists (checked below for every use). *)
Definition member_of (p : option pointer) : pointer := match p with Some p => p | None => null end.
Definition para_at (path : list string) : pointer := member_of (address SYS_PARA path).
Definition state_at (path : list string) : pointer := member_of (address SYS_STATE path).

Definition wf_mem (m : mem) : Prop :=
  length (m_para m) = obj_size SYS_PARA /\ length (m_state m) = obj_size SYS_STATE /\
  bytes (m_para m) /\ bytes (m_state m).

(** * Properties *)

(** The layout agrees with the table of groups in Para.v. *)
Lemma layout_groups :
  map (fun f => (fst (fst f), snd (fst f), sizeof (snd f))) (take PARA_TYPE_CNT (drop 1 (offsets true 0 sys_para_t)))
  = map (fun it => (desc it, offset it, size it)) PARA_INFO_TBL /\
  find_field "crc" (offsets true 0 sys_para_t) = Some (CRC_OFF, T_arr 14 T_u16) /\
  obj_size SYS_PARA = PARA_SIZE.
Proof. vm_compute. done. Qed.

(** Members of a structure do not overlap. *)
Lemma offsets_ge packed fs : forall off f, f ∈ offsets packed off fs -> (off <= snd (fst f))%nat.
Proof.
  assert (Hp : forall off t, (off <= place packed off t)%nat).
  { intros off t. unfold place, align_up. destruct packed; [done|].
    assert (Ha : (0 < alignof t)%nat).
    { induction t; cbn; try lia. }
    pose proof (Nat.div_mod (off + alignof t - 1) (alignof t)). pose proof (Nat.mod_upper_bound (off + alignof t - 1) (alignof t)). lia. }
  induction fs as [|[n t] fs IH]; intros off f Hf; cbn in Hf; [by apply elem_of_nil in Hf|].
  apply elem_of_cons in Hf as [-> | Hf]; cbn; [apply Hp|]. specialize (IH _ _ Hf). pose proof (Hp off t). lia.
Qed.
Lemma offsets_disjoint packed fs : forall off i j f g,
  offsets packed off fs !! i = Some f -> offsets packed off fs !! j = Some g -> (i < j)%nat ->
  (snd (fst f) + sizeof (snd f) <= snd (fst g))%nat.
Proof.
  induction fs as [|[n t] fs IH]; intros off i j f g Hi Hj Hij; [done|]. destruct i as [|i], j as [|j]; try lia.
  - cbn in Hi, Hj. inversion Hi; subst f. cbn. apply list_elem_of_lookup_2 in Hj. by apply offsets_ge in Hj.
  - apply (IH _ i j f g Hi Hj). lia.
Qed.

Lemma store_length m o off d m' o' : store m o off d = Some m' -> length (image_of o' m') = length (image_of o' m).
Proof.
  unfold store. destruct (Nat.leb_spec (off + length d) (length (image_of o m))); [|done]. intros [= <-].
  destruct o, o'; cbn in *; try done; by rewrite put_length.
Qed.
Lemma store_out m o off d m' o' i : store m o off d = Some m' ->
  o' <> o \/ (i < off \/ off + length d <= i)%nat -> image_of o' m' !! i = image_of o' m !! i.
Proof.
  unfold store. destruct (Nat.leb_spec (off + length d) (length (image_of o m))); [|done]. intros [= <-] Hi.
  destruct o, o'; cbn in *; try done; (destruct Hi as [Hi | Hi]; [done|]; by apply put_lookup_out).
Qed.
Lemma store_load m o off d m' : store m o off d = Some m' -> load m' o off (length d) = Some d.
Proof.
  intros Hs. pose proof (store_length _ _ _ _ _ o Hs) as Hl. unfold store in Hs. unfold load. rewrite Hl.
  destruct (Nat.leb_spec (off + length d) (length (image_of o m))); [|done]. injection Hs as <-.
  f_equal. destruct o; cbn; by apply get_put_eq.
Qed.
(** Writing back what was there undoes a store. *)
Lemma store_undo m o off d m' d0 : load m o off (length d) = Some d0 -> store m o off d = Some m' ->
  store m' o off d0 = Some m.
Proof.
  intros Hl0 Hs. pose proof (store_length _ _ _ _ _ o Hs) as Hl. unfold load in Hl0.
  destruct (Nat.leb_spec (off + length d) (length (image_of o m))); [|done]. injection Hl0 as <-.
  unfold store in *. rewrite Hl, get_length by lia. destruct (Nat.leb_spec (off + length d) (length (image_of o m))); [|done].
  injection Hs as <-. f_equal.
  assert (E : put off (get off (length d) (image_of o m)) (put off d (image_of o m)) = image_of o m).
  { assert (Hput : length (put off d (image_of o m)) = length (image_of o m)) by (by apply put_length).
    pose proof (get_length off (length d) (image_of o m) ltac:(lia)) as Hg.
    apply list_eq. intros i. destruct (decide (off <= i < off + length d)%nat).
    - rewrite put_lookup_in by lia. rewrite get_lookup by lia. f_equal. lia.
    - rewrite put_lookup_out by lia. by rewrite put_lookup_out by lia. }
  destruct m as [p s], o; cbn in *; by rewrite E.
Qed.

Example where_now_gain : index 1 (address SYS_STATE ["now_gain"]) = Some (mk_ptr SYS_STATE 4412 T_u32).
Proof. vm_compute. reflexivity. Qed.
