(* ===== verification/CmdTable.v ===== *)
(** * proto_char_cfg.c, proto_char_cfg.h: the command table of the character protocol

    [CMD_TBL] with the data rule and the target of every command, the error
    texts, the two lists of commands with special treatment, and [cmd_found].
    Targets are addresses in the images of Layout.v. *)
From Stdlib Require Import ZifyBool.
From S2P Require Import Prelude CFloat Str Para Layout.
Open Scope string_scope.
Open Scope list_scope.
Open Scope Z_scope.

Inductive fmt_type_e := FMT_U_8 | FMT_U_16 | FMT_U_32 | FMT_LLD | FMT_LF | FMT_F6 | FMT_F | FMT_S | FMT_X | FMT_C.
#[global] Instance fmt_type_eq : EqDecision fmt_type_e.
Proof. solve_decision. Defined.

(** [CMD_CNT] counts the 138 constructors. *)
Inductive cmd_id_e :=
  | CMD_DA | CMD_ID | CMD_DN | CMD_DV | CMD_RS | CMD_PR | CMD_SC | CMD_UL | CMD_J | CMD_DEV | CMD_DB
  | CMD_DP | CMD_BR | CMD_CF | CMD_PM | CMD_NM | CMD_NH | CMD_WM | CMD_WH | CMD_NUP | CMD_WUP | CMD_NLM
  | CMD_WLM | CMD_NLH | CMD_WLH | CMD_GDN | CMD_GCN | CMD_AM | CMD_AL | CMD_AH | CMD_OAL | CMD_OAH
  | CMD_OI | CMD_IL | CMD_IH | CMD_AT | CMD_OV | CMD_VL | CMD_VH | CMD_AC | CMD_DM | CMD_GA | CMD_OFN
  | CMD_OFW | CMD_NV | CMD_WV | CMD_ONV | CMD_OWV | CMD_SN | CMD_SW | CMD_SM | CMD_U | CMD_DL | CMD_DH
  | CMD_M | CMD_NC | CMD_WC | CMD_E | CMD_NS | CMD_WS | CMD_S | CMD_SI | CMD_ON | CMD_OW | CMD_VV
  | CMD_ATC | CMD_TTCO | CMD_CA | CMD_TCLS | CMD_TCLR | CMD_TCHS | CMD_TCHR | CMD_WTGA | CMD_WTOF
  | CMD_NTGA | CMD_NTOF | CMD_RTGA | CMD_RTOF | CMD_T | CMD_RT | CMD_ST | CMD_I | CMD_NT | CMD_WT
  | CMD_B | CMD_TN | CMD_NI | CMD_NR | CMD_DHCP | CMD_IP | CMD_NY | CMD_GW | CMD_MA | CMD_MAC | CMD_PO
  | CMD_RI | CMD_RQ | CMD_RO | CMD_RN | CMD_AP | CMD_NWA | CMD_NWB | CMD_NB | CMD_V | CMD_BS | CMD_BC
  | CMD_BF | CMD_RA | CMD_TON | CMD_TOF | CMD_ION | CMD_IOF | CMD_DR | CMD_AON | CMD_AOF | CMD_EM
  | CMD_EV | CMD_BN | CMD_BL | CMD_GN | CMD_VI | CMD_VM | CMD_VF | CMD_VT | CMD_VN | CMD_AX | CMD_AY
  | CMD_RC | CMD_AN | CMD_C | CMD_F | CMD_AA | CMD_P | CMD_FM | CMD_CT | CMD_KP | CMD_KI | CMD_KD.
Definition CMD_CNT : nat := 138.

(** [prop_e] *)
Definition prop_P : Z := Z.shiftl 1 0.
Definition prop_B : Z := Z.shiftl 1 1.
Definition prop_S : Z := Z.shiftl 1 2.
Definition prop_N : Z := Z.shiftl 1 3.
Definition prop_M : Z := Z.shiftl 1 4.
Definition prop_I : Z := Z.shiftl 1 5.
Definition prop_L : Z := Z.shiftl 1 6.
Definition has (prop x : Z) : bool := negb (Z.land x prop =? 0).

(** [para_type_t] beyond [PARA_DEV] and [PARA_PORT]. *)
Definition PARA_GAIN : nat := 2.
Definition PARA_ANA : nat := 3.
Definition PARA_ADC : nat := 4.
Definition PARA_TEMP : nat := 5.
Definition PARA_NET : nat := 6.
Definition PARA_RECORD : nat := 7.
Definition PARA_ALGO : nat := 8.
Definition PARA_BURST : nat := 9.
Definition PARA_ALARM : nat := 10.
Definition PARA_VIDEO : nat := 11.
Definition PARA_FILTER : nat := 12.
Definition PARA_HEATER : nat := 13.

(** The union in [chk_rule_t]: every row sets the member its format reads. *)
Inductive rule_data :=
| u_range (min max : Z)
| ll_range (min max : Z)
| f_range (min max : spec_float)
| lf_range (min max : spec_float)
| c_range (str : list Z)
| s_range (str_chk : option (list Z -> option bool)).
Record chk_rule_t := mk_rule { r_type : fmt_type_e; min_len : Z; max_len : Z; r_data : rule_data }.
Record cmd_item_t := mk_cmd {
  cmd : list Z; cmd_id : cmd_id_e; group : nat; props : Z; rule : chk_rule_t; arg : pointer }.

(** burst.c: is the text a list of commands of one to four capital letters? *)
Fixpoint list_scan (str : list Z) (cmd_len : Z) (has_command : bool) : option bool :=
  match str with
  | [] => None
  | c :: str =>
      if (c =? 13) || (c =? 0) then
        if (cmd_len =? 0) && negb has_command then Some false else Some (negb (cmd_len =? 0))
      else if c =? 44 then
        if cmd_len =? 0 then Some false else list_scan str 0 true
      else if negb (is_upper c) then Some false
      else if 4 <? cmd_len + 1 then Some false else list_scan str (cmd_len + 1) has_command
  end.
Definition valid_cmd_list (str : list Z) : option bool :=
  c ← head str; if c =? 0 then Some false else list_scan str 0 false.

(** Notation for the rows below. *)
Definition letters (s : string) : Z :=
  fold_left (fun a c => Z.lor a
    (if c =? 80 then prop_P else if c =? 66 then prop_B else if c =? 83 then prop_S else if c =? 78 then prop_N
     else if c =? 77 then prop_M else if c =? 73 then prop_I else prop_L)) (codes s) 0.
Definition item (w : string) (id : cmd_id_e) (g : nat) (p : string) (fmt : fmt_type_e) (min max : Z) (d : rule_data)
  (a : pointer) : cmd_item_t := mk_cmd (codes w) id g (letters p) (mk_rule fmt min max d) a.
(** [&x[i]] *)
Definition elt (i : nat) (o : obj) (path : list string) : pointer := member_of (index i (address o path)).

Definition CMD_TBL : list cmd_item_t :=
  [item "DA" CMD_DA PARA_DEV "PBSNM" FMT_U_8 1 2 (u_range 0 32)
     (para_at ["dev"; "addr"]);
   item "ID" CMD_ID PARA_DEV "PSNMLI" FMT_S 10 10 (s_range (Some is_pure_digit))
     (para_at ["dev"; "sn"]);
   item "DN" CMD_DN PARA_DEV "PNI" FMT_S 0 0 (s_range None)
     (para_at ["dev"; "name"]);
   item "DV" CMD_DV PARA_DEV "PNI" FMT_S 0 0 (s_range None)
     (state_at ["dev_info"]);
   item "RS" CMD_RS PARA_DEV "SNI" FMT_C 1 1 (c_range (codes "1"))
     (state_at ["sys_op"; "reset"]);
   item "PR" CMD_PR PARA_DEV "SNLI" FMT_U_8 1 1 (u_range 1 4)
     (state_at ["sys_op"; "recover"]);
   item "SC" CMD_SC PARA_DEV "PNI" FMT_S 1 2 (s_range None)
     (state_at ["dev_error"]);
   item "UL" CMD_UL PARA_DEV "PSNI" FMT_U_8 1 1 (u_range 0 1)
     (state_at ["unlock"]);
   item "J" CMD_J PARA_DEV "PSNIM" FMT_C 1 1 (c_range (codes "LU"))
     (para_at ["dev"; "panel_lock"]);
   item "DEV" CMD_DEV PARA_DEV "PSNI" FMT_U_8 1 1 (u_range 0 1)
     (state_at ["develop"]);
   item "BR" CMD_BR PARA_PORT "PSNM" FMT_U_32 4 6 (u_range 2400 230400)
     (para_at ["port"; "baudrate"]);
   item "CF" CMD_CF PARA_PORT "PSNMI" FMT_S 1 3 (s_range (Some is_check_fmt_valid))
     (para_at ["port"; "check_fmt"]);
   item "PM" CMD_PM PARA_PORT "PSNMI" FMT_C 1 1 (c_range (codes "24"))
     (para_at ["port"; "mode"]);
   item "DB" CMD_DB PARA_PORT "PSNMI" FMT_C 1 1 (c_range (codes "01234567"))
     (para_at ["port"; "dbg_level"]);
   item "DP" CMD_DP PARA_PORT "PSNMI" FMT_U_8 1 1 (u_range 0 3)
     (para_at ["port"; "dbg_port"]);
   item "NM" CMD_NM PARA_GAIN "PBSNMI" FMT_LF 1 10 (lf_range (f64_of_Z 1) (f64_of_Z 1000))
     (elt 1 SYS_PARA ["gain"; "k_lm"]);
   item "NH" CMD_NH PARA_GAIN "PBSNMI" FMT_LF 1 10 (lf_range (f64_of_Z 1) (f64_of_Z 1000))
     (elt 1 SYS_PARA ["gain"; "k_mh"]);
   item "WM" CMD_WM PARA_GAIN "PBSNMI" FMT_LF 1 10 (lf_range (f64_of_Z 1) (f64_of_Z 1000))
     (elt 0 SYS_PARA ["gain"; "k_lm"]);
   item "WH" CMD_WH PARA_GAIN "PBSNMI" FMT_LF 1 10 (lf_range (f64_of_Z 1) (f64_of_Z 1000))
     (elt 0 SYS_PARA ["gain"; "k_mh"]);
   item "NUP" CMD_NUP PARA_GAIN "PBSNMI" FMT_U_32 1 7 (u_range 1 3300000)
     (elt 1 SYS_PARA ["gain"; "upper"]);
   item "WUP" CMD_WUP PARA_GAIN "PBSNMI" FMT_U_32 1 7 (u_range 1 3300000)
     (elt 0 SYS_PARA ["gain"; "upper"]);
   item "NLM" CMD_NLM PARA_GAIN "PBSNMI" FMT_U_32 1 7 (u_range 1 3300000)
     (elt 1 SYS_PARA ["gain"; "lowerml"]);
   item "WLM" CMD_WLM PARA_GAIN "PBSNMI" FMT_U_32 1 7 (u_range 1 3300000)
     (elt 0 SYS_PARA ["gain"; "lowerml"]);
   item "NLH" CMD_NLH PARA_GAIN "PBSNMI" FMT_U_32 1 7 (u_range 1 3300000)
     (elt 1 SYS_PARA ["gain"; "lowerhm"]);
   item "WLH" CMD_WLH PARA_GAIN "PBSNMI" FMT_U_32 1 7 (u_range 1 3300000)
     (elt 0 SYS_PARA ["gain"; "lowerhm"]);
   item "GDN" CMD_GDN PARA_GAIN "PBSNMI" FMT_U_32 1 3 (u_range 1 500)
     (para_at ["gain"; "volt_discard"]);
   item "GCN" CMD_GCN PARA_GAIN "PBSNMI" FMT_U_32 1 3 (u_range 1 500)
     (para_at ["gain"; "cnt_thod"]);
   item "AM" CMD_AM PARA_ANA "PSNM" FMT_C 1 1 (c_range (codes "04"))
     (para_at ["ana"; "type"]);
   item "AL" CMD_AL PARA_ANA "PBSNM" FMT_F 3 7 (f_range (f32_of_Z 100) (f32_of_Z 3500))
     (para_at ["ana"; "lower"]);
   item "AH" CMD_AH PARA_ANA "PBSNM" FMT_F 3 7 (f_range (f32_of_Z 100) (f32_of_Z 3500))
     (para_at ["ana"; "upper"]);
   item "OAL" CMD_OAL PARA_ANA "PBSNM" FMT_F 1 7 (f_range (f32_of_Z 0) (f32_of_Z 4))
     (para_at ["ana"; "exceed_min_range"]);
   item "OAH" CMD_OAH PARA_ANA "PBSNM" FMT_F 1 7 (f_range (f32_of_Z 20) (f32_of_Z 24))
     (para_at ["ana"; "exceed_max_range"]);
   item "OI" CMD_OI PARA_ANA "PSNM" FMT_U_32 1 8 (u_range 0 60000000)
     (state_at ["ana_curt_value"]);
   item "IL" CMD_IL PARA_ANA "PSNMI" FMT_U_32 6 7 (u_range 900000 1500000)
     (para_at ["ana"; "real_curt_2ma"]);
   item "IH" CMD_IH PARA_ANA "PSNMI" FMT_U_32 8 8 (u_range 18500000 24000000)
     (para_at ["ana"; "real_curt_20ma"]);
   item "AT" CMD_AT PARA_ANA "PSNI" FMT_F 3 6 (f_range (f32_of_Z 100) (f32_of_Z 3500))
     (state_at ["ana_temp_convert_value"]);
   item "DM" CMD_DM PARA_ADC "PSNMI" FMT_U_8 1 1 (u_range 0 3)
     (para_at ["adc"; "ctrl_pwr_mode"]);
   item "GA" CMD_GA PARA_ADC "PSNMI" FMT_U_32 1 1 (u_range 0 0)
     (para_at ["adc"; "pga"]);
   item "OFN" CMD_OFN PARA_ADC "PSNMI" FMT_U_32 1 8 (u_range 0 10000000)
     (para_at ["adc"; "offs0"]);
   item "OFW" CMD_OFW PARA_ADC "PSNMI" FMT_U_32 1 8 (u_range 0 10000000)
     (para_at ["adc"; "offs2"]);
   item "NV" CMD_NV PARA_ADC "PBNI" FMT_U_32 1 1 (u_range 0 0)
     (elt 1 SYS_STATE ["target_volt"]);
   item "WV" CMD_WV PARA_ADC "PBNI" FMT_U_32 1 1 (u_range 0 0)
     (elt 0 SYS_STATE ["target_volt"]);
   item "ONV" CMD_ONV PARA_ADC "PBNI" FMT_U_32 1 1 (u_range 0 0)
     (elt 1 SYS_STATE ["output_volt"]);
   item "OWV" CMD_OWV PARA_ADC "PBNI" FMT_U_32 1 1 (u_range 0 0)
     (elt 0 SYS_STATE ["output_volt"]);
   item "SN" CMD_SN PARA_ADC "PBSNMI" FMT_U_32 1 1 (u_range 0 2)
     (elt 1 SYS_STATE ["now_gain"]);
   item "SW" CMD_SW PARA_ADC "PBSNMI" FMT_U_32 1 1 (u_range 0 2)
     (elt 0 SYS_STATE ["now_gain"]);
   item "SM" CMD_SM PARA_ADC "PBSNMI" FMT_U_32 1 1 (u_range 0 1)
     (state_at ["tiag_switch_mode"]);
   item "U" CMD_U PARA_TEMP "PBSNM" FMT_C 1 1 (c_range (codes "CFK"))
     (para_at ["temp"; "unit"]);
   item "DL" CMD_DL PARA_TEMP "PSNMI" FMT_F 3 7 (f_range (f32_of_Z 100) (f32_of_Z 3500))
     (para_at ["temp"; "dev_temp_min"]);
   item "DH" CMD_DH PARA_TEMP "PSNMI" FMT_F 3 7 (f_range (f32_of_Z 100) (f32_of_Z 3500))
     (para_at ["temp"; "dev_temp_max"]);
   item "M" CMD_M PARA_TEMP "PBSNM" FMT_U_8 1 1 (u_range 0 2)
     (para_at ["temp"; "temp_mode"]);
   item "NC" CMD_NC PARA_TEMP "PBSNMI" FMT_F6 1 6 (f_range (f32_lit 1 10) (f32_lit 115 100))
     (elt 1 SYS_PARA ["temp"; "trans_interior"]);
   item "WC" CMD_WC PARA_TEMP "PBSNMI" FMT_F6 1 6 (f_range (f32_lit 1 10) (f32_lit 115 100))
     (elt 0 SYS_PARA ["temp"; "trans_interior"]);
   item "E" CMD_E PARA_TEMP "PBSNM" FMT_F6 1 6 (f_range (f32_lit 1 10) (f32_lit 115 100))
     (para_at ["temp"; "emissivity"]);
   item "NS" CMD_NS PARA_TEMP "PBSNM" FMT_F6 1 6 (f_range (f32_lit 1 10) (f32_lit 1015 100))
     (elt 1 SYS_PARA ["temp"; "trans"]);
   item "WS" CMD_WS PARA_TEMP "PBSNM" FMT_F6 1 6 (f_range (f32_lit 1 10) (f32_lit 1015 100))
     (elt 0 SYS_PARA ["temp"; "trans"]);
   item "S" CMD_S PARA_TEMP "PBSNM" FMT_F6 1 6 (f_range (f32_lit 1 10) (f32_lit 1015 100))
     (para_at ["temp"; "slope"]);
   item "SI" CMD_SI PARA_TEMP "PBSNM" FMT_F6 1 6 (f_range (f32_lit 1 10) (f32_lit 1015 100))
     (para_at ["temp"; "slope_interior"]);
   item "ON" CMD_ON PARA_TEMP "PBSNMI" FMT_U_32 1 7 (u_range 0 1000000)
     (elt 1 SYS_PARA ["temp"; "volt_zero_l"]);
   item "OW" CMD_OW PARA_TEMP "PBSNMI" FMT_U_32 1 7 (u_range 0 1000000)
     (elt 0 SYS_PARA ["temp"; "volt_zero_l"]);
   item "VV" CMD_VV PARA_TEMP "PSNMI" FMT_U_32 1 7 (u_range 0 3220000)
     (para_at ["temp"; "valid_vol"]);
   item "ATC" CMD_ATC PARA_TEMP "PSNMI" FMT_U_8 1 1 (u_range 0 1)
     (para_at ["temp"; "ambient_comp_ctl"]);
   item "TTCO" CMD_TTCO PARA_TEMP "PSNI" FMT_U_8 1 1 (u_range 0 1)
     (state_at ["two_calib_open"]);
   item "CA" CMD_CA PARA_TEMP "SNI" FMT_F 3 7 (f_range (f32_of_Z 100) (f32_of_Z 3500))
     (state_at ["temp_calibration"]);
   item "TCLS" CMD_TCLS PARA_TEMP "SNI" FMT_F 3 7 (f_range (f32_of_Z 100) (f32_of_Z 3500))
     (state_at ["temp_calib_low_set"]);
   item "TCLR" CMD_TCLR PARA_TEMP "SNI" FMT_F 3 7 (f_range (f32_of_Z 100) (f32_of_Z 3500))
     (state_at ["temp_calib_low_real"]);
   item "TCHS" CMD_TCHS PARA_TEMP "SNI" FMT_F 3 7 (f_range (f32_of_Z 100) (f32_of_Z 3500))
     (state_at ["temp_calib_high_set"]);
   item "TCHR" CMD_TCHR PARA_TEMP "SNI" FMT_F 3 7 (f_range (f32_of_Z 100) (f32_of_Z 3500))
     (state_at ["temp_calib_high_real"]);
   item "WTGA" CMD_WTGA PARA_TEMP "PBSNMI" FMT_F 1 8 (f_range (f32_lit 8 10) (f32_lit 12 10))
     (elt 0 SYS_PARA ["temp"; "temp_calib_gain"]);
   item "WTOF" CMD_WTOF PARA_TEMP "PBSNMI" FMT_F 1 6 (f_range (f32_of_Z (-500)) (f32_of_Z 500))
     (elt 0 SYS_PARA ["temp"; "temp_calib_offset"]);
   item "NTGA" CMD_NTGA PARA_TEMP "PBSNMI" FMT_F 1 8 (f_range (f32_lit 8 10) (f32_lit 12 10))
     (elt 1 SYS_PARA ["temp"; "temp_calib_gain"]);
   item "NTOF" CMD_NTOF PARA_TEMP "PBSNMI" FMT_F 1 6 (f_range (f32_of_Z (-500)) (f32_of_Z 500))
     (elt 1 SYS_PARA ["temp"; "temp_calib_offset"]);
   item "RTGA" CMD_RTGA PARA_TEMP "PBSNMI" FMT_F 1 8 (f_range (f32_lit 8 10) (f32_lit 12 10))
     (elt 2 SYS_PARA ["temp"; "temp_calib_gain"]);
   item "RTOF" CMD_RTOF PARA_TEMP "PBSNMI" FMT_F 1 6 (f_range (f32_of_Z (-500)) (f32_of_Z 500))
     (elt 2 SYS_PARA ["temp"; "temp_calib_offset"]);
   item "T" CMD_T PARA_TEMP "PBN" FMT_F 1 1 (f_range (f32_lit 1 10) (f32_of_Z 10000))
     (state_at ["target_temp"]);
   item "RT" CMD_RT PARA_TEMP "PBNI" FMT_F 1 1 (f_range (f32_of_Z 0) (f32_of_Z 0))
     (state_at ["ratio_temp"]);
   item "ST" CMD_ST PARA_TEMP "PBNI" FMT_F 1 1 (f_range (f32_of_Z 0) (f32_of_Z 0))
     (elt 0 SYS_STATE ["internal_temp"]);
   item "I" CMD_I PARA_TEMP "PBN" FMT_F 1 1 (f_range (f32_of_Z 0) (f32_of_Z 0))
     (elt 1 SYS_STATE ["internal_temp"]);
   item "NT" CMD_NT PARA_TEMP "PBN" FMT_F 1 1 (f_range (f32_lit 1 10) (f32_of_Z 10000))
     (elt 1 SYS_STATE ["single_temp"]);
   item "WT" CMD_WT PARA_TEMP "PBN" FMT_F 1 1 (f_range (f32_lit 1 10) (f32_of_Z 10000))
     (elt 0 SYS_STATE ["single_temp"]);
   item "B" CMD_B PARA_TEMP "PBN" FMT_F 1 1 (f_range (f32_of_Z 0) (f32_of_Z 0))
     (state_at ["Measured_attenuation"]);
   item "TN" CMD_TN PARA_TEMP "PBNI" FMT_F 1 1 (f_range (f32_of_Z 0) (f32_of_Z 0))
     (state_at ["ratio_temp_nerve"]);
   item "NI" CMD_NI PARA_NET "PSNMI" FMT_U_32 1 2 (u_range 1 10)
     (para_at ["net"; "interval"]);
   item "NR" CMD_NR PARA_NET "PSNMI" FMT_U_32 1 2 (u_range 1 50)
     (para_at ["net"; "rev_time"]);
   item "DHCP" CMD_DHCP PARA_NET "PSNMI" FMT_U_8 1 1 (u_range 0 1)
     (para_at ["net"; "dhcp"]);
   item "IP" CMD_IP PARA_NET "PSNM" FMT_S 7 15 (s_range (Some is_valid_ip))
     (para_at ["net"; "ip_addr"]);
   item "NY" CMD_NY PARA_NET "PSNMI" FMT_S 7 15 (s_range (Some is_valid_ip))
     (para_at ["net"; "remote_ip"]);
   item "GW" CMD_GW PARA_NET "PSNM" FMT_S 7 15 (s_range (Some is_valid_ip))
     (para_at ["net"; "gateway"]);
   item "MA" CMD_MA PARA_NET "PSNM" FMT_S 7 15 (s_range (Some is_valid_ip))
     (para_at ["net"; "net_mask"]);
   item "MAC" CMD_MAC PARA_NET "P" FMT_S 12 12 (s_range None)
     (state_at ["macAddr"]);
   item "PO" CMD_PO PARA_NET "PSNM" FMT_U_16 1 5 (u_range 0 65535)
     (para_at ["net"; "port"]);
   item "RI" CMD_RI PARA_RECORD "PSNMI" FMT_U_32 3 8 (u_range 300 86400000)
     (para_at ["record"; "interval"]);
   item "RQ" CMD_RQ PARA_RECORD "SNI" FMT_U_8 1 1 (u_range 0 2)
     (state_at ["index_clear"]);
   item "RO" CMD_RO PARA_RECORD "PSNI" FMT_U_8 1 1 (u_range 0 1)
     (state_at ["record_open"]);
   item "RN" CMD_RN PARA_RECORD "PNI" FMT_S 1 40 (s_range None)
     (state_at ["record_max_cnt"]);
   item "AP" CMD_AP PARA_ALGO "PSNMI" FMT_S 1 1024 (s_range None)
     (state_at ["algo_str"]);
   item "NWA" CMD_NWA PARA_ALGO "PSNMI" FMT_S 1 1024 (s_range None)
     (state_at ["algo_network_str_w1"]);
   item "NWB" CMD_NWB PARA_ALGO "PSNMI" FMT_S 1 1024 (s_range None)
     (state_at ["algo_network_str_w2"]);
   item "NB" CMD_NB PARA_ALGO "PSNMI" FMT_S 1 1024 (s_range None)
     (state_at ["algo_network_str_b"]);
   item "V" CMD_V PARA_BURST "PSNM" FMT_C 1 1 (c_range (codes "BP"))
     (para_at ["burst"; "mode"]);
   item "BS" CMD_BS PARA_BURST "PSNM" FMT_U_16 2 5 (u_range 30 10000)
     (para_at ["burst"; "speed"]);
   item "BC" CMD_BC PARA_BURST "PSNM" FMT_S 1 40 (s_range (Some valid_cmd_list))
     (para_at ["burst"; "cmd_list"]);
   item "BF" CMD_BF PARA_BURST "PSNM" FMT_S 2 2 (s_range None)
     (para_at ["burst"; "fmt"]);
   item "RA" CMD_RA PARA_ALARM "PSNM" FMT_U_8 1 1 (u_range 0 9)
     (para_at ["alarm"; "relay_alarm_mode"]);
   item "TON" CMD_TON PARA_ALARM "PSNM" FMT_F 1 6 (f_range (f32_of_Z 100) (f32_of_Z 3500))
     (para_at ["alarm"; "target_temp_alarm_on"]);
   item "TOF" CMD_TOF PARA_ALARM "PSNM" FMT_F 1 5 (f_range (f32_of_Z 0) (f32_of_Z 150))
     (para_at ["alarm"; "target_temp_alarm_off"]);
   item "ION" CMD_ION PARA_ALARM "PSNMI" FMT_F 1 5 (f_range (f32_of_Z (-40)) (f32_of_Z 150))
     (para_at ["alarm"; "internal_temp_alarm_on"]);
   item "IOF" CMD_IOF PARA_ALARM "PSNMI" FMT_F 1 5 (f_range (f32_of_Z 0) (f32_of_Z 150))
     (para_at ["alarm"; "internal_temp_alarm_off"]);
   item "DR" CMD_DR PARA_ALARM "PSNMI" FMT_U_32 1 3 (u_range 0 100)
     (para_at ["alarm"; "decay_rate"]);
   item "AON" CMD_AON PARA_ALARM "PSNM" FMT_F 1 4 (f_range (f32_of_Z 0) (f32_of_Z 1))
     (para_at ["alarm"; "attenuation_alarm_on"]);
   item "AOF" CMD_AOF PARA_ALARM "PSNMI" FMT_F 1 4 (f_range (f32_of_Z 0) (f32_of_Z 1))
     (para_at ["alarm"; "attenuation_alarm_off"]);
   item "EM" CMD_EM PARA_VIDEO "PSNMI" FMT_U_8 1 1 (u_range 1 8)
     (para_at ["video"; "exposure_mode"]);
   item "EV" CMD_EV PARA_VIDEO "PSNMI" FMT_F 2 5 (f_range (f32_of_Z (-13)) (f32_of_Z (-2)))
     (para_at ["video"; "exposure_level"]);
   item "BN" CMD_BN PARA_VIDEO "PSNMI" FMT_F 1 5 (f_range (f32_of_Z (-64)) (f32_of_Z 64))
     (para_at ["video"; "brightness_val"]);
   item "BL" CMD_BL PARA_VIDEO "PSNMI" FMT_U_8 1 1 (u_range 0 5)
     (para_at ["video"; "backlight_val"]);
   item "GN" CMD_GN PARA_VIDEO "PSNMI" FMT_U_8 1 1 (u_range 1 7)
     (para_at ["video"; "gain_val"]);
   item "VI" CMD_VI PARA_VIDEO "PSNM" FMT_U_8 1 1 (u_range 0 1)
     (para_at ["video"; "video_control"]);
   item "VM" CMD_VM PARA_VIDEO "PSNMI" FMT_U_8 1 1 (u_range 0 1)
     (para_at ["video"; "video_protocol_control"]);
   item "VF" CMD_VF PARA_VIDEO "PSNMI" FMT_U_8 1 1 (u_range 0 8)
     (para_at ["video"; "video_send_fre"]);
   item "VT" CMD_VT PARA_VIDEO "PSNMI" FMT_U_16 1 10 (u_range 0 1000)
     (para_at ["video"; "test_delay"]);
   item "VN" CMD_VN PARA_VIDEO "PSNMI" FMT_U_32 1 10 (u_range 0 4000)
     (para_at ["video"; "send_size_test"]);
   item "AX" CMD_AX PARA_VIDEO "PSNMI" FMT_F 1 7 (f_range (f32_of_Z (-1000)) (f32_of_Z 1000))
     (para_at ["video"; "aiming_x"]);
   item "AY" CMD_AY PARA_VIDEO "PSNMI" FMT_F 1 7 (f_range (f32_of_Z (-1000)) (f32_of_Z 1000))
     (para_at ["video"; "aiming_y"]);
   item "RC" CMD_RC PARA_VIDEO "PNI" FMT_F 1 4 (f_range (f32_of_Z 0) (f32_of_Z 1))
     (state_at ["video_relative_reticle_diameter"]);
   item "AN" CMD_AN PARA_FILTER "PSNM" FMT_U_16 1 3 (u_range 1 500)
     (para_at ["filter"; "temp_filter_buf_size"]);
   item "C" CMD_C PARA_FILTER "PSNMI" FMT_F 1 1 (f_range (f32_of_Z 0) (f32_of_Z 0))
     (para_at ["filter"; "advance_hold_threshold"]);
   item "F" CMD_F PARA_FILTER "PBSNMI" FMT_F 1 5 (f_range (f32_of_Z 0) (f32_of_Z 300))
     (para_at ["filter"; "valley_holding_time"]);
   item "AA" CMD_AA PARA_FILTER "PSNMI" FMT_F 1 1 (f_range (f32_of_Z 0) (f32_of_Z 0))
     (para_at ["filter"; "advance_hold_average_time"]);
   item "P" CMD_P PARA_FILTER "PBSNMI" FMT_F 1 5 (f_range (f32_of_Z 0) (f32_of_Z 300))
     (para_at ["filter"; "peak_holding_time"]);
   item "FM" CMD_FM PARA_FILTER "PSNMI" FMT_U_8 1 1 (u_range 0 2)
     (para_at ["filter"; "mode"]);
   item "CT" CMD_CT PARA_HEATER "PSNMI" FMT_F6 1 5 (f_range (f32_of_Z 0) (f32_of_Z 100))
     (para_at ["heater"; "set_temp"]);
   item "KP" CMD_KP PARA_HEATER "PSNMI" FMT_LF 1 12 (lf_range (f64_of_Z 0) (f64_of_Z 50000))
     (para_at ["heater"; "kp"]);
   item "KI" CMD_KI PARA_HEATER "PSNMI" FMT_LF 1 12 (lf_range (f64_of_Z 0) (f64_of_Z 50000))
     (para_at ["heater"; "ki"]);
   item "KD" CMD_KD PARA_HEATER "PSNMI" FMT_LF 1 12 (lf_range (f64_of_Z 0) (f64_of_Z 50000))
     (para_at ["heater"; "kd"])].

(** [error_type_e] *)
Definition UPP_OK : Z := 0.
Definition UPP_ERR_LEN : Z := 1.
Definition UPP_ERR_NO_CARRIAGE : Z := 2.
Definition UPP_ERR_OP_TYPE : Z := 3.
Definition UPP_ERR_NO_OPERATOR : Z := 4.
Definition UPP_ERR_ADDR_ILLEGAL : Z := 5.
Definition UPP_ERR_ADDR_OUT_RANGE : Z := 6.
Definition UPP_ERR_MODE : Z := 7.
Definition UPP_ERR_NO_SUPPORT_CMD : Z := 8.
Definition UPP_ERR_NO_SET_DATA : Z := 9.
Definition UPP_ERR_NO_UPPERCASE : Z := 10.
Definition UPP_ERR_NO_SUP_BROADCAST : Z := 11.
Definition UPP_ERR_DATA_ILLEGAL : Z := 12.
Definition UPP_ERR_DATA_LEN : Z := 13.
Definition UPP_ERR_DATA_RANGE : Z := 14.
Definition UPP_ERR_MULT_OPERATOR : Z := 15.
Definition UPP_ERR_BUILD_PACKET : Z := 16.
Definition UPP_ERR_DATA_LIMIT : Z := 17.
Definition UPP_ERR_DATA_CRC : Z := 18.
Definition UPP_ERR_CMD_LEN : Z := 19.
Definition UPP_ERR_CMD_CONFLICT : Z := 20.
Definition UPP_ERR_CMD_LOCKED : Z := 21.
Definition UPP_ERR_OPERATOR_ILLEGAL : Z := 22.
(** [ERR_INFO_TBL] *)
Definition ERR_INFO_TBL : list string :=
  ["upp ok";
   "upp err len";
   "upp err no carriage";
   "upp err op type";
   "upp err no operator";
   "upp err addr illegal";
   "upp addr over range";
   "upp err mode";
   "upp err no support cmd";
   "upp err no set data";
   "upp err no uppercase";
   "upp err no sup broadcast";
   "upp err data illegal";
   "upp err data len";
   "upp err data range";
   "upp err mult operator";
   "upp err build packet";
   "upp err data limit";
   "upp err data crc/calibration";
   "upp err cmd length";
   "upp err cmd conflict";
   "upp err device is locked";
   "upp err operator illegal"].

(** The commands whose value is converted to the display unit, and those that
    are limited to the configured range. *)
Definition TEMP_CMD_TBL : list (list Z) :=
  map codes ["DL"; "DH"; "TCLS"; "TCLR"; "TCHS"; "TCHR"; "T"; "RT"; "ST"; "I"; "NT"; "WT"; "TN"; "TON"; "TOF"; "ION"; "IOF"; "CT"; "AL"; "AH"; "AT"].
Definition AdjRange_CMD_TBL : list (list Z) :=
  map codes ["AL"; "AH"; "AT"; "CA"; "TCLS"; "TCLR"; "TCHS"; "TCHR"; "TON"].
(** [strcmp] against every entry up to the null pointer. *)
Definition is_need_conver_unit (cmd : list Z) : bool := existsb (fun w => bool_decide (w = cmd)) TEMP_CMD_TBL.
Definition is_need_limitRange (cmd : list Z) : bool := existsb (fun w => bool_decide (w = cmd)) AdjRange_CMD_TBL.

(** The loop runs [CMD_CNT] times; the table has fewer rows, and reading past
    them is undefined. *)
Fixpoint found_loop (n : nat) (table : list cmd_item_t) (i : Z) (word : list Z) (cmd_len : Z) : option Z :=
  match n with
  | O => Some (-1)
  | S n =>
      match table with
      | [] => None
      | it :: table =>
          if zlen (cmd it) =? cmd_len then
            r ← string_comp_n (cmd it ++ [0]) word cmd_len;
            if r =? 0 then Some i else found_loop n table (i + 1) word cmd_len
          else found_loop n table (i + 1) word cmd_len
      end
  end.
Definition cmd_found (table : list cmd_item_t) (word : list Z) (cmd_len : Z) : option Z :=
  found_loop CMD_CNT table 0 word cmd_len.

(** * Properties *)

Lemma string_comp_n_take a : forall b n, 0 <= n <= zlen a -> n <= zlen b ->
  exists c, string_comp_n a b n = Some c /\ (c = 0 <-> take (Z.to_nat n) a = take (Z.to_nat n) b).
Proof.
  induction a as [|x a IH]; intros b n Hn Hb.
  - cbn in Hn. replace n with 0 by lia. exists 0. by destruct b.
  - destruct b as [|y b]; cbn [length] in *.
    { replace n with 0 by lia. exists 0. by cbn. }
    cbn [string_comp_n]. destruct (Z.ltb_spec 0 n).
    2: { replace n with 0 by lia. exists 0. by cbn. }
    replace (Z.to_nat n) with (S (Z.to_nat (n - 1))) by lia. cbn [take].
    destruct (Z.ltb_spec x y); [exists (-1); split; [done|]; split; [done|intros [= ]; lia]|].
    destruct (Z.ltb_spec y x); [exists 1; split; [done|]; split; [done|intros [= ]; lia]|].
    destruct (IH b (n - 1)) as (c & -> & Hc); [lia..|]. exists c. split; [done|]. rewrite Hc.
    replace y with x by lia. split; congruence.
Qed.

Lemma found_loop_spec word cmd_len table : forall n i, 0 <= cmd_len <= zlen word -> (length table < n)%nat ->
  (forall k it, table !! k = Some it -> cmd it = take (Z.to_nat cmd_len) word ->
     exists k', (k' <= k)%nat /\ found_loop n table i word cmd_len = Some (i + Z.of_nat k') /\
       cmd <$> table !! k' = Some (take (Z.to_nat cmd_len) word)) /\
  ((forall it, it ∈ table -> cmd it <> take (Z.to_nat cmd_len) word) -> found_loop n table i word cmd_len = None).
Proof.
  induction table as [|x table IH]; intros n i Hl Hn; destruct n as [|n]; try (cbn in Hn; lia); [done|].
  cbn [found_loop length] in *. destruct (IH n (i + 1) Hl ltac:(lia)) as [IH1 IH2]. clear IH.
  assert (Hx : (if zlen (cmd x) =? cmd_len then
      r ← string_comp_n (cmd x ++ [0]) word cmd_len;
      (if r =? 0 then Some i else found_loop n table (i + 1) word cmd_len)
    else found_loop n table (i + 1) word cmd_len)
    = if bool_decide (cmd x = take (Z.to_nat cmd_len) word) then Some i else found_loop n table (i + 1) word cmd_len).
  { assert (Htl : length (take (Z.to_nat cmd_len) word) = Z.to_nat cmd_len) by (rewrite length_take; lia).
    destruct (Z.eqb_spec (zlen (cmd x)) cmd_len) as [E|E].
    - destruct (string_comp_n_take (cmd x ++ [0]) word cmd_len) as (c & -> & Hc); [rewrite zlen_app; lia|lia|].
      cbn [mbind option_bind]. replace (Z.to_nat cmd_len) with (length (cmd x)) in Hc at 1 by lia.
      rewrite take_app_length in Hc. destruct (Z.eqb_spec c 0), (bool_decide_reflect (cmd x = take (Z.to_nat cmd_len) word)); tauto.
    - rewrite bool_decide_eq_false_2; [done|]. intros Ex. rewrite Ex, Htl in E. lia. }
  rewrite Hx. clear Hx. case_bool_decide as Hx.
  - split; [|intros Hno; exfalso; apply (Hno x); [apply list_elem_of_here|done]].
    intros k it Hk Hit. exists O. rewrite Z.add_0_r. split; [lia|]. split; [done|]. cbn. by rewrite Hx.
  - split.
    + intros [|k] it Hk Hit; [by injection Hk as ->|]. destruct (IH1 k it Hk Hit) as (k' & Hk' & -> & Hc).
      exists (S k'). split; [lia|]. split; [f_equal; lia|done].
    + intros Hno. apply IH2. intros it Hit. apply Hno. by apply list_elem_of_further.
Qed.

Lemma cmd_words_distinct : NoDup (map cmd CMD_TBL).
Proof. apply (bool_decide_unpack _). vm_compute. exact I. Qed.

Lemma cmd_found_row i it word cmd_len : CMD_TBL !! i = Some it -> 0 <= cmd_len <= zlen word ->
  cmd it = take (Z.to_nat cmd_len) word -> cmd_found CMD_TBL word cmd_len = Some (Z.of_nat i).
Proof.
  intros Hi Hl Hit. destruct (found_loop_spec word cmd_len CMD_TBL CMD_CNT 0 Hl ltac:(vm_compute; lia)) as [H1 _].
  destruct (H1 i it Hi Hit) as (k & Hk & E & Hc). unfold cmd_found. rewrite E. enough (k = i) as -> by (f_equal; lia).
  apply (NoDup_lookup (map cmd CMD_TBL) k i (cmd it)); [apply cmd_words_distinct|..].
  - rewrite list_lookup_fmap, Hc. by rewrite Hit.
  - by rewrite list_lookup_fmap, Hi.
Qed.

(** [C21] Looking up a command word of [cmd_len] characters: a word of the table
    is found at its own row, the only one with it; for any other word the loop,
    which runs [CMD_CNT] = 138 times over a table of 134 rows, reads past the
    end of the table: the -1 for an unknown command is never returned. *)
Theorem cmd_found_spec word cmd_len : 0 <= cmd_len <= zlen word ->
  (forall i it, CMD_TBL !! i = Some it -> cmd it = take (Z.to_nat cmd_len) word ->
     cmd_found CMD_TBL word cmd_len = Some (Z.of_nat i)) /\
  ((forall it, it ∈ CMD_TBL -> cmd it <> take (Z.to_nat cmd_len) word) -> cmd_found CMD_TBL word cmd_len = None).
Proof.
  intros Hl. split; [intros i it Hi Hit; by apply (cmd_found_row i it)|].
  exact (proj2 (found_loop_spec word cmd_len CMD_TBL CMD_CNT 0 Hl ltac:(vm_compute; lia))).
Qed.
(** "NUP" is row 19; "OV" has an identifier but no row. *)
Lemma cmd_found_spec_witness :
  cmd_found CMD_TBL (codes "NUP=1") 3 = Some 19 /\ cmd_found CMD_TBL (codes "OV") 2 = None.
Proof.
  split.
  - apply (proj1 (cmd_found_spec (codes "NUP=1") 3 ltac:(vm_compute; split; discriminate))
             19%nat (nth 19 CMD_TBL (item "" CMD_DA 0 "" FMT_C 0 0 (c_range []) null))); reflexivity.
  - apply (proj2 (cmd_found_spec (codes "OV") 2 ltac:(vm_compute; split; discriminate))).
    assert (Hno : forallb (fun it => negb (bool_decide (cmd it = codes "OV"))) CMD_TBL = true) by (vm_compute; reflexivity).
    intros it Hit Hc. apply list_elem_of_In in Hit. pose proof (proj1 (forallb_forall _ _) Hno it Hit) as H.
    cbn beta in H. rewrite (bool_decide_eq_true_2 _ Hc) in H. discriminate H.
Defined.

(** ** Typing of the table *)

(** The most bytes an accepted set command writes outside of the develop mode. *)
Definition written (it : cmd_item_t) : nat :=
  match r_type (rule it) with
  | FMT_U_8 | FMT_C => 1
  | FMT_U_16 => 2
  | FMT_U_32 | FMT_F6 | FMT_F | FMT_X => 4
  | FMT_LLD | FMT_LF => 8
  | FMT_S => Z.to_nat (max_len (rule it)) + 1
  end.
Definition rule_fits (r : chk_rule_t) : bool :=
  match r_type r, r_data r with
  | (FMT_U_8 | FMT_U_16 | FMT_U_32 | FMT_X), u_range lo hi => (0 <=? lo) && (lo <=? hi) && (hi <? 2 ^ 32)
  | FMT_LLD, ll_range lo hi => lo <=? hi
  | FMT_LF, lf_range lo hi => f_le lo hi
  | (FMT_F6 | FMT_F), f_range lo hi => f_le lo hi
  | FMT_S, s_range _ => true
  | FMT_C, c_range str => negb (bool_decide (str = []))
  | _, _ => false
  end.
Definition is_real (t : ctype) : bool := match t with T_f32 | T_f64 => true | _ => false end.
Definition real_format (f : fmt_type_e) : bool := match f with FMT_LF | FMT_F6 | FMT_F => true | _ => false end.
(** The format writes the member's kind of number (or characters). *)
Definition same_kind (it : cmd_item_t) : bool := Bool.eqb (real_format (r_type (rule it))) (is_real (p_type (arg it))).
Definition settable (it : cmd_item_t) : bool := has prop_S (props it).
Definition in_object (it : cmd_item_t) : bool := (p_off (arg it) + sizeof (p_type (arg it)) <=? obj_size (p_obj (arg it)))%nat.
(** Saved commands name the group their parameter lies in. *)
Definition in_group (it : cmd_item_t) : bool :=
  match p_obj (arg it) with
  | SYS_PARA => (off_of (group it) <=? p_off (arg it))%nat &&
                (p_off (arg it) + sizeof (p_type (arg it)) <=? off_of (group it) + size_of (group it))%nat
  | SYS_STATE => true
  end.
Definition words_of (p : cmd_item_t -> bool) : list (list Z) :=
  map cmd (List.filter (fun it => settable it && p it) CMD_TBL).

(** Typing of [CMD_TBL] against the declarations of its targets, outside of the
    develop mode ([written] is the most that the data check lets through, see
    [accepted_data_stored] of UppFailure.v).  Every row
    points to an existing member, inside the group its parameters are saved
    with, and has a rule its format can read with a non-empty range; no set
    command writes beyond its member but seven: GA and SM store four bytes in
    one, BC and the coefficient strings store a terminator behind a full array;
    and none stores the wrong kind of number but ON and OW, whose integer goes
    into a [float].  Narrower stores than the member leave its upper bytes. *)
Theorem cmd_table_typed :
  Forall (fun it => in_object it && in_group it && (negb (settable it) || rule_fits (rule it)) = true) CMD_TBL /\
  words_of (fun it => negb (written it <=? sizeof (p_type (arg it)))%nat)
    = map codes ["GA"; "SM"; "AP"; "NWA"; "NWB"; "NB"; "BC"] /\
  words_of (fun it => negb (same_kind it)) = map codes ["ON"; "OW"] /\
  words_of (fun it => negb (bool_decide (r_type (rule it) = FMT_S)) && (written it <? sizeof (p_type (arg it)))%nat)
    = map codes ["DB"; "M"; "DHCP"; "PO"; "RQ"; "RO"; "RA"; "VI"].
Proof.
  split; [|vm_compute; done]. apply List.Forall_forall, forallb_forall. vm_compute. reflexivity.
Qed.
