(* ===== verification/ProtoCoef.v ===== *)
(** * proto_coef.c: the coefficients of the temperature conversion

    Loading and printing of the logarithmic, polynomial and neural-network
    coefficients in [sys_para.algo].  The command text is tokenised in place in
    [parse->data], a buffer of 1044 bytes. *)
From Stdlib Require Import ZifyBool.
From S2P Require Import Prelude CFloat Str Para Stdio Layout CmdTable.
Open Scope string_scope.
Open Scope list_scope.
Open Scope Z_scope.

Definition ALGO_HDR_SIZE : Z := 4.
Definition LOG_PARA_CH_MAX : nat := 2.
Definition LOG_PARA_SEG_MAX : nat := 2.
Definition POLY_PARA_SEG_MAX : nat := 2.
Definition POLY_PARA_TERM_MAX : Z := 15.
Definition NETWORK_PARA_NEURON_NUM_W : Z := 64.
Definition NETWORK_PARA_LAYER1_NEURON_NUM_B : Z := 64.
Definition NETWORK_PARA_LAYER2_NEURON_NUM_B : Z := 1.
Definition PARSE_DATA_MAX_LEN : Z := 1024.
Definition DATA_SIZE : nat := 1044.

Definition ALGO_PARSE_OK : Z := 0.
Definition ALGO_PARSE_ERR_NULL : Z := -1.
Definition ALGO_PARSE_ERR_TYPE : Z := -2.
Definition ALGO_PARSE_ERR_FORMAT : Z := -3.
Definition ALGO_PARSE_ERR_IDX : Z := -4.
Definition ALGO_PARSE_ERR_PARA_TOO_MUCH : Z := -5.

(** ** The parsers as programs over [strtok]

    The state is the buffer and [strtok]'s saved position; a program ends with
    a value or returns an error code early ([inr]). *)
Definition parser (A : Type) : Type := list Z * nat -> option ((list Z * nat) * (A + Z)).
Definition ret {A} (a : A) : parser A := fun s => Some (s, inl a).
Definition bind {A B} (p : parser A) (k : A -> parser B) : parser B := fun s =>
  r ← p s;
  match snd r with inl a => k a (fst r) | inr e => Some (fst r, inr e) end.
Definition fail {A} (e : Z) : parser A := fun s => Some (s, inr e).
Definition undef {A} : parser A := fun _ => None.
Notation "'let*' x ':=' p 'in' k" := (bind p (fun x => k)) (at level 10, x name, p at level 100, k at level 200).

(** [strtok(NULL, delim)], or NULL. *)
Definition next_token (delim : Z) : parser (option (list Z)) := fun s =>
  r ← strtok delim (fst s) (snd s);
  let '(m, p, t) := r in Some ((m, p), inl t).
Definition token (delim : Z) : parser (list Z) :=
  let* t := next_token delim in match t with Some t => ret t | None => fail ALGO_PARSE_ERR_FORMAT end.
Definition int_token (delim : Z) : parser Z :=
  let* t := token delim in match atoi t with Some v => ret v | None => undef end.
Definition COMMA : Z := 44.
Definition SPACE : Z := 32.

(** The bytes of a packed [coef_t]. *)
Definition coef_bytes (base index : Z) : list Z := le_encode 8 (base mod 2 ^ 64) ++ [index mod 2 ^ 8].

(** [base], [index] pairs. *)
Fixpoint coefs (n : nat) : parser (list Z) :=
  match n with
  | O => ret []
  | S n =>
      let* t := token COMMA in
      let* i := int_token COMMA in
      let* l := coefs n in ret (coef_bytes (strtoll t) i ++ l)
  end.
(** The check field, and nothing behind it. *)
Definition last_token (delim : Z) : parser unit :=
  let* t := next_token delim in match t with Some _ => fail ALGO_PARSE_ERR_PARA_TOO_MUCH | None => ret tt end.

Definition in_range (lo hi v : Z) : parser unit := if (v <? lo) || (hi <=? v) then fail ALGO_PARSE_ERR_IDX else ret tt.

(** Channels up to 3 are let through, although [log_para] has two. *)
Definition parse_log_fields : parser (Z * Z * list Z) :=
  let* ch := int_token COMMA in
  let* u := in_range 0 4 ch in
  let* seg := int_token COMMA in
  let* u := in_range 0 2 seg in
  let* th := token COMMA in
  let* c := coefs 2 in
  let* chk := token COMMA in
  let* u := last_token COMMA in
  ret (ch, seg, le_encode 8 (f64_to_bits (strto_real f64_prec f64_emax th)) ++ c).
Definition log_size : nat := sizeof (T_struct log_para_t).
Definition poly_size : nat := sizeof (T_struct poly_para_t).
Definition algo_at (path : list string) : nat := p_off (para_at ("algo" :: path)).

Definition parse_poly_fields : parser (Z * list Z) :=
  let* seg := int_token COMMA in
  let* u := in_range 0 (Z.of_nat POLY_PARA_SEG_MAX) seg in
  let* term := int_token COMMA in
  let* u := in_range 0 (POLY_PARA_TERM_MAX + 1) term in
  let* sub := token COMMA in
  let* c := coefs (Z.to_nat term) in
  let* chk := token COMMA in
  let* u := last_token COMMA in
  ret (seg, [u8 term] ++ le_encode 4 (f32_to_bits (strto_real f32_prec f32_emax sub)) ++ c).

(** The result of a parser: the buffer, and what to do on success. *)
Definition run {A} (p : parser A) (data : list Z) (from : nat) (m : mem)
  (commit : A -> option mem) : option (list Z * mem * Z) :=
  r ← p (data, from);
  match snd r with
  | inr e => Some (fst (fst r), m, e)
  | inl a => m ← commit a; Some (fst (fst r), m, ALGO_PARSE_OK)
  end.
Definition parse_log_para (data : list Z) (from : nat) (m : mem) : option (list Z * mem * Z) :=
  run parse_log_fields data from m (fun '(ch, seg, b) =>
    store m SYS_PARA (algo_at ["log_para"] + (LOG_PARA_SEG_MAX * Z.to_nat ch + Z.to_nat seg) * log_size) b).
Definition parse_poly_para (data : list Z) (from : nat) (m : mem) : option (list Z * mem * Z) :=
  run parse_poly_fields data from m (fun '(seg, b) =>
    store m SYS_PARA (algo_at ["poly_para"] + Z.to_nat seg * poly_size) b).

(** The local copy of [network_para_t]: offset of the word that value [i] goes
    to.  The first array is indexed up to the number of values, which may be
    one more than it has. *)
Definition net_offset (id : cmd_id_e) (i : Z) : Z :=
  let w (path : string) := Z.of_nat (p_off (para_at ["algo"; "network_para"; path]) - algo_at ["network_para"]) in
  match id with
  | CMD_NWA => w "effective_w1" + 4 * i
  | CMD_NWB => w "effective_w2" + 4 * i
  | _ => if i <? NETWORK_PARA_LAYER1_NEURON_NUM_B then w "effective_b1" + 4 * i
         else w "effective_b2" + 4 * (i - NETWORK_PARA_LAYER1_NEURON_NUM_B)
  end.
Fixpoint net_values (id : cmd_id_e) (n : nat) (i : Z) (net : list Z) : parser (list Z) :=
  match n with
  | O => ret net
  | S n =>
      let* t := token SPACE in
      net_values id n (i + 1) (put (Z.to_nat (net_offset id i)) (le_encode 4 (strtoul16 t)) net)
  end.
Definition net_size : nat := sizeof (T_struct network_para_t).
Definition parse_net_fields (id : cmd_id_e) (net : list Z) : parser (list Z) :=
  let* num := int_token SPACE in
  if (num <? NETWORK_PARA_NEURON_NUM_W) || (NETWORK_PARA_LAYER1_NEURON_NUM_B + NETWORK_PARA_LAYER2_NEURON_NUM_B <? num)
  then fail ALGO_PARSE_ERR_FORMAT
  else
    let* net := net_values id (Z.to_nat num) 0 net in
    let* t := next_token SPACE in
    match t with Some _ => fail ALGO_PARSE_ERR_FORMAT | None => ret net end.
Definition parse_network_para (data : list Z) (id : cmd_id_e) (m : mem) : option (list Z * mem * Z) :=
  net ← load m SYS_PARA (algo_at ["network_para"]) net_size;
  run (parse_net_fields id net) data 0 m (fun net => store m SYS_PARA (algo_at ["network_para"]) net).

(** ** Entry points *)

(** The two tokens before the coefficients end with [strtok] having replaced
    their commas; the parsers start again at the fifth character. *)
Definition algo_load (data : list Z) (data_len : Z) (m : mem) : option (list Z * mem * Z) :=
  if data_len <=? ALGO_HDR_SIZE then Some (data, m, ALGO_PARSE_ERR_NULL)
  else
    r ← strtok COMMA data 0;
    let '(data, p, op) := r in
    r ← strtok COMMA data p;
    let '(data, p, t) := r in
    match t with
    | None => Some (data, m, ALGO_PARSE_ERR_FORMAT)
    | Some t =>
        c ← head t;
        if (c <? 48) || (50 <? c) then Some (data, m, ALGO_PARSE_ERR_FORMAT)
        else
          type ← atoi t;
          if type =? 0 then parse_log_para data (Z.to_nat ALGO_HDR_SIZE) m
          else if type =? 1 then parse_poly_para data (Z.to_nat ALGO_HDR_SIZE) m
          else if type =? 2 then Some (data, m, ALGO_PARSE_OK)
          else Some (data, m, ALGO_PARSE_ERR_TYPE)
    end.

Definition algo_network_para_load (data : list Z) (data_len : Z) (id : cmd_id_e) (m : mem) : option (list Z * mem * Z) :=
  if data_len <=? ALGO_HDR_SIZE then Some (data, m, ALGO_PARSE_ERR_NULL)
  else parse_network_para data id m.

(** The replies: the text so far, [None] inside when the length check returns
    -1; every [sprintf] must fit in the buffer with its terminator. *)
Definition emit (t s : list Z) : option (list Z) :=
  if (length t + length s <? DATA_SIZE)%nat then Some (t ++ s) else None.
(** A signed member. *)
Definition rd_s64 (l : list Z) (off : nat) : Z := s64 (le_decode (get off 8 l)).
Definition rd_s8 (l : list Z) (off : nat) : Z := s8 (le_decode (get off 1 l)).
Definition put_text (t data : list Z) : list Z := put 0 (t ++ [0]) data.

Definition log_reply (m : mem) (ch seg : nat) (t : list Z) : option (list Z) :=
  let b := get (algo_at ["log_para"] + (LOG_PARA_SEG_MAX * ch + seg) * log_size) log_size (m_para m) in
  t ← emit t (codes "1,0," ++ print_d (Z.of_nat ch) ++ [COMMA] ++ print_d (Z.of_nat seg) ++ [COMMA] ++
              print_fixed 6 (f64_of_bits (le_decode (get 0 8 b))) ++ [COMMA]);
  emit t (print_d (rd_s64 b 8) ++ [COMMA] ++ print_d (rd_s8 b 16) ++ [COMMA] ++
          print_d (rd_s64 b 17) ++ [COMMA] ++ print_d (rd_s8 b 25) ++ codes ",0;").
Fixpoint term_reply (n : nat) (b : list Z) (off : nat) (t : list Z) : option (option (list Z)) :=
  match n with
  | O => Some (Some t)
  | S n =>
      t ← emit t (print_d (rd_s64 b off) ++ [COMMA] ++ print_d (rd_s8 b (off + 8)) ++ [COMMA]);
      if PARSE_DATA_MAX_LEN <? zlen t then Some None else term_reply n b (off + 9) t
  end.
Definition poly_reply (m : mem) (seg : nat) (t : list Z) : option (option (list Z)) :=
  let b := get (algo_at ["poly_para"] + seg * poly_size) poly_size (m_para m) in
  let term := nth 0 b 0 in
  t ← emit t (codes "1,1," ++ print_d (Z.of_nat seg) ++ [COMMA] ++ print_d term ++ [COMMA] ++
              print_fixed 6 (f64_of_f32 (f32_of_bits (le_decode (get 1 4 b)))) ++ [COMMA]);
  r ← term_reply (Z.to_nat term) (get (algo_at ["poly_para"] + seg * poly_size) (length (m_para m)) (m_para m)) 5 t;
  match r with
  | None => Some None
  | Some t =>
      t ← emit t (if (seg =? POLY_PARA_SEG_MAX - 1)%nat then codes "0;" else codes "0" ++ [13; 10]);
      if PARSE_DATA_MAX_LEN <? zlen t then Some None else Some (Some t)
  end.
(** Runs replies one after the other until one returns -1. *)
Fixpoint replies (l : list (list Z -> option (option (list Z)))) (t : list Z) : option (option (list Z)) :=
  match l with
  | [] => Some (Some t)
  | f :: l => r ← f t; match r with None => Some None | Some t => replies l t end
  end.
Definition checked_log (m : mem) (ch seg : nat) (t : list Z) : option (option (list Z)) :=
  t ← log_reply m ch seg t; if PARSE_DATA_MAX_LEN <? zlen t then Some None else Some (Some t).
(** The buffer, [data_len] and [data_out_en] unless -1 is returned. *)
Definition algo_get (data : list Z) (m : mem) : option (option (list Z * Z)) :=
  r ← replies ([checked_log m 0 0; checked_log m 0 1; checked_log m 1 0; checked_log m 1 1] ++
               map (poly_reply m) (seq 0 POLY_PARA_SEG_MAX)) [];
  Some match r with None => None | Some t => Some (put_text t data, zlen t) end.

Definition net_word (m : mem) (id : cmd_id_e) (i : Z) : Z :=
  le_decode (get (algo_at ["network_para"] + Z.to_nat (net_offset id i)) 4 (m_para m)).
Definition net_count (id : cmd_id_e) : nat := match id with CMD_NB => 65 | _ => 64 end.
Fixpoint net_reply (m : mem) (id : cmd_id_e) (n : nat) (i : Z) (t : list Z) : option (option (list Z)) :=
  match n with
  | O => Some (Some t)
  | S n =>
      t ← emit t (SPACE :: hex_text 8 (net_word m id i));
      if PARSE_DATA_MAX_LEN <? zlen t then Some None else net_reply m id n (i + 1) t
  end.
Definition algo_network_para_get (data : list Z) (id : cmd_id_e) (m : mem) : option (option (list Z * Z)) :=
  match id with
  | CMD_NWA | CMD_NWB | CMD_NB =>
      t ← emit [] (print_d (Z.of_nat (net_count id)));
      r ← net_reply m id (net_count id) 0 t;
      Some match r with None => None | Some t => Some (put_text t data, zlen t) end
  | _ => Some None
  end.

(** * Properties *)

(** ** Inversion of parsers *)
Lemma bind_inl {A B} (p : parser A) (k : A -> parser B) s s' b :
  bind p k s = Some (s', inl b) -> exists a s1, p s = Some (s1, inl a) /\ k a s1 = Some (s', inl b).
Proof.
  unfold bind. destruct (p s) as [[s1 [a|e]]|]; cbn; [|done|done]. intros H. by exists a, s1.
Qed.
Lemma ret_inl {A} (a b : A) s s' : ret a s = Some (s', inl b) -> s = s' /\ a = b.
Proof. unfold ret. by intros [= -> ->]. Qed.
Ltac parsed H :=
  lazymatch type of H with
  | bind _ _ _ = Some (_, inl _) =>
      let a := fresh "v" in let s := fresh "s" in let E := fresh "E" in
      apply bind_inl in H as (a & s & E & H); parsed H
  | _ => idtac
  end.
Lemma in_range_inl lo hi v s s' u : in_range lo hi v s = Some (s', inl u) -> lo <= v < hi.
Proof. unfold in_range, fail, ret. destruct (v <? lo) eqn:E1, (hi <=? v) eqn:E2; cbn; (done || lia). Qed.

Lemma coefs_length n : forall s s' l, coefs n s = Some (s', inl l) -> length l = (9 * n)%nat.
Proof.
  induction n as [|n IH]; intros s s' l H; cbn [coefs] in H; [by apply ret_inl in H as [_ <-]|].
  parsed H. apply ret_inl in H as [_ <-]. rewrite length_app, (IH _ _ _ E1). unfold coef_bytes.
  rewrite length_app, le_encode_length. cbn. lia.
Qed.

Lemma run_cases {A} (p : parser A) data from m commit d m' e : run p data from m commit = Some (d, m', e) ->
  (m' = m /\ exists s, p (data, from) = Some (s, inr e)) \/
  (e = ALGO_PARSE_OK /\ exists s a, p (data, from) = Some (s, inl a) /\ commit a = Some m').
Proof.
  unfold run. destruct (p (data, from)) as [[s [a|e0]]|]; cbn; [|intros [= <- <- <-]; left; by eauto|done].
  destruct (commit a) as [m1|] eqn:E; cbn; [|done]. intros [= <- <- <-]. right. split; [done|]. by exists s, a.
Qed.

(** What a successful [AP] command writes, and where. *)
Lemma parse_log_writes data from m d m' e : parse_log_para data from m = Some (d, m', e) ->
  m' = m \/ e = ALGO_PARSE_OK /\ exists ch seg b, 0 <= ch < 4 /\ 0 <= seg < 2 /\ length b = log_size /\
    store m SYS_PARA (algo_at ["log_para"] + (2 * Z.to_nat ch + Z.to_nat seg) * log_size) b = Some m'.
Proof.
  intros H. apply run_cases in H as [[-> _] | (He & s & [[ch seg] b] & Hp & Hc)]; [by left|]. right. split; [done|]. exists ch, seg, b.
  unfold parse_log_fields in Hp. parsed Hp. apply in_range_inl in E0, E2. apply ret_inl in Hp as [_ Hb].
  set (bytes := _ ++ _) in Hb. injection Hb as <- <- <-. do 2 (split; [done|]). subst bytes. apply coefs_length in E4. split; [|done].
  rewrite length_app, le_encode_length, E4. reflexivity.
Qed.
Lemma parse_poly_writes data from m d m' e : parse_poly_para data from m = Some (d, m', e) ->
  m' = m \/ e = ALGO_PARSE_OK /\ exists seg term b, 0 <= seg < 2 /\ 0 <= term <= 15 /\ length b = (5 + 9 * Z.to_nat term)%nat /\
    head b = Some term /\ store m SYS_PARA (algo_at ["poly_para"] + Z.to_nat seg * poly_size) b = Some m'.
Proof.
  intros H. apply run_cases in H as [[-> _] | (He & s & [seg b] & Hp & Hc)]; [by left|]. right. split; [done|].
  unfold parse_poly_fields in Hp. parsed Hp. apply in_range_inl in E0, E2.
  unfold POLY_PARA_SEG_MAX, POLY_PARA_TERM_MAX in *. apply coefs_length in E4.
  apply ret_inl in Hp as [_ Hb].
  set (bytes := _ ++ _) in Hb. injection Hb as <- <-. subst bytes. eexists v, v1, _. split; [done|]. split; [lia|].
  split; [|split; [|exact Hc]].
  - rewrite !length_app, le_encode_length, E4. cbn. lia.
  - cbn. by rewrite u8_small by lia.
Qed.

(** Offsets inside [sys_para.algo]. *)
Lemma algo_offsets : algo_at ["poly_para"] = (algo_at ["log_para"] + 4 * log_size)%nat /\
  algo_at ["network_para"] = (algo_at ["poly_para"] + 2 * poly_size)%nat /\ log_size = 26%nat /\ poly_size = 140%nat.
Proof. vm_compute. done. Qed.

(** What [AP=...] can change: nothing unless 0 is returned, and then only
    bytes of [log_para] and [poly_para]: a logarithmic segment of 26 bytes, or
    the header and the given terms of a polynomial segment.  The channel check
    lets 2 and 3 through, which lie behind [log_para]: those commands overwrite
    the polynomial coefficients. *)
Theorem algo_load_writes data len m d m' e :
  algo_load data len m = Some (d, m', e) ->
  m' = m \/
  e = ALGO_PARSE_OK /\ exists off b, store m SYS_PARA off b = Some m' /\
    (algo_at ["log_para"] <= off /\ off + length b <= algo_at ["network_para"])%nat /\
    ((exists seg term, (seg < POLY_PARA_SEG_MAX)%nat /\ 0 <= term <= POLY_PARA_TERM_MAX /\
        off = (algo_at ["poly_para"] + seg * poly_size)%nat /\ length b = (5 + 9 * Z.to_nat term)%nat /\ head b = Some term) \/
     (exists ch seg, (ch < 4)%nat /\ (seg < LOG_PARA_SEG_MAX)%nat /\
        off = (algo_at ["log_para"] + (LOG_PARA_SEG_MAX * ch + seg) * log_size)%nat /\ length b = log_size /\
        ((LOG_PARA_CH_MAX <= ch)%nat -> (algo_at ["poly_para"] <= off)%nat))).
Proof.
  unfold algo_load. intros H. destruct (len <=? ALGO_HDR_SIZE); [injection H as <- <- <-; by left|].
  destruct (strtok COMMA data 0) as [[[d1 p1] op]|]; [|done]. cbn [mbind option_bind] in H.
  destruct (strtok COMMA d1 p1) as [[[d2 p2] [t|]]|]; [|by injection H as <- <- <-; left|done]. cbn [mbind option_bind] in H.
  destruct (head t) as [c|]; [|done]. cbn [mbind option_bind] in H.
  destruct ((c <? 48) || (50 <? c)); [by injection H as <- <- <-; left|].
  destruct (atoi t) as [ty|]; [|done]. cbn [mbind option_bind] in H.
  destruct algo_offsets as (A1 & A2 & A3 & A4). rewrite A3, A4 in *.
  destruct (ty =? 0); [|destruct (ty =? 1)].
  - apply parse_log_writes in H as [-> | (-> & ch & seg & b & Hch & Hseg & Hb & Hs)]; [by left|]. right. split; [done|].
    eexists _, b. split; [exact Hs|]. rewrite Hb. unfold LOG_PARA_SEG_MAX, LOG_PARA_CH_MAX, POLY_PARA_SEG_MAX, POLY_PARA_TERM_MAX.
    rewrite A3. split; [lia|]. right. exists (Z.to_nat ch), (Z.to_nat seg). lia.
  - apply parse_poly_writes in H as [-> | (-> & seg & term & b & Hseg & Hterm & Hb & Hh & Hs)]; [by left|]. right. split; [done|].
    eexists _, b. split; [exact Hs|]. rewrite A4. split; [lia|]. left. exists (Z.to_nat seg), term.
    unfold POLY_PARA_SEG_MAX, POLY_PARA_TERM_MAX. repeat split; done || lia.
  - destruct (ty =? 2); injection H as <- <- <-; by left.
Qed.
Definition demo_mem : mem := mk_mem (replicate (obj_size SYS_PARA) 7) (replicate (obj_size SYS_STATE) 0).
Definition text_buffer (t : list Z) : list Z := t ++ replicate (DATA_SIZE - length t) 0.
(** Channel 2, segment 0: the 26 bytes land on the first polynomial segment. *)
Definition demo_log : list Z := codes "1,0,2,0,2.5,-3,-5,4,1,0".
Example demo_log_overrun :
  match algo_load (text_buffer demo_log) (zlen demo_log) demo_mem with
  | Some (_, m, e) => (e, get (algo_at ["log_para"]) 104 (m_para m), get (algo_at ["poly_para"] + 8) 9 (m_para m))
  | None => (1, [], [])
  end = (ALGO_PARSE_OK, replicate 104 7, coef_bytes (-3) (-5)).
Proof. vm_compute. reflexivity. Qed.

(** ** The network coefficients *)

(** The text of a list of words, each behind a space. *)
Definition spaced (vs : list Z) : list Z := concat (map (fun v => SPACE :: hex_text 8 v) vs).
Definition words (m : mem) (id : cmd_id_e) (i : Z) (n : nat) : list Z :=
  map (fun k => net_word m id (i + Z.of_nat k)) (seq 0 n).
Lemma words_S m id i n : words m id i (S n) = net_word m id i :: words m id (i + 1) n.
Proof.
  unfold words. cbn [seq map]. rewrite Z.add_0_r, <- seq_shift, map_map. erewrite map_ext; [reflexivity|].
  intros k. cbn beta. by replace (i + 1 + Z.of_nat k) with (i + Z.of_nat (S k)) by lia.
Qed.
Lemma spaced_length vs : length (spaced vs) = (9 * length vs)%nat.
Proof.
  unfold spaced. induction vs as [|v vs IH]; [done|]. cbn [map concat]. rewrite length_app, IH. cbn [length].
  rewrite hex_text_length. lia.
Qed.

Lemma net_reply_text m id n : forall i t, zlen t + 9 * Z.of_nat n <= PARSE_DATA_MAX_LEN ->
  net_reply m id n i t = Some (Some (t ++ spaced (words m id i n))).
Proof.
  induction n as [|n IH]; intros i t Ht; cbn [net_reply]; [by rewrite app_nil_r|].
  assert (Hl : length (SPACE :: hex_text 8 (net_word m id i)) = 9%nat) by (cbn [length]; by rewrite hex_text_length).
  unfold emit, DATA_SIZE, PARSE_DATA_MAX_LEN in *.
  rewrite Hl, (proj2 (Nat.ltb_lt _ _)) by lia. cbn [mbind option_bind].
  assert (zlen (t ++ SPACE :: hex_text 8 (net_word m id i)) = zlen t + 9) by (rewrite zlen_app; lia).
  rewrite (proj2 (Z.ltb_ge _ _)) by lia. rewrite IH by lia. rewrite words_S. by rewrite <- app_assoc.
Qed.

(** The words as the loader stores them. *)
Fixpoint put_words (id : cmd_id_e) (i : Z) (vs : list Z) (net : list Z) : list Z :=
  match vs with
  | [] => net
  | v :: vs => put_words id (i + 1) vs (put (Z.to_nat (net_offset id i)) (le_encode 4 v) net)
  end.

Lemma hex_token v : Forall (fun c => c <> SPACE /\ c <> 0) (hex_text 8 v).
Proof.
  eapply Forall_impl; [apply hex_text_hex|]. intros c. unfold is_hex, is_digit, SPACE. cbn. lia.
Qed.
Lemma spaced_nul_free vs : nul_free (spaced vs).
Proof.
  induction vs as [|v vs IH]; [constructor|]. unfold spaced. cbn [map concat]. apply Forall_app_2; [|done].
  constructor; [done|]. eapply Forall_impl; [apply hex_token|]. by intros c [].
Qed.
Lemma token_mid delim pre tok rest r : delim <> 0 -> tok <> [] ->
  Forall (fun c => c <> delim /\ c <> 0) tok -> nul_free rest ->
  token delim (pre ++ tok ++ delim :: rest ++ 0 :: r, length pre)
  = Some ((pre ++ tok ++ 0 :: rest ++ 0 :: r, S (length pre + length tok)), inl tok).
Proof. intros. unfold token, bind, next_token. cbn [fst snd]. by rewrite strtok_mid. Qed.
Lemma token_last delim pre tok r : delim <> 0 -> tok <> [] -> Forall (fun c => c <> delim /\ c <> 0) tok ->
  token delim (pre ++ tok ++ 0 :: r, length pre) = Some ((pre ++ tok ++ 0 :: r, (length pre + length tok)%nat), inl tok).
Proof. intros. unfold token, bind, next_token. cbn [fst snd]. by rewrite strtok_last. Qed.
Lemma net_values_S id n i net : net_values id (S n) i net =
  bind (token SPACE) (fun t => net_values id n (i + 1) (put (Z.to_nat (net_offset id i)) (le_encode 4 (strtoul16 t)) net)).
Proof. reflexivity. Qed.
Lemma net_values_run id r vs : forall i net pre v, Forall (fun v => 0 <= v < 2 ^ 32) (v :: vs) ->
  exists pre', net_values id (S (length vs)) i net (pre ++ hex_text 8 v ++ spaced vs ++ 0 :: r, length pre)
  = Some ((pre' ++ 0 :: r, length pre'), inl (put_words id i (v :: vs) net)).
Proof.
  assert (Hne : forall v, hex_text 8 v <> []) by done.
  induction vs as [|w vs IH]; intros i net pre v Hv; inversion Hv as [|? ? Hv1 Hvs]; subst;
    rewrite net_values_S; unfold bind.
  - change (spaced [] ++ 0 :: r) with (0 :: r). rewrite token_last by (done || apply hex_token). cbn [mbind option_bind fst snd].
    rewrite strtoul16_hex by done. exists (pre ++ hex_text 8 v). rewrite length_app. by rewrite <- app_assoc.
  - assert (E : spaced (w :: vs) ++ 0 :: r = SPACE :: (hex_text 8 w ++ spaced vs) ++ 0 :: r) by (by rewrite <- !app_assoc).
    rewrite E, token_mid; [|done|done|apply hex_token|].
    2: { apply Forall_app_2; [|apply spaced_nul_free]. eapply Forall_impl; [apply hex_token|]. by intros c []. }
    cbn [mbind option_bind fst snd]. rewrite strtoul16_hex by done.
    destruct (IH (i + 1) (put (Z.to_nat (net_offset id i)) (le_encode 4 v) net) (pre ++ hex_text 8 v ++ [0]) w Hvs) as (pre' & IH').
    exists pre'. cbn [length]. etransitivity; [|exact IH']. clear.
    replace (S (length pre + length (hex_text 8 v))) with (length (pre ++ hex_text 8 v ++ [0])) by (rewrite !length_app; cbn [length]; lia).
    by rewrite <- !app_assoc.
Qed.

Lemma net_offset_eq id i : net_offset id i =
  match id with
  | CMD_NWA => 4 * i
  | CMD_NWB => 512 + 4 * i
  | _ => if i <? 64 then 256 + 4 * i else 768 + 4 * (i - 64)
  end.
Proof.
  unfold net_offset.
  replace (Z.of_nat (p_off (para_at ["algo"; "network_para"; "effective_w1"]) - algo_at ["network_para"])) with 0 by (vm_compute; reflexivity).
  replace (Z.of_nat (p_off (para_at ["algo"; "network_para"; "effective_w2"]) - algo_at ["network_para"])) with 512 by (vm_compute; reflexivity).
  replace (Z.of_nat (p_off (para_at ["algo"; "network_para"; "effective_b1"]) - algo_at ["network_para"])) with 256 by (vm_compute; reflexivity).
  replace (Z.of_nat (p_off (para_at ["algo"; "network_para"; "effective_b2"]) - algo_at ["network_para"])) with 768 by (vm_compute; reflexivity).
  by destruct id.
Qed.
Lemma net_size_eq : net_size = 772%nat.
Proof. reflexivity. Qed.
Definition is_net (id : cmd_id_e) : Prop := id = CMD_NWA \/ id = CMD_NWB \/ id = CMD_NB.
(** The words of one command lie in the structure and do not overlap. *)
Lemma net_offset_range id i : is_net id -> 0 <= i < Z.of_nat (net_count id) -> 0 <= net_offset id i /\ net_offset id i + 4 <= 772.
Proof. intros [-> | [-> | ->]] Hi; rewrite net_offset_eq; cbn in *; repeat case_match; lia. Qed.
Lemma net_offset_mono id i j : is_net id -> 0 <= i < j -> net_offset id i + 4 <= net_offset id j.
Proof. intros [-> | [-> | ->]] Hi; rewrite !net_offset_eq; repeat case_match; lia. Qed.

Lemma put_words_length id vs : is_net id -> forall i net, 0 <= i -> i + zlen vs <= Z.of_nat (net_count id) -> length net = net_size ->
  length (put_words id i vs net) = net_size.
Proof.
  intros Hid. induction vs as [|v vs IH]; intros i net Hi Hn Hl; [done|]. cbn [put_words length] in *.
  pose proof (net_offset_range id i Hid). rewrite net_size_eq in *. apply IH; [lia..|].
  rewrite put_length by (rewrite le_encode_length; lia); lia.
Qed.
Lemma put_words_out id k vs : is_net id -> forall i net, 0 <= i -> i + zlen vs <= Z.of_nat (net_count id) -> length net = net_size ->
  (forall j, i <= j < i + zlen vs -> (k < Z.to_nat (net_offset id j) \/ Z.to_nat (net_offset id j) + 4 <= k)%nat) ->
  put_words id i vs net !! k = net !! k.
Proof.
  intros Hid. induction vs as [|v vs IH]; intros i net Hi Hn Hl Hk; [done|]. cbn [put_words length] in *.
  pose proof (net_offset_range id i Hid). rewrite net_size_eq in *.
  rewrite IH; [|lia|lia|rewrite put_length by (rewrite le_encode_length; lia); lia|intros j Hj; apply Hk; lia].
  apply put_lookup_out; rewrite le_encode_length; [lia|]. apply Hk. lia.
Qed.
Lemma put_words_in id vs : is_net id -> forall i net n v, 0 <= i -> i + zlen vs <= Z.of_nat (net_count id) -> length net = net_size ->
  vs !! n = Some v -> 0 <= v < 2 ^ 32 ->
  le_decode (get (Z.to_nat (net_offset id (i + Z.of_nat n))) 4 (put_words id i vs net)) = v.
Proof.
  intros Hid. induction vs as [|w vs IH]; intros i net n v Hi Hc Hl Hn Hv; [done|]. cbn [put_words length] in *.
  pose proof (net_offset_range id i Hid) as Hr. rewrite net_size_eq in *.
  destruct n as [|n].
  - injection Hn as ->. rewrite Z.add_0_r. rewrite (get_ext _ 4 _ (put (Z.to_nat (net_offset id i)) (le_encode 4 v) net)).
    + rewrite get_put_eq; [by apply le_decode_encode|rewrite le_encode_length; lia|done].
    + intros k Hk. apply put_words_out; [done|lia|lia|rewrite net_size_eq, put_length by (rewrite le_encode_length; lia); lia|].
      intros j Hj. left. pose proof (net_offset_mono id i j Hid ltac:(lia)). lia.
  - replace (i + Z.of_nat (S n)) with (i + 1 + Z.of_nat n) by lia.
    apply IH; [lia|lia|rewrite put_length by (rewrite le_encode_length; lia); lia|done|done].
Qed.

Lemma net_word_range m id i : bytes (m_para m) -> 0 <= net_word m id i < 2 ^ 32.
Proof.
  intros Hb. unfold net_word. set (l := get _ 4 (m_para m)).
  assert (Hl : bytes l) by by apply get_Forall. pose proof (le_decode_range l Hl) as H.
  assert (length l <= 4)%nat by (unfold l, get; rewrite length_take; lia).
  assert (256 ^ zlen l <= 256 ^ 4) by (apply Z.pow_le_mono_r; lia). change (256 ^ 4) with (2 ^ 32) in *. lia.
Qed.
Lemma words_length m id i n : length (words m id i n) = n.
Proof. unfold words. by rewrite length_map, length_seq. Qed.
Lemma words_range m id i n : bytes (m_para m) -> Forall (fun v => 0 <= v < 2 ^ 32) (words m id i n).
Proof. intros Hb. apply Forall_map, Forall_true. intros k. by apply net_word_range. Qed.

Lemma net_count_text id : is_net id ->
  zlen (print_d (Z.of_nat (net_count id))) = 2 /\ (64 <= net_count id <= 65)%nat.
Proof. intros [-> | [-> | ->]]; vm_compute; split; (done || lia). Qed.
(** The reply is the number of words and the words. *)
Lemma network_get_text data id m : is_net id ->
  let t := print_d (Z.of_nat (net_count id)) ++ spaced (words m id 0 (net_count id)) in
  algo_network_para_get data id m = Some (Some (put_text t data, zlen t)) /\ (length t < DATA_SIZE)%nat.
Proof.
  intros Hid t. destruct (net_count_text id Hid) as [H2 H65]. assert (Hl : (length t < 1024)%nat).
  { unfold t. rewrite length_app, spaced_length, words_length. lia. }
  split; [|unfold DATA_SIZE; lia]. unfold algo_network_para_get.
  assert (E : emit [] (print_d (Z.of_nat (net_count id))) = Some (print_d (Z.of_nat (net_count id)))).
  { by destruct Hid as [-> | [-> | ->]]. }
  destruct Hid as [-> | [-> | ->]]; rewrite E; cbn [mbind option_bind];
    rewrite net_reply_text by (rewrite H2; done); done.
Qed.

(** Loading such a text stores the words. *)
Lemma network_fields_run id net v vs r : is_net id -> S (length vs) = net_count id ->
  Forall (fun v => 0 <= v < 2 ^ 32) (v :: vs) ->
  exists pre', parse_net_fields id net (print_d (Z.of_nat (net_count id)) ++ spaced (v :: vs) ++ 0 :: r, O)
  = Some ((pre' ++ 0 :: r, length pre'), inl (put_words id 0 (v :: vs) net)).
Proof.
  intros Hid Hc Hv. set (num := print_d (Z.of_nat (net_count id))).
  assert (Hnum : num <> [] /\ Forall (fun c => c <> SPACE /\ c <> 0) num /\ atoi num = Some (Z.of_nat (net_count id))).
  { unfold num. destruct Hid as [-> | [-> | ->]]; vm_compute; repeat (split || constructor); discriminate. }
  destruct Hnum as (Hn1 & Hn2 & Hn3).
  destruct (net_values_run id r vs 0 net (num ++ [0]) v Hv) as (pre' & Hrun). exists pre'.
  assert (E : num ++ spaced (v :: vs) ++ 0 :: r = [] ++ num ++ SPACE :: (hex_text 8 v ++ spaced vs) ++ 0 :: r)
    by (cbn [app]; by rewrite <- !app_assoc).
  rewrite E. unfold parse_net_fields, int_token, bind.
  assert (Hf : nul_free (hex_text 8 v ++ spaced vs)).
  { apply Forall_app_2; [|apply spaced_nul_free]. eapply Forall_impl; [apply hex_token|]. by intros c []. }
  pose proof (token_mid SPACE [] num (hex_text 8 v ++ spaced vs) r ltac:(done) Hn1 Hn2 Hf) as Ht.
  cbn [length] in Ht. rewrite Ht. cbn [mbind option_bind fst snd]. rewrite Hn3. cbn [ret fst snd mbind option_bind].
  assert (Hr : (Z.of_nat (net_count id) <? NETWORK_PARA_NEURON_NUM_W) ||
    (NETWORK_PARA_LAYER1_NEURON_NUM_B + NETWORK_PARA_LAYER2_NEURON_NUM_B <? Z.of_nat (net_count id)) = false)
    by (by destruct Hid as [-> | [-> | ->]]).
  rewrite Hr, Nat2Z.id, <- Hc.
  assert (Hs : ([] ++ num ++ 0 :: (hex_text 8 v ++ spaced vs) ++ 0 :: r, S (0 + length num))
    = ((num ++ [0]) ++ hex_text 8 v ++ spaced vs ++ 0 :: r, length (num ++ [0]))).
  { rewrite length_app, Nat.add_1_r. cbn [app length Nat.add]. by rewrite <- !app_assoc. }
  rewrite Hs, Hrun. cbn [mbind option_bind fst snd]. unfold next_token. cbn [fst snd]. by rewrite strtok_end.
Qed.

(** [C23] The network coefficients survive printing and loading: the reply to a
    query ([?NWA], [?NWB], [?NB]) of one device, sent as the data of the set
    command to another, is accepted there and makes its words of that array the
    same, bit for bit; no other byte of the parameters or of the state changes. *)
Theorem network_round_trip id data m m' : is_net id -> length data = DATA_SIZE -> wf_mem m -> wf_mem m' ->
  exists d len d' m'',
    algo_network_para_get data id m = Some (Some (d, len)) /\ length d = DATA_SIZE /\
    algo_network_para_load d len id m' = Some (d', m'', ALGO_PARSE_OK) /\
    (forall i, 0 <= i < Z.of_nat (net_count id) -> net_word m'' id i = net_word m id i) /\
    m_state m'' = m_state m' /\ length (m_para m'') = length (m_para m') /\
    (forall k, (forall i, 0 <= i < Z.of_nat (net_count id) ->
         let a := (algo_at ["network_para"] + Z.to_nat (net_offset id i))%nat in (k < a \/ a + 4 <= k)%nat) ->
       m_para m'' !! k = m_para m' !! k).
Proof.
  intros Hid Hd (Hm & _ & Hmb & _) (Hm' & _ & Hmb' & _). destruct (network_get_text data id m Hid) as [Hget Hlen].
  set (t := print_d _ ++ _) in *. cbn zeta in Hget, Hlen. set (base := algo_at ["network_para"]) in *.
  assert (Hbase : (base + net_size <= length (m_para m'))%nat) by (rewrite Hm'; vm_compute; lia).
  destruct (net_count id) as [|n] eqn:Hn; [by destruct Hid as [-> | [-> | ->]]|].
  pose proof (words_range m id 0 (S n) Hmb) as Hw. pose proof (words_length m id 0 (S n)) as Hwl.
  assert (Hwn : forall i, 0 <= i < Z.of_nat (S n) -> words m id 0 (S n) !! Z.to_nat i = Some (net_word m id i)).
  { intros i Hi. unfold words. rewrite list_lookup_fmap, lookup_seq_lt by lia.
    cbn [fmap option_fmap option_map]. by replace (0 + Z.of_nat (0 + Z.to_nat i)) with i by lia. }
  destruct (words m id 0 (S n)) as [|v vs] eqn:Ew; [done|].
  set (net := get base net_size (m_para m')). assert (Hnet : length net = net_size) by by apply get_length.
  destruct (network_fields_run id net v vs (drop (length (t ++ [0])) data) Hid) as (pre' & Hrun); [by rewrite Hn|done|].
  set (net' := put_words id 0 (v :: vs) net) in *.
  assert (Hnet' : length net' = net_size) by (apply put_words_length; try done; rewrite Hwl; lia).
  eexists (put_text t data), (zlen t), (pre' ++ 0 :: _), (mk_mem (put base net' (m_para m')) (m_state m')).
  split; [exact Hget|]. split; [unfold put_text; rewrite put_length; [done|]; rewrite length_app; cbn [length]; lia|].
  split; [|split; [|split; [done|split]]].
  - unfold algo_network_para_load. rewrite (proj2 (Z.leb_gt _ _)).
    2: { unfold t. rewrite zlen_app, spaced_length, Hwl. unfold ALGO_HDR_SIZE. lia. }
    unfold parse_network_para, load. fold base. change (image_of SYS_PARA m') with (m_para m'). rewrite (proj2 (Nat.leb_le _ _)) by done. cbn [mbind option_bind].
    fold net. unfold run.
    assert (E : put_text t data = print_d (Z.of_nat (net_count id)) ++ spaced (v :: vs) ++ 0 :: drop (length (t ++ [0])) data).
    { unfold put_text, put. cbn [take app]. rewrite Nat.add_0_l. unfold t. rewrite Hn. by rewrite <- !app_assoc. }
    rewrite E, Hrun. cbn [mbind option_bind fst snd]. unfold store. rewrite Hnet'. change (image_of SYS_PARA m') with (m_para m').
    rewrite (proj2 (Nat.leb_le _ _)) by done. done.
  - intros i Hi. unfold net_word at 1. fold base. cbn [m_para].
    pose proof (net_offset_range id i Hid ltac:(lia)) as Hr. rewrite net_size_eq in *.
    transitivity (le_decode (get (Z.to_nat (net_offset id i)) 4 net')).
    + f_equal. apply list_eq. intros k. destruct (decide (k < 4)%nat); [|by rewrite !get_lookup_ge by lia].
      rewrite !get_lookup by done. rewrite put_lookup_in by lia. f_equal. lia.
    + replace i with (0 + Z.of_nat (Z.to_nat i)) at 1 by lia.
      apply put_words_in; [done|lia|rewrite Hwl; lia|done|by apply Hwn|]. by apply net_word_range.
  - cbn [m_para]. rewrite put_length; [done|]. by rewrite Hnet'.
  - intros k Hk. cbn [m_para]. destruct (decide (base <= k < base + net_size)%nat) as [Hin|Hout].
    + rewrite put_lookup_in by lia. unfold net'.
      rewrite put_words_out; [|done|lia|rewrite Hwl; lia|done|].
      * unfold net. rewrite get_lookup by lia. f_equal. lia.
      * intros j Hj. rewrite Hwl in Hj. specialize (Hk j ltac:(lia)). cbn zeta in Hk. lia.
    + apply put_lookup_out; lia.
Qed.
Definition demo_mem2 : mem := mk_mem (map (fun i => Z.of_nat i mod 251) (seq 0 (obj_size SYS_PARA))) (replicate (obj_size SYS_STATE) 0).
Lemma network_round_trip_witness :
  exists d len d' m'',
    algo_network_para_get (text_buffer []) CMD_NB demo_mem2 = Some (Some (d, len)) /\ length d = DATA_SIZE /\
    algo_network_para_load d len CMD_NB demo_mem = Some (d', m'', ALGO_PARSE_OK) /\
    (forall i, 0 <= i < 65 -> net_word m'' CMD_NB i = net_word demo_mem2 CMD_NB i).
Proof.
  assert (H1 : wf_mem demo_mem2) by (split; [|split; [|split; apply bytes_check]]; vm_compute; reflexivity).
  assert (H2 : wf_mem demo_mem) by (split; [|split; [|split; apply bytes_check]]; vm_compute; reflexivity).
  destruct (network_round_trip CMD_NB (text_buffer []) demo_mem2 demo_mem) as (d & len & d' & m'' & A & B & C & D & _).
  - right. right. reflexivity.
  - vm_compute. reflexivity.
  - exact H1.
  - exact H2.
  - exists d, len, d', m''. split; [exact A|split; [exact B|split; [exact C|exact D]]].
Defined.
Lemma algo_load_writes_witness :
  exists d m' off b, algo_load (text_buffer demo_log) (zlen demo_log) demo_mem = Some (d, m', ALGO_PARSE_OK) /\
    store demo_mem SYS_PARA off b = Some m' /\ (off + length b <= algo_at ["network_para"])%nat.
Proof.
  destruct (algo_load (text_buffer demo_log) (zlen demo_log) demo_mem) as [[[d m'] e]|] eqn:E; [|vm_compute in E; discriminate].
  assert (He : e = ALGO_PARSE_OK /\ m_para m' <> m_para demo_mem).
  { vm_compute in E. injection E as _ <- <-. split; [reflexivity|]. cbn. discriminate. }
  destruct He as [-> Hm]. exists d, m'.
  destruct (algo_load_writes (text_buffer demo_log) (zlen demo_log) demo_mem d m' ALGO_PARSE_OK E) as [-> | (_ & off & b & Hs & Hb & _)].
  - destruct (Hm eq_refl).
  - exists off, b. split; [reflexivity|]. split; [exact Hs|]. exact (proj2 Hb).
Defined.
