(* ===== verification/ProtoChar.v ===== *)
(** * proto_char.c, proto_char_cfg.c: the character protocol (UPP)

    Parsing of the packets, the data checks of the set commands, the call-backs
    that follow them, the replies, and the loop over a buffer of packets.  The
    functions of other parts that the call-backs use are the class [UppHooks];
    [sys_para] and [sys_state] are byte images (Layout.v).  [None] is behaviour
    that C leaves undefined: access outside of an object, or no terminator.
    Debug prints are not modelled. *)
From Stdlib Require Import ZifyBool.
From S2P Require Import Prelude CFloat Str Generic Para Tiag Stdio Layout CmdTable ProtoCoef.
Open Scope string_scope.
Open Scope list_scope.
Open Scope Z_scope.

Definition UPP_OP_GET : Z := 63.
Definition UPP_OP_SET : Z := 61.
Definition UPP_ADDR_MODE_SINGLE : Z := 0.
Definition UPP_ADDR_MODE_MULTI : Z := 1.
Definition ADDR_LEN : Z := 3.
Definition BROADCAST_ADDR : Z := 99.
Definition TEMP_UNIT_INTERNAL : Z := 67.
Definition BURST_LIST_SIZE : nat := 40.

(** [parse_t]; [ptr] is the offset of the pointer in the packet. *)
Record parse_t := mk_parse {
  cmd_len : Z; addr_mode : Z; ptr : Z; cmd_word_len : Z; delim_len : Z; multi_addr : Z; op : Z;
  cmd_idx : nat; cmd_word : list Z; data_out_en : Z; data_len : Z; data : list Z; err : Z }.
(** After [mem_set(&upp_pkt_parse, sizeof(upp_pkt_parse), 0x00)]. *)
Definition parse_zero : parse_t := mk_parse 0 0 0 0 0 0 0 0 (replicate 5 0) 0 0 (replicate DATA_SIZE 0) 0.

Definition set_cmd_len v d (p : parse_t) := mk_parse v (addr_mode p) (ptr p) (cmd_word_len p) d (multi_addr p) (op p)
  (cmd_idx p) (cmd_word p) (data_out_en p) (data_len p) (data p) (err p).
Definition set_address mode a q (p : parse_t) := mk_parse (cmd_len p) mode q (cmd_word_len p) (delim_len p) a (op p)
  (cmd_idx p) (cmd_word p) (data_out_en p) (data_len p) (data p) (err p).
Definition set_op o q (p : parse_t) := mk_parse (cmd_len p) (addr_mode p) q (cmd_word_len p) (delim_len p) (multi_addr p) o
  (cmd_idx p) (cmd_word p) (data_out_en p) (data_len p) (data p) (err p).
Definition set_word n w q (p : parse_t) := mk_parse (cmd_len p) (addr_mode p) q n (delim_len p) (multi_addr p) (op p)
  (cmd_idx p) w (data_out_en p) (data_len p) (data p) (err p).
Definition set_data n d q (p : parse_t) := mk_parse (cmd_len p) (addr_mode p) q (cmd_word_len p) (delim_len p) (multi_addr p) (op p)
  (cmd_idx p) (cmd_word p) (data_out_en p) n d (err p).
Definition set_out n d en (p : parse_t) := mk_parse (cmd_len p) (addr_mode p) (ptr p) (cmd_word_len p) (delim_len p) (multi_addr p) (op p)
  (cmd_idx p) (cmd_word p) en n d (err p).
Definition set_idx i (p : parse_t) := mk_parse (cmd_len p) (addr_mode p) (ptr p) (cmd_word_len p) (delim_len p) (multi_addr p) (op p)
  i (cmd_word p) (data_out_en p) (data_len p) (data p) (err p).
Definition set_err e (p : parse_t) := mk_parse (cmd_len p) (addr_mode p) (ptr p) (cmd_word_len p) (delim_len p) (multi_addr p) (op p)
  (cmd_idx p) (cmd_word p) (data_out_en p) (data_len p) (data p) e.

(** ** Parsing: each step gives the structure and the C return code *)

Definition check_packet (pkt : list Z) (inlen : Z) (p : parse_t) : option (parse_t * Z) :=
  if inlen <? 3 then Some (set_err UPP_ERR_LEN p, -1)
  else
    r ← mem_search pkt inlen 13;
    match r with
    | None => Some (set_err UPP_ERR_NO_CARRIAGE p, -1)
    | Some carr =>
        c ← ld pkt (carr + 1);
        let delim := if c =? 10 then 2 else 1 in
        Some (set_cmd_len (u16 (carr + delim)) delim p, 0)
    end.

Definition get_multi_addr (dev_addr : Z) (pkt : list Z) (p : parse_t) : option (parse_t * Z) :=
  digits ← is_pure_digit_n pkt ADDR_LEN;
  r ← (if negb digits then Some (set_address UPP_ADDR_MODE_SINGLE 0 0 p, true)
       else
         v ← string_to_dec_n pkt ADDR_LEN;
         Some match v with
              | Ok v => (set_address UPP_ADDR_MODE_MULTI v ADDR_LEN p, true)
              | Err _ => (set_err UPP_ERR_ADDR_ILLEGAL p, false)
              end);
  let '(p, ok) := r in
  if negb ok then Some (p, -1)
  else if negb (multi_addr p =? dev_addr) && negb (multi_addr p =? BROADCAST_ADDR) then Some (set_err UPP_OK p, -1)
  else if (DEV_MAX_ADDR <? multi_addr p) && negb (multi_addr p =? BROADCAST_ADDR) then
    Some (set_err UPP_ERR_ADDR_OUT_RANGE p, -1)
  else Some (p, 0).

(** The operator and the length of the command word; a [uint8_t]. *)
Definition parse_operator (pkt : list Z) (p : parse_t) : option (parse_t * Z) :=
  c ← ld pkt (ptr p);
  let check (n : Z) (p : parse_t) :=
    if (n <? 1) || (4 <? n) then (set_err UPP_ERR_CMD_LEN p, -1) else (set_word n (cmd_word p) (ptr p) p, 0) in
  if c =? UPP_OP_GET then
    let p := set_op UPP_OP_GET (ptr p + 1) p in
    Some (check (u8 (cmd_len p - ptr p - delim_len p)) p)
  else
    r ← mem_search pkt (cmd_len p) UPP_OP_SET;
    match r with
    | None => Some (set_err UPP_ERR_OPERATOR_ILLEGAL p, -1)
    | Some pos => let p := set_op UPP_OP_SET (ptr p) p in Some (check (u8 (pos - ptr p)) p)
    end.
Definition parse_cmd_flk (pkt : list Z) (p : parse_t) : option (parse_t * Z) :=
  r ← parse_operator pkt p;
  let '(p, e) := r in
  if negb (e =? 0) then Some (p, e)
  else
    lower ← check_uppercase (drop (Z.to_nat (ptr p)) pkt) (cmd_word_len p);
    if negb (lower =? 0) then Some (set_err UPP_ERR_NO_UPPERCASE p, -1)
    else
      w ← mem_copy (cmd_word p) 0 (drop (Z.to_nat (ptr p)) pkt) (cmd_word_len p);
      let p := set_word (cmd_word_len p) (fst w) (ptr p + cmd_word_len p) p in
      if op p =? UPP_OP_SET then
        let p := set_op (op p) (ptr p + 1) p in
        if cmd_len p - ptr p <=? delim_len p then Some (set_err UPP_ERR_NO_SET_DATA p, -1)
        else
          let n := u16 (cmd_len p - ptr p - delim_len p) in
          d ← mem_copy (data p) 0 (drop (Z.to_nat (ptr p)) pkt) n;
          Some (set_data n (fst d) (ptr p) p, 0)
      else Some (p, 0).

Definition dev_addr_of (m : mem) : Z := rd_u m (para_at ["dev"; "addr"]).
Definition upp_parse_cmd (m : mem) (pkt : list Z) (p : parse_t) : option (parse_t * Z) :=
  r ← get_multi_addr (dev_addr_of m) pkt p;
  if negb (snd r =? 0) then Some r else parse_cmd_flk pkt (fst r).

(** ** The data of a set command *)

Definition develop (m : mem) : bool := negb (rd_u m (state_at ["develop"]) =? 0).
Definition unlock (m : mem) : bool := negb (rd_u m (state_at ["unlock"]) =? 0).
Definition unit_of (m : mem) : Z := rd_u m (para_at ["temp"; "unit"]).
Definition dev_temp_min (m : mem) : spec_float := rd_f32 m (para_at ["temp"; "dev_temp_min"]).
Definition dev_temp_max (m : mem) : spec_float := rd_f32 m (para_at ["temp"; "dev_temp_max"]).

(** The bytes to store, an error code, or ([None]) undefined behaviour. *)
Definition u_limits (d : rule_data) : option (Z * Z) := match d with u_range a b => Some (a, b) | _ => None end.
Definition check_u (dev : bool) (d : rule_data) (n : nat) (v : option Z) : option (list Z + Z) :=
  r ← u_limits d;
  Some match v with
       | None => inr UPP_ERR_DATA_ILLEGAL
       | Some v =>
           if ((snd r <? v) || (v <? fst r)) && negb dev then inr UPP_ERR_DATA_RANGE
           else inl (le_encode n v)
       end.
Definition check_f (item : cmd_item_t) (m : mem) (limit : bool) (d : rule_data) (v : option spec_float) : option (list Z + Z) :=
  match d with
  | f_range lo hi =>
      Some match v with
           | None => inr UPP_ERR_DATA_ILLEGAL
           | Some v =>
               let v := if is_need_conver_unit (cmd item) then convert_uint v (unit_of m) TEMP_UNIT_INTERNAL else v in
               if f_gt v hi || f_lt v lo then inr UPP_ERR_DATA_RANGE
               else if limit && is_need_limitRange (cmd item) && (f_gt v (dev_temp_max m) || f_lt v (dev_temp_min m))
               then inr UPP_ERR_DATA_RANGE
               else inl (le_encode 4 (f32_to_bits v))
           end
  | _ => None
  end.
Definition check_value (item : cmd_item_t) (m : mem) (data : list Z) (data_len : Z) : option (list Z + Z) :=
  let d := r_data (rule item) in
  let dev := develop m in
  let decimal (k : Z -> bool) (f : option (list Z + Z)) :=
    n ← is_dec_number data data_len; if k n then f else Some (inr UPP_ERR_DATA_ILLEGAL) in
  let int_only n := n =? 1 in let not_zero n := negb (n =? 0) in
  match r_type (rule item) with
  | FMT_U_8 => decimal int_only (v ← scan_u data; check_u dev d 1 v)
  | FMT_U_16 => decimal int_only (v ← scan_u data; check_u dev d 2 v)
  | FMT_U_32 => decimal int_only (v ← scan_u data; check_u dev d 4 v)
  | FMT_LLD =>
      decimal int_only (v ← scan_lld data;
        match d with
        | ll_range lo hi =>
            Some match v with
                 | None => inr UPP_ERR_DATA_ILLEGAL
                 | Some v => if (hi <? v) || (v <? lo) then inr UPP_ERR_DATA_RANGE else inl (le_encode 8 (u64 v))
                 end
        | _ => None
        end)
  | FMT_LF =>
      decimal not_zero (v ← scan_real f64_prec f64_emax data;
        match d with
        | lf_range lo hi =>
            Some match v with
                 | None => inr UPP_ERR_DATA_ILLEGAL
                 | Some v => if f_gt v hi || f_lt v lo then inr UPP_ERR_DATA_RANGE else inl (le_encode 8 (f64_to_bits v))
                 end
        | _ => None
        end)
  | FMT_F6 => decimal not_zero (v ← scan_real f32_prec f32_emax data; check_f item m false d v)
  | FMT_F => decimal not_zero (v ← scan_real f32_prec f32_emax data; check_f item m true d v)
  | FMT_S =>
      match d with
      | s_range chk =>
          s ← cstr data;
          ok ← (match chk with Some chk => chk data | None => Some true end);
          Some (if negb ok && negb dev then inr UPP_ERR_DATA_RANGE else inl (s ++ [0]))
      | _ => None
      end
  | FMT_X => v ← scan_x data; check_u false d 4 v
  | FMT_C =>
      v ← scan_c data;
      match d with
      | c_range str =>
          Some match v with
               | None => inr UPP_ERR_DATA_ILLEGAL
               | Some c => if negb (existsb (Z.eqb c) str) && negb dev then inr UPP_ERR_DATA_RANGE else inl [c]
               end
      | _ => None
      end
  end.
(** The size of the copy kept in [data_bkp]; strings are kept only when they
    are checked. *)
Definition bkp_size (item : cmd_item_t) (data : list Z) : option nat :=
  match r_type (rule item) with
  | FMT_U_8 | FMT_C => Some 1%nat
  | FMT_U_16 => Some 2%nat
  | FMT_U_32 | FMT_F6 | FMT_F | FMT_X => Some 4%nat
  | FMT_LLD | FMT_LF => Some 8%nat
  | FMT_S => s ← cstr data; Some (length s)
  end.
Definition keeps_backup (item : cmd_item_t) : bool :=
  match r_data (rule item) with s_range None => false | _ => true end.

(** [data_bkp] is a local array of [BURST_LIST_SIZE] zero bytes. *)
Definition cmd_data_chk (item : cmd_item_t) (p : parse_t) (m : mem) : option (parse_t * mem * list Z * nat * bool) :=
  let bkp := replicate BURST_LIST_SIZE 0 in
  if ((data_len p <? min_len (rule item)) || (max_len (rule item) <? data_len p)) && negb (develop m) then
    Some (set_err UPP_ERR_DATA_LEN p, m, bkp, O, false)
  else
    n ← bkp_size item (data p);
    bkp ← (if keeps_backup item then
             l ← load m (p_obj (arg item)) (p_off (arg item)) n;
             if (n <=? BURST_LIST_SIZE)%nat then Some (put 0 l bkp) else None
           else Some bkp);
    v ← check_value item m (data p) (data_len p);
    match v with
    | inr e => Some (set_err e p, m, bkp, n, false)
    | inl b => m ← store m (p_obj (arg item)) (p_off (arg item)) b; Some (p, m, bkp, n, true)
    end.

(** ** State, and the functions of other parts *)

(** What the call-backs call elsewhere: serial port and debug output, the
    analogue output, the calibration, timers, records, the burst task, and the
    parameter manager. *)
Inductive hook_t :=
| H_pc_init | H_dbg_set_level | H_dump_sys_para
| H_ana_threshold_range | H_anolog_out_init | H_get_current_calib_para | H_get_voltage_calib_para
| H_calibrate_temperature
| H_ostimer_set_period (interval : Z) | H_record_clear
| H_ostimer_open | H_ostimer_close | H_burst_set_tcp_enable | H_burst_clear_tcp_enable | H_burst_init
| H_pmm_save_group (group : nat).
(** A call works on the two global structures and on the rest of the system,
    and gives the C return value. *)
Class UppHooks (W : Type) := { hook : hook_t -> mem -> W -> option (mem * W * Z) }.

Section Upp.
Context {W : Type} `{!UppHooks W}.

(** [u_tcp]: the command came over the network ([g_cmd_src_group == tcp_group]). *)
Record upp := mk_upp {
  u_mem : mem; u_gain_sw : list gain_sw_data_t; u_rec_duration : list Z; u_put_port : Z; u_tcp : bool; u_world : W }.
Definition with_mem (m : mem) (s : upp) : upp := mk_upp m (u_gain_sw s) (u_rec_duration s) (u_put_port s) (u_tcp s) (u_world s).
Definition with_gain_sw g (s : upp) : upp := mk_upp (u_mem s) g (u_rec_duration s) (u_put_port s) (u_tcp s) (u_world s).
Definition with_duration d (s : upp) : upp := mk_upp (u_mem s) (u_gain_sw s) d (u_put_port s) (u_tcp s) (u_world s).
Definition with_put_port v (s : upp) : upp := mk_upp (u_mem s) (u_gain_sw s) (u_rec_duration s) v (u_tcp s) (u_world s).
Definition call (h : hook_t) (s : upp) : option (upp * Z) :=
  r ← hook h (u_mem s) (u_world s);
  let '(m, w, v) := r in Some (mk_upp m (u_gain_sw s) (u_rec_duration s) (u_put_port s) (u_tcp s) w, v).
Definition call_ (h : hook_t) (s : upp) : option upp := fst <$> call h s.
Definition poke (p : pointer) (v : Z) (s : upp) : upp := with_mem (wr v p (u_mem s)) s.

(** ** Call-backs after a set command (proto_char_cfg.c) *)

(** [is_valid_baudrate] of serial.c. *)
Definition is_valid_baudrate (baudrate : Z) : bool :=
  existsb (Z.eqb baudrate) [2400; 4800; 9600; 14400; 19200; 38400; 56000; 57600; 115200; 128000; 230400].

Definition baudrate_at : pointer := para_at ["port"; "baudrate"].
Definition set_baudrate (p : parse_t) (s : upp) : option (parse_t * upp * Z) :=
  let bad := negb (is_valid_baudrate (s32 (rd_u (u_mem s) baudrate_at))) in
  let s := if bad then poke baudrate_at 115200 s else s in
  s ← call_ H_pc_init s;
  Some (if bad then (set_err UPP_ERR_DATA_RANGE p, s, -1) else (p, s, 0)).

(** [CMD_SN] and [CMD_SW]: asks [gain_switch_process] to discard samples. *)
Definition set_gain_cmd (ch : nat) (s : upp) : option upp :=
  w ← u_gain_sw s !! ch;
  let gain := rd_u (u_mem s) (elt ch SYS_STATE ["now_gain"]) in
  let n := s32 (rd_u (u_mem s) (para_at ["gain"; "volt_discard"])) in
  let w := if gain =? 0 then mk_sw 1 (gl_to_gm w) (gm_to_gh w) n (gh_to_gm w)
           else if gain =? 1 then mk_sw 1 n (gm_to_gh w) (gm_to_gl w) (gh_to_gm w)
           else if gain =? 2 then mk_sw 1 (gl_to_gm w) n (gm_to_gl w) (gh_to_gm w)
           else mk_sw 1 (gl_to_gm w) (gm_to_gh w) (gm_to_gl w) (gh_to_gm w) in
  Some (with_gain_sw (<[ch := w]> (u_gain_sw s)) s).

Definition range_reversed (lo hi : pointer) (m : mem) : bool := f_gt (rd_f32 m lo) (rd_f32 m hi).
Definition video_request (v : Z) (s : upp) : upp :=
  poke (para_at ["video"; "ctl_val"]) v (poke (para_at ["video"; "ctl_state"]) 1 s).

(** The coefficients: the parser's code, negative codes becoming -1. *)
Definition load_coefs (p : parse_t) (s : upp) (r : option (list Z * mem * Z)) (all : bool) : option (parse_t * upp * Z) :=
  r ← r;
  let '(d, m, e) := r in
  Some (set_out (data_len p) d (data_out_en p) p, with_mem m s,
        if all then (if e =? 0 then 0 else -1) else if e <? 0 then -1 else e).

(** The [switch]: structure, state, [ret], and whether the function returns at once. *)
Definition set_switch (p : parse_t) (id : cmd_id_e) (s : upp) : option (parse_t * upp * Z * bool) :=
  let go (s : option upp) : option (parse_t * upp * Z * bool) := s ← s; Some (p, s, 0, false) in
  let sub (r : option (parse_t * upp * Z)) : option (parse_t * upp * Z * bool) := r ← r; Some (r, false) in
  let m := u_mem s in
  match id with
  | CMD_RS | CMD_PR => go (Some (poke (state_at ["sys_op"; "valid"]) 1 s))
  | CMD_BR => sub (set_baudrate p s)
  | CMD_DB => go (call_ H_dbg_set_level s)
  | CMD_DP =>
      let port := rd_u m (para_at ["port"; "dbg_port"]) in
      let s := with_put_port port s in
      if port mod 2 =? 1 then go (call_ H_dump_sys_para s) else go (Some s)
  | CMD_AT => go (Some (poke (state_at ["ana_temp_convert_flag"]) 1 s))
  | CMD_AM => go (call_ H_ana_threshold_range s)
  | CMD_AL | CMD_AH =>
      if range_reversed (para_at ["ana"; "lower"]) (para_at ["ana"; "upper"]) m then Some (p, s, -1, true)
      else go (call_ H_anolog_out_init s)
  | CMD_DL | CMD_DH =>
      if range_reversed (para_at ["temp"; "dev_temp_min"]) (para_at ["temp"; "dev_temp_max"]) m then Some (p, s, -1, true)
      else go (Some s)
  | CMD_IL | CMD_IH =>
      if negb (rd_u m (para_at ["ana"; "type"]) =? 53) then go (call_ H_get_current_calib_para s)
      else go (call_ H_get_voltage_calib_para s)
  | CMD_SN => go (set_gain_cmd 1 s)
  | CMD_SW => go (set_gain_cmd 0 s)
  | CMD_CA =>
      r ← call H_calibrate_temperature s;
      Some (if negb (snd r =? 0) then (set_err UPP_ERR_DATA_CRC p, fst r, -1, false) else (p, fst r, 0, false))
  | CMD_RI => go (call_ (H_ostimer_set_period (rd_u m (para_at ["record"; "interval"]))) s)
  | CMD_RQ => if rd_u m (state_at ["index_clear"]) =? 80295 then go (call_ H_record_clear s) else go (Some s)
  | CMD_RO =>
      let d := if rd_u m (state_at ["record_open"]) =? 0 then 2 ^ 32 - 1 else 0 in
      go (Some (with_duration (map (fun _ => d) (u_rec_duration s)) s))
  | CMD_V =>
      let mode := rd_u m (para_at ["burst"; "mode"]) in
      s ← (if mode =? 66 then call_ H_ostimer_open s else if mode =? 80 then call_ H_ostimer_close s else Some s);
      if u_tcp s && (op p =? UPP_OP_SET) then
        go (call_ (if mode =? 66 then H_burst_set_tcp_enable else H_burst_clear_tcp_enable) s)
      else go (Some s)
  | CMD_BS | CMD_BF => go (call_ H_burst_init s)
  | CMD_AP => sub (load_coefs p s (algo_load (data p) (data_len p) m) true)
  | CMD_NWA => sub (load_coefs p s (algo_network_para_load (data p) (data_len p) CMD_NWA m) false)
  | CMD_NWB => sub (load_coefs p s (algo_network_para_load (data p) (data_len p) CMD_NWB m) false)
  | CMD_NB => sub (load_coefs p s (algo_network_para_load (data p) (data_len p) CMD_NB m) false)
  | CMD_EM => go (Some (video_request 1 s))
  | CMD_EV => go (Some (video_request 2 s))
  | CMD_BN => go (Some (video_request 3 s))
  | CMD_BL => go (Some (video_request 4 s))
  | CMD_GN => go (Some (video_request 5 s))
  | _ => go (Some s)
  end.
Definition upp_set_callback (p : parse_t) (item : cmd_item_t) (s : upp) : option (parse_t * upp * Z) :=
  r ← set_switch p (cmd_id item) s;
  let '(p, s, ret, at_once) := r in
  if at_once : bool then Some (p, s, ret)
  else if (ret =? 0) && has prop_M (props item) && (group item <? PARA_TYPE_CNT)%nat then
    s ← call_ (H_pmm_save_group (group item)) s; Some (p, s, ret)
  else Some (p, s, ret).

(** The coefficients as reply text. *)
Definition query_coefs (p : parse_t) (s : upp) (r : option (option (list Z * Z))) : option (parse_t * upp * Z) :=
  r ← r;
  Some match r with
       | None => (p, s, -1)
       | Some (d, n) => (set_out (u16 n) d 1 p, s, 0)
       end.
Definition upp_get_callback (p : parse_t) (id : cmd_id_e) (s : upp) : option (parse_t * upp * Z) :=
  let m := u_mem s in
  match id with
  | CMD_AP => query_coefs p s (algo_get (data p) m)
  | CMD_NWA => query_coefs p s (algo_network_para_get (data p) CMD_NWA m)
  | CMD_NWB => query_coefs p s (algo_network_para_get (data p) CMD_NWB m)
  | CMD_NB => query_coefs p s (algo_network_para_get (data p) CMD_NB m)
  | CMD_EM => Some (p, video_request 6 s, 0)
  | CMD_EV => Some (p, video_request 7 s, 0)
  | CMD_BN => Some (p, video_request 8 s, 0)
  | CMD_BL => Some (p, video_request 9 s, 0)
  | CMD_GN => Some (p, video_request 10 s, 0)
  | _ => Some (p, s, 0)
  end.

(** ** Execution *)

Definition upp_execute_cmd (p : parse_t) (s : upp) : option (parse_t * upp * Z) :=
  i ← cmd_found CMD_TBL (cmd_word p) (cmd_word_len p);
  if s16 i =? -1 then Some (set_err UPP_ERR_NO_SUPPORT_CMD p, s, -1)
  else
    item ← CMD_TBL !! Z.to_nat i;
    let p := set_idx (Z.to_nat i) p in
    let is_set := op p =? UPP_OP_SET in
    let is_get := op p =? UPP_OP_GET in
    if (is_set && negb (has prop_S (props item))) || (is_get && negb (has prop_P (props item))) then
      Some (set_err UPP_ERR_OP_TYPE p, s, -1)
    else if has prop_L (props item) && is_set && negb (unlock (u_mem s)) then
      Some (set_err UPP_ERR_CMD_LOCKED p, s, -1)
    else if is_set then
      r ← cmd_data_chk item p (u_mem s);
      let '(p, m, bkp, n, ok) := r in
      let s := with_mem m s in
      if negb ok then Some (p, s, -1)
      else
        r ← upp_set_callback p item s;
        let '(p, s, ret) := r in
        if negb (ret =? 0) then
          (* memcpy back, from a local array of [BURST_LIST_SIZE] bytes *)
          if (n <=? BURST_LIST_SIZE)%nat then
            m ← store (u_mem s) (p_obj (arg item)) (p_off (arg item)) (take n bkp);
            Some (set_err UPP_ERR_DATA_ILLEGAL p, with_mem m s, -1)
          else None
        else Some (p, s, 0)
    else if is_get then
      r ← upp_get_callback p (cmd_id item) s;
      let '(p, s, ret) := r in Some (p, s, if negb (ret =? 0) then -1 else 0)
    else Some (p, s, 0).

(** ** Replies *)

(** The text of a value; strings go on to their terminator. *)
Definition data_to_string (bytes : list Z) (fmt : fmt_type_e) : option (list Z) :=
  let word (n : nat) := if (n <=? length bytes)%nat then Some (le_decode (take n bytes)) else None in
  match fmt with
  | FMT_U_32 => print_u <$> word 4%nat
  | FMT_U_16 => print_u <$> word 2%nat
  | FMT_U_8 => print_u <$> word 1%nat
  | FMT_LLD => (fun v => print_d (s64 v)) <$> word 8%nat
  | FMT_LF => (fun v => print_fixed 6 (f64_of_bits v)) <$> word 8%nat
  | FMT_F6 => (fun v => print_fixed 6 (f64_of_f32 (f32_of_bits v))) <$> word 4%nat
  | FMT_F => (fun v => print_fixed 2 (f64_of_f32 (f32_of_bits v))) <$> word 4%nat
  | FMT_S => cstr bytes
  | FMT_X => print_x <$> word 4%nat
  | FMT_C => c ← head bytes; Some [c]
  end.
(** The bytes at a pointer and behind it. *)
Definition from (p : pointer) (m : mem) : list Z := drop (p_off p) (image_of (p_obj p) m).
Definition reply_value (item : cmd_item_t) (p : parse_t) (m : mem) : option (list Z) :=
  let fmt := r_type (rule item) in
  if is_need_conver_unit (cmd item) then
    let temp := match fmt with
                | FMT_F | FMT_F6 => f32_of_bits (le_decode (take 4 (from (arg item) m)))
                | _ => f_zero
                end in
    data_to_string (le_encode 4 (f32_to_bits (convert_uint temp TEMP_UNIT_INTERNAL (unit_of m)))) fmt
  else if negb (data_out_en p =? 0) then cstr (data p)
  else data_to_string (from (arg item) m) fmt.
(** [sprintf]s one behind the other: their text, with the last terminator. *)
Definition upp_rsp_build_flk (p : parse_t) (m : mem) : option (list Z) :=
  item ← CMD_TBL !! cmd_idx p;
  if (op p =? UPP_OP_SET) && negb (has prop_N (props item)) then Some []
  else
    v ← reply_value item p m;
    let addr := if addr_mode p =? UPP_ADDR_MODE_MULTI
                then pad 3 (print_d (if multi_addr p =? BROADCAST_ADDR then dev_addr_of m else s32 (multi_addr p)))
                else [] in
    Some (addr ++ 33 :: cmd item ++ v ++ [13; 10]).

(** Writes a text at an index of the output buffer, if there is one. *)
Definition sput (t outbuf : list Z) (o : Z) : option (list Z) :=
  if (0 <=? o) && (o + zlen t + 1 <=? zlen outbuf) then Some (put (Z.to_nat o) (t ++ [0]) outbuf) else None.
Definition error_text (e : Z) : option (list Z) :=
  d ← ERR_INFO_TBL !! Z.to_nat e;
  Some (codes "ERROR: [" ++ pad 2 (print_d e) ++ codes "] - " ++ codes d ++ [13; 10]).
Definition upp_pkt_error (e : Z) (outbuf : list Z) (o outlen : Z) : option (list Z * Z) :=
  if e =? UPP_OK then Some (outbuf, outlen)
  else t ← error_text e; outbuf ← sput t outbuf o; Some (outbuf, outlen + zlen t).

Definition upp_cmd_handler (p : parse_t) (pkt : list Z) (s : upp) (outbuf : list Z) (o outlen : Z)
  : option (parse_t * upp * list Z * Z) :=
  r ← upp_parse_cmd (u_mem s) pkt p;
  let '(p, e) := r in
  if negb (e =? 0) then
    w ← upp_pkt_error (err p) outbuf o outlen; Some (p, s, fst w, snd w)
  else
    r ← upp_execute_cmd p s;
    let '(p, s, e) := r in
    if negb (e =? 0) then
      w ← upp_pkt_error (err p) outbuf o outlen; Some (p, s, fst w, snd w)
    else
      t ← upp_rsp_build_flk p (u_mem s);
      match t with
      | [] => Some (p, s, outbuf, outlen)
      | _ => outbuf ← sput t outbuf o; Some (p, s, outbuf, outlen + zlen t)
      end.

(** The loop over the packets of a buffer; like that of the binary protocol it
    moves [outbuf] by the sum of all reply lengths each time. *)
Fixpoint upp_loop (fuel : nat) (pkt : list Z) (inlen : Z) (s : upp) (outbuf : list Z) (o outlen : Z)
  : option (upp * list Z * Z) :=
  match fuel with
  | O => None
  | S fuel =>
      if inlen <=? 0 then Some (s, outbuf, outlen)
      else
        r ← check_packet pkt inlen parse_zero;
        let '(p, e) := r in
        if negb (e =? 0) then
          w ← upp_pkt_error (err p) outbuf o outlen; Some (s, fst w, snd w)
        else
          r ← upp_cmd_handler p pkt s outbuf o outlen;
          let '(p, s, outbuf, outlen) := r in
          upp_loop fuel (drop (Z.to_nat (cmd_len p)) pkt) (inlen - cmd_len p) s outbuf (o + outlen) outlen
  end.
Definition upp_pkt_process (inbuf : list Z) (inlen : Z) (s : upp) (outbuf : list Z) (o outlen : Z)
  : option (upp * list Z * Z) :=
  upp_loop (Z.to_nat inlen + 1) inbuf inlen s outbuf o outlen.
End Upp.
