(* ===== verification/UppProps.v ===== *)
(** * The character protocol: theorems

    Parsing of well-formed packets, facts about all rows of the command table,
    the data check of integers, the memory after a store and the reply: what
    UppRoundTrip.v composes.  The definitions are those of ProtoChar.v. *)
From Stdlib Require Import ZifyBool.
From S2P Require Import Prelude CFloat Str Generic Para Tiag Stdio Layout CmdTable ProtoCoef ProtoChar.
Open Scope string_scope.
Open Scope list_scope.
Open Scope Z_scope.

(** ** Scans *)
Lemma mem_search_first a x r : Forall (fun c => c <> x) a -> forall n, zlen a < n ->
  mem_search (a ++ x :: r) n x = Some (Some (zlen a)).
Proof.
  induction 1 as [|c a Hc Ha IH]; intros n Hn; cbn [app mem_search length] in *.
  - rewrite (proj2 (Z.eqb_neq n 0)) by lia. by rewrite Z.eqb_refl.
  - rewrite (proj2 (Z.eqb_neq n 0)), (proj2 (Z.eqb_neq c x)) by lia. rewrite IH by lia.
    cbn [mbind option_bind option_map]. do 2 f_equal. lia.
Qed.
Lemma scan_n_all (test : Z -> bool) a r : Forall (fun c => test c = true) a -> scan_n test (a ++ r) (zlen a) = Some true.
Proof.
  induction 1 as [|c a Hc Ha IH]; [by destruct r|]. cbn [app scan_n length]. rewrite (proj2 (Z.ltb_lt _ _)) by lia.
  rewrite Hc. by replace (Z.of_nat (S (length a)) - 1) with (zlen a) by lia.
Qed.
Lemma to_dec_n_app s r : forall n acc v, to_dec_n_loop s n acc = Some v -> to_dec_n_loop (s ++ r) n acc = Some v.
Proof.
  induction s as [|c s IH]; intros n acc v; cbn [to_dec_n_loop app].
  - destruct r; cbn [to_dec_n_loop]; destruct (0 <? n); done.
  - destruct (0 <? n); [|done]. destruct (is_digit c); [apply IH|done].
Qed.

(** ** Packets *)

(** The packet starts with the three digits of the device's address, or the
    device has address 0 and the packet no address. *)
Definition addressed (a : Z) (pre : list Z) : Prop :=
  (pre = [] /\ a = 0) \/ (pre = pad 3 (dec_digits a) /\ 0 <= a <= DEV_MAX_ADDR).
Definition mode_of (pre : list Z) : Z := match pre with [] => UPP_ADDR_MODE_SINGLE | _ => UPP_ADDR_MODE_MULTI end.
Definition is_word (w : list Z) : Prop := Forall (fun c => is_upper c = true) w /\ (1 <= length w <= 4)%nat.

Lemma address_text a : 0 <= a <= DEV_MAX_ADDR ->
  length (pad 3 (dec_digits a)) = 3%nat /\ Forall (fun c => is_digit c = true) (pad 3 (dec_digits a)) /\
  string_to_dec_n (pad 3 (dec_digits a)) 3 = Some (Ok a).
Proof.
  intros Ha. unfold DEV_MAX_ADDR in Ha.
  pose proof (all_below (fun a => (length (pad 3 (dec_digits a)) =? 3)%nat && forallb is_digit (pad 3 (dec_digits a)) &&
    match string_to_dec_n (pad 3 (dec_digits a)) 3 with Some (Ok v) => v =? a | _ => false end) 33 eq_refl a ltac:(lia)) as H.
  cbn beta in H. apply andb_true_iff in H as [[H1 H2]%andb_true_iff H3]. split; [lia|]. split.
  - apply Forall_forall. intros c Hc. apply list_elem_of_In in Hc. exact (proj1 (forallb_forall _ _) H2 c Hc).
  - destruct (string_to_dec_n _ 3) as [[v|]|]; [|done|done]. do 2 f_equal. lia.
Qed.
Lemma addressed_digits a pre : addressed a pre -> Forall (fun c => is_digit c = true) pre /\ (length pre <= 3)%nat /\ 0 <= a <= DEV_MAX_ADDR.
Proof.
  intros [[-> ->] | [-> Ha]]; [split; [constructor|cbn; unfold DEV_MAX_ADDR; lia]|].
  destruct (address_text a Ha) as (H1 & H2 & _). split; [done|]. lia.
Qed.

Lemma get_multi_addr_ok a pre c r p : addressed a pre -> is_digit c = false ->
  get_multi_addr a (pre ++ c :: r) p = Some (set_address (mode_of pre) a (zlen pre) p, 0).
Proof.
  intros Ha Hc. assert (Hfin : forall q, multi_addr q = a -> 0 <= a <= DEV_MAX_ADDR ->
    (if negb (multi_addr q =? a) && negb (multi_addr q =? BROADCAST_ADDR) then Some (set_err UPP_OK q, -1)
     else if (DEV_MAX_ADDR <? multi_addr q) && negb (multi_addr q =? BROADCAST_ADDR) then
       Some (set_err UPP_ERR_ADDR_OUT_RANGE q, -1) else Some (q, 0)) = Some (q, 0)).
  { intros q -> Hq. by rewrite Z.eqb_refl, (proj2 (Z.ltb_ge _ _)) by lia. }
  unfold get_multi_addr, is_pure_digit_n. destruct Ha as [[-> ->] | [-> Ha]].
  - cbn [app scan_n]. rewrite Hc. apply (Hfin (set_address UPP_ADDR_MODE_SINGLE 0 0 p)); [done|unfold DEV_MAX_ADDR; lia].
  - destruct (address_text a Ha) as (H1 & H2 & H3).
    pose proof (scan_n_all is_digit (pad 3 (dec_digits a)) (c :: r) H2) as Hs. rewrite H1 in Hs.
    change (Z.of_nat 3) with ADDR_LEN in Hs. change (ADDR_LEN <=? 0) with false. cbv iota. rewrite Hs. cbn [mbind option_bind negb].
    change (string_to_dec_n (pad 3 (dec_digits a) ++ c :: r) ADDR_LEN) with (to_dec_n_loop (pad 3 (dec_digits a) ++ c :: r) 3 0).
    rewrite (to_dec_n_app _ (c :: r) 3 0 (Ok a)) by exact H3. cbn [mbind option_bind].
    rewrite H1. assert (Hm : mode_of (pad 3 (dec_digits a)) = UPP_ADDR_MODE_MULTI) by (by destruct (pad 3 (dec_digits a))).
    rewrite Hm. by apply Hfin.
Qed.

Lemma check_packet_ok body c r n : Forall (fun x => x <> 13) body -> c <> 10 -> 2 <= zlen body < 60000 -> zlen body < n ->
  check_packet (body ++ 13 :: c :: r) n parse_zero = Some (set_cmd_len (zlen body + 1) 1 parse_zero, 0).
Proof.
  intros Hb Hc Hl Hn. unfold check_packet. rewrite (proj2 (Z.ltb_ge n 3)) by lia.
  rewrite mem_search_first by done. cbn [mbind option_bind].
  replace (body ++ 13 :: c :: r) with ((body ++ [13]) ++ c :: r) by by rewrite <- app_assoc.
  rewrite ld_mid by (rewrite zlen_app; cbn; lia). cbn [mbind option_bind]. rewrite (proj2 (Z.eqb_neq c 10)) by done.
  rewrite u16_small by lia. done.
Qed.

(** The structure after parsing a query and a set command. *)
Definition word_buffer (w : list Z) : list Z := w ++ replicate (5 - length w) 0.
Definition data_buffer (t : list Z) : list Z := t ++ replicate (DATA_SIZE - length t) 0.
Definition query_body (pre w : list Z) : list Z := pre ++ UPP_OP_GET :: w.
Definition set_body (pre w t : list Z) : list Z := pre ++ w ++ UPP_OP_SET :: t.
Definition parsed_get (a : Z) (pre w : list Z) : parse_t :=
  mk_parse (zlen (query_body pre w) + 1) (mode_of pre) (zlen pre + 1 + zlen w) (zlen w) 1 a UPP_OP_GET 0 (word_buffer w)
    0 0 (data_buffer []) 0.
Definition parsed_set (a : Z) (pre w t : list Z) : parse_t :=
  mk_parse (zlen (set_body pre w t) + 1) (mode_of pre) (zlen pre + zlen w + 1) (zlen w) 1 a UPP_OP_SET 0 (word_buffer w)
    0 (zlen t) (data_buffer t) 0.

Ltac pcbn := cbn [set_cmd_len set_address set_op set_word set_data set_out set_idx set_err
  cmd_len addr_mode ptr cmd_word_len delim_len multi_addr op cmd_idx cmd_word data_out_en data_len data err].
Ltac mcbn := cbn [mbind option_bind fst snd].

Lemma put_zero_buffer n w : (length w <= n)%nat -> put 0 w (replicate n 0) = w ++ replicate (n - length w) 0.
Proof. intros. unfold put. cbn [take app]. by rewrite Nat.add_0_l, drop_replicate. Qed.
Lemma check_uppercase_word w r : is_word w -> check_uppercase (w ++ r) (zlen w) = Some 0.
Proof. intros [Hw _]. unfold check_uppercase. by rewrite scan_n_all. Qed.
Lemma copy_word w r : is_word w -> mem_copy (replicate 5 0) 0 (w ++ r) (zlen w) = Some (word_buffer w, zlen w).
Proof.
  intros [_ Hw]. change 0 with (Z.of_nat 0) at 2. rewrite mem_copy_put by (rewrite ?length_app, ?length_replicate; lia).
  rewrite take_app_length, put_zero_buffer by lia. by rewrite Nat.add_0_l.
Qed.
Lemma copy_data t r : (length t <= DATA_SIZE)%nat -> mem_copy (replicate DATA_SIZE 0) 0 (t ++ r) (zlen t) = Some (data_buffer t, zlen t).
Proof.
  intros Ht. change 0 with (Z.of_nat 0) at 2. rewrite mem_copy_put by (rewrite ?length_app, ?length_replicate; lia).
  rewrite take_app_length, put_zero_buffer by lia. by rewrite Nat.add_0_l.
Qed.
Lemma upper_facts c : is_upper c = true -> c <> UPP_OP_GET /\ c <> UPP_OP_SET /\ c <> 13 /\ is_digit c = false /\ c <> 0.
Proof. unfold is_upper, UPP_OP_GET, UPP_OP_SET, is_digit. lia. Qed.
Lemma digit_facts c : is_digit c = true -> c <> UPP_OP_GET /\ c <> UPP_OP_SET /\ c <> 13 /\ c <> 0 /\ c <> 45 /\ c <> 46.
Proof. unfold UPP_OP_GET, UPP_OP_SET, is_digit. lia. Qed.

Lemma parse_query a pre w r : addressed a pre -> is_word w ->
  parse_cmd_flk (query_body pre w ++ 13 :: r)
    (set_address (mode_of pre) a (zlen pre) (set_cmd_len (zlen (query_body pre w) + 1) 1 parse_zero))
  = Some (parsed_get a pre w, 0).
Proof.
  intros Ha Hw. destruct (addressed_digits a pre Ha) as (_ & Hpre & _). pose proof (proj2 Hw) as Hwl.
  assert (E : query_body pre w ++ 13 :: r = pre ++ UPP_OP_GET :: w ++ 13 :: r) by (unfold query_body; by rewrite <- app_assoc).
  assert (E2 : drop (Z.to_nat (zlen pre + 1)) (query_body pre w ++ 13 :: r) = w ++ 13 :: r).
  { rewrite E. replace (Z.to_nat (zlen pre + 1)) with (length (pre ++ [UPP_OP_GET])) by (rewrite length_app; cbn; lia).
    replace (pre ++ UPP_OP_GET :: w ++ 13 :: r) with ((pre ++ [UPP_OP_GET]) ++ w ++ 13 :: r) by by rewrite <- app_assoc.
    by rewrite drop_app_length. }
  assert (El : zlen (query_body pre w) = zlen pre + 1 + zlen w) by (unfold query_body; rewrite length_app; cbn; lia).
  unfold parse_cmd_flk, parse_operator. pcbn.
  rewrite E at 1. rewrite ld_mid by done. mcbn. rewrite Z.eqb_refl. pcbn.
  replace (u8 _) with (zlen w) by (rewrite u8_small; lia).
  replace ((zlen w <? 1) || (4 <? zlen w)) with false by lia. mcbn. cbn [Z.eqb negb]. pcbn. rewrite E2.
  rewrite check_uppercase_word by done. mcbn. cbn [Z.eqb negb].
  change (cmd_word parse_zero) with (replicate 5 0). rewrite copy_word by done. mcbn. reflexivity.
Qed.

Lemma parse_set a pre w t r : addressed a pre -> is_word w -> Forall (fun c => c <> 13) t -> (1 <= length t <= DATA_SIZE)%nat ->
  parse_cmd_flk (set_body pre w t ++ 13 :: r)
    (set_address (mode_of pre) a (zlen pre) (set_cmd_len (zlen (set_body pre w t) + 1) 1 parse_zero))
  = Some (parsed_set a pre w t, 0).
Proof.
  intros Ha Hw Ht Htl. destruct (addressed_digits a pre Ha) as (Hpd & Hpre & _). pose proof Hw as [Hwu Hwl].
  set (tail := t ++ 13 :: r).
  assert (E : set_body pre w t ++ 13 :: r = (pre ++ w) ++ UPP_OP_SET :: tail) by (unfold set_body, tail; by rewrite <- !app_assoc).
  assert (El : zlen (set_body pre w t) = zlen pre + zlen w + 1 + zlen t) by (unfold set_body; rewrite !length_app; cbn; lia).
  assert (Hn : Forall (fun c => c <> UPP_OP_SET) (pre ++ w)).
  { apply Forall_app_2; eapply Forall_impl; try eassumption; intros c Hc; [apply digit_facts in Hc|apply upper_facts in Hc]; tauto. }
  assert (Ed : drop (Z.to_nat (zlen pre)) (set_body pre w t ++ 13 :: r) = w ++ UPP_OP_SET :: tail).
  { rewrite E, <- app_assoc, Nat2Z.id. by rewrite drop_app_length. }
  assert (Ed2 : drop (Z.to_nat (zlen pre + zlen w + 1)) (set_body pre w t ++ 13 :: r) = tail).
  { rewrite E. replace (Z.to_nat (zlen pre + zlen w + 1)) with (length ((pre ++ w) ++ [UPP_OP_SET])) by (rewrite !length_app; cbn; lia).
    replace ((pre ++ w) ++ UPP_OP_SET :: tail) with (((pre ++ w) ++ [UPP_OP_SET]) ++ tail) by by rewrite <- app_assoc.
    by rewrite drop_app_length. }
  unfold parse_cmd_flk, parse_operator. pcbn.
  destruct w as [|c0 w0] eqn:Ew; [cbn in Hwl; lia|]. inversion Hwu as [|? ? Hc0 _].
  assert (Hld : ld (set_body pre (c0 :: w0) t ++ 13 :: r) (zlen pre) = Some c0).
  { rewrite E, <- app_assoc. cbn [app]. by rewrite ld_mid. }
  rewrite Hld. mcbn. rewrite (proj2 (Z.eqb_neq c0 _)) by (by apply upper_facts). rewrite <- Ew in *. clear Ew.
  rewrite E, mem_search_first by (done || rewrite length_app; lia). rewrite <- E. mcbn. pcbn.
  replace (u8 _) with (zlen w) by (rewrite u8_small; rewrite ?length_app; lia).
  replace ((zlen w <? 1) || (4 <? zlen w)) with false by lia. mcbn. cbn [Z.eqb negb]. pcbn. rewrite Ed.
  rewrite check_uppercase_word by done. mcbn. cbn [Z.eqb negb].
  change (cmd_word parse_zero) with (replicate 5 0). rewrite copy_word by done. mcbn. pcbn.
  rewrite Z.eqb_refl. replace (_ <=? 1) with false by lia.
  replace (u16 _) with (zlen t) by (rewrite u16_small; unfold DATA_SIZE in *; lia).
  rewrite Ed2. change (data parse_zero) with (replicate DATA_SIZE 0). unfold tail. rewrite copy_data by lia. reflexivity.
Qed.

Lemma upp_parse_query m pre w r : addressed (dev_addr_of m) pre -> is_word w ->
  upp_parse_cmd m (query_body pre w ++ 13 :: r) (set_cmd_len (zlen (query_body pre w) + 1) 1 parse_zero)
  = Some (parsed_get (dev_addr_of m) pre w, 0).
Proof.
  intros Ha Hw. unfold upp_parse_cmd.
  assert (E : query_body pre w ++ 13 :: r = pre ++ UPP_OP_GET :: w ++ 13 :: r) by (unfold query_body; by rewrite <- app_assoc).
  rewrite E, get_multi_addr_ok by (exact Ha || reflexivity). mcbn. cbn [Z.eqb negb]. rewrite <- E. by apply parse_query.
Qed.
Lemma upp_parse_set m pre w t r : addressed (dev_addr_of m) pre -> is_word w -> Forall (fun c => c <> 13) t ->
  (1 <= length t <= DATA_SIZE)%nat ->
  upp_parse_cmd m (set_body pre w t ++ 13 :: r) (set_cmd_len (zlen (set_body pre w t) + 1) 1 parse_zero)
  = Some (parsed_set (dev_addr_of m) pre w t, 0).
Proof.
  intros Ha Hw Ht Hl. unfold upp_parse_cmd. pose proof Hw as [Hu Hwl].
  destruct w as [|c0 w0] eqn:Ew; [cbn in Hwl; lia|]. inversion Hu as [|? ? Hc0 _].
  assert (E : set_body pre (c0 :: w0) t ++ 13 :: r = pre ++ c0 :: w0 ++ UPP_OP_SET :: t ++ 13 :: r)
    by (unfold set_body; by rewrite <- !app_assoc).
  rewrite E, get_multi_addr_ok by (exact Ha || by apply upper_facts). mcbn. cbn [Z.eqb negb]. rewrite <- E, <- Ew in *.
  by apply parse_set.
Qed.

(** ** Facts about all rows *)
Definition int_width (f : fmt_type_e) : option nat :=
  match f with FMT_U_8 => Some 1%nat | FMT_U_16 => Some 2%nat | FMT_U_32 => Some 4%nat | _ => None end.
Definition row_check (it : cmd_item_t) : bool :=
  forallb is_upper (cmd it) && (1 <=? length (cmd it))%nat && (length (cmd it) <=? 4)%nat &&
  (negb (settable it) || has prop_N (props it)) &&
  (p_off (arg it) + Nat.max (sizeof (p_type (arg it))) 4 <=? obj_size (p_obj (arg it)))%nat &&
  (group it <? PARA_TYPE_CNT)%nat &&
  match int_width (r_type (rule it)), r_data (rule it) with
  | Some k, u_range lo hi =>
      (0 <=? lo) && (hi <? 256 ^ Z.of_nat k) && (max_len (rule it) <=? 40) && negb (is_need_conver_unit (cmd it)) &&
      match p_obj (arg it) with
      | SYS_PARA => (4 <=? p_off (arg it))%nat && (p_off (arg it) + k <=? CRC_OFF)%nat &&
                    (bool_decide (cmd it = codes "DA") || (5 <=? p_off (arg it))%nat)
      | SYS_STATE => true
      end
  | Some _, _ => false
  | None, _ => true
  end.
Lemma rows_checked i it : CMD_TBL !! i = Some it -> row_check it = true.
Proof.
  assert (H : forallb row_check CMD_TBL = true) by (vm_compute; reflexivity).
  intros Hi. apply list_elem_of_lookup_2, list_elem_of_In in Hi. exact (proj1 (forallb_forall _ _) H it Hi).
Qed.
Lemma row_facts i it : CMD_TBL !! i = Some it ->
  is_word (cmd it) /\ (settable it = true -> has prop_N (props it) = true) /\
  (p_off (arg it) + 4 <= obj_size (p_obj (arg it)))%nat /\ (group it < PARA_TYPE_CNT)%nat /\ (i < 134)%nat.
Proof.
  intros Hi. pose proof (rows_checked i it Hi) as H. unfold row_check in H.
  apply andb_true_iff in H as [[[[[[H1 H2]%andb_true_iff H3]%andb_true_iff H4]%andb_true_iff H5]%andb_true_iff H6]%andb_true_iff _].
  apply lookup_lt_Some in Hi. change (length CMD_TBL) with 134%nat in Hi.
  split; [split; [|lia]|split; [|split; [|split; [|done]]]].
  - apply Forall_forall. intros c Hc. apply list_elem_of_In in Hc. exact (proj1 (forallb_forall _ _) H1 c Hc).
  - intros Hs. by rewrite Hs in H4.
  - apply Nat.leb_le in H5. lia.
  - by apply Nat.ltb_lt in H6.
Qed.
(** The rows of integer commands. *)
Record int_row (it : cmd_item_t) (k : nat) (lo hi : Z) : Prop := mk_int_row {
  ir_type : int_width (r_type (rule it)) = Some k; ir_data : r_data (rule it) = u_range lo hi }.
Lemma int_row_facts i it k lo hi : CMD_TBL !! i = Some it -> int_row it k lo hi ->
  0 <= lo /\ hi < 256 ^ Z.of_nat k /\ max_len (rule it) <= 40 /\ is_need_conver_unit (cmd it) = false /\ (k <= 4)%nat /\
  (p_obj (arg it) = SYS_PARA -> (4 <= p_off (arg it) /\ p_off (arg it) + k <= CRC_OFF)%nat /\
     (cmd it <> codes "DA" -> (5 <= p_off (arg it))%nat)).
Proof.
  intros Hi [Ht Hd]. pose proof (rows_checked i it Hi) as H. unfold row_check in H. rewrite Ht, Hd in H.
  apply andb_true_iff in H as [_ H]. apply andb_true_iff in H as [[[[H1 H2]%andb_true_iff H2']%andb_true_iff H3]%andb_true_iff H4].
  split; [lia|]. split; [lia|]. split; [lia|]. split; [by apply negb_true_iff|]. split.
  { unfold int_width in Ht. destruct (r_type (rule it)); simplify_eq; lia. }
  intros Ho. rewrite Ho in H4. apply andb_true_iff in H4 as [[H4 H5]%andb_true_iff H6]. apply Nat.leb_le in H4, H5.
  split; [done|]. intros Hda. rewrite bool_decide_eq_false_2 in H6 by done. by apply Nat.leb_le in H6.
Qed.

(** ** Commands without a call-back of their own *)
Definition plain_cmd (id : cmd_id_e) : bool :=
  match id with
  | CMD_RS | CMD_PR | CMD_BR | CMD_DB | CMD_DP | CMD_AT | CMD_AM | CMD_AL | CMD_AH | CMD_DL | CMD_DH | CMD_IL | CMD_IH
  | CMD_SN | CMD_SW | CMD_CA | CMD_RI | CMD_RQ | CMD_RO | CMD_V | CMD_BS | CMD_BF | CMD_AP | CMD_NWA | CMD_NWB | CMD_NB
  | CMD_EM | CMD_EV | CMD_BN | CMD_BL | CMD_GN => false
  | _ => true
  end.

(** The bytes of the parameters outside of the magic word and the checksums. *)
Lemma groups_cover j : (4 <= j < CRC_OFF)%nat -> exists g, (g < PARA_TYPE_CNT /\ off_of g <= j < off_of g + size_of g)%nat.
Proof.
  assert (H : forallb (fun j => existsb (fun g => (off_of g <=? j)%nat && (j <? off_of g + size_of g)%nat) (seq 0 PARA_TYPE_CNT))
    (seq 4 (CRC_OFF - 4)) = true) by (vm_compute; reflexivity).
  intros Hj. rewrite forallb_forall in H. specialize (H j). rewrite in_seq, existsb_exists in H.
  destruct H as (g & Hg & Hc); [lia|]. apply in_seq in Hg. apply andb_true_iff in Hc as [H1%Nat.leb_le H2%Nat.ltb_lt].
  exists g. lia.
Qed.
Lemma same_groups_bytes a b j : same_groups a b -> (4 <= j < CRC_OFF)%nat -> a !! j = b !! j.
Proof.
  intros Hs Hj. destruct (groups_cover j Hj) as (g & Hg & Hj2). specialize (Hs g Hg). unfold Para.group in Hs.
  apply (f_equal (lookup (j - off_of g)%nat)) in Hs. rewrite !get_lookup in Hs by lia.
  by replace (off_of g + (j - off_of g))%nat with j in Hs by lia.
Qed.

(** What the client needs of the parameter manager: saving a group succeeds and
    changes at most the magic word and the checksums of [sys_para]. *)
Class UppHooksOk (W : Type) `{!UppHooks W} := {
  hooks_good : W -> Prop;
  save_group_ok m w t : wf_mem m -> hooks_good w -> (t < PARA_TYPE_CNT)%nat ->
    exists m' w' v, hook (H_pmm_save_group t) m w = Some (m', w', v) /\ hooks_good w' /\ wf_mem m' /\
      m_state m' = m_state m /\ same_groups (m_para m') (m_para m) }.

(** [m'] differs from [m] only in the magic word, the checksums and the bytes
    at [off] of [o]. *)
Definition only_at (o : obj) (off n : nat) (m m' : mem) : Prop :=
  (forall j, (4 <= j < CRC_OFF)%nat -> o <> SYS_PARA \/ (j < off \/ off + n <= j)%nat -> m_para m' !! j = m_para m !! j) /\
  (forall j, o <> SYS_STATE \/ (j < off \/ off + n <= j)%nat -> m_state m' !! j = m_state m !! j).

Section Client.
Context {W : Type} `{!UppHooks W} `{!UppHooksOk W}.
Definition ready (s : @upp W) : Prop := wf_mem (u_mem s) /\ hooks_good (u_world s).
(** Equality of everything but memory and world. *)
Definition same_rest (s s' : @upp W) : Prop :=
  u_gain_sw s' = u_gain_sw s /\ u_rec_duration s' = u_rec_duration s /\ u_put_port s' = u_put_port s /\ u_tcp s' = u_tcp s.

Lemma set_switch_plain p id (s : @upp W) : plain_cmd id = true -> set_switch p id s = Some (p, s, 0, false).
Proof. by destruct id. Qed.
Lemma get_callback_plain p id (s : @upp W) : plain_cmd id = true -> upp_get_callback p id s = Some (p, s, 0).
Proof. by destruct id. Qed.

Lemma set_callback_plain p it (s : @upp W) : plain_cmd (cmd_id it) = true -> (group it < PARA_TYPE_CNT)%nat -> ready s ->
  exists s', upp_set_callback p it s = Some (p, s', 0) /\ ready s' /\ same_rest s s' /\
    m_state (u_mem s') = m_state (u_mem s) /\ same_groups (m_para (u_mem s')) (m_para (u_mem s)) /\
    (has prop_M (props it) = true ->
       exists v, hook (H_pmm_save_group (group it)) (u_mem s) (u_world s) = Some (u_mem s', u_world s', v)).
Proof.
  intros Hp Hg [Hm Hw]. unfold upp_set_callback. rewrite set_switch_plain by done. cbn [mbind option_bind].
  rewrite Z.eqb_refl, (proj2 (Nat.ltb_lt _ _) Hg), andb_true_r. cbn [andb].
  destruct (has prop_M (props it)).
  - destruct (save_group_ok (u_mem s) (u_world s) (group it) Hm Hw Hg) as (m' & w' & v & E & Hw' & Hm' & Hs' & Hg').
    unfold call_, call. rewrite E. cbn [mbind option_bind fmap option_fmap option_map fst]. eexists. split; [reflexivity|].
    cbn. split; [done|]. split; [done|]. split; [done|]. split; [done|]. intros _. by exists v.
  - exists s. split; [done|]. split; [done|]. split; [done|]. split; [done|]. by split.
Qed.
End Client.

Lemma digit_text_facts v : 0 <= v < 2 ^ 32 ->
  dec_digits v <> [] /\ head (dec_digits v) <> Some 45 /\ Forall (fun c => is_digit c = true) (dec_digits v) /\
  dec_value (dec_digits v) = v.
Proof.
  intros Hv. destruct (dec_digits_cons v ltac:(lia)) as (c & t & E & Hc). pose proof (dec_digits_digit v ltac:(lia)) as Hd.
  split; [by rewrite E|]. split; [rewrite E; intros [= ->]; done|]. split; [done|]. apply dec_digits_value. lia.
Qed.
Lemma data_buffer_text t : (length t < DATA_SIZE)%nat -> exists r, data_buffer t = t ++ 0 :: r.
Proof.
  intros H. unfold data_buffer. destruct (DATA_SIZE - length t)%nat as [|n] eqn:E; [lia|]. by exists (replicate n 0).
Qed.

(** A number in range passes the check and is stored. *)
Lemma check_int i it k lo hi v p m : CMD_TBL !! i = Some it -> int_row it k lo hi -> lo <= v <= hi -> wf_mem m ->
  data p = data_buffer (dec_digits v) -> data_len p = zlen (dec_digits v) ->
  min_len (rule it) <= zlen (dec_digits v) <= max_len (rule it) ->
  exists m' bkp, cmd_data_chk it p m = Some (p, m', bkp, k, true) /\
    store m (p_obj (arg it)) (p_off (arg it)) (le_encode k v) = Some m'.
Proof.
  intros Hi Hk Hv (Hm1 & Hm2 & _) Hd Hl Hlen. destruct (int_row_facts i it k lo hi Hi Hk) as (H1 & H2 & H3 & _ & Hk4 & _).
  destruct (row_facts i it Hi) as (_ & _ & Hobj & _). destruct Hk as [Ht Hr]. clear Hi.
  assert (Hv32 : 0 <= v < 2 ^ 32).
  { split; [lia|]. apply (Z.lt_le_trans _ (256 ^ Z.of_nat k)); [lia|]. change (2 ^ 32) with (256 ^ 4).
    apply Z.pow_le_mono_r; lia. }
  destruct (digit_text_facts v Hv32) as (Hne & Hhd & Hdig & Hval).
  assert (Hsz : length (image_of (p_obj (arg it)) m) = obj_size (p_obj (arg it))) by by destruct (p_obj (arg it)).
  destruct (data_buffer_text (dec_digits v)) as [r Hbuf]; [unfold DATA_SIZE; lia|].
  unfold cmd_data_chk. rewrite Hl. replace (_ || _) with false by lia. cbn [andb].
  assert (Hsize : bkp_size it (data p) = Some k).
  { unfold bkp_size. unfold int_width in Ht. destruct (r_type (rule it)); first [discriminate Ht | by injection Ht as <-]. }
  rewrite Hsize. mcbn. unfold keeps_backup. rewrite Hr. unfold load.
  rewrite (proj2 (Nat.leb_le (p_off _ + _) _)), (proj2 (Nat.leb_le k _)) by (unfold BURST_LIST_SIZE; lia). mcbn.
  assert (Hchk : check_value it m (data p) (zlen (dec_digits v)) = Some (inl (le_encode k v))).
  { unfold check_value. rewrite Hd, Hbuf, Hr. unfold int_width in Ht.
    rewrite (proj2 (is_dec_number_token (dec_digits v) (0 :: r) Hne Hhd) Hdig), scan_u_digits
      by first [exact Hdig | exact Hne | lia].
    unfold check_u. cbn [u_limits mbind option_bind fst snd]. rewrite Hval. replace (_ || _) with false by lia. cbn [andb].
    destruct (r_type (rule it)); first [discriminate Ht | by injection Ht as <-]. }
  rewrite Hchk. mcbn.
  assert (Hst : exists m', store m (p_obj (arg it)) (p_off (arg it)) (le_encode k v) = Some m').
  { unfold store. rewrite le_encode_length, (proj2 (Nat.leb_le _ _)) by lia. by eexists. }
  destruct Hst as [m' Hst]. exists m'. rewrite Hst. mcbn. eexists. split; reflexivity.
Qed.

(** ** Memory after a store *)
Lemma store_wf m o off d m' : wf_mem m -> bytes d -> store m o off d = Some m' -> wf_mem m'.
Proof.
  intros (H1 & H2 & H3 & H4) Hd Hs. pose proof (store_length _ _ _ _ _ SYS_PARA Hs) as E1.
  pose proof (store_length _ _ _ _ _ SYS_STATE Hs) as E2. cbn [image_of] in E1, E2.
  split; [by rewrite E1|]. split; [by rewrite E2|]. unfold store in Hs. case_match; [|discriminate Hs].
  injection Hs as <-. destruct o; cbn [set_image m_para m_state image_of]; split; first [assumption | by apply put_Forall].
Qed.
Lemma store_only m o off d m' n : length d = n -> store m o off d = Some m' -> only_at o off n m m'.
Proof.
  intros <- Hs. split; intros j; intros; [apply (store_out _ _ _ _ _ SYS_PARA j Hs)|apply (store_out _ _ _ _ _ SYS_STATE j Hs)];
    destruct o; (left; discriminate) || (right; naive_solver).
Qed.
Lemma only_at_same o off n m m' m'' : only_at o off n m m' -> m_state m'' = m_state m' ->
  same_groups (m_para m'') (m_para m') -> only_at o off n m m''.
Proof.
  intros [H1 H2] Hs Hg. split; intros j.
  - intros Hj Ho. rewrite <- H1 by done. by apply same_groups_bytes.
  - intros Ho. rewrite Hs. by apply H2.
Qed.
(** The member keeps its value while the parameters are saved. *)
Lemma member_kept o off n m m' : m_state m' = m_state m -> same_groups (m_para m') (m_para m) ->
  (o = SYS_PARA -> (4 <= off /\ off + n <= CRC_OFF)%nat) -> get off n (image_of o m') = get off n (image_of o m).
Proof.
  intros Hs Hg Ho. destruct o; cbn [image_of]; [|by rewrite Hs]. apply get_ext. intros j Hj.
  apply same_groups_bytes; [done|]. specialize (Ho eq_refl). lia.
Qed.
Lemma dev_addr_eq m : dev_addr_of m = le_decode (get 4 1 (m_para m)).
Proof. reflexivity. Qed.
Lemma dev_addr_same m m' o off n : only_at o off n m m' -> (o = SYS_PARA -> (5 <= off)%nat) -> dev_addr_of m' = dev_addr_of m.
Proof.
  intros [H1 _] Ho. rewrite !dev_addr_eq. f_equal. apply get_ext. intros j Hj. apply H1.
  - unfold CRC_OFF. lia.
  - destruct o; [right; specialize (Ho eq_refl); lia|left; discriminate].
Qed.

(** ** The reply *)
Definition reply (pre : list Z) (it : cmd_item_t) (t : list Z) : list Z := pre ++ 33 :: cmd it ++ t ++ [13; 10].

Lemma reply_address m pre : addressed (dev_addr_of m) pre ->
  (if mode_of pre =? UPP_ADDR_MODE_MULTI
   then pad 3 (print_d (if dev_addr_of m =? BROADCAST_ADDR then dev_addr_of m else s32 (dev_addr_of m)))
   else []) = pre.
Proof.
  intros [[-> _] | [-> Ha]]; [done|]. set (a := dev_addr_of m) in *. clearbody a.
  destruct (address_text a Ha) as (Hl & _).
  assert (Hm : mode_of (pad 3 (dec_digits a)) = UPP_ADDR_MODE_MULTI) by by destruct (pad 3 (dec_digits a)).
  rewrite Hm, Z.eqb_refl. unfold DEV_MAX_ADDR in Ha. replace (if a =? BROADCAST_ADDR then a else s32 a) with a.
  - unfold print_d. by rewrite (proj2 (Z.ltb_ge _ _)) by lia.
  - destruct (a =? BROADCAST_ADDR); [done|]. symmetry. apply s32_small. lia.
Qed.
Lemma reply_int it k lo hi v p m : int_row it k lo hi -> is_need_conver_unit (cmd it) = false -> data_out_en p = 0 ->
  (p_off (arg it) + k <= length (image_of (p_obj (arg it)) m))%nat -> 0 <= v < 256 ^ Z.of_nat k ->
  get (p_off (arg it)) k (image_of (p_obj (arg it)) m) = le_encode k v ->
  reply_value it p m = Some (dec_digits v).
Proof.
  intros [Ht _] Hc Hd Hl Hv Hg. unfold reply_value. rewrite Hc, Hd. cbn [Z.eqb negb]. unfold data_to_string, from.
  unfold get in Hg. assert (Hk : (k <= length (drop (p_off (arg it)) (image_of (p_obj (arg it)) m)))%nat) by (rewrite length_drop; lia).
  unfold int_width in Ht. destruct (r_type (rule it)); first [discriminate Ht | injection Ht as <-];
    rewrite (proj2 (Nat.leb_le _ _) Hk), Hg, le_decode_encode by done; reflexivity.
Qed.
Lemma rsp_build i it k lo hi v p m pre : CMD_TBL !! i = Some it -> int_row it k lo hi -> cmd_idx p = i ->
  addressed (dev_addr_of m) pre -> addr_mode p = mode_of pre -> multi_addr p = dev_addr_of m -> data_out_en p = 0 ->
  (op p = UPP_OP_SET -> settable it = true) -> wf_mem m -> 0 <= v < 256 ^ Z.of_nat k ->
  get (p_off (arg it)) k (image_of (p_obj (arg it)) m) = le_encode k v ->
  upp_rsp_build_flk p m = Some (reply pre it (dec_digits v)).
Proof.
  intros Hi Hk Hx Ha Hm1 Hm2 Hd Hs (Hw1 & Hw2 & _) Hv Hg.
  destruct (int_row_facts i it k lo hi Hi Hk) as (_ & _ & _ & H3 & Hk4 & _).
  destruct (row_facts i it Hi) as (_ & Hn & Hobj & _).
  assert (Hsz : length (image_of (p_obj (arg it)) m) = obj_size (p_obj (arg it))) by (destruct (p_obj (arg it)); [exact Hw1|exact Hw2]).
  unfold upp_rsp_build_flk. rewrite Hx, Hi. mcbn. clear Hi.
  assert (Hno : (op p =? UPP_OP_SET) && negb (has prop_N (props it)) = false).
  { destruct (Z.eqb_spec (op p) UPP_OP_SET) as [E|]; [|reflexivity]. by rewrite (Hn (Hs E)). }
  rewrite Hno, (reply_int it k lo hi v p m) by (assumption || lia). mcbn.
  by rewrite Hm1, Hm2, reply_address.
Qed.
