(* ===== verification/UppRoundTrip.v ===== *)
(** * The character protocol and the stored parameters

    A set command of an integer parameter followed by its query, and what is
    left of the set command after a restart: the packet loop of ProtoChar.v,
    against the interface [UppHooksOk] and with the parameter manager of Para.v
    behind it. *)
From Stdlib Require Import ZifyBool.
From S2P Require Import Prelude CFloat Str Generic Fmc Para ParaStore Tiag Stdio Layout CmdTable ProtoCoef ProtoChar UppProps.
Open Scope string_scope.
Open Scope list_scope.
Open Scope Z_scope.

Section RoundTrip.
Context {W : Type} `{!UppHooks W} `{!UppHooksOk W}.
Implicit Types s : @upp W.

Definition holds (it : cmd_item_t) (k : nat) (v : Z) (m : mem) : Prop :=
  get (p_off (arg it)) k (image_of (p_obj (arg it)) m) = le_encode k v.
(** The command may be set: it has property S, and L only when unlocked. *)
Definition may_set (it : cmd_item_t) (m : mem) : bool := settable it && negb (has prop_L (props it) && negb (unlock m)).

Lemma found_word i it : CMD_TBL !! i = Some it ->
  cmd_found CMD_TBL (word_buffer (cmd it)) (zlen (cmd it)) = Some (Z.of_nat i).
Proof.
  intros Hi. destruct (row_facts i it Hi) as ([_ Hl] & _). apply (cmd_found_row i it); [done|..]; unfold word_buffer.
  - rewrite zlen_app. lia.
  - by rewrite Nat2Z.id, take_app_length.
Qed.
Lemma row_index i it : CMD_TBL !! i = Some it -> (s16 (Z.of_nat i) =? -1) = false.
Proof. 
  intros Hi. destruct (row_facts i it Hi) as (_ & _ & _ & _ & H). clear Hi.
  apply negb_true_iff. exact (all_below (fun i => negb (s16 i =? -1)) 134 eq_refl (Z.of_nat i) ltac:(lia)).
Qed.

(** An accepted set command. *)
Lemma execute_set i it k lo hi v p s : CMD_TBL !! i = Some it -> int_row it k lo hi -> plain_cmd (cmd_id it) = true ->
  may_set it (u_mem s) = true -> lo <= v <= hi -> min_len (rule it) <= zlen (dec_digits v) <= max_len (rule it) ->
  cmd_word p = word_buffer (cmd it) -> cmd_word_len p = zlen (cmd it) -> op p = UPP_OP_SET ->
  data p = data_buffer (dec_digits v) -> data_len p = zlen (dec_digits v) -> ready s ->
  exists s', upp_execute_cmd p s = Some (set_idx i p, s', 0) /\ ready s' /\ same_rest s s' /\
    holds it k v (u_mem s') /\ only_at (p_obj (arg it)) (p_off (arg it)) k (u_mem s) (u_mem s') /\
    (has prop_M (props it) = true -> exists m1 v, same_groups (m_para (u_mem s')) (m_para m1) /\ wf_mem m1 /\
       hook (H_pmm_save_group (group it)) m1 (u_world s) = Some (u_mem s', u_world s', v)).
Proof.
  intros Hi Hk Hpl Hset Hv Hlen Hw1 Hw2 Hop Hd1 Hd2 Hr. unfold may_set in Hset. apply andb_true_iff in Hset as [Hs HL].
  apply negb_true_iff in HL.
  destruct (int_row_facts i it k lo hi Hi Hk) as (H1 & H2 & _ & _ & Hk4 & Hin). destruct (row_facts i it Hi) as (_ & _ & _ & Hg & _).
  unfold upp_execute_cmd. rewrite Hw1, Hw2, (found_word i it Hi). cbn [mbind option_bind].
  rewrite (row_index i it Hi), Nat2Z.id, Hi. cbn [mbind option_bind].
  change (op (set_idx i p)) with (op p). rewrite Hop, Z.eqb_refl. change (UPP_OP_SET =? UPP_OP_GET) with false.
  unfold settable in Hs. rewrite Hs, andb_true_r, HL. cbn [andb orb negb].
  destruct (check_int i it k lo hi v (set_idx i p) (u_mem s)) as (m1 & bkp & -> & Hst); try assumption; [exact (proj1 Hr)|].
  clear Hi. cbn [mbind option_bind negb].
  assert (Hm1 : wf_mem m1) by (eapply store_wf; [exact (proj1 Hr)|apply le_encode_bytes|exact Hst]).
  destruct (set_callback_plain (set_idx i p) it (with_mem m1 s)) as (s' & -> & Hr' & Hsr & Hms & Hmg & Hsv);
    [exact Hpl|exact Hg|split; [exact Hm1|exact (proj2 Hr)]|]. cbn [mbind option_bind negb Z.eqb].
  exists s'. split; [reflexivity|]. split; [exact Hr'|]. split; [exact Hsr|]. cbn [with_mem u_mem u_world] in *. split; [|split].
  - unfold holds. rewrite (member_kept _ _ _ m1 _ Hms Hmg) by apply Hin. apply store_load in Hst. unfold load in Hst.
    rewrite le_encode_length in Hst. case_match; [|discriminate Hst]. by injection Hst.
  - apply (only_at_same _ _ _ _ m1 _); [|exact Hms|exact Hmg]. by apply (store_only _ _ _ _ _ _ (le_encode_length k v)).
  - intros HM. destruct (Hsv HM) as [c Hc]. by exists m1, c.
Qed.

(** A query. *)
Lemma execute_get i it p s : CMD_TBL !! i = Some it -> plain_cmd (cmd_id it) = true -> has prop_P (props it) = true ->
  cmd_word p = word_buffer (cmd it) -> cmd_word_len p = zlen (cmd it) -> op p = UPP_OP_GET ->
  upp_execute_cmd p s = Some (set_idx i p, s, 0).
Proof.
  intros Hi Hpl HP Hw1 Hw2 Hop. unfold upp_execute_cmd. rewrite Hw1, Hw2, (found_word i it Hi). cbn [mbind option_bind].
  rewrite (row_index i it Hi), Nat2Z.id, Hi. cbn [mbind option_bind]. clear Hi.
  change (op (set_idx i p)) with (op p). rewrite Hop, Z.eqb_refl. change (UPP_OP_GET =? UPP_OP_SET) with false.
  rewrite HP, !andb_false_r. cbn [andb orb negb]. rewrite get_callback_plain by exact Hpl. reflexivity.
Qed.

(** ** Packets *)

Lemma handle_ok p0 pkt s outbuf o outlen p1 p2 s2 t : upp_parse_cmd (u_mem s) pkt p0 = Some (p1, 0) ->
  upp_execute_cmd p1 s = Some (p2, s2, 0) -> upp_rsp_build_flk p2 (u_mem s2) = Some t -> t <> [] ->
  0 <= o -> o + zlen t + 1 <= zlen outbuf ->
  upp_cmd_handler p0 pkt s outbuf o outlen = Some (p2, s2, put (Z.to_nat o) (t ++ [0]) outbuf, outlen + zlen t).
Proof.
  unfold upp_cmd_handler. generalize upp_parse_cmd as parse, (@upp_execute_cmd W _) as execute, upp_rsp_build_flk as build.
  intros parse execute build E1 E2 E3 Ht Ho Hr. rewrite E1. cbn [mbind option_bind Z.eqb negb].
  rewrite E2. cbn [mbind option_bind Z.eqb negb]. rewrite E3. cbn [mbind option_bind]. destruct t as [|c t]; [done|].
  unfold sput. by rewrite (proj2 (Z.leb_le 0 o) Ho), (proj2 (Z.leb_le _ _) Hr).
Qed.
Lemma reply_nonempty pre it t : reply pre it t <> [].
Proof. by destruct pre. Qed.

(** The handler on a set packet and on a query, writing at [o]. *)
Lemma handle_set i it k lo hi v pre r s outbuf o outlen : CMD_TBL !! i = Some it -> int_row it k lo hi ->
  plain_cmd (cmd_id it) = true -> cmd it <> codes "DA" ->
  may_set it (u_mem s) = true -> lo <= v <= hi -> min_len (rule it) <= zlen (dec_digits v) <= max_len (rule it) ->
  addressed (dev_addr_of (u_mem s)) pre -> ready s ->
  0 <= o -> o + zlen (reply pre it (dec_digits v)) + 1 <= zlen outbuf ->
  let t := dec_digits v in
  exists p' s', upp_cmd_handler (set_cmd_len (zlen (set_body pre (cmd it) t) + 1) 1 parse_zero)
      (set_body pre (cmd it) t ++ 13 :: r) s outbuf o outlen
    = Some (p', s', put (Z.to_nat o) (reply pre it t ++ [0]) outbuf, outlen + zlen (reply pre it t)) /\
    cmd_len p' = zlen (set_body pre (cmd it) t) + 1 /\ ready s' /\ same_rest s s' /\
    holds it k v (u_mem s') /\ only_at (p_obj (arg it)) (p_off (arg it)) k (u_mem s) (u_mem s') /\
    (has prop_M (props it) = true -> exists m1 v, same_groups (m_para (u_mem s')) (m_para m1) /\ wf_mem m1 /\
       hook (H_pmm_save_group (group it)) m1 (u_world s) = Some (u_mem s', u_world s', v)).
Proof.
  intros Hi Hk Hpl Hda Hset Hv Hlen Ha Hr Ho Hroom t.
  destruct (int_row_facts i it k lo hi Hi Hk) as (H1 & H2 & Hmax & _ & Hk4 & Hin). destruct (row_facts i it Hi) as (Hw & _).
  assert (Hv2 : 0 <= v < 256 ^ Z.of_nat k) by lia.
  assert (Hv32 : 0 <= v < 2 ^ 32).
  { split; [lia|]. apply (Z.lt_le_trans _ (256 ^ Z.of_nat k)); [lia|]. change (2 ^ 32) with (256 ^ 4). apply Z.pow_le_mono_r; lia. }
  destruct (digit_text_facts v Hv32) as (Hne & _ & Hdig & _). fold t in Hne, Hdig, Hlen, Hroom.
  assert (Htl : (1 <= length t <= DATA_SIZE)%nat) by (destruct t; [done|]; unfold DATA_SIZE; cbn [length] in *; lia).
  assert (Hnc : Forall (fun c => c <> 13) t) by (eapply Forall_impl; [exact Hdig|]; intros c Hc; by apply digit_facts).
  pose proof (upp_parse_set (u_mem s) pre (cmd it) t r Ha Hw Hnc Htl) as E1.
  destruct (execute_set i it k lo hi v (parsed_set (dev_addr_of (u_mem s)) pre (cmd it) t) s) as (s' & E2 & Hr' & Hsr & Hh & Hon & Hsv);
    try assumption; try reflexivity.
  assert (Hda' : dev_addr_of (u_mem s') = dev_addr_of (u_mem s)).
  { apply (dev_addr_same _ _ _ _ _ Hon). intros Hp. by apply Hin. }
  pose proof (rsp_build i it k lo hi v (set_idx i (parsed_set (dev_addr_of (u_mem s)) pre (cmd it) t)) (u_mem s') pre Hi Hk eq_refl) as E3.
  rewrite Hda' in E3. specialize (E3 Ha eq_refl eq_refl eq_refl).
  assert (Hse : settable it = true) by (unfold may_set in Hset; by apply andb_true_iff in Hset as [Hset _]).
  specialize (E3 (fun _ => Hse) (proj1 Hr') Hv2 Hh). clear Hi.
  exists (set_idx i (parsed_set (dev_addr_of (u_mem s)) pre (cmd it) t)), s'.
  split; [exact (handle_ok _ _ _ _ _ _ _ _ _ _ E1 E2 E3 (reply_nonempty _ _ _) Ho Hroom)|].
  split; [reflexivity|]. split; [exact Hr'|]. split; [exact Hsr|]. split; [exact Hh|]. split; [exact Hon|exact Hsv].
Qed.
Lemma handle_get i it k lo hi v pre r s outbuf o outlen : CMD_TBL !! i = Some it -> int_row it k lo hi ->
  plain_cmd (cmd_id it) = true -> has prop_P (props it) = true ->
  0 <= v < 256 ^ Z.of_nat k -> holds it k v (u_mem s) ->
  addressed (dev_addr_of (u_mem s)) pre -> wf_mem (u_mem s) ->
  0 <= o -> o + zlen (reply pre it (dec_digits v)) + 1 <= zlen outbuf ->
  let t := dec_digits v in
  exists p', upp_cmd_handler (set_cmd_len (zlen (query_body pre (cmd it)) + 1) 1 parse_zero)
      (query_body pre (cmd it) ++ 13 :: r) s outbuf o outlen
    = Some (p', s, put (Z.to_nat o) (reply pre it t ++ [0]) outbuf, outlen + zlen (reply pre it t)) /\
    cmd_len p' = zlen (query_body pre (cmd it)) + 1.
Proof.
  intros Hi Hk Hpl HP Hv Hh Ha Hm Ho Hroom t. destruct (row_facts i it Hi) as (Hw & _).
  pose proof (upp_parse_query (u_mem s) pre (cmd it) r Ha Hw) as E1.
  pose proof (execute_get i it (parsed_get (dev_addr_of (u_mem s)) pre (cmd it)) s Hi Hpl HP eq_refl eq_refl eq_refl) as E2.
  pose proof (rsp_build i it k lo hi v (set_idx i (parsed_get (dev_addr_of (u_mem s)) pre (cmd it))) (u_mem s) pre Hi Hk eq_refl
    Ha eq_refl eq_refl eq_refl ltac:(discriminate) Hm Hv Hh) as E3. clear Hi.
  exists (set_idx i (parsed_get (dev_addr_of (u_mem s)) pre (cmd it))).
  split; [exact (handle_ok _ _ _ _ _ _ _ _ _ _ E1 E2 E3 (reply_nonempty _ _ _) Ho Hroom)|reflexivity].
Qed.

Lemma loop_step fuel pkt inlen s outbuf o outlen p p2 s2 b2 l2 : 0 < inlen ->
  check_packet pkt inlen parse_zero = Some (p, 0) -> upp_cmd_handler p pkt s outbuf o outlen = Some (p2, s2, b2, l2) ->
  upp_loop (S fuel) pkt inlen s outbuf o outlen
  = upp_loop fuel (drop (Z.to_nat (cmd_len p2)) pkt) (inlen - cmd_len p2) s2 b2 (o + l2) l2.
Proof.
  cbn [upp_loop]. generalize check_packet as check, (@upp_cmd_handler W _) as handler. intros check handler Hl E1 E2.
  rewrite (proj2 (Z.leb_gt _ _)) by lia. rewrite E1. cbn [mbind option_bind Z.eqb negb]. by rewrite E2.
Qed.
Lemma loop_done fuel pkt s outbuf o outlen : upp_loop (S fuel) pkt 0 s outbuf o outlen = Some (s, outbuf, outlen).
Proof. reflexivity. Qed.

Lemma body_facts a pre w t : addressed a pre -> is_word w -> Forall (fun c => is_digit c = true) t -> (1 <= length t <= 40)%nat ->
  Forall (fun c => c <> 13) (set_body pre w t) /\ Forall (fun c => c <> 13) (query_body pre w) /\
  2 <= zlen (set_body pre w t) < 100 /\ 2 <= zlen (query_body pre w) < 100.
Proof.
  intros Ha [Hw Hwl] Ht Htl. destruct (addressed_digits a pre Ha) as (Hp & Hpl & _).
  assert (D : forall l, Forall (fun c => is_digit c = true) l -> Forall (fun c => c <> 13) l)
    by (intros l H; eapply Forall_impl; [exact H|]; intros c Hc; by apply digit_facts).
  assert (U : Forall (fun c => c <> 13) w) by (eapply Forall_impl; [exact Hw|]; intros c Hc; by apply upper_facts).
  unfold set_body, query_body. split; [|split].
  - apply Forall_app_2; [by apply D|]. apply Forall_app_2; [done|]. constructor; [done|by apply D].
  - apply Forall_app_2; [by apply D|]. by constructor.
  - rewrite !length_app. cbn [length]. rewrite ?length_app. cbn [length]. lia.
Qed.

(** One packet of a buffer. *)
Lemma packet_step fuel body c r inlen s outbuf o outlen p2 s2 b2 l2 :
  Forall (fun x => x <> 13) body -> 2 <= zlen body < 100 -> c <> 10 -> zlen body < inlen ->
  upp_cmd_handler (set_cmd_len (zlen body + 1) 1 parse_zero) (body ++ 13 :: c :: r) s outbuf o outlen = Some (p2, s2, b2, l2) ->
  cmd_len p2 = zlen body + 1 ->
  upp_loop (S fuel) (body ++ 13 :: c :: r) inlen s outbuf o outlen
  = upp_loop fuel (c :: r) (inlen - (zlen body + 1)) s2 b2 (o + l2) l2.
Proof.
  intros Hb Hl Hc Hi E Hp. rewrite (loop_step _ _ _ _ _ _ _ (set_cmd_len (zlen body + 1) 1 parse_zero) p2 s2 b2 l2);
    [|lia|apply check_packet_ok; (done || lia)|exact E].
  rewrite Hp. f_equal. replace (body ++ 13 :: c :: r) with ((body ++ [13]) ++ c :: r) by by rewrite <- app_assoc.
  replace (Z.to_nat (zlen body + 1)) with (length (body ++ [13])) by (rewrite length_app; cbn; lia). by rewrite drop_app_length.
Qed.
Lemma put_zero_twice (a : list Z) : forall l, (2 * length a + 1 <= length l)%nat ->
  put (length a) (a ++ [0]) (put 0 (a ++ [0]) l) = put 0 (a ++ a ++ [0]) l.
Proof.
  intros l Hl. rewrite <- (put_put_app 0 a (a ++ [0])) by (rewrite length_app; cbn [length]; lia).
  assert (L : forall d, (length d <= length l)%nat -> length (put 0 d l) = length l) by (intros; apply put_length; lia).
  rewrite Nat.add_0_l. apply list_eq. intros j. assert (Ha : length (a ++ [0]) = S (length a)) by (rewrite length_app; cbn; lia).
  destruct (decide (length a <= j < length a + S (length a))%nat).
  - rewrite !put_lookup_in by (rewrite ?L; lia). done.
  - rewrite !(put_lookup_out (length a)) by (rewrite ?L; lia). destruct (decide (j < length a)%nat).
    + rewrite !put_lookup_in by lia. by rewrite lookup_app_l by lia.
    + by rewrite !put_lookup_out by lia.
Qed.

Lemma query_first a pre w r : addressed a pre -> exists c rest, query_body pre w ++ r = c :: rest /\ c <> 10.
Proof.
  intros Ha. destruct (addressed_digits a pre Ha) as (Hp & _). unfold query_body. destruct pre as [|c pre].
  - by exists UPP_OP_GET, (w ++ r).
  - inversion Hp as [|? ? Hc _]. exists c, (pre ++ (UPP_OP_GET :: w) ++ r). split; [by rewrite <- !app_assoc|].
    intros ->. discriminate Hc.
Qed.

(** [C19] A set command of an integer parameter and the query of the same
    command, in one buffer and with the device's address or (address 0) without:
    both are answered with the address, "!", the command word and the number
    that was sent; the two replies lie one behind the other, the member holds
    the number in its width, and nothing else in the two structures changes but
    the magic word and the checksums that saving the group renews.  For every
    row of the table with an integer format whose command has no call-back of
    its own. *)
Theorem set_then_query i it k lo hi v pre c r s outbuf :
  CMD_TBL !! i = Some it -> int_row it k lo hi -> plain_cmd (cmd_id it) = true -> cmd it <> codes "DA" ->
  may_set it (u_mem s) = true -> has prop_P (props it) = true ->
  lo <= v <= hi -> min_len (rule it) <= zlen (dec_digits v) <= max_len (rule it) ->
  addressed (dev_addr_of (u_mem s)) pre -> ready s -> c <> 10 ->
  let t := dec_digits v in
  let inbuf := set_body pre (cmd it) t ++ 13 :: query_body pre (cmd it) ++ [13] in
  let ans := reply pre it t in
  2 * zlen ans + 1 <= zlen outbuf ->
  exists s', upp_pkt_process (inbuf ++ c :: r) (zlen inbuf) s outbuf 0 0
      = Some (s', put 0 (ans ++ ans ++ [0]) outbuf, 2 * zlen ans) /\
    holds it k v (u_mem s') /\ only_at (p_obj (arg it)) (p_off (arg it)) k (u_mem s) (u_mem s') /\
    ready s' /\ same_rest s s'.
Proof.
  intros Hi Hk Hpl Hda Hset HP Hv Hlen Ha Hr Hc t inbuf ans Hroom.
  destruct (int_row_facts i it k lo hi Hi Hk) as (H1 & H2 & Hmax & _ & Hk4 & Hin). destruct (row_facts i it Hi) as (Hw & _).
  assert (Hv2 : 0 <= v < 256 ^ Z.of_nat k) by lia.
  assert (Htd : Forall (fun c => is_digit c = true) t) by (apply dec_digits_digit; lia).
  assert (Htl : (1 <= length t <= 40)%nat).
  { destruct (dec_digits_cons v ltac:(lia)) as (c0 & t0 & E & _). unfold t. rewrite E in *. cbn [length] in *. lia. }
  destruct (body_facts _ pre (cmd it) t Ha Hw Htd Htl) as (B1 & B2 & L1 & L2).
  destruct (query_first _ pre (cmd it) (13 :: c :: r) Ha) as (c1 & r1 & Eq & Hc1).
  assert (Einb : inbuf ++ c :: r = set_body pre (cmd it) t ++ 13 :: c1 :: r1).
  { unfold inbuf. rewrite <- Eq, <- app_assoc. cbn [app]. by rewrite <- app_assoc. }
  assert (El : zlen inbuf = zlen (set_body pre (cmd it) t) + zlen (query_body pre (cmd it)) + 2).
  { unfold inbuf. rewrite length_app. cbn [length]. rewrite length_app. cbn [length]. lia. }
  destruct (handle_set i it k lo hi v pre (c1 :: r1) s outbuf 0 0) as (p1 & s1 & E1 & C1 & R1 & S1 & Hh & Hon & _);
    try assumption; [lia|fold t ans; lia|]. fold t in E1, C1. fold ans in E1.
  set (ob1 := put _ _ outbuf) in E1.
  assert (Hob : zlen ob1 = zlen outbuf).
  { f_equal. apply put_length. rewrite length_app. cbn [length]. lia. }
  assert (Hda' : dev_addr_of (u_mem s1) = dev_addr_of (u_mem s)) by (apply (dev_addr_same _ _ _ _ _ Hon); intros Hp; by apply Hin).
  destruct (handle_get i it k lo hi v pre (c :: r) s1 ob1 (0 + (0 + zlen ans)) (0 + zlen ans)) as (p2 & E2 & C2); try assumption;
    [by rewrite Hda'|exact (proj1 R1)|lia|fold t ans; lia|]. fold t in E2. fold ans in E2. rewrite Eq in E2. clear Hi.
  exists s1. unfold upp_pkt_process. rewrite Einb. replace (Z.to_nat (zlen inbuf) + 1)%nat with (S (S (S (Z.to_nat (zlen inbuf) - 2)))) by lia.
  rewrite (packet_step _ _ _ _ (zlen inbuf) _ _ _ _ _ _ _ _ B1 L1 Hc1 ltac:(lia) E1 C1).
  rewrite <- Eq. rewrite <- Eq in E2. rewrite (packet_step _ _ _ _ (zlen inbuf - (zlen (set_body pre (cmd it) t) + 1)) _ _ _ _ _ _ _ _ B2 L2 Hc ltac:(lia) E2 C2).
  replace (_ - _) with 0 by lia. rewrite loop_done.
  split; [|exact (conj Hh (conj Hon (conj R1 S1)))].
  unfold ob1. replace (Z.to_nat (0 + (0 + zlen ans))) with (length ans) by lia. change (Z.to_nat 0) with 0%nat. rewrite put_zero_twice by lia.
  do 2 f_equal. lia.
Qed.

(** A packet that holds nothing but a set command. *)
Lemma set_packet i it k lo hi v pre c r s outbuf : CMD_TBL !! i = Some it -> int_row it k lo hi ->
  plain_cmd (cmd_id it) = true -> cmd it <> codes "DA" ->
  may_set it (u_mem s) = true -> lo <= v <= hi -> min_len (rule it) <= zlen (dec_digits v) <= max_len (rule it) ->
  addressed (dev_addr_of (u_mem s)) pre -> ready s -> c <> 10 ->
  let t := dec_digits v in
  let ans := reply pre it t in
  zlen ans + 1 <= zlen outbuf ->
  exists s', upp_pkt_process (set_body pre (cmd it) t ++ 13 :: c :: r) (zlen (set_body pre (cmd it) t) + 1) s outbuf 0 0
      = Some (s', put 0 (ans ++ [0]) outbuf, zlen ans) /\
    2 <= zlen (set_body pre (cmd it) t) < 100 /\ ready s' /\ same_rest s s' /\ holds it k v (u_mem s') /\
    only_at (p_obj (arg it)) (p_off (arg it)) k (u_mem s) (u_mem s') /\ dev_addr_of (u_mem s') = dev_addr_of (u_mem s) /\
    (has prop_M (props it) = true -> exists m1 v, same_groups (m_para (u_mem s')) (m_para m1) /\ wf_mem m1 /\
       hook (H_pmm_save_group (group it)) m1 (u_world s) = Some (u_mem s', u_world s', v)).
Proof.
  intros Hi Hk Hpl Hda Hset Hv Hlen Ha Hr Hc t ans Hroom.
  destruct (int_row_facts i it k lo hi Hi Hk) as (H1 & H2 & Hmax & _ & Hk4 & Hin). destruct (row_facts i it Hi) as (Hw & _).
  assert (Htd : Forall (fun c => is_digit c = true) t) by (apply dec_digits_digit; lia).
  assert (Htl : (1 <= length t <= 40)%nat).
  { destruct (dec_digits_cons v ltac:(lia)) as (c0 & t0 & E & _). unfold t. rewrite E in *. cbn [length] in *. lia. }
  destruct (body_facts _ pre (cmd it) t Ha Hw Htd Htl) as (B1 & _ & L1 & _).
  destruct (handle_set i it k lo hi v pre (c :: r) s outbuf 0 0) as (p1 & s1 & E1 & C1 & R1 & S1 & Hh & Hon & Hsv);
    try assumption; [lia|]. fold t in E1, C1. fold ans in E1.
  assert (Hda' : dev_addr_of (u_mem s1) = dev_addr_of (u_mem s)) by (apply (dev_addr_same _ _ _ _ _ Hon); intros Hp; by apply Hin).
  clear Hi. exists s1. split; [|by split].
  unfold upp_pkt_process. replace (Z.to_nat _ + 1)%nat with (S (S (Z.to_nat (zlen (set_body pre (cmd it) t))))) by lia.
  by rewrite (packet_step _ _ _ _ (zlen (set_body pre (cmd it) t) + 1) _ _ _ _ _ _ _ _ B1 L1 Hc ltac:(lia) E1 C1), Z.sub_diag, loop_done.
Qed.
End RoundTrip.

(** ** The parameter manager behind the interface *)
Section Manager.
Context {N : Type} `{!NvStore N} (other : hook_t -> mem -> pmm N -> option (mem * pmm N * Z)).

(** [pmm_save_group] works on the global [sys_para] in place. *)
Definition save_hook (t : nat) (m : mem) (w : pmm N) : option (mem * pmm N * Z) :=
  p ← pmm_save_group (set_sys w (m_para m)) t; Some (mk_mem (sys_para p) (m_state m), p, 0).
#[local] Instance manager : UppHooks (pmm N) := {|
  hook h m w := match h with H_pmm_save_group t => save_hook t m w | _ => other h m w end |}.

Lemma para_wf m : wf_mem m -> wf (m_para m).
Proof. intros (H1 & _ & H2 & _). split; [exact H1|exact H2]. Qed.
Lemma manager_save m w t : wf_mem m -> nv_good (nv w) -> (t < PARA_TYPE_CNT)%nat ->
  exists w', save_hook t m w = Some (mk_mem (sys_para w') (m_state m), w', 0) /\
    nv_good (nv w') /\ wf (sys_para w') /\ crit w' = crit w /\ same_groups (sys_para w') (m_para m) /\
    fully_valid (image (nv w') user_loc) /\ same_groups (image (nv w') user_loc) (m_para m).
Proof.
  intros Hm Hw Ht. destruct (save_group_spec (set_sys w (m_para m)) t Hw (para_wf m Hm) Ht)
    as (p & E & Hn & Hs & Hc & _ & Hg & Hv & Hgu & _).
  exists p. unfold save_hook. rewrite E. split; [reflexivity|]. done.
Qed.
#[local] Instance manager_ok : UppHooksOk (pmm N).
Proof.
  refine {| hooks_good w := nv_good (nv w) |}. intros m w t Hm Hw Ht.
  destruct (manager_save m w t Hm Hw Ht) as (w' & E & Hn & Hs & _ & Hg & _).
  exists (mk_mem (sys_para w') (m_state m)), w', 0. split; [exact E|]. split; [exact Hn|]. split; [|split; [reflexivity|exact Hg]].
  destruct Hm as (_ & Hl & _ & Hb). destruct Hs as [Hs1 Hs2]. split; [exact Hs1|]. split; [exact Hl|]. split; [exact Hs2|exact Hb].
Defined.

Lemma dev_addr_image m : dev_addr (m_para m) = dev_addr_of m.
Proof.
  rewrite dev_addr_eq. unfold dev_addr. destruct m as [l st]; cbn [m_para].
  do 5 (destruct l as [|? l]; [reflexivity|]). unfold get. cbn [drop nth take le_decode]. rewrite take_0. cbn [le_decode]. lia.
Qed.

(** The flash copy of a saved parameter is what the next start finds. *)
Lemma restart_after_set i it k lo hi v pre (s s1 : upp) : CMD_TBL !! i = Some it -> int_row it k lo hi ->
  has prop_M (props it) = true -> p_obj (arg it) = SYS_PARA -> addressed (dev_addr_of (u_mem s)) pre -> nv_good (nv (u_world s)) ->
  holds it k v (u_mem s1) -> only_at (p_obj (arg it)) (p_off (arg it)) k (u_mem s) (u_mem s1) ->
  dev_addr_of (u_mem s1) = dev_addr_of (u_mem s) ->
  (has prop_M (props it) = true -> exists m1 v, same_groups (m_para (u_mem s1)) (m_para m1) /\ wf_mem m1 /\
     hook (H_pmm_save_group (CmdTable.group it)) m1 (u_world s) = Some (u_mem s1, u_world s1, v)) ->
  forall def q, wf def -> nv_good (nv q) -> same_mem (nv (u_world s1)) (nv q) ->
    exists q', para_init def q = Some q' /\ get (p_off (arg it)) k (sys_para q') = le_encode k v /\
      forall j, (4 <= j < CRC_OFF)%nat -> (j < p_off (arg it) \/ p_off (arg it) + k <= j)%nat ->
        sys_para q' !! j = m_para (u_mem s) !! j.
Proof.
  intros Hi Hk HM Hobj Ha Hn Hh Hon Hda' Hsv. destruct (row_facts i it Hi) as (_ & _ & _ & Hg & _).
  destruct (int_row_facts i it k lo hi Hi Hk) as (_ & _ & _ & _ & Hk4 & Hin). clear Hi.
  intros def q Hd Hq Hqm. destruct (Hsv HM) as (m1 & rc & Hg1 & Hm1 & Eh).
  destruct (manager_save m1 (u_world s) (CmdTable.group it) Hm1 Hn Hg) as (w' & Ew & _ & Hs' & _ & Hg' & Hvu & Hgu).
  cbn [hook manager] in Eh. rewrite Ew in Eh. injection Eh as Em Eww _. rewrite <- Eww, <- Em in *. cbn [m_para m_state] in *.
  destruct (user_restart def q (sys_para w')) as (q' & Eq & Hgq); try assumption.
  - by rewrite (image_same (nv w') (nv q)).
  - rewrite (image_same (nv w') (nv q)) by assumption. intros g Hgg. by rewrite Hgu, Hg'.
  - change (sys_para w') with (m_para (mk_mem (sys_para w') (m_state m1))). rewrite dev_addr_image, Hda'.
    destruct (addressed_digits _ _ Ha) as (_ & _ & Hr). lia.
  - exists q'. split; [exact Eq|]. destruct (Hin Hobj) as [Hin1 _]. unfold holds in Hh. rewrite Hobj in Hh, Hon. cbn [image_of] in Hh. split.
    * rewrite <- Hh. apply get_ext. intros j Hj. apply same_groups_bytes; [exact Hgq|lia].
    * intros j Hj Ho. rewrite (same_groups_bytes _ _ _ Hgq Hj). apply (proj1 Hon); [exact Hj|by right].
Qed.

(** What a set command changes survives a restart.  A set packet of an
    integer parameter that is saved, with the parameter manager of para.c and
    fault-free storage behind the protocol: it is answered, and from whatever
    contents of RAM the device starts next, [para_init] brings back the number
    that was sent and, in every other byte of the groups, the parameters as
    they were before the packet. *)
Theorem set_survives_restart i it k lo hi v pre c r (s : upp) outbuf :
  CMD_TBL !! i = Some it -> int_row it k lo hi -> plain_cmd (cmd_id it) = true -> cmd it <> codes "DA" ->
  may_set it (u_mem s) = true -> has prop_M (props it) = true -> p_obj (arg it) = SYS_PARA ->
  lo <= v <= hi -> min_len (rule it) <= zlen (dec_digits v) <= max_len (rule it) ->
  addressed (dev_addr_of (u_mem s)) pre -> wf_mem (u_mem s) -> nv_good (nv (u_world s)) -> c <> 10 ->
  let t := dec_digits v in
  let ans := reply pre it t in
  zlen ans + 1 <= zlen outbuf ->
  exists s', upp_pkt_process (set_body pre (cmd it) t ++ 13 :: c :: r) (zlen (set_body pre (cmd it) t) + 1) s outbuf 0 0
      = Some (s', put 0 (ans ++ [0]) outbuf, zlen ans) /\
    forall def q, wf def -> nv_good (nv q) -> same_mem (nv (u_world s')) (nv q) ->
      exists q', para_init def q = Some q' /\ get (p_off (arg it)) k (sys_para q') = le_encode k v /\
        forall j, (4 <= j < CRC_OFF)%nat -> (j < p_off (arg it) \/ p_off (arg it) + k <= j)%nat ->
          sys_para q' !! j = m_para (u_mem s) !! j.
Proof.
  intros Hi Hk Hpl Hda Hset HM Hobj Hv Hlen Ha Hm Hn Hc t ans Hroom.
  destruct (set_packet i it k lo hi v pre c r s outbuf) as (s1 & E1 & _ & _ & _ & Hh & Hon & Hda' & Hsv); try assumption; [by split|].
  exists s1. split; [exact E1|]. by apply (restart_after_set i it k lo hi v pre s s1).
Qed.
End Manager.

(** ** Instances *)

(** A device just started: zero parameters and state, blank storage. *)
Definition idle_hooks : hook_t -> mem -> pmm (board nor) -> option (mem * pmm (board nor) * Z) := fun _ m w => Some (m, w, 0).
#[local] Instance demo_hooks : UppHooks (pmm (board nor)) := manager idle_hooks.
#[local] Instance demo_hooks_ok : UppHooksOk (pmm (board nor)) := manager_ok idle_hooks.
Definition demo_mem : mem := mk_mem zero_para (replicate (obj_size SYS_STATE) 0).
Definition demo : upp := mk_upp demo_mem [] [] 0 false started.
Definition NUP : cmd_item_t := nth 19 CMD_TBL (item "" CMD_DA 0 "" FMT_C 0 0 (c_range []) null).

Lemma demo_wf : wf_mem demo_mem.
Proof.
  split; [reflexivity|]. split; [apply length_replicate|]. split; apply Forall_replicate; split; lia.
Qed.
Lemma NUP_row : CMD_TBL !! 19%nat = Some NUP.
Proof. reflexivity. Qed.
Lemma NUP_int : int_row NUP 4 1 3300000.
Proof. split; vm_compute; reflexivity. Qed.

Lemma set_then_query_witness :
  let ans := reply [] NUP (dec_digits 1234) in
  exists s', upp_pkt_process ((set_body [] (cmd NUP) (dec_digits 1234) ++ 13 :: query_body [] (cmd NUP) ++ [13]) ++ 0 :: [])
      (zlen (set_body [] (cmd NUP) (dec_digits 1234) ++ 13 :: query_body [] (cmd NUP) ++ [13])) demo (replicate 100 46) 0 0
    = Some (s', put 0 (ans ++ ans ++ [0]) (replicate 100 46), 2 * zlen ans) /\ holds NUP 4 1234 (u_mem s').
Proof.
  destruct (set_then_query 19 NUP 4 1 3300000 1234 [] 0 [] demo (replicate 100 46)) as (s' & E & Hh & _).
  - exact NUP_row.
  - exact NUP_int.
  - reflexivity.
  - vm_compute. discriminate.
  - vm_compute. reflexivity.
  - vm_compute. reflexivity.
  - lia.
  - vm_compute. split; discriminate.
  - left. split; [reflexivity|]. vm_compute. reflexivity.
  - split; [exact demo_wf|exact blank_good].
  - discriminate.
  - vm_compute. discriminate.
  - exists s'. split; [exact E|exact Hh].
Defined.
(** The packet and the reply of the instance. *)
Example set_then_query_text :
  set_body [] (cmd NUP) (dec_digits 1234) = codes "NUP=1234" /\ reply [] NUP (dec_digits 1234) = codes "!NUP1234" ++ [13; 10].
Proof. vm_compute. done. Qed.

Lemma set_survives_restart_witness :
  let ans := reply [] NUP (dec_digits 1234) in
  exists s', upp_pkt_process (set_body [] (cmd NUP) (dec_digits 1234) ++ 13 :: 0 :: [])
      (zlen (set_body [] (cmd NUP) (dec_digits 1234)) + 1) demo (replicate 100 46) 0 0
    = Some (s', put 0 (ans ++ [0]) (replicate 100 46), zlen ans) /\
    forall q, nv_good (nv q) -> same_mem (nv (u_world s')) (nv q) ->
      exists q', para_init zero_para q = Some q' /\ get (p_off (arg NUP)) 4 (sys_para q') = le_encode 4 1234.
Proof.
  destruct (set_survives_restart idle_hooks 19 NUP 4 1 3300000 1234 [] 0 [] demo (replicate 100 46)) as (s' & E & Hr).
  - exact NUP_row.
  - exact NUP_int.
  - reflexivity.
  - vm_compute. discriminate.
  - vm_compute. reflexivity.
  - vm_compute. reflexivity.
  - reflexivity.
  - lia.
  - vm_compute. split; discriminate.
  - left. split; [reflexivity|]. vm_compute. reflexivity.
  - exact demo_wf.
  - exact blank_good.
  - discriminate.
  - vm_compute. discriminate.
  - exists s'. split; [exact E|]. intros q Hq Hm. destruct (Hr zero_para q zero_wf Hq Hm) as (q' & Eq & Hg & _).
    exists q'. split; [exact Eq|exact Hg].
Defined.
