(* ===== verification/UppFailure.v ===== *)
(** * The character protocol: what set commands store, and those that fail

    What the data check lets through is stored in its member and nowhere else,
    but for seven commands and the develop mode.

    A rejected set command leaves both structures as they were, because the
    target is copied before it is written and copied back when the call-back of
    the command refuses the new value. *)
From Stdlib Require Import ZifyBool.
From S2P Require Import Prelude CFloat Str Generic Fmc Para ParaStore Tiag Stdio Layout CmdTable ProtoCoef ProtoChar UppProps.
Open Scope string_scope.
Open Scope list_scope.
Open Scope Z_scope.

(** ** Copying back *)

(** Two memories that agree outside of the bytes at [off] of [o]. *)
Definition agree_but (o : obj) (off n : nat) (m m' : mem) : Prop :=
  (forall o', length (image_of o' m') = length (image_of o' m)) /\
  forall o' j, o' <> o \/ (j < off \/ off + n <= j)%nat -> image_of o' m' !! j = image_of o' m !! j.

Lemma agree_store m m' m'' o off d n : agree_but o off n m m' -> length d = n -> store m' o off d = Some m'' -> agree_but o off n m m''.
Proof.
  intros [H1 H2] <- Hs. split.
  - intros o'. by rewrite (store_length _ _ _ _ _ o' Hs).
  - intros o' j Hj. rewrite (store_out _ _ _ _ _ o' j Hs Hj). by apply H2.
Qed.
Lemma agree_refl o off n m : agree_but o off n m m.
Proof. by split. Qed.
Lemma copy_back m m' o off n d : load m o off n = Some d -> agree_but o off n m m' -> store m' o off d = Some m.
Proof.
  intros Hl [H1 H2]. unfold load in Hl. destruct (Nat.leb_spec (off + n) (length (image_of o m))) as [Hb|]; [|discriminate Hl].
  injection Hl as <-. pose proof (get_length off n (image_of o m) Hb) as Hg.
  unfold store. rewrite H1, Hg, (proj2 (Nat.leb_le _ _) Hb). f_equal.
  assert (E : put off (get off n (image_of o m)) (image_of o m') = image_of o m).
  { apply list_eq. intros j. destruct (decide (off <= j < off + n)%nat).
    - rewrite put_lookup_in by (rewrite ?H1; lia). rewrite get_lookup by lia. f_equal. lia.
    - rewrite put_lookup_out by (rewrite ?H1; lia). apply H2. right. lia. }
  rewrite E. destruct m as [p s], m' as [p' s'], o; cbn [set_image image_of m_para m_state] in *; f_equal; apply list_eq; intros j.
  - apply (H2 SYS_STATE). by left.
  - apply (H2 SYS_PARA). by left.
Qed.

(** ** The data check *)
Lemma check_u_size dev d n v b : check_u dev d n v = Some (inl b) -> length b = n.
Proof.
  unfold check_u. destruct d; cbn [u_limits mbind option_bind]; try discriminate.
  destruct v as [v|]; [|discriminate]. destruct (_ && _); [discriminate|]. intros [= <-]. apply le_encode_length.
Qed.
Lemma check_f_size item m limit d v b : check_f item m limit d v = Some (inl b) -> length b = 4%nat.
Proof.
  unfold check_f. destruct d; try discriminate. destruct v as [v|]; [|discriminate].
  destruct (is_need_conver_unit _); repeat (destruct (_ || _); [discriminate|]); repeat (destruct (_ && _); [discriminate|]);
    intros [= <-]; reflexivity.
Qed.
(** Steps over the scans of [check_value], whose failure gives no bytes. *)
Ltac unpack_check Hc :=
  repeat (match type of Hc with
    | (is_dec_number ?a ?b ≫= _) = _ => destruct (is_dec_number a b); [|discriminate Hc]
    | (scan_u ?a ≫= _) = _ => destruct (scan_u a); [|discriminate Hc]
    | (scan_lld ?a ≫= _) = _ => destruct (scan_lld a); [|discriminate Hc]
    | (scan_real ?p ?e ?a ≫= _) = _ => destruct (scan_real p e a); [|discriminate Hc]
    | (scan_x ?a ≫= _) = _ => destruct (scan_x a); [|discriminate Hc]
    | (scan_c ?a ≫= _) = _ => destruct (scan_c a); [|discriminate Hc]
    | (if ?b then _ else _) = _ => destruct b; [|discriminate Hc]
    end; cbn [mbind option_bind] in Hc).
Lemma check_value_size it m d l b n : check_value it m d l = Some (inl b) -> bkp_size it d = Some n ->
  r_type (rule it) <> FMT_S -> length b = n.
Proof.
  intros Hc Hn Hs. unfold bkp_size in Hn. unfold check_value in Hc. destruct (r_type (rule it)); try done;
    injection Hn as <-; unpack_check Hc;
    try (by apply check_u_size in Hc); try (by apply check_f_size in Hc);
    destruct (r_data (rule it)); try discriminate Hc; case_match; try discriminate Hc;
    case_match; first [discriminate Hc | by injection Hc as <-].
Qed.
Lemma chk_cases it p m q m' bkp n ok : cmd_data_chk it p m = Some (q, m', bkp, n, ok) ->
  (ok = false /\ m' = m) \/
  (ok = true /\ q = p /\ (r_type (rule it) <> FMT_S -> keeps_backup it = true ->
     load m (p_obj (arg it)) (p_off (arg it)) n = Some (take n bkp) /\ agree_but (p_obj (arg it)) (p_off (arg it)) n m m')).
Proof.
  unfold cmd_data_chk. destruct (_ && _); [intros [= <- <- <- <- <-]; by left|].
  destruct (bkp_size it (data p)) as [n'|] eqn:En; [|discriminate]. cbn [mbind option_bind].
  destruct (if keeps_backup it then _ else _) as [bk|] eqn:Eb; [|discriminate]. cbn [mbind option_bind].
  destruct (check_value it m (data p) (data_len p)) as [[b|e]|] eqn:Ev; [| |discriminate]; cbn [mbind option_bind].
  2: { intros [= <- <- <- <- <-]. by left. }
  destruct (store m _ _ b) as [m1|] eqn:Es; [|discriminate]. cbn [mbind option_bind]. intros [= <- <- <- <- <-]. right.
  split; [done|]. split; [done|]. intros Ht Hk. rewrite Hk in Eb.
  destruct (load m _ _ n') as [l|] eqn:El; [|discriminate Eb]. cbn [mbind option_bind] in Eb.
  destruct (Nat.leb_spec n' BURST_LIST_SIZE) as [Hle|]; [|discriminate Eb].
  assert (Hl : length l = n').
  { unfold load in El. destruct (Nat.leb_spec (p_off (arg it) + n') (length (image_of (p_obj (arg it)) m))); [|discriminate El].
    injection El as <-. by apply get_length. }
  assert (Ebk : take n' bk = l).
  { injection Eb as <-. unfold put. cbn [take app Nat.add]. rewrite <- Hl. by rewrite take_app_length. }
  rewrite Ebk. split; [done|]. apply (agree_store _ m _ _ _ b _ (agree_refl _ _ _ _)); [|exact Es].
  exact (check_value_size it m _ _ b n' Ev En Ht).
Qed.

Lemma chk_size it p m q m' bkp n d : cmd_data_chk it p m = Some (q, m', bkp, n, true) -> r_type (rule it) <> FMT_S ->
  bkp_size it [] = Some d -> n = d.
Proof.
  unfold cmd_data_chk. destruct (_ && _); [intros [=]|]. intros E Ht Hd.
  assert (Eb : bkp_size it (data p) = Some d).
  { unfold bkp_size in *. destruct (r_type (rule it)); first [exact Hd | by destruct (Ht eq_refl)]. }
  rewrite Eb in E. cbn [mbind option_bind] in E.
  repeat (match type of E with (?x ≫= _) = _ => destruct x; [|discriminate E] end; cbn [mbind option_bind] in E).
  destruct s; [|discriminate E]. match type of E with (?x ≫= _) = _ => destruct x; [|discriminate E] end.
  by injection E.
Qed.

(** ** What an accepted command stores *)

(** The commands whose data may be longer than their member. *)
Definition four_in_one : list (list Z) := map codes ["GA"; "SM"].
Definition full_strings : list (list Z) := map codes ["AP"; "NWA"; "NWB"; "NB"; "BC"].
Definition row_room (it : cmd_item_t) : bool :=
  let size := sizeof (p_type (arg it)) in
  negb (settable it) ||
  if bool_decide (cmd it ∈ four_in_one) then
    negb (bool_decide (r_type (rule it) = FMT_S)) && (written it =? 4)%nat && (size =? 1)%nat
  else if bool_decide (cmd it ∈ full_strings) then
    bool_decide (r_type (rule it) = FMT_S) && (max_len (rule it) =? Z.of_nat size)
  else (written it <=? size)%nat.
Lemma rows_room i it : CMD_TBL !! i = Some it -> row_room it = true.
Proof.
  assert (H : forallb row_room CMD_TBL = true) by (vm_compute; reflexivity).
  intros Hi. apply list_elem_of_lookup_2, list_elem_of_In in Hi. exact (proj1 (forallb_forall _ _) H it Hi).
Qed.
Lemma chk_stores it p m q m' bkp n : cmd_data_chk it p m = Some (q, m', bkp, n, true) ->
  exists b, check_value it m (data p) (data_len p) = Some (inl b) /\ store m (p_obj (arg it)) (p_off (arg it)) b = Some m' /\
    (develop m = false -> data_len p <= max_len (rule it)).
Proof.
  unfold cmd_data_chk. destruct (_ && negb (develop m)) eqn:El; [intros [=]|].
  destruct (bkp_size it (data p)) as [n'|]; [|discriminate]. cbn [mbind option_bind].
  destruct (if keeps_backup it then _ else _) as [bk|]; [|discriminate]. cbn [mbind option_bind].
  destruct (check_value it m (data p) (data_len p)) as [[b|e]|]; [|intros [=]|discriminate]; cbn [mbind option_bind].
  destruct (store m _ _ b) as [m1|] eqn:Es; [|discriminate]. cbn [mbind option_bind]. intros [= _ <- _ _]. exists b.
  split; [done|]. split; [exact Es|]. intros Hd. rewrite Hd, andb_true_r in El. clear - El. lia.
Qed.
Lemma check_value_string it m d l b s : check_value it m d l = Some (inl b) -> r_type (rule it) = FMT_S -> cstr d = Some s -> b = s ++ [0].
Proof.
  unfold check_value. intros Hc Ht Hs. rewrite Ht in Hc. destruct (r_data (rule it)); try discriminate Hc.
  rewrite Hs in Hc. cbn [mbind option_bind] in Hc.
  match type of Hc with (?x ≫= _) = _ => destruct x; [|discriminate Hc] end. cbn [mbind option_bind] in Hc.
  destruct (_ && _); [discriminate Hc|]. by injection Hc as <-.
Qed.
Lemma check_value_number it m d l b : check_value it m d l = Some (inl b) -> r_type (rule it) <> FMT_S -> length b = written it.
Proof.
  intros Hc Ht. apply (check_value_size it m d l b _ Hc); [|exact Ht].
  unfold bkp_size, written. by destruct (r_type (rule it)).
Qed.


(** ** Call-backs that refuse *)

(** The commands whose call-back does more than refuse: the coefficients are
    kept in strings without a copy, and the calibration works on other
    parameters. *)
Definition own_undo (id : cmd_id_e) : bool :=
  match id with CMD_AP | CMD_NWA | CMD_NWB | CMD_NB | CMD_CA => false | _ => true end.
Definition may_refuse (id : cmd_id_e) : bool :=
  match id with CMD_BR | CMD_AL | CMD_AH | CMD_DL | CMD_DH => true | _ => false end.
(** Those rows hold checked numbers; BR sets [sys_para.port.baudrate]. *)
Lemma refusing_rows i it : CMD_TBL !! i = Some it -> may_refuse (cmd_id it) = true ->
  r_type (rule it) <> FMT_S /\ keeps_backup it = true /\
  (cmd_id it = CMD_BR -> p_obj (arg it) = SYS_PARA /\ p_off (arg it) = p_off baudrate_at /\ bkp_size it [] = Some 4%nat).
Proof.
  assert (H : forallb (fun it => negb (may_refuse (cmd_id it)) ||
      (negb (bool_decide (r_type (rule it) = FMT_S)) && keeps_backup it &&
       (match cmd_id it with
        | CMD_BR => bool_decide (p_obj (arg it) = SYS_PARA) && (p_off (arg it) =? p_off baudrate_at)%nat &&
                    bool_decide (bkp_size it [] = Some 4%nat)
        | _ => true
        end))) CMD_TBL = true) by (vm_compute; reflexivity).
  intros Hi Hr. apply list_elem_of_lookup_2, list_elem_of_In in Hi. pose proof (proj1 (forallb_forall _ _) H it Hi) as Hc.
  clear H Hi. cbn beta in Hc. rewrite Hr in Hc. cbn [negb orb] in Hc. apply andb_true_iff in Hc as [[H1 H2]%andb_true_iff H3].
  split; [by apply negb_true_iff, bool_decide_eq_false in H1|]. split; [done|]. intros E. rewrite E in H3.
  apply andb_true_iff in H3 as [[H4%bool_decide_eq_true H5%Nat.eqb_eq]%andb_true_iff H6%bool_decide_eq_true]. done.
Qed.

Section Failure.
Context {W : Type} `{!UppHooks W}.
Implicit Types s : @upp W.
(** The serial port is set up from the parameters, without changing them. *)
Hypothesis pc_init_keeps : forall m w m' w' v, hook H_pc_init m w = Some (m', w', v) -> m' = m.

Lemma go_zero (o : option (@upp W)) (p q : parse_t) s' ret b :
  (o ≫= fun s => Some (p, s, 0, false)) = Some (q, s', ret, b) -> ret = 0.
Proof. destruct o; [|discriminate]. by intros [= _ _ <- _]. Qed.
Lemma set_switch_refuses p id s q s' ret at_once : set_switch p id s = Some (q, s', ret, at_once) -> ret <> 0 -> own_undo id = true ->
  may_refuse id = true /\
  (u_mem s' = u_mem s \/ (id = CMD_BR /\ u_mem s' = wr 115200 baudrate_at (u_mem s))).
Proof.
  intros E Hr Ho. destruct id; try discriminate Ho; cbn [set_switch] in E;
    try (exfalso; exact (Hr (go_zero _ _ _ _ _ _ E)));
    try (destruct (range_reversed _ _ _); [injection E as <- <- <- <-; by split; [|left]|exfalso; exact (Hr (go_zero _ _ _ _ _ _ E))]).
  - destruct (_ =? 1); exfalso; exact (Hr (go_zero _ _ _ _ _ _ E)).
  - split; [done|]. unfold set_baudrate, call_, call in E. destruct (negb (is_valid_baudrate _)) eqn:Eb.
    + destruct (hook _ _ _) as [[[m w] v]|] eqn:Eh; cbn [mbind option_bind fmap option_fmap option_map fst] in E; [|discriminate E]. apply pc_init_keeps in Eh as ->.
      injection E as <- <- <- <-. by right.
    + destruct (hook _ _ _) as [[[m w] v]|]; cbn [mbind option_bind fmap option_fmap option_map fst] in E; [|discriminate E]. injection E as <- <- <- <-. done.
  - destruct (negb _); exfalso; exact (Hr (go_zero _ _ _ _ _ _ E)).
  - destruct (negb _); exfalso; exact (Hr (go_zero _ _ _ _ _ _ E)).
  - destruct (_ =? _); exfalso; exact (Hr (go_zero _ _ _ _ _ _ E)).
  - match type of E with (?x ≫= _) = _ => destruct x; [|discriminate E] end. cbn [mbind option_bind] in E.
    exfalso; destruct (_ && _); [exact (Hr (go_zero _ _ _ _ _ _ E))|apply Hr; congruence].
Qed.
Lemma set_callback_refuses p it s q s' ret : upp_set_callback p it s = Some (q, s', ret) -> ret <> 0 -> own_undo (cmd_id it) = true ->
  may_refuse (cmd_id it) = true /\
  (u_mem s' = u_mem s \/ (cmd_id it = CMD_BR /\ u_mem s' = wr 115200 baudrate_at (u_mem s))).
Proof.
  unfold upp_set_callback. destruct (set_switch p (cmd_id it) s) as [[[[q1 s1] r1] b1]|] eqn:E; [|discriminate].
  cbn [mbind option_bind]. intros Ec Hr Ho.
  assert (H : r1 = ret /\ (ret <> 0 -> s1 = s')).
  { destruct b1; [by injection Ec as _ -> ->|]. destruct (Z.eqb_spec r1 0) as [->|]; cbn [andb] in Ec; [|by injection Ec as _ -> ->].
    destruct (_ && _) in Ec; [destruct (call_ _ _) in Ec; [|discriminate Ec]|]; by injection Ec as _ <- <-. }
  destruct H as [-> H]. rewrite <- (H Hr). exact (set_switch_refuses _ _ _ _ _ _ _ E Hr Ho).
Qed.

Lemma wr_agree m m1 v : wf_mem m -> agree_but SYS_PARA (p_off baudrate_at) 4 m m1 ->
  agree_but SYS_PARA (p_off baudrate_at) 4 m (wr v baudrate_at m1).
Proof.
  intros (Hl & _) Ha. apply (agree_store m m1 _ _ _ (le_encode 4 v) 4 Ha); [apply le_encode_length|].
  unfold store. rewrite (proj1 Ha SYS_PARA). cbn [image_of]. rewrite Hl, le_encode_length.
  change (p_off baudrate_at + 4 <=? obj_size SYS_PARA)%nat with true. reflexivity.
Qed.

(** [C20] A set command that fails leaves no trace in the parameters.  Whatever
    the reason (the command may not be set or is locked, the data have the wrong
    length, are no number or out of range, or the call-back refuses them after
    they were written, as for a baud rate or reversed limits), the result code
    is -1 and both structures are, byte for byte, what they were.  The four
    commands that parse coefficients and the calibration are not covered. *)
Theorem failed_set p s q s' e i it : wf_mem (u_mem s) -> op p = UPP_OP_SET ->
  cmd_found CMD_TBL (cmd_word p) (cmd_word_len p) = Some (Z.of_nat i) -> CMD_TBL !! i = Some it -> own_undo (cmd_id it) = true ->
  upp_execute_cmd p s = Some (q, s', e) -> e <> 0 -> e = -1 /\ u_mem s' = u_mem s.
Proof.
  intros Hm Hop Hf Hi Ho. unfold upp_execute_cmd. rewrite Hf. cbn [mbind option_bind].
  destruct (_ =? -1); [intros [= _ <- <-]; done|]. rewrite Nat2Z.id, Hi. cbn [mbind option_bind].
  change (op (set_idx i p)) with (op p). rewrite Hop, Z.eqb_refl. change (UPP_OP_SET =? UPP_OP_GET) with false. cbn [andb].
  destruct (_ || _); [intros [= _ <- <-]; done|]. destruct (_ && _ && _); [intros [= _ <- <-]; done|].
  destruct (cmd_data_chk it (set_idx i p) (u_mem s)) as [[[[[q1 m1] bkp] n] ok]|] eqn:Ec; [|discriminate]. cbn [mbind option_bind].
  apply chk_cases in Ec as Hc. destruct Hc as [[-> ->]|(-> & -> & Hc)]; cbn [negb].
  { intros [= _ <- <-] _. done. }
  destruct (upp_set_callback _ it (with_mem m1 s)) as [[[q2 s2] ret]|] eqn:Es; [|discriminate]. cbn [mbind option_bind].
  destruct (Z.eqb_spec ret 0) as [|Hret]; cbn [negb]; [intros [= _ _ <-]; done|].
  destruct (set_callback_refuses _ _ _ _ _ _ Es Hret Ho) as [Hr Hs2]. cbn [with_mem u_mem] in Hs2.
  destruct (refusing_rows i it Hi Hr) as (Ht & Hk & Hbr). clear Hi Hf. destruct (Hc Ht Hk) as [Hl Ha].
  destruct (n <=? BURST_LIST_SIZE)%nat; [|discriminate].
  assert (Hu : agree_but (p_obj (arg it)) (p_off (arg it)) n (u_mem s) (u_mem s2)).
  { destruct Hs2 as [-> | [Hid ->]]; [exact Ha|]. destruct (Hbr Hid) as (Eo & Ef & Eb).
    assert (En : n = 4%nat) by exact (chk_size _ _ _ _ _ _ _ _ Ec Ht Eb). rewrite En, Eo, Ef in *. by apply wr_agree. }
  rewrite (copy_back _ _ _ _ _ _ Hl Hu). cbn [mbind option_bind]. intros [= _ <- <-] _. done.
Qed.
End Failure.

(** ** An instance: "BR=9601" is refused after the write *)
#[local] Instance quiet_hooks : UppHooks unit := {| hook h m w := Some (m, w, 0) |}.
Definition quiet_mem : mem := mk_mem (replicate (obj_size SYS_PARA) 0) (replicate (obj_size SYS_STATE) 0).
Definition quiet : @upp unit := mk_upp quiet_mem [] [] 0 false tt.
Definition BR_packet : parse_t := parsed_set 0 [] (codes "BR") (codes "9601").

Lemma quiet_wf : wf_mem quiet_mem.
Proof. split; [apply length_replicate|]. split; [apply length_replicate|]. split; apply Forall_replicate; split; lia. Qed.
Lemma BR_refused : exists q s', upp_execute_cmd BR_packet quiet = Some (q, s', -1).
Proof.
  assert (H : option_map snd (upp_execute_cmd BR_packet quiet) = Some (-1)) by (vm_compute; reflexivity).
  destruct (upp_execute_cmd BR_packet quiet) as [[[q s'] e]|]; [|discriminate H]. injection H as ->. by exists q, s'.
Qed.
Lemma failed_set_witness :
  exists q s', upp_execute_cmd BR_packet quiet = Some (q, s', -1) /\ u_mem s' = quiet_mem.
Proof.
  destruct BR_refused as (q & s' & E). exists q, s'. split; [exact E|].
  refine (proj2 (failed_set _ BR_packet quiet q s' (-1) 10 (nth 10 CMD_TBL (item "" CMD_DA 0 "" FMT_C 0 0 (c_range []) null)) _ _ _ _ _ E _)).
  - intros m w m' w' v H. by injection H.
  - exact quiet_wf.
  - reflexivity.
  - vm_compute. reflexivity.
  - reflexivity.
  - reflexivity.
  - discriminate.
Defined.

(** "GA=0" stores four bytes into the one byte of row GA. *)
Definition GA_row : cmd_item_t := nth 37 CMD_TBL (item "" CMD_DA 0 "" FMT_C 0 0 (c_range []) null).
Lemma GA_accepted : exists q m' bkp n, cmd_data_chk GA_row (parsed_set 0 [] (codes "GA") (codes "0")) quiet_mem = Some (q, m', bkp, n, true).
Proof.
  assert (H : option_map snd (cmd_data_chk GA_row (parsed_set 0 [] (codes "GA") (codes "0")) quiet_mem) = Some true) by (vm_compute; reflexivity).
  destruct (cmd_data_chk GA_row (parsed_set 0 [] (codes "GA") (codes "0")) quiet_mem) as [[[[[q m'] bkp] n] ok]|]; [|discriminate H].
  injection H as ->. by exists q, m', bkp, n.
Qed.

(** The coefficients have no copy: after a refused "AP=x" the start of
    [sys_state.algo_str] is zero. *)
Definition AP_state : @upp unit := mk_upp (mk_mem (replicate (obj_size SYS_PARA) 0) (replicate (obj_size SYS_STATE) 65)) [] [] 0 false tt.
Example failed_coefficients :
  match upp_execute_cmd (parsed_set 0 [] (codes "AP") (codes "x")) AP_state with
  | Some (_, s', e) => e = -1 /\ get (p_off (state_at ["algo_str"])) 3 (m_state (u_mem s')) = [0; 0; 65]
  | None => False
  end.
Proof. vm_compute. done. Qed.
