(* ===== verification/Burst.v ===== *)
(** * burst.c: the periodic report

    [burst_build] writes the values of a list of commands, separated by
    characters of [burst.fmt], into a buffer of 100 bytes; [burst_send_task],
    posted by a timer, sends them on the serial port and the network.  The
    timer's set-up is register access. *)
From Stdlib Require Import ZifyBool.
From S2P Require Import Agent Serial Comm.
From S2P Require Import Prelude CFloat Generic Str Stdio Layout CmdTable ProtoChar UppProps.

Definition BURST_BUF_LEN : nat := 100.
Definition BURST_MOD_B : Z := 66.
Definition WORK_CLIENT_BASE : Z := 3.

Record burst_t := mk_burst { separator : Z * Z; burst_tcp_enabled : Z; burst_tx_buffer : list Z }.

Definition burst_set_tcp_enable (en : bool) (b : burst_t) : burst_t := mk_burst (separator b) (if en then 1 else 0) (burst_tx_buffer b).
Definition burst_clear_tcp_enable (b : burst_t) : burst_t := mk_burst (separator b) 0 (burst_tx_buffer b).

(** 'S' for a space, 'N' for none. *)
Definition sep_char (c : Z) : Z := if c =? 83 then 32 else if c =? 78 then 0 else c.
Definition burst_init (m : mem) (b : burst_t) : option burst_t :=
  let fmt := from (para_at ["burst"; "fmt"]) m in
  c0 ← fmt !! 0%nat; c1 ← fmt !! 1%nat;
  Some (burst_clear_tcp_enable (mk_burst (sep_char c0, sep_char c1) (burst_tcp_enabled b) (burst_tx_buffer b))).

(** [if (separator[i] != '\0') outbuf[outlen++] = separator[i];] *)
Definition put_sep (sep : Z) (outbuf : list Z) (outlen : Z) : option (list Z * Z) :=
  if sep =? 0 then Some (outbuf, outlen) else o ← st outbuf outlen sep; Some (o, u8 (outlen + 1)).
(** [outlen += sprintf(outbuf + outlen, ...)] *)
Definition put_text (t outbuf : list Z) (outlen : Z) : option (list Z * Z) :=
  o ← sput t outbuf outlen; Some (o, u8 (outlen + zlen t)).

(** The value of a command, in the unit of the display. *)
Definition burst_value (item : cmd_item_t) (m : mem) : option (list Z) :=
  let fmt := r_type (rule item) in
  if is_need_conver_unit (cmd item) then
    let temp := match fmt with
                | FMT_F | FMT_F6 => f32_of_bits (le_decode (take 4 (from (arg item) m)))
                | _ => f_zero
                end in
    data_to_string (le_encode 4 (f32_to_bits (convert_uint temp TEMP_UNIT_INTERNAL (unit_of m)))) fmt
  else data_to_string (from (arg item) m) fmt.

(** One pass of the loop: [cmd_idx] is an [int8_t], so the rows from 128 on have
    negative indices. *)
Definition burst_item (m : mem) (sep : Z * Z) (cmd_list : list Z) (cmd_len : Z) (outbuf : list Z) (outlen : Z) : option (list Z * Z) :=
  i ← cmd_found CMD_TBL cmd_list cmd_len;
  let cmd_idx := s8 i in
  item ← (if cmd_idx =? -1 then Some None else it ← ld CMD_TBL cmd_idx; Some (if has prop_B (props it) then Some it else None));
  match item with
  | None =>
      r ← put_text (codes "error") outbuf outlen; put_sep (snd sep) (fst r) (snd r)
  | Some it =>
      r ← put_text (CmdTable.cmd it) outbuf outlen;
      r ← put_sep (fst sep) (fst r) (snd r);
      v ← burst_value it m;
      r ← put_text v (fst r) (snd r);
      put_sep (snd sep) (fst r) (snd r)
  end.

(** [strchr] up to the terminator, which must exist. *)
Definition word_length (cmd_list : list Z) : option Z :=
  s ← cstr cmd_list;
  Some (match list_find (fun c => c = 44) s with Some (i, _) => Z.of_nat i | None => zlen s end).

(** Every pass consumes a character, so the length of the text is enough
    fuel. *)
Fixpoint burst_loop (fuel : nat) (m : mem) (sep : Z * Z) (cmd_list : list Z) (outbuf : list Z) (outlen : Z) : option (list Z * Z) :=
  c ← cmd_list !! 0%nat;
  if c =? 0 then Some (outbuf, outlen)
  else match fuel with
  | O => None
  | S fuel =>
      n ← word_length cmd_list;
      let cmd_len := u8 n in
      r ← burst_item m sep cmd_list cmd_len outbuf outlen;
      e ← cmd_list !! Z.to_nat cmd_len;
      if e =? 0 then Some r else burst_loop fuel m sep (drop (Z.to_nat cmd_len + 1) cmd_list) (fst r) (snd r)
  end.

(** The end of the line overwrites the last character. *)
Definition burst_build (m : mem) (sep : Z * Z) (cmd_list outbuf : list Z) : option (list Z * Z) :=
  r ← burst_loop (length cmd_list) m sep cmd_list outbuf 0;
  o ← sput [13; 10] (fst r) (snd r - 1);
  Some (o, u8 (snd r + 1)).

Section Send.
Context {N : Type} `{!NetSend N}.
(** [netif_up]: [netif_is_up(netif_default)]. *)
Definition burst_send_task (netif_up : bool) (m : mem) (b : burst_t) (s : io (N := N)) : option (burst_t * io) :=
  if negb (rd_u m (para_at ["burst"; "mode"]) =? BURST_MOD_B) then Some (b, s)
  else
    r ← burst_build m (separator b) (from (para_at ["burst"; "cmd_list"]) m) (burst_tx_buffer b);
    let '(buf, len) := r in
    s ← (if 0 <? len then
           s ← pc_send PC_COM buf len s;
           if negb (burst_tcp_enabled b =? 0) && netif_up
           then n ← tcp_send WORK_CLIENT_BASE buf len (net s); Some (mk_io (com s) n) else Some s
         else Some s);
    Some (mk_burst (separator b) (burst_tcp_enabled b) (replicate BURST_BUF_LEN 0), s).
End Send.

(** * The line that is sent *)

Definition sep_text (c : Z) : list Z := if c =? 0 then [] else [c].
Definition piece (sep : Z * Z) (w v : list Z) : list Z := w ++ sep_text (fst sep) ++ v ++ sep_text (snd sep).
(** The words and values one behind the other. *)
Fixpoint burst_text (m : mem) (sep : Z * Z) (its : list cmd_item_t) : option (list Z) :=
  match its with
  | [] => Some []
  | it :: its => v ← burst_value it m; t ← burst_text m sep its; Some (piece sep (CmdTable.cmd it) v ++ t)
  end.
Fixpoint join (its : list cmd_item_t) : list Z :=
  match its with [] => [] | [it] => CmdTable.cmd it | it :: its => CmdTable.cmd it ++ 44 :: join its end.

(** The text [t] was appended at [outlen], or did not fit with a terminator. *)
Definition wrote (outbuf : list Z) (outlen : Z) (t : list Z) (r : option (list Z * Z)) : Prop :=
  match r with
  | Some (b, n) => n = outlen + zlen t /\ length b = length outbuf /\ n <= zlen outbuf /\
                   take (Z.to_nat n) b = take (Z.to_nat outlen) outbuf ++ t
  | None => zlen outbuf < outlen + zlen t + 1
  end.

Lemma wrote_bind outbuf outlen t t' r f : 0 <= outlen <= zlen outbuf -> wrote outbuf outlen t r ->
  (forall b n, length b = length outbuf -> 0 <= n <= zlen b -> wrote b n t' (f (b, n))) -> wrote outbuf outlen (t ++ t') (r ≫= f).
Proof.
  intros Ho Hr Hf. destruct r as [[b n]|]; cbn [mbind option_bind].
  - destruct Hr as (-> & Hl & Hn & Ht). specialize (Hf b (outlen + zlen t) Hl ltac:(lia)). unfold wrote in *. rewrite zlen_app.
    destruct (f _) as [[b' n']|]; [|lia]. destruct Hf as (-> & Hl' & Hn' & Ht'). split; [lia|]. split; [congruence|]. split; [lia|].
    by rewrite Ht', Ht, app_assoc.
  - cbn in *. rewrite length_app. lia.
Qed.
Lemma wrote_nil outbuf outlen : 0 <= outlen <= zlen outbuf -> wrote outbuf outlen [] (Some (outbuf, outlen)).
Proof. intros. unfold wrote. rewrite app_nil_r. cbn. repeat split; lia. Qed.

Lemma take_put_end (t l : list Z) o : (o + length t <= length l)%nat -> take (o + length t) (put o t l) = take o l ++ t.
Proof.
  intros H. unfold put. rewrite app_assoc, take_app_le by (rewrite length_app, length_take; lia).
  rewrite take_ge; [done|]. rewrite length_app, length_take. lia.
Qed.

Lemma take_put_text (t l : list Z) o : (o + length t + 1 <= length l)%nat -> take (o + length t) (put o (t ++ [0]) l) = take o l ++ t.
Proof.
  intros H. pose proof (take_put_end (t ++ [0]) l o) as E. rewrite length_app in E. cbn [length] in E.
  replace (o + length t)%nat with ((o + length t) `min` (o + (length t + 1)))%nat by lia.
  rewrite <- take_take, E by lia. rewrite app_assoc. rewrite take_app_le by (rewrite length_app, length_take; lia).
  apply take_ge. rewrite length_app, length_take. lia.
Qed.

Lemma put_text_wrote t outbuf outlen : 0 <= outlen <= zlen outbuf -> zlen outbuf < 256 -> wrote outbuf outlen t (put_text t outbuf outlen).
Proof.
  intros Ho Hl. unfold put_text, sput. rewrite (proj2 (Z.leb_le 0 _)) by lia. cbn [andb].
  destruct (Z.leb_spec (outlen + zlen t + 1) (zlen outbuf)) as [L|L]; cbn [mbind option_bind wrote]; [|done].
  rewrite u8_small by lia. split; [done|]. split; [apply put_length; rewrite length_app; cbn; lia|]. split; [lia|].
  replace (Z.to_nat (outlen + zlen t)) with (Z.to_nat outlen + length t)%nat by lia.
  apply take_put_text. lia.
Qed.

Lemma put_sep_wrote c outbuf outlen : 0 <= outlen <= zlen outbuf -> zlen outbuf < 256 -> wrote outbuf outlen (sep_text c) (put_sep c outbuf outlen).
Proof.
  intros Ho Hl. unfold put_sep, sep_text. destruct (c =? 0); [by apply wrote_nil|].
  destruct (Z.ltb_spec outlen (zlen outbuf)).
  - rewrite st_Some by lia. cbn [mbind option_bind wrote length]. rewrite u8_small by lia. split; [lia|]. split; [by rewrite length_insert|].
    split; [lia|]. replace (Z.to_nat (outlen + 1)) with (S (Z.to_nat outlen)) by lia.
    rewrite (take_S_r _ _ c) by (apply list_lookup_insert_eq; lia). by rewrite take_insert_ge by lia.
  - unfold st. rewrite (proj2 (Z.ltb_ge _ _)) by lia. rewrite andb_false_r. cbn. lia.
Qed.

(** The rows that a report may name. *)
Definition reported (it : cmd_item_t) : Prop := exists i, CMD_TBL !! i = Some it /\ (i < 128)%nat /\ has prop_B (props it) = true.

Lemma reported_word it : reported it -> is_word (CmdTable.cmd it).
Proof. intros (i & Hi & _). by apply (row_facts i it Hi). Qed.

(** The list seen from a word on. *)
Definition list_from (its : list cmd_item_t) : list Z := match its with [] => [] | _ => 44 :: join its end.
Lemma join_cons it its : join (it :: its) = CmdTable.cmd it ++ list_from its.
Proof. destruct its; [by rewrite app_nil_r|done]. Qed.

Lemma word_chars w : is_word w -> Forall (fun c => c <> 0 /\ c <> 44) w.
Proof. intros [H _]. eapply Forall_impl; [exact H|]. unfold is_upper. intros c Hc. lia. Qed.
Lemma join_chars its : Forall reported its -> nul_free (join its).
Proof.
  induction 1 as [|it its Hit Hits IH]; [constructor|]. rewrite join_cons. apply Forall_app_2.
  - eapply Forall_impl; [apply word_chars, reported_word, Hit|]. by intros c [].
  - unfold list_from. destruct its; constructor; done.
Qed.

Lemma word_length_join it its rest : Forall reported (it :: its) ->
  word_length (join (it :: its) ++ 0 :: rest) = Some (zlen (CmdTable.cmd it)).
Proof.
  intros H. unfold word_length. rewrite cstr_text by by apply join_chars. cbn [mbind option_bind]. rewrite join_cons. f_equal.
  apply Forall_cons in H as [Hit _]. pose proof (word_chars _ (reported_word _ Hit)) as Hw.
  assert (Hno : list_find (fun c => c = 44) (CmdTable.cmd it) = None)
    by (apply list_find_None; eapply Forall_impl; [exact Hw|]; by intros c []).
  destruct its as [|it2 its]; cbn [list_from]; [by rewrite app_nil_r, Hno|].
  replace (list_find _ _) with (Some (length (CmdTable.cmd it), 44)); [done|].
  rewrite (list_find_app_r _ (CmdTable.cmd it) _ Hno). by vm_compute.
Qed.

(** A pass appends the piece of its command. *)
Lemma burst_item_wrote m sep it v tail outbuf outlen : reported it -> burst_value it m = Some v ->
  0 <= outlen <= zlen outbuf -> zlen outbuf < 256 ->
  wrote outbuf outlen (piece sep (CmdTable.cmd it) v) (burst_item m sep (CmdTable.cmd it ++ tail) (zlen (CmdTable.cmd it)) outbuf outlen).
Proof.
  intros (i & Hi & Hi2 & HB) Hv Ho Hl. unfold burst_item.
  rewrite (cmd_found_row i it) by (exact Hi || (rewrite length_app; lia) || (rewrite Nat2Z.id; symmetry; apply take_app_length)).
  cbn [mbind option_bind]. replace (s8 (Z.of_nat i)) with (Z.of_nat i) by (unfold s8; rewrite Z.mod_small; lia).
  rewrite (proj2 (Z.eqb_neq _ _)) by lia. rewrite ld_nat, Hi. cbn [mbind option_bind]. rewrite HB.
  unfold piece. apply wrote_bind; [lia|by apply put_text_wrote|]. intros b1 n1 L1 N1. cbn [fst snd].
  apply wrote_bind; [lia|apply put_sep_wrote; lia|]. intros b2 n2 L2 N2. rewrite Hv. cbn [fst snd mbind option_bind].
  apply wrote_bind; [lia|apply put_text_wrote; lia|]. intros b3 n3 L3 N3. cbn [fst snd]. apply put_sep_wrote; lia.
Qed.

Lemma burst_loop_S fuel m sep cmd_list outbuf outlen : burst_loop (S fuel) m sep cmd_list outbuf outlen =
  (c ← cmd_list !! 0%nat;
   if c =? 0 then Some (outbuf, outlen)
   else n ← word_length cmd_list;
        r ← burst_item m sep cmd_list (u8 n) outbuf outlen;
        e ← cmd_list !! Z.to_nat (u8 n);
        if e =? 0 then Some r else burst_loop fuel m sep (drop (Z.to_nat (u8 n) + 1) cmd_list) (fst r) (snd r)).
Proof. reflexivity. Qed.

Lemma burst_loop_wrote m sep rest its : forall fuel text outbuf outlen, its <> [] -> Forall reported its ->
  burst_text m sep its = Some text -> (length its <= fuel)%nat -> 0 <= outlen <= zlen outbuf -> zlen outbuf < 256 ->
  wrote outbuf outlen text (burst_loop fuel m sep (join its ++ 0 :: rest) outbuf outlen).
Proof.
  induction its as [|it its IH]; intros fuel text outbuf outlen Hne Hr Ht Hf Ho Hl; [done|]. clear Hne.
  pose proof Hr as Hr0. apply Forall_cons in Hr as [Hit Hits]. cbn [burst_text] in Ht.
  destruct (burst_value it m) as [v|] eqn:Ev; [|done]. cbn [mbind option_bind] in Ht.
  destruct (burst_text m sep its) as [l|] eqn:El; [|done]. cbn [mbind option_bind] in Ht. injection Ht as <-.
  destruct fuel as [|fuel]; [cbn in Hf; lia|].
  pose proof (word_length_join it its rest Hr0) as Hwl. pose proof (reported_word _ Hit) as Hw.
  destruct (CmdTable.cmd it) as [|c w] eqn:Ec; [destruct Hw as [_ Hw]; cbn in Hw; lia|].
  pose proof (word_chars _ Hw) as Hwc. apply Forall_cons in Hwc as [[Hc0 _] _]. destruct Hw as [_ Hwlen].
  rewrite join_cons, Ec in Hwl |- *. rewrite <- app_assoc in Hwl |- *.
  rewrite burst_loop_S.
  pose proof (burst_item_wrote m sep it v (list_from its ++ 0 :: rest) outbuf outlen Hit Ev Ho Hl) as Hi. rewrite Ec in Hi.
  revert Hi. generalize (burst_item m sep). intros item Hi.
  change (((c :: w) ++ list_from its ++ 0 :: rest) !! 0%nat) with (Some c). cbn [mbind option_bind].
  rewrite (proj2 (Z.eqb_neq c 0)) by done. rewrite Hwl. cbn [mbind option_bind]. rewrite u8_small by lia.
  apply wrote_bind; [lia|exact Hi|]. intros b n Lb Nb. rewrite Nat2Z.id, lookup_app_r, Nat.sub_diag by lia.
  destruct its as [|it2 its]; cbn [list_from app].
  - injection El as <-. cbn [lookup list_lookup mbind option_bind Z.eqb]. by apply wrote_nil.
  - cbn [lookup list_lookup mbind option_bind]. cbn [Z.eqb fst snd].
    assert (Ed : drop (length (c :: w) + 1) (c :: w ++ 44 :: join (it2 :: its) ++ 0 :: rest) = join (it2 :: its) ++ 0 :: rest).
    { change (c :: w ++ 44 :: join (it2 :: its) ++ 0 :: rest) with ((c :: w) ++ 44 :: join (it2 :: its) ++ 0 :: rest).
      by rewrite <- drop_drop, drop_app_length. }
    rewrite Ed.
    apply IH; [done|exact Hits|reflexivity|cbn [length] in Hf |- *; lia|lia|lia].
Qed.

Lemma join_length its : Forall reported its -> (length its <= S (length (join its)))%nat /\ (its <> [] -> (length its <= length (join its))%nat).
Proof.
  induction 1 as [|it its Hit Hits [IH1 IH2]]; [by split; [cbn; lia|]|]. pose proof (proj2 (reported_word _ Hit)) as Hw.
  rewrite join_cons, length_app. destruct its as [|it2 its]; [cbn in *; lia|].
  specialize (IH2 ltac:(done)). unfold list_from. cbn [length] in *. lia.
Qed.

(** The report.  For a list of commands below row 128 that have the burst
    property, of which the values can be printed: the line is the words, the
    separators and the values one behind the other, with its last character
    replaced by the end of the line (a separator, or a digit of the last value
    if there is none), and the result is its length; this holds for up to 98
    characters, and a longer text writes behind the buffer. *)
Theorem burst_line m sep its text rest outbuf : its <> [] -> Forall reported its -> burst_text m sep its = Some text ->
  zlen outbuf = Z.of_nat BURST_BUF_LEN ->
  if zlen text <=? 98
  then exists b, burst_build m sep (join its ++ 0 :: rest) outbuf = Some (b, zlen text + 1) /\ length b = BURST_BUF_LEN /\
         take (Z.to_nat (zlen text + 1)) b = removelast text ++ [13; 10]
  else burst_build m sep (join its ++ 0 :: rest) outbuf = None.
Proof.
  intros Hne Hr Ht Hl. unfold BURST_BUF_LEN in *.
  pose proof (burst_loop_wrote m sep rest its (length (join its ++ 0 :: rest)) text outbuf 0 Hne Hr Ht) as Hw.
  specialize (Hw ltac:(destruct (join_length its Hr); rewrite length_app; cbn; lia) ltac:(lia) ltac:(lia)). unfold burst_build.
  destruct (burst_loop _ _ _ _ _ _) as [[b n]|]; cbn [mbind option_bind wrote fst snd] in *.
  2: { destruct (Z.leb_spec (zlen text) 98); [lia|done]. }
  destruct Hw as (-> & Lb & Nb & Tb). cbn [Z.add] in *. unfold sput.
  assert (Hpos : 0 < zlen text).
  { destruct its as [|it its]; [done|]. cbn [burst_text] in Ht. destruct (burst_value it m); [|done]. cbn [mbind option_bind] in Ht.
    destruct (burst_text m sep its); [|done]. cbn [mbind option_bind] in Ht. injection Ht as <-. apply Forall_cons in Hr as [Hit _].
    pose proof (proj2 (reported_word _ Hit)). unfold piece. rewrite !length_app. lia. }
  rewrite (proj2 (Z.leb_le 0 _)) by lia. cbn [andb]. replace (zlen b) with 100 by lia.
  change (zlen [13; 10]) with 2. destruct (Z.leb_spec (zlen text) 98) as [L|L].
  - rewrite (proj2 (Z.leb_le _ _)) by lia. cbn [mbind option_bind]. rewrite u8_small by lia. eexists. split; [done|].
    split; [rewrite put_length by (cbn; lia); lia|].
    replace (Z.to_nat (zlen text + 1)) with (Z.to_nat (zlen text - 1) + length [13; 10])%nat by (cbn; lia).
    rewrite Z.add_0_l in *.
    etransitivity; [exact (take_put_text [13; 10] b (Z.to_nat (zlen text - 1)) ltac:(cbn; lia))|]. f_equal.
    change (take (Z.to_nat 0) outbuf) with (@nil Z) in Tb. cbn [app] in Tb.
    rewrite removelast_firstn_len. rewrite <- Tb at 3. rewrite take_take. f_equal. lia.
  - by rewrite (proj2 (Z.leb_gt _ _)) by lia.
Qed.

(** ** Instances *)

Definition zero_mem : mem := mk_mem (replicate (obj_size SYS_PARA) 0) (replicate (obj_size SYS_STATE) 0).
Definition row (i : nat) : cmd_item_t := nth i CMD_TBL (item "" CMD_DA 0 "" FMT_C 0 0 (c_range []) null).
Definition clean_buffer : list Z := replicate BURST_BUF_LEN 0.

(** NUP and WUP with the factory's separators: none and a space. *)
Lemma burst_line_witness :
  Forall reported [row 19; row 20] /\ burst_text zero_mem (0, 32) [row 19; row 20] = Some (codes "NUP0 WUP0 ") /\
  exists b, burst_build zero_mem (0, 32) (codes "NUP,WUP" ++ 0 :: []) clean_buffer = Some (b, 11) /\ length b = BURST_BUF_LEN /\
    take 11 b = codes "NUP0 WUP0" ++ [13; 10].
Proof.
  assert (Hr : Forall reported [row 19; row 20]).
  { constructor; [exists 19%nat|constructor; [exists 20%nat|constructor]]; (split; [reflexivity|]; split; [lia|reflexivity]). }
  assert (Ht : burst_text zero_mem (0, 32) [row 19; row 20] = Some (codes "NUP0 WUP0 ")) by (vm_compute; reflexivity).
  split; [exact Hr|]. split; [exact Ht|].
  exact (burst_line zero_mem (0, 32) [row 19; row 20] _ [] clean_buffer ltac:(discriminate) Hr Ht eq_refl).
Defined.

(** Without separators the last digit is lost. *)
Example last_digit_lost :
  option_map (fun r => take 8 (fst r)) (burst_build zero_mem (0, 0) (codes "NUP,WUP" ++ [0]) clean_buffer) = Some (codes "NUP0WUP" ++ [13])
  /\ option_map snd (burst_build zero_mem (0, 0) (codes "NUP,WUP" ++ [0]) clean_buffer) = Some 9.
Proof. vm_compute. split; reflexivity. Qed.
(** "P" has the burst property and row 128: the index is -128.  An unknown word
    runs off the table.  Both lists are accepted by the command BC. *)
Example bad_rows :
  valid_cmd_list (codes "P" ++ [0]) = Some true /\ burst_build zero_mem (0, 32) (codes "P" ++ [0]) clean_buffer = None /\
  valid_cmd_list (codes "T,XX" ++ [0]) = Some true /\ burst_build zero_mem (0, 32) (codes "T,XX" ++ [0]) clean_buffer = None.
Proof. vm_compute. repeat split; reflexivity. Qed.
(** An empty list writes in front of the buffer. *)
Example empty_list : burst_build zero_mem (0, 32) [0] clean_buffer = None.
Proof. reflexivity. Qed.
