(* ===== verification/TcpServer.v ===== *)
(** * tcp_server.c, thread.c: the TCP servers

    Two listening ports (commands and camera) with four client slots each.
    Every server and every connected client is a thread; a thread is its state
    machine's local variables, and one step runs it to its next blocking call or
    to the end of a pass.  What the calls into lwIP and FreeRTOS return is the
    input of the step ([answers]); the unblocked ("raw") calls of the sending
    function are an interface ([TcpStack]).  Waiting, thread names and
    priorities have no counterpart: every interleaving is a run. *)
From Stdlib Require Import ZifyBool.
From S2P Require Import Agent Serial Comm.
From S2P Require Import Prelude Str Stdio CmdTable Burst.

(** ** Data *)

Definition MAX_CLIENT_COUNT : nat := 4.
Definition USER_THREAD_CNT : Z := 13.
Definition SERVER_THREAD_BASE : Z := 1.
Definition CAMERA_CLIENT_BASE : Z := 7.
Definition CAMERA_CLIENT_END : Z := USER_THREAD_CNT.
Definition LISTEN_PORT_WORK : Z := 6363.
Definition LISTEN_PORT_CAMERA : Z := 80.
Definition CLIENT_OFFLINE_TIMEO : Z := 30.
Definition PROT_MAX_PKT_LEN : nat := 1056.
(** lwIP's error codes. *)
Definition ERR_OK : Z := 0.
Definition ERR_TIMEOUT : Z := -3.
Definition ERR_ABRT : Z := -13.

Inductive server_state_t : Set :=
  | SERVER_STATE_WAIT_LINK | SERVER_STATE_CREATE | SERVER_STATE_BIND | SERVER_STATE_LISTEN | SERVER_STATE_ACCEPT | SERVER_STATE_RESTART.
Inductive client_state_t : Set := CLIENT_STATE_INIT | CLIENT_STATE_WAIT_DATA | CLIENT_STATE_PROCESS | CLIENT_STATE_DISCONNECT.

(** A [struct netconn *] is a number, [None] the null pointer. *)
Record client_t := mk_client { online : Z; num : Z; offline_cntr : Z; conn : option Z; ip : list Z; port : Z; c_listen_port : Z;
  flag_send_open : Z; state : client_state_t }.
Record server_context_t := mk_server { thread_num : Z; listen_port : Z; client_count : Z; client_base_num : Z;
  client_list : list client_t; server_state : server_state_t }.

Definition no_client : client_t := mk_client 0 0 0 None [0; 0; 0; 0] 0 0 0 CLIENT_STATE_INIT.
Definition work_context_0 : server_context_t :=
  mk_server SERVER_THREAD_BASE LISTEN_PORT_WORK 0 WORK_CLIENT_BASE (replicate MAX_CLIENT_COUNT no_client) SERVER_STATE_WAIT_LINK.
Definition camera_context_0 : server_context_t :=
  mk_server (SERVER_THREAD_BASE + 1) LISTEN_PORT_CAMERA 0 CAMERA_CLIENT_BASE (replicate MAX_CLIENT_COUNT no_client) SERVER_STATE_WAIT_LINK.

Definition with_slot (i : nat) (c : client_t) (x : server_context_t) : server_context_t :=
  mk_server (thread_num x) (listen_port x) (client_count x) (client_base_num x) (<[i := c]> (client_list x)) (server_state x).
Definition with_server_state (t : server_state_t) (x : server_context_t) : server_context_t :=
  mk_server (thread_num x) (listen_port x) (client_count x) (client_base_num x) (client_list x) t.
Definition with_thread_num (n : Z) (x : server_context_t) : server_context_t :=
  mk_server n (listen_port x) (client_count x) (client_base_num x) (client_list x) (server_state x).
Definition with_client_count (n : Z) (x : server_context_t) : server_context_t :=
  mk_server (thread_num x) (listen_port x) n (client_base_num x) (client_list x) (server_state x).
Definition with_state (t : client_state_t) (c : client_t) : client_t :=
  mk_client (online c) (num c) (offline_cntr c) (conn c) (ip c) (port c) (c_listen_port c) (flag_send_open c) t.
Definition with_offline (n : Z) (c : client_t) : client_t :=
  mk_client (online c) (num c) n (conn c) (ip c) (port c) (c_listen_port c) (flag_send_open c) (state c).
Definition with_conn (k : option Z) (c : client_t) : client_t :=
  mk_client (online c) (num c) (offline_cntr c) k (ip c) (port c) (c_listen_port c) (flag_send_open c) (state c).
Definition with_online (n : Z) (c : client_t) : client_t :=
  mk_client n (num c) (offline_cntr c) (conn c) (ip c) (port c) (c_listen_port c) (flag_send_open c) (state c).
Definition with_send_open (n : Z) (c : client_t) : client_t :=
  mk_client (online c) (num c) (offline_cntr c) (conn c) (ip c) (port c) (c_listen_port c) n (state c).

(** ** Addresses

    [sscanf] with [%3u]: white space, a sign that counts for the width, digits;
    the characters left over follow. *)
Definition is_space (c : Z) : bool := (c =? 32) || ((9 <=? c) && (c <=? 13)).
Fixpoint skip_space (s : list Z) : list Z := match s with c :: s' => if is_space c then skip_space s' else s | [] => [] end.
Fixpoint digit_run (width : nat) (s : list Z) : list Z :=
  match width, s with
  | S width, c :: s => if is_digit c then c :: digit_run width s else []
  | _, _ => []
  end.
Definition scan_u3 (s : list Z) : option (Z * list Z) :=
  let s := skip_space s in
  let '(neg, s, width) := match s with 43 :: s' => (false, s', 2%nat) | 45 :: s' => (true, s', 2%nat) | _ => (false, s, 3%nat) end in
  let t := digit_run width s in
  match t with
  | [] => None
  | _ => Some (if neg : bool then u32 (- dec_value t) else dec_value t, drop (length t) s)
  end.
Definition scan_dot (s : list Z) : option (list Z) := match s with 46 :: s => Some s | _ => None end.
(** The four numbers when all were converted. *)
Definition scan_ip (s : list Z) : option (list Z) :=
  a ← scan_u3 s; s ← scan_dot (snd a); b ← scan_u3 s; s ← scan_dot (snd b); c ← scan_u3 s; s ← scan_dot (snd c); d ← scan_u3 s;
  Some [fst a; fst b; fst c; fst d].

(** Result: the return value and [dst]; [src] must be terminated. *)
Definition parse_ip_string (src : list Z) : option (Z * list Z) :=
  s ← cstr src;
  Some (match scan_ip s with
        | Some ip => if existsb (fun x => 255 <? x) ip then (-1, [0; 0; 0; 0]) else (0, map u8 ip)
        | None => (-1, [0; 0; 0; 0])
        end).

Record ipconfig := mk_ipconfig { remote_ip : list Z; ip_addr : list Z; gateway : list Z; net_mask : list Z }.
(** From the strings in [sys_para.net] to the addresses in [sys_state]. *)
Definition get_ipconfig_info (remote_ ip_ gateway_ net_mask_ : list Z) : option ipconfig :=
  r1 ← parse_ip_string remote_; r2 ← parse_ip_string ip_; r3 ← parse_ip_string gateway_; r4 ← parse_ip_string net_mask_;
  b ← snd r1 !! 0%nat;
  Some (if negb (fst r1 =? 0) || (b =? 0) then mk_ipconfig [192; 168; 42; 100] [192; 168; 42; 132] [192; 168; 42; 1] [255; 255; 255; 0]
        else mk_ipconfig (snd r1) (snd r2) (snd r3) (snd r4)).

(** ** Sending

    lwIP's side: is the interface up, does a connection still have its [pcb],
    how much may be queued on it, and queueing, which may fail. *)
Class TcpStack (L : Type) := {
  netif_is_up : L -> bool;
  has_pcb : L -> Z -> bool;
  tcp_sndbuf : L -> Z -> Z;
  tcp_write : L -> Z -> list Z -> L * bool }.

Inductive srv : Set := WORK | CAMERA.
#[export] Instance srv_eq_dec : EqDecision srv.
Proof. solve_decision. Defined.

Section Server.
Context {L W : Type} `{!TcpStack L}.

(** [nodelay]: the connections with the flag [TF_NODELAY]. *)
Record net_t := mk_net { lwip : L; work_context : server_context_t; camera_context : server_context_t; tcp_uvc_busy_flag : Z; nodelay : list Z }.
Definition context (k : srv) (n : net_t) : server_context_t := match k with WORK => work_context n | CAMERA => camera_context n end.
Definition with_context (k : srv) (x : server_context_t) (n : net_t) : net_t :=
  match k with
  | WORK => mk_net (lwip n) x (camera_context n) (tcp_uvc_busy_flag n) (nodelay n)
  | CAMERA => mk_net (lwip n) (work_context n) x (tcp_uvc_busy_flag n) (nodelay n)
  end.
Definition with_lwip (l : L) (n : net_t) : net_t := mk_net l (work_context n) (camera_context n) (tcp_uvc_busy_flag n) (nodelay n).

(** Which context a client number belongs to. *)
Definition context_of (client_num : Z) : option srv :=
  if (WORK_CLIENT_BASE <=? client_num) && (client_num <? CAMERA_CLIENT_BASE) then Some WORK
  else if (CAMERA_CLIENT_BASE <=? client_num) && (client_num <=? CAMERA_CLIENT_END) then Some CAMERA
  else None.

(** Result: the state and the return value. *)
Definition tcp_server_send_low (client_num : Z) (buff : list Z) (outlen : Z) (n : net_t) : option (net_t * Z) :=
  if negb (netif_is_up (lwip n)) then Some (n, -1)
  else if (client_num <? 0) || (USER_THREAD_CNT <=? client_num) then Some (n, -1)
  else match context_of client_num with
  | None => Some (n, -1)
  | Some k =>
      let ctx := context k n in
      let local_index := client_num - client_base_num ctx in
      if (local_index <? 0) || (client_count ctx <=? local_index) then Some (n, -1)
      else
        c ← ld (client_list ctx) local_index;
        match conn c with
        | None => Some (n, -1)
        | Some id =>
            if negb (has_pcb (lwip n) id) then None
            else
              let n := mk_net (lwip n) (work_context n) (camera_context n) 1 (id :: nodelay n) in
              if tcp_sndbuf (lwip n) id <? 23360 then Some (n, -1)
              else if zlen buff <? u16 outlen then None
              else let '(l, ok) := tcp_write (lwip n) id (take (Z.to_nat (u16 outlen)) buff) in
                   Some (with_lwip l n, if ok : bool then 0 else -1)
        end
  end.
#[export] Instance tcp_net : NetSend net_t :=
  {| tcp_send ch data len n := r ← tcp_server_send_low ch data len n; Some (fst r) |}.

(** [tcp_server_send], which nothing calls: pieces of [MAX_SEND_SIZE], each tried
    three times; [netconn_write] gives lwIP's state and an error code.  A pass
    sends a byte at least, so [outlen] passes are enough. *)
Definition MAX_SEND_SIZE : Z := 1460.
Definition MAX_RETRY_COUNT : nat := 3.
Definition ERR_CONN : Z := -11.
Definition ERR_CLSD : Z := -15.
Section Send.
Context (netconn_write : L -> Z -> list Z -> bool -> L * Z).
Fixpoint write_retry (n : nat) (id : Z) (data : list Z) (more : bool) (l : L) : L * bool :=
  match n with
  | O => (l, false)
  | S n =>
      let '(l, err) := netconn_write l id data more in
      if err =? ERR_OK then (l, true)
      else if (err =? ERR_ABRT) || (err =? ERR_CLSD) || (err =? ERR_CONN) then (l, false)
      else write_retry n id data more l
  end.
Fixpoint send_loop (fuel : nat) (id : Z) (data : list Z) (remaining : Z) (l : L) : option (L * Z) :=
  if remaining <=? 0 then Some (l, 0)
  else match fuel with
  | O => None
  | S fuel =>
      let send_size := if MAX_SEND_SIZE <? remaining then MAX_SEND_SIZE else remaining in
      if zlen data <? send_size then None
      else
        let '(l, ok) := write_retry MAX_RETRY_COUNT id (take (Z.to_nat send_size) data) (negb (remaining <=? MAX_SEND_SIZE)) l in
        if ok : bool then send_loop fuel id (drop (Z.to_nat send_size) data) (remaining - send_size) l else Some (l, -1)
  end.
Definition tcp_server_send (client_num : Z) (buff : list Z) (outlen : Z) (n : net_t) : option (net_t * Z) :=
  if negb (netif_is_up (lwip n)) then Some (n, -1)
  else if (client_num <? 0) || (USER_THREAD_CNT <=? client_num) then Some (n, -1)
  else match context_of client_num with
  | None => Some (n, -1)
  | Some k =>
      let ctx := context k n in
      let local_index := client_num - client_base_num ctx in
      if (local_index <? 0) || (client_count ctx <=? local_index) then Some (n, -1)
      else
        c ← ld (client_list ctx) local_index;
        match conn c with
        | None => Some (n, -1)
        | Some id => r ← send_loop (Z.to_nat outlen) id buff outlen (lwip n); Some (with_lwip (fst r) n, snd r)
        end
  end.
End Send.

(** ** Threads

    The locals of a server thread are its listening port and connection.  A
    client thread has the received [netbuf] (bytes from the data pointer to
    the end of its memory, and the length), [outlen], and a place: at the top of
    the loop; in [PROCESS] after the copy, where the critical section begins; in
    [DISCONNECT] at the two blocking calls [netconn_close], [netconn_delete]. *)
Inductive place : Set := TOP | COPIED | CLOSING | DELETING.
#[export] Instance place_eq_dec : EqDecision place.
Proof. solve_decision. Defined.
Inductive thread : Type :=
  | Server (k : srv) (port : Z) (conn : option Z)
  | Client (k : srv) (i : nat) (at_ : place) (buff : option (list Z * Z)) (outlen : Z).

(** The statics of the file, the flags in [sys_state], the channel manager with
    the two ports' devices, lwIP's open connections, and the threads. *)
Record tcp_t := mk_tcp { server_rx_buffer : list Z; server_tx_buffer : list Z; tcp_port : comm_port_t; burst : burst_t;
  camera_flag_open_send : Z; camera_client_num : Z; timer11 : bool; comm : comm_t (N := net_t) (W := W);
  netconns : list Z; threads : list thread }.

Definition the_net (s : tcp_t) : net_t := net (dev (comm s)).
Definition with_comm (c : comm_t) (s : tcp_t) : tcp_t :=
  mk_tcp (server_rx_buffer s) (server_tx_buffer s) (tcp_port s) (burst s) (camera_flag_open_send s) (camera_client_num s) (timer11 s) c (netconns s) (threads s).
Definition with_net (n : net_t) (s : tcp_t) : tcp_t := with_comm (with_dev (mk_io (com (dev (comm s))) n) (comm s)) s.
Definition with_mgr (m : comm_manager_t) (s : tcp_t) : tcp_t :=
  with_comm (mk_comm m (uart_group (comm s)) (tcp_group (comm s)) (dev (comm s)) (world (comm s))) s.
Definition with_netconns (l : list Z) (s : tcp_t) : tcp_t :=
  mk_tcp (server_rx_buffer s) (server_tx_buffer s) (tcp_port s) (burst s) (camera_flag_open_send s) (camera_client_num s) (timer11 s) (comm s) l (threads s).
Definition with_threads (l : list thread) (s : tcp_t) : tcp_t :=
  mk_tcp (server_rx_buffer s) (server_tx_buffer s) (tcp_port s) (burst s) (camera_flag_open_send s) (camera_client_num s) (timer11 s) (comm s) (netconns s) l.
Definition with_flags (f c : Z) (t : bool) (s : tcp_t) : tcp_t :=
  mk_tcp (server_rx_buffer s) (server_tx_buffer s) (tcp_port s) (burst s) f c t (comm s) (netconns s) (threads s).
Definition with_burst (b : burst_t) (s : tcp_t) : tcp_t :=
  mk_tcp (server_rx_buffer s) (server_tx_buffer s) (tcp_port s) b (camera_flag_open_send s) (camera_client_num s) (timer11 s) (comm s) (netconns s) (threads s).
Definition with_rx (rx : list Z) (p : comm_port_t) (s : tcp_t) : tcp_t :=
  mk_tcp rx (server_tx_buffer s) p (burst s) (camera_flag_open_send s) (camera_client_num s) (timer11 s) (comm s) (netconns s) (threads s).
Definition with_tx (tx : list Z) (s : tcp_t) : tcp_t :=
  mk_tcp (server_rx_buffer s) tx (tcp_port s) (burst s) (camera_flag_open_send s) (camera_client_num s) (timer11 s) (comm s) (netconns s) (threads s).

Definition ctx_of (k : srv) (s : tcp_t) : server_context_t := context k (the_net s).
Definition with_ctx (k : srv) (x : server_context_t) (s : tcp_t) : tcp_t := with_net (with_context k x (the_net s)) s.
Definition slot (k : srv) (i : nat) (s : tcp_t) : option client_t := client_list (ctx_of k s) !! i.
Definition with_client (k : srv) (i : nat) (c : client_t) (s : tcp_t) : tcp_t := with_ctx k (with_slot i c (ctx_of k s)) s.
Definition set_server_state (k : srv) (t : server_state_t) (s : tcp_t) : tcp_t := with_ctx k (with_server_state t (ctx_of k s)) s.

(** [netconn_delete]; the null pointer is accepted. *)
Definition netconn_delete (id : option Z) (s : tcp_t) : tcp_t :=
  match id with None => s | Some id => with_netconns (remove_first id (netconns s)) s end.

(** The result says whether [xTaskCreate] was reached and succeeded. *)
Definition thread_create (num : Z) (t : thread) (created : bool) (s : tcp_t) : tcp_t * Z :=
  if (num <? 1) || (USER_THREAD_CNT <? num) then (s, 0)
  else if created then (with_threads (threads s ++ [t]) s, num) else (s, 0).

(** What the calls of a step return.  [recv_buff]: [None] for a null data
    pointer. *)
Record answers := mk_answers { link_up : bool; new_conn : option Z; bind_err : Z; listen_err : Z; accept_err : Z; accepted : Z;
  peer_addr : Z; peer_port : Z; mutex_ok : bool; alloc_ok : bool; created : bool;
  recv_err : Z; recv_buff : option (list Z); recv_len : Z }.

Definition free_slot (x : server_context_t) : option (nat * client_t) := list_find (fun c => online c = 0) (client_list x).

(** The accepted connection gets a slot, a channel and a thread. *)
Definition server_accept (a : answers) (k : srv) (lport : Z) (s : tcp_t) : option tcp_t :=
  let s := with_netconns (accepted a :: netconns s) s in
  match free_slot (ctx_of k s) with
  | None => Some (netconn_delete (Some (accepted a)) s)
  | Some (i, c) =>
      let n := client_base_num (ctx_of k s) + Z.of_nat i in
      let addr := peer_addr a in
      let c := mk_client 1 n (offline_cntr c) (Some (accepted a))
        [Z.land addr 255; Z.land (Z.shiftr addr 8) 255; Z.land (Z.shiftr addr 16) 255; Z.land (Z.shiftr addr 24) 255]
        (peer_port a) lport (flag_send_open c) CLIENT_STATE_INIT in
      let s := with_client k i c s in
      r ← comm_channel_add (mutex_ok a) (alloc_ok a) (tcp_group (comm s)) n (comm_mgr (comm s));
      let s := with_mgr (fst r) s in
      let '(s, ret) := thread_create n (Client k i TOP None 0) (created a) s in
      Some (if ret =? 0 then s
            else let s := if lport =? 80 then with_flags (camera_flag_open_send s) (camera_client_num s) true s else s in
                 with_ctx k (with_client_count (client_count (ctx_of k s) + 1) (ctx_of k s)) s)
  end.

(** One pass.  Result: the locals afterwards, [None] when the thread has deleted
    itself, and the state.  The old thread of a restart only waits 10 ms more,
    so its end is part of the step. *)
Definition server_task (a : answers) (k : srv) (lport : Z) (conn : option Z) (s : tcp_t) : option (option thread * tcp_t) :=
  let go conn s := Some (Some (Server k lport conn), s) in
  let fail s := go None (set_server_state k SERVER_STATE_RESTART (netconn_delete conn s)) in
  match server_state (ctx_of k s) with
  | SERVER_STATE_WAIT_LINK => go conn (if link_up a then set_server_state k SERVER_STATE_CREATE s else s)
  | SERVER_STATE_CREATE =>
      match new_conn a with
      | None => go None (set_server_state k SERVER_STATE_RESTART s)
      | Some id => go (Some id) (set_server_state k SERVER_STATE_BIND (with_netconns (id :: netconns s) s))
      end
  | SERVER_STATE_BIND => if bind_err a =? ERR_OK then go conn (set_server_state k SERVER_STATE_LISTEN s) else fail s
  | SERVER_STATE_LISTEN => if listen_err a =? ERR_OK then go conn (set_server_state k SERVER_STATE_ACCEPT s) else fail s
  | SERVER_STATE_ACCEPT =>
      if accept_err a =? ERR_TIMEOUT then go conn s
      else if accept_err a =? ERR_ABRT then go conn s
      else if negb (accept_err a =? ERR_OK) then go conn (set_server_state k SERVER_STATE_RESTART s)
      else s ← server_accept a k lport s; go conn s
  | SERVER_STATE_RESTART =>
      let s := netconn_delete conn s in
      let x := ctx_of k s in
      let '(s, ret) := thread_create (thread_num x) (Server k (listen_port x) None) (created a) s in
      if ret =? 0 then go None s else Some (None, s)
  end.

(** ** A client thread *)

(** [strstr] on memory that need not be terminated. *)
Fixpoint strstr_mem (m sub : list Z) : option bool :=
  if is_prefix sub m then Some true
  else match m with [] => None | c :: m => if c =? 0 then Some false else strstr_mem m sub end.

Definition crlf : list Z := [13; 10].
Definition http_header : list Z :=
  codes "HTTP/1.0 200 OK" ++ crlf ++ codes "Connection: close" ++ crlf ++ codes "Server: EN-Streamer/1.2" ++ crlf ++
  codes "Cache-Control: no-store, no-cache, must-revalidate" ++ crlf ++ codes "Pragma: no-cache" ++ crlf ++ codes "Expires: 0" ++ crlf ++
  codes "Content-Type: multipart/x-mixed-replace;boundary=boundarydonotcross" ++ crlf ++ crlf.

Definition process_http_request (data : list Z) (len : Z) (k : srv) (i : nat) (s : tcp_t) : option tcp_t :=
  c ← slot k i s;
  if (len <? 5) || negb (is_prefix (codes "GET ") data) then Some s
  else
    found ← strstr_mem data (codes "/camera?action=stream");
    if found : bool then
      r ← tcp_server_send_low (num c) http_header (zlen http_header) (the_net s);
      let s := with_net (fst r) s in
      Some (with_flags 1 (num c) (timer11 s) (with_client k i (with_send_open 1 c) s))
    else Some s.

(** [mem_copy(server_rx_buffer, data, len)]: past either buffer, [None]. *)
Definition copy_in (data : list Z) (len : Z) (rx : list Z) : option (list Z) :=
  if (zlen data <? len) || (zlen rx <? len) then None else Some (put 0 (take (Z.to_nat len) data) rx).

(** Entering [INIT]: a null connection is dereferenced. *)
Definition client_init (k : srv) (i : nat) (c : client_t) (s : tcp_t) : option tcp_t :=
  match conn c with
  | None => None
  | Some _ =>
      let s := if c_listen_port c =? listen_port (ctx_of WORK s) then with_burst (burst_clear_tcp_enable (burst_clear_tcp_enable (burst s))) s else s in
      let s := if c_listen_port c =? 80 then with_flags (camera_flag_open_send s) (num c) (timer11 s) s else s in
      Some (with_client k i (with_state CLIENT_STATE_WAIT_DATA (with_offline 0 c)) s)
  end.

(** Result: the [netbuf] kept for [PROCESS]. *)
Definition client_wait (a : answers) (k : srv) (i : nat) (c : client_t) (s : tcp_t) : option (list Z * Z) * tcp_t :=
  let c := with_offline (if netif_is_up (lwip (the_net s)) then 0 else offline_cntr c + 1) c in
  if CLIENT_OFFLINE_TIMEO <=? offline_cntr c then (None, with_client k i (with_state CLIENT_STATE_DISCONNECT c) s)
  else if recv_err a =? ERR_TIMEOUT then (None, with_client k i c s)
  else if negb (recv_err a =? ERR_OK) then (None, with_client k i (with_state CLIENT_STATE_DISCONNECT c) s)
  else match recv_buff a with
  | Some data => if 0 <? recv_len a then (Some (data, recv_len a), with_client k i (with_state CLIENT_STATE_PROCESS c) s)
                 else (None, with_client k i c s)
  | None => (None, with_client k i c s)
  end.

(** The first half of [PROCESS]: the copy and the port, which are shared by all
    client threads. *)
Definition client_copy (data : list Z) (len : Z) (c : client_t) (s : tcp_t) : option tcp_t :=
  rx ← copy_in data len (server_rx_buffer s);
  Some (with_rx rx (mk_port (u8 (tcp_group (comm s))) (u8 (num c))) s).

(** The second half, in the critical section for the command port. *)
Definition client_answer `{!Protocols W} (data : list Z) (len outlen : Z) (k : srv) (i : nat) (c : client_t) (s : tcp_t) : option (tcp_t * Z) :=
  if c_listen_port c =? 80 then s ← process_http_request data len k i s; Some (s, outlen)
  else
    r ← proto_process (server_rx_buffer s) (server_tx_buffer s) len outlen (tcp_port s) (comm s);
    let '(x, tx, outlen) := r in Some (with_comm x (with_tx tx s), outlen).

(** [DISCONNECT] up to the first blocking call. *)
Definition client_leave (a : answers) (k : srv) (i : nat) (c : client_t) (s : tcp_t) : option tcp_t :=
  r ← comm_channel_remove (mutex_ok a) (alloc_ok a) (tcp_group (comm s)) (num c) (comm_mgr (comm s));
  let s := with_mgr (fst r) s in
  let s := if c_listen_port c =? listen_port (ctx_of WORK s) then
             with_ctx WORK (with_thread_num (thread_num (ctx_of WORK s) - 1) (ctx_of WORK s)) (with_burst (burst_clear_tcp_enable (burst s)) s)
           else if c_listen_port c =? listen_port (ctx_of CAMERA s) then
             with_ctx CAMERA (with_thread_num (thread_num (ctx_of CAMERA s) - 1) (ctx_of CAMERA s))
               (with_flags (camera_flag_open_send s) (camera_client_num s) false s)
           else s in
  let s := with_client k i (with_online 0 c) s in
  Some (if (CAMERA_CLIENT_BASE <=? num c) && (num c <=? CAMERA_CLIENT_END) then with_flags 0 (camera_client_num s) (timer11 s) s else s).

Definition client_thread `{!Protocols W} (a : answers) (k : srv) (i : nat) (at_ : place) (buff : option (list Z * Z)) (outlen : Z) (s : tcp_t)
  : option (option thread * tcp_t) :=
  c ← slot k i s;
  match at_ with
  | TOP =>
      match state c with
      | CLIENT_STATE_INIT => s ← client_init k i c s; Some (Some (Client k i TOP None outlen), s)
      | CLIENT_STATE_WAIT_DATA => let '(b, s) := client_wait a k i c s in Some (Some (Client k i TOP b outlen), s)
      | CLIENT_STATE_PROCESS =>
          b ← buff; s ← client_copy (fst b) (snd b) c s; Some (Some (Client k i COPIED buff outlen), s)
      | CLIENT_STATE_DISCONNECT => s ← client_leave a k i c s; Some (Some (Client k i CLOSING None outlen), s)
      end
  | COPIED =>
      b ← buff; r ← client_answer (fst b) (snd b) outlen k i c s;
      let '(s, outlen) := r in
      c ← slot k i s;
      Some (Some (Client k i TOP None outlen), with_client k i (with_state CLIENT_STATE_WAIT_DATA c) s)
  | CLOSING => match conn c with
               | None => Some (None, s)
               | Some _ => Some (Some (Client k i DELETING None outlen), s)
               end
  | DELETING => Some (None, with_client k i (with_conn None c) (netconn_delete (conn c) s))
  end.

(** ** Running

    A step runs one thread, with any answers in which a new connection is not
    one of the open ones, or is a change in lwIP. *)
Definition run_thread `{!Protocols W} (a : answers) (j : nat) (s : tcp_t) : option tcp_t :=
  t ← threads s !! j;
  r ← (match t with
       | Server k lport conn => server_task a k lport conn s
       | Client k i at_ buff outlen => client_thread a k i at_ buff outlen s
       end);
  let '(t, s) := r in
  Some (with_threads (match t with Some t => <[j := t]> (threads s) | None => delete j (threads s) end) s).

Definition fresh (a : answers) (s : tcp_t) : Prop :=
  (accepted a ∉ netconns s) /\ match new_conn a with Some id => id ∉ netconns s | None => True end.
Inductive tcp_step `{!Protocols W} : tcp_t -> tcp_t -> Prop :=
  | thread_step a j s s' : fresh a s -> run_thread a j s = Some s' -> tcp_step s s'
  | lwip_step l s : tcp_step s (with_net (with_lwip l (the_net s)) s).

(** [tcpsvr_start] with the configured port. *)
Definition tcpsvr_start (net_port : Z) (created1 created2 : bool) (s : tcp_t) : tcp_t :=
  let x := ctx_of WORK s in
  let s := if net_port <? 65536
           then with_ctx WORK (mk_server (thread_num x) (u16 net_port) (client_count x) (client_base_num x) (client_list x) (server_state x)) s else s in
  let start k created s := fst (thread_create (thread_num (ctx_of k s)) (Server k (listen_port (ctx_of k s)) None) created s) in
  start CAMERA created2 (start WORK created1 s).

(** * Texts of addresses *)

Lemma digit_run_all t s : Forall (fun c => is_digit c = true) t -> (length t <= 3)%nat ->
  match s with [] => True | c :: _ => is_digit c = false end -> digit_run 3 (t ++ s) = t.
Proof.
  generalize 3%nat. intros n. revert n. induction t as [|c t IH]; intros n Ht Hl Hs.
  - destruct n, s as [|c s]; cbn; try done. by rewrite Hs.
  - apply Forall_cons in Ht as [Hc Ht]. destruct n; [cbn in Hl; lia|]. cbn. rewrite Hc. f_equal. apply IH; [done|cbn in Hl; lia|done].
Qed.
Lemma scan_u3_digits t s : Forall (fun c => is_digit c = true) t -> (1 <= length t <= 3)%nat ->
  match s with [] => True | c :: _ => is_digit c = false end -> scan_u3 (t ++ s) = Some (dec_value t, s).
Proof.
  intros Ht Hl Hs. pose proof (digit_run_all t s Ht ltac:(lia) Hs) as Hr. destruct t as [|c t]; [cbn in Hl; lia|].
  pose proof Ht as [Hc _]%Forall_cons. assert (Hsp : is_space c = false) by (clear - Hc; unfold is_digit, is_space in *; lia).
  unfold scan_u3. cbn [app skip_space] in *. rewrite Hsp.
  assert (Hc2 : c = 48 \/ c = 49 \/ c = 50 \/ c = 51 \/ c = 52 \/ c = 53 \/ c = 54 \/ c = 55 \/ c = 56 \/ c = 57)
    by (clear - Hc; unfold is_digit in *; lia).
  repeat (destruct Hc2 as [->|Hc2] || subst c); cbv beta iota zeta; rewrite Hr; by rewrite app_comm_cons, drop_app_length.
Qed.

Lemma octet_facts t : is_octet t -> Forall (fun c => is_digit c = true) t /\ (1 <= length t <= 3)%nat /\ 0 <= dec_value t <= 255 /\ nul_free t.
Proof.
  intros (H1 & H2 & H3). split; [|split; [done|split; [split; [|done]|]]].
  - eapply Forall_impl; [exact H1|]. intros c Hc. unfold is_digit. cbv beta in Hc. lia.
  - apply dec_value_nonneg. eapply Forall_impl; [exact H1|]. intros c Hc. unfold is_digit. cbv beta in Hc. lia.
  - eapply Forall_impl; [exact H1|]. intros c Hc. cbv beta in Hc. lia.
Qed.

(** The address texts that the command protocol accepts are read to their four
    bytes. *)
Theorem parse_ip_text t1 t2 t3 t4 rest : is_octet t1 -> is_octet t2 -> is_octet t3 -> is_octet t4 ->
  parse_ip_string (dotted [t1; t2; t3; t4] ++ 0 :: rest) = Some (0, [dec_value t1; dec_value t2; dec_value t3; dec_value t4]).
Proof.
  intros (P1 & P2 & P3 & P4)%octet_facts (Q1 & Q2 & Q3 & Q4)%octet_facts (R1 & R2 & R3 & R4)%octet_facts (S1 & S2 & S3 & S4)%octet_facts.
  unfold parse_ip_string. rewrite cstr_text.
  2:{ unfold dotted. cbn. repeat first [done|apply Forall_app; split|apply Forall_cons; split]. }
  cbn [mbind option_bind]. unfold scan_ip, dotted. cbn [map concat app]. rewrite app_nil_r.
  rewrite scan_u3_digits by done. cbn [mbind option_bind fst snd scan_dot].
  rewrite scan_u3_digits by done. cbn [mbind option_bind fst snd scan_dot].
  rewrite scan_u3_digits by done. cbn [mbind option_bind fst snd scan_dot].
  rewrite <- (app_nil_r t4) at 1. rewrite scan_u3_digits by done. cbn [mbind option_bind fst snd existsb map].
  rewrite !(proj2 (Z.ltb_ge _ _)) by lia. cbn. by rewrite !u8_small by lia.
Qed.

(** * Who owns which connection *)

Context `{!Protocols W}.
Implicit Types (s : tcp_t) (a : answers).

Definition leaving (p : place) : bool := match p with CLOSING | DELETING => true | _ => false end.
(** The threads of a slot, the server threads of a port. *)
Definition client_of (k : srv) (i : nat) (t : thread) : option thread :=
  match t with Client k' i' _ _ _ => if decide (k' = k /\ i' = i) then Some t else None | _ => None end.
Definition server_of (k : srv) (t : thread) : option thread := match t with Server k' _ _ => if decide (k' = k) then Some t else None | _ => None end.
Definition server_conn (t : thread) : option Z := match t with Server _ _ c => c | _ => None end.
Definition slots (k : srv) (s : tcp_t) : list client_t := client_list (ctx_of k s).
(** The listening connections and those of the slots, for lists of threads and
    slots. *)
Definition owned (thr : list thread) (sl : srv -> list client_t) : list Z := omap server_conn thr ++ omap conn (sl WORK) ++ omap conn (sl CAMERA).

(** A slot and its thread. *)
Definition pair_ok (c : client_t) (l : list thread) : Prop :=
  match l with
  | [] => online c = 0 /\ conn c = None
  | [Client _ _ p b _] => is_Some (conn c) /\ online c = (if leaving p then 0 else 1) /\
      match p with TOP => state c = CLIENT_STATE_PROCESS -> is_Some b | COPIED => is_Some b | _ => True end
  | _ => False
  end.
(** No open connection without an owner, none with two; a slot is free, without
    connection and without thread, or has exactly one of each. *)
Record accounted (nc : list Z) (thr : list thread) (sl : srv -> list client_t) : Prop := {
  acc_conns : nc ≡ₚ owned thr sl;
  acc_distinct : NoDup nc;
  acc_slots : forall k i, match sl k !! i with
                          | Some c => pair_ok c (omap (client_of k i) thr)
                          | None => omap (client_of k i) thr = []
                          end;
  acc_length : forall k, length (sl k) = MAX_CLIENT_COUNT;
  acc_servers : forall k, (length (omap (server_of k) thr) <= 1)%nat }.
Record acc (s : tcp_t) : Prop := {
  acc_all : accounted (netconns s) (threads s) (fun k => slots k s);
  acc_early : forall k lp c, Server k lp c ∈ threads s ->
    server_state (ctx_of k s) = SERVER_STATE_WAIT_LINK \/ server_state (ctx_of k s) = SERVER_STATE_CREATE -> c = None;
  acc_base : forall k, client_base_num (ctx_of k s) = match k with WORK => WORK_CLIENT_BASE | CAMERA => CAMERA_CLIENT_BASE end }.

(** A run in which threads can be created for clients and no connection is
    accepted while a client of the same port is being closed. *)
Definition calm (a : answers) (j : nat) (s : tcp_t) : Prop :=
  match threads s !! j with
  | Some (Server k _ _) => server_state (ctx_of k s) = SERVER_STATE_ACCEPT ->
      created a = true /\ forall i p b o, In (Client k i p b o) (threads s) -> leaving p = false
  | _ => True
  end.
Inductive calm_step : tcp_t -> tcp_t -> Prop :=
  | calm_thread a j s s' : fresh a s -> calm a j s -> run_thread a j s = Some s' -> calm_step s s'
  | calm_lwip l s : calm_step s (with_net (with_lwip l (the_net s)) s).

Lemma omap_insert {A B} (f : A -> option B) l i x y : l !! i = Some x ->
  option_list (f x) ++ omap f (<[i := y]> l) ≡ₚ option_list (f y) ++ omap f l.
Proof.
  intros H. pose proof (lookup_lt_Some _ _ _ H). rewrite insert_take_drop by done.
  replace (omap f l) with (omap f (take i l ++ x :: drop (S i) l)) by (by rewrite take_drop_middle). rewrite !omap_app. cbn. destruct (f x), (f y); cbn; solve_Permutation.
Qed.
Lemma remove_first_perm x l l' : l ≡ₚ x :: l' -> remove_first x l ≡ₚ l'.
Proof.
  intros H. assert (Hin : In x l) by (rewrite H; by left). clear -H Hin.
  assert (l ≡ₚ x :: remove_first x l) as E.
  { clear H l'. induction l as [|y l IH]; [done|]. cbn. destruct (Z.eqb_spec y x) as [->|]; [done|].
    destruct Hin as [->|Hin]; [done|]. rewrite (IH Hin) at 1. apply perm_swap. }
  rewrite E in H. by apply Permutation_cons_inv in H.
Qed.

Lemma pair_ok_perm c l l' : l ≡ₚ l' -> pair_ok c l -> pair_ok c l'.
Proof.
  intros H Hp. destruct l as [|t [|t2 l]]; [by apply Permutation_nil_l in H as <-|by apply Permutation_singleton_l in H as <-|].
  by destruct t.
Qed.
#[local] Instance accounted_perm nc : Proper ((≡ₚ) ==> (=) ==> iff) (accounted nc).
Proof.
  assert (G : forall l l' sl, l ≡ₚ l' -> accounted nc l sl -> accounted nc l' sl).
  { intros l l' sl H [H1 H2 H3 H4 H5]. split; [|done| |done|].
    - rewrite H1. unfold owned. by rewrite H.
    - intros k i. specialize (H3 k i). assert (Hp : omap (client_of k i) l ≡ₚ omap (client_of k i) l') by by rewrite H. destruct (sl k !! i).
      + by eapply pair_ok_perm.
      + rewrite H3 in Hp. by apply Permutation_nil_l in Hp as <-.
    - intros k. by rewrite <- H. }
  intros l l' H sl sl' <-. split; intros Ha; (eapply G; [|exact Ha]); [done|by symmetry].
Qed.

(** The thread of a slot is its only one. *)
Lemma client_single nc k i p b o rest sl : accounted nc (Client k i p b o :: rest) sl ->
  exists c, sl k !! i = Some c /\ omap (client_of k i) rest = [] /\ pair_ok c [Client k i p b o].
Proof.
  intros [_ _ H _ _]. specialize (H k i). cbn in H. rewrite decide_True in H by done. destruct (sl k !! i) as [c|]; [|done]. exists c. split; [done|].
  by destruct (omap _ rest).
Qed.

Definition update (sl sl' : srv -> list client_t) (k : srv) (i : nat) (c : client_t) : Prop :=
  forall k', sl' k' = if decide (k' = k) then <[i := c]> (sl k) else sl k'.

Lemma slot_conns sl sl' k i c c' : update sl sl' k i c' -> sl k !! i = Some c ->
  option_list (conn c) ++ omap conn (sl' WORK) ++ omap conn (sl' CAMERA) ≡ₚ option_list (conn c') ++ omap conn (sl WORK) ++ omap conn (sl CAMERA).
Proof.
  intros Hu Hc. pose proof (omap_insert conn _ _ _ c' Hc) as H. rewrite !Hu. destruct k; cbn.
  - by rewrite !app_assoc, H.
  - rewrite Permutation_app_comm, <- app_assoc, (Permutation_app_comm _ (option_list (conn c))), H. solve_Permutation.
Qed.

(** The slots change with the threads of one of them. *)
Lemma slots_step l l' sl sl' k i c' : update sl sl' k i c' -> (i < length (sl k))%nat ->
  (forall k i, match sl k !! i with Some c => pair_ok c (omap (client_of k i) l) | None => omap (client_of k i) l = [] end) ->
  (forall k' i', k' <> k \/ i' <> i -> omap (client_of k' i') l' = omap (client_of k' i') l) ->
  pair_ok c' (omap (client_of k i) l') ->
  forall k i, match sl' k !! i with Some c => pair_ok c (omap (client_of k i) l') | None => omap (client_of k i) l' = [] end.
Proof.
  intros Hu Hi H Ho Hc k' i'. rewrite Hu. destruct (decide (k' = k)) as [->|Hk].
  - destruct (decide (i' = i)) as [->|Hi']; [by rewrite list_lookup_insert_eq|]. rewrite list_lookup_insert_ne, Ho by (done || by right). apply H.
  - rewrite Ho by (by left). apply H.
Qed.

Lemma client_of_other k i k' i' p b o l : k' <> k \/ i' <> i -> omap (client_of k' i') (Client k i p b o :: l) = omap (client_of k' i') l.
Proof. intros H. cbn. rewrite decide_False; [done|]. intros [-> ->]. by destruct H. Qed.

Lemma update_length sl sl' k i c : update sl sl' k i c -> (forall k, length (sl k) = MAX_CLIENT_COUNT) -> forall k, length (sl' k) = MAX_CLIENT_COUNT.
Proof. intros Hu H k'. rewrite Hu. destruct (decide _); [|done]. by rewrite length_insert. Qed.

(** A client thread goes on. *)
Lemma acc_client nc k i p b o p' b' o' rest sl sl' c c' : accounted nc (Client k i p b o :: rest) sl -> sl k !! i = Some c -> update sl sl' k i c' ->
  conn c' = conn c -> pair_ok c' [Client k i p' b' o'] -> accounted nc (Client k i p' b' o' :: rest) sl'.
Proof.
  intros Ha Hc Hu Hcc Hp. destruct (client_single _ _ _ _ _ _ _ _ Ha) as (c0 & Hc0 & Hr & _). destruct Ha as [H1 H2 H3 H4 H5].
  split; [|done| |by eapply update_length|exact H5].
  - rewrite H1. unfold owned. cbn. apply Permutation_app_head. pose proof (slot_conns _ _ _ _ _ _ Hu Hc) as E. rewrite Hcc in E.
    by apply Permutation_app_inv_l in E.
  - eapply slots_step; [exact Hu|by eapply lookup_lt_Some|exact H3| |].
    + intros k' i' Hne. by rewrite !client_of_other.
    + cbn. rewrite decide_True, Hr by done. exact Hp.
Qed.

(** A client thread ends: its connection is deleted and the slot is free. *)
Lemma acc_end nc k i b o rest sl sl' c : accounted nc (Client k i DELETING b o :: rest) sl -> sl k !! i = Some c -> update sl sl' k i (with_conn None c) ->
  accounted (match conn c with Some id => remove_first id nc | None => nc end) rest sl'.
Proof.
  intros Ha Hc Hu. destruct (client_single _ _ _ _ _ _ _ _ Ha) as (c0 & Hc0 & Hr & Hp). destruct Ha as [H1 H2 H3 H4 H5].
  rewrite Hc in Hc0. injection Hc0 as <-. cbn in Hp. destruct Hp as ([id Hid] & Hon & _). rewrite Hid.
  assert (E : nc ≡ₚ id :: owned rest sl').
  { rewrite H1. unfold owned. cbn. pose proof (slot_conns _ _ _ _ _ _ Hu Hc) as E. rewrite Hid in E. cbn in E. rewrite <- E. solve_Permutation. }
  pose proof (remove_first_perm _ _ _ E) as E2. split; [done| | |by eapply update_length|exact H5].
  - rewrite E2. rewrite E in H2. by apply NoDup_cons in H2 as [].
  - eapply slots_step; [exact Hu|by eapply lookup_lt_Some|exact H3| |].
    + intros k' i' Hne. by rewrite client_of_other.
    + by rewrite Hr.
Qed.

(** A server thread goes on, or is replaced. *)
Lemma acc_server nc nc' k lp c lp' c' rest sl : accounted nc (Server k lp c :: rest) sl -> nc' ≡ₚ option_list c' ++ owned rest sl -> NoDup nc' ->
  accounted nc' (Server k lp' c' :: rest) sl.
Proof.
  intros [H1 H2 H3 H4 H5] E Hn. split; [|done|exact H3|done|].
  - rewrite E. unfold owned. cbn. by destruct c'.
  - intros k'. specialize (H5 k'). cbn in *. by destruct (decide _).
Qed.

(** An accepted connection. *)
Lemma acc_accept nc id k i rest sl sl' c c' : accounted nc rest sl -> id ∉ nc -> sl k !! i = Some c -> online c = 0 -> update sl sl' k i c' ->
  conn c' = Some id -> online c' = 1 -> state c' = CLIENT_STATE_INIT -> (forall p b o, In (Client k i p b o) rest -> leaving p = false) ->
  accounted (id :: nc) (Client k i TOP None 0 :: rest) sl'.
Proof.
  intros [H1 H2 H3 H4 H5] Hid Hc Hon Hu Hc' Hon' Hst Hcalm. pose proof (H3 k i) as Hp. rewrite Hc in Hp.
  assert (Hr : omap (client_of k i) rest = [] /\ conn c = None).
  { destruct (omap (client_of k i) rest) as [|t l] eqn:E; [by destruct Hp|]. exfalso. cbn in Hp. destruct l; [|by destruct t].
    assert (Hin : In t (omap (client_of k i) rest)) by (rewrite E; by left).
    apply list_elem_of_In, list_elem_of_omap in Hin as (t0 & Ht0%list_elem_of_In & Et). destruct t0; [done|]. cbn in Et. destruct (decide _) as [[-> ->]|]; [|done].
    injection Et as <-. destruct Hp as (_ & Hp & _). rewrite (Hcalm _ _ _ Ht0) in Hp. lia. }
  destruct Hr as [Hr Hcn]. split; [|by constructor| |by eapply update_length|exact H5].
  - rewrite H1. unfold owned. cbn. pose proof (slot_conns _ _ _ _ _ _ Hu Hc) as E. rewrite Hc', Hcn in E. cbn in E. rewrite E. solve_Permutation.
  - eapply slots_step; [exact Hu|by eapply lookup_lt_Some|exact H3| |].
    + intros k' i' Hne. by rewrite client_of_other.
    + cbn. rewrite decide_True, Hr by done. cbn. rewrite Hc', Hon', Hst. split; [by eexists|]. by split.
Qed.

(** Sending changes no context. *)
Lemma send_low_contexts ch data len n r : tcp_server_send_low ch data len n = Some r -> forall k, context k (fst r) = context k n.
Proof.
  unfold tcp_server_send_low. intros E k. repeat case_match; simplify_eq/=; try done.
  all: destruct (ld _ _) as [c|]; [|done]; cbn [mbind option_bind] in *; repeat case_match; simplify_eq/=; done.
Qed.
Lemma wrapper_contexts ch data len (x x' : io (N := net_t)) f : call_send f ch data len x = Some x' -> forall k, context k (net x') = context k (net x).
Proof.
  intros E k. destruct f; cbn in E; [| |done].
  - unfold pc_send_wrapper, pc_send in E. case_match; [by simplify_eq|]. run_bind E. by injection E as <-.
  - unfold tcp_server_send_wrapper in E. case_match; [by simplify_eq|]. apply bind_Some in E as (n & En & E). injection E as <-.
    cbn in En. apply bind_Some in En as (r & Er & En). injection En as <-. by eapply send_low_contexts.
Qed.
Lemma chunk_contexts fuel f ch buf len (x x' : io (N := net_t)) : chunk_loop fuel (call_send f) ch buf len x = Some x' ->
  forall k, context k (net x') = context k (net x).
Proof.
  revert buf len x. induction fuel as [|fuel IH]; intros buf len x E k; cbn in E; (destruct (len <=? 0); [by simplify_eq|]); [done|].
  apply bind_Some in E as (x1 & E1 & E). rewrite (IH _ _ _ E k). by eapply wrapper_contexts.
Qed.
Lemma answer_contexts rx tx n0 n p (x x' : comm_t (N := net_t) (W := W)) tx' n' : proto_process rx tx n0 n p x = Some (x', tx', n') ->
  forall k, context k (net (dev x')) = context k (net (dev x)).
Proof.
  unfold proto_process. intros E k. apply bind_Some in E as ([[tx1 n1] w1] & _ & E). destruct (0 <? n1); [|injection E as <- _ _; done].
  apply bind_Some in E as (d & Ed & E). injection E as <- _ _. cbn in *.
  destruct (group_idx p =? uart_group x).
  - unfold comm_send_chunk in Ed. destruct (group_idx p >=? group_count (comm_mgr x)); [by injection Ed as <-|].
    apply bind_Some in Ed as (g & _ & Ed). destruct (match send_func g with null_fn => _ | _ => _ end); [by injection Ed as <-|].
    apply bind_Some in Ed as (o & _ & Ed). destruct o; [|by injection Ed as <-]. by rewrite (chunk_contexts _ _ _ _ _ _ _ Ed k).
  - destruct (group_idx p =? tcp_group x); [|by injection Ed as <-]. apply bind_Some in Ed as (m & Em & Ed). injection Ed as <-.
    cbn in Em. apply bind_Some in Em as (r & Er & Em). injection Em as <-. by eapply send_low_contexts.
Qed.

(** What a step of a client thread does to its slot and its connection. *)
Definition client_effect (s : tcp_t) (k : srv) (i : nat) (c : client_t) (t : thread) (t' : option thread) (s' : tcp_t) : Prop :=
  threads s' = threads s /\
  match t' with
  | Some (Client k' i' p' b' o') => k' = k /\ i' = i /\ netconns s' = netconns s /\
      exists c', update (fun k => slots k s) (fun k => slots k s') k i c' /\ conn c' = conn c /\
        (pair_ok c [t] -> pair_ok c' [Client k i p' b' o'])
  | Some _ => False
  | None => match t with
            | Client _ _ DELETING _ _ => update (fun k => slots k s) (fun k => slots k s') k i (with_conn None c) /\
                netconns s' = match conn c with Some id => remove_first id (netconns s) | None => netconns s end
            | _ => conn c = None
            end
  end.

Lemma with_client_update k i c s s2 : (forall k, slots k s2 = slots k s) ->
  update (fun k => slots k s) (fun k' => slots k' (with_client k i c s2)) k i c.
Proof. intros H k'. rewrite <- !H. by destruct k, k'. Qed.
(** The slot is written last, after changes elsewhere. *)
Lemma goes_on k i p b o c p' b' o' c' s s2 : (forall k, slots k s2 = slots k s) -> threads s2 = threads s -> netconns s2 = netconns s ->
  conn c' = conn c -> (pair_ok c [Client k i p b o] -> pair_ok c' [Client k i p' b' o']) ->
  client_effect s k i c (Client k i p b o) (Some (Client k i p' b' o')) (with_client k i c' s2).
Proof. intros Hs Ht Hn Hc Hp. split; [done|]. repeat (split; [done|]). exists c'. split; [by apply with_client_update|by split]. Qed.
Lemma slot_same k i c s s2 : slot k i s = Some c -> (forall k, slots k s2 = slots k s) -> update (fun k => slots k s) (fun k => slots k s2) k i c.
Proof. intros Hc H k'. rewrite H. destruct (decide _) as [->|]; [|done]. by rewrite list_insert_id. Qed.
(** The slot stays. *)
Lemma stays k i p b o c p' b' o' s s2 : slot k i s = Some c -> (forall k, slots k s2 = slots k s) -> threads s2 = threads s -> netconns s2 = netconns s ->
  (pair_ok c [Client k i p b o] -> pair_ok c [Client k i p' b' o']) ->
  client_effect s k i c (Client k i p b o) (Some (Client k i p' b' o')) s2.
Proof. intros Hc Hs Ht Hn Hp. split; [done|]. repeat (split; [done|]). exists c. split; [by apply slot_same|by split]. Qed.

Lemma init_effect k i c b o s s2 : state c = CLIENT_STATE_INIT -> client_init k i c s = Some s2 ->
  client_effect s k i c (Client k i TOP b o) (Some (Client k i TOP None o)) s2.
Proof.
  intros Hst. unfold client_init. destruct (conn c) eqn:Ec; [|done]. intros [= <-].
  apply goes_on; [by repeat case_match|by repeat case_match|by repeat case_match|done|]. cbn. intros (H1 & H2 & _). by split.
Qed.
Lemma wait_effect a k i c b o s : state c = CLIENT_STATE_WAIT_DATA ->
  let r := client_wait a k i c s in client_effect s k i c (Client k i TOP b o) (Some (Client k i TOP (fst r) o)) (snd r).
Proof.
  intros Hst. unfold client_wait. repeat case_match; cbn; apply goes_on; try done; cbn; intros (P1 & P2 & P3); (split; [done|]); (split; [done|]); try done.
  all: intros; congruence.
Qed.
Lemma copy_effect data len k i c b o s s2 : slot k i s = Some c -> is_Some b -> client_copy data len c s = Some s2 ->
  client_effect s k i c (Client k i TOP b o) (Some (Client k i COPIED b o)) s2.
Proof.
  unfold client_copy. intros Hc Hb E. apply bind_Some in E as (rx & _ & E). injection E as <-. apply stays; try done.
  cbn. intros (P1 & P2 & P3). by split.
Qed.
Lemma leave_effect a k i c b o s s2 : client_leave a k i c s = Some s2 ->
  client_effect s k i c (Client k i TOP b o) (Some (Client k i CLOSING None o)) s2.
Proof.
  unfold client_leave. intros E. apply bind_Some in E as (r & _ & E). injection E as <-.
  set (s1 := if c_listen_port c =? _ then _ else _).
  assert (Hs1 : (forall k, slots k s1 = slots k s) /\ threads s1 = threads s /\ netconns s1 = netconns s)
    by (unfold s1; repeat case_match; (split; [by intros []|done])).
  clearbody s1. destruct Hs1 as (P1 & P2 & P3).
  assert (G : client_effect s k i c (Client k i TOP b o) (Some (Client k i CLOSING None o)) (with_client k i (with_online 0 c) s1))
    by (apply goes_on; try done; cbn; intros (Q1 & Q2 & Q3); by split).
  by destruct (_ && _).
Qed.
Lemma answer_effect data len o k i c s r : slot k i s = Some c -> client_answer data len o k i c s = Some r ->
  exists c', slot k i (fst r) = Some c' /\ conn c' = conn c /\ online c' = online c /\
    update (fun k => slots k s) (fun k => slots k (fst r)) k i c' /\ threads (fst r) = threads s /\ netconns (fst r) = netconns s.
Proof.
  intros Hc. unfold client_answer. pose proof (lookup_lt_Some _ _ _ Hc). destruct (_ =? 80); intros E.
  - apply bind_Some in E as (s2 & E & [= <-]). cbn. unfold process_http_request in E. rewrite Hc in E. cbn [mbind option_bind] in E.
    destruct (_ || _); [injection E as <-; exists c; repeat (split; [done|]); by split; [apply slot_same|]|].
    apply bind_Some in E as (f & _ & E). destruct f; [|injection E as <-; exists c; repeat (split; [done|]); by split; [apply slot_same|]].
    apply bind_Some in E as (r2 & Er & [= <-]). pose proof (send_low_contexts _ _ _ _ _ Er) as Hctx.
    assert (Hu : update (fun k => slots k s) (fun k' => slots k' (with_client k i (with_send_open 1 c) (with_net (fst r2) s))) k i (with_send_open 1 c))
      by (apply with_client_update; intros k'; unfold slots, ctx_of; cbn; by rewrite Hctx).
    exists (with_send_open 1 c). split; [|by repeat (split; [done|])].
    transitivity (slots k (with_client k i (with_send_open 1 c) (with_net (fst r2) s)) !! i); [done|].
    rewrite (Hu k), decide_True by done. by apply list_lookup_insert_eq.
  - apply bind_Some in E as ([[x tx] o'] & E & [= <-]). pose proof (answer_contexts _ _ _ _ _ _ _ _ _ E) as Hctx. exists c. cbn.
    assert (Hs : forall k, slots k (with_comm x (with_tx tx s)) = slots k s) by (intros k'; unfold slots, ctx_of, the_net; cbn; by rewrite Hctx).
    split; [transitivity (slots k (with_comm x (with_tx tx s)) !! i); [done|by rewrite Hs]|]. repeat (split; [done|]). by split; [apply slot_same|].
Qed.

Lemma client_steps a k i p b o c s t' s' : slot k i s = Some c -> pair_ok c [Client k i p b o] -> client_thread a k i p b o s = Some (t', s') ->
  client_effect s k i c (Client k i p b o) t' s'.
Proof.
  intros Hc Hp. unfold client_thread. rewrite Hc. cbn [mbind option_bind]. destruct p; intros E.
  - destruct (state c) eqn:Est.
    + apply bind_Some in E as (s2 & E & [= <- <-]). by eapply init_effect.
    + pose proof (wait_effect a k i c b o s Est) as H. destruct (client_wait a k i c s) as [b2 s2]. injection E as <- <-. exact H.
    + apply bind_Some in E as (d & -> & E). apply bind_Some in E as (s2 & E & [= <- <-]). eapply copy_effect; [done|by eexists|done].
    + apply bind_Some in E as (s2 & E & [= <- <-]). by eapply leave_effect.
  - apply bind_Some in E as (d & -> & E). apply bind_Some in E as ([s2 o2] & E & E2).
    destruct (answer_effect _ _ _ _ _ _ _ _ Hc E) as (c' & Hc' & P1 & P2 & P3 & P4 & P5). cbn in *. rewrite Hc' in E2. injection E2 as <- <-.
    split; [done|]. repeat (split; [done|]). exists (with_state CLIENT_STATE_WAIT_DATA c'). split; [|split; [done|]].
    + intros k'. rewrite (with_client_update k i _ s2 s2 (fun _ => eq_refl) k').
      pose proof (P3 k) as Q1. pose proof (P3 k') as Q2. cbn in Q1, Q2 |- *. rewrite decide_True in Q1 by done.
      destruct (decide _); [by rewrite Q1, list_insert_insert_eq|done].
    + intros (Q1 & Q2 & Q3). cbn. rewrite P1, P2. by split.
  - cbn in Hp. destruct Hp as ([id Hid] & _). rewrite Hid in E. injection E as <- <-. apply stays; done.
  - injection E as <- <-. split; [by destruct (conn c)|]. cbn. split; [|by destruct (conn c)].
    apply with_client_update. by destruct (conn c).
Qed.

(** Clients never write what belongs to the server threads. *)
Definition static (x : server_context_t) : server_state_t * Z * Z * Z := (server_state x, listen_port x, client_count x, client_base_num x).
Lemma static_with_client k k' i c s s2 : (forall k, static (ctx_of k s2) = static (ctx_of k s)) ->
  static (ctx_of k' (with_client k i c s2)) = static (ctx_of k' s).
Proof. intros H. rewrite <- H. by destruct k, k'. Qed.
Lemma client_static a k i p b o s t' s' : client_thread a k i p b o s = Some (t', s') -> forall k', static (ctx_of k' s') = static (ctx_of k' s).
Proof.
  unfold client_thread. intros E k'. apply bind_Some in E as (c & Hc & E). destruct p.
  - destruct (state c).
    + apply bind_Some in E as (s2 & E & [= _ <-]). unfold client_init in E. destruct (conn c); [|done]. injection E as <-.
      apply static_with_client. intros. by repeat case_match.
    + unfold client_wait in E. repeat case_match; simplify_eq/=; by apply static_with_client.
    + apply bind_Some in E as (d & _ & E). apply bind_Some in E as (s2 & E & [= _ <-]). unfold client_copy in E.
      apply bind_Some in E as (rx & _ & E). by injection E as <-.
    + apply bind_Some in E as (s2 & E & [= _ <-]). unfold client_leave in E. apply bind_Some in E as (r & _ & [= <-]).
      match goal with |- context [with_client k i _ ?x] => assert (G : static (ctx_of k' (with_client k i (with_online 0 c) x)) = static (ctx_of k' s)) end.
      { apply static_with_client. intros []; by repeat case_match. }
      by destruct (_ && _).
  - apply bind_Some in E as (d & _ & E). apply bind_Some in E as ([s2 o2] & E & E2). apply bind_Some in E2 as (c2 & _ & [= _ <-]).
    apply static_with_client. clear k'. intros k'. unfold client_answer in E. destruct (_ =? 80).
    + apply bind_Some in E as (s3 & E & [= <- <-]). unfold process_http_request in E. apply bind_Some in E as (c3 & _ & E).
      destruct (_ || _); [by injection E as <-|]. apply bind_Some in E as (f & _ & E). destruct f; [|by injection E as <-].
      apply bind_Some in E as (r2 & Er & [= <-]). pose proof (send_low_contexts _ _ _ _ _ Er) as Hctx.
      transitivity (static (ctx_of k' (with_client k i (with_send_open 1 c3) (with_net (fst r2) s)))); [done|].
      apply static_with_client. intros k2. unfold ctx_of. cbn. by rewrite Hctx.
    + apply bind_Some in E as ([[x tx] o'] & E & [= <- <-]). pose proof (answer_contexts _ _ _ _ _ _ _ _ _ E) as Hctx.
      unfold ctx_of, the_net. cbn. by rewrite Hctx.
  - by repeat case_match; simplify_eq/=.
  - injection E as _ <-. apply static_with_client. by destruct (conn c).
Qed.

Lemma cons_delete {A} (l : list A) j x : l !! j = Some x -> l ≡ₚ x :: delete j l.
Proof. apply delete_Permutation. Qed.
Lemma insert_cons {A} (l : list A) j x : (j < length l)%nat -> <[j := x]> l ≡ₚ x :: delete j l.
Proof. intros H. rewrite insert_take_drop, delete_take_drop by done. by rewrite Permutation_middle. Qed.

Lemma acc_client_thread a j k i p b o s t' s' : acc s -> threads s !! j = Some (Client k i p b o) ->
  client_thread a k i p b o s = Some (t', s') ->
  acc (with_threads (match t' with Some t => <[j := t]> (threads s') | None => delete j (threads s') end) s').
Proof.
  intros [Ha Hearly Hbase] Hj E. pose proof (client_static _ _ _ _ _ _ _ _ _ E) as Hst. rewrite (cons_delete _ _ _ Hj) in Ha. destruct (client_single _ _ _ _ _ _ _ _ Ha) as (c & Hc & _ & Hp).
  pose proof (client_steps _ _ _ _ _ _ _ _ _ _ Hc Hp E) as [Ht He]. cbn. rewrite Ht. pose proof (lookup_lt_Some _ _ _ Hj) as Hlt.
  assert (Hthr : forall k lp c, Server k lp c ∈ match t' with Some t => <[j := t]> (threads s) | None => delete j (threads s) end -> Server k lp c ∈ threads s).
  { intros k0 lp c0 Hin. rewrite (cons_delete _ _ _ Hj). right. destruct t' as [t|]; [|done]. rewrite insert_cons in Hin by done.
    apply elem_of_cons in Hin as [<-|]; done. }
  split; [|intros k0 lp c0 Hin|intros k0]; cbn; rewrite ?Ht; unfold static in Hst.
  2:{ specialize (Hst k0). injection Hst as Hst _ _ _. intros Hs. apply (Hearly k0 lp); [by apply Hthr|by rewrite <- Hst]. }
  2:{ specialize (Hst k0). injection Hst as _ _ _ Hst. by rewrite <- Hbase. }
  destruct t' as [[|k' i' p' b' o']|]; [done| |].
  - destruct He as (-> & -> & Hn & c' & Hu & Hcc & Hok). rewrite insert_cons, Hn by done.
    eapply acc_client; [exact Ha|exact Hc|exact Hu|exact Hcc|by apply Hok].
  - destruct p.
    1-3: cbn in Hp; destruct Hp as ([? ?] & _); congruence.
    destruct He as [Hu ->]. by eapply acc_end.
Qed.

(** The server thread of a port is its only one. *)
Lemma server_single nc k lp c rest sl lp' c' : accounted nc (Server k lp c :: rest) sl -> Server k lp' c' ∉ rest.
Proof.
  intros [_ _ _ _ H] Hin. specialize (H k). cbn in H. rewrite decide_True in H by done. cbn in H.
  assert (E : Server k lp' c' ∈ omap (server_of k) rest).
  { apply list_elem_of_omap. eexists. split; [exact Hin|]. cbn. by rewrite decide_True. }
  destruct (omap (server_of k) rest); [by apply elem_of_nil in E|]. cbn in H. lia.
Qed.
Lemma server_conns s j k lp c : acc s -> threads s !! j = Some (Server k lp c) ->
  netconns s ≡ₚ option_list c ++ owned (delete j (threads s)) (fun k => slots k s).
Proof.
  intros [[H _ _ _ _] _ _] Hj. rewrite H. unfold owned. rewrite (cons_delete _ _ _ Hj) at 1. cbn. by destruct c.
Qed.

(** A pass that changes only the server's own connection and state, or
    replaces its thread. *)
Lemma server_goes s j k lp c s2 lp' c' thr : acc s -> threads s !! j = Some (Server k lp c) -> thr ≡ₚ Server k lp' c' :: delete j (threads s) ->
  (forall k, slots k s2 = slots k s) -> (forall k, client_base_num (ctx_of k s2) = client_base_num (ctx_of k s)) ->
  (forall k', k' <> k -> server_state (ctx_of k' s2) = server_state (ctx_of k' s)) ->
  netconns s2 ≡ₚ option_list c' ++ owned (delete j (threads s)) (fun k => slots k s) -> NoDup (netconns s2) ->
  (server_state (ctx_of k s2) = SERVER_STATE_WAIT_LINK \/ server_state (ctx_of k s2) = SERVER_STATE_CREATE -> c' = None) ->
  acc (with_threads thr s2).
Proof.
  intros [Ha Hearly Hbase] Hj Ht Hs Hb Hss Hn Hnd Hst. rewrite (cons_delete _ _ _ Hj) in Ha. split.
  - change (accounted (netconns s2) thr (fun k => slots k s2)). rewrite Ht.
    pose proof (acc_server _ _ _ _ _ lp' _ _ _ Ha Hn Hnd) as [G1 G2 G3 G4 G5].
    split; [|done| | |done]; try (intros k0; cbv beta; rewrite Hs; apply G3 || apply G4).
    rewrite G1. unfold owned. by rewrite !Hs.
  - intros k0 lp0 c0 Hin Hearly0. cbn in Hin. rewrite Ht in Hin. apply elem_of_cons in Hin as [[= -> -> ->]|Hin]; [by apply Hst|].
    destruct (decide (k0 = k)) as [->|Hk]; [by apply (server_single _ _ _ _ _ _ lp0 c0) in Ha|].
    apply (Hearly k0 lp0); [rewrite (cons_delete _ _ _ Hj); by right|]. by rewrite <- Hss.
  - intros k0. rewrite <- Hbase. apply Hb.
Qed.
Lemma same_thread s j k lp c lp' c' l : threads s !! j = Some (Server k lp c) -> l = threads s ->
  <[j := Server k lp' c']> l ≡ₚ Server k lp' c' :: delete j (threads s).
Proof. intros Hj ->. apply insert_cons. by eapply lookup_lt_Some. Qed.

Lemma set_state_same k t s : threads (set_server_state k t s) = threads s /\ netconns (set_server_state k t s) = netconns s /\
  (forall k', slots k' (set_server_state k t s) = slots k' s) /\
  (forall k', client_base_num (ctx_of k' (set_server_state k t s)) = client_base_num (ctx_of k' s)) /\
  (forall k', k' <> k -> server_state (ctx_of k' (set_server_state k t s)) = server_state (ctx_of k' s)) /\
  server_state (ctx_of k (set_server_state k t s)) = t.
Proof. by repeat split; try (intros k'); destruct k; try destruct k'. Qed.

(** Only the state changes. *)
Lemma server_moves s j k lp c t : acc s -> threads s !! j = Some (Server k lp c) -> t <> SERVER_STATE_WAIT_LINK -> 
  (t = SERVER_STATE_CREATE -> c = None) ->
  acc (with_threads (<[j := Server k lp c]> (threads (set_server_state k t s))) (set_server_state k t s)).
Proof.
  intros Ha Hj H1 H2. destruct (set_state_same k t s) as (Q1 & Q2 & Q3 & Q4 & Q5 & Q6).
  apply (server_goes s j k lp c _ lp c); try done; [by eapply same_thread|..]; rewrite ?Q2, ?Q6; [by eapply server_conns|by destruct Ha as [[] _ _]|by intros [->| ->]; auto].
Qed.
(** The listening connection is deleted, and the server restarts. *)
Lemma server_fails s j k lp c : acc s -> threads s !! j = Some (Server k lp c) ->
  netconns (netconn_delete c s) ≡ₚ owned (delete j (threads s)) (fun k => slots k s) /\ NoDup (netconns (netconn_delete c s)) /\
  acc (with_threads (<[j := Server k lp None]> (threads s)) (set_server_state k SERVER_STATE_RESTART (netconn_delete c s))).
Proof.
  intros Ha Hj. pose proof (server_conns _ _ _ _ _ Ha Hj) as Hn. pose proof Ha as [[_ Hd _ _ _] _ _].
  assert (E : netconns (netconn_delete c s) ≡ₚ owned (delete j (threads s)) (fun k => slots k s)).
  { destruct c as [id|]; cbn; [|done]. by apply remove_first_perm. }
  assert (E2 : NoDup (netconns (netconn_delete c s))).
  { rewrite E. rewrite Hn in Hd. destruct c; cbn in Hd; [by apply NoDup_cons in Hd as []|done]. }
  split; [done|]. split; [done|]. set (s1 := netconn_delete c s) in *.
  assert (Hs1 : threads s1 = threads s /\ comm s1 = comm s) by (unfold s1; by destruct c). clearbody s1. destruct Hs1 as [Ht Hcm].
  destruct (set_state_same k SERVER_STATE_RESTART s1) as (Q1 & Q2 & Q3 & Q4 & Q5 & Q6).
  replace (threads s) with (threads (set_server_state k SERVER_STATE_RESTART s1)) by (by rewrite Q1).
  assert (Hc : forall k, ctx_of k s1 = ctx_of k s) by (intros k0; unfold ctx_of, the_net; by rewrite Hcm).
  apply (server_goes s j k lp c _ lp None); try done; [by eapply same_thread|..]; rewrite ?Q2, ?Q6; try done;
    intros k0; [rewrite Q3; unfold slots|rewrite Q4|intros Hk; rewrite Q5 by done]; by rewrite Hc.
Qed.

(** What accepting does when there is a slot and a thread. *)
Lemma accept_facts a k lp s i c0 s' : free_slot (ctx_of k s) = Some (i, c0) -> created a = true ->
  1 <= client_base_num (ctx_of k s) + Z.of_nat i <= USER_THREAD_CNT -> server_accept a k lp s = Some s' ->
  threads s' = threads s ++ [Client k i TOP None 0] /\ netconns s' = accepted a :: netconns s /\
  (forall k', server_state (ctx_of k' s') = server_state (ctx_of k' s) /\ client_base_num (ctx_of k' s') = client_base_num (ctx_of k' s)) /\
  exists c1, update (fun k => slots k s) (fun k => slots k s') k i c1 /\ conn c1 = Some (accepted a) /\ online c1 = 1 /\ state c1 = CLIENT_STATE_INIT.
Proof.
  unfold server_accept. set (s1 := with_netconns _ s). assert (Hc1 : forall k, ctx_of k s1 = ctx_of k s) by done. rewrite Hc1.
  intros -> Hcr Hr E. apply bind_Some in E as (r & _ & E). rewrite Hcr in E.
  set (n := client_base_num (ctx_of k s) + Z.of_nat i) in *. set (c1 := mk_client 1 n _ _ _ _ _ _ _) in E. set (s2 := with_mgr _ _) in E.
  assert (Hu : update (fun k => slots k s) (fun k => slots k s2) k i c1) by (apply (with_client_update k i c1 s s1); done).
  assert (Hstat : forall k', static (ctx_of k' s2) = static (ctx_of k' s)) by (intros k'; apply (static_with_client k k' i c1 s s1); done).
  unfold thread_create in E. replace ((n <? 1) || (USER_THREAD_CNT <? n)) with false in E by lia. replace (n =? 0) with false in E by lia.
  injection E as <-. set (s3 := with_ctx k _ _). assert (Hnc : netconns s2 = accepted a :: netconns s) by done. clearbody s2.
  assert (P : threads s3 = threads s ++ [Client k i TOP None 0] /\ netconns s3 = netconns s2 /\ (forall k', slots k' s3 = slots k' s2) /\
              forall k', server_state (ctx_of k' s3) = server_state (ctx_of k' s2) /\ client_base_num (ctx_of k' s3) = client_base_num (ctx_of k' s2)).
  { unfold s3. destruct (lp =? 80); (split; [by destruct k|]; split; [by destruct k|]; split; intros k'; by destruct k, k'). }
  clearbody s3. destruct P as (P1 & P2 & P3 & P4). rewrite P1, P2, Hnc. split; [done|]. split; [done|]. split.
  - intros k'. destruct (P4 k') as [-> ->]. specialize (Hstat k'). by injection Hstat as -> _ _ ->.
  - exists c1. split; [|done]. intros k'. cbv beta. rewrite P3. apply Hu.
Qed.

(** An accepted connection gets a slot, or is deleted when there is none. *)
Lemma server_accepts a s j k lp c s' : acc s -> threads s !! j = Some (Server k lp c) -> fresh a s -> calm a j s ->
  server_state (ctx_of k s) = SERVER_STATE_ACCEPT -> server_accept a k lp s = Some s' ->
  acc s' /\ threads s' !! j = Some (Server k lp c).
Proof.
  intros Ha Hj [Hf _] Hcalm Hst E. unfold calm in Hcalm. rewrite Hj in Hcalm. destruct (Hcalm Hst) as [Hcr Hlv]. pose proof Ha as [Hacc Hearly Hbase].
  destruct (free_slot (ctx_of k s)) as [[i c0]|] eqn:Ef.
  2:{ unfold server_accept in E. change (ctx_of k (with_netconns (accepted a :: netconns s) s)) with (ctx_of k s) in E. rewrite Ef in E.
      injection E as <-. cbn. rewrite Z.eqb_refl. by split. }
  pose proof Ef as (Hi & Hon & _)%list_find_Some. pose proof (lookup_lt_Some _ _ _ Hi) as Hl.
  pose proof (acc_length _ _ _ Hacc k) as E4. cbv beta in E4. unfold slots in E4. rewrite E4 in Hl. unfold MAX_CLIENT_COUNT in Hl.
  apply (accept_facts _ _ _ _ i c0) in E as (P1 & P2 & P4 & c1 & Hu & Hc1 & Hon1 & Hst1); [|done|done|].
  2:{ rewrite Hbase. unfold USER_THREAD_CNT, WORK_CLIENT_BASE, CAMERA_CLIENT_BASE. clear -Hl. destruct k; lia. }
  split; [|rewrite P1; by apply lookup_app_l_Some]. split.
  - rewrite P1, P2, Permutation_app_comm. cbn [app]. eapply (acc_accept _ _ k i _ _ _ c0 c1 Hacc Hf Hi Hon); [exact Hu|done|done|done|].
    intros p b o Hin. by apply Hlv in Hin.
  - intros k0 lp0 c2 Hin. destruct (P4 k0) as [-> _]. apply (Hearly _ lp0).
    rewrite P1 in Hin. apply elem_of_app in Hin as [Hin|Hin]; [done|]. by apply list_elem_of_singleton in Hin.
  - intros k0. destruct (P4 k0) as [_ ->]. apply Hbase.
Qed.

Lemma server_steps a s j k lp c t' s' : acc s -> threads s !! j = Some (Server k lp c) -> fresh a s -> calm a j s ->
  server_task a k lp c s = Some (t', s') ->
  acc (with_threads (match t' with Some t => <[j := t]> (threads s') | None => delete j (threads s') end) s').
Proof.
  intros Ha Hj Hf Hc E. pose proof (server_conns _ _ _ _ _ Ha Hj) as Hn. pose proof Ha as [[_ Hd _ _ _] Hearly _].
  assert (Hin : Server k lp c ∈ threads s) by (rewrite (cons_delete _ _ _ Hj); by left). specialize (Hearly _ _ _ Hin).
  assert (Hsame : acc (with_threads (<[j := Server k lp c]> (threads s)) s)) by (rewrite list_insert_id by done; by destruct s).
  unfold server_task in E. destruct (server_state (ctx_of k s)) eqn:Est.
  - destruct (link_up a); injection E as <- <-; [apply server_moves; auto|exact Hsame].
  - rewrite Hearly in * by auto. destruct (new_conn a) as [id|] eqn:Eid; injection E as <- <-; [|by apply server_moves].
    set (s1 := with_netconns (id :: netconns s) s).
    destruct (set_state_same k SERVER_STATE_BIND s1) as (Q1 & Q2 & Q3 & Q4 & Q5 & Q6).
    apply (server_goes s j k lp None _ lp (Some id)); try done; [by eapply same_thread|..]; rewrite ?Q2, ?Q6.
    + cbn. by rewrite Hn.
    + destruct Hf as [_ Hf]. rewrite Eid in Hf. by constructor.
    + by intros [].
  - destruct (bind_err a =? ERR_OK); injection E as <- <-; [by apply server_moves|]. pose proof (server_fails s j k lp c Ha Hj) as (_ & _ & G). by destruct c.
  - destruct (listen_err a =? ERR_OK); injection E as <- <-; [by apply server_moves|]. pose proof (server_fails s j k lp c Ha Hj) as (_ & _ & G). by destruct c.
  - destruct (accept_err a =? ERR_TIMEOUT); [by injection E as <- <-|]. destruct (accept_err a =? ERR_ABRT); [by injection E as <- <-|].
    destruct (negb _); [injection E as <- <-; by apply server_moves|]. apply bind_Some in E as (s2 & E & [= <- <-]).
    destruct (server_accepts _ _ _ _ _ _ _ Ha Hj Hf Hc Est E) as [G Hj2]. rewrite list_insert_id by done. by destruct s2.
  - destruct (server_fails s j k lp c Ha Hj) as (G1 & G2 & _). set (s1 := netconn_delete c s) in *.
    assert (Hs1 : threads s1 = threads s /\ comm s1 = comm s) by (unfold s1; by destruct c). clearbody s1. destruct Hs1 as [Ht Hcm].
    assert (Hc1 : forall k, ctx_of k s1 = ctx_of k s) by (intros k0; unfold ctx_of, the_net; by rewrite Hcm).
    assert (Hgo : forall lp' thr, thr ≡ₚ Server k lp' None :: delete j (threads s) -> acc (with_threads thr s1)).
    { intros lp' thr Hthr. eapply (server_goes s j k lp c s1 lp' None); try done; intros k0; unfold slots; by rewrite Hc1. }
    unfold thread_create in E. destruct (_ || _) eqn:Er; [injection E as <- <-; eapply Hgo; by eapply same_thread|].
    destruct (created a); [|injection E as <- <-; eapply Hgo; by eapply same_thread].
    destruct (thread_num _ =? 0) eqn:E0; [lia|]. injection E as <- <-. cbn. rewrite Ht. apply (Hgo (listen_port (ctx_of k s1))).
    rewrite !delete_take_drop. pose proof (lookup_lt_Some _ _ _ Hj).
    rewrite take_app_le, drop_app_le by lia. rewrite app_assoc, Permutation_app_comm. done.
Qed.

Lemma acc_ext s s' : threads s' = threads s -> netconns s' = netconns s -> (forall k, slots k s' = slots k s) ->
  (forall k, server_state (ctx_of k s') = server_state (ctx_of k s) /\ client_base_num (ctx_of k s') = client_base_num (ctx_of k s)) -> acc s -> acc s'.
Proof.
  intros Ht Hn Hs Hx [[H1 H2 H3 H4 H5] He Hb]. split; [split|..]; rewrite ?Ht, ?Hn; try done.
  - rewrite H1. unfold owned. by rewrite !Hs.
  - intros k i. rewrite Hs. apply H3.
  - intros k. rewrite Hs. apply H4.
  - intros k. destruct (Hx k) as [-> _]. apply He.
  - intros k. destruct (Hx k) as [_ ->]. apply Hb.
Qed.
Lemma calm_step_acc s s' : acc s -> calm_step s s' -> acc s'.
Proof.
  intros Ha H. destruct H as [a j s s' Hf Hc E|l s].
  - unfold run_thread in E. apply bind_Some in E as (t & Ht & E). apply bind_Some in E as ([t' s2] & E & [= <-]).
    destruct t; [by eapply server_steps|by eapply acc_client_thread].
  - revert Ha. apply acc_ext; try done; by intros [].
Qed.

(** Nothing has run. *)
Definition boot (s : tcp_t) : Prop := netconns s = [] /\ threads s = [] /\ ctx_of WORK s = work_context_0 /\ ctx_of CAMERA s = camera_context_0.
Lemma boot_acc s : boot s -> acc s.
Proof.
  intros (Hn & Ht & Hw & Hc). split; [split|..]; rewrite ?Hn, ?Ht; try (by constructor); try (intros k); unfold slots, owned.
  - by rewrite Hw, Hc.
  - intros i. destruct k; rewrite ?Hw, ?Hc; cbn [client_list work_context_0 camera_context_0];
      destruct (replicate _ _ !! i) eqn:E; try done; by apply lookup_replicate in E as [-> _].
  - destruct k; by rewrite ?Hw, ?Hc.
  - intros lp c Hin. by apply elem_of_nil in Hin.
  - destruct k; by rewrite ?Hw, ?Hc.
Qed.
Lemma create_acc k n lp cr s : acc s -> omap (server_of k) (threads s) = [] -> acc (fst (thread_create n (Server k lp None) cr s)).
Proof.
  intros Ha H0. unfold thread_create. destruct (_ || _); [done|]. destruct cr; [|done]. cbn. destruct Ha as [[H1 H2 H3 H4 H5] He Hb].
  split; [|intros k0 lp0 c0 Hin|done]; cbn in *.
  - rewrite Permutation_app_comm. cbn [app]. split; [|done|exact H3|done|].
    + by rewrite H1.
    + intros k0. cbn. destruct (decide (k = k0)) as [->|]; [by rewrite H0|apply H5].
  - apply elem_of_app in Hin as [Hin|Hin]; [by apply He with lp0|]. by apply list_elem_of_singleton in Hin as [= _ _ ->].
Qed.
Lemma start_acc net_port c1 c2 s : boot s -> acc (tcpsvr_start net_port c1 c2 s).
Proof.
  intros Hb. pose proof Hb as (_ & Ht & _). unfold tcpsvr_start. set (s1 := if net_port <? 65536 then _ else s).
  assert (Ha : acc s1 /\ threads s1 = []).
  { unfold s1. destruct (net_port <? 65536); (split; [|done]); [|by apply boot_acc].
    apply (acc_ext s); try done; [by intros []..|by apply boot_acc]. }
  clearbody s1. destruct Ha as [Ha Ht1]. apply create_acc; [by apply create_acc; rewrite ?Ht1|].
  unfold thread_create. destruct (_ || _); [by cbn; rewrite Ht1|]. destruct c1; cbn; by rewrite Ht1.
Qed.

Lemma conns_bound (thr : list thread) : (length (omap server_conn thr) <= length (omap (server_of WORK) thr) + length (omap (server_of CAMERA) thr))%nat.
Proof. induction thr as [|t thr IH]; [done|]. destruct t as [[] ? []|]; cbn; repeat case_decide; try done; cbn; lia. Qed.
Lemma omap_length {A B} (f : A -> option B) l : (length (omap f l) <= length l)%nat.
Proof. induction l as [|x l IH]; [done|]. cbn. destruct (f x); cbn; lia. Qed.

(** [C9] Connections and their owners.  From the start of the servers, in every
    interleaving of the threads and for all results of lwIP, as long as threads
    can be created and no connection is accepted while a client of the same
    port is being closed: the open connections are exactly the listening ones
    and those of the client slots, none twice and never more than ten; a slot
    is free, without a connection and without a thread, or has exactly one of
    each; and a client thread always finds a connection in its slot. *)
Theorem connections_accounted net_port c1 c2 s0 s : boot s0 -> star calm_step (tcpsvr_start net_port c1 c2 s0) s ->
  accounted (netconns s) (threads s) (fun k => slots k s) /\ (length (netconns s) <= 10)%nat /\
  forall k i p b o, Client k i p b o ∈ threads s -> exists c, slot k i s = Some c /\ is_Some (conn c).
Proof.
  intros Hb Hs. assert (Ha : acc s) by (eapply (star_invariant _ acc); [apply calm_step_acc|by apply start_acc|exact Hs]).
  pose proof Ha as [Hacc _ _]. split; [done|]. pose proof Hacc as [H1 _ _ H4 H5]. split.
  - rewrite H1. unfold owned. rewrite !length_app. pose proof (conns_bound (threads s)). pose proof (H5 WORK). pose proof (H5 CAMERA).
    pose proof (omap_length conn (slots WORK s)) as L1. pose proof (omap_length conn (slots CAMERA s)) as L2.
    pose proof (H4 WORK) as E1. pose proof (H4 CAMERA) as E2. cbv beta in E1, E2. rewrite E1 in L1. rewrite E2 in L2. unfold MAX_CLIENT_COUNT in *. lia.
  - intros k i p b o Hin. apply list_elem_of_lookup_1 in Hin as [j Hj]. rewrite (cons_delete _ _ _ Hj) in Hacc.
    destruct (client_single _ _ _ _ _ _ _ _ Hacc) as (c & Hc & _ & Hp & _). by exists c.
Qed.

(** ** What happens outside of calm runs *)

(** [C10] A slot that is reused while its client is being closed.  The client thread
    has marked its slot free and waits in [netconn_close] when the server
    thread accepts a connection: the slot is given to it, the closing thread then
    deletes the new connection instead of its own, which stays open without an
    owner, and the new client's thread finds a null pointer, which it
    dereferences. *)
Theorem slot_reused_while_closing a a2 j k lp cn j2 i b o c old s : 
  threads s !! j = Some (Server k lp cn) -> server_state (ctx_of k s) = SERVER_STATE_ACCEPT ->
  threads s !! j2 = Some (Client k i DELETING b o) -> free_slot (ctx_of k s) = Some (i, c) -> conn c = Some old -> old ∈ netconns s ->
  NoDup (netconns s) -> fresh a s -> accept_err a = ERR_OK -> created a = true -> 1 <= client_base_num (ctx_of k s) + Z.of_nat i <= USER_THREAD_CNT ->
  mgr_ok (comm_mgr (comm s)) -> 0 <= tcp_group (comm s) ->
  exists s1 s2, run_thread a j s = Some s1 /\ run_thread a2 j2 s1 = Some s2 /\
    (accepted a ∉ netconns s2) /\ old ∈ netconns s2 /\
    (exists c2, slot k i s2 = Some c2 /\ online c2 = 1 /\ conn c2 = None) /\
    exists j3, threads s2 !! j3 = Some (Client k i TOP None 0) /\ forall a3, run_thread a3 j3 s2 = None.
Proof.
  intros Hj Hst Hj2 Hfs Hc Hold Hnd [Hf _] Herr Hcr Hrange Hm Htg. pose proof Hfs as (Hi & Hon & _)%list_find_Some.
  assert (E : exists s1, server_accept a k lp s = Some s1).
  { unfold server_accept. change (ctx_of k (with_netconns (accepted a :: netconns s) s)) with (ctx_of k s). rewrite Hfs.
    match goal with |- context [comm_channel_add ?x ?y ?g ?n ?m] => destruct (add_refines x y g n m) as (m' & r & -> & _); [done|done|] end.
    cbn [mbind option_bind]. by destruct (thread_create _ _ _ _); eexists. }
  destruct E as [s1 E]. destruct (accept_facts _ _ _ _ _ _ _ Hfs Hcr Hrange E) as (P1 & P2 & _ & c1 & Hu & Hc1 & Hon1 & Hst1).
  pose proof (Hu k) as Hk. cbv beta in Hk. rewrite decide_True in Hk by done.
  assert (Hslot : slot k i s1 = Some c1) by (transitivity (slots k s1 !! i); [done|rewrite Hk; apply list_lookup_insert_eq; by eapply lookup_lt_Some]).
  set (s2 := with_client k i (with_conn None c1) (netconn_delete (Some (accepted a)) s1)).
  pose proof (lookup_lt_Some _ _ _ Hj) as Lj. pose proof (lookup_lt_Some _ _ _ Hj2) as Lj2.
  assert (Hs2 : slot k i s2 = Some (with_conn None c1)).
  { transitivity (slots k s2 !! i); [done|]. pose proof (with_client_update k i (with_conn None c1) s1 (netconn_delete (Some (accepted a)) s1)) as H.
    specialize (H (fun _ => eq_refl) k). cbv beta in H. rewrite decide_True, Hk in H by done. unfold s2. rewrite H, list_insert_insert_eq. apply list_lookup_insert_eq. by eapply lookup_lt_Some. }
  exists (with_threads (threads s ++ [Client k i TOP None 0]) s1), (with_threads (delete j2 (threads s ++ [Client k i TOP None 0])) s2).
  repeat split.
  - unfold run_thread. rewrite Hj. cbn [mbind option_bind]. unfold server_task. rewrite Hst, Herr. cbn [Z.eqb ERR_OK ERR_TIMEOUT ERR_ABRT negb]. rewrite E.
    cbn [mbind option_bind]. rewrite P1, list_insert_id; [done|]. by apply lookup_app_l_Some.
  - unfold run_thread. cbn [threads with_threads]. rewrite lookup_app_l, Hj2 by done. cbn [mbind option_bind]. unfold client_thread.
    change (slot k i (with_threads ?l s1)) with (slot k i s1). rewrite Hslot. cbn [mbind option_bind]. by rewrite Hc1.
  - cbn. rewrite P2. cbn. by rewrite Z.eqb_refl.
  - cbn. rewrite P2. cbn. by rewrite Z.eqb_refl.
  - exists (with_conn None c1). by split.
  - exists (length (threads s) - 1)%nat. split.
    + cbn. rewrite list_lookup_delete_ge by lia. rewrite lookup_app_r by lia. by replace (S (length (threads s) - 1) - length (threads s))%nat with 0%nat by lia.
    + intros a3. unfold run_thread. cbn [threads with_threads]. rewrite list_lookup_delete_ge, lookup_app_r by lia.
      replace (S (length (threads s) - 1) - length (threads s))%nat with 0%nat by lia.
      cbn [lookup list_lookup mbind option_bind]. unfold client_thread. change (slot k i (with_threads ?l s2)) with (slot k i s2). rewrite Hs2.
      cbn [mbind option_bind]. change (state (with_conn None c1)) with (state c1). by rewrite Hst1.
Qed.

Lemma copy_run a j k i d l o c s s' : threads s !! j = Some (Client k i TOP (Some (d, l)) o) -> slot k i s = Some c ->
  state c = CLIENT_STATE_PROCESS -> run_thread a j s = Some s' ->
  exists rx, copy_in d l (server_rx_buffer s) = Some rx /\
    s' = with_threads (<[j := Client k i COPIED (Some (d, l)) o]> (threads s)) (with_rx rx (mk_port (u8 (tcp_group (comm s))) (u8 (num c))) s).
Proof.
  intros Hj Hc Hst E. unfold run_thread, client_thread in E. rewrite Hj in E. cbn [mbind option_bind] in E. rewrite Hc in E. cbn [mbind option_bind] in E.
  rewrite Hst in E. cbn [mbind option_bind fst snd] in E. unfold client_copy in E. destruct (copy_in _ _ _) as [rx|]; [|done]. exists rx. split; [done|]. by injection E as <-.
Qed.
(** What lwIP gets of an answer of [n] bytes for connection [id]. *)
Definition reply_to (id : Z) (t : list Z) (n : Z) (l : L) : L :=
  if negb (0 <? n) || negb (netif_is_up l) || (tcp_sndbuf l id <? 23360) then l else fst (tcp_write l id (take (Z.to_nat (u16 n)) t)).
(** The number of a client leads [tcp_server_send_low] back to its slot. *)
Definition addressed (k : srv) (i : nat) (c : client_t) (s : tcp_t) : Prop :=
  0 <= u8 (num c) < USER_THREAD_CNT /\ context_of (u8 (num c)) = Some k /\ u8 (num c) - client_base_num (ctx_of k s) = Z.of_nat i /\
  Z.of_nat i < client_count (ctx_of k s).
Lemma send_reply k i c id t n s d : addressed k i c s -> slot k i s = Some c -> conn c = Some id -> 0 < n ->
  tcp_send (u8 (num c)) t n (the_net s) = Some d -> lwip d = reply_to id t n (lwip (the_net s)).
Proof.
  intros (Hr & Hk & Hi & Hn) Hc Hid Hn0 E. cbn [tcp_send tcp_net] in E. unfold tcp_server_send_low in E. unfold reply_to.
  rewrite (proj2 (Z.ltb_lt 0 n) Hn0). cbn [negb orb]. destruct (netif_is_up _); cbn [negb orb] in *; [|by injection E as <-].
  replace ((u8 (num c) <? 0) || (USER_THREAD_CNT <=? u8 (num c))) with false in E by lia. rewrite Hk in E. fold (ctx_of k s) in E. rewrite Hi in E.
  replace ((Z.of_nat i <? 0) || (client_count (ctx_of k s) <=? Z.of_nat i)) with false in E by lia.
  unfold ld in E. rewrite (proj2 (Z.leb_le 0 _)), Nat2Z.id in E by lia. unfold slot in Hc. rewrite Hc in E. cbn [mbind option_bind] in E. rewrite Hid in E.
  destruct (negb (has_pcb _ _)); [done|]. cbn [lwip] in E. destruct (_ <? 23360); [by injection E as <-|]. destruct (zlen t <? u16 n); [done|].
  destruct (tcp_write _ _ _) as [l ok]. by injection E as <-.
Qed.
Lemma proto_run rx tx n0 n p (x x' : comm_t (N := net_t) (W := W)) tx' n' : proto_process rx tx n0 n p x = Some (x', tx', n') ->
  exists t n1, run_protocol rx tx n0 n p x = Some (t, n1, world x') /\ tx' = (if 0 <? n1 then put 0 [0; 0; 0; 0] t else t) /\
    (tcp_group x' = tcp_group x /\ uart_group x' = uart_group x) /\
    (group_idx p = tcp_group x -> uart_group x <> tcp_group x ->
       (if 0 <? n1 then tcp_send (channel_idx p) t n1 (net (dev x)) else Some (net (dev x))) = Some (net (dev x'))).
Proof.
  unfold proto_process. intros E. apply bind_Some in E as ([[t n1] w1] & -> & E). exists t, n1. destruct (0 <? n1); [|by injection E as <- <- _].
  apply bind_Some in E as (d & Ed & E). injection E as <- <- _. repeat (split; [done|]). intros Hg Hne. cbn [dev with_dev net uart_group tcp_group with_world] in *.
  rewrite Hg, (proj2 (Z.eqb_neq _ _)), Z.eqb_refl in Ed by congruence. apply bind_Some in Ed as (m & Em & [= <-]). exact Em.
Qed.
Lemma answer_run a j k i d l o c s s' : threads s !! j = Some (Client k i COPIED (Some (d, l)) o) -> slot k i s = Some c -> c_listen_port c <> 80 ->
  run_thread a j s = Some s' ->
  (exists t n1, run_protocol (server_rx_buffer s) (server_tx_buffer s) l o (tcp_port s) (comm s) = Some (t, n1, world (comm s')) /\
     server_tx_buffer s' = (if 0 <? n1 then put 0 [0; 0; 0; 0] t else t) /\
     (group_idx (tcp_port s) = tcp_group (comm s) -> uart_group (comm s) <> tcp_group (comm s) -> forall k' i' c' id, channel_idx (tcp_port s) = u8 (num c') ->
        addressed k' i' c' s -> slot k' i' s = Some c' -> conn c' = Some id -> lwip (the_net s') = reply_to id t n1 (lwip (the_net s)))) /\
  (tcp_group (comm s') = tcp_group (comm s) /\ uart_group (comm s') = uart_group (comm s)) /\ server_rx_buffer s' = server_rx_buffer s /\ tcp_port s' = tcp_port s /\
  (forall j', j' <> j -> threads s' !! j' = threads s !! j') /\ (forall i', i' <> i -> slot k i' s' = slot k i' s) /\
  (exists c', slot k i s' = Some c' /\ num c' = num c /\ conn c' = conn c) /\ forall k', static (ctx_of k' s') = static (ctx_of k' s).
Proof.
  intros Hj Hc Hport E. assert (Hst : forall k', static (ctx_of k' s') = static (ctx_of k' s)).
  { unfold run_thread in E. rewrite Hj in E. cbn [mbind option_bind] in E. apply bind_Some in E as ([t' x] & E & [= <-]). by apply (client_static _ _ _ _ _ _ _ _ _ E). }
  unfold run_thread, client_thread in E. rewrite Hj in E. cbn [mbind option_bind] in E. rewrite Hc in E. cbn [mbind option_bind fst snd] in E.
  unfold client_answer in E. rewrite (proj2 (Z.eqb_neq _ _) Hport) in E.
  destruct (proto_process _ _ _ _ _ _) as [[[x tx] o']|] eqn:Ep; [|done]. cbn [mbind option_bind] in E.
  pose proof (answer_contexts _ _ _ _ _ _ _ _ _ Ep) as Hctx. destruct (proto_run _ _ _ _ _ _ _ _ _ Ep) as (t & n1 & Hrun & Htx & Hg & Hsend).
  set (s2 := with_comm x (with_tx tx s)) in E. assert (Hs : forall k, slots k s2 = slots k s) by (intros k'; unfold slots, ctx_of, the_net; cbn; by rewrite Hctx).
  assert (Hc2 : slot k i s2 = Some c) by (transitivity (slots k s2 !! i); [done|by rewrite Hs]). rewrite Hc2 in E. injection E as <-.
  pose proof (with_client_update k i (with_state CLIENT_STATE_WAIT_DATA c) s s2 Hs k) as Hu. cbv beta in Hu. rewrite decide_True in Hu by done.
  assert (Hsl : forall i', slot k i' (with_client k i (with_state CLIENT_STATE_WAIT_DATA c) s2) = (<[i:=with_state CLIENT_STATE_WAIT_DATA c]> (slots k s)) !! i') by (intros i'; by rewrite <- Hu).
  split.
  { exists t, n1. split; [exact Hrun|]. split; [exact Htx|]. intros Hgi Hne k' i' c' id Hch Ha Hc' Hid. specialize (Hsend Hgi Hne). rewrite Hch in Hsend.
    transitivity (lwip (the_net s2)); [by destruct k|]. change (the_net s2) with (net (dev x)). destruct (Z.ltb_spec 0 n1) as [Hn|Hn].
    - by apply (send_reply _ _ _ _ _ _ _ _ Ha Hc' Hid Hn Hsend).
    - injection Hsend as <-. unfold reply_to. by rewrite (proj2 (Z.ltb_ge 0 n1)). }
  split; [exact Hg|]. split; [done|]. split; [done|]. split; [intros j' Hj'; cbn; by rewrite list_lookup_insert_ne|]. split.
  - intros i' Hi'. change (slot k i' (with_client k i (with_state CLIENT_STATE_WAIT_DATA c) s2) = slot k i' s). rewrite Hsl. by rewrite list_lookup_insert_ne.
  - split; [|exact Hst]. exists (with_state CLIENT_STATE_WAIT_DATA c). split; [|done].
    change (slot k i (with_client k i (with_state CLIENT_STATE_WAIT_DATA c) s2) = Some (with_state CLIENT_STATE_WAIT_DATA c)). rewrite Hsl. apply list_lookup_insert_eq.
    by apply lookup_lt_Some in Hc.
Qed.
Lemma copied d l rx rx' : 0 <= l -> copy_in d l rx = Some rx' -> take (Z.to_nat l) rx' = take (Z.to_nat l) d.
Proof.
  unfold copy_in. intros Hl. destruct (_ || _) eqn:E; [done|]. intros [= <-]. unfold put. rewrite take_0. cbn [app].
  rewrite take_app_le by (rewrite length_take; lia). by rewrite take_take, Nat.min_id.
Qed.

(** [C11] Two clients at the same time.  Two client threads have received a packet
    each; the first copies its packet into the receive buffer, the second does
    the same and is answered, then the first goes on.  If the second packet is not
    shorter, both answers are answers to the second packet, nothing of the first
    packet gets to a protocol, and all that lwIP gets are these two answers, both
    for the connection of the second client. *)
Theorem two_clients_race a1 a2 a3 a4 ja ia da la oa jb ib db lb ob ca cb idb s s1 s2 s3 s4 :
  ja <> jb -> ia <> ib -> threads s !! ja = Some (Client WORK ia TOP (Some (da, la)) oa) -> threads s !! jb = Some (Client WORK ib TOP (Some (db, lb)) ob) ->
  slot WORK ia s = Some ca -> state ca = CLIENT_STATE_PROCESS -> c_listen_port ca <> 80 ->
  slot WORK ib s = Some cb -> state cb = CLIENT_STATE_PROCESS -> c_listen_port cb <> 80 -> 0 < la <= lb ->
  conn cb = Some idb -> addressed WORK ib cb s -> 0 <= tcp_group (comm s) < 256 -> uart_group (comm s) <> tcp_group (comm s) ->
  run_thread a1 ja s = Some s1 -> run_thread a2 jb s1 = Some s2 -> run_thread a3 jb s2 = Some s3 -> run_thread a4 ja s3 = Some s4 ->
  let port := mk_port (u8 (tcp_group (comm s))) (u8 (num cb)) in
  exists rx t1 n1 w1 t2 n2, take (Z.to_nat lb) rx = take (Z.to_nat lb) db /\
    run_protocol rx (server_tx_buffer s) lb ob port (comm s) = Some (t1, n1, w1) /\
    run_protocol rx (if 0 <? n1 then put 0 [0; 0; 0; 0] t1 else t1) la oa port (with_world w1 (comm s)) = Some (t2, n2, world (comm s4)) /\
    lwip (the_net s4) = reply_to idb t2 n2 (reply_to idb t1 n1 (lwip (the_net s))).
Proof.
  intros Hne Hnei Hja Hjb Hca Hsta Hpa Hcb Hstb Hpb Hl Hid Hadr Htg Hug E1 E2 E3 E4 port.
  destruct (copy_run _ _ _ _ _ _ _ _ _ _ Hja Hca Hsta E1) as (rx1 & _ & ->).
  eapply copy_run in E2 as (rx2 & Hrx & E2); [|cbn; by rewrite list_lookup_insert_ne|exact Hcb|exact Hstb].
  pose proof (copied db lb _ _ ltac:(lia) Hrx) as Htake. pose proof (lookup_lt_Some _ _ _ Hja) as La. pose proof (lookup_lt_Some _ _ _ Hjb) as Lb.
  assert (Ha2 : threads s2 !! ja = Some (Client WORK ia COPIED (Some (da, la)) oa))
    by (rewrite E2; cbn; rewrite list_lookup_insert_ne by done; by rewrite list_lookup_insert_eq).
  assert (Hb2 : threads s2 !! jb = Some (Client WORK ib COPIED (Some (db, lb)) ob))
    by (rewrite E2; cbn; by rewrite list_lookup_insert_eq by (by rewrite length_insert)).
  assert (P : server_rx_buffer s2 = rx2 /\ server_tx_buffer s2 = server_tx_buffer s /\ tcp_port s2 = port /\ comm s2 = comm s) by by rewrite E2.
  destruct P as (P1 & P2 & P3 & P4). assert (Hs2 : forall i, slot WORK i s2 = slot WORK i s) by (intros i; by rewrite E2).
  assert (Hn2 : the_net s2 = the_net s) by (unfold the_net; by rewrite P4). clear E1 E2 Hja Hjb.
  assert (Hgi : group_idx port = tcp_group (comm s)) by (cbn; by rewrite u8_small).
  destruct (answer_run _ _ _ _ _ _ _ _ _ _ Hb2 (eq_trans (Hs2 ib) Hcb) Hpb E3) as ((t1 & n1 & R1 & T1 & S1) & [Q1 Q1'] & Q2 & Q3 & Q4 & Q5 & (cb' & Hcb' & Hnum & Hconn) & Q6).
  destruct (answer_run a4 ja WORK ia da la oa ca s3 s4) as ((t2 & n2 & R2 & _ & S2) & _); [by rewrite Q4|by rewrite Q5, Hs2|done|done|].
  rewrite P1, P2, P3, P4 in R1. rewrite Q2, Q3, T1, P1, P3 in R2. exists rx2, t1, n1, (world (comm s3)), t2, n2. split; [done|]. split; [done|]. split.
  { rewrite <- R2. apply run_protocol_com; cbn; [done|by rewrite Q1, P4]. }
  rewrite P3, P4 in S1. rewrite Q3, P3, Q1, Q1', P4 in S2. rewrite <- Hn2, <- (S1 Hgi Hug WORK ib cb idb eq_refl); [|unfold addressed, ctx_of; by rewrite Hn2|by rewrite Hs2|done].
  apply (S2 Hgi Hug WORK ib cb' idb); [cbn; by rewrite Hnum| |done|by rewrite Hconn].
  pose proof (Q6 WORK) as H6. unfold static in H6. injection H6 as _ _ H7 H8. unfold addressed in *. rewrite Hnum. change (ctx_of WORK s3) with (work_context (the_net s3)). rewrite H7, H8, Hn2. exact Hadr.
Qed.

Lemma server_static a k k0 lp cn s t' s' : server_task a k0 lp cn s = Some (t', s') -> server_state (ctx_of k s) = SERVER_STATE_RESTART ->
  static (ctx_of k s') = static (ctx_of k s).
Proof.
  intros E Hk. assert (Hdel : forall id x, ctx_of k (netconn_delete id x) = ctx_of k x) by (by intros []).
  assert (Hcr : forall n t cr x, ctx_of k (fst (thread_create n t cr x)) = ctx_of k x) by (intros; unfold thread_create; by repeat case_match).
  unfold server_task in E. destruct (decide (k0 = k)) as [->|Hne].
  - rewrite Hk in E. destruct (thread_create _ _ _ _) as [s2 r] eqn:Et. assert (E2 : static (ctx_of k s2) = static (ctx_of k s)).
    { change s2 with (fst (s2, r)). by rewrite <- Et, Hcr, Hdel. }
    by destruct (r =? 0); injection E as <- <-.
  - assert (Ho : forall x y, ctx_of k (with_ctx k0 x y) = ctx_of k y) by (intros; by destruct k0, k).
    assert (Hst : forall t y, ctx_of k (set_server_state k0 t y) = ctx_of k y) by (intros; by destruct k0, k).
    assert (Hcl : forall i c y, ctx_of k (with_client k0 i c y) = ctx_of k y) by (intros; by destruct k0, k).
    destruct (server_state (ctx_of k0 s)); repeat case_match; simplify_eq/=; rewrite ?Hst, ?Hdel; try done.
    + apply bind_Some in E as (s2 & E & [= <- <-]). unfold server_accept in E. destruct (free_slot _) as [[i c]|]; [|by injection E as <-].
      apply bind_Some in E as (r & _ & E). destruct (thread_create _ _ _ _) as [s3 r3] eqn:Et.
      assert (E3 : ctx_of k s3 = ctx_of k s) by (change s3 with (fst (s3, r3)); rewrite <- Et, Hcr; change (ctx_of k (with_mgr ?m ?y)) with (ctx_of k y); by rewrite Hcl).
      destruct (r3 =? 0); injection E as <-; [by rewrite E3|]. rewrite Ho. destruct (lp =? 80); by rewrite <- E3.
    + match goal with E : thread_create _ _ _ _ = (?y, ?r) |- _ => change y with (fst (y, r)); by rewrite <- E, Hcr, Hdel end.
    + match goal with E : thread_create _ _ _ _ = (?y, ?r) |- _ => change y with (fst (y, r)); by rewrite <- E, Hcr, Hdel end.
Qed.

(** A server that has to restart never listens again: the new thread finds the
    state [RESTART] and restarts in its turn.  Whatever else happens, no
    connection is accepted on the port any more. *)
Theorem restart_is_final k s s' : server_state (ctx_of k s) = SERVER_STATE_RESTART -> star tcp_step s s' ->
  server_state (ctx_of k s') = SERVER_STATE_RESTART /\ client_count (ctx_of k s') = client_count (ctx_of k s).
Proof.
  intros H0 Hs. assert (G : server_state (ctx_of k s') = SERVER_STATE_RESTART /\ static (ctx_of k s') = static (ctx_of k s)).
  { apply (star_invariant tcp_step (fun x => server_state (ctx_of k x) = SERVER_STATE_RESTART /\ static (ctx_of k x) = static (ctx_of k s)) s s'); [|done|done].
    clear Hs. intros x y [Hx Hx2] Hxy. assert (E : static (ctx_of k y) = static (ctx_of k x)).
    { destruct Hxy as [a j x y Hf E|l x]; [|by destruct k]. unfold run_thread in E.
      apply bind_Some in E as (t & Ht & E). apply bind_Some in E as ([t' x2] & E & [= <-]).
      change (ctx_of k (with_threads ?l x2)) with (ctx_of k x2). destruct t as [k0 lp cn|]; [|by eapply client_static].
      by eapply server_static. }
    split; [|congruence]. unfold static in E. congruence. }
  destruct G as [G1 G2]. split; [done|]. unfold static in G2. congruence.
Qed.

(** A given sequence of steps, if it is calm. *)
Definition calm_ok (a : answers) (j : nat) (s : tcp_t) : bool :=
  bool_decide (accepted a ∉ netconns s) && match new_conn a with Some id => bool_decide (id ∉ netconns s) | None => true end &&
  match threads s !! j with
  | Some (Server k _ _) =>
      match server_state (ctx_of k s) with
      | SERVER_STATE_ACCEPT => created a && forallb (fun t => match t with Client k' _ p _ _ => negb (bool_decide (k' = k) && leaving p) | _ => true end) (threads s)
      | _ => true
      end
  | _ => true
  end.
Fixpoint calm_runs (l : list (answers * nat)) (s : tcp_t) : option tcp_t :=
  match l with
  | [] => Some s
  | (a, j) :: l => if calm_ok a j s then s ← run_thread a j s; calm_runs l s else None
  end.
Lemma calm_ok_calm a j s : calm_ok a j s = true -> fresh a s /\ calm a j s.
Proof.
  unfold calm_ok. intros [[H1%bool_decide_eq_true H2]%andb_prop H3]%andb_prop. split.
  - split; [done|]. destruct (new_conn a); [by apply bool_decide_eq_true in H2|done].
  - unfold calm. destruct (threads s !! j) as [[k lp c|]|]; [|done..]. intros E. rewrite E in H3. apply andb_prop in H3 as [H3 H4]. split; [done|].
    intros i p b o Hin. rewrite forallb_forall in H4. specialize (H4 _ Hin). cbn in H4. rewrite bool_decide_eq_true_2 in H4 by done. by destruct (leaving p).
Qed.
Lemma calm_runs_star l : forall s s', calm_runs l s = Some s' -> star calm_step s s'.
Proof.
  induction l as [|[a j] l IH]; intros s s' E; cbn in E; [injection E as <-; constructor|]. destruct (calm_ok a j s) eqn:Ec; [|done].
  apply bind_Some in E as (s1 & E1 & E). destruct (calm_ok_calm _ _ _ Ec) as [H1 H2]. eapply star_trans; [|by apply IH].
  econstructor; [constructor|by eapply calm_thread].
Qed.
End Server.

(** ** A run with two clients *)

(** lwIP with room for everything; the log holds what is queued. *)
#[local] Instance log_stack : TcpStack (list (Z * list Z)) := {|
  netif_is_up _ := true; has_pcb _ _ := true; tcp_sndbuf _ _ := 46720; tcp_write l id d := (l ++ [(id, d)], true) |}.
#[local] Instance demo_protocols : Protocols Z := echo_protocols.
Definition demo_t : Type := tcp_t (L := list (Z * list Z)) (W := Z).

Definition demo_boot : demo_t :=
  mk_tcp (replicate PROT_MAX_PKT_LEN 0) (replicate PROT_MAX_PKT_LEN 0) (mk_port 0 0) (mk_burst (32, 32) 0 []) 0 0 false
    (mk_comm (fst (fst demo_mgr)) (snd (fst demo_mgr)) (snd demo_mgr) (mk_io demo_com (mk_net [] work_context_0 camera_context_0 0 [])) 0) [] [].
Definition demo_start : demo_t := tcpsvr_start 6363 true true demo_boot.
Definition answer (new acc : Z) (err : Z) (d : list Z) : answers :=
  mk_answers true (Some new) 0 0 0 acc 16777343 5000 true true true err (Some d) (zlen d).
(** The command server listens and accepts two clients; both receive a packet. *)
Definition two_clients : list (answers * nat) :=
  [(answer 1 2 0 [], 0%nat); (answer 7 2 0 [], 0%nat); (answer 1 2 0 [], 0%nat); (answer 1 2 0 [], 0%nat);
   (answer 1 8 0 [], 0%nat); (answer 1 9 0 [], 0%nat); (answer 1 2 0 [], 2%nat); (answer 1 2 0 [], 3%nat);
   (answer 1 2 0 [65; 66], 2%nat); (answer 1 2 0 [67; 68], 3%nat)].
Definition demo_two : demo_t := default demo_boot (calm_runs two_clients demo_start).
Lemma demo_boot_ok : boot demo_boot.
Proof. repeat split. Qed.

Lemma connections_accounted_witness :
  boot demo_boot /\ star calm_step demo_start demo_two /\ netconns demo_two = [9; 8; 7] /\ length (threads demo_two) = 4%nat /\
  accounted (netconns demo_two) (threads demo_two) (fun k => slots k demo_two) /\ (length (netconns demo_two) <= 10)%nat.
Proof.
  split; [exact demo_boot_ok|].
  assert (Hs : star calm_step demo_start demo_two) by (apply (calm_runs_star two_clients); vm_compute; reflexivity).
  split; [exact Hs|]. split; [vm_compute; reflexivity|]. split; [vm_compute; reflexivity|].
  destruct (connections_accounted 6363 true true demo_boot demo_two demo_boot_ok Hs) as (H1 & H2 & _). split; [exact H1|exact H2].
Defined.

(** Both clients are answered with the second packet, over the second
    connection. *)
Definition run_or (a : answers) (j : nat) (s : demo_t) : demo_t := default s (run_thread a j s).
Definition race_1 : demo_t := run_or (answer 1 2 0 []) 2 demo_two.
Definition race_2 : demo_t := run_or (answer 1 2 0 []) 3 race_1.
Definition race_3 : demo_t := run_or (answer 1 2 0 []) 3 race_2.
Definition race_4 : demo_t := run_or (answer 1 2 0 []) 2 race_3.
Definition client_0 : client_t := default no_client (slot WORK 0 demo_two).
Definition client_1 : client_t := default no_client (slot WORK 1 demo_two).
Lemma two_clients_race_witness :
  lwip (the_net race_4) = [(9, [67; 68]); (9, [67; 68])] /\
  let port := mk_port (u8 (tcp_group (comm demo_two))) (u8 (num client_1)) in
  exists rx t1 n1 w1 t2 n2, take (Z.to_nat 2) rx = take (Z.to_nat 2) [67; 68] /\
    run_protocol rx (server_tx_buffer demo_two) 2 0 port (comm demo_two) = Some (t1, n1, w1) /\
    run_protocol rx (if 0 <? n1 then put 0 [0; 0; 0; 0] t1 else t1) 2 0 port (with_world w1 (comm demo_two)) = Some (t2, n2, world (comm race_4)) /\
    lwip (the_net race_4) = reply_to 9 t2 n2 (reply_to 9 t1 n1 (lwip (the_net demo_two))).
Proof.
  split; [vm_compute; reflexivity|].
  pose proof (two_clients_race (answer 1 2 0 []) (answer 1 2 0 []) (answer 1 2 0 []) (answer 1 2 0 []) 2 0 [65; 66] 2 0 3 1 [67; 68] 2 0
    client_0 client_1 9 demo_two race_1 race_2 race_3 race_4) as H.
  specialize (H ltac:(discriminate) ltac:(discriminate) ltac:(vm_compute; reflexivity) ltac:(vm_compute; reflexivity)).
  specialize (H ltac:(vm_compute; reflexivity) ltac:(vm_compute; reflexivity) ltac:(vm_compute; discriminate)).
  specialize (H ltac:(vm_compute; reflexivity) ltac:(vm_compute; reflexivity) ltac:(vm_compute; discriminate)).
  specialize (H ltac:(split; [reflexivity|discriminate]) ltac:(vm_compute; reflexivity)).
  specialize (H ltac:(split; [split; [vm_compute; discriminate|vm_compute; reflexivity]|split; [vm_compute; reflexivity|split; vm_compute; reflexivity]])).
  specialize (H ltac:(split; [vm_compute; discriminate|vm_compute; reflexivity]) ltac:(vm_compute; discriminate)).
  specialize (H ltac:(vm_compute; reflexivity) ltac:(vm_compute; reflexivity)).
  specialize (H ltac:(vm_compute; reflexivity) ltac:(vm_compute; reflexivity)).
  exact H.
Defined.

(** The first client's connection fails; while it is being closed a third
    connection arrives. *)
Definition demo_closing : demo_t :=
  let a := answer 1 2 (-15) [] in
  default demo_boot (calm_runs [(answer 1 2 0 [], 2%nat); (answer 1 2 0 [], 2%nat); (a, 2%nat); (a, 2%nat); (a, 2%nat)] demo_two).
Lemma slot_reused_while_closing_witness :
  threads demo_closing !! 2%nat = Some (Client WORK 0 DELETING None 0) /\ netconns demo_closing = [9; 8; 7] /\
  let a := answer 1 10 0 [] in
  exists s1 s2, run_thread a 0 demo_closing = Some s1 /\ run_thread a 2 s1 = Some s2 /\
    (accepted a ∉ netconns s2) /\ 8 ∈ netconns s2 /\
    (exists c2, slot WORK 0 s2 = Some c2 /\ online c2 = 1 /\ conn c2 = None) /\
    exists j3, threads s2 !! j3 = Some (Client WORK 0 TOP None 0) /\ forall a3, run_thread a3 j3 s2 = None.
Proof.
  split; [vm_compute; reflexivity|]. split; [vm_compute; reflexivity|]. intros a.
  apply (slot_reused_while_closing a a 0 WORK 6363 (Some 7) 2 0 None 0 (default no_client (slot WORK 0 demo_closing)) 8 demo_closing);
    try (vm_compute; reflexivity); try (vm_compute; split; discriminate); try (vm_compute; discriminate).
  - replace (netconns demo_closing) with [9; 8; 7] by (vm_compute; reflexivity). right. left.
  - replace (netconns demo_closing) with [9; 8; 7] by (vm_compute; reflexivity). repeat constructor; set_solver.
  - unfold fresh. replace (netconns demo_closing) with [9; 8; 7] by (vm_compute; reflexivity). split; cbn; set_solver.
  - let m := eval vm_compute in (comm_mgr (comm demo_closing)) in
      replace (comm_mgr (comm demo_closing)) with m by (vm_compute; reflexivity).
    split; [reflexivity|]. by repeat constructor.
Defined.
