(* ===== verification/Key.v ===== *)
(** * key.c: debouncing and long presses

    Each of the four keys is a state machine that is stepped by every scan of
    the key matrix; short and long presses are left as flags for the menu, and
    [key_idle_flag] says how long no key was used. *)
From Stdlib Require Import ZifyBool.
From S2P Require Import Prelude.

Definition KEY_UP : Z := 0.
Definition KEY_DOWN : Z := 1.
Definition KEY_SET : Z := 2.
Definition KEY_RIGHT : Z := 3.
Definition KEY_CNT : Z := 4.
Definition BTN_UP_MASK : Z := 0x0080.
Definition BTN_DOWN_MASK : Z := 0x0004.
Definition BTN_SET_MASK : Z := 0x0040.
Definition BTN_RIGHT_MASK : Z := 0x0008.
(** In ticks of one millisecond. *)
Definition DEBOUNCE_TIME : Z := 10.
Definition LONG_PRESS_1S_THRESHOLD : Z := 1000.
Definition LONG_PRESS_2S_THRESHOLD : Z := 2000.
Definition LONG_PRESS_3S_THRESHOLD : Z := 3000.
Definition NO_KEY_PRESS_TIMEOUT : Z := 10000.
Definition NO_KEY_PRESS_SHORT_TIMEOUT : Z := 2000.

Inductive button_state_t : Set := STATE_IDLE | STATE_DEBOUNCE_PRESS | STATE_PRESSED | STATE_DEBOUNCE_RELEASE.
Record key_info_t := mk_key { state : button_state_t; press_start_time : Z; debounce_time : Z; key_mask : Z; key_id : Z;
  long_pressed : bool; step_value : Z; short_flag : Z; long_flag : Z }.
Record keys_t := mk_keys { KEY_TABLES : list key_info_t; last_key_action_time : Z; key_idle_flag : Z }.

Definition new_key (mask id : Z) : key_info_t := mk_key STATE_IDLE 0 0 mask id false 1 0 0.
Definition keys_start : keys_t :=
  mk_keys [new_key BTN_UP_MASK KEY_UP; new_key BTN_DOWN_MASK KEY_DOWN; new_key BTN_SET_MASK KEY_SET; new_key BTN_RIGHT_MASK KEY_RIGHT] 0 1.

Definition set_state (t : button_state_t) (k : key_info_t) : key_info_t :=
  mk_key t (press_start_time k) (debounce_time k) (key_mask k) (key_id k) (long_pressed k) (step_value k) (short_flag k) (long_flag k).
Definition set_debounce (now : Z) (k : key_info_t) : key_info_t :=
  mk_key (state k) (press_start_time k) now (key_mask k) (key_id k) (long_pressed k) (step_value k) (short_flag k) (long_flag k).
Definition set_start (now : Z) (k : key_info_t) : key_info_t :=
  mk_key (state k) now (debounce_time k) (key_mask k) (key_id k) (long_pressed k) (step_value k) (short_flag k) (long_flag k).
Definition set_long_pressed (b : bool) (k : key_info_t) : key_info_t :=
  mk_key (state k) (press_start_time k) (debounce_time k) (key_mask k) (key_id k) b (step_value k) (short_flag k) (long_flag k).
Definition set_flags (short long : Z) (k : key_info_t) : key_info_t :=
  mk_key (state k) (press_start_time k) (debounce_time k) (key_mask k) (key_id k) (long_pressed k) (step_value k) short long.
Definition set_step (n : Z) (k : key_info_t) : key_info_t :=
  mk_key (state k) (press_start_time k) (debounce_time k) (key_mask k) (key_id k) (long_pressed k) n (short_flag k) (long_flag k).

Definition key_init (s : keys_t) : keys_t := mk_keys (map (set_flags 0 0) (KEY_TABLES s)) (last_key_action_time s) (key_idle_flag s).

Definition held (n : Z) (k : key_info_t) : key_info_t * bool := (set_long_pressed true (set_flags (short_flag k) 1 (set_step n k)), true).
(** The switch over the state of one key; the result says whether the key did
    something.  Differences of tick counts wrap. *)
Definition key_step (now : Z) (is_pressed : bool) (k : key_info_t) : key_info_t * bool :=
  match state k with
  | STATE_IDLE => (if is_pressed then set_long_pressed false (set_debounce now (set_state STATE_DEBOUNCE_PRESS k)) else k, false)
  | STATE_DEBOUNCE_PRESS =>
      (if negb is_pressed then set_state STATE_IDLE k
       else if DEBOUNCE_TIME <=? u32 (now - debounce_time k) then set_start now (set_state STATE_PRESSED k) else k, false)
  | STATE_PRESSED =>
      if negb is_pressed then (set_debounce now (set_state STATE_DEBOUNCE_RELEASE k), false)
      else
        let hold_time := u32 (now - press_start_time k) in
        if LONG_PRESS_3S_THRESHOLD <=? hold_time then held 100 k
        else if LONG_PRESS_2S_THRESHOLD <=? hold_time then held 10 k
        else if LONG_PRESS_1S_THRESHOLD <=? hold_time then held 1 k
        else (k, false)
  | STATE_DEBOUNCE_RELEASE =>
      if is_pressed then (set_state STATE_PRESSED k, false)
      else if DEBOUNCE_TIME <=? u32 (now - debounce_time k) then
        if negb (long_pressed k) then (set_state STATE_IDLE (set_step 1 (set_flags 1 (long_flag k) k)), true)
        else (set_state STATE_IDLE k, false)
      else (k, false)
  end.

(** [do { ... } while (retry--)]: at most four scans. *)
Fixpoint scan_keys (retry : nat) (scan : nat -> Z) : Z :=
  let key_status := scan O in
  if negb (key_status =? 0xFFFF) then key_status
  else match retry with O => key_status | S retry => scan_keys retry (fun i => scan (S i)) end.

Definition is_pressed (key_status : Z) (k : key_info_t) : bool := Z.land key_status (key_mask k) =? key_mask k.
Definition DEV_ST_OK : Z := 48.
Definition DEV_ST_ERR : Z := 49.

(** [scan]: the results of [tm1639_key_scan]; [dev_error]:
    [sys_state.dev_error[DEV_ERR_TM1639]]. *)
Definition key_task (scan : nat -> Z) (current_time : Z) (s : keys_t) (dev_error : Z) : keys_t * Z :=
  let key_status := scan_keys 3 scan in
  if key_status =? 0xFFFF then (s, DEV_ST_ERR)
  else
    let dev_error := if negb (Z.land key_status 0xCC =? 0) then DEV_ST_OK else dev_error in
    let r := map (fun k => key_step current_time (is_pressed key_status k) k) (KEY_TABLES s) in
    let since := u32 (current_time - last_key_action_time s) in
    (if existsb snd r then mk_keys (map fst r) current_time 0
     else mk_keys (map fst r) (last_key_action_time s)
            (if NO_KEY_PRESS_TIMEOUT <=? since then 1 else if NO_KEY_PRESS_SHORT_TIMEOUT <=? since then 2 else key_idle_flag s),
     dev_error).

(** Reading a flag clears it. *)
Definition key_get_short_flag (id : Z) (s : keys_t) : option (Z * keys_t) :=
  if KEY_CNT <=? id then Some (0, s)
  else
    k ← ld (KEY_TABLES s) id; t ← st (KEY_TABLES s) id (set_flags 0 (long_flag k) k);
    Some (short_flag k, mk_keys t (last_key_action_time s) (key_idle_flag s)).
Definition key_get_long_flag (id : Z) (s : keys_t) : option (Z * keys_t) :=
  if KEY_CNT <=? id then Some (0, s)
  else
    k ← ld (KEY_TABLES s) id; t ← st (KEY_TABLES s) id (set_flags (short_flag k) 0 k);
    Some (long_flag k, mk_keys t (last_key_action_time s) (key_idle_flag s)).

(** * What a press becomes *)

(** A key under a sequence of scans. *)
Definition key_run (l : list (Z * bool)) (k : key_info_t) : key_info_t := fold_left (fun k x => fst (key_step (fst x) (snd x) k)) l k.
(** The step of a long press held for [t]; 0 when it is none yet. *)
Definition hold_step (t : Z) : Z := if 3000 <=? t then 100 else if 2000 <=? t then 10 else if 1000 <=? t then 1 else 0.
(** The last long step of the scans of a hold that began at [t1]. *)
Definition last_step (t1 : Z) (hs : list Z) : Z := fold_left (fun n t => let n' := hold_step (u32 (t - t1)) in if n' =? 0 then n else n') hs 0.

Definition pressed (l : list Z) : list (Z * bool) := map (fun t => (t, true)) l.
Definition released (l : list Z) : list (Z * bool) := map (fun t => (t, false)) l.
(** The key is up again after a press, with these flags and this step. *)
Definition up_again (k k' : key_info_t) (short long step : Z) : Prop :=
  state k' = STATE_IDLE /\ short_flag k' = short /\ long_flag k' = long /\ step_value k' = step /\ key_mask k' = key_mask k /\ key_id k' = key_id k.

Lemma key_run_app l1 l2 k : key_run (l1 ++ l2) k = key_run l2 (key_run l1 k).
Proof. apply fold_left_app. Qed.

(** Scans inside the debouncing time change nothing. *)
Lemma debounce_press l k : state k = STATE_DEBOUNCE_PRESS -> Forall (fun t => u32 (t - debounce_time k) < DEBOUNCE_TIME) l -> key_run (pressed l) k = k.
Proof.
  intros Hk Hl. induction Hl as [|t l Ht Hl IH]; [done|]. change (key_run (pressed l) (fst (key_step t true k)) = k).
  replace (fst (key_step t true k)) with k; [done|]. unfold key_step. rewrite Hk. cbn. by rewrite (proj2 (Z.leb_gt _ _) Ht).
Qed.
Lemma debounce_release l k : state k = STATE_DEBOUNCE_RELEASE -> Forall (fun t => u32 (t - debounce_time k) < DEBOUNCE_TIME) l -> key_run (released l) k = k.
Proof.
  intros Hk Hl. induction Hl as [|t l Ht Hl IH]; [done|]. change (key_run (released l) (fst (key_step t false k)) = k).
  replace (fst (key_step t false k)) with k; [done|]. unfold key_step. rewrite Hk. cbn. by rewrite (proj2 (Z.leb_gt _ _) Ht).
Qed.

(** What holding the key does. *)
Definition holding (k k' : key_info_t) (n : Z) : Prop :=
  state k' = STATE_PRESSED /\ press_start_time k' = press_start_time k /\ short_flag k' = short_flag k /\ key_mask k' = key_mask k /\ key_id k' = key_id k /\
  (long_pressed k' = true <-> n <> 0) /\ long_flag k' = (if n =? 0 then long_flag k else 1) /\ (n <> 0 -> step_value k' = n).
Lemma hold_scan k k' n t : holding k k' n -> holding k (fst (key_step t true k')) (let n' := hold_step (u32 (t - press_start_time k)) in if n' =? 0 then n else n').
Proof.
  intros (H1 & H2 & H3 & H4 & H5 & H6 & H7 & H8). unfold key_step. rewrite H1. cbn [negb].
  unfold LONG_PRESS_3S_THRESHOLD, LONG_PRESS_2S_THRESHOLD, LONG_PRESS_1S_THRESHOLD, hold_step. rewrite H2.
  destruct (3000 <=? _); [by repeat split|]. destruct (2000 <=? _); [by repeat split|]. by destruct (1000 <=? _).
Qed.
Lemma hold_scans hs k : state k = STATE_PRESSED -> long_pressed k = false -> holding k (key_run (pressed hs) k) (last_step (press_start_time k) hs).
Proof.
  intros Hk Hl. unfold last_step.
  assert (G : forall k' n, holding k k' n -> holding k (key_run (pressed hs) k')
      (fold_left (fun n t => let n' := hold_step (u32 (t - press_start_time k)) in if n' =? 0 then n else n') hs n)).
  { clear Hk Hl. induction hs as [|t hs IH]; intros k' n H; [done|]. cbn [fold_left key_run pressed map fst snd]. apply IH. by apply hold_scan. }
  apply G. split; [done|]. repeat (split; [done|]). split; [|done]. split; [congruence|done].
Qed.

(** [C7] What a press becomes.  From rest: contact for less than the debouncing
    time leaves the key as it was.  A press that is still seen after it, held over
    the scans [hs], and then a release that lasts, with any number of scans
    inside the debouncing times, gives exactly one of two things: a short press
    with step 1 when no scan of the hold was a second or more after its start, and
    otherwise a long press, with the step 1, 10 or 100 of the last such
    scan.  A release shorter than the debouncing time during the hold is not seen.
    Tick counts may wrap anywhere. *)
Theorem key_press k t0 l1 t1 hs t2 l2 t3 : state k = STATE_IDLE ->
  Forall (fun t => u32 (t - t0) < DEBOUNCE_TIME) l1 -> DEBOUNCE_TIME <= u32 (t1 - t0) ->
  Forall (fun t => u32 (t - t2) < DEBOUNCE_TIME) l2 -> DEBOUNCE_TIME <= u32 (t3 - t2) ->
  up_again k (key_run (pressed (t0 :: l1) ++ released [t2]) k) (short_flag k) (long_flag k) (step_value k) /\
  (let n := last_step t1 hs in
   let k' := key_run (pressed (t0 :: l1 ++ t1 :: hs) ++ released (t2 :: l2 ++ [t3])) k in
   if n =? 0 then up_again k k' 1 (long_flag k) 1 else up_again k k' (short_flag k) 1 n) /\
  forall l k1, state k1 = STATE_PRESSED -> Forall (fun t => u32 (t - t2) < DEBOUNCE_TIME) l ->
    key_run (released (t2 :: l) ++ pressed [t3]) k1 = set_debounce t2 k1.
Proof.
  intros Hk H1 Ht1 H2 Ht3. set (k1 := set_long_pressed false (set_debounce t0 (set_state STATE_DEBOUNCE_PRESS k))).
  assert (E1 : key_run (pressed (t0 :: l1)) k = k1).
  { change (key_run (pressed l1) (fst (key_step t0 true k)) = k1). unfold key_step. rewrite Hk. by apply debounce_press. }
  assert (E3 : forall l k0, state k0 = STATE_PRESSED -> Forall (fun t => u32 (t - t2) < DEBOUNCE_TIME) l ->
            key_run (released (t2 :: l)) k0 = set_debounce t2 (set_state STATE_DEBOUNCE_RELEASE k0)).
  { intros l k0 Hk0 Hl. change (key_run (released l) (fst (key_step t2 false k0)) = set_debounce t2 (set_state STATE_DEBOUNCE_RELEASE k0)).
    unfold key_step. rewrite Hk0. by apply debounce_release. }
  split; [rewrite key_run_app, E1; by repeat split|]. split.
  - intros n k'. set (k2 := set_start t1 (set_state STATE_PRESSED k1)). set (kh := key_run (pressed hs) k2).
    assert (E : k' = fst (key_step t3 false (set_debounce t2 (set_state STATE_DEBOUNCE_RELEASE kh)))).
    { assert (E2 : fst (key_step t1 true k1) = k2) by (unfold key_step; cbn; by rewrite (proj2 (Z.leb_le _ _) Ht1)).
      destruct (hold_scans hs k2 eq_refl eq_refl) as (Hh & _). unfold k'. rewrite key_run_app.
      replace (key_run (pressed (t0 :: l1 ++ t1 :: hs)) k) with kh.
      - unfold released. rewrite app_comm_cons, map_app, key_run_app. fold (released (t2 :: l2)). by rewrite E3.
      - unfold pressed. rewrite app_comm_cons, map_app, key_run_app. fold (pressed (t0 :: l1)). rewrite E1.
        change (kh = key_run (pressed hs) (fst (key_step t1 true k1))). by rewrite E2. }
    destruct (hold_scans hs k2 eq_refl eq_refl) as (P1 & P2 & P3 & P4 & P5 & P6 & P7 & P8). fold kh in P1, P2, P3, P4, P5, P6, P7, P8.
    change (last_step (press_start_time k2) hs) with n in *. clearbody kh. rewrite E. unfold key_step.
    cbn [state set_debounce set_state negb debounce_time long_pressed]. rewrite (proj2 (Z.leb_le _ _) Ht3).
    destruct (Z.eqb_spec n 0) as [En|En].
    + destruct (long_pressed kh); [by destruct P6 as [P6 _]; exfalso; apply P6|]. cbn. by repeat split.
    + rewrite (proj2 P6 En). cbn. repeat split; try done. by apply P8.
  - intros l k0 Hk0 Hl. rewrite key_run_app, E3 by done. destruct k0. cbn in *. by rewrite Hk0.
Qed.

(** A press across the wrap of the tick counter, held for two seconds and more. *)
Lemma key_press_witness :
  let k := new_key BTN_UP_MASK KEY_UP in
  let t0 := 4294967290 in
  up_again k (key_run (pressed [t0; 3] ++ released [2400]) k) 0 0 1 /\
  up_again k (key_run (pressed (t0 :: [3] ++ 50 :: [100; 1100; 2300]) ++ released (2400 :: [2405] ++ [2450])) k) 0 1 10 /\
  forall k1, state k1 = STATE_PRESSED -> key_run (released [2400; 2405] ++ pressed [2450]) k1 = set_debounce 2400 k1.
Proof.
  intros k t0. destruct (key_press k t0 [3] 50 [100; 1100; 2300] 2400 [2405] 2450) as (H1 & H2 & H3).
  - reflexivity.
  - repeat constructor.
  - discriminate.
  - repeat constructor.
  - discriminate.
  - split; [exact H1|]. split; [exact H2|]. intros k1 Hk1. apply (H3 [2405] k1 Hk1). repeat constructor.
Defined.

(** After a failed scan the error is only taken back while a key is down. *)
Example error_stays : snd (key_task (fun _ => 0) 100 keys_start DEV_ST_ERR) = DEV_ST_ERR.
Proof. reflexivity. Qed.
