(* ===== verification/Tube.v ===== *)
(** * tm1639.c and the digits of display.c

    The driver of the display and key chip writes bits on three pins; a frame is
    what the chip samples at the rising edges of the clock while the strobe is
    low.  [dis_led_tube_process] shows the temperature or the highest error on
    the four digits.  Delays and the direction of the data pin are left out. *)
From Stdlib Require Import ZifyBool.
From S2P Require Import Prelude CFloat Generic SelfCheck Layout ProtoChar.

Definition TM1639_CMD_DATA : Z := 0x40.
Definition TM1639_CMD_DISPLAY : Z := 0x80.
Definition TM1639_CMD_ADDR : Z := 0xC0.
Definition TM1639_DATA_RD : Z := 0x02.
Definition TM1639_DISP_ON : Z := 0x08.
Definition numchar : list Z := [0x3F; 0x06; 0x5B; 0x4F; 0x66; 0x6D; 0x7D; 0x07; 0x7F; 0x6F].
Definition specialchar : list Z := [0x00; 0x71; 0x70; 0x39; 0x40; 0x0F; 0x79; 0x31; 0x77; 0x38; 0x76; 0x37; 0x3E; 0x73; 0x18; 0x5C].

(** ** The pins *)

Inductive pin : Set := STB (high : bool) | CLK (high : bool) | DIO (high : bool).

Fixpoint write_bits (n : nat) (byte : Z) : list pin :=
  match n with
  | O => []
  | S n => [CLK false; DIO (Z.testbit byte 0); CLK true] ++ write_bits n (Z.shiftr byte 1)
  end.
Definition tm1639_write_byte (byte : Z) : list pin := write_bits 8 byte.
Definition tm1639_write_buff (addr : Z) (buff : list Z) (len : Z) : option (list pin) :=
  if 0x0F <? addr + len then Some []
  else if zlen buff <? len then None
  else Some ([STB false] ++ tm1639_write_byte TM1639_CMD_DATA ++ [STB true; STB false] ++ tm1639_write_byte (Z.lor TM1639_CMD_ADDR addr) ++
             concat (map tm1639_write_byte (take (Z.to_nat len) buff)) ++ [STB true]).
Definition tm1639_set_command (status luminance : Z) : list pin :=
  let luminance := if 7 <? luminance then 7 else luminance in
  let display_cmd := Z.lor TM1639_CMD_DISPLAY luminance in
  let display_cmd := if negb (status =? 0) then Z.lor display_cmd TM1639_DISP_ON else display_cmd in
  [STB false] ++ tm1639_write_byte display_cmd ++ [STB true].
Definition tm1639_init : option (list pin) :=
  l ← for_loop (fun i l => w ← tm1639_write_buff (Z.of_nat i) [0] 1; Some (l ++ w)) 0 12 [CLK true; STB true; DIO true];
  Some (l ++ tm1639_set_command 1 0).

(** Reading: [bits] are the samples of the data pin, one after each rising edge. *)
Definition tm1639_read_byte (bits : list bool) : Z :=
  fold_left (fun val b => let val := Z.shiftr val 1 in if b : bool then Z.lor val 0x80 else val) (take 8 bits) 0.
Definition read_clocks : list pin := concat (replicate 16 [CLK false; CLK true]).
Definition tm1639_key_scan (bits : list bool) : list pin * Z :=
  ([STB false] ++ tm1639_write_byte (Z.lor TM1639_CMD_DATA TM1639_DATA_RD) ++ read_clocks ++ [STB true],
   tm1639_read_byte bits + 256 * tm1639_read_byte (drop 8 bits)).

(** ** The digits *)

Definition dis_write_nixie_tube (buf : list Z) : option (list pin) :=
  b ← for_loop (fun i w => x ← buf !! i; Some (w ++ [Z.land x 0x0F; Z.land (Z.shiftr x 4) 0x0F])) 0 4 [];
  tm1639_write_buff 0 b 8.

(** The four cells for the value [temp] in tenths, or an error; [wrbuf]: what
    the array held before. *)
Definition tube_cells (err_index temp : Z) (wrbuf : list Z) : option (list Z) :=
  let num d := ld numchar d in
  let special i := ld specialchar i in
  if (0 <=? err_index) && (err_index <? ERROR_ALL_CNT) then
    e ← err_table !! Z.to_nat err_index;
    for_loop (fun i w => x ← err_text e !! i; st w (Z.of_nat i) x) 0 4 wrbuf
  else
    let negative := temp <? 0 in
    let temp := if negative then s16 (- temp) else temp in
    if negative then
      let a := u8 (Z.quot temp 1000) in let b := u8 (Z.rem (Z.quot temp 100) 10) in
      minus ← special 4; blank ← special 0;
      c0 ← (if a =? 0 then Some blank else Some minus);
      c1 ← (if a =? 0 then (if b =? 0 then Some blank else Some minus) else num a);
      c2 ← (if (a =? 0) && (b =? 0) then Some minus else num b);
      w ← st wrbuf 0 c0; w ← st w 1 c1; st w 2 c2
    else
      let a := u8 (Z.quot temp 10000) in let b := u8 (Z.rem (Z.quot temp 1000) 10) in
      let c := u8 (Z.rem (Z.quot temp 100) 10) in let d := u8 (Z.rem (Z.quot temp 10) 10) in
      blank ← special 0;
      c0 ← (if a =? 0 then Some blank else num a);
      c1 ← (if (a =? 0) && (b =? 0) then Some blank else num b);
      c2 ← (if (a =? 0) && (b =? 0) && (c =? 0) then Some blank else num c);
      c3 ← num d;
      w ← st wrbuf 0 c0; w ← st w 1 c1; w ← st w 2 c2; st w 3 c3.

(** [temp = target_temp * 10], in the unit of the display. *)
Definition shown_tenths (m : mem) : Z :=
  let target := convert_uint (rd_f32 m (state_at ["target_temp"])) TEMP_UNIT_INTERNAL (unit_of m) in
  s16 (f_to_s32 (f32_mul target (f32_of_Z 10))).
Definition dis_led_tube_process (flags : Z) (m : mem) (wrbuf : list Z) : option (list pin) :=
  w ← tube_cells (get_highest_error_index flags) (shown_tenths m) wrbuf; dis_write_nixie_tube w.

(** [states]: the uninitialised local. *)
Definition dis_write_laser_led (states : bool) (m : mem) : option (list pin) :=
  let t := rd_f32 m (member_of (index 0 (address SYS_STATE ["internal_temp"]))) in
  let set := rd_f32 m (para_at ["heater"; "set_temp"]) in
  let states := if f_gt t (f32_sub set (f32_div (f32_of_Z 3) (f32_of_Z 10))) && f_lt t (f32_add set (f32_div (f32_of_Z 3) (f32_of_Z 10)))
                then true else negb states in
  tm1639_write_buff 0xC [if states : bool then 0xFF else 0] 1.

(** * What reaches the chip *)

(** The bits of every frame: the data pin at the rising edges of the clock while
    the strobe is low. *)
Record line := mk_line { stb : bool; clk : bool; dio : bool; bits_in : list bool; frames : list (list bool) }.
Definition sample (x : line) (e : pin) : line :=
  match e with
  | STB high => if high then mk_line true (clk x) (dio x) [] (if stb x then frames x else frames x ++ [bits_in x])
                else mk_line false (clk x) (dio x) (if stb x then [] else bits_in x) (frames x)
  | CLK high => mk_line (stb x) high (dio x) (if high && negb (clk x) && negb (stb x) then bits_in x ++ [dio x] else bits_in x) (frames x)
  | DIO high => mk_line (stb x) (clk x) high (bits_in x) (frames x)
  end.
Definition sampled (l : list pin) (x : line) : line := fold_left sample l x.

(** Bytes least significant bit first. *)
Fixpoint byte_bits (n : nat) (b : Z) : list bool := match n with O => [] | S n => Z.testbit b 0 :: byte_bits n (Z.shiftr b 1) end.
Definition bytes_bits (l : list Z) : list bool := concat (map (byte_bits 8) l).

Lemma sampled_app l1 l2 x : sampled (l1 ++ l2) x = sampled l2 (sampled l1 x).
Proof. apply fold_left_app. Qed.
Lemma sampled_cons e l x : sampled (e :: l) x = sampled l (sample x e).
Proof. reflexivity. Qed.
Lemma write_bits_sampled n b x : stb x = false -> exists c d, sampled (write_bits n b) x = mk_line false c d (bits_in x ++ byte_bits n b) (frames x).
Proof.
  revert b x. induction n as [|n IH]; intros b x Hx; [exists (clk x), (dio x); cbn; rewrite app_nil_r; destruct x; cbn in *; by rewrite Hx|].
  cbn [write_bits app]. rewrite !sampled_cons. destruct x as [s0 c0 d0 bi fr]. cbn [stb] in Hx. subst s0. cbn [sample negb andb stb clk dio bits_in frames].
  edestruct (IH (Z.shiftr b 1)) as (c & d & E); [|exists c, d; rewrite E]; [done|]. cbn [byte_bits bits_in frames]. by rewrite <- app_assoc.
Qed.
Lemma bytes_sampled l x : stb x = false -> exists c d, sampled (concat (map tm1639_write_byte l)) x = mk_line false c d (bits_in x ++ bytes_bits l) (frames x).
Proof.
  revert x. induction l as [|b l IH]; intros x Hx; [exists (clk x), (dio x); cbn; rewrite app_nil_r; destruct x; cbn in *; by rewrite Hx|].
  cbn [map concat]. rewrite sampled_app. destruct (write_bits_sampled 8 b x Hx) as (c1 & d1 & E1). change (sampled (tm1639_write_byte b) x) with (sampled (write_bits 8 b) x). rewrite E1.
  edestruct IH as (c & d & E); [|exists c, d; rewrite E]; [done|]. unfold bytes_bits. cbn [map concat bits_in frames]. by rewrite <- app_assoc.
Qed.
(** Strobe, bytes, strobe. *)
Lemma frame_sampled l x : stb x = true ->
  exists c d, sampled (STB false :: concat (map tm1639_write_byte l) ++ [STB true]) x = mk_line true c d [] (frames x ++ [bytes_bits l]).
Proof.
  intros Hx. rewrite sampled_cons, sampled_app. cbn [sample]. rewrite Hx. edestruct (bytes_sampled l) as (c & d & E); [|exists c, d; rewrite E]; done.
Qed.

(** A write is two frames: the data command, and the address with the bytes. *)
Lemma write_frames addr buff len x : stb x = true -> addr + len <= 15 -> len <= zlen buff ->
  exists l, tm1639_write_buff addr buff len = Some l /\ stb (sampled l x) = true /\
    frames (sampled l x) = frames x ++ [bytes_bits [TM1639_CMD_DATA]; bytes_bits (Z.lor TM1639_CMD_ADDR addr :: take (Z.to_nat len) buff)].
Proof.
  intros Hx Ha Hl. unfold tm1639_write_buff. rewrite (proj2 (Z.ltb_ge _ _)) by lia. rewrite (proj2 (Z.ltb_ge _ _)) by lia. eexists. split; [done|].
  set (body := Z.lor TM1639_CMD_ADDR addr :: take (Z.to_nat len) buff).
  destruct (frame_sampled [TM1639_CMD_DATA] x Hx) as (c1 & d1 & E1). 
  match goal with |- context [sampled ?l x] =>
    replace l with ((STB false :: concat (map tm1639_write_byte [TM1639_CMD_DATA]) ++ [STB true]) ++ (STB false :: concat (map tm1639_write_byte body) ++ [STB true]))
  end.
  - rewrite sampled_app, E1. destruct (frame_sampled body (mk_line true c1 d1 [] (frames x ++ [bytes_bits [TM1639_CMD_DATA]])) eq_refl) as (c2 & d2 & E2).
    rewrite E2. split; [done|]. cbn [frames].
    by rewrite <- app_assoc.
  - unfold body. cbn [map concat]. rewrite app_nil_r. by cbn [app]; f_equal.
Qed.

(** ** The digits *)

Definition cell_nibbles (l : list Z) : list Z := concat (map (fun x => [Z.land x 15; Z.land (Z.shiftr x 4) 15]) l).
(** The number of degrees without leading zeros, right aligned. *)
Definition four_digits (n : Z) : option (list Z) :=
  let d k := (n / k) mod 10 in
  mapM (fun k => if (n <? k) && negb (k =? 1) then Some 0 else ld numchar (d k)) [1000; 100; 10; 1].

Lemma four_stores (a b c d : Z) (z : list Z) : length z = 6%nat -> (w ← st z 0 a; w ← st w 1 b; w ← st w 2 c; st w 3 d) = Some ([a; b; c; d] ++ drop 4 z).
Proof. intros Hz. do 6 (destruct z as [|? z]; [done|]). by destruct z. Qed.
Lemma cells_positive err temp wrbuf : err < 0 -> 0 <= temp <= 32767 -> length wrbuf = 6%nat ->
  exists l, tube_cells err temp wrbuf = Some (l ++ drop 4 wrbuf) /\ four_digits (temp / 10) = Some l.
Proof.
  intros He Ht Hl. set (n := temp / 10). assert (Hn : 0 <= n < 3277) by (subst n; zdm).
  assert (E3 : u8 (Z.quot temp 10000) = (n / 1000) mod 10) by (rewrite Z.quot_div_nonneg, u8_small by (subst n; zdm); subst n; zdm).
  assert (E2 : u8 (Z.rem (Z.quot temp 1000) 10) = (n / 100) mod 10)
    by (rewrite Z.quot_div_nonneg, Z.rem_mod_nonneg, u8_small by zdm; subst n; zdm).
  assert (E1 : u8 (Z.rem (Z.quot temp 100) 10) = (n / 10) mod 10)
    by (rewrite Z.quot_div_nonneg, Z.rem_mod_nonneg, u8_small by zdm; subst n; zdm).
  assert (E0 : u8 (Z.rem (Z.quot temp 10) 10) = (n / 1) mod 10)
    by (rewrite Z.quot_div_nonneg, Z.rem_mod_nonneg, u8_small by zdm; subst n; zdm).
  unfold tube_cells, four_digits. rewrite (proj2 (Z.leb_gt _ _)) by lia. cbn [andb]. rewrite (proj2 (Z.ltb_ge temp 0)) by lia.
  rewrite E0, E1, E2, E3. clear E0 E1 E2 E3.
  assert (B1 : ((n / 1000) mod 10 =? 0) = (n <? 1000)) by (destruct (Z.ltb_spec n 1000); [apply Z.eqb_eq|apply Z.eqb_neq]; zdm).
  assert (B2 : ((n / 1000) mod 10 =? 0) && ((n / 100) mod 10 =? 0) = (n <? 100)).
  { rewrite B1. destruct (Z.ltb_spec n 100); [rewrite (proj2 (Z.ltb_lt n 1000)) by lia; apply Z.eqb_eq; zdm|].
    apply andb_false_iff. destruct (Z.ltb_spec n 1000); [right; apply Z.eqb_neq; zdm|by left]. }
  assert (B3 : ((n / 1000) mod 10 =? 0) && ((n / 100) mod 10 =? 0) && ((n / 10) mod 10 =? 0) = (n <? 10)).
  { rewrite B2. destruct (Z.ltb_spec n 10); [rewrite (proj2 (Z.ltb_lt n 100)) by lia; apply Z.eqb_eq; zdm|].
    apply andb_false_iff. destruct (Z.ltb_spec n 100); [right; apply Z.eqb_neq; zdm|by left]. }
  rewrite B3, B2, B1. clear B1 B2 B3.
  assert (D : forall k, exists x, ld numchar ((n / k) mod 10) = Some x)
    by (intros k; apply ld_is_Some; pose proof (Z.mod_pos_bound (n / k) 10 ltac:(lia)); cbn; lia).
  destruct (D 1000) as [x3 E3], (D 100) as [x2 E2], (D 10) as [x1 E1], (D 1) as [x0 E0].
  cbn [mapM Z.eqb negb Pos.eqb]. rewrite !andb_true_r, andb_false_r. rewrite E0, E1, E2, E3.
  change (ld specialchar 0) with (Some 0). cbn [mbind option_bind].
  destruct (n <? 1000), (n <? 100), (n <? 10); cbn [mbind option_bind]; rewrite (four_stores _ _ _ _ _ Hl); eexists; split; reflexivity.
Qed.

Lemma tube_written w rest x : length w = 4%nat -> stb x = true ->
  exists l, dis_write_nixie_tube (w ++ rest) = Some l /\
    frames (sampled l x) = frames x ++ [bytes_bits [0x40]; bytes_bits (0xC0 :: cell_nibbles w)].
Proof.
  intros Hw Hx. do 4 (destruct w as [|? w]; [done|]). destruct w; [|done]. unfold dis_write_nixie_tube. cbn [for_loop app lookup list_lookup mbind option_bind].
  edestruct (write_frames 0) as (l & E & _ & Hf); [exact Hx|..]; [| |exists l; split; [exact E|rewrite Hf; reflexivity]]; [lia|cbn; lia].
Qed.

(** [C8] What the digits show.  Without a measuring error and with the
    temperature, in the unit of the display, between 0 and 3276.7, the display
    chip receives, at the rising edges of the clock, the data command and then
    the segments of the four digits of the whole degrees, right aligned without
    leading zeros, from address 0 on. *)
Theorem tube_shows_temperature flags m wrbuf x : get_highest_error_index flags = -1 -> 0 <= shown_tenths m -> length wrbuf = 6%nat -> stb x = true ->
  exists l w, dis_led_tube_process flags m wrbuf = Some l /\ four_digits (shown_tenths m / 10) = Some w /\
    frames (sampled l x) = frames x ++ [bytes_bits [0x40]; bytes_bits (0xC0 :: cell_nibbles w)].
Proof.
  intros Hf Ht Hw Hx. assert (Hr : shown_tenths m <= 32767).
  { unfold shown_tenths, s16. pose proof (Z.mod_pos_bound (f_to_s32 (f32_mul (convert_uint (rd_f32 m (state_at ["target_temp"])) TEMP_UNIT_INTERNAL (unit_of m)) (f32_of_Z 10)) + 2 ^ 15) (2 ^ 16) ltac:(lia)). lia. }
  destruct (cells_positive (-1) (shown_tenths m) wrbuf ltac:(lia) (conj Ht Hr) Hw) as (w & E & Ew).
  assert (Hlen : length w = 4%nat).
  { unfold four_digits in Ew. apply length_mapM in Ew. by cbn in Ew. }
  destruct (tube_written w (drop 4 wrbuf) x Hlen Hx) as (l & El & Hl). exists l, w. unfold dis_led_tube_process. rewrite Hf, E. by split.
Qed.

Definition demo_shown : mem := wr (f32_to_bits (f32_div (f32_of_Z 2013) (f32_of_Z 2))) (state_at ["target_temp"])
  (wr 67 (para_at ["temp"; "unit"]) (mk_mem (replicate (obj_size SYS_PARA) 0) (replicate (obj_size SYS_STATE) 0))).
Definition quiet : line := mk_line true true true [] [].
(** 1006.5 degrees are shown as 1006. *)
Lemma tube_shows_temperature_witness :
  shown_tenths demo_shown = 10065 /\
  exists l w, dis_led_tube_process 0 demo_shown [0; 0; 0; 0; 0; 0] = Some l /\ four_digits 1006 = Some w /\
    frames (sampled l quiet) = [bytes_bits [0x40]; bytes_bits (0xC0 :: cell_nibbles w)].
Proof.
  assert (E : shown_tenths demo_shown = 10065) by (vm_compute; reflexivity). split; [exact E|].
  destruct (tube_shows_temperature 0 demo_shown [0; 0; 0; 0; 0; 0] quiet) as (l & w & E1 & E2 & E3);
    [reflexivity|rewrite E; discriminate|reflexivity|reflexivity|].
  rewrite E in E2. exists l, w. split; [exact E1|]. split; [exact E2|exact E3].
Defined.

(** Negative temperatures: the ones digit is missing and the fourth cell is
    whatever the array held; 3276.8 and more wrap to negative numbers. *)
Example minus_twelve : tube_cells (-1) (-123) [1; 2; 3; 99; 5; 6] = Some [0; 0x40; 0x06; 99; 5; 6].
Proof. reflexivity. Qed.
Example too_hot : s16 (f_to_s32 (f32_mul (f32_of_Z 3277) (f32_of_Z 10))) = -32766.
Proof. vm_compute. reflexivity. Qed.

(** ** Reading the keys *)
Lemma read_byte_value b0 b1 b2 b3 b4 b5 b6 b7 rest :
  tm1639_read_byte (b0 :: b1 :: b2 :: b3 :: b4 :: b5 :: b6 :: b7 :: rest)
  = Z.b2z b0 + 2 * Z.b2z b1 + 4 * Z.b2z b2 + 8 * Z.b2z b3 + 16 * Z.b2z b4 + 32 * Z.b2z b5 + 64 * Z.b2z b6 + 128 * Z.b2z b7.
Proof. by destruct b0, b1, b2, b3, b4, b5, b6, b7. Qed.
