(* ===== verification/Menu.v ===== *)
(** * ui.c, display.c: the menu and its parameter pages

    Five groups of pages; in the guide mode the keys walk through them, in the
    edit mode they change a copy of a parameter ([dis_value], or four bytes of an
    address) that the SET key writes to [sys_para] and saves.  What the pages
    draw, and the blinking of it, changes nothing of this state; it is in
    Screen.v.  The parameter manager and [pc_init] are an interface ([MenuServices]),
    implemented over Para.v by [menu_manager] below. *)
From Stdlib Require Import ZifyBool.
From S2P Require Import Agent Serial Comm.
From S2P Require Import Prelude CFloat Str Para Stdio Layout CmdTable ProtoChar UppProps UppRoundTrip.
From S2P Require TcpServer Tube.
From S2P Require Import Key.

(** ** Pages *)

Inductive page : Set :=
  | oled_show_menu_p | oled_show_info_p
  | do_temp_mode_p | do_temp_units_p | do_relay_mode_p | do_aim_device_p | do_fact_default_p
  | do_slope_p | do_emissivity_p | do_transmissivity_low_p | do_transmissivity_high_p | do_temp_filt_size_p
  | do_baud_rate_p | do_multi_addr_p | do_local_ip_p | do_eth_gw_p | do_eth_nm_p | do_eth_port_p
  | do_analog_mode_p | do_analog_out_low_p | do_analog_out_high_p.

(** The items of a sub menu: [menu_count], [subs] ([None] is NULL), [para_num]. *)
Record menu_item_t := mk_item { menu_count : Z; subs : option page; para_num : Z }.
Definition m1_infomation : list menu_item_t := replicate 9 (mk_item 9 (Some oled_show_info_p) 0).
Definition m1_base_cfg : list menu_item_t :=
  map (fun p => mk_item 5 (Some p) 1) [do_temp_mode_p; do_temp_units_p; do_relay_mode_p; do_aim_device_p; do_fact_default_p].
Definition m1_para_cfg : list menu_item_t :=
  map (fun p => mk_item 5 (Some p) 1) [do_slope_p; do_emissivity_p; do_transmissivity_low_p; do_transmissivity_high_p; do_temp_filt_size_p].
Definition m1_interface : list menu_item_t :=
  map (fun pn => mk_item 6 (Some (fst pn)) (snd pn))
    [(do_baud_rate_p, 1); (do_multi_addr_p, 1); (do_local_ip_p, 4); (do_eth_gw_p, 4); (do_eth_nm_p, 4); (do_eth_port_p, 1)].
Definition m1_analog : list menu_item_t := map (fun p => mk_item 3 (Some p) 1) [do_analog_mode_p; do_analog_out_low_p; do_analog_out_high_p].
(** The tables are declared with 20 elements; those without an initialiser are zero. *)
Definition table (l : list menu_item_t) : list menu_item_t := l ++ replicate (20 - length l) (mk_item 0 None 0).
(** [m0_root]: the sub menus of its five items; [main_page_id] is kept below 5. *)
Definition m0_root : list (list menu_item_t) := map table [m1_infomation; m1_base_cfg; m1_para_cfg; m1_interface; m1_analog].
Definition root_count : Z := 5.

(** ** State *)

Record ui_t := mk_ui { main_page_id : Z; sub_page_id : Z; dis_value : Z; set_value : Z; current_para_index : Z; current_para_num : Z;
  cfg_states : bool; set_states : bool; ip_cfg_disvalue : list Z; is_blinking : bool }.
Definition ui_start : ui_t := mk_ui 0 0 0 1 0 0 false false [0; 0; 0; 0] false.
Definition set_page (a b : Z) (u : ui_t) : ui_t := mk_ui a b (dis_value u) (set_value u) (current_para_index u) (current_para_num u) (cfg_states u) (set_states u) (ip_cfg_disvalue u) (is_blinking u).
Definition set_dis (v : Z) (u : ui_t) : ui_t := mk_ui (main_page_id u) (sub_page_id u) v (set_value u) (current_para_index u) (current_para_num u) (cfg_states u) (set_states u) (ip_cfg_disvalue u) (is_blinking u).
Definition set_step (v : Z) (u : ui_t) : ui_t := mk_ui (main_page_id u) (sub_page_id u) (dis_value u) v (current_para_index u) (current_para_num u) (cfg_states u) true (ip_cfg_disvalue u) (is_blinking u).
Definition set_para (i n : Z) (u : ui_t) : ui_t := mk_ui (main_page_id u) (sub_page_id u) (dis_value u) (set_value u) i n (cfg_states u) (set_states u) (ip_cfg_disvalue u) (is_blinking u).
Definition set_cfg (b : bool) (u : ui_t) : ui_t := mk_ui (main_page_id u) (sub_page_id u) (dis_value u) (set_value u) (current_para_index u) (current_para_num u) b (set_states u) (ip_cfg_disvalue u) (is_blinking u).
Definition set_set (b : bool) (u : ui_t) : ui_t := mk_ui (main_page_id u) (sub_page_id u) (dis_value u) (set_value u) (current_para_index u) (current_para_num u) (cfg_states u) b (ip_cfg_disvalue u) (is_blinking u).
Definition set_ip (l : list Z) (u : ui_t) : ui_t := mk_ui (main_page_id u) (sub_page_id u) (dis_value u) (set_value u) (current_para_index u) (current_para_num u) (cfg_states u) (set_states u) l (is_blinking u).
Definition set_blink (b : bool) (u : ui_t) : ui_t := mk_ui (main_page_id u) (sub_page_id u) (dis_value u) (set_value u) (current_para_index u) (current_para_num u) (cfg_states u) (set_states u) (ip_cfg_disvalue u) b.

(** What the pages call: [pmm_save_group], [pmm_restore_to_default], [pc_init]. *)
Class MenuServices (W : Type) := {
  ms_save : nat -> mem -> W -> option (mem * W);
  ms_restore : mem -> W -> option (mem * W);
  ms_pc_init : mem -> W -> option (mem * W) }.

Section Menu.
Context {W : Type} `{!MenuServices W}.

(** [guide]: [menu_mode == GUIDE_MODE]; [para_index]: the members of that name,
    in the order of [m0_root]; [IPconfig_value]: the statics of the three address
    pages. *)
Record menu_t := mk_menu { ui : ui_t; current_menu : Z; guide : bool; is_menu : bool; para_index : list (list Z);
  IPconfig_value : list (list Z); keys : keys_t; sys : mem; world : W }.
Definition with_ui (u : ui_t) (s : menu_t) : menu_t := mk_menu u (current_menu s) (guide s) (is_menu s) (para_index s) (IPconfig_value s) (keys s) (sys s) (world s).
Definition with_current (c : Z) (s : menu_t) : menu_t := mk_menu (ui s) c (guide s) (is_menu s) (para_index s) (IPconfig_value s) (keys s) (sys s) (world s).
Definition with_mode (g i : bool) (s : menu_t) : menu_t := mk_menu (ui s) (current_menu s) g i (para_index s) (IPconfig_value s) (keys s) (sys s) (world s).
Definition with_index (l : list (list Z)) (s : menu_t) : menu_t := mk_menu (ui s) (current_menu s) (guide s) (is_menu s) l (IPconfig_value s) (keys s) (sys s) (world s).
Definition with_ips (l : list (list Z)) (s : menu_t) : menu_t := mk_menu (ui s) (current_menu s) (guide s) (is_menu s) (para_index s) l (keys s) (sys s) (world s).
Definition with_keys (k : keys_t) (s : menu_t) : menu_t := mk_menu (ui s) (current_menu s) (guide s) (is_menu s) (para_index s) (IPconfig_value s) k (sys s) (world s).
Definition with_sys (r : mem * W) (s : menu_t) : menu_t := mk_menu (ui s) (current_menu s) (guide s) (is_menu s) (para_index s) (IPconfig_value s) (keys s) (fst r) (snd r).
Definition menu_start (k : keys_t) (m : mem) (w : W) : menu_t :=
  mk_menu ui_start 0 true true (map (map (fun _ => 0)) m0_root) (replicate 3 [0; 0; 0; 0]) k m w.

(** ** The pages (display.c) *)

(** Without blinking the page shows the parameter; a step of the keys changes
    the copy; the third part writes it back. *)
Definition load_value (load : mem -> Z) (s : menu_t) : menu_t :=
  if is_blinking (ui s) then s else with_ui (set_dis (load (sys s)) (ui s)) s.
Definition adjust_value (adjust : Z -> Z) (s : menu_t) : menu_t :=
  if set_states (ui s) then with_ui (set_dis (adjust (s32 (dis_value (ui s) + set_value (ui s)))) (set_set false (ui s))) s else s.
Definition commit_value (commit : Z -> mem -> W -> option (mem * W)) (s : menu_t) : option menu_t :=
  if cfg_states (ui s) then
    let s := with_ui (set_cfg false (ui s)) s in
    r ← commit (dis_value (ui s)) (sys s) (world s); Some (with_sys r s)
  else Some s.
Definition edit_value (load : mem -> Z) (adjust : Z -> Z) (commit : Z -> mem -> W -> option (mem * W)) (s : menu_t) : option menu_t :=
  commit_value commit (adjust_value adjust (load_value load s)).

(** Below the range the highest value, above it the lowest; or the nearest. *)
Definition wrap (lo hi v : Z) : Z := if v <? lo then hi else if hi <? v then lo else v.
Definition clamp (lo hi v : Z) : Z := if v <? lo then lo else if hi <? v then hi else v.
Definition write_save (p : pointer) (v : Z) (group : nat) (m : mem) (w : W) : option (mem * W) := ms_save group (wr v p m) w.

Definition temp_mode_at : pointer := para_at ["temp"; "temp_mode"].
Definition temp_mode_load (m : mem) : Z := if rd_u m temp_mode_at =? 2 then 1 else 0.
Definition temp_mode_commit (v : Z) (m : mem) (w : W) : option (mem * W) :=
  if (rd_u m temp_mode_at =? 1) || (rd_u m temp_mode_at =? 2) then write_save temp_mode_at (if negb (v =? 0) then 2 else 1) PARA_TEMP m w
  else Some (m, w).
Definition do_temp_mode : menu_t -> option menu_t := edit_value temp_mode_load (wrap 0 1) temp_mode_commit.

(** [unit[ui.dis_value]] is read before the value is adjusted. *)
Definition unit_chars : list Z := [67; 70; 75].
Definition unit_at : pointer := para_at ["temp"; "unit"].
Definition unit_load (m : mem) : Z := let u := rd_u m unit_at in if u =? 67 then 0 else if u =? 70 then 1 else 2.
Definition unit_commit (v : Z) (m : mem) (w : W) : option (mem * W) := c ← ld unit_chars v; write_save unit_at c PARA_TEMP m w.
Definition do_temp_units (s : menu_t) : option menu_t :=
  let s := load_value unit_load s in
  _ ← ld unit_chars (dis_value (ui s)); commit_value unit_commit (adjust_value (wrap 0 2) s).

Definition relay_at : pointer := para_at ["alarm"; "relay_alarm_mode"].
Definition relay_load (m : mem) : Z := s32 (rd_u m relay_at).
Definition relay_commit (v : Z) : mem -> W -> option (mem * W) := write_save relay_at (u32 v) PARA_ALARM.
Definition do_relay_mode : menu_t -> option menu_t := edit_value relay_load (wrap 0 9) relay_commit.

Definition aim_at : pointer := para_at ["video"; "video_control"].
Definition aim_load (m : mem) : Z := s32 (rd_u m aim_at).
Definition aim_commit (v : Z) : mem -> W -> option (mem * W) := write_save aim_at (u32 v) PARA_VIDEO.
Definition do_aim_device : menu_t -> option menu_t := edit_value aim_load (wrap 0 1) aim_commit.

Definition default_load (_ : mem) : Z := 0.
Definition default_commit (_ : Z) (m : mem) (w : W) : option (mem * W) := ms_restore m w.
Definition do_fact_default : menu_t -> option menu_t := edit_value default_load (wrap 0 1) default_commit.

(** Numbers that are shown in thousandths. *)
Definition milli_load (p : pointer) (m : mem) : Z := s16 (f_to_s32 (f32_mul (rd_f32 m p) (f32_of_Z 1000))).
Definition milli_commit (p : pointer) (v : Z) : mem -> W -> option (mem * W) :=
  write_save p (f32_to_bits (f32_div (f32_of_Z v) (f32_of_Z 1000))) PARA_TEMP.
Definition emissivity_at : pointer := para_at ["temp"; "emissivity"].
Definition slope_at : pointer := para_at ["temp"; "slope"].
Definition trans_at (ch : nat) : pointer := member_of (index ch (address SYS_PARA ["temp"; "trans"])).
Definition do_emissivity : menu_t -> option menu_t := edit_value (milli_load emissivity_at) (clamp 100 1150) (milli_commit emissivity_at).
Definition do_slope : menu_t -> option menu_t := edit_value (milli_load slope_at) (clamp 100 1150) (milli_commit slope_at).
Definition do_transmissivity_low : menu_t -> option menu_t := edit_value (milli_load (trans_at 1)) (clamp 100 1500) (milli_commit (trans_at 1)).
Definition do_transmissivity_high : menu_t -> option menu_t := edit_value (milli_load (trans_at 0)) (clamp 100 1500) (milli_commit (trans_at 0)).

Definition filt_at : pointer := para_at ["filter"; "temp_filter_buf_size"].
Definition filt_load (m : mem) : Z := s16 (rd_u m filt_at).
Definition filt_commit (v : Z) : mem -> W -> option (mem * W) := write_save filt_at (u32 v) PARA_FILTER.
Definition do_temp_filt_size : menu_t -> option menu_t := edit_value filt_load (clamp 1 150) filt_commit.

Definition ana_chars : list Z := [48; 52; 53].
Definition ana_type_at : pointer := para_at ["ana"; "type"].
Definition ana_mode_load (m : mem) : Z := let t := rd_u m ana_type_at in if t =? 48 then 0 else if t =? 52 then 1 else 2.
Definition ana_mode_commit (v : Z) (m : mem) (w : W) : option (mem * W) := c ← ld ana_chars v; write_save ana_type_at c PARA_ANA m w.
(** [str[ui.dis_value]] is read before the value is adjusted. *)
Definition do_analog_mode (s : menu_t) : option menu_t :=
  let s := load_value ana_mode_load s in
  _ ← ld ana_chars (dis_value (ui s)); commit_value ana_mode_commit (adjust_value (wrap 0 2) s).

Definition float_s16 (p : pointer) (m : mem) : Z := s16 (f_to_s32 (rd_f32 m p)).
Definition ana_adjust (m : mem) (v : Z) : Z :=
  let lo := float_s16 (para_at ["temp"; "dev_temp_min"]) m in
  let hi := float_s16 (para_at ["temp"; "dev_temp_max"]) m in
  if v <? lo then lo else if hi <? v then hi else v.
Definition ana_commit (p : pointer) (v : Z) : mem -> W -> option (mem * W) := write_save p (f32_to_bits (f32_of_Z v)) PARA_ANA.
Definition ana_lower_at : pointer := para_at ["ana"; "lower"].
Definition ana_upper_at : pointer := para_at ["ana"; "upper"].
Definition do_analog_out_low (s : menu_t) : option menu_t := edit_value (float_s16 ana_lower_at) (ana_adjust (sys s)) (ana_commit ana_lower_at) s.
Definition do_analog_out_high (s : menu_t) : option menu_t := edit_value (float_s16 ana_upper_at) (ana_adjust (sys s)) (ana_commit ana_upper_at) s.

Definition addr_at : pointer := para_at ["dev"; "addr"].
Definition addr_load (m : mem) : Z := s16 (rd_u m addr_at).
Definition addr_commit (v : Z) : mem -> W -> option (mem * W) := write_save addr_at (u32 v) PARA_DEV.
Definition do_multi_addr : menu_t -> option menu_t := edit_value addr_load (clamp 0 32) addr_commit.

Definition baud_load (m : mem) : Z := s16 (rd_u m baudrate_at / 100).
Definition baud_commit (v : Z) (m : mem) (w : W) : option (mem * W) :=
  let m := wr (u32 (v * 100)) baudrate_at m in
  let m := if negb (is_valid_baudrate (s32 (rd_u m baudrate_at))) then wr 115200 baudrate_at m else m in
  r ← ms_save PARA_PORT m w; ms_pc_init (fst r) (snd r).
Definition do_baud_rate : menu_t -> option menu_t := edit_value baud_load (clamp 3 1152) baud_commit.

Definition port_at : pointer := para_at ["net"; "port"].
Definition port_load (m : mem) : Z := s32 (rd_u m port_at).
Definition port_commit (v : Z) : mem -> W -> option (mem * W) := write_save port_at (u32 v) PARA_NET.
Definition do_eth_port : menu_t -> option menu_t := edit_value port_load (wrap 0 65535) port_commit.

(** ** Addresses *)

(** The conversions of [sscanf("%3u.%3u.%3u.%3u")] before the first that fails. *)
Fixpoint scan_list (n : nat) (s : list Z) : list Z :=
  match n with
  | O => []
  | S n =>
      match TcpServer.scan_u3 s with
      | None => []
      | Some (v, s) => v :: match n with O => [] | _ => match TcpServer.scan_dot s with None => [] | Some s => scan_list n s end end
      end
  end.
(** ["%03u"] of a byte, and the four of an address. *)
Definition print_03u (v : Z) : list Z := [48 + v / 100; 48 + v / 10 mod 10; 48 + v mod 10].
Definition print_ip (l : list Z) : list Z := concat (imap (fun i v => (if (i =? 0)%nat then [] else [46]) ++ print_03u v) l).

Definition load_ip (which : nat) (p : pointer) (s : menu_t) : option menu_t :=
  v ← IPconfig_value s !! which;
  let v := if is_blinking (ui s) then v else map s32 (let n := scan_list 4 (from p (sys s)) in n ++ drop (length n) v) in
  Some (with_ui (set_ip (map u8 v) (ui s)) (with_ips (<[which := v]> (IPconfig_value s)) s)).
Definition adjust_ip (which : nat) (s : menu_t) : option menu_t :=
  if set_states (ui s) then
    let i := current_para_index (ui s) in
    x ← ld (ip_cfg_disvalue (ui s)) i;
    let x := u8 (Z.rem (x + set_value (ui s)) 256) in
    l ← st (ip_cfg_disvalue (ui s)) i x;
    v ← IPconfig_value s !! which; v ← st v i x;
    Some (with_ui (set_ip l (set_set false (ui s))) (with_ips (<[which := v]> (IPconfig_value s)) s))
  else Some s.
Definition ip_commit (p : pointer) (l : list Z) (m : mem) (w : W) : option (mem * W) :=
  m ← store m (p_obj p) (p_off p) (print_ip l ++ [0]); ms_save PARA_NET m w.
Definition commit_ip (p : pointer) (s : menu_t) : option menu_t :=
  if cfg_states (ui s) then
    r ← ip_commit p (ip_cfg_disvalue (ui s)) (sys s) (world s); Some (with_sys r (with_ui (set_cfg false (ui s)) s))
  else Some s.
Definition edit_ip (which : nat) (p : pointer) (s : menu_t) : option menu_t :=
  s ← load_ip which p s; s ← adjust_ip which s; s ← commit_ip p s; Some (with_ui (set_cfg false (set_set false (ui s))) s).
Definition ip_addr_at : pointer := para_at ["net"; "ip_addr"].
Definition gateway_at : pointer := para_at ["net"; "gateway"].
Definition net_mask_at : pointer := para_at ["net"; "net_mask"].
Definition do_local_ip : menu_t -> option menu_t := edit_ip 0 ip_addr_at.
Definition do_eth_gw : menu_t -> option menu_t := edit_ip 1 gateway_at.
Definition do_eth_nm : menu_t -> option menu_t := edit_ip 2 net_mask_at.

(** ** Pages that no menu lists *)

(** One of the three parts per call. *)
Definition one_part (adjust : Z -> Z) (commit : Z -> mem -> W -> option (mem * W)) (load : mem -> Z -> Z) (s : menu_t) : option menu_t :=
  if set_states (ui s) then Some (adjust_value adjust s)
  else if cfg_states (ui s) then commit_value commit s
  else Some (with_ui (set_dis (load (sys s) (dis_value (ui s))) (ui s)) s).
Definition decay_rate_at : pointer := para_at ["alarm"; "decay_rate"].
Definition decay_fail_safe_at : pointer := para_at ["alarm"; "decay_fail_safe"].
Definition do_atten_relay : menu_t -> option menu_t :=
  one_part (clamp 0 100) (fun v => write_save decay_rate_at (u32 v) PARA_ALARM) (fun m _ => s16 (rd_u m decay_rate_at)).
Definition do_atten_failsafe : menu_t -> option menu_t :=
  one_part (clamp 0 100) (fun v => write_save decay_fail_safe_at (u32 v) PARA_ALARM) (fun m _ => s16 (rd_u m decay_fail_safe_at)).
(** The lock of [sys_state], which [ui_init] opens and the menu does not ask. *)
Definition state_lock_at : pointer := state_at ["panel_lock"].
Definition do_panel_lock : menu_t -> option menu_t :=
  one_part (wrap 0 1) (fun v m w => Some (if v =? 0 then wr 76 state_lock_at m else if v =? 1 then wr 85 state_lock_at m else m, w))
    (fun m v => let c := rd_u m state_lock_at in if c =? 76 then 0 else if c =? 85 then 1 else v).

(** The functions that [subs] points to, without their drawing ([picture] and
    [draw_page] of Screen.v), which changes nothing of this state. *)
Definition run_page (p : page) (s : menu_t) : option menu_t :=
  match p with
  | oled_show_menu_p | oled_show_info_p => Some s
  | do_temp_mode_p => do_temp_mode s
  | do_temp_units_p => do_temp_units s
  | do_relay_mode_p => do_relay_mode s
  | do_aim_device_p => do_aim_device s
  | do_fact_default_p => do_fact_default s
  | do_slope_p => do_slope s
  | do_emissivity_p => do_emissivity s
  | do_transmissivity_low_p => do_transmissivity_low s
  | do_transmissivity_high_p => do_transmissivity_high s
  | do_temp_filt_size_p => do_temp_filt_size s
  | do_baud_rate_p => do_baud_rate s
  | do_multi_addr_p => do_multi_addr s
  | do_local_ip_p => do_local_ip s
  | do_eth_gw_p => do_eth_gw s
  | do_eth_nm_p => do_eth_nm s
  | do_eth_port_p => do_eth_port s
  | do_analog_mode_p => do_analog_mode s
  | do_analog_out_low_p => do_analog_out_low s
  | do_analog_out_high_p => do_analog_out_high s
  end.
Definition call_subs (it : menu_item_t) (s : menu_t) : option menu_t := p ← subs it; run_page p s.

(** ** Navigation (ui.c) *)

Definition son_ms (s : menu_t) : option (list menu_item_t) := ld m0_root (current_menu s).
(** [current_menu->son_ms[ui.sub_page_id]] *)
Definition item (s : menu_t) : option menu_item_t := l ← son_ms s; ld l (sub_page_id (ui s)).
Definition item_index (s : menu_t) : option Z := l ← ld (para_index s) (current_menu s); ld l (sub_page_id (ui s)).
Definition set_item_index (v : Z) (s : menu_t) : option menu_t :=
  l ← ld (para_index s) (current_menu s); l ← st l (sub_page_id (ui s)) v; t ← st (para_index s) (current_menu s) l; Some (with_index t s).

(** [ui.main_page_id = a; ui.sub_page_id = 0; current_menu = &m0_root[a];] *)
Definition goto (a : Z) (s : menu_t) : menu_t := with_current a (with_ui (set_page a 0 (ui s)) s).
Definition same_main (s : menu_t) : Z := Z.rem (main_page_id (ui s)) root_count.

Definition idle_part (s : menu_t) : option menu_t :=
  if key_idle_flag (keys s) =? 1 then
    let s := goto 0 s in Some (with_ui (set_blink false (ui s)) (with_mode true false s))
  else if (key_idle_flag (keys s) =? 2) && is_menu s then
    let a := same_main s in let s := goto a s in
    _ ← ld m0_root a; Some (with_ui (set_blink false (ui s)) (with_mode (guide s) false s))
  else Some s.

(** [if (key_get_short_flag(id)) ...] *)
Definition on_short (id : Z) (f : menu_t -> option menu_t) (s : menu_t) : option menu_t :=
  r ← key_get_short_flag id (keys s); let s := with_keys (snd r) s in if fst r =? 0 then Some s else f s.
Definition on_long (id : Z) (f : menu_t -> option menu_t) (s : menu_t) : option menu_t :=
  r ← key_get_long_flag id (keys s); let s := with_keys (snd r) s in if fst r =? 0 then Some s else f s.

Definition guide_right (s : menu_t) : option menu_t :=
  let s := goto (Z.rem (main_page_id (ui s) + 1) root_count) s in
  Some (with_ui (set_blink false (ui s)) (with_mode (guide s) true s)).
Definition guide_down (count : Z) (s : menu_t) : option menu_t :=
  let u := ui s in
  let s := with_ui (set_page (main_page_id u) (if sub_page_id u <? count - 1 then sub_page_id u + 1 else 0) u) s in
  _ ← ld m0_root (main_page_id (ui s));
  if is_menu s then Some (with_mode (guide s) false (goto (same_main s) s)) else Some s.
Definition guide_up (count : Z) (s : menu_t) : option menu_t :=
  let u := ui s in
  Some (with_ui (set_page (main_page_id u) (if 0 <? sub_page_id u then sub_page_id u - 1 else if 0 <? count then count - 1 else sub_page_id u) u) s).
Definition panel_lock (m : mem) : Z := rd_u m (para_at ["dev"; "panel_lock"]).
Definition guide_set (s : menu_t) : option menu_t :=
  s ← (if is_menu s then
         let a := same_main s in let s := goto a s in _ ← ld m0_root a; Some (with_mode (guide s) false s)
       else if negb (panel_lock (sys s) =? 85) then Some s
       else if 0 <? current_para_num (ui s) then
         it ← item s;
         s ← call_subs it (with_mode false (is_menu s) s);
         Some (if negb (main_page_id (ui s) =? 0) then with_ui (set_blink true (ui s)) s else s)
       else Some s);
  Some (with_keys (key_init (keys s)) s).
Definition guide_part (count : Z) (s : menu_t) : option menu_t :=
  it ← item s;
  s ← set_item_index 0 (with_ui (set_para 0 (para_num it) (ui s)) s);
  s ← on_short KEY_RIGHT guide_right s; s ← on_short KEY_DOWN (guide_down count) s; s ← on_short KEY_UP (guide_up count) s;
  on_short KEY_SET guide_set s.

Definition edit_right (s : menu_t) : option menu_t :=
  let s := goto (Z.rem (main_page_id (ui s) + 1) root_count) s in
  Some (with_ui (set_blink false (ui s)) (with_mode true true (with_keys (key_init (keys s)) s))).
Definition edit_step (v : Z) (s : menu_t) : option menu_t := Some (with_ui (set_step (s8 v) (ui s)) s).
Definition long_step (id sign : Z) (s : menu_t) : option menu_t := k ← ld (KEY_TABLES (keys s)) id; edit_step (sign * step_value k) s.
Definition edit_set (s : menu_t) : option menu_t :=
  it ← item s; i ← item_index s;
  let s := with_ui (set_para i (para_num it) (ui s)) s in
  s ← (if 0 <? para_num it then s ← set_item_index (i + 1) s; Some (with_ui (set_para (i + 1) (para_num it) (ui s)) s) else Some s);
  s ← call_subs it (with_ui (set_cfg true (ui s)) s);
  let u := ui s in
  let s := if current_para_index u =? current_para_num u then
             let s := with_mode true (is_menu s) s in if 0 <? current_para_num u then with_ui (set_blink false u) s else s
           else s in
  Some (with_keys (key_init (keys s)) s).
Definition edit_part (s : menu_t) : option menu_t :=
  s ← on_short KEY_RIGHT edit_right s;
  s ← on_short KEY_UP (edit_step 1) s; s ← on_long KEY_UP (long_step KEY_UP 1) s;
  s ← on_short KEY_DOWN (edit_step (-1)) s; s ← on_long KEY_DOWN (long_step KEY_DOWN (-1)) s;
  on_short KEY_SET edit_set s.

(** The page is run at the end of every pass outside of the top menu (whose own
    page only draws); what is drawn there is [picture] of Screen.v. *)
Definition refresh_part (last_main last_sub : Z) (s : menu_t) : option menu_t :=
  let s := if negb (last_main =? main_page_id (ui s)) || negb (last_sub =? sub_page_id (ui s)) then with_ui (set_set false (ui s)) s else s in
  _ ← son_ms s;
  if is_menu s then Some s else it ← item s; call_subs it s.

Definition menu_navigate (s : menu_t) : option menu_t :=
  l ← son_ms s; first ← ld l 0;
  let count := menu_count first in
  let last_main := s8 (main_page_id (ui s)) in let last_sub := s8 (sub_page_id (ui s)) in
  s ← idle_part s;
  s ← (if guide s then guide_part count s else edit_part s);
  refresh_part last_main last_sub s.

(** The start of the panel and its task, with the pins of the display chip.  The
    start unlocks [sys_state.panel_lock]; [guide_set] asks [sys_para.dev.panel_lock]. *)
Definition ui_init (k : keys_t) (m : mem) (w : W) : option (menu_t * list Tube.pin) :=
  pins ← Tube.tm1639_init; Some (menu_start (key_init k) (wr 85 state_lock_at m) w, pins).
Definition ui_task (flags : Z) (wrbuf : list Z) (states : bool) (s : menu_t) : option (menu_t * list Tube.pin) :=
  s ← menu_navigate s; tube ← Tube.dis_led_tube_process flags (sys s) wrbuf; led ← Tube.dis_write_laser_led states (sys s);
  Some (s, tube ++ led).
End Menu.

(** ** The parameter manager behind the interface *)
Section Manager.
Context {N : Type} `{!NvStore N} (SYS_DEF_PARA : list Z) (pc_init : mem -> pmm N -> option (mem * pmm N)).

Definition restore_service (m : mem) (w : pmm N) : option (mem * pmm N) :=
  p ← pmm_restore_to_default SYS_DEF_PARA (set_sys w (m_para m)); Some (mk_mem (sys_para p) (m_state m), p).
#[local] Instance menu_manager : MenuServices (pmm N) := {|
  ms_save t m w := r ← save_hook t m w; Some (fst r);
  ms_restore := restore_service;
  ms_pc_init := pc_init |}.
End Manager.
