(* ===== verification/MenuEdit.v ===== *)
(** * Editing a parameter at the panel

    A session of key presses on a page of one number: SET, steps up and down
    with pauses, SET again; what it writes, and that what it wrote survives a
    restart. *)
From Stdlib Require Import ZifyBool.
From S2P Require Import Agent Serial Comm.
From S2P Require Import Prelude CFloat Str Fmc Para ParaStore Stdio Layout CmdTable ProtoChar UppProps UppRoundTrip.
From S2P Require Import Key Menu.

Section Sessions.
Context {W : Type} `{!MenuServices W}.

(** What the keys did since the last pass: nothing for a while, or a press as
    [key_step] reports it. *)
Inductive event : Set := Wait (idle : Z) | Short (id : Z) | Long (id n : Z).
Definition on_key (id : Z) (f : key_info_t -> key_info_t) (k : keys_t) : keys_t :=
  mk_keys (alter f (Z.to_nat id) (KEY_TABLES k)) (last_key_action_time k) 0.
Definition post (e : event) (k : keys_t) : keys_t :=
  match e with
  | Wait i => mk_keys (KEY_TABLES k) (last_key_action_time k) i
  | Short id => on_key id (fun x => Key.set_step 1 (set_flags 1 (long_flag x) x)) k
  | Long id n => on_key id (fun x => set_flags (short_flag x) 1 (Key.set_step n x)) k
  end.
Definition pass (e : event) (s : menu_t) : option menu_t := menu_navigate (with_keys (post e (keys s)) s).
Fixpoint passes (l : list event) (s : menu_t) : option menu_t :=
  match l with [] => Some s | e :: l => s ← pass e s; passes l s end.

(** No key has a flag. *)
Definition unflagged (x : key_info_t) : Prop := short_flag x = 0 /\ long_flag x = 0.
Definition quiet (k : keys_t) : Prop := length (KEY_TABLES k) = 4%nat /\ Forall unflagged (KEY_TABLES k).

(** ** The pages of one number *)

(** [np_shown]: the values the page can draw. *)
Record number_page := mk_np { np_load : mem -> Z; np_adjust : mem -> Z -> Z; np_commit : Z -> mem -> W -> option (mem * W); np_shown : Z -> bool }.
Definition any_value (_ : Z) : bool := true.
Definition of_two (v : Z) : bool := (0 <=? v) && (v <=? 1).
Definition of_three (v : Z) : bool := (0 <=? v) && (v <=? 2).
Definition is_int (v : Z) : bool := (- 2 ^ 31 <=? v) && (v <? 2 ^ 31).
Definition number (p : page) : option number_page :=
  match p with
  | oled_show_menu_p | oled_show_info_p | do_local_ip_p | do_eth_gw_p | do_eth_nm_p => None
  | do_temp_mode_p => Some (mk_np temp_mode_load (fun _ => wrap 0 1) temp_mode_commit of_two)
  | do_temp_units_p => Some (mk_np unit_load (fun _ => wrap 0 2) unit_commit of_three)
  | do_relay_mode_p => Some (mk_np relay_load (fun _ => wrap 0 9) relay_commit is_int)
  | do_aim_device_p => Some (mk_np aim_load (fun _ => wrap 0 1) aim_commit any_value)
  | do_fact_default_p => Some (mk_np default_load (fun _ => wrap 0 1) default_commit any_value)
  | do_slope_p => Some (mk_np (milli_load slope_at) (fun _ => clamp 100 1150) (milli_commit slope_at) any_value)
  | do_emissivity_p => Some (mk_np (milli_load emissivity_at) (fun _ => clamp 100 1150) (milli_commit emissivity_at) any_value)
  | do_transmissivity_low_p => Some (mk_np (milli_load (trans_at 1)) (fun _ => clamp 100 1500) (milli_commit (trans_at 1)) any_value)
  | do_transmissivity_high_p => Some (mk_np (milli_load (trans_at 0)) (fun _ => clamp 100 1500) (milli_commit (trans_at 0)) any_value)
  | do_temp_filt_size_p => Some (mk_np filt_load (fun _ => clamp 1 150) filt_commit any_value)
  | do_baud_rate_p => Some (mk_np baud_load (fun _ => clamp 3 1152) baud_commit any_value)
  | do_multi_addr_p => Some (mk_np addr_load (fun _ => clamp 0 32) addr_commit any_value)
  | do_eth_port_p => Some (mk_np port_load (fun _ => wrap 0 65535) port_commit is_int)
  | do_analog_mode_p => Some (mk_np ana_mode_load (fun _ => wrap 0 2) ana_mode_commit of_three)
  | do_analog_out_low_p => Some (mk_np (float_s16 ana_lower_at) ana_adjust (ana_commit ana_lower_at) any_value)
  | do_analog_out_high_p => Some (mk_np (float_s16 ana_upper_at) ana_adjust (ana_commit ana_upper_at) any_value)
  end.

(** The page of a number is [edit_value] of its parts while what it shows can be drawn. *)
Lemma run_number p np s : number p = Some np -> is_blinking (ui s) = false \/ np_shown np (dis_value (ui s)) = true ->
  run_page p s = edit_value (np_load np) (np_adjust np (sys s)) (np_commit np) s.
Proof.
  destruct p; cbn [number]; intros [= <-]; try (intros _; reflexivity); cbn [np_shown np_load np_adjust np_commit]; intros Hs;
    cbn [run_page]; [unfold do_temp_units | unfold do_analog_mode].
  all: match goal with |- (_ ← ld ?l (dis_value (ui (load_value ?f ?s))); _) = _ =>
    destruct (ld l (dis_value (ui (load_value f s)))) eqn:E; [reflexivity|exfalso; revert E] end.
  all: unfold load_value; destruct (is_blinking (ui s)) eqn:Hb; [destruct Hs as [Hs | Hs]; [done|]; revert Hs; unfold of_three|].
  all: try (cbn [ui with_ui set_dis dis_value]; unfold unit_load, ana_mode_load; repeat destruct (_ =? _); discriminate).
  all: intros Hs; assert (Hv : dis_value (ui s) = 0 \/ dis_value (ui s) = 1 \/ dis_value (ui s) = 2) by lia;
    destruct Hv as [-> | [-> | ->]]; discriminate.
Qed.
(** A page draws what it loads and what it adjusts. *)
Lemma shown_load p np m : number p = Some np -> np_shown np (np_load np m) = true.
Proof.
  assert (Hint : forall v, is_int (s32 v) = true) by (intros v; unfold is_int, s32; pose proof (Z.mod_pos_bound (v + 2 ^ 31) (2 ^ 32)); lia).
  destruct p; cbn [number]; intros [= <-]; cbn [np_shown np_load]; try reflexivity; try apply Hint;
    unfold temp_mode_load, unit_load, ana_mode_load; by repeat destruct (_ =? _).
Qed.
Lemma shown_adjust p np m v : number p = Some np -> np_shown np (np_adjust np m v) = true.
Proof.
  destruct p; cbn [number]; intros [= <-]; cbn [np_shown np_adjust]; try reflexivity; unfold wrap, of_two, of_three, is_int; destruct (Z.ltb_spec v 0); try reflexivity;
    match goal with |- context [?h <? v] => destruct (Z.ltb_spec h v) end; try reflexivity; lia.
Qed.

(** ** One pass *)

(** The value that a press adds in the edit mode. *)
Definition step_of (e : event) : option Z :=
  match e with
  | Wait _ => None
  | Short id => if id =? KEY_UP then Some 1 else if id =? KEY_DOWN then Some (-1) else None
  | Long id n => if id =? KEY_UP then Some (s8 n) else if id =? KEY_DOWN then Some (s8 (- n)) else None
  end.
(** The keys after the menu has read the flags of the event. *)
Definition settled (e : event) (k : keys_t) : keys_t :=
  match e with Wait i => post e k | Short id => on_key id (Key.set_step 1) k | Long id n => on_key id (Key.set_step n) k end.

Lemma unflagged_eq x : unflagged x -> x = set_flags 0 0 x.
Proof. destruct x. by intros [[= ->] [= ->]]. Qed.
Lemma quiet_eq k : quiet k -> exists x0 x1 x2 x3,
  k = mk_keys [set_flags 0 0 x0; set_flags 0 0 x1; set_flags 0 0 x2; set_flags 0 0 x3] (last_key_action_time k) (key_idle_flag k).
Proof.
  destruct k as [tb t i]. intros [Hl Hf]; cbn [KEY_TABLES] in *. do 4 (destruct tb as [|? tb]; [done|]). destruct tb; [|done].
  rewrite !Forall_cons in Hf. destruct Hf as (H0 & H1 & H2 & H3 & _). do 4 eexists.
  by rewrite <-(unflagged_eq _ H0), <-(unflagged_eq _ H1), <-(unflagged_eq _ H2), <-(unflagged_eq _ H3).
Qed.
Ltac quiet_cases := intros (? & ? & ? & ? & ->)%quiet_eq.

Lemma settled_quiet e k : quiet k -> quiet (settled e k).
Proof.
  intros [Hl Hf]. destruct e as [i|id|id n]; cbn [settled post]; unfold on_key.
  - by split.
  - split; cbn [KEY_TABLES]; [by rewrite length_alter|]. apply Forall_alter; [exact Hf|]. intros x _ Hx. exact Hx.
  - split; cbn [KEY_TABLES]; [by rewrite length_alter|]. apply Forall_alter; [exact Hf|]. intros x _ Hx. exact Hx.
Qed.
Lemma edit_wait i k s : quiet k -> edit_part (with_keys (post (Wait i) k) s) = Some (with_keys (settled (Wait i) k) s).
Proof. quiet_cases. reflexivity. Qed.
Lemma edit_steps e d k s : quiet k -> step_of e = Some d ->
  edit_part (with_keys (post e k) s) = Some (with_ui (set_step d (ui s)) (with_keys (settled e k) s)).
Proof.
  intros Hk He. assert (Hid : exists id, (id = 0 \/ id = 1) /\ (e = Short id \/ exists n, e = Long id n)).
  { revert He. destruct e as [|id|id n]; cbn [step_of]; [done| |]; unfold KEY_UP, KEY_DOWN; exists id;
      (destruct (Z.eqb_spec id 0); [eauto|destruct (Z.eqb_spec id 1); [eauto|done]]). }
  revert Hk. destruct Hid as (id & [-> | ->] & [-> | [n ->]]); injection He as <-; quiet_cases; by try destruct n.
Qed.
Lemma edit_sets k s : quiet k -> edit_part (with_keys (post (Short KEY_SET) k) s) = edit_set (with_keys (settled (Short KEY_SET) k) s).
Proof. quiet_cases. reflexivity. Qed.
Lemma guide_keys_set k (s : menu_t (W := W)) (right down up set : menu_t (W := W) -> option menu_t) : quiet k -> keys s = post (Short KEY_SET) k ->
  (s ← on_short KEY_RIGHT right s; s ← on_short KEY_DOWN down s; s ← on_short KEY_UP up s; on_short KEY_SET set s)
  = set (with_keys (settled (Short KEY_SET) k) s).
Proof. destruct s as [u c g i p v k' m w]; cbn [keys]. intros Hk ->. revert Hk. quiet_cases. reflexivity. Qed.
Lemma set_index_ok v i (s : menu_t (W := W)) : item_index s = Some i ->
  exists t, set_item_index v s = Some (with_index t s) /\ item_index (with_index t s) = Some v.
Proof.
  unfold item_index, set_item_index. intros (l & El & Ei)%bind_Some. rewrite El. cbn [mbind option_bind].
  pose proof (proj1 (ld_is_Some _ _) (mk_is_Some _ _ El)) as Bl. pose proof (proj1 (ld_is_Some _ _) (mk_is_Some _ _ Ei)) as Bi.
  rewrite (st_Some l) by done. cbn [mbind option_bind]. rewrite st_Some by done. cbn [mbind option_bind].
  eexists. split; [reflexivity|]. cbn [para_index with_index current_menu ui]. rewrite ld_insert_eq by done. cbn [mbind option_bind].
  by apply ld_insert_eq.
Qed.
Lemma guide_sets it i k (s : menu_t (W := W)) : quiet k -> keys s = post (Short KEY_SET) k -> item s = Some it -> item_index s = Some i ->
  exists t, item_index (with_index t s) = Some 0 /\ forall count,
  guide_part count s = guide_set (with_keys (settled (Short KEY_SET) k) (with_index t (with_ui (set_para 0 (para_num it) (ui s)) s))).
Proof.
  intros Hk Ek Hi Hx. destruct (set_index_ok 0 i (with_ui (set_para 0 (para_num it) (ui s)) s) Hx) as (t & Et & Ht).
  exists t. split; [exact Ht|]. intros count. unfold guide_part. rewrite Hi. cbn [mbind option_bind]. rewrite Et. cbn [mbind option_bind].
  by apply (guide_keys_set k).
Qed.

(** The four parts of a page of a number. *)
Lemma page_load p np s : number p = Some np -> is_blinking (ui s) = false -> set_states (ui s) = false -> cfg_states (ui s) = false ->
  run_page p s = Some (with_ui (set_dis (np_load np (sys s)) (ui s)) s).
Proof.
  intros Hp Hb Hs Hc. rewrite (run_number _ _ _ Hp) by auto. unfold edit_value, load_value. rewrite Hb. unfold adjust_value. cbn [ui with_ui set_dis set_states].
  rewrite Hs. unfold commit_value. cbn [ui with_ui set_dis cfg_states]. by rewrite Hc.
Qed.
Lemma page_still p np s : number p = Some np -> is_blinking (ui s) = true -> np_shown np (dis_value (ui s)) = true -> set_states (ui s) = false ->
  cfg_states (ui s) = false -> run_page p s = Some s.
Proof.
  intros Hp Hb Hv Hs Hc. rewrite (run_number _ _ _ Hp) by auto. unfold edit_value, load_value. rewrite Hb. unfold adjust_value. rewrite Hs.
  unfold commit_value. by rewrite Hc.
Qed.
Lemma page_adjust p np s : number p = Some np -> is_blinking (ui s) = true -> np_shown np (dis_value (ui s)) = true -> set_states (ui s) = true ->
  cfg_states (ui s) = false ->
  run_page p s = Some (with_ui (set_dis (np_adjust np (sys s) (s32 (dis_value (ui s) + set_value (ui s)))) (set_set false (ui s))) s).
Proof.
  intros Hp Hb Hv Hs Hc. rewrite (run_number _ _ _ Hp) by auto. unfold edit_value, load_value. rewrite Hb. unfold adjust_value. rewrite Hs.
  unfold commit_value. cbn [ui with_ui set_dis set_set cfg_states]. by rewrite Hc.
Qed.
Lemma page_commit p np s r : number p = Some np -> is_blinking (ui s) = true -> np_shown np (dis_value (ui s)) = true -> set_states (ui s) = false ->
  cfg_states (ui s) = true -> np_commit np (dis_value (ui s)) (sys s) (world s) = Some r ->
  run_page p s = Some (with_sys r (with_ui (set_cfg false (ui s)) s)).
Proof.
  intros Hp Hb Hv Hs Hc Hr. rewrite (run_number _ _ _ Hp) by auto. unfold edit_value, load_value. rewrite Hb. unfold adjust_value. rewrite Hs.
  unfold commit_value. rewrite Hc. cbn [ui with_ui set_cfg dis_value sys world]. rewrite Hr. reflexivity.
Qed.

(** ** The state between two passes *)


(** Page [b] of menu [a] is shown, in the guide mode or being edited. *)
Definition item_at (a b : Z) : option menu_item_t := l ← ld m0_root a; ld l b.
Record on_page (a b : Z) (g : bool) (s : menu_t (W := W)) : Prop := mk_on_page {
  op_guide : guide s = g; op_top : is_menu s = false; op_menu : current_menu s = a; op_main : main_page_id (ui s) = a; op_sub : sub_page_id (ui s) = b;
  op_cfg : cfg_states (ui s) = false; op_set : set_states (ui s) = false; op_blink : is_blinking (ui s) = negb g;
  op_keys : quiet (keys s); op_index : if g then is_Some (item_index s) else item_index s = Some 0 }.

Lemma item_at_facts a b it : item_at a b = Some it ->
  0 <= a < 5 /\ 0 <= b < 20 /\ exists l first, ld m0_root a = Some l /\ ld l 0 = Some first /\ ld l b = Some it.
Proof.
  unfold item_at. intros (l & El & Eb)%bind_Some. pose proof (proj1 (ld_is_Some _ _) (mk_is_Some _ _ El)) as Ha.
  pose proof (proj1 (ld_is_Some _ _) (mk_is_Some _ _ Eb)) as Hb. change (zlen m0_root) with 5 in Ha.
  assert (Hl : zlen l <= 20).
  { revert El. assert (a = 0 \/ a = 1 \/ a = 2 \/ a = 3 \/ a = 4) as [-> | [-> | [-> | [-> | ->]]]] by lia; intros [= <-]; vm_compute; discriminate. }
  destruct (proj2 (ld_is_Some l 0) ltac:(lia)) as [first Hf]. split; [done|]. split; [lia|]. by exists l, first.
Qed.
Lemma number_page_at a b it p np : item_at a b = Some it -> subs it = Some p -> number p = Some np -> a <> 0 /\ para_num it = 1.
Proof.
  unfold item_at. intros (l & El & Eb)%bind_Some Hq Hn. apply ld_Some_iff in El as [Ha El], Eb as [_ Eb].
  apply list_elem_of_lookup_2, list_elem_of_In in Eb. set (is_number := fun it => match subs it ≫= number with Some _ => true | None => false end).
  assert (Hit : is_number it = true) by (unfold is_number; rewrite Hq; cbn [mbind option_bind]; by rewrite Hn). split.
  - intros ->. injection El as <-.
    assert (H0 : forallb (fun it => negb (is_number it)) (table m1_infomation) = true) by reflexivity. rewrite forallb_forall in H0. specialize (H0 it Eb).
    by rewrite Hit in H0.
  - apply list_elem_of_lookup_2, list_elem_of_In in El.
    assert (Hall : forallb (forallb (fun it => negb (is_number it) || (para_num it =? 1))) m0_root = true) by reflexivity.
    rewrite forallb_forall in Hall. specialize (Hall l El). rewrite forallb_forall in Hall. specialize (Hall it Eb). rewrite Hit in Hall. by apply Z.eqb_eq.
Qed.

(** A pass that stays on its page. *)
Definition idle_of (e : event) : Z := match e with Wait i => i | _ => 0 end.
Lemma pass_stays a b g e it s r : on_page a b g s -> item_at a b = Some it -> idle_of e <> 1 ->
  (forall count, (if g then guide_part count else edit_part) (with_keys (post e (keys s)) s) = Some r) ->
  is_menu r = false -> current_menu r = a -> main_page_id (ui r) = a -> sub_page_id (ui r) = b ->
  pass e s = call_subs it r.
Proof.
  intros [] Hi He Hr Hm Hc Ha Hb. destruct (item_at_facts _ _ _ Hi) as (Ba & Bb & l & first & El & Ef & Eb).
  unfold pass, menu_navigate, son_ms. cbn [current_menu with_keys]. rewrite op_menu0, El. cbn [mbind option_bind]. rewrite Ef. cbn [mbind option_bind].
  set (s1 := with_keys _ s).
  assert (Hidle : idle_part s1 = Some s1).
  { unfold idle_part. change (is_menu s1) with (is_menu s). rewrite op_top0, andb_false_r.
    replace (key_idle_flag (keys s1)) with (idle_of e) by (by destruct e). by destruct (Z.eqb_spec (idle_of e) 1). }
  rewrite Hidle. cbn [mbind option_bind]. change (guide s1) with (guide s). rewrite op_guide0.
  specialize (Hr (menu_count first)). fold s1 in Hr.
  replace (if g then guide_part (menu_count first) s1 else edit_part s1) with (Some r) by (by destruct g). cbn [mbind option_bind].
  unfold refresh_part. change (main_page_id (ui s1)) with (main_page_id (ui s)). change (sub_page_id (ui s1)) with (sub_page_id (ui s)).
  rewrite op_main0, op_sub0, Ha, Hb, !s8_small, !Z.eqb_refl by lia. cbn [negb orb]. unfold son_ms. rewrite Hc, El. cbn [mbind option_bind].
  rewrite Hm. unfold item, son_ms. rewrite Hc, El. cbn [mbind option_bind]. by rewrite Hb, Eb.
Qed.

Lemma item_on a b g s : on_page a b g s -> item s = item_at a b.
Proof. intros []. unfold item, son_ms, item_at. by rewrite op_menu0, op_sub0. Qed.
Lemma quiet_init k : quiet k -> quiet (key_init k).
Proof. quiet_cases. split; [done|]. cbn. repeat constructor. Qed.

(** What stays when the page, not the parameters, changes. *)
Definition shows (a b : Z) (g : bool) (m : mem) (w : W) (v : Z) (s : menu_t) : Prop :=
  on_page a b g s /\ sys s = m /\ world s = w /\ dis_value (ui s) = v.

Section OneNumber.
Context (a b : Z) (it : menu_item_t) (p : page) (np : number_page).
Context (Hi : item_at a b = Some it) (Hq : subs it = Some p) (Hn : number p = Some np).

Lemma call_it (s : menu_t (W := W)) : call_subs it s = run_page p s.
Proof. unfold call_subs. by rewrite Hq. Qed.
Lemma pass_enter s : on_page a b true s -> panel_lock (sys s) = 85 ->
  exists s', pass (Short KEY_SET) s = Some s' /\ shows a b false (sys s) (world s) (np_load np (sys s)) s'.
Proof.
  intros Hs Hp. destruct (number_page_at _ _ _ _ _ Hi Hq Hn) as [Ha Hpn]. pose proof (item_on _ _ _ _ Hs) as Hit. rewrite Hi in Hit.
  pose proof Hs as []. destruct op_index0 as [i Hx]. set (s1 := with_keys (post (Short KEY_SET) (keys s)) s).
  destruct (guide_sets it i (keys s) s1 op_keys0 eq_refl Hit Hx) as (t & Ht & Hg).
  set (s2 := with_keys _ _) in Hg.
  set (r := with_keys (key_init (keys s2)) (with_ui (set_blink true (set_dis (np_load np (sys s)) (ui s2))) (with_mode false false s2))).
  assert (Hr : guide_set s2 = Some r).
  { unfold guide_set. change (is_menu s2) with (is_menu s). rewrite op_top0. change (sys s2) with (sys s). rewrite Hp. cbn [Z.eqb negb].
    replace (0 <? _) with true by (symmetry; apply Z.ltb_lt; change (0 < para_num it); lia).
    change (item s2) with (item s). rewrite Hit. cbn [mbind option_bind Pos.eqb].
    rewrite call_it, (page_load _ np) by assumption. cbn [mbind option_bind].
    change (main_page_id _) with (main_page_id (ui s)). rewrite op_main0. by destruct (Z.eqb_spec a 0). }
  exists r. split.
  - rewrite (pass_stays a b true _ it s r); try done; [|intros count; by rewrite <-Hr, <-(Hg count)].
    rewrite call_it. apply (page_still _ np); try done. by apply (shown_load _ _ _ Hn).
  - split; [|by repeat split]. split; try done. apply quiet_init, settled_quiet, op_keys0.
Qed.

Lemma pass_wait i v s : i <> 1 -> shows a b false (sys s) (world s) v s -> np_shown np v = true ->
  exists s', pass (Wait i) s = Some s' /\ shows a b false (sys s) (world s) v s'.
Proof.
  intros Hw (Hs & _ & _ & Hd) Hv. pose proof Hs as []. exists (with_keys (settled (Wait i) (keys s)) s). split.
  - rewrite (pass_stays a b false _ it s (with_keys (settled (Wait i) (keys s)) s)); try done; [|intros _; by apply edit_wait].
    rewrite call_it. apply (page_still _ np); try done. cbn [ui with_keys]. by rewrite Hd.
  - split; [|by repeat split]. by split.
Qed.
Lemma pass_step e d v s : step_of e = Some d -> shows a b false (sys s) (world s) v s -> np_shown np v = true ->
  exists s', pass e s = Some s' /\ shows a b false (sys s) (world s) (np_adjust np (sys s) (s32 (v + d))) s'.
Proof.
  intros He (Hs & _ & _ & Hd) Hv. pose proof Hs as [].
  set (r := with_ui (set_step d (ui s)) (with_keys (settled e (keys s)) s)).
  exists (with_ui (set_dis (np_adjust np (sys s) (s32 (v + d))) (set_set false (ui r))) r). split.
  - rewrite (pass_stays a b false _ it s r); try done; [|by destruct e|intros _; by apply edit_steps].
    rewrite call_it, (page_adjust _ np); try done; change (dis_value (ui r)) with (dis_value (ui s)); by rewrite Hd.
  - split; [|by repeat split]. split; try done. by apply settled_quiet.
Qed.
Lemma pass_leave v m w s : shows a b false (sys s) (world s) v s -> np_shown np v = true -> np_commit np v (sys s) (world s) = Some (m, w) ->
  exists s', pass (Short KEY_SET) s = Some s' /\ shows a b true m w (np_load np m) s'.
Proof.
  intros (Hs & _ & _ & Hd) Hv Hc. destruct (number_page_at _ _ _ _ _ Hi Hq Hn) as [Ha Hpn]. pose proof (item_on _ _ _ _ Hs) as Hit. rewrite Hi in Hit.
  pose proof Hs as [].
  set (s2 := with_keys (settled (Short KEY_SET) (keys s)) s). set (s3 := with_ui (set_para 0 1 (ui s2)) s2).
  destruct (set_index_ok 1 0 s3 op_index0) as (t & Et & Ht). set (s4 := with_ui (set_para 1 1 (ui s3)) (with_index t s3)).
  set (s5 := with_sys (m, w) (with_ui (set_cfg false (ui s4)) s4)).
  set (r := with_keys (key_init (keys s5)) (with_ui (set_blink false (ui s5)) (with_mode true (is_menu s) s5))).
  assert (Hr : edit_set s2 = Some r).
  { unfold edit_set. change (item s2) with (item s). change (item_index s2) with (item_index s). rewrite Hit, op_index0. cbn [mbind option_bind].
    rewrite Hpn. cbn [Z.ltb Z.compare]. change (0 + 1) with 1. fold s3. rewrite Et. cbn [mbind option_bind].
    change (call_subs _ _) with (call_subs it (with_ui (set_cfg true (ui s4)) s4)).
    rewrite call_it, (page_commit _ np _ (m, w) Hn); try done; change (dis_value _) with (dis_value (ui s)); by rewrite Hd. }
  exists (with_ui (set_dis (np_load np m) (ui r)) r). split.
  - rewrite (pass_stays a b false _ it s r); try done; [|intros _; rewrite <-Hr; by apply edit_sets].
    by rewrite call_it, (page_load _ np).
  - split; [|by repeat split]. split; try done. apply quiet_init, settled_quiet, op_keys0.
Qed.

(** ** A session *)

(** What a session may hold between its two presses of SET. *)
Definition in_session (e : event) : bool := match e with Wait i => negb (i =? 1) | _ => bool_decide (is_Some (step_of e)) end.
(** The value that is saved. *)
Definition edited (es : list event) (m : mem) (v : Z) : Z := fold_left (fun v d => np_adjust np m (s32 (v + d))) (omap step_of es) v.

Lemma passes_app l1 l2 (s : menu_t (W := W)) : passes (l1 ++ l2) s = (s ← passes l1 s; passes l2 s).
Proof. revert s. induction l1 as [|e l1 IH]; intros s; cbn [app passes]; [done|]. destruct (pass e s) as [s'|]; [apply IH|done]. Qed.
Lemma session_middle m w : forall es v s, forallb in_session es = true -> shows a b false m w v s -> np_shown np v = true ->
  exists s', passes es s = Some s' /\ shows a b false m w (edited es m v) s' /\ np_shown np (edited es m v) = true.
Proof.
  induction es as [|e es IH]; intros v s Hes Hs Hv; [by exists s|].
  cbn [forallb] in Hes. apply andb_true_iff in Hes as [He Hes]. assert (Hs' := Hs). destruct Hs' as (_ & <- & <- & _).
  destruct e as [i|id|id n].
  1: destruct (pass_wait i v s) as (s1 & E1 & H1); [cbn [in_session] in He; lia|done|done|].
  2,3: unfold in_session in He; apply bool_decide_eq_true in He as [d Hd]; destruct (pass_step _ d v s Hd Hs Hv) as (s1 & E1 & H1).
  all: cbn [passes]; rewrite E1; cbn [mbind option_bind].
  - exact (IH _ _ Hes H1 Hv).
  - destruct (IH _ _ Hes H1 (shown_adjust _ _ _ _ Hn)) as (s2 & E2 & H2). exists s2. split; [exact E2|].
    unfold edited in *. cbn [omap list_omap]. rewrite Hd. exact H2.
  - destruct (IH _ _ Hes H1 (shown_adjust _ _ _ _ Hn)) as (s2 & E2 & H2). exists s2. split; [exact E2|].
    unfold edited in *. cbn [omap list_omap]. rewrite Hd. exact H2.
Qed.
Lemma session es s m w : on_page a b true s -> panel_lock (sys s) = 85 -> forallb in_session es = true ->
  np_commit np (edited es (sys s) (np_load np (sys s))) (sys s) (world s) = Some (m, w) ->
  exists s', passes (Short KEY_SET :: es ++ [Short KEY_SET]) s = Some s' /\ shows a b true m w (np_load np m) s'.
Proof.
  intros Hs Hp Hes Hc. destruct (pass_enter s Hs Hp) as (s1 & E1 & H1).
  destruct (session_middle _ _ es _ s1 Hes H1 (shown_load _ _ _ Hn)) as (s2 & E2 & H2 & Hv).
  assert (H2' := H2). destruct H2' as (_ & Es & Ew & _). rewrite <-Es in Hc, H2, Hv. rewrite <-Ew in Hc, H2.
  destruct (pass_leave _ m w s2 H2 Hv Hc) as (s3 & E3 & H3).
  exists s3. split; [|exact H3]. cbn [passes]. rewrite E1. cbn [mbind option_bind]. rewrite passes_app, E2. cbn [mbind option_bind passes].
  by rewrite E3.
Qed.
End OneNumber.
End Sessions.

(** ** Sessions over the parameter manager *)

(** The pages that write their number to one member of [sys_para] and save its
    group; the address of the device is not among them. *)
Definition direct (p : page) : option (pointer * (Z -> Z) * nat) :=
  let milli q := Some (q, fun v => f32_to_bits (f32_div (f32_of_Z v) (f32_of_Z 1000)), PARA_TEMP) in
  match p with
  | do_relay_mode_p => Some (relay_at, u32, PARA_ALARM)
  | do_aim_device_p => Some (aim_at, u32, PARA_VIDEO)
  | do_slope_p => milli slope_at
  | do_emissivity_p => milli emissivity_at
  | do_transmissivity_low_p => milli (trans_at 1)
  | do_transmissivity_high_p => milli (trans_at 0)
  | do_temp_filt_size_p => Some (filt_at, u32, PARA_FILTER)
  | do_eth_port_p => Some (port_at, u32, PARA_NET)
  | do_analog_out_low_p => Some (ana_lower_at, fun v => f32_to_bits (f32_of_Z v), PARA_ANA)
  | do_analog_out_high_p => Some (ana_upper_at, fun v => f32_to_bits (f32_of_Z v), PARA_ANA)
  | _ => None
  end.
Lemma direct_place p q enc g : direct p = Some (q, enc, g) ->
  p_obj q = SYS_PARA /\ (9 <= p_off q)%nat /\ (p_off q + sizeof (p_type q) <= CRC_OFF)%nat /\ (g < PARA_TYPE_CNT)%nat.
Proof. destruct p; cbn [direct]; intros [= <- <- <-]; split; try (vm_compute; reflexivity); repeat split; apply Nat.leb_le; vm_compute; reflexivity. Qed.

Section OverManager.
Context {N : Type} `{!NvStore N} (SYS_DEF_PARA : list Z) (pc_init : mem -> pmm N -> option (mem * pmm N)).
#[local] Instance panel : MenuServices (pmm N) := menu_manager SYS_DEF_PARA pc_init.

Lemma direct_commit p np q enc g v m w : direct p = Some (q, enc, g) -> number p = Some np -> np_commit np v m w = write_save q (enc v) g m w.
Proof. destruct p; cbn [direct number]; intros Hd Hn; simplify_eq; reflexivity. Qed.
Lemma wr_para v q m : p_obj q = SYS_PARA -> wr v q m = mk_mem (put (p_off q) (le_encode (sizeof (p_type q)) v) (m_para m)) (m_state m).
Proof. unfold wr. by intros ->. Qed.
Lemma wr_wf v q m : wf_mem m -> p_obj q = SYS_PARA -> (p_off q + sizeof (p_type q) <= CRC_OFF)%nat -> wf_mem (wr v q m).
Proof.
  intros Hm Hq Hin. rewrite wr_para by done. destruct (wf_put (p_off q) (le_encode (sizeof (p_type q)) v) (m_para m)) as [Hl Hb].
  - by apply para_wf.
  - apply le_encode_bytes.
  - rewrite le_encode_length. unfold CRC_OFF, PARA_SIZE in *. lia.
  - destruct Hm as (_ & H2 & _ & H4). by repeat split.
Qed.

(** What a direct page writes is what the next start finds. *)
Lemma direct_restart v q g m (w : pmm N) : p_obj q = SYS_PARA -> (9 <= p_off q)%nat -> (p_off q + sizeof (p_type q) <= CRC_OFF)%nat ->
  (g < PARA_TYPE_CNT)%nat -> wf_mem m -> nv_good (nv w) -> dev_addr_of m <= DEV_MAX_ADDR ->
  exists m' w', write_save q v g m w = Some (m', w') /\
    forall def z, wf def -> nv_good (nv z) -> same_mem (nv w') (nv z) ->
      exists z', para_init def z = Some z' /\ get (p_off q) (sizeof (p_type q)) (sys_para z') = le_encode (sizeof (p_type q)) v /\
        forall j, (4 <= j < CRC_OFF)%nat -> (j < p_off q \/ p_off q + sizeof (p_type q) <= j)%nat -> sys_para z' !! j = m_para m !! j.
Proof.
  intros Hq Hlo Hin Hg Hm Hw Ha. pose proof (wr_wf v q m Hm Hq Hin) as Hm1.
  destruct (manager_save (wr v q m) w g Hm1 Hw Hg) as (w' & Ew & _ & Hs' & _ & Hg' & Hvu & Hgu).
  exists (mk_mem (sys_para w') (m_state (wr v q m))), w'. split.
  { unfold write_save. cbn [ms_save panel menu_manager]. by rewrite Ew. }
  assert (Hl : (p_off q + length (le_encode (sizeof (p_type q)) v) <= length (m_para m))%nat).
  { rewrite le_encode_length. destruct Hm as (-> & _). unfold CRC_OFF in Hin. change (obj_size SYS_PARA) with PARA_SIZE. unfold PARA_SIZE. lia. }
  intros def z Hd Hz Hsame. destruct (user_restart def z (m_para (wr v q m))) as (z' & Ez & Hgz); try done.
  - by rewrite (image_same (nv w') (nv z)).
  - by apply para_wf.
  - by rewrite (image_same (nv w') (nv z)).
  - rewrite wr_para by done. cbn [m_para]. rewrite <-(dev_addr_image m) in Ha. 
    replace (dev_addr (put _ _ _)) with (dev_addr (m_para m)); [exact Ha|]. unfold dev_addr. rewrite !nth_lookup.
    by rewrite put_lookup_out by lia.
  - exists z'. split; [exact Ez|]. rewrite wr_para in Hgz by done. cbn [m_para] in Hgz. split.
    + rewrite <-(get_put_eq (p_off q) (sizeof (p_type q)) (le_encode (sizeof (p_type q)) v) (m_para m)); [|exact Hl|by rewrite le_encode_length].
      apply get_ext. intros j Hj. apply same_groups_bytes; [exact Hgz|lia].
    + intros j Hj Ho. rewrite (same_groups_bytes _ _ _ Hgz Hj). apply put_lookup_out; [exact Hl|]. rewrite le_encode_length. lia.
Qed.

(** [C2] What is set at the panel survives a restart.  On a page of one
    number that is stored in one member of the parameters, the user presses SET,
    then steps up and down, with pauses shorter than the idle time, and presses
    SET again.  The passes of the menu end on the same page, in the guide mode,
    and from whatever contents of RAM the device starts next, [para_init] finds in
    the member the number that the steps made of its old value, and in every
    other byte of the groups the parameters as they were before. *)
Theorem panel_edit_survives_restart a b it p np q enc g es s :
  item_at a b = Some it -> subs it = Some p -> number p = Some np -> direct p = Some (q, enc, g) ->
  on_page a b true s -> panel_lock (sys s) = 85 -> forallb in_session es = true ->
  wf_mem (sys s) -> nv_good (nv (world s)) -> dev_addr_of (sys s) <= DEV_MAX_ADDR ->
  let v := edited np es (sys s) (np_load np (sys s)) in
  exists s', passes (Short KEY_SET :: es ++ [Short KEY_SET]) s = Some s' /\ on_page a b true s' /\
    forall def z, wf def -> nv_good (nv z) -> same_mem (nv (world s')) (nv z) ->
      exists z', para_init def z = Some z' /\
        get (p_off q) (sizeof (p_type q)) (sys_para z') = le_encode (sizeof (p_type q)) (enc v) /\
        forall j, (4 <= j < CRC_OFF)%nat -> (j < p_off q \/ p_off q + sizeof (p_type q) <= j)%nat -> sys_para z' !! j = m_para (sys s) !! j.
Proof.
  intros Hi Hq Hn Hdir Hs Hp Hes Hm Hw Ha v. destruct (direct_place _ _ _ _ Hdir) as (H1 & H2 & H3 & H4).
  destruct (direct_restart (enc v) q g (sys s) (world s)) as (m' & w' & E & Hz); try assumption.
  destruct (session a b it p np Hi Hq Hn es s m' w' Hs Hp Hes) as (s' & Es & Hon & _ & Hw' & _).
  - by rewrite (direct_commit _ _ _ _ _ _ _ _ Hdir Hn).
  - exists s'. split; [exact Es|]. split; [exact Hon|]. by rewrite Hw'.
Qed.

(** Restoring the defaults writes them to both copies. *)
Lemma restore_default_spec (p : pmm N) : nv_good (nv p) -> wf SYS_DEF_PARA ->
  exists p', pmm_restore_to_default SYS_DEF_PARA p = Some p' /\ nv_good (nv p') /\ wf (sys_para p') /\ same_groups (sys_para p') SYS_DEF_PARA /\
    forall loc, loc = user_loc \/ loc = backup_loc -> fully_valid (image (nv p') loc) /\ same_groups (image (nv p') loc) SYS_DEF_PARA.
Proof.
  intros Hn Hd. unfold pmm_restore_to_default. destruct p as [sys0 tmp0 eu eb ef cu cb cr n0]. cbn [ENTER_CRITICAL set_sys sys_para nv] in *.
  destruct (recalculate_spec SYS_DEF_PARA Hd) as (s1 & -> & Hs1 & _ & Hg1). cbn [mbind option_bind].
  match goal with |- context [para_save_to_storage ?q STORAGE_TYPE_USER _] =>
    destruct (save_whole q STORAGE_TYPE_USER 0x7fffffff) as (n2 & s2 & -> & Hn2 & Hs2 & Hv2 & Hg2 & Hi2 & Ho2); [done|done|done|by left|] end.
  cbn [mbind option_bind fst loc_of] in *. cbn [set_nv set_sys nv sys_para] in *.
  match goal with |- context [para_save_to_storage ?q STORAGE_TYPE_BACKUP _] =>
    destruct (save_whole q STORAGE_TYPE_BACKUP 0x7fffffff) as (n3 & s3 & -> & Hn3 & Hs3 & Hv3 & Hg3 & Hi3 & Ho3); [done|done|done|by right|] end.
  cbn [mbind option_bind fst loc_of] in *. cbn [set_nv set_sys EXIT_CRITICAL nv sys_para] in *.
  eexists. split; [reflexivity|]. cbn [set_nv set_sys EXIT_CRITICAL nv sys_para]. split; [done|]. split; [done|].
  split; [intros i Hi; by rewrite Hg3, Hg2, Hg1|]. intros loc [-> | ->].
  - rewrite Ho3, Hi2 by (done || by left). split; [done|]. intros i Hi. by rewrite Hg2, Hg1.
  - rewrite Hi3. split; [done|]. intros i Hi. by rewrite Hg3, Hg2, Hg1.
Qed.

(** [C6] The page FACTORY DEFAULT restores the defaults whatever is chosen: the
    second press of SET puts the default parameters into use and into both
    copies, with YES or NO on the display; only leaving with RIGHT, or waiting, does not. *)
Theorem factory_default_ignores_choice es s :
  on_page 1 4 true s -> panel_lock (sys s) = 85 -> forallb in_session es = true -> nv_good (nv (world s)) -> wf SYS_DEF_PARA ->
  exists s', passes (Short KEY_SET :: es ++ [Short KEY_SET]) s = Some s' /\ on_page 1 4 true s' /\
    same_groups (m_para (sys s')) SYS_DEF_PARA /\
    forall loc, loc = user_loc \/ loc = backup_loc ->
      fully_valid (image (nv (world s')) loc) /\ same_groups (image (nv (world s')) loc) SYS_DEF_PARA.
Proof.
  intros Hs Hp Hes Hw Hd. destruct (restore_default_spec (Para.set_sys (world s) (m_para (sys s))) Hw Hd) as (p' & E & _ & _ & Hg & Hloc).
  destruct (session 1 4 (mk_item 5 (Some do_fact_default_p) 1) do_fact_default_p (mk_np default_load (fun _ => wrap 0 1) default_commit any_value) eq_refl eq_refl eq_refl es s
    (mk_mem (sys_para p') (m_state (sys s))) p' Hs Hp Hes) as (s' & Es & Hon & Em & Ew & _).
  - cbn [np_commit]. unfold default_commit. cbn [ms_restore panel menu_manager]. unfold restore_service. by rewrite E.
  - exists s'. split; [exact Es|]. split; [exact Hon|]. rewrite Em, Ew. by split.
Qed.
End OverManager.

(** ** Instances *)

(** A device with zero parameters whose panel is not locked, on page [b] of menu [a]. *)
Definition panel_mem : mem := wr 85 (para_at ["dev"; "panel_lock"]) demo_mem.
Definition no_port (m : mem) (w : pmm (board nor)) : option (mem * pmm (board nor)) := Some (m, w).
#[local] Instance demo_panel : MenuServices (pmm (board nor)) := menu_manager zero_para no_port.
Definition at_page (a b : Z) : menu_t (W := pmm (board nor)) :=
  mk_menu (set_page a b ui_start) a true false (map (map (fun _ => 0)) m0_root) (replicate 3 [0; 0; 0; 0]) keys_start panel_mem started.
Definition up_ten : list event := [Short KEY_UP; Wait 2; Long KEY_UP 10].

Lemma at_page_on a b it : item_at a b = Some it -> on_page a b true (at_page a b).
Proof.
  intros Hi. constructor; try reflexivity.
  - split; [reflexivity|]. repeat constructor.
  - destruct (item_at_facts _ _ _ Hi) as (_ & _ & l & f & El & _ & Eb). unfold item_index.
    cbn [para_index at_page current_menu ui sub_page_id set_page]. unfold ld in *. destruct (0 <=? a); [|done]. destruct (0 <=? b); [|done].
    rewrite list_lookup_fmap, El. cbn [fmap option_fmap option_map mbind option_bind]. rewrite list_lookup_fmap, Eb. by eexists.
Qed.
Lemma panel_wf : wf_mem panel_mem.
Proof. apply wr_wf; [exact demo_wf|reflexivity|vm_compute; lia]. Qed.

(** The emissivity goes from 0 to 0.110. *)
Lemma panel_edit_survives_restart_witness :
  exists s', passes (Short KEY_SET :: up_ten ++ [Short KEY_SET]) (at_page 2 1) = Some s' /\
    forall def z, wf def -> nv_good (nv z) -> same_mem (nv (world s')) (nv z) ->
      exists z', para_init def z = Some z' /\
        get (p_off emissivity_at) 4 (sys_para z') = le_encode 4 (f32_to_bits (f32_div (f32_of_Z 110) (f32_of_Z 1000))).
Proof.
  destruct (panel_edit_survives_restart zero_para no_port 2 1 (mk_item 5 (Some do_emissivity_p) 1) do_emissivity_p
    (mk_np (milli_load emissivity_at) (fun _ => clamp 100 1150) (milli_commit emissivity_at) any_value) emissivity_at
    (fun v => f32_to_bits (f32_div (f32_of_Z v) (f32_of_Z 1000))) PARA_TEMP up_ten (at_page 2 1)) as (s' & E & _ & Hz).
  - reflexivity.
  - reflexivity.
  - reflexivity.
  - reflexivity.
  - apply (at_page_on 2 1 _ eq_refl).
  - vm_compute. reflexivity.
  - vm_compute. reflexivity.
  - exact panel_wf.
  - exact blank_good.
  - vm_compute. discriminate.
  - exists s'. split; [exact E|]. intros def z H1 H2 H3. destruct (Hz def z H1 H2 H3) as (z' & Ez & Hg & _). exists z'. split; [exact Ez|].
    refine (eq_trans Hg _). apply (f_equal (fun v => le_encode 4 (f32_to_bits (f32_div (f32_of_Z v) (f32_of_Z 1000))))). vm_compute. reflexivity.
Defined.
(** SET pressed twice: NO is on the display all the time. *)
Lemma factory_default_ignores_choice_witness :
  exists s', passes [Short KEY_SET; Short KEY_SET] (at_page 1 4) = Some s' /\
    same_groups (m_para (sys s')) zero_para.
Proof.
  destruct (factory_default_ignores_choice zero_para no_port [] (at_page 1 4)) as (s' & E & _ & Hg & _).
  - apply (at_page_on 1 4 _ eq_refl).
  - vm_compute. reflexivity.
  - reflexivity.
  - exact blank_good.
  - exact zero_wf.
  - exists s'. split; [exact E|exact Hg].
Defined.
