(* ===== verification/MenuSafe.v ===== *)
(** * The menu under every use of the keys

    While the flags of at most one key are pending in a pass, no pass of the
    menu leaves its tables, parameters and buffers, and only SET in the edit mode
    changes a parameter; with two keys in one pass it can go wrong.  The theorem,
    together with what is drawn, is at the end of Screen.v. *)
From Stdlib Require Import ZifyBool.
From S2P Require Import Agent Serial Comm.
From S2P Require Import Prelude CFloat Str Fmc Para ParaStore Stdio Layout CmdTable ProtoChar UppProps UppRoundTrip.
From S2P Require Import Key Menu MenuEdit.

(** What the menu needs of its services. *)
Class MenuServicesOk (W : Type) `{!MenuServices W} := {
  menu_good : W -> Prop;
  ms_save_ok : forall g m w, (g < PARA_TYPE_CNT)%nat -> wf_mem m -> menu_good w -> exists m' w', ms_save g m w = Some (m', w') /\ wf_mem m' /\ menu_good w';
  ms_restore_ok : forall m w, wf_mem m -> menu_good w -> exists m' w', ms_restore m w = Some (m', w') /\ wf_mem m' /\ menu_good w';
  ms_pc_init_ok : forall m w, wf_mem m -> menu_good w -> exists m' w', ms_pc_init m w = Some (m', w') /\ wf_mem m' /\ menu_good w' }.

Section Safe.
Context {W : Type} `{!MenuServices W, !MenuServicesOk W}.
Abbreviation menu := (menu_t (W := W)).

(** ** Flags *)

Definition short (id : Z) (k : keys_t) : Z := match ld (KEY_TABLES k) id with Some x => short_flag x | None => 0 end.
Definition long (id : Z) (k : keys_t) : Z := match ld (KEY_TABLES k) id with Some x => long_flag x | None => 0 end.
(** At most one short press, and SET not together with a long press of UP or DOWN. *)
Definition one_key (k : keys_t) : Prop :=
  (forall i j, i <> j -> short i k = 0 \/ short j k = 0) /\ (short KEY_SET k <> 0 -> long KEY_UP k = 0 /\ long KEY_DOWN k = 0).
Definition four_keys (k : keys_t) : Prop := length (KEY_TABLES k) = 4%nat.

Definition take_short (id : Z) (k : keys_t) : keys_t :=
  mk_keys (alter (fun x => set_flags 0 (long_flag x) x) (Z.to_nat id) (KEY_TABLES k)) (last_key_action_time k) (key_idle_flag k).
Definition take_long (id : Z) (k : keys_t) : keys_t :=
  mk_keys (alter (fun x => set_flags (short_flag x) 0 x) (Z.to_nat id) (KEY_TABLES k)) (last_key_action_time k) (key_idle_flag k).
Definition is_key (id : Z) : Prop := 0 <= id < 4.

Lemma ld_alter {A} (f : A -> A) i j (l : list A) : 0 <= i -> ld (alter f (Z.to_nat i) l) j = if j =? i then f <$> ld l i else ld l j.
Proof.
  intros Hi. unfold ld. destruct (Z.eqb_spec j i) as [-> | Hne].
  - rewrite (proj2 (Z.leb_le 0 i) Hi). apply list_lookup_alter_eq.
  - destruct (Z.leb_spec 0 j); [|done]. apply list_lookup_alter_ne. lia.
Qed.
Lemma insert_is_alter {A} (f : A -> A) (l : list A) i x : l !! i = Some x -> <[i:=f x]> l = alter f i l.
Proof. revert i. induction l as [|y l IH]; intros [|i]; [done..|by intros [= ->]|]. intros E. cbn. f_equal. by apply IH. Qed.
Lemma alter_same {A} (f : A -> A) (l : list A) i : (forall x, l !! i = Some x -> f x = x) -> alter f i l = l.
Proof. revert i. induction l as [|y l IH]; intros [|i] H; [done..| |]; cbn; f_equal; [by apply H|by apply IH]. Qed.
Lemma read_short id k : four_keys k -> is_key id -> key_get_short_flag id k = Some (short id k, take_short id k).
Proof.
  intros Hk Hid. unfold key_get_short_flag, short, take_short. unfold is_key in Hid. rewrite (proj2 (Z.leb_gt KEY_CNT id)) by (unfold KEY_CNT; lia).
  destruct (proj2 (ld_is_Some (KEY_TABLES k) id) ltac:(rewrite Hk; lia)) as [x Hx]. rewrite Hx. cbn [mbind option_bind].
  rewrite st_Some by (rewrite Hk; lia). cbn [mbind option_bind]. do 3 f_equal. apply ld_Some_iff in Hx as [_ Hx].
  by apply (insert_is_alter (fun x => set_flags 0 (long_flag x) x)).
Qed.
Lemma read_long id k : four_keys k -> is_key id -> key_get_long_flag id k = Some (long id k, take_long id k).
Proof.
  intros Hk Hid. unfold key_get_long_flag, long, take_long. unfold is_key in Hid. rewrite (proj2 (Z.leb_gt KEY_CNT id)) by (unfold KEY_CNT; lia).
  destruct (proj2 (ld_is_Some (KEY_TABLES k) id) ltac:(rewrite Hk; lia)) as [x Hx]. rewrite Hx. cbn [mbind option_bind].
  rewrite st_Some by (rewrite Hk; lia). cbn [mbind option_bind]. do 3 f_equal. apply ld_Some_iff in Hx as [_ Hx].
  by apply (insert_is_alter (fun x => set_flags (short_flag x) 0 x)).
Qed.

Lemma short_take_short j id k : 0 <= id -> short j (take_short id k) = if j =? id then 0 else short j k.
Proof. intros Hid. unfold short, take_short. cbn [KEY_TABLES]. rewrite ld_alter by done. destruct (j =? id); [|done]. by destruct (ld (KEY_TABLES k) id). Qed.
Lemma short_take_long j id k : 0 <= id -> short j (take_long id k) = short j k.
Proof.
  intros Hid. unfold short, take_long. cbn [KEY_TABLES]. rewrite ld_alter by done. destruct (Z.eqb_spec j id) as [-> |]; [|done]. by destruct (ld (KEY_TABLES k) id).
Qed.
Lemma take_short_none id k : 0 <= id -> short id k = 0 -> take_short id k = k.
Proof.
  intros Hid. unfold short, take_short, ld. rewrite (proj2 (Z.leb_le 0 id) Hid). destruct k as [tb t i]. cbn [KEY_TABLES last_key_action_time key_idle_flag].
  intros Hs. f_equal. apply alter_same. intros x Hx. rewrite Hx in Hs. destruct x. cbn in *. by subst.
Qed.
Lemma take_long_none id k : 0 <= id -> long id k = 0 -> take_long id k = k.
Proof.
  intros Hid. unfold long, take_long, ld. rewrite (proj2 (Z.leb_le 0 id) Hid). destruct k as [tb t i]. cbn [KEY_TABLES last_key_action_time key_idle_flag].
  intros Hs. f_equal. apply alter_same. intros x Hx. rewrite Hx in Hs. destruct x. cbn in *. by subst.
Qed.
Lemma take_short_four id k : four_keys k -> four_keys (take_short id k).
Proof. unfold four_keys, take_short. cbn [KEY_TABLES]. by rewrite length_alter. Qed.
Lemma take_long_four id k : four_keys k -> four_keys (take_long id k).
Proof. unfold four_keys, take_long. cbn [KEY_TABLES]. by rewrite length_alter. Qed.
Lemma key_init_four k : four_keys k -> four_keys (key_init k).
Proof. unfold four_keys, key_init. cbn [KEY_TABLES]. by rewrite length_map. Qed.
Lemma short_key_init id k : short id (key_init k) = 0.
Proof. unfold short, key_init. cbn [KEY_TABLES]. unfold ld. destruct (0 <=? id); [|done]. rewrite list_lookup_fmap. by destruct (_ !! _). Qed.
Lemma long_key_init id k : long id (key_init k) = 0.
Proof. unfold long, key_init. cbn [KEY_TABLES]. unfold ld. destruct (0 <=? id); [|done]. rewrite list_lookup_fmap. by destruct (_ !! _). Qed.

Lemma with_keys_same (s : menu) : with_keys (keys s) s = s.
Proof. by destruct s. Qed.
Lemma short_skip id f (s : menu) : four_keys (keys s) -> is_key id -> short id (keys s) = 0 -> on_short id f s = Some s.
Proof.
  intros Hk Hid H0. unfold on_short. rewrite read_short by done. cbn [mbind option_bind fst snd]. rewrite H0, take_short_none by (done || apply Hid).
  by rewrite with_keys_same.
Qed.
Lemma short_take id f (s : menu) : four_keys (keys s) -> is_key id -> short id (keys s) <> 0 -> on_short id f s = f (with_keys (take_short id (keys s)) s).
Proof.
  intros Hk Hid H0. unfold on_short. rewrite read_short by done. cbn [mbind option_bind fst snd]. by rewrite (proj2 (Z.eqb_neq _ _) H0).
Qed.
Lemma long_skip id f (s : menu) : four_keys (keys s) -> is_key id -> long id (keys s) = 0 -> on_long id f s = Some s.
Proof.
  intros Hk Hid H0. unfold on_long. rewrite read_long by done. cbn [mbind option_bind fst snd]. rewrite H0, take_long_none by (done || apply Hid).
  by rewrite with_keys_same.
Qed.
Lemma long_take id f (s : menu) : four_keys (keys s) -> is_key id -> long id (keys s) <> 0 -> on_long id f s = f (with_keys (take_long id (keys s)) s).
Proof.
  intros Hk Hid H0. unfold on_long. rewrite read_long by done. cbn [mbind option_bind fst snd]. by rewrite (proj2 (Z.eqb_neq _ _) H0).
Qed.

(** ** Steps in the edit mode *)

Definition stepped (s s' : menu) : Prop :=
  (exists k u, s' = with_keys k (with_ui u s) /\ (u = ui s \/ exists v, u = set_step v (ui s))) /\
  (four_keys (keys s) -> four_keys (keys s') /\ short KEY_SET (keys s') = short KEY_SET (keys s)).
Lemma stepped_refl s : stepped s s.
Proof. split; [|done]. exists (keys s), (ui s). split; [by destruct s|by left]. Qed.
Lemma stepped_trans s1 s2 s3 : stepped s1 s2 -> stepped s2 s3 -> stepped s1 s3.
Proof.
  intros [(k & u & -> & Hu) H1] [(k' & u' & -> & Hu') H2]. split.
  - exists k', u'. split; [done|]. cbn [ui with_keys with_ui] in Hu'. destruct Hu as [-> | [v ->]], Hu' as [-> | [v' ->]]; eauto.
  - intros H. destruct (H1 H) as [H3 E]. destruct (H2 H3) as [H4 E']. split; [done|]. by rewrite E', E.
Qed.
Lemma short_step id v s : four_keys (keys s) -> is_key id -> id <> KEY_SET -> exists s', on_short id (edit_step v) s = Some s' /\ stepped s s'.
Proof.
  intros Hk Hid Hne. destruct (Z.eq_dec (short id (keys s)) 0) as [E|E]; [rewrite short_skip by done; eauto using stepped_refl|].
  rewrite short_take by done. eexists. split; [reflexivity|]. split.
  - exists (take_short id (keys s)), (set_step (s8 v) (ui s)). split; [done|right; eauto].
  - intros _. split; [by apply take_short_four|]. cbn [keys with_ui with_keys]. rewrite short_take_short by apply Hid.
    destruct (Z.eqb_spec KEY_SET id); [by subst|done].
Qed.
Lemma long_stepped id sign s : four_keys (keys s) -> is_key id -> exists s', on_long id (long_step id sign) s = Some s' /\ stepped s s'.
Proof.
  intros Hk Hid. destruct (Z.eq_dec (long id (keys s)) 0) as [E|E]; [rewrite long_skip by done; eauto using stepped_refl|].
  rewrite long_take by done. unfold long_step. cbn [keys with_keys].
  destruct (proj2 (ld_is_Some (KEY_TABLES (take_long id (keys s))) id)) as [x ->]; [pose proof (take_long_four id _ Hk) as ->; apply Hid|].
  cbn [mbind option_bind]. eexists. split; [reflexivity|]. split.
  - eexists (take_long id (keys s)), _. split; [reflexivity|right; eauto].
  - intros _. split; [by apply take_long_four|]. cbn [keys with_ui with_keys]. apply short_take_long, Hid.
Qed.
(** UP and DOWN, in both lengths. *)
Definition steps_part (s : menu) : option menu :=
  s ← on_short KEY_UP (edit_step 1) s; s ← on_long KEY_UP (long_step KEY_UP 1) s;
  s ← on_short KEY_DOWN (edit_step (-1)) s; on_long KEY_DOWN (long_step KEY_DOWN (-1)) s.
Lemma steps_part_ok s : four_keys (keys s) -> exists s', steps_part s = Some s' /\ stepped s s'.
Proof.
  intros H0. unfold steps_part.
  destruct (short_step KEY_UP 1 s H0) as (s1 & -> & S1); [done|done|]. cbn [mbind option_bind]. destruct (proj2 S1 H0) as [H1 _].
  destruct (long_stepped KEY_UP 1 s1 H1) as (s2 & -> & S2); [done|]. cbn [mbind option_bind]. destruct (proj2 S2 H1) as [H2 _].
  destruct (short_step KEY_DOWN (-1) s2 H2) as (s3 & -> & S3); [done|done|]. cbn [mbind option_bind]. destruct (proj2 S3 H2) as [H3 _].
  destruct (long_stepped KEY_DOWN (-1) s3 H3) as (s4 & -> & S4); [done|]. exists s4. split; [done|].
  eauto using stepped_trans.
Qed.
Lemma edit_part_steps s : edit_part s = (s ← on_short KEY_RIGHT edit_right s; s ← steps_part s; on_short KEY_SET edit_set s).
Proof.
  unfold edit_part, steps_part. destruct (on_short KEY_RIGHT edit_right s) as [s1|]; cbn [mbind option_bind]; [|done].
  destruct (on_short KEY_UP _ s1) as [s2|]; cbn [mbind option_bind]; [|done]. destruct (on_long KEY_UP _ s2) as [s3|]; cbn [mbind option_bind]; [|done].
  by destruct (on_short KEY_DOWN _ s3).
Qed.

(** ** Pages *)

Record data_ok (s : menu) : Prop := mk_data_ok {
  do_shown : length (ip_cfg_disvalue (ui s)) = 4%nat; do_bytes : bytes (ip_cfg_disvalue (ui s)); do_count : length (IPconfig_value s) = 3%nat;
  do_parts : Forall (fun l => length l = 4%nat) (IPconfig_value s); do_mem : wf_mem (sys s); do_world : menu_good (world s) }.
(** A result whose memory is well formed. *)
Definition good_result (r : option (mem * W)) : Prop := exists m w, r = Some (m, w) /\ wf_mem m /\ menu_good w.

Lemma write_save_ok q v g m w : p_obj q = SYS_PARA -> (p_off q + sizeof (p_type q) <= CRC_OFF)%nat -> (g < PARA_TYPE_CNT)%nat ->
  wf_mem m -> menu_good w -> good_result (write_save q v g m w).
Proof. intros Hq Hin Hg Hm Hw. by apply ms_save_ok; [|apply wr_wf|]. Qed.
Lemma three_cases v : of_three v = true -> v = 0 \/ v = 1 \/ v = 2.
Proof. unfold of_three. lia. Qed.
Lemma place_in q : (p_off q + sizeof (p_type q) <=? CRC_OFF)%nat = true -> (p_off q + sizeof (p_type q) <= CRC_OFF)%nat.
Proof. apply Nat.leb_le. Qed.
Lemma group_in g : (g <? PARA_TYPE_CNT)%nat = true -> (g < PARA_TYPE_CNT)%nat.
Proof. apply Nat.ltb_lt. Qed.
Ltac save_here := apply write_save_ok; [vm_compute; reflexivity|apply place_in; vm_compute; reflexivity|apply group_in; vm_compute; reflexivity|assumption..].

Lemma baud_commit_ok v m w : wf_mem m -> menu_good w -> good_result (baud_commit v m w).
Proof.
  intros Hm Hw. unfold baud_commit.
  assert (Hb : forall x m, wf_mem m -> wf_mem (wr x baudrate_at m)) by (intros; apply wr_wf; [done|vm_compute; reflexivity|apply place_in; vm_compute; reflexivity]).
  set (m1 := if negb _ then _ else _).
  assert (H1 : wf_mem m1) by (unfold m1; destruct (negb _); auto).
  destruct (ms_save_ok PARA_PORT m1 w) as (m2 & w2 & E & Hm2 & Hw2); [apply group_in; reflexivity|done|done|].
  rewrite E. cbn [mbind option_bind fst snd]. by apply ms_pc_init_ok.
Qed.
Lemma number_commit_ok p np v m w : number p = Some np -> np_shown np v = true -> wf_mem m -> menu_good w -> good_result (np_commit np v m w).
Proof.
  intros Hp Hv Hm Hw. destruct p; cbn [number] in Hp; simplify_eq; cbn [np_commit np_shown] in *.
  all: try (save_here).
  - unfold temp_mode_commit. destruct (_ || _); [save_here|by exists m, w].
  - unfold unit_commit. apply three_cases in Hv as [-> | [-> | ->]]; cbn [ld]; save_here.
  - by apply ms_restore_ok.
  - by apply baud_commit_ok.
  - unfold ana_mode_commit. apply three_cases in Hv as [-> | [-> | ->]]; cbn [ld]; save_here.
Qed.

Lemma scan_list_length n : forall s, (length (scan_list n s) <= n)%nat.
Proof.
  induction n as [|n IH]; intros s; cbn [scan_list]; [done|]. destruct (TcpServer.scan_u3 s) as [[v r]|]; [|cbn; lia]. cbn [length].
  destruct n as [|n]; [cbn; lia|]. destruct (TcpServer.scan_dot r) as [r'|]; [|cbn; lia]. specialize (IH r'). lia.
Qed.
Lemma print_03u_bytes v : is_byte v -> bytes (print_03u v).
Proof.
  unfold is_byte. intros H. pose proof (Z.mod_pos_bound (v / 10) 10). pose proof (Z.mod_pos_bound v 10). unfold print_03u.
  rewrite !Forall_cons, Forall_nil. unfold is_byte. Z.div_mod_to_equations. lia.
Qed.
Lemma print_ip_four l : length l = 4%nat -> bytes l -> length (print_ip l) = 15%nat /\ bytes (print_ip l).
Proof.
  intros Hl Hb. do 4 (destruct l as [|? l]; [done|]). destruct l; [|done]. split; [done|]. unfold print_ip. cbn [imap concat Nat.eqb].
  rewrite !Forall_cons in Hb. destruct Hb as (H0 & H1 & H2 & H3 & _).
  assert (Hdot : bytes [46]) by (repeat constructor; done).
  repeat (apply Forall_app; split); try exact Hdot; try (by apply print_03u_bytes); by constructor.
Qed.
Lemma ip_commit_ok q l m w : p_obj q = SYS_PARA -> (p_off q + 16 <= CRC_OFF)%nat -> length l = 4%nat -> bytes l -> wf_mem m -> menu_good w ->
  good_result (ip_commit q l m w).
Proof.
  intros Hq Hin Hl Hb Hm Hw. destruct (print_ip_four l Hl Hb) as [Hp Hpb]. unfold ip_commit, store. rewrite length_app, Hp, Hq. cbn [length image_of].
  assert (Hlen : length (m_para m) = PARA_SIZE) by exact (proj1 Hm). unfold CRC_OFF in Hin. rewrite Hlen. unfold PARA_SIZE.
  rewrite (proj2 (Nat.leb_le _ _)) by lia. cbn [mbind option_bind]. apply ms_save_ok; [apply group_in; reflexivity| |done].
  destruct (wf_put (p_off q) (print_ip l ++ [0]) (m_para m)) as [H1 H2].
  - by apply para_wf.
  - apply Forall_app. split; [done|]. by repeat constructor.
  - rewrite length_app, Hp. unfold PARA_SIZE. cbn [length]. lia.
  - destruct Hm as (_ & H3 & _ & H4). split; [exact H1|]. split; [exact H3|]. split; [exact H2|exact H4].
Qed.

(** ** What a page leaves alone *)

Definition same_nav (s s' : menu) : Prop :=
  guide s' = guide s /\ is_menu s' = is_menu s /\ current_menu s' = current_menu s /\ main_page_id (ui s') = main_page_id (ui s) /\
  sub_page_id (ui s') = sub_page_id (ui s) /\ current_para_index (ui s') = current_para_index (ui s) /\
  current_para_num (ui s') = current_para_num (ui s) /\ is_blinking (ui s') = is_blinking (ui s) /\ para_index s' = para_index s /\ keys s' = keys s.
(** The parameters and what belongs to them are untouched. *)
Definition kept (s s' : menu) : Prop := sys s' = sys s /\ world s' = world s.
Definition page_shown (p : page) (v : Z) : Prop := forall np, number (W := W) p = Some np -> np_shown np v = true.
Definition drawn_only (p : page) : bool := match p with oled_show_menu_p | oled_show_info_p => true | _ => false end.
Definition is_address (p : page) : bool := match p with do_local_ip_p | do_eth_gw_p | do_eth_nm_p => true | _ => false end.

Lemma data_with_ui u s : data_ok s -> ip_cfg_disvalue u = ip_cfg_disvalue (ui s) -> data_ok (with_ui u s).
Proof. intros [] Hu. by constructor; cbn; rewrite ?Hu. Qed.
Lemma data_with_sys m w s : data_ok s -> wf_mem m -> menu_good w -> data_ok (with_sys (m, w) s).
Proof. by intros [] Hm Hw. Qed.
(** What all parts of a page do; [shown] holds of the value on the display. *)
Definition page_part (shown : Z -> Prop) (s s' : menu) : Prop := same_nav s s' /\ data_ok s' /\ shown (dis_value (ui s')).
Lemma same_nav_refl s : same_nav s s.
Proof. by repeat split. Qed.
Lemma same_nav_trans s1 s2 s3 : same_nav s1 s2 -> same_nav s2 s3 -> same_nav s1 s3.
Proof. unfold same_nav. intuition congruence. Qed.

Lemma number_run p np s : number p = Some np -> data_ok s -> (is_blinking (ui s) = true -> page_shown p (dis_value (ui s))) ->
  exists s', run_page p s = Some s' /\ page_part (page_shown p) s s' /\
    set_states (ui s') = false /\ cfg_states (ui s') = false /\ (cfg_states (ui s) = false -> kept s s').
Proof.
  intros Hp Hd Hb. assert (Hshown : forall v, np_shown np v = true -> page_shown p v) by (intros v Hv np' E; rewrite Hp in E; by injection E as <-).
  assert (Hrun : is_blinking (ui s) = false \/ np_shown np (dis_value (ui s)) = true).
  { destruct (is_blinking (ui s)); [right; by apply Hb|by left]. }
  rewrite (run_number _ _ _ Hp Hrun). unfold edit_value. set (s1 := load_value _ s).
  assert (H1 : page_part (fun v => np_shown np v = true) s s1 /\ cfg_states (ui s1) = cfg_states (ui s) /\ kept s s1).
  { unfold s1, load_value. destruct (is_blinking (ui s)) eqn:E.
    - destruct Hrun as [? | Hrun]; [done|]. split; [|done]. split; [apply same_nav_refl|by split].
    - split; [|done]. split; [split_and!; reflexivity|]. split; [by apply data_with_ui|by apply (shown_load p)]. }
  clearbody s1. destruct H1 as ((N1 & D1 & V1) & C1 & K1). set (s2 := adjust_value _ s1).
  assert (H2 : page_part (fun v => np_shown np v = true) s s2 /\ set_states (ui s2) = false /\ cfg_states (ui s2) = cfg_states (ui s) /\ kept s s2).
  { unfold s2, adjust_value. destruct (set_states (ui s1)) eqn:E; [|by split].
    split; [|done]. split; [exact N1|]. split; [by apply data_with_ui|by apply (shown_adjust p)]. }
  clearbody s2. clear N1 D1 V1 C1 K1 s1. destruct H2 as ((N2 & D2 & V2) & S2 & C2 & K2). unfold commit_value. rewrite C2. destruct (cfg_states (ui s)) eqn:E.
  - destruct (number_commit_ok p np (dis_value (ui s2)) (sys s2) (world s2) Hp V2) as (m & w & Er & Hm & Hw); [apply D2|apply D2|].
    cbn [ui with_ui set_cfg dis_value sys world]. rewrite Er. cbn [mbind option_bind]. eexists. split; [reflexivity|]. split; [|done].
    split; [exact N2|]. split; [by apply data_with_sys; [apply data_with_ui|..]|by apply Hshown].
  - exists s2. split; [reflexivity|]. split; [|done]. split; [exact N2|]. split; [done|by apply Hshown].
Qed.

(** An address page between its parts: what is drawn are bytes. *)
Definition ip_part (s s' : menu) : Prop := same_nav s s' /\ data_ok s' /\ bytes (ip_cfg_disvalue (ui s')) /\ cfg_states (ui s') = cfg_states (ui s) /\ kept s s'.
Lemma data_with_ips l u s : data_ok s -> length l = 3%nat -> Forall (fun l => length l = 4%nat) l -> length (ip_cfg_disvalue u) = 4%nat ->
  bytes (ip_cfg_disvalue u) -> data_ok (with_ui u (with_ips l s)).
Proof. by intros [] ? ? ? ?. Qed.
Lemma load_ip_ok which q s : (which < 3)%nat -> data_ok s -> exists s', load_ip which q s = Some s' /\ ip_part s s' /\ set_states (ui s') = set_states (ui s).
Proof.
  intros Hw Hd. destruct (lookup_lt_is_Some_2 (IPconfig_value s) which) as [v Ev]; [by rewrite (do_count s Hd)|].
  assert (Hv : length v = 4%nat) by exact (proj1 (Forall_lookup _ _) (do_parts s Hd) _ _ Ev).
  unfold load_ip. rewrite Ev. cbn [mbind option_bind]. set (v' := if is_blinking (ui s) then v else _).
  assert (Hv' : length v' = 4%nat).
  { unfold v'. destruct (is_blinking (ui s)); [done|]. rewrite length_map, length_app, length_drop, Hv.
    pose proof (scan_list_length 4 (from q (sys s))). lia. }
  clearbody v'. assert (Hb : bytes (map u8 v')) by (rewrite Forall_map; apply Forall_forall; intros x _; apply u8_range).
  eexists. split; [reflexivity|]. split; [|done]. split; [split_and!; reflexivity|]. split.
  - apply data_with_ips; [done|by rewrite length_insert, (do_count s Hd)|apply Forall_insert; [apply Hd|done]|by cbn; rewrite length_map|exact Hb].
  - by split.
Qed.
Lemma adjust_ip_ok which s s1 : (which < 3)%nat -> ip_part s s1 -> (set_states (ui s1) = true -> 0 <= current_para_index (ui s1) < 4) ->
  exists s', adjust_ip which s1 = Some s' /\ ip_part s s'.
Proof.
  intros Hw (N & D & B & C & K) Hi. unfold adjust_ip. destruct (set_states (ui s1)) eqn:E; [|by exists s1]. specialize (Hi eq_refl).
  destruct (proj2 (ld_is_Some (ip_cfg_disvalue (ui s1)) (current_para_index (ui s1)))) as [x ->]; [by rewrite (do_shown s1 D)|].
  cbn [mbind option_bind]. rewrite st_Some by (by rewrite (do_shown s1 D)). cbn [mbind option_bind].
  destruct (lookup_lt_is_Some_2 (IPconfig_value s1) which) as [v Ev]; [by rewrite (do_count s1 D)|].
  assert (Hv : length v = 4%nat) by exact (proj1 (Forall_lookup _ _) (do_parts s1 D) _ _ Ev). rewrite Ev. cbn [mbind option_bind].
  rewrite st_Some by (by rewrite Hv). cbn [mbind option_bind]. eexists. split; [reflexivity|]. split; [exact N|]. split.
  - apply data_with_ips; [done|by rewrite length_insert, (do_count s1 D)| |by cbn; rewrite length_insert, (do_shown s1 D)|by apply Forall_insert; [exact B|apply u8_range]].
    apply Forall_insert; [apply D|by rewrite length_insert].
  - split; [|by split]. cbn. apply Forall_insert; [exact B|apply u8_range].
Qed.
Lemma edit_ip_ok which q s : (which < 3)%nat -> p_obj q = SYS_PARA -> (p_off q + 16 <= CRC_OFF)%nat -> data_ok s ->
  (set_states (ui s) = true -> 0 <= current_para_index (ui s) < 4) ->
  exists s', edit_ip which q s = Some s' /\ same_nav s s' /\ data_ok s' /\
    set_states (ui s') = false /\ cfg_states (ui s') = false /\ (cfg_states (ui s) = false -> kept s s').
Proof.
  intros Hw Hq Hin Hd Hi. unfold edit_ip. destruct (load_ip_ok which q s Hw Hd) as (s1 & -> & P1 & S1). cbn [mbind option_bind].
  destruct (adjust_ip_ok which s s1 Hw P1) as (s2 & -> & P2); [|clear P1 S1; cbn [mbind option_bind]].
  { destruct P1 as ((_ & _ & _ & _ & _ & -> & _) & _). by rewrite S1. }
  destruct P2 as (N2 & D2 & B2 & C2 & K2). unfold commit_ip. rewrite C2. destruct (cfg_states (ui s)) eqn:E.
  - destruct (ip_commit_ok q (ip_cfg_disvalue (ui s2)) (sys s2) (world s2) Hq Hin (do_shown s2 D2) B2) as (m & w & -> & Hm & Hww); [apply D2|apply D2|].
    cbn [mbind option_bind]. eexists. split; [reflexivity|]. split; [exact N2|]. split; [|done].
    apply data_with_ui; [|done]. by apply data_with_sys; [apply data_with_ui|..].
  - cbn [mbind option_bind]. eexists. split; [reflexivity|]. split; [exact N2|]. split; [|done]. by apply data_with_ui.
Qed.

(** Every page runs. *)
Lemma run_page_ok p s : data_ok s -> (is_blinking (ui s) = true -> page_shown p (dis_value (ui s))) ->
  (set_states (ui s) = true -> is_address p = true -> 0 <= current_para_index (ui s) < 4) ->
  exists s', run_page p s = Some s' /\ page_part (page_shown p) s s' /\ (cfg_states (ui s) = false -> kept s s') /\
    if drawn_only p then s' = s else set_states (ui s') = false /\ cfg_states (ui s') = false.
Proof.
  intros Hd Hb Hi. destruct (number (W := W) p) as [np|] eqn:Hp.
  - destruct (number_run p np s Hp Hd Hb) as (s' & E & P & S' & C' & K). exists s'. split; [exact E|]. split; [exact P|]. split; [exact K|].
    by destruct p.
  - assert (Hno : forall v, page_shown p v) by (intros v np E; by rewrite Hp in E).
    destruct (drawn_only p) eqn:Hdr.
    + exists s. split; [by destruct p|]. split; [split; [apply same_nav_refl|by split]|]. by split.
    + assert (Hip : exists which q, (which < 3)%nat /\ p_obj q = SYS_PARA /\ (p_off q + 16 <= CRC_OFF)%nat /\ is_address p = true /\ run_page p s = edit_ip which q s).
      { destruct p; try discriminate; [exists 0%nat, ip_addr_at|exists 1%nat, gateway_at|exists 2%nat, net_mask_at];
          (split; [lia|]; split; [reflexivity|]; split; [apply Nat.leb_le; vm_compute; reflexivity|by split]). }
      destruct Hip as (which & q & Hw & Hq & Hin & Ha & ->). destruct (edit_ip_ok which q s Hw Hq Hin Hd) as (s' & E & N & D & S' & C' & K); [by auto|].
      exists s'. split; [exact E|]. split; [by split|]. by split.
Qed.

(** ** The menu between two passes *)

(** Item [b] of menu [a] is one of those the table lists. *)
Definition real_page (a b : Z) : Prop := exists it p, item_at a b = Some it /\ subs it = Some p.
Record nav_ok (s : menu) : Prop := mk_nav_ok {
  no_main : main_page_id (ui s) = current_menu s; no_item : real_page (current_menu s) (sub_page_id (ui s));
  no_top : is_menu s = true -> guide s = true; no_blink : is_blinking (ui s) = negb (guide s); no_cfg : cfg_states (ui s) = false;
  no_index : map length (para_index s) = map length m0_root; no_keys : four_keys (keys s); no_data : data_ok s }.
(** The number being edited is one of its page. *)
Definition in_edit (s : menu) : Prop :=
  exists it p, item s = Some it /\ subs it = Some p /\ 0 <= current_para_index (ui s) < para_num it /\ item_index s = Some (current_para_index (ui s)) /\
    page_shown p (dis_value (ui s)).
Definition menu_ok (s : menu) : Prop := nav_ok s /\ (guide s = false -> set_states (ui s) = false /\ in_edit s).
(** After the keys, before the page is drawn. *)
Definition mid_ok (s : menu) : Prop :=
  nav_ok s /\ (guide s = false -> in_edit s) /\ (set_states (ui s) = true -> 0 <= current_para_index (ui s) < 4).

(** Facts of the tables, checked by evaluation. *)
Lemma of_table (f : list menu_item_t -> menu_item_t -> bool) a b l it :
  forallb (fun l => forallb (f l) l) m0_root = true -> ld m0_root a = Some l -> ld l b = Some it -> f l it = true.
Proof.
  intros Hall [_ El]%ld_Some_iff [_ Eb]%ld_Some_iff. rewrite forallb_forall in Hall.
  specialize (Hall l (proj1 (list_elem_of_In _ _) (list_elem_of_lookup_2 _ _ _ El))). rewrite forallb_forall in Hall.
  exact (Hall it (proj1 (list_elem_of_In _ _) (list_elem_of_lookup_2 _ _ _ Eb))).
Qed.
Definition kind_ok (it : menu_item_t) (p : page) : bool :=
  if drawn_only p then para_num it =? 0 else para_num it =? (if is_address p then 4 else 1).
Lemma item_kind a b it p : item_at a b = Some it -> subs it = Some p -> kind_ok it p = true /\ (0 < para_num it -> a <> 0).
Proof.
  unfold item_at. intros (l & El & Eb)%bind_Some Hp. split.
  - pose proof (of_table (fun _ it => match subs it with Some p => kind_ok it p | None => true end) a b l it eq_refl El Eb) as H.
    cbn beta in H. by rewrite Hp in H.
  - intros Hn ->. injection El as <-. apply ld_Some_iff in Eb as [_ Eb]. apply list_elem_of_lookup_2, list_elem_of_In in Eb.
    assert (H0 : forallb (fun it => para_num it =? 0) (table m1_infomation) = true) by reflexivity. rewrite forallb_forall in H0. specialize (H0 it Eb). lia.
Qed.
(** [menu_count] of the first item counts the items the table lists. *)
Definition count_in (l : list menu_item_t) : Z := match ld l 0 with Some f => menu_count f | None => 0 end.
Lemma count_real a b l it : ld m0_root a = Some l -> ld l b = Some it -> (exists p, subs it = Some p) <-> b < count_in l.
Proof.
  intros El Eb. apply ld_Some_iff in Eb as [Hb Eb].
  assert (Hl : forallb (fun l => forallb (fun i => Bool.eqb (match l !! i with Some it => match subs it with Some _ => true | None => false end | None => false end)
    (Z.of_nat i <? count_in l)) (seq 0 20) && (length l =? 20)%nat) m0_root = true) by reflexivity.
  rewrite forallb_forall in Hl. apply ld_Some_iff in El as [_ El]. specialize (Hl l (proj1 (list_elem_of_In _ _) (list_elem_of_lookup_2 _ _ _ El))).
  apply andb_true_iff in Hl as [Hl Hlen]. apply Nat.eqb_eq in Hlen. pose proof (lookup_lt_Some _ _ _ Eb) as Hlt. rewrite Hlen in Hlt.
  assert (Hin : In (Z.to_nat b) (seq 0 20)) by (apply in_seq; lia).
  rewrite forallb_forall in Hl. specialize (Hl _ Hin). rewrite Eb, Z2Nat.id in Hl by done. apply Bool.eqb_prop in Hl.
  rewrite <-Z.ltb_lt, <-Hl. destruct (subs it); split; [done|by eexists|by intros [? ?]|done].
Qed.
Lemma count_range a l : ld m0_root a = Some l -> 1 <= count_in l <= 9 /\ zlen l = 20.
Proof.
  intros El. assert (Hl : forallb (fun l => (1 <=? count_in l) && (count_in l <=? 9) && (zlen l =? 20)) m0_root = true) by reflexivity.
  rewrite forallb_forall in Hl. apply ld_Some_iff in El as [_ El]. specialize (Hl l (proj1 (list_elem_of_In _ _) (list_elem_of_lookup_2 _ _ _ El))). cbn beta in Hl. lia.
Qed.
Lemma first_item a : 0 <= a < 5 -> real_page a 0.
Proof. intros Ha. assert (a = 0 \/ a = 1 \/ a = 2 \/ a = 3 \/ a = 4) as [-> | [-> | [-> | [-> | ->]]]] by lia; by do 2 eexists. Qed.
Lemma menu_range s : nav_ok s -> 0 <= current_menu s < 5.
Proof. intros [_ (it & p & Hi & _) _ _ _ _ _ _]. by destruct (item_at_facts _ _ _ Hi). Qed.
Lemma item_of s : nav_ok s -> exists it p, item s = Some it /\ subs it = Some p.
Proof. intros []. exact no_item0. Qed.
Lemma index_of s : nav_ok s -> is_Some (item_index s).
Proof.
  intros Hn. destruct (no_item s Hn) as (it & p & Hi & _). unfold item_at in Hi. apply bind_Some in Hi as (l & El & Eb).
  pose proof (no_index s Hn) as Hx. apply ld_Some_iff in El as [Ha El]. unfold item_index.
  destruct (para_index s !! Z.to_nat (current_menu s)) as [r|] eqn:Er.
  - rewrite (proj2 (ld_Some_iff (para_index s) (current_menu s) r)) by done. cbn [mbind option_bind].
    apply ld_is_Some. pose proof (proj1 (ld_is_Some _ _) (mk_is_Some _ _ Eb)) as Hb.
    apply (f_equal (fun t => t !! Z.to_nat (current_menu s))) in Hx. rewrite !list_lookup_fmap, El, Er in Hx. injection Hx as ->. exact Hb.
  - apply (f_equal (fun t => t !! Z.to_nat (current_menu s))) in Hx. by rewrite !list_lookup_fmap, El, Er in Hx.
Qed.
Lemma set_index_shape v (s s' : menu) : set_item_index v s = Some s' -> map length (para_index s') = map length (para_index s).
Proof.
  unfold set_item_index. intros (l & El & (l' & El' & (t & Et & [= <-])%bind_Some)%bind_Some)%bind_Some. cbn [para_index with_index].
  pose proof (st_length _ _ _ _ El') as Hl. unfold st in Et. case_match; [|done]. injection Et as <-.
  rewrite list_fmap_insert, Hl. apply list_insert_id. apply ld_Some_iff in El as [_ El]. by rewrite list_lookup_fmap, El.
Qed.

Lemma nav_keys k s : nav_ok s -> four_keys k -> nav_ok (with_keys k s).
Proof. intros [] Hk. constructor; try assumption. by destruct no_data0. Qed.
Lemma nav_mode g i bl s : nav_ok s -> (i = true -> g = true) -> bl = negb g -> nav_ok (with_ui (set_blink bl (ui s)) (with_mode g i s)).
Proof. intros [] Hi Hb. constructor; try assumption. by destruct no_data0. Qed.
Lemma nav_top i s : nav_ok s -> (i = true -> guide s = true) -> nav_ok (with_mode (guide s) i s).
Proof. intros [] Hi. constructor; try assumption. by destruct no_data0. Qed.
Lemma nav_page b s : nav_ok s -> real_page (current_menu s) b -> nav_ok (with_ui (set_page (main_page_id (ui s)) b (ui s)) s).
Proof. intros [] Hb. constructor; try assumption. by destruct no_data0. Qed.
Lemma nav_goto a s : nav_ok s -> 0 <= a < 5 -> nav_ok (goto a s).
Proof. intros [] Ha. constructor; try assumption; [reflexivity|by apply first_item|by destruct no_data0]. Qed.
Lemma nav_para i n s : nav_ok s -> nav_ok (with_ui (set_para i n (ui s)) s).
Proof. intros []. constructor; try assumption. by destruct no_data0. Qed.
Lemma nav_index t s : nav_ok s -> map length t = map length (para_index s) -> nav_ok (with_index t s).
Proof. intros [] Ht. constructor; try assumption; [exact (eq_trans Ht no_index0)|by destruct no_data0]. Qed.
(** What follows a page. *)
Lemma nav_after s s' : nav_ok s -> same_nav s s' -> data_ok s' -> cfg_states (ui s') = false -> nav_ok s'.
Proof.
  intros [] (E1 & E2 & E3 & E4 & E5 & _ & _ & E6 & E7 & E8) Hd Hc. constructor; try assumption.
  - by rewrite E4, E3.
  - by rewrite E3, E5.
  - by rewrite E1, E2.
  - by rewrite E6, E1.
  - by rewrite E7.
  - by rewrite E8.
Qed.
Lemma main_range s : nav_ok s -> 0 <= main_page_id (ui s) < 5 /\ same_main s = main_page_id (ui s) /\ 0 <= Z.rem (main_page_id (ui s) + 1) root_count < 5.
Proof.
  intros Hn. pose proof (menu_range s Hn) as H. rewrite <-(no_main s Hn) in H. split; [done|]. unfold same_main, root_count.
  split; [apply Z.rem_small; lia|]. apply Z.rem_bound_pos; lia.
Qed.
Lemma root_some a : 0 <= a < 5 -> is_Some (ld m0_root a).
Proof. intros Ha. apply ld_is_Some. exact Ha. Qed.
(** The top of a menu, when its first page is chosen. *)
Definition leave_top (s : menu) : menu := with_mode (guide s) false (goto (same_main s) s).
Lemma leave_top_ok s : nav_ok s -> nav_ok (leave_top s).
Proof. intros Hn. destruct (main_range s Hn) as (H & E & _). apply (nav_top false (goto (same_main s) s)); [|done]. apply nav_goto; [done|by rewrite E]. Qed.

(** ** The keys in the guide mode *)

(** In the guide mode any change of page is safe. *)
Definition guide_ok (s s' : menu) : Prop :=
  nav_ok s' /\ guide s' = true /\ kept s s' /\ current_para_index (ui s') = current_para_index (ui s) /\ keys s' = keys s.
Lemma guide_mid s s' : guide_ok s s' -> current_para_index (ui s) = 0 -> mid_ok s'.
Proof. intros (Hn & Hg & _ & E & _) E0. split; [done|]. split; [by rewrite Hg|]. intros _. lia. Qed.

Lemma guide_right_ok s : nav_ok s -> guide s = true -> exists s', guide_right s = Some s' /\ guide_ok s s'.
Proof.
  intros Hn Hg. destruct (main_range s Hn) as (_ & _ & Hr). eexists. split; [reflexivity|]. split; [|done].
  apply (nav_mode (guide s) true false (goto _ s)); [by apply nav_goto|done|by rewrite Hg].
Qed.
Definition items_of (s : menu) : Z := match ld m0_root (current_menu s) with Some l => count_in l | None => 0 end.
Lemma item_within s b : nav_ok s -> 0 <= b < items_of s -> real_page (current_menu s) b.
Proof.
  intros Hn Hb. unfold items_of in Hb. destruct (ld m0_root (current_menu s)) as [l|] eqn:El; [|lia]. destruct (count_range _ _ El) as [Hc Hl].
  destruct (proj2 (ld_is_Some l b) ltac:(lia)) as [it Eb]. destruct (proj2 (count_real _ _ _ _ El Eb) (proj2 Hb)) as [p Hp].
  exists it, p. unfold item_at. by rewrite El.
Qed.
Lemma sub_range s : nav_ok s -> 0 <= sub_page_id (ui s) < items_of s.
Proof.
  intros Hn. destruct (no_item s Hn) as (it & p & Hi & Hp). unfold item_at in Hi. apply bind_Some in Hi as (l & El & Eb). unfold items_of. rewrite El.
  split; [exact (proj1 (proj1 (ld_Some_iff _ _ _) Eb))|]. apply (count_real _ _ _ _ El Eb). by exists p.
Qed.
Lemma guide_down_ok count s : nav_ok s -> guide s = true -> 1 <= count <= items_of s -> exists s', guide_down count s = Some s' /\ guide_ok s s'.
Proof.
  intros Hn Hg Hc. pose proof (sub_range s Hn) as Hs. unfold guide_down.
  set (b := if sub_page_id (ui s) <? count - 1 then _ else _). assert (Hb : 0 <= b < items_of s) by (unfold b; destruct (Z.ltb_spec (sub_page_id (ui s)) (count - 1)); lia).
  assert (Hn1 : nav_ok (with_ui (set_page (main_page_id (ui s)) b (ui s)) s)) by (apply nav_page; [done|by apply item_within]).
  destruct (root_some (main_page_id (ui s))) as [l El]; [apply (main_range s Hn)|]. clearbody b. cbn [ui with_ui set_page main_page_id]. rewrite El. cbn [mbind option_bind].
  change (is_menu (with_ui _ s)) with (is_menu s). destruct (is_menu s).
  - eexists. split; [reflexivity|]. split; [by apply leave_top_ok|done].
  - eexists. split; [reflexivity|]. by split.
Qed.
Lemma guide_up_ok count s : nav_ok s -> guide s = true -> 1 <= count <= items_of s -> exists s', guide_up count s = Some s' /\ guide_ok s s'.
Proof.
  intros Hn Hg Hc. pose proof (sub_range s Hn) as Hs. eexists. split; [reflexivity|]. split; [|done]. apply nav_page; [done|]. apply item_within; [done|].
  destruct (Z.ltb_spec 0 (sub_page_id (ui s))); [lia|]. destruct (Z.ltb_spec 0 count); lia.
Qed.

(** A page of a menu that can be edited. *)
Lemma editable it p : kind_ok it p = true -> 0 < para_num it -> drawn_only p = false /\ para_num it <= 4.
Proof. unfold kind_ok. destruct (drawn_only p), (is_address p); lia. Qed.
Lemma start_edit it p s : nav_ok s -> guide s = true -> item s = Some it -> subs it = Some p -> item_index s = Some 0 -> current_para_index (ui s) = 0 -> 0 < para_num it ->
  exists s1, call_subs it (with_mode false (is_menu s) s) = Some s1 /\
    (is_menu s = false -> mid_ok (with_keys (key_init (keys s1)) (with_ui (set_blink true (ui s1)) s1))) /\ kept s s1 /\ main_page_id (ui s1) <> 0.
Proof.
  intros Hn Hg Hi Hs Hx H0 Hp. destruct (item_kind _ _ _ _ Hi Hs) as [Hk Hm]. specialize (Hm Hp). destruct (editable it p Hk Hp) as (Hd & _).
  unfold call_subs. rewrite Hs. cbn [mbind option_bind].
  assert (Hbl : is_blinking (ui s) = false) by (by rewrite (no_blink s Hn), Hg).
  destruct (run_page_ok p (with_mode false (is_menu s) s)) as (s1 & E & (N & D & V) & K & R).
  - by destruct (no_data s Hn).
  - cbn [ui with_mode]. by rewrite Hbl.
  - cbn [ui with_mode]. lia.
  - rewrite Hd in R. destruct R as [S C]. exists s1. split; [exact E|]. specialize (K (no_cfg s Hn)).
    assert (Hmain : main_page_id (ui s1) <> 0) by (destruct N as (_ & _ & _ & -> & _); cbn [ui with_mode]; by rewrite (no_main s Hn)).
    split; [intros Hf|by split]. destruct N as (E1 & E2 & E3 & E4 & E5 & E6 & _ & _ & E8 & E9).
    cbn [guide is_menu current_menu ui para_index keys with_mode] in *. split; [|split].
    + destruct Hn. constructor; cbn [guide is_menu current_menu ui para_index keys with_keys with_ui set_blink main_page_id sub_page_id is_blinking cfg_states].
      * by rewrite E4, E3.
      * by rewrite E3, E5.
      * by rewrite E2, Hf.
      * by rewrite E1.
      * exact C.
      * by rewrite E8.
      * rewrite E9. by apply key_init_four.
      * by destruct D.
    + intros _. exists it, p. split; [|split; [exact Hs|split; [|split]]].
      * unfold item, son_ms in *. cbn [current_menu ui sub_page_id with_keys with_ui set_blink]. by rewrite E3, E5.
      * cbn [current_para_index ui with_keys with_ui set_blink]. rewrite E6. lia.
      * unfold item_index in *. cbn [current_menu para_index ui sub_page_id current_para_index with_keys with_ui set_blink]. by rewrite E3, E5, E6, E8, H0.
      * exact V.
    + cbn [ui with_keys with_ui set_blink set_states]. by rewrite S.
Qed.
Lemma guide_set_ok it p s : nav_ok s -> guide s = true -> item s = Some it -> subs it = Some p -> item_index s = Some 0 -> current_para_index (ui s) = 0 ->
  current_para_num (ui s) = para_num it -> exists s', guide_set s = Some s' /\ mid_ok s' /\ kept s s'.
Proof.
  intros Hn Hg Hi Hs Hx H0 Hp. unfold guide_set.
  assert (Hkeys : forall r, guide_ok s r -> mid_ok (with_keys (key_init (keys r)) r) /\ kept s (with_keys (key_init (keys r)) r)).
  { intros r (Hr & Hgr & Hk & Hc & _). split; [|exact Hk]. split; [apply nav_keys; [done|apply key_init_four, Hr]|]. split; [cbn [guide with_keys]; by rewrite Hgr|].
    intros _. cbn [ui with_keys]. lia. }
  destruct (is_menu s) eqn:Ht.
  - destruct (main_range s Hn) as (Hm & E & _). rewrite E. destruct (root_some _ Hm) as [l ->]. cbn [mbind option_bind]. eexists. split; [reflexivity|].
    apply (Hkeys (with_mode (guide (goto _ s)) false (goto _ s))). split; [|done]. rewrite <-E. apply (leave_top_ok s Hn).
  - assert (Hsame : exists s', Some (with_keys (key_init (keys s)) s) = Some s' /\ mid_ok s' /\ kept s s') by (eexists; split; [reflexivity|by apply Hkeys]).
    destruct (negb _); [exact Hsame|]. rewrite Hp. destruct (Z.ltb_spec 0 (para_num it)) as [Hlt|]; [|exact Hsame].
    rewrite Hi. cbn [mbind option_bind]. destruct (start_edit it p s Hn Hg Hi Hs Hx H0 Hlt) as (s1 & E & Hmid & K & Hmain). rewrite Ht in *. rewrite E.
    cbn [mbind option_bind]. rewrite (proj2 (Z.eqb_neq _ _) Hmain). eexists. split; [reflexivity|]. split; [by apply Hmid|exact K].
Qed.
Lemma all_taken id j k : (forall i j, i <> j -> short i k = 0 \/ short j k = 0) -> 0 <= id -> short id k <> 0 -> short j (take_short id k) = 0.
Proof. intros H Hid Hs. rewrite short_take_short by done. destruct (Z.eqb_spec j id); [done|]. destruct (H j id); done. Qed.
(** A press that is read; the others find no flag. *)
Lemma guide_keys_ok s down up right set :
  four_keys (keys s) -> (forall i j, i <> j -> short i (keys s) = 0 \/ short j (keys s) = 0) -> current_para_index (ui s) = 0 -> mid_ok s ->
  (forall k f, four_keys k -> (f = down \/ f = up \/ f = right) -> exists s', f (with_keys k s) = Some s' /\ guide_ok (with_keys k s) s') ->
  (forall k, four_keys k -> exists s', set (with_keys k s) = Some s' /\ mid_ok s' /\ kept s s') ->
  exists s', (s ← on_short KEY_RIGHT right s; s ← on_short KEY_DOWN down s; s ← on_short KEY_UP up s; on_short KEY_SET set s) = Some s' /\
    mid_ok s' /\ kept s s'.
Proof.
  intros Hk H1 H0 Hm Hf Hset.
  assert (Hpress : forall id f, is_key id -> short id (keys s) <> 0 -> (f = down \/ f = up \/ f = right) ->
    exists s', on_short id f s = Some s' /\ mid_ok s' /\ kept s s' /\ four_keys (keys s') /\ forall j, short j (keys s') = 0).
  { intros id f Hid Hs Hff. rewrite short_take by done. destruct (Hf (take_short id (keys s)) f) as (s' & E & G); [by apply take_short_four|done|].
    exists s'. split; [exact E|]. split; [by apply (guide_mid _ _ G)|]. destruct G as (_ & _ & K & _ & Ek). split; [exact K|]. rewrite Ek.
    split; [by apply take_short_four|]. intros j. apply all_taken; [done|apply Hid|done]. }
  destruct (Z.eq_dec (short KEY_RIGHT (keys s)) 0) as [ER|ER].
  - rewrite short_skip by done. cbn [mbind option_bind]. destruct (Z.eq_dec (short KEY_DOWN (keys s)) 0) as [ED|ED].
    + rewrite short_skip by done. cbn [mbind option_bind]. destruct (Z.eq_dec (short KEY_UP (keys s)) 0) as [EU|EU].
      * rewrite short_skip by done. cbn [mbind option_bind]. destruct (Z.eq_dec (short KEY_SET (keys s)) 0) as [ES|ES].
        -- rewrite short_skip by done. by exists s.
        -- rewrite short_take by done. apply Hset. by apply take_short_four.
      * destruct (Hpress KEY_UP up ltac:(done) EU ltac:(auto)) as (s' & -> & M & K & F & Z0). cbn [mbind option_bind]. rewrite short_skip by done. by exists s'.
    + destruct (Hpress KEY_DOWN down ltac:(done) ED ltac:(auto)) as (s' & -> & M & K & F & Z0). cbn [mbind option_bind]. rewrite short_skip by done. cbn [mbind option_bind].
      rewrite short_skip by done. by exists s'.
  - destruct (Hpress KEY_RIGHT right ltac:(done) ER ltac:(auto)) as (s' & -> & M & K & F & Z0). cbn [mbind option_bind]. rewrite short_skip by done. cbn [mbind option_bind].
    rewrite short_skip by done. cbn [mbind option_bind]. rewrite short_skip by done. by exists s'.
Qed.
Lemma guide_part_ok count s : nav_ok s -> guide s = true -> one_key (keys s) -> 1 <= count <= items_of s ->
  exists s', guide_part count s = Some s' /\ mid_ok s' /\ kept s s'.
Proof.
  intros Hn Hg [H1 _] Hc. unfold guide_part. destruct (item_of s Hn) as (it & p & Hi & Hp). rewrite Hi. cbn [mbind option_bind].
  destruct (index_of s Hn) as [i Hx]. set (s0 := with_ui _ s). destruct (set_index_ok 0 i s0 Hx) as (t & Et & Ht). rewrite Et. cbn [mbind option_bind].
  assert (Hn1 : nav_ok (with_index t s0)) by (apply nav_index; [by apply nav_para|exact (set_index_shape _ _ _ Et)]).
  apply (guide_keys_ok (with_index t s0)); try done.
  - exact (no_keys s Hn).
  - split; [done|]. split; [|done]. change (guide (with_index t s0)) with (guide s). by rewrite Hg.
  - intros k f Hk. pose proof (nav_keys k _ Hn1 Hk) as Hnk. intros [-> | [-> | ->]]; [by apply guide_down_ok|by apply guide_up_ok|by apply guide_right_ok].
  - intros k Hk. pose proof (nav_keys k _ Hn1 Hk) as Hnk. by apply (guide_set_ok it p (with_keys k (with_index t s0))).
Qed.

(** ** The keys in the edit mode *)

Lemma stepped_same s s' : stepped s s' -> guide s' = guide s /\ is_menu s' = is_menu s /\ kept s s' /\ current_para_index (ui s') = current_para_index (ui s) /\
  item s' = item s /\ item_index s' = item_index s /\ dis_value (ui s') = dis_value (ui s).
Proof. intros [(k & u & -> & [-> | [v ->]]) _]; by split_and!. Qed.
Lemma nav_stepped s s' : nav_ok s -> stepped s s' -> nav_ok s'.
Proof.
  intros Hn [(k & u & -> & Hu) Hk]. destruct (Hk (no_keys s Hn)) as [H4 _]. destruct Hn. apply (nav_keys k (with_ui u s)); [|done].
  destruct Hu as [-> | [v ->]]; constructor; try assumption; by destruct no_data0.
Qed.
Lemma edit_stepped s s' : in_edit s -> stepped s s' -> in_edit s'.
Proof.
  intros (it & p & Hi & Hq & Hp & Hx & Hv) Hs. destruct (stepped_same s s' Hs) as (_ & _ & _ & E & Ei & Ex & Ed). exists it, p. rewrite E, Ei, Ex, Ed. by split.
Qed.
Lemma in_edit_index s it p : nav_ok s -> item s = Some it -> subs it = Some p -> 0 <= current_para_index (ui s) < para_num it -> 0 <= current_para_index (ui s) < 4.
Proof. intros Hn Hi Hs Hp. destruct (item_kind _ _ _ _ Hi Hs) as [Hk _]. destruct (editable it p Hk) as (_ & H4); lia. Qed.

(** SET writes the number, or one part of an address, and goes on to the next part
    or leaves. *)
Lemma edit_set_ok s : nav_ok s -> guide s = false -> set_states (ui s) = false -> in_edit s -> exists s', edit_set s = Some s' /\ mid_ok s'.
Proof.
  intros Hn Hg Hs (it & p & Hi & Hq & Hp & Hx & Hv). unfold edit_set. rewrite Hi. cbn [mbind option_bind]. rewrite Hx. cbn [mbind option_bind].
  set (i := current_para_index (ui s)) in *.
  assert (Hpos : 0 < para_num it /\ (i + 1 <> para_num it -> 0 <= i + 1 < para_num it)) by (clear - Hp; lia). destruct Hpos as [Hpos Hmore].
  rewrite (proj2 (Z.ltb_lt 0 (para_num it)) Hpos).
  set (s0 := with_ui _ s). destruct (set_index_ok (i + 1) i s0 Hx) as (t & Et & Ht). rewrite Et. cbn [mbind option_bind].
  set (s1 := with_ui (set_para (i + 1) (para_num it) (ui (with_index t s0))) (with_index t s0)).
  assert (Hn1 : nav_ok s1) by (apply nav_para, nav_index; [by apply nav_para|exact (set_index_shape _ _ _ Et)]).
  destruct (item_kind _ _ _ _ Hi Hq) as [Hk _]. destruct (editable it p Hk Hpos) as (Hd & _).
  unfold call_subs. rewrite Hq. cbn [mbind option_bind].
  destruct (run_page_ok p (with_ui (set_cfg true (ui s1)) s1)) as (s2 & E & (N & D & V) & _ & R).
  - by destruct (no_data s1 Hn1).
  - by intros _.
  - cbn [ui with_ui set_cfg set_states]. change (set_states (ui s1)) with (set_states (ui s)). by rewrite Hs.
  - rewrite E. cbn [mbind option_bind]. rewrite Hd in R. destruct R as [S C]. eexists. split; [reflexivity|].
    assert (Hn2 : nav_ok s2) by (apply (nav_after s1); [exact Hn1|exact N|exact D|exact C]).
    destruct N as (E1 & E2 & E3 & E4 & E5 & E6 & E7 & E8 & E9 & E10).
    change (current_para_index (ui s2) = i + 1) in E6. change (current_para_num (ui s2) = para_num it) in E7. change (guide s2 = guide s) in E1.
    rewrite E6, E7, (proj2 (Z.ltb_lt 0 (para_num it)) Hpos). destruct (Z.eqb_spec (i + 1) (para_num it)) as [Hlast|Hne].
    + split; [|by cbn; rewrite S]. apply (nav_keys _ (with_ui (set_blink false (ui s2)) (with_mode true (is_menu s2) s2))); [by apply nav_mode|apply key_init_four, Hn2].
    + split; [apply nav_keys; [done|apply key_init_four, Hn2]|]. split; [intros _|by cbn; rewrite S].
      change (in_edit s2). exists it, p. split; [|split; [exact Hq|]; split; [rewrite E6; exact (Hmore Hne)|split; [|exact V]]].
      * unfold item, son_ms. rewrite E3, E5. exact Hi.
      * unfold item_index. rewrite E3, E5, E6, E9. exact Ht.
Qed.
Lemma edit_part_ok s : menu_ok s -> guide s = false -> one_key (keys s) ->
  exists s', edit_part s = Some s' /\ mid_ok s' /\ (short KEY_SET (keys s) = 0 -> kept s s').
Proof.
  intros [Hn He] Hg [H1 H2]. destruct (He Hg) as [Hset Hin]. rewrite edit_part_steps. pose proof (no_keys s Hn) as Hk.
  destruct (Z.eq_dec (short KEY_RIGHT (keys s)) 0) as [ER|ER].
  - rewrite short_skip by done. cbn [mbind option_bind]. destruct (Z.eq_dec (short KEY_SET (keys s)) 0) as [ES|ES].
    + destruct (steps_part_ok s Hk) as (s1 & -> & Hst). cbn [mbind option_bind]. destruct (proj2 Hst Hk) as [Hk1 E1].
      rewrite short_skip by (done || by rewrite E1). exists s1. split; [done|]. destruct (stepped_same s s1 Hst) as (_ & _ & K & Ei & _).
      split; [|done]. split; [by apply (nav_stepped s)|]. split; [intros _; by apply (edit_stepped s)|]. intros _. rewrite Ei.
      destruct Hin as (it & p & Hi & Hq & Hp & _). by apply (in_edit_index s it p).
    + destruct (H2 ES) as [LU LD].
      assert (Hsteps : steps_part s = Some s).
      { unfold steps_part. destruct (H1 KEY_SET KEY_UP); [done|done|]. destruct (H1 KEY_SET KEY_DOWN); [done|done|].
        rewrite short_skip by done. cbn [mbind option_bind]. rewrite long_skip by done. cbn [mbind option_bind].
        rewrite short_skip by done. cbn [mbind option_bind]. by rewrite long_skip. }
      rewrite Hsteps. cbn [mbind option_bind]. rewrite short_take by done.
      destruct (edit_set_ok (with_keys (take_short KEY_SET (keys s)) s) (nav_keys _ s Hn (take_short_four KEY_SET _ Hk)) Hg Hset Hin) as (s1 & E & M).
      exists s1. split; [exact E|]. by split.
  - rewrite short_take by done. cbn [edit_right mbind option_bind]. set (s1 := with_ui (set_blink false _) _).
    assert (Hn1 : nav_ok s1).
    { set (s0 := with_keys (take_short KEY_RIGHT (keys s)) s). assert (Hn0 : nav_ok s0) by (apply nav_keys; [done|by apply take_short_four]).
      apply (nav_mode true true false (with_keys (key_init (keys s0)) (goto (Z.rem (main_page_id (ui s0) + 1) root_count) s0))); [|done|done].
      apply nav_keys; [apply nav_goto; [done|apply (main_range s0 Hn0)]|apply key_init_four, Hn0]. }
    assert (Hsteps : steps_part s1 = Some s1).
    { unfold steps_part. pose proof (no_keys s1 Hn1) as Hk1. do 2 (rewrite short_skip; [cbn [mbind option_bind]|done|done|apply short_key_init];
        rewrite long_skip; [cbn [mbind option_bind]|done|done|apply long_key_init]). done. }
    change (exists s', (s ← steps_part s1; on_short KEY_SET edit_set s) = Some s' /\ mid_ok s' /\ (short KEY_SET (keys s) = 0 -> kept s s')).
    rewrite Hsteps. cbn [mbind option_bind]. rewrite short_skip by (done || apply short_key_init || apply (no_keys s1 Hn1)).
    exists s1. split; [done|]. split; [|done]. split; [done|]. split; [done|]. change (set_states (ui s1)) with (set_states (ui s)). by rewrite Hset.
Qed.

(** ** A pass *)

Lemma idle_part_ok s : menu_ok s -> exists s', idle_part s = Some s' /\ menu_ok s' /\ kept s s' /\ keys s' = keys s /\
  (guide s' = guide s \/ guide s' = true) /\ (current_menu s' = current_menu s \/ current_menu s' = 0).
Proof.
  intros [Hn He]. unfold idle_part. destruct (key_idle_flag (keys s) =? 1).
  - eexists. split; [reflexivity|]. split; [|split_and!; by auto]. split; [|done].
    apply (nav_mode true false false (goto 0 s)); [by apply nav_goto|done|done].
  - destruct (_ && is_menu s) eqn:E.
    + apply andb_true_iff in E as [_ E]. pose proof (no_top s Hn E) as Hg. destruct (main_range s Hn) as (Hm & Es & _). rewrite Es.
      destruct (root_some _ Hm) as [l ->]. cbn [mbind option_bind]. eexists. split; [reflexivity|].
      split; [|split_and!; try done; [by left|left; exact (no_main s Hn)]]. split; [|intros Hf; exfalso; cbn in Hf; by rewrite Hg in Hf].
      apply (nav_mode (guide s) false false (goto (main_page_id (ui s)) s)); [by apply nav_goto|done|by rewrite Hg].
    + exists s. by split_and!; auto.
Qed.
(** What is on the page that is drawn is one of the values it can draw. *)
Definition drawable (s : menu) : Prop := exists it p, item s = Some it /\ subs it = Some p /\ page_shown p (dis_value (ui s)).
Lemma refresh_part_ok main sub s : mid_ok s -> exists s', refresh_part main sub s = Some s' /\ menu_ok s' /\ kept s s' /\
  (is_menu s' = false -> drawable s').
Proof.
  intros (Hn & He & Hi). unfold refresh_part. set (s1 := if _ || _ then _ else s).
  assert (H1 : nav_ok s1 /\ (guide s1 = false -> in_edit s1) /\ (set_states (ui s1) = true -> 0 <= current_para_index (ui s1) < 4) /\ kept s s1).
  { unfold s1. destruct (_ || _); [|done]. split; [|done]. destruct Hn. constructor; try assumption. by destruct no_data0. }
  clearbody s1. clear Hn He Hi. destruct H1 as (Hn & He & Hi & Hk). destruct (item_of s1 Hn) as (it & p & Hit & Hq).
  assert (Hson : is_Some (son_ms s1)) by (unfold item in Hit; apply bind_Some in Hit as (l & -> & _); by eexists).
  destruct Hson as [l ->]. cbn [mbind option_bind]. destruct (is_menu s1) eqn:Ht.
  - exists s1. split; [done|]. split; [|split; [exact Hk|by rewrite Ht]]. split; [done|]. intros Hf. by rewrite (no_top s1 Hn Ht) in Hf.
  - rewrite Hit. unfold call_subs. cbn [mbind option_bind]. rewrite Hq. cbn [mbind option_bind]. destruct (run_page_ok p s1) as (s2 & E & (N & D & V) & K & R).
    + exact (no_data s1 Hn).
    + rewrite (no_blink s1 Hn). destruct (guide s1); [done|]. intros _. destruct (He eq_refl) as (it' & p' & Hit' & Hq' & _ & _ & Hv). rewrite Hit in Hit'. injection Hit' as <-. rewrite Hq in Hq'. by injection Hq' as <-.
    + by auto.
    + exists s2. split; [exact E|]. specialize (K (no_cfg s1 Hn)).
      assert (Hn2 : nav_ok s2).
      { apply (nav_after s1); [done|done|done|]. destruct (drawn_only p); [by subst; exact (no_cfg s1 Hn)|apply R]. }
      destruct N as (E1 & _ & E3 & _ & E5 & E6 & _ & _ & E9 & _).
      assert (Hit2 : item s2 = Some it) by (unfold item, son_ms in *; by rewrite E3, E5).
      split; [|split; [destruct Hk as [Hk1 Hk2], K as [K1 K2]; split; congruence|intros _; by exists it, p]]. split; [done|]. rewrite E1. intros Hg. destruct (He Hg) as (it' & p' & Hit' & Hq' & Hp & Hx & Hv).
      rewrite Hit in Hit'. injection Hit' as <-. rewrite Hq in Hq'. injection Hq' as <-. destruct (item_kind _ _ _ _ Hit Hq) as [Hkd _].
      destruct (editable it p Hkd) as (Hd & _); [clear - Hp; lia|]. rewrite Hd in R. split; [apply R|]. exists it, p. rewrite E6. split; [exact Hit2|split; [exact Hq|]; split; [exact Hp|split; [|exact V]]].
      unfold item_index in *. by rewrite E3, E5, E9.
Qed.
Lemma items_count s first l : son_ms s = Some l -> ld l 0 = Some first -> menu_count first = items_of s.
Proof. unfold son_ms, items_of, count_in. intros -> ->. reflexivity. Qed.
Lemma items_le s : items_of s <= 9.
Proof. unfold items_of. destruct (ld m0_root (current_menu s)) as [l|] eqn:E; [|lia]. destruct (count_range _ _ E). lia. Qed.
Lemma menu_pass_ok s : menu_ok s -> one_key (keys s) ->
  exists s', menu_navigate s = Some s' /\ menu_ok s' /\ (guide s = true \/ short KEY_SET (keys s) = 0 -> kept s s') /\
    (is_menu s' = false -> drawable s').
Proof.
  intros Hm Hone. unfold menu_navigate. destruct (item_of s (proj1 Hm)) as (it & p & Hit & _). unfold item in Hit. apply bind_Some in Hit as (l & El & Eb).
  rewrite El. cbn [mbind option_bind]. pose proof (proj1 (ld_is_Some _ _) (mk_is_Some _ _ Eb)) as Bl.
  destruct (proj2 (ld_is_Some l 0)) as [first Ef]; [lia|]. rewrite Ef. cbn [mbind option_bind].
  pose proof (items_count s first l El Ef) as Hc. pose proof (items_le s) as H9. pose proof (sub_range s (proj1 Hm)) as Hsub.
  destruct (idle_part_ok s Hm) as (s1 & -> & Hm1 & [K1 K1'] & Ek & Hg1 & Hcur). cbn [mbind option_bind].
  assert (Hcount : 1 <= menu_count first <= items_of s1).
  { unfold items_of. destruct Hcur as [-> | ->]; [fold (items_of s); clear - Hc H9 Hsub; lia|].
    change (1 <= menu_count first <= 9). clear - Hc H9 Hsub. lia. }
  clear El Eb Bl Ef Hc H9 Hsub. rewrite <-Ek in Hone.
  assert (Hpart : exists s2, (if guide s1 then guide_part (menu_count first) s1 else edit_part s1) = Some s2 /\ mid_ok s2 /\
    (guide s = true \/ short KEY_SET (keys s) = 0 -> kept s s2)).
  { destruct (guide s1) eqn:Hg.
    - destruct (guide_part_ok (menu_count first) s1 (proj1 Hm1) Hg Hone Hcount) as (s2 & E & M & [K2 K2']). exists s2. split; [exact E|].
      split; [exact M|]. intros _. split; congruence.
    - destruct (edit_part_ok s1 Hm1 Hg Hone) as (s2 & E & M & K). exists s2. split; [exact E|]. split; [exact M|]. intros H.
      destruct K as [K2 K2']; [|split; congruence]. rewrite Ek. destruct H as [H|H]; [|exact H]. destruct Hg1; congruence. }
  destruct Hpart as (s2 & -> & M & K2). cbn [mbind option_bind].
  destruct (refresh_part_ok (s8 (main_page_id (ui s))) (s8 (sub_page_id (ui s))) s2 M) as (s3 & E & Hm3 & [K3 K3'] & Hdr). exists s3. split; [exact E|].
  split; [exact Hm3|]. split; [|exact Hdr]. intros H. destruct (K2 H) as [K4 K4']. split; congruence.
Qed.
Lemma menu_start_ok k m w : four_keys k -> wf_mem m -> menu_good w -> menu_ok (menu_start k m w).
Proof.
  intros Hk Hm Hw. split; [|done]. constructor; try done; [by do 2 eexists|]. constructor; try done; repeat constructor; done.
Qed.

(** The passes of the menu task; before each the keys were scanned. *)
Fixpoint menu_run (l : list keys_t) (s : menu) : option menu :=
  match l with [] => Some s | k :: l => s ← menu_navigate (with_keys k s); menu_run l s end.
Definition scanned (k : keys_t) : Prop := four_keys k /\ one_key k.

Lemma menu_keys k s : menu_ok s -> four_keys k -> menu_ok (with_keys k s).
Proof. intros [Hn He] Hk. split; [by apply nav_keys|exact He]. Qed.
Lemma menu_run_ok l : forall s, Forall scanned l -> menu_ok s -> exists s', menu_run l s = Some s' /\ menu_ok s'.
Proof.
  induction l as [|k l IH]; intros s Hl Hs; [by exists s|]. apply Forall_cons in Hl as [[Hk Hone] Hl].
  destruct (menu_pass_ok (with_keys k s) (menu_keys k s Hs Hk) Hone) as (s1 & E & H1 & _). destruct (IH s1 Hl H1) as (s2 & E2 & H2).
  exists s2. split; [|exact H2]. cbn [menu_run]. by rewrite E.
Qed.
Lemma menu_run_app l1 l2 s : menu_run (l1 ++ l2) s = (s ← menu_run l1 s; menu_run l2 s).
Proof. revert s. induction l1 as [|k l1 IH]; intros s; cbn [app menu_run]; [done|]. destruct (menu_navigate _) as [s'|]; [apply IH|done]. Qed.

End Safe.

(** ** The parameter manager *)

Section Manager.
Context {N : Type} `{!NvStore N} (SYS_DEF_PARA : list Z) (pc_init : mem -> pmm N -> option (mem * pmm N)).
Context (default_wf : wf SYS_DEF_PARA).
Context (pc_init_ok : forall m w, wf_mem m -> nv_good (nv w) -> exists m' w', pc_init m w = Some (m', w') /\ wf_mem m' /\ nv_good (nv w')).
#[local] Instance panel : MenuServices (pmm N) := menu_manager SYS_DEF_PARA pc_init.

Lemma same_state_wf (m : mem) l : wf_mem m -> wf l -> wf_mem (mk_mem l (m_state m)).
Proof. intros (_ & H2 & _ & H4) [H1 H3]. split; [exact H1|]. split; [exact H2|]. split; [exact H3|exact H4]. Qed.
#[local] Instance panel_ok : MenuServicesOk (pmm N).
Proof.
  refine {| menu_good w := nv_good (nv w) |}.
  - intros g m w Hg Hm Hw. destruct (manager_save m w g Hm Hw Hg) as (w' & E & Hn & Hs & _).
    exists (mk_mem (sys_para w') (m_state m)), w'. split; [cbn [ms_save panel menu_manager]; by rewrite E|]. split; [by apply same_state_wf|exact Hn].
  - intros m w Hm Hw. destruct (restore_default_spec SYS_DEF_PARA (Para.set_sys w (m_para m)) Hw default_wf) as (p' & E & Hn & Hs & _).
    exists (mk_mem (sys_para p') (m_state m)), p'. split; [cbn [ms_restore panel menu_manager]; unfold restore_service; by rewrite E|].
    split; [by apply same_state_wf|exact Hn].
  - exact pc_init_ok.
Defined.
End Manager.

(** ** Instances *)

(** The keys with the short flags of [ids]. *)
Definition flagged (ids : list Z) : keys_t :=
  mk_keys (imap (fun i x => set_flags (if existsb (Z.eqb (Z.of_nat i)) ids then 1 else 0) 0 x) (KEY_TABLES keys_start)) 0 0.

Lemma no_port_ok m w : wf_mem m -> nv_good (nv w) -> exists m' w', no_port m w = Some (m', w') /\ wf_mem m' /\ nv_good (nv w').
Proof. intros Hm Hw. by exists m, w. Qed.
#[local] Instance demo_panel : MenuServices (pmm (board nor)) := menu_manager zero_para no_port.
#[local] Instance demo_panel_ok : MenuServicesOk (pmm (board nor)) := panel_ok zero_para no_port zero_wf no_port_ok.

Lemma flagged_scanned id : scanned (flagged [id]).
Proof.
  assert (Hs : forall j, short j (flagged [id]) <> 0 -> j = id).
  { intros j. unfold short, ld. destruct (Z.leb_spec 0 j); [|done]. cbn [flagged KEY_TABLES]. rewrite list_lookup_imap.
    destruct (KEY_TABLES keys_start !! Z.to_nat j); [|done]. cbn. rewrite Z2Nat.id by done. by destruct (Z.eqb_spec j id). }
  split; [done|]. split.
  - intros i j Hij. destruct (Z.eq_dec (short i (flagged [id])) 0) as [|Hi]; [by left|right].
    destruct (Z.eq_dec (short j (flagged [id])) 0) as [|Hj]; [done|]. exfalso. apply Hij. by rewrite (Hs i Hi), (Hs j Hj).
  - intros _. split; reflexivity.
Qed.
(** Services that do nothing, for the runs below. *)
#[local] Instance no_services : MenuServices unit := {| ms_save _ m w := Some (m, w); ms_restore m w := Some (m, w); ms_pc_init m w := Some (m, w) |}.
(** Three keys in one pass: UP wraps with the count of the menu that was left, and
    the page that is called does not exist. *)
Example right_down_up_faults : menu_run [flagged [KEY_RIGHT; KEY_DOWN; KEY_UP]] (menu_start keys_start panel_mem tt) = None.
Proof. vm_compute. reflexivity. Qed.
(** UP together with the last SET of an address: the step is applied to a fifth part. *)
Definition at_address : menu_t (W := unit) :=
  mk_menu (set_page 3 2 ui_start) 3 true false (map (map (fun _ => 0)) m0_root) (replicate 3 [0; 0; 0; 0]) keys_start panel_mem tt.
Example up_with_set_overruns :
  is_Some (menu_run (replicate 4 (flagged [KEY_SET])) at_address) /\
  menu_run (replicate 4 (flagged [KEY_SET]) ++ [flagged [KEY_UP; KEY_SET]]) at_address = None.
Proof. split; [vm_compute; by eexists|vm_compute; reflexivity]. Qed.
