(* ===== verification/Font.v ===== *)
(** * oledfont.h, the logo of oled.c: character bitmaps

    Every row is a character from the space on, column by column, eight pixels
    to a byte with the highest pixel in bit 0; the rows of pixels of the taller
    fonts follow each other. *)
From S2P Require Import Prelude.

Definition asc2_0806 : list (list Z) := [
  [0; 0; 0; 0; 0; 0]; [0; 0; 0; 47; 0; 0]; [0; 0; 7; 0; 7; 0]; [0; 20; 127; 20; 127; 20];
  [0; 36; 42; 127; 42; 18]; [0; 98; 100; 8; 19; 35]; [0; 54; 73; 85; 34; 80]; [0; 0; 5; 3; 0; 0];
  [0; 0; 28; 34; 65; 0]; [0; 0; 65; 34; 28; 0]; [0; 20; 8; 62; 8; 20]; [0; 8; 8; 62; 8; 8];
  [0; 0; 0; 160; 96; 0]; [0; 8; 8; 8; 8; 8]; [0; 0; 96; 96; 0; 0]; [0; 32; 16; 8; 4; 2];
  [0; 62; 81; 73; 69; 62]; [0; 0; 66; 127; 64; 0]; [0; 66; 97; 81; 73; 70]; [0; 33; 65; 69; 75; 49];
  [0; 24; 20; 18; 127; 16]; [0; 39; 69; 69; 69; 57]; [0; 60; 74; 73; 73; 48]; [0; 1; 113; 9; 5; 3];
  [0; 54; 73; 73; 73; 54]; [0; 6; 73; 73; 41; 30]; [0; 0; 54; 54; 0; 0]; [0; 0; 86; 54; 0; 0];
  [0; 8; 20; 34; 65; 0]; [0; 20; 20; 20; 20; 20]; [0; 0; 65; 34; 20; 8]; [0; 2; 1; 81; 9; 6];
  [0; 50; 73; 89; 81; 62]; [0; 124; 18; 17; 18; 124]; [0; 127; 73; 73; 73; 54]; [0; 62; 65; 65; 65; 34];
  [0; 127; 65; 65; 34; 28]; [0; 127; 73; 73; 73; 65]; [0; 127; 9; 9; 9; 1]; [0; 62; 65; 73; 73; 122];
  [0; 127; 8; 8; 8; 127]; [0; 0; 65; 127; 65; 0]; [0; 32; 64; 65; 63; 1]; [0; 127; 8; 20; 34; 65];
  [0; 127; 64; 64; 64; 64]; [0; 127; 2; 12; 2; 127]; [0; 127; 4; 8; 16; 127]; [0; 62; 65; 65; 65; 62];
  [0; 127; 9; 9; 9; 6]; [0; 62; 65; 81; 33; 94]; [0; 127; 9; 25; 41; 70]; [0; 70; 73; 73; 73; 49];
  [0; 1; 1; 127; 1; 1]; [0; 63; 64; 64; 64; 63]; [0; 31; 32; 64; 32; 31]; [0; 63; 64; 56; 64; 63];
  [0; 99; 20; 8; 20; 99]; [0; 7; 8; 112; 8; 7]; [0; 97; 81; 73; 69; 67]; [0; 0; 127; 65; 65; 0];
  [0; 85; 42; 85; 42; 85]; [0; 0; 65; 65; 127; 0]; [0; 4; 2; 1; 2; 4]; [0; 64; 64; 64; 64; 64];
  [0; 0; 1; 2; 4; 0]; [0; 32; 84; 84; 84; 120]; [0; 127; 72; 68; 68; 56]; [0; 56; 68; 68; 68; 32];
  [0; 56; 68; 68; 72; 127]; [0; 56; 84; 84; 84; 24]; [0; 8; 126; 9; 1; 2]; [0; 24; 164; 164; 164; 124];
  [0; 127; 8; 4; 4; 120]; [0; 0; 68; 125; 64; 0]; [0; 64; 128; 132; 125; 0]; [0; 127; 16; 40; 68; 0];
  [0; 0; 65; 127; 64; 0]; [0; 124; 4; 24; 4; 120]; [0; 124; 8; 4; 4; 120]; [0; 56; 68; 68; 68; 56];
  [0; 252; 36; 36; 36; 24]; [0; 24; 36; 36; 24; 252]; [0; 124; 8; 4; 4; 8]; [0; 72; 84; 84; 84; 32];
  [0; 4; 63; 68; 64; 32]; [0; 60; 64; 64; 32; 124]; [0; 28; 32; 64; 32; 28]; [0; 60; 64; 48; 64; 60];
  [0; 68; 40; 16; 40; 68]; [0; 28; 160; 160; 160; 124]; [0; 68; 100; 84; 76; 68]; [20; 20; 20; 20; 20; 20]].
Definition asc2_1206 : list (list Z) := [
  [0; 0; 0; 0; 0; 0; 0; 0; 0; 0; 0; 0]; [0; 0; 252; 0; 0; 0; 0; 0; 2; 0; 0; 0];
  [0; 12; 2; 12; 2; 0; 0; 0; 0; 0; 0; 0]; [144; 208; 188; 208; 188; 144; 0; 3; 0; 3; 0; 0];
  [24; 36; 254; 68; 140; 0; 3; 2; 7; 2; 1; 0]; [24; 36; 216; 176; 76; 128; 0; 3; 0; 1; 2; 1];
  [192; 56; 228; 56; 224; 0; 1; 2; 2; 1; 2; 2]; [8; 6; 0; 0; 0; 0; 0; 0; 0; 0; 0; 0];
  [0; 0; 0; 248; 4; 2; 0; 0; 0; 1; 2; 4]; [0; 2; 4; 248; 0; 0; 0; 4; 2; 1; 0; 0];
  [144; 96; 248; 96; 144; 0; 0; 0; 1; 0; 0; 0]; [32; 32; 252; 32; 32; 0; 0; 0; 1; 0; 0; 0];
  [0; 0; 0; 0; 0; 0; 8; 6; 0; 0; 0; 0]; [32; 32; 32; 32; 32; 0; 0; 0; 0; 0; 0; 0];
  [0; 0; 0; 0; 0; 0; 0; 2; 0; 0; 0; 0]; [0; 128; 96; 28; 2; 0; 4; 3; 0; 0; 0; 0];
  [248; 4; 4; 4; 248; 0; 1; 2; 2; 2; 1; 0]; [0; 8; 252; 0; 0; 0; 0; 2; 3; 2; 0; 0];
  [24; 132; 68; 36; 24; 0; 3; 2; 2; 2; 2; 0]; [8; 4; 36; 36; 216; 0; 1; 2; 2; 2; 1; 0];
  [64; 176; 136; 252; 128; 0; 0; 0; 0; 3; 2; 0]; [60; 36; 36; 36; 196; 0; 1; 2; 2; 2; 1; 0];
  [248; 36; 36; 44; 192; 0; 1; 2; 2; 2; 1; 0]; [12; 4; 228; 28; 4; 0; 0; 0; 3; 0; 0; 0];
  [216; 36; 36; 36; 216; 0; 1; 2; 2; 2; 1; 0]; [56; 68; 68; 68; 248; 0; 0; 3; 2; 2; 1; 0];
  [0; 0; 16; 0; 0; 0; 0; 0; 2; 0; 0; 0]; [0; 0; 32; 0; 0; 0; 0; 0; 6; 0; 0; 0];
  [0; 32; 80; 136; 4; 2; 0; 0; 0; 0; 1; 2]; [144; 144; 144; 144; 144; 0; 0; 0; 0; 0; 0; 0];
  [0; 2; 4; 136; 80; 32; 0; 2; 1; 0; 0; 0]; [24; 4; 196; 36; 24; 0; 0; 0; 2; 0; 0; 0];
  [248; 4; 228; 148; 248; 0; 1; 2; 2; 2; 2; 0]; [0; 224; 156; 240; 128; 0; 2; 3; 0; 0; 3; 2];
  [4; 252; 36; 36; 216; 0; 2; 3; 2; 2; 1; 0]; [248; 4; 4; 4; 12; 0; 1; 2; 2; 2; 1; 0];
  [4; 252; 4; 4; 248; 0; 2; 3; 2; 2; 1; 0]; [4; 252; 36; 116; 12; 0; 2; 3; 2; 2; 3; 0];
  [4; 252; 36; 116; 12; 0; 2; 3; 2; 0; 0; 0]; [240; 8; 4; 68; 204; 64; 0; 1; 2; 2; 1; 0];
  [4; 252; 32; 32; 252; 4; 2; 3; 0; 0; 3; 2]; [4; 4; 252; 4; 4; 0; 2; 2; 3; 2; 2; 0];
  [0; 4; 4; 252; 4; 4; 6; 4; 4; 3; 0; 0]; [4; 252; 36; 208; 12; 4; 2; 3; 2; 0; 3; 2];
  [4; 252; 4; 0; 0; 0; 2; 3; 2; 2; 2; 3]; [252; 60; 192; 60; 252; 0; 3; 0; 3; 0; 3; 0];
  [4; 252; 48; 196; 252; 4; 2; 3; 2; 0; 3; 0]; [248; 4; 4; 4; 248; 0; 1; 2; 2; 2; 1; 0];
  [4; 252; 36; 36; 24; 0; 2; 3; 2; 0; 0; 0]; [248; 132; 132; 4; 248; 0; 1; 2; 2; 7; 5; 0];
  [4; 252; 36; 100; 152; 0; 2; 3; 2; 0; 3; 2]; [24; 36; 36; 68; 140; 0; 3; 2; 2; 2; 1; 0];
  [12; 4; 252; 4; 12; 0; 0; 2; 3; 2; 0; 0]; [4; 252; 0; 0; 252; 4; 0; 1; 2; 2; 1; 0];
  [4; 124; 128; 224; 28; 4; 0; 0; 3; 0; 0; 0]; [28; 224; 60; 224; 28; 0; 0; 3; 0; 3; 0; 0];
  [4; 156; 96; 156; 4; 0; 2; 3; 0; 3; 2; 0]; [4; 28; 224; 28; 4; 0; 0; 2; 3; 2; 0; 0];
  [12; 132; 100; 28; 4; 0; 2; 3; 2; 2; 3; 0]; [0; 0; 254; 2; 2; 0; 0; 0; 7; 4; 4; 0];
  [0; 14; 48; 192; 0; 0; 0; 0; 0; 1; 2; 0]; [0; 2; 2; 254; 0; 0; 0; 4; 4; 7; 0; 0];
  [0; 4; 2; 4; 0; 0; 0; 0; 0; 0; 0; 0]; [0; 0; 0; 0; 0; 0; 8; 8; 8; 8; 8; 8];
  [0; 0; 2; 0; 0; 0; 0; 0; 0; 0; 0; 0]; [0; 64; 160; 160; 192; 0; 0; 1; 2; 2; 3; 2];
  [4; 252; 32; 32; 192; 0; 0; 3; 2; 2; 1; 0]; [0; 192; 32; 32; 96; 0; 0; 1; 2; 2; 2; 0];
  [0; 192; 32; 36; 252; 0; 0; 1; 2; 2; 3; 2]; [0; 192; 160; 160; 192; 0; 0; 1; 2; 2; 2; 0];
  [0; 32; 248; 36; 36; 4; 0; 2; 3; 2; 2; 0]; [0; 64; 160; 160; 96; 32; 0; 7; 10; 10; 10; 4];
  [4; 252; 32; 32; 192; 0; 2; 3; 2; 0; 3; 2]; [0; 32; 228; 0; 0; 0; 0; 2; 3; 2; 0; 0];
  [0; 0; 32; 228; 0; 0; 8; 8; 8; 7; 0; 0]; [4; 252; 128; 224; 32; 32; 2; 3; 2; 0; 3; 2];
  [4; 4; 252; 0; 0; 0; 2; 2; 3; 2; 2; 0]; [224; 32; 224; 32; 192; 0; 3; 0; 3; 0; 3; 0];
  [32; 224; 32; 32; 192; 0; 2; 3; 2; 0; 3; 2]; [0; 192; 32; 32; 192; 0; 0; 1; 2; 2; 1; 0];
  [32; 224; 32; 32; 192; 0; 8; 15; 10; 2; 1; 0]; [0; 192; 32; 32; 224; 0; 0; 1; 2; 10; 15; 8];
  [32; 224; 64; 32; 32; 0; 2; 3; 2; 0; 0; 0]; [0; 96; 160; 160; 32; 0; 0; 2; 2; 2; 3; 0];
  [0; 32; 248; 32; 0; 0; 0; 0; 1; 2; 2; 0]; [32; 224; 0; 32; 224; 0; 0; 1; 2; 2; 3; 2];
  [32; 224; 32; 128; 96; 32; 0; 0; 3; 1; 0; 0]; [96; 128; 224; 128; 96; 0; 0; 3; 0; 3; 0; 0];
  [32; 96; 128; 96; 32; 0; 2; 3; 0; 3; 2; 0]; [32; 224; 32; 128; 96; 32; 8; 8; 7; 1; 0; 0];
  [0; 32; 160; 96; 32; 0; 0; 2; 3; 2; 2; 0]; [0; 0; 32; 222; 2; 0; 0; 0; 0; 7; 4; 0];
  [0; 0; 0; 255; 0; 0; 0; 0; 0; 15; 0; 0]; [0; 2; 222; 32; 0; 0; 0; 4; 7; 0; 0; 0];
  [2; 1; 2; 4; 4; 2; 0; 0; 0; 0; 0; 0]; [2; 1; 2; 4; 4; 2; 0; 0; 0; 0; 0; 0]].
Definition asc2_1608 : list (list Z) := [
  [0; 0; 0; 0; 0; 0; 0; 0; 0; 0; 0; 0; 0; 0; 0; 0]; [0; 0; 0; 248; 0; 0; 0; 0; 0; 0; 0; 51; 48; 0; 0; 0];
  [0; 16; 12; 6; 16; 12; 6; 0; 0; 0; 0; 0; 0; 0; 0; 0]; [64; 192; 120; 64; 192; 120; 64; 0; 4; 63; 4; 4; 63; 4; 4; 0];
  [0; 112; 136; 252; 8; 48; 0; 0; 0; 24; 32; 255; 33; 30; 0; 0]; [240; 8; 240; 0; 224; 24; 0; 0; 0; 33; 28; 3; 30; 33; 30; 0];
  [0; 240; 8; 136; 112; 0; 0; 0; 30; 33; 35; 36; 25; 39; 33; 16]; [16; 22; 14; 0; 0; 0; 0; 0; 0; 0; 0; 0; 0; 0; 0; 0];
  [0; 0; 0; 224; 24; 4; 2; 0; 0; 0; 0; 7; 24; 32; 64; 0]; [0; 2; 4; 24; 224; 0; 0; 0; 0; 64; 32; 24; 7; 0; 0; 0];
  [64; 64; 128; 240; 128; 64; 64; 0; 2; 2; 1; 15; 1; 2; 2; 0]; [0; 0; 0; 240; 0; 0; 0; 0; 1; 1; 1; 31; 1; 1; 1; 0];
  [0; 0; 0; 0; 0; 0; 0; 0; 128; 176; 112; 0; 0; 0; 0; 0]; [0; 0; 0; 0; 0; 0; 0; 0; 0; 1; 1; 1; 1; 1; 1; 1];
  [0; 0; 0; 0; 0; 0; 0; 0; 0; 48; 48; 0; 0; 0; 0; 0]; [0; 0; 0; 0; 128; 96; 24; 4; 0; 96; 24; 6; 1; 0; 0; 0];
  [0; 224; 16; 8; 8; 16; 224; 0; 0; 15; 16; 32; 32; 16; 15; 0]; [0; 16; 16; 248; 0; 0; 0; 0; 0; 32; 32; 63; 32; 32; 0; 0];
  [0; 112; 8; 8; 8; 136; 112; 0; 0; 48; 40; 36; 34; 33; 48; 0]; [0; 48; 8; 136; 136; 72; 48; 0; 0; 24; 32; 32; 32; 17; 14; 0];
  [0; 0; 192; 32; 16; 248; 0; 0; 0; 7; 4; 36; 36; 63; 36; 0]; [0; 248; 8; 136; 136; 8; 8; 0; 0; 25; 33; 32; 32; 17; 14; 0];
  [0; 224; 16; 136; 136; 24; 0; 0; 0; 15; 17; 32; 32; 17; 14; 0]; [0; 56; 8; 8; 200; 56; 8; 0; 0; 0; 0; 63; 0; 0; 0; 0];
  [0; 112; 136; 8; 8; 136; 112; 0; 0; 28; 34; 33; 33; 34; 28; 0]; [0; 224; 16; 8; 8; 16; 224; 0; 0; 0; 49; 34; 34; 17; 15; 0];
  [0; 0; 0; 192; 192; 0; 0; 0; 0; 0; 0; 48; 48; 0; 0; 0]; [0; 0; 0; 128; 0; 0; 0; 0; 0; 0; 128; 96; 0; 0; 0; 0];
  [0; 0; 128; 64; 32; 16; 8; 0; 0; 1; 2; 4; 8; 16; 32; 0]; [64; 64; 64; 64; 64; 64; 64; 0; 4; 4; 4; 4; 4; 4; 4; 0];
  [0; 8; 16; 32; 64; 128; 0; 0; 0; 32; 16; 8; 4; 2; 1; 0]; [0; 112; 72; 8; 8; 8; 240; 0; 0; 0; 0; 48; 54; 1; 0; 0];
  [192; 48; 200; 40; 232; 16; 224; 0; 7; 24; 39; 36; 35; 20; 11; 0]; [0; 0; 192; 56; 224; 0; 0; 0; 32; 60; 35; 2; 2; 39; 56; 32];
  [8; 248; 136; 136; 136; 112; 0; 0; 32; 63; 32; 32; 32; 17; 14; 0]; [192; 48; 8; 8; 8; 8; 56; 0; 7; 24; 32; 32; 32; 16; 8; 0];
  [8; 248; 8; 8; 8; 16; 224; 0; 32; 63; 32; 32; 32; 16; 15; 0]; [8; 248; 136; 136; 232; 8; 16; 0; 32; 63; 32; 32; 35; 32; 24; 0];
  [8; 248; 136; 136; 232; 8; 16; 0; 32; 63; 32; 0; 3; 0; 0; 0]; [192; 48; 8; 8; 8; 56; 0; 0; 7; 24; 32; 32; 34; 30; 2; 0];
  [8; 248; 8; 0; 0; 8; 248; 8; 32; 63; 33; 1; 1; 33; 63; 32]; [0; 8; 8; 248; 8; 8; 0; 0; 0; 32; 32; 63; 32; 32; 0; 0];
  [0; 0; 8; 8; 248; 8; 8; 0; 192; 128; 128; 128; 127; 0; 0; 0]; [8; 248; 136; 192; 40; 24; 8; 0; 32; 63; 32; 1; 38; 56; 32; 0];
  [8; 248; 8; 0; 0; 0; 0; 0; 32; 63; 32; 32; 32; 32; 48; 0]; [8; 248; 248; 0; 248; 248; 8; 0; 32; 63; 0; 63; 0; 63; 32; 0];
  [8; 248; 48; 192; 0; 8; 248; 8; 32; 63; 32; 0; 7; 24; 63; 0]; [224; 16; 8; 8; 8; 16; 224; 0; 15; 16; 32; 32; 32; 16; 15; 0];
  [8; 248; 8; 8; 8; 8; 240; 0; 32; 63; 33; 1; 1; 1; 0; 0]; [224; 16; 8; 8; 8; 16; 224; 0; 15; 24; 36; 36; 56; 80; 79; 0];
  [8; 248; 136; 136; 136; 136; 112; 0; 32; 63; 32; 0; 3; 12; 48; 32]; [0; 112; 136; 8; 8; 8; 56; 0; 0; 56; 32; 33; 33; 34; 28; 0];
  [24; 8; 8; 248; 8; 8; 24; 0; 0; 0; 32; 63; 32; 0; 0; 0]; [8; 248; 8; 0; 0; 8; 248; 8; 0; 31; 32; 32; 32; 32; 31; 0];
  [8; 120; 136; 0; 0; 200; 56; 8; 0; 0; 7; 56; 14; 1; 0; 0]; [248; 8; 0; 248; 0; 8; 248; 0; 3; 60; 7; 0; 7; 60; 3; 0];
  [8; 24; 104; 128; 128; 104; 24; 8; 32; 48; 44; 3; 3; 44; 48; 32]; [8; 56; 200; 0; 200; 56; 8; 0; 0; 0; 32; 63; 32; 0; 0; 0];
  [16; 8; 8; 8; 200; 56; 8; 0; 32; 56; 38; 33; 32; 32; 24; 0]; [0; 0; 0; 254; 2; 2; 2; 0; 0; 0; 0; 127; 64; 64; 64; 0];
  [0; 12; 48; 192; 0; 0; 0; 0; 0; 0; 0; 1; 6; 56; 192; 0]; [0; 2; 2; 2; 254; 0; 0; 0; 0; 64; 64; 64; 127; 0; 0; 0];
  [0; 0; 4; 2; 2; 2; 4; 0; 0; 0; 0; 0; 0; 0; 0; 0]; [0; 0; 0; 0; 0; 0; 0; 0; 128; 128; 128; 128; 128; 128; 128; 128];
  [0; 2; 2; 4; 0; 0; 0; 0; 0; 0; 0; 0; 0; 0; 0; 0]; [0; 0; 128; 128; 128; 128; 0; 0; 0; 25; 36; 34; 34; 34; 63; 32];
  [8; 248; 0; 128; 128; 0; 0; 0; 0; 63; 17; 32; 32; 17; 14; 0]; [0; 0; 0; 128; 128; 128; 0; 0; 0; 14; 17; 32; 32; 32; 17; 0];
  [0; 0; 0; 128; 128; 136; 248; 0; 0; 14; 17; 32; 32; 16; 63; 32]; [0; 0; 128; 128; 128; 128; 0; 0; 0; 31; 34; 34; 34; 34; 19; 0];
  [0; 128; 128; 240; 136; 136; 136; 24; 0; 32; 32; 63; 32; 32; 0; 0]; [0; 0; 128; 128; 128; 128; 128; 0; 0; 107; 148; 148; 148; 147; 96; 0];
  [8; 248; 0; 128; 128; 128; 0; 0; 32; 63; 33; 0; 0; 32; 63; 32]; [0; 128; 152; 152; 0; 0; 0; 0; 0; 32; 32; 63; 32; 32; 0; 0];
  [0; 0; 0; 128; 152; 152; 0; 0; 0; 192; 128; 128; 128; 127; 0; 0]; [8; 248; 0; 0; 128; 128; 128; 0; 32; 63; 36; 2; 45; 48; 32; 0];
  [0; 8; 8; 248; 0; 0; 0; 0; 0; 32; 32; 63; 32; 32; 0; 0]; [128; 128; 128; 128; 128; 128; 128; 0; 32; 63; 32; 0; 63; 32; 0; 63];
  [128; 128; 0; 128; 128; 128; 0; 0; 32; 63; 33; 0; 0; 32; 63; 32]; [0; 0; 128; 128; 128; 128; 0; 0; 0; 31; 32; 32; 32; 32; 31; 0];
  [128; 128; 0; 128; 128; 0; 0; 0; 128; 255; 161; 32; 32; 17; 14; 0]; [0; 0; 0; 128; 128; 128; 128; 0; 0; 14; 17; 32; 32; 160; 255; 128];
  [128; 128; 128; 0; 128; 128; 128; 0; 32; 32; 63; 33; 32; 0; 1; 0]; [0; 0; 128; 128; 128; 128; 128; 0; 0; 51; 36; 36; 36; 36; 25; 0];
  [0; 128; 128; 224; 128; 128; 0; 0; 0; 0; 0; 31; 32; 32; 0; 0]; [128; 128; 0; 0; 0; 128; 128; 0; 0; 31; 32; 32; 32; 16; 63; 32];
  [128; 128; 128; 0; 0; 128; 128; 128; 0; 1; 14; 48; 8; 6; 1; 0]; [128; 128; 0; 128; 0; 128; 128; 128; 15; 48; 12; 3; 12; 48; 15; 0];
  [0; 128; 128; 0; 128; 128; 128; 0; 0; 32; 49; 46; 14; 49; 32; 0]; [128; 128; 128; 0; 0; 128; 128; 128; 128; 129; 142; 112; 24; 6; 1; 0];
  [0; 128; 128; 128; 128; 128; 128; 0; 0; 33; 48; 44; 34; 33; 48; 0]; [0; 0; 0; 0; 128; 124; 2; 2; 0; 0; 0; 0; 0; 63; 64; 64];
  [0; 0; 0; 0; 255; 0; 0; 0; 0; 0; 0; 0; 255; 0; 0; 0]; [0; 2; 2; 124; 128; 0; 0; 0; 0; 64; 64; 63; 0; 0; 0; 0];
  [0; 6; 1; 1; 2; 2; 4; 4; 0; 0; 0; 0; 0; 0; 0; 0]; [0; 0; 24; 36; 36; 24; 0; 0; 0; 0; 0; 0; 0; 0; 0; 0]].
Definition asc2_2412 : list (list Z) := [
  [0; 0; 0; 0; 0; 0; 0; 0; 0; 0; 0; 0; 0; 0; 0; 0; 0; 0; 0; 0; 0; 0; 0; 0; 0; 0; 0; 0; 0; 0; 0; 0; 0; 0; 0; 0];
  [0; 0; 0; 0; 0; 240; 240; 240; 0; 0; 0; 0; 0; 0; 0; 0; 0; 1; 127; 1; 0; 0; 0; 0; 0; 0; 0; 0; 0; 28; 28; 28; 0; 0; 0; 0];
  [0; 0; 128; 96; 48; 28; 140; 96; 48; 28; 12; 0; 0; 0; 0; 0; 0; 0; 0; 0; 0; 0; 0; 0; 0; 0; 0; 0; 0; 0; 0; 0; 0; 0; 0; 0];
  [0; 0; 0; 224; 0; 0; 0; 0; 0; 224; 0; 0; 0; 134; 230; 159; 134; 134; 134; 134; 230; 159; 134; 0; 0; 1; 31; 1; 1; 1; 1; 1; 31; 1; 1; 0];
  [0; 0; 128; 192; 96; 32; 248; 32; 224; 192; 0; 0; 0; 0; 3; 7; 12; 24; 255; 112; 225; 129; 0; 0; 0; 0; 7; 15; 16; 16; 127; 16; 15; 7; 0; 0];
  [128; 96; 32; 96; 128; 0; 0; 0; 224; 32; 0; 0; 15; 48; 32; 48; 159; 112; 220; 55; 16; 48; 192; 0; 0; 0; 16; 14; 3; 0; 7; 24; 16; 24; 7; 0];
  [0; 0; 192; 32; 32; 224; 192; 0; 0; 0; 0; 0; 128; 224; 31; 56; 232; 135; 3; 196; 60; 4; 0; 0; 7; 15; 24; 16; 16; 11; 7; 13; 16; 16; 8; 0];
  [0; 128; 140; 76; 56; 0; 0; 0; 0; 0; 0; 0; 0; 0; 0; 0; 0; 0; 0; 0; 0; 0; 0; 0; 0; 0; 0; 0; 0; 0; 0; 0; 0; 0; 0; 0];
  [0; 0; 0; 0; 0; 0; 128; 224; 48; 8; 4; 0; 0; 0; 0; 0; 0; 254; 255; 1; 0; 0; 0; 0; 0; 0; 0; 0; 0; 0; 3; 15; 24; 32; 64; 0];
  [0; 4; 8; 48; 224; 128; 0; 0; 0; 0; 0; 0; 0; 0; 0; 0; 1; 255; 254; 0; 0; 0; 0; 0; 0; 64; 32; 24; 15; 3; 0; 0; 0; 0; 0; 0];
  [0; 0; 0; 0; 0; 0; 192; 0; 0; 0; 0; 0; 0; 66; 102; 102; 60; 24; 255; 24; 60; 102; 102; 66; 0; 0; 0; 0; 0; 0; 3; 0; 0; 0; 0; 0];
  [0; 0; 0; 0; 0; 0; 128; 0; 0; 0; 0; 0; 0; 16; 16; 16; 16; 16; 255; 16; 16; 16; 16; 16; 0; 0; 0; 0; 0; 0; 3; 0; 0; 0; 0; 0];
  [0; 0; 0; 0; 0; 0; 0; 0; 0; 0; 0; 0; 0; 0; 0; 0; 0; 0; 0; 0; 0; 0; 0; 0; 0; 128; 140; 76; 56; 0; 0; 0; 0; 0; 0; 0];
  [0; 0; 0; 0; 0; 0; 0; 0; 0; 0; 0; 0; 0; 16; 16; 16; 16; 16; 16; 16; 16; 16; 16; 0; 0; 0; 0; 0; 0; 0; 0; 0; 0; 0; 0; 0];
  [0; 0; 0; 0; 0; 0; 0; 0; 0; 0; 0; 0; 0; 0; 0; 0; 0; 0; 0; 0; 0; 0; 0; 0; 0; 0; 28; 28; 28; 0; 0; 0; 0; 0; 0; 0];
  [0; 0; 0; 0; 0; 0; 0; 0; 224; 56; 12; 0; 0; 0; 0; 0; 128; 112; 28; 3; 0; 0; 0; 0; 0; 96; 56; 14; 1; 0; 0; 0; 0; 0; 0; 0];
  [0; 0; 128; 192; 96; 32; 32; 96; 192; 128; 0; 0; 0; 254; 255; 1; 0; 0; 0; 0; 1; 255; 254; 0; 0; 1; 7; 14; 24; 16; 16; 24; 14; 7; 1; 0];
  [0; 0; 128; 128; 128; 192; 224; 0; 0; 0; 0; 0; 0; 0; 0; 0; 0; 255; 255; 0; 0; 0; 0; 0; 0; 0; 16; 16; 16; 31; 31; 16; 16; 16; 0; 0];
  [0; 128; 64; 32; 32; 32; 32; 96; 192; 128; 0; 0; 0; 3; 3; 0; 128; 64; 32; 56; 31; 7; 0; 0; 0; 28; 26; 25; 24; 24; 24; 24; 24; 31; 0; 0];
  [0; 128; 192; 32; 32; 32; 96; 192; 128; 0; 0; 0; 0; 3; 3; 0; 16; 16; 24; 47; 231; 128; 0; 0; 0; 7; 15; 16; 16; 16; 16; 24; 15; 7; 0; 0];
  [0; 0; 0; 0; 0; 0; 192; 224; 240; 0; 0; 0; 0; 192; 176; 136; 134; 129; 128; 255; 255; 128; 128; 0; 0; 0; 0; 0; 0; 16; 16; 31; 31; 16; 16; 0];
  [0; 0; 224; 96; 96; 96; 96; 96; 96; 96; 0; 0; 0; 0; 63; 16; 8; 8; 8; 24; 240; 224; 0; 0; 0; 7; 11; 16; 16; 16; 16; 28; 15; 3; 0; 0];
  [0; 0; 128; 192; 64; 32; 32; 32; 224; 192; 0; 0; 0; 252; 255; 33; 16; 8; 8; 8; 24; 240; 224; 0; 0; 1; 7; 12; 24; 16; 16; 16; 8; 15; 3; 0];
  [0; 0; 192; 224; 96; 96; 96; 96; 96; 224; 96; 0; 0; 0; 3; 0; 0; 0; 224; 24; 7; 0; 0; 0; 0; 0; 0; 0; 0; 31; 31; 0; 0; 0; 0; 0];
  [0; 128; 192; 96; 32; 32; 32; 32; 96; 192; 128; 0; 0; 135; 239; 44; 24; 24; 48; 48; 104; 207; 131; 0; 0; 7; 15; 8; 16; 16; 16; 16; 24; 15; 7; 0];
  [0; 0; 192; 192; 32; 32; 32; 32; 192; 128; 0; 0; 0; 31; 63; 96; 64; 64; 64; 32; 16; 255; 254; 0; 0; 0; 12; 28; 16; 16; 16; 8; 15; 3; 0; 0];
  [0; 0; 0; 0; 0; 0; 0; 0; 0; 0; 0; 0; 0; 0; 0; 0; 0; 14; 14; 14; 0; 0; 0; 0; 0; 0; 0; 0; 0; 28; 28; 28; 0; 0; 0; 0];
  [0; 0; 0; 0; 0; 0; 0; 0; 0; 0; 0; 0; 0; 0; 0; 0; 0; 12; 12; 0; 0; 0; 0; 0; 0; 0; 0; 0; 0; 88; 56; 0; 0; 0; 0; 0];
  [0; 0; 0; 0; 0; 0; 0; 128; 64; 32; 16; 0; 0; 0; 16; 40; 68; 130; 1; 0; 0; 0; 0; 0; 0; 0; 0; 0; 0; 0; 1; 2; 4; 8; 16; 0];
  [0; 0; 0; 0; 0; 0; 0; 0; 0; 0; 0; 0; 0; 132; 132; 132; 132; 132; 132; 132; 132; 132; 132; 0; 0; 0; 0; 0; 0; 0; 0; 0; 0; 0; 0; 0];
  [0; 0; 16; 32; 64; 128; 0; 0; 0; 0; 0; 0; 0; 0; 0; 0; 0; 0; 1; 130; 68; 40; 16; 0; 0; 0; 16; 8; 4; 2; 1; 0; 0; 0; 0; 0];
  [0; 192; 32; 32; 16; 16; 16; 16; 48; 224; 192; 0; 0; 3; 3; 0; 0; 240; 16; 8; 12; 7; 3; 0; 0; 0; 0; 0; 28; 28; 28; 0; 0; 0; 0; 0];
  [0; 0; 0; 192; 64; 96; 32; 32; 32; 64; 192; 0; 0; 252; 255; 1; 240; 14; 3; 193; 254; 3; 128; 127; 0; 1; 7; 14; 8; 17; 17; 16; 17; 9; 4; 2];
  [0; 0; 0; 0; 128; 224; 224; 0; 0; 0; 0; 0; 0; 0; 128; 124; 67; 64; 71; 127; 248; 128; 0; 0; 16; 24; 31; 16; 0; 0; 0; 0; 19; 31; 28; 16];
  [32; 224; 224; 32; 32; 32; 32; 96; 192; 128; 0; 0; 0; 255; 255; 16; 16; 16; 16; 24; 47; 231; 128; 0; 16; 31; 31; 16; 16; 16; 16; 16; 24; 15; 7; 0];
  [0; 0; 128; 192; 64; 32; 32; 32; 32; 96; 224; 0; 0; 252; 255; 1; 0; 0; 0; 0; 0; 0; 1; 0; 0; 1; 7; 14; 24; 16; 16; 16; 8; 4; 3; 0];
  [32; 224; 224; 32; 32; 32; 32; 64; 192; 128; 0; 0; 0; 255; 255; 0; 0; 0; 0; 0; 1; 255; 254; 0; 16; 31; 31; 16; 16; 16; 24; 8; 14; 7; 1; 0];
  [32; 224; 224; 32; 32; 32; 32; 32; 32; 96; 128; 0; 0; 255; 255; 16; 16; 16; 16; 124; 0; 0; 0; 0; 16; 31; 31; 16; 16; 16; 16; 16; 16; 24; 6; 0];
  [32; 224; 224; 32; 32; 32; 32; 32; 96; 96; 128; 0; 0; 255; 255; 16; 16; 16; 16; 124; 0; 0; 1; 0; 16; 31; 31; 16; 0; 0; 0; 0; 0; 0; 0; 0];
  [0; 0; 128; 192; 96; 32; 32; 32; 64; 224; 0; 0; 0; 252; 255; 1; 0; 0; 64; 64; 192; 193; 64; 64; 0; 1; 7; 14; 24; 16; 16; 16; 15; 15; 0; 0];
  [32; 224; 224; 32; 0; 0; 0; 0; 32; 224; 224; 32; 0; 255; 255; 16; 16; 16; 16; 16; 16; 255; 255; 0; 16; 31; 31; 16; 0; 0; 0; 0; 16; 31; 31; 16];
  [0; 0; 32; 32; 32; 224; 224; 32; 32; 32; 0; 0; 0; 0; 0; 0; 0; 255; 255; 0; 0; 0; 0; 0; 0; 0; 16; 16; 16; 31; 31; 16; 16; 16; 0; 0];
  [0; 0; 0; 0; 32; 32; 32; 224; 224; 32; 32; 32; 0; 0; 0; 0; 0; 0; 0; 255; 255; 0; 0; 0; 0; 96; 224; 128; 128; 128; 192; 127; 63; 0; 0; 0];
  [32; 224; 224; 32; 0; 0; 32; 160; 96; 32; 32; 0; 0; 255; 255; 48; 24; 124; 227; 192; 0; 0; 0; 0; 16; 31; 31; 16; 0; 0; 1; 19; 31; 28; 24; 16];
  [32; 224; 224; 32; 0; 0; 0; 0; 0; 0; 0; 0; 0; 255; 255; 0; 0; 0; 0; 0; 0; 0; 0; 0; 16; 31; 31; 16; 16; 16; 16; 16; 16; 24; 6; 0];
  [32; 224; 224; 224; 0; 0; 0; 0; 224; 224; 224; 32; 0; 255; 1; 63; 254; 192; 224; 30; 1; 255; 255; 0; 16; 31; 16; 0; 3; 31; 3; 0; 16; 31; 31; 16];
  [32; 224; 224; 192; 0; 0; 0; 0; 0; 32; 224; 32; 0; 255; 0; 3; 7; 28; 120; 224; 128; 0; 255; 0; 16; 31; 16; 0; 0; 0; 0; 0; 3; 15; 31; 0];
  [0; 0; 128; 192; 96; 32; 32; 96; 192; 128; 0; 0; 0; 254; 255; 1; 0; 0; 0; 0; 0; 255; 254; 0; 0; 1; 7; 14; 24; 16; 16; 24; 12; 7; 1; 0];
  [32; 224; 224; 32; 32; 32; 32; 32; 96; 192; 128; 0; 0; 255; 255; 32; 32; 32; 32; 32; 48; 31; 15; 0; 16; 31; 31; 16; 0; 0; 0; 0; 0; 0; 0; 0];
  [0; 0; 128; 192; 96; 32; 32; 96; 192; 128; 0; 0; 0; 254; 255; 1; 0; 0; 0; 0; 0; 255; 254; 0; 0; 1; 7; 14; 17; 17; 19; 60; 124; 103; 33; 0];
  [32; 224; 224; 32; 32; 32; 32; 32; 96; 192; 128; 0; 0; 255; 255; 16; 16; 48; 240; 208; 8; 15; 7; 0; 16; 31; 31; 16; 0; 0; 0; 3; 15; 28; 16; 16];
  [0; 128; 192; 96; 32; 32; 32; 32; 64; 64; 224; 0; 0; 7; 15; 12; 24; 24; 48; 48; 96; 224; 129; 0; 0; 31; 12; 8; 16; 16; 16; 16; 24; 15; 7; 0];
  [128; 96; 32; 32; 32; 224; 224; 32; 32; 32; 96; 128; 1; 0; 0; 0; 0; 255; 255; 0; 0; 0; 0; 1; 0; 0; 0; 0; 16; 31; 31; 16; 0; 0; 0; 0];
  [32; 224; 224; 32; 0; 0; 0; 0; 0; 32; 224; 32; 0; 255; 255; 0; 0; 0; 0; 0; 0; 0; 255; 0; 0; 7; 15; 24; 16; 16; 16; 16; 16; 8; 7; 0];
  [32; 96; 224; 224; 32; 0; 0; 0; 32; 224; 96; 32; 0; 0; 7; 127; 248; 128; 0; 128; 124; 3; 0; 0; 0; 0; 0; 0; 7; 31; 28; 7; 0; 0; 0; 0];
  [32; 224; 224; 32; 0; 224; 224; 32; 0; 32; 224; 32; 0; 7; 255; 248; 224; 31; 255; 252; 224; 31; 0; 0; 0; 0; 3; 31; 3; 0; 1; 31; 3; 0; 0; 0];
  [0; 32; 96; 224; 160; 0; 0; 32; 224; 96; 32; 0; 0; 0; 0; 3; 143; 124; 248; 198; 1; 0; 0; 0; 0; 16; 24; 30; 19; 0; 1; 23; 31; 24; 16; 0];
  [32; 96; 224; 224; 32; 0; 0; 0; 32; 224; 96; 32; 0; 0; 1; 7; 62; 248; 224; 24; 7; 0; 0; 0; 0; 0; 0; 16; 16; 31; 31; 16; 16; 0; 0; 0];
  [0; 128; 96; 32; 32; 32; 32; 160; 224; 224; 32; 0; 0; 0; 0; 0; 192; 240; 62; 15; 3; 0; 0; 0; 0; 16; 28; 31; 23; 16; 16; 16; 16; 24; 6; 0];
  [0; 0; 0; 0; 0; 252; 4; 4; 4; 4; 4; 0; 0; 0; 0; 0; 0; 255; 0; 0; 0; 0; 0; 0; 0; 0; 0; 0; 0; 127; 64; 64; 64; 64; 64; 0];
  [0; 0; 16; 224; 0; 0; 0; 0; 0; 0; 0; 0; 0; 0; 0; 0; 3; 28; 96; 128; 0; 0; 0; 0; 0; 0; 0; 0; 0; 0; 0; 3; 12; 112; 128; 0];
  [0; 0; 4; 4; 4; 4; 4; 252; 0; 0; 0; 0; 0; 0; 0; 0; 0; 0; 0; 255; 0; 0; 0; 0; 0; 0; 64; 64; 64; 64; 64; 127; 0; 0; 0; 0];
  [0; 0; 0; 16; 8; 12; 4; 12; 8; 16; 0; 0; 0; 0; 0; 0; 0; 0; 0; 0; 0; 0; 0; 0; 0; 0; 0; 0; 0; 0; 0; 0; 0; 0; 0; 0];
  [0; 0; 0; 0; 0; 0; 0; 0; 0; 0; 0; 0; 0; 0; 0; 0; 0; 0; 0; 0; 0; 0; 0; 0; 128; 128; 128; 128; 128; 128; 128; 128; 128; 128; 128; 128];
  [0; 0; 0; 4; 4; 8; 8; 0; 0; 0; 0; 0; 0; 0; 0; 0; 0; 0; 0; 0; 0; 0; 0; 0; 0; 0; 0; 0; 0; 0; 0; 0; 0; 0; 0; 0];
  [0; 0; 0; 0; 0; 0; 0; 0; 0; 0; 0; 0; 0; 0; 152; 216; 68; 100; 36; 36; 252; 248; 0; 0; 0; 15; 31; 24; 16; 16; 16; 8; 31; 31; 16; 24];
  [0; 32; 224; 240; 0; 0; 0; 0; 0; 0; 0; 0; 0; 0; 255; 255; 24; 8; 4; 4; 12; 248; 240; 0; 0; 0; 31; 15; 24; 16; 16; 16; 24; 15; 3; 0];
  [0; 0; 0; 0; 0; 0; 0; 0; 0; 0; 0; 0; 0; 224; 248; 24; 4; 4; 4; 60; 56; 0; 0; 0; 0; 3; 15; 12; 16; 16; 16; 16; 8; 6; 0; 0];
  [0; 0; 0; 0; 0; 0; 0; 32; 224; 240; 0; 0; 0; 224; 248; 28; 4; 4; 4; 8; 255; 255; 0; 0; 0; 3; 15; 24; 16; 16; 16; 8; 31; 15; 8; 0];
  [0; 0; 0; 0; 0; 0; 0; 0; 0; 0; 0; 0; 0; 0; 224; 248; 72; 68; 68; 68; 76; 120; 112; 0; 0; 0; 3; 15; 12; 24; 16; 16; 16; 8; 4; 0];
  [0; 0; 0; 0; 128; 192; 96; 32; 32; 224; 192; 0; 0; 4; 4; 4; 255; 255; 4; 4; 4; 4; 0; 0; 0; 0; 16; 16; 31; 31; 16; 16; 16; 0; 0; 0];
  [0; 0; 0; 0; 0; 0; 0; 0; 0; 0; 0; 0; 0; 0; 112; 248; 140; 4; 4; 140; 248; 116; 4; 12; 0; 112; 118; 207; 141; 141; 141; 137; 200; 120; 112; 0];
  [0; 32; 224; 240; 0; 0; 0; 0; 0; 0; 0; 0; 0; 0; 255; 255; 8; 4; 4; 4; 252; 248; 0; 0; 0; 16; 31; 31; 16; 0; 0; 16; 31; 31; 16; 0];
  [0; 0; 0; 0; 0; 96; 96; 0; 0; 0; 0; 0; 0; 0; 4; 4; 4; 252; 252; 0; 0; 0; 0; 0; 0; 0; 16; 16; 16; 31; 31; 16; 16; 16; 0; 0];
  [0; 0; 0; 0; 0; 0; 0; 96; 96; 0; 0; 0; 0; 0; 0; 0; 4; 4; 4; 252; 252; 0; 0; 0; 0; 0; 192; 192; 128; 128; 192; 127; 63; 0; 0; 0];
  [0; 32; 224; 240; 0; 0; 0; 0; 0; 0; 0; 0; 0; 0; 255; 255; 128; 192; 244; 28; 4; 4; 0; 0; 0; 16; 31; 31; 17; 0; 3; 31; 28; 16; 16; 0];
  [0; 0; 32; 32; 32; 224; 240; 0; 0; 0; 0; 0; 0; 0; 0; 0; 0; 255; 255; 0; 0; 0; 0; 0; 0; 0; 16; 16; 16; 31; 31; 16; 16; 16; 0; 0];
  [0; 0; 0; 0; 0; 0; 0; 0; 0; 0; 0; 0; 4; 252; 252; 8; 4; 252; 252; 8; 4; 252; 252; 0; 16; 31; 31; 16; 0; 31; 31; 16; 0; 31; 31; 16];
  [0; 0; 0; 0; 0; 0; 0; 0; 0; 0; 0; 0; 0; 4; 252; 252; 8; 8; 4; 4; 252; 248; 0; 0; 0; 16; 31; 31; 16; 0; 0; 16; 31; 31; 16; 0];
  [0; 0; 0; 0; 0; 0; 0; 0; 0; 0; 0; 0; 0; 224; 240; 24; 12; 4; 4; 12; 24; 240; 224; 0; 0; 3; 15; 12; 16; 16; 16; 16; 12; 15; 3; 0];
  [0; 0; 0; 0; 0; 0; 0; 0; 0; 0; 0; 0; 0; 4; 252; 252; 8; 4; 4; 4; 12; 248; 240; 0; 0; 128; 255; 255; 136; 144; 16; 16; 28; 15; 3; 0];
  [0; 0; 0; 0; 0; 0; 0; 0; 0; 0; 0; 0; 0; 224; 248; 28; 4; 4; 4; 8; 248; 252; 0; 0; 0; 3; 15; 24; 16; 16; 144; 136; 255; 255; 128; 0];
  [0; 0; 0; 0; 0; 0; 0; 0; 0; 0; 0; 0; 4; 4; 4; 252; 252; 16; 8; 4; 4; 12; 12; 0; 16; 16; 16; 31; 31; 16; 16; 16; 0; 0; 0; 0];
  [0; 0; 0; 0; 0; 0; 0; 0; 0; 0; 0; 0; 0; 0; 48; 120; 204; 196; 132; 132; 132; 12; 28; 0; 0; 0; 30; 24; 16; 16; 16; 17; 25; 15; 6; 0];
  [0; 0; 0; 0; 0; 192; 0; 0; 0; 0; 0; 0; 0; 4; 4; 4; 255; 255; 4; 4; 4; 0; 0; 0; 0; 0; 0; 0; 15; 31; 16; 16; 16; 12; 0; 0];
  [0; 0; 0; 0; 0; 0; 0; 0; 0; 0; 0; 0; 0; 4; 252; 254; 0; 0; 0; 4; 252; 254; 0; 0; 0; 0; 15; 31; 24; 16; 16; 8; 31; 15; 8; 0];
  [0; 0; 0; 0; 0; 0; 0; 0; 0; 0; 0; 0; 0; 4; 12; 60; 252; 196; 0; 0; 196; 60; 12; 4; 0; 0; 0; 0; 1; 15; 30; 14; 1; 0; 0; 0];
  [0; 0; 0; 0; 0; 0; 0; 0; 0; 0; 0; 0; 4; 60; 252; 196; 0; 228; 124; 252; 132; 128; 124; 4; 0; 0; 7; 31; 7; 0; 0; 7; 31; 7; 0; 0];
  [0; 0; 0; 0; 0; 0; 0; 0; 0; 0; 0; 0; 0; 4; 4; 28; 124; 228; 192; 52; 28; 4; 4; 0; 0; 16; 16; 28; 22; 1; 19; 31; 28; 24; 16; 0];
  [0; 0; 0; 0; 0; 0; 0; 0; 0; 0; 0; 0; 0; 4; 12; 60; 252; 196; 0; 196; 60; 4; 4; 0; 0; 0; 192; 128; 193; 55; 14; 1; 0; 0; 0; 0];
  [0; 0; 0; 0; 0; 0; 0; 0; 0; 0; 0; 0; 0; 0; 28; 4; 4; 196; 244; 124; 28; 4; 0; 0; 0; 0; 16; 28; 31; 23; 17; 16; 16; 24; 14; 0];
  [0; 0; 0; 0; 0; 0; 0; 248; 12; 4; 0; 0; 0; 0; 0; 0; 0; 16; 40; 239; 0; 0; 0; 0; 0; 0; 0; 0; 0; 0; 0; 63; 96; 64; 0; 0];
  [0; 0; 0; 0; 0; 0; 255; 0; 0; 0; 0; 0; 0; 0; 0; 0; 0; 0; 255; 0; 0; 0; 0; 0; 0; 0; 0; 0; 0; 0; 255; 0; 0; 0; 0; 0];
  [0; 0; 4; 12; 248; 0; 0; 0; 0; 0; 0; 0; 0; 0; 0; 0; 239; 40; 16; 0; 0; 0; 0; 0; 0; 0; 64; 96; 63; 0; 0; 0; 0; 0; 0; 0];
  [0; 24; 6; 2; 2; 4; 8; 16; 32; 32; 48; 8; 0; 0; 0; 0; 0; 0; 0; 0; 0; 0; 0; 0; 0; 0; 0; 0; 0; 0; 0; 0; 0; 0; 0; 0];
  [0; 24; 6; 2; 2; 4; 8; 16; 32; 32; 48; 8; 0; 0; 0; 0; 0; 0; 0; 0; 0; 0; 0; 0; 0; 0; 0; 0; 0; 0; 0; 0; 0; 0; 0; 0]].
Definition company_logo : list (list Z) := [
  [0; 0; 0; 0; 0; 0; 0; 0; 0; 0; 0; 0; 0; 0; 0; 0]; [0; 0; 0; 0; 0; 0; 0; 0; 0; 0; 0; 0; 0; 0; 0; 0];
  [0; 0; 0; 0; 0; 0; 0; 0; 0; 0; 0; 0; 0; 0; 0; 0]; [0; 0; 0; 0; 0; 0; 0; 0; 0; 0; 0; 0; 0; 0; 0; 0];
  [0; 0; 0; 0; 0; 0; 0; 0; 0; 0; 0; 0; 0; 0; 0; 0]; [0; 0; 0; 0; 0; 0; 0; 0; 0; 0; 0; 0; 0; 0; 0; 0];
  [0; 0; 0; 0; 0; 0; 0; 0; 0; 0; 0; 0; 0; 0; 0; 0]; [0; 0; 0; 0; 0; 0; 0; 0; 0; 0; 0; 0; 0; 0; 0; 0];
  [0; 0; 0; 0; 0; 252; 252; 252; 0; 128; 192; 240; 248; 56; 176; 192]; [128; 0; 252; 252; 252; 0; 0; 0; 0; 0; 0; 0; 0; 252; 252; 252];
  [0; 0; 0; 0; 0; 0; 0; 0; 0; 0; 252; 252; 252; 0; 0; 0]; [192; 224; 248; 120; 56; 60; 60; 60; 60; 60; 60; 60; 60; 60; 60; 60];
  [0; 0; 0; 252; 252; 252; 60; 60; 60; 60; 60; 60; 60; 60; 60; 60]; [60; 120; 248; 224; 0; 0; 0; 0; 192; 240; 248; 56; 60; 60; 60; 60];
  [60; 60; 60; 60; 60; 60; 60; 56; 0; 0; 0; 252; 252; 0; 0; 0]; [0; 0; 0; 0; 0; 0; 0; 0; 252; 252; 252; 0; 0; 0; 0; 0];
  [0; 0; 0; 0; 0; 227; 249; 254; 63; 239; 231; 249; 62; 223; 239; 243]; [253; 62; 159; 231; 128; 0; 0; 0; 0; 0; 0; 0; 0; 255; 255; 255];
  [30; 30; 30; 30; 30; 30; 30; 30; 30; 30; 255; 255; 255; 0; 0; 0]; [255; 255; 221; 28; 28; 28; 28; 28; 28; 28; 28; 28; 28; 28; 28; 28];
  [0; 0; 0; 255; 255; 255; 56; 56; 56; 56; 56; 56; 56; 56; 56; 248]; [248; 254; 159; 15; 0; 0; 0; 62; 255; 255; 128; 0; 0; 0; 0; 0];
  [0; 0; 0; 0; 0; 0; 0; 0; 0; 0; 0; 255; 255; 30; 30; 30]; [30; 30; 30; 30; 30; 30; 30; 30; 255; 255; 255; 0; 0; 0; 0; 0];
  [0; 0; 0; 0; 0; 31; 31; 31; 0; 1; 1; 6; 15; 7; 3; 1]; [0; 0; 31; 31; 31; 0; 0; 0; 0; 0; 0; 0; 0; 31; 31; 31];
  [0; 0; 0; 0; 0; 0; 0; 0; 0; 0; 31; 31; 31; 0; 0; 0]; [1; 7; 7; 15; 30; 30; 30; 30; 30; 30; 30; 30; 30; 30; 30; 30];
  [0; 0; 0; 31; 31; 31; 0; 0; 0; 0; 0; 0; 0; 0; 0; 0]; [3; 7; 31; 30; 24; 0; 0; 0; 3; 7; 15; 14; 30; 30; 30; 30];
  [30; 30; 30; 30; 30; 30; 30; 30; 0; 0; 0; 31; 31; 0; 0; 0]; [0; 0; 0; 0; 0; 0; 0; 0; 31; 31; 31; 0; 0; 0; 0; 0]].
