(* ===== verification/Oled.v ===== *)
(** * oled.c: the OLED display

    The picture is drawn into [OLED_GRAM], 128 columns of four bytes, and sent to
    the display by I2C: a message is a control byte, 0x00 for commands and 0x40
    for data, and the bytes after it.  The code ignores whether a message was
    acknowledged. *)
From Stdlib Require Import ZifyBool.
From S2P Require Import Prelude Font.

(** [OLED_GRAM[x][i]] *)
Definition gram : Type := list (list Z).
Definition blank_gram : gram := replicate 128 (replicate 4 0).
Definition cell (g : gram) (x i : Z) : option Z := c ← ld g x; ld c i.
Definition set_cell (g : gram) (x i v : Z) : option gram := c ← ld g x; c ← st c i v; st g x c.

(** ** Drawing *)

Definition oled_draw_point (x y t : Z) (g : gram) : option gram :=
  let i := y / 8 in let n := u8 (Z.shiftl 1 (y mod 8)) in
  v ← cell g x i;
  if negb (t =? 0) then set_cell g x i (Z.lor v n)
  else set_cell g x i (u8 (Z.lnot (Z.lor (u8 (Z.lnot v)) n))).
Definition not_mode (mode : Z) : Z := if mode =? 0 then 1 else 0.
(** The eight pixels of a byte, downwards. *)
Definition draw_byte (x mode : Z) (s : Z * Z * gram) : option (Z * Z * gram) :=
  for_loop (fun _ s =>
    let '(temp, y, g) := s in
    g ← oled_draw_point x y (if negb (Z.land temp 1 =? 0) then mode else not_mode mode) g;
    Some (Z.shiftr temp 1, u8 (y + 1), g)) 0 8 s.

Definition font (size1 : Z) : option (list (list Z)) :=
  if size1 =? 8 then Some asc2_0806 else if size1 =? 12 then Some asc2_1206 else if size1 =? 16 then Some asc2_1608
  else if size1 =? 24 then Some asc2_2412 else None.
Definition char_bytes (size1 : Z) : Z := if size1 =? 8 then 6 else u8 ((size1 / 8 + (if negb (size1 mod 8 =? 0) then 1 else 0)) * (size1 / 2)).
(** The state of the loops over bytes: [x], [y0] and the picture. *)
Definition oled_show_char (x y chr size1 mode : Z) (g : gram) : option gram :=
  match font size1 with
  | None => Some g
  | Some f =>
      let chr1 := u8 (chr - 32) in
      s ← for_loop (fun i s =>
            let '(x', y0, g) := s in
            row ← ld f chr1; temp ← ld row (Z.of_nat i);
            r ← draw_byte x' mode (temp, y0, g);
            let x' := u8 (x' + 1) in
            Some (if negb (size1 =? 8) && (x' - x =? size1 / 2) then (x, u8 (y0 + 8), snd r) else (x', y0, snd r)))
          0 (Z.to_nat (char_bytes size1)) (x, y, g);
      Some (snd s)
  end.
(** Up to the first character that has no picture. *)
Fixpoint oled_show_string (x y : Z) (chr : list Z) (size1 mode : Z) (g : gram) : option gram :=
  match chr with
  | [] => None
  | c :: chr =>
      if (32 <=? c) && (c <=? 32 + 95) then
        g ← oled_show_char x y c size1 mode g;
        oled_show_string (u8 (x + (if size1 =? 8 then 6 else size1 / 2))) y chr size1 mode g
      else Some g
  end.

Definition oled_pow (m n : Z) : Z := fold_left (fun r _ => u32 (r * m)) (seq 0 (Z.to_nat n)) 1.
Definition oled_show_num (x y num len size1 mode : Z) (g : gram) : option gram :=
  let m := if size1 =? 8 then 2 else 0 in
  for_loop (fun t g =>
    let t := Z.of_nat t in
    let p := oled_pow 10 (u8 (len - t - 1)) in
    if p =? 0 then None
    else oled_show_char (u8 (x + (size1 / 2 + m) * t)) y (u8 (u8 (num / p mod 10) + 48)) size1 mode g) 0 (Z.to_nat len) g.
(** [bmp]: the bytes of the picture, eight rows at a time. *)
Definition oled_show_picture (x y sizex sizey : Z) (bmp : list Z) (mode : Z) (g : gram) : option gram :=
  let rows := u8 (sizey / 8 + (if negb (sizey mod 8 =? 0) then 1 else 0)) in
  s ← for_loop (fun _ s =>
        for_loop (fun _ s =>
          let '(x', y0, j, g) := s in
          temp ← ld bmp j;
          r ← draw_byte x' mode (temp, y0, g);
          let x' := u8 (x' + 1) in
          Some (if x' - x =? sizex then (x, u8 (y0 + 8), u16 (j + 1), snd r) else (x', y0, u16 (j + 1), snd r))) 0 (Z.to_nat sizex) s)
      0 (Z.to_nat rows) (x, y, 0, g);
  Some (snd s).

(** ** Sending *)

Definition OLED_CMD : Z := 0.
Definition oled_write (buff mode : Z) : list Z := [if negb (mode =? 0) then 0x40 else 0x00; buff].
Definition oled_color_turn (i : Z) : list (list Z) := [oled_write (if i =? 0 then 0xA6 else 0xA7) OLED_CMD].
Definition oled_display_turn (i : Z) : list (list Z) :=
  if i =? 0 then [oled_write 0xC8 OLED_CMD; oled_write 0xA1 OLED_CMD] else [oled_write 0xC0 OLED_CMD; oled_write 0xA0 OLED_CMD].
Definition oled_display_on : list (list Z) := [oled_write 0x8D OLED_CMD; oled_write 0x14 OLED_CMD; oled_write 0xAF OLED_CMD].
Definition oled_display_off : list (list Z) := [oled_write 0x8D OLED_CMD; oled_write 0x10 OLED_CMD; oled_write 0xAE OLED_CMD].
Definition oled_set_cursor (Y X : Z) : list (list Z) :=
  [oled_write (u8 (Z.lor 0xB0 Y)) OLED_CMD; oled_write (u8 (Z.lor 0x10 (Z.shiftr (Z.land X 0xF0) 4))) OLED_CMD;
   oled_write (u8 (Z.lor 0x00 (Z.land X 0x0F))) OLED_CMD].

(** The bytes of a page: one of every column. *)
Definition page_of (g : gram) (i : Z) : option (list Z) := mapM (fun n => cell g (Z.of_nat n) i) (seq 0 128).
Definition send_page (g : gram) (i : Z) : option (list (list Z)) := p ← page_of g i; Some (oled_set_cursor i 0 ++ [0x40 :: p]).
Definition oled_refresh (g : gram) : option (list (list Z)) :=
  for_loop (fun i out => p ← send_page g (Z.of_nat i); Some (out ++ p)) 0 4 [].
Definition copy_page (g old : gram) (i : Z) : option gram :=
  for_loop (fun n old => v ← cell g (Z.of_nat n) i; set_cell old (Z.of_nat n) i v) 0 128 old.
(** [old]: [OLED_GRAM_OLD]; a page is sent when one of its bytes changed. *)
Definition oled_refresh_diff (g old : gram) : option (gram * list (list Z)) :=
  for_loop (fun i s =>
    let '(old, out) := s in
    p ← page_of g (Z.of_nat i); q ← page_of old (Z.of_nat i);
    if decide (p = q) then Some (old, out)
    else m ← send_page g (Z.of_nat i); old ← copy_page g old (Z.of_nat i); Some (old, out ++ m)) 0 4 (old, []).
Definition oled_clear (g old : gram) : option (gram * gram * list (list Z)) :=
  g ← for_loop (fun page g => for_loop (fun col g =>
        v ← cell g (Z.of_nat col) (Z.of_nat page); if negb (v =? 0) then set_cell g (Z.of_nat col) (Z.of_nat page) 0 else Some g) 0 128 g) 0 4 g;
  r ← oled_refresh_diff g old; Some (g, fst r, snd r).

(** The start shows the logo; [OLED_GRAM_OLD] does not take part. *)
Definition init_commands : list (list Z) :=
  map (fun c => oled_write c OLED_CMD)
    [0xAE; 0x00; 0x10; 0x00; 0xB0; 0x81; 0xFF; 0xA1; 0xA6; 0xA8; 0x1F; 0xC8; 0xD3; 0x00; 0xD5; 0x80; 0xD9; 0x1F; 0xDA; 0x00; 0xDB; 0x40; 0x8D; 0x14].
Definition oled_init (g : gram) : option (gram * list (list Z)) :=
  g ← oled_show_picture 0 0 128 32 (concat company_logo) 1 g; m ← oled_refresh g;
  Some (g, init_commands ++ m ++ [oled_write 0xAF OLED_CMD]).

(** ** The display *)

(** The chip (SSD1306) in its page mode: eight rows of bytes, the position of the
    next byte, and whether the next command is the argument of the last. *)
Record panel := mk_panel { ram : list (list Z); at_page : Z; at_col : Z; argument : bool }.
Definition has_argument (c : Z) : bool := existsb (Z.eqb c) [0x81; 0xA8; 0xD3; 0xD5; 0xD9; 0xDA; 0xDB; 0x8D].
Definition on_command (c : Z) (p : panel) : panel :=
  if argument p then mk_panel (ram p) (at_page p) (at_col p) false
  else if c <? 0x10 then mk_panel (ram p) (at_page p) (at_col p / 16 * 16 + c) false
  else if c <? 0x20 then mk_panel (ram p) (at_page p) ((c - 0x10) mod 8 * 16 + at_col p mod 16) false
  else if (0xB0 <=? c) && (c <? 0xB8) then mk_panel (ram p) (c - 0xB0) (at_col p) false
  else mk_panel (ram p) (at_page p) (at_col p) (has_argument c).
Definition on_data (v : Z) (p : panel) : panel :=
  mk_panel (alter (fun r => <[Z.to_nat (at_col p) := v]> r) (Z.to_nat (at_page p)) (ram p)) (at_page p) ((at_col p + 1) mod 128) (argument p).
Definition on_message (p : panel) (m : list Z) : panel :=
  match m with
  | [] => p
  | c :: l => if c =? 0x40 then fold_left (fun p v => on_data v p) l p else fold_left (fun p v => on_command v p) l p
  end.
Definition receive (l : list (list Z)) (p : panel) : panel := fold_left on_message l p.

(** * Properties *)

Definition shape (g : gram) : Prop := length g = 128%nat /\ Forall (fun c => length c = 4%nat) g.
(** The upper half of the display memory holds a picture. *)
Definition shows (g : gram) (p : panel) : Prop :=
  argument p = false /\ length (ram p) = 8%nat /\ Forall (fun r => length r = 128%nat) (ram p) /\
  forall x i, 0 <= x < 128 -> 0 <= i < 4 -> (r ← ld (ram p) i; ld r x) = cell g x i.

Lemma cell_some g x i : shape g -> 0 <= x < 128 -> 0 <= i < 4 -> exists c v, ld g x = Some c /\ ld c i = Some v /\ length c = 4%nat.
Proof.
  intros [Hl Hc] Hx Hi. destruct (proj2 (ld_is_Some g x) ltac:(lia)) as [c Ec]. pose proof Ec as E'. apply ld_Some_iff in E' as [_ E'].
  rewrite Forall_lookup in Hc. pose proof (Hc _ _ E') as H4. destruct (proj2 (ld_is_Some c i) ltac:(lia)) as [v Ev]. by exists c, v.
Qed.
Lemma cell_is g x i : shape g -> 0 <= x < 128 -> 0 <= i < 4 -> is_Some (cell g x i).
Proof. intros Hg Hx Hi. destruct (cell_some g x i Hg Hx Hi) as (c & v & Ec & Ev & _). unfold cell. rewrite Ec. cbn. by exists v. Qed.
(** Writing a cell. *)
Lemma set_cell_spec g x i v : shape g -> 0 <= x < 128 -> 0 <= i < 4 ->
  exists g', set_cell g x i v = Some g' /\ shape g' /\
    forall x' i', 0 <= x' -> 0 <= i' -> cell g' x' i' = if (x' =? x) && (i' =? i) then Some v else cell g x' i'.
Proof.
  intros Hg Hx Hi. destruct (cell_some g x i Hg Hx Hi) as (c & w & Ec & Ev & H4). destruct Hg as [Hl Hc]. unfold set_cell. rewrite Ec. cbn [mbind option_bind].
  rewrite st_Some by lia. cbn [mbind option_bind]. rewrite st_Some by lia. eexists. split; [reflexivity|]. split.
  - split; [by rewrite length_insert|]. apply Forall_insert; [done|by rewrite length_insert].
  - intros x' i' Hx' Hi'. unfold cell. destruct (Z.eqb_spec x' x) as [-> | Hne]; cbn [andb].
    + rewrite ld_insert_eq by lia. cbn [mbind option_bind]. rewrite Ec. cbn [mbind option_bind].
      destruct (Z.eqb_spec i' i) as [-> | Hne]; [by rewrite ld_insert_eq by lia|by rewrite ld_insert_ne by lia].
    + by rewrite ld_insert_ne by lia.
Qed.

(** ** Sending *)

Lemma mapM_lookup {A B} (f : A -> option B) (l : list A) : (forall a, a ∈ l -> is_Some (f a)) ->
  exists k, mapM f l = Some k /\ length k = length l /\ forall j a, l !! j = Some a -> k !! j = f a.
Proof.
  intros H. destruct (mapM f l) as [k|] eqn:E.
  - apply mapM_Some in E. exists k. split; [done|]. split; [symmetry; by apply (Forall2_length _ _ _ E)|]. intros j a Ha.
    destruct (Forall2_lookup_l _ _ _ _ _ E Ha) as (b & Hb & Hf). by rewrite Hb.
  - exfalso. apply mapM_None in E. apply Exists_exists in E as (a & Ha & Hn). destruct (H a Ha) as [b Hb]. by rewrite Hb in Hn.
Qed.
Lemma page_of_spec g i : shape g -> 0 <= i < 4 ->
  exists l, page_of g i = Some l /\ length l = 128%nat /\ forall x, 0 <= x < 128 -> ld l x = cell g x i.
Proof.
  intros Hg Hi. unfold page_of. destruct (mapM_lookup (fun n => cell g (Z.of_nat n) i) (seq 0 128)) as (l & E & Hl & Hk).
  - intros n Hn. apply elem_of_seq in Hn. apply cell_is; [done|lia|done].
  - rewrite length_seq in Hl. exists l. split; [exact E|]. split; [exact Hl|]. intros x Hx. unfold ld at 1. rewrite (proj2 (Z.leb_le 0 x)) by lia.
    rewrite (Hk (Z.to_nat x) (Z.to_nat x)); [by rewrite Z2Nat.id by lia|]. apply lookup_seq. lia.
Qed.
Lemma put_cons {A} (v : A) l r c : (c + S (length l) <= length r)%nat -> put (S c) l (<[c:=v]> r) = put c (v :: l) r.
Proof.
  intros H. assert (E : <[c:=v]> r = put c [v] r).
  { unfold put. cbn [length]. rewrite insert_take_drop by lia. cbn [app]. by replace (S c) with (c + 1)%nat by lia. }
  rewrite E. replace (S c) with (c + length [v])%nat by (cbn; lia). by rewrite put_put_app by (cbn; lia).
Qed.
(** A run of data bytes inside a row. *)
Lemma on_data_run l : forall p r, 0 <= at_col p -> 0 <= at_page p -> at_col p + zlen l <= 128 -> ram p !! Z.to_nat (at_page p) = Some r -> length r = 128%nat ->
  fold_left (fun p v => on_data v p) l p =
    mk_panel (<[Z.to_nat (at_page p) := put (Z.to_nat (at_col p)) l r]> (ram p)) (at_page p) (if decide (l = []) then at_col p else (at_col p + zlen l) mod 128) (argument p).
Proof.
  induction l as [|v l IH]; intros p r Hc Hp Hl Hr H128.
  - destruct p as [ra pa co ar]. cbn [fold_left ram at_page at_col argument] in *. f_equal.
    unfold put. cbn [length app]. rewrite Nat.add_0_r, take_drop. symmetry. by apply list_insert_id.
  - cbn [fold_left length] in *. rewrite Nat2Z.inj_succ in Hl.
    assert (Hal : alter (fun r => <[Z.to_nat (at_col p) := v]> r) (Z.to_nat (at_page p)) (ram p) = <[Z.to_nat (at_page p) := <[Z.to_nat (at_col p) := v]> r]> (ram p)).
    { apply list_eq. intros j. destruct (decide (j = Z.to_nat (at_page p))) as [-> | Hne].
      - rewrite list_lookup_alter_eq, Hr, list_lookup_insert_eq by (by apply lookup_lt_Some in Hr). done.
      - by rewrite list_lookup_alter_ne, list_lookup_insert_ne by done. }
    destruct (decide (l = [])) as [-> | Hne].
    + cbn [fold_left]. unfold on_data at 1. rewrite Hal. f_equal. f_equal. rewrite <-put_cons by (cbn in *; lia).
      unfold put. cbn [length app]. by rewrite Nat.add_0_r, take_drop.
    + assert (Hlen : 0 < zlen l) by (destruct l; [done|cbn; lia]).
      rewrite (IH (on_data v p) (<[Z.to_nat (at_col p) := v]> r)); cbn [on_data at_col at_page ram argument].
      * rewrite Hal, list_insert_insert_eq, (Z.mod_small (at_col p + 1)) by lia. f_equal.
        -- f_equal. replace (Z.to_nat (at_col p + 1)) with (S (Z.to_nat (at_col p))) by lia. apply put_cons. lia.
        -- f_equal. cbn [length]. lia.
      * apply Z.mod_pos_bound. lia.
      * done.
      * rewrite Z.mod_small by lia. lia.
      * rewrite Hal. apply list_lookup_insert_eq. by apply lookup_lt_Some in Hr.
      * by rewrite length_insert.
Qed.
(** A page on its way. *)
Lemma receive_page i l p : 0 <= i < 4 -> length l = 128%nat -> argument p = false -> length (ram p) = 8%nat -> Forall (fun r => length r = 128%nat) (ram p) ->
  exists c, receive (oled_set_cursor i 0 ++ [0x40 :: l]) p = mk_panel (<[Z.to_nat i := l]> (ram p)) i c false.
Proof.
  intros Hi Hl Ha H8 Hr. set (p1 := mk_panel (ram p) i 0 false).
  assert (Hcur : receive (oled_set_cursor i 0) p = p1).
  { unfold p1. destruct p as [ra pa co ar]. cbn [argument ram] in *. subst ar.
    assert (i = 0 \/ i = 1 \/ i = 2 \/ i = 3) as [-> | [-> | [-> | ->]]] by lia; cbn; unfold on_command; cbn; f_equal;
      rewrite Z.add_0_r, Z.div_small by (apply Z.mod_pos_bound; lia); lia. }
  destruct (lookup_lt_is_Some_2 (ram p) (Z.to_nat i)) as [r Er]; [lia|].
  assert (H128 : length r = 128%nat) by exact (proj1 (Forall_lookup _ _) Hr _ _ Er).
  unfold receive in *. rewrite fold_left_app, Hcur. cbn [fold_left on_message Z.eqb Pos.eqb].
  rewrite (on_data_run l p1 r); cbn [p1 at_col at_page ram argument]; [|lia|lia|lia|done|done]. eexists. f_equal. f_equal.
  unfold put. change (Z.to_nat 0) with 0%nat. rewrite take_0, drop_ge by lia. cbn [app]. apply app_nil_r.
Qed.
Lemma copy_page_spec g old i : shape g -> shape old -> 0 <= i < 4 ->
  exists old', copy_page g old i = Some old' /\ shape old' /\
    forall x i', 0 <= x < 128 -> 0 <= i' -> cell old' x i' = if i' =? i then cell g x i else cell old x i'.
Proof.
  intros Hg Ho Hi. unfold copy_page.
  destruct (for_loop_ind (fun n o => shape o /\ forall x i', 0 <= x < 128 -> 0 <= i' ->
      cell o x i' = if (i' =? i) && (x <? Z.of_nat n) then cell g x i else cell old x i')
    (fun n old => v ← cell g (Z.of_nat n) i; set_cell old (Z.of_nat n) i v) 128 0 old) as (o & E & Hs & Hc).
  - split; [done|]. intros x i' Hx Hi'. by rewrite (proj2 (Z.ltb_ge x (Z.of_nat 0))), andb_false_r by lia.
  - intros j o Hj [Hs Hc]. destruct (cell_is g (Z.of_nat j) i Hg ltac:(lia) Hi) as [v Ev]. rewrite Ev. cbn [mbind option_bind].
    destruct (set_cell_spec o (Z.of_nat j) i v Hs ltac:(lia) Hi) as (o' & E & Hs' & Hc'). exists o'. split; [exact E|]. split; [exact Hs'|].
    intros x i' Hx Hi'. rewrite Hc', Hc by lia. rewrite Nat2Z.inj_succ. destruct (Z.eqb_spec i' i) as [-> |]; [|by rewrite andb_false_r].
    destruct (Z.eqb_spec x (Z.of_nat j)) as [-> | Hne]; cbn [andb].
    + by rewrite (proj2 (Z.ltb_lt _ _)) by lia.
    + by replace (x <? Z.succ (Z.of_nat j)) with (x <? Z.of_nat j) by lia.
  - exists o. split; [exact E|]. split; [exact Hs|]. intros x i' Hx Hi'. rewrite Hc by done.
    by rewrite (proj2 (Z.ltb_lt x (Z.of_nat (0 + 128)))), andb_true_r by lia.
Qed.
(** Two pages with the same bytes. *)
Lemma page_of_eq g g' i : shape g -> shape g' -> 0 <= i < 4 -> page_of g i = page_of g' i <-> forall x, 0 <= x < 128 -> cell g x i = cell g' x i.
Proof.
  intros Hg Hg' Hi. destruct (page_of_spec g i Hg Hi) as (l & E & Hl & Hc), (page_of_spec g' i Hg' Hi) as (l' & E' & Hl' & Hc'). rewrite E, E'. split.
  - intros [= ->] x Hx. by rewrite <-Hc, Hc'.
  - intros H. f_equal. apply list_eq. intros j. destruct (decide (j < 128)%nat) as [Hj|Hj].
    + specialize (H (Z.of_nat j) ltac:(lia)). rewrite <-Hc, <-Hc', !ld_nat in H by lia. exact H.
    + by rewrite !lookup_ge_None_2 by lia.
Qed.
Lemma receive_app l1 l2 p : receive (l1 ++ l2) p = receive l2 (receive l1 p).
Proof. apply fold_left_app. Qed.
(** A page sent replaces the page shown. *)
Lemma send_page_shows g old p i : shape g -> shape old -> shows old p -> 0 <= i < 4 ->
  exists m old', send_page g i = Some m /\ copy_page g old i = Some old' /\ shape old' /\ shows old' (receive m p) /\
    forall x i', 0 <= x < 128 -> 0 <= i' -> cell old' x i' = if i' =? i then cell g x i else cell old x i'.
Proof.
  intros Hg Ho (Ha & H8 & Hr & Hs) Hi. destruct (page_of_spec g i Hg Hi) as (l & E & Hl & Hc).
  destruct (copy_page_spec g old i Hg Ho Hi) as (old' & Eo & Ho' & Hc'). unfold send_page. rewrite E. cbn [mbind option_bind].
  eexists _, old'. split; [reflexivity|]. split; [exact Eo|]. split; [exact Ho'|]. split; [|exact Hc'].
  destruct (receive_page i l p Hi Hl Ha H8 Hr) as (c & ->). split; [done|]. cbn [ram]. split; [by rewrite length_insert|].
  split; [by apply Forall_insert|]. intros x i' Hx Hi'. rewrite Hc' by lia. destruct (Z.eqb_spec i' i) as [-> | Hne].
  - rewrite ld_insert_eq by lia. cbn [mbind option_bind]. by apply Hc.
  - rewrite ld_insert_ne by lia. by apply Hs.
Qed.

(** A refresh shows the picture.  While the display shows the picture of the
    last refresh, whatever was drawn since, [oled_refresh_diff] sends messages
    that make the display show the new one, and remembers it; the pages that did
    not change are not sent: for an unchanged picture there is no message. *)
Lemma refresh_diff_shows g old p : shape g -> shape old -> shows old p ->
  exists old' out, oled_refresh_diff g old = Some (old', out) /\ shape old' /\ shows g (receive out p) /\ shows old' (receive out p) /\
    ((forall x i, 0 <= x < 128 -> 0 <= i < 4 -> cell g x i = cell old x i) -> old' = old /\ out = []).
Proof.
  intros Hg Ho Hp. unfold oled_refresh_diff.
  destruct (for_loop_ind (fun n s => shape (fst s) /\ shows (fst s) (receive (snd s) p) /\
      (forall x i, 0 <= x < 128 -> 0 <= i < 4 -> cell (fst s) x i = if i <? Z.of_nat n then cell g x i else cell old x i) /\
      ((forall x i, 0 <= x < 128 -> 0 <= i < 4 -> cell g x i = cell old x i) -> s = (old, [])))
    (fun i s => let '(old, out) := s in p ← page_of g (Z.of_nat i); q ← page_of old (Z.of_nat i);
      if decide (p = q) then Some (old, out) else m ← send_page g (Z.of_nat i); old ← copy_page g old (Z.of_nat i); Some (old, out ++ m)) 4 0 (old, []))
    as ([old' out] & E & Ho' & Hs & Hc & Hn).
  - split; [done|]. split; [done|]. split; [|done]. intros x i Hx Hi. by rewrite (proj2 (Z.ltb_ge i (Z.of_nat 0))) by lia.
  - intros j [o out] Hj (Hs1 & Hs2 & Hc & Hn). cbn [fst snd] in *. set (i := Z.of_nat j) in *. assert (Hi : 0 <= i < 4) by lia.
    destruct (page_of_spec g i Hg Hi) as (l & El & _ & _), (page_of_spec o i Hs1 Hi) as (l' & El' & _ & _).
    pose proof (page_of_eq g o i Hg Hs1 Hi) as Heq. rewrite El, El' in *. cbn [mbind option_bind].
    assert (Hnext : forall i', (i' <? Z.of_nat (S j)) = (i' <? i) || (i' =? i)) by (intros; lia).
    destruct (decide (l = l')) as [-> | Hne].
    + exists (o, out). split; [done|]. split; [done|]. split; [done|]. split; [|done]. intros x i' Hx Hi'. cbn [fst]. rewrite Hnext, Hc by done.
      destruct (i' <? i); [done|]. destruct (Z.eqb_spec i' i) as [-> |]; [|done]. cbn [orb]. rewrite (proj1 Heq eq_refl x Hx), Hc by done.
      by rewrite (proj2 (Z.ltb_ge i i)) by lia.
    + destruct (send_page_shows g o (receive out p) i Hg Hs1 Hs2 Hi) as (m & o' & -> & -> & Ho' & Hs' & Hc'). cbn [mbind option_bind].
      exists (o', out ++ m). split; [done|]. split; [exact Ho'|]. split; [cbn [fst snd]; by rewrite receive_app|]. split.
      * intros x i' Hx Hi'. cbn [fst]. rewrite Hnext, Hc', Hc by lia. destruct (Z.eqb_spec i' i) as [-> |]; [by rewrite orb_true_r|by rewrite orb_false_r].
      * intros Hsame. exfalso. apply Hne. specialize (Hn Hsame). injection Hn as -> _. enough (Some l = Some l') by congruence. apply Heq.
        intros x Hx. by apply Hsame.
  - exists old', out. split; [exact E|]. split; [exact Ho'|]. split; [|split; [exact Hs|]].
    + destruct Hs as (H1 & H2 & H3 & H4). split; [done|]. split; [done|]. split; [done|]. intros x i Hx Hi. rewrite H4, Hc by done.
      by rewrite (proj2 (Z.ltb_lt i (Z.of_nat (0 + 4)))) by lia.
    + intros Hsame. specialize (Hn Hsame). by injection Hn as -> ->.
Qed.

(** ** Drawing *)

(** The pixel in column [x] and row [y]. *)
Definition pixel (g : gram) (x y : Z) : bool := match cell g x (y / 8) with Some v => Z.testbit v (y mod 8) | None => false end.

Lemma u8_bit v k : 0 <= k < 8 -> Z.testbit (u8 v) k = Z.testbit v k.
Proof. intros Hk. unfold u8. rewrite Z.mod_pow2_bits_low by lia. done. Qed.
Lemma point_bit k : 0 <= k < 8 -> forall j, 0 <= j < 8 -> Z.testbit (u8 (Z.shiftl 1 k)) j = (j =? k).
Proof.
  intros Hk j Hj. rewrite u8_bit, Z.shiftl_1_l, Z.pow2_bits_eqb by lia. apply Z.eqb_sym.
Qed.
Lemma oled_draw_point_spec g x y t : shape g -> 0 <= x < 128 -> 0 <= y < 32 ->
  exists g', oled_draw_point x y t g = Some g' /\ shape g' /\
    forall x' y', 0 <= x' -> 0 <= y' -> pixel g' x' y' = if (x' =? x) && (y' =? y) then negb (t =? 0) else pixel g x' y'.
Proof.
  intros Hg Hx Hy. assert (Hi : 0 <= y / 8 < 4) by (Z.div_mod_to_equations; lia). assert (Hm : 0 <= y mod 8 < 8) by (apply Z.mod_pos_bound; lia).
  destruct (cell_is g x (y / 8) Hg Hx Hi) as [v Ev]. unfold oled_draw_point. rewrite Ev. cbn [mbind option_bind].
  set (n := u8 (Z.shiftl 1 (y mod 8))). set (w := if negb (t =? 0) then Z.lor v n else u8 (Z.lnot (Z.lor (u8 (Z.lnot v)) n))).
  replace (if negb (t =? 0) then _ else _) with (set_cell g x (y / 8) w) by (unfold w; by destruct (negb _)).
  destruct (set_cell_spec g x (y / 8) w Hg Hx Hi) as (g' & E & Hs & Hc). exists g'. split; [exact E|]. split; [exact Hs|].
  intros x' y' Hx' Hy'. assert (Hi' : 0 <= y' / 8) by (apply Z.div_pos; lia). assert (Hm' : 0 <= y' mod 8 < 8) by (apply Z.mod_pos_bound; lia).
  unfold pixel. rewrite Hc by done. destruct (Z.eqb_spec x' x) as [-> |]; [|done]. cbn [andb]. destruct (Z.eqb_spec (y' / 8) (y / 8)) as [Ed|Hne].
  - assert (Hw : Z.testbit w (y' mod 8) = if y' mod 8 =? y mod 8 then negb (t =? 0) else Z.testbit v (y' mod 8)).
    { unfold w. destruct (t =? 0); cbn [negb].
      - rewrite u8_bit, Z.lnot_spec, Z.lor_spec, u8_bit, Z.lnot_spec by lia. unfold n. rewrite point_bit by done.
        destruct (y' mod 8 =? y mod 8); [by rewrite orb_true_r|by rewrite orb_false_r, negb_involutive].
      - rewrite Z.lor_spec. unfold n. rewrite point_bit by done. destruct (y' mod 8 =? y mod 8); [by rewrite orb_true_r|by rewrite orb_false_r]. }
    rewrite Hw, Ed, Ev. replace (y' mod 8 =? y mod 8) with (y' =? y); [done|]. clear - Ed. 
    pose proof (Z.div_mod y 8). pose proof (Z.div_mod y' 8). apply eq_true_iff_eq. rewrite !Z.eqb_eq. split; [by intros ->|]. intros. lia.
  - destruct (Z.eqb_spec y' y) as [-> |]; done.
Qed.
Lemma low_bit t : negb (Z.land t 1 =? 0) = Z.testbit t 0.
Proof. change (Z.land t 1) with (Z.land t (Z.ones 1)). rewrite Z.land_ones by lia. change (2 ^ 1) with 2. rewrite <-Z.bit0_mod. by destruct (Z.testbit t 0). Qed.
(** A bit is shown as it is, or inverted. *)
Definition ink (mode : Z) (b : bool) : bool := Bool.eqb b (negb (mode =? 0)).
Lemma draw_byte_spec g x y temp mode : shape g -> 0 <= x < 128 -> 0 <= y -> y + 8 <= 32 ->
  exists s, draw_byte x mode (temp, y, g) = Some s /\ shape (snd s) /\
    forall x' y', 0 <= x' -> 0 <= y' ->
      pixel (snd s) x' y' = if (x' =? x) && ((y <=? y') && (y' <? y + 8)) then ink mode (Z.testbit temp (y' - y)) else pixel g x' y'.
Proof.
  intros Hg Hx Hy Hy8. unfold draw_byte.
  destruct (for_loop_ind (fun m s => let '(t, yy, g') := s in t = Z.shiftr temp (Z.of_nat m) /\ yy = y + Z.of_nat m /\ shape g' /\
      forall x' y', 0 <= x' -> 0 <= y' ->
        pixel g' x' y' = if (x' =? x) && ((y <=? y') && (y' <? y + Z.of_nat m)) then ink mode (Z.testbit temp (y' - y)) else pixel g x' y')
    (fun _ s => let '(temp, y, g) := s in
      g ← oled_draw_point x y (if negb (Z.land temp 1 =? 0) then mode else not_mode mode) g; Some (Z.shiftr temp 1, u8 (y + 1), g)) 8 0 (temp, y, g))
    as ([[t yy] g'] & E & _ & _ & Hs & Hp).
  - split; [by rewrite Z.shiftr_0_r|]. split; [lia|]. split; [done|]. intros x' y' _ _. replace (_ && _) with false by lia. done.
  - intros m [[t yy] g1] Hm (-> & -> & Hs & Hp).
    destruct (oled_draw_point_spec g1 x (y + Z.of_nat m) (if negb (Z.land (Z.shiftr temp (Z.of_nat m)) 1 =? 0) then mode else not_mode mode))
      as (g2 & E & Hs2 & Hp2); [done|done|lia|]. rewrite E. cbn [mbind option_bind]. eexists. split; [reflexivity|].
    split; [rewrite Z.shiftr_shiftr by lia; f_equal; lia|]. split; [rewrite u8_small by lia; lia|]. split; [done|]. intros x' y' Hx' Hy'. rewrite Hp2, Hp by done.
    destruct (Z.eqb_spec x' x) as [-> |]; [|done]. cbn [andb]. destruct (Z.eqb_spec y' (y + Z.of_nat m)) as [-> |Hne].
    + replace (_ && _) with true by lia. rewrite low_bit, Z.shiftr_spec by lia. replace (y + Z.of_nat m - y) with (0 + Z.of_nat m) by lia.
      unfold ink, not_mode. destruct (Z.testbit temp _), (Z.eqb_spec mode 0) as [->|]; try done; by rewrite (proj2 (Z.eqb_neq _ _)).
    + replace (y' <? y + Z.of_nat (S m)) with (y' <? y + Z.of_nat m) by lia. done.
  - exists (t, yy, g'). split; [exact E|]. split; [exact Hs|]. intros x' y' Hx' Hy'. cbn [snd]. by rewrite Hp by done.
Qed.

(** The picture of a character of the 16 pixel font: column [dx], row [dy]. *)
Definition glyph (c dx dy : Z) : bool :=
  match ld asc2_1608 (c - 32) with Some r => match ld r (dx + 8 * (dy / 8)) with Some b => Z.testbit b (dy mod 8) | None => false end | None => false end.
Lemma font_rows c : 32 <= c <= 127 -> exists r, ld asc2_1608 (c - 32) = Some r /\ length r = 16%nat.
Proof.
  intros Hc. destruct (proj2 (ld_is_Some asc2_1608 (c - 32))) as [r Er]; [vm_compute (zlen asc2_1608); lia|]. exists r. split; [done|].
  apply ld_Some_iff in Er as [_ Er]. assert (Hall : forallb (fun r => length r =? 16)%nat asc2_1608 = true) by (vm_compute; reflexivity).
  rewrite forallb_forall in Hall. apply Nat.eqb_eq, Hall, list_elem_of_In. by eapply list_elem_of_lookup_2.
Qed.
Definition in_box (x y w h x' y' : Z) : bool := ((x <=? x') && (x' <? x + w)) && ((y <=? y') && (y' <? y + h)).
(** The byte of a glyph in which a pixel lies. *)
Lemma box_step x y i x' y' : 0 <= i < 16 ->
  in_box x y 8 16 x' y' && ((x' - x) + 8 * ((y' - y) / 8) <? i + 1) =
  (in_box x y 8 16 x' y' && ((x' - x) + 8 * ((y' - y) / 8) <? i)) || ((x' =? x + i mod 8) && ((y + 8 * (i / 8) <=? y') && (y' <? y + 8 * (i / 8) + 8))).
Proof. intros Hi. unfold in_box. Z.div_mod_to_equations. lia. Qed.
Lemma oled_show_char_spec g x y c mode : shape g -> 0 <= x -> x + 8 <= 128 -> 0 <= y -> y + 16 <= 32 -> 32 <= c <= 127 ->
  exists g', oled_show_char x y c 16 mode g = Some g' /\ shape g' /\
    forall x' y', 0 <= x' -> 0 <= y' -> pixel g' x' y' = if in_box x y 8 16 x' y' then ink mode (glyph c (x' - x) (y' - y)) else pixel g x' y'.
Proof.
  intros Hg Hx Hx8 Hy Hy16 Hc. destruct (font_rows c Hc) as (row & Er & Hr). unfold oled_show_char. change (font 16) with (Some asc2_1608). cbv iota.
  change (Z.to_nat (char_bytes 16)) with 16%nat. rewrite u8_small by lia.
  destruct (for_loop_ind (fun i s => let '(xx, y0, g') := s in
      (0 <= i <= 16)%nat /\ ((i < 16)%nat -> xx = x + Z.of_nat i mod 8 /\ y0 = y + 8 * (Z.of_nat i / 8)) /\ shape g' /\
      forall x' y', 0 <= x' -> 0 <= y' -> pixel g' x' y' =
        if in_box x y 8 16 x' y' && ((x' - x) + 8 * ((y' - y) / 8) <? Z.of_nat i) then ink mode (glyph c (x' - x) (y' - y)) else pixel g x' y')
    (fun i s => let '(x', y0, g) := s in row ← ld asc2_1608 (c - 32); temp ← ld row (Z.of_nat i); r ← draw_byte x' mode (temp, y0, g);
       Some (if negb (16 =? 8) && (u8 (x' + 1) - x =? 16 / 2) then (x, u8 (y0 + 8), snd r) else (u8 (x' + 1), y0, snd r))) 16 0 (x, y, g))
    as ([[xx y0] g'] & E & _ & _ & Hs & Hp).
  - split; [lia|]. split; [intros _; change (Z.of_nat 0) with 0; rewrite Z.mod_0_l, Z.div_0_l by lia; lia|]. split; [done|]. intros x' y' _ _. replace (_ && _) with false; [done|].
    symmetry. apply andb_false_iff. unfold in_box. destruct (_ && _) eqn:Eb; [right|by left]. Z.div_mod_to_equations. lia.
  - intros i [[xx y0] g1] Hi (_ & Hxy & Hs & Hp). destruct (Hxy ltac:(lia)) as [-> ->]. rewrite Er. cbn [mbind option_bind].
    destruct (proj2 (ld_is_Some row (Z.of_nat i)) ltac:(lia)) as [b Eb]. rewrite Eb. cbn [mbind option_bind].
    set (n := Z.of_nat i) in *. assert (Hn : 0 <= n < 16) by lia.
    destruct (draw_byte_spec g1 (x + n mod 8) (y + 8 * (n / 8)) b mode) as (s & -> & Hs2 & Hp2); [done|Z.div_mod_to_equations; lia..|]. cbn [mbind option_bind].
    eexists. split; [reflexivity|].
    assert (Hpix : forall x' y', 0 <= x' -> 0 <= y' -> pixel (snd s) x' y' =
      if in_box x y 8 16 x' y' && ((x' - x) + 8 * ((y' - y) / 8) <? Z.of_nat (S i)) then ink mode (glyph c (x' - x) (y' - y)) else pixel g x' y').
    { intros x' y' Hx' Hy'. rewrite Hp2, Hp by done. replace (Z.of_nat (S i)) with (n + 1) by lia. rewrite box_step by done.
      destruct ((x' =? x + n mod 8) && _) eqn:Ein; [|by rewrite orb_false_r]. rewrite orb_true_r. f_equal. unfold glyph. rewrite Er.
      assert (Hdx : x' - x + 8 * ((y' - y) / 8) = n /\ y' - (y + 8 * (n / 8)) = (y' - y) mod 8) by (clear - Ein Hn; Z.div_mod_to_equations; lia).
      destruct Hdx as [-> ->]. by rewrite Eb. }
    clear Hp Hp2 Hxy Er Eb. rewrite (u8_small (x + n mod 8 + 1)) by (Z.div_mod_to_equations; lia).
    change (negb (16 =? 8)) with true. change (16 / 2) with 8. cbn [andb].
    destruct (Z.eqb_spec (x + n mod 8 + 1 - x) 8) as [E8|E8].
    + split; [lia|]. split; [|by split]. intros Hlt. rewrite u8_small by (Z.div_mod_to_equations; lia). unfold n in *. clear - E8 Hn Hlt. Z.div_mod_to_equations. lia.
    + split; [lia|]. split; [|by split]. intros Hlt. unfold n in *. clear - E8 Hn Hlt. Z.div_mod_to_equations. lia.
  - rewrite E. cbn [mbind option_bind snd]. exists g'. split; [done|]. split; [done|]. intros x' y' Hx' Hy'. rewrite Hp by done.
    destruct (in_box x y 8 16 x' y') eqn:Eb; [|done]. cbn [andb]. replace (_ <? _) with true; [done|]. unfold in_box in Eb. clear - Eb.
    symmetry. apply Z.ltb_lt. change (Z.of_nat (0 + 16)) with 16. Z.div_mod_to_equations. lia.
Qed.

(** A text in the 16 pixel font: column [dx], row [dy]. *)
Definition text_ink (t : list Z) (dx dy : Z) : bool := match ld t (dx / 8) with Some c => glyph c (dx mod 8) dy | None => false end.
Definition printable (c : Z) : Prop := 32 <= c <= 127.
Lemma oled_show_string_spec t : forall g x y c r mode, shape g -> Forall printable t -> ~ printable c -> 0 <= x -> x + 8 * zlen t <= 128 -> 0 <= y -> y + 16 <= 32 ->
  exists g', oled_show_string x y (t ++ c :: r) 16 mode g = Some g' /\ shape g' /\
    forall x' y', 0 <= x' -> 0 <= y' ->
      pixel g' x' y' = if in_box x y (8 * zlen t) 16 x' y' then ink mode (text_ink t (x' - x) (y' - y)) else pixel g x' y'.
Proof.
  induction t as [|a t IH]; intros g x y c r mode Hg Ht Hc Hx Hw Hy Hy16; cbn [app oled_show_string].
  - replace ((32 <=? c) && (c <=? 32 + 95)) with false by (unfold printable in Hc; lia). exists g. split; [done|]. split; [done|].
    intros x' y' _ _. replace (in_box _ _ _ _ _ _) with false; [done|]. unfold in_box. cbn [length]. lia.
  - apply Forall_cons in Ht as [Ha Ht]. cbn [length] in Hw. rewrite Nat2Z.inj_succ in Hw.
    replace ((32 <=? a) && (a <=? 32 + 95)) with true by (unfold printable in Ha; lia).
    destruct (oled_show_char_spec g x y a mode) as (g1 & -> & Hg1 & Hp1); [done|lia..|exact Ha|]. cbn [mbind option_bind].
    change (x + (if 16 =? 8 then 6 else 16 / 2)) with (x + 8). rewrite u8_small by lia.
    destruct (IH g1 (x + 8) y c r mode) as (g2 & -> & Hg2 & Hp2); [done|done|done|lia..|]. exists g2. split; [done|]. split; [done|].
    intros x' y' Hx' Hy'. rewrite Hp2, Hp1 by done. clear Hp1 Hp2 IH. unfold text_ink. cbn [length]. rewrite Nat2Z.inj_succ.
    destruct (in_box (x + 8) y (8 * zlen t) 16 x' y') eqn:E1.
    + replace (in_box x y (8 * Z.succ (zlen t)) 16 x' y') with true by (unfold in_box in *; lia).
      assert (Hd : (x' - x) / 8 = (x' - (x + 8)) / 8 + 1 /\ (x' - x) mod 8 = (x' - (x + 8)) mod 8 /\ 0 <= (x' - (x + 8)) / 8)
        by (unfold in_box in E1; clear - E1; Z.div_mod_to_equations; lia).
      destruct Hd as (-> & -> & Hd). by rewrite ld_cons_S.
    + destruct (in_box x y 8 16 x' y') eqn:E2.
      * replace (in_box x y (8 * Z.succ (zlen t)) 16 x' y') with true by (unfold in_box in *; lia).
        assert (Hd : (x' - x) / 8 = 0 /\ (x' - x) mod 8 = x' - x) by (unfold in_box in E2; clear - E2; Z.div_mod_to_equations; lia).
        destruct Hd as [-> ->]. by rewrite ld_cons_0.
      * by replace (in_box x y (8 * Z.succ (zlen t)) 16 x' y') with false by (unfold in_box in *; lia).
Qed.
(** A text that leaves the 128 columns writes outside of the picture. *)
Lemma oled_draw_point_out g x y t : length g = 128%nat -> 128 <= x -> oled_draw_point x y t g = None.
Proof. intros Hg Hx. unfold oled_draw_point, cell. by rewrite ld_None_ge by lia. Qed.
(** A loop whose body fails at [k]. *)
Lemma for_loop_none {S} (P : nat -> S -> Prop) (body : nat -> S -> option S) k n : forall i s,
  P i s -> (i <= k < i + n)%nat -> (forall j s, (i <= j < k)%nat -> P j s -> exists s', body j s = Some s' /\ P (Datatypes.S j) s') ->
  (forall s, P k s -> body k s = None) -> for_loop body i n s = None.
Proof.
  induction n as [|n IH]; intros i s Hi Hk Hstep Hfail; [lia|]. cbn [for_loop]. destruct (decide (i = k)) as [-> | Hne]; [by rewrite (Hfail s Hi)|].
  destruct (Hstep i s) as (s' & -> & H'); [lia|done|]. cbn [mbind option_bind]. apply IH; [done|lia| |done]. intros j t Hj. apply Hstep. lia.
Qed.
Lemma oled_show_char_out g x y c mode : shape g -> 120 < x <= 128 -> 0 <= y -> y + 8 <= 32 -> printable c -> oled_show_char x y c 16 mode g = None.
Proof.
  intros Hg Hx Hy Hy8 Hc. destruct (font_rows c Hc) as (row & Er & Hr). unfold oled_show_char. change (font 16) with (Some asc2_1608). cbv iota.
  change (Z.to_nat (char_bytes 16)) with 16%nat. rewrite u8_small by (unfold printable in Hc; lia).
  match goal with |- (s ← ?l; _) = None => enough (l = None) as ->; [done|] end.
  apply (for_loop_none (fun i s => s = (x + Z.of_nat i, y, snd s) /\ shape (snd s)) _ (Z.to_nat (128 - x))).
  - split; [by rewrite Z.add_0_r|done].
  - lia.
  - intros j [[xx y0] g1] Hj [E Hs]. cbn [snd] in *. injection E as -> ->. rewrite Er. cbn [mbind option_bind].
    destruct (proj2 (ld_is_Some row (Z.of_nat j)) ltac:(lia)) as [b ->]. cbn [mbind option_bind].
    destruct (draw_byte_spec g1 (x + Z.of_nat j) y b mode) as (s & -> & Hs' & _); [done|lia|done|done|]. cbn [mbind option_bind].
    eexists. split; [reflexivity|]. rewrite u8_small by lia. change (16 / 2) with 8. replace (x + Z.of_nat j + 1 - x =? 8) with false by lia. rewrite andb_false_r. cbn [snd].
    split; [|done]. f_equal. f_equal. lia.
  - intros [[xx y0] g1] [E Hs]. cbn [snd] in *. injection E as -> ->. rewrite Er. cbn [mbind option_bind].
    destruct (proj2 (ld_is_Some row (Z.of_nat (Z.to_nat (128 - x)))) ltac:(lia)) as [b ->]. cbn [mbind option_bind]. unfold draw_byte. cbn [for_loop].
    rewrite oled_draw_point_out; [done|apply Hs|lia].
Qed.
Lemma oled_show_string_out t : forall g x y r mode, shape g -> Forall printable t -> 0 <= x <= 128 -> 128 < x + 8 * zlen t -> 0 <= y -> y + 16 <= 32 ->
  oled_show_string x y (t ++ r) 16 mode g = None.
Proof.
  induction t as [|a t IH]; intros g x y r mode Hg Ht Hx Hw Hy Hy16; cbn [length] in Hw; [lia|]. cbn [app oled_show_string]. apply Forall_cons in Ht as [Ha Ht].
  replace ((32 <=? a) && (a <=? 32 + 95)) with true by (unfold printable in Ha; lia). rewrite Nat2Z.inj_succ in Hw.
  destruct (decide (x <= 120)) as [Hin|Hout].
  - destruct (oled_show_char_spec g x y a mode) as (g1 & -> & Hg1 & _); [done|lia..|exact Ha|]. cbn [mbind option_bind].
    change (x + (if 16 =? 8 then 6 else 16 / 2)) with (x + 8). rewrite u8_small by lia. apply IH; [done|done|lia..].
  - by rewrite oled_show_char_out by (done || lia).
Qed.
