(* ===== verification/Screen.v ===== *)
(** * The screens of display.c

    What [menu_navigate] draws: the top of a menu, the pages of information and
    the pages of parameters, each into a cleared [OLED_GRAM] that
    [oled_refresh_diff] then sends; when it stays inside the picture, and where it
    does not.  The state the pages change is in Menu.v. *)
From Stdlib Require Import ZifyBool.
From S2P Require Import Agent Serial Comm.
From S2P Require Import Prelude CFloat Str Generic Fmc Para ParaStore Stdio Layout CmdTable ProtoCoef ProtoChar UppRoundTrip.
From S2P Require Import Key Menu MenuEdit MenuSafe Oled.

Definition OLED_X_MID : Z := 64.
(** [oled_show_string] of a terminated text in the 16 pixel font. *)
Definition show (x y : Z) (t : list Z) (g : gram) : option gram := oled_show_string x y (t ++ [0]) 16 1 g.
(** [OLED_X_MID - 4 * strlen(buffer)], as an argument. *)
Definition center (t : list Z) : Z := u8 (OLED_X_MID - 4 * zlen t).
Definition show_center (y : Z) (t : list Z) (g : gram) : option gram := show (center t) y t g.

(** ** The top of a menu *)

Definition menu_title (main : Z) : option (list Z) :=
  if main =? 0 then Some (codes "INFORMATION") else if main =? 1 then Some (codes "CONFIGURATION") else if main =? 2 then Some (codes "PARA CFG")
  else if main =? 3 then Some (codes "INTERFACE") else if main =? 4 then Some (codes "ANALOG") else None.
Definition oled_show_menu (main : Z) (m : mem) (g : gram) : option gram :=
  g ← (match menu_title main with Some t => show_center 0 t g | None => Some g end);
  g ← show_center 16 (codes "MENU") g;
  if (0 <? main) && (main <? 5) && negb (panel_lock m =? 85) then show 10 16 (codes "L") g else Some g.

(** ** Information *)

Definition FW_VERSION : Z := Z.lor (Z.lor (Z.shiftl 1 24) (Z.shiftl 0 16)) (Z.shiftl 50 8).
Definition version_major (ver : Z) : Z := Z.land (Z.shiftr ver 24) 0xff.
Definition version_minor (ver : Z) : Z := Z.land (Z.shiftr ver 16) 0xff.
Definition version_serial (ver : Z) : Z := Z.land (Z.shiftr ver 8) 0xff.
(** ["%3u"] *)
Definition print_3u (v : Z) : list Z := let t := print_u v in replicate (3 - length t) 32 ++ t.
Definition shown_temp (p : pointer) (m : mem) : list Z := print_fixed 1 (convert_uint (rd_f32 m p) TEMP_UNIT_INTERNAL (unit_of m)).
Definition internal_temp_at (ch : nat) : pointer := member_of (index ch (address SYS_STATE ["internal_temp"])).
Definition attenuation (m : mem) : Z := u8 (f_to_s32 (f32_mul (rd_f32 m (state_at ["Measured_attenuation"])) (f32_of_Z 100))).
(** The degree sign and the unit. *)
Definition with_unit (m : mem) : list Z := [32; 127; unit_of m].
(** The first page: [buffer] is the buffer on the stack, 50 bytes with any contents.
    The degree sign overwrites the terminator and none follows the unit. *)
Definition info_line (m : mem) (buffer : list Z) : option (list Z) :=
  let t := print_d (rd_u m (para_at ["temp"; "temp_mode"])) ++ codes "-COLOR  " ++ shown_temp (internal_temp_at 1) m in
  if (length t + 1 <=? length buffer)%nat then
    let len := u8 (zlen t) in
    b ← st (put 0 (t ++ [0]) buffer) len 127; st b (len + 1) (unit_of m)
  else None.
Definition info_text (sub : Z) (m : mem) : option (list Z * list Z) :=
  if sub =? 1 then Some (codes "INTERNAL TEMP", shown_temp (internal_temp_at 0) m ++ with_unit m)
  else if sub =? 2 then Some (codes "ATTENUATION", codes "At:" ++ print_3u (attenuation m) ++ codes "%")
  else if sub =? 3 then Some (codes "LOW LIMIT", shown_temp (para_at ["temp"; "dev_temp_min"]) m ++ with_unit m)
  else if sub =? 4 then Some (codes "HIGH LIMIT", shown_temp (para_at ["temp"; "dev_temp_max"]) m ++ with_unit m)
  else if sub =? 5 then Some (codes "SENSOR IDENT", codes "LED102-V3")
  else if sub =? 6 then
    Some (codes "SENSOR REVISION", codes "V" ++ print_d (version_major FW_VERSION) ++ codes "." ++ print_d (version_minor FW_VERSION) ++ codes "." ++ print_d (version_serial FW_VERSION))
  else if sub =? 7 then Some (codes "SERIAL NUMBER", codes "2405060201")
  else if sub =? 8 then Some (codes "MAC ADDRESS", codes "001dBd2aaa01")
  else None.
Definition oled_show_info (sub : Z) (m : mem) (buffer : list Z) (g : gram) : option gram :=
  if sub =? 0 then
    b ← info_line m buffer;
    g ← oled_show_string 0 0 b 16 1 g;
    show 0 16 (codes "S=" ++ print_fixed 3 (rd_f32 m slope_at) ++ codes "  At:" ++ print_3u (attenuation m) ++ codes "%") g
  else match info_text sub m with Some (t, v) => g ← show_center 0 t g; show_center 16 v g | None => Some g end.

(** ** Parameters *)

Definition page_title (p : page) : list Z :=
  match p with
  | oled_show_menu_p | oled_show_info_p => []
  | do_temp_mode_p => codes "MODE"
  | do_temp_units_p => codes "TEMP UNIT"
  | do_relay_mode_p => codes "RELAY MODE"
  | do_aim_device_p => codes "CAMERA"
  | do_fact_default_p => codes "FACTORY DEFAULT"
  | do_slope_p => codes "SLOPE"
  | do_emissivity_p => codes "EMISSIVITY"
  | do_transmissivity_low_p | do_transmissivity_high_p => codes "TRANSMISSIVITY"
  | do_temp_filt_size_p => codes "TEMP FILT SIZE"
  | do_baud_rate_p => codes "BAUD RATE"
  | do_multi_addr_p => codes "MULTI ADDR"
  | do_local_ip_p => codes "LOCAL IP"
  | do_eth_gw_p => codes "GATEWAY"
  | do_eth_nm_p => codes "NET MASK"
  | do_eth_port_p => codes "PORT"
  | do_analog_mode_p => codes "ANALOG MODE"
  | do_analog_out_low_p | do_analog_out_high_p => codes "ANALOG OUT"
  end.
Definition ana_str : list (list Z) := [codes "0-20mA"; codes "4-20mA"; codes "0-10V"].
Definition short_d (v : Z) : list Z := print_d (s16 v).
(** The text of [dis_value], or of the four bytes of an address. *)
Definition page_value (p : page) (u : ui_t) : option (list Z) :=
  let v := dis_value u in
  match p with
  | oled_show_menu_p | oled_show_info_p => None
  | do_temp_mode_p => Some (print_d (s32 (v + 1)) ++ codes " - COLOR")
  | do_temp_units_p => c ← ld unit_chars v; Some [c]
  | do_relay_mode_p | do_eth_port_p => Some (print_d v)
  | do_aim_device_p => Some (if v =? 1 then codes "ON" else codes "OFF")
  | do_fact_default_p => Some (if v =? 1 then codes "YES" else codes "NO")
  | do_slope_p | do_emissivity_p | do_temp_filt_size_p | do_baud_rate_p | do_multi_addr_p => Some (short_d v)
  | do_transmissivity_low_p => Some (codes "N  " ++ short_d v)
  | do_transmissivity_high_p => Some (codes "W  " ++ short_d v)
  | do_analog_mode_p => ld ana_str v
  | do_analog_out_low_p => Some (codes "LOW   " ++ short_d v)
  | do_analog_out_high_p => Some (codes "HIGH   " ++ short_d v)
  | do_local_ip_p | do_eth_gw_p | do_eth_nm_p => Some (print_ip (ip_cfg_disvalue u))
  end.
(** [change_data_buffer]: the spaces that hide the value while it blinks. *)
Definition page_blank (p : page) : list Z :=
  replicate (match p with do_local_ip_p | do_eth_gw_p | do_eth_nm_p => 3 | do_temp_mode_p => 14 | _ => 15 end) 32.

Definition BLINKING_TIME : Z := 1.
(** The drawing part of a page: [u] is what it shows, [flag] its static
    [blinking_flag]; the result has the next flag. *)
Definition draw_page (p : page) (u : ui_t) (flag : Z) (g : gram) : option (gram * Z) :=
  g ← show_center 0 (page_title p) g;
  v ← page_value p u;
  g ← show_center 16 v g;
  if is_blinking u then
    if flag <=? 0 then
      g ← show (u8 (OLED_X_MID - 4 * zlen v + current_para_index u * 4 * 8)) 16 (page_blank p) g; Some (g, BLINKING_TIME)
    else Some (g, flag - 1)
  else Some (g, flag).
(** After the value was written it is drawn once more. *)
Definition draw_again (p : page) (u : ui_t) (g : gram) : option gram := v ← page_value p u; show_center 16 v g.
(** The end of [menu_navigate] outside of the top menu: the picture is cleared,
    the page drawn, with [saved] once more, and what changed since [old] is sent. *)
Definition refresh_page (p : page) (u : ui_t) (saved : bool) (flag : Z) (old : gram) : option (gram * Z * gram * list (list Z)) :=
  r ← draw_page p u flag blank_gram;
  let '(g, flag) := r in
  g ← (if saved then draw_again p u g else Some g);
  r ← oled_refresh_diff g old; Some (g, flag, fst r, snd r).

(** What a pass of [menu_navigate] draws at its end, into the cleared picture:
    [flag] is the blinking flag of the page, [buffer] what its stack holds. *)
Definition picture {W : Type} (flag : Z) (buffer : list Z) (s : menu_t (W := W)) : option gram :=
  let main := main_page_id (ui s) in
  if is_menu s then oled_show_menu main (sys s) blank_gram
  else
    it ← item s; p ← subs it;
    match p with
    | oled_show_menu_p => oled_show_menu main (sys s) blank_gram
    | oled_show_info_p => oled_show_info (sub_page_id (ui s)) (sys s) buffer blank_gram
    | _ => fst <$> draw_page p (ui s) flag blank_gram
    end.

(** * Properties *)

(** The pixel that the display shows. *)
Definition panel_pixel (p : panel) (x y : Z) : bool := match (r ← ld (ram p) (y / 8); ld r x) with Some v => Z.testbit v (y mod 8) | None => false end.
Lemma shown_pixel g p x y : shows g p -> 0 <= x < 128 -> 0 <= y < 32 -> panel_pixel p x y = pixel g x y.
Proof. intros (_ & _ & _ & H) Hx Hy. unfold panel_pixel, pixel. rewrite H; [done|done|Z.div_mod_to_equations; lia]. Qed.
(** A centred line of text. *)
Definition line_ink (t : list Z) (y0 x y : Z) : bool :=
  let x0 := 64 - 4 * zlen t in in_box x0 y0 (8 * zlen t) 16 x y && text_ink t (x - x0) (y - y0).
Definition fits (t : list Z) : Prop := Forall printable t /\ zlen t <= 16.

Lemma blank_shape : shape blank_gram.
Proof. split; [done|]. by apply Forall_replicate. Qed.
Lemma blank_pixel x y : pixel blank_gram x y = false.
Proof.
  unfold pixel, cell, blank_gram, ld. destruct (0 <=? x); [|done]. destruct (replicate 128 (replicate 4 0) !! Z.to_nat x) as [c|] eqn:E; [|done].
  apply lookup_replicate in E as [-> _]. cbn [mbind option_bind]. destruct (0 <=? y / 8); [|done].
  destruct (replicate 4 0 !! Z.to_nat (y / 8)) as [v|] eqn:E; [|done]. apply lookup_replicate in E as [-> _]. apply Z.testbit_0_l.
Qed.
Lemma show_spec x y t g : shape g -> Forall printable t -> 0 <= x -> x + 8 * zlen t <= 128 -> 0 <= y -> y + 16 <= 32 ->
  exists g', show x y t g = Some g' /\ shape g' /\ forall x' y', 0 <= x' -> 0 <= y' ->
    pixel g' x' y' = if in_box x y (8 * zlen t) 16 x' y' then text_ink t (x' - x) (y' - y) else pixel g x' y'.
Proof.
  intros Hg Ht Hx Hw Hy Hy16. destruct (oled_show_string_spec t g x y 0 [] 1) as (g' & E & Hs & Hp); try done; [unfold printable; lia|].
  exists g'. split; [exact E|]. split; [exact Hs|]. intros x' y' Hx' Hy'. rewrite Hp by done. destruct (in_box _ _ _ _ _ _); [|done].
  unfold ink. cbn. by destruct (text_ink _ _ _).
Qed.
Lemma center_fits t : fits t -> center t = 64 - 4 * zlen t /\ 0 <= center t.
Proof. intros [_ H]. unfold center, OLED_X_MID. rewrite u8_small by lia. lia. Qed.
(** Two centred lines on a cleared picture. *)
Lemma two_lines t v : fits t -> fits v -> exists g1 g2, show_center 0 t blank_gram = Some g1 /\ show_center 16 v g1 = Some g2 /\ shape g2 /\
  forall x y, 0 <= x -> 0 <= y -> pixel g2 x y = line_ink t 0 x y || line_ink v 16 x y.
Proof.
  intros Ht Hv. destruct (center_fits t Ht) as [Et Ht0], (center_fits v Hv) as [Ev Hv0].
  destruct (show_spec (center t) 0 t blank_gram blank_shape (proj1 Ht)) as (g1 & E1 & H1 & P1); [done|destruct Ht; lia|done|done|].
  destruct (show_spec (center v) 16 v g1 H1 (proj1 Hv)) as (g2 & E2 & H2 & P2); [done|destruct Hv; lia|done|done|].
  exists g1, g2. split; [exact E1|]. split; [exact E2|]. split; [exact H2|]. intros x y Hx Hy. rewrite P2, P1, blank_pixel, Et, Ev by done. unfold line_ink.
  destruct (in_box (64 - 4 * zlen v) 16 (8 * zlen v) 16 x y) eqn:B2.
  - replace (in_box (64 - 4 * zlen t) 0 (8 * zlen t) 16 x y) with false; [done|]. unfold in_box in *. lia.
  - by destruct (in_box (64 - 4 * zlen t) 0 (8 * zlen t) 16 x y); [rewrite orb_false_r|].
Qed.
Lemma title_fits p : fits (page_title p).
Proof.
  assert (H : forallb (fun c => (32 <=? c) && (c <=? 127)) (page_title p) && (zlen (page_title p) <=? 16) = true) by (by destruct p).
  apply andb_true_iff in H as [H1 H2]. split; [|lia]. apply Forall_forall. intros c Hc. rewrite forallb_forall in H1.
  specialize (H1 c (proj1 (list_elem_of_In _ _) Hc)). unfold printable. lia.
Qed.

(** The display as it is after its memory was cleared. *)
Definition blank_panel : panel := mk_panel (replicate 8 (replicate 128 0)) 0 0 false.
Lemma blank_panel_shows : shows blank_gram blank_panel.
Proof.
  split; [done|]. split; [done|]. split; [by apply Forall_replicate|]. intros x i Hx Hi. unfold cell, blank_panel, blank_gram. cbn [ram].
  unfold ld. replace (0 <=? i) with true by lia. replace (0 <=? x) with true by lia. rewrite !lookup_replicate_2 by lia. cbn [mbind option_bind].
  by rewrite !lookup_replicate_2 by lia.
Qed.
(** Drawing a line over itself. *)
Lemma again v : forall g1 g2, shape g1 -> fits v -> show_center 16 v g1 = Some g2 -> exists g3, show_center 16 v g2 = Some g3 /\ shape g3 /\
  forall x y, 0 <= x -> 0 <= y -> pixel g3 x y = pixel g2 x y.
Proof.
  intros g1 g2 H1 Hv E. destruct (center_fits v Hv) as [Ev Hv0].
  destruct (show_spec (center v) 16 v g1 H1 (proj1 Hv)) as (h & E1 & H2 & P1); [done|destruct Hv; lia|done|done|].
  unfold show_center in *. rewrite E in E1. injection E1 as <-.
  destruct (show_spec (center v) 16 v g2 H2 (proj1 Hv)) as (g3 & E3 & H3 & P3); [done|destruct Hv; lia|done|done|].
  exists g3. split; [exact E3|]. split; [exact H3|]. intros x y Hx Hy. rewrite P3, P1 by done. by destruct (in_box _ _ _ _ x y).
Qed.

(** [C4] A page of a parameter is on the display.  Outside of the edit mode, for a
    value whose text has at most 16 characters of the font: the pass of the menu
    draws the page inside of the picture, also when it draws the value again
    after saving it, and after what it sends the display shows the title and the
    value, each centred on its line, and nothing else, whatever it showed before;
    and [OLED_GRAM_OLD] is again what the display shows. *)
Theorem page_on_display p u v saved flag old pn : page_value p u = Some v -> fits v -> is_blinking u = false -> shape old -> shows old pn ->
  exists g old' out, refresh_page p u saved flag old = Some (g, flag, old', out) /\ shows old' (receive out pn) /\ shape old' /\
    forall x y, 0 <= x < 128 -> 0 <= y < 32 -> panel_pixel (receive out pn) x y = line_ink (page_title p) 0 x y || line_ink v 16 x y.
Proof.
  intros Ev Hv Hb Ho Hp. destruct (two_lines (page_title p) v (title_fits p) Hv) as (g1 & g2 & E1 & E2 & Hg & Hpix).
  assert (H1 : shape g1).
  { destruct (center_fits _ (title_fits p)) as [Et Ht0]. destruct (show_spec (center (page_title p)) 0 (page_title p) blank_gram blank_shape (proj1 (title_fits p)))
      as (h & E & H1 & _); [done|destruct (title_fits p); lia|done|done|]. unfold show_center in E1. rewrite E1 in E. by injection E as <-. }
  assert (Hsave : exists g, (if saved then draw_again p u g2 else Some g2) = Some g /\ shape g /\ forall x y, 0 <= x -> 0 <= y -> pixel g x y = pixel g2 x y).
  { destruct saved; [|by exists g2]. unfold draw_again. rewrite Ev. apply (again v g1 g2 H1 Hv E2). }
  destruct Hsave as (g & Eg & Hgs & Hgp). destruct (refresh_diff_shows g old pn Hgs Ho Hp) as (old' & out & E & Hso & Hs & Hs2 & _).
  exists g, old', out. split.
  - unfold refresh_page, draw_page. rewrite E1. cbn [mbind option_bind]. rewrite Ev. cbn [mbind option_bind]. rewrite E2. cbn [mbind option_bind]. rewrite Hb.
    cbn [mbind option_bind]. rewrite Eg. cbn [mbind option_bind]. by rewrite E.
  - split; [exact Hs2|]. split; [exact Hso|]. intros x y Hx Hy. rewrite (shown_pixel g) by done. rewrite Hgp by lia. apply Hpix; lia.
Qed.
Lemma page_on_display_witness : exists g old' out, refresh_page do_emissivity_p (set_dis 950 ui_start) true 1 blank_gram = Some (g, 1, old', out) /\
  shows old' (receive out blank_panel) /\ shape old' /\
  forall x y, 0 <= x < 128 -> 0 <= y < 32 -> panel_pixel (receive out blank_panel) x y = line_ink (codes "EMISSIVITY") 0 x y || line_ink (codes "950") 16 x y.
Proof.
  apply (page_on_display do_emissivity_p (set_dis 950 ui_start) (codes "950") true 1 blank_gram blank_panel).
  - vm_compute. reflexivity.
  - split; [|vm_compute; discriminate]. repeat (apply Forall_cons; split; [unfold printable; cbn; lia|]). apply Forall_nil. exact I.
  - reflexivity.
  - exact blank_shape.
  - exact blank_panel_shows.
Defined.

(** ** The texts of the values *)

Lemma lsd_digits_short k : forall n v, 0 <= v < 10 ^ Z.of_nat k -> (length (lsd_digits n v) <= k)%nat.
Proof.
  induction k as [|k IH]; intros n v Hv.
  - assert (v = 0) as -> by (cbn in Hv; lia). by destruct n.
  - destruct n as [|n]; cbn [lsd_digits]; [apply Nat.le_0_l|]. destruct (0 <? v); cbn [length]; [|apply Nat.le_0_l]. apply le_n_S.
    apply IH. rewrite Nat2Z.inj_succ, Z.pow_succ_r in Hv by lia. Z.div_mod_to_equations. lia.
Qed.
Lemma digits_short k v : 0 <= v < 10 ^ Z.of_nat (S k) -> Forall printable (dec_digits v) /\ 1 <= zlen (dec_digits v) <= Z.of_nat (S k).
Proof.
  intros Hv. split.
  - eapply Forall_impl; [apply dec_digits_digit; lia|]. intros c Hc. cbn beta in Hc. unfold is_digit in Hc. unfold printable. lia.
  - destruct (dec_digits_cons v ltac:(lia)) as (c & t & E & _). unfold dec_digits in *. destruct (v =? 0); [cbn [length]; lia|]. rewrite length_rev.
    pose proof (lsd_digits_short (S k) 400 v Hv). apply (f_equal length) in E. rewrite length_rev in E. cbn [length] in E. lia.
Qed.
Definition short_text (n : Z) (t : list Z) : Prop := Forall printable t /\ 1 <= zlen t <= n.
Lemma print_d_short k v : - 10 ^ Z.of_nat (S k) < v < 10 ^ Z.of_nat (S k) -> short_text (Z.of_nat (S k) + 1) (print_d v).
Proof.
  intros Hv. unfold print_d. destruct (Z.ltb_spec v 0).
  - destruct (digits_short k (- v) ltac:(lia)) as [H1 H2]. split; [apply Forall_cons; split; [unfold printable; lia|done]|cbn [length]; lia].
  - destruct (digits_short k v ltac:(lia)) as [H1 H2]. split; [done|lia].
Qed.
Lemma short_d_short v : short_text 6 (short_d v).
Proof. apply (print_d_short 4). change (10 ^ Z.of_nat 5) with 100000. unfold s16. pose proof (Z.mod_pos_bound (v + 2 ^ 15) (2 ^ 16)). lia. Qed.
Lemma print_int_short v : - 2 ^ 31 <= v < 2 ^ 31 -> short_text 11 (print_d v).
Proof. intros Hv. apply (print_d_short 9). change (10 ^ Z.of_nat 10) with 10000000000. lia. Qed.
Lemma short_app a t n : forallb (fun c => (32 <=? c) && (c <=? 127)) a = true -> short_text n t -> short_text (zlen a + n) (a ++ t).
Proof.
  intros Ha [Ht Hn]. split; [|rewrite length_app; lia]. apply Forall_app. split; [|done]. apply Forall_forall. intros c Hc. rewrite forallb_forall in Ha.
  specialize (Ha c (proj1 (list_elem_of_In _ _) Hc)). unfold printable. lia.
Qed.
Lemma constant_short n t : forallb (fun c => (32 <=? c) && (c <=? 127)) t && (1 <=? zlen t) && (zlen t <=? n) = true -> short_text n t.
Proof.
  intros H. apply andb_true_iff in H as [[H1 H2]%andb_true_iff H3]. split; [|lia]. apply Forall_forall. intros c Hc. rewrite forallb_forall in H1.
  specialize (H1 c (proj1 (list_elem_of_In _ _) Hc)). unfold printable. lia.
Qed.
(** The values the keys can reach on a page. *)
Definition in_range (p : page) (v : Z) : Prop :=
  match p with
  | do_temp_mode_p => 0 <= v <= 1
  | do_temp_units_p | do_analog_mode_p => 0 <= v <= 2
  | do_relay_mode_p | do_eth_port_p => - 2 ^ 31 <= v < 2 ^ 31
  | _ => True
  end.
Definition is_number (p : page) : bool :=
  match p with oled_show_menu_p | oled_show_info_p | do_local_ip_p | do_eth_gw_p | do_eth_nm_p => false | _ => true end.
Lemma value_text p u : is_number p = true -> in_range p (dis_value u) -> exists v, page_value p u = Some v /\ short_text 13 v /\ zlen v + 16 < 2 * zlen (page_blank p).
Proof.
  intros Hp Hr. assert (Hmore : forall n t, short_text n t -> n <= 13 -> short_text 13 t) by (intros n t [H1 H2] ?; split; [done|lia]).
  assert (H15 : forall v n, page_value p u = Some v -> short_text n v -> n <= 13 -> zlen (page_blank p) = 15 ->
    exists v, page_value p u = Some v /\ short_text 13 v /\ zlen v + 16 < 2 * zlen (page_blank p)).
  { intros v n E H Hn E15. exists v. split; [done|]. split; [by apply (Hmore n)|]. rewrite E15. destruct H. lia. }
  pose proof (short_d_short (dis_value u)) as Hs.
  assert (Hconst : forall v, page_value p u = Some v -> forallb (fun c => (32 <=? c) && (c <=? 127)) v && (1 <=? zlen v) && (zlen v <=? 13) = true ->
    zlen (page_blank p) = 15 -> exists v, page_value p u = Some v /\ short_text 13 v /\ zlen v + 16 < 2 * zlen (page_blank p)).
  { intros v E H. apply (H15 v 13 E); [by apply constant_short|done]. }
  destruct p; try discriminate; cbn [in_range] in Hr.
  - assert (dis_value u = 0 \/ dis_value u = 1) as [E|E] by lia; exists (print_d (s32 (dis_value u + 1)) ++ codes " - COLOR"); rewrite E;
      (split; [unfold page_value; by rewrite E|split; [apply constant_short; reflexivity|by vm_compute]]).
  - assert (dis_value u = 0 \/ dis_value u = 1 \/ dis_value u = 2) as [E|[E|E]] by lia; (eapply Hconst; [unfold page_value; rewrite E; reflexivity|reflexivity|reflexivity]).
  - apply (H15 _ 11 eq_refl); [by apply print_int_short|done|reflexivity].
  - destruct (dis_value u =? 1) eqn:E; (eapply Hconst; [unfold page_value; rewrite E; reflexivity|reflexivity|reflexivity]).
  - destruct (dis_value u =? 1) eqn:E; (eapply Hconst; [unfold page_value; rewrite E; reflexivity|reflexivity|reflexivity]).
  - by apply (H15 _ 6 eq_refl).
  - by apply (H15 _ 6 eq_refl).
  - by apply (H15 _ _ eq_refl (short_app (codes "N  ") _ 6 eq_refl Hs)).
  - by apply (H15 _ _ eq_refl (short_app (codes "W  ") _ 6 eq_refl Hs)).
  - by apply (H15 _ 6 eq_refl).
  - by apply (H15 _ 6 eq_refl).
  - by apply (H15 _ 6 eq_refl).
  - apply (H15 _ 11 eq_refl); [by apply print_int_short|done|reflexivity].
  - assert (dis_value u = 0 \/ dis_value u = 1 \/ dis_value u = 2) as [E|[E|E]] by lia; (eapply Hconst; [unfold page_value; rewrite E; reflexivity|reflexivity|reflexivity]).
  - by apply (H15 _ _ eq_refl (short_app (codes "LOW   ") _ 6 eq_refl Hs)).
  - by apply (H15 _ _ eq_refl (short_app (codes "HIGH   ") _ 6 eq_refl Hs)).
Qed.

(** [C5] Blinking leaves the picture.  In the edit mode the pages of one number,
    all of them, write past the 128 columns of [OLED_GRAM]: drawn for the first
    time a page fits and its blinking flag goes to zero; the second time the
    spaces that hide the value do not fit. *)
Theorem blinking_overruns p u : is_number p = true -> in_range p (dis_value u) -> is_blinking u = true -> current_para_index u = 0 ->
  (exists g, draw_page p u BLINKING_TIME blank_gram = Some (g, 0)) /\ draw_page p u 0 blank_gram = None.
Proof.
  intros Hp Hr Hbl Hi. destruct (value_text p u Hp Hr) as (v & Ev & [Hv Hl] & Hw). assert (Hf : fits v) by (split; [done|lia]).
  destruct (two_lines (page_title p) v (title_fits p) Hf) as (g1 & g & E1 & E2 & Hg & _). unfold draw_page.
  rewrite E1. cbn [mbind option_bind]. rewrite Ev. cbn [mbind option_bind]. rewrite E2. cbn [mbind option_bind]. rewrite Hbl. split; [by exists g|].
  cbn [Z.leb Z.compare]. rewrite Hi. unfold show.
  assert (Hx : u8 (OLED_X_MID - 4 * zlen v + 0 * 4 * 8) = 64 - 4 * zlen v) by (unfold OLED_X_MID; rewrite u8_small by lia; lia).
  rewrite Hx, oled_show_string_out; [done|done| |lia|lia|done|done].
  apply Forall_forall. intros c Hc. unfold page_blank in Hc. apply elem_of_replicate in Hc as [-> _]. unfold printable. lia.
Qed.
Definition editing (v : Z) : ui_t := set_blink true (set_dis v ui_start).
Lemma blinking_overruns_witness : is_number do_slope_p = true /\ (exists g, draw_page do_slope_p (editing 1000) BLINKING_TIME blank_gram = Some (g, 0)) /\
  draw_page do_slope_p (editing 1000) 0 blank_gram = None.
Proof. split; [reflexivity|]. apply (blinking_overruns do_slope_p (editing 1000)); [reflexivity|exact I|reflexivity|reflexivity]. Defined.

(** ** The pictures of the menu *)

Lemma short_fits n t : short_text n t -> n <= 16 -> fits t.
Proof. intros [H1 H2] Hn. split; [done|lia]. Qed.
Lemma constant_fits t : forallb (fun c => (32 <=? c) && (c <=? 127)) t && (1 <=? zlen t) && (zlen t <=? 16) = true -> fits t.
Proof. intros H. by apply (short_fits 16); [apply constant_short|]. Qed.
Lemma show_menu_fits main m : exists g, oled_show_menu main m blank_gram = Some g.
Proof.
  unfold oled_show_menu. assert (Hmenu : fits (codes "MENU")) by by apply constant_fits.
  assert (G : exists g, match menu_title main with Some t => show_center 0 t blank_gram | None => Some blank_gram end = Some g /\ shape g).
  { assert (Ht : forall t, fits t -> exists g, show_center 0 t blank_gram = Some g /\ shape g).
    { intros t Ht. destruct (center_fits t Ht) as [Et H0].
      destruct (show_spec (center t) 0 t blank_gram blank_shape (proj1 Ht)) as (g & E & Hg & _); [done|destruct Ht; lia|done|done|]. by exists g. }
    unfold menu_title. repeat destruct (_ =? _); try (apply Ht; by apply constant_fits). exists blank_gram. split; [done|exact blank_shape]. }
  destruct G as (g1 & -> & H1). cbn [mbind option_bind]. destruct (center_fits _ Hmenu) as [Et H0].
  destruct (show_spec (center (codes "MENU")) 16 (codes "MENU") g1 H1 (proj1 Hmenu)) as (g2 & E2 & H2 & _); [done|destruct Hmenu; lia|done|done|].
  unfold show_center. rewrite E2. cbn [mbind option_bind]. destruct (_ && _ && _); [|by exists g2].
  destruct (show_spec 10 16 (codes "L") g2 H2 (proj1 (constant_fits (codes "L") eq_refl))) as (g3 & E3 & _); [done|by vm_compute|done|done|]. by exists g3.
Qed.
Lemma ip_fits l : length l = 4%nat -> bytes l -> fits (print_ip l).
Proof.
  intros Hl Hb. split; [|by rewrite (proj1 (print_ip_four l Hl Hb))].
  do 4 (destruct l as [|? l]; [done|]). destruct l; [|done]. rewrite !Forall_cons in Hb. destruct Hb as (H0 & H1 & H2 & H3 & _).
  assert (P : forall v, is_byte v -> Forall printable (print_03u v)).
  { unfold is_byte. intros v Hv. pose proof (Z.mod_pos_bound (v / 10) 10). pose proof (Z.mod_pos_bound v 10). unfold print_03u, printable.
    rewrite !Forall_cons, Forall_nil. Z.div_mod_to_equations. lia. }
  assert (D : Forall printable [46]) by (repeat constructor; done).
  unfold print_ip. cbn [imap concat Nat.eqb]. repeat (apply Forall_app; split); try exact D; try (by apply P); by constructor.
Qed.
(** The text of a page whose value is one of those it can draw. *)
Lemma shown_text {W : Type} `{!MenuServices W} p u : drawn_only p = false -> page_shown (W := W) p (dis_value u) ->
  length (ip_cfg_disvalue u) = 4%nat -> bytes (ip_cfg_disvalue u) -> exists v, page_value p u = Some v /\ fits v.
Proof.
  intros Hd Hv Hl Hb. destruct (is_number p) eqn:Hn.
  - destruct (value_text p u Hn) as (v & E & H & _); [|exists v; split; [exact E|by apply (short_fits 13)]].
    destruct p; cbn [in_range]; try exact I; pose proof (Hv _ eq_refl) as H; cbn [np_shown] in H; unfold of_two, of_three, is_int in H; lia.
  - exists (print_ip (ip_cfg_disvalue u)). split; [by destruct p|by apply ip_fits].
Qed.
Lemma print_3u_fits v : 0 <= v < 256 -> fits (codes "At:" ++ print_3u v ++ codes "%").
Proof.
  intros Hv. destruct (digits_short 2 v) as [H1 H2]; [change (10 ^ Z.of_nat 3) with 1000; lia|].
  unfold print_3u, print_u. split.
  - repeat (apply Forall_app; split); try exact H1; try (by apply constant_fits). apply Forall_replicate. by unfold printable.
  - rewrite !length_app, length_replicate. cbn [codes length]. change (length (codes "At:")) with 3%nat. change (length (codes "%")) with 1%nat. lia.
Qed.
(** The pages of information that print no temperature. *)
Definition plain_info (sub : Z) : Prop := sub = 2 \/ 5 <= sub <= 8.
Lemma info_fits sub m buffer : plain_info sub -> exists g, oled_show_info sub m buffer blank_gram = Some g.
Proof.
  intros Hs. assert (T : exists t v, info_text sub m = Some (t, v) /\ fits t /\ fits v).
  { destruct Hs as [-> | Hs]; [do 2 eexists; split; [reflexivity|]; split; [by apply constant_fits|apply print_3u_fits; unfold attenuation; apply u8_range]|].
    assert (sub = 5 \/ sub = 6 \/ sub = 7 \/ sub = 8) as [-> | [-> | [-> | ->]]] by lia; (do 2 eexists; split; [reflexivity|]; split; by apply constant_fits). }
  destruct T as (t & v & E & Ht & Hv). unfold oled_show_info. destruct (Z.eqb_spec sub 0) as [-> | _]; [destruct Hs; lia|]. rewrite E.
  destruct (two_lines t v Ht Hv) as (g1 & g2 & E1 & E2 & _). rewrite E1. cbn [mbind option_bind]. by exists g2.
Qed.

Section Pictures.
Context {W : Type} `{!MenuServices W, !MenuServicesOk W}.

Lemma picture_fits flag buffer (s : menu_t (W := W)) : menu_ok s -> guide s = true -> (is_menu s = false -> drawable s) ->
  (is_menu s = false -> current_menu s = 0 -> plain_info (sub_page_id (ui s))) -> exists g, picture flag buffer s = Some g.
Proof.
  intros [Hn _] Hg Hd Hi. unfold picture. destruct (is_menu s); [apply show_menu_fits|].
  destruct (Hd eq_refl) as (it & p & Hit & Hp & Hv). rewrite Hit. cbn [mbind option_bind]. rewrite Hp. cbn [mbind option_bind].
  destruct (drawn_only p) eqn:Ep.
  - destruct p; try discriminate Ep; [apply show_menu_fits|]. apply info_fits, Hi; [done|].
    clear - Hit Hp. unfold item in Hit. apply bind_Some in Hit as (l & El & Eb). unfold son_ms in El.
    assert (H : forallb (fun l => forallb (fun it => match subs it with Some oled_show_info_p => false | _ => true end) l) (tail m0_root) = true) by reflexivity.
    apply ld_Some_iff in El as [H0 El], Eb as [_ Eb]. destruct (Z.to_nat (current_menu s)) as [|k] eqn:E; [lia|]. exfalso.
    change (tail m0_root !! k = Some l) in El. apply list_elem_of_lookup_2, list_elem_of_In in El, Eb.
    rewrite forallb_forall in H. specialize (H l El). rewrite forallb_forall in H. specialize (H it Eb). cbn beta in H. by rewrite Hp in H.
  - destruct (shown_text p (ui s) Ep Hv (do_shown s (no_data s Hn)) (do_bytes s (no_data s Hn))) as (v & Ev & Hf).
    destruct (two_lines (page_title p) v (title_fits p) Hf) as (g1 & g2 & E1 & E2 & _).
    assert (E : draw_page p (ui s) flag blank_gram = Some (g2, flag)).
    { unfold draw_page. rewrite E1. cbn [mbind option_bind]. rewrite Ev. cbn [mbind option_bind]. rewrite E2. cbn [mbind option_bind].
      by rewrite (no_blink s Hn), Hg. }
    exists g2. destruct p; try discriminate Ep; by rewrite E.
Qed.

(** [C3] The menu stays within its tables and buffers, only SET writes, and
    outside of the edit mode it stays within the picture.  From the start of the
    device, whatever the parameters and however the keys are used, as long as the
    flags of no two short presses, and of no SET with a long press, are pending in
    the same pass: every pass of the menu indexes its tables, the parameters, the
    address buffers and the pages within their bounds (the drawing taken by
    itself, below), and the state after it satisfies the invariant of the menu; a
    pass in the guide mode, or without a press of SET, leaves the parameters and
    their storage as they were; and what a pass draws that begins and ends in the
    guide mode lies within the 128 x 32 pixels, for the tops of the menus, the
    pages of the parameters and those pages of information that print no
    temperature.  In the edit mode the drawing does leave the picture
    ([blinking_overruns]), and so can the first page of information
    ([info_runs_on]). *)
Theorem menu_never_faults k0 l k m w : four_keys k0 -> wf_mem m -> menu_good w -> Forall scanned l -> scanned k ->
  exists s s', menu_run l (menu_start k0 m w) = Some s /\ menu_run (l ++ [k]) (menu_start k0 m w) = Some s' /\ menu_ok s' /\
    (guide s = true \/ short KEY_SET k = 0 -> kept s s') /\
    (guide s = true -> guide s' = true -> (is_menu s' = false -> current_menu s' = 0 -> plain_info (sub_page_id (ui s'))) ->
       forall flag buffer, exists g, picture flag buffer s' = Some g).
Proof.
  intros Hk0 Hm Hw Hl [Hk Hone]. destruct (menu_run_ok l _ Hl (menu_start_ok k0 m w Hk0 Hm Hw)) as (s & E & Hs).
  destruct (menu_pass_ok (with_keys k s) (menu_keys k s Hs Hk) Hone) as (s' & E' & Hs' & K & Hdr). exists s, s'. split; [exact E|].
  split; [rewrite menu_run_app, E; cbn [mbind option_bind menu_run]; by rewrite E'|]. split; [exact Hs'|]. split; [exact K|].
  intros _ Hg Hi flag buffer. by apply picture_fits.
Qed.
End Pictures.

(** RIGHT and SET: the first page of the second menu is drawn; DOWN and SET: the
    second is opened. *)
#[local] Instance demo_panel : MenuServices (pmm (board nor)) := menu_manager zero_para no_port.
#[local] Instance demo_panel_ok : MenuServicesOk (pmm (board nor)) := panel_ok zero_para no_port zero_wf no_port_ok.
Lemma menu_never_faults_witness :
  (exists s' g, menu_run ([flagged [KEY_RIGHT]] ++ [flagged [KEY_SET]]) (menu_start keys_start panel_mem started) = Some s' /\ menu_ok s' /\
     picture 0 [] s' = Some g) /\
  (exists s', menu_run ([flagged [KEY_RIGHT]; flagged [KEY_SET]; flagged [KEY_DOWN]] ++ [flagged [KEY_SET]]) (menu_start keys_start panel_mem started) = Some s' /\
     menu_ok s').
Proof.
  split.
  - destruct (menu_never_faults keys_start [flagged [KEY_RIGHT]] (flagged [KEY_SET]) panel_mem started) as (s & s' & E1 & E & H & _ & P).
    + reflexivity.
    + exact panel_wf.
    + exact blank_good.
    + repeat apply Forall_cons_2; try apply flagged_scanned. apply Forall_nil_2.
    + apply flagged_scanned.
    + assert (G1 : option_map guide (menu_run [flagged [KEY_RIGHT]] (menu_start keys_start panel_mem started)) = Some true) by (vm_compute; reflexivity).
      assert (G2 : option_map (fun s => (guide s, current_menu s)) (menu_run ([flagged [KEY_RIGHT]] ++ [flagged [KEY_SET]]) (menu_start keys_start panel_mem started)) = Some (true, 1))
        by (vm_compute; reflexivity).
      rewrite E1 in G1. rewrite E in G2. injection G1 as G1. injection G2 as G2 G3.
      destruct (P G1 G2 (fun _ G => match eq_trans (eq_sym G3) G with end) 0 []) as [g Eg]. exists s', g. split; [exact E|]. split; [exact H|exact Eg].
  - destruct (menu_never_faults keys_start [flagged [KEY_RIGHT]; flagged [KEY_SET]; flagged [KEY_DOWN]] (flagged [KEY_SET]) panel_mem started)
      as (s & s' & _ & E & H & _).
    + reflexivity.
    + exact panel_wf.
    + exact blank_good.
    + repeat apply Forall_cons_2; try apply flagged_scanned. apply Forall_nil_2.
    + apply flagged_scanned.
    + exists s'. split; [exact E|exact H].
Defined.

(** ** Runs *)

(** A device in degrees Celsius. *)
Definition celsius_mem : mem := wr 67 (para_at ["temp"; "unit"]) (wr 1 temp_mode_at (mk_mem (replicate (obj_size SYS_PARA) 0) (replicate (obj_size SYS_STATE) 0))).
(** The first page of information: after the unit there is no terminator, so that
    what the stack held there, here the letters "A", is drawn behind it up to the
    right edge of the picture and past it. *)
Example info_runs_on : oled_show_info 0 celsius_mem (replicate 50 65) blank_gram = None.
Proof. vm_compute. reflexivity. Qed.
Example info_clean_stack : exists g, oled_show_info 0 celsius_mem (replicate 50 0) blank_gram = Some g.
Proof. eexists. vm_compute. reflexivity. Qed.
(** The last SET on an address blinks behind its last part. *)
Example address_overruns : draw_page do_local_ip_p (set_para 4 4 (editing 0)) 0 blank_gram = None /\
  exists r, draw_page do_local_ip_p (set_para 3 4 (editing 0)) 0 blank_gram = Some r.
Proof. split; [vm_compute; reflexivity|]. eexists. vm_compute. reflexivity. Qed.
(** After the start the display shows the logo and [OLED_GRAM_OLD] is empty; the
    first menu has ink in every page, and so replaces the logo. *)
Example first_menu : match (a ← oled_init blank_gram; g ← oled_show_menu 0 demo_mem blank_gram; r ← oled_refresh_diff g blank_gram;
    Some (receive (snd a ++ snd r) blank_panel, g)) with
  | Some (p, g) => forallb (fun i => bool_decide (Some (default [] (ram p !! i)) = page_of g (Z.of_nat i))) (seq 0 4)
  | None => false
  end = true.
Proof. vm_compute. reflexivity. Qed.
