(* ===== verification/Device.v ===== *)
(** * The protocols of the board behind the serial port

    [Comm.Protocols] for the two protocols of the program: ProtoBase.v with the
    command table of Upgrade.v, and ProtoChar.v.  With it a command that
    arrives byte by byte on the line is followed to the parameter it sets and
    to the last byte of its reply. *)
From S2P Require Import Ring Agent Serial Comm.
From S2P Require Import Prelude Str Fmc Message OsTimer Crc32.
From S2P Require Upgrade ProtoBase.
From S2P Require Import Eeprom Para ParaStore Stdio Layout CmdTable ProtoChar UppProps UppRoundTrip.

Section Device.
Context {F Q W N : Type} `{!FlashDevice F} `{!RtosQueue Q} `{!CrcUnit} `{!UppHooks W} `{!UppHooksOk W} `{!NetSend N}.
(** The address of [upgrade_task] and the tick count it is started with. *)
Context (upgrade_task_entry tick : Z).

Definition with_tcp (b : bool) (s : upp) : upp :=
  mk_upp (u_mem s) (u_gain_sw s) (u_rec_duration s) (u_put_port s) b (u_world (W := W) s).

(** [g_cmd_src_group] is set for the call and reset to -1 after it. *)
#[export] Instance board_protocols : Protocols (Upgrade.up_t (F := F) (Q := Q) * upp (W := W)) := {|
  run_base rx rx_len tx tx_len port w :=
    r ← ProtoBase.base_pkt_process (Upgrade.CMD_BASE_TABLE upgrade_task_entry tick) (fst w) rx rx_len tx tx_len port;
    let '(s, tx, tx_len) := r in Some (tx, tx_len, (s, snd w));
  run_char rx rx_len tx tx_len net w :=
    r ← upp_pkt_process rx rx_len (with_tcp net (snd w)) tx 0 tx_len;
    let '(s, tx, tx_len) := r in Some (tx, tx_len, (fst w, with_tcp false s));
  up_status w := Upgrade.status (Upgrade.fw_info (fst w)) |}.
End Device.

(** ** A set command over the line *)
Section SetOverLine.
Context {F Q S N : Type} `{!FlashDevice F} `{!RtosQueue Q} `{!CrcUnit} `{!NvStore S} `{!NetSend N}.
Context (other : hook_t -> mem -> pmm S -> option (mem * pmm S * Z)) (upgrade_task_entry tick : Z).
#[local] Instance hooks : UppHooks (pmm S) := manager other.
#[local] Instance hooks_ok : UppHooksOk (pmm S) := manager_ok other.
#[local] Instance protocols : Protocols (Upgrade.up_t (F := F) (Q := Q) * upp (W := pmm S)) := board_protocols upgrade_task_entry tick.

Lemma reply_short pre it t a : addressed a pre -> is_word (cmd it) -> (length t <= 40)%nat -> zlen (reply pre it t) <= 60.
Proof.
  intros Ha [_ Hw] Ht. destruct (addressed_digits _ _ Ha) as (_ & Hp & _). unfold reply.
  repeat (rewrite length_app || cbn [length]). lia.
Qed.

Lemma set_not_binary a pre w t : addressed a pre -> is_word w -> exists c r, set_body pre w t ++ [13] = c :: r /\ c <> ProtoBase.PROT_SOP.
Proof.
  intros Ha [Hw Hl]. destruct (addressed_digits _ _ Ha) as (Hp & _). unfold set_body.
  assert (E : forall c, is_digit c = true \/ is_upper c = true -> c <> ProtoBase.PROT_SOP)
    by (intros c; unfold is_digit, is_upper, ProtoBase.PROT_SOP; lia).
  destruct pre as [|c pre].
  - destruct w as [|c w]; [cbn in Hl; lia|]. exists c. eexists. split; [done|]. apply E. right. by inversion Hw.
  - exists c. eexists. split; [done|]. apply E. left. by inversion Hp.
Qed.

(** The character protocol gets the packet and answers it. *)
Lemma run_set i it k lo hi v pre (port : comm_port_t) tx (c : comm_t (N := N) (W := Upgrade.up_t (F := F) (Q := Q) * upp (W := pmm S))) :
  CMD_TBL !! i = Some it -> int_row it k lo hi -> plain_cmd (cmd_id it) = true -> cmd it <> codes "DA" ->
  may_set it (u_mem (snd (world c))) = true -> lo <= v <= hi -> min_len (rule it) <= zlen (dec_digits v) <= max_len (rule it) ->
  addressed (dev_addr_of (u_mem (snd (world c)))) pre -> ready (snd (world c)) -> length tx = PC_BUFFER ->
  Upgrade.status (Upgrade.fw_info (fst (world c))) <> Upgrade.UG_STATE_TRANS ->
  let t := dec_digits v in
  let request := set_body pre (cmd it) t ++ [13] in
  exists u', run_protocol (request ++ replicate (PC_BUFFER - length request) 0) tx (zlen request) 0 port c
      = Some (put 0 (reply pre it t ++ [0]) tx, zlen (reply pre it t), (fst (world c), u')) /\
    2 <= zlen request <= 1055 /\ zlen (reply pre it t) <= 60 /\ holds it k v (u_mem u') /\
    only_at (p_obj (arg it)) (p_off (arg it)) k (u_mem (snd (world c))) (u_mem u') /\
    dev_addr_of (u_mem u') = dev_addr_of (u_mem (snd (world c))) /\
    (has prop_M (props it) = true -> exists m1 v, same_groups (m_para (u_mem u')) (m_para m1) /\ wf_mem m1 /\
       hook (H_pmm_save_group (CmdTable.group it)) m1 (u_world (snd (world c))) = Some (u_mem u', u_world u', v)).
Proof.
  intros Hi Hk Hpl Hda Hset Hv Hlen Ha Hr Htx Hst t request. destruct (row_facts i it Hi) as (Hw & _).
  destruct (int_row_facts i it k lo hi Hi Hk) as (H1 & H2 & Hmax & _). fold t in Hlen.
  assert (Hrep : zlen (reply pre it t) <= 60) by (eapply reply_short; [exact Ha|exact Hw|clear - Hlen Hmax; lia]).
  assert (Hbl : 2 <= zlen (set_body pre (cmd it) t) < 100).
  { apply (body_facts _ pre (cmd it) t Ha Hw); [apply dec_digits_digit; lia|].
    assert (1 <= length t)%nat; [|lia]. unfold t. destruct (dec_digits_cons v ltac:(lia)) as (c0 & t0 & -> & _). cbn. lia. }
  assert (Hrl : zlen request = zlen (set_body pre (cmd it) t) + 1) by (unfold request; rewrite length_app; cbn; lia).
  destruct (PC_BUFFER - length request)%nat as [|pad] eqn:Epad; [unfold PC_BUFFER in Epad; lia|].
  set (u := with_tcp (group_idx port =? tcp_group c) (snd (world c))).
  destruct (set_packet i it k lo hi v pre 0 (replicate pad 0) u tx) as (s1 & E1 & _ & R1 & _ & Hh & Hon & Hda' & Hsv); try assumption; [done|fold t; rewrite Htx; unfold PC_BUFFER; lia|].
  fold t in E1. exists (with_tcp false s1). split; [|split; [lia|]; by repeat (split; [done|])].
  unfold run_protocol. destruct (set_not_binary _ pre (cmd it) t Ha Hw) as (c0 & r0 & Er & Hc0). fold request in Er.
  assert (Eb : (request ++ replicate (Datatypes.S pad) 0) !! 0%nat = Some c0) by by rewrite Er. rewrite Eb. cbn [mbind option_bind].
  rewrite (proj2 (Z.eqb_neq _ _) Hc0). cbn [andb up_status protocols board_protocols].
  rewrite (proj2 (Z.eqb_neq _ _) Hst). cbn [negb run_char protocols board_protocols]. fold u.
  replace (request ++ replicate (Datatypes.S pad) 0) with (set_body pre (cmd it) t ++ 13 :: 0 :: replicate pad 0)
    by (unfold request; by rewrite <- app_assoc).
  rewrite Hrl.
  by rewrite E1.
Qed.

(** [C1] A set command on the line.  A host sends the set command of a saved
    integer parameter over the serial port of a device that is not receiving a
    firmware image: the exchange can be completed, and however it is completed,
    the line carries exactly the reply with the number that was sent, the port
    is ready again, the parameter holds the number, and a restart from whatever
    contents of RAM finds it, and all other parameters as they were. *)
Theorem set_over_line i it k lo hi v pre (s : pc_t (N := N) (W := Upgrade.up_t (F := F) (Q := Q) * upp (W := pmm S))) :
  let u := snd (world (Comm.comm s)) in
  CMD_TBL !! i = Some it -> int_row it k lo hi -> plain_cmd (cmd_id it) = true -> cmd it <> codes "DA" ->
  may_set it (u_mem u) = true -> has prop_M (props it) = true -> p_obj (arg it) = SYS_PARA ->
  lo <= v <= hi -> min_len (rule it) <= zlen (dec_digits v) <= max_len (rule it) ->
  addressed (dev_addr_of (u_mem u)) pre -> wf_mem (u_mem u) -> nv_good (nv (u_world u)) ->
  pc_ready s -> length (pc_tx_buffer s) = PC_BUFFER ->
  Upgrade.status (Upgrade.fw_info (fst (world (Comm.comm s)))) <> Upgrade.UG_STATE_TRANS ->
  let request := set_body pre (cmd it) (dec_digits v) ++ [13] in
  (exists s', exchange s request s') /\
  forall s', exchange s request s' ->
    pc_ready s' /\ wire (usart (pc_com s')) = wire (usart (pc_com s)) ++ reply pre it (dec_digits v) /\
    holds it k v (u_mem (snd (world (Comm.comm s')))) /\
    forall def q, wf def -> nv_good (nv q) -> same_mem (nv (u_world (snd (world (Comm.comm s'))))) (nv q) ->
      exists q', para_init def q = Some q' /\ get (p_off (arg it)) k (sys_para q') = le_encode k v /\
        forall j, (4 <= j < CRC_OFF)%nat -> (j < p_off (arg it) \/ p_off (arg it) + k <= j)%nat ->
          sys_para q' !! j = m_para (u_mem u) !! j.
Proof.
  intros u Hi Hk Hpl Hda Hset HM Hobj Hv Hlen Ha Hm Hn Hs Htx Hst request.
  destruct (run_set i it k lo hi v pre (pc_port s) (pc_tx_buffer s) (Comm.comm s) Hi Hk Hpl Hda Hset Hv Hlen Ha (conj Hm Hn) Htx Hst)
    as (u' & Erun & Hreq & Hrep & Hh & Hon & Hda' & Hsv). fold request in Erun, Hreq.
  set (ans := reply pre it (dec_digits v)) in *.
  destruct (exchange_path s request _ _ _ Hs Hreq Erun) as [Hex Hall]; [lia| |].
  { rewrite put_length by (rewrite length_app; cbn [length]; rewrite Htx; unfold PC_BUFFER; lia). rewrite Htx. unfold PC_BUFFER. lia. }
  split; [exact Hex|]. intros s' H'. destruct (Hall s' H') as (Hr & Hw & _ & _ & _ & Hwire). split; [exact Hr|]. split.
  { rewrite Hwire. f_equal. unfold put. rewrite take_0, Nat2Z.id. cbn [app]. rewrite <- app_assoc. by rewrite take_app_length. }
  rewrite Hw. cbn [snd]. split; [exact Hh|]. exact (restart_after_set other i it k lo hi v pre u u' Hi Hk HM Hobj Ha Hn Hh Hon Hda' Hsv).
Qed.
End SetOverLine.

(** ** The line of a device just started *)

#[local] Instance demo_net : NetSend (list (Z * list Z)) := net_log.
#[local] Instance demo_hooks : UppHooks (pmm (board nor)) := manager idle_hooks.
Definition demo_device : comm_t (N := list (Z * list Z)) (W := Upgrade.up_t (F := nor) (Q := list Z * Z) * upp (W := pmm (board nor))) :=
  mk_comm (fst (fst demo_mgr)) (snd (fst demo_mgr)) (snd demo_mgr) (mk_io demo_com []) (Upgrade.demo_state, demo).
Definition demo_port : pc_t := mk_pc (replicate PC_BUFFER 0) (replicate PC_BUFFER 0) (Comm.mk_port 0 COM2) demo_device.

Lemma demo_port_ready : pc_ready demo_port.
Proof.
  split; [apply demo_rx_ready|]. split; [apply demo_rx_ready|]. split; [exact demo_tx_idle|]. do 4 (split; [reflexivity|]).
  split; [split; [reflexivity|]; by repeat constructor|]. split; [by vm_compute|].
  eexists. split; [reflexivity|]. split; [reflexivity|]. left. reflexivity.
Qed.

(** The host writes NUP=1234 and a carriage return. *)
Lemma set_over_line_witness :
  let request := set_body [] (cmd NUP) (dec_digits 1234) ++ [13] in
  let exch := exchange (W := Upgrade.up_t (F := nor) (Q := list Z * Z) * upp (W := pmm (board nor))) (Protocols0 := protocols idle_hooks 1 0) in
  (exists s', exch demo_port request s') /\
  forall s', exch demo_port request s' ->
    wire (usart (pc_com s')) = reply [] NUP (dec_digits 1234) /\ holds NUP 4 1234 (u_mem (snd (world (Comm.comm s')))).
Proof.
  destruct (set_over_line idle_hooks 1 0 19 NUP 4 1 3300000 1234 [] demo_port) as [H1 H2].
  - exact NUP_row.
  - exact NUP_int.
  - reflexivity.
  - vm_compute. discriminate.
  - vm_compute. reflexivity.
  - vm_compute. reflexivity.
  - reflexivity.
  - lia.
  - vm_compute. split; discriminate.
  - left. split; [reflexivity|]. vm_compute. reflexivity.
  - exact demo_wf.
  - exact blank_good.
  - exact demo_port_ready.
  - reflexivity.
  - vm_compute. discriminate.
  - split; [exact H1|]. intros s' Hs. destruct (H2 s' Hs) as (_ & Hw & Hh & _). split; [exact Hw|exact Hh].
Defined.
